(* ===== verification/_CoqProject ===== *)
-Q . S2P
Prelude.v
PyFloat.v
FloatRound.v
PyValue.v
Json.v
Utf8.v
PyDatetime.v
Admission.v
JsonCost.v
TrustedContext.v
EnvelopeTheorems.v
EnvelopeProperties.v
ProviderEnvelope.v
ContextFit.v
EmotionalModels.v
EmotionalTransition.v
AppraisalParser.v
EmotionalMigration.v
Relationship.v
EmotionPresentation.v
TrustedPolicy.v
StorageContracts.v
LocalStorage.v
StorageSpec.v
StorageInvariant.v
StorageTheorems.v
StorageProperties.v
LegacyImport.v
TurnExecution.v
TurnExecutionTheorems.v
GroqManager.v
GroqTheorems.v
CompanionRuntime.v
RuntimeTheorems.v
RuntimeProperties.v
RuntimeContext.v
GroqLanguageModel.v
AtomicTurnCommit.v
TurnDatabase.v
TurnRepositories.v
ProcessTurn.v
JsonText.v
CommitTheorems.v
CommitProperties.v
TurnDatabaseTheorems.v
TurnDatabaseProperties.v
WebStore.v
ProcessTurnTheorems.v
ProcessTurnProperties.v
PublicResult.v
LockManager.v
AccountLedger.v
AccountDeletion.v
AccountTheorems.v
AccountProperties.v
TransactionalSchema.v
Retention.v
RetentionProperties.v
PrivacyOperations.v
PrivacyLedger.v
PrivacyProperties.v
Observability.v
AdmissionLedger.v
HttpEndpoints.v
HttpProperties.v
DesktopApi.v
WebMemory.v
WebMemoryProperties.v
Archival.v
ArchivalProperties.v
Settings.v
SettingsProperties.v
Readiness.v
ReadinessProperties.v
