(* ===== verification/Prelude.v ===== *)
(** * Katherine companion backend: a verification development

    ** The program

    The repository is the backend of a companion application.  A conversation
    turn takes a user message, asks a language model for an appraisal, moves an
    emotional and a relationship state, asks the model for an answer and commits
    the turn.  The desktop application does this locally, over an SQLite store
    (src/backend/companion_runtime.py, local_storage/); the web application over
    Supabase, whose database functions (src/supabase/migrations/) commit the turn
    in one transaction (process_turn.py, atomic_turn_commit.py).  Both share the
    domain (emotional_domain/, relationship.py), the prompt assembly
    (trusted_context.py, trusted_policy.py, provider_envelope.py), the budgets of
    a turn (turn_execution.py) and the provider adapters (groq_manager.py,
    groq_language_model.py).  Around the web turn stand admission, the per-user
    locks, the privacy operations, the retention of operational data and the
    deletion of accounts.

    ** Files and what they model

    Foundations.
    - [Prelude] (this file): the error monad [result] for code that raises, the
      tactics, stable sorting and generic lemmas.
    - [PyFloat], [FloatRound]: Python's [float] as binary64 ([PrimFloat]), its
      order, and bounds on rounded sums, products and quotients proved from the
      specification of the operations.
    - [PyValue]: dynamically typed Python values ([pyval]), dicts in insertion
      order, [str] as code points, [strip].  [PyDatetime]: dates and their
      arithmetic.  [Utf8]: encoding and decoding.
    - [Json], [JsonText], [JsonCost]: [json.dumps]/[json.loads] on documents, the
      rendered text, its reading back, and its size.  [float.__repr__] is the
      class [FloatRepr].

    Domain.
    - [EmotionalModels], [EmotionalTransition], [AppraisalParser],
      [EmotionalMigration]: the four modules of emotional_domain/.  The C
      library's [pow] is the class [Libm] with the laws [LibmLaws].
    - [Relationship]: relationship.py.  [EmotionPresentation]:
      emotion_presentation.py.

    Prompt and providers.
    - [TrustedContext], [EnvelopeTheorems], [EnvelopeProperties]:
      trusted_context.py, the typed values of a prompt and the envelope builder.
    - [TrustedPolicy]: trusted_policy.py.  [ProviderEnvelope], [ContextFit]:
      provider_envelope.py: cost, truncation, the greedy fit.
    - [TurnExecution], [TurnExecutionTheorems]: turn_execution.py: budgets,
      backoff, the blocking read, and the blocking write as a state machine.
    - [GroqManager], [GroqTheorems], [GroqLanguageModel]: the key pool, the
      completions with their retries, and the contracted calls.

    Local application.
    - [StorageContracts]: local_storage/contracts.py and errors.py.  SHA-256 is the
      class [Sha256], about which nothing is assumed.
    - [LocalStorage]: local_storage/storage.py and the schema of migrations.py.
      [database] has a field per table; a statement is a function on it with the
      declared constraints and cascades; [store] is the connection: committed
      database, open transaction, closed flag and a schedule of SQLite faults.
      Each method of the class is a function in the state-and-exception monad [M].
    - [StorageSpec], [StorageInvariant], [StorageTheorems], [StorageProperties]: a
      weakest-precondition calculus for [M], the invariant [db_wf], calls in any
      order with crashes and restarts, and the guarantees of the store.
    - [LegacyImport]: local_storage/legacy_import.py.
    - [CompanionRuntime], [RuntimeContext]: companion_runtime.py: the local turn,
      its prompt, the error boundary, the state reads and the privacy operations.
      The language model and the clocks are arguments; between any two store
      operations of the turn other threads may run any calls on the store.
    - [RuntimeTheorems], [RuntimeProperties]: the turn as a client of the store.

    Web application.
    - [Admission]: admission.py, admission_contracts.py.  [LockManager]:
      lock_manager.py with the lock of asyncio itself.
    - [AtomicTurnCommit], [TransactionalSchema]: atomic_turn_commit.py and
      transactional_schema.py: validation, the canonical hash, the RPC payload and
      the strict parser of its answer.  [CommitTheorems], [CommitProperties]: what
      they guarantee.
    - [TurnDatabase], [TurnDatabaseTheorems], [TurnDatabaseProperties]: the SQL
      functions [commit_turn] and [replay_committed_turn] over their tables.  What
      PostgreSQL does with a JSON document is the class [Jsonb].
    - [TurnRepositories], [ProcessTurn]: turn_repositories.py, process_turn.py.
      [WebStore], [ProcessTurnTheorems], [ProcessTurnProperties], [PublicResult]:
      the web turn over the database, with other requests between any two calls.
    - [AccountLedger], [AccountDeletion], [AccountTheorems], [AccountProperties]:
      the ledger of account deletions (SQL), account_deletion.py and
      account_deletion_worker.py.
    - [Retention], [RetentionProperties]: retention.py, retention_policy.py and the
      three purge functions (SQL).
    - [PrivacyOperations], [PrivacyLedger], [PrivacyProperties]:
      privacy_operations.py, privacy_service.py and their SQL functions.

    ** What the theorems show

    - Domain values are valid whatever path built them, factories accept exactly
      the inputs that state a valid value, conversions and migrations are lossless;
      the transitions are total on valid inputs up to the clock reading, stay in
      range in binary64 arithmetic, follow the hysteresis policy, and keep every
      conversation sound.  The parser of untrusted model output accepts exactly
      the inputs that state an appraisal.
    - The prompt: an envelope within its budget, maximal for its order of
      priorities, in which untrusted text cannot pose as policy; truncations that
      agree with their specification; a provider call that sends each message at
      most a bounded number of times.
    - The local store: invariant in every reachable state under faults and crashes,
      atomic and idempotent commits, compare-and-swap on the revision, exclusive
      reservations, fencing of late writers by history deletion, fail-closed
      recovery, complete deletion.
    - Both turns: no lost update under any interleaving, no trace of a failed turn,
      the model asked a bounded number of times per request, replays that give the
      first result, success when every part answers, a boundary that never leaks.
    - The locks: mutual exclusion and progress under cancellation; the blocking
      write: it never leaves its worker running.
    - Accounts: the deletion runs in its order and completes; privacy operations
      are applied once, do what they promise and fence the turns before them;
      retention deletes exactly what is due, in bounded batches.
    - Departures from the documentation are theorems too: clock regression, the
      snapshot byte bound, a transaction left open, a late release, a retried
      reset that conflicts, and others.

    ** Fuel and bounds

    Definitions are structurally recursive, but for: [digits_of] (decimal
    rendering), given the bit length of the number, which bounds its decimal
    digits; the search for the year and month of a date, given their
    number; the shrinking of a text, given its length; the loop of a retention
    round, which is proved to stop before its fuel ([retention_round_bounded]);
    the acquisition of a lease, given the number of jobs.  Integers that a database stores are checked against its 64 bits where
    the program binds a caller's integer.

    ** Not modelled

    Opening the database file (paths, connections, the migration runner), backup
    and metrics; the construction of network clients; FastAPI, pywebview and the
    command lines; the embedding model and its retrieval; probes and structured
    logging; grants, triggers and preflight checks of the SQL files; the update
    loop of emotional_core.py, which has no caller.

    ** Plan

    Next: the HTTP endpoints and their error mapping, the desktop bridge, the
    settings, the loading of context from Supabase. *)

From stdpp Require Export base list option numbers sets gmap.
From Stdlib Require Export ZArith Lia.
From Stdlib Require Import Sorted.

Declare Scope katherine_scope.
Delimit Scope katherine_scope with kat.

(** ** The error monad

    A Python function that may raise is a function into [result E A]:
    [Ok a] is a normal return, [Err e] a raised exception. *)
Inductive result (E A : Type) : Type :=
| Ok (a : A)
| Err (e : E).
Arguments Ok {E A} a.
Arguments Err {E A} e.

#[export] Instance result_eq_dec {E A} `{EqDecision E, EqDecision A} :
  EqDecision (result E A).
Proof. solve_decision. Defined.

Definition rbind {E A B} (c : result E A) (k : A -> result E B) : result E B :=
  match c with Ok a => k a | Err e => Err e end.

(** [try c except e => h e]. *)
Definition rcatch {E F A} (c : result E A) (h : E -> result F A) : result F A :=
  match c with Ok a => Ok a | Err e => h e end.

(** [if cond: raise e]. *)
Definition raise_if {E} (b : bool) (e : E) : result E unit :=
  if b then Err e else Ok tt.

Notation "'let*' x ':=' c 'in' k" := (rbind c (fun x => k))
  (at level 200, x name, c at level 100, k at level 200, right associativity)
  : katherine_scope.
Notation "c ';;;' k" := (rbind c (fun _ => k))
  (at level 199, right associativity) : katherine_scope.
Open Scope katherine_scope.

Definition is_ok {E A} (c : result E A) : bool :=
  match c with Ok _ => true | Err _ => false end.

(** Iterating a fallible function over a list, stopping at the first error. *)
Definition rmap {E A B} (f : A -> result E B) : list A -> result E (list B) :=
  fix go (l : list A) : result E (list B) :=
  match l with
  | [] => Ok []
  | x :: l' => let* y := f x in let* ys := go l' in Ok (y :: ys)
  end.

Fixpoint rfold {E A S} (f : S -> A -> result E S) (s : S) (l : list A) : result E S :=
  match l with
  | [] => Ok s
  | x :: l' => let* s' := f s x in rfold f s' l'
  end.

(** ** Tactics *)

(** Splits a successful monadic computation into its successful steps. *)
Ltac inv_ok :=
  repeat match goal with
  | H : rbind ?c _ = Ok _ |- _ =>
      let a := fresh "v" in let E := fresh "E" in
      destruct c as [a|?] eqn:E; cbn [rbind] in H; [|discriminate H]
  | H : raise_if ?b _ = Ok _ |- _ =>
      let E := fresh "G" in destruct b eqn:E; cbn [raise_if] in H; [discriminate H|]; clear H
  | H : Ok _ = Ok _ |- _ => injection H as H; try subst
  | H : Err _ = Ok _ |- _ => discriminate H
  | H : Ok _ = Err _ |- _ => discriminate H
  | H : (if ?b then Err _ else _) = Ok _ |- _ =>
      let E := fresh "G" in destruct b eqn:E; [discriminate H|]
  | H : (if ?b then _ else Err _) = Ok _ |- _ =>
      let E := fresh "G" in destruct b eqn:E; [|discriminate H]
  end.

(** Case analysis on the scrutinee of a match in the goal. *)
Ltac case_goal :=
  match goal with
  | |- context [match ?x with _ => _ end] => destruct x eqn:?
  end.

(** Runs the first step of the computation in the goal, whose result is known. *)
Ltac run_step H :=
  match type of H with
  | _ = ?v => match goal with |- rbind ?c _ = _ => replace c with v by (symmetry; exact H) end
  end; cbn [rbind fst snd].

Create HintDb katherine.

(** ** Generic lemmas *)

Lemma rbind_ok {E A B} (c : result E A) (k : A -> result E B) b :
  rbind c k = Ok b <-> exists a, c = Ok a /\ k a = Ok b.
Proof. destruct c; naive_solver. Qed.

Lemma Ok_inj {E A} (a b : A) : Ok (E := E) a = Ok b -> a = b.
Proof. by intros [= ->]. Qed.

Lemma rmap_cons {E A B} (f : A -> result E B) x l :
  rmap f (x :: l) = rbind (f x) (fun y => rbind (rmap f l) (fun ys => Ok (y :: ys))).
Proof. reflexivity. Qed.

Lemma rmap_ok_length {E A B} (f : A -> result E B) l ys :
  rmap f l = Ok ys -> length ys = length l.
Proof.
  revert ys; induction l as [|x l IH]; intros ys H; cbn in H; inv_ok; [done|].
  cbn. f_equal. by apply IH.
Qed.

Lemma rmap_ok_Forall2 {E A B} (f : A -> result E B) l ys :
  rmap f l = Ok ys -> Forall2 (fun x y => f x = Ok y) l ys.
Proof.
  revert ys; induction l as [|x l IH]; intros ys H; cbn in H; inv_ok; constructor; auto.
Qed.

(** An invariant of the accumulator that every step keeps holds at the end. *)
Lemma rfold_inv {E A S} (f : S -> A -> result E S) (P : S -> Prop) l s s' :
  (forall s x s'', P s -> f s x = Ok s'' -> P s'') ->
  P s -> rfold f s l = Ok s' -> P s'.
Proof.
  intros Hf. revert s; induction l as [|x l IH]; intros s Hs H; cbn in H; inv_ok; eauto.
Qed.

Lemma existsb_false_forallb {A} (p : A -> bool) l :
  existsb p l = false <-> forallb (fun x => negb (p x)) l = true.
Proof.
  induction l as [|x l IH]; cbn; [done|].
  destruct (p x); cbn; [split; discriminate|done].
Qed.

(** ** Stable sorting

    [list.sort]: an element goes before the first one that is not smaller, so
    elements with equal keys keep their order. *)
Section Sorting.
Context {A : Type} (lt : A -> A -> bool).

Fixpoint insert_stable (x : A) (l : list A) : list A :=
  match l with
  | [] => [x]
  | y :: l' => if lt y x then y :: insert_stable x l' else x :: l
  end.

Definition stable_sort (l : list A) : list A := fold_right insert_stable [] l.

Lemma insert_stable_perm x l : insert_stable x l ≡ₚ x :: l.
Proof.
  induction l as [|y l IH]; cbn; [done|]. destruct (lt y x); [|done].
  rewrite IH. apply Permutation_swap.
Qed.

Lemma stable_sort_perm l : stable_sort l ≡ₚ l.
Proof. induction l as [|x l IH]; cbn; [done|]. by rewrite insert_stable_perm, IH. Qed.

(** On the elements at hand the order is transitive and relates distinct ones. *)
Context (P : A -> Prop).
Context (trans : forall x y z, P x -> P y -> P z -> lt x y = true -> lt y z = true -> lt x z = true).
Context (total : forall x y, P x -> P y -> x <> y -> lt x y = true \/ lt y x = true).

Lemma insert_stable_sorted x l :
  P x -> Forall P l -> x ∉ l -> StronglySorted (fun a b => lt a b = true) l ->
  StronglySorted (fun a b => lt a b = true) (insert_stable x l).
Proof.
  intros Px Pl Hx. induction 1 as [|y l S IH Hy]; cbn; [by repeat constructor|].
  apply Forall_cons_1 in Pl as [Py Pl]. apply not_elem_of_cons in Hx as [Hxy Hx].
  destruct (lt y x) eqn:E.
  - constructor; [by apply IH|]. rewrite insert_stable_perm. by constructor.
  - assert (lt x y = true) as L by (destruct (total x y Px Py Hxy); [done|congruence]).
    constructor; [by constructor|]. constructor; [done|]. rewrite Forall_forall in Hy, Pl |- *.
    intros z Hz. apply (trans x y z); auto.
Qed.

Lemma stable_sort_sorted l :
  Forall P l -> NoDup l -> StronglySorted (fun a b => lt a b = true) (stable_sort l).
Proof.
  induction l as [|x l IH]; cbn; intros Pl N; [constructor|].
  apply Forall_cons_1 in Pl as [Px Pl]. apply NoDup_cons in N as [Hx N].
  apply insert_stable_sorted; [done| | |by apply IH].
  - by rewrite stable_sort_perm.
  - by rewrite stable_sort_perm.
Qed.

End Sorting.

(** For a preorder that the comparison decides on the elements at hand. *)
Lemma stable_sort_preorder {A} (lt : A -> A -> bool) (P : A -> Prop) (R : A -> A -> Prop) l :
  (forall x y z, P x -> P y -> P z -> R x y -> R y z -> R x z) ->
  (forall x y, P x -> P y -> if lt x y then R x y else R y x) ->
  Forall P l -> StronglySorted R (stable_sort lt l).
Proof.
  intros Tr Dec. assert (forall x l, P x -> Forall P l -> StronglySorted R l -> StronglySorted R (insert_stable lt x l)) as Ins.
  { intros x l' Px Pl. induction 1 as [|y l' S IH Hy]; cbn; [by repeat constructor|].
    apply Forall_cons_1 in Pl as [Py Pl]. pose proof (Dec y x Py Px) as D. destruct (lt y x).
    - constructor; [by apply IH|]. rewrite insert_stable_perm. by constructor.
    - constructor; [by constructor|]. constructor; [done|]. rewrite Forall_forall in Hy, Pl |- *.
      intros z Hz. apply (Tr x y z); auto. }
  induction 1 as [|x l Px Pl IH]; [constructor|]. apply (Ins x (stable_sort lt l)); [done| |done]. by rewrite stable_sort_perm.
Qed.

Lemma StronglySorted_lookup {A} (R : A -> A -> Prop) l i j x y :
  StronglySorted R l -> l !! i = Some x -> l !! j = Some y -> i < j -> R x y.
Proof.
  intros S. revert i j. induction S as [|z l _ IH Hz]; intros i j Hi Hj L; [done|]. destruct j as [|j]; [lia|].
  rewrite Forall_forall in Hz. destruct i as [|i]; cbn in Hi, Hj.
  - injection Hi as <-. apply Hz. by eapply list_elem_of_lookup_2.
  - apply (IH i j); [done|done|lia].
Qed.

Lemma rfold_inv_in {E A S} (f : S -> A -> result E S) (P : S -> Prop) l s s' :
  (forall s x s'', x ∈ l -> P s -> f s x = Ok s'' -> P s'') -> P s -> rfold f s l = Ok s' -> P s'.
Proof.
  intros Hf. revert s; induction l as [|x l IH]; intros s Hs H; cbn in H; inv_ok; [done|].
  eapply IH; [|eapply Hf; [constructor|exact Hs|done]|done]. intros ? ? ? Hin. apply Hf. by constructor.
Qed.

(** A prefix of a sorted list comes before the rest of it. *)
Lemma StronglySorted_take_drop {A} (R : A -> A -> Prop) n l x y :
  StronglySorted R l -> x ∈ take n l -> y ∈ drop n l -> R x y.
Proof.
  intros S. revert n. induction S as [|z l _ IH Hz]; intros [|n] Hx Hy; cbn in *; try set_solver.
  apply elem_of_cons in Hx as [-> | Hx]; [|eauto]. rewrite Forall_forall in Hz. apply Hz.
  rewrite <- (take_drop n l). set_solver.
Qed.

Lemma StronglySorted_take {A} (R : A -> A -> Prop) n l :
  StronglySorted R l -> StronglySorted R (take n l).
Proof.
  intros S. revert n. induction S as [|z l _ IH Hz]; intros [|n]; cbn; try constructor; [apply IH|].
  by apply Forall_take.
Qed.
