(* ===== verification/PyFloat.v ===== *)
(** * Python [float]: IEEE 754 binary64

    A Python float is a binary64 number, which is the kernel's primitive
    [float]; comparison and arithmetic are the primitive operations, whose
    meaning is Corelib's [SpecFloat].  This file gives what the components use
    of it: [math.isfinite], the conversion [float(int)] with its
    [OverflowError], and the order facts the range checks rely on (NaN compares
    false with everything, the rest is totally ordered). *)

From S2P Require Import Prelude.
From Stdlib Require Export Floats.

Local Open Scope float_scope.

(** ** Operations *)

Definition isfinite (f : float) : bool := negb (is_nan f) && negb (is_infinity f).

(** [float(z)]: round to nearest even; [None] is Python's [OverflowError]. *)
Definition int_to_float (z : Z) : option float :=
  match binary_normalize prec emax z 0 false with
  | S754_infinity _ => None
  | sf => Some (SF2Prim sf)
  end.

(** Python's [min(a, b)] and [max(a, b)] keep the first argument on a tie. *)
Definition fmin (a b : float) : float := if b <? a then b else a.
Definition fmax (a b : float) : float := if a <? b then b else a.

(** [lo <= f <= hi], false on NaN. *)
Definition in_range (lo hi f : float) : bool := (lo <=? f) && (f <=? hi).

(** ** The order of spec floats as a lexicographic order of integer keys *)

Definition sf_nan (x : spec_float) : bool :=
  match x with S754_nan => true | _ => false end.

Definition sf_key (x : spec_float) : Z * Z * Z :=
  match x with
  | S754_nan => (0, 0, 0)
  | S754_zero _ => (0, 0, 0)
  | S754_infinity s => (if s then -2 else 2, 0, 0)
  | S754_finite false m e => (1, e, Zpos m)
  | S754_finite true m e => (-1, - e, Zneg m)
  end%Z.

Definition lex (x y : Z * Z * Z) : comparison :=
  match (x.1.1 ?= y.1.1)%Z with
  | Eq => match (x.1.2 ?= y.1.2)%Z with Eq => (x.2 ?= y.2)%Z | c => c end
  | c => c
  end.

Lemma SFcompare_lex x y :
  sf_nan x = false -> sf_nan y = false ->
  SFcompare x y = Some (lex (sf_key x) (sf_key y)).
Proof.
  destruct x as [s|s| |s m e], y as [s'|s'| |s' m' e']; try done; intros _ _;
    try destruct s; try destruct s'; try done; cbn; unfold lex; cbn; f_equal.
  destruct (Z.compare_spec e e'), (Z.compare_spec (- e) (- e')); done || lia.
Qed.

Lemma lex_antisym x y : lex y x = CompOpp (lex x y).
Proof.
  unfold lex. rewrite (Z.compare_antisym x.1.1), (Z.compare_antisym x.1.2), (Z.compare_antisym x.2).
  by destruct (x.1.1 ?= y.1.1)%Z, (x.1.2 ?= y.1.2)%Z.
Qed.

Lemma lex_le x y : lex x y <> Gt <->
  (x.1.1 < y.1.1 \/ (x.1.1 = y.1.1 /\ (x.1.2 < y.1.2 \/ (x.1.2 = y.1.2 /\ x.2 <= y.2))))%Z.
Proof.
  unfold lex. destruct (Z.compare_spec x.1.1 y.1.1), (Z.compare_spec x.1.2 y.1.2),
    (Z.compare_spec x.2 y.2); (split; [intros; lia || congruence | intros; congruence || lia]).
Qed.

Lemma lex_lt x y : lex x y = Lt <-> lex y x = Gt.
Proof. rewrite (lex_antisym x y). by destruct (lex x y). Qed.

Lemma lex_le_trans x y z : lex x y <> Gt -> lex y z <> Gt -> lex x z <> Gt.
Proof. rewrite !lex_le. lia. Qed.

Lemma lex_lt_le_trans x y z : lex x y = Lt -> lex y z <> Gt -> lex x z = Lt.
Proof.
  intros H1 H2. apply lex_lt. apply lex_lt in H1. destruct (lex z x) eqn:E; try done;
    (exfalso; apply (lex_le_trans y z x) in H2; congruence).
Qed.

(** ** Order facts on floats *)

Definition nan (f : float) : bool := sf_nan (Prim2SF f).
Notation fkey f := (sf_key (Prim2SF f)).

Lemma SFcompare_nan_l y : SFcompare S754_nan y = None.
Proof. done. Qed.
Lemma SFcompare_nan_r x : SFcompare x S754_nan = None.
Proof. by destruct x. Qed.

Lemma nan_is_nan f : is_nan f = nan f.
Proof.
  unfold is_nan, nan. rewrite eqb_spec. unfold SFeqb.
  destruct (sf_nan (Prim2SF f)) eqn:N.
  - destruct (Prim2SF f); done.
  - rewrite SFcompare_lex by done. unfold lex. by rewrite !Z.compare_refl.
Qed.

Lemma leb_lex x y : (x <=? y) = negb (nan x) && negb (nan y) &&
  match lex (fkey x) (fkey y) with Gt => false | _ => true end.
Proof.
  unfold nan. rewrite leb_spec. unfold SFleb.
  destruct (sf_nan (Prim2SF x)) eqn:Nx, (sf_nan (Prim2SF y)) eqn:Ny; cbn.
  1-2: destruct (Prim2SF x); done.
  - destruct (Prim2SF y); try done. by rewrite SFcompare_nan_r.
  - rewrite SFcompare_lex by done. by destruct (lex _ _).
Qed.

Lemma ltb_lex x y : (x <? y) = negb (nan x) && negb (nan y) &&
  match lex (fkey x) (fkey y) with Lt => true | _ => false end.
Proof.
  unfold nan. rewrite ltb_spec. unfold SFltb.
  destruct (sf_nan (Prim2SF x)) eqn:Nx, (sf_nan (Prim2SF y)) eqn:Ny; cbn.
  1-2: destruct (Prim2SF x); done.
  - destruct (Prim2SF y); try done. by rewrite SFcompare_nan_r.
  - rewrite SFcompare_lex by done. by destruct (lex _ _).
Qed.

Lemma leb_not_nan x y : (x <=? y) = true -> nan x = false /\ nan y = false.
Proof. rewrite leb_lex. by destruct (nan x), (nan y). Qed.

Lemma ltb_not_nan x y : (x <? y) = true -> nan x = false /\ nan y = false.
Proof. rewrite ltb_lex. by destruct (nan x), (nan y). Qed.

(** Totality away from NaN: [not (x < y)] is [y <= x]. *)
Lemma ltb_false_leb x y :
  nan x = false -> nan y = false -> (x <? y) = false -> (y <=? x) = true.
Proof.
  rewrite leb_lex, ltb_lex. intros -> ->. cbn. rewrite (lex_antisym (fkey x)).
  by destruct (lex _ _).
Qed.

Lemma leb_false_ltb x y :
  nan x = false -> nan y = false -> (x <=? y) = false -> (y <? x) = true.
Proof.
  rewrite leb_lex, ltb_lex. intros -> ->. cbn. rewrite (lex_antisym (fkey x)).
  by destruct (lex _ _).
Qed.

Lemma leb_ltb_false x y : (x <=? y) = true -> (y <? x) = false.
Proof.
  rewrite leb_lex, ltb_lex, (lex_antisym (fkey x)).
  destruct (nan x), (nan y), (lex _ _); done.
Qed.

Lemma ltb_leb_false x y : (x <? y) = true -> (y <=? x) = false.
Proof.
  rewrite leb_lex, ltb_lex, (lex_antisym (fkey x)).
  destruct (nan x), (nan y), (lex _ _); done.
Qed.

Lemma ltb_leb x y : (x <? y) = true -> (x <=? y) = true.
Proof. rewrite leb_lex, ltb_lex. destruct (nan x), (nan y), (lex _ _); done. Qed.

Lemma leb_refl x : nan x = false -> (x <=? x) = true.
Proof. rewrite leb_lex. intros ->. unfold lex. by rewrite !Z.compare_refl. Qed.

Lemma leb_trans x y z : (x <=? y) = true -> (y <=? z) = true -> (x <=? z) = true.
Proof.
  rewrite !leb_lex. destruct (nan x), (nan y), (nan z); try done; cbn. intros H1 H2.
  assert (lex (fkey x) (fkey z) <> Gt) as H.
  { apply (lex_le_trans _ (fkey y));
      [by destruct (lex (fkey x) (fkey y)) | by destruct (lex (fkey y) (fkey z))]. }
  by destruct (lex (fkey x) (fkey z)).
Qed.

Lemma ltb_leb_trans x y z : (x <? y) = true -> (y <=? z) = true -> (x <? z) = true.
Proof.
  rewrite !leb_lex, !ltb_lex. destruct (nan x), (nan y), (nan z); try done; cbn. intros H1 H2.
  rewrite (lex_lt_le_trans _ (fkey y)); [done| |].
  - by destruct (lex (fkey x) (fkey y)).
  - by destruct (lex (fkey y) (fkey z)).
Qed.

Lemma leb_infinity f : is_infinity f = true -> nan f = false /\
  (Prim2SF f = S754_infinity true \/ Prim2SF f = S754_infinity false).
Proof.
  unfold is_infinity. rewrite eqb_spec, abs_spec. unfold nan.
  change (Prim2SF infinity) with (S754_infinity false).
  destruct (Prim2SF f) as [s|[]| |[] m e]; cbn; auto; done.
Qed.

(** A float between two finite ones is finite. *)
Lemma in_range_isfinite lo hi f :
  isfinite lo = true -> isfinite hi = true -> in_range lo hi f = true -> isfinite f = true.
Proof.
  unfold isfinite, in_range. rewrite !nan_is_nan, !andb_true_iff, !negb_true_iff.
  intros [Nl Il] [Nh Ih] [H1 H2].
  split; [by eapply leb_not_nan|].
  destruct (is_infinity f) eqn:I; [|done]. exfalso.
  unfold is_infinity in *. rewrite eqb_spec, abs_spec in *.
  change (Prim2SF infinity) with (S754_infinity false) in *.
  rewrite leb_spec in *. unfold nan in *.
  destruct (Prim2SF f) as [s|[]| |[] m e]; try discriminate I.
  - destruct (Prim2SF lo) as [s|[]| |[] m e]; done.
  - destruct (Prim2SF hi) as [s|[]| |[] m e]; done.
Qed.

Lemma isfinite_not_nan f : isfinite f = true -> nan f = false.
Proof. unfold isfinite. rewrite nan_is_nan. by destruct (nan f). Qed.

(** The range test the validators write, [value < lo or value > hi]. *)
Lemma range_test lo hi f :
  nan f = false -> nan lo = false -> nan hi = false ->
  (f <? lo) || (hi <? f) = negb (in_range lo hi f).
Proof.
  intros Nf Nl Nh. unfold in_range. rewrite !leb_lex, !ltb_lex, Nf, Nl, Nh. cbn.
  rewrite (lex_antisym (fkey lo) (fkey f)), (lex_antisym (fkey f) (fkey hi)).
  by destruct (lex (fkey lo) (fkey f)), (lex (fkey f) (fkey hi)).
Qed.

Lemma fmin_le_l a b : nan a = false -> (fmin a b <=? a) = true.
Proof.
  intros Na. unfold fmin. destruct (b <? a) eqn:E; [by apply ltb_leb|by apply leb_refl].
Qed.

Lemma fmin_le_r a b : nan a = false -> nan b = false -> (fmin a b <=? b) = true.
Proof.
  intros Na Nb. unfold fmin. destruct (b <? a) eqn:E; [by apply leb_refl|].
  by apply ltb_false_leb.
Qed.

Lemma fmax_ge_l a b : nan a = false -> (a <=? fmax a b) = true.
Proof.
  intros Na. unfold fmax. destruct (a <? b) eqn:E; [by apply ltb_leb|by apply leb_refl].
Qed.

#[export] Hint Resolve leb_refl ltb_leb isfinite_not_nan : katherine.

#[export] Instance float_eq_dec : EqDecision float.
Proof.
  intros x y. destruct (Leibniz.eqb x y) eqn:E.
  - left. by apply FloatAxioms.Leibniz.eqb_spec.
  - right. intros H. apply FloatAxioms.Leibniz.eqb_spec in H. congruence.
Defined.
