(* ===== verification/FloatRound.v ===== *)
(** * Rounding facts for binary64

    The value of a finite float is read as an integer multiple of 2^-2200
    ([fval]); the order of floats is the order of values, and the rounded result
    of an addition, subtraction or multiplication never passes a float that
    bounds the exact result.  These are the facts the decay and clamping proofs
    of the emotional transition use. *)

From S2P Require Import Prelude PyFloat.
Local Open Scope Z_scope.

(** ** Digits and scaled values *)

Definition SC : Z := 2200.
Definition mval (m e : Z) : Z := m * 2 ^ (e + SC).

Lemma digits2_log2 p : Zpos (digits2_pos p) = Z.log2 (Zpos p) + 1.
Proof.
  induction p as [p IH|p IH|]; cbn [digits2_pos]; [| |done]; rewrite Pos2Z.inj_succ, IH.
  - rewrite Pos2Z.inj_xI, Z.log2_succ_double by lia. lia.
  - rewrite Pos2Z.inj_xO, Z.log2_double by lia. lia.
Qed.

Lemma digits2_bounds p :
  2 ^ (Zpos (digits2_pos p) - 1) <= Zpos p < 2 ^ Zpos (digits2_pos p).
Proof.
  rewrite digits2_log2. pose proof (Z.log2_spec (Zpos p) ltac:(lia)).
  replace (Z.log2 (Zpos p) + 1 - 1) with (Z.log2 (Zpos p)) by lia.
  by replace (Z.log2 (Zpos p) + 1) with (Z.succ (Z.log2 (Zpos p))) by lia.
Qed.

Lemma digits2_le p k : 0 <= k -> Zpos p < 2 ^ k -> Zpos (digits2_pos p) <= k.
Proof.
  intros Hk H. rewrite digits2_log2.
  assert (Z.log2 (Zpos p) < k) by (apply Z.log2_lt_pow2; lia). lia.
Qed.

Lemma fexp_unfold e : fexp prec emax e = Z.max (e - 53) (-1074).
Proof. reflexivity. Qed.

Lemma bounded_spec m e :
  bounded prec emax m e = true -> e = Z.max (Zpos (digits2_pos m) + e - 53) (-1074) /\ e <= 971.
Proof.
  unfold bounded, canonical_mantissa. rewrite andb_true_iff, Z.eqb_eq, Z.leb_le, fexp_unfold.
  change (emax - prec) with 971. lia.
Qed.

(** The magnitude of a number fixes the exponent its canonical form has. *)
Lemma mval_exponent m e m' e' :
  - SC <= e -> - SC <= e' -> mval (Zpos m) e <= mval (Zpos m') e' ->
  Zpos (digits2_pos m) + e <= Zpos (digits2_pos m') + e'.
Proof.
  unfold mval. intros He He' H.
  pose proof (digits2_bounds m) as [L _]. pose proof (digits2_bounds m') as [_ U].
  apply Z.nlt_ge. intros C.
  assert (2 ^ (Zpos (digits2_pos m) - 1 + (e + SC)) <= Zpos m * 2 ^ (e + SC)) as L'.
  { rewrite (Z.pow_add_r 2 (Zpos (digits2_pos m) - 1)) by lia. apply Z.mul_le_mono_nonneg_r; [apply Z.pow_nonneg; lia|done]. }
  assert (Zpos m' * 2 ^ (e' + SC) < 2 ^ (Zpos (digits2_pos m') + (e' + SC))) as U'.
  { rewrite (Z.pow_add_r 2 (Zpos (digits2_pos m'))) by lia. apply Z.mul_lt_mono_pos_r; [apply Z.pow_pos_nonneg; lia|done]. }
  assert (2 ^ (Zpos (digits2_pos m') + (e' + SC)) <= 2 ^ (Zpos (digits2_pos m) - 1 + (e + SC)))
    by (apply Z.pow_le_mono_r; lia).
  lia.
Qed.

Lemma mval_shift m e n : 0 <= n -> - SC <= e -> mval (m * 2 ^ n) e = mval m (e + n).
Proof.
  intros. unfold mval. rewrite <- Z.mul_assoc, <- Z.pow_add_r by lia. f_equal. f_equal. lia.
Qed.

(** ** The right shift of the rounding function *)

Definition inexact (r : shr_record) : bool := shr_r r || shr_s r.

(** [r'] is [r] shifted right by [n] bits. *)
Definition shifted (n : Z) (r r' : shr_record) : Prop :=
  shr_m r' = shr_m r / 2 ^ n
  /\ (inexact r' = false <-> inexact r = false /\ shr_m r mod 2 ^ n = 0).

Lemma shifted_trans a b r r' r'' :
  0 <= a -> 0 <= b -> 0 <= shr_m r -> shifted a r r' -> shifted b r' r'' -> shifted (a + b) r r''.
Proof.
  intros Ha Hb Hm [H1 H2] [H3 H4]. unfold shifted.
  assert (0 < 2 ^ a) by (apply Z.pow_pos_nonneg; lia).
  assert (0 < 2 ^ b) by (apply Z.pow_pos_nonneg; lia).
  rewrite H3, H1, Z.pow_add_r, Z.div_div by lia. split; [done|].
  rewrite H4, H2, H1, Z.rem_mul_r by lia.
  pose proof (Z.mod_pos_bound (shr_m r) (2 ^ a) ltac:(lia)).
  pose proof (Z.mod_pos_bound (shr_m r / 2 ^ a) (2 ^ b) ltac:(lia)).
  split.
  - intros [[? K1] K2]. split; [done|]. rewrite K1, K2. lia.
  - intros [? K1]. split; [split; [done|]|]; nia.
Qed.

Lemma shr_1_shifted r : 0 <= shr_m r -> shifted 1 r (shr_1 r).
Proof.
  destruct r as [m rr s]. unfold shifted, inexact. cbn [shr_m shr_r shr_s]. intros Hm.
  change (2 ^ 1) with 2.
  destruct m as [|[p|p|]|p]; cbn [shr_1 shr_m shr_r shr_s]; [| | | |lia].
  - split; [done|]. destruct rr, s; cbn; split; try done; intros [? ?]; done.
  - rewrite Pos2Z.inj_xI. split; [apply Z.div_unique with 1; lia|].
    replace ((2 * Zpos p + 1) mod 2) with 1 by (apply Z.mod_unique with (Zpos p); lia).
    split; [done|]. intros [_ ?]; lia.
  - rewrite Pos2Z.inj_xO. split; [apply Z.div_unique with 0; lia|].
    replace ((2 * Zpos p) mod 2) with 0 by (apply Z.mod_unique with (Zpos p); lia).
    destruct rr, s; cbn; split; try done; intros [? ?]; done.
  - split; [done|]. split; [done|]. intros [_ ?]; done.
Qed.

Lemma shifted_nonneg n r r' : 0 <= n -> 0 <= shr_m r -> shifted n r r' -> 0 <= shr_m r'.
Proof.
  intros Hn Hm [-> _]. apply Z.div_pos; [done|]. apply Z.pow_pos_nonneg; lia.
Qed.

Lemma iter_shifted p r : 0 <= shr_m r -> shifted (Zpos p) r (iter_pos shr_1 p r).
Proof.
  revert r. induction p as [p IH|p IH|]; intros r Hr; cbn [iter_pos].
  - pose proof (shr_1_shifted r Hr) as H1.
    pose proof (shifted_nonneg 1 _ _ ltac:(lia) Hr H1) as N1.
    pose proof (IH _ N1) as H2. pose proof (shifted_nonneg (Zpos p) _ _ ltac:(lia) N1 H2) as N2.
    replace (Zpos p~1) with (1 + (Zpos p + Zpos p)) by lia.
    eapply shifted_trans; [lia|lia|done|exact H1|].
    eapply shifted_trans; [lia|lia|done|exact H2|by apply IH].
  - pose proof (IH _ Hr) as H2. pose proof (shifted_nonneg (Zpos p) _ _ ltac:(lia) Hr H2) as N2.
    replace (Zpos p~0) with (Zpos p + Zpos p) by lia.
    eapply shifted_trans; [lia|lia|done|exact H2|by apply IH].
  - by apply shr_1_shifted.
Qed.

Lemma shr_shifted r e n r' e' :
  0 <= shr_m r -> shr r e n = (r', e') ->
  shifted (Z.max n 0) r r' /\ e' = e + Z.max n 0.
Proof.
  intros Hm. unfold shr. destruct n as [|p|p]; intros [= <- <-].
  - split; [|lia]. split; [by rewrite Z.div_1_r|]. rewrite Z.mod_1_r. intuition.
  - rewrite Z.max_l by lia. split; [by apply iter_shifted|done].
  - split; [|lia]. split; [by rewrite Z.div_1_r|]. rewrite Z.mod_1_r. intuition.
Qed.

(** Rounding to nearest: down always, up only when inexact. *)
Lemma round_nearest_bounds r :
  let m := round_nearest_even (shr_m r) (loc_of_shr_record r) in
  shr_m r <= m <= shr_m r + 1 /\ (inexact r = false -> m = shr_m r).
Proof.
  destruct r as [m [] []]; cbn; try (destruct (Z.even m)); split; lia || done.
Qed.

(** ** The rounding function *)

(** The rounded significand of [mx * 2^ex] at the exponent [fexp] gives it. *)
Definition round_to (mx ex m1 : Z) : Prop :=
  let E := fexp prec emax (Zdigits2 mx + ex) in
  mx / 2 ^ (E - ex) <= m1 <= mx / 2 ^ (E - ex) + 1
  /\ (mx mod 2 ^ (E - ex) = 0 -> m1 = mx / 2 ^ (E - ex))
  /\ 0 <= m1 <= 2 ^ 53.

Lemma renormalise m1 E r e :
  0 <= m1 <= 2 ^ 53 -> -1074 <= E ->
  shr_fexp prec emax m1 E loc_Exact = (r, e) ->
  E <= e /\ e <= E + 1 /\ (e = E + 1 <-> m1 = 2 ^ 53) /\ shr_m r * 2 ^ (e - E) = m1.
Proof.
  intros Hm HE H. unfold shr_fexp in H. cbn [shr_record_of_loc] in H.
  apply shr_shifted in H as [[H1 _] H2]; [|cbn; lia]. cbn [shr_m] in H1.
  rewrite fexp_unfold in *.
  destruct (Z.eq_dec m1 (2 ^ 53)) as [->|Hne].
  - change (Zdigits2 (2 ^ 53)) with 54 in *.
    replace (Z.max (Z.max (54 + E - 53) (-1074) - E) 0) with 1 in * by lia.
    rewrite H1. subst e. replace (E + 1 - E) with 1 by lia. repeat split; lia || done.
  - assert (Zdigits2 m1 <= 53).
    { destruct m1 as [|p|p]; cbn; [lia| |lia]. apply digits2_le; lia. }
    replace (Z.max (Z.max (Zdigits2 m1 + E - 53) (-1074) - E) 0) with 0 in * by lia.
    rewrite H1. subst e. rewrite Z.add_0_r, Z.sub_diag, Z.pow_0_r, Z.div_1_r. lia.
Qed.

Lemma round_aux_spec s mx ex :
  let E := fexp prec emax (Zpos (digits2_pos mx) + ex) in
  ex <= E ->
  exists m1, round_to (Zpos mx) ex m1 /\
  match binary_round_aux prec emax s (Zpos mx) ex loc_Exact with
  | S754_zero s' => s' = s /\ m1 = 0
  | S754_finite s' m e => s' = s /\ E <= e /\ Zpos m * 2 ^ (e - E) = m1
      /\ e <= 971 /\ (e = E /\ m1 < 2 ^ 53 \/ e = E + 1 /\ m1 = 2 ^ 53)
  | S754_infinity s' => s' = s /\ (971 < E \/ E = 971 /\ m1 = 2 ^ 53)
  | S754_nan => False
  end.
Proof.
  intros E HE. unfold binary_round_aux.
  destruct (shr_fexp prec emax (Zpos mx) ex loc_Exact) as [r1 e1] eqn:S1.
  unfold shr_fexp in S1. cbn [shr_record_of_loc Zdigits2] in S1.
  apply shr_shifted in S1 as [[M1 X1] ->]; [|cbn; lia]. cbn [shr_m] in M1, X1.
  fold E in M1, X1 |- *. rewrite Z.max_l in * by lia.
  set (m1 := round_nearest_even (shr_m r1) (loc_of_shr_record r1)).
  pose proof (round_nearest_bounds r1) as [B1 B2]. fold m1 in B1, B2.
  assert (0 <= Zpos mx / 2 ^ (E - ex) < 2 ^ 53) as D.
  { assert (0 < 2 ^ (E - ex)) by (apply Z.pow_pos_nonneg; lia).
    split; [apply Z.div_pos; lia|]. apply Z.div_lt_upper_bound; [done|].
    eapply Z.lt_le_trans; [apply digits2_bounds|]. rewrite <- Z.pow_add_r by lia.
    apply Z.pow_le_mono_r; [lia|]. subst E. rewrite fexp_unfold. lia. }
  exists m1. split.
  - unfold round_to. cbn [Zdigits2]. fold E. rewrite <- M1.
    repeat split; try lia. intros K. apply B2, X1. split; [reflexivity|exact K].
  - replace (ex + (E - ex)) with E by lia.
    destruct (shr_fexp prec emax m1 E loc_Exact) as [r2 e2] eqn:S2.
    apply renormalise in S2 as (L1 & L2 & L3 & L4); [|lia|subst E; rewrite fexp_unfold; lia].
    assert (0 < 2 ^ (e2 - E)) by (apply Z.pow_pos_nonneg; lia).
    destruct (shr_m r2) as [|p|p] eqn:Em; [split; [done|lia]| |nia].
    change (emax - prec) with 971. destruct (Z.leb_spec e2 971); [repeat split; try done; lia|].
    split; [done|]. destruct (Z.eq_dec e2 (E + 1)) as [->|]; [|left; lia].
    pose proof (proj1 L3 eq_refl). lia.
Qed.

(** The rounded result does not pass a float that bounds the exact one. *)
Lemma round_aux_le s mx ex mv ev :
  - SC <= ex -> ex <= fexp prec emax (Zpos (digits2_pos mx) + ex) ->
  bounded prec emax mv ev = true -> mval (Zpos mx) ex <= mval (Zpos mv) ev ->
  match binary_round_aux prec emax s (Zpos mx) ex loc_Exact with
  | S754_zero s' => s' = s
  | S754_finite s' m e => s' = s /\ mval (Zpos m) e <= mval (Zpos mv) ev
  | _ => False
  end.
Proof.
  intros Hex Hal Hb Hle. apply bounded_spec in Hb as [Hev Hmax].
  set (E := fexp prec emax (Zpos (digits2_pos mx) + ex)) in *.
  assert (-1074 <= E) as HE by (subst E; rewrite fexp_unfold; lia).
  assert (E <= ev) as HEv.
  { pose proof (mval_exponent mx ex mv ev Hex ltac:(unfold SC; lia) Hle).
    subst E. rewrite fexp_unfold. lia. }
  destruct (round_aux_spec s mx ex Hal) as (m1 & (R1 & R2 & R3) & R4).
  cbn [Zdigits2] in R1, R2. fold E in R1, R2, R4.
  assert (0 < 2 ^ (E - ex)) as P1 by (apply Z.pow_pos_nonneg; lia).
  assert (m1 <= Zpos mv * 2 ^ (ev - E)) as Hm1.
  { assert (Zpos mx <= Zpos mv * 2 ^ (ev - E) * 2 ^ (E - ex)) as K.
    { rewrite <- Z.mul_assoc, <- Z.pow_add_r by lia. replace (ev - E + (E - ex)) with (ev - ex) by lia.
      unfold mval in Hle. replace (ev + SC) with (ev - ex + (ex + SC)) in Hle by lia.
      rewrite (Z.pow_add_r 2 (ev - ex)), Z.mul_assoc in Hle by lia.
      apply Z.mul_le_mono_pos_r in Hle; [done|]. apply Z.pow_pos_nonneg; lia. }
    pose proof (Z.div_mod (Zpos mx) (2 ^ (E - ex)) ltac:(lia)) as DM.
    pose proof (Z.mod_pos_bound (Zpos mx) (2 ^ (E - ex)) P1).
    destruct (Z.eq_dec (Zpos mx mod 2 ^ (E - ex)) 0) as [Z0'|Z0'].
    - rewrite (R2 Z0'). nia.
    - assert (Zpos mx / 2 ^ (E - ex) < Zpos mv * 2 ^ (ev - E)) by nia. lia. }
  destruct (binary_round_aux prec emax s (Zpos mx) ex loc_Exact) as [s'|s'| |s' m e].
  - by destruct R4.
  - destruct R4 as [-> [?|[HE1 ->]]]; [lia|].
    assert (ev = 971) as -> by lia. rewrite HE1 in Hm1. change (2 ^ (971 - 971)) with 1 in Hm1.
    pose proof (digits2_bounds mv).
    assert (Zpos (digits2_pos mv) <= 53) as Hd by lia.
    apply (Z.pow_le_mono_r 2) in Hd; lia.
  - done.
  - destruct R4 as (-> & Le & Hm & _). split; [done|]. rewrite <- Hm in Hm1.
    unfold mval. replace (e + SC) with (e - E + (E + SC)) by lia.
    replace (ev + SC) with (ev - E + (E + SC)) by lia.
    rewrite !(Z.pow_add_r 2 _ (E + SC)), !Z.mul_assoc by (unfold SC; lia).
    apply Z.mul_le_mono_nonneg_r; [apply Z.pow_nonneg; lia|done].
Qed.

(** Whatever the location, rounding a non-negative significand keeps the sign
    and gives a number. *)
Lemma round_aux_sign s m e l :
  0 <= m ->
  match binary_round_aux prec emax s m e l with
  | S754_zero s' | S754_infinity s' | S754_finite s' _ _ => s' = s
  | S754_nan => False
  end.
Proof.
  intros Hm. unfold binary_round_aux.
  destruct (shr_fexp prec emax m e l) as [r1 e1] eqn:S1. unfold shr_fexp in S1.
  assert (0 <= shr_m r1) as N1.
  { apply shr_shifted in S1 as [S1 _]; [|destruct l as [|[]]; exact Hm].
    refine (shifted_nonneg _ _ _ _ _ S1); [lia|destruct l as [|[]]; exact Hm]. }
  pose proof (round_nearest_bounds r1) as [B _].
  destruct (shr_fexp prec emax _ e1 loc_Exact) as [r2 e2] eqn:S2. unfold shr_fexp in S2.
  assert (0 <= shr_m r2) as N2.
  { apply shr_shifted in S2 as [S2 _]; [|cbn [shr_record_of_loc shr_m]; lia].
    refine (shifted_nonneg _ _ _ _ _ S2); [lia|cbn [shr_record_of_loc shr_m]; lia]. }
  destruct (shr_m r2); [done| |lia]. by destruct (e2 <=? _)%Z.
Qed.

(** ** Addition and normalisation *)

Definition sfval (x : spec_float) : Z :=
  match x with
  | S754_finite s m e => cond_Zopp s (mval (Zpos m) e)
  | _ => 0
  end.

Definition sf_finite (x : spec_float) : bool :=
  match x with S754_zero _ | S754_finite _ _ _ => true | _ => false end.

Lemma iter_xO m d : Zpos (Pos.iter xO m d) = Zpos m * 2 ^ Zpos d.
Proof.
  induction d as [|d IH] using Pos.peano_ind; [cbn; lia|].
  rewrite Pos.iter_succ, Pos2Z.inj_xO, IH, Pos2Z.inj_succ, Z.pow_succ_r by lia. lia.
Qed.

Lemma shl_align_spec m e e' :
  let '(m', e'') := shl_align m e e' in
  e'' = Z.min e e' /\ Zpos m' = Zpos m * 2 ^ (e - e'').
Proof.
  unfold shl_align. destruct (e' - e)%Z as [|d|d] eqn:D.
  - split; [lia|]. rewrite Z.sub_diag. lia.
  - split; [lia|]. rewrite Z.sub_diag. lia.
  - split; [lia|]. rewrite iter_xO. f_equal. f_equal. lia.
Qed.

Lemma digits2_shift m m' d :
  0 <= d -> Zpos m' = Zpos m * 2 ^ d -> Zpos (digits2_pos m') = Zpos (digits2_pos m) + d.
Proof. intros Hd H. rewrite !digits2_log2, H, Z.log2_mul_pow2 by lia. lia. Qed.

Lemma round_le s mx ex mv ev :
  -1074 <= ex -> bounded prec emax mv ev = true -> mval (Zpos mx) ex <= mval (Zpos mv) ev ->
  match binary_round prec emax s mx ex with
  | S754_zero s' => s' = s
  | S754_finite s' m e => s' = s /\ mval (Zpos m) e <= mval (Zpos mv) ev
  | _ => False
  end.
Proof.
  intros Hex Hb Hle. unfold binary_round.
  pose proof (shl_align_spec mx ex (fexp prec emax (Zpos (digits2_pos mx) + ex))) as A.
  destruct (shl_align _ _ _) as [mz ez]. destruct A as [Hez Hmz].
  rewrite fexp_unfold in Hez.
  pose proof (digits2_shift mx mz (ex - ez) ltac:(lia) Hmz) as Hd.
  apply round_aux_le; [unfold SC; lia|rewrite fexp_unfold; lia|done|].
  rewrite Hmz, mval_shift by (unfold SC; lia). by replace (ez + (ex - ez)) with ex by lia.
Qed.

Lemma normalize_le z e mv ev :
  -1074 <= e -> bounded prec emax mv ev = true -> Z.abs (mval z e) <= mval (Zpos mv) ev ->
  let r := binary_normalize prec emax z e false in
  sf_finite r = true /\ Z.abs (sfval r) <= mval (Zpos mv) ev
  /\ (0 <= z -> 0 <= sfval r) /\ (z <= 0 -> sfval r <= 0).
Proof.
  intros He Hb Hle r.
  assert (forall m e, 0 <= mval (Zpos m) e) as N
    by (intros; unfold mval; apply Z.mul_nonneg_nonneg; [lia|apply Z.pow_nonneg; lia]).
  pose proof (N mv ev) as Nv.
  destruct z as [|p|p]; cbn [binary_normalize] in r.
  - cbn in *. repeat split; lia.
  - pose proof (round_le false p e mv ev He Hb) as R. fold r in R.
    pose proof (N p e). rewrite Z.abs_eq in Hle by done. specialize (R Hle).
    destruct r as [s|s| |s m e']; [cbn; repeat split; lia|done|done|].
    destruct R as [-> R]. pose proof (N m e'). cbn. repeat split; lia.
  - pose proof (round_le true p e mv ev He Hb) as R. fold r in R.
    assert (mval (Zneg p) e = - mval (Zpos p) e) as Hn by (unfold mval; lia).
    pose proof (N p e). rewrite Hn, Z.abs_opp, Z.abs_eq in Hle by done. specialize (R Hle).
    destruct r as [s|s| |s m e']; [cbn; repeat split; lia|done|done|].
    destruct R as [-> R]. pose proof (N m e'). cbn. repeat split; lia.
Qed.

(** ** Facts on floats *)

(** The value of a finite float, as a multiple of 2^-2200. *)
Definition fval (f : float) : Z := sfval (Prim2SF f).

Lemma isfinite_sf f : isfinite f = sf_finite (Prim2SF f).
Proof.
  unfold isfinite. rewrite nan_is_nan. unfold nan, is_infinity. rewrite eqb_spec, abs_spec.
  change (Prim2SF infinity) with (S754_infinity false).
  by destruct (Prim2SF f) as [s|[]| |[] m e].
Qed.

Lemma Prim2SF_bounded f s m e : Prim2SF f = S754_finite s m e -> bounded prec emax m e = true.
Proof. intros H. pose proof (Prim2SF_valid f) as V. rewrite H in V. exact V. Qed.

Lemma mval_pos m e : -1074 <= e -> 0 < mval (Zpos m) e.
Proof. intros. unfold mval. apply Z.mul_pos_pos; [lia|]. apply Z.pow_pos_nonneg; unfold SC; lia. Qed.

(** The order of canonical numbers is the order of their values. *)
Lemma mval_compare m e m' e' :
  bounded prec emax m e = true -> bounded prec emax m' e' = true ->
  (mval (Zpos m) e <= mval (Zpos m') e' <->
   lex (1, e, Zpos m) (1, e', Zpos m') <> Gt).
Proof.
  intros [Hc Hm]%bounded_spec [Hc' Hm']%bounded_spec. rewrite lex_le. cbn [fst snd].
  split.
  - intros H. pose proof (mval_exponent m e m' e' ltac:(unfold SC; lia) ltac:(unfold SC; lia) H).
    right. split; [done|]. destruct (Z.lt_trichotomy e e') as [?|[->|?]]; [by left| |lia].
    right. split; [done|]. unfold mval in H. apply Z.mul_le_mono_pos_r in H; [done|].
    apply Z.pow_pos_nonneg; unfold SC; lia.
  - intros [?|[_ [Hlt|[-> Hle]]]]; [lia| |].
    + destruct (Z.le_gt_cases (mval (Zpos m) e) (mval (Zpos m') e')) as [|C]; [done|].
      apply Z.lt_le_incl in C.
      pose proof (mval_exponent m' e' m e ltac:(unfold SC; lia) ltac:(unfold SC; lia) C). lia.
    + unfold mval. apply Z.mul_le_mono_nonneg_r; [apply Z.pow_nonneg; lia|done].
Qed.

Lemma leb_fval x y :
  isfinite x = true -> isfinite y = true -> (x <=? y)%float = (fval x <=? fval y).
Proof.
  rewrite !isfinite_sf. intros Fx Fy. rewrite leb_lex. unfold nan, fval.
  pose proof (Prim2SF_bounded x) as Bx. pose proof (Prim2SF_bounded y) as By.
  assert (forall m e, bounded prec emax m e = true -> 0 < mval (Zpos m) e) as P
    by (intros m e B; apply mval_pos; apply bounded_spec in B; lia).
  destruct (Prim2SF x) as [s|s| |s m e], (Prim2SF y) as [s'|s'| |s' m' e'];
    try discriminate; clear Fx Fy; cbn [sf_nan negb andb sfval cond_Zopp].
  - done.
  - specialize (By _ _ _ eq_refl). apply P in By.
    destruct s'; cbn [cond_Zopp]; symmetry; [apply Z.leb_gt|apply Z.leb_le]; lia.
  - specialize (Bx _ _ _ eq_refl). apply P in Bx.
    destruct s; cbn [cond_Zopp]; symmetry; [apply Z.leb_le|apply Z.leb_gt]; lia.
  - specialize (Bx _ _ _ eq_refl). specialize (By _ _ _ eq_refl).
    pose proof (P _ _ Bx). pose proof (P _ _ By).
    destruct s, s'; cbn [sf_key cond_Zopp].
    + assert (lex (-1, - e, Zneg m) (-1, - e', Zneg m') = lex (1, e', Zpos m') (1, e, Zpos m)) as ->.
      { unfold lex. cbn [fst snd]. rewrite !Z.compare_refl.
        destruct (Z.compare_spec (- e) (- e')), (Z.compare_spec e' e),
          (Z.compare_spec (Zneg m) (Zneg m')), (Z.compare_spec (Zpos m') (Zpos m)); done || lia. }
      pose proof (mval_compare m' e' m e By Bx) as C.
      destruct (Z.leb_spec (- mval (Zpos m) e) (- mval (Zpos m') e')) as [L|L].
      * assert (mval (Zpos m') e' <= mval (Zpos m) e) as K%C by lia. by destruct (lex _ _).
      * destruct (lex _ _); [| |done];
          (assert (mval (Zpos m') e' <= mval (Zpos m) e) by (by apply C); lia).
    + cbn. symmetry. apply Z.leb_le. lia.
    + cbn. symmetry. apply Z.leb_gt. lia.
    + pose proof (mval_compare m e m' e' Bx By) as C.
      destruct (Z.leb_spec (mval (Zpos m) e) (mval (Zpos m') e')) as [L|L].
      * apply C in L. by destruct (lex _ _).
      * destruct (lex _ _); [| |done];
          (assert (mval (Zpos m) e <= mval (Zpos m') e') by (by apply C); lia).
Qed.

Lemma Prim2SF_cases f :
  isfinite f = true ->
  (exists s, Prim2SF f = S754_zero s /\ fval f = 0)
  \/ exists s m e, Prim2SF f = S754_finite s m e /\ bounded prec emax m e = true
       /\ -1074 <= e /\ fval f = cond_Zopp s (mval (Zpos m) e).
Proof.
  rewrite isfinite_sf. unfold fval. pose proof (Prim2SF_bounded f) as B.
  destruct (Prim2SF f) as [s|s| |s m e]; try done; intros _; [left; by exists s|].
  right. exists s, m, e. specialize (B _ _ _ eq_refl).
  split; [done|]. split; [done|]. split; [apply bounded_spec in B; lia|done].
Qed.

Lemma fval_opp f : fval (- f)%float = - fval f.
Proof.
  unfold fval. rewrite opp_spec. destruct (Prim2SF f) as [s|s| |s m e]; cbn; try done.
  destruct s; cbn; lia.
Qed.

Lemma isfinite_opp f : isfinite (- f)%float = isfinite f.
Proof. rewrite !isfinite_sf, opp_spec. by destruct (Prim2SF f). Qed.

Lemma sub_opp x y : (x - y = x + - y)%float.
Proof.
  apply Prim2SF_inj. rewrite sub_spec, add_spec, opp_spec. unfold SF64sub, SF64add.
  destruct (Prim2SF x) as [[]|[]| |sx mx ex], (Prim2SF y) as [[]|[]| |sy my ey]; try done.
  cbn [SFsub SFadd SFopp]. f_equal. unfold Z.sub. f_equal. destruct sy; cbn; lia.
Qed.

Lemma cond_Zopp_abs s z : Z.abs (cond_Zopp s z) = Z.abs z.
Proof. destruct s; cbn; lia. Qed.

Lemma align_val s m e ez :
  -1074 <= ez -> ez <= e ->
  mval (cond_Zopp s (Zpos (fst (shl_align m e ez)))) ez = cond_Zopp s (mval (Zpos m) e).
Proof.
  intros H1 H2. pose proof (shl_align_spec m e ez) as A.
  destruct (shl_align m e ez) as [m' e']. cbn [fst]. destruct A as [-> A].
  rewrite Z.min_r in A by lia.
  assert (mval (Zpos m') ez = mval (Zpos m) e) as K.
  { rewrite A, mval_shift by (unfold SC; lia). f_equal. lia. }
  destruct s; cbn; [|done]. rewrite <- K. unfold mval. lia.
Qed.

(** Addition: the rounded sum keeps the sign of the exact one and its
    magnitude does not pass a float that bounds the exact magnitude. *)
Lemma fadd_bound x y v :
  isfinite x = true -> isfinite y = true -> isfinite v = true ->
  Z.abs (fval x + fval y) <= fval v ->
  isfinite (x + y)%float = true /\ Z.abs (fval (x + y)%float) <= fval v
  /\ (0 <= fval x + fval y -> 0 <= fval (x + y)%float)
  /\ (fval x + fval y <= 0 -> fval (x + y)%float <= 0).
Proof.
  intros Fx Fy Fv H. rewrite (isfinite_sf (x + y)).
  change (fval (x + y)%float) with (sfval (Prim2SF (x + y)%float)).
  rewrite add_spec. unfold SF64add.
  destruct (Prim2SF_cases x Fx) as [(sx & -> & Hx)|(sx & mx & ex & Ex & Bx & Lx & Hx)],
    (Prim2SF_cases y Fy) as [(sy & -> & Hy)|(sy & my & ey & Ey & By & Ly & Hy)].
  - rewrite Hx, Hy in *. destruct sx, sy; cbn; repeat split; lia.
  - rewrite Ey. cbn [SFadd]. destruct sx; cbn [sf_finite sfval]; rewrite <- Hy;
      repeat split; lia.
  - rewrite Ex. cbn [SFadd]. destruct sy; cbn [sf_finite sfval]; rewrite <- Hx;
      repeat split; lia.
  - rewrite Ex, Ey. cbn [SFadd].
    remember (Z.min ex ey) as ez eqn:Eez.
    set (z := cond_Zopp sx _ + cond_Zopp sy _).
    assert (mval z ez = fval x + fval y) as Hz.
    { rewrite Hx, Hy, <- (align_val sx mx ex ez), <- (align_val sy my ey ez) by lia.
      unfold z, mval. lia. }
    assert (0 < 2 ^ (ez + SC)) by (apply Z.pow_pos_nonneg; unfold SC; lia).
    assert (0 <= fval x + fval y <-> 0 <= z) as S1 by (rewrite <- Hz; unfold mval; nia).
    assert (fval x + fval y <= 0 <-> z <= 0) as S2 by (rewrite <- Hz; unfold mval; nia).
    rewrite S1, S2.
    destruct (Prim2SF_cases v Fv) as [(sv & _ & Hv)|(sv & mv & ev & _ & Bv & Lv & Hv)].
    + assert (z = 0) as -> by lia. rewrite Hv. cbn. repeat split; lia.
    + pose proof (mval_pos mv ev Lv).
      assert (fval v = mval (Zpos mv) ev) as Hv' by (destruct sv; cbn in Hv; lia).
      rewrite Hv' in *. apply normalize_le; [lia|done|by rewrite Hz].
Qed.

Lemma fsub_bound x y v :
  isfinite x = true -> isfinite y = true -> isfinite v = true ->
  Z.abs (fval x - fval y) <= fval v ->
  isfinite (x - y)%float = true /\ Z.abs (fval (x - y)%float) <= fval v
  /\ (0 <= fval x - fval y -> 0 <= fval (x - y)%float)
  /\ (fval x - fval y <= 0 -> fval (x - y)%float <= 0).
Proof.
  intros Fx Fy Fv H. rewrite sub_opp. rewrite <- (isfinite_opp y) in Fy.
  unfold Z.sub in *. rewrite <- fval_opp in *. by apply fadd_bound.
Qed.

(** Multiplication. *)
Lemma fmul_bound x y v :
  isfinite x = true -> isfinite y = true -> isfinite v = true ->
  Z.abs (fval x * fval y) <= fval v * 2 ^ SC ->
  isfinite (x * y)%float = true /\ Z.abs (fval (x * y)%float) <= fval v
  /\ (0 <= fval x * fval y -> 0 <= fval (x * y)%float)
  /\ (fval x * fval y <= 0 -> fval (x * y)%float <= 0).
Proof.
  intros Fx Fy Fv H. rewrite (isfinite_sf (x * y)).
  change (fval (x * y)%float) with (sfval (Prim2SF (x * y)%float)).
  rewrite mul_spec. unfold SF64mul.
  assert (0 <= fval v) as Nv by (assert (0 < 2 ^ SC) by done; nia).
  destruct (Prim2SF_cases x Fx) as [(sx & -> & Hx)|(sx & mx & ex & -> & Bx & Lx & Hx)],
    (Prim2SF_cases y Fy) as [(sy & -> & Hy)|(sy & my & ey & -> & By & Ly & Hy)];
    [cbn; repeat split; lia..|].
  cbn [SFmul].
  pose proof (mval_pos mx ex Lx). pose proof (mval_pos my ey Ly).
  assert (mval (Zpos (mx * my)) (ex + ey) * 2 ^ SC = mval (Zpos mx) ex * mval (Zpos my) ey) as Hm.
  { unfold mval. rewrite Pos2Z.inj_mul.
    transitivity (Zpos mx * Zpos my * (2 ^ (ex + ey + SC) * 2 ^ SC)); [lia|].
    rewrite <- Z.pow_add_r by (unfold SC; lia).
    replace (ex + ey + SC + SC) with (ex + SC + (ey + SC)) by lia.
    rewrite (Z.pow_add_r 2 (ex + SC)) by (unfold SC; lia). lia. }
  assert (Z.abs (fval x * fval y) = mval (Zpos mx) ex * mval (Zpos my) ey) as Ha.
  { rewrite Hx, Hy, Z.abs_mul, !cond_Zopp_abs. nia. }
  destruct (Prim2SF_cases v Fv) as [(sv & _ & Hv)|(sv & mv & ev & _ & Bv & Lv & Hv)]; [nia|].
  pose proof (mval_pos mv ev Lv).
  assert (fval v = mval (Zpos mv) ev) as Hv' by (destruct sv; cbn in Hv; lia).
  pose proof (bounded_spec _ _ Bx) as [Cx _]. pose proof (bounded_spec _ _ By) as [Cy _].
  pose proof (digits2_bounds mx) as [Dx _]. pose proof (digits2_bounds my) as [Dy _].
  assert (Zpos (digits2_pos mx) + Zpos (digits2_pos my) - 1 <= Zpos (digits2_pos (mx * my))) as D.
  { rewrite (digits2_log2 mx), (digits2_log2 my), (digits2_log2 (mx * my)), Pos2Z.inj_mul.
    pose proof (Z.log2_mul_below (Zpos mx) (Zpos my) ltac:(lia) ltac:(lia)). lia. }
  pose proof (round_aux_le (xorb sx sy) (mx * my) (ex + ey) mv ev ltac:(unfold SC; lia)
    ltac:(rewrite fexp_unfold; lia) Bv ltac:(nia)) as R.
  assert ((0 <= fval x * fval y -> xorb sx sy = false) /\ (fval x * fval y <= 0 -> xorb sx sy = true)) as [S1 S2].
  { rewrite Hx, Hy. destruct sx, sy; cbn; split; intros; try done; nia. }
  destruct (binary_round_aux _ _ _ _ _ _) as [s|s| |s m e]; [cbn; repeat split; lia|done|done|].
  destruct R as [-> R]. cbn [sf_finite sfval]. rewrite cond_Zopp_abs, Hv'.
  assert (0 <= mval (Zpos m) e) by (unfold mval; apply Z.mul_nonneg_nonneg; [lia|apply Z.pow_nonneg; lia]).
  split; [done|]. split; [lia|].
  split; [intros ->%S1|intros ->%S2]; cbn; lia.
Qed.

(** ** Division by a positive number *)

Lemma SFdiv_core_nonneg m1 e1 m2 e2 :
  0 <= m1 -> 0 < m2 -> 0 <= (SFdiv_core_binary prec emax m1 e1 m2 e2).1.1.
Proof.
  intros H1 H2. unfold SFdiv_core_binary.
  set (s := (e1 - e2 - _)%Z).
  assert (forall m', 0 <= m' -> 0 <= (Z.div_eucl m' m2).1) as Q.
  { intros m' Hm'. pose proof (Z_div_mod m' m2 ltac:(lia)) as D.
    destruct (Z.div_eucl m' m2) as [q r]. cbn. nia. }
  specialize (Q (match s with 0 => m1 | Zpos _ => Z.shiftl m1 s | Zneg _ => 0 end)).
  destruct (Z.div_eucl _ m2) as [q r]. apply Q.
  destruct s; [done| |done]. by apply Z.shiftl_nonneg.
Qed.

(** A non-negative number over a positive finite one is a non-negative number. *)
Lemma fdiv_nonneg x y :
  (0 <=? x)%float = true -> isfinite y = true -> (0 <? y)%float = true ->
  (0 <=? x / y)%float = true.
Proof.
  rewrite isfinite_sf, !leb_spec, ltb_spec, div_spec. change (Prim2SF 0) with (S754_zero false).
  unfold SF64div. intros Hx Fy Hy.
  destruct (Prim2SF y) as [sy|sy| |[] my ey]; try done.
  destruct (Prim2SF x) as [sx|[]| |[] mx ex]; try done. cbn [SFdiv].
  pose proof (SFdiv_core_nonneg (Zpos mx) ex (Zpos my) ey ltac:(lia) ltac:(lia)) as Q.
  destruct (SFdiv_core_binary prec emax (Zpos mx) ex (Zpos my) ey) as [[q e'] l]. cbn in Q.
  pose proof (round_aux_sign (xorb false false) q e' l Q) as S.
  destruct (binary_round_aux prec emax (xorb false false) q e' l) as [s|s| |s m e]; try done;
    by rewrite S.
Qed.

(** ** The order through values *)

Lemma in_range_fval lo hi f :
  isfinite lo = true -> isfinite hi = true -> in_range lo hi f = true ->
  fval lo <= fval f <= fval hi.
Proof.
  intros Fl Fh H. pose proof (in_range_isfinite lo hi f Fl Fh H) as Ff.
  unfold in_range in H. rewrite andb_true_iff, !leb_fval, !Z.leb_le in H by done. done.
Qed.

Lemma fval_1 : fval 1%float = 2 ^ SC. Proof. reflexivity. Qed.
Lemma fval_m1 : fval (-1)%float = - fval 1%float. Proof. reflexivity. Qed.
Lemma fval_0 : fval 0%float = 0. Proof. reflexivity. Qed.
Lemma fval_2 : fval 2%float = 2 * fval 1%float. Proof. reflexivity. Qed.
Lemma fval_4 : fval 4%float = 4 * fval 1%float. Proof. reflexivity. Qed.

Lemma in_pm1_fval f :
  in_range (-1)%float 1%float f = true -> - fval 1%float <= fval f <= fval 1%float.
Proof. intros H. rewrite <- fval_m1. by apply in_range_fval. Qed.

Lemma in_unit_fval f : in_range 0%float 1%float f = true -> 0 <= fval f <= fval 1%float.
Proof. intros H. rewrite <- fval_0. by apply in_range_fval. Qed.

(** The magnitude of a finite float is a float. *)
Lemma exists_abs x :
  isfinite x = true -> exists v, isfinite v = true /\ fval v = Z.abs (fval x).
Proof.
  intros Fx. destruct (Z.le_ge_cases 0 (fval x)).
  - exists x. split; [done|lia].
  - exists (- x)%float. rewrite isfinite_opp, fval_opp. split; [done|lia].
Qed.

(** Scaling by a factor in [0, 1] contracts, and keeps the sign. *)
Lemma fmul_contract x k :
  isfinite x = true -> in_range 0%float 1%float k = true ->
  isfinite (x * k)%float = true /\ Z.abs (fval (x * k)%float) <= Z.abs (fval x)
  /\ (0 <= fval x -> 0 <= fval (x * k)%float) /\ (fval x <= 0 -> fval (x * k)%float <= 0).
Proof.
  intros Fx Hk. pose proof (in_unit_fval k Hk) as [K1 K2].
  assert (isfinite k = true) as Fk by by apply (in_range_isfinite 0 1 k).
  rewrite fval_1 in K2.
  destruct (exists_abs x Fx) as (v & Fv & Hv).
  pose proof (fmul_bound x k v Fx Fk Fv) as B. rewrite Hv in B.
  destruct B as (B1 & B2 & B3 & B4); [rewrite Z.abs_mul; nia|].
  split; [done|]. split; [done|]. split; intros; [apply B3|apply B4]; nia.
Qed.

(** ** Rounding from below and canonical results *)

Lemma round_to_low mx ex m1 :
  let E := fexp prec emax (Zpos (digits2_pos mx) + ex) in
  ex <= E -> round_to (Zpos mx) ex m1 -> -1074 < E -> 2 ^ 52 <= m1.
Proof.
  intros E HE (R1 & _ & _) HE'. cbn [Zdigits2] in R1. fold E in R1.
  assert (E = Zpos (digits2_pos mx) + ex - 53) as K by (subst E; rewrite fexp_unfold in *; lia).
  etransitivity; [|apply R1]. apply Z.div_le_lower_bound; [apply Z.pow_pos_nonneg; lia|].
  rewrite <- Z.pow_add_r by lia. etransitivity; [|apply digits2_bounds].
  apply Z.pow_le_mono_r; lia.
Qed.

(** The rounded result does not fall below a float that the exact one reaches. *)
Lemma round_aux_ge s mx ex mv ev :
  - SC <= ex -> ex <= fexp prec emax (Zpos (digits2_pos mx) + ex) ->
  bounded prec emax mv ev = true -> mval (Zpos mv) ev <= mval (Zpos mx) ex ->
  match binary_round_aux prec emax s (Zpos mx) ex loc_Exact with
  | S754_finite _ m e => mval (Zpos mv) ev <= mval (Zpos m) e
  | S754_infinity _ => True
  | _ => False
  end.
Proof.
  intros Hex Hal Hb Hle. apply bounded_spec in Hb as [Hev Hmax].
  set (E := fexp prec emax (Zpos (digits2_pos mx) + ex)) in *.
  assert (-1074 <= E) as HE by (subst E; rewrite fexp_unfold; lia).
  destruct (round_aux_spec s mx ex Hal) as (m1 & R & R4). fold E in R4.
  assert (mval (Zpos mv) ev <= mval m1 E) as Hm1.
  { destruct (Z.le_gt_cases E ev) as [L|L].
    - destruct R as (R1 & _ & _). cbn [Zdigits2] in R1. fold E in R1.
      replace ev with (E + (ev - E)) by lia. rewrite <- mval_shift by (unfold SC; lia).
      unfold mval. apply Z.mul_le_mono_nonneg_r; [apply Z.pow_nonneg; lia|].
      etransitivity; [|apply R1]. apply Z.div_le_lower_bound; [apply Z.pow_pos_nonneg; lia|].
      unfold mval in Hle. replace (ev + SC) with (ev - ex + (ex + SC)) in Hle by lia.
      rewrite (Z.pow_add_r 2 (ev - ex)), Z.mul_assoc in Hle by lia.
      apply Z.mul_le_mono_pos_r in Hle; [|apply Z.pow_pos_nonneg; lia].
      rewrite Z.mul_comm, <- Z.mul_assoc, <- Z.pow_add_r by lia.
      by replace (ev - E + (E - ex)) with (ev - ex) by lia.
    - pose proof (round_to_low mx ex m1 Hal R ltac:(fold E; lia)) as Lw.
      pose proof (digits2_bounds mv) as [_ U].
      assert (Zpos mv < 2 ^ 53) as U'.
      { eapply Z.lt_le_trans; [exact U|]. apply Z.pow_le_mono_r; lia. }
      unfold mval. replace (E + SC) with (1 + (E - 1 - ev) + (ev + SC)) by lia.
      rewrite (Z.pow_add_r 2 (1 + (E - 1 - ev))), (Z.pow_add_r 2 1) by (unfold SC; lia).
      assert (0 < 2 ^ (E - 1 - ev)) by (apply Z.pow_pos_nonneg; lia).
      assert (0 < 2 ^ (ev + SC)) by (apply Z.pow_pos_nonneg; unfold SC; lia).
      rewrite Z.mul_assoc. apply Z.mul_le_mono_nonneg_r; [lia|]. nia. }
  pose proof (mval_pos mv ev ltac:(lia)).
  destruct (binary_round_aux _ _ _ _ _ _) as [s'|s'| |s' m e]; [|done|done|].
  - destruct R4 as [_ ->]. unfold mval in Hm1 at 2. lia.
  - destruct R4 as (_ & Le & Hm & _). etransitivity; [exact Hm1|]. rewrite <- Hm.
    rewrite mval_shift by (unfold SC; lia). by replace (E + (e - E)) with e by lia.
Qed.

Lemma round_aux_valid s mx ex :
  ex <= fexp prec emax (Zpos (digits2_pos mx) + ex) ->
  valid_binary (binary_round_aux prec emax s (Zpos mx) ex loc_Exact) = true.
Proof.
  intros Hal. set (E := fexp prec emax (Zpos (digits2_pos mx) + ex)) in *.
  assert (-1074 <= E) as HE by (subst E; rewrite fexp_unfold; lia).
  destruct (round_aux_spec s mx ex Hal) as (m1 & R & R4). fold E in R4.
  pose proof (round_to_low mx ex m1 Hal R) as Lw. fold E in Lw.
  destruct (binary_round_aux prec emax s (Zpos mx) ex loc_Exact) as [s'|s'| |s' m e];
    [done..|]. cbn [SpecFloat.valid_binary].
  destruct R4 as (_ & Le & Hm & He & C). unfold bounded, canonical_mantissa.
  change (emax - prec) with 971. rewrite fexp_unfold, andb_true_iff, Z.eqb_eq, Z.leb_le.
  split; [|done]. rewrite digits2_log2. destruct C as [[-> C]|[-> ->]].
  - rewrite Z.sub_diag, Z.pow_0_r, Z.mul_1_r in Hm. rewrite Hm.
    assert (Z.log2 m1 < 53) by (apply Z.log2_lt_pow2; lia).
    destruct (Z.eq_dec E (-1074)) as [->|]; [lia|].
    pose proof (Z.log2_le_mono _ _ (Lw ltac:(lia))) as L2. change (Z.log2 (2 ^ 52)) with 52 in L2. lia.
  - replace (E + 1 - E) with 1 in Hm by lia. assert (Zpos m = 2 ^ 52) as -> by lia.
    change (Z.log2 (2 ^ 52)) with 52. lia.
Qed.

Lemma normalize_valid z e : valid_binary (binary_normalize prec emax z e false) = true.
Proof.
  destruct z as [|p|p]; cbn [binary_normalize]; [done| |]; unfold binary_round.
  all: pose proof (shl_align_spec p e (fexp prec emax (Zpos (digits2_pos p) + e))) as A;
    destruct (shl_align _ _ _) as [mz ez]; destruct A as [Hez Hmz];
    rewrite fexp_unfold in Hez;
    pose proof (digits2_shift p mz (e - ez) ltac:(lia) Hmz) as Hd;
    apply round_aux_valid; rewrite fexp_unfold; lia.
Qed.

(** ** The conversion of integers *)

Lemma int_to_float_sf z f :
  int_to_float z = Some f ->
  Prim2SF f = binary_normalize prec emax z 0 false /\ isfinite f = true.
Proof.
  unfold int_to_float. pose proof (normalize_valid z 0) as V.
  assert (forall m e, binary_normalize prec emax m e false <> S754_nan) as N.
  { intros m e. destruct m as [|p|p]; cbn [binary_normalize]; [done| |]; unfold binary_round;
      destruct (shl_align _ _ _) as [mz ez];
      match goal with |- binary_round_aux _ _ ?s ?m ?e ?l <> _ =>
        pose proof (round_aux_sign s m e l ltac:(lia)) as R;
        destruct (binary_round_aux prec emax s m e l); done end. }
  specialize (N z 0).
  set (sf := binary_normalize prec emax z 0 false) in *. intros H.
  assert (f = SF2Prim sf /\ sf_finite sf = true) as [-> F].
  { destruct sf; try done; split; congruence || done. }
  by rewrite isfinite_sf, Prim2SF_SF2Prim.
Qed.

(** Integers outside -1..1 do not convert into [-1, 1]. *)
Lemma int_to_float_small z f :
  int_to_float z = Some f -> in_range (-1) 1 f = true -> -1 <= z <= 1.
Proof.
  intros H%int_to_float_sf R%in_pm1_fval. destruct H as [H F]. rewrite isfinite_sf in F. unfold fval at 2 3 in R.
  rewrite H in R.
  assert (forall s p, 2 <= Zpos p -> 2 * fval 1%float <= Z.abs (sfval (binary_round prec emax s p 0))
           \/ exists s', binary_round prec emax s p 0 = S754_infinity s') as K.
  { intros s p Hp. unfold binary_round.
    pose proof (shl_align_spec p 0 (fexp prec emax (Zpos (digits2_pos p) + 0))) as A.
    destruct (shl_align _ _ _) as [mz ez]. destruct A as [Hez Hmz]. rewrite fexp_unfold in Hez.
    pose proof (digits2_shift p mz (0 - ez) ltac:(lia) Hmz) as Hd.
    pose proof (round_aux_ge s mz ez (2 ^ 52) (-51) ltac:(unfold SC; lia)
      ltac:(rewrite fexp_unfold; lia) eq_refl) as G.
    assert (mval (Zpos mz) ez = mval (Zpos p) 0) as Hv.
    { rewrite Hmz, mval_shift by (unfold SC; lia). f_equal. lia. }
    rewrite Hv in G. change (mval (Zpos (2 ^ 52)) (-51)) with (2 * fval 1%float) in G.
    assert (2 * fval 1%float <= mval (Zpos p) 0) as P.
    { rewrite fval_1. unfold mval. rewrite Z.add_0_l. assert (0 < 2 ^ SC) by done. nia. }
    specialize (G P).
    destruct (binary_round_aux _ _ _ _ _ _) as [s'|s'| |s' m e]; try done; [right; by exists s'|].
    left. cbn [sfval]. rewrite cond_Zopp_abs. lia. }
  assert (0 < fval 1%float) by done.
  destruct z as [|p|p]; [lia| |]; cbn [binary_normalize] in H, R.
  - destruct (Z.le_gt_cases 2 (Zpos p)) as [L|L]; [|lia].
    destruct (K false p L) as [K'|[s' K']]; [lia|]. rewrite H, K' in F. done.
  - destruct (Z.le_gt_cases 2 (Zpos p)) as [L|L]; [|lia].
    destruct (K true p L) as [K'|[s' K']]; [lia|]. rewrite H, K' in F. done.
Qed.

(** Normalising a positive number does not fall below a float it reaches. *)
Lemma normalize_ge p e mv ev :
  -1074 <= e -> bounded prec emax mv ev = true -> mval (Zpos mv) ev <= mval (Zpos p) e ->
  let r := binary_normalize prec emax (Zpos p) e false in
  sf_finite r = true -> mval (Zpos mv) ev <= sfval r.
Proof.
  intros He Hb Hle r Hf. subst r. cbn [binary_normalize] in *. unfold binary_round in *.
  pose proof (shl_align_spec p e (fexp prec emax (Zpos (digits2_pos p) + e))) as A.
  destruct (shl_align _ _ _) as [mz ez] eqn:S. destruct A as [Hez Hmz].
  pose proof Hez as Hez'. rewrite fexp_unfold in Hez.
  pose proof (digits2_shift p mz (e - ez) ltac:(lia) Hmz) as Hd.
  assert (mval (Zpos mz) ez = mval (Zpos p) e) as Hv.
  { rewrite Hmz, mval_shift by (unfold SC; lia). f_equal. lia. }
  assert (ez <= fexp prec emax (Zpos (digits2_pos mz) + ez)) as Hal by (rewrite fexp_unfold; lia).
  pose proof (round_aux_ge false mz ez mv ev ltac:(unfold SC; lia) Hal Hb ltac:(lia)) as G.
  pose proof (round_aux_sign false (Zpos mz) ez loc_Exact ltac:(lia)) as Sg.
  destruct (binary_round_aux _ _ _ _ _ _) as [s|s| |s m e']; try done. subst s. exact G.
Qed.

(** Adding a non-negative number to a non-negative one does not decrease it. *)
Lemma fadd_ge x y :
  isfinite x = true -> isfinite y = true -> isfinite (x + y)%float = true ->
  0 <= fval x -> 0 <= fval y -> fval x <= fval (x + y)%float.
Proof.
  intros Fx Fy Fs Px Py. rewrite (isfinite_sf (x + y)) in Fs.
  change (fval (x + y)%float) with (sfval (Prim2SF (x + y)%float)).
  rewrite add_spec in *. unfold SF64add in *.
  destruct (Prim2SF_cases x Fx) as [(sx & Ex & Hx)|(sx & mx & ex & Ex & Bx & Lx & Hx)],
    (Prim2SF_cases y Fy) as [(sy & Ey & Hy)|(sy & my & ey & Ey & By & Ly & Hy)];
    rewrite Ex, Ey in *; cbn [SFadd] in *.
  - rewrite Hx. by destruct sx, sy.
  - rewrite Hx. cbn [sfval]. by rewrite <- Hy.
  - cbn [sfval]. by rewrite <- Hx.
  - pose proof (mval_pos mx ex Lx). pose proof (mval_pos my ey Ly).
    destruct sx; [cbn [cond_Zopp] in Hx; lia|]. destruct sy; [cbn [cond_Zopp] in Hy; lia|].
    remember (Z.min ex ey) as ez eqn:Eez.
    pose proof (align_val false mx ex ez ltac:(lia) ltac:(lia)) as A1.
    pose proof (align_val false my ey ez ltac:(lia) ltac:(lia)) as A2.
    cbn [cond_Zopp] in *. rewrite Hx. cbn [Z.add] in *.
    apply normalize_ge; [lia|done| |done].
    unfold mval in *. lia.
Qed.

(** A positive integer below 2^53 is a float. *)
Lemma int_is_float p :
  Zpos p < 2 ^ 53 -> exists mv ev, bounded prec emax mv ev = true /\ mval (Zpos mv) ev = mval (Zpos p) 0.
Proof.
  intros Hp. pose proof (digits2_le p 53 ltac:(lia) Hp) as Hd. set (d := 53 - Zpos (digits2_pos p)).
  exists (Z.to_pos (Zpos p * 2 ^ d)), (- d).
  assert (0 < Zpos p * 2 ^ d) as Pos by (apply Z.mul_pos_pos; [lia|apply Z.pow_pos_nonneg; lia]).
  rewrite Z2Pos.id by done. split.
  - unfold bounded, canonical_mantissa. rewrite andb_true_iff, Z.eqb_eq, Z.leb_le, fexp_unfold.
    change (emax - prec) with 971.
    rewrite (digits2_shift p (Z.to_pos (Zpos p * 2 ^ d)) d ltac:(lia) ltac:(rewrite Z2Pos.id; lia)). lia.
  - rewrite mval_shift by (unfold SC; lia). f_equal. lia.
Qed.

Lemma int_to_float_le z :
  0 <= z < 2 ^ 53 -> exists f, int_to_float z = Some f /\ isfinite f = true /\ 0 <= fval f <= z * 2 ^ SC.
Proof.
  intros Hz. destruct (decide (z = 0)) as [-> |Nz]; [exists 0%float; split; [reflexivity|split; [reflexivity|rewrite fval_0; lia]]|].
  assert (exists mv ev, bounded prec emax mv ev = true /\ mval (Zpos mv) ev = mval z 0) as (mv & ev & B & E).
  { destruct z as [|p|p]; [done| |lia]. apply int_is_float. lia. }
  assert (0 <= mval z 0) as Nm by (unfold mval; apply Z.mul_nonneg_nonneg; [lia|apply Z.pow_nonneg; lia]).
  destruct (normalize_le z 0 mv ev ltac:(lia) B ltac:(lia)) as (F & A & P & _).
  destruct (int_to_float z) as [f|] eqn:I.
  - exists f. destruct (int_to_float_sf z f I) as [S Ff]. split_and!; [done|done| |].
    + unfold fval. rewrite S. apply P. lia.
    + unfold fval. rewrite S. rewrite E in A. unfold mval in A. rewrite Z.add_0_l in A. lia.
  - unfold int_to_float in I. by destruct (binary_normalize prec emax z 0 false).
Qed.

(** Rounding a positive integer keeps its sign and does not go below one. *)
Lemma round_int s p :
  match binary_round prec emax s p 0 with
  | S754_finite s' m e => s' = s /\ 2 ^ SC <= mval (Zpos m) e
  | S754_infinity s' => s' = s
  | _ => False
  end.
Proof.
  unfold binary_round.
  pose proof (shl_align_spec p 0 (fexp prec emax (Zpos (digits2_pos p) + 0))) as A.
  destruct (shl_align _ _ _) as [mz ez]. destruct A as [Hez Hmz]. rewrite fexp_unfold in Hez.
  pose proof (digits2_shift p mz (0 - ez) ltac:(lia) Hmz) as Hd.
  pose proof (round_aux_ge s mz ez (2 ^ 52) (-52) ltac:(unfold SC; lia) ltac:(rewrite fexp_unfold; lia) eq_refl) as G.
  assert (mval (Zpos mz) ez = mval (Zpos p) 0) as Hv.
  { rewrite Hmz, mval_shift by (unfold SC; lia). f_equal. lia. }
  rewrite Hv in G. change (mval (Zpos (2 ^ 52)) (-52)) with (2 ^ SC) in G.
  assert (2 ^ SC <= mval (Zpos p) 0) as P by (unfold mval; rewrite Z.add_0_l; assert (0 < 2 ^ SC) by done; nia).
  specialize (G P). pose proof (round_aux_sign s (Zpos mz) ez loc_Exact ltac:(lia)) as Sg.
  by destruct (binary_round_aux _ _ _ _ _ _).
Qed.

(** The conversion of an integer keeps its sign. *)
Lemma int_to_float_sgn z f : int_to_float z = Some f -> Z.sgn (fval f) = Z.sgn z.
Proof.
  intros [H F]%int_to_float_sf. rewrite isfinite_sf, H in F. unfold fval. rewrite H. clear H.
  assert (0 < 2 ^ SC) by done.
  destruct z as [|p|p]; cbn [binary_normalize] in *; [done| |].
  - pose proof (round_int false p) as R. destruct (binary_round _ _ _ _ _); try done. destruct R as [-> R].
    cbn [sfval cond_Zopp]. rewrite Z.sgn_pos; [done|lia].
  - pose proof (round_int true p) as R. destruct (binary_round _ _ _ _ _); try done. destruct R as [-> R].
    cbn [sfval cond_Zopp]. rewrite Z.sgn_neg; [done|lia].
Qed.

Lemma nonneg_sf x : isfinite x = true -> (0 <=? x)%float = true ->
  (exists s, Prim2SF x = S754_zero s) \/ exists m e, Prim2SF x = S754_finite false m e.
Proof.
  rewrite isfinite_sf, leb_spec. change (Prim2SF 0) with (S754_zero false).
  destruct (Prim2SF x) as [s|s| |[] m e]; try done; eauto.
Qed.

(** Products and sums of non-negative numbers are non-negative, overflow included. *)
Lemma fmul_nonneg x y :
  isfinite x = true -> isfinite y = true -> (0 <=? x)%float = true -> (0 <=? y)%float = true ->
  (0 <=? x * y)%float = true.
Proof.
  intros Fx Fy Hx Hy. rewrite leb_spec, mul_spec. change (Prim2SF 0) with (S754_zero false). unfold SF64mul.
  destruct (nonneg_sf x Fx Hx) as [(s & ->)|(m & e & ->)], (nonneg_sf y Fy Hy) as [(s' & ->)|(m' & e' & ->)];
    try done. cbn [SFmul].
  pose proof (round_aux_sign (xorb false false) (Zpos (m * m')) (e + e') loc_Exact ltac:(lia)) as S.
  by destruct (binary_round_aux _ _ _ _ _ _) as [[]|[]| |[]].
Qed.

Lemma fadd_nonneg x y :
  isfinite x = true -> isfinite y = true -> (0 <=? x)%float = true -> (0 <=? y)%float = true ->
  (0 <=? x + y)%float = true.
Proof.
  intros Fx Fy Hx Hy. rewrite leb_spec, add_spec. change (Prim2SF 0) with (S754_zero false). unfold SF64add.
  destruct (nonneg_sf x Fx Hx) as [(s & ->)|(m & e & ->)], (nonneg_sf y Fy Hy) as [(s' & ->)|(m' & e' & ->)].
  1: by destruct s, s'. 1-2: by destruct s || destruct s'.
  cbn [SFadd]. cbn [cond_Zopp Z.add].
  match goal with |- context [binary_normalize _ _ ?z _ _] => assert (0 <= z) as Hz by (cbn; lia); destruct z as [|p|p] end;
    [done| |lia]. cbn [binary_normalize]. unfold binary_round.
  match goal with |- context [shl_align ?a ?b ?c] => destruct (shl_align a b c) as [mz ez] end.
  pose proof (round_aux_sign false (Zpos mz) ez loc_Exact ltac:(lia)) as S.
  by destruct (binary_round_aux _ _ _ _ _ _) as [[]|[]| |[]].
Qed.

(** Doubling is exact away from overflow. *)
Lemma double_bounded m e :
  bounded prec emax m e = true -> e < 971 ->
  exists mv ev, bounded prec emax mv ev = true /\ mval (Zpos mv) ev = 2 * mval (Zpos m) e.
Proof.
  intros B He. pose proof (bounded_spec m e B) as [C _].
  assert (- SC <= e) as Le by (unfold SC; lia).
  destruct (Z.eq_dec (Zpos (digits2_pos m)) 53) as [D|D].
  - exists m, (e + 1). split.
    + unfold bounded, canonical_mantissa. rewrite andb_true_iff, Z.eqb_eq, Z.leb_le, fexp_unfold.
      change (emax - prec) with 971. lia.
    + rewrite <- (mval_shift (Zpos m) e 1) by lia. unfold mval. lia.
  - assert (Zpos (digits2_pos (m~0)) = Zpos (digits2_pos m) + 1) as D0 by (apply digits2_shift; lia).
    exists (m~0)%positive, e. split; [|unfold mval; rewrite Pos2Z.inj_xO; lia].
    unfold bounded, canonical_mantissa. rewrite andb_true_iff, Z.eqb_eq, Z.leb_le, fexp_unfold, D0.
    change (emax - prec) with 971. lia.
Qed.

Lemma fdouble f :
  isfinite f = true -> 0 < fval f <= 30 * 2 ^ SC ->
  isfinite (2 * f)%float = true /\ fval (2 * f)%float = 2 * fval f.
Proof.
  intros F [P L]. destruct (Prim2SF_cases f F) as [(s & _ & E)|(s & m & e & E & B & He & V)]; [lia|].
  pose proof (mval_pos m e He) as Pm. destruct s; cbn [cond_Zopp] in V; [lia|].
  assert (e < 971) as He'.
  { destruct (Z.lt_ge_cases e 971) as [|G]; [done|]. exfalso. rewrite V in L. unfold mval in L.
    assert (2 ^ (971 + SC) <= 2 ^ (e + SC)) by (apply Z.pow_le_mono_r; unfold SC in *; lia).
    assert (30 * 2 ^ SC < 2 ^ (971 + SC)) by (by vm_compute). nia. }
  destruct (double_bounded m e B He') as (mv & ev & Bv & Ev).
  rewrite (isfinite_sf (2 * f)). change (fval (2 * f)%float) with (sfval (Prim2SF (2 * f)%float)).
  rewrite mul_spec, E. change (Prim2SF 2) with (S754_finite false (2 ^ 52) (-51)). unfold SF64mul. cbn [SFmul].
  assert (mval (Zpos (2 ^ 52 * m)) (-51 + e) = 2 * mval (Zpos m) e) as K.
  { rewrite Pos2Z.inj_mul, Z.mul_comm, Pos2Z.inj_pow, mval_shift by (unfold SC; lia).
    replace (-51 + e + 52) with (e + 1) by lia. rewrite <- mval_shift by (unfold SC; lia). unfold mval. lia. }
  pose proof (bounded_spec _ _ B) as [C _].
  assert (Zpos (digits2_pos (2 ^ 52 * m)) = Zpos (digits2_pos m) + 52) as D.
  { apply digits2_shift; [lia|]. rewrite Pos2Z.inj_mul, Z.mul_comm, Pos2Z.inj_pow. done. }
  assert (- SC <= -51 + e) as A1 by (unfold SC; lia).
  assert (-51 + e <= fexp prec emax (Zpos (digits2_pos (2 ^ 52 * m)) + (-51 + e))) as A2 by (rewrite fexp_unfold; lia).
  pose proof (round_aux_le (xorb false false) _ _ mv ev A1 A2 Bv ltac:(lia)) as R1.
  pose proof (round_aux_ge (xorb false false) _ _ mv ev A1 A2 Bv ltac:(lia)) as R2.
  destruct (binary_round_aux _ _ _ _ _ _) as [s|s| |s m' e']; try done.
  destruct R1 as [-> R1]. cbn [sf_finite sfval xorb cond_Zopp]. split; [done|lia].
Qed.

(** A power of two below the overflow threshold converts. *)
Lemma pow2_to_float a : 0 <= a < 1024 -> exists f, int_to_float (2 ^ a) = Some f.
Proof.
  intros Ha.
  assert (bounded prec emax (2 ^ 52) (a - 52) = true) as B.
  { unfold bounded, canonical_mantissa. rewrite andb_true_iff, Z.eqb_eq, Z.leb_le, fexp_unfold.
    change (Zpos (digits2_pos (2 ^ 52))) with 53. change (emax - prec) with 971. lia. }
  destruct (normalize_le (2 ^ a) 0 (2 ^ 52) (a - 52) ltac:(lia) B) as (F & _).
  { rewrite Z.abs_eq by (unfold mval; apply Z.mul_nonneg_nonneg; apply Z.pow_nonneg; lia).
    unfold mval. rewrite Pos2Z.inj_pow, <- !Z.pow_add_r by (unfold SC; lia).
    apply Z.pow_le_mono_r; unfold SC; lia. }
  unfold int_to_float. destruct (binary_normalize prec emax (2 ^ a) 0 false); eauto; done.
Qed.

(** Integers below 2^53 convert exactly. *)
Lemma int_to_float_exact z :
  0 <= z < 2 ^ 53 -> exists f, int_to_float z = Some f /\ isfinite f = true /\ fval f = z * 2 ^ SC.
Proof.
  intros Hz. destruct (int_to_float_le z Hz) as (f & I & F & L & U). exists f. split_and!; [done|done|].
  destruct z as [|p|p]; [lia| |lia]. destruct (int_is_float p ltac:(lia)) as (mv & ev & B & E).
  pose proof (int_to_float_sf _ _ I) as [S _].
  pose proof (normalize_ge p 0 mv ev ltac:(lia) B ltac:(lia)) as G. cbn zeta in G.
  rewrite <- S, <- isfinite_sf in G. specialize (G F). change (sfval (Prim2SF f)) with (fval f) in G.
  rewrite E in G. unfold mval in G. rewrite Z.add_0_l in G. lia.
Qed.

(** ** Integers of a float *)

(** [int(f)] of a finite float. *)
Definition trunc_float (f : float) : Z :=
  match Prim2SF f with
  | S754_finite s m e => SpecFloat.cond_Zopp s (if 0 <=? e then Zpos m * 2 ^ e else Zpos m / 2 ^ (- e))
  | _ => 0
  end.

(** The nearest integer, ties to even. *)
Definition round_half_even (f : float) : Z :=
  match Prim2SF f with
  | S754_finite s m e =>
      SpecFloat.cond_Zopp s
        (if 0 <=? e then Zpos m * 2 ^ e else
         let q := Zpos m / 2 ^ (- e) in
         match Zpos m mod 2 ^ (- e) ?= 2 ^ (- e - 1) with
         | Lt => q
         | Gt => q + 1
         | Eq => if Z.even q then q else q + 1
         end)
  | _ => 0
  end.
