(* ===== verification/PyValue.v ===== *)
(** * Python values at the program's boundaries

    The validators of the program take [object] arguments and branch on their
    dynamic type.  [pyval] is the type of the values they can meet: [None],
    [bool], [int] (unbounded), [float], [str], [list], [tuple], [dict],
    [MappingProxyType] and any other object.  A [str] is its list of code
    points.  A [dict] is the list of its items in insertion order, with keys
    compared as Python compares them; a key that is not a [str] is kept apart,
    since the program only ever tests that it is one. *)

From S2P Require Import Prelude PyFloat.
From stdpp Require Export strings.

(** ** Strings *)

Definition pystr : Type := list N.

#[export] Instance pystr_eq_dec : EqDecision pystr := _.

(** A literal written in the source. *)
Definition u (s : string) : pystr := map Ascii.N_of_ascii (String.list_ascii_of_string s).

Definition str_eqb (a b : pystr) : bool := bool_decide (a = b).
Definition str_in (a : pystr) (l : list pystr) : bool := existsb (str_eqb a) l.

(** [str.isspace] of one character, the set [str.strip()] removes. *)
Definition is_space (c : N) : bool :=
  ((9 <=? c) && (c <=? 13) || (28 <=? c) && (c <=? 32) || (c =? 133) || (c =? 160)
   || (c =? 5760) || (8192 <=? c) && (c <=? 8202) || (c =? 8232) || (c =? 8233)
   || (c =? 8239) || (c =? 8287) || (c =? 12288))%N.

Fixpoint drop_while {A} (p : A -> bool) (l : list A) : list A :=
  match l with
  | [] => []
  | x :: l' => if p x then drop_while p l' else l
  end.

Definition lstrip (s : pystr) : pystr := drop_while is_space s.
Definition strip (s : pystr) : pystr := rev (lstrip (rev (lstrip s))).

(** ** Values *)

Inductive pykey : Type :=
| KStr (s : pystr)
| KOther (id : Z).

#[export] Instance pykey_eq_dec : EqDecision pykey.
Proof. solve_decision. Defined.

Inductive pyval : Type :=
| PNone
| PBool (b : bool)
| PInt (z : Z)
| PFloat (f : float)
| PStr (s : pystr)
| PList (l : list pyval)
| PTuple (l : list pyval)
| PDict (d : list (pykey * pyval))
| PProxy (d : list (pykey * pyval))
| PObj (id : Z).

Definition pydict : Type := list (pykey * pyval).

(** Induction with the hypothesis for every value nested in a container. *)
Section PyvalInd.
Context (P : pyval -> Prop)
  (HNone : P PNone) (HBool : forall b, P (PBool b)) (HInt : forall z, P (PInt z))
  (HFloat : forall f, P (PFloat f)) (HStr : forall s, P (PStr s)) (HObj : forall i, P (PObj i))
  (HList : forall l, Forall P l -> P (PList l)) (HTuple : forall l, Forall P l -> P (PTuple l))
  (HDict : forall d, Forall (fun kv => P kv.2) d -> P (PDict d))
  (HProxy : forall d, Forall (fun kv => P kv.2) d -> P (PProxy d)).

Fixpoint pyval_nested_ind (v : pyval) : P v :=
  match v with
  | PNone => HNone
  | PBool b => HBool b
  | PInt z => HInt z
  | PFloat f => HFloat f
  | PStr s => HStr s
  | PObj i => HObj i
  | PList l => HList l ((fix go l : Forall P l := match l with
      | [] => Forall_nil_2 P
      | x :: l' => Forall_cons_2 P x l' (pyval_nested_ind x) (go l') end) l)
  | PTuple l => HTuple l ((fix go l : Forall P l := match l with
      | [] => Forall_nil_2 P
      | x :: l' => Forall_cons_2 P x l' (pyval_nested_ind x) (go l') end) l)
  | PDict d => HDict d ((fix go d : Forall (fun kv => P kv.2) d := match d with
      | [] => Forall_nil_2 (fun kv : pykey * pyval => P kv.2)
      | (k, x) :: d' => Forall_cons_2 (fun kv => P kv.2) (k, x) d' (pyval_nested_ind x) (go d') end) d)
  | PProxy d => HProxy d ((fix go d : Forall (fun kv => P kv.2) d := match d with
      | [] => Forall_nil_2 (fun kv : pykey * pyval => P kv.2)
      | (k, x) :: d' => Forall_cons_2 (fun kv => P kv.2) (k, x) d' (pyval_nested_ind x) (go d') end) d)
  end.
End PyvalInd.

(** ** Dictionaries *)

Definition dget {V} (d : list (pykey * V)) (k : pystr) : option V :=
  snd <$> List.find (fun kv => bool_decide (kv.1 = KStr k)) d.

Definition dhas {V} (d : list (pykey * V)) (k : pystr) : bool :=
  match dget d k with Some _ => true | None => false end.

(** [d.pop(k, None)] on the items. *)
Definition dpop {V} (d : list (pykey * V)) (k : pystr) : list (pykey * V) :=
  List.filter (fun kv => negb (bool_decide (kv.1 = KStr k))) d.

(** [d[k] = v]: in place when the key is there, else at the end. *)
Fixpoint dset {V} (d : list (pykey * V)) (k : pystr) (v : V) : list (pykey * V) :=
  match d with
  | [] => [(KStr k, v)]
  | kv :: d' => if bool_decide (kv.1 = KStr k) then (KStr k, v) :: d' else kv :: dset d' k v
  end.

(** [set(d.keys()) - allowed] is non-empty. *)
Definition key_in (allowed : list pystr) (k : pykey) : bool :=
  match k with KStr s => str_in s allowed | KOther _ => false end.
Definition has_unknown {V} (allowed : list pystr) (d : list (pykey * V)) : bool :=
  existsb (fun kv => negb (key_in allowed kv.1)) d.

(** [required - set(d.keys())] is non-empty. *)
Definition has_missing {V} (required : list pystr) (d : list (pykey * V)) : bool :=
  existsb (fun f => negb (dhas d f)) required.

(** A Python dict never holds a key twice. *)
Definition dict_ok {V} (d : list (pykey * V)) : Prop := NoDup d.*1.

(** ** Numbers: [isinstance(v, (int, float))] with [bool] set apart *)

Inductive pynum : Type :=
| NInt (z : Z)
| NFloat (f : float).

(** [float(v)]; [None] is the [OverflowError] of a huge integer. *)
Definition num_to_float (n : pynum) : option float :=
  match n with NInt z => int_to_float z | NFloat f => Some f end.

(** [-n]. *)
Definition num_neg (n : pynum) : pynum :=
  match n with NInt z => NInt (- z) | NFloat f => NFloat (PrimFloat.opp f) end.

(** The operand [n] of an arithmetic operation whose other operand is a float:
    Python converts it with [float(n)].  The configurations that keep such
    numbers have already checked that the conversion succeeds. *)
Definition fl (n : pynum) : float :=
  match num_to_float n with Some f => f | None => PrimFloat.nan end.

(** ** Texts of values and of numbers *)

(** [str(v)], which is the identity on a [str]; [float(s)] and [int(s)] of a
    [str], where [None] is their [ValueError]. *)
Class PyText : Type := {
  str_of : pyval -> pystr;
  float_of_str : pystr -> option float;
  int_of_str : pystr -> option Z;
  str_of_str : forall s, str_of (PStr s) = s }.

(** ** Membership in a [frozenset] of strings *)

(** [hash(v)] is defined: containers that can change are not hashable. *)
Fixpoint hashable (v : pyval) : bool :=
  match v with
  | PList _ | PDict _ | PProxy _ => false
  | PTuple l => forallb hashable l
  | _ => true
  end.

(** [v in s] for a set of strings: [None] is the [TypeError] of an unhashable value. *)
Definition in_str_set (v : pyval) (l : list pystr) : option bool :=
  if hashable v then Some (match v with PStr s => str_in s l | _ => false end) else None.

(** ** Lemmas *)

Lemma str_eqb_eq a b : str_eqb a b = true <-> a = b.
Proof. unfold str_eqb. by rewrite bool_decide_eq_true. Qed.

Lemma str_in_elem a l : str_in a l = true <-> a ∈ l.
Proof.
  unfold str_in. rewrite existsb_exists, list_elem_of_In. split.
  - intros (x & H & ->%str_eqb_eq). done.
  - intros H. exists a. by rewrite str_eqb_eq.
Qed.

Lemma dhas_dget {V} (d : list (pykey * V)) k : dhas d k = true <-> exists v, dget d k = Some v.
Proof. unfold dhas. destruct (dget d k); naive_solver. Qed.

Lemma dget_cons {V} (d : list (pykey * V)) k k' v :
  dget ((k', v) :: d) k = if bool_decide (k' = KStr k) then Some v else dget d k.
Proof. unfold dget. cbn. by destruct (bool_decide _). Qed.

Lemma dget_elem {V} (d : list (pykey * V)) k v : dget d k = Some v -> (KStr k, v) ∈ d.
Proof.
  induction d as [|[k' v'] d IH]; [done|]. rewrite dget_cons.
  case_bool_decide; intros ?; simplify_eq; set_solver.
Qed.

Lemma dget_None {V} (d : list (pykey * V)) k : dget d k = None <-> KStr k ∉ d.*1.
Proof.
  induction d as [|[k' v'] d IH]; [set_solver|]. rewrite dget_cons, fmap_cons.
  case_bool_decide; set_solver.
Qed.

Lemma elem_dget {V} (d : list (pykey * V)) k v :
  dict_ok d -> (KStr k, v) ∈ d -> dget d k = Some v.
Proof.
  unfold dict_ok. induction d as [|[k' v'] d IH]; [set_solver|].
  rewrite fmap_cons, NoDup_cons, dget_cons, elem_of_cons. intros [Hn Hd] [[= -> ->]|H].
  - by rewrite bool_decide_eq_true_2.
  - rewrite bool_decide_eq_false_2; [by apply IH|]. intros ->. apply Hn. simpl.
    apply list_elem_of_fmap. by exists (KStr k, v).
Qed.

Lemma dget_dpop {V} (d : list (pykey * V)) k k' :
  dget (dpop d k) k' = if bool_decide (k = k') then None else dget d k'.
Proof.
  induction d as [|[k0 v0] d IH]; [by case_bool_decide|].
  unfold dpop. cbn [List.filter fst]. fold (dpop d k).
  destruct (bool_decide (k0 = KStr k)) eqn:E; cbn [negb].
  - apply bool_decide_eq_true in E as ->. rewrite IH, dget_cons.
    repeat case_bool_decide; naive_solver.
  - rewrite !dget_cons, IH. apply bool_decide_eq_false in E.
    repeat case_bool_decide; naive_solver.
Qed.

Lemma dget_dset {V} (d : list (pykey * V)) k v k' :
  dget (dset d k v) k' = if bool_decide (k = k') then Some v else dget d k'.
Proof.
  induction d as [|[k0 v0] d IH]; cbn [dset fst].
  - rewrite dget_cons. repeat case_bool_decide; naive_solver.
  - destruct (bool_decide (k0 = KStr k)) eqn:E; rewrite ?dget_cons.
    + apply bool_decide_eq_true in E as ->. repeat case_bool_decide; naive_solver.
    + apply bool_decide_eq_false in E. rewrite IH. repeat case_bool_decide; naive_solver.
Qed.

Lemma dset_fresh {V} (d : list (pykey * V)) k v :
  dget d k = None -> dset d k v = d ++ [(KStr k, v)].
Proof.
  induction d as [|[k0 v0] d IH]; [done|]. rewrite dget_cons. cbn [dset fst].
  case_bool_decide; [done|]. intros H0. by rewrite IH.
Qed.

Lemma has_unknown_false {V} allowed (d : list (pykey * V)) :
  has_unknown allowed d = false <->
  forall k v, (k, v) ∈ d -> exists s, k = KStr s /\ s ∈ allowed.
Proof.
  unfold has_unknown. rewrite existsb_false_forallb, forallb_forall. split.
  - intros H k v Hin. specialize (H (k, v)). rewrite <- list_elem_of_In in H.
    specialize (H Hin). cbn in H. destruct k as [s|]; cbn in H; [|done].
    rewrite negb_involutive in H. exists s. by rewrite <- str_in_elem.
  - intros H [k v] Hin. rewrite <- list_elem_of_In in Hin. apply H in Hin as (s & -> & Hs).
    cbn. rewrite negb_involutive. by apply str_in_elem.
Qed.

Lemma has_missing_false {V} required (d : list (pykey * V)) :
  has_missing required d = false <-> forall f, f ∈ required -> dhas d f = true.
Proof.
  unfold has_missing. rewrite existsb_false_forallb, forallb_forall. split.
  - intros H f Hf. rewrite list_elem_of_In in Hf. specialize (H f Hf).
    by rewrite negb_involutive in H.
  - intros H f Hf. rewrite negb_involutive. apply H. by apply list_elem_of_In.
Qed.

Lemma drop_while_none {A} (p : A -> bool) l :
  match l with [] => True | x :: _ => p x = false end -> drop_while p l = l.
Proof. destruct l; [done|]. cbn. by intros ->. Qed.

Lemma drop_while_head {A} (p : A -> bool) l :
  match drop_while p l with [] => True | x :: _ => p x = false end.
Proof.
  induction l as [|x l IH]; [done|]. cbn. by destruct (p x) eqn:E.
Qed.

Lemma drop_while_suffix {A} (p : A -> bool) l : exists l', l = l' ++ drop_while p l.
Proof.
  induction l as [|x l [l' IH]]; [by exists []|]. cbn. destruct (p x); [|by exists []].
  exists (x :: l'). cbn. by f_equal.
Qed.

(** Stripping is idempotent: a stripped string has no blank at either end. *)
Lemma strip_idem s : strip (strip s) = strip s.
Proof.
  unfold strip, lstrip. set (a := drop_while is_space s).
  set (b := drop_while is_space (rev a)).
  assert (drop_while is_space (rev b) = rev b) as ->; [|].
  - apply drop_while_none.
    destruct (drop_while_suffix is_space (rev a)) as [l' Hl'].
    pose proof (drop_while_head is_space s) as Hh. fold a in Hh. fold b in Hl'.
    assert (a = rev b ++ rev l') as Ha.
    { rewrite <- (rev_involutive a), Hl'. by rewrite rev_app_distr. }
    rewrite Ha in Hh. by destruct (rev b).
  - rewrite rev_involutive. f_equal. apply drop_while_none, drop_while_head.
Qed.

Lemma strip_length s : length (strip s) <= length s.
Proof.
  unfold strip, lstrip. rewrite length_rev.
  destruct (drop_while_suffix is_space (rev (drop_while is_space s))) as [l1 H1].
  destruct (drop_while_suffix is_space s) as [l2 H2].
  apply (f_equal (@length N)) in H1, H2. rewrite length_app in H1, H2.
  rewrite length_rev in H1. lia.
Qed.

(** ** [bool(v)] *)

Definition truthy (v : pyval) : bool :=
  match v with
  | PNone => false
  | PBool b => b
  | PInt z => negb (Z.eqb z 0)
  | PFloat f => negb (PrimFloat.eqb f 0)
  | PStr s => negb (bool_decide (s = []))
  | PList [] | PTuple [] | PDict [] | PProxy [] => false
  | _ => true
  end.
