(* ===== verification/Json.v ===== *)
(** * JSON documents

    The program serialises with the standard library's [json] module, always
    with [ensure_ascii=False, sort_keys=True, separators=(",", ":")].  A JSON
    text is represented by its document ([jdoc]); [json_encode] is the part of
    [json.dumps] that maps a Python value to a document (or raises [TypeError]
    or [ValueError]), [render] the part that prints it, and [json_decode] is
    [json.loads] of the text of a document.  The decimal rendering of a float
    ([float.__repr__]) is the operation of the class [FloatRepr]. *)

From S2P Require Import Prelude PyFloat PyValue.
Local Open Scope float_scope.

Inductive jdoc : Type :=
| JNull
| JBool (b : bool)
| JInt (z : Z)
| JFloat (f : float)
| JStr (s : pystr)
| JArr (l : list jdoc)
| JObj (l : list (pystr * jdoc)).

(** [TypeError] or [ValueError]; the program catches both together. *)
Inductive json_exn : Type := NotSerializable.

(** ** Sorting by key *)

(** Python's order on [str]: code points, lexicographically. *)
Fixpoint str_ltb (a b : pystr) : bool :=
  match a, b with
  | _, [] => false
  | [], _ :: _ => true
  | x :: a', y :: b' => (x <? y)%N || ((x =? y)%N && str_ltb a' b')
  end.

Fixpoint insert_key {V} (k : pystr) (v : V) (l : list (pystr * V)) : list (pystr * V) :=
  match l with
  | [] => [(k, v)]
  | kv :: l' => if str_ltb k kv.1 then (k, v) :: l else kv :: insert_key k v l'
  end.

Definition sort_keys {V} (l : list (pystr * V)) : list (pystr * V) :=
  fold_right (fun kv acc => insert_key kv.1 kv.2 acc) [] l.

(** ** Encoding *)

(** [json.dumps(value, sort_keys=True, allow_nan=...)], as a document.  Only
    [dict], [list], [tuple], [str], numbers, [bool] and [None] are
    serialisable; a [MappingProxyType] is not.  A key that is not a [str] is a
    [TypeError] (the keys set apart by [KOther] are no JSON scalars). *)
Fixpoint json_encode (allow_nan : bool) (v : pyval) {struct v} : result json_exn jdoc :=
  match v with
  | PNone => Ok JNull
  | PBool b => Ok (JBool b)
  | PInt z => Ok (JInt z)
  | PFloat f => if negb allow_nan && negb (isfinite f) then Err NotSerializable else Ok (JFloat f)
  | PStr s => Ok (JStr s)
  | PList l => let* l' := rmap (json_encode allow_nan) l in Ok (JArr l')
  | PTuple l => let* l' := rmap (json_encode allow_nan) l in Ok (JArr l')
  | PDict d =>
      let* items := rmap (fun kv =>
        match kv with
        | (KStr k, x) => let* j := json_encode allow_nan x in Ok (k, j)
        | (KOther _, _) => Err NotSerializable
        end) d in
      Ok (JObj (sort_keys items))
  | PProxy _ => Err NotSerializable
  | PObj _ => Err NotSerializable
  end.

(** [json.loads] of the text of a document. *)
Fixpoint json_decode (d : jdoc) : pyval :=
  match d with
  | JNull => PNone
  | JBool b => PBool b
  | JInt z => PInt z
  | JFloat f => PFloat f
  | JStr s => PStr s
  | JArr l => PList (map json_decode l)
  | JObj l => PDict (map (fun kv => match kv with (k, x) => (KStr k, json_decode x) end) l)
  end.

(** ** Rendering *)

Class FloatRepr : Type := float_repr : float -> pystr.

Fixpoint digits_of (fuel : nat) (n : N) (acc : pystr) : pystr :=
  match fuel with
  | O => acc
  | S k => let acc' := ((n mod 10) + 48)%N :: acc in
           if (n <? 10)%N then acc' else digits_of k (n / 10)%N acc'
  end.

(** The decimal digits of a number; its bit length bounds their count. *)
Definition render_nat (n : N) : pystr := digits_of (S (N.to_nat (N.size n))) n [].

Definition render_int (z : Z) : pystr :=
  match z with
  | Z0 => u "0"
  | Zpos p => render_nat (Npos p)
  | Zneg p => u "-" ++ render_nat (Npos p)
  end.

Definition hex_digit (n : N) : N := if (n <? 10)%N then (n + 48)%N else (n + 87)%N.

(** The escapes of [json.encoder.ESCAPE]. *)
Definition escape_char (c : N) : pystr :=
  if (c =? 34)%N then [92; 34]%N
  else if (c =? 92)%N then [92; 92]%N
  else if (c =? 10)%N then [92; 110]%N
  else if (c =? 13)%N then [92; 114]%N
  else if (c =? 9)%N then [92; 116]%N
  else if (c =? 12)%N then [92; 102]%N
  else if (c =? 8)%N then [92; 98]%N
  else if (c <? 32)%N then [92; 117; 48; 48; hex_digit (c / 16); hex_digit (c mod 16)]%N
  else [c].

Definition render_str (s : pystr) : pystr := 34%N :: (s ≫= escape_char) ++ [34%N].

Definition join (sep : pystr) (l : list pystr) : pystr :=
  match l with
  | [] => []
  | x :: l' => x ++ (l' ≫= fun y => sep ++ y)
  end.

Definition render_float `{FloatRepr} (f : float) : pystr :=
  if PrimFloat.is_nan f then u "NaN"
  else if isfinite f then float_repr f
  else if 0 <? f then u "Infinity" else u "-Infinity".

Fixpoint render `{FloatRepr} (d : jdoc) : pystr :=
  match d with
  | JNull => u "null"
  | JBool true => u "true"
  | JBool false => u "false"
  | JInt z => render_int z
  | JFloat f => render_float f
  | JStr s => render_str s
  | JArr l => u "[" ++ join (u ",") (map render l) ++ u "]"
  | JObj l =>
      u "{" ++ join (u ",") (map (fun kv => match kv with
        (k, x) => render_str k ++ u ":" ++ render x end) l) ++ u "}"
  end.

(** ** [str.encode("utf-8")] *)

Definition is_surrogate (c : N) : bool := ((55296 <=? c) && (c <=? 57343))%N.

Definition utf8_width (c : N) : nat :=
  if (c <? 128)%N then 1 else if (c <? 2048)%N then 2 else if (c <? 65536)%N then 3 else 4.

(** [len(s.encode("utf-8"))]; [None] is the [UnicodeEncodeError] of a lone surrogate. *)
Definition utf8_len (s : pystr) : option nat :=
  if existsb is_surrogate s then None else Some (sum_list_with utf8_width s).

(** [json_valid(text)] of SQLite: RFC 8259, so no [NaN] or [Infinity]. *)
Fixpoint json_valid (d : jdoc) : bool :=
  match d with
  | JFloat f => isfinite f
  | JArr l => forallb json_valid l
  | JObj l => forallb (fun kv => match kv with (_, x) => json_valid x end) l
  | _ => true
  end.

(** ** Lemmas *)

(** The number a run of digits denotes. *)
Definition digits_value (a : N) (s : pystr) : N := fold_left (fun a c => (a * 10 + (c - 48))%N) s a.

Lemma digits_of_value fuel n acc :
  (n < 10 ^ N.of_nat fuel)%N -> digits_value 0 (digits_of fuel n acc) = digits_value n acc.
Proof.
  revert n acc. induction fuel as [|k IH]; intros n acc H; cbn [digits_of].
  { cbn in H. by replace n with 0%N by lia. }
  rewrite Nat2N.inj_succ, N.pow_succ_r' in H. pose proof (N.div_mod n 10 ltac:(lia)).
  destruct (N.ltb_spec n 10).
  - change (digits_value (0 * 10 + (n mod 10 + 48 - 48))%N acc = digits_value n acc).
    rewrite N.mod_small by done. f_equal. lia.
  - rewrite IH by (apply N.Div0.div_lt_upper_bound; exact H).
    change (digits_value (n / 10 * 10 + (n mod 10 + 48 - 48))%N acc = digits_value n acc).
    f_equal. rewrite N.add_sub, N.mul_comm. by symmetry.
Qed.

Lemma render_nat_value n : digits_value 0 (render_nat n) = n.
Proof.
  unfold render_nat. rewrite digits_of_value; [done|]. rewrite Nat2N.inj_succ, N2Nat.id.
  apply N.lt_le_trans with (2 ^ N.size n)%N; [apply N.size_gt|].
  transitivity (10 ^ N.size n)%N; [by apply N.pow_le_mono_l|]. apply N.pow_le_mono_r; lia.
Qed.

Lemma render_nat_inj n m : render_nat n = render_nat m -> n = m.
Proof. intros H. by rewrite <- (render_nat_value n), H, render_nat_value. Qed.

Lemma str_ltb_irrefl a : str_ltb a a = false.
Proof.
  induction a as [|x a IH]; [done|]. cbn. by rewrite N.ltb_irrefl, N.eqb_refl, IH.
Qed.

Lemma insert_key_perm {V} k (v : V) l : insert_key k v l ≡ₚ (k, v) :: l.
Proof.
  induction l as [|[k' v'] l IH]; [done|]. cbn [insert_key fst]. case_match; [done|].
  rewrite IH. apply Permutation_swap.
Qed.

Lemma sort_keys_perm {V} (l : list (pystr * V)) : sort_keys l ≡ₚ l.
Proof.
  induction l as [|[k v] l IH]; [done|]. cbn. by rewrite insert_key_perm, IH.
Qed.

Definition dict_of (l : list (pystr * jdoc)) : pydict :=
  map (fun kv => match kv with (k, x) => (KStr k, json_decode x) end) l.

Lemma dict_of_perm l l' : l ≡ₚ l' -> dict_of l ≡ₚ dict_of l'.
Proof. intros H. unfold dict_of. by apply Permutation_map. Qed.

Lemma dget_perm {V} (d d' : list (pykey * V)) k :
  dict_ok d -> d ≡ₚ d' -> dget d' k = dget d k.
Proof.
  intros Hd Hp. assert (dict_ok d') as Hd' by (unfold dict_ok in *; by rewrite <- Hp).
  destruct (dget d k) as [v|] eqn:E.
  - apply elem_dget; [done|]. rewrite <- Hp. by apply dget_elem.
  - apply dget_None. rewrite <- Hp. by apply dget_None.
Qed.

Lemma dict_of_keys l : (dict_of l).*1 = KStr <$> l.*1.
Proof. induction l as [|[k x] l IH]; cbn; [done|]. f_equal. exact IH. Qed.

(** The items of a dict, encoded. *)
Definition encode_item (nan : bool) (kv : pykey * pyval) : result json_exn (pystr * jdoc) :=
  match kv with
  | (KStr k, x) => let* j := json_encode nan x in Ok (k, j)
  | (KOther _, _) => Err NotSerializable
  end.

Lemma json_encode_dict nan d :
  json_encode nan (PDict d) =
  (let* items := rmap (encode_item nan) d in Ok (JObj (sort_keys items))).
Proof. reflexivity. Qed.

Lemma encode_items_keys nan d items :
  rmap (encode_item nan) d = Ok items -> d.*1 = KStr <$> items.*1.
Proof.
  revert items. induction d as [|[[k|] x] d IH]; intros items H; cbn in H; inv_ok; try done.
  cbn. f_equal. by apply IH.
Qed.

Lemma encode_items_dget nan d items k :
  rmap (encode_item nan) d = Ok items ->
  match dget d k with
  | Some v => exists j, json_encode nan v = Ok j /\ dget (dict_of items) k = Some (json_decode j)
  | None => dget (dict_of items) k = None
  end.
Proof.
  revert items. induction d as [|[[k'|] x] d IH]; intros items H; cbn in H; inv_ok; try done.
  rewrite dget_cons. cbn [dict_of map]. rewrite dget_cons. case_bool_decide as K.
  - exists v1. done.
  - by apply IH.
Qed.

(** What reading a stored dict back gives for each key. *)
Lemma json_roundtrip_dget nan d items k :
  dict_ok d -> rmap (encode_item nan) d = Ok items ->
  match dget d k with
  | Some v => exists j, json_encode nan v = Ok j
                /\ dget (dict_of (sort_keys items)) k = Some (json_decode j)
  | None => dget (dict_of (sort_keys items)) k = None
  end.
Proof.
  intros Hd H. pose proof (encode_items_dget nan d items k H) as E.
  assert (dict_ok (dict_of items)) as Hi.
  { unfold dict_ok in *. by rewrite dict_of_keys, <- (encode_items_keys _ _ _ H). }
  rewrite (dget_perm (dict_of items) (dict_of (sort_keys items)) k Hi); [done|].
  apply dict_of_perm. by rewrite sort_keys_perm.
Qed.

Lemma json_roundtrip_keys nan d items allowed :
  rmap (encode_item nan) d = Ok items -> has_unknown allowed d = false ->
  has_unknown allowed (dict_of (sort_keys items)) = false.
Proof.
  rewrite !has_unknown_false. intros H U k v Hin.
  assert (k ∈ (dict_of (sort_keys items)).*1) as K by (apply list_elem_of_fmap; by exists (k, v)).
  rewrite (dict_of_perm _ items), dict_of_keys, <- (encode_items_keys _ _ _ H) in K
    by apply sort_keys_perm.
  apply list_elem_of_fmap in K as ([k0 v0] & -> & K). by apply (U k0 v0).
Qed.

(** Allowing NaN only adds successes. *)
Lemma json_encode_nan v : forall j, json_encode false v = Ok j -> json_encode true v = Ok j.
Proof.
  assert (forall {A B} (f g : A -> result json_exn B) l,
    Forall (fun x => forall y, f x = Ok y -> g x = Ok y) l ->
    forall ys, rmap f l = Ok ys -> rmap g l = Ok ys) as L.
  { intros A B f g l. induction 1 as [|x l Hx _ IH]; intros ys H; cbn in *; inv_ok; [done|].
    rewrite (Hx _ eq_refl). cbn. by rewrite (IH _ eq_refl). }
  induction v as [| | | | | |l F|l F|d F|d F] using pyval_nested_ind; intros j H; try done.
  - cbn in H |- *. by inv_ok.
  - cbn in H |- *. inv_ok. by rewrite (L _ _ _ _ _ F _ E).
  - cbn in H |- *. inv_ok. by rewrite (L _ _ _ _ _ F _ E).
  - rewrite json_encode_dict in *. inv_ok. rewrite (L _ _ (encode_item false) (encode_item true) d) with (ys := v); [done| |done].
    eapply Forall_impl; [exact F|]. intros [[k|] x] Hx y; cbn in *; [|done]. intros Hy. inv_ok.
    by rewrite (Hx _ eq_refl).
Qed.
