(* ===== verification/Utf8.v ===== *)
(** * UTF-8: [str.encode], [bytes.decode] and byte-bounded slices

    [utf8_encode] is [s.encode("utf-8")], which raises on a lone surrogate.
    [utf8_decode true] is [b.decode("utf-8", errors="ignore")] and
    [utf8_decode false] the strict [b.decode("utf-8")]: a byte that cannot start
    or continue a sequence ends the longest valid part of that sequence, which is
    skipped or refused.  The lemmas relate cutting the encoding at any byte to
    cutting the text between two characters. *)

From S2P Require Import Prelude PyFloat PyValue Json.
Local Open Scope N_scope.

(** ** Encoding *)

(** A Python [str] holds code points below 0x110000. *)
Definition is_str (s : pystr) : Prop := Forall (fun c => c < 1114112) s.

Definition encodable (s : pystr) : Prop :=
  Forall (fun c => c < 1114112 /\ is_surrogate c = false) s.

Definition encode_char (c : N) : list N :=
  if c <? 128 then [c]
  else if c <? 2048 then [192 + c / 64; 128 + c mod 64]
  else if c <? 65536 then [224 + c / 4096; 128 + c / 64 mod 64; 128 + c mod 64]
  else [240 + c / 262144; 128 + c / 4096 mod 64; 128 + c / 64 mod 64; 128 + c mod 64].

(** [None] is the [UnicodeEncodeError]. *)
Definition utf8_encode (s : pystr) : option (list N) :=
  if existsb is_surrogate s then None else Some (s ≫= encode_char).

(** ** Decoding *)

Definition between (lo hi b : N) : bool := (lo <=? b) && (b <=? hi).
Definition continuation (b : N) : bool := between 128 191 b.

(** Of a lead byte: how many bytes follow, the bits it carries, and the range of
    the first byte that follows. *)
Definition lead_byte (b : N) : option (nat * N * (N * N)) :=
  if between 194 223 b then Some (1%nat, b - 192, (128, 191))
  else if b =? 224 then Some (2%nat, 0, (160, 191))
  else if b =? 237 then Some (2%nat, 13, (128, 159))
  else if between 225 239 b then Some (2%nat, b - 224, (128, 191))
  else if b =? 240 then Some (3%nat, 0, (144, 191))
  else if between 241 243 b then Some (3%nat, b - 240, (128, 191))
  else if b =? 244 then Some (3%nat, 4, (128, 143))
  else None.

(** [acc * 64] plus the payload of a continuation byte. *)
Definition push (acc b : N) : N := acc * 64 + (b - 128).

Fixpoint utf8_decode (ignore : bool) (bs : list N) {struct bs} : option pystr :=
  let on_error (k : option pystr) := if ignore then k else None in
  match bs with
  | [] => Some []
  | b0 :: r0 =>
    if b0 <? 128 then cons b0 <$> utf8_decode ignore r0 else
    match lead_byte b0 with
    | None => on_error (utf8_decode ignore r0)
    | Some (n, acc0, (lo, hi)) =>
      match r0 with
      | [] => on_error (Some [])
      | b1 :: r1 =>
        if negb (between lo hi b1) then on_error (utf8_decode ignore r0) else
        let acc1 := push acc0 b1 in
        match n with
        | 1%nat => cons acc1 <$> utf8_decode ignore r1
        | _ =>
          match r1 with
          | [] => on_error (Some [])
          | b2 :: r2 =>
            if negb (continuation b2) then on_error (utf8_decode ignore r1) else
            let acc2 := push acc1 b2 in
            match n with
            | 2%nat => cons acc2 <$> utf8_decode ignore r2
            | _ =>
              match r2 with
              | [] => on_error (Some [])
              | b3 :: r3 =>
                if negb (continuation b3) then on_error (utf8_decode ignore r2)
                else cons (push acc2 b3) <$> utf8_decode ignore r3
              end
            end
          end
        end
      end
    end
  end.

(** [b.decode("utf-8", errors="ignore")], which never raises. *)
Definition decode_ignore (bs : list N) : pystr := default [] (utf8_decode true bs).

(** ** The same cuts on characters *)

Definition width (s : pystr) : nat := sum_list_with utf8_width s.

(** The longest prefix of at most [n] bytes. *)
Fixpoint prefix_within (n : nat) (s : pystr) : pystr :=
  match s with
  | [] => []
  | c :: s' => if (utf8_width c <=? n)%nat then c :: prefix_within (n - utf8_width c) s' else []
  end.

(** The longest suffix that starts at byte [n] or later. *)
Fixpoint suffix_from (n : nat) (s : pystr) : pystr :=
  match s with
  | [] => []
  | c :: s' => if (n =? 0)%nat then s else suffix_from (n - utf8_width c) s'
  end.

(** ** Lemmas *)

Lemma encodable_encode s : encodable s -> utf8_encode s = Some (s ≫= encode_char).
Proof.
  intros H. unfold utf8_encode. replace (existsb is_surrogate s) with false; [done|].
  symmetry. rewrite existsb_false_forallb, forallb_forall. intros c Hc.
  rewrite <- list_elem_of_In in Hc. unfold encodable in H. rewrite Forall_forall in H. by destruct (H c Hc) as [_ ->].
Qed.

Lemma encode_encodable s bs : is_str s -> utf8_encode s = Some bs -> encodable s /\ bs = s ≫= encode_char.
Proof.
  unfold utf8_encode. intros Hs. destruct (existsb _ _) eqn:E; [done|]. intros [= <-]. split; [|done].
  rewrite existsb_false_forallb, forallb_forall in E. apply Forall_forall. intros c Hc.
  unfold is_str in Hs. rewrite Forall_forall in Hs. split; [by apply Hs|].
  rewrite list_elem_of_In in Hc. by apply negb_true_iff, E.
Qed.

Lemma encode_char_length c : length (encode_char c) = utf8_width c.
Proof. unfold encode_char, utf8_width. by repeat case_match. Qed.

Lemma encode_length s : length (s ≫= encode_char) = width s.
Proof.
  induction s as [|c s IH]; [done|]. rewrite bind_cons, length_app, encode_char_length.
  unfold width in *. cbn. by rewrite IH.
Qed.

Lemma utf8_width_pos c : (1 <= utf8_width c <= 4)%nat.
Proof. unfold utf8_width. repeat case_match; lia. Qed.

Lemma utf8_len_encode s : utf8_len s = length <$> utf8_encode s.
Proof.
  unfold utf8_len, utf8_encode. destruct (existsb _ _); [done|]. cbn. by rewrite encode_length.
Qed.

Ltac Nbool := repeat match goal with
  | H : (_ <? _) = true |- _ => apply N.ltb_lt in H
  | H : (_ <? _) = false |- _ => apply N.ltb_ge in H
  | H : (_ <=? _) = true |- _ => apply N.leb_le in H
  | H : (_ <=? _) = false |- _ => apply N.leb_gt in H
  | H : (_ =? _) = true |- _ => apply N.eqb_eq in H
  | H : (_ =? _) = false |- _ => apply N.eqb_neq in H
  | H : _ && _ = true |- _ => apply andb_prop in H as [? ?]
  | H : _ && _ = false |- _ => apply andb_false_iff in H
  end.

(** Decides every comparison of the goal by arithmetic. *)
Ltac Ncase := repeat match goal with
  | |- context [?a =? ?b] => destruct (N.eqb_spec a b); try lia
  | |- context [?a <=? ?b] => destruct (N.leb_spec a b); try lia
  | |- context [?a <? ?b] => destruct (N.ltb_spec a b); try lia
  end; cbn [andb negb].

(** The shape of the encoding of a character, as the decoder sees it. *)
Definition shape (c b0 b1 : N) (bs : list N) : Prop :=
  exists acc lo hi, lead_byte b0 = Some (S (length bs), acc, (lo, hi)) /\ (b0 <? 128) = false
    /\ between lo hi b1 = true /\ encode_char c = b0 :: b1 :: bs
    /\ Forall (fun b => continuation b = true) (b1 :: bs)
    /\ fold_left push bs (push acc b1) = c.

Ltac shape_tac := unfold lead_byte, continuation, between, push; cbn [fold_left length];
  repeat apply conj; try done; rewrite ?Forall_cons, ?Forall_nil; repeat apply conj;
  Ncase; try done; try lia; repeat f_equal; lia.

Lemma encode_char_shape c :
  c < 1114112 -> is_surrogate c = false ->
  (c < 128 /\ encode_char c = [c]) \/
  (exists b0 b1, shape c b0 b1 []) \/ (exists b0 b1 b2, shape c b0 b1 [b2])
  \/ (exists b0 b1 b2 b3, shape c b0 b1 [b2; b3]).
Proof.
  intros Hc Hs. unfold shape, encode_char, is_surrogate in *.
  destruct (c <? 128) eqn:E1; [left; by Nbool|right].
  assert (c / 64 < 17408 /\ c / 4096 < 272 /\ c / 262144 < 5) as (B1 & B2 & B3)
    by (repeat split; apply N.Div0.div_lt_upper_bound; lia).
  pose proof (N.mod_lt c 64 ltac:(done)) as L0. pose proof (N.Div0.div_mod c 64) as D0.
  pose proof (N.mod_lt (c / 64) 64 ltac:(done)) as L1. pose proof (N.Div0.div_mod (c / 64) 64) as D1.
  pose proof (N.mod_lt (c / 4096) 64 ltac:(done)) as L2. pose proof (N.Div0.div_mod (c / 4096) 64) as D2.
  rewrite !N.Div0.div_div in *.
  change (64 * 64) with 4096 in *. change (4096 * 64) with 262144 in *.
  set (m0 := c mod 64) in *. set (m1 := c / 64 mod 64) in *. set (m2 := c / 4096 mod 64) in *.
  set (q1 := c / 64) in *. set (q2 := c / 4096) in *. set (q3 := c / 262144) in *.
  clearbody m0 m1 m2 q1 q2 q3.
  destruct (c <? 2048) eqn:E2; [left|right; destruct (c <? 65536) eqn:E3; [left|right]]; Nbool.
  - exists (192 + q1), (128 + m0), q1, 128, 191. shape_tac.
  - exists (224 + q2), (128 + m1), (128 + m0), q2,
      (if q2 =? 0 then 160 else 128), (if q2 =? 13 then 159 else 191).
    assert (c < 55296 \/ 57343 < c) by (destruct Hs; Nbool; auto). shape_tac.
  - exists (240 + q3), (128 + m2), (128 + m1), (128 + m0), q3,
      (if q3 =? 0 then 144 else 128), (if q3 =? 4 then 143 else 191). shape_tac.
Qed.

(** A whole character at the front of the input is decoded. *)
Lemma utf8_decode_char ignore c bs :
  c < 1114112 -> is_surrogate c = false ->
  utf8_decode ignore (encode_char c ++ bs) = cons c <$> utf8_decode ignore bs.
Proof.
  intros Hc Hs. destruct (encode_char_shape c Hc Hs)
    as [[L ->]|[(b0 & b1 & H)|[(b0 & b1 & b2 & H)|(b0 & b1 & b2 & b3 & H)]]].
  { cbn. apply N.ltb_lt in L. by rewrite L. }
  all: destruct H as (acc & lo & hi & Hl & L & Hb & -> & F & <-); cbn -[push];
    rewrite Forall_cons in F; destruct F as [_ F];
    rewrite L, Hl, Hb; cbn -[push] in *; rewrite ?Forall_cons in F; destruct_and?; 
    repeat match goal with H : continuation _ = true |- _ => rewrite H end; done.
Qed.

(** Encoding then decoding gives the text back, strictly or not. *)
Lemma utf8_decode_encode ignore s :
  encodable s -> utf8_decode ignore (s ≫= encode_char) = Some s.
Proof.
  induction 1 as [|c s [Hc Hs] _ IH]; [done|].
  by rewrite bind_cons, utf8_decode_char, IH.
Qed.

(** A strict part of the encoding of a character decodes to nothing. *)
Lemma decode_partial_char c k :
  c < 1114112 -> is_surrogate c = false -> (k < utf8_width c)%nat ->
  decode_ignore (take k (encode_char c)) = [].
Proof.
  intros Hc Hs. rewrite <- encode_char_length. destruct (encode_char_shape c Hc Hs)
    as [[L ->]|[(b0 & b1 & H)|[(b0 & b1 & b2 & H)|(b0 & b1 & b2 & b3 & H)]]].
  { cbn. intros. by assert (k = 0)%nat as -> by lia. }
  all: destruct H as (acc & lo & hi & Hl & L & Hb & -> & F & <-); intros Hk;
    rewrite !Forall_cons in F; destruct_and?; unfold decode_ignore; cbn [length] in Hk;
    assert (k = 0 \/ k = 1 \/ k = 2 \/ k = 3)%nat as Hk' by lia;
    destruct Hk' as [-> |[-> |[-> | ->]]]; try lia; cbn -[push]; rewrite ?L, ?Hl, ?Hb; cbn -[push];
    repeat match goal with H : continuation _ = true |- _ => rewrite H end; done.
Qed.

(** Ignoring errors, decoding always succeeds. *)
Lemma utf8_decode_ignore bs : utf8_decode true bs = Some (decode_ignore bs).
Proof.
  unfold decode_ignore. cut (is_Some (utf8_decode true bs)); [by intros [? ->]|].
  remember (length bs) as n eqn:E. assert (length bs <= n)%nat as Hn by lia. clear E.
  revert bs Hn. induction n as [|n IH]; intros [|b0 r0] Hn; cbn in Hn; try lia; [done..|].
  assert (forall r, (length r <= length r0)%nat -> is_Some (utf8_decode true r)) as IH'
    by (intros; apply IH; lia).
  assert (forall r c, (length r <= length r0)%nat -> is_Some (cons c <$> utf8_decode true r)) as IHc
    by (intros r c Hr; destruct (IH' r Hr) as [? ->]; done).
  cbn -[push]. repeat first [done | case_match]; subst; first [apply IH' | apply IHc]; cbn; lia.
Qed.

Lemma decode_ignore_char c bs :
  c < 1114112 -> is_surrogate c = false -> decode_ignore (encode_char c ++ bs) = c :: decode_ignore bs.
Proof. intros Hc Hs. unfold decode_ignore at 1. by rewrite utf8_decode_char, utf8_decode_ignore. Qed.

(** Cutting the encoding after [k] bytes and ignoring what does not decode keeps
    the longest prefix of at most [k] bytes. *)
Lemma decode_take s k :
  encodable s -> decode_ignore (take k (s ≫= encode_char)) = prefix_within k s.
Proof.
  intros H. revert k. induction H as [|c s [Hc Hs] _ IH]; intros k; [by destruct k|].
  rewrite bind_cons. cbn [prefix_within]. rewrite take_app, encode_char_length.
  destruct (Nat.leb_spec (utf8_width c) k) as [L|L].
  - rewrite take_ge by (by rewrite encode_char_length). by rewrite decode_ignore_char, IH.
  - replace (k - utf8_width c)%nat with 0%nat by lia. rewrite take_0, app_nil_r.
    by apply decode_partial_char.
Qed.

(** Continuation bytes at the front are skipped. *)
Lemma decode_continuations bs r :
  Forall (fun b => continuation b = true) bs -> decode_ignore (bs ++ r) = decode_ignore r.
Proof.
  induction 1 as [|b bs Hb _ IH]; [done|]. rewrite <- IH. unfold decode_ignore at 1. cbn -[push].
  unfold continuation, between in Hb. Nbool.
  assert (b <? 128 = false) as -> by (apply N.ltb_ge; lia).
  assert (lead_byte b = None) as -> by (unfold lead_byte, between; by Ncase). done.
Qed.

Lemma drop_char_continuations c k :
  c < 1114112 -> is_surrogate c = false -> (0 < k)%nat ->
  Forall (fun b => continuation b = true) (drop k (encode_char c)).
Proof.
  intros Hc Hs Hk. destruct k as [|k]; [lia|]. destruct (encode_char_shape c Hc Hs)
    as [[L ->]|[(b0 & b1 & H)|[(b0 & b1 & b2 & H)|(b0 & b1 & b2 & b3 & H)]]]; [by destruct k| ..].
  all: destruct H as (acc & lo & hi & _ & _ & _ & -> & F & _); cbn [drop]; by apply Forall_drop.
Qed.

(** Cutting the first [k] bytes off keeps the characters that start after them. *)
Lemma decode_drop s k :
  encodable s -> decode_ignore (drop k (s ≫= encode_char)) = suffix_from k s.
Proof.
  intros H. revert k. induction H as [|c s [Hc Hs] F IH]; intros k; [by destruct k|].
  rewrite bind_cons. cbn [suffix_from]. destruct (Nat.eqb_spec k 0) as [-> |Hk].
  - rewrite drop_0, decode_ignore_char by done. f_equal. rewrite <- (drop_0 (s ≫= encode_char)), IH. by destruct s.
  - rewrite drop_app, encode_char_length, decode_continuations by (apply drop_char_continuations; [done..|lia]).
    apply IH.
Qed.

(** *** Cuts on characters *)

Lemma width_app s t : width (s ++ t) = (width s + width t)%nat.
Proof. unfold width. induction s as [|c s IH]; cbn; [done|]. rewrite IH. lia. Qed.

(** [prefix_within] is the longest prefix of at most [n] bytes. *)
Lemma prefix_within_spec n s :
  exists r, s = prefix_within n s ++ r /\ (width (prefix_within n s) <= n)%nat
    /\ (forall p q, s = p ++ q -> (width p <= n)%nat -> exists q', prefix_within n s = p ++ q').
Proof.
  revert n. induction s as [|c s IH]; intros n; cbn [prefix_within].
  { exists []. repeat split; [cbn; lia|]. intros p q H _. symmetry in H. apply app_nil in H as [-> ->]. by exists []. }
  pose proof (utf8_width_pos c). destruct (Nat.leb_spec (utf8_width c) n).
  - destruct (IH (n - utf8_width c)%nat) as (r & E & W & M). exists r. repeat split.
    + cbn. by rewrite <- E.
    + unfold width in *. cbn. lia.
    + intros [|d p] q Hq Wp; [by eexists|]. cbn in Hq. injection Hq as -> Hq.
      unfold width in Wp, W. cbn in Wp. destruct (M p q Hq ltac:(unfold width; lia)) as [q' Hq'].
      exists q'. cbn. by rewrite Hq'.
  - exists (c :: s). repeat split; [cbn; lia|]. intros [|d p] q Hq Wp; [by eexists|].
    cbn in Hq. injection Hq as -> Hq. unfold width in Wp. cbn in Wp. lia.
Qed.

Lemma prefix_within_width n s : (width (prefix_within n s) <= n)%nat.
Proof. by destruct (prefix_within_spec n s) as (r & _ & ? & _). Qed.

Lemma suffix_from_spec n s :
  exists p, s = p ++ suffix_from n s /\ ((n <= width p)%nat \/ suffix_from n s = []).
Proof.
  revert n. induction s as [|c s IH]; intros n; cbn [suffix_from]; [by exists []; auto|].
  destruct (Nat.eqb_spec n 0) as [-> |Hn]; [exists []; split; [done|cbn; lia]|].
  destruct (IH (n - utf8_width c)%nat) as (p & E & H). exists (c :: p). split; [cbn; by rewrite <- E|].
  destruct H as [H|H]; [left|by right]. unfold width in *. cbn. lia.
Qed.

(** A suffix cut [k] bytes before the end has at most [k] bytes. *)
Lemma suffix_from_width s k : (width (suffix_from (width s - k) s) <= k)%nat.
Proof.
  destruct (suffix_from_spec (width s - k) s) as (p & E & H).
  destruct H as [H| ->]; [|cbn; lia]. apply (f_equal width) in E. rewrite width_app in E. lia.
Qed.

Lemma encodable_app s t : encodable (s ++ t) <-> encodable s /\ encodable t.
Proof. apply Forall_app. Qed.

Lemma utf8_len_encodable s : encodable s -> utf8_len s = Some (width s).
Proof. intros H. by rewrite utf8_len_encode, encodable_encode; [cbn; rewrite encode_length|]. Qed.

Lemma utf8_len_Some s n : is_str s -> utf8_len s = Some n -> encodable s /\ n = width s.
Proof.
  intros Hs. rewrite utf8_len_encode. destruct (utf8_encode s) eqn:E; [|done]. intros [= <-].
  destruct (encode_encodable s _ Hs E) as [? ->]. by rewrite encode_length.
Qed.
