(* ===== verification/PyDatetime.v ===== *)
(** * Timestamps: [datetime] arithmetic and its ISO 8601 text

    [datetime] is the naive date and time of the standard library: proleptic
    Gregorian days, years 1 to 9999, microseconds.  [instant] counts microseconds,
    [of_instant] inverts it (used by [astimezone]), [isoformat] prints.  Parsing,
    [datetime.fromisoformat], is the operation of the class [IsoFormat] together
    with what it guarantees of a value it returns; [iso_basic] at the end is an
    executable instance. *)

From S2P Require Import Prelude PyFloat PyValue Json.
From Stdlib Require Import ZArithRing.
Local Open Scope Z_scope.

Record datetime : Type := mkDatetime {
  year : Z; month : Z; day : Z; hour : Z; minute : Z; second : Z; microsecond : Z }.

#[export] Instance datetime_eq_dec : EqDecision datetime.
Proof. solve_decision. Defined.

Definition is_leap (y : Z) : bool := (y mod 4 =? 0) && (negb (y mod 100 =? 0) || (y mod 400 =? 0)).

(** Days before January 1st of the year. *)
Definition days_before_year (y : Z) : Z :=
  let y := y - 1 in y * 365 + y / 4 - y / 100 + y / 400.

Definition days_in_month (y m : Z) : Z :=
  if m =? 2 then (if is_leap y then 29 else 28)
  else if (m =? 4) || (m =? 6) || (m =? 9) || (m =? 11) then 30 else 31.

Fixpoint days_before (y : Z) (m : nat) : Z :=
  match m with
  | O => 0
  | S k => days_before y k + days_in_month y (Z.of_nat m)
  end.

(** Days of the year before the first of the month. *)
Definition days_before_month (y m : Z) : Z := days_before y (Z.to_nat (m - 1)).

Definition ordinal (d : datetime) : Z :=
  days_before_year (year d) + days_before_month (year d) (month d) + day d.

Definition DAY : Z := 86400000000.

Definition time_of_day (d : datetime) : Z :=
  ((hour d * 60 + minute d) * 60 + second d) * 1000000 + microsecond d.

(** Microseconds since the day before January 1st of year 1. *)
Definition instant (d : datetime) : Z := ordinal d * DAY + time_of_day d.

(** What the constructor accepts. *)
Definition valid_datetime (d : datetime) : bool :=
  (1 <=? year d) && (year d <=? 9999) && (1 <=? month d) && (month d <=? 12)
  && (1 <=? day d) && (day d <=? days_in_month (year d) (month d))
  && (0 <=? hour d) && (hour d <=? 23) && (0 <=? minute d) && (minute d <=? 59)
  && (0 <=? second d) && (second d <=? 59) && (0 <=? microsecond d) && (microsecond d <=? 999999).

(** ** From a number of days back to a date *)

(** The year that contains day [n], searched upwards; the two estimates of the
    year by 366 and by 365 days differ by less than the fuel. *)
Fixpoint find_year (fuel : nat) (y n : Z) : Z :=
  match fuel with
  | O => y
  | S k => if n <=? days_before_year (y + 1) then y else find_year k (y + 1) n
  end.

Fixpoint find_month (fuel : nat) (y m r : Z) : Z :=
  match fuel with
  | O => m
  | S k => if r <=? days_before_month y (m + 1) then m else find_month k y (m + 1) r
  end.

Definition of_instant (t : Z) : datetime :=
  let n := t / DAY in
  let y := find_year 30 ((n - 1) / 366 + 1) n in
  let r := n - days_before_year y in
  let m := find_month 11 y 1 r in
  let us := t mod DAY in
  mkDatetime y m (r - days_before_month y m)
    (us / 3600000000) (us / 60000000 mod 60) (us / 1000000 mod 60) (us mod 1000000).

(** ** Conversion to UTC *)

(** The first and last instants a [datetime] can hold. *)
Definition MIN_INSTANT : Z := DAY.
Definition MAX_INSTANT : Z := 3652060 * DAY - 1.

(** [dt.astimezone(timezone.utc).replace(tzinfo=None)]: [None] is [OverflowError]. *)
Definition to_utc (d : datetime) (offset : Z) : option datetime :=
  let t := instant d - offset in
  if (MIN_INSTANT <=? t) && (t <=? MAX_INSTANT) then Some (of_instant t) else None.

(** ** Text *)

(** The decimal digits of a number on a fixed width. *)
Fixpoint padded (w : nat) (n : Z) : pystr :=
  match w with
  | O => []
  | S k => padded k (n / 10) ++ [(Z.to_N (n mod 10) + 48)%N]
  end.

(** The microseconds, printed only when there are any. *)
Definition micros_text (us : Z) : pystr := if us =? 0 then [] else u "." ++ padded 6 us.

(** [dt.isoformat()]. *)
Definition isoformat (d : datetime) : pystr :=
  padded 4 (year d) ++ u "-" ++ padded 2 (month d) ++ u "-" ++ padded 2 (day d) ++ u "T"
  ++ padded 2 (hour d) ++ u ":" ++ padded 2 (minute d) ++ u ":" ++ padded 2 (second d)
  ++ micros_text (microsecond d).

(** [datetime.fromisoformat]: the date and time and the UTC offset in
    microseconds when the text has one; [None] is [ValueError]. *)
Class IsoFormat : Type := {
  fromisoformat : pystr -> option (datetime * option Z);
  fromisoformat_valid : forall s d o, fromisoformat s = Some (d, o) ->
    valid_datetime d = true /\ forall z, o = Some z -> - DAY < z < DAY }.

(** ** Days and years *)

Lemma days_before_year_succ y :
  days_before_year (y + 1) = days_before_year y + (if is_leap y then 366 else 365).
Proof.
  unfold days_before_year, is_leap. replace (y + 1 - 1) with (y - 1 + 1) by lia.
  set (k := y - 1). replace y with (k + 1) by lia.
  pose proof (Z.div_mod (k + 1) 4). pose proof (Z.div_mod k 4). pose proof (Z.mod_pos_bound (k + 1) 4).
  pose proof (Z.mod_pos_bound k 4). pose proof (Z.div_mod (k + 1) 100). pose proof (Z.div_mod k 100).
  pose proof (Z.mod_pos_bound (k + 1) 100). pose proof (Z.mod_pos_bound k 100).
  pose proof (Z.div_mod (k + 1) 400). pose proof (Z.div_mod k 400).
  pose proof (Z.mod_pos_bound (k + 1) 400). pose proof (Z.mod_pos_bound k 400).
  destruct (Z.eqb_spec ((k + 1) mod 4) 0), (Z.eqb_spec ((k + 1) mod 100) 0), (Z.eqb_spec ((k + 1) mod 400) 0);
    cbn [andb orb negb]; lia.
Qed.

Lemma days_before_year_mono y y' : y <= y' -> days_before_year y <= days_before_year y'.
Proof.
  intros H. replace y' with (y + Z.of_nat (Z.to_nat (y' - y))) by lia. generalize (Z.to_nat (y' - y)) as n.
  induction n as [|n IH]; [rewrite Z.add_0_r; lia|].
  replace (y + Z.of_nat (S n)) with (y + Z.of_nat n + 1) by lia. rewrite days_before_year_succ. destruct (is_leap _); lia.
Qed.

Lemma days_in_month_pos y m : 28 <= days_in_month y m <= 31.
Proof. unfold days_in_month. repeat case_match; lia. Qed.

Lemma days_before_month_succ y m : 1 <= m -> days_before_month y (m + 1) = days_before_month y m + days_in_month y m.
Proof.
  intros H. unfold days_before_month. replace (Z.to_nat (m + 1 - 1)) with (S (Z.to_nat (m - 1))) by lia.
  cbn [days_before]. by replace (Z.of_nat (S (Z.to_nat (m - 1)))) with m by lia.
Qed.

Lemma days_before_month_mono y m m' : 1 <= m <= m' -> days_before_month y m <= days_before_month y m'.
Proof.
  intros H. replace m' with (m + Z.of_nat (Z.to_nat (m' - m))) by lia. generalize (Z.to_nat (m' - m)) as n.
  induction n as [|n IH]; [rewrite Z.add_0_r; lia|].
  replace (m + Z.of_nat (S n)) with (m + Z.of_nat n + 1) by lia. rewrite days_before_month_succ by lia.
  pose proof (days_in_month_pos y (m + Z.of_nat n)). lia.
Qed.

Lemma year_length y : days_before_month y 13 = if is_leap y then 366 else 365.
Proof.
  unfold days_before_month. change (Z.to_nat (13 - 1)) with 12%nat. cbn [days_before]. unfold days_in_month. cbn -[is_leap].
  by destruct (is_leap y).
Qed.

Lemma days_before_month_1 y : days_before_month y 1 = 0.
Proof. reflexivity. Qed.

(** ** The order of instants is the order of the fields *)

(** The fields, most significant first. *)
Definition fields (d : datetime) : list Z :=
  [year d; month d; day d; hour d; minute d; second d; microsecond d].

Fixpoint lex_lt (a b : list Z) : bool :=
  match a, b with
  | x :: a', y :: b' => (x <? y) || ((x =? y) && lex_lt a' b')
  | _, _ => false
  end.

Definition valid (d : datetime) : Prop :=
  1 <= year d <= 9999 /\ 1 <= month d <= 12 /\ 1 <= day d <= days_in_month (year d) (month d)
  /\ 0 <= hour d <= 23 /\ 0 <= minute d <= 59 /\ 0 <= second d <= 59 /\ 0 <= microsecond d <= 999999.

Lemma valid_datetime_spec d : valid_datetime d = true <-> valid d.
Proof. unfold valid_datetime, valid. rewrite !andb_true_iff, !Z.leb_le. tauto. Qed.

Lemma ordinal_bounds d : valid d ->
  days_before_year (year d) < ordinal d <= days_before_year (year d + 1)
  /\ days_before_month (year d) (month d) < ordinal d - days_before_year (year d)
     <= days_before_month (year d) (month d + 1).
Proof.
  intros (Hy & Hm & Hd & _). unfold ordinal. rewrite days_before_month_succ by lia.
  pose proof (days_before_month_mono (year d) 1 (month d) ltac:(lia)) as M1. rewrite days_before_month_1 in M1.
  pose proof (days_before_month_mono (year d) (month d + 1) 13 ltac:(lia)) as M2.
  rewrite year_length, days_before_month_succ in M2 by lia. rewrite days_before_year_succ. lia.
Qed.

Lemma time_of_day_bounds d : valid d -> 0 <= time_of_day d < DAY.
Proof. intros (_ & _ & _ & H). unfold time_of_day, DAY. lia. Qed.

Lemma instant_bounds d : valid d -> MIN_INSTANT <= instant d <= MAX_INSTANT.
Proof.
  intros V. destruct (ordinal_bounds d V) as [O _]. pose proof (time_of_day_bounds d V). destruct V as (Hy & _).
  pose proof (days_before_year_mono 1 (year d) ltac:(lia)) as M1.
  pose proof (days_before_year_mono (year d + 1) 10000 ltac:(lia)) as M2.
  change (days_before_year 1) with 0 in M1. change (days_before_year 10000) with 3652059 in M2.
  unfold instant, MIN_INSTANT, MAX_INSTANT, DAY in *. lia.
Qed.

Lemma instant_lex d e : valid d -> valid e -> lex_lt (fields d) (fields e) = true -> instant d < instant e.
Proof.
  intros Vd Ve. pose proof (ordinal_bounds d Vd) as [Od Md]. pose proof (ordinal_bounds e Ve) as [Oe Me].
  pose proof (time_of_day_bounds d Vd) as Td. pose proof (time_of_day_bounds e Ve) as Te.
  assert (ordinal d < ordinal e -> instant d < instant e) as Day by (unfold instant, DAY in *; lia).
  unfold fields. cbn [lex_lt].
  destruct (Z.ltb_spec (year d) (year e)) as [L|L]; cbn [orb andb].
  { intros _. apply Day. pose proof (days_before_year_mono (year d + 1) (year e) ltac:(lia)). lia. }
  destruct (Z.eqb_spec (year d) (year e)) as [Ey|]; [|done]. cbn [andb]. rewrite <- Ey in *.
  destruct (Z.ltb_spec (month d) (month e)) as [Lm|Lm]; cbn [orb andb].
  { intros _. apply Day. destruct Vd as (_ & Hm & _).
    pose proof (days_before_month_mono (year d) (month d + 1) (month e) ltac:(lia)). lia. }
  destruct (Z.eqb_spec (month d) (month e)) as [Em|]; [|done]. cbn [andb].
  assert (ordinal e - ordinal d = day e - day d) as Ed by (unfold ordinal; rewrite <- Ey, Em; lia).
  destruct Vd as (_ & _ & _ & Hd), Ve as (_ & _ & _ & He). unfold instant, time_of_day, DAY in *.
  destruct (Z.ltb_spec (day d) (day e)); cbn [orb andb]; [intros _; lia|].
  destruct (Z.eqb_spec (day d) (day e)); [cbn [andb]|done].
  destruct (Z.ltb_spec (hour d) (hour e)); cbn [orb andb]; [intros _; lia|].
  destruct (Z.eqb_spec (hour d) (hour e)); [cbn [andb]|done].
  destruct (Z.ltb_spec (minute d) (minute e)); cbn [orb andb]; [intros _; lia|].
  destruct (Z.eqb_spec (minute d) (minute e)); [cbn [andb]|done].
  destruct (Z.ltb_spec (second d) (second e)); cbn [orb andb]; [intros _; lia|].
  destruct (Z.eqb_spec (second d) (second e)); [cbn [andb]|done].
  destruct (Z.ltb_spec (microsecond d) (microsecond e)); cbn [orb andb]; [intros _; lia|].
  by rewrite andb_false_r.
Qed.

Lemma lex_lt_total a b : length a = length b -> a = b \/ lex_lt a b = true \/ lex_lt b a = true.
Proof.
  revert b. induction a as [|x a IH]; intros [|y b] H; try discriminate; [by left|]. cbn.
  destruct (Z.ltb_spec x y); [by right; left|]. destruct (Z.ltb_spec y x); [by right; right|].
  assert (x = y) as -> by lia. rewrite Z.eqb_refl. cbn. injection H as H. destruct (IH b H) as [-> |[?|?]]; auto.
Qed.

Lemma lex_lt_irrefl a : lex_lt a a = false.
Proof. induction a as [|x a IH]; [done|]. cbn. by rewrite Z.ltb_irrefl, Z.eqb_refl, IH. Qed.

Lemma fields_inj d e : fields d = fields e -> d = e.
Proof. destruct d, e. unfold fields. by intros [= -> -> -> -> -> -> ->]. Qed.

Lemma instant_lt_lex d e : valid d -> valid e -> (instant d < instant e <-> lex_lt (fields d) (fields e) = true).
Proof.
  intros Vd Ve. split; [|by apply instant_lex]. intros H.
  destruct (lex_lt_total (fields d) (fields e) eq_refl) as [->%fields_inj|[?|L]]; [lia|done|].
  apply instant_lex in L; [lia|done|done].
Qed.

Lemma instant_inj d e : valid d -> valid e -> instant d = instant e -> d = e.
Proof.
  intros Vd Ve H. destruct (lex_lt_total (fields d) (fields e) eq_refl) as [->%fields_inj|[L|L]]; [done|..];
    apply instant_lex in L; (lia || done).
Qed.

(** ** [of_instant] inverts [instant] *)

Lemma find_year_spec fuel y n :
  days_before_year y < n <= days_before_year (y + Z.of_nat fuel) ->
  y <= find_year fuel y n /\ days_before_year (find_year fuel y n) < n <= days_before_year (find_year fuel y n + 1).
Proof.
  revert y. induction fuel as [|k IH]; intros y H; [rewrite Z.add_0_r in H; lia|]. cbn [find_year].
  destruct (Z.leb_spec n (days_before_year (y + 1))); [lia|].
  destruct (IH (y + 1)) as [? ?]; [replace (y + 1 + Z.of_nat k) with (y + Z.of_nat (S k)) by lia; lia|]. lia.
Qed.

Lemma find_month_spec fuel y m r : 1 <= m ->
  days_before_month y m < r <= days_before_month y (m + 1 + Z.of_nat fuel) ->
  m <= find_month fuel y m r <= m + Z.of_nat fuel
  /\ days_before_month y (find_month fuel y m r) < r <= days_before_month y (find_month fuel y m r + 1).
Proof.
  revert m. induction fuel as [|k IH]; intros m Hm H; [rewrite Z.add_0_r in H; cbn; lia|]. cbn [find_month].
  destruct (Z.leb_spec r (days_before_month y (m + 1))); [lia|].
  destruct (IH (m + 1) ltac:(lia)) as [? ?]; [replace (m + 1 + 1 + Z.of_nat k) with (m + 1 + Z.of_nat (S k)) by lia; lia|]. lia.
Qed.

Lemma of_instant_spec t : MIN_INSTANT <= t <= MAX_INSTANT -> valid (of_instant t) /\ instant (of_instant t) = t.
Proof.
  intros Ht. unfold of_instant. set (n := t / DAY).
  pose proof (Z.div_mod t DAY ltac:(done)) as Dt. pose proof (Z.mod_pos_bound t DAY ltac:(done)) as Mt. fold n in Dt.
  assert (1 <= n <= 3652059) as Hn by (unfold MIN_INSTANT, MAX_INSTANT, DAY in *; lia).
  set (y0 := (n - 1) / 366 + 1).
  assert (days_before_year y0 < n <= days_before_year (y0 + Z.of_nat 30)) as Hy0.
  { unfold days_before_year, y0. pose proof (Z.div_mod (n - 1) 366). pose proof (Z.mod_pos_bound (n - 1) 366).
    set (q := (n - 1) / 366) in *. replace (q + 1 - 1) with q by lia. replace (q + 1 + Z.of_nat 30 - 1) with (q + 30) by lia.
    clearbody q. split.
    - pose proof (Z.div_le_upper_bound q 4 q ltac:(lia) ltac:(lia)).
      pose proof (Z.div_le_compat_l q 100 400 ltac:(lia) ltac:(lia)). lia.
    - pose proof (Z.div_mod (q + 30) 4). pose proof (Z.mod_pos_bound (q + 30) 4).
      pose proof (Z.div_mod (q + 30) 100). pose proof (Z.mod_pos_bound (q + 30) 100).
      pose proof (Z.div_pos (q + 30) 400 ltac:(lia) ltac:(lia)). lia. }
  destruct (find_year_spec 30 y0 n Hy0) as [Ly Hy]. set (y := find_year 30 y0 n) in *.
  assert (1 <= y <= 9999) as By.
  { split; [unfold y0 in Ly; pose proof (Z.div_pos (n - 1) 366 ltac:(lia) ltac:(lia)); lia|].
    destruct (Z.le_gt_cases y 9999); [done|exfalso]. pose proof (days_before_year_mono 10000 y ltac:(lia)) as M.
    change (days_before_year 10000) with 3652059 in M. lia. }
  rewrite days_before_year_succ in Hy. set (r := n - days_before_year y) in *.
  destruct (find_month_spec 11 y 1 r) as [Lm Hm]; [lia| |].
  { change (1 + 1 + Z.of_nat 11) with 13. rewrite days_before_month_1, year_length. unfold r. destruct (is_leap y); lia. }
  set (m := find_month 11 y 1 r) in *. rewrite days_before_month_succ in Hm by lia.
  set (us := t mod DAY) in *. unfold DAY in Mt.
  pose proof (Z.div_mod us 1000000 ltac:(done)). pose proof (Z.mod_pos_bound us 1000000 ltac:(done)).
  pose proof (Z.div_mod (us / 1000000) 60 ltac:(done)). pose proof (Z.mod_pos_bound (us / 1000000) 60 ltac:(done)).
  rewrite Z.div_div in * by done. change (1000000 * 60) with 60000000 in *.
  pose proof (Z.div_mod (us / 60000000) 60 ltac:(done)). pose proof (Z.mod_pos_bound (us / 60000000) 60 ltac:(done)).
  rewrite Z.div_div in * by done. change (60000000 * 60) with 3600000000 in *.
  split.
  - unfold valid. cbn [year month day hour minute second microsecond]. change (Z.of_nat 11) with 11 in Lm. split_and!; lia.
  - unfold instant, ordinal, time_of_day. cbn [year month day hour minute second microsecond]. unfold DAY in *. lia.
Qed.

(** ** The order of the text is the order of the fields *)

Lemma str_ltb_cons x y s t : str_ltb (x :: s) (y :: t) = (x <? y)%N || ((x =? y)%N && str_ltb s t).
Proof. reflexivity. Qed.

Lemma str_ltb_same p s t : str_ltb (p ++ s) (p ++ t) = str_ltb s t.
Proof. induction p as [|x p IH]; [done|]. cbn. by rewrite N.ltb_irrefl, N.eqb_refl, IH. Qed.

(** Numbers of the same width compare as their digits do. *)
Lemma padded_compare w n m s t :
  0 <= n < 10 ^ Z.of_nat w -> 0 <= m < 10 ^ Z.of_nat w ->
  str_ltb (padded w n ++ s) (padded w m ++ t) = (n <? m) || ((n =? m) && str_ltb s t).
Proof.
  revert n m s t. induction w as [|w IH]; intros n m s t Hn Hm.
  - change (10 ^ Z.of_nat 0) with 1 in *. assert (n = 0) as -> by lia. assert (m = 0) as -> by lia. done.
  - cbn [padded]. rewrite <- !app_assoc. cbn [app].
    rewrite Nat2Z.inj_succ, Z.pow_succ_r in Hn, Hm by lia.
    pose proof (Z.div_mod n 10 ltac:(done)). pose proof (Z.mod_pos_bound n 10 ltac:(done)).
    pose proof (Z.div_mod m 10 ltac:(done)). pose proof (Z.mod_pos_bound m 10 ltac:(done)).
    rewrite IH by (split; [apply Z.div_pos|apply Z.div_lt_upper_bound]; lia). rewrite str_ltb_cons.
    destruct (Z.ltb_spec (n / 10) (m / 10)); cbn [orb]; [by replace (n <? m) with true by lia|].
    destruct (Z.eqb_spec (n / 10) (m / 10)); cbn [andb];
      [|replace (n <? m) with false by lia; by replace (n =? m) with false by lia].
    destruct (N.ltb_spec (Z.to_N (n mod 10) + 48) (Z.to_N (m mod 10) + 48)); cbn [orb];
      [by replace (n <? m) with true by lia|].
    replace (n <? m) with false by lia. cbn [orb].
    destruct (N.eqb_spec (Z.to_N (n mod 10) + 48) (Z.to_N (m mod 10) + 48)); cbn [andb];
      [by replace (n =? m) with true by lia|by replace (n =? m) with false by lia].
Qed.

Lemma micros_compare us us' :
  0 <= us <= 999999 -> 0 <= us' <= 999999 ->
  str_ltb (micros_text us) (micros_text us') = (us <? us') || ((us =? us') && false).
Proof.
  intros Ud Ue. unfold micros_text. rewrite andb_false_r, orb_false_r.
  destruct (Z.eqb_spec us 0), (Z.eqb_spec us' 0).
  - by replace (us <? us') with false by lia.
  - by replace (us <? us') with true by lia.
  - by replace (us <? us') with false by lia.
  - rewrite str_ltb_same. rewrite <- (app_nil_r (padded 6 us)), <- (app_nil_r (padded 6 us')).
    rewrite padded_compare by (change (10 ^ Z.of_nat 6) with 1000000; lia). by rewrite andb_false_r, orb_false_r.
Qed.

Lemma isoformat_compare d e :
  valid d -> valid e -> str_ltb (isoformat d) (isoformat e) = lex_lt (fields d) (fields e).
Proof.
  intros (Yd & Md & Dd & Hd & Nd & Sd & Ud) (Ye & Me & De & He & Ne & Se & Ue).
  pose proof (days_in_month_pos (year d) (month d)). pose proof (days_in_month_pos (year e) (month e)).
  unfold isoformat, fields. cbn [lex_lt].
  rewrite padded_compare by (change (10 ^ Z.of_nat 4) with 10000; lia).
  do 5 (rewrite str_ltb_same, padded_compare by (change (10 ^ Z.of_nat 2) with 100; lia)).
  by rewrite micros_compare.
Qed.

(** Printed timestamps sort as the instants they denote. *)
Lemma isoformat_order d e :
  valid d -> valid e -> str_ltb (isoformat d) (isoformat e) = (instant d <? instant e).
Proof.
  intros Vd Ve. rewrite isoformat_compare by done. pose proof (instant_lt_lex d e Vd Ve) as [H1 H2].
  destruct (Z.ltb_spec (instant d) (instant e)) as [L|L]; [by apply H1|].
  destruct (lex_lt (fields d) (fields e)); [|done]. specialize (H2 eq_refl). lia.
Qed.

Lemma isoformat_inj d e : valid d -> valid e -> isoformat d = isoformat e -> d = e.
Proof.
  intros Vd Ve H. apply instant_inj; [done..|].
  pose proof (isoformat_order d e Vd Ve) as O1. pose proof (isoformat_order e d Ve Vd) as O2.
  rewrite H, str_ltb_irrefl in O1, O2. lia.
Qed.

(** ** An executable parser *)

(** The value of a run of decimal digits. *)
Definition number (s : pystr) : option Z :=
  if forallb (fun c => (48 <=? c)%N && (c <=? 57)%N) s
  then Some (fold_left (fun a c => a * 10 + Z.of_N (c - 48)) s 0) else None.

(** Nothing, [Z] or [+HH:MM]/[-HH:MM]. *)
Definition parse_offset (s : pystr) : option (option Z) :=
  match s with
  | [] => Some None
  | [z] => if (z =? 90)%N then Some (Some 0) else None
  | [sign; h1; h2; c; m1; m2] =>
      h ← number [h1; h2]; m ← number [m1; m2];
      let z := (h * 60 + m) * 60000000 in
      if negb (c =? 58)%N || (59 <? m) then None
      else if (sign =? 43)%N then Some (Some z) else if (sign =? 45)%N then Some (Some (- z)) else None
  | _ => None
  end.

(** [YYYY-MM-DDTHH:MM:SS], with [.ffffff] or without, and an offset. *)
Definition parse_fields (s : pystr) : option (datetime * option Z) :=
  match s with
  | y1 :: y2 :: y3 :: y4 :: c1 :: m1 :: m2 :: c2 :: d1 :: d2 :: _ :: h1 :: h2 :: c3 :: n1 :: n2 :: c4 :: s1 :: s2 :: rest =>
      if negb (bool_decide ([c1; c2; c3; c4] = u "--::")) then None else
      y ← number [y1; y2; y3; y4]; m ← number [m1; m2]; d ← number [d1; d2];
      h ← number [h1; h2]; n ← number [n1; n2]; sec ← number [s1; s2];
      let dotted := bool_decide (take 1 rest = u ".") in
      us ← (if dotted then number (take 6 (drop 1 rest)) else Some 0);
      o ← parse_offset (if dotted then drop 7 rest else rest);
      Some (mkDatetime y m d h n sec us, o)
  | _ => None
  end.

Definition parse_basic (s : pystr) : option (datetime * option Z) :=
  match parse_fields s with
  | Some (d, o) =>
      if valid_datetime d && (let z := default 0 o in (- DAY <? z) && (z <? DAY)) then Some (d, o) else None
  | None => None
  end.

Lemma parse_basic_valid s d o : parse_basic s = Some (d, o) ->
  valid_datetime d = true /\ forall z, o = Some z -> - DAY < z < DAY.
Proof.
  unfold parse_basic. destruct (parse_fields s) as [[d' o']|]; [|done].
  destruct (valid_datetime d' && _) eqn:E; [|done]. intros [= <- <-]. apply andb_prop in E as [E1 E2].
  split; [done|]. intros z ->. cbn in E2. rewrite andb_true_iff, !Z.ltb_lt in E2. done.
Qed.

Definition iso_basic : IsoFormat := {| fromisoformat := parse_basic; fromisoformat_valid := parse_basic_valid |}.

Example iso_example : @fromisoformat iso_basic (u "2026-07-30T10:00:00.5-04:00") = None
  /\ @fromisoformat iso_basic (u "2026-07-30T10:00:00-04:00") = Some (mkDatetime 2026 7 30 10 0 0 0, Some (-14400000000))
  /\ to_utc (mkDatetime 2026 7 30 22 0 0 0) (-14400000000) = Some (mkDatetime 2026 7 31 2 0 0 0)
  /\ isoformat (mkDatetime 2026 7 31 2 0 0 250) = u "2026-07-31T02:00:00.000250".
Proof. vm_compute. repeat split. Qed.
