(* ===== verification/Admission.v ===== *)
(** * Admission of a request

    Models src/backend/admission_contracts.py (request identity, input estimation,
    message limits) and src/backend/admission.py (network identity, keyed digests,
    the admission request and the reply of the admission store).

    Taken from the standard library as interfaces: case mapping of [str]
    ([UnicodeLower]), the [ipaddress] module ([IpLib]) and HMAC-SHA256 ([Hmac]);
    each has an executable instance below.  The admission store is the argument
    [rpc] of [reserve_admission_sync]. *)

From S2P Require Import Prelude PyFloat PyValue Json Utf8.
Local Open Scope Z_scope.

(** ** Constants *)

Definition NEW_MESSAGE_MAX_CHARS : Z := 4000.
Definition MESSAGE_MAX_ESTIMATED_UNITS : Z := 6000.
Definition PROVIDER_INPUT_MAX_ESTIMATED_UNITS : Z := 16000.

(** ** Errors *)

Record admission_error : Type := mkAdmissionError {
  ae_code : pystr;
  ae_actual_chars : Z;
  ae_actual_units : Z;
  ae_max_chars : Z;
  ae_max_units : Z }.

Inductive admission_exn : Type :=
| AdmissionError (e : admission_error)
| AdmissionUnavailable
| AdmissionConfigurationError
| TypeError
| ValueError
| UnicodeEncodeError.

Definition admission_error_code (code : pystr) : admission_exn :=
  AdmissionError (mkAdmissionError code 0 0 0 0).

(** ** Text *)

Definition HEX : pystr := u "0123456789abcdef".
Definition hex_char (c : N) : bool := bool_decide (c ∈ HEX).

(** [_is_hex]. *)
Definition _is_hex (s : pystr) : bool := forallb hex_char s.

Definition ascii (s : pystr) : Prop := Forall (fun c => (c < 128)%N) s.
Definition ascii_lower (c : N) : N := if ((65 <=? c) && (c <=? 90))%N then (c + 32)%N else c.

(** [str.lower()]: ASCII letters as ever; no other character is lowered to
    hexadecimal digits and hyphens only. *)
Class UnicodeLower : Type := {
  str_lower : pystr -> pystr;
  lower_ascii : forall s, ascii s -> str_lower s = map ascii_lower s;
  lower_other : forall s, ~ ascii s -> exists c, c ∈ str_lower s /\ hex_char c = false /\ c <> 45%N }.

(** [s.split(sep)] for a separator of one character. *)
Fixpoint split_on (sep : N) (s : pystr) : list pystr :=
  match s with
  | [] => [[]]
  | c :: s' =>
      if (c =? sep)%N then [] :: split_on sep s'
      else match split_on sep s' with p :: ps => (c :: p) :: ps | [] => [[c]] end
  end.

Definition starts_with (p s : pystr) : bool := bool_decide (take (length p) s = p).
Definition ends_with (p s : pystr) : bool := starts_with (rev p) (rev s).

(** ** Request identity *)

Definition RequestIdentity : Type := pystr.

Section Identity.
Context `{UL : UnicodeLower}.

Definition invalid_request_id : admission_exn := admission_error_code (u "invalid_request_id").

Definition _validate_canonical_uuid (raw : pystr) : result admission_exn pystr :=
  if negb (Nat.eqb (length raw) 36) then Err invalid_request_id else
  if negb (str_eqb raw (strip raw)) then Err invalid_request_id else
  if starts_with (u "{") raw || ends_with (u "}") raw then Err invalid_request_id else
  if starts_with (u "urn:") (str_lower raw) then Err invalid_request_id else
  let parts := split_on 45 raw in
  if negb (Nat.eqb (length parts) 5) then Err invalid_request_id else
  if existsb (fun pe => negb (Nat.eqb (length pe.1) pe.2)) (zip parts [8; 4; 4; 4; 12]%nat)
  then Err invalid_request_id else
  let normalized := str_lower raw in
  if existsb (fun p => negb (_is_hex p)) (split_on 45 normalized) then Err invalid_request_id
  else Ok normalized.

(** [RequestIdentity(raw)], and [RequestIdentity.parse]. *)
Definition RequestIdentity_init (raw : pyval) : result admission_exn RequestIdentity :=
  match raw with
  | PStr s => _validate_canonical_uuid s
  | _ => Err invalid_request_id
  end.
Definition RequestIdentity_parse (raw : pyval) : result admission_exn RequestIdentity :=
  RequestIdentity_init raw.

(** ** Input estimation and message limits *)

Definition estimate_text_units (text : pyval) : result admission_exn Z :=
  match text with
  | PStr s => match utf8_len s with
              | Some n => Ok (Z.max 1 (Z.of_nat n))
              | None => Err UnicodeEncodeError
              end
  | _ => Err TypeError
  end.

Definition validate_new_message (text : pyval) : result admission_exn unit :=
  match text with
  | PStr s =>
      let char_count := Z.of_nat (length s) in
      if NEW_MESSAGE_MAX_CHARS <? char_count
      then Err (AdmissionError (mkAdmissionError (u "message_too_long") char_count 0 NEW_MESSAGE_MAX_CHARS 0))
      else
        let* unit_count := estimate_text_units text in
        if MESSAGE_MAX_ESTIMATED_UNITS <? unit_count
        then Err (AdmissionError (mkAdmissionError (u "message_budget_exceeded") char_count unit_count
                    NEW_MESSAGE_MAX_CHARS MESSAGE_MAX_ESTIMATED_UNITS))
        else Ok tt
  | _ => Err (AdmissionError (mkAdmissionError (u "message_too_long") 0 0 NEW_MESSAGE_MAX_CHARS 0))
  end.

End Identity.

(** ** Network identity *)

(** The [ipaddress] module: addresses and networks with their versions. *)
Class IpLib : Type := {
  ip_address : Type;
  ip_network : Type;
  parse_address : pystr -> option ip_address;      (** [ipaddress.ip_address], [ValueError] as [None] *)
  parse_network : pystr -> option ip_network;      (** [ipaddress.ip_network(token, strict=False)] *)
  show_address : ip_address -> pystr;              (** [str(address)] *)
  same_version : ip_address -> ip_network -> bool;
  in_network : ip_address -> ip_network -> bool;
  show_parses : forall a, parse_address (show_address a) = Some a;
  show_stripped : forall a, show_address a <> [] /\ strip (show_address a) = show_address a }.

Definition UNKNOWN_NETWORK_IDENTITY : pystr := u "unknown".

Section Network.
Context `{IP : IpLib}.

Definition _parse_ip (value : pyval) : option ip_address :=
  match value with
  | PStr s => if bool_decide (s = []) || negb (str_eqb s (strip s)) then None else parse_address s
  | _ => None
  end.

Definition _is_trusted (address : ip_address) (networks : list ip_network) : bool :=
  existsb (fun network => same_version address network && in_network address network) networks.

(** The loop over the header: [None] is the early [return "unknown"]. *)
Fixpoint parse_chain (tokens : list pystr) : option (list ip_address) :=
  match tokens with
  | [] => Some []
  | raw :: rest =>
      let token := strip raw in
      if bool_decide (token = []) then None else
      match _parse_ip (PStr token) with
      | None => None
      | Some address => cons address <$> parse_chain rest
      end
  end.

Definition resolve_network_identity (peer_host x_forwarded_for : pyval) (networks : list ip_network) : pystr :=
  match _parse_ip peer_host with
  | None => UNKNOWN_NETWORK_IDENTITY
  | Some peer =>
      if negb (_is_trusted peer networks) then show_address peer else
      match x_forwarded_for with
      | PStr (c :: s) =>
          match parse_chain (split_on 44 (c :: s)) with
          | None | Some [] => UNKNOWN_NETWORK_IDENTITY
          | Some (first :: rest) =>
              match List.find (fun a => negb (_is_trusted a networks)) (rev (first :: rest)) with
              | Some address => show_address address
              | None => show_address first
              end
          end
      | _ => UNKNOWN_NETWORK_IDENTITY
      end
  end.

(** ** Configuration *)

Definition _validate_secret_bytes (value : list N) : result admission_exn (list N) :=
  if (length value <? 32)%nat then Err AdmissionConfigurationError else
  match utf8_decode false value with
  | None => Err AdmissionConfigurationError
  | Some decoded => if bool_decide (strip decoded = []) then Err AdmissionConfigurationError else Ok value
  end.

Record AdmissionRuntimeConfig : Type := mkAdmissionRuntimeConfig {
  secret_bytes : list N;
  trusted_proxy_networks : list ip_network }.

(** The constructor, with [__post_init__]. *)
Definition AdmissionRuntimeConfig_init (secret : list N) (networks : list ip_network)
  : result admission_exn AdmissionRuntimeConfig :=
  _validate_secret_bytes secret ;;; Ok (mkAdmissionRuntimeConfig secret networks).

Definition parse_cidr (raw_token : pystr) : result admission_exn ip_network :=
  let token := strip raw_token in
  if bool_decide (token = []) then Err AdmissionConfigurationError else
  match parse_network token with
  | Some n => Ok n
  | None => Err AdmissionConfigurationError
  end.

Definition from_values (secret trusted_proxy_cidrs : pyval) : result admission_exn AdmissionRuntimeConfig :=
  match secret with
  | PStr s =>
      if bool_decide (s = []) || bool_decide (strip s = []) then Err AdmissionConfigurationError else
      match utf8_encode s with
      | None => Err AdmissionConfigurationError
      | Some bytes =>
          _validate_secret_bytes bytes ;;;
          match trusted_proxy_cidrs with
          | PNone | PStr [] => AdmissionRuntimeConfig_init bytes []
          | PStr cidrs =>
              let* networks := rmap parse_cidr (split_on 44 cidrs) in
              AdmissionRuntimeConfig_init bytes networks
          | _ => Err AdmissionConfigurationError
          end
      end
  | _ => Err AdmissionConfigurationError
  end.

(** [from_env(env)] for a mapping [env]. *)
Definition from_env (env : pydict) : result admission_exn AdmissionRuntimeConfig :=
  from_values (default PNone (dget env (u "ADMISSION_HMAC_SECRET")))
              (default PNone (dget env (u "TRUSTED_PROXY_CIDRS"))).

(** ** Keyed digests *)

Definition MESSAGE_HMAC_DOMAIN : list N := u "message".
Definition NETWORK_HMAC_DOMAIN : list N := u "network".
Definition TURN_CORRELATION_DOMAIN : list N := u "turn-correlation".
Definition USER_REFERENCE_DOMAIN : list N := u "user-reference".

(** [hmac.new(key, data, sha256).hexdigest()]: 64 hexadecimal digits. *)
Class Hmac : Type := {
  hmac_hex : list N -> list N -> pystr;
  hmac_shape : forall key data, length (hmac_hex key data) = 64%nat /\ _is_hex (hmac_hex key data) = true }.

(** What is authenticated: the domain, a zero byte and the payload. *)
Definition tagged (domain payload : list N) : list N := domain ++ [0%N] ++ payload.

Context `{UL : UnicodeLower, HM : Hmac}.

Definition encode_payload (payload : pystr) : result admission_exn (list N) :=
  match utf8_encode payload with Some b => Ok b | None => Err UnicodeEncodeError end.

Definition compute_hmac_sha256 (secret domain : list N) (payload : pyval) : result admission_exn pystr :=
  let* validated_secret := _validate_secret_bytes secret in
  if negb (bool_decide (domain = MESSAGE_HMAC_DOMAIN) || bool_decide (domain = NETWORK_HMAC_DOMAIN))
  then Err ValueError else
  match payload with
  | PStr s => let* data := encode_payload s in Ok (hmac_hex validated_secret (tagged domain data))
  | _ => Err TypeError
  end.

(** [except AdmissionError: raise AdmissionUnavailable() from None]. *)
Definition unavailable_on_admission_error {A} (c : result admission_exn A) : result admission_exn A :=
  rcatch c (fun e => match e with AdmissionError _ => Err AdmissionUnavailable | e => Err e end).

Definition compute_turn_correlation (config : AdmissionRuntimeConfig) (request_id : pyval)
  : result admission_exn pystr :=
  let* canonical_request_id := unavailable_on_admission_error (RequestIdentity_init request_id) in
  let* validated_secret := _validate_secret_bytes (secret_bytes config) in
  let* data := encode_payload canonical_request_id in
  Ok (hmac_hex validated_secret (tagged TURN_CORRELATION_DOMAIN data)).

Definition compute_user_reference (config : AdmissionRuntimeConfig) (user_id : pyval)
  : result admission_exn pystr :=
  match user_id with
  | PStr s =>
      if bool_decide (s = []) || bool_decide (strip s = []) then Err AdmissionUnavailable else
      let* validated_secret := _validate_secret_bytes (secret_bytes config) in
      let* data := encode_payload s in
      Ok (hmac_hex validated_secret (tagged USER_REFERENCE_DOMAIN data))
  | _ => Err AdmissionUnavailable
  end.

(** ** The admission request *)

Definition _is_lower_hex64 (value : pyval) : bool :=
  match value with
  | PStr s => Nat.eqb (length s) 64 && forallb hex_char s
  | _ => false
  end.

Record AdmissionRequest : Type := mkAdmissionRequest {
  ar_user_id : pystr;
  ar_request_id : pystr;
  ar_message_hmac_sha256 : pystr;
  ar_network_hmac_sha256 : pystr;
  ar_estimated_units : Z }.

(** The constructor, with [__post_init__]. *)
Definition AdmissionRequest_init (user_id request_id message_hmac network_hmac estimated_units : pyval)
  : result admission_exn AdmissionRequest :=
  match user_id with
  | PStr uid =>
      if bool_decide (uid = []) || bool_decide (strip uid = []) || (128 <? length uid)%nat
      then Err AdmissionUnavailable else
      let* canonical_request_id := unavailable_on_admission_error (RequestIdentity_init request_id) in
      match message_hmac, network_hmac, estimated_units with
      | PStr mh, PStr nh, PInt units =>
          if negb (_is_lower_hex64 (PStr mh)) then Err AdmissionUnavailable else
          if negb (_is_lower_hex64 (PStr nh)) then Err AdmissionUnavailable else
          if negb ((1 <=? units) && (units <=? MESSAGE_MAX_ESTIMATED_UNITS)) then Err AdmissionUnavailable else
          Ok (mkAdmissionRequest uid canonical_request_id mh nh units)
      | _, _, _ => Err AdmissionUnavailable
      end
  | _ => Err AdmissionUnavailable
  end.

Definition rpc_params (r : AdmissionRequest) : pydict :=
  [(KStr (u "p_user_id"), PStr (ar_user_id r));
   (KStr (u "p_request_id"), PStr (ar_request_id r));
   (KStr (u "p_message_hmac_sha256"), PStr (ar_message_hmac_sha256 r));
   (KStr (u "p_network_hmac_sha256"), PStr (ar_network_hmac_sha256 r));
   (KStr (u "p_estimated_units"), PInt (ar_estimated_units r))].

Definition build_admission_request (user_id : pyval) (request_identity : RequestIdentity)
  (message network_identity : pyval) (config : AdmissionRuntimeConfig) : result admission_exn AdmissionRequest :=
  match user_id with
  | PStr uid =>
      if bool_decide (uid = []) || (128 <? length uid)%nat then Err AdmissionUnavailable else
      match message, network_identity with
      | PStr msg, PStr net =>
          let known := if str_eqb net UNKNOWN_NETWORK_IDENTITY then true else
            match _parse_ip (PStr net) with
            | Some a => str_eqb net (show_address a)
            | None => false
            end in
          if negb known then Err AdmissionUnavailable else
          let* message_hmac := compute_hmac_sha256 (secret_bytes config) MESSAGE_HMAC_DOMAIN (PStr msg) in
          let* network_hmac := compute_hmac_sha256 (secret_bytes config) NETWORK_HMAC_DOMAIN (PStr net) in
          let* units := estimate_text_units (PStr msg) in
          AdmissionRequest_init (PStr uid) (PStr request_identity) (PStr message_hmac) (PStr network_hmac) (PInt units)
      | _, _ => Err AdmissionUnavailable
      end
  | _ => Err AdmissionUnavailable
  end.

(** ** The reply of the admission store *)

(** [_EXPECTED_RETRY_AFTER], whose keys are [ADMISSION_DECISIONS]. *)
Definition EXPECTED_RETRY_AFTER : list (pystr * Z) :=
  [(u "admitted", 0); (u "request_replay_unavailable", 0); (u "request_id_conflict", 0);
   (u "invalid_admission_input", 0); (u "user_rate_limited", 60); (u "network_rate_limited", 60);
   (u "application_rate_limited", 60); (u "user_daily_request_quota_exceeded", 86400);
   (u "user_daily_unit_quota_exceeded", 86400)].

Definition expected_retry_after (decision : pystr) : option Z :=
  snd <$> List.find (fun kv => str_eqb kv.1 decision) EXPECTED_RETRY_AFTER.

Record AdmissionResult : Type := mkAdmissionResult {
  decision : pystr;
  retry_after_seconds : Z }.

(** The constructor, with [__post_init__]. *)
Definition AdmissionResult_init (d retry : pyval) : result admission_exn AdmissionResult :=
  match in_str_set d (EXPECTED_RETRY_AFTER.*1) with
  | None => Err TypeError
  | Some false => Err AdmissionUnavailable
  | Some true =>
      match d, retry with
      | PStr s, PInt z =>
          if bool_decide (expected_retry_after s = Some z) then Ok (mkAdmissionResult s z)
          else Err AdmissionUnavailable
      | _, _ => Err AdmissionUnavailable
      end
  end.

Definition parse_admission_result (payload : pyval) : result admission_exn AdmissionResult :=
  match payload with
  | PList [PDict row] =>
      let fields := [u "decision"; u "retry_after_seconds"] in
      if has_unknown fields row || has_missing fields row then Err AdmissionUnavailable else
      match default PNone (dget row (u "decision")), default PNone (dget row (u "retry_after_seconds")) with
      | PStr d, PInt retry =>
          match expected_retry_after d with
          | None => Err AdmissionUnavailable
          | Some z =>
              if (retry <? 0) || negb (retry =? z) then Err AdmissionUnavailable
              else AdmissionResult_init (PStr d) (PInt retry)
          end
      | _, _ => Err AdmissionUnavailable
      end
  | _ => Err AdmissionUnavailable
  end.

(** [reserve_admission_sync]: [rpc] answers with [response.data] or raises. *)
Definition reserve_admission_sync (client : option (pydict -> option pyval)) (request : AdmissionRequest)
  : result admission_exn AdmissionResult :=
  match client with
  | None => Err AdmissionUnavailable
  | Some rpc => match rpc (rpc_params request) with
                | Some payload => parse_admission_result payload
                | None => Err AdmissionUnavailable
                end
  end.

End Network.

(** ** Splitting *)

Definition joined (sep : N) (ps : list pystr) : pystr := join [sep] ps.

Lemma split_on_nonempty sep s : split_on sep s <> [].
Proof. destruct s as [|c s]; cbn; [done|]. repeat case_match; done. Qed.

(** The parts contain no separator, and joining them gives the string back. *)
Lemma split_on_join sep s : joined sep (split_on sep s) = s /\ Forall (fun p => sep ∉ p) (split_on sep s).
Proof.
  unfold joined. induction s as [|c s [IH F]]; cbn; [split; [done|repeat constructor; set_solver]|].
  destruct (N.eqb_spec c sep) as [-> |Hc].
  - split; [|constructor; [set_solver|done]].
    destruct (split_on sep s) as [|p ps] eqn:E; [by apply split_on_nonempty in E|].
    cbn in *. by rewrite IH.
  - destruct (split_on sep s) as [|p ps] eqn:E; [by apply split_on_nonempty in E|].
    apply Forall_cons_1 in F as [Fp F]. cbn in *. split; [by rewrite IH|].
    constructor; [|done]. set_solver.
Qed.

Lemma split_on_app sep p s : sep ∉ p -> split_on sep (p ++ sep :: s) = p :: split_on sep s.
Proof.
  induction p as [|c p IH]; intros H; cbn; [by rewrite N.eqb_refl|].
  destruct (N.eqb_spec c sep); [set_solver|]. by rewrite IH by set_solver.
Qed.

Lemma split_on_none sep p : sep ∉ p -> split_on sep p = [p].
Proof.
  induction p as [|c p IH]; intros H; cbn; [done|].
  destruct (N.eqb_spec c sep); [set_solver|]. by rewrite IH by set_solver.
Qed.

(** Splitting the join of separator-free parts gives the parts. *)
Lemma split_joined sep p ps :
  Forall (fun p => sep ∉ p) (p :: ps) -> split_on sep (joined sep (p :: ps)) = p :: ps.
Proof.
  revert p. induction ps as [|q ps IH]; intros p F; apply Forall_cons_1 in F as [Hp F].
  - unfold joined. cbn. rewrite app_nil_r. by apply split_on_none.
  - unfold joined in *. cbn. rewrite split_on_app by done. f_equal. by apply IH.
Qed.

(** A character of the string other than the separator is in some part. *)
Lemma split_on_elem sep s c : c ∈ s -> c <> sep -> exists p, p ∈ split_on sep s /\ c ∈ p.
Proof.
  induction s as [|d s IH]; intros Hc Hs; [set_solver|]. cbn.
  destruct (N.eqb_spec d sep) as [-> |Hd].
  - apply elem_of_cons in Hc as [-> |Hc]; [done|]. destruct (IH Hc Hs) as (p & ? & ?). exists p. set_solver.
  - destruct (split_on sep s) as [|p ps] eqn:E; [by apply split_on_nonempty in E|].
    apply elem_of_cons in Hc as [-> |Hc]; [exists (d :: p); set_solver|].
    destruct (IH Hc Hs) as (q & Hq & Hcq). apply elem_of_cons in Hq as [-> |Hq]; [exists (d :: p)|exists q]; set_solver.
Qed.

(** ** Hexadecimal text *)

(** A hexadecimal digit of either case. *)
Definition uuid_digit (c : N) : Prop := hex_char (ascii_lower c) = true /\ (c < 128)%N.

Lemma hex_char_cases c : hex_char c = true -> ((48 <= c <= 57) \/ (97 <= c <= 102))%N.
Proof.
  unfold hex_char. rewrite bool_decide_eq_true. intros H. cbv in H.
  repeat (apply elem_of_cons in H as [-> |H]; [lia|]). by apply elem_of_nil in H.
Qed.

Lemma uuid_digit_cases c :
  uuid_digit c -> ((48 <= c <= 57) \/ (97 <= c <= 102) \/ (65 <= c <= 70))%N.
Proof.
  intros [H L]. apply hex_char_cases in H. unfold ascii_lower in H.
  destruct ((65 <=? c) && (c <=? 90))%N eqn:E; Nbool; lia.
Qed.

Lemma ascii_lower_inv c sep : (sep < 65)%N -> ascii_lower c = sep <-> c = sep.
Proof.
  intros Hs. unfold ascii_lower. destruct ((65 <=? c) && (c <=? 90))%N eqn:E; [|done]. Nbool. lia.
Qed.

Lemma ascii_lower_idem c : ascii_lower (ascii_lower c) = ascii_lower c.
Proof.
  unfold ascii_lower at 2 3. destruct ((65 <=? c) && (c <=? 90))%N eqn:E; unfold ascii_lower; rewrite ?E; [|done].
  Nbool. destruct ((65 <=? c + 32) && (c + 32 <=? 90))%N eqn:E'; [Nbool; lia|done].
Qed.

Lemma split_on_lower s :
  split_on 45 (map ascii_lower s) = map (map ascii_lower) (split_on 45 s).
Proof.
  induction s as [|c s IH]; [done|]. cbn. pose proof (ascii_lower_inv c 45 ltac:(lia)) as [H1 H2].
  destruct (N.eqb_spec (ascii_lower c) 45) as [E|E], (N.eqb_spec c 45) as [E'|E']; try naive_solver; rewrite IH.
  - done.
  - destruct (split_on 45 s); done.
Qed.

(** The canonical form: 8-4-4-4-12 hexadecimal digits of either case. *)
Definition canonical_shape (s : pystr) : Prop :=
  exists ps, s = joined 45 ps /\ map length ps = [8; 4; 4; 4; 12]%nat /\ Forall (Forall uuid_digit) ps.

Section IdentityTheorems.
Context `{UL : UnicodeLower}.

Lemma uuid_digit_facts c : uuid_digit c -> is_space c = false /\ c <> 45%N /\ c <> 123%N /\ c <> 125%N.
Proof.
  intros H%uuid_digit_cases. repeat split; try lia. unfold is_space. Ncase; lia.
Qed.

Lemma lstrip_keep c s : is_space c = false -> lstrip (c :: s) = c :: s.
Proof. intros H. unfold lstrip. cbn. by rewrite H. Qed.

(** A string whose ends are not blank is stripped. *)
Lemma strip_ends c m d : is_space c = false -> is_space d = false -> strip (c :: m ++ [d]) = c :: m ++ [d].
Proof.
  intros Hc Hd. unfold strip. rewrite lstrip_keep by done. cbn [rev]. rewrite rev_app_distr. cbn [rev app].
  rewrite lstrip_keep by done. cbn. rewrite rev_app_distr. cbn. by rewrite rev_involutive.
Qed.

(** The canonical form passes every test of the validator. *)
Lemma canonical_shape_ends s :
  canonical_shape s -> length s = 36%nat /\ exists c m d, s = c :: m ++ [d] /\ uuid_digit c /\ uuid_digit d.
Proof.
  intros (ps & -> & L & F).
  destruct ps as [|p1 [|p2 [|p3 [|p4 [|p5 [|]]]]]]; try discriminate L. cbn in L. injection L as L1 L2 L3 L4 L5.
  rewrite !Forall_cons in F. destruct F as (F1 & F2 & F3 & F4 & F5 & _).
  unfold joined. cbn. rewrite app_nil_r, !length_app; cbn; rewrite !length_app; cbn; rewrite !length_app; cbn;
  rewrite !length_app; cbn; rewrite L1, L2, L3, L4, L5. split; [done|].
  destruct p1 as [|c p1]; [discriminate L1|]. destruct (rev p5) as [|d r5] eqn:E.
  { apply (f_equal (@length N)) in E. rewrite length_rev in E. cbn in E. lia. }
  apply (f_equal (@rev N)) in E. rewrite rev_involutive in E. cbn in E. subst p5.
  apply Forall_cons_1 in F1 as [Hc _]. apply Forall_app in F5 as [_ Hd]. apply Forall_cons_1 in Hd as [Hd _].
  eexists c, (p1 ++ 45%N :: p2 ++ 45%N :: p3 ++ 45%N :: p4 ++ 45%N :: rev r5), d.
  split; [|done]. cbn. f_equal. by rewrite <- !app_assoc; cbn; rewrite <- !app_assoc; cbn;
    rewrite <- !app_assoc; cbn; rewrite <- !app_assoc.
Qed.

Lemma canonical_shape_ascii s : canonical_shape s -> ascii s.
Proof.
  intros (ps & -> & _ & F). unfold ascii. apply Forall_forall. intros c Hc. unfold joined, join in Hc.
  rewrite Forall_forall in F. destruct ps as [|p ps]; [set_solver|].
  apply elem_of_app in Hc as [Hc|Hc].
  - specialize (F p ltac:(set_solver)). rewrite Forall_forall in F. by apply F.
  - apply list_elem_of_bind in Hc as (q & Hc & Hq). apply elem_of_cons in Hc as [-> |Hc]; [lia|].
    specialize (F q ltac:(set_solver)). rewrite Forall_forall in F. by apply F.
Qed.

Lemma canonical_shape_split s :
  canonical_shape s -> map length (split_on 45 s) = [8; 4; 4; 4; 12]%nat /\ Forall (Forall uuid_digit) (split_on 45 s).
Proof.
  intros (ps & -> & L & F). destruct ps as [|p ps]; [discriminate L|]. rewrite split_joined; [done|].
  eapply Forall_impl; [exact F|]. cbn. intros q Hq Hin. rewrite Forall_forall in Hq.
  destruct (uuid_digit_facts _ (Hq _ Hin)). naive_solver.
Qed.

Lemma hex_lower_digits p : Forall uuid_digit p <-> ascii p /\ _is_hex (map ascii_lower p) = true.
Proof.
  unfold ascii, _is_hex. induction p as [|c p IH]; cbn; [done|].
  rewrite !Forall_cons, IH, andb_true_iff. unfold uuid_digit. naive_solver.
Qed.

Lemma validate_uuid_complete s : canonical_shape s -> _validate_canonical_uuid s = Ok (map ascii_lower s).
Proof.
  intros H. pose proof (canonical_shape_ascii s H) as A. unfold _validate_canonical_uuid.
  rewrite !lower_ascii by done. destruct (canonical_shape_ends s H) as (-> & c & m & d & E & Hc & Hd).
  destruct (uuid_digit_facts c Hc) as (Sc & _ & Bc & _), (uuid_digit_facts d Hd) as (Sd & _ & _ & Bd).
  assert (strip s = s) as -> by (subst s; by apply strip_ends).
  unfold str_eqb. rewrite bool_decide_eq_true_2 by done. cbn [negb Nat.eqb].
  assert (starts_with (u "{") s || ends_with (u "}") s = false) as ->.
  { unfold ends_with, starts_with. subst s. cbn. rewrite rev_app_distr. cbn.
    rewrite !bool_decide_eq_false_2; [done| |]; intros [=]; [by apply Bd|by apply Bc]. }
  assert (starts_with (u "urn:") (map ascii_lower s) = false) as ->.
  { unfold starts_with. apply bool_decide_eq_false_2. subst s. cbn. intros [= E1 _].
    destruct Hc as [Hc _]. rewrite E1 in Hc. apply hex_char_cases in Hc. lia. }
  destruct (canonical_shape_split s H) as [L F].
  rewrite split_on_lower. destruct (split_on 45 s) as [|p1 [|p2 [|p3 [|p4 [|p5 [|]]]]]]; try discriminate L.
  cbn in L. injection L as L1 L2 L3 L4 L5. cbn -[_is_hex]. rewrite L1, L2, L3, L4, L5. cbn -[_is_hex].
  rewrite !Forall_cons in F. destruct F as (F1 & F2 & F3 & F4 & F5 & _).
  apply hex_lower_digits in F1 as [_ ->], F2 as [_ ->], F3 as [_ ->], F4 as [_ ->], F5 as [_ ->]. done.
Qed.

Lemma validate_uuid_sound s r : _validate_canonical_uuid s = Ok r -> canonical_shape s /\ r = map ascii_lower s.
Proof.
  unfold _validate_canonical_uuid. intros H. inv_ok. rename G4 into L, G5 into F.
  apply negb_false_iff, Nat.eqb_eq in G3.
  assert (ascii s) as A.
  { unfold ascii. destruct (decide (Forall (fun c => (c < 128)%N) s)) as [|n]; [done|exfalso].
    destruct (lower_other s n) as (c & Hc & Hx & H45).
    destruct (split_on_elem 45 _ c Hc H45) as (p & Hp & Hcp).
    rewrite existsb_false_forallb, forallb_forall in F. rewrite list_elem_of_In in Hp.
    specialize (F p Hp). rewrite negb_involutive in F. unfold _is_hex in F. rewrite forallb_forall in F.
    rewrite list_elem_of_In in Hcp. rewrite (F c Hcp) in Hx. done. }
  rewrite lower_ascii by done. split; [|done]. rewrite lower_ascii, split_on_lower in F by done.
  destruct (split_on_join 45 s) as [J _]. exists (split_on 45 s). split; [done|].
  assert (Forall ascii (split_on 45 s)) as As.
  { apply Forall_forall. intros p Hp. unfold ascii. apply Forall_forall. intros c Hc.
    unfold ascii in A. rewrite Forall_forall in A. apply A. rewrite <- J. unfold joined, join.
    destruct (split_on 45 s) as [|q qs]; [set_solver|]. apply elem_of_cons in Hp as [-> |Hp]; [set_solver|].
    apply elem_of_app. right. apply list_elem_of_bind. exists p. set_solver. }
  split.
  - destruct (split_on 45 s) as [|p1 [|p2 [|p3 [|p4 [|p5 [|]]]]]]; try discriminate G3. cbn -[Nat.eqb] in L |- *.
    rewrite !orb_false_iff, !negb_false_iff, !Nat.eqb_eq in L. destruct L as (-> & -> & -> & -> & -> & _). done.
  - rewrite existsb_false_forallb, forallb_forall in F. apply Forall_forall. intros p Hp.
    apply hex_lower_digits. rewrite Forall_forall in As. split; [by apply As|].
    specialize (F (map ascii_lower p)). rewrite negb_involutive in F. apply F, in_map. by apply list_elem_of_In.
Qed.

Lemma validate_uuid_error s e : _validate_canonical_uuid s = Err e -> e = invalid_request_id.
Proof.
  unfold _validate_canonical_uuid. intros H.
  repeat match type of H with (if ?b then _ else _) = _ => destruct b; [by injection H|] end. done.
Qed.

Lemma canonical_lower s : canonical_shape s -> canonical_shape (map ascii_lower s).
Proof.
  intros (ps & -> & L & F). exists (map (map ascii_lower) ps). repeat split.
  - unfold joined, join. destruct ps as [|p ps]; [done|]. cbn. rewrite map_app. f_equal.
    clear. induction ps as [|q ps IH]; [done|]. cbn. rewrite map_app. cbn in IH. by rewrite IH.
  - rewrite <- L, map_map. apply map_ext. intros. by rewrite length_map.
  - apply Forall_forall. intros q Hq. rewrite list_elem_of_In in Hq. apply in_map_iff in Hq as (p & <- & Hp).
    rewrite <- list_elem_of_In in Hp. rewrite Forall_forall in F. specialize (F p Hp).
    rewrite Forall_forall in F |- *. intros c Hc. rewrite list_elem_of_In in Hc.
    apply in_map_iff in Hc as (d & <- & Hd). rewrite <- list_elem_of_In in Hd. specialize (F d Hd).
    pose proof (uuid_digit_cases d F). destruct F as [F1 F2]. split; [by rewrite ascii_lower_idem|].
    unfold ascii_lower. destruct ((65 <=? d) && (d <=? 90))%N eqn:E; Nbool; lia.
Qed.

(** An identity is accepted again and left unchanged. *)
Lemma RequestIdentity_fixed raw id : RequestIdentity_init raw = Ok id -> RequestIdentity_init (PStr id) = Ok id.
Proof.
  destruct raw as [| | | |s| | | | |]; try discriminate. cbn. intros [H ->]%validate_uuid_sound.
  rewrite validate_uuid_complete by (by apply canonical_lower). f_equal. rewrite map_map.
  apply map_ext, ascii_lower_idem.
Qed.

(** Exactly the strings in the canonical 8-4-4-4-12 form are request
    identities; the identity is the lower-case form, itself accepted and left
    unchanged, so one request has one identity; every other value is refused with
    the one code that carries nothing of the input. *)
Theorem RequestIdentity_spec (raw : pyval) :
  (forall id, RequestIdentity_init raw = Ok id <->
     exists s, raw = PStr s /\ canonical_shape s /\ id = map ascii_lower s)
  /\ (forall id, RequestIdentity_init raw = Ok id -> RequestIdentity_init (PStr id) = Ok id)
  /\ (forall e, RequestIdentity_init raw = Err e -> e = invalid_request_id).
Proof.
  split_and!.
  - intros id. split.
    + destruct raw as [| | | |s| | | | |]; try discriminate. cbn. intros [? ->]%validate_uuid_sound. eauto.
    + intros (s & -> & H & ->). by apply validate_uuid_complete.
  - intros id. apply RequestIdentity_fixed.
  - intros e. destruct raw as [| | | |s| | | | |]; cbn; try congruence. apply validate_uuid_error.
Qed.

End IdentityTheorems.

(** ** Network identity *)

Section NetworkTheorems.
Context `{IP : IpLib}.

Lemma parse_chain_app l1 l2 :
  parse_chain (l1 ++ l2) = match parse_chain l1, parse_chain l2 with
                           | Some c1, Some c2 => Some (c1 ++ c2)
                           | _, _ => None
                           end.
Proof.
  induction l1 as [|t l1 IH]; cbn; [by destruct (parse_chain l2)|].
  repeat case_match; simplify_option_eq; done.
Qed.

Lemma split_on_two sep a b : split_on sep (a ++ sep :: b) = split_on sep a ++ split_on sep b.
Proof.
  induction a as [|c a IH]; cbn; [by rewrite N.eqb_refl|].
  destruct (N.eqb_spec c sep); [by rewrite IH|]. rewrite IH.
  destruct (split_on sep a) eqn:E; [by apply split_on_nonempty in E|done].
Qed.

Lemma find_app {A} (p : A -> bool) l1 l2 :
  List.find p (l1 ++ l2) = match List.find p l1 with Some x => Some x | None => List.find p l2 end.
Proof. induction l1 as [|x l1 IH]; cbn; [done|]. by destruct (p x). Qed.

Lemma find_some_exists {A} (p : A -> bool) l : existsb p l = true -> exists x, List.find p l = Some x /\ x ∈ l.
Proof.
  induction l as [|x l IH]; cbn; [done|]. destruct (p x); cbn; [exists x; set_solver|].
  intros (y & ? & ?)%IH. exists y. set_solver.
Qed.

(** The rightmost untrusted hop of a header, when the header names one. *)
Definition client_hop (networks : list ip_network) (header : pystr) : option ip_address :=
  match parse_chain (split_on 44 header) with
  | Some chain => List.find (fun a => negb (_is_trusted a networks)) (rev chain)
  | None => None
  end.

Lemma resolve_client_hop peer_host peer networks h a :
  _parse_ip peer_host = Some peer -> _is_trusted peer networks = true -> client_hop networks h = Some a ->
  resolve_network_identity peer_host (PStr h) networks = show_address a.
Proof.
  intros Hp Ht. unfold client_hop, resolve_network_identity. rewrite Hp, Ht. cbn [negb].
  destruct h as [|c h]; [done|]. destruct (parse_chain _) as [[|first rest]|]; [done| |done].
  by intros ->.
Qed.

(** Nothing a client writes into the forwarding header can choose its network
    identity: behind an untrusted peer the header is ignored, and behind a trusted
    proxy text put before what the proxies appended either leaves the identity
    as it was or makes it "unknown". *)
Theorem network_identity_unspoofable (peer_host : pyval) (networks : list ip_network) (forged appended : pystr) :
  (forall header header', (forall peer, _parse_ip peer_host = Some peer -> _is_trusted peer networks = false) ->
     resolve_network_identity peer_host header networks = resolve_network_identity peer_host header' networks)
  /\ (is_Some (client_hop networks appended) ->
      resolve_network_identity peer_host (PStr (forged ++ 44%N :: appended)) networks
        ∈ [resolve_network_identity peer_host (PStr appended) networks; UNKNOWN_NETWORK_IDENTITY]).
Proof.
  split.
  - intros header header' H. unfold resolve_network_identity. destruct (_parse_ip peer_host); [|done].
    by rewrite (H _ eq_refl).
  - intros [a Ha]. destruct (_parse_ip peer_host) as [peer|] eqn:Hp;
      [|unfold resolve_network_identity; rewrite Hp; set_solver].
    destruct (_is_trusted peer networks) eqn:Ht;
      [|unfold resolve_network_identity; rewrite Hp, Ht; set_solver].
    rewrite (resolve_client_hop _ peer _ appended a) by done.
    destruct (parse_chain (split_on 44 forged)) as [fc|] eqn:Ef.
    + rewrite (resolve_client_hop _ peer _ _ a); [set_solver|done..|].
      unfold client_hop in *. rewrite split_on_two, parse_chain_app, Ef.
      destruct (parse_chain (split_on 44 appended)) as [ac|]; [|done].
      by rewrite rev_app_distr, find_app, Ha.
    + assert (resolve_network_identity peer_host (PStr (forged ++ 44%N :: appended)) networks
        = UNKNOWN_NETWORK_IDENTITY) as ->; [|set_solver].
      unfold resolve_network_identity. rewrite Hp, Ht. cbn [negb].
      destruct (forged ++ 44%N :: appended) as [|c s] eqn:E; [done|].
      rewrite <- E, split_on_two, parse_chain_app, Ef. done.
Qed.

(** Every resolved identity is one that [build_admission_request] accepts. *)
Lemma resolved_identity_known peer_host header networks :
  let net := resolve_network_identity peer_host header networks in
  net = UNKNOWN_NETWORK_IDENTITY \/ exists a, net = show_address a /\ _parse_ip (PStr net) = Some a.
Proof.
  assert (forall a, _parse_ip (PStr (show_address a)) = Some a) as P.
  { intros a. cbn. destruct (show_stripped a) as [N S]. rewrite S, bool_decide_eq_false_2 by done.
    unfold str_eqb. rewrite bool_decide_eq_true_2 by done. cbn. apply show_parses. }
  cbn zeta. unfold resolve_network_identity. repeat case_match; auto; right; eauto.
Qed.

(** *** The digests *)

Lemma utf8_encode_inj p1 p2 b : is_str p1 -> is_str p2 -> utf8_encode p1 = Some b -> utf8_encode p2 = Some b -> p1 = p2.
Proof.
  intros S1 S2 H1 H2. destruct (encode_encodable p1 b S1 H1) as [E1 ->], (encode_encodable p2 _ S2 H2) as [E2 E].
  apply (f_equal (utf8_decode false)) in E. rewrite !utf8_decode_encode in E by done. congruence.
Qed.

Definition hmac_domains : list (list N) :=
  [MESSAGE_HMAC_DOMAIN; NETWORK_HMAC_DOMAIN; TURN_CORRELATION_DOMAIN; USER_REFERENCE_DOMAIN].

(** What is authenticated for one purpose is never what is authenticated for
    another, nor for another payload. *)
Lemma tagged_inj d1 d2 p1 p2 :
  d1 ∈ hmac_domains -> d2 ∈ hmac_domains -> tagged d1 p1 = tagged d2 p2 -> d1 = d2 /\ p1 = p2.
Proof.
  intros H1 H2 E.
  assert (forall d p, d ∈ hmac_domains -> split_on 0 (tagged d p) = d :: split_on 0 p) as S.
  { intros d p Hd. unfold tagged. apply split_on_app. intros Hz. cbv in Hd.
    repeat (apply elem_of_cons in Hd as [-> |Hd]; [by repeat (apply elem_of_cons in Hz as [Hz|Hz]; [discriminate Hz|]);
      apply elem_of_nil in Hz|]). by apply elem_of_nil in Hd. }
  assert (d1 = d2) as ->. { apply (f_equal (split_on 0)) in E. rewrite !S in E by done. congruence. }
  split; [done|]. unfold tagged in E. by apply app_inv_head in E as [= ->].
Qed.

Context `{UL : UnicodeLower, HM : Hmac}.

Lemma hmac_lower_hex64 key data : _is_lower_hex64 (PStr (hmac_hex key data)) = true.
Proof. destruct (hmac_shape key data) as [L H]. unfold _is_lower_hex64. by rewrite L, <- H. Qed.

Lemma config_secret secret networks c :
  AdmissionRuntimeConfig_init secret networks = Ok c -> _validate_secret_bytes (secret_bytes c) = Ok (secret_bytes c).
Proof.
  unfold AdmissionRuntimeConfig_init. intros H. inv_ok. cbn. rewrite E. f_equal.
  unfold _validate_secret_bytes in E. repeat case_match; congruence.
Qed.

Lemma utf8_encode_len s n : utf8_len s = Some n -> exists b, utf8_encode s = Some b.
Proof. rewrite utf8_len_encode. destruct (utf8_encode s); [eauto|done]. Qed.

Lemma hmac_of secret domain payload b :
  _validate_secret_bytes secret = Ok secret -> domain ∈ [MESSAGE_HMAC_DOMAIN; NETWORK_HMAC_DOMAIN] ->
  utf8_encode payload = Some b ->
  compute_hmac_sha256 secret domain (PStr payload) = Ok (hmac_hex secret (tagged domain b)).
Proof.
  intros Hs Hd Hb. unfold compute_hmac_sha256, encode_payload. rewrite Hs, Hb. cbn [rbind].
  replace (bool_decide (domain = MESSAGE_HMAC_DOMAIN) || bool_decide (domain = NETWORK_HMAC_DOMAIN)) with true; [done|].
  symmetry. apply orb_true_iff. rewrite !bool_decide_eq_true. set_solver.
Qed.

(** The checks of [build_admission_request] and of the constructor, passed. *)
Lemma build_admission_ok uid id msg net config bm bn :
  strip uid <> [] -> (length uid <= 128)%nat -> RequestIdentity_init (PStr id) = Ok id ->
  _validate_secret_bytes (secret_bytes config) = Ok (secret_bytes config) ->
  net = UNKNOWN_NETWORK_IDENTITY \/ (exists a, net = show_address a /\ _parse_ip (PStr net) = Some a) ->
  utf8_encode msg = Some bm -> utf8_encode net = Some bn -> (Z.of_nat (length bm) <= MESSAGE_MAX_ESTIMATED_UNITS) ->
  build_admission_request (PStr uid) id (PStr msg) (PStr net) config = Ok
    (mkAdmissionRequest uid id (hmac_hex (secret_bytes config) (tagged MESSAGE_HMAC_DOMAIN bm))
       (hmac_hex (secret_bytes config) (tagged NETWORK_HMAC_DOMAIN bn)) (Z.max 1 (Z.of_nat (length bm)))).
Proof.
  intros Hu Hul Hid Hs Hk Hm Hn Hb. unfold build_admission_request.
  assert (uid <> []) as Hu' by (by intros ->). rewrite (bool_decide_eq_false_2 (uid = [])) by done.
  assert ((128 <? length uid)%nat = false) as Hl by (by apply Nat.ltb_ge). rewrite Hl. cbn [orb].
  replace (if str_eqb net UNKNOWN_NETWORK_IDENTITY then true else _) with true.
  2: { destruct (str_eqb net UNKNOWN_NETWORK_IDENTITY) eqn:E; [done|]. destruct Hk as [Hk|(a & Hk & ->)].
       - apply str_eqb_eq in Hk. congruence.
       - symmetry. by apply str_eqb_eq. }
  cbn [negb]. rewrite (hmac_of _ _ msg bm), (hmac_of _ _ net bn) by (done || set_solver). cbn [rbind].
  unfold estimate_text_units. rewrite utf8_len_encode, Hm. cbn [fmap option_fmap option_map rbind].
  unfold AdmissionRequest_init. rewrite Hl, !bool_decide_eq_false_2 by done. cbn [orb].
  rewrite Hid. cbn [unavailable_on_admission_error rcatch rbind]. rewrite !hmac_lower_hex64. cbn [negb].
  replace ((1 <=? Z.max 1 (Z.of_nat (length bm))) && _) with true; [done|].
  symmetry. unfold MESSAGE_MAX_ESTIMATED_UNITS in *. rewrite andb_true_iff, !Z.leb_le. lia.
Qed.

(** A message that passes the limits, from an identified request of a known
    user, is always turned into an admission request, whatever the network said:
    its cost is within the store's bounds and its two digests authenticate the
    message and the network identity each under its own domain. *)
Theorem validated_message_admissible (uid id msg : pystr) (raw_id peer_host header : pyval) (secret bn : list N)
    (networks : list ip_network) (config : AdmissionRuntimeConfig) :
  let net := resolve_network_identity peer_host header networks in
  AdmissionRuntimeConfig_init secret networks = Ok config -> utf8_encode net = Some bn ->
  strip uid <> [] -> (length uid <= 128)%nat ->
  RequestIdentity_init raw_id = Ok id -> validate_new_message (PStr msg) = Ok tt ->
  exists bm, utf8_encode msg = Some bm /\ Z.of_nat (length bm) <= MESSAGE_MAX_ESTIMATED_UNITS
    /\ build_admission_request (PStr uid) id (PStr msg) (PStr net) config = Ok
         (mkAdmissionRequest uid id (hmac_hex secret (tagged MESSAGE_HMAC_DOMAIN bm))
            (hmac_hex secret (tagged NETWORK_HMAC_DOMAIN bn)) (Z.max 1 (Z.of_nat (length bm))))
    /\ (forall p, tagged MESSAGE_HMAC_DOMAIN bm <> tagged NETWORK_HMAC_DOMAIN p).
Proof.
  intros net Hc Hn Hu Hul Hid Hm.
  assert (secret_bytes config = secret) as Hs.
  { unfold AdmissionRuntimeConfig_init in Hc. destruct (_validate_secret_bytes secret); [|discriminate Hc].
    by injection Hc as <-. }
  apply config_secret in Hc. unfold validate_new_message in Hm.
  destruct (NEW_MESSAGE_MAX_CHARS <? _); [discriminate Hm|]. unfold estimate_text_units in Hm.
  rewrite utf8_len_encode in Hm. destruct (utf8_encode msg) as [bm|] eqn:Hbm; [|discriminate Hm]. cbn in Hm.
  destruct (MESSAGE_MAX_ESTIMATED_UNITS <? _) eqn:L; [discriminate Hm|]. apply Z.ltb_ge in L.
  exists bm. split_and!; [done|lia| |].
  - rewrite <- Hs. apply build_admission_ok; try done; [|apply resolved_identity_known|lia].
    by apply (RequestIdentity_fixed raw_id).
  - intros p E. apply tagged_inj in E as [E _]; [discriminate E|set_solver..].
Qed.

(** *** The reply *)

Lemma expected_retry_in d z : expected_retry_after d = Some z -> str_in d (EXPECTED_RETRY_AFTER.*1) = true /\ 0 <= z.
Proof.
  unfold expected_retry_after. destruct (List.find _ _) as [kv|] eqn:E; [|done]. intros [= <-].
  apply find_some in E as [Hin He]. apply str_eqb_eq in He as <-. split.
  - apply str_in_elem, list_elem_of_fmap. exists kv. by rewrite list_elem_of_In.
  - rewrite <- list_elem_of_In in Hin. unfold EXPECTED_RETRY_AFTER in Hin.
    repeat (apply elem_of_cons in Hin as [-> |Hin]; [cbn; lia|]). by apply elem_of_nil in Hin.
Qed.

(** A row with exactly a known decision and its prescribed delay. *)
Definition reply_states (payload : pyval) (r : AdmissionResult) : Prop :=
  exists row, payload = PList [PDict row]
    /\ has_unknown [u "decision"; u "retry_after_seconds"] row = false
    /\ dget row (u "decision") = Some (PStr (decision r))
    /\ dget row (u "retry_after_seconds") = Some (PInt (retry_after_seconds r))
    /\ expected_retry_after (decision r) = Some (retry_after_seconds r).

Lemma AdmissionResult_init_ok d z :
  expected_retry_after d = Some z -> AdmissionResult_init (PStr d) (PInt z) = Ok (mkAdmissionResult d z).
Proof.
  intros H. destruct (expected_retry_in d z H) as [Hin _]. unfold AdmissionResult_init, in_str_set.
  cbn [hashable]. rewrite Hin, bool_decide_eq_true_2; done.
Qed.

Lemma parse_admission_complete payload r : reply_states payload r -> parse_admission_result payload = Ok r.
Proof.
  destruct r as [d z]. intros (row & -> & U & D & T & X). cbn [decision retry_after_seconds] in *.
  unfold parse_admission_result. rewrite U.
  assert (has_missing [u "decision"; u "retry_after_seconds"] row = false) as ->.
  { apply has_missing_false. intros f Hf. apply dhas_dget.
    apply elem_of_cons in Hf as [-> |Hf]; [eauto|]. apply list_elem_of_singleton in Hf as ->. eauto. }
  rewrite D, T. cbn [from_option id orb]. rewrite X. destruct (expected_retry_in d z X) as [_ N].
  rewrite Z.eqb_refl. replace (z <? 0) with false by lia. cbn [orb negb]. by apply AdmissionResult_init_ok.
Qed.

Lemma parse_admission_sound payload :
  match parse_admission_result payload with
  | Ok r => reply_states payload r
  | Err e => e = AdmissionUnavailable
  end.
Proof.
  unfold parse_admission_result. destruct payload as [| | | | |[|[| | | | | | |row| |] [|]]| | | |]; try done.
  destruct (has_unknown _ row) eqn:U; [done|]. destruct (has_missing _ row) eqn:Mi; [done|]. cbn [orb].
  destruct (dget row (u "decision")) as [[| | | |d| | | | |]|] eqn:D; try done. cbn [from_option id].
  destruct (dget row (u "retry_after_seconds")) as [[| |z| | | | | | |]|] eqn:T; try done. cbn [from_option id].
  destruct (expected_retry_after d) as [z'|] eqn:X; [|done].
  destruct (z <? 0); [done|]. destruct (Z.eqb_spec z z') as [-> |]; [|done]. cbn [orb negb].
  rewrite (AdmissionResult_init_ok d z' X). by exists row.
Qed.

(** The reply of the admission store is believed only when it is one row with
    exactly a known decision and the delay that decision prescribes; a missing
    client, a failed call and any other reply are all the one sanitised
    unavailability, so nothing but the store's own word admits a request. *)
Theorem admission_fails_closed (client : option (pydict -> option pyval)) (request : AdmissionRequest) :
  (forall r, reserve_admission_sync client request = Ok r <->
     exists rpc payload, client = Some rpc /\ rpc (rpc_params request) = Some payload /\ reply_states payload r)
  /\ (forall e, reserve_admission_sync client request = Err e -> e = AdmissionUnavailable).
Proof.
  unfold reserve_admission_sync. destruct client as [rpc|];
    [|split; [split; [done|by intros (? & ? & ? & _)]|by intros e [=]]].
  destruct (rpc (rpc_params request)) as [payload|] eqn:E.
  - pose proof (parse_admission_sound payload) as S. split.
    + intros r. split; [intros H; rewrite H in S; eauto|].
      intros (rpc' & p & [= <-] & Hp & H). apply parse_admission_complete in H. congruence.
    + intros e H. by rewrite H in S.
  - split; [intros r; split; [done|]|by intros e [=]]. intros (rpc' & p & [= <-] & Hp & _). congruence.
Qed.

End NetworkTheorems.

(** ** Executable instances of the interfaces *)

Definition lower_pointwise (s : pystr) : pystr := map ascii_lower s.

Lemma lower_pointwise_other s :
  ~ ascii s -> exists c, c ∈ lower_pointwise s /\ hex_char c = false /\ c <> 45%N.
Proof.
  unfold ascii. intros (c & Hc & L)%not_Forall_Exists%Exists_exists; [|intros c; apply _]. exists c. cbn in L.
  assert (ascii_lower c = c) as E.
  { unfold ascii_lower. destruct ((65 <=? c) && (c <=? 90))%N eqn:E; [Nbool; lia|done]. }
  split_and!; [|destruct (hex_char c) eqn:H; [apply hex_char_cases in H; lia|done]|lia].
  unfold lower_pointwise. rewrite list_elem_of_In, <- E. apply in_map. by rewrite <- list_elem_of_In.
Qed.

(** Case mapping that lowers ASCII letters and keeps every other character. *)
#[local] Instance pointwise_lower : UnicodeLower :=
  {| str_lower := lower_pointwise; lower_ascii := fun s _ => eq_refl; lower_other := lower_pointwise_other |}.

(** Dotted quads and prefixes, the IPv4 part of [ipaddress]. *)
Definition quad : Type := Byte.byte * Byte.byte * Byte.byte * Byte.byte.

Definition show_byte (b : Byte.byte) : pystr := render_nat (Byte.to_N b).

Definition decimal (s : pystr) : option N :=
  if bool_decide (s = []) || (3 <? length s)%nat || negb (forallb (between 48 57) s)
     || ((1 <? length s)%nat && starts_with (u "0") s)
  then None else Some (fold_left (fun a c => a * 10 + (c - 48))%N s 0%N).

Definition parse_byte (s : pystr) : option Byte.byte := n ← decimal s; Byte.of_N n.

Definition parse_quad (s : pystr) : option quad :=
  match split_on 46 s with
  | [a; b; c; d] =>
      a' ← parse_byte a; b' ← parse_byte b; c' ← parse_byte c; d' ← parse_byte d; Some (a', b', c', d')
  | _ => None
  end.

Definition show_quad (q : quad) : pystr :=
  let '(a, b, c, d) := q in joined 46 [show_byte a; show_byte b; show_byte c; show_byte d].

Definition quad_number (q : quad) : N :=
  let '(a, b, c, d) := q in
  (((Byte.to_N a * 256 + Byte.to_N b) * 256 + Byte.to_N c) * 256 + Byte.to_N d)%N.

Definition parse_prefix (s : pystr) : option (quad * N) :=
  match split_on 47 s with
  | [a] => q ← parse_quad a; Some (q, 32%N)
  | [a; n] => q ← parse_quad a; k ← decimal n; if (k <=? 32)%N then Some (q, k) else None
  | _ => None
  end.

Definition quad_in (q : quad) (net : quad * N) : bool :=
  (N.shiftr (quad_number q) (32 - net.2) =? N.shiftr (quad_number net.1) (32 - net.2))%N.

Lemma show_byte_facts b :
  parse_byte (show_byte b) = Some b /\ 46%N ∉ show_byte b
  /\ match show_byte b, rev (show_byte b) with c :: _, d :: _ => is_space c = false /\ is_space d = false | _, _ => False end.
Proof.
  assert (bool_decide (46%N ∉ show_byte b) = true) as H by (destruct b; vm_compute; reflexivity).
  apply bool_decide_eq_true in H. repeat split; [|done|]; destruct b; vm_compute; auto.
Qed.

Lemma show_quad_parses q : parse_quad (show_quad q) = Some q.
Proof.
  destruct q as [[[a b] c] d]. unfold parse_quad, show_quad.
  destruct (show_byte_facts a) as (Pa & Na & _), (show_byte_facts b) as (Pb & Nb & _),
    (show_byte_facts c) as (Pc & Nc & _), (show_byte_facts d) as (Pd & Nd & _).
  rewrite split_joined by (by repeat constructor). by rewrite Pa, Pb, Pc, Pd.
Qed.

Lemma show_quad_stripped q : show_quad q <> [] /\ strip (show_quad q) = show_quad q.
Proof.
  destruct q as [[[a b] c] d]. unfold show_quad, joined. cbn [join].
  destruct (show_byte_facts a) as (_ & _ & Ha), (show_byte_facts d) as (_ & _ & Hd).
  destruct (show_byte a) as [|x a']; [done|]. destruct (rev (show_byte d)) as [|y r] eqn:E; [by destruct (show_byte d)|].
  apply (f_equal (@rev N)) in E. rewrite rev_involutive in E. cbn [rev] in E. rewrite E in Hd |- *.
  split; [done|]. assert (is_space x = false) as Sx by (destruct (rev (x :: a')); [done|by destruct Ha]).
  assert (is_space y = false) as Sy.
  { destruct (rev r ++ [y]); [done|by destruct Hd]. }
  pose proof (strip_ends x (a' ++ 46%N :: show_byte b ++ 46%N :: show_byte c ++ 46%N :: rev r) y Sx Sy) as S.
  replace ((x :: a') ++ _) with (x :: (a' ++ 46%N :: show_byte b ++ 46%N :: show_byte c ++ 46%N :: rev r) ++ [y]); [done|].
  cbn -[show_byte]. f_equal. rewrite app_nil_r. by repeat (rewrite <- !app_assoc; cbn -[show_byte]).
Qed.

#[local] Instance ipv4 : IpLib := {|
  parse_address := parse_quad;
  parse_network := parse_prefix;
  show_address := show_quad;
  same_version := fun _ _ => true;
  in_network := quad_in;
  show_parses := show_quad_parses;
  show_stripped := show_quad_stripped |}.

(** A digest of the right shape. *)
Definition flat_hex (key data : list N) : pystr := replicate 64 (48 + N.of_nat (length data) mod 10)%N.

Lemma flat_hex_shape key data : length (flat_hex key data) = 64%nat /\ _is_hex (flat_hex key data) = true.
Proof.
  unfold flat_hex. rewrite length_replicate. split; [done|].
  unfold _is_hex. rewrite forallb_forall. intros c Hc. rewrite <- list_elem_of_In in Hc.
  apply elem_of_replicate in Hc as [-> _].
  assert (forall n, (n < 10)%N -> hex_char (48 + n) = true) as H.
  { intros n Hn.
    assert (Forall (fun k => hex_char (48 + N.of_nat k) = true) (seq 0 10)) as F by (repeat constructor).
    rewrite Forall_forall in F. rewrite <- (N2Nat.id n). apply F, elem_of_seq. lia. }
  apply H. by apply N.mod_lt.
Qed.

#[local] Instance flat_hmac : Hmac := {| hmac_hex := flat_hex; hmac_shape := flat_hex_shape |}.

Definition sample_secret : list N := u "0123456789abcdef0123456789abcdef".
Definition sample_uuid : pystr := u "550E8400-e29b-41d4-a716-446655440000".

(** The header of a request that passed two proxies of the trusted network; the
    part before the last comma was written by the client. *)
Example forwarded_example : exists peer net,
  parse_address (u "10.0.0.2") = Some peer /\ parse_network (u "10.0.0.0/8") = Some net
  /\ resolve_network_identity (PStr (u "10.0.0.2")) (PStr (u "1.1.1.1, 203.0.113.9,10.0.0.7")) [net] = u "203.0.113.9"
  /\ resolve_network_identity (PStr (u "198.51.100.4")) (PStr (u "1.1.1.1")) [net] = u "198.51.100.4"
  /\ resolve_network_identity (PStr (u "10.0.0.2")) (PStr (u "junk,203.0.113.9,10.0.0.7")) [net] = u "unknown".
Proof. eexists _, _. vm_compute. repeat split. Qed.

Lemma validated_message_admissible_witness : exists config bm,
  AdmissionRuntimeConfig_init sample_secret [] = Ok config /\ utf8_encode (u "oi") = Some bm
  /\ is_ok (build_admission_request (PStr (u "user")) (u "550e8400-e29b-41d4-a716-446655440000")
              (PStr (u "oi")) (PStr (u "198.51.100.4")) config) = true.
Proof.
  destruct (validated_message_admissible (u "user") (u "550e8400-e29b-41d4-a716-446655440000") (u "oi")
    (PStr sample_uuid) (PStr (u "198.51.100.4")) PNone sample_secret (u "198.51.100.4") []
    (mkAdmissionRuntimeConfig sample_secret [])) as (bm & Hb & _ & H & _);
    [vm_compute; reflexivity|vm_compute; reflexivity|vm_compute; discriminate|vm_compute; lia
    |vm_compute; reflexivity|vm_compute; reflexivity|].
  exists (mkAdmissionRuntimeConfig sample_secret []), bm.
  split; [vm_compute; reflexivity|]. split; [exact Hb|].
  change (resolve_network_identity _ _ _) with (u "198.51.100.4") in H. rewrite H. reflexivity.
Defined.

(** A text with a lone surrogate is refused by another exception than the
    documented one: the unit estimate cannot encode it. *)
Example lone_surrogate_escapes : validate_new_message (PStr [55296%N]) = Err UnicodeEncodeError.
Proof. reflexivity. Qed.
