(* ===== verification/JsonCost.v ===== *)
(** * The cost of JSON text

    The program bounds the UTF-8 length of the canonical JSON of a list of
    messages.  The lemmas here compute that length part by part: it is additive
    over concatenation, and the length of an array is the sum of its elements'. *)

From S2P Require Import Prelude PyFloat PyValue Json Utf8.

(** Sum of optional lengths. *)
Definition oplus (a b : option nat) : option nat :=
  match a, b with Some n, Some m => Some (n + m) | _, _ => None end.

Fixpoint osum (l : list (option nat)) : option nat :=
  match l with
  | [] => Some 0
  | a :: l' => oplus a (osum l')
  end.

Lemma oplus_assoc a b c : oplus a (oplus b c) = oplus (oplus a b) c.
Proof. destruct a, b, c; cbn; try done. f_equal. lia. Qed.

Lemma oplus_comm a b : oplus a b = oplus b a.
Proof. destruct a, b; cbn; try done. f_equal. lia. Qed.

Lemma oplus_0_r a : oplus a (Some 0) = a.
Proof. destruct a; cbn; [f_equal; lia|done]. Qed.

Lemma utf8_len_app s t : utf8_len (s ++ t) = oplus (utf8_len s) (utf8_len t).
Proof.
  unfold utf8_len. rewrite existsb_app. destruct (existsb is_surrogate s), (existsb is_surrogate t); cbn; try done.
  f_equal. apply width_app.
Qed.

Lemma utf8_len_nil : utf8_len [] = Some 0.
Proof. reflexivity. Qed.

Lemma osum_app l l' : osum (l ++ l') = oplus (osum l) (osum l').
Proof. induction l as [|a l IH]; cbn; [by destruct (osum l')|]. by rewrite IH, oplus_assoc. Qed.

Lemma osum_perm l l' : l ≡ₚ l' -> osum l = osum l'.
Proof.
  induction 1; cbn; [done|congruence| |congruence].
  rewrite !oplus_assoc. f_equal. apply oplus_comm.
Qed.

(** The escaped length of a string, and of the string literal. *)
Definition esc_len (s : pystr) : option nat := utf8_len (s ≫= escape_char).

Lemma esc_len_app s t : esc_len (s ++ t) = oplus (esc_len s) (esc_len t).
Proof. unfold esc_len. by rewrite bind_app, utf8_len_app. Qed.

Lemma render_str_len s : utf8_len (render_str s) = oplus (esc_len s) (Some 2).
Proof.
  unfold render_str. change (34%N :: (s ≫= escape_char) ++ [34%N]) with ([34%N] ++ (s ≫= escape_char) ++ [34%N]).
  rewrite !utf8_len_app. fold (esc_len s). change (utf8_len [34%N]) with (Some 1).
  destruct (esc_len s); cbn; [f_equal; lia|done].
Qed.

Section Cost.
Context `{FR : FloatRepr}.

Definition doc_len (d : jdoc) : option nat := utf8_len (render d).

(** A length that is additive over concatenation, of text joined by commas. *)
Lemma join_additive (f : pystr -> option nat) l :
  f [] = Some 0 -> (forall s t, f (s ++ t) = oplus (f s) (f t)) -> f (u ",") = Some 1 ->
  f (join (u ",") l) = oplus (osum (f <$> l)) (Some (length l - 1)).
Proof.
  intros Hn Ha Hc. destruct l as [|x l]; [done|]. cbn [join fmap list_fmap osum length]. rewrite Ha.
  rewrite <- oplus_assoc. f_equal.
  induction l as [|y l IH]; [done|]. rewrite bind_cons, !Ha, IH, Hc. cbn [fmap list_fmap osum length].
  destruct (f y), (osum (f <$> l)); cbn; try done. f_equal. lia.
Qed.

Lemma array_additive (f : pystr -> option nat) l :
  f [] = Some 0 -> (forall s t, f (s ++ t) = oplus (f s) (f t)) ->
  f (u ",") = Some 1 -> f (u "[") = Some 1 -> f (u "]") = Some 1 ->
  f (render (JArr l)) = oplus (osum ((fun d => f (render d)) <$> l)) (Some (length l - 1 + 2)).
Proof.
  intros Hn Ha Hc Ho Hl. cbn [render]. rewrite !Ha, join_additive, length_map, Ho, Hl by done.
  replace (f <$> map render l) with ((fun d => f (render d)) <$> l).
  - destruct (osum _); cbn; [f_equal; lia|done].
  - clear. induction l as [|d l IH]; [done|]. cbn. by rewrite IH.
Qed.

(** An array costs its elements, two brackets and the commas between them. *)
Lemma array_len l : doc_len (JArr l) = oplus (osum (doc_len <$> l)) (Some (length l - 1 + 2)).
Proof. apply array_additive; [done|apply utf8_len_app|done..]. Qed.

(** So does its text inside a string. *)
Lemma array_esc_len l :
  esc_len (render (JArr l)) = oplus (osum ((fun d => esc_len (render d)) <$> l)) (Some (length l - 1 + 2)).
Proof. apply array_additive; [done|apply esc_len_app|done..]. Qed.

(** The document of a message with the keys [content] and [role]. *)
Definition message_doc (role content : pystr) : jdoc :=
  JObj [(u "content", JStr content); (u "role", JStr role)].

Lemma message_len role content :
  doc_len (message_doc role content) = oplus (oplus (esc_len content) (esc_len role)) (Some 24).
Proof.
  unfold doc_len, message_doc. cbn [render map join]. rewrite bind_cons. change ([] ≫= _) with (@nil N). rewrite app_nil_r.
  repeat rewrite utf8_len_app. rewrite (render_str_len content), (render_str_len role).
  change (utf8_len (u "{")) with (Some 1). change (utf8_len (u "}")) with (Some 1).
  change (utf8_len (u ":")) with (Some 1). change (utf8_len (u ",")) with (Some 1).
  change (utf8_len (render_str (u "content"))) with (Some 9). change (utf8_len (render_str (u "role"))) with (Some 6).
  destruct (esc_len content), (esc_len role); cbn; try done. f_equal. lia.
Qed.

(** Replacing one element changes the cost by that element only. *)
Lemma osum_insert (l : list (option nat)) i :
  i < length l -> forall a, osum (<[i := a]> l) = oplus a (osum (take i l ++ drop (S i) l)).
Proof.
  intros Hi a. rewrite insert_take_drop by done. rewrite !osum_app. cbn [osum].
  rewrite oplus_assoc, (oplus_comm _ a), <- oplus_assoc. done.
Qed.

End Cost.
