(* ===== verification/EnvelopeTheorems.v ===== *)
(** * The provider envelope: boundary, budget, selection

    Theorems on [build_envelope] (src/backend/trusted_context.py).  The cost of a
    list of messages is the sum of the costs of its messages, so it does not depend
    on their order; both selection loops are then instances of one greedy
    selection, whose result fits the budget and cannot be extended. *)

From Stdlib Require Import Floats.
From S2P Require Import Prelude PyFloat PyValue Json Utf8 PyDatetime Admission JsonCost TrustedContext.
Local Open Scope Z_scope.

(** ** Greedy selection by weight *)

Section Greedy.
Context {A : Type} (weight : A -> nat) (base : nat) (max : Z).

Definition total (l : list A) : nat := (base + sum_list_with weight l)%nat.

(** Selected and left out. *)
Definition greedy_step (st : list A * list A) (x : A) : list A * list A :=
  if Z.of_nat (total (st.1 ++ [x])) <=? max then (st.1 ++ [x], st.2) else (st.1, st.2 ++ [x]).

Definition greedy (l : list A) : list A * list A := fold_left greedy_step l ([], []).

Lemma total_app l l' : total (l ++ l') = (total l + sum_list_with weight l')%nat.
Proof. unfold total. rewrite sum_list_with_app. lia. Qed.

(** Every element left out would exceed the budget; the selected ones fit. *)
Definition greedy_inv (seen : list A) (st : list A * list A) : Prop :=
  st.1 ++ st.2 ≡ₚ seen /\ st.1 `sublist_of` seen /\ (st.1 = [] \/ Z.of_nat (total st.1) <= max)
  /\ Forall (fun x => max < Z.of_nat (total (st.1 ++ [x]))) st.2.

Lemma greedy_step_inv seen st x : greedy_inv seen st -> greedy_inv (seen ++ [x]) (greedy_step st x).
Proof.
  intros (P & S & F & M). unfold greedy_step.
  destruct (Z.leb_spec (Z.of_nat (total (st.1 ++ [x]))) max) as [L|L]; (split_and!; cbn [fst snd]).
  - rewrite <- P, <- !app_assoc. f_equiv. apply Permutation_app_comm.
  - by apply sublist_app.
  - by right.
  - eapply Forall_impl; [exact M|]. cbn. intros y. rewrite !total_app. lia.
  - by rewrite app_assoc, P.
  - by apply sublist_inserts_r.
  - done.
  - apply Forall_app. split; [done|]. by constructor.
Qed.

(** A loop whose body is the greedy step, seen through a view of its state. *)
Lemma rfold_greedy {E S} (P : A -> Prop) (f : S -> A -> result E S) (view : list A * list A -> S) l :
  (forall st x, Forall P st.1 -> P x -> f (view st) x = Ok (view (greedy_step st x))) ->
  Forall P l -> rfold f (view ([], [])) l = Ok (view (greedy l)).
Proof.
  intros Step. unfold greedy. assert (Forall P (([], []) : list A * list A).1) as H0 by constructor.
  revert H0. generalize (([], []) : list A * list A). intros st Hst Hl. revert st Hst.
  induction Hl as [|x l Hx _ IH]; intros st Hst; [done|]. cbn [rfold fold_left]. rewrite Step by done. cbn [rbind].
  apply IH. unfold greedy_step. case_match; [|done]. apply Forall_app. by repeat constructor.
Qed.

Lemma greedy_spec l : greedy_inv l (greedy l).
Proof.
  unfold greedy. assert (forall seen st, greedy_inv seen st -> greedy_inv (seen ++ l) (fold_left greedy_step l st)) as G.
  { induction l as [|x l IH]; intros seen st H; [by rewrite app_nil_r|]. cbn [fold_left].
    replace (seen ++ x :: l) with ((seen ++ [x]) ++ l) by (by rewrite <- app_assoc).
    by apply IH, greedy_step_inv. }
  apply (G [] ([], [])). split_and!; cbn; auto.
Qed.
End Greedy.

(** ** The cost of messages *)

Section Cost.
Context `{FR : FloatRepr}.

Definition message_cost (m : message) : option nat := oplus (oplus (esc_len m.2) (esc_len m.1)) (Some 24%nat).

Lemma encode_message m : json_encode true (message_val m) = Ok (message_doc m.1 m.2).
Proof. reflexivity. Qed.

Lemma encode_messages ms :
  rmap (json_encode true) (map message_val ms) = Ok (map (fun m => message_doc m.1 m.2) ms).
Proof. induction ms as [|m ms IH]; [done|]. cbn [map rmap]. rewrite encode_message. cbn [rbind]. fold (rmap (json_encode true) (map message_val ms)). by rewrite IH. Qed.

(** The units of a list of messages: the sum of their costs, brackets and commas. *)
Lemma estimate_units ms :
  _estimate_messages_units ms
  = match osum (message_cost <$> ms) with
    | Some n => Ok (Z.of_nat (n + (length ms - 1 + 2)))
    | None => Err CtxUnicodeError
    end.
Proof.
  unfold _estimate_messages_units, _serialize_canonical_json. cbn [json_encode]. rewrite encode_messages. cbn [rbind].
  fold (doc_len (JArr (map (fun m => message_doc m.1 m.2) ms))). rewrite array_len, length_map.
  replace (doc_len <$> map (fun m => message_doc m.1 m.2) ms) with (message_cost <$> ms).
  2: { clear. induction ms as [|m ms IH]; [done|]. cbn -[doc_len]. rewrite message_len. by rewrite <- IH. }
  destruct (osum (message_cost <$> ms)) as [n|]; [|done]. cbn [oplus].
  f_equal. apply Z.max_r. lia.
Qed.

(** The units of messages that can all be encoded. *)
Definition cost (m : message) : nat := default 0%nat (message_cost m).
Definition units (ms : list message) : nat := (sum_list_with (fun m => cost m + 1) ms + 1)%nat.
Definition encodes (m : message) : Prop := is_Some (message_cost m).

Lemma estimate_encodes ms : ms <> [] -> Forall encodes ms -> _estimate_messages_units ms = Ok (Z.of_nat (units ms)).
Proof.
  intros Hne H. rewrite estimate_units.
  assert (osum (message_cost <$> ms) = Some (sum_list_with cost ms)) as ->.
  { clear Hne. induction H as [|m ms [n Hn] _ IH]; [done|]. cbn. unfold cost at 1. rewrite Hn, IH. done. }
  unfold units. do 2 f_equal.
  assert (sum_list_with (fun m => cost m + 1) ms = sum_list_with cost ms + length ms)%nat as ->.
  { clear. induction ms as [|m ms IH]; [done|]. cbn. rewrite IH. lia. }
  destruct ms; [done|]. cbn. lia.
Qed.

Lemma units_perm ms ms' : ms ≡ₚ ms' -> units ms = units ms'.
Proof. intros H. unfold units. f_equal. induction H; cbn; lia. Qed.

Lemma units_app ms ms' : units (ms ++ ms') = (units ms + sum_list_with (fun m => cost m + 1) ms')%nat.
Proof. unfold units. rewrite sum_list_with_app. lia. Qed.

Lemma chronological_perm l : chronological l ≡ₚ l.
Proof. apply stable_sort_perm. Qed.

(** *** History *)

Definition history_weight (m : ChatMessage) : nat := (cost (as_message m) + 1)%nat.

Lemma units_history current before hist :
  units (with_history current before hist)
  = total history_weight (units (before ++ [current])) hist.
Proof.
  unfold with_history. rewrite (units_perm _ ((before ++ [current]) ++ map as_message hist)).
  - rewrite units_app. unfold total. f_equal. clear. induction hist as [|m l IH]; [done|]. cbn. by rewrite IH.
  - rewrite <- app_assoc. f_equiv. rewrite chronological_perm. apply Permutation_app_comm.
Qed.

Lemma encodes_history current before hist :
  Forall encodes (before ++ [current]) -> Forall (fun m => encodes (as_message m)) hist ->
  Forall encodes (with_history current before hist).
Proof.
  intros [Hb Hc]%Forall_app Hh. unfold with_history. apply Forall_app. split; [done|]. apply Forall_app. split; [|done].
  apply Forall_map. by rewrite chronological_perm.
Qed.

Lemma estimate_history current before hist :
  Forall encodes (before ++ [current]) -> Forall (fun m => encodes (as_message m)) hist ->
  _estimate_messages_units (with_history current before hist)
  = Ok (Z.of_nat (total history_weight (units (before ++ [current])) hist)).
Proof.
  intros Hb Hh. rewrite estimate_encodes; [by rewrite units_history| |by apply encodes_history].
  unfold with_history. destruct before; [|done]. by destruct (map as_message (chronological hist)).
Qed.


(** *** Items *)

Definition confidence_doc (n : pynum) : jdoc := match n with NInt z => JInt z | NFloat f => JFloat f end.

(** The document of a context item, its keys sorted. *)
Definition item_doc (i : ContextItem) : jdoc :=
  JObj [(u "confidence", confidence_doc (ci_confidence i)); (u "content", JStr (ci_content i));
        (u "epistemic_status", JStr (ci_epistemic_status i)); (u "kind", JStr (ci_kind i));
        (u "provenance", JStr (ci_provenance i)); (u "record_type", JStr (u "untrusted_context"));
        (u "reference", JStr (ci_source_id i))].

Lemma encode_item i : json_encode true (to_json_dict i) = Ok (item_doc i).
Proof. unfold to_json_dict, item_doc. by destruct (ci_confidence i). Qed.

Definition items_text (l : list ContextItem) : pystr := render (JArr (item_doc <$> l)).

Lemma serialize_items l : _serialize_items l = Ok (items_text l).
Proof.
  unfold _serialize_items, _serialize_canonical_json. cbn [json_encode].
  assert (rmap (json_encode true) (map to_json_dict l) = Ok (item_doc <$> l)) as ->; [|done].
  induction l as [|i l IH]; [done|]. cbn [map]. rewrite rmap_cons, encode_item. cbn [rbind]. by rewrite IH.
Qed.

(** An item that can be written inside a message, and what it then weighs. *)
Definition item_encodes (i : ContextItem) : Prop := is_Some (esc_len (render (item_doc i))).
Definition item_weight (i : ContextItem) : nat := (default 0 (esc_len (render (item_doc i))) + 1)%nat.

Lemma items_esc_len l :
  l <> [] -> Forall item_encodes l -> esc_len (items_text l) = Some (sum_list_with item_weight l + 1)%nat.
Proof.
  intros Hne H. unfold items_text. rewrite array_esc_len, length_fmap.
  assert (exists n, osum ((fun d => esc_len (render d)) <$> (item_doc <$> l)) = Some n
    /\ sum_list_with item_weight l = n + length l)%nat as (n & -> & Hl).
  { clear Hne. induction H as [|i l [k Hk] _ (n & IH & L)]; [by exists 0%nat|].
    exists (k + n)%nat. cbn [fmap list_fmap osum sum_list_with length]. rewrite IH, Hk, L.
    unfold item_weight. rewrite Hk. cbn. split; [done|lia]. }
  destruct l; [done|]. cbn [oplus length] in *. f_equal. lia.
Qed.

Definition items_message (l : list ContextItem) : message := (u "user", items_text l).

Lemma items_message_cost l :
  l <> [] -> Forall item_encodes l -> message_cost (items_message l) = Some (sum_list_with item_weight l + 29)%nat.
Proof.
  intros Hne H. unfold message_cost, items_message. cbn [fst snd]. rewrite items_esc_len by done.
  change (esc_len (u "user")) with (Some 4%nat). cbn [oplus]. f_equal. lia.
Qed.

(** The messages with the context message, when there are items. *)
Definition context_part (system : message) (l : list ContextItem) : list message :=
  system :: match l with [] => [] | _ => [items_message l] end.

Lemma final_messages_eq system current items hist :
  final_messages system current items hist = Ok (with_history current (context_part system items) hist).
Proof. unfold final_messages, context_part. destruct items; [done|]. by rewrite serialize_items. Qed.

Lemma encodes_context system items :
  encodes system -> Forall item_encodes items -> Forall encodes (context_part system items).
Proof.
  intros Hs Hi. constructor; [done|]. destruct items; [constructor|]. constructor; [|constructor].
  unfold encodes. by rewrite items_message_cost.
Qed.

(** The units of the whole, with what the items add to the history. *)
Lemma estimate_items system current items hist :
  encodes system -> encodes current -> Forall (fun m => encodes (as_message m)) hist ->
  items <> [] -> Forall item_encodes items ->
  _estimate_messages_units (with_history current [system; items_message items] hist)
  = Ok (Z.of_nat (total item_weight (units (with_history current [system] hist) + 30) items)).
Proof.
  intros Hs Hc Hh Hne Hi. rewrite estimate_history; [|apply (Forall_app_2 _ [_; _]); [|by constructor]|done].
  2: { constructor; [done|]. constructor; [|done]. unfold encodes. by rewrite items_message_cost. }
  rewrite units_history. unfold total, units. cbn [app sum_list_with]. unfold cost at 2. rewrite items_message_cost by done.
  cbn [default]. do 2 f_equal. cbn. lia.
Qed.


(** ** The two selections *)

Section Selection.
Context (system current : message) (max : Z).
Context (enc_system : encodes system) (enc_current : encodes current).
Context (mandatory : Z.of_nat (units [system; current]) <= max).

Notation hist_total := (total history_weight (units [system; current])).

Lemma select_history_spec history :
  Forall (fun m => encodes (as_message m)) history ->
  exists sel out, select_history system current max history = Ok (sel, Z.of_nat (length out))
    /\ sel ++ out ≡ₚ history /\ Z.of_nat (hist_total sel) <= max
    /\ Forall (fun m => max < Z.of_nat (hist_total (sel ++ [m]))) out.
Proof.
  intros Henc. assert (Forall encodes ([system] ++ [current])) as Hm by (repeat constructor; done).
  destruct (decide (history = [])) as [->|Hne].
  { exists [], []. split_and!; [done|done| |done]. unfold total. cbn [sum_list_with]. lia. }
  assert (select_history system current max history =
    if Z.of_nat (hist_total history) <=? max then Ok (history, 0)
    else rfold (select_history_step system current max) ([], 0) (rev history)) as ->.
  { unfold select_history. destruct history as [|m0 l0] eqn:Eh; [done|]. rewrite <- Eh in *.
    rewrite estimate_encodes; [| |constructor; [done|apply Forall_app; split; [by apply Forall_map|by constructor]]].
    - cbn [rbind]. rewrite (units_perm _ (with_history current [system] history)); [by rewrite units_history|].
      unfold with_history. by rewrite chronological_perm.
    - done. }
  destruct (Z.leb_spec (Z.of_nat (hist_total history)) max) as [L|L].
  { exists history, []. split_and!; [done|by rewrite app_nil_r|done|done]. }
  pose proof (greedy_spec history_weight (units [system; current]) max (rev history)) as (G1 & _ & G3 & G4).
  set (g := greedy history_weight (units [system; current]) max (rev history)) in *.
  exists g.1, g.2. split_and!; [|by rewrite G1, <- Permutation_rev| |done].
  - apply (rfold_greedy _ _ _ (fun m => encodes (as_message m)) _ (fun st => (st.1, Z.of_nat (length st.2)))).
    + intros st m Hs Hx. unfold select_history_step. cbn [fst snd].
      rewrite estimate_history by (first [done | apply Forall_app; by repeat constructor]). cbn [rbind].
      unfold greedy_step. change ([system] ++ [current]) with [system; current].
      case_match; cbn [fst snd]; [done|]. rewrite length_app. cbn [length]. do 3 f_equal. lia.
    + by rewrite <- Permutation_rev.
  - destruct G3 as [->|G3]; [|done]. unfold total. cbn [sum_list_with]. lia.
Qed.

Context (hist : list ChatMessage) (enc_hist : Forall (fun m => encodes (as_message m)) hist).

Definition candidate_weight (c : pystr * ContextItem) : nat := item_weight c.2.
Notation item_base := (units (with_history current [system] hist) + 30)%nat.

(** The state of the loop: the selected items, and the omitted ones by category. *)
Definition item_view (st : list (pystr * ContextItem) * list (pystr * ContextItem)) : list ContextItem * omitted :=
  (st.1.*2, fold_left (fun o c => bump c.1 o) st.2 (0, 0, 0)).

Lemma total_candidates l : total candidate_weight item_base l = total item_weight item_base l.*2.
Proof. unfold total. f_equal. induction l as [|c l IH]; [done|]. cbn. by rewrite IH. Qed.

Lemma select_items_spec cs :
  Forall (fun c => item_encodes c.2) cs ->
  exists sel out, rfold (select_item_step system current max hist) ([], (0, 0, 0)) cs = Ok (item_view (sel, out))
    /\ sel ++ out ≡ₚ cs /\ sel `sublist_of` cs
    /\ (sel = [] \/ Z.of_nat (total item_weight item_base sel.*2) <= max)
    /\ Forall (fun c => max < Z.of_nat (total item_weight item_base (sel.*2 ++ [c.2]))) out.
Proof.
  intros Henc. pose proof (greedy_spec candidate_weight item_base max cs) as (G1 & G2 & G3 & G4).
  set (g := greedy candidate_weight item_base max cs) in *. exists g.1, g.2.
  split_and!; [|done|done| |].
  - apply (rfold_greedy _ _ _ (fun c => item_encodes c.2) _ item_view); [|done].
    intros st c Hs Hx. unfold select_item_step, item_view. cbn [fst snd]. rewrite serialize_items. cbn [rbind].
    fold (items_message (st.1.*2 ++ [c.2])). rewrite estimate_items; [|done..| |].
    + cbn [rbind]. unfold greedy_step. rewrite total_candidates, fmap_app. cbn [fmap list_fmap].
      case_match; cbn [fst snd]; [by rewrite fmap_app|]. by rewrite fold_left_app.
    + by destruct (st.1.*2).
    + apply Forall_app. split; [by apply Forall_fmap|by repeat constructor].
  - destruct G3 as [->|G3]; [by left|right]. by rewrite <- total_candidates.
  - eapply Forall_impl; [exact G4|]. intros c Hc. cbn beta in Hc. by rewrite total_candidates, fmap_app in Hc.
Qed.
End Selection.

End Cost.

(** ** The source map and the report *)

Definition approved_has_id (i : ContextItem) : Prop :=
  is_approved_memory (ci_kind i) (ci_epistemic_status i) = true -> ci_internal_id i <> [].

(** The internal identifier of an item, or its reference. *)
Definition source_entry (i : ContextItem) : pystr * pystr :=
  (ci_source_id i, if bool_decide (ci_internal_id i = []) then ci_source_id i else ci_internal_id i).

Lemma source_map_spec items :
  NoDup (ci_source_id <$> items) -> Forall approved_has_id items ->
  rfold source_map_step [] items = Ok (source_entry <$> items).
Proof.
  change (source_entry <$> items) with ([] ++ (source_entry <$> items)).
  assert (forall i, i ∈ ci_source_id <$> items -> i ∉ ([] : list (pystr * pystr)).*1) as Hd by set_solver.
  revert Hd. generalize ([] : list (pystr * pystr)).
  induction items as [|i items IH]; intros sm Hd Hn Hi; [by rewrite app_nil_r|].
  apply NoDup_cons in Hn as [Hin Hn]. apply Forall_cons in Hi as [Hid Hi].
  assert (source_map_step sm i = Ok (sm ++ [source_entry i])) as E.
  { unfold source_map_step. destruct (str_in (ci_source_id i) sm.*1) eqn:S.
    { apply str_in_elem in S. destruct (Hd (ci_source_id i)); [constructor|done]. }
    unfold approved_has_id in Hid. unfold source_entry. destruct (is_approved_memory _ _); [|done].
    by rewrite bool_decide_false by auto. }
  cbn [rfold]. rewrite E. cbn [rbind]. rewrite IH; [|..|done|done].
  - by rewrite <- app_assoc.
  - intros r Hr. rewrite fmap_app, elem_of_app. cbn. intros [H|H%list_elem_of_singleton].
    + destruct (Hd r); [by constructor|done].
    + by subst.
Qed.

Lemma dedup_elem seen l c : c ∈ dedup seen l <-> c ∈ l /\ c ∉ seen.
Proof.
  revert seen. induction l as [|x l IH]; intros seen; cbn [dedup]; [set_solver|].
  destruct (str_in x seen) eqn:E.
  - apply str_in_elem in E. rewrite IH. set_solver.
  - assert (x ∉ seen) by (rewrite <- str_in_elem; by rewrite E). rewrite elem_of_cons, IH.
    destruct (decide (c = x)); set_solver.
Qed.

(** A report its constructor accepts. *)
Definition report_ok (r : TruncationReport) : Prop :=
  (forall c, c ∈ tr_codes r -> c ∈ TRUNCATION_VALID_CODES) /\ Forall (fun nv => 0 <= nv.2) (report_counts r).

Lemma TruncationReport_init_ok r : report_ok r -> TruncationReport_init r = Ok r.
Proof.
  intros [Hc Hn]. unfold TruncationReport_init. destruct (existsb _ (tr_codes r)) eqn:E.
  - apply existsb_exists in E as (c & Hin & Hv). apply list_elem_of_In, Hc, str_in_elem in Hin. by rewrite Hin in Hv.
  - destruct (List.find _ _) as [nv|] eqn:F; [|done]. apply List.find_some in F as [Hin Hneg].
    rewrite Forall_forall in Hn. apply list_elem_of_In, Hn in Hin. lia.
Qed.

(** The report after a selection: counts and codes. *)
Definition report_of (existing r : TruncationReport) (hist out : list ChatMessage) (items left : list ContextItem) : Prop :=
  selected_history_count r = selected_history_count existing + Z.of_nat (length hist)
  /\ omitted_history_count r = omitted_history_count existing + Z.of_nat (length out)
  /\ selected_memory_count r = selected_memory_count existing + count_kind (u "memory") items
  /\ omitted_memory_count r = omitted_memory_count existing + count_kind (u "memory") left
  /\ selected_profile_count r = selected_profile_count existing + count_kind (u "profile") items
  /\ omitted_profile_count r = omitted_profile_count existing + count_kind (u "profile") left
  /\ selected_persona_count r = selected_persona_count existing + count_kind (u "persona") items
  /\ omitted_persona_count r = omitted_persona_count existing + count_kind (u "persona") left
  /\ forall c, c ∈ tr_codes r <-> c ∈ tr_codes existing \/ (c = u "history_partial" /\ out <> [])
       \/ exists kind, kind ∈ [u "memory"; u "profile"; u "persona"] /\ c = kind ++ u "_omitted" /\ 0 < count_kind kind left.

Definition omitted_counts (left : list ContextItem) : omitted :=
  (count_kind (u "memory") left, count_kind (u "profile") left, count_kind (u "persona") left).

Lemma truncation_codes_elem out left c :
  c ∈ truncation_codes (Z.of_nat (length out)) (omitted_counts left)
  <-> ((c = u "history_partial" /\ out <> ([] : list ChatMessage))
      \/ exists kind, kind ∈ [u "memory"; u "profile"; u "persona"] /\ c = kind ++ u "_omitted" /\ 0 < count_kind kind left).
Proof.
  unfold truncation_codes, omitted_counts. rewrite !elem_of_app.
  assert (forall b (x y : pystr), x ∈ (if b : bool then [y] else []) <-> x = y /\ b = true) as Hif
    by (intros [] x y; set_solver).
  rewrite !Hif, !Z.ltb_lt. split.
  - intros [[-> H]|[[-> H]|[[-> H]|[-> H]]]].
    + left. split; [done|]. by destruct out.
    + right. exists (u "memory"). split; [set_solver|done].
    + right. exists (u "profile"). split; [set_solver|done].
    + right. exists (u "persona"). split; [set_solver|done].
  - intros [[-> H]|(k & Hk & -> & H)].
    + left. split; [done|]. destruct out; [done|]. cbn. lia.
    + right. rewrite !elem_of_cons in Hk. destruct Hk as [->|[->|[->|Hk]]]; [by left|right; by left|right; by right|by apply elem_of_nil in Hk].
Qed.

Lemma count_kind_nonneg k l : 0 <= count_kind k l.
Proof. unfold count_kind. lia. Qed.

Lemma build_report_spec existing hist out items left :
  report_ok existing ->
  exists r, build_report existing (Z.of_nat (length out)) (omitted_counts left) hist items = Ok r
    /\ report_of existing r hist out items left.
Proof.
  intros [Hc Hn]. unfold build_report. eexists. split.
  - apply TruncationReport_init_ok. split.
    + cbn [tr_codes]. intros c. rewrite dedup_elem, elem_of_app. intros [[H|H] _]; [by apply Hc|].
      apply truncation_codes_elem in H as [[-> _]|(k & Hk & -> & _)]; [set_solver|].
      rewrite !elem_of_cons in Hk. destruct Hk as [->|[->|[->|Hk]]]; [set_solver..|by apply elem_of_nil in Hk].
    + unfold report_counts in *. cbn [omitted_history_count omitted_memory_count omitted_profile_count omitted_persona_count
        selected_history_count selected_memory_count selected_profile_count selected_persona_count].
      unfold omitted_counts. cbn [fst snd].
      repeat (apply Forall_cons in Hn as [? Hn]; apply Forall_cons; split; [cbn [fst snd] in *;
        try match goal with |- context [count_kind ?k ?l] => pose proof (count_kind_nonneg k l) end; lia|]). constructor.
  - unfold report_of. cbn [tr_codes omitted_history_count omitted_memory_count omitted_profile_count omitted_persona_count
        selected_history_count selected_memory_count selected_profile_count selected_persona_count].
    split_and!; try done. intros c. rewrite dedup_elem, elem_of_app, truncation_codes_elem. set_solver.
Qed.

(** The categories of the candidates are the kinds of their items. *)
Definition kind_matches (c : pystr * ContextItem) : Prop :=
  c.1 = ci_kind c.2 /\ c.1 ∈ [u "memory"; u "profile"; u "persona"].

Lemma count_kind_snoc k l i : count_kind k (l ++ [i]) = count_kind k l + if str_eqb (ci_kind i) k then 1 else 0.
Proof.
  unfold count_kind. rewrite List.filter_app, length_app. cbn [List.filter]. destruct (str_eqb _ _); cbn [length]; lia.
Qed.

Lemma bump_counts left :
  Forall kind_matches left -> fold_left (fun o c => bump c.1 o) left (0, 0, 0) = omitted_counts left.*2.
Proof.
  induction left as [|c left IH] using rev_ind; intros H; [done|].
  apply Forall_app in H as [H [Hk Hin]%Forall_singleton]. rewrite fold_left_app, IH, fmap_app by done.
  cbn [fold_left fmap list_fmap]. unfold omitted_counts. rewrite !count_kind_snoc, <- Hk.
  rewrite !elem_of_cons in Hin. destruct Hin as [->|[->|[->|Hk']]]; [..|by apply elem_of_nil in Hk'];
    unfold bump; cbn; rewrite ?Z.add_0_r; done.
Qed.
