(* ===== verification/EnvelopeProperties.v ===== *)
(** * Properties of the trusted context boundary

    What [build_context_bundle] and [build_envelope]
    (src/backend/trusted_context.py) promise: the shape of the provider messages,
    the budget and the maximality of the selection, the source map and the report,
    and that normalised timestamps sort like instants. *)

From Stdlib Require Import Floats Sorted.
From S2P Require Import Prelude PyFloat PyValue Json Utf8 PyDatetime Admission JsonCost TrustedContext EnvelopeTheorems.
Local Open Scope Z_scope.

(** ** Bundles *)

Definition all_items (b : ContextBundle) : list ContextItem :=
  cb_memory_items b ++ cb_profile_items b ++ cb_persona_items b.

Definition bundle_refs (b : ContextBundle) : list pystr :=
  (cm_source_id <$> cb_history b) ++ (ci_source_id <$> all_items b).

Lemma no_duplicates_spec seen refs :
  no_duplicates seen refs = Ok tt <-> NoDup refs /\ (forall r, r ∈ refs -> r ∉ seen).
Proof.
  revert seen. induction refs as [|r refs IH]; intros seen; cbn [no_duplicates].
  { split; [intros _; split; [constructor|set_solver]|done]. }
  destruct (str_in r seen) eqn:E.
  - apply str_in_elem in E. split; [done|]. intros [_ H]. destruct (H r); [constructor|done].
  - assert (r ∉ seen) by (rewrite <- str_in_elem; by rewrite E). rewrite IH, NoDup_cons. set_solver.
Qed.

Lemma unique_refs_spec b : _validate_unique_refs b = Ok tt <-> NoDup (bundle_refs b).
Proof. unfold _validate_unique_refs. rewrite no_duplicates_spec. split; [by intros [H _]|]. intros H. split; [exact H|set_solver]. Qed.

Section Properties.
Context `{FR : FloatRepr, IF : IsoFormat}.

(** What the constructors guarantee, and text that can be encoded. *)
Record bundle_ok (b : ContextBundle) : Prop := {
  ok_refs : NoDup (bundle_refs b);
  ok_history : Forall (fun m => encodes (as_message m)) (cb_history b);
  ok_items : Forall item_encodes (all_items b);
  ok_ids : Forall approved_has_id (all_items b);
  ok_memory : Forall (fun i => ci_kind i = u "memory") (cb_memory_items b);
  ok_profile : Forall (fun i => ci_kind i = u "profile") (cb_profile_items b);
  ok_persona : Forall (fun i => ci_kind i = u "persona") (cb_persona_items b);
  ok_report : report_ok (cb_truncation_report b) }.

Lemma candidates_items b : (candidates b).*2 = all_items b.
Proof.
  assert (forall (k : pystr) (l : list ContextItem), snd <$> map (pair k) l = l) as H
    by (intros k l; induction l as [|i l IH]; [done|]; cbn; by f_equal).
  unfold candidates, all_items. by rewrite !fmap_app, !H.
Qed.

Lemma candidates_kinds b : bundle_ok b -> Forall kind_matches (candidates b).
Proof.
  intros [_ _ _ _ H1 H2 H3 _]. unfold candidates. rewrite !Forall_app. unfold kind_matches. cbn [fst snd].
  split_and!; apply Forall_map; (eapply Forall_impl; [eassumption|]); cbn; intros i ->; (split; [done|set_solver]).
Qed.

Definition policy_message (b : ContextBundle) : message := (u "system", cb_trusted_policy b ++ BOUNDARY_RULE).

(** The messages cost more than the budget. *)
Definition exceeds (max : Z) (ms : list message) : Prop :=
  exists n, _estimate_messages_units ms = Ok n /\ max < n.

Lemma exceeds_history system current max hist out :
  encodes system -> encodes current -> Forall (fun m => encodes (as_message m)) hist ->
  Forall (fun m => encodes (as_message m)) out ->
  Forall (fun m => max < Z.of_nat (total history_weight (units [system; current]) (hist ++ [m]))) out ->
  Forall (fun m => exceeds max (with_history current [system] (hist ++ [m]))) out.
Proof.
  rewrite !Forall_forall. intros Hs Hc Hh Ho H m Hm. eexists. split; [|by apply H].
  apply estimate_history; [by repeat constructor|]. apply Forall_app. split; [by apply Forall_forall|]. repeat constructor. auto.
Qed.

Lemma exceeds_items system current max hist items left :
  encodes system -> encodes current -> Forall (fun m => encodes (as_message m)) hist ->
  Forall item_encodes items -> Forall item_encodes left ->
  Forall (fun i => max < Z.of_nat (total item_weight (units (with_history current [system] hist) + 30) (items ++ [i]))) left ->
  Forall (fun i => exceeds max (with_history current (context_part system (items ++ [i])) hist)) left.
Proof.
  rewrite (Forall_forall _ left). intros Hs Hc Hh Hi Hl. rewrite !Forall_forall. intros H i Hin. eexists. split; [|by apply H].
  assert (items ++ [i] <> []) as Hne by (by destruct items).
  rewrite <- estimate_items; [|done..|apply Forall_app; repeat constructor; auto].
  unfold context_part. by destruct (items ++ [i]).
Qed.

(** The result for a well-formed bundle whose mandatory part fits. *)
Lemma envelope_selects (b : ContextBundle) (text : pystr) (max : Z)
    (ok : bundle_ok b) (has_policy : cb_trusted_policy b <> []) (has_text : text <> [])
    (enc_policy : encodes (policy_message b)) (enc_text : encodes (u "user", text))
    (fits : forall n, _estimate_messages_units [policy_message b; (u "user", text)] = Ok n -> n <= max) :
  exists r hist out items left,
    build_envelope b (PStr text) (PInt max) = Ok r
    /\ hist ++ out ≡ₚ cb_history b /\ items ++ left ≡ₚ all_items b
    /\ cr_messages r = with_history (u "user", text) (context_part (policy_message b) items) hist
    /\ _estimate_messages_units (cr_messages r) = Ok (cr_unit_count r) /\ cr_unit_count r <= max
    /\ Forall (fun m => exceeds max (with_history (u "user", text) [policy_message b] (hist ++ [m]))) out
    /\ Forall (fun i => exceeds max (with_history (u "user", text) (context_part (policy_message b) (items ++ [i])) hist)) left
    /\ cr_source_map r = source_entry <$> items
    /\ report_of (cb_truncation_report b) (cr_truncation_report r) hist out items left.
Proof.
  set (system := policy_message b) in *. set (current := (u "user", text)) in *.
  assert (_estimate_messages_units [system; current] = Ok (Z.of_nat (units [system; current]))) as Mand
    by (apply estimate_encodes; [done|by repeat constructor]).
  specialize (fits _ Mand). assert (0 < max) as Hpos by (unfold units in fits; lia).
  destruct (select_history_spec system current max enc_policy enc_text fits (cb_history b) (ok_history b ok))
    as (hist & out & SelH & PermH & FitH & MaxH).
  assert (Forall (fun m => encodes (as_message m)) hist /\ Forall (fun m => encodes (as_message m)) out) as [EncH EncO]
    by (apply Forall_app; rewrite PermH; apply ok).
  assert (Forall (fun c => item_encodes c.2) (candidates b)) as EncC
    by (apply (Forall_map snd item_encodes); rewrite candidates_items; apply ok).
  destruct (select_items_spec system current max enc_policy enc_text hist EncH (candidates b) EncC)
    as (sel & lft & SelI & PermI & SubI & FitI & MaxI).
  assert (sel.*2 ++ lft.*2 ≡ₚ all_items b) as PermA by (rewrite <- fmap_app, PermI; by rewrite candidates_items).
  assert (Forall item_encodes sel.*2 /\ Forall item_encodes lft.*2) as [EncS EncL] by (apply Forall_app; rewrite PermA; apply ok).
  assert (units (with_history current [system] hist) = total history_weight (units [system; current]) hist) as UH
    by apply units_history.
  destruct (build_report_spec (cb_truncation_report b) hist out sel.*2 lft.*2 (ok_report b ok)) as (rep & Rep & RepOf).
  set (ms := with_history current (context_part system sel.*2) hist).
  assert (exists n, _estimate_messages_units ms = Ok n /\ n <= max) as (n & Units & Fit).
  { unfold ms. destruct sel.*2 as [|i its] eqn:Es.
    - exists (Z.of_nat (units (with_history current [system] hist))). rewrite UH. split; [|done].
      by apply estimate_history; [repeat constructor|].
    - unfold context_part. rewrite estimate_items by done. eexists. split; [done|].
      destruct FitI as [->|FitI]; [done|]. done. }
  exists (mkContextBuildResult ms (source_entry <$> sel.*2) rep n), hist, out, sel.*2, lft.*2.
  cbn [cr_messages cr_unit_count cr_source_map cr_truncation_report].
  split_and!; try done.
  - unfold build_envelope. unfold _validate_max_units. replace (max <=? 0) with false by lia. cbn [rbind].
    rewrite bool_decide_false by done. rewrite bool_decide_false by done.
    rewrite (proj2 (unique_refs_spec b) (ok_refs b ok)). cbn [rbind]. cbv zeta.
    change (u "system", cb_trusted_policy b ++ BOUNDARY_RULE) with system. change (u "user", text) with current.
    run_step Mand.
    replace (max <? Z.of_nat (units [system; current])) with false by lia. rewrite SelH. cbn [rbind fst snd].
    rewrite SelI. unfold item_view. cbn [rbind fst snd]. rewrite final_messages_eq. fold ms. cbn [rbind].
    rewrite source_map_spec.
    + cbn [rbind]. rewrite Units. cbn [rbind]. replace (max <? n) with false by lia.
      rewrite bump_counts; [by rewrite Rep|]. pose proof (candidates_kinds b ok) as K.
      rewrite <- PermI in K. by apply Forall_app in K as [_ K].
    + pose proof (ok_refs b ok) as N. unfold bundle_refs in N. apply NoDup_app in N as (_ & _ & N).
      rewrite <- candidates_items in N. eapply sublist_NoDup; [exact N|]. by do 2 apply fmap_sublist.
    + pose proof (ok_ids b ok) as I. rewrite <- PermA in I. by apply Forall_app in I as [I _].
  - by apply exceeds_history.
  - apply exceeds_items; [done..|]. by apply Forall_fmap.
Qed.

(** ** The order of history *)

(** The instant a timestamp denotes, in microseconds; naive values are in UTC. *)
Definition instant_of (value : pyval) : option Z :=
  match value with
  | PStr s => match fromisoformat s with Some (d, o) => Some (instant d - default 0 o) | None => None end
  | _ => None
  end.

Lemma normalize_instant v s :
  _normalize_timestamp v = Ok s -> exists d, s = isoformat d /\ valid d /\ instant_of v = Some (instant d).
Proof.
  unfold _normalize_timestamp, _parse_timestamp, instant_of. destruct v as [| | | |t| | | | |]; try done.
  case_bool_decide; [done|]. destruct (fromisoformat t) as [[d [o|]]|] eqn:F; [|..|done].
  all: destruct (fromisoformat_valid _ _ _ F) as [Vd Vo]; rewrite valid_datetime_spec in Vd.
  - unfold to_utc. destruct (_ && _) eqn:B; [|done]. intros [= <-].
    destruct (of_instant_spec (instant d - o)) as [V I]; [lia|]. eexists. split_and!; [done|done|]. by rewrite I.
  - intros [= <-]. exists d. split_and!; [done|done|]. cbn [from_option id]. by rewrite Z.sub_0_r.
Qed.

(** Instant and identifier of a row. *)
Definition row_key (row : pydict) : option (Z * Z) :=
  match dget row (u "created_at"), dget row (u "id") with
  | Some v, Some (PInt id) => t ← instant_of v; Some (t, id)
  | _, _ => None
  end.

Definition key_le (a b : Z * Z) : Prop := a.1 < b.1 \/ (a.1 = b.1 /\ a.2 <= b.2).

(** The key of a message is the one of its row. *)
Definition stamped (m : ChatMessage) (k : Z * Z) : Prop :=
  exists d, valid d /\ cm_sort_key m = (isoformat d, k.2) /\ instant d = k.1.

Lemma stamped_fun m k k' : stamped m k -> stamped m k' -> k = k'.
Proof.
  intros (d & V & E & I) (d' & V' & E' & I'). rewrite E in E'. apply pair_eq in E' as [E1 E2].
  apply isoformat_inj in E1; [|done..]. subst. destruct k, k'; cbn in *. congruence.
Qed.

Lemma ChatMessage_init_ok r c s k m :
  ChatMessage_init r c s k = Ok m -> PStr (cm_role m) = r /\ PStr (cm_content m) = c /\ PStr (cm_source_id m) = s
    /\ cm_sort_key m = k /\ cm_role m ∈ VALID_HISTORY_ROLES.
Proof.
  unfold ChatMessage_init, refuse. intros H. inv_ok. destruct r as [| | | |r| | | | |]; try done.
  destruct c as [| | | |c| | | | |]; try done. destruct (bool_decide (strip c = [])); [done|].
  destruct s as [| | | |[|]| | | | |]; try done. injection H as <-. split_and!; try done.
  cbn [cm_role]. unfold in_str_set, require in E. cbn [hashable] in E. rewrite <- str_in_elem.
  by destruct (str_in r VALID_HISTORY_ROLES).
Qed.

Lemma history_message_ok i row m :
  history_message i row = Ok m ->
  cm_source_id m = local_ref (u "msg") i /\ cm_role m ∈ VALID_HISTORY_ROLES
  /\ exists k, row_key row = Some k /\ stamped m k.
Proof.
  unfold history_message, row_key. destruct (dget row (u "role")) as [r|]; [|done].
  destruct (dget row (u "content")) as [c|]; [|done]. destruct (dget row (u "created_at")) as [t|]; [|done].
  destruct (dget row (u "id")) as [d|]; [|done]. unfold refuse_value_errors, rcatch.
  destruct (_normalize_timestamp t) as [s|e] eqn:N; [|by destruct e]. cbn [rbind]. destruct d; try done.
  intros (_ & _ & Hs & Hk & Hr)%ChatMessage_init_ok. apply normalize_instant in N as (dt & -> & V & I).
  split_and!; [by injection Hs|done|]. rewrite I. cbn. eexists. split; [done|]. by exists dt.
Qed.

Lemma stamped_order a b ka kb :
  stamped a ka -> stamped b kb ->
  if key_ltb (cm_sort_key a) (cm_sort_key b) then key_le ka kb else key_le kb ka.
Proof.
  intros (d & Vd & Ea & Ia) (e & Ve & Eb & Ib). rewrite Ea, Eb. unfold key_ltb, key_le. cbn [fst snd].
  rewrite isoformat_order by done. unfold str_eqb. destruct (Z.ltb_spec (instant d) (instant e)); cbn [orb]; [left; lia|].
  case_bool_decide as E.
  - apply isoformat_inj in E; [|done..]. subst e. cbn [andb]. destruct (Z.ltb_spec ka.2 kb.2); right; lia.
  - cbn [andb]. left. assert (instant d <> instant e) by (intros F; by apply instant_inj in F as ->). lia.
Qed.

(** The rendered history is in the order of time: whatever the offsets its rows
    were written with, a message placed before another one comes from a row with an
    earlier instant, or with the same instant and a smaller or equal identifier. *)
Theorem history_in_time_order (ms : list ChatMessage) (i j : nat) (a b : ChatMessage) (ia ib : nat) (ra rb : pydict)
    (from_rows : Forall (fun m => exists k row, history_message k row = Ok m) ms)
    (pos_a : chronological ms !! i = Some a) (pos_b : chronological ms !! j = Some b) (before : (i < j)%nat)
    (row_a : history_message ia ra = Ok a) (row_b : history_message ib rb = Ok b) :
  exists ka kb, row_key ra = Some ka /\ row_key rb = Some kb /\ key_le ka kb.
Proof.
  apply history_message_ok in row_a as (_ & _ & ka & Ka & Sa), row_b as (_ & _ & kb & Kb & Sb).
  exists ka, kb. split_and!; [done|done|].
  assert (StronglySorted (fun x y => forall kx ky, stamped x kx -> stamped y ky -> key_le kx ky) (chronological ms)) as S.
  { apply (stable_sort_preorder _ (fun m => exists k, stamped m k)).
    - intros x y z _ (ky & Sy) _ Hxy Hyz kx kz Sx Sz. specialize (Hxy _ _ Sx Sy). specialize (Hyz _ _ Sy Sz).
      unfold key_le in *. lia.
    - intros x y (kx & Sx) (ky & Sy). pose proof (stamped_order _ _ _ _ Sx Sy) as O.
      destruct (key_ltb _ _); intros k1 k2 S1 S2.
      + by rewrite (stamped_fun _ _ _ S1 Sx), (stamped_fun _ _ _ S2 Sy).
      + by rewrite (stamped_fun _ _ _ S1 Sy), (stamped_fun _ _ _ S2 Sx).
    - eapply Forall_impl; [exact from_rows|]. cbn. intros m (k & row & H).
      apply history_message_ok in H as (_ & _ & k' & _ & S). by exists k'. }
  by apply (StronglySorted_lookup _ _ _ _ _ _ S pos_a pos_b before).
Qed.

(** ** What [build_context_bundle] builds *)

Lemma local_ref_inj p i j : local_ref p i = local_ref p j -> i = j.
Proof. unfold local_ref. intros H. do 2 apply app_inv_head in H. apply render_nat_inj in H. lia. Qed.

Lemma renumerate_ok {A B} (f : nat -> A -> result context_exn B) k l ys :
  renumerate f k l = Ok ys ->
  length ys = length l /\ forall i y, ys !! i = Some y -> exists x, l !! i = Some x /\ f (k + i)%nat x = Ok y.
Proof.
  revert k ys. induction l as [|x l IH]; intros k ys H; cbn in H; inv_ok; [by split|].
  destruct (IH _ _ E0) as [L N]. split; [by cbn; f_equal|]. intros [|i] y Hy; cbn in Hy.
  - injection Hy as <-. exists x. by rewrite Nat.add_0_r.
  - destruct (N _ _ Hy) as (x' & Hx & Hf). exists x'. split; [done|]. by replace (k + S i)%nat with (S k + i)%nat by lia.
Qed.

(** References numbered by position are distinct. *)
Lemma numbered_NoDup {B} (ref : B -> pystr) p (l : list B) :
  (forall i y, l !! i = Some y -> ref y = local_ref p i) -> NoDup (ref <$> l).
Proof.
  intros H. apply NoDup_alt. intros i j r. rewrite !list_lookup_fmap.
  destruct (l !! i) as [a|] eqn:A; [|done]. destruct (l !! j) as [b|] eqn:Bj; [|done]. cbn.
  rewrite (H _ _ A), (H _ _ Bj). intros [= <-] [= E]. by apply local_ref_inj in E.
Qed.

Lemma ContextItem_init_ok k c p conf e sid iid item :
  ContextItem_init k c p conf e sid iid = Ok item ->
  PStr (ci_kind item) = k /\ PStr (ci_content item) = c /\ PStr (ci_source_id item) = sid
  /\ PStr (ci_internal_id item) = iid /\ approved_has_id item.
Proof.
  unfold ContextItem_init, refuse. intros H.
  destruct k as [| | | |k| | | | |]; try done. destruct (negb _); [done|].
  destruct c as [| | | |[|x c]| | | | |]; try done. destruct (bool_decide _); [done|]. inv_ok.
  destruct p as [| | | |p| | | | |]; try done. destruct e as [| | | |e| | | | |]; try done.
  destruct sid as [| | | |[|y sid]| | | | |]; try done. destruct iid as [| | | |iid| | | | |]; try done.
  destruct (is_approved_memory k e && bool_decide (iid = [])) eqn:A; [done|]. inv_ok.
  split_and!; try done. unfold approved_has_id. cbn [ci_kind ci_epistemic_status ci_internal_id]. intros Ha.
  rewrite Ha in A. by apply bool_decide_eq_false in A.
Qed.

(** What a memory's [to_context_item] is expected to return. *)
Definition lawful_memory (mem : memory_object) : Prop :=
  forall ref item, mem_to_context_item mem ref = Ok item ->
    ci_source_id item = ref /\ ci_kind item = u "memory" /\ approved_has_id item.

Definition from_row (loaded : LoadedContextData) (m : ChatMessage) : Prop :=
  exists i row, lc_history_rows loaded !! i = Some row /\ history_message i row = Ok m.

Lemma legacy_items_ok (k c p sid : pystr) item :
  legacy_item k c p sid = Ok item -> ci_kind item = k /\ ci_source_id item = sid /\ approved_has_id item.
Proof.
  unfold legacy_item. intros (E1 & _ & E3 & _ & A)%ContextItem_init_ok. split_and!; [by injection E1|by injection E3|done].
Qed.

Definition legacy_of (k sid : pystr) (items : list ContextItem) : Prop :=
  (length items <= 1)%nat /\ Forall (fun i => ci_kind i = k /\ ci_source_id i = sid /\ approved_has_id i) items.

Lemma legacy_none k sid : legacy_of k sid [].
Proof. split; [cbn; lia|constructor]. Qed.

Lemma legacy_one k c p sid item : legacy_item k c p sid = Ok item -> legacy_of k sid [item].
Proof. intros H%legacy_items_ok. split; [done|]. by apply Forall_singleton. Qed.

Lemma profile_items_ok profile items : profile_items_of profile = Ok items -> legacy_of (u "profile") (u "profile-1") items.
Proof.
  unfold profile_items_of. case_bool_decide; [intros [= <-]; apply legacy_none|].
  destruct (json_encode true (PDict profile)); [|intros [= <-]; apply legacy_none].
  destruct (legacy_item _ _ _ _) as [i|[]] eqn:L; intros [= <-]; first [by eapply legacy_one | apply legacy_none].
Qed.

Lemma persona_items_ok persona items : persona_items_of persona = Ok items -> legacy_of (u "persona") (u "persona-1") items.
Proof.
  unfold persona_items_of. case_bool_decide; [intros [= <-]; apply legacy_none|].
  intros Hp. inv_ok. by eapply legacy_one.
Qed.

Lemma short_NoDup {A} (l : list A) : (length l <= 1)%nat -> NoDup l.
Proof. destruct l as [|x [|y l]]; cbn; intros H; [constructor|apply NoDup_singleton|lia]. Qed.

Lemma short_refs k sid items : legacy_of k sid items -> NoDup (ci_source_id <$> items) /\ (forall r, r ∈ ci_source_id <$> items -> r = sid).
Proof.
  intros [L F]. split; [apply short_NoDup; by rewrite length_fmap|]. rewrite Forall_forall in F.
  intros r (i & -> & Hi)%list_elem_of_fmap. by apply F.
Qed.

(** References of the four kinds never collide. *)
Lemma NoDup_bundle policy history profile memory persona report :
  (forall i m, history !! i = Some m -> cm_source_id m = local_ref (u "msg") i) ->
  (forall i m, memory !! i = Some m -> ci_source_id m = local_ref (u "mem") i) ->
  legacy_of (u "profile") (u "profile-1") profile -> legacy_of (u "persona") (u "persona-1") persona ->
  NoDup (bundle_refs (mkContextBundle policy history profile memory persona report)).
Proof.
  intros Hh Hm Lp Lq. destruct (short_refs _ _ _ Lp) as [Np Rp], (short_refs _ _ _ Lq) as [Nq Rq].
  assert (forall r, r ∈ cm_source_id <$> history -> exists i, r = local_ref (u "msg") i) as Ih
    by (intros r (m & -> & (i & Hi)%list_elem_of_lookup)%list_elem_of_fmap; exists i; eauto).
  assert (forall r, r ∈ ci_source_id <$> memory -> exists i, r = local_ref (u "mem") i) as Im
    by (intros r (m & -> & (i & Hi)%list_elem_of_lookup)%list_elem_of_fmap; exists i; eauto).
  unfold bundle_refs, all_items. cbn [cb_history cb_memory_items cb_profile_items cb_persona_items]. rewrite !fmap_app.
  apply NoDup_app. split_and!; [by eapply numbered_NoDup| |].
  - intros r (i & ->)%Ih. rewrite !elem_of_app.
    intros [(j & E)%Im|[E%Rp|E%Rq]]; by vm_compute in E.
  - apply NoDup_app. split_and!; [by eapply numbered_NoDup| |].
    + intros r (i & ->)%Im. rewrite elem_of_app. intros [E%Rp|E%Rq]; by vm_compute in E.
    + apply NoDup_app. split_and!; [done| |done]. intros r ->%Rp E%Rq. by vm_compute in E.
Qed.

Lemma bundle_report policy loaded b : build_context_bundle policy loaded = Ok b -> cb_truncation_report b = empty_report.
Proof. unfold build_context_bundle, ContextBundle_init, refuse. intros H. by inv_ok. Qed.

Lemma build_context_bundle_ok policy loaded b :
  build_context_bundle policy loaded = Ok b -> Forall lawful_memory (lc_memories loaded) ->
  cb_trusted_policy b = policy /\ policy <> [] /\ Forall (from_row loaded) (cb_history b)
  /\ NoDup (bundle_refs b) /\ Forall approved_has_id (all_items b)
  /\ Forall (fun i => ci_kind i = u "memory") (cb_memory_items b)
  /\ Forall (fun i => ci_kind i = u "profile") (cb_profile_items b)
  /\ Forall (fun i => ci_kind i = u "persona") (cb_persona_items b)
  /\ report_ok (cb_truncation_report b).
Proof.
  unfold build_context_bundle, ContextBundle_init, refuse. cbn [cb_trusted_policy]. intros H Law. inv_ok. rename E into Eh, E0 into Em.
  apply profile_items_ok in E1 as Lp. apply persona_items_ok in E2 as Lq.
  cbn [cb_trusted_policy cb_history cb_memory_items cb_profile_items cb_persona_items cb_truncation_report].
  destruct (renumerate_ok _ _ _ _ Eh) as [_ Nh]. destruct (renumerate_ok _ _ _ _ Em) as [_ Nm]. rewrite Forall_forall in Law.
  assert (forall i m, v0 !! i = Some m -> ci_source_id m = local_ref (u "mem") i /\ ci_kind m = u "memory" /\ approved_has_id m) as Hm.
  { intros i m Hi. destruct (Nm _ _ Hi) as (mem & Hmem & Ei). unfold memory_item, rcatch in Ei. cbn [Nat.add] in Ei.
    destruct (mem_to_context_item mem _) eqn:T; [|done]. injection Ei as <-.
    eapply Law; [by eapply list_elem_of_lookup_2|done]. }
  pose proof (proj2 Lp) as Fp. pose proof (proj2 Lq) as Fq.
  split_and!; try done.
  - intros ->. by apply bool_decide_eq_false in G.
  - apply Forall_forall. intros m (i & Hi)%list_elem_of_lookup. destruct (Nh _ _ Hi) as (row & Hr & Hf). by exists i, row.
  - apply NoDup_bundle; [|..]; try done.
    + intros i m Hi. destruct (Nh _ _ Hi) as (row & _ & Hf). by apply history_message_ok in Hf as (-> & _).
    + intros i m Hi. by apply Hm.
  - unfold all_items. cbn [cb_memory_items cb_profile_items cb_persona_items]. rewrite !Forall_app. split_and!.
    + apply Forall_forall. intros m (i & Hi)%list_elem_of_lookup. by apply (Hm i).
    + eapply Forall_impl; [exact Fp|]. by intros ? (_ & _ & ?).
    + eapply Forall_impl; [exact Fq|]. by intros ? (_ & _ & ?).
  - apply Forall_forall. intros m (i & Hi)%list_elem_of_lookup. by apply (Hm i).
  - eapply Forall_impl; [exact Fp|]. by intros ? (? & _).
  - eapply Forall_impl; [exact Fq|]. by intros ? (? & _).
  - split; [set_solver|]. repeat constructor; cbn; lia.
Qed.

(** ** The selection *)

(** The texts of a bundle can be encoded. *)
Definition texts_encode (b : ContextBundle) : Prop :=
  Forall (fun m => encodes (as_message m)) (cb_history b) /\ Forall item_encodes (all_items b).

Lemma built_bundle_ok policy loaded b :
  build_context_bundle policy loaded = Ok b -> Forall lawful_memory (lc_memories loaded) -> texts_encode b -> bundle_ok b.
Proof.
  intros B L [Eh Ei]. destruct (build_context_bundle_ok _ _ _ B L) as (_ & _ & _ & N & I & M & P & Q & R). by split.
Qed.


(** ** The boundary *)

Lemma bundle_history policy loaded b :
  build_context_bundle policy loaded = Ok b -> cb_trusted_policy b = policy /\ Forall (from_row loaded) (cb_history b).
Proof.
  unfold build_context_bundle, ContextBundle_init, refuse. cbn [cb_trusted_policy]. intros H. inv_ok.
  cbn [cb_trusted_policy cb_history]. split; [done|]. destruct (renumerate_ok _ _ _ _ E) as [_ N].
  apply Forall_forall. intros m (i & Hi)%list_elem_of_lookup. destruct (N _ _ Hi) as (row & Hr & Hf). by exists i, row.
Qed.

Lemma select_history_incl system current max history sel k :
  select_history system current max history = Ok (sel, k) -> forall m, m ∈ sel -> m ∈ history.
Proof.
  unfold select_history. destruct history as [|m0 l]; [intros [= <- <-]; set_solver|]. set (h := m0 :: l). intros H. inv_ok.
  destruct (v <=? max); [by injection H as <- <-|].
  assert (forall m, m ∈ (sel, k).1 -> m ∈ h) as G; [|done].
  eapply (rfold_inv_in _ (fun st => forall m, m ∈ st.1 -> m ∈ h)); [| |exact H]; [|by intros m ?%elem_of_nil].
  intros st m st' Hm Hst Hs. rewrite <- Permutation_rev in Hm.
  unfold select_history_step in Hs. inv_ok. case_match; set_solver.
Qed.

Lemma select_items_incl system current max hist cs sel :
  rfold (select_item_step system current max hist) ([], (0, 0, 0)) cs = Ok sel -> forall i, i ∈ sel.1 -> i ∈ cs.*2.
Proof.
  intros H. eapply (rfold_inv_in _ (fun st => forall i, i ∈ st.1 -> i ∈ cs.*2)); [| |exact H]; [|by intros i ?%elem_of_nil].
  intros st c st' Hc Hst Hs. unfold select_item_step in Hs. inv_ok.
  assert (c.2 ∈ cs.*2) by (by apply list_elem_of_fmap_2). case_match; set_solver.
Qed.

Lemma from_row_role loaded m : from_row loaded m -> cm_role m ∈ VALID_HISTORY_ROLES.
Proof. intros (i & row & _ & H). by apply history_message_ok in H as (_ & ? & _). Qed.

(** The trust boundary: the messages are the policy with the boundary rule, at most
    one user message that holds the selected items as JSON, history taken from the
    loaded rows in chronological order, and the current message. *)
Lemma envelope_shape (policy : pystr) (loaded : LoadedContextData) (b : ContextBundle) (user_message max_units : pyval)
    (r : ContextBuildResult)
    (bundled : build_context_bundle policy loaded = Ok b) (built : build_envelope b user_message max_units = Ok r) :
  exists text max hist items,
    user_message = PStr text /\ max_units = PInt max
    /\ cr_messages r = with_history (u "user", text) (context_part (u "system", policy ++ BOUNDARY_RULE) items) hist
    /\ Forall (from_row loaded) hist /\ (forall i, i ∈ items -> i ∈ all_items b)
    /\ Forall (fun m => m.1 ∈ VALID_HISTORY_ROLES) (tail (cr_messages r))
    /\ _estimate_messages_units (cr_messages r) = Ok (cr_unit_count r) /\ cr_unit_count r <= max.
Proof.
  destruct (bundle_history _ _ _ bundled) as [<- Hrows]. clear bundled. unfold build_envelope, refuse in built. inv_ok.
  destruct user_message as [| | | |text| | | | |]; try done. inv_ok. rename v into max, v2 into hist, v3 into sel.
  assert (max_units = PInt max) as ->.
  { unfold _validate_max_units, refuse in E. destruct max_units; try done. by inv_ok. }
  rewrite final_messages_eq in E4. injection E4 as <-.
  assert (Forall (from_row loaded) hist.1) as Fh.
  { destruct hist as [h k]. rewrite Forall_forall in Hrows |- *. intros m Hm.
    eapply Hrows, select_history_incl; [exact E2|done]. }
  exists text, max, hist.1, sel.1. cbn [cr_messages cr_unit_count]. split_and!; try done.
  - intros i Hi. rewrite <- candidates_items. by eapply select_items_incl.
  - unfold with_history, context_part. cbn [app tail]. rewrite !Forall_app. split_and!.
    + destruct (sel.1); repeat constructor.
    + apply Forall_map. rewrite chronological_perm. eapply Forall_impl; [exact Fh|]. intros m. apply from_row_role.
    + repeat constructor.
  - match goal with G : (_ <? _) = false |- _ <= _ => apply Z.ltb_ge in G end. lia.
Qed.

End Properties.

(** ** On concrete data *)

Section Samples.
#[local] Instance sample_repr : FloatRepr := fun _ => u "0.3".
#[local] Instance sample_iso : IsoFormat := iso_basic.

Definition sample_row (role content created_at : string) (id : Z) : pydict :=
  [(KStr (u "role"), PStr (u role)); (KStr (u "content"), PStr (u content)); (KStr (u "id"), PInt id);
   (KStr (u "created_at"), PStr (u created_at))].

(** The first row in this list is the later one. *)
Definition late_row : pydict := sample_row "assistant" "fine" "2026-07-30T23:00:00-04:00" 8.
Definition early_row : pydict := sample_row "user" "how are you" "2026-07-31T01:00:00+00:00" 9.

Definition sample_uuid : pystr := u "12345678-1234-1234-1234-123456789abc".

Definition sample_memory : memory_object :=
  mkMemoryObject (PInt 1) (PBool true) (PStr sample_uuid) (PStr (u "user_confirmed")) (PStr (u "approved")) (PFloat 0.9)
    (fun ref => ContextItem_init (PStr (u "memory")) (PStr (u "likes tea")) (PStr (u "user_confirmed")) (PFloat 0.9)
                  (PStr (u "approved")) (PStr ref) (PStr sample_uuid)).

Definition sample_loaded : LoadedContextData :=
  mkLoadedContextData [late_row; early_row] [sample_memory] [(KStr (u "name"), PStr (u "Ana"))] (u "kind").

Example sample_loaded_accepted :
  LoadedContextData_init [PDict late_row; PDict early_row] [sample_memory] (PDict [(KStr (u "name"), PStr (u "Ana"))]) (PStr (u "kind"))
  = Ok sample_loaded.
Proof. vm_compute. reflexivity. Qed.

Definition sample_bundle : ContextBundle :=
  match build_context_bundle (u "policy") sample_loaded with
  | Ok b => b
  | Err _ => mkContextBundle [] [] [] [] [] empty_report
  end.

Lemma sample_bundled : build_context_bundle (u "policy") sample_loaded = Ok sample_bundle.
Proof. vm_compute. reflexivity. Qed.

Lemma sample_lawful : Forall lawful_memory (lc_memories sample_loaded).
Proof.
  apply Forall_singleton. intros ref item H. cbn [sample_memory mem_to_context_item] in H.
  apply ContextItem_init_ok in H as (K & _ & S & _ & A). split_and!; [by injection S|by injection K|done].
Qed.

Lemma sample_encodes : texts_encode sample_bundle.
Proof. split; unfold encodes, item_encodes; by apply (bool_decide_unpack _); vm_compute. Qed.


Lemma history_in_time_order_witness :
  exists ka kb, row_key early_row = Some ka /\ row_key late_row = Some kb /\ key_le ka kb.
Proof.
  destruct (cb_history sample_bundle) as [|a [|b [|c l]]] eqn:H; [vm_compute in H; discriminate..| |vm_compute in H; discriminate].
  assert (history_message 0 late_row = Ok a) as Ha by (vm_compute in H; injection H as <- <-; vm_compute; reflexivity).
  assert (history_message 1 early_row = Ok b) as Hb by (vm_compute in H; injection H as <- <-; vm_compute; reflexivity).
  apply (history_in_time_order [a; b] 0 1 b a 1 0).
  - constructor; [exists 0%nat, late_row; exact Ha|]. constructor; [exists 1%nat, early_row; exact Hb|constructor].
  - vm_compute in H. injection H as <- <-. vm_compute. reflexivity.
  - vm_compute in H. injection H as <- <-. vm_compute. reflexivity.
  - lia.
  - exact Hb.
  - exact Ha.
Defined.
End Samples.
