(* ===== verification/ProviderEnvelope.v ===== *)
(** * The provider input envelope

    Models src/backend/provider_envelope.py: the cost of a list of messages, its
    structural validation, byte-bounded truncation of text and the selection of
    optional context under a budget.  Messages are the dicts the code handles;
    costs are UTF-8 byte counts of canonical JSON. *)

From Stdlib Require Import Floats.
From S2P Require Import Prelude PyFloat FloatRound PyValue Json Utf8 Admission.
Local Open Scope Z_scope.

Definition VALID_ROLES : list pystr := [u "system"; u "user"; u "assistant"].
Definition VALID_MESSAGE_KEYS : list pystr := [u "role"; u "content"].
Definition OMISSION_MARKER : pystr := u "[...]".

(** [ProviderEnvelopeError] and the exceptions of Python the code lets through. *)
Inductive envelope_exn : Type :=
| ProviderEnvelopeError (code : pystr) (actual_units max_units : Z)
| EnvTypeError
| EnvValueError
| EnvIndexError
| EnvOverflowError
| EnvUnicodeError.

Definition envelope_error (code : pystr) : envelope_exn := ProviderEnvelopeError code 0 0.

(** ** Cost and validation *)

Section Envelope.
Context `{FR : FloatRepr}.

(** [max(1, len(text.encode("utf-8")))]. *)
Definition text_units (text : pystr) : result envelope_exn Z :=
  match utf8_len text with
  | Some n => Ok (Z.max 1 (Z.of_nat n))
  | None => Err EnvUnicodeError
  end.

Definition estimate_provider_input_units (messages : pyval) : result envelope_exn Z :=
  match messages with
  | PList _ =>
      match json_encode true messages with
      | Ok doc => text_units (render doc)
      | Err _ => Err (envelope_error (u "serialization_failed"))
      end
  | _ => Err (envelope_error (u "invalid_envelope_type"))
  end.

(** The body of the loop over the messages. *)
Definition validate_message (msg : pyval) : result envelope_exn unit :=
  match msg with
  | PDict d =>
      if has_unknown VALID_MESSAGE_KEYS d then Err (envelope_error (u "invalid_message_keys")) else
      match in_str_set (default PNone (dget d (u "role"))) VALID_ROLES with
      | None => Err EnvTypeError
      | Some false => Err (envelope_error (u "invalid_role"))
      | Some true =>
          match dget d (u "content") with
          | Some (PStr _) => Ok tt
          | _ => Err (envelope_error (u "invalid_content"))
          end
      end
  | _ => Err (envelope_error (u "invalid_message_structure"))
  end.

Definition validate_provider_input (messages : pyval) (max_units : Z) : result envelope_exn unit :=
  match messages with
  | PList [] => Err (envelope_error (u "empty_messages"))
  | PList l =>
      rmap validate_message l ;;;
      let* units := estimate_provider_input_units messages in
      if max_units <? units then Err (ProviderEnvelopeError (u "budget_exceeded") units max_units) else Ok tt
  | _ => Err (envelope_error (u "invalid_envelope_type"))
  end.

(** ** Truncation *)

Definition encode_or_raise (text : pystr) : result envelope_exn (list N) :=
  match utf8_encode text with Some b => Ok b | None => Err EnvUnicodeError end.

Definition _truncate_utf8_safe (text : pystr) (max_bytes : Z) : result envelope_exn (pystr * bool) :=
  let* encoded := encode_or_raise text in
  if Z.of_nat (length encoded) <=? max_bytes then Ok (text, false) else
  let* marker := encode_or_raise OMISSION_MARKER in
  let available := Z.max (max_bytes - Z.of_nat (length marker)) 1 in
  let truncated := decode_ignore (take (Z.to_nat available) encoded) in
  Ok (truncated ++ OMISSION_MARKER, true).

(** [int(f)]; [None] for a NaN or an infinity. *)
Definition float_int (f : float) : option Z :=
  match Prim2SF f with
  | S754_zero _ => Some 0
  | S754_finite s m e =>
      let a := if 0 <=? e then Zpos m * 2 ^ e else Zpos m / 2 ^ (- e) in Some (if s then - a else a)
  | _ => None
  end.

(** [int(total * ratio)] of an [int] and a [float]. *)
Definition scaled (total : Z) (ratio : float) : result envelope_exn Z :=
  match int_to_float total with
  | None => Err EnvOverflowError
  | Some t =>
      match float_int (t * ratio)%float with
      | Some z => Ok z
      | None => if is_nan (t * ratio)%float then Err EnvValueError else Err EnvOverflowError
      end
  end.

(** The loop that shortens the tail by one character while the result is too
    long: [fuel] is the length of the tail, which bounds its iterations. *)
Fixpoint shrink_tail (fuel : nat) (head tail : pystr) (max_bytes : Z) : result envelope_exn pystr :=
  let result := head ++ OMISSION_MARKER ++ tail in
  let* encoded := encode_or_raise result in
  if (max_bytes <? Z.of_nat (length encoded)) && (0 <? length tail)%nat then
    match fuel with
    | O => Ok result
    | S k => shrink_tail k head (take (length tail - 1) tail) max_bytes
    end
  else Ok result.

Definition _truncate_utf8_safe_head_tail (text : pystr) (max_bytes : Z) (head_ratio : float)
  : result envelope_exn (pystr * bool) :=
  let* encoded := encode_or_raise text in
  if Z.of_nat (length encoded) <=? max_bytes then Ok (text, false) else
  let* marker := encode_or_raise OMISSION_MARKER in
  let marker_bytes := Z.of_nat (length marker) in
  if max_bytes <? marker_bytes + 4 then _truncate_utf8_safe text max_bytes else
  let total_data := max_bytes - marker_bytes in
  let* share := scaled total_data head_ratio in
  let head_bytes := Z.max 1 share in
  let tail_bytes := Z.max 1 (total_data - head_bytes) in
  let head := decode_ignore (take (Z.to_nat head_bytes) encoded) in
  let tail := decode_ignore (drop (length encoded - Z.to_nat tail_bytes) encoded) in
  let* result := shrink_tail (length tail) head tail max_bytes in
  Ok (result, true).

(** ** Selection of optional context *)

Record ContextFitResult : Type := mkContextFitResult {
  fit_messages : list pyval;
  fit_selected_indices : gset nat;
  fit_pruned : bool }.

Definition system_message (content : pystr) : pyval :=
  PDict [(KStr (u "role"), PStr (u "system")); (KStr (u "content"), PStr content)].

(** [msg.get("role") == "system"]. *)
Definition is_system (msg : pyval) : bool :=
  match msg with
  | PDict d => match dget d (u "role") with Some (PStr r) => str_eqb r (u "system") | _ => false end
  | _ => false
  end.

(** [msg["content"]] of a validated message. *)
Definition message_content (msg : pyval) : pystr :=
  match msg with
  | PDict d => match dget d (u "content") with Some (PStr c) => c | _ => [] end
  | _ => []
  end.

(** The index of the first system message. *)
Fixpoint system_index (messages : list pyval) : option nat :=
  match messages with
  | [] => None
  | m :: l => if is_system m then Some O else S <$> system_index l
  end.

Definition _append_to_system (messages : list pyval) (payload : pystr) : result envelope_exn (list pyval) :=
  match system_index messages with
  | None => Err (envelope_error (u "no_system_message"))
  | Some i => Ok (<[i := system_message (message_content (default PNone (messages !! i)) ++ payload)]> messages)
  end.

Definition _estimate_remaining_budget (messages : list pyval) (max_units : Z) (suffix_payload : pystr)
  : result envelope_exn Z :=
  let* units := estimate_provider_input_units (PList messages) in
  let* suffix_units := if bool_decide (suffix_payload = []) then Ok 0 else text_units suffix_payload in
  Ok (Z.max 0 (max_units - units - suffix_units)).

(** [sorted(priority) != list(range(len(components)))]. *)
Definition _validate_selection_priority (priority : list Z) (n : nat) : result envelope_exn unit :=
  if bool_decide (stable_sort Z.ltb priority = Z.of_nat <$> seq 0 n) then Ok tt else Err EnvValueError.

(** The contents of the selected components, in visual order. *)
Fixpoint chosen_from (i : nat) (contents : list pystr) (selected : gset nat) : list pystr :=
  match contents with
  | [] => []
  | c :: l => if decide (i ∈ selected) then c :: chosen_from (S i) l selected else chosen_from (S i) l selected
  end.
Definition chosen (contents : list pystr) (selected : gset nat) : list pystr := chosen_from 0 contents selected.

Definition built_content (header : pystr) (parts : list pystr) (suffix_payload : pystr) : pystr :=
  header ++ (parts ≫= fun c => u "
" ++ c) ++ suffix_payload.

Section Fit.
Context (contents : list pystr) (max_units : Z) (truncate_long_messages : bool).
Context (header suffix_payload : pystr) (at_system : nat).

(** The messages kept after a successful test: without the suffix. *)
Definition keep (test : list pyval) (built : pystr) : list pyval :=
  if bool_decide (suffix_payload = []) then test
  else <[at_system := system_message (take (length built - length suffix_payload) built)]> test.

(** [list(current)] with the system message replaced, and its validation. *)
Definition try_content (current : list pyval) (built : pystr) : result envelope_exn (list pyval) :=
  let test := <[at_system := system_message built]> current in
  validate_provider_input (PList test) max_units ;;; Ok (keep test built).

(** One iteration over [selection_order]. *)
Definition fit_step (st : list pyval * gset nat) (idx : nat) : result envelope_exn (list pyval * gset nat) :=
  let '(current, selected) := st in
  match contents !! idx with
  | None => Err EnvIndexError
  | Some [] => Ok st
  | Some content =>
      match try_content current (built_content header (chosen contents ({[idx]} ∪ selected)) suffix_payload) with
      | Ok messages => Ok (messages, {[idx]} ∪ selected)
      | Err (ProviderEnvelopeError _ _ _) =>
          let discarded := selected ∖ {[idx]} in
          if negb truncate_long_messages then Ok (current, discarded) else
          let* remaining := _estimate_remaining_budget current max_units suffix_payload in
          if remaining <=? 0 then Ok (current, discarded) else
          let* truncated := _truncate_utf8_safe content remaining in
          if str_eqb truncated.1 content then Ok (current, discarded) else
          match try_content current (built_content header
                  (chosen (<[idx := truncated.1]> contents) ({[idx]} ∪ discarded)) suffix_payload) with
          | Ok messages => Ok (messages, {[idx]} ∪ discarded)
          | Err (ProviderEnvelopeError _ _ _) => Ok (current, discarded)
          | Err e => Err e
          end
      | Err e => Err e
      end
  end.
End Fit.

(** ["\n\n" + suffix if suffix else ""]. *)
Definition suffix_payload_of (suffix : pystr) : pystr :=
  if bool_decide (suffix = []) then [] else u "

" ++ suffix.

Definition _fit_optional_context_impl (mandatory : list pyval) (components : list (pystr * pystr)) (max_units : Z)
  (truncate_long_messages : bool) (suffix : pystr) (selection_priority : option (list Z))
  : result envelope_exn ContextFitResult :=
  let contents := components.*2 in
  let suffix_payload := suffix_payload_of suffix in
  if bool_decide (components = []) then
    let* messages := if bool_decide (suffix = []) then Ok mandatory else
      let* m := _append_to_system mandatory suffix_payload in
      validate_provider_input (PList m) max_units ;;; Ok m in
    Ok (mkContextFitResult messages ∅ false)
  else
    match system_index mandatory with
    | None => Err (envelope_error (u "no_system_message"))
    | Some at_system =>
        let* order := match selection_priority with
          | Some p => _validate_selection_priority p (length components) ;;; Ok (Z.to_nat <$> p)
          | None => Ok (seq 0 (length components))
          end in
        let header := message_content (default PNone (mandatory !! at_system)) in
        let* st := rfold (fit_step contents max_units truncate_long_messages header suffix_payload at_system)
                     (mandatory, ∅) order in
        let* messages := if bool_decide (suffix = []) then Ok st.1 else
          let* m := _append_to_system st.1 suffix_payload in
          validate_provider_input (PList m) max_units ;;; Ok m in
        Ok (mkContextFitResult messages st.2 (size st.2 <? length components)%nat)
    end.

Definition fit_optional_context (mandatory : list pyval) (components : list (pystr * pystr)) (max_units : Z)
  (truncate_long_messages : bool) (suffix : pystr) (selection_priority : option (list Z))
  : result envelope_exn ContextFitResult :=
  validate_provider_input (PList mandatory) max_units ;;;
  _fit_optional_context_impl mandatory components max_units truncate_long_messages suffix selection_priority.

End Envelope.

(** ** Truncation keeps characters whole and stays within its bound *)

Lemma marker_encode : encode_or_raise OMISSION_MARKER = Ok OMISSION_MARKER.
Proof. reflexivity. Qed.

Lemma marker_encodable : encodable OMISSION_MARKER.
Proof. repeat constructor. Qed.

Lemma encode_or_raise_ok s : encodable s -> encode_or_raise s = Ok (s ≫= encode_char).
Proof. intros H. unfold encode_or_raise. by rewrite encodable_encode. Qed.

(** What the truncation means on characters: the text itself when it fits, else
    its longest prefix that leaves room for the marker. *)
Definition truncate_chars (text : pystr) (max_bytes : Z) : pystr * bool :=
  if Z.of_nat (width text) <=? max_bytes then (text, false)
  else (prefix_within (Z.to_nat (Z.max (max_bytes - 5) 1)) text ++ OMISSION_MARKER, true).

Lemma truncate_is_truncate_chars text max_bytes :
  encodable text -> _truncate_utf8_safe text max_bytes = Ok (truncate_chars text max_bytes).
Proof.
  intros H. unfold _truncate_utf8_safe, truncate_chars. rewrite encode_or_raise_ok by done. cbn [rbind].
  rewrite encode_length. destruct (Z.of_nat (width text) <=? max_bytes); [done|].
  rewrite marker_encode. cbn [rbind]. by rewrite decode_take.
Qed.

Lemma truncate_chars_width text max_bytes :
  Z.of_nat (width (truncate_chars text max_bytes).1) <= Z.max max_bytes 6.
Proof.
  unfold truncate_chars. destruct (Z.leb_spec (Z.of_nat (width text)) max_bytes); cbn [fst]; [lia|].
  rewrite width_app. change (width OMISSION_MARKER) with 5%nat.
  pose proof (prefix_within_width (Z.to_nat (Z.max (max_bytes - 5) 1)) text). lia.
Qed.

Lemma encodable_prefix n s : encodable s -> encodable (prefix_within n s).
Proof.
  intros H. destruct (prefix_within_spec n s) as (r & E & _). rewrite E in H. by apply encodable_app in H as [? _].
Qed.

Lemma encodable_suffix n s : encodable s -> encodable (suffix_from n s).
Proof.
  intros H. destruct (suffix_from_spec n s) as (r & E & _). rewrite E in H. by apply encodable_app in H as [_ ?].
Qed.

(** [int(f)] of a float between 0 and an integer. *)
Lemma float_int_le f z :
  isfinite f = true -> 0 <= fval f <= z * 2 ^ SC -> exists k, float_int f = Some k /\ 0 <= k <= z.
Proof.
  intros F B. unfold float_int.
  destruct (Prim2SF_cases f F) as [(s & -> & E)|(s & m & e & -> & _ & L & E)]; rewrite E in B.
  { exists 0. assert (0 < 2 ^ SC) by done. split; [done|]. nia. }
  pose proof (mval_pos m e L) as P. destruct s; cbn [cond_Zopp] in B; [lia|].
  unfold mval in B. assert (0 < 2 ^ SC) as PS by done. eexists. split; [reflexivity|].
  destruct (Z.leb_spec 0 e).
  - rewrite Z.pow_add_r in B by (unfold SC; lia). split; [apply Z.mul_nonneg_nonneg; [lia|apply Z.pow_nonneg; lia]|].
    apply (Z.mul_le_mono_pos_r _ _ (2 ^ SC)); [done|]. lia.
  - split; [apply Z.div_pos; [lia|apply Z.pow_pos_nonneg; lia]|].
    apply Z.div_le_upper_bound; [apply Z.pow_pos_nonneg; lia|].
    assert (2 ^ SC = 2 ^ (e + SC) * 2 ^ (- e)) as E2.
    { rewrite <- Z.pow_add_r by (unfold SC in *; lia). f_equal. lia. }
    rewrite E2 in B. assert (0 < 2 ^ (e + SC)) by (apply Z.pow_pos_nonneg; unfold SC; lia). nia.
Qed.

Lemma scaled_le total ratio :
  0 <= total < 2 ^ 53 -> in_range 0 1 ratio = true -> exists k, scaled total ratio = Ok k /\ 0 <= k <= total.
Proof.
  intros Ht Hr. destruct (int_to_float_le total Ht) as (t & E & F & B). unfold scaled. rewrite E.
  destruct (fmul_contract t ratio F Hr) as (Fm & A & P & _). specialize (P ltac:(lia)).
  destruct (float_int_le (t * ratio)%float total Fm ltac:(lia)) as (k & -> & K). by exists k.
Qed.

(** C39. Cutting the encoded bytes and dropping what no longer decodes is the same
    as cutting between characters: the result is the text itself when it fits, and
    otherwise its longest prefix that fits with the marker; it is within the bound
    whenever the bound leaves room for one byte and the marker. *)
Theorem truncate_utf8_equiv (text : pystr) (max_bytes : Z) (encodes : encodable text) :
  _truncate_utf8_safe text max_bytes = Ok (truncate_chars text max_bytes)
  /\ (6 <= max_bytes -> Z.of_nat (width (truncate_chars text max_bytes).1) <= max_bytes)
  /\ (6 <= max_bytes < Z.of_nat (width text) ->
      exists p q, (truncate_chars text max_bytes).1 = p ++ OMISSION_MARKER /\ text = p ++ q
        /\ forall p' q', text = p' ++ q' -> Z.of_nat (width p') <= max_bytes - 5 -> exists r, p = p' ++ r).
Proof.
  split_and!.
  - by apply truncate_is_truncate_chars.
  - intros H. pose proof (truncate_chars_width text max_bytes). lia.
  - intros H. unfold truncate_chars. replace (Z.of_nat (width text) <=? max_bytes) with false by lia. cbn [fst].
    destruct (prefix_within_spec (Z.to_nat (Z.max (max_bytes - 5) 1)) text) as (r & E & _ & M).
    eexists _, r. split; [done|]. split; [done|]. intros p' q' E' W. apply (M p' q' E'). lia.
Qed.

Lemma truncate_utf8_equiv_witness :
  encodable [104; 233; 8364; 8364; 8364]%N
  /\ _truncate_utf8_safe [104; 233; 8364; 8364; 8364]%N 11 = Ok ([104; 233; 8364]%N ++ OMISSION_MARKER, true).
Proof.
  assert (encodable [104; 233; 8364; 8364; 8364]%N) as H by (repeat constructor).
  split; [exact H|]. exact (proj1 (truncate_utf8_equiv _ 11 H)).
Defined.

(** Below six bytes the result is longer than the bound it was asked to keep. *)
Example truncate_overshoots :
  _truncate_utf8_safe (u "abcdefgh") 3 = Ok (u "a[...]", true) /\ (3 < width (u "a[...]"))%nat.
Proof. split; [reflexivity|vm_compute; lia]. Qed.

(** The loop ends with a result that fits, on a prefix of the tail. *)
Lemma shrink_tail_fits fuel head tail max_bytes :
  (length tail <= fuel)%nat -> encodable head -> encodable tail -> Z.of_nat (width head) + 5 <= max_bytes ->
  exists k, shrink_tail fuel head tail max_bytes = Ok (head ++ OMISSION_MARKER ++ take k tail)
    /\ Z.of_nat (width (head ++ OMISSION_MARKER ++ take k tail)) <= max_bytes.
Proof.
  intros L Eh Et Hh. revert tail L Et. induction fuel as [|fuel IH]; intros tail L Et.
  all: assert (encodable (head ++ OMISSION_MARKER ++ tail)) as En
    by (rewrite !encodable_app; repeat split; auto using marker_encodable).
  all: cbn [shrink_tail]; rewrite encode_or_raise_ok by done; cbn [rbind]; rewrite encode_length.
  all: destruct (Z.ltb_spec max_bytes (Z.of_nat (width (head ++ OMISSION_MARKER ++ tail)))) as [W|W]; cbn [andb];
    [|exists (length tail); rewrite firstn_all; split; [done|lia]].
  - destruct tail; [|cbn in L; lia]. exfalso. rewrite app_nil_r, width_app in W.
    change (width OMISSION_MARKER) with 5%nat in W. lia.
  - destruct (Nat.ltb_spec 0 (length tail)) as [T|T].
    + destruct (IH (take (length tail - 1) tail)) as (k & -> & K); [rewrite length_take; lia|by apply Forall_take|].
      exists (min k (length tail - 1)). by rewrite take_take in *.
    + destruct tail; [|cbn in T; lia]. exfalso. rewrite app_nil_r, width_app in W.
      change (width OMISSION_MARKER) with 5%nat in W. lia.
Qed.

(** No iteration runs when the parts already fit. *)
Lemma shrink_tail_noop fuel head tail max_bytes :
  encodable head -> encodable tail -> Z.of_nat (width (head ++ OMISSION_MARKER ++ tail)) <= max_bytes ->
  shrink_tail fuel head tail max_bytes = Ok (head ++ OMISSION_MARKER ++ tail).
Proof.
  intros Eh Et W. assert (encodable (head ++ OMISSION_MARKER ++ tail)) as En
    by (rewrite !encodable_app; repeat split; auto using marker_encodable).
  destruct fuel; cbn [shrink_tail]; rewrite encode_or_raise_ok by done; cbn [rbind]; rewrite encode_length;
    (replace (max_bytes <? _) with false by lia); done.
Qed.

(** Head-and-tail truncation always returns, within its bound: the text itself
    when it fits, else whole characters from its beginning, the marker and whole
    characters from further on, which reach the very end of the text when the head's
    share leaves room for them; the loop that shortens the tail never runs out of
    tail first. *)
Theorem truncate_head_tail_bounded (text : pystr) (max_bytes : Z) (ratio : float)
    (encodes : encodable text) (bound : 6 <= max_bytes < 2 ^ 53) (share : in_range 0 1 ratio = true) :
  exists out cut, _truncate_utf8_safe_head_tail text max_bytes ratio = Ok (out, cut)
    /\ encodable out /\ Z.of_nat (width out) <= max_bytes
    /\ (if cut then exists head tail p q t', out = head ++ OMISSION_MARKER ++ tail
                    /\ text = head ++ p /\ text = q ++ tail ++ t'
                    /\ (forall k, scaled (max_bytes - 5) ratio = Ok k -> k < max_bytes - 5 -> t' = [])
        else out = text).
Proof.
  unfold _truncate_utf8_safe_head_tail. rewrite encode_or_raise_ok by done. cbn [rbind]. rewrite encode_length.
  destruct (Z.leb_spec (Z.of_nat (width text)) max_bytes) as [W|W]; [by exists text, false|].
  rewrite marker_encode. cbn [rbind]. change (Z.of_nat (length OMISSION_MARKER)) with 5.
  destruct (Z.ltb_spec max_bytes (5 + 4)) as [S|S].
  - rewrite truncate_is_truncate_chars by done. unfold truncate_chars at 1.
    pose proof (truncate_chars_width text max_bytes) as B. unfold truncate_chars in B.
    replace (Z.of_nat (width text) <=? max_bytes) with false in * by lia. cbn [fst] in B.
    eexists _, true. split; [reflexivity|]. split_and!; [|lia|].
    + apply encodable_app. auto using encodable_prefix, marker_encodable.
    + destruct (prefix_within_spec (Z.to_nat (Z.max (max_bytes - 5) 1)) text) as (r & E & _).
      eexists _, [], r, text, []. rewrite !app_nil_r. auto.
  - destruct (scaled_le (max_bytes - 5) ratio ltac:(lia) share) as (k & -> & K). cbn [rbind].
    set (hb := Z.max 1 k). set (tb := Z.max 1 (max_bytes - 5 - hb)). rewrite decode_take, decode_drop by done.
    set (head := prefix_within _ text). set (tail := suffix_from _ text).
    pose proof (prefix_within_width (Z.to_nat hb) text) as Wh. fold head in Wh.
    assert (encodable head /\ encodable tail) as [Eh Et]
      by (split; [by apply encodable_prefix|by apply encodable_suffix]).
    destruct (prefix_within_spec (Z.to_nat hb) text) as (p & Ep & _).
    destruct (suffix_from_spec (width text - Z.to_nat tb) text) as (q & Eq & _). fold head in Ep. fold tail in Eq.
    destruct (Z.lt_ge_cases k (max_bytes - 5)) as [Hk|Hk].
    + pose proof (suffix_from_width text (Z.to_nat tb)) as Wt. fold tail in Wt.
      assert (Z.of_nat (width (head ++ OMISSION_MARKER ++ tail)) <= max_bytes) as Fits.
      { rewrite !width_app. change (width OMISSION_MARKER) with 5%nat. lia. }
      rewrite shrink_tail_noop by done. cbn [rbind]. eexists _, true. split; [reflexivity|]. split_and!; [|done|].
      * rewrite !encodable_app. auto using marker_encodable.
      * exists head, tail, p, q, []. by rewrite app_nil_r.
    + destruct (shrink_tail_fits (length tail) head tail max_bytes) as (n & -> & F); [lia|done|done|lia|].
      cbn [rbind]. eexists _, true. split; [reflexivity|]. split_and!; [|done|].
      * rewrite !encodable_app. split; [done|]. split; [apply marker_encodable|by apply Forall_take].
      * exists head, (take n tail), p, q, (drop n tail). rewrite take_drop. split_and!; [done|done|done|].
        intros k' [= <-]. lia.
Qed.

Lemma truncate_head_tail_bounded_witness :
  exists out cut, _truncate_utf8_safe_head_tail (u "the beginning and the end of it all") 20 0.6 = Ok (out, cut)
    /\ Z.of_nat (width out) <= 20 /\ cut = true.
Proof.
  destruct (truncate_head_tail_bounded (u "the beginning and the end of it all") 20 0.6
    ltac:(repeat constructor) ltac:(lia) ltac:(vm_compute; reflexivity)) as (out & cut & E & _ & W & _).
  exists out, cut. split; [exact E|]. split; [exact W|]. destruct cut; [reflexivity|].
  vm_compute in E. discriminate E.
Defined.
