(* ===== verification/ContextFit.v ===== *)
(** * Selecting optional context under a budget

    Theorems on [fit_optional_context] (src/backend/provider_envelope.py): the cost
    of a candidate envelope is a constant plus the escaped length of the system
    content, so it grows with the selection; hence the greedy selection keeps the
    budget, renders what it selected in visual order and cannot be extended. *)

From S2P Require Import Prelude PyFloat PyValue Json Utf8 JsonCost ProviderEnvelope.
Local Open Scope Z_scope.

(** ** Lists *)

Lemma rmap_insert {E A B} (f : A -> result E B) l ys i x y :
  rmap f l = Ok ys -> f x = Ok y -> rmap f (<[i := x]> l) = Ok (<[i := y]> ys).
Proof.
  revert ys i. induction l as [|a l IH]; intros ys i H Hx; [by injection H as <-|].
  rewrite rmap_cons in H. destruct (f a) as [b|] eqn:Fa; [|done]. cbn [rbind] in H.
  destruct (rmap f l) as [bs|] eqn:Fl; [|done]. injection H as <-.
  destruct i as [|i].
  - change (<[0%nat := x]> (a :: l)) with (x :: l). by rewrite rmap_cons, Hx, Fl.
  - change (<[S i := x]> (a :: l)) with (a :: <[i := x]> l). by rewrite rmap_cons, Fa, (IH bs i eq_refl Hx).
Qed.

Section Fit.
Context `{FR : FloatRepr}.

(** ** The cost of a candidate *)

Lemma encode_system b : json_encode true (system_message b) = Ok (message_doc (u "system") b).
Proof. reflexivity. Qed.

Lemma validate_system b : validate_message (system_message b) = Ok tt.
Proof. reflexivity. Qed.

(** What validating [base + n] units against a budget gives. *)
Definition charge (base : nat) (len : option nat) (max_units : Z) : result envelope_exn unit :=
  match len with
  | None => Err EnvUnicodeError
  | Some n => if max_units <? Z.of_nat (base + n)
              then Err (ProviderEnvelopeError (u "budget_exceeded") (Z.of_nat (base + n)) max_units) else Ok tt
  end.

Lemma estimate_docs l docs :
  rmap (json_encode true) l = Ok docs ->
  estimate_provider_input_units (PList l)
  = match doc_len (JArr docs) with Some n => Ok (Z.of_nat n) | None => Err EnvUnicodeError end.
Proof.
  intros Hd. unfold estimate_provider_input_units. cbn [json_encode]. rewrite Hd. cbn [rbind].
  unfold text_units. fold (doc_len (JArr docs)). rewrite array_len.
  destruct (osum (doc_len <$> docs)) as [n|]; [|done]. cbn [oplus].
  by replace (Z.max 1 _) with (Z.of_nat (n + (length docs - 1 + 2))) by lia.
Qed.

(** Validation of a list of well-formed messages is a charge on its documents. *)
Lemma validate_charge l docs max_units :
  l <> [] -> is_ok (rmap validate_message l) = true -> rmap (json_encode true) l = Ok docs ->
  validate_provider_input (PList l) max_units = charge 0 (doc_len (JArr docs)) max_units.
Proof.
  intros Hl Hv Hd. unfold validate_provider_input. destruct l as [|x l]; [done|]. clear Hl.
  destruct (rmap validate_message (x :: l)); [|done]. cbn [rbind].
  rewrite (estimate_docs _ docs Hd). unfold charge. by destruct (doc_len (JArr docs)).
Qed.

Lemma validate_inv l max_units :
  validate_provider_input (PList l) max_units = Ok tt ->
  l <> [] /\ is_ok (rmap validate_message l) = true
  /\ exists docs n, rmap (json_encode true) l = Ok docs /\ doc_len (JArr docs) = Some n /\ Z.of_nat n <= max_units.
Proof.
  unfold validate_provider_input. destruct l as [|x l]; [done|]. intros H. inv_ok. split; [done|].
  split; [done|]. unfold estimate_provider_input_units in E0. cbn [json_encode] in E0.
  destruct (rmap (json_encode true) (x :: l)) as [docs|] eqn:D; [|done]. cbn [rbind] in E0.
  unfold text_units in E0. fold (doc_len (JArr docs)) in E0. destruct (doc_len (JArr docs)) as [n|] eqn:L; [|done].
  injection E0 as <-. exists docs, n. split_and!; [done|done|]. apply Z.ltb_ge in G. lia.
Qed.

(** Replacing the system content of valid messages is charged for that content. *)
Lemma replace_cost ms m0 i :
  validate_provider_input (PList ms) m0 = Ok tt -> (i < length ms)%nat ->
  exists base,
    (forall b max_units,
       validate_provider_input (PList (<[i := system_message b]> ms)) max_units = charge base (esc_len b) max_units)
    /\ (forall b n, esc_len b = Some n ->
       estimate_provider_input_units (PList (<[i := system_message b]> ms)) = Ok (Z.of_nat (base + n))).
Proof.
  intros (Hl & Hv & docs & n & Hd & Hn & _)%validate_inv Hi. rewrite array_len in Hn.
  pose proof (rmap_ok_length _ _ _ Hd) as Len.
  destruct (osum (take i (doc_len <$> docs) ++ drop (S i) (doc_len <$> docs))) as [r|] eqn:R.
  2: { exfalso. destruct (lookup_lt_is_Some_2 (doc_len <$> docs) i) as [d Hdi]; [rewrite length_fmap; lia|].
       rewrite <- (take_drop_middle _ _ _ Hdi) in Hn. rewrite (osum_perm _ _ (symmetry (Permutation_middle _ _ _))) in Hn.
       cbn [osum] in Hn. rewrite R in Hn. by destruct d. }
  set (base := (26 + 6 + r + (length docs - 1))%nat). exists base.
  assert (forall b, rmap (json_encode true) (<[i := system_message b]> ms) = Ok (<[i := message_doc (u "system") b]> docs)) as Hd'
    by (intros b; by apply rmap_insert).
  assert (forall b, doc_len (JArr (<[i := message_doc (u "system") b]> docs)) = oplus (esc_len b) (Some base)) as Hc.
  { intros b. rewrite array_len, length_insert, list_fmap_insert, osum_insert, R by (rewrite length_fmap; lia).
    rewrite message_len. change (esc_len (u "system")) with (Some 6%nat).
    destruct (esc_len b) as [e|]; [|done]. cbn [oplus]. unfold base. f_equal. lia. }
  split.
  - intros b max_units. assert (<[i := system_message b]> ms <> []) as Hne
      by (intros E; apply (f_equal length) in E; rewrite length_insert in E; cbn in E; lia).
    assert (is_ok (rmap validate_message (<[i := system_message b]> ms)) = true) as Hv'
      by (destruct (rmap validate_message ms) eqn:V; [by rewrite (rmap_insert _ _ _ _ _ _ V (validate_system b))|done]).
    rewrite (validate_charge _ _ max_units Hne Hv' (Hd' b)), Hc. unfold charge.
    destruct (esc_len b) as [e|]; [|done]. cbn [oplus]. by replace (0 + (e + base))%nat with (base + e)%nat by lia.
  - intros b k Hk. rewrite (estimate_docs _ _ (Hd' b)), Hc, Hk. cbn [oplus]. do 2 f_equal. lia.
Qed.

(** ** The greedy loop *)

Lemma take_app_back {A} (a b : list A) : take (length (a ++ b) - length b) (a ++ b) = a.
Proof. rewrite length_app. replace (length a + length b - length b)%nat with (length a) by lia. apply take_app_length. Qed.

Lemma built_suffix header parts suf : built_content header parts suf = built_content header parts [] ++ suf.
Proof. unfold built_content. by rewrite app_nil_r, <- app_assoc. Qed.

Lemma chosen_empty contents : chosen contents ∅ = [].
Proof.
  unfold chosen. generalize 0%nat. induction contents as [|c l IH]; intros k; [done|]. cbn.
  rewrite decide_False by set_solver. apply IH.
Qed.

Lemma chosen_contents contents sel c : c ∈ chosen contents sel -> c ∈ contents.
Proof.
  unfold chosen. generalize 0%nat. induction contents as [|x l IH]; intros k; [done|]. cbn.
  specialize (IH (S k)). case_decide; set_solver.
Qed.

(** What the components chosen weigh together. *)
Lemma chosen_mono (f : pystr -> nat) contents sel sel' :
  sel ⊆ sel' -> (sum_list_with f (chosen contents sel) <= sum_list_with f (chosen contents sel'))%nat.
Proof.
  intros H. unfold chosen. generalize 0%nat. induction contents as [|c l IH]; intros k; [done|]. cbn.
  specialize (IH (S k)). repeat case_decide; cbn; try set_solver; lia.
Qed.

(** The bytes a string adds to the content, when it can be encoded. *)
Definition bytes (s : pystr) : nat := default 0%nat (esc_len s).

Section Greedy.
Context (contents : list pystr) (max_units : Z) (header suf : pystr) (base : nat).
Context (enc_header : is_Some (esc_len header)) (enc_suf : is_Some (esc_len suf)).
Context (enc_contents : forall c, c ∈ contents -> is_Some (esc_len c)).

Definition content_of (sel : gset nat) : pystr := built_content header (chosen contents sel) suf.
Definition load (sel : gset nat) : nat :=
  (base + (bytes header + sum_list_with (fun c => 2 + bytes c) (chosen contents sel) + bytes suf))%nat.

Lemma content_len sel : esc_len (content_of sel) = Some (load sel - base)%nat.
Proof.
  unfold content_of, load, built_content. rewrite !esc_len_app.
  assert (forall l, (forall c, c ∈ l -> is_Some (esc_len c)) ->
    esc_len (l ≫= fun c => u "
" ++ c) = Some (sum_list_with (fun c => 2 + bytes c)%nat l)) as P.
  { induction l as [|c l IH]; intros H; [done|]. rewrite bind_cons, !esc_len_app, IH by set_solver.
    destruct (H c ltac:(set_solver)) as [n Hn]. cbn [sum_list_with]. unfold bytes. rewrite Hn. done. }
  rewrite P by (intros c Hc%chosen_contents; auto). unfold bytes.
  destruct enc_header as [n1 ->], enc_suf as [n2 ->]. cbn. f_equal. lia.
Qed.

(** A candidate is accepted exactly when its load is within the budget. *)
Lemma candidate sel :
  charge base (esc_len (content_of sel)) max_units
  = if max_units <? Z.of_nat (load sel)
    then Err (ProviderEnvelopeError (u "budget_exceeded") (Z.of_nat (load sel)) max_units) else Ok tt.
Proof.
  rewrite content_len. unfold charge. by replace (base + (load sel - base))%nat with (load sel) by (unfold load; lia).
Qed.

Lemma load_mono sel sel' : sel ⊆ sel' -> (load sel <= load sel')%nat.
Proof.
  intros H. unfold load. pose proof (chosen_mono (fun c => 2 + bytes c)%nat contents sel sel' H). lia.
Qed.

Context (ms : list pyval) (s : nat).
Context (cost : forall b m, validate_provider_input (PList (<[s := system_message b]> ms)) m = charge base (esc_len b) m).

(** The messages the loop holds for a selection: without the suffix. *)
Definition held (sel : gset nat) : list pyval :=
  if decide (sel = ∅) then ms else <[s := system_message (built_content header (chosen contents sel) [])]> ms.

Lemma try_held sel sel' :
  sel' <> ∅ ->
  try_content max_units suf s (held sel) (content_of sel')
  = if max_units <? Z.of_nat (load sel')
    then Err (ProviderEnvelopeError (u "budget_exceeded") (Z.of_nat (load sel')) max_units) else Ok (held sel').
Proof.
  intros Hne. unfold try_content.
  assert (forall b, <[s := b]> (held sel) = <[s := b]> ms) as Hins.
  { intros b. unfold held. case_decide; [done|]. apply list_insert_insert_eq. }
  rewrite Hins, cost, candidate. destruct (max_units <? _); [done|]. cbn [rbind]. f_equal.
  unfold keep, held. rewrite (decide_False (P := sel' = ∅)) by done. unfold content_of.
  case_bool_decide as E; [by rewrite E|]. rewrite list_insert_insert_eq. do 2 f_equal.
  rewrite built_suffix at 1 2. apply take_app_back.
Qed.

Definition nonempty (i : nat) : Prop := exists c : pystr, contents !! i = Some c /\ c <> [].

(** What the loop has established after trying the components [tried]. *)
Definition greedy (tried : gset nat) (st : list pyval * gset nat) : Prop :=
  st.1 = held st.2 /\ st.2 ⊆ tried /\ (forall i, i ∈ st.2 -> nonempty i)
  /\ (Z.of_nat (load st.2) <= max_units)
  /\ (forall i, i ∈ tried -> nonempty i -> i ∉ st.2 -> max_units < Z.of_nat (load ({[i]} ∪ st.2))).

Lemma greedy_step tried st idx :
  greedy tried st -> idx ∉ tried -> (idx < length contents)%nat ->
  exists st', fit_step contents max_units false header suf s st idx = Ok st' /\ greedy ({[idx]} ∪ tried) st'.
Proof.
  intros (H1 & H2 & H3 & H4 & H5) Hnew Hlt. destruct st as [cur sel]. cbn [fst snd] in *. subst cur.
  destruct (lookup_lt_is_Some_2 contents idx Hlt) as [c Hc]. unfold fit_step.
  match goal with |- context [match ?t with Some _ => _ | None => Err EnvIndexError end] =>
    replace t with (Some c) end. destruct c as [|x c].
  { eexists. split; [reflexivity|]. split_and!; cbn [fst snd]; [done|set_solver|done|done|].
    intros i Hi Hn Hsel. destruct (decide (i = idx)) as [-> |]; [destruct Hn as (c & Hc' & ?); rewrite Hc in Hc'; congruence|].
    apply H5; set_solver. }
  fold (content_of ({[idx]} ∪ sel)). rewrite try_held by set_solver.
  destruct (Z.ltb_spec max_units (Z.of_nat (load ({[idx]} ∪ sel)))) as [L|L].
  - cbn [negb]. eexists. split; [reflexivity|]. replace (sel ∖ {[idx]}) with sel by set_solver.
    split_and!; cbn [fst snd]; [done|set_solver|done|done|].
    intros i Hi Hn Hsel. destruct (decide (i = idx)) as [-> |]; [done|]. apply H5; set_solver.
  - eexists. split; [reflexivity|]. split_and!; cbn [fst snd]; [done|set_solver| |done|].
    + intros i [-> %elem_of_singleton|Hi]%elem_of_union; [by exists (x :: c)|by apply H3].
    + intros i Hi Hn Hsel. specialize (H5 i ltac:(set_solver) Hn ltac:(set_solver)).
      pose proof (load_mono ({[i]} ∪ sel) ({[i]} ∪ ({[idx]} ∪ sel)) ltac:(set_solver)). lia.
Qed.

Lemma greedy_loop order tried st :
  greedy tried st -> NoDup order -> (forall i, i ∈ order -> i ∉ tried /\ (i < length contents)%nat) ->
  exists st', rfold (fit_step contents max_units false header suf s) st order = Ok st'
    /\ greedy (list_to_set order ∪ tried) st'.
Proof.
  revert tried st. induction order as [|idx order IH]; intros tried st G N H.
  { exists st. split; [done|]. by replace (list_to_set [] ∪ tried) with tried by set_solver. }
  apply NoDup_cons in N as [Nidx N]. destruct (H idx ltac:(set_solver)) as [Hn Hl].
  destruct (greedy_step tried st idx G Hn Hl) as (st1 & E & G1). cbn [rfold]. rewrite E. cbn [rbind].
  destruct (IH ({[idx]} ∪ tried) st1 G1 N) as (st' & -> & G').
  { intros i Hi. destruct (H i ltac:(set_solver)). split; [|done]. set_solver. }
  exists st'. split; [done|]. by replace (list_to_set (idx :: order) ∪ tried)
    with (list_to_set order ∪ ({[idx]} ∪ tried)) by set_solver.
Qed.

End Greedy.

(** ** The whole call *)

Lemma system_index_lt l i : system_index l = Some i -> (i < length l)%nat.
Proof.
  revert i. induction l as [|m l IH]; intros i; cbn; [done|]. destruct (is_system m); [intros [= <-]; lia|].
  destruct (system_index l) as [j|]; [|done]. intros [= <-]. specialize (IH j eq_refl). lia.
Qed.

Lemma system_index_insert l i b : system_index l = Some i -> system_index (<[i := system_message b]> l) = Some i.
Proof.
  revert i. induction l as [|m l IH]; intros i; cbn; [done|]. destruct (is_system m) eqn:E.
  - by intros [= <-].
  - destruct (system_index l) as [j|]; [|done]. intros [= <-].
    change (<[S j := system_message b]> (m :: l)) with (m :: <[j := system_message b]> l).
    cbn [system_index]. by rewrite E, (IH j eq_refl).
Qed.

Lemma priority_order p n order :
  (match p with
   | Some p => _validate_selection_priority p n ;;; Ok (Z.to_nat <$> p)
   | None => Ok (seq 0 n)
   end) = (Ok order : result envelope_exn (list nat)) -> order ≡ₚ seq 0 n.
Proof.
  destruct p as [p|]; [|by intros [= <-]]. unfold _validate_selection_priority. intros H.
  destruct (bool_decide _) eqn:E; [|done]. injection H as <-. apply bool_decide_eq_true in E.
  pose proof (stable_sort_perm Z.ltb p) as P. rewrite E in P. rewrite <- P.
  rewrite <- list_fmap_compose. replace (Z.to_nat ∘ Z.of_nat <$> seq 0 n) with (seq 0 n); [done|].
  rewrite <- (list_fmap_id (seq 0 n)) at 1. apply list_fmap_ext. intros ? x _. symmetry. apply Nat2Z.id.
Qed.

(** A string that [str.encode] accepts. *)
Definition clean (s : pystr) : Prop := existsb is_surrogate s = false.

Lemma clean_esc s : clean s -> is_Some (esc_len s).
Proof.
  unfold clean, esc_len, utf8_len. intros H.
  replace (existsb is_surrogate (s ≫= escape_char)) with false; [by eexists|].
  induction s as [|c s IH]; [done|]. rewrite bind_cons, existsb_app. cbn in H. apply orb_false_iff in H as [Hc H].
  rewrite <- IH by done. rewrite orb_false_r. symmetry. unfold escape_char.
  assert (forall n, (n < 16)%N -> is_surrogate (hex_digit n) = false) as D.
  { intros n Hn. unfold hex_digit, is_surrogate. destruct (n <? 10)%N; Ncase; lia. }
  repeat case_match; try reflexivity; cbn [existsb]; rewrite ?Hc; try done.
  Nbool. rewrite !D; [done|by apply N.mod_lt|apply N.Div0.div_lt_upper_bound; lia].
Qed.

(** The envelope with a selection: the system content, then the selected
    components in visual order, then the suffix. *)
Definition envelope_with (mandatory : list pyval) (at_system : nat) (contents : list pystr) (suffix : pystr)
  (selected : gset nat) : list pyval :=
  <[at_system := system_message (built_content (message_content (default PNone (mandatory !! at_system)))
                   (chosen contents selected) (suffix_payload_of suffix))]> mandatory.

Lemma fit_tail mandatory contents max_units suffix s sel base :
  let header := message_content (default PNone (mandatory !! s)) in
  let suf := suffix_payload_of suffix in
  system_index mandatory = Some s ->
  (forall b m, validate_provider_input (PList (<[s := system_message b]> mandatory)) m = charge base (esc_len b) m) ->
  is_Some (esc_len header) -> is_Some (esc_len suf) -> (forall c, c ∈ contents -> is_Some (esc_len c)) ->
  Z.of_nat (load contents header suf base sel) <= max_units ->
  (if bool_decide (suffix = []) then Ok (held contents header mandatory s sel) else
     let* m := _append_to_system (held contents header mandatory s sel) suf in
     validate_provider_input (PList m) max_units ;;; Ok m)
  = Ok (if bool_decide (suffix = []) then held contents header mandatory s sel
        else envelope_with mandatory s contents suffix sel).
Proof.
  intros header suf Hsys cost Eh Es Ec L. case_bool_decide as E; [done|].
  assert (_append_to_system (held contents header mandatory s sel) suf
    = Ok (envelope_with mandatory s contents suffix sel)) as ->.
  { unfold _append_to_system, held, envelope_with. pose proof (system_index_lt _ _ Hsys) as Hlt. case_decide as Hsel.
    - rewrite Hsys. fold header. rewrite Hsel, chosen_empty. done.
    - rewrite (system_index_insert _ _ _ Hsys), list_lookup_insert_eq, list_insert_insert_eq by done.
      cbn [from_option id]. fold header suf. by rewrite (built_suffix _ _ suf). }
  cbn [rbind]. unfold envelope_with. fold header suf. rewrite cost.
  change (built_content header (chosen contents sel) suf) with (content_of contents header suf sel).
  rewrite candidate by done. by replace (max_units <? _) with false by lia.
Qed.

(** What a successful selection promises. *)
Definition fit_ok (mandatory : list pyval) (components : list (pystr * pystr)) (max_units : Z) (suffix : pystr)
  (s : nat) (r : ContextFitResult) : Prop :=
  validate_provider_input (PList (fit_messages r)) max_units = Ok tt
  /\ (fit_messages r = envelope_with mandatory s components.*2 suffix (fit_selected_indices r)
       \/ fit_messages r = mandatory /\ fit_selected_indices r = ∅ /\ suffix = [])
  /\ (forall i, i ∈ fit_selected_indices r -> nonempty components.*2 i)
  /\ (forall i, nonempty components.*2 i -> i ∉ fit_selected_indices r ->
       is_ok (validate_provider_input (PList (envelope_with mandatory s components.*2 suffix
               ({[i]} ∪ fit_selected_indices r))) max_units) = false)
  /\ fit_pruned r = (size (fit_selected_indices r) <? length components)%nat.

Lemma fit_ok_intro mandatory components max_units suffix s base sel pruned :
  let contents := components.*2 in
  let header := message_content (default PNone (mandatory !! s)) in
  let suf := suffix_payload_of suffix in
  (forall b m, validate_provider_input (PList (<[s := system_message b]> mandatory)) m = charge base (esc_len b) m) ->
  validate_provider_input (PList mandatory) max_units = Ok tt ->
  is_Some (esc_len header) -> is_Some (esc_len suf) -> (forall c, c ∈ contents -> is_Some (esc_len c)) ->
  (forall i, i ∈ sel -> nonempty contents i) ->
  Z.of_nat (load contents header suf base sel) <= max_units ->
  (forall i, nonempty contents i -> i ∉ sel -> max_units < Z.of_nat (load contents header suf base ({[i]} ∪ sel))) ->
  pruned = (size sel <? length components)%nat ->
  fit_ok mandatory components max_units suffix s
    (mkContextFitResult (if bool_decide (suffix = []) then held contents header mandatory s sel
       else envelope_with mandatory s contents suffix sel) sel pruned).
Proof.
  intros contents header suf cost valid Eh Es Ec H3 H4 H5 ->.
  assert (forall sel', validate_provider_input (PList (envelope_with mandatory s contents suffix sel')) max_units
    = if max_units <? Z.of_nat (load contents header suf base sel')
      then Err (ProviderEnvelopeError (u "budget_exceeded") (Z.of_nat (load contents header suf base sel')) max_units)
      else Ok tt) as V.
  { intros sel'. unfold envelope_with. fold header suf. rewrite cost. by apply candidate. }
  assert (suffix = [] -> held contents header mandatory s sel = envelope_with mandatory s contents suffix sel
          \/ held contents header mandatory s sel = mandatory /\ sel = ∅) as Hh.
  { intros E. unfold held. case_decide; [by right|left]. unfold envelope_with. fold header.
    unfold suffix_payload_of. by rewrite bool_decide_eq_true_2. }
  assert (validate_provider_input (PList (envelope_with mandatory s contents suffix sel)) max_units = Ok tt) as Vs.
  { rewrite V. by replace (max_units <? _) with false by lia. }
  split_and!; cbn [fit_messages fit_selected_indices fit_pruned]; [| |done| |done].
  - case_bool_decide as E; [|done]. destruct (Hh E) as [-> |[-> _]]; done.
  - case_bool_decide as E; [|by left]. destruct (Hh E) as [-> |[-> ->]]; auto.
  - intros i Hn Hi. fold contents. rewrite V. specialize (H5 i Hn Hi).
    by replace (max_units <? _) with true by lia.
Qed.

(** When the mandatory messages fit with the suffix, optional context never
    makes the call fail: the result fits the budget, is the mandatory envelope
    with the selected components rendered in visual order and nothing else
    changed, and the selection is maximal: adding any component left out, empty
    ones apart, would exceed the budget. *)
Theorem fit_optional_context_greedy (mandatory : list pyval) (components : list (pystr * pystr)) (max_units : Z)
    (suffix : pystr) (priority : option (list Z)) (s : nat)
    (valid : validate_provider_input (PList mandatory) max_units = Ok tt)
    (has_system : system_index mandatory = Some s)
    (encodable_text : clean (message_content (default PNone (mandatory !! s))) /\ clean suffix
                      /\ Forall clean components.*2)
    (ordered : match priority with
               | Some p => _validate_selection_priority p (length components) = Ok tt
               | None => True
               end)
    (suffix_fits : validate_provider_input (PList (envelope_with mandatory s [] suffix ∅)) max_units = Ok tt) :
  exists r, fit_optional_context mandatory components max_units false suffix priority = Ok r
    /\ fit_ok mandatory components max_units suffix s r.
Proof.
  destruct encodable_text as (Ch & Cs & Cc). pose proof (system_index_lt _ _ has_system) as Hlt.
  destruct (replace_cost mandatory max_units s valid Hlt) as (base & cost & _).
  set (header := message_content (default PNone (mandatory !! s))) in *. set (suf := suffix_payload_of suffix).
  set (contents := components.*2) in *.
  assert (is_Some (esc_len header)) as Eh by (by apply clean_esc).
  assert (is_Some (esc_len suf)) as Es.
  { unfold suf, suffix_payload_of. case_bool_decide; [by eexists|]. rewrite esc_len_app.
    destruct (clean_esc suffix Cs) as [n ->]. by eexists. }
  assert (forall c, c ∈ contents -> is_Some (esc_len c)) as Ec
    by (intros c Hc; rewrite Forall_forall in Cc; by apply clean_esc, Cc).
  assert (Z.of_nat (load contents header suf base ∅) <= max_units) as L0.
  { unfold envelope_with in suffix_fits. fold header suf in suffix_fits. rewrite cost in suffix_fits.
    replace (built_content header (chosen [] ∅) suf) with (content_of contents header suf ∅) in suffix_fits
      by (unfold content_of; by rewrite !chosen_empty).
    rewrite candidate in suffix_fits by done. destruct (Z.ltb_spec max_units (Z.of_nat (load contents header suf base ∅)));
      [discriminate|lia]. }
  assert (forall sel, greedy contents max_units header suf base mandatory s (list_to_set (seq 0 (length components)))
            (held contents header mandatory s sel, sel) -> fit_ok mandatory components max_units suffix s
     (mkContextFitResult (if bool_decide (suffix = []) then held contents header mandatory s sel
        else envelope_with mandatory s contents suffix sel) sel (size sel <? length components)%nat)) as Done.
  { intros sel (_ & _ & H3 & H4 & H5). cbn [fst snd] in *. apply (fit_ok_intro mandatory components max_units suffix s base); try done.
    intros i Hn Hi. apply H5; [|done|done]. destruct Hn as (c & Hc & _). apply lookup_lt_Some in Hc.
    unfold contents in Hc. rewrite length_fmap in Hc. apply elem_of_list_to_set, elem_of_seq. lia. }
  unfold fit_optional_context. rewrite valid. cbn [rbind]. unfold _fit_optional_context_impl.
  cbv zeta. fold contents suf.
  pose proof (fun sel L => fit_tail mandatory contents max_units suffix s sel base has_system cost Eh Es Ec L) as Tail.
  fold header suf in Tail.
  assert (held contents header mandatory s ∅ = mandatory) as H0 by (unfold held; by rewrite decide_True).
  destruct (bool_decide_reflect (components = [])) as [Hnil|Hnil].
  - specialize (Tail ∅ L0). rewrite H0 in Tail. rewrite Tail. cbn [rbind]. eexists. split; [reflexivity|].
    specialize (Done ∅). rewrite H0 in Done. subst components. apply Done.
    split_and!; cbn [fst snd]; [done|set_solver|set_solver|done|]. intros i Hi. set_solver.
  - rewrite has_system. 
    destruct (match priority with Some p => _ | None => _ end) as [order|e] eqn:Ord.
    2: { exfalso. destruct priority; [|done]. rewrite ordered in Ord. done. }
    apply priority_order in Ord. cbn [rbind]. fold header.
    destruct (greedy_loop contents max_units header suf base Eh Es Ec mandatory s cost order ∅ (mandatory, ∅))
      as ([cur sel] & -> & G).
    + split_and!; cbn [fst snd]; [by rewrite H0|set_solver|set_solver|done|]. set_solver.
    + rewrite Ord. apply NoDup_seq.
    + intros i Hi. rewrite Ord in Hi. apply elem_of_seq in Hi. unfold contents. rewrite length_fmap. split; [set_solver|lia].
    + cbn [rbind fst snd]. pose proof G as (Hcur & _ & _ & L & _). cbn [fst snd] in Hcur, L. subst cur.
      rewrite (Tail sel L). cbn [rbind]. eexists. split; [reflexivity|]. apply Done.
      replace (list_to_set order ∪ ∅) with (list_to_set (seq 0 (length components)) : gset nat) in G; [done|].
      assert (forall i, i ∈ order <-> i ∈ seq 0 (length components)) as Eq by (intros i; by rewrite Ord).
      apply leibniz_equiv. intros i. specialize (Eq i). set_solver.
Qed.

Lemma try_content_valid max_units suf s cur b m :
  try_content max_units suf s cur b = Ok m -> suf = [] -> validate_provider_input (PList m) max_units = Ok tt.
Proof.
  unfold try_content. intros H ->. destruct (validate_provider_input _ _) as [[]|] eqn:E; [|done].
  injection H as <-. unfold keep. by rewrite bool_decide_eq_true_2.
Qed.

Lemma fit_step_valid contents max_units truncate header suf s st idx st' :
  suf = [] -> validate_provider_input (PList st.1) max_units = Ok tt ->
  fit_step contents max_units truncate header suf s st idx = Ok st' ->
  validate_provider_input (PList st'.1) max_units = Ok tt.
Proof.
  destruct st as [cur sel]. intros Hs Hc Hstep. cbn [fst] in Hc. unfold fit_step in Hstep.
  repeat (inv_ok; match type of Hstep with
  | context [match try_content ?a ?b ?c ?d ?e with _ => _ end] => destruct (try_content a b c d e) as [?|[]] eqn:?
  | context [match ?x with _ => _ end] => destruct x eqn:?
  end); inv_ok; try done; try (injection Hstep as <-); cbn [fst]; try done; by eapply try_content_valid.
Qed.

(** Whatever the mode, a list of messages that is returned fits the budget. *)
Lemma fit_within_budget mandatory components max_units truncate suffix priority r :
  fit_optional_context mandatory components max_units truncate suffix priority = Ok r ->
  validate_provider_input (PList (fit_messages r)) max_units = Ok tt.
Proof.
  unfold fit_optional_context. intros H. destruct (validate_provider_input (PList mandatory) max_units) as [[]|] eqn:V; [|done].
  cbn [rbind] in H. unfold _fit_optional_context_impl in H. cbv zeta in H.
  assert (forall st m, (suffix = [] -> validate_provider_input (PList st) max_units = Ok tt) ->
    (if bool_decide (suffix = []) then Ok st else
       let* m := _append_to_system st (suffix_payload_of suffix) in
       validate_provider_input (PList m) max_units ;;; Ok m) = Ok m ->
    validate_provider_input (PList m) max_units = Ok tt) as Fin.
  { intros st m Hst Hm. case_bool_decide as E; [injection Hm as <-; auto|]. inv_ok. by destruct v0. }
  destruct (bool_decide (components = [])).
  - inv_ok. cbn. eauto.
  - destruct (system_index mandatory) as [s|]; [|done]. inv_ok. cbn. eapply Fin; [|exact E1].
    intros Hsuf. assert (suffix_payload_of suffix = []) as Hp by (unfold suffix_payload_of; by rewrite bool_decide_eq_true_2).
    refine (rfold_inv _ (fun st => validate_provider_input (PList st.1) max_units = Ok tt) v (mandatory, ∅) v0 _ V E0).
    intros st x st1 Hv. by apply fit_step_valid.
Qed.

(** ** The truncation mode *)

(** Selecting one more component, with other content, adds that content. *)
Lemma chosen_insert (f : pystr -> nat) l sel i t :
  (i < length l)%nat -> i ∉ sel ->
  sum_list_with f (chosen (<[i := t]> l) ({[i]} ∪ sel)) = (sum_list_with f (chosen l sel) + f t)%nat.
Proof.
  unfold chosen. assert (forall l k j sel, (j < k)%nat -> chosen_from k l ({[j]} ∪ sel) = chosen_from k l sel) as Out.
  { clear. induction l as [|c l IH]; intros k j sel H; [done|]. cbn. rewrite IH by lia.
    repeat case_decide; try done; set_solver by lia. }
  enough (forall k, (i < length l)%nat -> (k + i)%nat ∉ sel ->
    sum_list_with f (chosen_from k (<[i := t]> l) ({[(k + i)%nat]} ∪ sel)) = (sum_list_with f (chosen_from k l sel) + f t)%nat)
    as G by (intros Hi Hn; by apply (G 0%nat)).
  revert i. induction l as [|c l IH]; intros i k Hi Hk; [cbn in Hi; lia|]. destruct i as [|i].
  - change (<[0%nat := t]> (c :: l)) with (t :: l). cbn [chosen_from]. rewrite Nat.add_0_r in *. rewrite Out by lia.
    rewrite decide_True, (decide_False (P := k ∈ sel)) by set_solver. cbn. lia.
  - change (<[S i := t]> (c :: l)) with (c :: <[i := t]> l). cbn [chosen_from]. cbn in Hi.
    replace (k + S i)%nat with (S k + i)%nat in * by lia. specialize (IH i (S k) ltac:(lia) Hk).
    destruct (decide (k ∈ sel)); [rewrite decide_True by set_solver
      |rewrite decide_False by (intros [?%elem_of_singleton|?]%elem_of_union; [lia|done])];
      cbn [sum_list_with]; rewrite IH; lia.
Qed.

(** Escaping never shortens. *)
Lemma esc_width s n : esc_len s = Some n -> (width s <= n)%nat.
Proof.
  revert n. induction s as [|c s IH]; intros n; [cbn; lia|].
  change (c :: s) with ([c] ++ s). rewrite esc_len_app, width_app.
  destruct (esc_len [c]) as [k|] eqn:K, (esc_len s) as [m|]; try done. cbn [oplus]. intros [= <-]. specialize (IH m eq_refl).
  assert (width [c] <= k)%nat; [|lia]. unfold esc_len in K. rewrite bind_cons in K. change ([] ≫= _) with (@nil N) in K.
  rewrite app_nil_r in K. unfold utf8_len in K. destruct (existsb _ _); [done|]. injection K as <-.
  unfold width, escape_char. repeat case_match; Nbool; subst; cbn [sum_list_with]; unfold utf8_width; Ncase; lia.
Qed.

(** Text of one-byte characters. *)
Definition one_byte (s : pystr) : Prop := Forall (fun c => (c < 128)%N) s.

Lemma one_byte_width s : one_byte s -> width s = length s.
Proof.
  induction 1 as [|c s Hc _ IH]; [done|]. unfold width in *. cbn. rewrite IH. unfold utf8_width.
  by apply N.ltb_lt in Hc as ->.
Qed.

Lemma one_byte_prefix n s : one_byte s -> prefix_within n s = take n s.
Proof.
  intros H. revert n. induction H as [|c s Hc _ IH]; intros n; [by destruct n|]. cbn. unfold utf8_width.
  apply N.ltb_lt in Hc as ->. destruct n as [|n]; cbn; [done|]. by rewrite Nat.sub_0_r, IH.
Qed.

Lemma one_byte_encodable s : one_byte s -> encodable s.
Proof.
  intros H. eapply Forall_impl; [exact H|]. intros c Hc. cbn in Hc. split; [lia|]. unfold is_surrogate. Ncase; done.
Qed.

Lemma encodable_clean s : encodable s -> clean s.
Proof.
  intros H. unfold clean. apply existsb_false_forallb, forallb_forall. intros c Hc.
  rewrite <- list_elem_of_In in Hc. unfold encodable in H. rewrite Forall_forall in H. by destruct (H c Hc) as [_ ->].
Qed.

(** A text of one-byte characters that is cut fills the room it was given. *)
Lemma truncated_one_byte text room out cut :
  one_byte text -> 0 < room -> _truncate_utf8_safe text room = Ok (out, cut) -> out <> text ->
  one_byte out /\ room <= Z.of_nat (width out).
Proof.
  intros H Hr E Hne. rewrite truncate_is_truncate_chars in E by (by apply one_byte_encodable).
  unfold truncate_chars in E. destruct (Z.leb_spec (Z.of_nat (width text)) room) as [L|L]; injection E as <- <-; [done|].
  rewrite one_byte_width in L by done. rewrite one_byte_prefix by done. split.
  - apply Forall_app. split; [by apply Forall_take|repeat constructor].
  - rewrite width_app, one_byte_width, length_take by (by apply Forall_take). change (width OMISSION_MARKER) with 5%nat. lia.
Qed.

Section Inert.
Context (contents : list pystr) (max_units : Z) (header suf : pystr) (base : nat).
Context (enc_header : is_Some (esc_len header)) (clean_suf : clean suf).
Context (plain : forall c, c ∈ contents -> one_byte c).
Context (ms : list pyval) (s : nat).
Context (cost : forall b m, validate_provider_input (PList (<[s := system_message b]> ms)) m = charge base (esc_len b) m).
Context (units : forall b n, esc_len b = Some n ->
  estimate_provider_input_units (PList (<[s := system_message b]> ms)) = Ok (Z.of_nat (base + n))).
Context (sys : ms !! s = Some (system_message header)).

Lemma enc_plain c : one_byte c -> is_Some (esc_len c).
Proof. intros. by apply clean_esc, encodable_clean, one_byte_encodable. Qed.

Lemma held_insert sel b : <[s := b]> (held contents header ms s sel) = <[s := b]> ms.
Proof. unfold held. case_decide; [done|]. apply list_insert_insert_eq. Qed.

(** The held messages, and their cost: the load without the suffix. *)
Lemma held_units sel :
  estimate_provider_input_units (PList (held contents header ms s sel))
  = Ok (Z.of_nat (load contents header [] base sel)).
Proof.
  assert (held contents header ms s sel = <[s := system_message (content_of contents header [] sel)]> ms) as ->.
  { unfold held, content_of. case_decide as E; [|done]. rewrite E, chosen_empty.
    assert (built_content header [] [] = header) as -> by apply app_nil_r. symmetry. by apply list_insert_id. }
  rewrite (units _ (load contents header [] base sel - base)%nat).
  - do 2 f_equal. unfold load. lia.
  - apply content_len; [done|by eexists|]. intros c Hc. by apply enc_plain, plain.
Qed.

(** The cut component still exceeds the budget: its separator was not counted. *)
Lemma cut_rejected sel idx t room :
  (idx < length contents)%nat -> idx ∉ sel -> one_byte t ->
  _estimate_remaining_budget (held contents header ms s sel) max_units suf = Ok room -> 0 < room ->
  room <= Z.of_nat (width t) ->
  exists k, try_content max_units suf s (held contents header ms s sel)
    (built_content header (chosen (<[idx := t]> contents) ({[idx]} ∪ sel)) suf)
    = Err (ProviderEnvelopeError (u "budget_exceeded") k max_units).
Proof.
  intros Hi Hn Ht Hroom Hpos Hw. unfold _estimate_remaining_budget in Hroom. rewrite held_units in Hroom. cbn [rbind] in Hroom.
  destruct (clean_esc suf clean_suf) as [ns Hns]. destruct (enc_plain t Ht) as [nt Hnt].
  assert (exists su, su <= Z.of_nat ns /\ room = Z.max 0 (max_units - Z.of_nat (load contents header [] base sel) - su)) as (su & Hsu & Er).
  { case_bool_decide as E.
    - exists 0. injection Hroom as <-. split; [lia|done].
    - unfold text_units in Hroom. destruct (utf8_len suf) as [w|] eqn:U; [|done]. injection Hroom as <-.
      exists (Z.max 1 (Z.of_nat w)). split; [|done]. pose proof (esc_width _ _ Hns) as W.
      assert (w = width suf) as ->.
      { unfold utf8_len in U. destruct (existsb _ _); [done|]. by injection U as <-. }
      destruct suf as [|x r]; [done|]. pose proof (utf8_width_pos x). unfold width in *. cbn [sum_list_with] in *. lia. }
  unfold try_content. rewrite held_insert, cost.
  change (built_content header (chosen (<[idx := t]> contents) ({[idx]} ∪ sel)) suf)
    with (content_of (<[idx := t]> contents) header suf ({[idx]} ∪ sel)).
  assert (forall c, c ∈ <[idx := t]> contents -> is_Some (esc_len c)) as Ec.
  { intros c Hc. apply enc_plain. apply list_elem_of_lookup in Hc as [j Hj]. apply list_lookup_insert_Some in Hj as [(_ & <- & _)|[_ Hj]];
      [done|]. apply plain. by eapply list_elem_of_lookup_2. }
  rewrite (candidate _ _ _ _ _ enc_header ltac:(by exists ns) Ec).
  set (total := load (<[idx := t]> contents) header suf base ({[idx]} ∪ sel)).
  assert (total = load contents header [] base sel + 2 + nt + ns)%nat as Et.
  { assert (bytes suf = ns /\ bytes t = nt) as [Bs Bt] by (unfold bytes; by rewrite Hns, Hnt).
    unfold total, load. rewrite chosen_insert, Bs, Bt by done. change (bytes []) with 0%nat. lia. }
  pose proof (esc_width _ _ Hnt). replace (max_units <? Z.of_nat total) with true by lia. by eexists.
Qed.

(** So cutting changes nothing. *)
Lemma inert_step tried st idx :
  greedy contents max_units header suf base ms s tried st -> idx ∉ tried -> (idx < length contents)%nat ->
  fit_step contents max_units true header suf s st idx = fit_step contents max_units false header suf s st idx.
Proof.
  intros (H1 & H2 & H3 & H4 & H5) Hnew Hlt. destruct st as [cur sel]. cbn [fst snd] in *. subst cur.
  destruct (lookup_lt_is_Some_2 contents idx Hlt) as [c Hc]. unfold fit_step.
  match goal with |- context [match ?t with Some _ => _ | None => Err EnvIndexError end] => replace t with (Some c) end.
  assert (one_byte c) as Pc by (apply plain; by eapply list_elem_of_lookup_2).
  destruct c as [|x c]; [done|]. destruct (try_content _ _ _ _ _) as [m|[code a mx| | | | |]]; try done. cbn [negb].
  replace (sel ∖ {[idx]}) with sel by set_solver.
  destruct (_estimate_remaining_budget _ _ _) as [room|] eqn:Hroom.
  2: { exfalso. unfold _estimate_remaining_budget in Hroom. rewrite held_units in Hroom. cbn [rbind] in Hroom.
       case_bool_decide; [done|]. unfold text_units, utf8_len in Hroom. unfold clean in clean_suf. by rewrite clean_suf in Hroom. }
  cbn [rbind]. destruct (Z.leb_spec room 0); [done|].
  rewrite truncate_is_truncate_chars by (by apply one_byte_encodable). cbn [rbind].
  destruct (str_eqb _ _) eqn:Hcut; [done|].
  destruct (truncated_one_byte (x :: c) room (truncate_chars (x :: c) room).1 (truncate_chars (x :: c) room).2) as [Po Wo];
    [done|lia| | |].
  { rewrite truncate_is_truncate_chars by (by apply one_byte_encodable). by destruct (truncate_chars (x :: c) room). }
  { intros E. apply str_eqb_eq in E. congruence. }
  destruct (cut_rejected sel idx (truncate_chars (x :: c) room).1 room) as [k ->]; try done; set_solver.
Qed.

Lemma inert_loop order tried st :
  greedy contents max_units header suf base ms s tried st -> NoDup order ->
  (forall i, i ∈ order -> i ∉ tried /\ (i < length contents)%nat) ->
  rfold (fit_step contents max_units true header suf s) st order
  = rfold (fit_step contents max_units false header suf s) st order.
Proof.
  revert tried st. induction order as [|idx order IH]; intros tried st G N H; [done|].
  apply NoDup_cons in N as [Nidx N]. destruct (H idx ltac:(set_solver)) as [Hn Hl].
  assert (forall c, c ∈ contents -> is_Some (esc_len c)) as Ec by (intros c Hc; by apply enc_plain, plain).
  destruct (greedy_step contents max_units header suf base enc_header (clean_esc suf clean_suf) Ec ms s cost tried st idx G Hn Hl)
    as (st1 & E & G1).
  cbn [rfold]. rewrite (inert_step tried st idx G Hn Hl), E. cbn [rbind].
  apply (IH ({[idx]} ∪ tried) st1 G1 N). intros i Hi. destruct (H i ltac:(set_solver)). split; [|done]. set_solver.
Qed.
End Inert.

(** The truncation mode does not truncate: for text of one-byte characters the
    call with [truncate_long_messages=True] returns exactly what the atomic mode
    returns, because the cut component fills the whole remaining budget and the
    separator put before it is not accounted for. *)
Theorem truncation_mode_inert (mandatory : list pyval) (components : list (pystr * pystr)) (max_units : Z)
    (suffix header : pystr) (priority : option (list Z)) (s : nat)
    (valid : validate_provider_input (PList mandatory) max_units = Ok tt)
    (has_system : system_index mandatory = Some s)
    (system : mandatory !! s = Some (system_message header))
    (text : clean header /\ clean suffix /\ Forall one_byte components.*2)
    (suffix_fits : validate_provider_input (PList (envelope_with mandatory s [] suffix ∅)) max_units = Ok tt) :
  fit_optional_context mandatory components max_units true suffix priority
  = fit_optional_context mandatory components max_units false suffix priority.
Proof.
  destruct text as (Ch & Cs & Cp). pose proof (system_index_lt _ _ has_system) as Hlt.
  destruct (replace_cost mandatory max_units s valid Hlt) as (base & cost & units).
  unfold fit_optional_context. rewrite valid. cbn [rbind]. unfold _fit_optional_context_impl. cbv zeta.
  rewrite has_system, system. cbn [from_option id]. change (message_content (system_message header)) with header.
  destruct (bool_decide (components = [])); [done|].
  destruct (match priority with Some p => _ | None => _ end) as [order|e] eqn:Ord; [|done].
  apply priority_order in Ord. cbn [rbind].
  assert (clean (suffix_payload_of suffix)) as Cs'.
  { unfold suffix_payload_of. case_bool_decide; [done|]. unfold clean in *. by rewrite existsb_app, Cs. }
  rewrite Forall_forall in Cp.
  rewrite (inert_loop components.*2 max_units header (suffix_payload_of suffix) base (clean_esc _ Ch) Cs' Cp mandatory s cost
    units system order ∅ (mandatory, ∅)); [done| | |].
  - unfold envelope_with in suffix_fits. rewrite system, cost in suffix_fits. cbn [from_option id] in suffix_fits.
    change (message_content (system_message header)) with header in suffix_fits.
    replace (built_content header (chosen [] ∅) (suffix_payload_of suffix))
      with (content_of components.*2 header (suffix_payload_of suffix) ∅) in suffix_fits
      by (unfold content_of; by rewrite !chosen_empty).
    rewrite candidate in suffix_fits; [|by apply clean_esc|by apply clean_esc|].
    2: { intros c Hc. by apply enc_plain, Cp. }
    destruct (Z.ltb_spec max_units (Z.of_nat (load components.*2 header (suffix_payload_of suffix) base ∅))); [discriminate|].
    split_and!; cbn [fst snd]; [unfold held; by rewrite decide_True|set_solver|set_solver|lia|set_solver].
  - rewrite Ord. apply NoDup_seq.
  - intros i Hi. rewrite Ord in Hi. apply elem_of_seq in Hi. rewrite length_fmap. split; [set_solver|lia].
Qed.
End Fit.

(** ** On concrete messages *)

Section Samples.
#[local] Instance no_floats : FloatRepr := fun _ => [].

Definition sample_mandatory : list pyval :=
  [system_message (u "policy");
   PDict [(KStr (u "role"), PStr (u "user")); (KStr (u "content"), PStr (u "hi"))]].

(** A selection by priority 2, 0, 1 under 110 units: component 0 does not fit. *)
Lemma fit_optional_context_greedy_witness :
  exists r, fit_optional_context sample_mandatory [(u "a", u "a long component that cannot be kept"); (u "b", u "one"); (u "c", u "two")]
      110 false (u "end") (Some [2; 0; 1]) = Ok r
    /\ validate_provider_input (PList (fit_messages r)) 110 = Ok tt /\ fit_selected_indices r = {[1%nat; 2%nat]}.
Proof.
  destruct (fit_optional_context_greedy sample_mandatory
    [(u "a", u "a long component that cannot be kept"); (u "b", u "one"); (u "c", u "two")] 110 (u "end") (Some [2; 0; 1]) 0)
    as (r & E & V & _); [vm_compute; reflexivity|vm_compute; reflexivity| |vm_compute; reflexivity|vm_compute; reflexivity|].
  { split; [vm_compute; reflexivity|]. split; [vm_compute; reflexivity|]. repeat constructor. }
  exists r. split; [exact E|]. split; [exact V|]. vm_compute in E. injection E as <-. vm_compute. reflexivity.
Defined.


(** A component of 34 bytes for which 31 bytes of budget remain is dropped whole. *)
Lemma truncation_mode_inert_witness :
  fit_optional_context sample_mandatory [(u "a", u "a long component that is cut short")] 100 true [] None
  = fit_optional_context sample_mandatory [(u "a", u "a long component that is cut short")] 100 false [] None
  /\ _estimate_remaining_budget sample_mandatory 100 [] = Ok 31.
Proof.
  split; [|vm_compute; reflexivity].
  apply (truncation_mode_inert _ _ _ _ (u "policy") _ 0); [vm_compute; reflexivity|vm_compute; reflexivity|reflexivity| |vm_compute; reflexivity].
  split; [vm_compute; reflexivity|]. split; [vm_compute; reflexivity|]. repeat constructor.
Defined.
End Samples.
