(* ===== verification/EmotionalModels.v ===== *)
(** * The emotional domain models (backend/emotional_domain/models.py)

    [EmotionalStateV1] and [AppraisalV1] with every public construction path:
    the constructor ([__post_init__]), [create], [from_dict], [neutral] and the
    inverse [to_dict].  A validator that raises [EmotionalDomainError] returns
    [Err EmotionalDomainError]; the message of the exception is not kept.  The
    invariants of the module docstring are [state_wf] and [appraisal_wf]. *)

From S2P Require Import Prelude PyFloat PyValue.
Local Open Scope float_scope.

Inductive domain_error : Type := EmotionalDomainError.

Notation raise_domain := (Err EmotionalDomainError).

Definition EMOTIONAL_SCHEMA_VERSION : Z := 1.

Definition HEALTHY : pystr := u "HEALTHY".
Definition DEFENSIVE : pystr := u "DEFENSIVE".
Definition DISSOCIATED : pystr := u "DISSOCIATED".
Definition MANIC : pystr := u "MANIC".

Definition VALID_COPING_MODES : list pystr := [HEALTHY; DEFENSIVE; DISSOCIATED; MANIC].

Definition DISCRETE_EMOTIONS : list pystr :=
  [u "joy"; u "sadness"; u "anger"; u "fear"; u "disgust"; u "surprise"; u "trust";
   u "anticipation"; u "tenderness"; u "guilt"; u "pride"; u "jealousy"; u "gratitude"].

(** ** Validation helpers *)

Definition _require_schema_version (value : pyval) : result domain_error Z :=
  match value with
  | PNone | PBool _ => raise_domain
  | PInt z => if negb (z =? EMOTIONAL_SCHEMA_VERSION)%Z then raise_domain else Ok z
  | _ => raise_domain
  end.

Definition _require_finite_float (value : pyval) : result domain_error float :=
  match value with
  | PBool _ => raise_domain
  | PInt z =>
      match int_to_float z with
      | None => raise_domain
      | Some f => if negb (isfinite f) then raise_domain else Ok f
      end
  | PFloat f => if negb (isfinite f) then raise_domain else Ok f
  | _ => raise_domain
  end.

Definition _require_range (value lo hi : float) : result domain_error float :=
  if (value <? lo) || (hi <? value) then raise_domain else Ok value.

Definition _require_finite_float_in_range (value : pyval) (lo hi : float)
  : result domain_error float :=
  let* f := _require_finite_float value in _require_range f lo hi.

Definition _require_positive_float (value : pyval) : result domain_error float :=
  let* f := _require_finite_float value in
  if f <=? 0 then raise_domain else Ok f.

(** ** EmotionalStateV1 *)

Definition _STATE_FIELDS : list pystr :=
  [u "pleasure"; u "arousal"; u "dominance"; u "libido"; u "aggression"; u "connection";
   u "energy"; u "tension"; u "coping_mode"; u "timestamp"; u "schema_version"].

Record EmotionalStateV1 : Type := mkState {
  pleasure : float;
  arousal : float;
  dominance : float;
  libido : float;
  aggression : float;
  connection : float;
  energy : float;
  tension : float;
  coping_mode : pystr;
  timestamp : float;
  schema_version : Z }.

#[export] Instance EmotionalStateV1_eq_dec : EqDecision EmotionalStateV1.
Proof. solve_decision. Defined.

(** The keyword arguments, before validation. *)
Record StateArgs : Type := mkStateArgs {
  a_pleasure : pyval;
  a_arousal : pyval;
  a_dominance : pyval;
  a_libido : pyval;
  a_aggression : pyval;
  a_connection : pyval;
  a_energy : pyval;
  a_tension : pyval;
  a_coping_mode : pyval;
  a_timestamp : pyval;
  a_schema_version : pyval }.

Definition _validate_state_fields (a : StateArgs) : result domain_error EmotionalStateV1 :=
  let* sv := _require_schema_version (a_schema_version a) in
  let* p := _require_finite_float_in_range (a_pleasure a) (-1) 1 in
  let* ar := _require_finite_float_in_range (a_arousal a) (-1) 1 in
  let* d := _require_finite_float_in_range (a_dominance a) (-1) 1 in
  let* lib := _require_finite_float_in_range (a_libido a) 0 1 in
  let* agg := _require_finite_float_in_range (a_aggression a) 0 1 in
  let* con := _require_finite_float_in_range (a_connection a) 0 1 in
  let* eng := _require_finite_float_in_range (a_energy a) 0 1 in
  let* ten := _require_finite_float_in_range (a_tension a) 0 1 in
  let* cm := match a_coping_mode a with
             | PStr s => if negb (str_in s VALID_COPING_MODES) then raise_domain else Ok s
             | _ => raise_domain
             end in
  let* ts := _require_positive_float (a_timestamp a) in
  Ok (mkState p ar d lib agg con eng ten cm ts sv).

(** The arguments that re-state an instance. *)
Definition state_args (s : EmotionalStateV1) : StateArgs :=
  mkStateArgs (PFloat (pleasure s)) (PFloat (arousal s)) (PFloat (dominance s))
    (PFloat (libido s)) (PFloat (aggression s)) (PFloat (connection s))
    (PFloat (energy s)) (PFloat (tension s)) (PStr (coping_mode s))
    (PFloat (timestamp s)) (PInt (schema_version s)).

(** The dataclass constructor: the fields are assigned, then [__post_init__]
    validates them and writes the normalised values back. *)
Definition EmotionalStateV1_init (a : StateArgs) : result domain_error EmotionalStateV1 :=
  _validate_state_fields a.

Definition EmotionalStateV1_create (a : StateArgs) : result domain_error EmotionalStateV1 :=
  let* t := _validate_state_fields a in
  EmotionalStateV1_init (state_args t).

Definition EmotionalStateV1_neutral (ts : pyval) : result domain_error EmotionalStateV1 :=
  EmotionalStateV1_create
    (mkStateArgs (PFloat 0) (PFloat 0) (PFloat 0) (PFloat 0) (PFloat 0) (PFloat 0.5)
       (PFloat 0.8) (PFloat 0) (PStr HEALTHY) ts (PInt EMOTIONAL_SCHEMA_VERSION)).

(** [data[k]] of a key known to be present. *)
Definition dindex (d : pydict) (k : pystr) : pyval :=
  match dget d k with Some v => v | None => PNone end.

Definition EmotionalStateV1_from_dict (data : pyval) : result domain_error EmotionalStateV1 :=
  match data with
  | PDict d =>
      if has_unknown _STATE_FIELDS d then raise_domain
      else if negb (dhas d (u "schema_version")) then raise_domain
      else if has_missing (List.filter (fun f => negb (str_eqb f (u "schema_version"))) _STATE_FIELDS) d
      then raise_domain
      else EmotionalStateV1_create
        (mkStateArgs (dindex d (u "pleasure")) (dindex d (u "arousal")) (dindex d (u "dominance"))
           (dindex d (u "libido")) (dindex d (u "aggression")) (dindex d (u "connection"))
           (dindex d (u "energy")) (dindex d (u "tension")) (dindex d (u "coping_mode"))
           (dindex d (u "timestamp")) (dindex d (u "schema_version")))
  | _ => raise_domain
  end.

Definition EmotionalStateV1_to_dict (s : EmotionalStateV1) : pydict :=
  [(KStr (u "schema_version"), PInt (schema_version s));
   (KStr (u "pleasure"), PFloat (pleasure s));
   (KStr (u "arousal"), PFloat (arousal s));
   (KStr (u "dominance"), PFloat (dominance s));
   (KStr (u "libido"), PFloat (libido s));
   (KStr (u "aggression"), PFloat (aggression s));
   (KStr (u "connection"), PFloat (connection s));
   (KStr (u "energy"), PFloat (energy s));
   (KStr (u "tension"), PFloat (tension s));
   (KStr (u "coping_mode"), PStr (coping_mode s));
   (KStr (u "timestamp"), PFloat (timestamp s))].

(** ** AppraisalV1 *)

Definition _APPRAISAL_SCALAR_FIELDS : list pystr :=
  [u "valence_shift"; u "arousal_shift"; u "dominance_shift"; u "schema_version"].
Definition _APPRAISAL_ALL_FIELDS : list pystr :=
  _APPRAISAL_SCALAR_FIELDS ++ [u "discrete_emotions"].

(** [Dict[str, float]], in insertion order. *)
Definition emotion_map : Type := list (pystr * float).

Definition eget (m : emotion_map) (k : pystr) : option float :=
  snd <$> List.find (fun kv => str_eqb kv.1 k) m.

(** [m[k] = v]. *)
Fixpoint eset (m : emotion_map) (k : pystr) (v : float) : emotion_map :=
  match m with
  | [] => [(k, v)]
  | kv :: m' => if str_eqb kv.1 k then (k, v) :: m' else kv :: eset m' k v
  end.

(** One round of the loop of [_validate_discrete_emotions]. *)
Definition validate_emotion_item (acc : emotion_map) (kv : pykey * pyval)
  : result domain_error emotion_map :=
  match kv.1 with
  | KStr emotion =>
      if negb (str_in emotion DISCRETE_EMOTIONS) then raise_domain
      else let* f := _require_finite_float_in_range kv.2 0 1 in
           Ok (eset acc emotion f)
  | KOther _ => raise_domain
  end.

Definition _validate_discrete_emotions (raw : pyval) : result domain_error emotion_map :=
  match raw with
  | PNone | PBool _ => raise_domain
  | PDict d => rfold validate_emotion_item [] d
  | _ => raise_domain
  end.

Record AppraisalV1 : Type := mkAppraisal {
  valence_shift : float;
  arousal_shift : float;
  dominance_shift : float;
  discrete_emotions : emotion_map;
  ap_schema_version : Z }.

Record AppraisalArgs : Type := mkAppraisalArgs {
  a_valence_shift : pyval;
  a_arousal_shift : pyval;
  a_dominance_shift : pyval;
  a_discrete_emotions : option pyval;   (** [None] is the sentinel [_UNSET] *)
  a_ap_schema_version : pyval }.

(** A plain dict with the items of the mapping, [dict(self.discrete_emotions)]. *)
Definition emotions_dict (m : emotion_map) : pydict :=
  map (fun kv => (KStr kv.1, PFloat kv.2)) m.

(** The dataclass constructor with its [__post_init__]: a [MappingProxyType]
    is copied into a dict before validation, everything else validated as it is. *)
Definition AppraisalV1_init (vs ars ds de sv : pyval) : result domain_error AppraisalV1 :=
  let* sv' := _require_schema_version sv in
  let* vs' := _require_finite_float_in_range vs (-1) 1 in
  let* ar' := _require_finite_float_in_range ars (-1) 1 in
  let* ds' := _require_finite_float_in_range ds (-1) 1 in
  let* de' := match de with
              | PProxy d => _validate_discrete_emotions (PDict d)
              | _ => _validate_discrete_emotions de
              end in
  Ok (mkAppraisal vs' ar' ds' de' sv').

Definition AppraisalV1_neutral : result domain_error AppraisalV1 :=
  AppraisalV1_init (PFloat 0) (PFloat 0) (PFloat 0) (PDict []) (PInt EMOTIONAL_SCHEMA_VERSION).

Definition AppraisalV1_create (a : AppraisalArgs) : result domain_error AppraisalV1 :=
  let* sv := _require_schema_version (a_ap_schema_version a) in
  let* vs := _require_finite_float_in_range (a_valence_shift a) (-1) 1 in
  let* ars := _require_finite_float_in_range (a_arousal_shift a) (-1) 1 in
  let* ds := _require_finite_float_in_range (a_dominance_shift a) (-1) 1 in
  let* de := match a_discrete_emotions a with
             | Some PNone => raise_domain
             | None => _validate_discrete_emotions (PDict [])
             | Some v => _validate_discrete_emotions v
             end in
  AppraisalV1_init (PFloat vs) (PFloat ars) (PFloat ds) (PDict (emotions_dict de)) (PInt sv).

Definition AppraisalV1_from_dict (data : pyval) : result domain_error AppraisalV1 :=
  match data with
  | PDict d =>
      if has_unknown _APPRAISAL_ALL_FIELDS d then raise_domain
      else if negb (dhas d (u "schema_version")) then raise_domain
      else if has_missing [u "valence_shift"; u "arousal_shift"; u "dominance_shift"] d
      then raise_domain
      else
        let* de_input :=
          match dget d (u "discrete_emotions") with
          | None => Ok None
          | Some PNone => raise_domain
          | Some v => Ok (Some v)
          end in
        AppraisalV1_create
          (mkAppraisalArgs (dindex d (u "valence_shift")) (dindex d (u "arousal_shift"))
             (dindex d (u "dominance_shift")) de_input (dindex d (u "schema_version")))
  | _ => raise_domain
  end.

Definition AppraisalV1_to_dict (a : AppraisalV1) : pydict :=
  [(KStr (u "schema_version"), PInt (ap_schema_version a));
   (KStr (u "valence_shift"), PFloat (valence_shift a));
   (KStr (u "arousal_shift"), PFloat (arousal_shift a));
   (KStr (u "dominance_shift"), PFloat (dominance_shift a));
   (KStr (u "discrete_emotions"), PDict (emotions_dict (discrete_emotions a)))].

(** ** Invariants *)

(** What the module docstring promises of every [EmotionalStateV1]. *)
Definition state_wf (s : EmotionalStateV1) : bool :=
  (schema_version s =? EMOTIONAL_SCHEMA_VERSION)%Z
  && in_range (-1) 1 (pleasure s) && in_range (-1) 1 (arousal s) && in_range (-1) 1 (dominance s)
  && in_range 0 1 (libido s) && in_range 0 1 (aggression s) && in_range 0 1 (connection s)
  && in_range 0 1 (energy s) && in_range 0 1 (tension s)
  && str_in (coping_mode s) VALID_COPING_MODES
  && (isfinite (timestamp s) && (0 <? timestamp s)).

Definition emotion_ok (kv : pystr * float) : bool :=
  str_in kv.1 DISCRETE_EMOTIONS && in_range 0 1 kv.2.

Definition appraisal_wf (a : AppraisalV1) : Prop :=
  ap_schema_version a = EMOTIONAL_SCHEMA_VERSION
  /\ in_range (-1) 1 (valence_shift a) = true
  /\ in_range (-1) 1 (arousal_shift a) = true
  /\ in_range (-1) 1 (dominance_shift a) = true
  /\ NoDup (discrete_emotions a).*1
  /\ forallb emotion_ok (discrete_emotions a) = true.

(** The float an argument stands for: a finite [float], or an [int] (not a
    [bool]) that converts to one. *)
Definition as_float (v : pyval) : option float :=
  match v with
  | PInt z => match int_to_float z with
              | Some f => if isfinite f then Some f else None
              | None => None
              end
  | PFloat f => if isfinite f then Some f else None
  | _ => None
  end.

(** The arguments [a] state the instance [s]. *)
Definition args_denote (a : StateArgs) (s : EmotionalStateV1) : Prop :=
  as_float (a_pleasure a) = Some (pleasure s) /\ as_float (a_arousal a) = Some (arousal s)
  /\ as_float (a_dominance a) = Some (dominance s) /\ as_float (a_libido a) = Some (libido s)
  /\ as_float (a_aggression a) = Some (aggression s)
  /\ as_float (a_connection a) = Some (connection s)
  /\ as_float (a_energy a) = Some (energy s) /\ as_float (a_tension a) = Some (tension s)
  /\ a_coping_mode a = PStr (coping_mode s) /\ as_float (a_timestamp a) = Some (timestamp s)
  /\ a_schema_version a = PInt (schema_version s).

(** ** Lemmas on the validators *)

Lemma as_float_finite v f : as_float v = Some f -> isfinite f = true.
Proof.
  destruct v as [| |z|g| | | | | |]; cbn; try done.
  - destruct (int_to_float z) as [g|]; [|done]. destruct (isfinite g) eqn:E; naive_solver.
  - destruct (isfinite g) eqn:E; naive_solver.
Qed.

Lemma as_float_PFloat f : isfinite f = true -> as_float (PFloat f) = Some f.
Proof. cbn. by intros ->. Qed.

Lemma require_finite_ok v :
  _require_finite_float v =
    match as_float v with Some f => Ok f | None => raise_domain end.
Proof.
  destruct v as [| |z|g| | | | | |]; cbn; try done.
  - destruct (int_to_float z) as [g|]; [|done]. by destruct (isfinite g).
  - by destruct (isfinite g).
Qed.

Lemma require_range_iff v lo hi f :
  nan lo = false -> nan hi = false ->
  _require_finite_float_in_range v lo hi = Ok f <->
  as_float v = Some f /\ in_range lo hi f = true.
Proof.
  intros Nl Nh. unfold _require_finite_float_in_range. rewrite require_finite_ok.
  destruct (as_float v) as [g|] eqn:E; cbn; [|split; [done|by intros [? _]]].
  unfold _require_range.
  rewrite range_test by eauto using as_float_finite, isfinite_not_nan.
  destruct (in_range lo hi g) eqn:R; cbn; (split; [intros; simplify_eq; done|]);
    intros [? ?]; simplify_eq; congruence.
Qed.

Lemma require_positive_iff v f :
  _require_positive_float v = Ok f <->
  as_float v = Some f /\ isfinite f && (0 <? f) = true.
Proof.
  unfold _require_positive_float. rewrite require_finite_ok.
  destruct (as_float v) as [g|] eqn:E; cbn; [|split; [done|by intros [? _]]].
  pose proof (as_float_finite _ _ E) as F. rewrite andb_true_iff.
  destruct (g <=? 0) eqn:L.
  - split; [done|]. intros (? & ? & H). simplify_eq. apply ltb_leb_false in H. congruence.
  - assert (0 <? g = true) by (apply leb_false_ltb; auto using isfinite_not_nan).
    split; [intros; simplify_eq; done|]. intros [? _]; by simplify_eq.
Qed.

Lemma require_schema_iff v z :
  _require_schema_version v = Ok z <-> v = PInt z /\ (z =? EMOTIONAL_SCHEMA_VERSION)%Z = true.
Proof.
  destruct v; cbn [_require_schema_version]; try (split; [done|]; intros [? _]; done).
  destruct (Z.eqb_spec z0 EMOTIONAL_SCHEMA_VERSION); cbn; split; intros; simplify_eq.
  - split; [done|]. by apply Z.eqb_eq.
  - destruct H; by simplify_eq.
  - destruct H as [[= ->] H%Z.eqb_eq]. done.
Qed.

Lemma nan_m1 : nan (-1) = false. Proof. reflexivity. Qed.
Lemma nan_0 : nan 0 = false. Proof. reflexivity. Qed.
Lemma nan_1 : nan 1 = false. Proof. reflexivity. Qed.
#[export] Hint Resolve nan_m1 nan_0 nan_1 : katherine.

Lemma in_m1_1_finite f : in_range (-1) 1 f = true -> isfinite f = true.
Proof. by apply in_range_isfinite. Qed.
Lemma in_0_1_finite f : in_range 0 1 f = true -> isfinite f = true.
Proof. by apply in_range_isfinite. Qed.
#[export] Hint Resolve in_m1_1_finite in_0_1_finite as_float_PFloat : katherine.

Lemma require_range_ok v lo hi f :
  as_float v = Some f -> in_range lo hi f = true -> nan lo = false -> nan hi = false ->
  _require_finite_float_in_range v lo hi = Ok f.
Proof. intros. by apply require_range_iff. Qed.

Lemma require_positive_ok v f :
  as_float v = Some f -> isfinite f && (0 <? f) = true -> _require_positive_float v = Ok f.
Proof. intros. by apply require_positive_iff. Qed.

Lemma require_schema_ok v z :
  v = PInt z -> (z =? EMOTIONAL_SCHEMA_VERSION)%Z = true -> _require_schema_version v = Ok z.
Proof. intros. by apply require_schema_iff. Qed.

(** Rewrites every successful validator of the goal with its specification. *)
Ltac ok_steps :=
  repeat (first
    [ erewrite require_schema_ok by eassumption
    | erewrite require_range_ok by (eassumption || reflexivity)
    | erewrite require_positive_ok by eassumption ]; cbn [rbind]).

(** Turns the successful validators of the context into their specifications. *)
Ltac ok_specs :=
  repeat match goal with
  | H : _require_schema_version _ = Ok _ |- _ => apply require_schema_iff in H as [? ?]
  | H : _require_finite_float_in_range _ _ _ = Ok _ |- _ =>
      apply require_range_iff in H as [? ?]; [|reflexivity..]
  | H : _require_positive_float _ = Ok _ |- _ => apply require_positive_iff in H as [? ?]
  end.

Lemma validate_state_iff a s :
  _validate_state_fields a = Ok s <-> args_denote a s /\ state_wf s = true.
Proof.
  unfold _validate_state_fields, args_denote, state_wf. split.
  - intros H. inv_ok. destruct (a_coping_mode a) eqn:CM; try discriminate. inv_ok.
    ok_specs. apply negb_false_iff in G. cbn. rewrite !andb_true_iff in *. intuition.
  - intros [(H1 & H2 & H3 & H4 & H5 & H6 & H7 & H8 & H9 & H10 & H11) W].
    destruct s as [p ar d lib agg con eng ten cm ts sv]. cbn [pleasure arousal dominance libido
      aggression connection energy tension coping_mode timestamp schema_version] in *.
    apply andb_true_iff in W as [W T]. apply andb_true_iff in W as [W C].
    repeat (apply andb_true_iff in W as [W ?]).
    ok_steps. rewrite H9, C. cbn [negb rbind]. ok_steps. done.
Qed.

Lemma state_args_denote s : state_wf s = true -> args_denote (state_args s) s.
Proof.
  unfold state_wf, args_denote. rewrite !andb_true_iff. intros W. destruct_and! W.
  cbn [state_args a_pleasure a_arousal a_dominance a_libido a_aggression a_connection a_energy
    a_tension a_coping_mode a_timestamp a_schema_version].
  repeat split; auto with katherine.
Qed.

Lemma create_iff a s :
  EmotionalStateV1_create a = Ok s <-> args_denote a s /\ state_wf s = true.
Proof.
  unfold EmotionalStateV1_create, EmotionalStateV1_init. split.
  - intros H. inv_ok. pose proof E as E'. apply validate_state_iff in E' as [D W].
    assert (_validate_state_fields (state_args v) = Ok v) as Hv
      by (apply validate_state_iff; auto using state_args_denote).
    rewrite Hv in H. by simplify_eq.
  - intros [D W]. rewrite (proj2 (validate_state_iff a s) (conj D W)). cbn [rbind].
    apply validate_state_iff. auto using state_args_denote.
Qed.

Lemma create_state_args s : state_wf s = true -> EmotionalStateV1_create (state_args s) = Ok s.
Proof. intros W. apply create_iff. auto using state_args_denote. Qed.

Lemma from_dict_wf v s : EmotionalStateV1_from_dict v = Ok s -> state_wf s = true.
Proof.
  destruct v; try done. cbn [EmotionalStateV1_from_dict]. intros H. inv_ok.
  by apply create_iff in H as [_ W].
Qed.

Lemma from_dict_to_dict s :
  state_wf s = true -> EmotionalStateV1_from_dict (PDict (EmotionalStateV1_to_dict s)) = Ok s.
Proof. intros W. etransitivity; [|by apply create_state_args]. reflexivity. Qed.

(** ** Lemmas on the emotion maps *)

Definition emotions_wf (m : emotion_map) : Prop :=
  NoDup m.*1 /\ forallb emotion_ok m = true.

Lemma eset_keys m k v k' : k' ∈ (eset m k v).*1 <-> k' = k \/ k' ∈ m.*1.
Proof.
  induction m as [|[k0 v0] m IH]; cbn [eset fst]; [set_solver|].
  destruct (str_eqb k0 k) eqn:E.
  - apply str_eqb_eq in E as ->. rewrite !fmap_cons. set_solver.
  - rewrite !fmap_cons, !elem_of_cons, IH. set_solver.
Qed.

Lemma eset_fresh m k v : k ∉ m.*1 -> eset m k v = m ++ [(k, v)].
Proof.
  induction m as [|[k0 v0] m IH]; [done|]. rewrite fmap_cons, not_elem_of_cons. intros [Hn Hm].
  cbn [eset fst]. destruct (str_eqb k0 k) eqn:E; [by apply str_eqb_eq in E|].
  cbn. by rewrite IH.
Qed.

Lemma eset_wf m k v : emotions_wf m -> emotion_ok (k, v) = true -> emotions_wf (eset m k v).
Proof.
  unfold emotions_wf. intros [Hn Hf] Hk.
  induction m as [|[k0 v0] m IH]; cbn [eset fst].
  - split; [apply NoDup_singleton|]. cbn [forallb]. by rewrite Hk.
  - rewrite fmap_cons, NoDup_cons in Hn. cbn [forallb] in Hf.
    apply andb_true_iff in Hf as [H0 Hf]. destruct Hn as [Hn1 Hn2].
    destruct (IH Hn2 Hf) as [IH1 IH2]. destruct (str_eqb k0 k) eqn:E.
    + apply str_eqb_eq in E as ->. rewrite fmap_cons, NoDup_cons. cbn [forallb].
      by rewrite Hk, Hf.
    + rewrite fmap_cons, NoDup_cons, eset_keys. cbn [forallb]. rewrite H0, IH2.
      split; [|done]. split; [|done]. intros [Hk0|?]; [|done].
      apply str_eqb_eq in Hk0. cbn in Hk0. congruence.
Qed.

Lemma validate_item_wf acc kv m :
  emotions_wf acc -> validate_emotion_item acc kv = Ok m -> emotions_wf m.
Proof.
  unfold validate_emotion_item. intros Ha H. destruct kv as [[k|] v]; cbn in H; [|done].
  inv_ok. ok_specs. apply negb_false_iff in G. apply eset_wf; [done|].
  unfold emotion_ok. cbn. by rewrite G.
Qed.

Lemma validate_emotions_wf v m : _validate_discrete_emotions v = Ok m -> emotions_wf m.
Proof.
  destruct v; try done. cbn. apply (rfold_inv _ emotions_wf); [apply validate_item_wf|].
  split; [apply NoDup_nil_2|done].
Qed.

Lemma validate_emotions_app acc m :
  NoDup (acc ++ m).*1 -> forallb emotion_ok m = true ->
  rfold validate_emotion_item acc (emotions_dict m) = Ok (acc ++ m).
Proof.
  revert acc. induction m as [|[k v] m IH]; intros acc Hn Hf; cbn; [by rewrite app_nil_r|].
  cbn [forallb] in Hf. apply andb_true_iff in Hf as [H0 Hf].
  apply andb_true_iff in H0 as [Hk Hv]. cbn in Hk, Hv.
  unfold validate_emotion_item at 1. cbn [fst snd]. rewrite Hk. cbn [negb].
  pose proof (as_float_PFloat v ltac:(eauto with katherine)). ok_steps.
  rewrite eset_fresh.
  - rewrite IH; [by rewrite <- app_assoc| |done]. by rewrite <- app_assoc.
  - rewrite fmap_app, fmap_cons, NoDup_app in Hn. destruct Hn as (_ & Hn & _).
    intros Hin. apply (Hn _ Hin). set_solver.
Qed.

Lemma validate_emotions_dict m :
  emotions_wf m -> _validate_discrete_emotions (PDict (emotions_dict m)) = Ok m.
Proof. intros [Hn Hf]. by apply (validate_emotions_app []). Qed.

(** ** Lemmas on appraisals *)

Lemma appraisal_init_wf vs ars ds de sv a :
  AppraisalV1_init vs ars ds de sv = Ok a -> appraisal_wf a.
Proof.
  unfold AppraisalV1_init. intros H. inv_ok. ok_specs.
  assert (emotions_wf v3) as [Hn Hf] by (destruct de; eapply validate_emotions_wf; exact E3).
  unfold appraisal_wf. cbn. rewrite <- Z.eqb_eq. tauto.
Qed.

Lemma appraisal_init_self a :
  appraisal_wf a ->
  AppraisalV1_init (PFloat (valence_shift a)) (PFloat (arousal_shift a))
    (PFloat (dominance_shift a)) (PDict (emotions_dict (discrete_emotions a)))
    (PInt (ap_schema_version a)) = Ok a.
Proof.
  intros (Hs & Hv & Ha & Hd & Hn & Hf). unfold AppraisalV1_init.
  rewrite (require_schema_ok _ _ eq_refl) by (by apply Z.eqb_eq). cbn [rbind].
  rewrite !(require_range_ok (PFloat _) (-1) 1 _ (as_float_PFloat _ (in_m1_1_finite _ Hv)) Hv),
    !(require_range_ok (PFloat _) (-1) 1 _ (as_float_PFloat _ (in_m1_1_finite _ Ha)) Ha),
    !(require_range_ok (PFloat _) (-1) 1 _ (as_float_PFloat _ (in_m1_1_finite _ Hd)) Hd)
    by reflexivity. cbn [rbind].
  rewrite validate_emotions_dict by done. by destruct a.
Qed.

Lemma appraisal_create_wf a ap : AppraisalV1_create a = Ok ap -> appraisal_wf ap.
Proof. unfold AppraisalV1_create. intros H. inv_ok. by eapply appraisal_init_wf. Qed.

Lemma appraisal_from_dict_wf v ap : AppraisalV1_from_dict v = Ok ap -> appraisal_wf ap.
Proof.
  destruct v; try done. cbn [AppraisalV1_from_dict]. intros H. inv_ok.
  by eapply appraisal_create_wf.
Qed.

(** [create] on the fields of a valid appraisal returns it. *)
Lemma appraisal_create_self a :
  appraisal_wf a ->
  AppraisalV1_create (mkAppraisalArgs (PFloat (valence_shift a)) (PFloat (arousal_shift a))
    (PFloat (dominance_shift a)) (Some (PDict (emotions_dict (discrete_emotions a))))
    (PInt (ap_schema_version a))) = Ok a.
Proof.
  intros W. pose proof W as (Hs & Hv & Ha & Hd & Hn & Hf). unfold AppraisalV1_create.
  cbn [a_ap_schema_version a_valence_shift a_arousal_shift a_dominance_shift a_discrete_emotions].
  rewrite (require_schema_ok _ _ eq_refl) by (by apply Z.eqb_eq). cbn [rbind].
  rewrite !(require_range_ok (PFloat _) (-1) 1 _ (as_float_PFloat _ (in_m1_1_finite _ Hv)) Hv),
    !(require_range_ok (PFloat _) (-1) 1 _ (as_float_PFloat _ (in_m1_1_finite _ Ha)) Ha),
    !(require_range_ok (PFloat _) (-1) 1 _ (as_float_PFloat _ (in_m1_1_finite _ Hd)) Hd)
    by reflexivity. cbn [rbind].
  rewrite validate_emotions_dict by done. cbn [rbind]. by apply appraisal_init_self.
Qed.

Definition neutral_appraisal : AppraisalV1 := mkAppraisal 0 0 0 [] 1.

Lemma appraisal_neutral_ok : AppraisalV1_neutral = Ok neutral_appraisal.
Proof. reflexivity. Qed.

Lemma neutral_appraisal_wf : appraisal_wf neutral_appraisal.
Proof.
  apply (appraisal_init_wf (PFloat 0) (PFloat 0) (PFloat 0) (PDict []) (PInt 1)). reflexivity.
Qed.

(** ** Properties *)

(** The validated factory accepts exactly the arguments that state a valid
    snapshot: every numeric argument is a finite float (or an int, never a bool,
    that converts to one) in its range, the coping mode is a known string, the
    timestamp is positive and the version is the int 1; the instance it returns
    carries those values and nothing else is ever returned. *)
Theorem EmotionalStateV1_create_spec : forall a s,
  EmotionalStateV1_create a = Ok s <-> args_denote a s /\ state_wf s = true.
Proof. exact create_iff. Qed.

(** C40. There is no way to produce an invalid [EmotionalStateV1]: whatever the
    constructor, [create], [from_dict] or [neutral] returns satisfies every
    invariant of the module, and the neutral snapshot exists for every valid
    timestamp. *)
Theorem EmotionalStateV1_always_valid :
  (forall a s, EmotionalStateV1_init a = Ok s -> state_wf s = true)
  /\ (forall a s, EmotionalStateV1_create a = Ok s -> state_wf s = true)
  /\ (forall v s, EmotionalStateV1_from_dict v = Ok s -> state_wf s = true)
  /\ (forall v s, EmotionalStateV1_neutral v = Ok s -> state_wf s = true)
  /\ (forall t, isfinite t && (0 <? t) = true ->
        EmotionalStateV1_neutral (PFloat t) = Ok (mkState 0 0 0 0 0 0.5 0.8 0 HEALTHY t 1)).
Proof.
  repeat split.
  - intros a s H. by apply validate_state_iff in H as [_ W].
  - intros a s H. by apply create_iff in H as [_ W].
  - exact from_dict_wf.
  - intros v s H. by apply create_iff in H as [_ W].
  - intros t Ht. apply create_iff.
    apply andb_true_iff in Ht as [T1 T2].
    split; [|unfold state_wf; cbn [timestamp]; by rewrite T1, T2].
    repeat split; try reflexivity. by apply as_float_PFloat.
Qed.

(** Serialising a valid snapshot with [to_dict] and reading it back with
    [from_dict] gives the same snapshot, field for field and bit for bit. *)
Theorem EmotionalStateV1_dict_roundtrip : forall s,
  state_wf s = true ->
  EmotionalStateV1_from_dict (PDict (EmotionalStateV1_to_dict s)) = Ok s.
Proof. exact from_dict_to_dict. Qed.

Lemma EmotionalStateV1_dict_roundtrip_witness :
  let s := mkState 0.5 (-0.25) 1 0 0.125 0.5 0.8 0.3 DEFENSIVE 1700000000.5 1 in
  EmotionalStateV1_from_dict (PDict (EmotionalStateV1_to_dict s)) = Ok s.
Proof. intros s. apply (EmotionalStateV1_dict_roundtrip s). vm_compute. reflexivity. Defined.

(** Every [AppraisalV1] is valid whatever path built it (constructor,
    [create], [from_dict], [neutral]): shifts in [-1, 1], only allow-listed
    emotions, each once, with an intensity in [0, 1]; and [to_dict] followed by
    [from_dict] gives a valid appraisal back unchanged. *)
Theorem AppraisalV1_always_valid :
  (forall vs ars ds de sv a, AppraisalV1_init vs ars ds de sv = Ok a -> appraisal_wf a)
  /\ (forall args a, AppraisalV1_create args = Ok a -> appraisal_wf a)
  /\ (forall v a, AppraisalV1_from_dict v = Ok a -> appraisal_wf a)
  /\ (exists a, AppraisalV1_neutral = Ok a /\ appraisal_wf a)
  /\ (forall a, appraisal_wf a ->
        AppraisalV1_from_dict (PDict (AppraisalV1_to_dict a)) = Ok a).
Proof.
  split; [exact appraisal_init_wf|]. split; [exact appraisal_create_wf|].
  split; [exact appraisal_from_dict_wf|]. split.
  - exists neutral_appraisal. split; [exact appraisal_neutral_ok|exact neutral_appraisal_wf].
  - intros a W. etransitivity; [|by apply appraisal_create_self]. reflexivity.
Qed.
