(* ===== verification/EmotionalTransition.v ===== *)
(** * The emotional transition (backend/emotional_domain/transition.py)

    [TransitionConfig] with its validation, [RegulationResult] and the pure
    function [transition]: decay toward the baselines, capped appraisal shifts,
    tension update, coping-mode hysteresis and regulation.  All arithmetic is
    binary64.  The power [0.5 ** x] is the platform's C library, so it is the
    operation of the class [Libm]; [LibmLaws] states the two documented facts
    used of it. *)

From S2P Require Import Prelude PyFloat FloatRound PyValue EmotionalModels.
Local Open Scope float_scope.

(** ** The platform's [pow] *)

Class Libm : Type := pow : float -> float -> float.

(** C99 Annex F: [pow(0.5, y)] is in [0, 1] for a non-negative [y] (0 at +inf),
    and [pow(x, ±0)] is 1. *)
Class LibmLaws `{Libm} : Prop := {
  pow_half_unit : forall y, (0 <=? y) = true -> in_range 0 1 (pow 0.5 y) = true;
  pow_half_zero : forall y, (y =? 0) = true -> pow 0.5 y = 1 }.

(** ** Regulation reasons *)

Inductive RegulationReason : Type :=
| NONE
| HIGH_TENSION_POSITIVE_DOMINANCE
| HIGH_TENSION_NONPOSITIVE_DOMINANCE
| RECOVERED.

#[export] Instance RegulationReason_eq_dec : EqDecision RegulationReason.
Proof. solve_decision. Defined.

(** ** Configuration *)

(** The fields of the dataclass, over the type their values have: [pyval] for
    the arguments, [pynum] for an instance ([__post_init__] validates without
    normalising, so an [int] argument stays an [int]). *)
Record config_fields (A : Type) : Type := mkConfig {
  pad_half_life : A;
  tension_half_life : A;
  pad_baseline : A;
  tension_baseline : A;
  max_pleasure_shift : A;
  max_arousal_shift : A;
  max_dominance_shift : A;
  negative_pleasure_threshold : A;
  positive_pleasure_threshold : A;
  tension_increase : A;
  tension_relief : A;
  activation_threshold : A;
  recovery_threshold : A;
  dissociation_arousal_factor : A }.
Arguments mkConfig {A}.
Arguments pad_half_life {A}. Arguments tension_half_life {A}. Arguments pad_baseline {A}.
Arguments tension_baseline {A}. Arguments max_pleasure_shift {A}. Arguments max_arousal_shift {A}.
Arguments max_dominance_shift {A}. Arguments negative_pleasure_threshold {A}.
Arguments positive_pleasure_threshold {A}. Arguments tension_increase {A}.
Arguments tension_relief {A}. Arguments activation_threshold {A}. Arguments recovery_threshold {A}.
Arguments dissociation_arousal_factor {A}.

Definition TransitionConfig : Type := config_fields pynum.

Definition _CONFIG_FIELDS : list pystr :=
  [u "pad_half_life"; u "tension_half_life"; u "pad_baseline"; u "tension_baseline";
   u "max_pleasure_shift"; u "max_arousal_shift"; u "max_dominance_shift";
   u "negative_pleasure_threshold"; u "positive_pleasure_threshold"; u "tension_increase";
   u "tension_relief"; u "activation_threshold"; u "recovery_threshold";
   u "dissociation_arousal_factor"].

Definition _validate_not_bool (raw : pyval) : result domain_error unit :=
  match raw with PBool _ => raise_domain | _ => Ok tt end.

Definition _require_positive_finite (value : pyval) : result domain_error float :=
  let* f := _require_finite_float value in
  if f <=? 0 then raise_domain else Ok f.

Definition _require_nonnegative_finite (value : pyval) : result domain_error float :=
  let* f := _require_finite_float value in
  if f <? 0 then raise_domain else Ok f.

Definition _validate_positive_finite (raw : pyval) : result domain_error float :=
  _validate_not_bool raw ;;; _require_positive_finite raw.

Definition _validate_range (raw : pyval) (lo hi : float) : result domain_error float :=
  _validate_not_bool raw ;;; _require_finite_float_in_range raw lo hi.

Definition _validate_shift_cap (raw : pyval) : result domain_error unit :=
  _validate_not_bool raw ;;;
  let* f := _require_finite_float raw in
  if (f <? 0) || (1 <? f) then raise_domain else Ok tt.

Definition _validate_nonnegative (raw : pyval) : result domain_error float :=
  _validate_not_bool raw ;;; _require_nonnegative_finite raw.

(** The number an [int] or [float] argument is. *)
Definition to_num (v : pyval) : pynum :=
  match v with PInt z => NInt z | PFloat f => NFloat f | _ => NFloat PrimFloat.nan end.

(** [a >= b] on the numbers of a configuration that passed their range checks
    (ints in -1..1, so the comparison through floats is exact). *)
Definition num_ge (a b : pyval) : bool := fl (to_num b) <=? fl (to_num a).

Definition config_map {A B} (f : A -> B) (c : config_fields A) : config_fields B :=
  mkConfig (f (pad_half_life c)) (f (tension_half_life c)) (f (pad_baseline c))
    (f (tension_baseline c)) (f (max_pleasure_shift c)) (f (max_arousal_shift c))
    (f (max_dominance_shift c)) (f (negative_pleasure_threshold c))
    (f (positive_pleasure_threshold c)) (f (tension_increase c)) (f (tension_relief c))
    (f (activation_threshold c)) (f (recovery_threshold c)) (f (dissociation_arousal_factor c)).

(** The constructor with its [__post_init__]. *)
Definition TransitionConfig_init (c : config_fields pyval)
  : result domain_error TransitionConfig :=
  _validate_positive_finite (pad_half_life c) ;;;
  _validate_positive_finite (tension_half_life c) ;;;
  _validate_range (pad_baseline c) (-1) 1 ;;;
  _validate_range (tension_baseline c) 0 1 ;;;
  _validate_shift_cap (max_pleasure_shift c) ;;;
  _validate_shift_cap (max_arousal_shift c) ;;;
  _validate_shift_cap (max_dominance_shift c) ;;;
  _validate_range (negative_pleasure_threshold c) (-1) 1 ;;;
  _validate_range (positive_pleasure_threshold c) (-1) 1 ;;;
  if num_ge (negative_pleasure_threshold c) (positive_pleasure_threshold c) then raise_domain
  else
  _validate_range (tension_increase c) 0 1 ;;;
  _validate_range (tension_relief c) 0 1 ;;;
  _validate_range (activation_threshold c) 0 1 ;;;
  _validate_range (recovery_threshold c) 0 1 ;;;
  if num_ge (recovery_threshold c) (activation_threshold c) then raise_domain
  else
  _validate_range (dissociation_arousal_factor c) 0 1 ;;;
  Ok (config_map to_num c).

Definition config_defaults : config_fields pyval :=
  mkConfig (PFloat 3600) (PFloat 7200) (PFloat 0) (PFloat 0) (PFloat 0.25) (PFloat 0.25)
    (PFloat 0.25) (PFloat (-0.3)) (PFloat 0.3) (PFloat 0.05) (PFloat 0.05) (PFloat 0.8)
    (PFloat 0.3) (PFloat 0.5).

Definition TransitionConfig_defaults : result domain_error TransitionConfig :=
  TransitionConfig_init config_defaults.

(** A keyword argument, or the field's default when it is not given. *)
Definition kwarg (kw : pydict) (k : pystr) (default : pyval) : pyval :=
  match dget kw k with Some v => v | None => default end.

Definition TransitionConfig_create (kw : pydict) : result domain_error TransitionConfig :=
  if has_unknown _CONFIG_FIELDS kw then raise_domain
  else TransitionConfig_init
    (mkConfig (kwarg kw (u "pad_half_life") (pad_half_life config_defaults))
       (kwarg kw (u "tension_half_life") (tension_half_life config_defaults))
       (kwarg kw (u "pad_baseline") (pad_baseline config_defaults))
       (kwarg kw (u "tension_baseline") (tension_baseline config_defaults))
       (kwarg kw (u "max_pleasure_shift") (max_pleasure_shift config_defaults))
       (kwarg kw (u "max_arousal_shift") (max_arousal_shift config_defaults))
       (kwarg kw (u "max_dominance_shift") (max_dominance_shift config_defaults))
       (kwarg kw (u "negative_pleasure_threshold") (negative_pleasure_threshold config_defaults))
       (kwarg kw (u "positive_pleasure_threshold") (positive_pleasure_threshold config_defaults))
       (kwarg kw (u "tension_increase") (tension_increase config_defaults))
       (kwarg kw (u "tension_relief") (tension_relief config_defaults))
       (kwarg kw (u "activation_threshold") (activation_threshold config_defaults))
       (kwarg kw (u "recovery_threshold") (recovery_threshold config_defaults))
       (kwarg kw (u "dissociation_arousal_factor") (dissociation_arousal_factor config_defaults))).

(** ** Results *)

Record RegulationResult : Type := mkRegulation {
  previous_mode : pystr;
  current_mode : pystr;
  changed : bool;
  reason : RegulationReason }.

#[export] Instance RegulationResult_eq_dec : EqDecision RegulationResult.
Proof. solve_decision. Defined.

(** The constructor with its [__post_init__]; [None] for a [reason] that is not
    a member of the enum. *)
Definition RegulationResult_init (prev cur chg : pyval) (rsn : option RegulationReason)
  : result domain_error RegulationResult :=
  match prev with
  | PStr p =>
    if negb (str_in p VALID_COPING_MODES) then raise_domain else
    match cur with
    | PStr c =>
      if negb (str_in c VALID_COPING_MODES) then raise_domain else
      match chg with
      | PBool b =>
        let expected_changed := negb (str_eqb p c) in
        if negb (Bool.eqb b expected_changed) then raise_domain else
        match rsn with
        | None => raise_domain
        | Some r =>
          if negb b && negb (bool_decide (r = NONE)) then raise_domain
          else if b && bool_decide (r = NONE) then raise_domain
          else if bool_decide (r = RECOVERED) && negb (str_eqb c HEALTHY) then raise_domain
          else if bool_decide (r = HIGH_TENSION_POSITIVE_DOMINANCE)
                  && negb (str_eqb c DEFENSIVE) then raise_domain
          else if bool_decide (r = HIGH_TENSION_NONPOSITIVE_DOMINANCE)
                  && negb (str_eqb c DISSOCIATED) then raise_domain
          else Ok (mkRegulation p c b r)
        end
      | _ => raise_domain
      end
    | _ => raise_domain
    end
  | _ => raise_domain
  end.

Record TransitionResult : Type := mkTransition {
  tr_state : EmotionalStateV1;
  tr_regulation : RegulationResult }.

(** ** Core maths *)

Definition num_le0 (n : pynum) : bool :=
  match n with NInt z => (z <=? 0)%Z | NFloat f => f <=? 0 end.

Definition _exponential_decay `{Libm} (value : float) (baseline : pynum) (elapsed : float)
  (half_life : pynum) : float :=
  if num_le0 half_life then value
  else
    let factor := pow 0.5 (elapsed / fl half_life) in
    fl baseline + (value - fl baseline) * factor.

Definition _clamp (value lo hi : float) : float :=
  if value <? lo then lo else if hi <? value then hi else value.

Definition _clamp_shift (raw_shift : float) (cap : pynum) : float :=
  _clamp raw_shift (fl (num_neg cap)) (fl cap).

Definition _validate_current_time (raw_time : pyval) : result domain_error float :=
  match raw_time with
  | PBool _ => raise_domain
  | PNone => raise_domain
  | PInt _ | PFloat _ =>
      match num_to_float (to_num raw_time) with
      | None => raise_domain
      | Some f =>
          if negb (isfinite f) then raise_domain
          else if f <=? 0 then raise_domain
          else Ok f
      end
  | _ => raise_domain
  end.

(** ** Coping mode *)

Definition _determine_coping_mode (tens dom : float) (prev : pystr) (config : TransitionConfig)
  : pystr :=
  if fl (activation_threshold config) <=? tens then
    if 0 <? dom then DEFENSIVE else DISSOCIATED
  else if tens <=? fl (recovery_threshold config) then HEALTHY
  else prev.

(** ** The transition *)

Definition transition `{Libm} (previous_state : EmotionalStateV1) (appraisal : AppraisalV1)
  (current_time : pyval) (config : TransitionConfig) : result domain_error TransitionResult :=
  let* validated_time := _validate_current_time current_time in
  (* clock regression *)
  let regressed := validated_time <? timestamp previous_state in
  let elapsed_seconds := if regressed then 0 else validated_time - timestamp previous_state in
  let output_timestamp := if regressed then timestamp previous_state else validated_time in
  (* decay *)
  let post_decay_pleasure := _exponential_decay (pleasure previous_state) (pad_baseline config)
    elapsed_seconds (pad_half_life config) in
  let post_decay_arousal := _exponential_decay (arousal previous_state) (pad_baseline config)
    elapsed_seconds (pad_half_life config) in
  let post_decay_dominance := _exponential_decay (dominance previous_state) (pad_baseline config)
    elapsed_seconds (pad_half_life config) in
  let post_decay_tension := _exponential_decay (tension previous_state) (tension_baseline config)
    elapsed_seconds (tension_half_life config) in
  (* capped shifts *)
  let effective_valence := _clamp_shift (valence_shift appraisal) (max_pleasure_shift config) in
  let effective_arousal := _clamp_shift (arousal_shift appraisal) (max_arousal_shift config) in
  let effective_dominance :=
    _clamp_shift (dominance_shift appraisal) (max_dominance_shift config) in
  let post_shift_pleasure := post_decay_pleasure + effective_valence in
  let post_shift_arousal := post_decay_arousal + effective_arousal in
  let post_shift_dominance := post_decay_dominance + effective_dominance in
  (* clamp PAD *)
  let clamped_pleasure := _clamp post_shift_pleasure (-1) 1 in
  let clamped_arousal := _clamp post_shift_arousal (-1) 1 in
  let clamped_dominance := _clamp post_shift_dominance (-1) 1 in
  (* tension *)
  let tension_delta :=
    if clamped_pleasure <? fl (negative_pleasure_threshold config) then fl (tension_increase config)
    else if fl (positive_pleasure_threshold config) <? clamped_pleasure
    then fl (num_neg (tension_relief config))
    else 0 in
  let post_tension := post_decay_tension + tension_delta in
  let clamped_tension := _clamp post_tension 0 1 in
  (* coping mode and regulation *)
  let new_coping_mode :=
    _determine_coping_mode clamped_tension clamped_dominance (coping_mode previous_state) config in
  let reg_arousal :=
    if str_eqb new_coping_mode DISSOCIATED
    then _clamp (clamped_arousal * fl (dissociation_arousal_factor config)) (-1) 1
    else clamped_arousal in
  let mode_changed := negb (str_eqb (coping_mode previous_state) new_coping_mode) in
  let rsn :=
    if negb mode_changed then NONE
    else if str_eqb new_coping_mode HEALTHY then RECOVERED
    else if str_eqb new_coping_mode DEFENSIVE then HIGH_TENSION_POSITIVE_DOMINANCE
    else if str_eqb new_coping_mode DISSOCIATED then HIGH_TENSION_NONPOSITIVE_DOMINANCE
    else NONE in
  let* regulation := RegulationResult_init (PStr (coping_mode previous_state))
    (PStr new_coping_mode) (PBool mode_changed) (Some rsn) in
  let* new_state := EmotionalStateV1_create
    (mkStateArgs (PFloat clamped_pleasure) (PFloat reg_arousal) (PFloat clamped_dominance)
       (PFloat (libido previous_state)) (PFloat (aggression previous_state))
       (PFloat (connection previous_state)) (PFloat (energy previous_state))
       (PFloat clamped_tension) (PStr new_coping_mode) (PFloat output_timestamp)
       (PInt EMOTIONAL_SCHEMA_VERSION)) in
  Ok (mkTransition new_state regulation).

Definition reason_value (r : RegulationReason) : pystr :=
  match r with
  | NONE => u "none"
  | HIGH_TENSION_POSITIVE_DOMINANCE => u "high_tension_positive_dominance"
  | HIGH_TENSION_NONPOSITIVE_DOMINANCE => u "high_tension_nonpositive_dominance"
  | RECOVERED => u "recovered"
  end.

Definition RegulationResult_to_dict (r : RegulationResult) : pydict :=
  [(KStr (u "previous_mode"), PStr (previous_mode r));
   (KStr (u "current_mode"), PStr (current_mode r));
   (KStr (u "changed"), PBool (changed r));
   (KStr (u "reason"), PStr (reason_value (reason r)))].

Definition TransitionResult_to_dict (t : TransitionResult) : pydict :=
  [(KStr (u "state"), PDict (EmotionalStateV1_to_dict (tr_state t)));
   (KStr (u "regulation"), PDict (RegulationResult_to_dict (tr_regulation t)))].

(** ** The invariant of a configuration *)

Definition num_positive (n : pynum) : Prop :=
  num_le0 n = false /\ isfinite (fl n) = true /\ (0 <? fl n) = true.

Definition cap_ok (n : pynum) : Prop :=
  in_range 0 1 (fl n) = true /\ fl (num_neg n) = - fl n \/ n = NInt 0.

Record config_wf (c : TransitionConfig) : Prop := {
  wf_pad_half_life : num_positive (pad_half_life c);
  wf_tension_half_life : num_positive (tension_half_life c);
  wf_pad_baseline : in_range (-1) 1 (fl (pad_baseline c)) = true;
  wf_tension_baseline : in_range 0 1 (fl (tension_baseline c)) = true;
  wf_max_pleasure : cap_ok (max_pleasure_shift c);
  wf_max_arousal : cap_ok (max_arousal_shift c);
  wf_max_dominance : cap_ok (max_dominance_shift c);
  wf_neg_threshold : in_range (-1) 1 (fl (negative_pleasure_threshold c)) = true;
  wf_pos_threshold : in_range (-1) 1 (fl (positive_pleasure_threshold c)) = true;
  wf_thresholds : (fl (negative_pleasure_threshold c) <? fl (positive_pleasure_threshold c)) = true;
  wf_increase : in_range 0 1 (fl (tension_increase c)) = true;
  wf_relief : cap_ok (tension_relief c);
  wf_activation : in_range 0 1 (fl (activation_threshold c)) = true;
  wf_recovery : in_range 0 1 (fl (recovery_threshold c)) = true;
  wf_hysteresis : (fl (recovery_threshold c) <? fl (activation_threshold c)) = true;
  wf_factor : in_range 0 1 (fl (dissociation_arousal_factor c)) = true }.

Lemma as_float_fl v f : as_float v = Some f -> fl (to_num v) = f.
Proof.
  destruct v as [| |z|g| | | | | |]; cbn; try done.
  - unfold fl. cbn. destruct (int_to_float z) as [g|]; [|done].
    destruct (isfinite g); intros; by simplify_eq.
  - unfold fl. cbn. destruct (isfinite g); intros; by simplify_eq.
Qed.

Lemma validate_range_wf v lo hi f :
  nan lo = false -> nan hi = false ->
  _validate_range v lo hi = Ok f -> in_range lo hi (fl (to_num v)) = true.
Proof.
  intros Nl Nh. unfold _validate_range. intros H. inv_ok.
  apply require_range_iff in H as [H1 H2]; [|done..]. by rewrite (as_float_fl _ _ H1).
Qed.

Lemma int_to_float_nonpos z f :
  int_to_float z = Some f -> (z <= 0)%Z -> (0 <? f) = false.
Proof.
  intros [H F]%int_to_float_sf Hz. rewrite ltb_spec, H. change (Prim2SF 0) with (S754_zero false).
  destruct z as [|p|p]; [done|lia|]. cbn [binary_normalize]. unfold binary_round.
  destruct (shl_align _ _ _) as [mz ez].
  pose proof (round_aux_sign true (Zpos mz) ez loc_Exact ltac:(lia)) as S.
  destruct (binary_round_aux _ _ _ _ _ _) as [s|s| |s m e]; try done; by rewrite S.
Qed.

Lemma validate_positive_wf v f : _validate_positive_finite v = Ok f -> num_positive (to_num v).
Proof.
  unfold _validate_positive_finite. intros H. inv_ok.
  change (_require_positive_finite v) with (_require_positive_float v) in H.
  apply require_positive_iff in H as [H1 [H2 H3]%andb_true_iff].
  unfold num_positive. rewrite (as_float_fl _ _ H1). split; [|done].
  destruct v as [| |z|g| | | | | |]; cbn in *; try done.
  - destruct (int_to_float z) as [g|] eqn:I; [|done].
    apply Z.leb_gt. destruct (Z.le_gt_cases z 0) as [L|L]; [|done].
    assert (g = f) as -> by (destruct (isfinite g); by simplify_eq).
    rewrite (int_to_float_nonpos z f I L) in H3. done.
  - destruct (isfinite g); simplify_eq. by apply ltb_leb_false.
Qed.

Lemma in_range_sub lo hi lo' hi' f :
  (lo' <=? lo) = true -> (hi <=? hi') = true -> in_range lo hi f = true -> in_range lo' hi' f = true.
Proof.
  unfold in_range. rewrite !andb_true_iff. intros L H [H1 H2].
  split; [by apply (leb_trans _ lo)|by apply (leb_trans _ hi)].
Qed.

Lemma validate_cap_wf v f : as_float v = Some f -> in_range 0 1 f = true -> cap_ok (to_num v).
Proof.
  intros H1 H2. unfold cap_ok. rewrite (as_float_fl _ _ H1).
  destruct v as [| |z|g| | | | | |]; cbn in H1; try done.
  - destruct (int_to_float z) as [g|] eqn:E; [|done].
    assert (g = f) as -> by (destruct (isfinite g); by simplify_eq).
    assert (-1 <= z <= 1)%Z as B.
    { apply (int_to_float_small z f E). by apply (in_range_sub 0 1). }
    assert (z = -1 \/ z = 0 \/ z = 1)%Z as [-> | [-> | ->]] by lia; cbn [to_num].
    + exfalso. assert (f = -1) as -> by (vm_compute in E; by simplify_eq). done.
    + by right.
    + left. split; [done|]. assert (f = 1) as -> by (vm_compute in E; by simplify_eq). reflexivity.
  - left. split; [done|]. destruct (isfinite g); by simplify_eq.
Qed.

Lemma validate_shift_cap_wf v : _validate_shift_cap v = Ok tt -> cap_ok (to_num v).
Proof.
  unfold _validate_shift_cap. intros H. inv_ok. rewrite require_finite_ok in E0.
  destruct (as_float v) as [g|] eqn:A; simplify_eq.
  rewrite range_test in G by eauto using as_float_finite, isfinite_not_nan.
  apply negb_false_iff in G. eauto using validate_cap_wf.
Qed.

Lemma num_ge_false a b fa fb :
  as_float a = Some fa -> as_float b = Some fb -> num_ge a b = false ->
  (fl (to_num a) <? fl (to_num b)) = true.
Proof.
  unfold num_ge. intros Ha Hb. rewrite (as_float_fl _ _ Ha), (as_float_fl _ _ Hb).
  apply leb_false_ltb; eauto using as_float_finite, isfinite_not_nan.
Qed.

Lemma validate_range_float v lo hi f :
  nan lo = false -> nan hi = false -> _validate_range v lo hi = Ok f ->
  as_float v = Some f /\ in_range lo hi f = true.
Proof.
  intros Nl Nh. unfold _validate_range. intros H. inv_ok. by apply require_range_iff in H.
Qed.

(** Whatever the constructor accepts satisfies the invariant. *)
Lemma config_init_wf c cfg : TransitionConfig_init c = Ok cfg -> config_wf cfg.
Proof.
  unfold TransitionConfig_init. intros H. inv_ok. cbn [rbind] in *.
  repeat match goal with
  | H : _validate_range _ _ _ = Ok _ |- _ => apply validate_range_float in H as [? ?]; [|reflexivity..]
  | x : unit |- _ => destruct x
  end.
  constructor; cbn [config_map pad_half_life tension_half_life pad_baseline tension_baseline
    max_pleasure_shift max_arousal_shift max_dominance_shift negative_pleasure_threshold
    positive_pleasure_threshold tension_increase tension_relief activation_threshold
    recovery_threshold dissociation_arousal_factor];
    eauto using validate_positive_wf, validate_shift_cap_wf, validate_cap_wf, num_ge_false;
    match goal with |- in_range _ _ (fl (to_num ?v)) = true => erewrite (as_float_fl v) by eassumption; eassumption end.
Qed.

(** ** Lemmas on the maths *)

Lemma clamp_range v lo hi :
  nan v = false -> nan lo = false -> nan hi = false -> (lo <=? hi) = true ->
  in_range lo hi (_clamp v lo hi) = true.
Proof.
  intros Nv Nl Nh L. unfold _clamp, in_range.
  destruct (v <? lo) eqn:E1; [by rewrite leb_refl, L|].
  destruct (hi <? v) eqn:E2; [by rewrite leb_refl, L|].
  by rewrite (ltb_false_leb v lo), (ltb_false_leb hi v).
Qed.

Lemma clamp_id v lo hi : in_range lo hi v = true -> _clamp v lo hi = v.
Proof.
  unfold in_range, _clamp. rewrite andb_true_iff. intros [H1 H2].
  by rewrite (leb_ltb_false _ _ H1), (leb_ltb_false _ _ H2).
Qed.

Lemma cap_ok_fval n :
  cap_ok n -> isfinite (fl n) = true /\ isfinite (fl (num_neg n)) = true
  /\ (fval (fl (num_neg n)) = - fval (fl n))%Z /\ (0 <= fval (fl n) <= fval 1)%Z.
Proof.
  intros [[H1 H2] | ->]; [|by vm_compute].
  rewrite H2, isfinite_opp, fval_opp. split; [eauto with katherine|].
  split; [eauto with katherine|]. split; [done|]. by apply in_unit_fval.
Qed.

(** No single appraisal moves an axis by more than the cap. *)
Lemma clamp_shift_bound raw cap :
  isfinite raw = true -> cap_ok cap ->
  isfinite (_clamp_shift raw cap) = true /\ (Z.abs (fval (_clamp_shift raw cap)) <= fval (fl cap))%Z.
Proof.
  intros Fr Hc. apply cap_ok_fval in Hc as (F1 & F2 & F3 & F4).
  assert (in_range (fl (num_neg cap)) (fl cap) (_clamp_shift raw cap) = true) as R.
  { apply clamp_range; auto using isfinite_not_nan. rewrite leb_fval by done. apply Z.leb_le. lia. }
  split; [by apply (in_range_isfinite _ _ _ F2 F1)|].
  apply in_range_fval in R; [|done..]. lia.
Qed.

Section Decay.
Context {M : Libm} {HL : LibmLaws}.

(** The decayed value is finite; with a zero baseline it is the value scaled by
    a factor in [0, 1]. *)
Lemma decay_finite value baseline elapsed half_life :
  in_range (-1) 1 value = true -> in_range (-1) 1 (fl baseline) = true ->
  (0 <=? elapsed) = true -> num_positive half_life ->
  isfinite (_exponential_decay value baseline elapsed half_life) = true
  /\ (Z.abs (fval (_exponential_decay value baseline elapsed half_life)) <= fval 4)%Z.
Proof.
  intros Hv Hb He (P1 & P2 & P3). unfold _exponential_decay. rewrite P1.
  set (k := pow 0.5 (elapsed / fl half_life)).
  assert (in_range 0 1 k = true) as Hk by (apply pow_half_unit; by apply fdiv_nonneg).
  pose proof (in_pm1_fval _ Hv) as Rv. pose proof (in_pm1_fval _ Hb) as Rb.
  destruct (fsub_bound value (fl baseline) 2) as (F1 & B1 & _ & _);
    [eauto with katherine..|reflexivity|rewrite fval_2; lia|].
  destruct (fmul_contract (value - fl baseline) k F1 Hk) as (F2 & B2 & _ & _).
  rewrite fval_2 in B1.
  destruct (fadd_bound (fl baseline) ((value - fl baseline) * k) 4) as (F3 & B3 & _ & _);
    [eauto with katherine|done|reflexivity|rewrite fval_4; lia|]. done.
Qed.

(** The elapsed time of the transition is a non-negative number. *)
Lemma elapsed_nonneg t ts :
  isfinite t = true -> (0 <? t) = true -> isfinite ts = true -> (0 <? ts) = true ->
  (0 <=? (if t <? ts then 0 else t - ts)) = true.
Proof.
  intros Ft Pt Fs Ps. destruct (t <? ts) eqn:E; [done|].
  apply ltb_false_leb in E; [|by auto using isfinite_not_nan..].
  rewrite leb_fval in E by done. apply Z.leb_le in E.
  apply ltb_leb in Ps. rewrite leb_fval in Ps by done. apply Z.leb_le in Ps.
  rewrite fval_0 in Ps.
  destruct (fsub_bound t ts t Ft Fs Ft) as (F & _ & S & _); [lia|].
  rewrite leb_fval by done. apply Z.leb_le. rewrite fval_0. apply S. lia.
Qed.

End Decay.

Lemma current_time_iff v t :
  _validate_current_time v = Ok t <-> as_float v = Some t /\ isfinite t && (0 <? t) = true.
Proof.
  rewrite <- require_positive_iff. unfold _require_positive_float. rewrite require_finite_ok.
  destruct v as [| |z|g| | | | | |]; cbn; try done.
  - destruct (int_to_float z) as [g|]; cbn; [|done]. by destruct (isfinite g).
  - by destruct (isfinite g).
Qed.

Lemma current_time_ok v :
  _validate_current_time v =
    match as_float v with
    | Some t => if 0 <? t then Ok t else raise_domain
    | None => raise_domain
    end.
Proof.
  destruct (_validate_current_time v) as [t|[]] eqn:E.
  - apply current_time_iff in E as [-> [_ P]%andb_true_iff]. by rewrite P.
  - destruct (as_float v) as [t|] eqn:A; [|done]. destruct (0 <? t) eqn:P; [|done].
    assert (_validate_current_time v = Ok t) as K; [|congruence].
    apply current_time_iff. rewrite (as_float_finite _ _ A), P. done.
Qed.

Lemma mode_valid tens dom prev c :
  str_in prev VALID_COPING_MODES = true ->
  str_in (_determine_coping_mode tens dom prev c) VALID_COPING_MODES = true.
Proof. intros H. unfold _determine_coping_mode. by repeat case_match. Qed.

Definition mode_reason (prev cur : pystr) : RegulationReason :=
  if str_eqb prev cur then NONE
  else if str_eqb cur HEALTHY then RECOVERED
  else if str_eqb cur DEFENSIVE then HIGH_TENSION_POSITIVE_DOMINANCE
  else if str_eqb cur DISSOCIATED then HIGH_TENSION_NONPOSITIVE_DOMINANCE
  else NONE.

(** The coping mode only ever changes to one of the three modes with a reason. *)
Lemma regulation_ok tens dom prev c :
  str_in prev VALID_COPING_MODES = true ->
  let cur := _determine_coping_mode tens dom prev c in
  RegulationResult_init (PStr prev) (PStr cur) (PBool (negb (str_eqb prev cur)))
    (Some (mode_reason prev cur)) =
  Ok (mkRegulation prev cur (negb (str_eqb prev cur)) (mode_reason prev cur)).
Proof.
  intros Hp cur. pose proof (mode_valid tens dom prev c Hp) as Hc. fold cur in Hc.
  unfold RegulationResult_init, mode_reason. rewrite Hp, Hc, Bool.eqb_reflx. cbn [negb].
  destruct (str_eqb prev cur) eqn:E; [reflexivity|].
  assert (cur = HEALTHY \/ cur = DEFENSIVE \/ cur = DISSOCIATED) as K.
  { assert (cur <> prev) by (intros ->; by rewrite (proj2 (str_eqb_eq prev prev) eq_refl) in E).
    subst cur. unfold _determine_coping_mode in *. repeat case_match; auto. done. }
  by destruct K as [-> | [-> | ->]].
Qed.

Lemma mode_cases tens dom prev c :
  (fl (recovery_threshold c) <? fl (activation_threshold c)) = true ->
  let cur := _determine_coping_mode tens dom prev c in
  ((fl (recovery_threshold c) <? tens) && (tens <? fl (activation_threshold c)) = true -> cur = prev)
  /\ ((fl (activation_threshold c) <=? tens) = true -> cur = if 0 <? dom then DEFENSIVE else DISSOCIATED)
  /\ ((tens <=? fl (recovery_threshold c)) = true -> cur = HEALTHY)
  /\ (cur = MANIC -> prev = MANIC).
Proof.
  intros Hh cur. subst cur. unfold _determine_coping_mode. split; [|split; [|split]].
  - intros [H1 H2]%andb_true_iff. by rewrite (ltb_leb_false _ _ H2), (ltb_leb_false _ _ H1).
  - by intros ->.
  - intros H1. rewrite H1. destruct (fl (activation_threshold c) <=? tens) eqn:H2; [|done].
    pose proof (leb_trans _ _ _ H2 H1) as H3. by rewrite (ltb_leb_false _ _ Hh) in H3.
  - by repeat case_match.
Qed.

Lemma mode_reason_spec tens dom prev cur c :
  cur = _determine_coping_mode tens dom prev c ->
  (negb (str_eqb prev cur) = true <-> prev <> cur)
  /\ (mode_reason prev cur = NONE <-> prev = cur)
  /\ (mode_reason prev cur = RECOVERED -> cur = HEALTHY)
  /\ (mode_reason prev cur = HIGH_TENSION_POSITIVE_DOMINANCE -> (0 <? dom) = true)
  /\ (mode_reason prev cur = HIGH_TENSION_NONPOSITIVE_DOMINANCE -> (0 <? dom) = false).
Proof.
  intros M. assert (negb (str_eqb prev cur) = true <-> prev <> cur) as K.
  { unfold str_eqb. rewrite negb_true_iff, bool_decide_eq_false. done. }
  split; [done|]. unfold mode_reason. destruct (str_eqb prev cur) eqn:E.
  { apply str_eqb_eq in E as ->. done. }
  assert (prev <> cur) as N by by apply K.
  unfold _determine_coping_mode in M. repeat case_match; subst; vm_compute; naive_solver.
Qed.

(** ** The transition, field by field *)

Section Transition.
Context {M : Libm} {HL : LibmLaws}.

Definition tr_elapsed (s : EmotionalStateV1) (t : float) : float :=
  if t <? timestamp s then 0 else t - timestamp s.
Definition tr_timestamp (s : EmotionalStateV1) (t : float) : float :=
  if t <? timestamp s then timestamp s else t.
Definition tr_axis (c : TransitionConfig) (el v sh : float) (cap : pynum) : float :=
  _clamp (_exponential_decay v (pad_baseline c) el (pad_half_life c) + _clamp_shift sh cap) (-1) 1.
Definition tr_delta (c : TransitionConfig) (p : float) : float :=
  if p <? fl (negative_pleasure_threshold c) then fl (tension_increase c)
  else if fl (positive_pleasure_threshold c) <? p then fl (num_neg (tension_relief c))
  else 0.
Definition tr_tension (c : TransitionConfig) (el te p : float) : float :=
  _clamp (_exponential_decay te (tension_baseline c) el (tension_half_life c) + tr_delta c p) 0 1.
Definition tr_arousal (c : TransitionConfig) (mode : pystr) (a : float) : float :=
  if str_eqb mode DISSOCIATED then _clamp (a * fl (dissociation_arousal_factor c)) (-1) 1 else a.

(** The snapshot and the regulation a transition at time [t] produces. *)
Definition tr_result (s : EmotionalStateV1) (a : AppraisalV1) (t : float) (c : TransitionConfig)
  : TransitionResult :=
  let el := tr_elapsed s t in
  let p := tr_axis c el (pleasure s) (valence_shift a) (max_pleasure_shift c) in
  let ar := tr_axis c el (arousal s) (arousal_shift a) (max_arousal_shift c) in
  let d := tr_axis c el (dominance s) (dominance_shift a) (max_dominance_shift c) in
  let te := tr_tension c el (tension s) p in
  let mode := _determine_coping_mode te d (coping_mode s) c in
  mkTransition
    (mkState p (tr_arousal c mode ar) d (libido s) (aggression s) (connection s) (energy s) te
       mode (tr_timestamp s t) EMOTIONAL_SCHEMA_VERSION)
    (mkRegulation (coping_mode s) mode (negb (str_eqb (coping_mode s) mode))
       (mode_reason (coping_mode s) mode)).

Lemma tr_axis_range c el v sh cap :
  config_wf c -> (0 <=? el) = true -> in_range (-1) 1 v = true -> in_range (-1) 1 sh = true ->
  cap_ok cap -> in_range (-1) 1 (tr_axis c el v sh cap) = true.
Proof.
  intros W He Hv Hs Hc. apply clamp_range; [|done..].
  destruct (decay_finite v (pad_baseline c) el (pad_half_life c)) as [F1 B1];
    [done|apply W|done|apply W|].
  destruct (clamp_shift_bound sh cap) as [F2 B2]; [eauto with katherine|done|].
  apply cap_ok_fval in Hc as (_ & _ & _ & Hc). rewrite fval_4 in B1.
  destruct (fadd_bound (_exponential_decay v (pad_baseline c) el (pad_half_life c))
    (_clamp_shift sh cap) 8) as [F3 _]; [done|done|reflexivity| |by apply isfinite_not_nan].
  change (fval 8) with (8 * fval 1)%Z. lia.
Qed.

Lemma tr_delta_bound c p :
  config_wf c -> isfinite (tr_delta c p) = true /\ (Z.abs (fval (tr_delta c p)) <= fval 1)%Z.
Proof.
  intros W. unfold tr_delta. repeat case_match; [| |done].
  - pose proof (wf_increase c W) as R. split; [eauto with katherine|].
    apply in_unit_fval in R. lia.
  - pose proof (cap_ok_fval _ (wf_relief c W)) as (_ & F & K1 & K2). split; [done|lia].
Qed.

Lemma unit_pm1 f : in_range 0 1 f = true -> in_range (-1) 1 f = true.
Proof. by apply in_range_sub. Qed.

Lemma tr_tension_range c el te p :
  config_wf c -> (0 <=? el) = true -> in_range 0 1 te = true ->
  in_range 0 1 (tr_tension c el te p) = true.
Proof.
  intros W He Ht. apply clamp_range; [|done..].
  destruct (decay_finite te (tension_baseline c) el (tension_half_life c)) as [F1 B1];
    [by apply unit_pm1|apply unit_pm1, W|done|apply W|].
  destruct (tr_delta_bound c p W) as [F2 B2]. rewrite fval_4 in B1.
  destruct (fadd_bound (_exponential_decay te (tension_baseline c) el (tension_half_life c))
    (tr_delta c p) 8) as [F3 _]; [done|done|reflexivity| |by apply isfinite_not_nan].
  change (fval 8) with (8 * fval 1)%Z. lia.
Qed.

Lemma tr_arousal_range c mode a :
  config_wf c -> in_range (-1) 1 a = true -> in_range (-1) 1 (tr_arousal c mode a) = true.
Proof.
  intros W Ha. unfold tr_arousal. case_match; [|done]. apply clamp_range; [|done..].
  destruct (fmul_contract a (fl (dissociation_arousal_factor c))) as [F _];
    [eauto with katherine|apply W|by apply isfinite_not_nan].
Qed.

Lemma state_wf_parts s :
  state_wf s = true <->
  (schema_version s = 1%Z
   /\ in_range (-1) 1 (pleasure s) = true /\ in_range (-1) 1 (arousal s) = true
   /\ in_range (-1) 1 (dominance s) = true /\ in_range 0 1 (libido s) = true
   /\ in_range 0 1 (aggression s) = true /\ in_range 0 1 (connection s) = true
   /\ in_range 0 1 (energy s) = true /\ in_range 0 1 (tension s) = true
   /\ str_in (coping_mode s) VALID_COPING_MODES = true
   /\ isfinite (timestamp s) = true /\ (0 <? timestamp s) = true).
Proof. unfold state_wf. rewrite !andb_true_iff, Z.eqb_eq. tauto. Qed.

Lemma tr_timestamp_ok s t :
  state_wf s = true -> isfinite t = true -> (0 <? t) = true ->
  isfinite (tr_timestamp s t) = true /\ (0 <? tr_timestamp s t) = true.
Proof.
  intros W%state_wf_parts Ft Pt. unfold tr_timestamp. case_match; tauto.
Qed.

Lemma tr_result_wf s a t c :
  state_wf s = true -> appraisal_wf a -> config_wf c -> isfinite t = true -> (0 <? t) = true ->
  state_wf (tr_state (tr_result s a t c)) = true.
Proof.
  intros Ws (_ & A1 & A2 & A3 & _) Wc Ft Pt.
  pose proof (tr_timestamp_ok s t Ws Ft Pt) as [T1 T2].
  apply state_wf_parts in Ws as (S1 & S2 & S3 & S4 & S5 & S6 & S7 & S8 & S9 & S10 & S11 & S12).
  pose proof (elapsed_nonneg t (timestamp s) Ft Pt S11 S12) as He.
  fold (tr_elapsed s t) in He.
  apply state_wf_parts. cbn -[in_range str_in VALID_COPING_MODES isfinite].
  repeat split; eauto using tr_axis_range, tr_tension_range, tr_arousal_range, mode_valid,
    wf_max_pleasure, wf_max_arousal, wf_max_dominance.
Qed.

Lemma transition_ok s a ct t c :
  state_wf s = true -> appraisal_wf a -> config_wf c -> _validate_current_time ct = Ok t ->
  transition s a ct c = Ok (tr_result s a t c).
Proof.
  intros Ws Wa Wc Ht. pose proof Ht as [_ [K2 K3]%andb_true_iff]%current_time_iff.
  pose proof (tr_result_wf s a t c Ws Wa Wc K2 K3) as Wr.
  unfold transition. rewrite Ht. cbn [rbind].
  pose proof Ws as (_ & _ & _ & _ & _ & _ & _ & _ & _ & Hm & _)%state_wf_parts.
  set (r := tr_result s a t c) in *.
  change (rbind (RegulationResult_init (PStr (coping_mode s)) (PStr (coping_mode (tr_state r)))
    (PBool (negb (str_eqb (coping_mode s) (coping_mode (tr_state r)))))
    (Some (if negb (negb (str_eqb (coping_mode s) (coping_mode (tr_state r)))) then NONE
       else if str_eqb (coping_mode (tr_state r)) HEALTHY then RECOVERED
       else if str_eqb (coping_mode (tr_state r)) DEFENSIVE then HIGH_TENSION_POSITIVE_DOMINANCE
       else if str_eqb (coping_mode (tr_state r)) DISSOCIATED
            then HIGH_TENSION_NONPOSITIVE_DOMINANCE else NONE)))
    (fun reg => rbind (EmotionalStateV1_create (state_args (tr_state r)))
       (fun st => Ok (mkTransition st reg))) = Ok r).
  rewrite negb_involutive. fold (mode_reason (coping_mode s) (coping_mode (tr_state r))).
  unfold r at 1 2 3. cbn [tr_state tr_result coping_mode]. rewrite regulation_ok by done.
  cbn [rbind]. rewrite create_state_args by done. done.
Qed.

End Transition.

(** ** Runs *)

Section Runs.
Context {M : Libm} {HL : LibmLaws}.

(** A conversation as the domain sees it: a turn whose clock reading is refused
    raises and leaves the stored snapshot as it was. *)
Definition turn_step (c : TransitionConfig) (s : EmotionalStateV1) (turn : AppraisalV1 * pyval)
  : EmotionalStateV1 :=
  match transition s turn.1 turn.2 c with Ok r => tr_state r | Err _ => s end.

Definition turn_run (c : TransitionConfig) := fold_left (turn_step c).

Lemma tr_timestamp_mono s t :
  state_wf s = true -> isfinite t = true -> (timestamp s <=? tr_timestamp s t) = true
  /\ (t <=? tr_timestamp s t) = true.
Proof.
  intros (_ & _ & _ & _ & _ & _ & _ & _ & _ & _ & F & _)%state_wf_parts Ft. unfold tr_timestamp.
  assert (nan t = false) by auto using isfinite_not_nan.
  assert (nan (timestamp s) = false) by auto using isfinite_not_nan.
  destruct (t <? timestamp s) eqn:Lt; rewrite leb_refl by done; eauto using ltb_leb, ltb_false_leb.
Qed.

Definition drives_kept (s s' : EmotionalStateV1) : Prop :=
  libido s' = libido s /\ aggression s' = aggression s
  /\ connection s' = connection s /\ energy s' = energy s.

Lemma transition_inv s a ct c r :
  state_wf s = true -> appraisal_wf a -> config_wf c -> transition s a ct c = Ok r ->
  exists t, as_float ct = Some t /\ isfinite t = true /\ (0 <? t) = true /\ r = tr_result s a t c.
Proof.
  intros Ws Wa Wc H. destruct (_validate_current_time ct) as [t|e] eqn:T.
  - rewrite (transition_ok s a ct t c) in H by done. simplify_eq.
    apply current_time_iff in T as [A [F P]%andb_true_iff]. by exists t.
  - unfold transition in H. by rewrite T in H.
Qed.

Lemma turn_step_inv c s turn :
  state_wf s = true -> appraisal_wf turn.1 -> config_wf c ->
  state_wf (turn_step c s turn) = true
  /\ (timestamp s <=? timestamp (turn_step c s turn)) = true
  /\ drives_kept s (turn_step c s turn).
Proof.
  intros Ws Wa Wc. unfold turn_step.
  destruct (transition s turn.1 turn.2 c) as [r|e] eqn:T.
  - apply transition_inv in T as (t & _ & F & P & ->); [|done..].
    split; [by apply tr_result_wf|]. split; [by apply tr_timestamp_mono|done].
  - split; [done|]. split; [|done]. apply leb_refl, isfinite_not_nan.
    by apply state_wf_parts in Ws as (_ & _ & _ & _ & _ & _ & _ & _ & _ & _ & F & _).
Qed.

Lemma turn_run_inv c turns s :
  state_wf s = true -> Forall (fun t => appraisal_wf t.1) turns -> config_wf c ->
  state_wf (turn_run c turns s) = true
  /\ (timestamp s <=? timestamp (turn_run c turns s)) = true
  /\ drives_kept s (turn_run c turns s).
Proof.
  intros Ws Wt Wc. revert s Ws. induction Wt as [|x l Wx _ IH]; intros s Ws.
  - split; [done|]. split; [|done]. apply leb_refl, isfinite_not_nan.
    by apply state_wf_parts in Ws as (_ & _ & _ & _ & _ & _ & _ & _ & _ & _ & F & _).
  - destruct (turn_step_inv c s x Ws Wx Wc) as (W1 & T1 & D1).
    destruct (IH _ W1) as (W2 & T2 & D2). cbn. split; [done|]. split; [by eapply leb_trans|].
    unfold drives_kept in *. intuition congruence.
Qed.

Lemma decay_contract value elapsed half_life :
  in_range (-1) 1 value = true -> (0 <=? elapsed) = true -> num_positive half_life ->
  let v' := _exponential_decay value (NFloat 0) elapsed half_life in
  in_range (-1) 1 v' = true /\ (Z.abs (fval v') <= Z.abs (fval value))%Z
  /\ ((0 <= fval value)%Z -> (0 <= fval v')%Z) /\ ((fval value <= 0)%Z -> (fval v' <= 0)%Z).
Proof.
  intros Hv He (P1 & P2 & P3) v'. subst v'. unfold _exponential_decay. rewrite P1.
  change (fl (NFloat 0)) with 0. set (k := pow 0.5 (elapsed / fl half_life)).
  assert (in_range 0 1 k = true) as Hk by (apply pow_half_unit; by apply fdiv_nonneg).
  pose proof (in_pm1_fval _ Hv) as Rv. assert (isfinite value = true) as Fv by eauto with katherine.
  destruct (exists_abs value Fv) as (w & Fw & Ew).
  destruct (fsub_bound value 0 w) as (F1 & B1 & S1 & S1'); [done..| |]; rewrite ?fval_0 in *; [lia|].
  destruct (fmul_contract (value - 0) k F1 Hk) as (F2 & B2 & S2 & S2').
  destruct (fadd_bound 0 ((value - 0) * k) w) as (F3 & B3 & S3 & S3'); [done..| |];
    rewrite ?fval_0 in *; [lia|].
  split; [|split; [lia|split; intros; [apply S3|apply S3']; lia]].
  unfold in_range. rewrite !leb_fval by done. rewrite fval_m1, andb_true_iff, !Z.leb_le. lia.
Qed.

End Runs.

(** ** Properties *)

(** A coarse [pow(0.5, y)]: the power of the integer part of [y] down to 1/8,
    then 0.  It satisfies the laws and lets the witnesses compute. *)
Definition coarse_pow : Libm := fun _ y =>
  if y <? 1 then 1 else if y <? 2 then 0.5 else if y <? 3 then 0.25 else if y <? 4 then 0.125 else 0.

Lemma coarse_pow_laws : @LibmLaws coarse_pow.
Proof.
  constructor; unfold pow, coarse_pow; [by intros; repeat case_match|].
  intros y Hy. rewrite FloatAxioms.eqb_spec in Hy. rewrite ltb_spec.
  by destruct (Prim2SF y) as [[]|[]| |[] m e].
Qed.

Definition default_config : TransitionConfig := config_map to_num config_defaults.

Lemma default_config_ok : TransitionConfig_defaults = Ok default_config.
Proof. vm_compute. reflexivity. Qed.

Definition sample_state : EmotionalStateV1 :=
  mkState (-0.5) 0.5 0.25 0 0 0.5 0.8 0.78 HEALTHY 1000 1.
Definition sample_appraisal : AppraisalV1 := mkAppraisal (-0.9) 0.1 0 [(u "anger", 0.7)] 1.

Lemma sample_appraisal_wf : appraisal_wf sample_appraisal.
Proof.
  apply (appraisal_from_dict_wf (PDict (AppraisalV1_to_dict sample_appraisal))).
  vm_compute. reflexivity.
Qed.

(** C37. The transition is total on valid inputs: it returns exactly when the
    clock reading is a positive finite number (an int or a float, never a bool),
    and then the new snapshot satisfies every invariant of the domain, its
    timestamp is the later of the stored timestamp and the reading (a regressed
    clock neither raises nor moves time backwards), and the four drives are
    carried over unchanged. *)
Theorem transition_total_valid : forall (L : Libm) (HL : LibmLaws) s a ct c,
  state_wf s = true -> appraisal_wf a -> config_wf c ->
  ((exists r, transition s a ct c = Ok r) <-> (exists t, as_float ct = Some t /\ (0 <? t) = true))
  /\ (forall r, transition s a ct c = Ok r ->
        state_wf (tr_state r) = true
        /\ drives_kept s (tr_state r)
        /\ exists t, as_float ct = Some t
             /\ timestamp (tr_state r) = (if t <? timestamp s then timestamp s else t)
             /\ (timestamp s <=? timestamp (tr_state r)) = true
             /\ (t <=? timestamp (tr_state r)) = true).
Proof.
  intros L HL s a ct c Ws Wa Wc. split.
  - split.
    + intros [r Hr]. apply transition_inv in Hr as (t & A & _ & P & _); [|done..]. by exists t.
    + intros (t & A & P). exists (tr_result s a t c). apply transition_ok; [done..|].
      rewrite current_time_ok, A. by rewrite P.
  - intros r Hr. apply transition_inv in Hr as (t & A & F & P & ->); [|done..].
    split; [by apply tr_result_wf|]. split; [done|]. exists t.
    pose proof (tr_timestamp_mono s t Ws F). tauto.
Qed.

Lemma transition_total_valid_witness :
  exists r, @transition coarse_pow sample_state sample_appraisal (PInt 4700) default_config = Ok r
    /\ coping_mode (tr_state r) = DEFENSIVE /\ timestamp (tr_state r) = 4700.
Proof.
  pose proof (@transition_total_valid coarse_pow coarse_pow_laws sample_state sample_appraisal
    (PInt 4700) default_config) as T.
  destruct T as [[_ [r Hr]] _]; [reflexivity|exact sample_appraisal_wf
    |exact (config_init_wf _ _ default_config_ok)|exists 4700; split; vm_compute; reflexivity|].
  exists r. split; [exact Hr|]. vm_compute in Hr. injection Hr as <-. vm_compute. by split.
Defined.

(** Coping-mode hysteresis and its report.  With the resulting tension
    strictly between the recovery and the activation threshold the mode never
    changes; at or above activation it is DEFENSIVE with positive dominance and
    DISSOCIATED otherwise; at or below recovery it is HEALTHY; MANIC is never
    entered.  The regulation record names the old and the new mode, is marked
    changed exactly when they differ, and gives the matching reason. *)
Theorem transition_hysteresis : forall (L : Libm) (HL : LibmLaws) s a ct c r,
  state_wf s = true -> appraisal_wf a -> config_wf c -> transition s a ct c = Ok r ->
  let s' := tr_state r in let g := tr_regulation r in
  ((fl (recovery_threshold c) <? tension s') && (tension s' <? fl (activation_threshold c)) = true ->
     coping_mode s' = coping_mode s)
  /\ ((fl (activation_threshold c) <=? tension s') = true ->
     coping_mode s' = if 0 <? dominance s' then DEFENSIVE else DISSOCIATED)
  /\ ((tension s' <=? fl (recovery_threshold c)) = true -> coping_mode s' = HEALTHY)
  /\ (coping_mode s' = MANIC -> coping_mode s = MANIC)
  /\ previous_mode g = coping_mode s /\ current_mode g = coping_mode s'
  /\ (changed g = true <-> coping_mode s <> coping_mode s')
  /\ (reason g = NONE <-> coping_mode s = coping_mode s')
  /\ (reason g = RECOVERED -> coping_mode s' = HEALTHY)
  /\ (reason g = HIGH_TENSION_POSITIVE_DOMINANCE -> (0 <? dominance s') = true)
  /\ (reason g = HIGH_TENSION_NONPOSITIVE_DOMINANCE -> (0 <? dominance s') = false).
Proof.
  intros L HL s a ct c r Ws Wa Wc Hr s' g.
  apply transition_inv in Hr as (t & _ & _ & _ & ->); [|done..].
  assert (coping_mode s' = _determine_coping_mode (tension s') (dominance s') (coping_mode s) c)
    as M by done.
  assert (g = mkRegulation (coping_mode s) (coping_mode s')
    (negb (str_eqb (coping_mode s) (coping_mode s'))) (mode_reason (coping_mode s) (coping_mode s')))
    as -> by done.
  pose proof (wf_hysteresis c Wc) as Hh. cbn [previous_mode current_mode changed reason].
  destruct (mode_cases (tension s') (dominance s') (coping_mode s) c Hh) as (C1 & C2 & C3 & C4).
  rewrite <- M in *. split; [done|]. split; [done|]. split; [done|]. split; [exact C4|].
  split; [done|]. split; [done|]. apply mode_reason_spec with (tens := tension s') (c := c). exact M.
Qed.

Lemma transition_hysteresis_witness :
  exists r, @transition coarse_pow sample_state sample_appraisal (PInt 1001) default_config = Ok r
    /\ coping_mode (tr_state r) = DEFENSIVE
    /\ reason (tr_regulation r) = HIGH_TENSION_POSITIVE_DOMINANCE.
Proof.
  destruct (@transition coarse_pow sample_state sample_appraisal (PInt 1001) default_config)
    as [r|e] eqn:Hr; [|by vm_compute in Hr].
  pose proof (@transition_hysteresis coarse_pow coarse_pow_laws sample_state sample_appraisal
    (PInt 1001) default_config r eq_refl sample_appraisal_wf
    (config_init_wf _ _ default_config_ok) Hr) as (_ & H & _).
  exists r. split; [done|]. vm_compute in Hr. injection Hr as <-. split; [|done]. by rewrite H.
Defined.

(** Decay toward a zero baseline is a contraction in binary64: whatever the
    elapsed time and half-life, the decayed value stays in [-1, 1], its
    magnitude never exceeds the old one and its sign never flips. *)
Theorem decay_contracts : forall (L : Libm) (HL : LibmLaws) value elapsed half_life,
  in_range (-1) 1 value = true -> (0 <=? elapsed) = true -> num_positive half_life ->
  let v' := _exponential_decay value (NFloat 0) elapsed half_life in
  in_range (-1) 1 v' = true /\ (Z.abs (fval v') <= Z.abs (fval value))%Z
  /\ ((0 <= fval value)%Z -> (0 <= fval v')%Z) /\ ((fval value <= 0)%Z -> (fval v' <= 0)%Z).
Proof. intros L HL. exact decay_contract. Qed.

Lemma decay_contracts_witness :
  in_range (-1) 1 (@_exponential_decay coarse_pow (-0.7) (NFloat 0) 5000 (NInt 3600)) = true.
Proof.
  apply (@decay_contracts coarse_pow coarse_pow_laws (-0.7) 5000 (NInt 3600)); vm_compute; auto.
Defined.

(** Any conversation keeps the domain sound: over every sequence of valid
    appraisals and arbitrary clock readings (regressed, invalid or repeated),
    starting from a valid snapshot, the snapshot stays valid, time never moves
    backwards and the drives never change. *)
Theorem turn_run_valid : forall (L : Libm) (HL : LibmLaws) c turns s,
  state_wf s = true -> Forall (fun t => appraisal_wf t.1) turns -> config_wf c ->
  state_wf (turn_run c turns s) = true
  /\ (timestamp s <=? timestamp (turn_run c turns s)) = true
  /\ drives_kept s (turn_run c turns s).
Proof. intros L HL. exact turn_run_inv. Qed.

Lemma turn_run_valid_witness :
  state_wf (@turn_run coarse_pow default_config
    [(sample_appraisal, PInt 1001); (sample_appraisal, PNone); (neutral_appraisal, PFloat 900)]
    sample_state) = true.
Proof.
  refine (proj1 (@turn_run_valid coarse_pow coarse_pow_laws default_config _ sample_state _ _ _));
    [reflexivity| |].
  - repeat apply Forall_cons_2; [exact sample_appraisal_wf..|exact neutral_appraisal_wf|].
    apply Forall_nil_2.
  - exact (config_init_wf _ _ default_config_ok).
Defined.

(** A configuration is valid whatever keyword arguments built it: every
    value [create] returns has positive finite half-lives, baselines, caps and
    factors in range and both threshold pairs strictly ordered; an unknown
    keyword is refused; no keyword at all gives the defaults, which are valid. *)
Theorem TransitionConfig_always_valid :
  (forall kw c, TransitionConfig_create kw = Ok c -> config_wf c)
  /\ (forall kw, has_unknown _CONFIG_FIELDS kw = true -> TransitionConfig_create kw = raise_domain)
  /\ (TransitionConfig_create [] = TransitionConfig_defaults)
  /\ (exists c, TransitionConfig_defaults = Ok c /\ config_wf c).
Proof.
  split; [|split; [|split]].
  - intros kw c H. unfold TransitionConfig_create in H. inv_ok. by eapply config_init_wf.
  - intros kw H. unfold TransitionConfig_create. by rewrite H.
  - reflexivity.
  - exists default_config. split; [exact default_config_ok|].
    by eapply config_init_wf, default_config_ok.
Qed.
