(* ===== verification/AppraisalParser.v ===== *)
(** * The appraisal parser (backend/emotional_domain/appraisal_parser.py)

    [parse_llm_appraisal] turns any value a language model produced into a valid
    [AppraisalV1] or the neutral fallback with a stable error code.  The two
    exceptions the internals raise are the constructors of [parse_exn]; the
    public function catches them as its [except] clauses do. *)

From S2P Require Import Prelude PyFloat PyValue EmotionalModels.
Local Open Scope float_scope.

Inductive ParseErrorCode : Type :=
| invalid_structure
| unknown_top_level_key
| missing_required_field
| conflicting_aliases
| invalid_numeric_value
| unsupported_emotion
| unexpected_parser_failure.

#[export] Instance ParseErrorCode_eq_dec : EqDecision ParseErrorCode.
Proof. solve_decision. Defined.

(** [_ParserFailure(code)], an [EmotionalDomainError], or any other exception. *)
Inductive parse_exn : Type :=
| _ParserFailure (code : ParseErrorCode)
| ParserDomainError
| ParserOther.

Record ParseResult : Type := mkParseResult {
  appraisal : AppraisalV1;
  is_fallback : bool;
  error_code : option ParseErrorCode }.

Definition _ALLOWED_TOP_LEVEL_KEYS : list pystr :=
  [u "valence_shift"; u "arousal_shift"; u "dominance_shift"; u "discrete_emotions";
   u "valence"; u "triggered_emotions"].

Definition _REQUIRED_SHIFTS : list pystr :=
  [u "valence_shift"; u "arousal_shift"; u "dominance_shift"].

Notation fail_code c := (Err (_ParserFailure c)).

(** [try: c except EmotionalDomainError: raise _ParserFailure(code)]. *)
Definition domain_as {A} (c : result domain_error A) (code : ParseErrorCode)
  : result parse_exn A := rcatch c (fun _ => fail_code code).

Definition _validate_normalize_shift (value : pyval) : result parse_exn float :=
  domain_as (_require_finite_float_in_range value (-1) 1) invalid_numeric_value.

(** One round of the loop over an emotions mapping. *)
Definition normalize_emotion_item (acc : emotion_map) (kv : pykey * pyval)
  : result parse_exn emotion_map :=
  match kv.1 with
  | KOther _ => fail_code unsupported_emotion
  | KStr k =>
      if negb (str_in k DISCRETE_EMOTIONS) then Ok acc
      else let* f := domain_as (_require_finite_float_in_range kv.2 0 1) invalid_numeric_value in
           Ok (eset acc k f)
  end.

Definition _validate_normalize_emotions (value : pyval) : result parse_exn emotion_map :=
  match value with
  | PDict d => rfold normalize_emotion_item [] d
  | _ => fail_code unsupported_emotion
  end.

(** [a == b] on two dicts of floats: the same keys with equal values. *)
Definition emap_eqb (a b : emotion_map) : bool :=
  (length a =? length b)%nat
  && forallb (fun kv => match eget b kv.1 with Some v => kv.2 =? v | None => false end) a.

Definition translate_valence (raw res : pydict) : result parse_exn pydict :=
  match dget raw (u "valence"), dget raw (u "valence_shift") with
  | Some a, Some c =>
      let* alias_norm := _validate_normalize_shift a in
      let* canonical_norm := _validate_normalize_shift c in
      if negb (alias_norm =? canonical_norm) then fail_code conflicting_aliases
      else Ok (dpop res (u "valence"))
  | Some a, None => Ok (dset (dpop res (u "valence")) (u "valence_shift") a)
  | None, _ => Ok res
  end.

Definition translate_emotions (raw res : pydict) : result parse_exn pydict :=
  match dget raw (u "triggered_emotions"), dget raw (u "discrete_emotions") with
  | Some a, Some c =>
      let* alias_norm := _validate_normalize_emotions a in
      let* canonical_norm := _validate_normalize_emotions c in
      if negb (emap_eqb alias_norm canonical_norm) then fail_code conflicting_aliases
      else Ok (dpop res (u "triggered_emotions"))
  | Some a, None => Ok (dset (dpop res (u "triggered_emotions")) (u "discrete_emotions") a)
  | None, _ => Ok res
  end.

Definition _translate_aliases (raw : pydict) : result parse_exn pydict :=
  let* res := translate_valence raw raw in
  translate_emotions raw res.

(** [None] is the sentinel [_ABSENT]. *)
Definition _parse_discrete_emotions (de_raw : option pyval) : result parse_exn emotion_map :=
  match de_raw with
  | None => Ok []
  | Some (PDict d) => rfold normalize_emotion_item [] d
  | Some _ => fail_code unsupported_emotion
  end.

Definition _do_parse (raw : pyval) : result parse_exn ParseResult :=
  match raw with
  | PDict d =>
      if has_unknown _ALLOWED_TOP_LEVEL_KEYS d then fail_code unknown_top_level_key
      else
        let* translated := _translate_aliases d in
        if has_missing _REQUIRED_SHIFTS translated then fail_code missing_required_field
        else
          let* shifts := domain_as
            (let* v := _require_finite_float_in_range (dindex translated (u "valence_shift")) (-1) 1 in
             let* a := _require_finite_float_in_range (dindex translated (u "arousal_shift")) (-1) 1 in
             let* dm := _require_finite_float_in_range (dindex translated (u "dominance_shift")) (-1) 1 in
             Ok (v, a, dm)) invalid_numeric_value in
          let* filtered := _parse_discrete_emotions (dget translated (u "discrete_emotions")) in
          let* ap := rcatch (AppraisalV1_create
            (mkAppraisalArgs (PFloat shifts.1.1) (PFloat shifts.1.2) (PFloat shifts.2)
               (Some (PDict (emotions_dict filtered))) (PInt EMOTIONAL_SCHEMA_VERSION)))
            (fun _ => Err ParserDomainError) in
          Ok (mkParseResult ap false None)
  | _ => fail_code invalid_structure
  end.

(** The fallback of every [except] clause; [AppraisalV1.neutral()] itself never
    raises ([appraisal_neutral_ok]). *)
Definition fallback (code : ParseErrorCode) : ParseResult :=
  mkParseResult neutral_appraisal true (Some code).

Definition parse_llm_appraisal (raw : pyval) : ParseResult :=
  match _do_parse raw with
  | Ok r => r
  | Err (_ParserFailure c) => fallback c
  | Err ParserDomainError => fallback invalid_numeric_value
  | Err ParserOther => fallback unexpected_parser_failure
  end.

(** ** What the parser accepts *)

Definition in_pm1 (v : pyval) (f : float) : Prop := as_float v = Some f /\ in_range (-1) 1 f = true.

(** The value a dict gives for a canonical key with an alias. *)
Definition valence_stated (d : pydict) (f : float) : Prop :=
  match dget d (u "valence"), dget d (u "valence_shift") with
  | Some a, Some c => exists g, in_pm1 a g /\ in_pm1 c f /\ (g =? f) = true
  | Some a, None => in_pm1 a f
  | None, Some c => in_pm1 c f
  | None, None => False
  end.

Definition shift_stated (d : pydict) (k : pystr) (f : float) : Prop :=
  exists v, dget d k = Some v /\ in_pm1 v f.

(** The items of an emotions mapping that survive the allow-list, normalised. *)
Inductive emotions_filtered : pydict -> emotion_map -> Prop :=
| ef_nil : emotions_filtered [] []
| ef_unknown d m k v :
    emotions_filtered d m -> k ∉ DISCRETE_EMOTIONS -> emotions_filtered (d ++ [(KStr k, v)]) m
| ef_known d m k v f :
    emotions_filtered d m -> k ∈ DISCRETE_EMOTIONS -> as_float v = Some f ->
    in_range 0 1 f = true -> emotions_filtered (d ++ [(KStr k, v)]) (eset m k f).

Definition emotions_stated (d : pydict) (m : emotion_map) : Prop :=
  match dget d (u "triggered_emotions"), dget d (u "discrete_emotions") with
  | Some a, Some c => exists da dc ma, a = PDict da /\ c = PDict dc
      /\ emotions_filtered da ma /\ emotions_filtered dc m /\ emap_eqb ma m = true
  | Some a, None => exists da, a = PDict da /\ emotions_filtered da m
  | None, Some c => exists dc, c = PDict dc /\ emotions_filtered dc m
  | None, None => m = []
  end.

(** [raw] states the appraisal [a]. *)
Definition states_appraisal (raw : pyval) (a : AppraisalV1) : Prop :=
  exists d, raw = PDict d /\ has_unknown _ALLOWED_TOP_LEVEL_KEYS d = false
    /\ valence_stated d (valence_shift a)
    /\ shift_stated d (u "arousal_shift") (arousal_shift a)
    /\ shift_stated d (u "dominance_shift") (dominance_shift a)
    /\ emotions_stated d (discrete_emotions a)
    /\ ap_schema_version a = EMOTIONAL_SCHEMA_VERSION.

(** ** Lemmas *)

Lemma domain_as_ok {A} (c : result domain_error A) code a :
  domain_as c code = Ok a <-> c = Ok a.
Proof. unfold domain_as. destruct c; cbn; naive_solver. Qed.

Lemma normalize_shift_iff v f : _validate_normalize_shift v = Ok f <-> in_pm1 v f.
Proof. unfold _validate_normalize_shift. rewrite domain_as_ok. by apply require_range_iff. Qed.

Lemma rfold_snoc {E A S} (f : S -> A -> result E S) s l x :
  rfold f s (l ++ [x]) = (let* s' := rfold f s l in f s' x).
Proof.
  revert s. induction l as [|y l IH]; intros s; cbn; [by destruct (f s x)|].
  destruct (f s y); cbn; [apply IH|done].
Qed.

Lemma filtered_iff d m : rfold normalize_emotion_item [] d = Ok m <-> emotions_filtered d m.
Proof.
  split.
  - revert m. induction d as [|[k v] d IH] using rev_ind; intros m H.
    { cbn in H. inv_ok. constructor. }
    rewrite rfold_snoc in H. inv_ok. specialize (IH _ eq_refl). unfold normalize_emotion_item in H.
    destruct k as [k|]; cbn [fst snd] in H; [|done].
    destruct (str_in k DISCRETE_EMOTIONS) eqn:K; cbn [negb] in H.
    + inv_ok. apply domain_as_ok, require_range_iff in E0 as [A R]; [|done..].
      constructor; [done| |done|done]. by apply str_in_elem.
    + inv_ok. constructor; [done|]. rewrite <- str_in_elem. congruence.
  - induction 1 as [|d m k v _ IH Hk|d m k v f _ IH Hk A R]; [done|..];
      rewrite rfold_snoc, IH; cbn [rbind]; unfold normalize_emotion_item; cbn [fst snd].
    + destruct (str_in k DISCRETE_EMOTIONS) eqn:K; [by apply str_in_elem in K|done].
    + apply str_in_elem in Hk. rewrite Hk. cbn [negb].
      rewrite (proj2 (domain_as_ok _ _ f)); [done|]. by apply require_range_ok.
Qed.

Lemma normalize_emotions_iff v m :
  _validate_normalize_emotions v = Ok m <-> exists d, v = PDict d /\ emotions_filtered d m.
Proof.
  destruct v; cbn; try (split; [done|]; by intros (? & ? & _)).
  rewrite filtered_iff. naive_solver.
Qed.

Lemma filtered_wf d m : emotions_filtered d m -> emotions_wf m.
Proof.
  induction 1 as [|d m k v H IH Hk|d m k v f H IH Hk A R]; [|done|].
  - split; [apply NoDup_nil_2|done].
  - apply eset_wf; [done|]. unfold emotion_ok. apply str_in_elem in Hk.
    cbn [fst snd]. by rewrite Hk, R.
Qed.

(** The translated dict gives each canonical key the stated value. *)
Lemma translate_valence_iff raw f :
  (exists res, translate_valence raw raw = Ok res
     /\ exists v, dget res (u "valence_shift") = Some v /\ in_pm1 v f) <-> valence_stated raw f.
Proof.
  unfold translate_valence, valence_stated.
  destruct (dget raw (u "valence")) as [a|] eqn:A, (dget raw (u "valence_shift")) as [c|] eqn:C.
  - split.
    + intros (res & H & v & Hv & P). inv_ok. rewrite dget_dpop, C in Hv. simplify_eq/=.
      apply normalize_shift_iff in E, E0. apply negb_false_iff in G. exists v0. split; [done|].
      destruct E0 as [E1 E2], P as [P1 P2]. assert (v1 = f) as -> by congruence. done.
    + intros (g & Pa & Pc & Q). exists (dpop raw (u "valence")).
      rewrite (proj2 (normalize_shift_iff a g) Pa). cbn [rbind].
      rewrite (proj2 (normalize_shift_iff c f) Pc). cbn [rbind]. rewrite Q. cbn [negb].
      split; [done|]. exists c. by rewrite dget_dpop, C.
  - split.
    + intros (res & H & v & Hv & P). inv_ok. rewrite dget_dset in Hv. by simplify_eq/=.
    + intros P. eexists. split; [done|]. exists a. by rewrite dget_dset.
  - split; [intros (res & H & v & Hv & P); inv_ok; by simplify_eq|].
    intros P. eexists. split; [done|]. by exists c.
  - split; [intros (res & H & v & Hv & P); inv_ok; by simplify_eq|done].
Qed.

Lemma translate_valence_other raw res k :
  translate_valence raw raw = Ok res -> k <> u "valence" -> k <> u "valence_shift" ->
  dget res k = dget raw k.
Proof.
  unfold translate_valence. intros H N1 N2. repeat case_match; inv_ok; try done;
    rewrite ?dget_dset, dget_dpop, ?bool_decide_eq_false_2 by congruence; done.
Qed.

Lemma translate_emotions_other raw r0 res k :
  translate_emotions raw r0 = Ok res -> k <> u "triggered_emotions" -> k <> u "discrete_emotions" ->
  dget res k = dget r0 k.
Proof.
  unfold translate_emotions. intros H N1 N2. repeat case_match; inv_ok; try done;
    rewrite ?dget_dset, dget_dpop, ?bool_decide_eq_false_2 by congruence; done.
Qed.

Lemma translate_emotions_iff raw r0 m :
  dget r0 (u "triggered_emotions") = dget raw (u "triggered_emotions") ->
  dget r0 (u "discrete_emotions") = dget raw (u "discrete_emotions") ->
  (exists res, translate_emotions raw r0 = Ok res
     /\ _parse_discrete_emotions (dget res (u "discrete_emotions")) = Ok m) <-> emotions_stated raw m.
Proof.
  intros T D. unfold translate_emotions, emotions_stated.
  assert (forall v, _parse_discrete_emotions (Some v) = _validate_normalize_emotions v) as PE
    by by intros [].
  destruct (dget raw (u "triggered_emotions")) as [a|] eqn:A, (dget raw (u "discrete_emotions")) as [c|] eqn:C.
  - split.
    + intros (res & H & P). inv_ok. rewrite dget_dpop, D, bool_decide_eq_false_2, PE, E0 in P by done. inv_ok.
      apply normalize_emotions_iff in E as (da & -> & Fa).
      apply normalize_emotions_iff in E0 as (dc & -> & Fc). apply negb_false_iff in G. by exists da, dc, v.
    + intros (da & dc & ma & -> & -> & Fa & Fc & Q). exists (dpop r0 (u "triggered_emotions")).
      rewrite (proj2 (normalize_emotions_iff (PDict da) ma)) by by exists da. cbn [rbind].
      rewrite (proj2 (normalize_emotions_iff (PDict dc) m)) by by exists dc. cbn [rbind].
      rewrite Q. split; [done|]. rewrite dget_dpop, D, bool_decide_eq_false_2 by done.
      by apply filtered_iff.
  - split.
    + intros (res & H & P). inv_ok. rewrite dget_dset, bool_decide_eq_true_2, PE in P by done.
      by apply normalize_emotions_iff in P.
    + intros P. eexists. split; [done|]. rewrite dget_dset, bool_decide_eq_true_2, PE by done. by apply normalize_emotions_iff.
  - split.
    + intros (res & H & P). inv_ok. rewrite D, PE in P. by apply normalize_emotions_iff in P.
    + intros P. eexists. split; [done|]. rewrite D, PE. by apply normalize_emotions_iff.
  - split; [intros (res & H & P); inv_ok; rewrite D in P; cbn in P; by inv_ok|].
    intros ->. eexists. split; [done|]. by rewrite D.
Qed.

Lemma shift_stated_index d k f :
  shift_stated d k f <->
  dhas d k = true /\ _require_finite_float_in_range (dindex d k) (-1) 1 = Ok f.
Proof.
  unfold shift_stated, dindex, dhas, in_pm1. rewrite require_range_iff by done.
  destruct (dget d k) as [v|]; [naive_solver|]. split; [by intros (? & ? & _)|by intros [? _]].
Qed.

Lemma translated_valence d t f :
  _translate_aliases d = Ok t -> shift_stated t (u "valence_shift") f <-> valence_stated d f.
Proof.
  unfold _translate_aliases. intros H. inv_ok. rewrite <- translate_valence_iff.
  unfold shift_stated. erewrite (translate_emotions_other _ _ _ _ H) by done.
  split; [|intros (res & E' & Hv); rewrite E in E'; injection E' as ->; done].
  intros Hv. by exists v.
Qed.

Lemma translated_other d t k :
  _translate_aliases d = Ok t -> k ∉ [u "valence"; u "valence_shift"; u "triggered_emotions";
    u "discrete_emotions"] -> dget t k = dget d k.
Proof.
  unfold _translate_aliases. intros H N. inv_ok. repeat setoid_rewrite not_elem_of_cons in N.
  destruct N as (N1 & N2 & N3 & N4 & _).
  by rewrite (translate_emotions_other _ _ _ _ H), (translate_valence_other _ _ _ E).
Qed.

Lemma translated_emotions d m :
  (exists res, translate_valence d d = Ok res) ->
  (exists t, _translate_aliases d = Ok t
     /\ _parse_discrete_emotions (dget t (u "discrete_emotions")) = Ok m) <-> emotions_stated d m.
Proof.
  intros [r0 E]. unfold _translate_aliases. rewrite E. cbn [rbind].
  apply translate_emotions_iff; by apply (translate_valence_other _ _ _ E).
Qed.

Lemma create_filtered v a dm m :
  in_range (-1) 1 v = true -> in_range (-1) 1 a = true -> in_range (-1) 1 dm = true ->
  emotions_wf m ->
  AppraisalV1_create (mkAppraisalArgs (PFloat v) (PFloat a) (PFloat dm)
    (Some (PDict (emotions_dict m))) (PInt EMOTIONAL_SCHEMA_VERSION)) = Ok (mkAppraisal v a dm m 1).
Proof.
  intros Hv Ha Hd [Hn Hf]. by apply (appraisal_create_self (mkAppraisal v a dm m 1)).
Qed.

Lemma parse_emotions_wf o m : _parse_discrete_emotions o = Ok m -> emotions_wf m.
Proof.
  destruct o as [[]|]; cbn; try done.
  - intros H. apply filtered_iff in H. by eapply filtered_wf.
  - intros H. inv_ok. split; [apply NoDup_nil_2|done].
Qed.

Lemma do_parse_sound raw r :
  _do_parse raw = Ok r -> exists a, r = mkParseResult a false None /\ states_appraisal raw a.
Proof.
  destruct raw; try done. cbn [_do_parse]. intros H. inv_ok. exists v2. split; [done|].
  apply domain_as_ok in E0. inv_ok. cbn [fst snd] in *.
  assert (dhas v (u "valence_shift") = true /\ dhas v (u "arousal_shift") = true
          /\ dhas v (u "dominance_shift") = true) as (D1 & D2 & D3).
  { rewrite has_missing_false in G0. repeat split; apply G0; unfold _REQUIRED_SHIFTS; set_solver. }
  assert (shift_stated v (u "valence_shift") v3) as S1 by by apply shift_stated_index.
  assert (shift_stated v (u "arousal_shift") v4) as S2 by by apply shift_stated_index.
  assert (shift_stated v (u "dominance_shift") v5) as S3 by by apply shift_stated_index.
  assert (in_range (-1) 1 v3 = true /\ in_range (-1) 1 v4 = true /\ in_range (-1) 1 v5 = true)
    as (R1 & R2 & R3).
  { split; [|split]; [destruct S1 as (? & _ & _ & ?)|destruct S2 as (? & _ & _ & ?)
      |destruct S3 as (? & _ & _ & ?)]; done. }
  rewrite create_filtered in E2 by eauto using parse_emotions_wf. cbn [rcatch] in E2. inv_ok.
  exists d. split; [done|]. split; [done|]. cbn [valence_shift arousal_shift dominance_shift
    discrete_emotions ap_schema_version].
  split; [by apply (translated_valence _ _ _ E)|].
  unfold shift_stated in *. rewrite <- !(translated_other _ _ _ E) by set_solver.
  split; [done|]. split; [done|]. split; [|done].
  apply translated_emotions; [|by exists v]. unfold _translate_aliases in E. inv_ok. eauto.
Qed.

Lemma do_parse_complete raw a :
  states_appraisal raw a -> _do_parse raw = Ok (mkParseResult a false None).
Proof.
  intros (d & -> & HU & HV & HA & HD & HE & Hs). cbn [_do_parse]. rewrite HU.
  assert (exists res, translate_valence d d = Ok res) as HR
    by (apply translate_valence_iff in HV as (res & ? & _); eauto).
  apply translated_emotions in HE as (t & Ht & Hm); [|done]. rewrite Ht. cbn [rbind].
  apply (translated_valence _ _ _ Ht) in HV.
  unfold shift_stated in HA, HD.
  rewrite <- (translated_other _ _ _ Ht) in HA by set_solver.
  rewrite <- (translated_other _ _ _ Ht) in HD by set_solver.
  fold (shift_stated t (u "arousal_shift") (arousal_shift a)) in HA.
  fold (shift_stated t (u "dominance_shift") (dominance_shift a)) in HD.
  assert (in_range (-1) 1 (valence_shift a) = true /\ in_range (-1) 1 (arousal_shift a) = true
    /\ in_range (-1) 1 (dominance_shift a) = true) as (R1 & R2 & R3).
  { destruct HV as (? & _ & _ & ?), HA as (? & _ & _ & ?), HD as (? & _ & _ & ?). done. }
  apply shift_stated_index in HV as [V1 V2], HA as [A1 A2], HD as [D1 D2].
  rewrite (proj2 (has_missing_false _ _)).
  2:{ unfold _REQUIRED_SHIFTS. intros f Hf. repeat setoid_rewrite elem_of_cons in Hf.
      by destruct Hf as [-> | [-> | [-> | ?%elem_of_nil]]]. }
  rewrite V2, A2, D2. cbn [domain_as rcatch rbind]. rewrite Hm. cbn [rbind fst snd].
  rewrite create_filtered by eauto using parse_emotions_wf. cbn [rcatch rbind].
  destruct a; cbn in *; by subst.
Qed.

Lemma states_appraisal_wf raw a : states_appraisal raw a -> appraisal_wf a.
Proof.
  intros H. apply do_parse_complete in H. destruct raw; try done. cbn [_do_parse] in H.
  inv_ok. simplify_eq. destruct (AppraisalV1_create _) as [a'|] eqn:C in E2; cbn in E2; [|done].
  injection E2 as ->. exact (appraisal_create_wf _ _ C).
Qed.


(** ** What each error code means *)

Definition bad_shift (v : pyval) : Prop := forall f, ~ in_pm1 v f.

Definition bad_intensity (e : pydict) : Prop :=
  exists k v, (KStr k, v) ∈ e /\ k ∈ DISCRETE_EMOTIONS
    /\ forall f, ~ (as_float v = Some f /\ in_range 0 1 f = true).

Definition bad_mapping (v : pyval) : Prop :=
  (forall d, v <> PDict d) \/ exists d i x, v = PDict d /\ (KOther i, x) ∈ d.

(** The emotions mappings a payload carries. *)
Definition emotions_of (d : pydict) (v : pyval) : Prop :=
  dget d (u "triggered_emotions") = Some v \/ dget d (u "discrete_emotions") = Some v.

Definition shift_of (d : pydict) (v : pyval) : Prop :=
  exists k, k ∈ u "valence" :: _REQUIRED_SHIFTS /\ dget d k = Some v.

Definition valence_conflict (d : pydict) : Prop :=
  exists a c fa fc, dget d (u "valence") = Some a /\ dget d (u "valence_shift") = Some c
    /\ in_pm1 a fa /\ in_pm1 c fc /\ (fa =? fc) = false.

Definition emotions_conflict (d : pydict) : Prop :=
  exists a c ma mc, dget d (u "triggered_emotions") = Some (PDict a)
    /\ dget d (u "discrete_emotions") = Some (PDict c)
    /\ emotions_filtered a ma /\ emotions_filtered c mc /\ emap_eqb ma mc = false.

Definition code_explains (d : pydict) (c : ParseErrorCode) : Prop :=
  match c with
  | invalid_structure => False
  | unknown_top_level_key => has_unknown _ALLOWED_TOP_LEVEL_KEYS d = true
  | missing_required_field =>
      (dget d (u "valence") = None /\ dget d (u "valence_shift") = None)
      \/ dget d (u "arousal_shift") = None \/ dget d (u "dominance_shift") = None
  | conflicting_aliases => valence_conflict d \/ emotions_conflict d
  | invalid_numeric_value =>
      (exists v, shift_of d v /\ bad_shift v) \/ (exists e, emotions_of d (PDict e) /\ bad_intensity e)
  | unsupported_emotion => exists v, emotions_of d v /\ bad_mapping v
  | unexpected_parser_failure => False
  end.

Lemma domain_as_err {A} (c : result domain_error A) code e :
  domain_as c code = Err e -> e = _ParserFailure code /\ forall a, c <> Ok a.
Proof. unfold domain_as. destruct c; cbn; [done|]. intros [= <-]. done. Qed.

Lemma require_bad lo hi v :
  nan lo = false -> nan hi = false ->
  (forall f, _require_finite_float_in_range v lo hi <> Ok f) ->
  forall f, ~ (as_float v = Some f /\ in_range lo hi f = true).
Proof. intros Nl Nh H f Hf. by apply (H f), require_range_iff. Qed.

Lemma normalize_shift_err v e :
  _validate_normalize_shift v = Err e -> e = _ParserFailure invalid_numeric_value /\ bad_shift v.
Proof.
  intros [-> H]%domain_as_err. split; [done|]. exact (require_bad (-1) 1 v eq_refl eq_refl H).
Qed.

Lemma fold_emotions_err d acc e :
  rfold normalize_emotion_item acc d = Err e ->
  (e = _ParserFailure invalid_numeric_value /\ bad_intensity d)
  \/ (e = _ParserFailure unsupported_emotion /\ bad_mapping (PDict d)).
Proof.
  revert acc. induction d as [|[k v] d IH]; intros acc; cbn [rfold]; [done|].
  destruct (normalize_emotion_item acc (k, v)) as [acc'|e'] eqn:I; cbn [rbind].
  - intros [[-> (k' & v' & Hin & Hk & Hf)]|[-> [Hd|(d' & i & x & [= <-] & Hin)]]]%IH.
    + left. split; [done|]. exists k', v'. split; [set_solver|done].
    + by destruct (Hd d).
    + right. split; [done|]. right. exists ((k, v) :: d), i, x. split; [done|set_solver].
  - intros [= ->]. unfold normalize_emotion_item in I. destruct k as [k|i]; cbn [fst snd] in I.
    + destruct (str_in k DISCRETE_EMOTIONS) eqn:K; cbn [negb] in I; [|done].
      destruct (domain_as _ _) eqn:D in I; cbn in I; [done|]. injection I as ->.
      apply domain_as_err in D as [-> H]. left. split; [done|]. exists k, v.
      split; [set_solver|]. split; [by apply str_in_elem|]. by apply (require_bad 0 1).
    + injection I as <-. right. split; [done|]. right. exists ((KOther i, v) :: d), i, v.
      split; [done|set_solver].
Qed.

Lemma normalize_emotions_err d k v e :
  dget d k = Some v -> k = u "triggered_emotions" \/ k = u "discrete_emotions" ->
  _validate_normalize_emotions v = Err e ->
  exists c, e = _ParserFailure c /\ code_explains d c.
Proof.
  intros Hg Hk H. assert (emotions_of d v) as Ho by (unfold emotions_of; by destruct Hk; subst; auto).
  destruct v; cbn in H; try (injection H as <-; eexists; split; [done|]; cbn;
    eexists; split; [exact Ho|left; done]).
  apply fold_emotions_err in H as [[-> B]|[-> B]].
  - eexists. split; [done|]. right. eauto.
  - eexists. split; [done|]. cbn. eauto.
Qed.

Lemma translate_err d e : _translate_aliases d = Err e ->
  exists c, e = _ParserFailure c /\ code_explains d c.
Proof.
  unfold _translate_aliases. destruct (translate_valence d d) as [r|e'] eqn:V; cbn [rbind].
  - unfold translate_emotions.
    destruct (dget d (u "triggered_emotions")) as [a|] eqn:A,
      (dget d (u "discrete_emotions")) as [c|] eqn:C; try done.
    destruct (_validate_normalize_emotions a) as [ma|ea] eqn:MA; cbn [rbind].
    2:{ intros [= ->]. eapply (normalize_emotions_err d (u "triggered_emotions")); eauto. }
    destruct (_validate_normalize_emotions c) as [mc|ec] eqn:MC; cbn [rbind].
    2:{ intros [= ->]. eapply (normalize_emotions_err d (u "discrete_emotions")); eauto. }
    destruct (emap_eqb ma mc) eqn:Q; [done|]. intros [= <-]. eexists. split; [done|]. right.
    apply normalize_emotions_iff in MA as (da & -> & Fa), MC as (dc & -> & Fc). by exists da, dc, ma, mc.
  - intros [= ->]. revert V. unfold translate_valence.
    destruct (dget d (u "valence")) as [a|] eqn:A, (dget d (u "valence_shift")) as [c|] eqn:C; try done.
    destruct (_validate_normalize_shift a) as [fa|ea] eqn:MA; cbn [rbind].
    2:{ intros [= ->]. apply normalize_shift_err in MA as [-> B]. eexists. split; [done|]. left.
        exists a. split; [|done]. exists (u "valence"). split; [set_solver|done]. }
    destruct (_validate_normalize_shift c) as [fc|ec] eqn:MC; cbn [rbind].
    2:{ intros [= ->]. apply normalize_shift_err in MC as [-> B]. eexists. split; [done|]. left.
        exists c. split; [|done]. exists (u "valence_shift").
        split; [unfold _REQUIRED_SHIFTS; set_solver|done]. }
    destruct (fa =? fc) eqn:Q; [done|]. intros [= <-]. eexists. split; [done|]. left.
    apply normalize_shift_iff in MA, MC. by exists a, c, fa, fc.
Qed.

(** The value the translated dict has for a shift comes from the payload. *)
Lemma translated_shift d t k v :
  _translate_aliases d = Ok t -> k ∈ _REQUIRED_SHIFTS -> dget t k = Some v -> shift_of d v.
Proof.
  intros Ht Hk Hv. unfold _REQUIRED_SHIFTS in Hk. repeat setoid_rewrite elem_of_cons in Hk.
  destruct Hk as [-> | [-> | [-> | ?%elem_of_nil]]]; [| | |done].
  - unfold _translate_aliases in Ht. inv_ok. rewrite (translate_emotions_other _ _ _ _ Ht) in Hv by done.
    unfold translate_valence in E.
    destruct (dget d (u "valence")) as [a|] eqn:A, (dget d (u "valence_shift")) as [c|] eqn:C;
      inv_ok; rewrite ?dget_dset, ?dget_dpop, ?bool_decide_eq_true_2, ?bool_decide_eq_false_2 in Hv by done;
      simplify_eq; eexists; (split; [|eassumption]); unfold _REQUIRED_SHIFTS; set_solver.
  - rewrite (translated_other _ _ _ Ht) in Hv by set_solver. eexists. split; [|done].
    unfold _REQUIRED_SHIFTS; set_solver.
  - rewrite (translated_other _ _ _ Ht) in Hv by set_solver. eexists. split; [|done].
    unfold _REQUIRED_SHIFTS; set_solver.
Qed.

Lemma translated_missing d t k :
  _translate_aliases d = Ok t -> k ∈ _REQUIRED_SHIFTS -> dhas t k = false ->
  code_explains d missing_required_field.
Proof.
  intros Ht Hk Hv. unfold dhas in Hv. destruct (dget t k) eqn:K; [done|].
  unfold _REQUIRED_SHIFTS in Hk. repeat setoid_rewrite elem_of_cons in Hk.
  destruct Hk as [-> | [-> | [-> | ?%elem_of_nil]]]; [| | |done].
  - left. unfold _translate_aliases in Ht. inv_ok. rewrite (translate_emotions_other _ _ _ _ Ht) in K by done.
    unfold translate_valence in E.
    destruct (dget d (u "valence")) as [a|] eqn:A, (dget d (u "valence_shift")) as [c|] eqn:C;
      inv_ok; rewrite ?dget_dset, ?dget_dpop, ?bool_decide_eq_true_2, ?bool_decide_eq_false_2 in K by done;
      by simplify_eq.
  - right. left. by rewrite (translated_other _ _ _ Ht) in K by set_solver.
  - right. right. by rewrite (translated_other _ _ _ Ht) in K by set_solver.
Qed.

Lemma shift_err d t k e :
  _translate_aliases d = Ok t -> k ∈ _REQUIRED_SHIFTS -> dhas t k = true ->
  _require_finite_float_in_range (dindex t k) (-1) 1 = Err e -> code_explains d invalid_numeric_value.
Proof.
  intros Ht Hk [v Hv]%dhas_dget He. left. exists v. split; [by eapply translated_shift|].
  unfold dindex in He. rewrite Hv in He. refine (require_bad (-1) 1 v eq_refl eq_refl _). congruence.
Qed.

Lemma translated_emotions_of d t v :
  _translate_aliases d = Ok t -> dget t (u "discrete_emotions") = Some v -> emotions_of d v.
Proof.
  intros Ht Hv. unfold _translate_aliases in Ht. inv_ok. unfold translate_emotions in Ht.
  pose proof (translate_valence_other _ _ (u "discrete_emotions") E ltac:(done) ltac:(done)) as K.
  unfold emotions_of.
  destruct (dget d (u "triggered_emotions")) as [a|] eqn:A, (dget d (u "discrete_emotions")) as [c|] eqn:C;
    inv_ok; rewrite ?dget_dset, ?dget_dpop, ?bool_decide_eq_true_2, ?bool_decide_eq_false_2 in Hv by done;
    rewrite ?K in Hv; simplify_eq; auto.
Qed.

Lemma do_parse_err d e : _do_parse (PDict d) = Err e ->
  exists c, e = _ParserFailure c /\ code_explains d c.
Proof.
  cbn [_do_parse]. destruct (has_unknown _ d) eqn:U; [intros [= <-]; by eexists|].
  destruct (_translate_aliases d) as [t|e'] eqn:T; cbn [rbind].
  2:{ intros [= ->]. by apply translate_err. }
  destruct (has_missing _REQUIRED_SHIFTS t) eqn:M.
  { intros [= <-]. eexists. split; [done|]. unfold has_missing in M.
    apply existsb_exists in M as (k & Hk & Hd%negb_true_iff).
    apply list_elem_of_In in Hk. by eapply translated_missing. }
  assert (forall k, k ∈ _REQUIRED_SHIFTS -> dhas t k = true) as D by by apply has_missing_false.
  assert (forall k e, k ∈ _REQUIRED_SHIFTS ->
    _require_finite_float_in_range (dindex t k) (-1) 1 = Err e -> code_explains d invalid_numeric_value)
    as SE by (intros; eapply shift_err; eauto).
  assert (u "valence_shift" ∈ _REQUIRED_SHIFTS /\ u "arousal_shift" ∈ _REQUIRED_SHIFTS
    /\ u "dominance_shift" ∈ _REQUIRED_SHIFTS) as (I1 & I2 & I3) by (unfold _REQUIRED_SHIFTS; set_solver).
  destruct (_require_finite_float_in_range (dindex t (u "valence_shift")) (-1) 1) as [v|] eqn:V;
    cbn [rbind domain_as rcatch]; [|intros [= <-]; eauto].
  destruct (_require_finite_float_in_range (dindex t (u "arousal_shift")) (-1) 1) as [a|] eqn:A;
    cbn [rbind domain_as rcatch]; [|intros [= <-]; eauto].
  destruct (_require_finite_float_in_range (dindex t (u "dominance_shift")) (-1) 1) as [m|] eqn:DM;
    cbn [rbind domain_as rcatch]; [|intros [= <-]; eauto].
  destruct (_parse_discrete_emotions _) as [fe|ef] eqn:F; cbn [rbind fst snd].
  - apply require_range_iff in V as [_ V], A as [_ A], DM as [_ DM]; [|done..].
    by rewrite create_filtered by eauto using parse_emotions_wf.
  - intros [= ->]. destruct (dget t (u "discrete_emotions")) as [x|] eqn:X; [|done].
    pose proof (translated_emotions_of _ _ _ T X) as O. cbn in F.
    destruct O as [O|O]; (eapply normalize_emotions_err; [exact O|auto|]); by destruct x.
Qed.

(** ** Properties *)

(** C38. Parsing untrusted model output never fails and never lets an invalid
    appraisal through: for every value, the result carries a valid appraisal; it
    is the parsed one, with no error code, exactly when the value states that
    appraisal (canonical or legacy keys, aliases that agree, allow-listed
    emotions kept and others dropped); otherwise it is the neutral appraisal
    marked as a fallback with a code. *)
Theorem parse_llm_appraisal_spec : forall raw,
  let r := parse_llm_appraisal raw in
  appraisal_wf (appraisal r)
  /\ (forall a, states_appraisal raw a <-> (is_fallback r = false /\ appraisal r = a))
  /\ (is_fallback r = true -> appraisal r = neutral_appraisal)
  /\ (is_fallback r = true <-> error_code r <> None).
Proof.
  intros raw r. subst r. unfold parse_llm_appraisal.
  destruct (_do_parse raw) as [r|e] eqn:D.
  - pose proof (do_parse_sound _ _ D) as (a & -> & S). cbn.
    split; [by eapply states_appraisal_wf|]. split; [|done]. intros a'. split.
    + intros S'%do_parse_complete. rewrite D in S'. by simplify_eq.
    + intros [_ <-]. done.
  - assert (exists c, (match e with _ParserFailure c => fallback c
      | ParserDomainError => fallback invalid_numeric_value
      | ParserOther => fallback unexpected_parser_failure end) = fallback c) as [c ->]
      by (destruct e; eauto).
    cbn. split; [exact neutral_appraisal_wf|]. split; [|done]. intros a. split; [|by intros [? _]].
    intros S%do_parse_complete. congruence.
Qed.

(** The error code says what was wrong: [invalid_structure] exactly for a
    value that is not a dict; every other code names a defect the payload really
    has (an unlisted key, a shift given under no name, two valid aliases that
    disagree after normalisation, a shift or a kept intensity that is not a
    number in range, an emotions value that is not a mapping of strings); the
    catch-all [unexpected_parser_failure] is never produced. *)
Theorem parse_error_code_explains : forall raw c,
  error_code (parse_llm_appraisal raw) = Some c ->
  match raw with PDict d => code_explains d c | _ => c = invalid_structure end.
Proof.
  intros raw c. unfold parse_llm_appraisal.
  destruct (_do_parse raw) as [r|e] eqn:D; [apply do_parse_sound in D as (a & -> & _); done|].
  destruct raw as [| | | | | | |d| |];
    try (cbn in D; injection D as <-; cbn; by intros [= <-]).
  apply do_parse_err in D as (c' & -> & E). cbn. by intros [= <-].
Qed.

Lemma parse_error_code_explains_witness :
  code_explains [(KStr (u "valence"), PFloat 0.5); (KStr (u "valence_shift"), PInt 1)] conflicting_aliases.
Proof.
  apply (parse_error_code_explains
    (PDict [(KStr (u "valence"), PFloat 0.5); (KStr (u "valence_shift"), PInt 1)])).
  vm_compute. reflexivity.
Defined.
