(* ===== verification/EmotionalMigration.v ===== *)
(** * Migration of stored snapshots (backend/emotional_domain/migration.py)

    [migrate_legacy_snapshot] accepts a stored dict in the legacy format (the
    key [last_update], no [schema_version]) or in the v1 format and nothing in
    between. *)

From S2P Require Import Prelude PyFloat PyValue EmotionalModels.
Local Open Scope float_scope.

Definition _LEGACY_EXACT_FIELDS : list pystr :=
  [u "pleasure"; u "arousal"; u "dominance"; u "libido"; u "aggression"; u "connection";
   u "energy"; u "tension"; u "coping_mode"; u "last_update"].

Definition migrate_legacy_snapshot (raw : pyval) : result domain_error EmotionalStateV1 :=
  match raw with
  | PDict data =>
      if dhas data (u "last_update") && dhas data (u "timestamp") then raise_domain
      else
        match dget data (u "schema_version") with
        | Some sv =>
            match sv with
            | PNone => raise_domain
            | PInt z =>
                if negb (z =? EMOTIONAL_SCHEMA_VERSION)%Z then raise_domain
                else if has_unknown _STATE_FIELDS data then raise_domain
                else if dhas data (u "last_update") then raise_domain
                else EmotionalStateV1_from_dict (PDict data)
            | _ => raise_domain
            end
        | None =>
            if has_unknown _LEGACY_EXACT_FIELDS data then raise_domain
            else if has_missing _LEGACY_EXACT_FIELDS data then raise_domain
            else EmotionalStateV1_create
              (mkStateArgs (dindex data (u "pleasure")) (dindex data (u "arousal"))
                 (dindex data (u "dominance")) (dindex data (u "libido"))
                 (dindex data (u "aggression")) (dindex data (u "connection"))
                 (dindex data (u "energy")) (dindex data (u "tension"))
                 (dindex data (u "coping_mode")) (dindex data (u "last_update"))
                 (PInt EMOTIONAL_SCHEMA_VERSION))
        end
  | _ => raise_domain
  end.

(** The legacy payload of a snapshot. *)
Definition legacy_dict (s : EmotionalStateV1) : pydict :=
  [(KStr (u "pleasure"), PFloat (pleasure s)); (KStr (u "arousal"), PFloat (arousal s));
   (KStr (u "dominance"), PFloat (dominance s)); (KStr (u "libido"), PFloat (libido s));
   (KStr (u "aggression"), PFloat (aggression s)); (KStr (u "connection"), PFloat (connection s));
   (KStr (u "energy"), PFloat (energy s)); (KStr (u "tension"), PFloat (tension s));
   (KStr (u "coping_mode"), PStr (coping_mode s)); (KStr (u "last_update"), PFloat (timestamp s))].

(** ** Lemmas *)

(** A dict that holds [last_update] is not a v1 snapshot. *)
Lemma last_update_unknown (d : pydict) :
  dhas d (u "last_update") = true -> has_unknown _STATE_FIELDS d = true.
Proof.
  intros [v Hv%dget_elem]%dhas_dget. destruct (has_unknown _STATE_FIELDS d) eqn:U; [done|].
  destruct (proj1 (has_unknown_false _ _) U _ _ Hv) as (s & [= <-] & Hs).
  apply str_in_elem in Hs. by vm_compute in Hs.
Qed.

Lemma migrate_v1 d v :
  dget d (u "schema_version") = Some v ->
  migrate_legacy_snapshot (PDict d) = EmotionalStateV1_from_dict (PDict d).
Proof.
  intros Hv. cbn [migrate_legacy_snapshot]. rewrite Hv.
  destruct (EmotionalStateV1_from_dict (PDict d)) as [s|[]] eqn:F.
  - cbn [EmotionalStateV1_from_dict] in F. inv_ok. apply create_iff in F as [D W].
    assert (dhas d (u "last_update") = false) as ->.
    { destruct (dhas d (u "last_update")) eqn:L; [|done]. by rewrite last_update_unknown in G. }
    cbn [andb]. destruct D as (_ & _ & _ & _ & _ & _ & _ & _ & _ & _ & Hz). cbn [a_schema_version] in Hz.
    unfold dindex in Hz. rewrite Hv in Hz. subst v.
    unfold state_wf in W. rewrite !andb_true_iff in W. destruct W as [[[[[[[[[[Wz _] _] _] _] _] _] _] _] _] _].
    by rewrite Wz.
  - by repeat case_match.
Qed.

Lemma migrate_legacy_ok s :
  state_wf s = true -> migrate_legacy_snapshot (PDict (legacy_dict s)) = Ok s.
Proof.
  intros W. etransitivity; [|by apply create_state_args].
  assert (schema_version s = 1%Z) as V.
  { unfold state_wf in W. rewrite !andb_true_iff, Z.eqb_eq in W. tauto. }
  unfold state_args. rewrite V. reflexivity.
Qed.

Lemma migrate_wf v s : migrate_legacy_snapshot v = Ok s -> state_wf s = true.
Proof.
  destruct v; try done. cbn [migrate_legacy_snapshot]. intros H. repeat case_match; try done.
  - by eapply from_dict_wf.
  - by apply create_iff in H as [_ W].
Qed.

(** ** Properties *)

(** Migration of a stored snapshot is sound, lossless and idempotent: what
    it returns is always a valid snapshot; the legacy rendering of a valid
    snapshot migrates to exactly that snapshot; a payload that names a schema
    version is treated as v1, with the strictness of [from_dict] and no other
    outcome, so the v1 rendering of the migrated snapshot migrates to itself; a
    payload with both time keys is refused. *)
Theorem migrate_legacy_snapshot_spec :
  (forall v s, migrate_legacy_snapshot v = Ok s ->
     state_wf s = true
     /\ migrate_legacy_snapshot (PDict (EmotionalStateV1_to_dict s)) = Ok s
     /\ migrate_legacy_snapshot (PDict (legacy_dict s)) = Ok s)
  /\ (forall d v, dget d (u "schema_version") = Some v ->
        migrate_legacy_snapshot (PDict d) = EmotionalStateV1_from_dict (PDict d))
  /\ (forall d, dhas d (u "last_update") = true -> dhas d (u "timestamp") = true ->
        migrate_legacy_snapshot (PDict d) = raise_domain)
  /\ (forall d s, migrate_legacy_snapshot (PDict d) = Ok s ->
        dhas d (u "schema_version") = negb (dhas d (u "last_update"))).
Proof.
  split; [|split; [exact migrate_v1|split]].
  - intros v s H. pose proof (migrate_wf _ _ H) as W. split; [done|].
    split; [|by apply migrate_legacy_ok].
    rewrite (migrate_v1 _ (PInt (schema_version s))) by reflexivity. by apply from_dict_to_dict.
  - intros d H1 H2. cbn [migrate_legacy_snapshot]. by rewrite H1, H2.
  - intros d s H. cbn [migrate_legacy_snapshot] in H.
    destruct (dhas d (u "last_update")) eqn:L; cbn [negb].
    + destruct (dhas d (u "schema_version")) eqn:V; [|done]. apply dhas_dget in V as [v V].
      rewrite V, (last_update_unknown d L) in H. by repeat case_match.
    + destruct (dget d (u "schema_version")) as [v|] eqn:V; [unfold dhas; by rewrite V|].
      cbn [andb] in H. inv_ok. rewrite has_missing_false in G0.
      rewrite G0 in L; [done|]. apply str_in_elem. by vm_compute.
Qed.
