(* ===== verification/Relationship.v ===== *)
(** * The relationship snapshot (backend/relationship.py)

    [RelationshipStateV1] with its construction paths, the derived bond label,
    the migration of legacy payloads and the pure [transition_relationship].
    Every failure raises [RelationshipDomainError]. *)

From S2P Require Import Prelude PyFloat FloatRound PyValue EmotionalModels EmotionalTransition.
Local Open Scope float_scope.

Inductive relationship_error : Type := RelationshipDomainError.
Notation raise_rel := (Err RelationshipDomainError).

Definition RELATIONSHIP_SCHEMA_VERSION : Z := 1.

Definition _RELATIONSHIP_FIELDS : list pystr :=
  [u "trust"; u "affection"; u "tension"; u "triggers"; u "timestamp"; u "schema_version"].

Definition _LEGACY_ALLOWED_FIELDS : list pystr :=
  [u "user_id"; u "bond_label"; u "trust"; u "affection"; u "tension"; u "triggers";
   u "last_interaction"].

(** ** Validation helpers *)

Definition rel_require_schema_version (value : pyval) : result relationship_error Z :=
  match value with
  | PNone | PBool _ => raise_rel
  | PInt z => if negb (z =? RELATIONSHIP_SCHEMA_VERSION)%Z then raise_rel else Ok z
  | _ => raise_rel
  end.

Definition rel_require_finite_float (value : pyval) : result relationship_error float :=
  match value with
  | PBool _ => raise_rel
  | PInt z =>
      match int_to_float z with
      | None => raise_rel
      | Some f => if negb (isfinite f) then raise_rel else Ok f
      end
  | PFloat f => if negb (isfinite f) then raise_rel else Ok f
  | _ => raise_rel
  end.

Definition rel_require_range (value lo hi : float) : result relationship_error float :=
  if (value <? lo) || (hi <? value) then raise_rel else Ok value.

Definition rel_require_finite_float_in_range (value : pyval) (lo hi : float)
  : result relationship_error float :=
  let* f := rel_require_finite_float value in rel_require_range f lo hi.

Definition rel_require_positive_float (value : pyval) : result relationship_error float :=
  let* f := rel_require_finite_float value in
  if f <=? 0 then raise_rel else Ok f.

Definition _require_current_time (value : pyval) : result relationship_error float :=
  match value with
  | PBool _ => raise_rel
  | PNone => raise_rel
  | PInt _ | PFloat _ =>
      match num_to_float (to_num value) with
      | None => raise_rel
      | Some f =>
          if negb (isfinite f) then raise_rel
          else if f <=? 0 then raise_rel
          else Ok f
      end
  | _ => raise_rel
  end.

(** One round of the loop of [_validate_triggers]: the set [seen] always holds
    the strings of [result]. *)
Definition validate_trigger (res : list pystr) (item : pyval)
  : result relationship_error (list pystr) :=
  match item with
  | PStr s =>
      let stripped := strip s in
      match stripped with
      | [] => raise_rel
      | _ :: _ =>
          if (128 <? length stripped)%nat then raise_rel
          else if str_in stripped res then Ok res
          else Ok (res ++ [stripped])
      end
  | _ => raise_rel
  end.

Definition validate_trigger_items (raw : list pyval) : result relationship_error (list pystr) :=
  if (32 <? length raw)%nat then raise_rel else rfold validate_trigger [] raw.

Definition _validate_triggers (raw : pyval) : result relationship_error (list pystr) :=
  match raw with
  | PList l => validate_trigger_items l
  | PTuple l => validate_trigger_items l
  | _ => raise_rel
  end.

(** ** RelationshipStateV1 *)

Record RelationshipStateV1 : Type := mkRel {
  rel_timestamp : float;
  rel_schema_version : Z;
  trust : float;
  affection : float;
  rel_tension : float;
  triggers : list pystr }.

#[export] Instance RelationshipStateV1_eq_dec : EqDecision RelationshipStateV1.
Proof. solve_decision. Defined.

Record RelArgs : Type := mkRelArgs {
  a_rel_timestamp : pyval;
  a_rel_schema_version : pyval;
  a_trust : pyval;
  a_affection : pyval;
  a_rel_tension : pyval;
  a_triggers : pyval }.

(** The checks of [__post_init__], which [create] performs in the same order. *)
Definition RelationshipStateV1_init (a : RelArgs) : result relationship_error RelationshipStateV1 :=
  let* sv := rel_require_schema_version (a_rel_schema_version a) in
  let* tr := rel_require_finite_float_in_range (a_trust a) 0 1 in
  let* af := rel_require_finite_float_in_range (a_affection a) 0 1 in
  let* te := rel_require_finite_float_in_range (a_rel_tension a) 0 1 in
  let* ts := rel_require_positive_float (a_rel_timestamp a) in
  let* tgs := _validate_triggers (a_triggers a) in
  Ok (mkRel ts sv tr af te tgs).

(** The arguments that re-state an instance. *)
Definition rel_args (s : RelationshipStateV1) : RelArgs :=
  mkRelArgs (PFloat (rel_timestamp s)) (PInt (rel_schema_version s)) (PFloat (trust s))
    (PFloat (affection s)) (PFloat (rel_tension s)) (PTuple (map PStr (triggers s))).

Definition RelationshipStateV1_create (a : RelArgs) : result relationship_error RelationshipStateV1 :=
  let* sv := rel_require_schema_version (a_rel_schema_version a) in
  let* tr := rel_require_finite_float_in_range (a_trust a) 0 1 in
  let* af := rel_require_finite_float_in_range (a_affection a) 0 1 in
  let* te := rel_require_finite_float_in_range (a_rel_tension a) 0 1 in
  let* ts := rel_require_positive_float (a_rel_timestamp a) in
  let* tgs := _validate_triggers (a_triggers a) in
  RelationshipStateV1_init (rel_args (mkRel ts sv tr af te tgs)).

Definition RelationshipStateV1_neutral (ts : pyval)
  : result relationship_error RelationshipStateV1 :=
  RelationshipStateV1_create
    (mkRelArgs ts (PInt RELATIONSHIP_SCHEMA_VERSION) (PFloat 0.5) (PFloat 0.3) (PFloat 0) (PTuple [])).

Definition RelationshipStateV1_from_dict (data : pyval)
  : result relationship_error RelationshipStateV1 :=
  match data with
  | PDict d =>
      if has_unknown _RELATIONSHIP_FIELDS d then raise_rel
      else if negb (dhas d (u "schema_version")) then raise_rel
      else if has_missing (List.filter (fun f => negb (str_eqb f (u "schema_version")))
                             _RELATIONSHIP_FIELDS) d
      then raise_rel
      else RelationshipStateV1_create
        (mkRelArgs (dindex d (u "timestamp")) (dindex d (u "schema_version")) (dindex d (u "trust"))
           (dindex d (u "affection")) (dindex d (u "tension")) (dindex d (u "triggers")))
  | _ => raise_rel
  end.

Definition RelationshipStateV1_to_dict (s : RelationshipStateV1) : pydict :=
  [(KStr (u "schema_version"), PInt (rel_schema_version s));
   (KStr (u "trust"), PFloat (trust s));
   (KStr (u "affection"), PFloat (affection s));
   (KStr (u "tension"), PFloat (rel_tension s));
   (KStr (u "triggers"), PList (map PStr (triggers s)));
   (KStr (u "timestamp"), PFloat (rel_timestamp s))].

(** ** The bond label *)

Inductive BondLabel : Type :=
| EmConflito | Tenso | AlmaGemea | Intimos | Amigos | Desconfiada | Conhecidos.

#[export] Instance BondLabel_eq_dec : EqDecision BondLabel.
Proof. solve_decision. Defined.

Definition compute_bond_label (s : RelationshipStateV1) : BondLabel :=
  if 0.7 <? rel_tension s then EmConflito
  else if 0.4 <? rel_tension s then Tenso
  else if (0.8 <? trust s) && (0.8 <? affection s) then AlmaGemea
  else if (0.7 <? trust s) && (0.6 <? affection s) then Intimos
  else if (0.5 <? trust s) && (0.4 <? affection s) then Amigos
  else if trust s <? 0.3 then Desconfiada
  else Conhecidos.

(** ** Migration *)

Definition migrate_legacy_relationship_snapshot (payload : pyval)
  : result relationship_error RelationshipStateV1 :=
  match payload with
  | PDict data =>
      if (length data =? 0)%nat then raise_rel
      else if dhas data (u "last_interaction") && dhas data (u "timestamp") then raise_rel
      else
        match dget data (u "schema_version") with
        | Some sv =>
            match sv with
            | PNone => raise_rel
            | PInt z =>
                if negb (z =? RELATIONSHIP_SCHEMA_VERSION)%Z then raise_rel
                else if has_unknown _RELATIONSHIP_FIELDS data then raise_rel
                else if dhas data (u "last_interaction") then raise_rel
                else RelationshipStateV1_from_dict (PDict data)
            | _ => raise_rel
            end
        | None =>
            if has_unknown _LEGACY_ALLOWED_FIELDS data then raise_rel
            else if has_missing [u "trust"; u "affection"; u "tension"; u "triggers";
                                 u "last_interaction"] data then raise_rel
            else RelationshipStateV1_create
              (mkRelArgs (dindex data (u "last_interaction")) (PInt RELATIONSHIP_SCHEMA_VERSION)
                 (dindex data (u "trust")) (dindex data (u "affection"))
                 (dindex data (u "tension")) (dindex data (u "triggers")))
        end
  | _ => raise_rel
  end.

(** ** Transition configuration *)

Record rel_config_fields (A : Type) : Type := mkRelConfig {
  trust_positive_threshold : A;
  trust_positive_delta : A;
  trust_negative_threshold : A;
  trust_negative_delta : A;
  tenderness_threshold : A;
  tenderness_boost : A;
  joy_threshold : A;
  joy_boost : A;
  gratitude_threshold : A;
  gratitude_boost : A;
  anger_threshold : A;
  anger_spike : A;
  disgust_threshold : A;
  disgust_spike : A;
  tension_valence_threshold : A;
  tension_valence_spike : A;
  reconciliation_valence_threshold : A;
  reconciliation_delta : A }.
Arguments mkRelConfig {A}.
Arguments trust_positive_threshold {A}. Arguments trust_positive_delta {A}.
Arguments trust_negative_threshold {A}. Arguments trust_negative_delta {A}.
Arguments tenderness_threshold {A}. Arguments tenderness_boost {A}.
Arguments joy_threshold {A}. Arguments joy_boost {A}.
Arguments gratitude_threshold {A}. Arguments gratitude_boost {A}.
Arguments anger_threshold {A}. Arguments anger_spike {A}.
Arguments disgust_threshold {A}. Arguments disgust_spike {A}.
Arguments tension_valence_threshold {A}. Arguments tension_valence_spike {A}.
Arguments reconciliation_valence_threshold {A}. Arguments reconciliation_delta {A}.

(** As for the emotional configuration, the instance keeps the numbers as given. *)
Definition RelationshipTransitionConfig : Type := rel_config_fields pynum.

Definition _validate_config_float (raw : pyval) (lo hi : float) : result relationship_error unit :=
  match raw with
  | PBool _ => raise_rel
  | PInt _ | PFloat _ =>
      match num_to_float (to_num raw) with
      | None => raise_rel
      | Some f =>
          if negb (isfinite f) then raise_rel
          else if (f <? lo) || (hi <? f) then raise_rel
          else Ok tt
      end
  | _ => raise_rel
  end.

Definition rel_config_map {A B} (f : A -> B) (c : rel_config_fields A) : rel_config_fields B :=
  mkRelConfig (f (trust_positive_threshold c)) (f (trust_positive_delta c))
    (f (trust_negative_threshold c)) (f (trust_negative_delta c))
    (f (tenderness_threshold c)) (f (tenderness_boost c)) (f (joy_threshold c)) (f (joy_boost c))
    (f (gratitude_threshold c)) (f (gratitude_boost c)) (f (anger_threshold c)) (f (anger_spike c))
    (f (disgust_threshold c)) (f (disgust_spike c)) (f (tension_valence_threshold c))
    (f (tension_valence_spike c)) (f (reconciliation_valence_threshold c))
    (f (reconciliation_delta c)).

Definition RelationshipTransitionConfig_init (c : rel_config_fields pyval)
  : result relationship_error RelationshipTransitionConfig :=
  _validate_config_float (trust_positive_threshold c) (-1) 1 ;;;
  _validate_config_float (trust_positive_delta c) 0 1 ;;;
  _validate_config_float (trust_negative_threshold c) (-1) 1 ;;;
  _validate_config_float (trust_negative_delta c) (-1) 0 ;;;
  _validate_config_float (tenderness_threshold c) 0 1 ;;;
  _validate_config_float (tenderness_boost c) 0 1 ;;;
  _validate_config_float (joy_threshold c) 0 1 ;;;
  _validate_config_float (joy_boost c) 0 1 ;;;
  _validate_config_float (gratitude_threshold c) 0 1 ;;;
  _validate_config_float (gratitude_boost c) 0 1 ;;;
  _validate_config_float (anger_threshold c) 0 1 ;;;
  _validate_config_float (anger_spike c) 0 1 ;;;
  _validate_config_float (disgust_threshold c) 0 1 ;;;
  _validate_config_float (disgust_spike c) 0 1 ;;;
  _validate_config_float (tension_valence_threshold c) (-1) 1 ;;;
  _validate_config_float (tension_valence_spike c) 0 1 ;;;
  _validate_config_float (reconciliation_valence_threshold c) (-1) 1 ;;;
  _validate_config_float (reconciliation_delta c) 0 1 ;;;
  Ok (rel_config_map to_num c).

Definition rel_config_defaults : rel_config_fields pyval :=
  mkRelConfig (PFloat 0.2) (PFloat 0.02) (PFloat (-0.3)) (PFloat (-0.05)) (PFloat 0.3) (PFloat 0.03)
    (PFloat 0.3) (PFloat 0.01) (PFloat 0.3) (PFloat 0.02) (PFloat 0.3) (PFloat 0.1) (PFloat 0.3)
    (PFloat 0.1) (PFloat (-0.5)) (PFloat 0.05) (PFloat 0.3) (PFloat 0.1).

Definition RelationshipTransitionConfig_defaults : result relationship_error RelationshipTransitionConfig :=
  RelationshipTransitionConfig_init rel_config_defaults.

(** ** The transition *)

Definition rel_clamp (value lo hi : float) : float :=
  if value <? lo then lo else if hi <? value then hi else value.

(** [emotions.get(key, 0.0)]. *)
Definition get_emo (m : emotion_map) (k : pystr) : float :=
  match eget m k with Some f => f | None => 0 end.

(** [if cond: acc += n]. *)
Definition add_if (cond : bool) (acc : float) (n : pynum) : float :=
  if cond then acc + fl n else acc.

Definition transition_relationship (previous_state : RelationshipStateV1) (appraisal : AppraisalV1)
  (current_time : pyval) (config : RelationshipTransitionConfig)
  : result relationship_error RelationshipStateV1 :=
  let* validated_time := _require_current_time current_time in
  if validated_time <? rel_timestamp previous_state then raise_rel
  else
    let valence := valence_shift appraisal in
    let emotions := discrete_emotions appraisal in
    (* trust *)
    let trust_delta :=
      if fl (trust_positive_threshold config) <? valence then fl (trust_positive_delta config)
      else if valence <? fl (trust_negative_threshold config) then fl (trust_negative_delta config)
      else 0 in
    let new_trust := rel_clamp (trust previous_state + trust_delta) 0 1 in
    (* affection *)
    let affection_boost :=
      add_if (fl (gratitude_threshold config) <? get_emo emotions (u "gratitude"))
        (add_if (fl (joy_threshold config) <? get_emo emotions (u "joy"))
           (add_if (fl (tenderness_threshold config) <? get_emo emotions (u "tenderness"))
              0 (tenderness_boost config))
           (joy_boost config))
        (gratitude_boost config) in
    let new_affection := rel_clamp (affection previous_state + affection_boost) 0 1 in
    (* tension *)
    let tension_spike :=
      add_if (valence <? fl (tension_valence_threshold config))
        (add_if (fl (disgust_threshold config) <? get_emo emotions (u "disgust"))
           (add_if (fl (anger_threshold config) <? get_emo emotions (u "anger"))
              0 (anger_spike config))
           (disgust_spike config))
        (tension_valence_spike config) in
    let new_tension0 := rel_clamp (rel_tension previous_state + tension_spike) 0 1 in
    (* reconciliation *)
    let new_tension :=
      if (fl (reconciliation_valence_threshold config) <? valence) && (0 <? new_tension0)
      then rel_clamp (new_tension0 - fl (reconciliation_delta config)) 0 1
      else new_tension0 in
    RelationshipStateV1_create
      (mkRelArgs (PFloat validated_time) (PInt RELATIONSHIP_SCHEMA_VERSION) (PFloat new_trust)
         (PFloat new_affection) (PFloat new_tension) (PTuple (map PStr (triggers previous_state)))).

(** ** Invariants *)

Definition trigger_ok (t : pystr) : Prop :=
  strip t = t /\ t <> [] /\ length t <= 128.

Definition triggers_wf (l : list pystr) : Prop :=
  length l <= 32 /\ NoDup l /\ Forall trigger_ok l.

Definition rel_wf (s : RelationshipStateV1) : Prop :=
  rel_schema_version s = RELATIONSHIP_SCHEMA_VERSION
  /\ in_range 0 1 (trust s) = true /\ in_range 0 1 (affection s) = true
  /\ in_range 0 1 (rel_tension s) = true
  /\ (isfinite (rel_timestamp s) && (0 <? rel_timestamp s) = true)
  /\ triggers_wf (triggers s).

(** The arguments [a] state the snapshot [s]. *)
Definition rel_denote (a : RelArgs) (s : RelationshipStateV1) : Prop :=
  a_rel_schema_version a = PInt (rel_schema_version s)
  /\ as_float (a_trust a) = Some (trust s) /\ as_float (a_affection a) = Some (affection s)
  /\ as_float (a_rel_tension a) = Some (rel_tension s)
  /\ as_float (a_rel_timestamp a) = Some (rel_timestamp s)
  /\ _validate_triggers (a_triggers a) = Ok (triggers s).

(** ** The validators are those of the emotional domain with another exception *)

Definition as_rel {A} (c : result domain_error A) : result relationship_error A :=
  rcatch c (fun _ => raise_rel).

Lemma as_rel_ok {A} (c : result domain_error A) a : as_rel c = Ok a <-> c = Ok a.
Proof. destruct c; cbn; naive_solver. Qed.

Lemma rel_finite_as v : rel_require_finite_float v = as_rel (_require_finite_float v).
Proof.
  destruct v; cbn; try done; [destruct (int_to_float z); [|done]|]; by destruct (isfinite _).
Qed.

Lemma rel_range_as v lo hi :
  rel_require_finite_float_in_range v lo hi = as_rel (_require_finite_float_in_range v lo hi).
Proof.
  unfold rel_require_finite_float_in_range, _require_finite_float_in_range. rewrite rel_finite_as.
  destruct (_require_finite_float v); cbn; [|done].
  unfold rel_require_range, _require_range. by destruct (_ || _).
Qed.

Lemma rel_positive_as v : rel_require_positive_float v = as_rel (_require_positive_float v).
Proof.
  unfold rel_require_positive_float, _require_positive_float. rewrite rel_finite_as.
  destruct (_require_finite_float v); cbn; [|done]. by destruct (_ <=? _).
Qed.

Lemma rel_schema_as v : rel_require_schema_version v = as_rel (_require_schema_version v).
Proof. destruct v; cbn; try done. by destruct (negb _). Qed.

Lemma rel_time_as v : _require_current_time v = as_rel (_validate_current_time v).
Proof.
  destruct v; cbn; try done; [destruct (int_to_float z); [|done]|];
    (destruct (isfinite _); [|done]; cbn; by destruct (_ <=? _)).
Qed.

(** ** Triggers *)

Lemma validate_trigger_spec res item res' :
  validate_trigger res item = Ok res' ->
  NoDup res -> Forall trigger_ok res -> NoDup res' /\ Forall trigger_ok res' /\ length res' <= S (length res).
Proof.
  destruct item; try done. cbn [validate_trigger]. destruct (strip s) as [|c t] eqn:S; [done|].
  intros H Hn Hf. destruct (_ <? _)%nat eqn:L in H; [done|]. apply Nat.ltb_ge in L.
  destruct (str_in (c :: t) res) eqn:K; inv_ok; [split; [done|split; [done|lia]]|].
  split; [|split].
  - apply NoDup_app. split; [done|]. split; [|apply NoDup_singleton].
    intros x Hx ->%list_elem_of_singleton. apply str_in_elem in Hx. congruence.
  - apply Forall_app. split; [done|]. apply Forall_singleton. rewrite <- S.
    split; [apply strip_idem|]. rewrite S. split; [done|exact L].
  - rewrite length_app. cbn. lia.
Qed.

Lemma validate_triggers_fold l res res' :
  rfold validate_trigger res l = Ok res' ->
  NoDup res -> Forall trigger_ok res ->
  NoDup res' /\ Forall trigger_ok res' /\ length res' <= length res + length l.
Proof.
  revert res. induction l as [|x l IH]; intros res H Hn Hf; cbn [rfold] in H; inv_ok.
  - cbn. split; [done|]. split; [done|lia].
  - apply validate_trigger_spec in E as (N1 & F1 & L1); [|done..].
    apply IH in H as (N2 & F2 & L2); [|done..]. cbn. split; [done|]. split; [done|lia].
Qed.

Lemma validate_triggers_wf v ts : _validate_triggers v = Ok ts -> triggers_wf ts.
Proof.
  assert (forall l, validate_trigger_items l = Ok ts -> triggers_wf ts) as K.
  { intros l. unfold validate_trigger_items. intros H. inv_ok. apply Nat.ltb_ge in G.
    apply validate_triggers_fold in H as (N & F & L); [|apply NoDup_nil_2|by apply Forall_nil].
    unfold triggers_wf. cbn in L. split; [lia|done]. }
  destruct v; try done; apply K.
Qed.

Lemma validate_triggers_app res l :
  NoDup (res ++ l) -> Forall trigger_ok l -> rfold validate_trigger res (map PStr l) = Ok (res ++ l).
Proof.
  revert res. induction l as [|t l IH]; intros res Hn Hf; cbn [map rfold]; [by rewrite app_nil_r|].
  apply Forall_cons in Hf as [(S & Ne & L) Hf]. cbn [validate_trigger]. rewrite S.
  destruct t as [|c t]; [done|].
  assert ((128 <? length (c :: t))%nat = false) as -> by by apply Nat.ltb_ge.
  assert (str_in (c :: t) res = false) as ->.
  { destruct (str_in (c :: t) res) eqn:K; [|done]. apply str_in_elem in K.
    apply NoDup_app in Hn as (_ & Hn & _). destruct (Hn _ K). set_solver. }
  cbn [rbind]. rewrite IH; [by rewrite <- app_assoc|by rewrite <- app_assoc|done].
Qed.

Lemma validate_triggers_self ts :
  triggers_wf ts -> validate_trigger_items (map PStr ts) = Ok ts.
Proof.
  intros (L & N & F). unfold validate_trigger_items. rewrite length_map.
  assert ((32 <? length ts)%nat = false) as -> by by apply Nat.ltb_ge.
  by apply (validate_triggers_app []).
Qed.

(** ** Construction *)

Lemma rel_init_iff a s : RelationshipStateV1_init a = Ok s <-> rel_denote a s /\ rel_wf s.
Proof.
  unfold RelationshipStateV1_init, rel_denote, rel_wf.
  rewrite rel_schema_as, !rel_range_as, rel_positive_as. split.
  - intros H. inv_ok.
    repeat match goal with K : as_rel _ = Ok _ |- _ => apply as_rel_ok in K end. ok_specs.
    pose proof (validate_triggers_wf _ _ E4). cbn. rewrite <- Z.eqb_eq. tauto.
  - intros [(H1 & H2 & H3 & H4 & H5 & H6) (W1 & W2 & W3 & W4 & W5 & W6)].
    destruct s as [ts sv tr af te tg]. cbn in * |-. apply Z.eqb_eq in W1.
    cbn [rel_timestamp rel_schema_version trust affection rel_tension triggers] in *.
    ok_steps. cbn [as_rel rcatch rbind]. ok_steps. cbn [as_rel rcatch rbind]. ok_steps.
    cbn [as_rel rcatch rbind]. ok_steps. cbn [as_rel rcatch rbind]. ok_steps.
    cbn [as_rel rcatch rbind]. by rewrite H6.
Qed.

Lemma rel_args_denote s : rel_wf s -> rel_denote (rel_args s) s.
Proof.
  intros (W1 & W2 & W3 & W4 & W5 & W6). apply andb_true_iff in W5 as [W5 _].
  unfold rel_denote. cbn [rel_args a_rel_timestamp a_rel_schema_version a_trust a_affection
    a_rel_tension a_triggers _validate_triggers].
  rewrite validate_triggers_self by done. repeat split; eauto with katherine.
Qed.

Lemma rel_create_iff a s : RelationshipStateV1_create a = Ok s <-> rel_denote a s /\ rel_wf s.
Proof.
  assert (RelationshipStateV1_create a =
    let* t := RelationshipStateV1_init a in RelationshipStateV1_init (rel_args t)) as ->.
  { unfold RelationshipStateV1_create, RelationshipStateV1_init at 2.
    repeat (match goal with |- rbind ?c _ = _ => destruct c; cbn [rbind]; [|done] end). done. }
  split.
  - intros H. inv_ok. apply rel_init_iff in E as [D W].
    rewrite (proj2 (rel_init_iff (rel_args v) v)) in H by auto using rel_args_denote. by inv_ok.
  - intros [D W]. rewrite (proj2 (rel_init_iff a s)) by done. cbn [rbind].
    apply rel_init_iff. auto using rel_args_denote.
Qed.

Lemma rel_create_self s : rel_wf s -> RelationshipStateV1_create (rel_args s) = Ok s.
Proof. intros W. apply rel_create_iff. auto using rel_args_denote. Qed.

Lemma rel_from_dict_wf v s : RelationshipStateV1_from_dict v = Ok s -> rel_wf s.
Proof.
  destruct v; try done. cbn [RelationshipStateV1_from_dict]. intros H. inv_ok.
  by apply rel_create_iff in H as [_ W].
Qed.

Lemma rel_from_dict_to_dict s :
  rel_wf s -> RelationshipStateV1_from_dict (PDict (RelationshipStateV1_to_dict s)) = Ok s.
Proof.
  intros W. etransitivity; [|by apply rel_create_self].
  unfold RelationshipStateV1_create. reflexivity.
Qed.

Lemma rel_migrate_wf v s : migrate_legacy_relationship_snapshot v = Ok s -> rel_wf s.
Proof.
  destruct v; try done. cbn [migrate_legacy_relationship_snapshot]. intros H.
  repeat case_match; try done; [by eapply rel_from_dict_wf|].
  by apply rel_create_iff in H as [_ W].
Qed.

Lemma rel_last_interaction_unknown (d : pydict) :
  dhas d (u "last_interaction") = true -> has_unknown _RELATIONSHIP_FIELDS d = true.
Proof.
  intros [v Hv%dget_elem]%dhas_dget. destruct (has_unknown _ d) eqn:U; [done|].
  destruct (proj1 (has_unknown_false _ _) U _ _ Hv) as (s & [= <-] & Hs).
  apply str_in_elem in Hs. by vm_compute in Hs.
Qed.

Lemma rel_migrate_v1 d v :
  dget d (u "schema_version") = Some v ->
  migrate_legacy_relationship_snapshot (PDict d) = RelationshipStateV1_from_dict (PDict d).
Proof.
  intros Hv. cbn [migrate_legacy_relationship_snapshot]. rewrite Hv.
  assert ((length d =? 0)%nat = false) as -> by (by destruct d).
  destruct (RelationshipStateV1_from_dict (PDict d)) as [s|[]] eqn:F.
  - cbn [RelationshipStateV1_from_dict] in F. inv_ok. apply rel_create_iff in F as [D W].
    assert (dhas d (u "last_interaction") = false) as ->.
    { destruct (dhas d (u "last_interaction")) eqn:L; [|done].
      by rewrite rel_last_interaction_unknown in G. }
    cbn [andb]. destruct D as (Hz & _). cbn [a_rel_schema_version] in Hz.
    unfold dindex in Hz. rewrite Hv in Hz. subst v. destruct W as (-> & _).
    by rewrite Z.eqb_refl.
  - by repeat case_match.
Qed.

(** ** Configuration *)

Record rel_config_wf (c : RelationshipTransitionConfig) : Prop := {
  rwf_trust_pos : in_range 0 1 (fl (trust_positive_delta c)) = true;
  rwf_trust_neg : in_range (-1) 0 (fl (trust_negative_delta c)) = true;
  rwf_tenderness : in_range 0 1 (fl (tenderness_boost c)) = true;
  rwf_joy : in_range 0 1 (fl (joy_boost c)) = true;
  rwf_gratitude : in_range 0 1 (fl (gratitude_boost c)) = true;
  rwf_anger : in_range 0 1 (fl (anger_spike c)) = true;
  rwf_disgust : in_range 0 1 (fl (disgust_spike c)) = true;
  rwf_tension_valence : in_range 0 1 (fl (tension_valence_spike c)) = true;
  rwf_reconciliation : in_range 0 1 (fl (reconciliation_delta c)) = true }.

Lemma validate_config_float_ok raw lo hi :
  nan lo = false -> nan hi = false ->
  _validate_config_float raw lo hi = Ok tt -> in_range lo hi (fl (to_num raw)) = true.
Proof.
  intros Nl Nh H. assert (exists f, _require_finite_float_in_range raw lo hi = Ok f) as [f F].
  { unfold _require_finite_float_in_range, _require_range.
    destruct raw; cbn in *; try done; [destruct (int_to_float z) as [g|]; [|done]|];
      (destruct (isfinite _); [|done]; cbn in *; destruct (_ || _); [done|eauto]). }
  apply require_range_iff in F as [A R]; [|done..]. by rewrite (as_float_fl _ _ A).
Qed.

Lemma rel_config_init_wf c cfg : RelationshipTransitionConfig_init c = Ok cfg -> rel_config_wf cfg.
Proof.
  unfold RelationshipTransitionConfig_init. intros H. inv_ok. cbn [rbind] in *.
  repeat match goal with
  | x : unit |- _ => destruct x
  | K : _validate_config_float _ _ _ = Ok _ |- _ => apply validate_config_float_ok in K; [|reflexivity..]
  end.
  by constructor.
Qed.

(** ** Rounded arithmetic on metrics *)

Lemma rel_clamp_eq v lo hi : rel_clamp v lo hi = _clamp v lo hi.
Proof. reflexivity. Qed.

(** A sum of at most three amounts of [0, 1] is a finite non-negative number
    of at most 3. *)
Definition amount (k : Z) (f : float) : Prop :=
  isfinite f = true /\ (0 <= fval f <= k * fval 1)%Z.

Lemma amount_unit f : in_range 0 1 f = true -> amount 1 f.
Proof. intros H. split; [eauto with katherine|]. apply in_unit_fval in H. lia. Qed.

Lemma amount_add k x y (v : float) :
  amount k x -> in_range 0 1 y = true -> isfinite v = true -> fval v = ((k + 1) * fval 1)%Z ->
  amount (k + 1) (x + y) /\ (fval x <= fval (x + y))%Z.
Proof.
  intros [Fx Bx] [Fy By]%amount_unit Fv Hv.
  destruct (fadd_bound x y v) as (F & B & S & _); [done..|lia|].
  split; [split; [done|]; specialize (S ltac:(lia)); lia|]. apply fadd_ge; [done..|lia|lia].
Qed.

Lemma add_if_amount k b x n (v : float) :
  amount k x -> in_range 0 1 (fl n) = true -> isfinite v = true -> fval v = ((k + 1) * fval 1)%Z ->
  amount (k + 1) (add_if b x n).
Proof.
  intros Hx Hn Fv Hv. unfold add_if. destruct b; [by eapply amount_add|].
  destruct Hx as [F B]. split; [done|]. assert (0 < fval 1)%Z by done. lia.
Qed.

Lemma add_ifs_amount b1 b2 b3 n1 n2 n3 :
  in_range 0 1 (fl n1) = true -> in_range 0 1 (fl n2) = true -> in_range 0 1 (fl n3) = true ->
  amount 3 (add_if b3 (add_if b2 (add_if b1 0 n1) n2) n3).
Proof.
  intros H1 H2 H3. assert (amount 0 0) as H0 by by vm_compute.
  eapply (add_if_amount 2 _ _ _ 3); [|done|done|by vm_compute].
  eapply (add_if_amount 1 _ _ _ 2); [|done|done|by vm_compute].
  by eapply (add_if_amount 0 _ _ _ 1); [| | |by vm_compute].
Qed.

(** Raising a metric by a non-negative amount never lowers it. *)
Lemma raise_metric x b :
  in_range 0 1 x = true -> amount 3 b ->
  in_range 0 1 (rel_clamp (x + b) 0 1) = true /\ (x <=? rel_clamp (x + b) 0 1) = true.
Proof.
  intros Hx [Fb Bb]. pose proof (in_unit_fval _ Hx) as Bx.
  assert (isfinite x = true) as Fx by eauto with katherine.
  destruct (fadd_bound x b 4) as (F & B & S & _); [done|done|reflexivity|rewrite fval_4; lia|].
  assert (in_range 0 1 (rel_clamp (x + b) 0 1) = true) as R
    by (rewrite rel_clamp_eq; apply clamp_range; auto using isfinite_not_nan).
  split; [done|]. rewrite leb_fval by eauto with katherine. apply Z.leb_le.
  assert (fval x <= fval (x + b))%Z as G by (apply fadd_ge; [done..|lia|lia]).
  unfold rel_clamp. destruct (x + b <? 0) eqn:L1.
  - apply ltb_leb in L1. rewrite leb_fval in L1 by done. apply Z.leb_le in L1. rewrite fval_0 in *. lia.
  - destruct (1 <? x + b); lia.
Qed.

(** Lowering it never raises it. *)
Lemma lower_metric x d :
  in_range 0 1 x = true -> isfinite d = true -> (- fval 1 <= fval d <= 0)%Z ->
  in_range 0 1 (rel_clamp (x + d) 0 1) = true /\ (rel_clamp (x + d) 0 1 <=? x) = true.
Proof.
  intros Hx Fd Bd. pose proof (in_unit_fval _ Hx) as Bx.
  assert (isfinite x = true) as Fx by eauto with katherine.
  destruct (fadd_bound x d 4) as (F & _ & _ & _); [done|done|reflexivity|rewrite fval_4; lia|].
  assert (fval (x + d) <= fval x)%Z as G.
  { destruct (Z.le_gt_cases (fval x + fval d) 0) as [N|N].
    - destruct (fadd_bound x d 4) as (_ & _ & _ & S); [done|done|reflexivity|rewrite fval_4; lia|].
      specialize (S N). lia.
    - destruct (fadd_bound x d x) as (_ & B & _ & _); [done..|lia|]. lia. }
  assert (in_range 0 1 (rel_clamp (x + d) 0 1) = true) as R
    by (rewrite rel_clamp_eq; apply clamp_range; auto using isfinite_not_nan).
  split; [done|]. rewrite leb_fval by eauto with katherine. apply Z.leb_le.
  unfold rel_clamp. destruct (x + d <? 0) eqn:L1; [rewrite fval_0; lia|].
  destruct (1 <? x + d) eqn:L2; [|done].
  apply ltb_leb in L2. rewrite leb_fval in L2 by done. apply Z.leb_le in L2. lia.
Qed.

(** ** The transition, metric by metric *)

Section Metrics.
Context (s : RelationshipStateV1) (a : AppraisalV1) (c : RelationshipTransitionConfig).

Definition rt_trust : float :=
  rel_clamp (trust s +
    (if fl (trust_positive_threshold c) <? valence_shift a then fl (trust_positive_delta c)
     else if valence_shift a <? fl (trust_negative_threshold c) then fl (trust_negative_delta c)
     else 0)) 0 1.
Definition rt_affection : float :=
  rel_clamp (affection s +
    add_if (fl (gratitude_threshold c) <? get_emo (discrete_emotions a) (u "gratitude"))
      (add_if (fl (joy_threshold c) <? get_emo (discrete_emotions a) (u "joy"))
         (add_if (fl (tenderness_threshold c) <? get_emo (discrete_emotions a) (u "tenderness"))
            0 (tenderness_boost c))
         (joy_boost c))
      (gratitude_boost c)) 0 1.
Definition rt_tension0 : float :=
  rel_clamp (rel_tension s +
    add_if (valence_shift a <? fl (tension_valence_threshold c))
      (add_if (fl (disgust_threshold c) <? get_emo (discrete_emotions a) (u "disgust"))
         (add_if (fl (anger_threshold c) <? get_emo (discrete_emotions a) (u "anger"))
            0 (anger_spike c))
         (disgust_spike c))
      (tension_valence_spike c)) 0 1.
Definition rt_tension : float :=
  if (fl (reconciliation_valence_threshold c) <? valence_shift a) && (0 <? rt_tension0)
  then rel_clamp (rt_tension0 - fl (reconciliation_delta c)) 0 1 else rt_tension0.

Definition rt_result (t : float) : RelationshipStateV1 :=
  mkRel t RELATIONSHIP_SCHEMA_VERSION rt_trust rt_affection rt_tension (triggers s).

Hypothesis Ws : rel_wf s.
Hypothesis Wc : rel_config_wf c.

Lemma zero_amount : amount 3 0. Proof. by vm_compute. Qed.
Lemma zero_lower : isfinite 0 = true /\ (- fval 1 <= fval 0 <= 0)%Z.
Proof. by vm_compute. Qed.

Lemma trust_neg_lower : isfinite (fl (trust_negative_delta c)) = true
  /\ (- fval 1 <= fval (fl (trust_negative_delta c)) <= 0)%Z.
Proof.
  pose proof (rwf_trust_neg c Wc) as R.
  assert (isfinite (fl (trust_negative_delta c)) = true) as F by by apply (in_range_isfinite (-1) 0).
  apply in_range_fval in R; [|done..]. rewrite fval_m1, fval_0 in R. done.
Qed.

Lemma unit_amount3 f : in_range 0 1 f = true -> amount 3 f.
Proof. intros [F B]%amount_unit. split; [done|]. assert (0 < fval 1)%Z by done. lia. Qed.

Lemma rt_trust_spec :
  in_range 0 1 rt_trust = true
  /\ ((fl (trust_positive_threshold c) <? valence_shift a)
      || negb (valence_shift a <? fl (trust_negative_threshold c)) = true -> (trust s <=? rt_trust) = true)
  /\ ((fl (trust_positive_threshold c) <? valence_shift a) = false -> (rt_trust <=? trust s) = true).
Proof.
  destruct Ws as (_ & Wt & _). unfold rt_trust.
  destruct (fl (trust_positive_threshold c) <? valence_shift a).
  - destruct (raise_metric (trust s) _ Wt (unit_amount3 _ (rwf_trust_pos c Wc))). done.
  - destruct (valence_shift a <? fl (trust_negative_threshold c)).
    + destruct trust_neg_lower as [F B]. destruct (lower_metric (trust s) _ Wt F B). done.
    + destruct (raise_metric (trust s) _ Wt zero_amount) as [R1 R2], zero_lower as [F B].
      destruct (lower_metric (trust s) _ Wt F B). done.
Qed.

Lemma rt_affection_spec :
  in_range 0 1 rt_affection = true /\ (affection s <=? rt_affection) = true.
Proof.
  destruct Ws as (_ & _ & Wa & _). apply raise_metric; [done|]. by apply add_ifs_amount; apply Wc.
Qed.

Lemma rt_tension0_spec :
  in_range 0 1 rt_tension0 = true /\ (rel_tension s <=? rt_tension0) = true
  /\ ((valence_shift a <? fl (tension_valence_threshold c))
      || (fl (disgust_threshold c) <? get_emo (discrete_emotions a) (u "disgust"))
      || (fl (anger_threshold c) <? get_emo (discrete_emotions a) (u "anger")) = false ->
      (rt_tension0 <=? rel_tension s) = true).
Proof.
  destruct Ws as (_ & _ & _ & Wt & _).
  destruct (raise_metric (rel_tension s) (add_if (valence_shift a <? fl (tension_valence_threshold c))
      (add_if (fl (disgust_threshold c) <? get_emo (discrete_emotions a) (u "disgust"))
         (add_if (fl (anger_threshold c) <? get_emo (discrete_emotions a) (u "anger"))
            0 (anger_spike c)) (disgust_spike c)) (tension_valence_spike c))) as [R U];
    [done|by apply add_ifs_amount; apply Wc|].
  split; [exact R|]. split; [exact U|].
  rewrite !orb_false_iff. intros [[H1 H2] H3]. unfold rt_tension0. rewrite H1, H2, H3.
  cbn [add_if]. destruct zero_lower as [F B]. by apply lower_metric.
Qed.

Lemma rt_tension_spec :
  in_range 0 1 rt_tension = true
  /\ ((fl (reconciliation_valence_threshold c) <? valence_shift a) = false ->
      (rel_tension s <=? rt_tension) = true)
  /\ ((valence_shift a <? fl (tension_valence_threshold c))
      || (fl (disgust_threshold c) <? get_emo (discrete_emotions a) (u "disgust"))
      || (fl (anger_threshold c) <? get_emo (discrete_emotions a) (u "anger")) = false ->
      (rt_tension <=? rel_tension s) = true).
Proof.
  destruct rt_tension0_spec as (R & U & D). unfold rt_tension.
  destruct (fl (reconciliation_valence_threshold c) <? valence_shift a); cbn [andb]; [|done].
  destruct (0 <? rt_tension0); [|done]. rewrite sub_opp.
  pose proof (rwf_reconciliation c Wc) as [F B]%amount_unit.
  destruct (lower_metric rt_tension0 (- fl (reconciliation_delta c)) R) as [R1 R2];
    [by rewrite isfinite_opp|rewrite fval_opp; lia|].
  split; [done|]. split; [done|]. intros H. by eapply leb_trans, D.
Qed.

Lemma rt_result_wf t : isfinite t = true -> (0 <? t) = true -> rel_wf (rt_result t).
Proof.
  intros Ft Pt. destruct rt_trust_spec as [R1 _], rt_affection_spec as [R2 _], rt_tension_spec as [R3 _].
  destruct Ws as (_ & _ & _ & _ & _ & Wg). unfold rel_wf. cbn. by rewrite Ft, Pt.
Qed.

Lemma rel_transition_ok ct :
  transition_relationship s a ct c =
    match as_float ct with
    | Some t => if (0 <? t) && (rel_timestamp s <=? t) then Ok (rt_result t) else raise_rel
    | None => raise_rel
    end.
Proof.
  unfold transition_relationship. rewrite rel_time_as, current_time_ok.
  destruct (as_float ct) as [t|] eqn:T; [|done]. pose proof (as_float_finite _ _ T) as Ft.
  destruct (0 <? t) eqn:Pt; cbn [as_rel rcatch rbind andb]; [|done].
  destruct Ws as (_ & _ & _ & _ & W5 & _). apply andb_true_iff in W5 as [Fs _].
  destruct (t <? rel_timestamp s) eqn:L; [by rewrite (ltb_leb_false _ _ L)|].
  rewrite (ltb_false_leb _ _ (isfinite_not_nan _ Ft) (isfinite_not_nan _ Fs) L).
  exact (rel_create_self (rt_result t) (rt_result_wf t Ft Pt)).
Qed.

End Metrics.

(** ** Properties *)

(** Every relationship snapshot is valid, whatever path built it (the
    constructor, [create], [from_dict], [neutral], the migration): metrics in
    [0, 1], a positive finite timestamp, version 1, and at most 32 distinct
    triggers, each trimmed, non-empty and of at most 128 characters; [to_dict]
    followed by [from_dict] or by the migration gives the snapshot back. *)
Theorem RelationshipStateV1_always_valid :
  (forall a s, RelationshipStateV1_init a = Ok s -> rel_wf s)
  /\ (forall a s, RelationshipStateV1_create a = Ok s <-> rel_denote a s /\ rel_wf s)
  /\ (forall v s, RelationshipStateV1_from_dict v = Ok s -> rel_wf s)
  /\ (forall v s, RelationshipStateV1_neutral v = Ok s -> rel_wf s)
  /\ (forall v s, migrate_legacy_relationship_snapshot v = Ok s -> rel_wf s)
  /\ (forall s, rel_wf s ->
        RelationshipStateV1_from_dict (PDict (RelationshipStateV1_to_dict s)) = Ok s
        /\ migrate_legacy_relationship_snapshot (PDict (RelationshipStateV1_to_dict s)) = Ok s).
Proof.
  split; [by intros a s [_ W]%rel_init_iff|]. split; [exact rel_create_iff|].
  split; [exact rel_from_dict_wf|]. split; [by intros v s [_ W]%rel_create_iff|].
  split; [exact rel_migrate_wf|]. intros s W. split; [by apply rel_from_dict_to_dict|].
  rewrite (rel_migrate_v1 _ (PInt (rel_schema_version s))) by reflexivity.
  by apply rel_from_dict_to_dict.
Qed.

(** The relationship transition returns exactly when the clock reading is a
    positive finite number not earlier than the stored timestamp (a regressed
    clock raises); the new snapshot is valid, carries the reading and keeps the
    triggers.  Its metrics move only the way the appraisal says: affection never
    falls; trust does not fall unless the valence is below the negative threshold
    and does not rise unless it is above the positive one; tension does not rise
    without anger, disgust or a strongly negative valence and does not fall
    without a reconciling valence. *)
Theorem transition_relationship_spec : forall s a ct c,
  rel_wf s -> rel_config_wf c ->
  ((exists s', transition_relationship s a ct c = Ok s') <->
     exists t, as_float ct = Some t /\ (0 <? t) = true /\ (rel_timestamp s <=? t) = true)
  /\ (forall s', transition_relationship s a ct c = Ok s' ->
        rel_wf s' /\ as_float ct = Some (rel_timestamp s') /\ triggers s' = triggers s
        /\ (affection s <=? affection s') = true
        /\ ((fl (trust_positive_threshold c) <? valence_shift a)
            || negb (valence_shift a <? fl (trust_negative_threshold c)) = true ->
            (trust s <=? trust s') = true)
        /\ ((fl (trust_positive_threshold c) <? valence_shift a) = false ->
            (trust s' <=? trust s) = true)
        /\ ((fl (reconciliation_valence_threshold c) <? valence_shift a) = false ->
            (rel_tension s <=? rel_tension s') = true)
        /\ ((valence_shift a <? fl (tension_valence_threshold c))
            || (fl (disgust_threshold c) <? get_emo (discrete_emotions a) (u "disgust"))
            || (fl (anger_threshold c) <? get_emo (discrete_emotions a) (u "anger")) = false ->
            (rel_tension s' <=? rel_tension s) = true)).
Proof.
  intros s a ct c Ws Wc. rewrite (rel_transition_ok s a c Ws Wc).
  destruct (as_float ct) as [t|] eqn:T; [|split; [split; [by intros [? ?]|by intros (? & ? & _)]|done]].
  split.
  - destruct ((0 <? t) && (rel_timestamp s <=? t)) eqn:B; (split; [intros [s' H]|intros (t' & [= <-] & P & L)]).
    + apply andb_true_iff in B. by exists t.
    + by eexists.
    + done.
    + by rewrite P, L in B.
  - destruct ((0 <? t) && (rel_timestamp s <=? t)) eqn:B; [|done]. intros s' [= <-].
    apply andb_true_iff in B as [P _]. split; [apply rt_result_wf; eauto using as_float_finite|].
    pose proof (rt_trust_spec s a c Ws Wc) as (_ & T1 & T2).
    pose proof (rt_tension_spec s a c Ws Wc) as (_ & N1 & N2).
    pose proof (rt_affection_spec s a c Ws Wc) as [_ A1]. done.
Qed.

Definition sample_rel : RelationshipStateV1 := mkRel 1000 1 0.5 0.3 0.2 [u "rain"].
Definition default_rel_config : RelationshipTransitionConfig := rel_config_map to_num rel_config_defaults.

Lemma default_rel_config_ok : RelationshipTransitionConfig_defaults = Ok default_rel_config.
Proof. vm_compute. reflexivity. Qed.

Lemma sample_rel_wf : rel_wf sample_rel.
Proof.
  apply (rel_from_dict_wf (PDict (RelationshipStateV1_to_dict sample_rel))). vm_compute. reflexivity.
Qed.

Lemma transition_relationship_spec_witness :
  exists s', transition_relationship sample_rel sample_appraisal (PInt 1200) default_rel_config = Ok s'
    /\ (trust s' <=? trust sample_rel) = true /\ triggers s' = [u "rain"].
Proof.
  destruct (transition_relationship_spec sample_rel sample_appraisal (PInt 1200) default_rel_config
    sample_rel_wf (rel_config_init_wf _ _ default_rel_config_ok)) as [[_ E] S].
  destruct E as [s' E]; [exists 1200; split; [|split]; vm_compute; reflexivity|].
  exists s'. split; [exact E|]. destruct (S s' E) as (_ & _ & T & _ & _ & D & _).
  split; [|exact T]. apply D. vm_compute. reflexivity.
Defined.

(** A clock that runs backwards makes the two domains disagree: the
    emotional transition accepts a reading earlier than the stored timestamp,
    the relationship transition refuses the same reading. *)
Theorem regressed_clock_divergence : forall (L : Libm) (HL : LibmLaws) s r a t c rc,
  state_wf s = true -> rel_wf r -> appraisal_wf a -> config_wf c -> rel_config_wf rc ->
  isfinite t = true -> (0 <? t) = true ->
  (t <? timestamp s) = true -> rel_timestamp r = timestamp s ->
  (exists x, transition s a (PFloat t) c = Ok x /\ timestamp (tr_state x) = timestamp s)
  /\ transition_relationship r a (PFloat t) rc = raise_rel.
Proof.
  intros L HL s r a t c rc Ws Wr Wa Wc Wrc Ft Pt Lt E. split.
  - eexists. split; [apply (transition_ok s a (PFloat t) t c); [done..|]|].
    + rewrite current_time_ok, (as_float_PFloat t Ft). by rewrite Pt.
    + cbn. unfold tr_timestamp. by rewrite Lt.
  - rewrite rel_transition_ok by done. rewrite (as_float_PFloat t Ft), E.
    by rewrite (ltb_leb_false _ _ Lt), andb_false_r.
Qed.

Lemma regressed_clock_divergence_witness :
  transition_relationship sample_rel sample_appraisal (PFloat 999) default_rel_config = raise_rel.
Proof.
  refine (proj2 (@regressed_clock_divergence coarse_pow coarse_pow_laws sample_state sample_rel
    sample_appraisal 999 default_config default_rel_config _ _ _ _ _ _ _ _ _)); try reflexivity.
  - exact sample_rel_wf.
  - exact sample_appraisal_wf.
  - exact (config_init_wf _ _ default_config_ok).
  - exact (rel_config_init_wf _ _ default_rel_config_ok).
Defined.
