(* ===== verification/EmotionPresentation.v ===== *)
(** * Public emotion presentation (backend/emotion_presentation.py)

    The DTO models with the validators the source declares on their fields, the
    shared mood classifier and the projection of a domain state and an
    appraisal.  [pydantic] runs the validators of every field before it raises,
    and only a [ValueError] becomes its [ValidationError]: an [OverflowError]
    of [float(value)] escapes first ([both]). *)

From Stdlib Require Import Sorted Floats.
From S2P Require Import Prelude PyFloat FloatRound PyValue Json EmotionalModels.
Local Open Scope float_scope.

Inductive presentation_exn : Type :=
| PydanticError          (** [pydantic.ValidationError] *)
| FloatOverflow          (** [OverflowError] from [float(value)] *)
| PresentationError
| PresentationTypeError.

(** Two fields of a model, validated in turn. *)
Definition both {A B} (a : result presentation_exn A) (b : result presentation_exn B)
  : result presentation_exn (A * B) :=
  match a, b with
  | Ok x, Ok y => Ok (x, y)
  | Ok _, Err e => Err e
  | Err FloatOverflow, _ => Err FloatOverflow
  | Err _, Err FloatOverflow => Err FloatOverflow
  | Err e, _ => Err e
  end.

Definition PUBLIC_EMOTION_SCHEMA_VERSION : Z := 1.

(** ** Mood classification *)

Definition classify_pad_mood (pleasure arousal dominance : float) : pystr :=
  if 0.5 <? arousal then
    if 0.5 <? pleasure then
      if 0.3 <? dominance then u "EXTASE/DOMINANTE"
      else if dominance <? -0.3 then u "ENCANTADA"
      else u "ALEGRE/EXCITADA"
    else if pleasure <? -0.5 then
      if 0.3 <? dominance then u "FURIA/ODIO"
      else if dominance <? -0.3 then u "TERROR/PANICO"
      else u "ESTRESSE/AGONIA"
    else u "NEUTRA"
  else
    if 0.5 <? pleasure then u "RELAXADA/SATISFEITA"
    else if pleasure <? -0.5 then
      if 0.3 <? dominance then u "DESPREZO/FRIO"
      else if dominance <? -0.3 then u "DEPRESSAO/TRISTEZA"
      else u "TEDIO"
    else u "NEUTRA".

(** ** The DTO models *)

(** The [mode="before"] validators: a finite [int] or [float], not a [bool]. *)
Definition _reject_non_finite (value : pyval) : result presentation_exn float :=
  match value with
  | PInt z =>
      match int_to_float z with
      | None => Err FloatOverflow
      | Some f => if negb (isfinite f) then Err PydanticError else Ok f
      end
  | PFloat f => if negb (isfinite f) then Err PydanticError else Ok f
  | _ => Err PydanticError
  end.

(** [Field(..., ge=lo, le=hi)]. *)
Definition field_range (lo hi f : float) : result presentation_exn float :=
  if (lo <=? f) && (f <=? hi) then Ok f else Err PydanticError.

Definition bounded_field (lo hi : float) (value : pyval) : result presentation_exn float :=
  let* f := _reject_non_finite value in field_range lo hi f.

Record PublicPAD : Type := mkPAD {
  pad_pleasure : float;
  pad_arousal : float;
  pad_dominance : float }.

Definition PublicPAD_init (p a d : pyval) : result presentation_exn PublicPAD :=
  let* x := both (both (bounded_field (-1) 1 p) (bounded_field (-1) 1 a)) (bounded_field (-1) 1 d) in
  Ok (mkPAD x.1.1 x.1.2 x.2).

Record PublicDominantEmotion : Type := mkDominant {
  de_name : pystr;
  de_intensity : float }.

#[export] Instance PublicDominantEmotion_eq_dec : EqDecision PublicDominantEmotion.
Proof. solve_decision. Defined.

(** The allowlist has no empty name, so [min_length=1] adds nothing. *)
Definition _validate_emotion_name (value : pyval) : result presentation_exn pystr :=
  match value with
  | PStr s => if str_in s DISCRETE_EMOTIONS then Ok s else Err PydanticError
  | _ => Err PydanticError
  end.

Definition PublicDominantEmotion_init (name intensity : pyval)
  : result presentation_exn PublicDominantEmotion :=
  let* x := both (_validate_emotion_name name) (bounded_field 0 1 intensity) in
  Ok (mkDominant x.1 x.2).

Record EmotionStateResponse : Type := mkResponse {
  er_schema_version : Z;
  er_mood_label : pystr;
  er_pad : PublicPAD;
  er_dominant : list PublicDominantEmotion;
  er_timestamp : float }.

Definition _validate_schema_version (value : pyval) : result presentation_exn Z :=
  match value with
  | PInt z => if (z =? 1)%Z then Ok z else Err PydanticError
  | _ => Err PydanticError
  end.

Definition _limit_to_three (value : list PublicDominantEmotion)
  : result presentation_exn (list PublicDominantEmotion) :=
  if (3 <? length value)%nat then Err PydanticError
  else if bool_decide (NoDup (map de_name value)) then Ok value else Err PydanticError.

Definition _reject_non_finite_timestamp (value : pyval) : result presentation_exn float :=
  let* f := _reject_non_finite value in
  if f <=? 0 then Err PydanticError else Ok f.

Definition validate_mood_label (value : pyval) : result presentation_exn pystr :=
  match value with PStr (c :: s) => Ok (c :: s) | _ => Err PydanticError end.

Definition EmotionStateResponse_init (sv mood : pyval) (pad : PublicPAD)
  (dominant : list PublicDominantEmotion) (ts : pyval) : result presentation_exn EmotionStateResponse :=
  let* x := both (both (both (_validate_schema_version sv) (validate_mood_label mood))
                   (_limit_to_three dominant)) (_reject_non_finite_timestamp ts) in
  Ok (mkResponse x.1.1.1 x.1.1.2 pad x.1.2 x.2).

(** [EmotionStateResponse.model_dump()]. *)
Definition model_dump (r : EmotionStateResponse) : pydict :=
  [(KStr (u "schema_version"), PInt (er_schema_version r));
   (KStr (u "mood_label"), PStr (er_mood_label r));
   (KStr (u "pad"), PDict [(KStr (u "pleasure"), PFloat (pad_pleasure (er_pad r)));
      (KStr (u "arousal"), PFloat (pad_arousal (er_pad r)));
      (KStr (u "dominance"), PFloat (pad_dominance (er_pad r)))]);
   (KStr (u "dominant_emotions"), PList (map (fun e =>
      PDict [(KStr (u "name"), PStr (de_name e)); (KStr (u "intensity"), PFloat (de_intensity e))])
      (er_dominant r)));
   (KStr (u "timestamp"), PFloat (er_timestamp r))].

(** ** Projection *)

(** An argument annotated with a class: [None], an instance, or anything else. *)
Inductive annotated (A : Type) : Type :=
| IsNone
| NotInstance
| Instance_of (a : A).
Arguments IsNone {A}.
Arguments NotInstance {A}.
Arguments Instance_of {A} a.

(** [key=lambda x: (-x[1], x[0])] under the order of tuples. *)
Definition emotion_key_ltb (x y : pystr * float) : bool :=
  if (- x.2) =? (- y.2) then str_ltb x.1 y.1 else (- x.2) <? (- y.2).

Definition project_public_emotion (state : annotated EmotionalStateV1) (appraisal : annotated AppraisalV1)
  : result presentation_exn EmotionStateResponse :=
  match state, appraisal with
  | IsNone, _ => Err PresentationError
  | _, IsNone => Err PresentationError
  | NotInstance, _ => Err PresentationTypeError
  | _, NotInstance => Err PresentationTypeError
  | Instance_of s, Instance_of a =>
      let mood_label := classify_pad_mood (pleasure s) (arousal s) (dominance s) in
      let* pad := PublicPAD_init (PFloat (pleasure s)) (PFloat (arousal s)) (PFloat (dominance s)) in
      let raw_emotions := List.filter (fun kv => 0 <? kv.2) (discrete_emotions a) in
      let raw_emotions := take 3 (stable_sort emotion_key_ltb raw_emotions) in
      let* dominant := rmap (fun kv => PublicDominantEmotion_init (PStr kv.1) (PFloat kv.2)) raw_emotions in
      EmotionStateResponse_init (PInt PUBLIC_EMOTION_SCHEMA_VERSION) (PStr mood_label) pad dominant
        (PFloat (timestamp s))
  end.

(** ** The order of the dominant emotions *)

Lemma SFcompare_opp x y : SFcompare (SFopp x) (SFopp y) = SFcompare y x.
Proof.
  assert (forall s, sf_nan (SFopp s) = sf_nan s) as N by (by intros [| | |]).
  assert (forall s, sf_key (SFopp s) = (- (sf_key s).1.1, - (sf_key s).1.2, - (sf_key s).2)%Z) as K.
  { intros [[]|[]| |[] m e]; cbn; rewrite ?Z.opp_involutive; done. }
  destruct (sf_nan x) eqn:Nx; [destruct x; try done; cbn; by rewrite SFcompare_nan_r|].
  destruct (sf_nan y) eqn:Ny; [destruct y; try done; cbn; by rewrite SFcompare_nan_r|].
  rewrite !SFcompare_lex, !K by (by rewrite ?N). unfold lex. cbn [fst snd]. by rewrite !Z.compare_opp.
Qed.

Lemma opp_ltb x y : ((- x) <? (- y)) = (y <? x).
Proof. rewrite !FloatAxioms.ltb_spec, !FloatAxioms.opp_spec. unfold SFltb. by rewrite SFcompare_opp. Qed.

Lemma opp_eqb x y : ((- x) =? (- y)) = (y =? x).
Proof. rewrite !FloatAxioms.eqb_spec, !FloatAxioms.opp_spec. unfold SFeqb. by rewrite SFcompare_opp. Qed.

Lemma eqb_lex x y : (x =? y) = negb (nan x) && negb (nan y) &&
  match lex (fkey x) (fkey y) with Eq => true | _ => false end.
Proof.
  unfold nan. rewrite FloatAxioms.eqb_spec. unfold SFeqb.
  destruct (sf_nan (Prim2SF x)) eqn:Nx; [by destruct (Prim2SF x) as [| | |]|].
  destruct (sf_nan (Prim2SF y)) eqn:Ny; [destruct (Prim2SF y) as [| | |]; try done; by rewrite SFcompare_nan_r|].
  rewrite SFcompare_lex by done. by destruct (lex _ _).
Qed.

Lemma lex_eq x y : lex x y = Eq <-> x = y.
Proof.
  unfold lex. destruct x as [[a b] c], y as [[a' b'] c']; cbn [fst snd].
  destruct (Z.compare_spec a a'), (Z.compare_spec b b'), (Z.compare_spec c c'); split; intros ?; simplify_eq; try lia; done.
Qed.

Lemma str_ltb_trans a b c : str_ltb a b = true -> str_ltb b c = true -> str_ltb a c = true.
Proof.
  revert b c; induction a as [|x a IH]; intros [|y b] [|z c]; cbn; try done.
  rewrite !orb_true_iff, !andb_true_iff, !N.ltb_lt, !N.eqb_eq.
  intros [H1|[-> H1]] [H2|[-> H2]]; [left; lia|by left|by left|right; eauto].
Qed.

Lemma str_ltb_total a b : a <> b -> str_ltb a b = true \/ str_ltb b a = true.
Proof.
  revert b; induction a as [|x a IH]; intros [|y b] H; cbn; auto; try done.
  rewrite !orb_true_iff, !andb_true_iff, !N.ltb_lt, !N.eqb_eq.
  destruct (N.lt_trichotomy x y) as [L|[-> | L]]; [by left; left| |by right; left].
  destruct (IH b) as [K|K]; [congruence|left; auto|right; auto].
Qed.

(** [x] is listed before [y]: it is more intense, or as intense with a smaller name. *)
Definition ranks_before (x y : pystr * float) : bool :=
  (y.2 <? x.2) || ((x.2 =? y.2) && str_ltb x.1 y.1).

Definition numeric (kv : pystr * float) : Prop := nan kv.2 = false.

Lemma key_ranks x y : numeric x -> numeric y -> emotion_key_ltb x y = ranks_before x y.
Proof.
  unfold numeric, emotion_key_ltb, ranks_before. intros Nx Ny.
  rewrite opp_ltb, opp_eqb, !eqb_lex, ltb_lex, Nx, Ny, (lex_antisym (fkey y.2) (fkey x.2)). cbn.
  by destruct (lex (fkey y.2) (fkey x.2)).
Qed.

Lemma lex_lt_iff x y : lex x y = Lt <->
  (x.1.1 < y.1.1 \/ (x.1.1 = y.1.1 /\ (x.1.2 < y.1.2 \/ (x.1.2 = y.1.2 /\ x.2 < y.2))))%Z.
Proof.
  unfold lex. destruct (Z.compare_spec x.1.1 y.1.1), (Z.compare_spec x.1.2 y.1.2),
    (Z.compare_spec x.2 y.2); split; intros ?; try done; lia.
Qed.

Lemma ranks_iff x y : numeric x -> numeric y ->
  ranks_before x y = true <->
  lex (fkey y.2) (fkey x.2) = Lt \/ (fkey x.2 = fkey y.2 /\ str_ltb x.1 y.1 = true).
Proof.
  unfold ranks_before, numeric. intros Nx Ny.
  rewrite orb_true_iff, andb_true_iff, ltb_lex, eqb_lex, Nx, Ny, <- lex_eq. cbn.
  destruct (lex (fkey y.2) (fkey x.2)), (lex (fkey x.2) (fkey y.2)); naive_solver.
Qed.

Lemma key_trans x y z : numeric x -> numeric y -> numeric z ->
  emotion_key_ltb x y = true -> emotion_key_ltb y z = true -> emotion_key_ltb x z = true.
Proof.
  intros Nx Ny Nz. rewrite !key_ranks, !ranks_iff by done.
  intros [H1|[E1 S1]] [H2|[E2 S2]].
  - left. rewrite lex_lt_iff in *. lia.
  - left. by rewrite <- E2.
  - left. by rewrite E1.
  - right. split; [congruence|]. by eapply str_ltb_trans.
Qed.

Lemma key_total x y : numeric x -> numeric y -> x.1 <> y.1 ->
  emotion_key_ltb x y = true \/ emotion_key_ltb y x = true.
Proof.
  intros Nx Ny H. rewrite !key_ranks, !ranks_iff by done.
  destruct (lex (fkey y.2) (fkey x.2)) eqn:E.
  - apply lex_eq in E. destruct (str_ltb_total x.1 y.1 H); auto.
  - by left; left.
  - right; left. rewrite lex_antisym, E. done.
Qed.

(** The emotions the projection shows. *)
Definition shown (m : emotion_map) : emotion_map :=
  take 3 (stable_sort emotion_key_ltb (List.filter (fun kv => 0 <? kv.2) m)).

Definition positive_of (m : emotion_map) : emotion_map := List.filter (fun kv => 0 <? kv.2) m.

Lemma positive_elem kv m : kv ∈ positive_of m <-> kv ∈ m /\ (0 <? kv.2) = true.
Proof. unfold positive_of. rewrite !list_elem_of_In. apply filter_In. Qed.

Lemma names_distinct (m : emotion_map) x y : NoDup m.*1 -> x ∈ m -> y ∈ m -> x <> y -> x.1 <> y.1.
Proof.
  induction m as [|z m IH]; [set_solver|]. rewrite fmap_cons, NoDup_cons. intros [Hz N].
  rewrite !elem_of_cons. intros [-> |Hx] [-> |Hy] Hn E; try done; [| |by eapply IH].
  - apply Hz. rewrite E. by apply list_elem_of_fmap_2.
  - apply Hz. rewrite <- E. by apply list_elem_of_fmap_2.
Qed.

Lemma positive_NoDup m : NoDup m.*1 -> NoDup (positive_of m).*1.
Proof.
  unfold positive_of. induction m as [|z m IH]; [done|]. rewrite fmap_cons, NoDup_cons. intros [Hz N].
  cbn [List.filter]. destruct (0 <? z.2); [|by apply IH]. rewrite fmap_cons, NoDup_cons. split; [|by apply IH].
  intros (kv & E & Hin)%list_elem_of_fmap. apply Hz. rewrite E. apply list_elem_of_fmap_2.
  by apply positive_elem in Hin as [Hin _].
Qed.

Lemma emotion_numeric m kv : forallb emotion_ok m = true -> kv ∈ m -> numeric kv.
Proof.
  rewrite forallb_forall. intros H Hin. apply list_elem_of_In, H in Hin.
  unfold emotion_ok in Hin. apply andb_true_iff in Hin as [_ Hin].
  by apply isfinite_not_nan, (in_range_isfinite 0 1).
Qed.

Lemma shown_sorted m : emotions_wf m ->
  StronglySorted (fun x y => emotion_key_ltb x y = true)
    (stable_sort emotion_key_ltb (positive_of m)).
Proof.
  intros [N F]. apply (stable_sort_sorted _ (fun kv => kv ∈ m)).
  - intros x y z Hx Hy Hz. apply key_trans; by eapply emotion_numeric.
  - intros x y Hx Hy Hn. apply key_total; try (by eapply emotion_numeric). by eapply names_distinct.
  - apply Forall_forall. intros kv [Hin _]%positive_elem. done.
  - by eapply NoDup_fmap_1, positive_NoDup.
Qed.

Lemma shown_elem m kv : kv ∈ shown m -> kv ∈ m /\ (0 <? kv.2) = true.
Proof.
  unfold shown. fold (positive_of m). intros H. apply positive_elem.
  rewrite <- (stable_sort_perm emotion_key_ltb). eapply subseteq_take, H.
Qed.

Lemma shown_NoDup m : NoDup m.*1 -> NoDup (shown m).*1.
Proof.
  intros N. unfold shown. rewrite fmap_take. eapply sublist_NoDup; [|apply sublist_take].
  rewrite (stable_sort_perm emotion_key_ltb). by apply positive_NoDup.
Qed.

(** What is left out ranks after everything shown. *)
Lemma shown_best m kv : emotions_wf m -> kv ∈ m -> (0 <? kv.2) = true -> kv ∉ shown m ->
  length (shown m) = 3%nat /\ forall x, x ∈ shown m -> ranks_before x kv = true.
Proof.
  intros W Hin Hp Hn. pose proof W as [N F]. pose proof (shown_sorted m W) as S.
  assert (kv ∈ stable_sort emotion_key_ltb (positive_of m)) as Hs
    by (rewrite stable_sort_perm; by apply positive_elem).
  rewrite <- (take_drop 3) in Hs. apply elem_of_app in Hs as [Hs|Hs]; [done|]. split.
  - unfold shown. fold (positive_of m). rewrite length_take.
    assert (0 < length (drop 3 (stable_sort emotion_key_ltb (positive_of m))))%nat as L
      by (destruct (drop 3 _); [set_solver|cbn; lia]).
    rewrite length_drop in L. lia.
  - intros x Hx. rewrite <- key_ranks.
    + exact (StronglySorted_take_drop _ _ _ _ _ S Hx Hs).
    + apply shown_elem in Hx as [Hx _]. by eapply emotion_numeric.
    + by eapply emotion_numeric.
Qed.

Lemma shown_ranked m : emotions_wf m -> StronglySorted (fun x y => ranks_before x y = true) (shown m).
Proof.
  intros W. pose proof (StronglySorted_take _ 3 _ (shown_sorted m W)) as S.
  change (take 3 _) with (shown m) in S.
  assert (Forall numeric (shown m)) as P.
  { apply Forall_forall. intros kv [Hin _]%shown_elem. eapply emotion_numeric, Hin. apply W. }
  revert S P. generalize (shown m). intros l S P. induction S as [|x l' S IH Hx]; [constructor|].
  apply Forall_cons_1 in P as [Px Pl]. constructor; [by apply IH|].
  rewrite Forall_forall in Hx, Pl |- *. intros y Hy. rewrite <- key_ranks; auto.
Qed.

Lemma bounded_field_ok lo hi f :
  isfinite lo = true -> isfinite hi = true -> in_range lo hi f = true -> bounded_field lo hi (PFloat f) = Ok f.
Proof.
  intros L H R. pose proof (in_range_isfinite lo hi f L H R) as F. unfold bounded_field, _reject_non_finite.
  rewrite F. cbn [negb rbind]. unfold field_range. unfold in_range in R. by rewrite R.
Qed.

Lemma dominant_ok l : forallb emotion_ok l = true ->
  rmap (fun kv => PublicDominantEmotion_init (PStr kv.1) (PFloat kv.2)) l
  = Ok (map (fun kv => mkDominant kv.1 kv.2) l).
Proof.
  induction l as [|[k f] l IH]; intros H; [done|]. cbn [forallb] in H. apply andb_true_iff in H as [H0 H].
  apply andb_true_iff in H0 as [Hk Hf]. cbn [fst snd] in *. cbn [rmap map fst snd].
  unfold PublicDominantEmotion_init at 1. cbn [_validate_emotion_name]. rewrite Hk, bounded_field_ok by done.
  cbn [both rbind fst snd]. by rewrite IH.
Qed.

Lemma mood_nonempty p a d : exists c t, classify_pad_mood p a d = c :: t.
Proof. unfold classify_pad_mood. repeat destruct (_ <? _); by do 2 eexists. Qed.

Lemma project_ok s a : state_wf s = true -> appraisal_wf a ->
  project_public_emotion (Instance_of s) (Instance_of a) =
  Ok (mkResponse 1 (classify_pad_mood (pleasure s) (arousal s) (dominance s))
        (mkPAD (pleasure s) (arousal s) (dominance s))
        (map (fun kv => mkDominant kv.1 kv.2) (shown (discrete_emotions a))) (timestamp s)).
Proof.
  intros W (_ & _ & _ & _ & N & F). unfold state_wf in W. rewrite !andb_true_iff in W.
  destruct W as ((((((((((_ & Wp) & Wa) & Wd) & _) & _) & _) & _) & _) & _) & Wt & Wt').
  unfold project_public_emotion, PublicPAD_init. rewrite !bounded_field_ok by done.
  cbn [both rbind fst snd]. fold (shown (discrete_emotions a)).
  rewrite dominant_ok.
  2:{ apply forallb_forall. intros kv Hin. rewrite forallb_forall in F. apply F.
      apply list_elem_of_In. apply list_elem_of_In in Hin. by apply shown_elem in Hin as [Hin _]. }
  cbn [rbind]. unfold EmotionStateResponse_init. cbn [_validate_schema_version Z.eqb].
  destruct (mood_nonempty (pleasure s) (arousal s) (dominance s)) as (c & t & ->).
  unfold _limit_to_three, _reject_non_finite_timestamp, _reject_non_finite. rewrite length_map.
  assert ((3 <? length (shown (discrete_emotions a)))%nat = false) as ->.
  { apply Nat.ltb_ge. unfold shown. rewrite length_take. lia. }
  rewrite bool_decide_eq_true_2.
  2:{ rewrite map_map. cbn [de_name]. by apply shown_NoDup. }
  rewrite Wt. cbn [negb rbind]. rewrite (ltb_leb_false _ _ Wt'). reflexivity.
Qed.

(** ** Properties *)

(** The public projection succeeds on every domain state and appraisal.  It
    shows the PAD coordinates, the mood of the one classifier and at most three
    emotions: each is an appraised emotion of positive intensity, they are
    listed by intensity and then by name, and a positive emotion is left out
    only for three that rank before it.  Nothing else of the state (drives,
    tension, coping mode) influences the response. *)
Theorem project_public_emotion_spec : forall s a, state_wf s = true -> appraisal_wf a ->
  exists r, project_public_emotion (Instance_of s) (Instance_of a) = Ok r
  /\ er_schema_version r = PUBLIC_EMOTION_SCHEMA_VERSION /\ er_timestamp r = timestamp s
  /\ er_pad r = mkPAD (pleasure s) (arousal s) (dominance s)
  /\ er_mood_label r = classify_pad_mood (pleasure s) (arousal s) (dominance s)
  /\ (let shown := map (fun e => (de_name e, de_intensity e)) (er_dominant r) in
      (length shown <= 3)%nat /\ NoDup (map de_name (er_dominant r))
      /\ StronglySorted (fun x y => ranks_before x y = true) shown
      /\ (forall kv, kv ∈ shown -> kv ∈ discrete_emotions a /\ (0 <? kv.2) = true)
      /\ (forall kv, kv ∈ discrete_emotions a -> (0 <? kv.2) = true -> kv ∉ shown ->
            length shown = 3%nat /\ forall x, x ∈ shown -> ranks_before x kv = true))
  /\ (forall s', state_wf s' = true -> pleasure s' = pleasure s -> arousal s' = arousal s ->
        dominance s' = dominance s -> timestamp s' = timestamp s ->
        project_public_emotion (Instance_of s') (Instance_of a) = Ok r).
Proof.
  intros s a W Wa. eexists. split; [by apply project_ok|].
  cbn [er_schema_version er_timestamp er_pad er_mood_label er_dominant].
  repeat (split; [done|]). split.
  - assert (emotions_wf (discrete_emotions a)) as We by (split; apply Wa).
    rewrite !map_map. cbn [de_name de_intensity].
    assert (map (fun kv : pystr * float => (kv.1, kv.2)) (shown (discrete_emotions a)) = shown (discrete_emotions a))
      as -> by (induction (shown _) as [|[] l IH]; cbn; [done|by rewrite IH]).
    cbv zeta. split; [unfold shown; rewrite length_take; lia|].
    split; [by apply shown_NoDup, We|]. split; [by apply shown_ranked|].
    split; [apply shown_elem|]. intros kv H1 H2 H3. exact (shown_best _ kv We H1 H2 H3).
  - intros s' W' E1 E2 E3 E4. rewrite project_ok, E1, E2, E3, E4 by done. reflexivity.
Qed.

Definition mixed_appraisal : AppraisalV1 :=
  mkAppraisal 0 0 0 [(u "joy", 0.5); (u "anger", 0.9); (u "fear", 0.5); (u "pride", 0.125)] 1.

Lemma mixed_appraisal_wf : appraisal_wf mixed_appraisal.
Proof.
  apply (appraisal_init_wf (PFloat 0) (PFloat 0) (PFloat 0)
    (PDict (emotions_dict (discrete_emotions mixed_appraisal))) (PInt 1)). vm_compute. reflexivity.
Qed.

Lemma project_public_emotion_spec_witness :
  exists r, project_public_emotion
      (Instance_of (mkState 0.25 0.75 0.5 0 0 0 0 0 HEALTHY 100 1)) (Instance_of mixed_appraisal) = Ok r
    /\ er_mood_label r = u "NEUTRA" /\ map de_name (er_dominant r) = [u "anger"; u "fear"; u "joy"].
Proof.
  destruct (project_public_emotion_spec (mkState 0.25 0.75 0.5 0 0 0 0 0 HEALTHY 100 1) mixed_appraisal)
    as (r & E & _ & _ & _ & M & _); [reflexivity|apply mixed_appraisal_wf|].
  exists r. split; [exact E|]. rewrite M. split; [reflexivity|].
  vm_compute in E. injection E as <-. reflexivity.
Defined.
