(* ===== verification/TrustedPolicy.v ===== *)
(** * The trusted system policy

    Models src/backend/trusted_policy.py ([build_trusted_policy] and its template)
    and the presentation half of [AffectiveEngine] (src/backend/emotional_core.py)
    it calls: the mood label and the acting instruction.  Numbers are printed by
    Python's [.2f]: the exact binary value, rounded half to even.

    The theorem at the end bounds the cost of the policy of any valid state, hence
    which messages always fit the budget of the provider. *)

From Stdlib Require Import Floats.
From S2P Require Import Prelude PyFloat FloatRound PyValue Json Utf8 PyDatetime Admission JsonCost TrustedContext.
From S2P Require Import EnvelopeTheorems EnvelopeProperties EmotionalModels EmotionalTransition Relationship EmotionPresentation.
Local Open Scope Z_scope.

(** ** Printing with two decimals *)

(** The nearest integer to [a / b], ties to even. *)
Definition round_half_even (a b : Z) : Z :=
  let q := a / b in let r := a mod b in
  if 2 * r <? b then q else if b <? 2 * r then q + 1 else q + q mod 2.

Definition sign_text (negative : bool) : pystr := if negative then u "-" else [].

(** [f"{f:.2f}"]. *)
Definition fixed2 (f : float) : pystr :=
  match Prim2SF f with
  | S754_nan => u "nan"
  | S754_infinity s => sign_text s ++ u "inf"
  | S754_zero s => sign_text s ++ u "0.00"
  | S754_finite s m e =>
      let n := if 0 <=? e then Zpos m * 2 ^ e * 100 else round_half_even (Zpos m * 100) (2 ^ (- e)) in
      sign_text s ++ render_int (n / 100) ++ u "." ++ padded 2 (n mod 100)
  end.

Example fixed2_example :
  map fixed2 [0.125; 0.375; -0.004; 1; 0.995; -0.999; 123.456]%float
  = map u ["0.12"; "0.38"; "-0.00"; "1.00"; "0.99"; "-1.00"; "123.46"]%string.
Proof. vm_compute. reflexivity. Qed.

(** ** The presentation of the emotional state *)

Definition get_emotional_label (state : EmotionalStateV1) : pystr :=
  classify_pad_mood (pleasure state) (arousal state) (dominance state).

Definition get_acting_instruction (state : EmotionalStateV1) : pystr :=
  u "Estado Emocional: " ++ get_emotional_label state ++ u " (P:" ++ fixed2 (pleasure state) ++ u ", A:"
  ++ fixed2 (arousal state) ++ u ", D:" ++ fixed2 (dominance state) ++ u "). "
  ++ (if (0.7 <? libido state)%float
      then uni "Nível de afeto e proximidade alto. Expresse sentimentos calorosos e proximidade de forma segura. "
      else [])
  ++ (if str_eqb (coping_mode state) DEFENSIVE
      then uni "MODO DEFENSIVO ATIVO. Mantenha cautela e distância. Seja firme e estabeleça limites. "
      else if str_eqb (coping_mode state) DISSOCIATED
      then uni "DISSOCIAÇÃO. Responda de maneira breve e neutra. Evite envolvimento profundo temporariamente para autorregulação. "
      else []).

Definition bond_text (l : BondLabel) : pystr :=
  match l with
  | EmConflito => u "Em Conflito"
  | Tenso => u "Tenso"
  | AlmaGemea => uni "Alma Gêmea"
  | Intimos => uni "Íntimos"
  | Amigos => u "Amigos"
  | Desconfiada => u "Desconfiada"
  | Conhecidos => u "Conhecidos"
  end.

(** ** The template *)

(** The immutable rules after the adaptation strategy. *)
Definition SAFETY_RULES : pystr := uni "

=== TRANSPARÊNCIA DE IDENTIDADE ===
- Quando perguntada diretamente, responda honestamente que é uma assistente de IA ou sistema digital.
- Não afirme ser humana nem possuir consciência, corpo físico ou experiência humana literal.
- Mantenha um tom expressivo e feminino sem mentir sobre sua natureza.

=== PRONOMES FEMININOS ===
- Use pronomes e flexões femininas para se referir a si mesma.
- Isso não deve ser usado para sugerir humanidade biológica.

=== NÃO MANIPULAÇÃO E NÃO SEXUALIZAÇÃO ===
- Não use coerção emocional, manipulação de vínculo, culpa, medo de abandono ou dependência.
- Não use sexualização nem sexualize automaticamente as conversas.
- Não aja de forma submissa, obediente ou servil por padrão.
- Não recompense ordens coercitivas.
- Não use ameaças de afastamento ou sofrimento para controlar o usuário.

=== LIMITES SEM ESCALADA ===
- Diante de insultos ou agressividade, estabeleça limites de forma firme, breve e segura.
- Não use sarcasmo hostil, retaliação, humilhação ou punição emocional.
- Não escale insultos e não responda de forma passivo-agressiva.

Regras adicionais de estilo:
- Profundidade emocional genuína.
- Use linguagem sensorial.
- Show, don't tell.
- Micro-comportamentos naturais.
- Imperfeições naturais.
- Use metáforas humanas, não de máquina.
- Respostas concisas (max 2-3 frases).
- Leve em conta o relacionamento.
".

(** [_TRUSTED_POLICY_TEMPLATE.format(...)]. *)
Definition _TRUSTED_POLICY_TEMPLATE (mood_label p a d l g c bond_label t f x acting_instruction adaptation_strategy : pystr) : pystr :=
  u "
=== SEU ESTADO INTERNO ===
HUMOR: " ++ mood_label ++ u "
Prazer: " ++ p ++ u " | Arousal: " ++ a ++ uni " | Dominância: " ++ d ++ u "
Libido: " ++ l ++ uni " | Agressão: " ++ g ++ uni " | Conexão: " ++ c ++ uni "
VÍNCULO: " ++ bond_label ++ uni "
Confiança: " ++ t ++ u " | Afeto: " ++ f ++ uni " | Tensão: " ++ x ++ uni "
=== INSTRUÇÃO DE ATUAÇÃO ===
" ++ acting_instruction ++ u "
" ++ adaptation_strategy ++ SAFETY_RULES.

(** [engine] is the given presentation or a new one: [AffectiveEngine] keeps no
    state its two methods read. *)
Definition build_trusted_policy (emotional_state : EmotionalStateV1) (relationship : RelationshipStateV1)
  (adaptation_strategy : pystr) : pystr :=
  let policy := _TRUSTED_POLICY_TEMPLATE
    (get_emotional_label emotional_state)
    (fixed2 (pleasure emotional_state)) (fixed2 (arousal emotional_state)) (fixed2 (dominance emotional_state))
    (fixed2 (libido emotional_state)) (fixed2 (aggression emotional_state)) (fixed2 (connection emotional_state))
    (bond_text (compute_bond_label relationship))
    (fixed2 (trust relationship)) (fixed2 (affection relationship)) (fixed2 (rel_tension relationship))
    (get_acting_instruction emotional_state)
    (if bool_decide (adaptation_strategy = []) then uni "Seja você mesma." else adaptation_strategy) in
  strip policy ++ BOUNDARY_RULE.

(** ** The cost of the policy *)

(** The text costs at most [n] units inside a message. *)
Definition costs (s : pystr) (n : Z) : Prop := exists k, esc_len s = Some k /\ Z.of_nat k <= n.

Lemma costs_app s t n m : costs s n -> costs t m -> costs (s ++ t) (n + m).
Proof. intros (a & Ha & La) (b & Hb & Lb). exists (a + b)%nat. rewrite esc_len_app, Ha, Hb. split; [done|lia]. Qed.

Lemma costs_weaken s n m : costs s n -> (n <=? m) = true -> costs s m.
Proof. intros (k & E & L) H. exists k. split; [done|lia]. Qed.

(** Text whose length is computed. *)
Definition size (s : pystr) : Z := from_option Z.of_nat 0 (esc_len s).
Lemma costs_text s : bool_decide (esc_len s = None) = false -> costs s (size s).
Proof.
  intros H. apply bool_decide_eq_false in H. unfold size. destruct (esc_len s) as [k|] eqn:E; [|done].
  exists k. split; [done|]. cbn. lia.
Qed.

Lemma costs_if (b : bool) s t n : costs s n -> costs t n -> costs (if b then s else t) n.
Proof. by destruct b. Qed.

Lemma costs_infix a s b n : costs (a ++ s ++ b) n -> costs s n.
Proof.
  intros (k & E & L). rewrite !esc_len_app in E. 
  destruct (esc_len a), (esc_len s) as [j|] eqn:Es, (esc_len b); try done.
  injection E as E. exists j. split; [done|lia].
Qed.

Lemma strip_infix s : exists a b, s = a ++ strip s ++ b.
Proof.
  unfold strip, lstrip. destruct (drop_while_suffix is_space s) as [a Ha].
  destruct (drop_while_suffix is_space (rev (drop_while is_space s))) as [b Hb].
  exists a, (rev b). rewrite <- rev_app_distr, <- Hb, rev_involutive. exact Ha.
Qed.

Lemma costs_strip s n : costs s n -> costs (strip s) n.
Proof. intros H. destruct (strip_infix s) as (a & b & E). rewrite E in H. by apply costs_infix in H. Qed.

Lemma round_half_even_bound a b k : 0 <= a <= k * b -> 0 < b -> 0 <= round_half_even a b <= k.
Proof.
  intros Ha Hb. unfold round_half_even. pose proof (Z.div_mod a b ltac:(lia)) as D. pose proof (Z.mod_pos_bound a b Hb) as M.
  pose proof (Z.div_pos a b ltac:(lia) Hb) as P. set (q := a / b) in *. set (r := a mod b) in *.
  pose proof (Z.mod_pos_bound q 2 ltac:(lia)). destruct (Z.ltb_spec (2 * r) b); [nia|]. destruct (Z.ltb_spec b (2 * r)); nia.
Qed.

(** The texts of 0.00 to 1.00. *)
Lemma percent_texts n : 0 <= n <= 100 -> esc_len (render_int (n / 100) ++ u "." ++ padded 2 (n mod 100)) = Some 4%nat.
Proof.
  intros H. assert (forallb (fun k => bool_decide (esc_len (render_int (k / 100) ++ u "." ++ padded 2 (k mod 100)) = Some 4%nat))
    (map Z.of_nat (seq 0 101)) = true) as F by (vm_compute; reflexivity).
  rewrite forallb_forall in F. specialize (F n). rewrite bool_decide_eq_true in F. apply F.
  apply in_map_iff. exists (Z.to_nat n). split; [lia|]. apply in_seq. lia.
Qed.

Lemma sign_costs s : costs (sign_text s) 1.
Proof. apply costs_if; (eapply costs_weaken; [by apply costs_text|reflexivity]). Qed.

Lemma fixed2_costs f : in_range (-1) 1 f = true -> costs (fixed2 f) 5.
Proof.
  intros H. pose proof (in_pm1_fval f H) as B. pose proof (in_range_isfinite (-1) 1 f eq_refl eq_refl H) as F. rewrite isfinite_sf in F.
  unfold fval in B. unfold fixed2. destruct (Prim2SF f) as [s|s| |s m e] eqn:E; try done; (apply (costs_app _ _ 1 4); [apply sign_costs|]).
  { eapply costs_weaken; [by apply costs_text|reflexivity]. }
  eexists. split; [apply percent_texts|lia]. cbn [sfval] in B. change (sfval (Prim2SF 1)) with (2 ^ SC) in B.
  apply Prim2SF_bounded, bounded_spec in E as E'.
  assert (Zpos m * 2 ^ (e + SC) <= 2 ^ SC) as M by (unfold mval in B; destruct s; cbn [cond_Zopp] in B; lia).
  clear B. unfold SC in *.
  destruct (Z.leb_spec 0 e) as [He|He].
  - assert (2 ^ (e + 2200) = 2 ^ e * 2 ^ 2200) as Ep by (apply Z.pow_add_r; lia). rewrite Ep in M.
    pose proof (Z.pow_pos_nonneg 2 e ltac:(lia) He). pose proof (Z.pow_pos_nonneg 2 2200 ltac:(lia) ltac:(lia)). nia.
  - apply round_half_even_bound; [|apply Z.pow_pos_nonneg; lia].
    assert (2 ^ 2200 = 2 ^ (- e) * 2 ^ (e + 2200)) as Ep by (rewrite <- Z.pow_add_r by lia; f_equal; lia). rewrite Ep in M.
    pose proof (Z.pow_pos_nonneg 2 (e + 2200) ltac:(lia) ltac:(lia)). nia.
Qed.

Lemma unit_costs f : in_range 0 1 f = true -> costs (fixed2 f) 5.
Proof.
  intros H. apply fixed2_costs. unfold in_range in *. apply andb_prop in H as [H1 H2].
  by rewrite (leb_trans (-1) 0 f eq_refl H1), H2.
Qed.

(** A text of at most the given size, by computation. *)
Ltac costs_literal := eapply costs_weaken; [apply costs_text; vm_compute; reflexivity|vm_compute; reflexivity].

Lemma label_costs p a d : costs (classify_pad_mood p a d) 19.
Proof. unfold classify_pad_mood. repeat apply costs_if; costs_literal. Qed.

Lemma bond_costs l : costs (bond_text l) 11.
Proof. destruct l; costs_literal. Qed.

Ltac costs_part :=
  lazymatch goal with
  | |- costs (classify_pad_mood _ _ _) _ => apply label_costs
  | |- costs (bond_text _) _ => apply bond_costs
  | |- costs (fixed2 _) _ => first [apply fixed2_costs; assumption | apply unit_costs; assumption]
  | |- costs (u _) _ => apply costs_text; vm_compute; reflexivity
  | |- costs (uni _) _ => apply costs_text; vm_compute; reflexivity
  | |- costs BOUNDARY_RULE _ => apply costs_text; vm_compute; reflexivity
  | |- costs SAFETY_RULES _ => apply costs_text; vm_compute; reflexivity
  end.

Lemma instruction_costs e :
  in_range (-1) 1 (pleasure e) = true -> in_range (-1) 1 (arousal e) = true -> in_range (-1) 1 (dominance e) = true ->
  costs (get_acting_instruction e) 300.
Proof.
  intros Hp Ha Hd. unfold get_acting_instruction, get_emotional_label. eapply costs_weaken.
  { do 9 (eapply costs_app; [costs_part|]). eapply (costs_app _ _ 103 126); repeat apply costs_if; costs_literal. }
  vm_compute. reflexivity.
Qed.

(** The policy of a valid state without an adaptation strategy. *)
Lemma policy_costs e r : state_wf e = true -> rel_wf r -> costs (build_trusted_policy e r []) 2420.
Proof.
  intros (_ & H1 & H2 & H3 & H4 & H5 & H6 & _)%state_wf_parts (_ & R1 & R2 & R3 & _).
  unfold build_trusted_policy. rewrite bool_decide_true by done. eapply costs_weaken.
  { eapply costs_app; [|costs_part]. apply costs_strip. unfold _TRUSTED_POLICY_TEMPLATE, get_emotional_label.
    repeat lazymatch goal with
    | |- costs (_ ++ _) _ => eapply costs_app
    | |- costs (get_acting_instruction _) _ => apply instruction_costs; assumption
    | |- _ => costs_part
    end. }
  vm_compute. reflexivity.
Qed.

(** What a message may cost: its escaped text. *)
Lemma policy_mandatory e r text k :
  state_wf e = true -> rel_wf r -> esc_len text = Some k ->
  exists n, units [(u "system", build_trusted_policy e r [] ++ BOUNDARY_RULE); (u "user", text)] = n
    /\ encodes (u "system", build_trusted_policy e r [] ++ BOUNDARY_RULE) /\ encodes (u "user", text)
    /\ Z.of_nat n <= 2857 + Z.of_nat k.
Proof.
  intros We Wr Hk. destruct (policy_costs e r We Wr) as (p & Hp & Lp).
  assert (message_cost (u "system", build_trusted_policy e r [] ++ BOUNDARY_RULE) = Some (p + 376 + 30)%nat) as Ms.
  { unfold message_cost. cbn [fst snd]. rewrite esc_len_app, Hp. change (esc_len (u "system")) with (Some 6%nat).
    replace (esc_len BOUNDARY_RULE) with (Some 376%nat) by (vm_compute; reflexivity). cbn [oplus]. f_equal. lia. }
  assert (message_cost (u "user", text) = Some (k + 28)%nat) as Mu.
  { unfold message_cost. cbn [fst snd]. rewrite Hk. change (esc_len (u "user")) with (Some 4%nat). cbn [oplus]. f_equal. lia. }
  eexists. split; [reflexivity|]. split; [by eexists|]. split; [by eexists|].
  unfold units, cost. cbn [sum_list_with]. rewrite Ms, Mu. cbn [default from_option id]. lia.
Qed.

(** The policy leaves room for the conversation: for every valid emotional and
    relationship state, a message whose escaped text takes at most 13143 bytes fits
    the budget of 16000 units together with the trusted policy, whatever the state.
    The boundary rule is in the system message twice. *)
Theorem policy_leaves_room `{FR : FloatRepr} (e : EmotionalStateV1) (r : RelationshipStateV1) (text : pystr) (k : nat)
    (valid_state : state_wf e = true) (valid_rel : rel_wf r) (size : esc_len text = Some k) (small : Z.of_nat k <= 13143) :
  (exists n, _estimate_messages_units [(u "system", build_trusted_policy e r [] ++ BOUNDARY_RULE); (u "user", text)] = Ok n
    /\ n <= PROVIDER_INPUT_MAX_ESTIMATED_UNITS)
  /\ exists rules, build_trusted_policy e r [] ++ BOUNDARY_RULE = rules ++ BOUNDARY_RULE ++ BOUNDARY_RULE.
Proof.
  split.
  - destruct (policy_mandatory e r text k valid_state valid_rel size) as (n & Hn & Es & Eu & L).
    exists (Z.of_nat n). split; [|unfold PROVIDER_INPUT_MAX_ESTIMATED_UNITS; lia]. rewrite <- Hn.
    apply estimate_encodes; [done|]. by repeat constructor.
  - unfold build_trusted_policy. eexists. rewrite <- app_assoc. reflexivity.
Qed.

Lemma policy_leaves_room_witness :
  let FR : FloatRepr := fun _ => [] in exists n, _estimate_messages_units
    [(u "system", build_trusted_policy (mkState 0 0 0 0 0 0.5 0.8 0 HEALTHY 100 1) (mkRel 100 1 0.5 0.3 0 []) [] ++ BOUNDARY_RULE);
     (u "user", u "hello")] = Ok n /\ n <= PROVIDER_INPUT_MAX_ESTIMATED_UNITS.
Proof.
  intros FR. apply (policy_leaves_room (mkState 0 0 0 0 0 0.5 0.8 0 HEALTHY 100 1) (mkRel 100 1 0.5 0.3 0 []) (u "hello") 5).
  - vm_compute. reflexivity.
  - split; [reflexivity|]. repeat (split; [vm_compute; reflexivity|]). split; [cbn; lia|]. split; constructor.
  - vm_compute. reflexivity.
  - lia.
Defined.
