(* ===== verification/StorageContracts.v ===== *)
(** * Payload contracts of the local store (backend/local_storage/contracts.py, errors.py)

    The validators that run before anything is written: canonical JSON, the
    replay payload, the outbox events, the two domain snapshots and the neutral
    snapshots of a reset.  The exceptions keep their stable code. *)

From S2P Require Import Prelude PyFloat FloatRound PyValue Json EmotionalModels Relationship.
Local Open Scope float_scope.

(** ** Exceptions (errors.py) *)

Inductive storage_exn : Type :=
| ValidationError (code : pystr)
| ConflictError (code : pystr) (expected_revision : Z) (actual_revision : option Z)
| PersistenceError (code : pystr)
| SqliteError                       (** a raw [sqlite3.Error] that nobody caught *)
| UnicodeEncodeError                (** from [str.encode("utf-8")], also of a bound text *)
| OverflowError                     (** an [int] that does not fit an SQLite INTEGER *)
| PyTypeError                       (** [json.dumps] of a value it cannot write *)
| DomainErrorExn.                   (** a domain constructor raised *)

#[export] Instance storage_exn_eq_dec : EqDecision storage_exn.
Proof. solve_decision. Defined.

Definition MAX_REPLAY_PAYLOAD_BYTES : nat := 8192.
Definition MAX_OUTBOX_PAYLOAD_BYTES : nat := 8192.
Definition MAX_SNAPSHOT_BYTES : nat := 8192.
Definition MAX_OUTBOX_EVENTS : nat := 32.

(** ** Character classes *)

Definition is_lower (c : N) : bool := ((97 <=? c) && (c <=? 122))%N.
Definition is_upper (c : N) : bool := ((65 <=? c) && (c <=? 90))%N.
Definition is_digit (c : N) : bool := ((48 <=? c) && (c <=? 57))%N.

(** [[A-Za-z0-9_.:-]]. *)
Definition is_ident_char (c : N) : bool :=
  is_lower c || is_upper c || is_digit c || (c =? 95)%N || (c =? 46)%N || (c =? 58)%N || (c =? 45)%N.

(** [re.fullmatch(r"[A-Za-z0-9_.:-]{1,128}", s)]. *)
Definition is_identifier (s : pystr) : bool :=
  (1 <=? length s)%nat && (length s <=? 128)%nat && forallb is_ident_char s.

(** [_EVENT_TYPE_RE]: [[a-z0-9_]{1,64}]. *)
Definition is_event_type (s : pystr) : bool :=
  (1 <=? length s)%nat && (length s <=? 64)%nat
  && forallb (fun c => is_lower c || is_digit c || (c =? 95)%N) s.

(** ** Allow-lists and forbidden keys *)

Definition FORBIDDEN_PAYLOAD_KEYS : list pystr :=
  [u "prompt"; u "system_prompt"; u "meta_cognition"; u "internal_instructions"; u "message";
   u "user_message"; u "assistant_message"; u "content"].

Definition SNAPSHOT_FORBIDDEN_KEYS : list pystr :=
  FORBIDDEN_PAYLOAD_KEYS ++ [u "user_id"; u "bond_label"].

Definition REPLAY_PAYLOAD_ALLOWED_KEYS : list pystr :=
  [u "response"; u "emotion_state"; u "message_id"; u "request_id"; u "duration_ms"].

Definition OUTBOX_PAYLOAD_ALLOWED_KEYS : list pystr :=
  [u "ref"; u "request_id"; u "turn_id"; u "message_id"; u "entity_id"; u "kind"; u "version"].

(** ** Canonical serialisation *)

Section Contracts.
Context `{FR : FloatRepr}.

Definition canonical_json (value : pyval) : result storage_exn pystr :=
  rcatch (let* d := json_encode false value in Ok (render d))
    (fun _ => Err (ValidationError (u "invalid_payload"))).

Definition _require_canonical_bytes (value : pyval) (code : pystr) (max_bytes : nat)
  : result storage_exn unit :=
  let* serialized := rcatch (let* d := json_encode false value in Ok (render d))
    (fun _ => Err (ValidationError code)) in
  match utf8_len serialized with
  | None => Err UnicodeEncodeError
  | Some n => if (max_bytes <? n)%nat then Err (ValidationError code) else Ok tt
  end.

Fixpoint _has_forbidden (forbidden : list pystr) (obj : pyval) {struct obj} : bool :=
  match obj with
  | PDict d | PProxy d =>
      existsb (fun kv => match kv with
        (k, nested) => key_in forbidden k || _has_forbidden forbidden nested end) d
  | PList l | PTuple l => existsb (_has_forbidden forbidden) l
  | _ => false
  end.

(** [isinstance(v, Mapping)], with its items. *)
Definition as_mapping (v : pyval) : option pydict :=
  match v with PDict d | PProxy d => Some d | _ => None end.

(** ** Replay payload *)

Definition validate_replay_payload (payload : pyval) : result storage_exn pydict :=
  let bad := Err (ValidationError (u "invalid_replay_payload")) in
  match as_mapping payload with
  | None => bad
  | Some d =>
      if _has_forbidden FORBIDDEN_PAYLOAD_KEYS payload then bad
      else if has_unknown REPLAY_PAYLOAD_ALLOWED_KEYS d then bad
      else
        match dget d (u "response") with
        | Some (PStr _) =>
            let message_id_ok :=
              match dget d (u "message_id") with
              | Some (PInt _) => true
              | Some (PStr s) => is_identifier s
              | _ => false
              end in
            if negb message_id_ok then bad
            else
              let request_id_ok :=
                match dget d (u "request_id") with
                | None => true
                | Some (PStr s) => is_identifier s
                | Some _ => false
                end in
              if negb request_id_ok then bad
              else
                _require_canonical_bytes payload (u "invalid_replay_payload")
                  MAX_REPLAY_PAYLOAD_BYTES ;;;
                Ok d
        | _ => bad
        end
  end.

(** ** Outbox events *)

Record outbox_event : Type := mkEvent {
  ev_type : pystr;
  ev_payload : pydict;
  ev_key : pystr }.

Definition bad_outbox {A} : result storage_exn A := Err (ValidationError (u "invalid_outbox_events")).

Definition _validate_idempotency_key (key : pyval) : result storage_exn pystr :=
  match key with
  | PStr s => if is_identifier s then Ok s else bad_outbox
  | _ => bad_outbox
  end.

(** The value contract of one payload item. *)
Definition outbox_value_ok (kv : pykey * pyval) : bool :=
  match kv.1 with
  | KStr k =>
      if str_eqb k (u "version") then
        match kv.2 with PInt z => (1 <=? z)%Z && (z <=? 1000)%Z | _ => false end
      else match kv.2 with PStr s => is_identifier s | _ => false end
  | KOther _ => match kv.2 with PStr s => is_identifier s | _ => false end
  end.

Definition as_sequence (v : pyval) : option (list pyval) :=
  match v with PList l | PTuple l => Some l | _ => None end.

Definition _validate_outbox_event (event : pyval) : result storage_exn outbox_event :=
  match as_sequence event with
  | Some [event_type; payload; idempotency_key] =>
      match event_type with
      | PStr ty =>
          if negb (is_event_type ty) then bad_outbox
          else
            match as_mapping payload with
            | None => bad_outbox
            | Some d =>
                let* key := _validate_idempotency_key idempotency_key in
                if has_unknown OUTBOX_PAYLOAD_ALLOWED_KEYS d then bad_outbox
                else if _has_forbidden FORBIDDEN_PAYLOAD_KEYS payload then bad_outbox
                else if negb (forallb outbox_value_ok d) then bad_outbox
                else
                  _require_canonical_bytes payload (u "invalid_outbox_events")
                    MAX_OUTBOX_PAYLOAD_BYTES ;;;
                  Ok (mkEvent ty d key)
            end
      | _ => bad_outbox
      end
  | _ => bad_outbox
  end.

Definition validate_outbox_events (events : pyval) : result storage_exn (list outbox_event) :=
  match events with
  | PNone => Ok []
  | _ =>
      match as_sequence events with
      | None => bad_outbox
      | Some l =>
          if (MAX_OUTBOX_EVENTS <? length l)%nat then bad_outbox
          else
            let* validated := rmap _validate_outbox_event l in
            let keys := map ev_key validated in
            if negb (bool_decide (length keys = length (remove_dups keys))) then bad_outbox
            else Ok validated
      end
  end.

(** ** Domain snapshots *)

Definition validate_emotional_snapshot (payload : pyval) : result storage_exn pydict :=
  let bad := Err (ValidationError (u "invalid_emotional_state")) in
  match as_mapping payload with
  | None => bad
  | Some d =>
      if _has_forbidden SNAPSHOT_FORBIDDEN_KEYS payload then bad
      else
        _require_canonical_bytes payload (u "invalid_emotional_state") MAX_SNAPSHOT_BYTES ;;;
        rcatch (EmotionalStateV1_from_dict (PDict d) ;;; Ok d) (fun _ => bad)
  end.

Definition validate_relationship_snapshot (payload : pyval) : result storage_exn pydict :=
  let bad := Err (ValidationError (u "invalid_relationship_state")) in
  match as_mapping payload with
  | None => bad
  | Some d =>
      if _has_forbidden SNAPSHOT_FORBIDDEN_KEYS payload then bad
      else
        _require_canonical_bytes payload (u "invalid_relationship_state") MAX_SNAPSHOT_BYTES ;;;
        rcatch (RelationshipStateV1_from_dict (PDict d) ;;; Ok d) (fun _ => bad)
  end.

(** ** Neutral snapshots *)

Definition neutral_emotional_snapshot (ts : float) : result storage_exn pydict :=
  rcatch (let* s := EmotionalStateV1_neutral (PFloat ts) in Ok (EmotionalStateV1_to_dict s))
    (fun _ => Err DomainErrorExn).

Definition neutral_relationship_snapshot (ts : float) : result storage_exn pydict :=
  rcatch (let* s := RelationshipStateV1_neutral (PFloat ts) in Ok (RelationshipStateV1_to_dict s))
    (fun _ => Err DomainErrorExn).

(** [a == b] on the values a validated snapshot and the expected one hold:
    numbers by value (an [int] and a [float] compare exactly), strings and
    lists of them. *)
Fixpoint py_eq (a b : pyval) {struct a} : bool :=
  match a, b with
  | PInt x, PInt y => (x =? y)%Z
  | PFloat x, PFloat y => x =? y
  | PInt x, PFloat y | PFloat y, PInt x => isfinite y && (fval y =? x * 2 ^ SC)%Z
  | PStr x, PStr y => str_eqb x y
  | PList x, PList y =>
      (fix go (x y : list pyval) : bool :=
         match x, y with
         | [], [] => true
         | a :: x', b :: y' => py_eq a b && go x' y'
         | _, _ => false
         end) x y
  | _, _ => false
  end.

(** [dict(payload) == expected]. *)
Definition dict_eq (a b : pydict) : bool :=
  (length a =? length b)%nat
  && forallb (fun kv => match kv.1 with
       | KStr k => match dget b k with Some v => py_eq kv.2 v | None => false end
       | KOther _ => false
       end) a.

Definition positive_number (v : option pyval) : option float :=
  match v with
  | Some (PInt z) => if (z <=? 0)%Z then None else int_to_float z
  | Some (PFloat f) => if f <=? 0 then None else Some f
  | _ => None
  end.

Definition validate_neutral_emotional_snapshot (payload : pyval) : result storage_exn pydict :=
  let bad := Err (ValidationError (u "invalid_reset_payload")) in
  let* d := validate_emotional_snapshot payload in
  match positive_number (dget d (u "timestamp")) with
  | None => bad
  | Some ts =>
      let* expected := neutral_emotional_snapshot ts in
      if negb (dict_eq d expected) then bad else Ok d
  end.

Definition validate_neutral_relationship_snapshot (payload : pyval) : result storage_exn pydict :=
  let bad := Err (ValidationError (u "invalid_reset_payload")) in
  let* d := validate_relationship_snapshot payload in
  match positive_number (dget d (u "timestamp")) with
  | None => bad
  | Some ts =>
      let* expected := neutral_relationship_snapshot ts in
      if negb (dict_eq d expected) then bad else Ok d
  end.

(** ** The canonical commit payload *)

Definition build_canonical_commit_payload (request_id : pystr) (expected_revision : option Z)
  (user_message assistant_message : pystr) (emotional_state relationship_state : pydict)
  (public_response : pystr) (replay_payload : pydict) (outbox_events : list outbox_event) : pyval :=
  PDict
    [(KStr (u "request_id"), PStr request_id);
     (KStr (u "expected_revision"), match expected_revision with Some z => PInt z | None => PNone end);
     (KStr (u "user_message"), PStr user_message);
     (KStr (u "assistant_message"), PStr assistant_message);
     (KStr (u "emotional_state"), PDict emotional_state);
     (KStr (u "relationship_state"), PDict relationship_state);
     (KStr (u "public_response"), PStr public_response);
     (KStr (u "replay_payload"), PDict replay_payload);
     (KStr (u "outbox_events"), PList (map (fun e =>
        PDict [(KStr (u "event_type"), PStr (ev_type e)); (KStr (u "payload"), PDict (ev_payload e));
               (KStr (u "idempotency_key"), PStr (ev_key e))]) outbox_events))].

(** [hashlib.sha256(...).hexdigest()]. *)
Class Sha256 : Type := sha256 : pystr -> pystr.

Definition canonical_payload_hash `{Sha256} (payload : pyval) : result storage_exn pystr :=
  let* canonical := canonical_json payload in
  match utf8_len canonical with
  | None => Err UnicodeEncodeError
  | Some _ => Ok (sha256 canonical)
  end.

End Contracts.

(** ** What the validators guarantee *)

(** The key [k] occurs in [v], at any depth. *)
Inductive mentions_key (k : pystr) : pyval -> Prop :=
| mk_dict d v : (KStr k, v) ∈ d -> mentions_key k (PDict d)
| mk_proxy d v : (KStr k, v) ∈ d -> mentions_key k (PProxy d)
| mk_dict_in d k' v : (k', v) ∈ d -> mentions_key k v -> mentions_key k (PDict d)
| mk_proxy_in d k' v : (k', v) ∈ d -> mentions_key k v -> mentions_key k (PProxy d)
| mk_list l v : v ∈ l -> mentions_key k v -> mentions_key k (PList l)
| mk_tuple l v : v ∈ l -> mentions_key k v -> mentions_key k (PTuple l).

Lemma existsb_elem {A} (p : A -> bool) l x : x ∈ l -> p x = true -> existsb p l = true.
Proof. intros H1 H2. apply existsb_exists. exists x. by rewrite <- list_elem_of_In. Qed.

Lemma has_forbidden_mentions forbidden k v :
  mentions_key k v -> k ∈ forbidden -> _has_forbidden forbidden v = true.
Proof.
  intros H Hk. assert (key_in forbidden (KStr k) = true) as K by by apply str_in_elem.
  induction H as [d v Hin|d v Hin|d k' v Hin _ IH|d k' v Hin _ IH|l v Hin _ IH|l v Hin _ IH];
    cbn [_has_forbidden]; eapply existsb_elem; try exact Hin; cbn beta iota; try exact IH;
    rewrite ?K, ?IH; by rewrite ?orb_true_r.
Qed.

Section ContractLemmas.
Context `{FR : FloatRepr}.

(** A value within the byte bound, as a document. *)
Definition bounded_json (v : pyval) (max : nat) : Prop :=
  exists doc n, json_encode false v = Ok doc /\ utf8_len (render doc) = Some n /\ n <= max.

Lemma canonical_bytes_ok v code max :
  _require_canonical_bytes v code max = Ok tt -> bounded_json v max.
Proof.
  unfold _require_canonical_bytes. destruct (json_encode false v) as [doc|] eqn:E; cbn [rbind rcatch]; [|done].
  destruct (utf8_len (render doc)) as [n|] eqn:L; [|done].
  destruct (max <? n)%nat eqn:B; [done|]. intros _. apply Nat.ltb_ge in B. by exists doc, n.
Qed.

Lemma no_forbidden forbidden v :
  _has_forbidden forbidden v = false -> forall k, k ∈ forbidden -> ~ mentions_key k v.
Proof. intros H k Hk M. by rewrite (has_forbidden_mentions forbidden k v M Hk) in H. Qed.

Lemma replay_payload_ok p d :
  validate_replay_payload p = Ok d ->
  p = PDict d /\ (forall k, k ∈ FORBIDDEN_PAYLOAD_KEYS -> ~ mentions_key k p)
  /\ has_unknown REPLAY_PAYLOAD_ALLOWED_KEYS d = false
  /\ (exists s, dget d (u "response") = Some (PStr s))
  /\ bounded_json p MAX_REPLAY_PAYLOAD_BYTES.
Proof.
  unfold validate_replay_payload. intros H.
  destruct (as_mapping p) as [d'|] eqn:M; [|done].
  destruct (_has_forbidden _ p) eqn:Fb; [done|]. destruct (has_unknown _ d') eqn:U; [done|].
  destruct (dget d' (u "response")) as [[| | | |s| | | | |]|] eqn:R; try done.
  destruct (negb _); [done|]. destruct (negb _); [done|]. inv_ok. destruct v.
  apply canonical_bytes_ok in E. pose proof E as (doc & n & Ed & _).
  destruct p; try done. cbn in M. simplify_eq.
  split; [done|]. split; [by apply no_forbidden|]. eauto.
Qed.

Lemma emotional_snapshot_ok p d :
  validate_emotional_snapshot p = Ok d ->
  p = PDict d /\ (forall k, k ∈ SNAPSHOT_FORBIDDEN_KEYS -> ~ mentions_key k p)
  /\ bounded_json p MAX_SNAPSHOT_BYTES /\ exists s, EmotionalStateV1_from_dict p = Ok s.
Proof.
  unfold validate_emotional_snapshot. intros H.
  destruct (as_mapping p) as [d'|] eqn:M; [|done].
  destruct (_has_forbidden _ p) eqn:Fb; [done|]. inv_ok. destruct v.
  apply canonical_bytes_ok in E. pose proof E as (doc & n & Ed & _).
  destruct p; try done. cbn in M. simplify_eq.
  destruct (EmotionalStateV1_from_dict (PDict d')) as [s|] eqn:S; cbn in H; [|done]. inv_ok.
  split; [done|]. split; [by apply no_forbidden|]. eauto.
Qed.

Lemma relationship_snapshot_ok p d :
  validate_relationship_snapshot p = Ok d ->
  p = PDict d /\ (forall k, k ∈ SNAPSHOT_FORBIDDEN_KEYS -> ~ mentions_key k p)
  /\ bounded_json p MAX_SNAPSHOT_BYTES /\ exists s, RelationshipStateV1_from_dict p = Ok s.
Proof.
  unfold validate_relationship_snapshot. intros H.
  destruct (as_mapping p) as [d'|] eqn:M; [|done].
  destruct (_has_forbidden _ p) eqn:Fb; [done|]. inv_ok. destruct v.
  apply canonical_bytes_ok in E. pose proof E as (doc & n & Ed & _).
  destruct p; try done. cbn in M. simplify_eq.
  destruct (RelationshipStateV1_from_dict (PDict d')) as [s|] eqn:S; cbn in H; [|done]. inv_ok.
  split; [done|]. split; [by apply no_forbidden|]. eauto.
Qed.

Definition event_wf (e : outbox_event) : Prop :=
  is_event_type (ev_type e) = true /\ is_identifier (ev_key e) = true
  /\ has_unknown OUTBOX_PAYLOAD_ALLOWED_KEYS (ev_payload e) = false
  /\ (forall k, k ∈ FORBIDDEN_PAYLOAD_KEYS -> ~ mentions_key k (PDict (ev_payload e)))
  /\ forallb outbox_value_ok (ev_payload e) = true
  /\ bounded_json (PDict (ev_payload e)) MAX_OUTBOX_PAYLOAD_BYTES.

Lemma outbox_event_ok v e : _validate_outbox_event v = Ok e -> event_wf e.
Proof.
  unfold _validate_outbox_event, bad_outbox. intros H.
  destruct (as_sequence v) as [[|ty [|pl [|key [|]]]]|]; try done.
  destruct ty as [| | | |ty| | | | |]; try done.
  destruct (is_event_type ty) eqn:T; [|done]. cbn [negb] in H.
  destruct (as_mapping pl) as [d|] eqn:M; [|done]. inv_ok. destruct v1.
  unfold _validate_idempotency_key, bad_outbox in E.
  destruct key as [| | | |k| | | | |]; try done. inv_ok.
  apply canonical_bytes_ok in E0. pose proof E0 as (doc & n & Ed & _).
  destruct pl; try done. cbn in M. simplify_eq.
  apply negb_false_iff in G1. unfold event_wf. cbn. split; [done|]. split; [done|].
  split; [done|]. split; [by apply no_forbidden|]. done.
Qed.

Lemma length_remove_dups {A} `{EqDecision A} (l : list A) :
  length l = length (remove_dups l) -> NoDup l.
Proof.
  assert (forall l : list A, length (remove_dups l) <= length l) as L.
  { induction l0 as [|x l0 IH]; cbn; [done|]. case_decide; cbn; lia. }
  induction l as [|x l IH]; [constructor|]. cbn. case_decide as D; cbn.
  - pose proof (L l). lia.
  - intros [= H]. constructor; auto.
Qed.

Lemma outbox_events_ok v es :
  validate_outbox_events v = Ok es ->
  Forall event_wf es /\ NoDup (map ev_key es) /\ length es <= MAX_OUTBOX_EVENTS.
Proof.
  assert (forall l, (if (MAX_OUTBOX_EVENTS <? length l)%nat then bad_outbox else
    let* validated := rmap _validate_outbox_event l in
    if negb (bool_decide (length (map ev_key validated) = length (remove_dups (map ev_key validated))))
    then bad_outbox else Ok validated) = Ok es ->
    Forall event_wf es /\ NoDup (map ev_key es) /\ length es <= MAX_OUTBOX_EVENTS) as K.
  { intros l H. unfold bad_outbox in H. inv_ok. apply negb_false_iff, bool_decide_eq_true in G0.
    apply Nat.ltb_ge in G. pose proof (rmap_ok_length _ _ _ E) as Hl.
    split; [|split; [by apply length_remove_dups|by rewrite Hl]].
    apply rmap_ok_Forall2 in E. clear -E. induction E; constructor; eauto using outbox_event_ok. }
  unfold validate_outbox_events.
  destruct v as [| | | | |l|l| | |]; cbn [as_sequence]; try apply K; try done.
  intros H. inv_ok. split; [constructor|]. split; [constructor|]. unfold MAX_OUTBOX_EVENTS. cbn. lia.
Qed.

End ContractLemmas.

(** ** Snapshots survive storage *)

(** [v'] reads as [v] did, for the emotional validators. *)
Lemma json_scalar nan v j :
  json_encode nan v = Ok j -> (exists f, as_float v = Some f) \/ (exists s, v = PStr s) \/ (exists z, v = PInt z) ->
  json_decode j = v.
Proof.
  intros H [[f Hf]|[[s ->]|[z ->]]]; [|cbn in H; by inv_ok..].
  destruct v; cbn in Hf, H; try done; by inv_ok.
Qed.

Lemma roundtrip_has nan d items k :
  dict_ok d -> rmap (encode_item nan) d = Ok items ->
  dhas (dict_of (sort_keys items)) k = dhas d k.
Proof.
  intros Hd H. pose proof (json_roundtrip_dget nan d items k Hd H) as K. unfold dhas.
  destruct (dget d k); [by destruct K as (j & _ & ->)|by rewrite K].
Qed.

Lemma has_missing_ext {V W} req (d : list (pykey * V)) (d' : list (pykey * W)) :
  (forall k, dhas d' k = dhas d k) -> has_missing req d' = has_missing req d.
Proof.
  intros H. unfold has_missing. induction req as [|k req IH]; [done|]. cbn. by rewrite H, IH.
Qed.

(** Indexing the dict read back. *)
Lemma roundtrip_index nan d items k :
  dict_ok d -> rmap (encode_item nan) d = Ok items ->
  (exists f, as_float (dindex d k) = Some f) \/ (exists s, dindex d k = PStr s)
    \/ (exists z, dindex d k = PInt z) ->
  dindex (dict_of (sort_keys items)) k = dindex d k.
Proof.
  intros Hd H Hv. pose proof (json_roundtrip_dget nan d items k Hd H) as K. unfold dindex in *.
  destruct (dget d k) as [v|]; [|by rewrite K]. destruct K as (j & Ej & ->).
  exact (json_scalar nan v j Ej Hv).
Qed.

Lemma emotional_roundtrip nan d doc s :
  dict_ok d -> EmotionalStateV1_from_dict (PDict d) = Ok s ->
  json_encode nan (PDict d) = Ok doc -> EmotionalStateV1_from_dict (json_decode doc) = Ok s.
Proof.
  intros Hd Hs He. rewrite json_encode_dict in He. inv_ok. rename E into Hi.
  cbn [json_decode]. fold (dict_of (sort_keys v)). cbn [EmotionalStateV1_from_dict] in *. inv_ok.
  rewrite (json_roundtrip_keys nan d v _ Hi G).
  rewrite (roundtrip_has nan d v _ Hd Hi), G0.
  rewrite (has_missing_ext _ d) by (intros; by apply (roundtrip_has nan)). rewrite G1.
  pose proof Hs as [D W]%create_iff.
  destruct D as (D1 & D2 & D3 & D4 & D5 & D6 & D7 & D8 & D9 & D10 & D11). cbn in D1, D2, D3, D4, D5, D6, D7, D8, D9, D10, D11.
  by rewrite !(roundtrip_index nan d v _ Hd Hi) by eauto.
Qed.

Lemma trigger_items_str l res res' :
  rfold validate_trigger res l = Ok res' -> Forall (fun x => exists s, x = PStr s) l.
Proof.
  revert res. induction l as [|x l IH]; intros res H; cbn [rfold] in H; [constructor|].
  inv_ok. constructor; [|by eapply IH]. destruct x; try done. eauto.
Qed.

Lemma encode_strings nan l js :
  Forall (fun x => exists s, x = PStr s) l -> rmap (json_encode nan) l = Ok js ->
  map json_decode js = l.
Proof.
  intros F. revert js. induction F as [|x l [s ->] _ IH]; intros js H; cbn in H; inv_ok; [done|].
  cbn. f_equal. by apply IH.
Qed.

Lemma triggers_roundtrip nan v j ts :
  _validate_triggers v = Ok ts -> json_encode nan v = Ok j ->
  _validate_triggers (json_decode j) = Ok ts.
Proof.
  assert (forall l js, validate_trigger_items l = Ok ts -> rmap (json_encode nan) l = Ok js ->
    map json_decode js = l) as K.
  { intros l js H E. unfold validate_trigger_items in H. inv_ok.
    eapply encode_strings; [|exact E]. by eapply trigger_items_str. }
  destruct v as [| | | | |l|l| | |]; try done; cbn [_validate_triggers json_encode]; intros H E;
    inv_ok; cbn [json_decode _validate_triggers]; by rewrite (K l v H E0).
Qed.

Lemma relationship_roundtrip nan d doc s :
  dict_ok d -> RelationshipStateV1_from_dict (PDict d) = Ok s ->
  json_encode nan (PDict d) = Ok doc -> RelationshipStateV1_from_dict (json_decode doc) = Ok s.
Proof.
  intros Hd Hs He. rewrite json_encode_dict in He. inv_ok. rename E into Hi.
  cbn [json_decode]. fold (dict_of (sort_keys v)). cbn [RelationshipStateV1_from_dict] in *. inv_ok.
  rewrite (json_roundtrip_keys nan d v _ Hi G).
  rewrite (roundtrip_has nan d v _ Hd Hi), G0.
  rewrite (has_missing_ext _ d) by (intros; by apply (roundtrip_has nan)). rewrite G1.
  pose proof Hs as [D W]%rel_create_iff. apply rel_create_iff. split; [|done].
  unfold rel_denote in *.
  cbn [a_rel_timestamp a_rel_schema_version a_trust a_affection a_rel_tension a_triggers] in *.
  destruct D as (D1 & D2 & D3 & D4 & D5 & D6).
  rewrite !(roundtrip_index nan d v _ Hd Hi) by eauto.
  repeat (split; [done|]).
  pose proof (json_roundtrip_dget nan d v (u "triggers") Hd Hi) as K. unfold dindex in D6 |- *.
  destruct (dget d (u "triggers")) as [tv|]; [|done]. destruct K as (j & Ej & ->).
  by eapply triggers_roundtrip.
Qed.

(** ** A domain-valid snapshot beyond the byte bound *)

(** 32 distinct triggers of 128 characters outside the Basic Multilingual
    Plane, four UTF-8 bytes each. *)
Definition wide_trigger (i : nat) : pystr := (128512 + N.of_nat i)%N :: repeat 128512%N 127.
Definition wide_relationship : RelationshipStateV1 :=
  mkRel 1000 1 0.5 0.3 0 (map wide_trigger (seq 0 32)).

Lemma wide_relationship_wf : rel_wf wide_relationship.
Proof.
  apply (rel_from_dict_wf (PDict (RelationshipStateV1_to_dict wide_relationship))).
  vm_compute. reflexivity.
Qed.

Lemma sum_list_with_app {A} (f : A -> nat) l l' :
  sum_list_with f (l ++ l') = (sum_list_with f l + sum_list_with f l')%nat.
Proof. induction l; cbn; lia. Qed.

Lemma utf8_len_app_ge a b c n : utf8_len (a ++ b ++ c) = Some n -> sum_list_with utf8_width b <= n.
Proof.
  unfold utf8_len. destruct (existsb _ _); [done|]. intros [= <-]. rewrite !sum_list_with_app. lia.
Qed.

Definition wide_triggers_doc : jdoc := JArr (map JStr (triggers wide_relationship)).

Lemma wide_too_long (FR : FloatRepr) : 8192 < sum_list_with utf8_width (render wide_triggers_doc).
Proof. apply Nat.ltb_lt. vm_compute. reflexivity. Qed.

Lemma wide_render (FR : FloatRepr) :
  exists doc a c, json_encode false (PDict (RelationshipStateV1_to_dict wide_relationship)) = Ok doc
    /\ render doc = a ++ render wide_triggers_doc ++ c.
Proof.
  eexists _, (u "{" ++ render_str (u "affection") ++ u ":" ++ render (JFloat 0.3) ++ u ","
    ++ render_str (u "schema_version") ++ u ":" ++ render (JInt 1) ++ u ","
    ++ render_str (u "tension") ++ u ":" ++ render (JFloat 0) ++ u ","
    ++ render_str (u "timestamp") ++ u ":" ++ render (JFloat 1000) ++ u ","
    ++ render_str (u "triggers") ++ u ":"),
    (u "," ++ render_str (u "trust") ++ u ":" ++ render (JFloat 0.5) ++ u "}").
  split.
  - instantiate (1 := JObj [(u "affection", JFloat 0.3); (u "schema_version", JInt 1);
      (u "tension", JFloat 0); (u "timestamp", JFloat 1000); (u "triggers", wide_triggers_doc);
      (u "trust", JFloat 0.5)]). vm_compute. reflexivity.
  - cbn [render map join mbind list_bind]. by rewrite <- !app_assoc, ?app_nil_r.
Qed.

Lemma wide_rejected (FR : FloatRepr) :
  is_ok (validate_relationship_snapshot (PDict (RelationshipStateV1_to_dict wide_relationship))) = false.
Proof.
  destruct (validate_relationship_snapshot _) as [d|] eqn:E; [|done].
  apply relationship_snapshot_ok in E as (_ & _ & (doc & n & E & L & B) & _).
  destruct (wide_render FR) as (doc' & a & c & E' & R). rewrite E in E'. simplify_eq.
  rewrite R in L. apply utf8_len_app_ge in L. pose proof (wide_too_long FR).
  unfold MAX_SNAPSHOT_BYTES in B. lia.
Qed.

(** ** Properties *)

(** No prompt, raw message or internal instruction can reach a stored
    payload: whatever the replay, outbox and snapshot validators accept holds
    none of the forbidden keys at any nesting depth, only allow-listed top-level
    keys, and is finite JSON of at most 8192 UTF-8 bytes; outbox events have
    distinct keys and carry only bounded references. *)
Theorem accepted_payloads_are_public : forall (FR : FloatRepr),
  (forall p d, validate_replay_payload p = Ok d ->
     p = PDict d /\ (forall k, k ∈ FORBIDDEN_PAYLOAD_KEYS -> ~ mentions_key k p)
     /\ has_unknown REPLAY_PAYLOAD_ALLOWED_KEYS d = false
     /\ bounded_json p MAX_REPLAY_PAYLOAD_BYTES)
  /\ (forall v es, validate_outbox_events v = Ok es ->
        Forall event_wf es /\ NoDup (map ev_key es) /\ length es <= MAX_OUTBOX_EVENTS)
  /\ (forall p d, validate_emotional_snapshot p = Ok d \/ validate_relationship_snapshot p = Ok d ->
        (forall k, k ∈ SNAPSHOT_FORBIDDEN_KEYS -> ~ mentions_key k p)
        /\ bounded_json p MAX_SNAPSHOT_BYTES).
Proof.
  intros FR. split; [|split].
  - intros p d H%replay_payload_ok. tauto.
  - exact outbox_events_ok.
  - intros p d [H%emotional_snapshot_ok|H%relationship_snapshot_ok]; tauto.
Qed.

(** Snapshots survive storage: a snapshot the validators accept can be
    encoded, and the domain model read back from the stored JSON (keys sorted,
    tuples turned into lists) is the very model the payload stated. *)
Theorem stored_snapshot_roundtrip : forall (FR : FloatRepr) d,
  dict_ok d ->
  (is_ok (validate_emotional_snapshot (PDict d)) = true ->
     exists doc s, json_encode true (PDict d) = Ok doc
       /\ EmotionalStateV1_from_dict (PDict d) = Ok s
       /\ EmotionalStateV1_from_dict (json_decode doc) = Ok s)
  /\ (is_ok (validate_relationship_snapshot (PDict d)) = true ->
     exists doc s, json_encode true (PDict d) = Ok doc
       /\ RelationshipStateV1_from_dict (PDict d) = Ok s
       /\ RelationshipStateV1_from_dict (json_decode doc) = Ok s).
Proof.
  intros FR d Hd. split; intros H.
  - destruct (validate_emotional_snapshot (PDict d)) as [d'|] eqn:E; [|done].
    apply emotional_snapshot_ok in E as (_ & _ & (doc & n & E%json_encode_nan & _) & s & S).
    exists doc, s. eauto using emotional_roundtrip.
  - destruct (validate_relationship_snapshot (PDict d)) as [d'|] eqn:E; [|done].
    apply relationship_snapshot_ok in E as (_ & _ & (doc & n & E%json_encode_nan & _) & s & S).
    exists doc, s. eauto using relationship_roundtrip.
Qed.

(** A rendering of floats for the witnesses: every number prints as [0.5]. *)
Definition flat_repr : FloatRepr := fun _ => u "0.5".

Lemma stored_snapshot_roundtrip_witness :
  exists doc s, json_encode true (PDict (RelationshipStateV1_to_dict sample_rel)) = Ok doc
    /\ RelationshipStateV1_from_dict (json_decode doc) = Ok s.
Proof.
  destruct (@stored_snapshot_roundtrip flat_repr (RelationshipStateV1_to_dict sample_rel)) as [_ R].
  - unfold dict_ok. apply (bool_decide_unpack _). vm_compute. exact I.
  - destruct R as (doc & s & H1 & _ & H2); [vm_compute; reflexivity|]. by exists doc, s.
Defined.

(** The byte bound is tighter than the domain: a valid relationship
    snapshot with 32 triggers of 128 characters is refused by the store whatever
    the rendering of its floats, when the characters take four UTF-8 bytes. *)
Theorem snapshot_bound_refuses_valid_state :
  exists s, rel_wf s /\ forall (FR : FloatRepr),
    is_ok (validate_relationship_snapshot (PDict (RelationshipStateV1_to_dict s))) = false.
Proof. exists wide_relationship. split; [exact wide_relationship_wf|exact wide_rejected]. Qed.
