(* ===== verification/LocalStorage.v ===== *)
(** * The local SQLite store (backend/local_storage/storage.py, migrations.py)

    The tables of migration 1 are the fields of [db]; a statement is a function
    on them with the constraints the schema declares (primary keys, the outbox
    uniqueness, foreign keys with their cascades, [json_valid]).  [store] adds
    what the connection holds: the committed database, the working copy of an
    open transaction, the [_closed] flag and a fault schedule that decides, for
    each statement, whether SQLite raises and whether it then rolls the
    transaction back on its own.  Each operation of [LocalStorage] is a function
    in the monad [M], so an exception keeps the state reached so far.  JSON
    columns hold documents (see Json.v); bookkeeping timestamps that no
    operation reads are left out, and the clock readings are arguments. *)

From S2P Require Import Prelude PyFloat PyValue Json EmotionalModels Relationship StorageContracts.

(** ** Tables *)

Inductive role : Type := RUser | RAssistant.
Inductive turn_status : Type := SPending | SCompleted | SFailed.

#[export] Instance role_eq_dec : EqDecision role. Proof. solve_decision. Defined.
#[export] Instance turn_status_eq_dec : EqDecision turn_status. Proof. solve_decision. Defined.

Record chat_row : Type := mkChat {
  c_id : Z;
  c_role : role;
  c_content : pystr;
  c_created : pystr }.

Record turn_row : Type := mkTurn {
  t_hash : pystr;
  t_status : turn_status;
  t_expected_revision : Z;
  t_committed_revision : option Z;
  t_user_msg : option Z;
  t_assistant_msg : option Z;
  t_replay : option jdoc;
  t_error : option pystr }.

Record outbox_row : Type := mkOutbox {
  o_id : pystr;
  o_event_type : pystr;
  o_key : pystr;
  o_turn : pystr;
  o_payload : jdoc }.

Record memory_row : Type := mkMemory {
  m_id : Z;
  m_content : pystr;
  m_metadata : jdoc;
  m_created : pystr }.

Inductive operation : Type :=
| op_delete_history | op_delete_memories | op_reset_emotional | op_reset_relationship.

#[export] Instance operation_eq_dec : EqDecision operation. Proof. solve_decision. Defined.

Record privacy_row : Type := mkPrivacy {
  p_operation : operation;
  p_result : jdoc }.

Record profile_row : Type := mkProfile {
  pr_persona : option pystr;
  pr_user_profile : jdoc;
  pr_emotional : jdoc;
  pr_relationship : jdoc;
  pr_revision : Z }.

(** [turn_requests] is keyed by [request_id]; the other tables are lists in
    rowid order, with the AUTOINCREMENT counters. *)
Record database : Type := mkDb {
  profiles : option profile_row;
  chat_logs : list chat_row;
  chat_seq : Z;
  turn_requests : gmap pystr turn_row;
  outbox_events : list outbox_row;
  memories : list memory_row;
  memory_seq : Z;
  privacy_operations : list privacy_row }.

Definition empty_db : database := mkDb None [] 0 ∅ [] [] 0 [].

(** ** The connection and its monad *)

Inductive fault : Type :=
| NoFault
| Fault (auto_rollback : bool).

Record store : Type := mkStore {
  committed : database;
  tx : option database;
  closed : bool;
  faults : list fault }.

Definition M (A : Type) : Type := store -> result storage_exn A * store.

Definition mret {A} (a : A) : M A := fun s => (Ok a, s).
Definition mraise {A} (e : storage_exn) : M A := fun s => (Err e, s).
Definition mlift {A} (r : result storage_exn A) : M A := fun s => (r, s).
Definition mbind {A B} (c : M A) (k : A -> M B) : M B := fun s =>
  match c s with
  | (Ok a, s') => k a s'
  | (Err e, s') => (Err e, s')
  end.

(** [try: c except: h]. *)
Definition mtry {A} (c : M A) (h : storage_exn -> M A) : M A := fun s =>
  match c s with
  | (Ok a, s') => (Ok a, s')
  | (Err e, s') => h e s'
  end.

Declare Scope store_scope.
Delimit Scope store_scope with store.
Notation "'do!' x '<-' c 'in' k" := (mbind c (fun x => k))
  (at level 200, x name, c at level 100, k at level 200, right associativity) : store_scope.
Notation "c ';!' k" := (mbind c (fun _ => k)) (at level 199, right associativity) : store_scope.
Local Open Scope store_scope.

(** What the connection reads: the open transaction's copy, else the committed one. *)
Definition view (s : store) : database :=
  match tx s with Some d => d | None => committed s end.

Definition put_view (s : store) (d : database) : store :=
  match tx s with
  | Some _ => mkStore (committed s) (Some d) (closed s) (faults s)
  | None => mkStore d None (closed s) (faults s)
  end.

(** The next entry of the schedule. *)
Definition next_fault (s : store) : fault * store :=
  match faults s with
  | [] => (NoFault, s)
  | f :: l => (f, mkStore (committed s) (tx s) (closed s) l)
  end.

Definition drop_tx (s : store) : store := mkStore (committed s) None (closed s) (faults s).

(** [conn.execute(...)] of a statement with result [A]; [None] is a violated
    constraint, which undoes the statement alone. *)
Definition execute {A} (f : database -> option (A * database)) : M A := fun s =>
  match next_fault s with
  | (Fault auto, s1) => (Err SqliteError, if auto then drop_tx s1 else s1)
  | (NoFault, s1) =>
      match f (view s1) with
      | None => (Err SqliteError, s1)
      | Some (a, d) => (Ok a, put_view s1 d)
      end
  end.

Definition query {A} (f : database -> A) : M A := execute (fun d => Some (f d, d)).

(** Binding a [str] or an [int] parameter: [sqlite3] encodes the text as UTF-8
    and needs a 64-bit integer, and raises before the statement runs. *)
Definition bind_text (s : pystr) : M unit :=
  mlift (match utf8_len s with None => Err UnicodeEncodeError | Some _ => Ok tt end).

Definition bind_int (z : Z) : M unit :=
  mlift (if ((-2^63 <=? z) && (z <? 2^63))%Z then Ok tt else Err OverflowError).

Definition begin_immediate : M unit := fun s =>
  match next_fault s with
  | (Fault _, s1) => (Err SqliteError, s1)
  | (NoFault, s1) =>
      match tx s1 with
      | Some _ => (Err SqliteError, s1)
      | None => (Ok tt, mkStore (committed s1) (Some (committed s1)) (closed s1) (faults s1))
      end
  end.

Definition commit : M unit := fun s =>
  match next_fault s with
  | (Fault auto, s1) => (Err SqliteError, if auto then drop_tx s1 else s1)
  | (NoFault, s1) =>
      match tx s1 with
      | None => (Err SqliteError, s1)
      | Some d => (Ok tt, mkStore d None (closed s1) (faults s1))
      end
  end.

(** A rollback does not fail on an open transaction. *)
Definition rollback : M unit := fun s =>
  match tx s with
  | None => (Err SqliteError, s)
  | Some _ => (Ok tt, drop_tx s)
  end.

Definition in_transaction : M bool := fun s =>
  (Ok (match tx s with Some _ => true | None => false end), s).

(** [if conn.in_transaction: conn.execute("ROLLBACK")]. *)
Definition rollback_if_open : M unit :=
  do! b <- in_transaction in if b then rollback else mret tt.

(** [except sqlite3.Error: rollback; raise PersistenceError("database_error")];
    any other exception passes through untouched. *)
Definition sanitize {A} (c : M A) : M A :=
  mtry c (fun e => match e with
    | SqliteError => rollback_if_open ;! mraise (PersistenceError (u "database_error"))
    | _ => mraise e
    end).

(** The read paths: no transaction to roll back. *)
Definition sanitize_read {A} (c : M A) : M A :=
  mtry c (fun e => match e with
    | SqliteError => mraise (PersistenceError (u "database_error"))
    | _ => mraise e
    end).

(** [self._connection()]: the lifecycle gate. *)
Definition _connection : M unit := fun s =>
  if closed s then (Err (PersistenceError (u "storage_closed")), s) else (Ok tt, s).

(** ** Validation helpers *)

Definition MAX_MESSAGE_LENGTH : Z := 10000.
Definition MAX_REQUEST_ID_LENGTH : nat := 128.

Definition _reservation_marker (history_generation : Z) : pystr :=
  u "reserved:history:" ++ render_int history_generation.

Definition _validate_request_id (request_id : pyval) : result storage_exn pystr :=
  let bad := Err (ValidationError (u "invalid_request_id")) in
  match request_id with
  | PStr [] => bad
  | PStr s =>
      if (MAX_REQUEST_ID_LENGTH <? length s)%nat then bad
      else if negb (forallb is_ident_char s) then bad
      else Ok s
  | _ => bad
  end.

Definition too_long (s : pystr) : bool := (MAX_MESSAGE_LENGTH <? Z.of_nat (length s))%Z.

Definition _validate_message (value : pyval) : result storage_exn pystr :=
  match value with
  | PStr [] => Err (ValidationError (u "empty_message"))
  | PStr s => if too_long s then Err (ValidationError (u "message_too_long")) else Ok s
  | _ => Err (ValidationError (u "empty_message"))
  end.

(** A generation or revision argument: a non-negative [int], not a [bool]. *)
Definition validate_nonneg (v : pyval) (code : pystr) : result storage_exn Z :=
  match v with
  | PInt z => if (z <? 0)%Z then Err (ValidationError code) else Ok z
  | _ => Err (ValidationError code)
  end.

Definition _json_dumps (value : pyval) : result storage_exn jdoc :=
  rcatch (json_encode true value) (fun _ => Err (ValidationError (u "invalid_payload"))).

(** ** Statements *)

Definition with_chat (d : database) (l : list chat_row) (seq : Z) : database :=
  mkDb (profiles d) l seq (turn_requests d) (outbox_events d) (memories d) (memory_seq d)
    (privacy_operations d).
Definition with_turns (d : database) (m : gmap pystr turn_row) (o : list outbox_row) : database :=
  mkDb (profiles d) (chat_logs d) (chat_seq d) m o (memories d) (memory_seq d) (privacy_operations d).
Definition with_profile (d : database) (p : profile_row) : database :=
  mkDb (Some p) (chat_logs d) (chat_seq d) (turn_requests d) (outbox_events d) (memories d)
    (memory_seq d) (privacy_operations d).
Definition with_memories (d : database) (l : list memory_row) (seq : Z) : database :=
  mkDb (profiles d) (chat_logs d) (chat_seq d) (turn_requests d) (outbox_events d) l seq
    (privacy_operations d).
Definition with_privacy (d : database) (l : list privacy_row) : database :=
  mkDb (profiles d) (chat_logs d) (chat_seq d) (turn_requests d) (outbox_events d) (memories d)
    (memory_seq d) l.

(** [insert into chat_logs ...]; the result is [lastrowid]. *)
Definition insert_chat (r : role) (content created : pystr) (d : database)
  : option (Z * database) :=
  let id := (chat_seq d + 1)%Z in
  Some (id, with_chat d (chat_logs d ++ [mkChat id r content created]) id).

Definition chat_exists (d : database) (id : option Z) : bool :=
  match id with
  | None => true
  | Some i => existsb (fun r => (c_id r =? i)%Z) (chat_logs d)
  end.

(** The upsert of the single profile row. *)
Definition upsert_profile (emotional relationship : jdoc) (revision : Z) (d : database)
  : option (unit * database) :=
  if (revision <? 0)%Z then None
  else
    let p := match profiles d with
             | Some p => mkProfile (pr_persona p) (pr_user_profile p) emotional relationship revision
             | None => mkProfile None (JObj []) emotional relationship revision
             end in
    Some (tt, with_profile d p).

(** The upsert of a completed ledger row, with its two foreign keys. *)
Definition upsert_turn (rid : pystr) (row : turn_row) (d : database) : option (unit * database) :=
  if chat_exists d (t_user_msg row) && chat_exists d (t_assistant_msg row) then
    let row' := match turn_requests d !! rid with
                | Some old => mkTurn (t_hash row) (t_status row) (t_expected_revision row)
                    (t_committed_revision row) (t_user_msg row) (t_assistant_msg row) (t_replay row)
                    (t_error old)
                | None => row
                end in
    Some (tt, with_turns d (<[rid := row']> (turn_requests d)) (outbox_events d))
  else None.

(** [insert into outbox_events ... on conflict (idempotency_key, event_type) do nothing]. *)
Definition insert_outbox (row : outbox_row) (d : database) : option (unit * database) :=
  if negb (json_valid (o_payload row)) then None
  else if existsb (fun r => str_eqb (o_key r) (o_key row) && str_eqb (o_event_type r) (o_event_type row))
            (outbox_events d)
  then Some (tt, d)
  else if existsb (fun r => str_eqb (o_id r) (o_id row)) (outbox_events d) then None
  else match turn_requests d !! o_turn row with
       | None => None
       | Some _ => Some (tt, with_turns d (turn_requests d) (outbox_events d ++ [row]))
       end.

(** Deleting ledger rows removes their outbox events. *)
Definition delete_turns (keep : pystr -> turn_row -> bool) (d : database) : database :=
  let m := filter (fun kv => keep kv.1 kv.2 = true) (turn_requests d) in
  with_turns d m (List.filter (fun o => match m !! o_turn o with Some _ => true | None => false end)
                    (outbox_events d)).

(** Deleting messages removes the ledger rows that refer to them. *)
Definition refers_to (gone : Z -> bool) (row : turn_row) : bool :=
  match t_user_msg row with Some i => gone i | None => false end
  || match t_assistant_msg row with Some i => gone i | None => false end.

Definition delete_chats (gone : Z -> bool) (d : database) : database :=
  let d1 := delete_turns (fun _ row => negb (refers_to gone row)) d in
  with_chat d1 (List.filter (fun r => negb (gone (c_id r))) (chat_logs d)) (chat_seq d).

Definition insert_privacy (op : operation) (result : jdoc) (d : database) : option (unit * database) :=
  if json_valid result then Some (tt, with_privacy d (privacy_operations d ++ [mkPrivacy op result]))
  else None.

Definition insert_memory (content : pystr) (metadata : jdoc) (created : pystr) (d : database)
  : option (Z * database) :=
  if json_valid metadata then
    let id := (memory_seq d + 1)%Z in
    Some (id, with_memories d (memories d ++ [mkMemory id content metadata created]) id)
  else None.

(** [select count( * ) from privacy_operations where operation = 'delete_history']. *)
Definition history_generation_of (d : database) : Z :=
  Z.of_nat (length (List.filter (fun r => bool_decide (p_operation r = op_delete_history))
                      (privacy_operations d))).

Definition current_revision_of (d : database) : Z :=
  match profiles d with Some p => pr_revision p | None => 0%Z end.

(** ** Results *)

Record CommittedTurn : Type := mkCommitted {
  ct_request_id : pystr;
  ct_revision : Z;
  ct_user_message_id : Z;
  ct_assistant_message_id : Z;
  ct_response : pyval;
  ct_emotion_state : pyval;
  ct_message_id : option pystr }.   (** [None] for [str()] of anything but an [int] or a [str] *)

Inductive outcome_status : Type :=
| o_completed | o_replay_unavailable | o_in_progress | o_fresh | o_conflict | o_replay | o_reserved.

Record ReplayOutcome : Type := mkOutcome {
  ro_status : outcome_status;
  ro_committed : option CommittedTurn;
  ro_history_generation : option Z }.

Definition py_str (v : pyval) : option pystr :=
  match v with PStr s => Some s | PInt z => Some (render_int z) | _ => None end.

(** [payload.get(k, default)]. *)
Definition dget_or (d : pydict) (k : pystr) (default : pyval) : pyval :=
  match dget d k with Some v => v | None => default end.

Definition committed_of (rid : pystr) (revision user_id assistant_id : Z) (payload : pydict) : CommittedTurn :=
  mkCommitted rid revision user_id assistant_id
    (dget_or payload (u "response") (PStr []))
    (dget_or payload (u "emotion_state") (PDict []))
    (py_str (dget_or payload (u "message_id") (PStr []))).

Definition or0 (z : option Z) : Z := match z with Some z => z | None => 0%Z end.

Definition _committed_from_row (rid : pystr) (row : turn_row) : result storage_exn CommittedTurn :=
  let payload := match t_replay row with Some doc => json_decode doc | None => PDict [] end in
  match payload with
  | PDict d => Ok (committed_of rid (or0 (t_committed_revision row)) (or0 (t_user_msg row))
                     (or0 (t_assistant_msg row)) d)
  | _ => Err (PersistenceError (u "invalid_state"))
  end.

(** ** The operations *)

Section Operations.
Context `{FR : FloatRepr, SH : Sha256}.

(** *** Opening: recovery of interrupted turns *)

Definition fail_pending (row : turn_row) : turn_row :=
  if bool_decide (t_status row = SPending) then
    mkTurn (t_hash row) SFailed (t_expected_revision row) (t_committed_revision row)
      (t_user_msg row) (t_assistant_msg row) (t_replay row) (Some (u "interrupted"))
  else row.

Definition _recover_interrupted_turns : M unit :=
  begin_immediate ;!
  mtry
    (execute (fun d => Some (tt, with_turns d (fail_pending <$> turn_requests d) (outbox_events d))) ;!
     commit)
    (fun e => rollback ;! mraise e).

(** A process that stops loses its open transaction; the next one opens the
    committed file with a fresh connection. *)
Definition reopened (s : store) : store := mkStore (committed s) None false (faults s).

(** *** State load *)

Record LoadedUserState : Type := mkLoaded {
  ls_revision : Z;
  ls_persona : option pystr;
  ls_user_profile : pyval;
  ls_emotional : pyval;
  ls_relationship : pyval }.

Definition as_dict (v : pyval) : pyval := match v with PDict _ => v | _ => PDict [] end.

Definition load_user_state (timestamp : float) : M LoadedUserState :=
  do! row <- sanitize_read (_connection ;! query profiles) in
  match row with
  | None =>
      do! e <- mlift (neutral_emotional_snapshot timestamp) in
      do! r <- mlift (neutral_relationship_snapshot timestamp) in
      mret (mkLoaded 0 None (PDict []) (PDict e) (PDict r))
  | Some p =>
      if (pr_revision p <? 0)%Z then mraise (PersistenceError (u "invalid_state"))
      else mret (mkLoaded (pr_revision p) (pr_persona p) (as_dict (json_decode (pr_user_profile p)))
             (as_dict (json_decode (pr_emotional p))) (as_dict (json_decode (pr_relationship p))))
  end.

(** [order by created_at desc, id desc limit n], reversed: the [n] greatest rows
    in ascending order. *)
Definition key_ltb (a b : pystr * Z) : bool :=
  str_ltb a.1 b.1 || (str_eqb a.1 b.1 && (a.2 <? b.2)%Z).

Fixpoint insert_by {A} (key : A -> pystr * Z) (x : A) (l : list A) : list A :=
  match l with
  | [] => [x]
  | y :: l' => if key_ltb (key x) (key y) then x :: l else y :: insert_by key x l'
  end.

Definition sort_by {A} (key : A -> pystr * Z) (l : list A) : list A := fold_right (insert_by key) [] l.

Definition last_n {A} (n : nat) (l : list A) : list A := drop (length l - n) l.

Definition newest {A} (key : A -> pystr * Z) (n : nat) (l : list A) : list A :=
  last_n n (sort_by key l).

Definition validate_limit (limit : pyval) : result storage_exn nat :=
  match limit with
  | PInt z => if (1 <=? z)%Z && (z <=? 500)%Z then Ok (Z.to_nat z)
              else Err (ValidationError (u "invalid_limit"))
  | _ => Err (ValidationError (u "invalid_limit"))
  end.

Definition load_recent_history (limit : pyval) : M (list chat_row) :=
  do! n <- mlift (validate_limit limit) in
  do! rows <- sanitize_read (_connection ;!
    query (fun d => newest (fun r => (c_created r, c_id r)) n (chat_logs d))) in
  if existsb (fun r => too_long (c_content r)) rows then mraise (PersistenceError (u "invalid_state"))
  else mret rows.

Definition load_recent_memories (limit : pyval) : M (list (pystr * pyval)) :=
  do! n <- mlift (validate_limit limit) in
  do! rows <- sanitize_read (_connection ;!
    query (fun d => newest (fun r => (m_created r, m_id r)) n (memories d))) in
  if existsb (fun r => too_long (m_content r)
                       || match json_decode (m_metadata r) with PDict _ => false | _ => true end) rows
  then mraise (PersistenceError (u "invalid_state"))
  else mret (map (fun r => (m_content r, json_decode (m_metadata r))) rows).

(** *** The atomic turn commit *)

Record CommitArgs : Type := mkCommitArgs {
  ca_request_id : pyval;
  ca_history_generation : pyval;
  ca_user_message : pyval;
  ca_assistant_message : pyval;
  ca_emotional_state : pyval;
  ca_relationship_state : pyval;
  ca_public_response : pyval;
  ca_replay_payload : pyval;
  ca_outbox_events : pyval;
  ca_expected_revision : pyval }.   (** [PNone] when not given *)

(** The arguments once validated, with the canonical payload hash. *)
Record CommitInput : Type := mkInput {
  in_request_id : pystr;
  in_generation : Z;
  in_user_message : pystr;
  in_assistant_message : pystr;
  in_emotional : pydict;
  in_relationship : pydict;
  in_response : pystr;
  in_replay : pydict;
  in_outbox : list outbox_event;
  in_expected : option Z;
  in_hash : pystr }.

(** Step 1 of [commit_turn]: every check that precedes the lock. *)
Definition validate_commit (a : CommitArgs) : result storage_exn CommitInput :=
  let* rid := _validate_request_id (ca_request_id a) in
  let* gen := validate_nonneg (ca_history_generation a) (u "invalid_history_generation") in
  let* um := _validate_message (ca_user_message a) in
  let* am := _validate_message (ca_assistant_message a) in
  let* resp := match ca_public_response a with
               | PStr (c :: t) => Ok (c :: t)
               | _ => Err (ValidationError (u "invalid_public_response"))
               end in
  if too_long resp then Err (ValidationError (u "message_too_long"))
  else
  let* replay := validate_replay_payload (ca_replay_payload a) in
  if negb (py_eq (dget_or replay (u "response") PNone) (PStr resp))
  then Err (ValidationError (u "invalid_public_response"))
  else if match dget replay (u "request_id") with
          | Some v => negb (py_eq v (PStr rid))
          | None => false
          end
  then Err (ValidationError (u "invalid_replay_payload"))
  else
  let* em := validate_emotional_snapshot (ca_emotional_state a) in
  let* rel := validate_relationship_snapshot (ca_relationship_state a) in
  let* outbox := validate_outbox_events (ca_outbox_events a) in
  let* expected := match ca_expected_revision a with
                   | PNone => Ok None
                   | v => let* z := validate_nonneg v (u "invalid_expected_revision") in Ok (Some z)
                   end in
  let* hash := canonical_payload_hash
    (build_canonical_commit_payload rid expected um am em rel resp replay outbox) in
  Ok (mkInput rid gen um am em rel resp replay outbox expected hash).

Definition conflict {A} (i : CommitInput) (code : pystr) : M A :=
  mraise (ConflictError code (or0 (in_expected i)) None).

(** The identifier of an outbox row. *)
Definition outbox_id (e : outbox_event) : pystr := ev_key e ++ u ":" ++ ev_type e.

Fixpoint insert_outbox_events (rid : pystr) (es : list outbox_event) : M unit :=
  match es with
  | [] => mret tt
  | e :: es' =>
      do! doc <- mlift (_json_dumps (PDict (ev_payload e))) in
      execute (insert_outbox (mkOutbox (outbox_id e) (ev_type e) (ev_key e) rid doc)) ;!
      insert_outbox_events rid es'
  end.

(** The body of the write transaction: [inl] is a replay found inside it. *)
Definition commit_body (now : pystr) (i : CommitInput) : M (CommittedTurn + CommittedTurn) :=
  begin_immediate ;!
  do! existing <- query (fun d => turn_requests d !! in_request_id i) in
  do! current_generation <- query history_generation_of in
  match existing with
  | Some row =>
      if bool_decide (t_status row = SCompleted) then
        if negb (str_eqb (t_hash row) (in_hash i))
        then rollback ;! conflict i (u "request_payload_conflict")
        else rollback ;!
             do! c <- mlift (_committed_from_row (in_request_id i) row) in mret (inl c)
      else if negb (current_generation =? in_generation i)%Z
              || negb (bool_decide (t_status row = SPending))
              || negb (str_eqb (t_hash row) (_reservation_marker (in_generation i)))
      then rollback ;! conflict i (u "request_reservation_invalidated")
      else
        do! profile <- query profiles in
        let current_revision := match profile with Some p => pr_revision p | None => 0%Z end in
        let expected := match in_expected i with None => current_revision | Some z => z end in
        if negb (expected =? current_revision)%Z
        then mraise (ConflictError (u "revision_mismatch") expected (Some current_revision))
        else
        do! user_message_id <- execute (insert_chat RUser (in_user_message i) now) in
        do! assistant_message_id <- execute (insert_chat RAssistant (in_assistant_message i) now) in
        let new_revision := (current_revision + 1)%Z in
        do! ej <- mlift (_json_dumps (PDict (in_emotional i))) in
        do! rj <- mlift (_json_dumps (PDict (in_relationship i))) in
        execute (upsert_profile ej rj new_revision) ;!
        do! pj <- mlift (_json_dumps (PDict (in_replay i))) in
        execute (upsert_turn (in_request_id i)
          (mkTurn (in_hash i) SCompleted expected (Some new_revision) (Some user_message_id)
             (Some assistant_message_id) (Some pj) None)) ;!
        insert_outbox_events (in_request_id i) (in_outbox i) ;!
        commit ;!
        mret (inr (committed_of (in_request_id i) new_revision user_message_id
                     assistant_message_id (in_replay i)))
  | None => rollback ;! conflict i (u "request_reservation_invalidated")
  end.

(** The three [except] clauses around it. *)
Definition commit_guard {A} (c : M A) : M A :=
  mtry c (fun e => rollback_if_open ;!
    mraise (match e with SqliteError => PersistenceError (u "database_error") | _ => e end)).

Definition commit_turn (now : pystr) (a : CommitArgs) : M CommittedTurn :=
  do! i <- mlift (validate_commit a) in
  _connection ;!
  do! existing <- query (fun d => turn_requests d !! in_request_id i) in
  let proceed :=
    do! r <- commit_guard (commit_body now i) in
    mret (match r with inl c => c | inr c => c end) in
  match existing with
  | Some row =>
      match t_status row with
      | SPending => proceed
      | SCompleted =>
          if negb (str_eqb (t_hash row) (in_hash i))
          then conflict i (u "request_payload_conflict")
          else mlift (_committed_from_row (in_request_id i) row)
      | SFailed => conflict i (u "request_replay_unavailable")
      end
  | None => proceed
  end.

(** *** Replay and admission *)

Definition replay (request_id : pyval) : M ReplayOutcome :=
  do! rid <- mlift (_validate_request_id request_id) in
  do! row <- sanitize_read (_connection ;! query (fun d => turn_requests d !! rid)) in
  match row with
  | None => mret (mkOutcome o_replay_unavailable None None)
  | Some row =>
      match t_status row with
      | SCompleted =>
          do! c <- mlift (_committed_from_row rid row) in mret (mkOutcome o_completed (Some c) None)
      | SPending => mret (mkOutcome o_in_progress None None)
      | SFailed => mret (mkOutcome o_replay_unavailable None None)
      end
  end.

(** [select content from chat_logs where id = ?]. *)
Definition chat_content (d : database) (id : option Z) : option pystr :=
  match id with
  | None => None
  | Some i => c_content <$> List.find (fun r => (c_id r =? i)%Z) (chat_logs d)
  end.

Definition check_request (request_id user_message : pyval) : M ReplayOutcome :=
  do! rid <- mlift (_validate_request_id request_id) in
  do! um <- mlift (_validate_message user_message) in
  do! row <- sanitize_read (_connection ;! query (fun d => turn_requests d !! rid)) in
  match row with
  | None => mret (mkOutcome o_fresh None None)
  | Some row =>
      if negb (bool_decide (t_status row = SCompleted)) then mret (mkOutcome o_conflict None None)
      else
        do! stored <- sanitize_read (_connection ;! query (fun d => chat_content d (t_user_msg row))) in
        if bool_decide (stored = Some um) then
          do! c <- mlift (_committed_from_row rid row) in mret (mkOutcome o_replay (Some c) None)
        else mret (mkOutcome o_conflict None None)
  end.

Definition release_request (request_id history_generation : pyval) : M unit :=
  do! rid <- mlift (_validate_request_id request_id) in
  do! gen <- mlift (validate_nonneg history_generation (u "invalid_history_generation")) in
  _connection ;!
  sanitize
    (begin_immediate ;!
     execute (fun d => Some (tt, delete_turns (fun k row =>
       negb (str_eqb k rid && bool_decide (t_status row = SPending)
             && str_eqb (t_hash row) (_reservation_marker gen))) d)) ;!
     commit).

(** [insert ... on conflict (request_id) do nothing]; the result is [rowcount == 1]. *)
Definition insert_reservation (rid marker : pystr) (d : database) : option (bool * database) :=
  match turn_requests d !! rid with
  | Some _ => Some (false, d)
  | None => Some (true, with_turns d
      (<[rid := mkTurn marker SPending 0 None None None None None]> (turn_requests d)) (outbox_events d))
  end.

Definition reserve_request (request_id user_message : pyval) : M ReplayOutcome :=
  do! rid <- mlift (_validate_request_id request_id) in
  do! um <- mlift (_validate_message user_message) in
  _connection ;!
  sanitize
    (begin_immediate ;!
     do! generation <- query history_generation_of in
     do! inserted <- execute (insert_reservation rid (_reservation_marker generation)) in
     if inserted : bool then commit ;! mret (mkOutcome o_reserved None (Some generation))
     else
       do! row <- query (fun d => turn_requests d !! rid) in
       match row with
       | None => mret (mkOutcome o_conflict None None)   (* excluded by the assertion *)
       | Some row =>
           match t_status row with
           | SPending => commit ;! mret (mkOutcome o_conflict None None)
           | SCompleted =>
               rollback ;!
               do! stored <- query (fun d => chat_content d (t_user_msg row)) in
               if bool_decide (stored = Some um) then
                 do! c <- mlift (_committed_from_row rid row) in mret (mkOutcome o_replay (Some c) None)
               else mret (mkOutcome o_conflict None None)
           | SFailed => rollback ;! mret (mkOutcome o_conflict None None)
           end
       end).

(** *** Memory *)

Definition store_memory (now : pystr) (content metadata : pyval) : M Z :=
  do! c <- mlift (_validate_message content) in
  match as_mapping metadata with
  | None => mraise (ValidationError (u "invalid_metadata"))
  | Some _ =>
      _connection ;!
      begin_immediate ;!
      sanitize
        (do! doc <- mlift (_json_dumps metadata) in
         bind_text c ;! bind_text (render doc) ;!
         do! id <- execute (insert_memory c doc now) in
         commit ;! mret id)
  end.

(** *** Privacy operations *)

(** The aggregate result document of an operation. *)
Definition privacy_result (items : list (pystr * Z)) : pyval :=
  PDict ((KStr (u "status"), PStr (u "applied")) :: map (fun kv => (KStr kv.1, PInt kv.2)) items).

Definition delete_history : M pyval :=
  _connection ;!
  begin_immediate ;!
  sanitize
    (do! chat_count <- query (fun d => Z.of_nat (length (chat_logs d))) in
     do! turn_count <- query (fun d => Z.of_nat (size (turn_requests d))) in
     do! outbox_count <- query (fun d => Z.of_nat (length (outbox_events d))) in
     execute (fun d => Some (tt, delete_turns (fun _ _ => false) d)) ;!
     execute (fun d => Some (tt, delete_chats (fun _ => true) d)) ;!
     do! remaining <- query (fun d => Z.of_nat (length (chat_logs d))) in
     if negb (remaining =? 0)%Z then mraise (PersistenceError (u "database_error"))
     else
       let result := privacy_result [(u "deleted_messages", chat_count);
         (u "deleted_turn_requests", turn_count); (u "deleted_outbox_events", outbox_count)] in
       do! doc <- mlift (_json_dumps result) in
       execute (insert_privacy op_delete_history doc) ;!
       commit ;!
       mret result).

Definition _privacy_delete (op : operation) (del : database -> database) (result_key : pystr)
  (count : database -> Z) : M pyval :=
  _connection ;!
  begin_immediate ;!
  sanitize
    (do! n <- query count in
     execute (fun d => Some (tt, del d)) ;!
     let result := privacy_result [(result_key, n)] in
     do! doc <- mlift (_json_dumps result) in
     execute (insert_privacy op doc) ;!
     commit ;!
     mret result).

Definition delete_memories : M pyval :=
  _privacy_delete op_delete_memories (fun d => with_memories d [] (memory_seq d))
    (u "deleted_memories") (fun d => Z.of_nat (length (memories d))).

Inductive state_field : Type := FEmotional | FRelationship.

(** [update profiles set <field> = ?, revision = ? where id = 1]; the result is [rowcount]. *)
Definition update_profile_field (f : state_field) (doc : jdoc) (revision : Z) (d : database)
  : option (Z * database) :=
  match profiles d with
  | None => Some (0%Z, d)
  | Some p =>
      if (revision <? 0)%Z then None
      else Some (1%Z, with_profile d
        match f with
        | FEmotional => mkProfile (pr_persona p) (pr_user_profile p) doc (pr_relationship p) revision
        | FRelationship => mkProfile (pr_persona p) (pr_user_profile p) (pr_emotional p) doc revision
        end)
  end.

(** [insert into profiles (id, ...) values (1, ...)]. *)
Definition insert_profile (emotional relationship : jdoc) (revision : Z) (d : database)
  : option (unit * database) :=
  match profiles d with
  | Some _ => None
  | None => if (revision <? 0)%Z then None
            else Some (tt, with_profile d (mkProfile None (JObj []) emotional relationship revision))
  end.

Definition _reset_state_field (op : operation) (f : state_field) (canonical_neutral : pydict)
  (now_unix : float) : M pyval :=
  _connection ;!
  begin_immediate ;!
  sanitize
    (do! current_revision <- query current_revision_of in
     let new_revision := (current_revision + 1)%Z in
     do! doc <- mlift (_json_dumps (PDict canonical_neutral)) in
     do! updated <- execute (update_profile_field f doc new_revision) in
     (if (updated =? 0)%Z then
        do! docs <- match f with
          | FEmotional =>
              do! r <- mlift (neutral_relationship_snapshot now_unix) in
              do! rj <- mlift (_json_dumps (PDict r)) in mret (doc, rj)
          | FRelationship =>
              do! e <- mlift (neutral_emotional_snapshot now_unix) in
              do! ej <- mlift (_json_dumps (PDict e)) in mret (ej, doc)
          end in
        execute (insert_profile (fst docs) (snd docs) new_revision)
      else mret tt) ;!
     let result := privacy_result [(u "revision", new_revision)] in
     do! rdoc <- mlift (_json_dumps result) in
     execute (insert_privacy op rdoc) ;!
     commit ;!
     mret result).

(** [neutral] is [None] when the argument is not given; the clock is read once
    for the canonical snapshot and, when the profile row is missing, once more. *)
Definition reset_emotional_state (now_unix now_unix' : float) (neutral : option pyval) : M pyval :=
  do! canonical <- mlift (neutral_emotional_snapshot now_unix) in
  (match neutral with
   | None => mret tt
   | Some v => do! d <- mlift (validate_neutral_emotional_snapshot v) in mret tt
   end) ;!
  _reset_state_field op_reset_emotional FEmotional canonical now_unix'.

Definition reset_relationship_state (now_unix now_unix' : float) (neutral : option pyval) : M pyval :=
  do! canonical <- mlift (neutral_relationship_snapshot now_unix) in
  (match neutral with
   | None => mret tt
   | Some v => do! d <- mlift (validate_neutral_relationship_snapshot v) in mret tt
   end) ;!
  _reset_state_field op_reset_relationship FRelationship canonical now_unix'.

(** *** Retention *)

Definition trim_history (keep_last : pyval) : M pyval :=
  do! n <- mlift (validate_nonneg keep_last (u "invalid_keep_last")) in
  _connection ;!
  begin_immediate ;!
  sanitize
    (do! count <- query (fun d => Z.of_nat (length (chat_logs d))) in
     bind_int n ;!
     execute (fun d =>
       let kept := map c_id (last_n (Z.to_nat n) (chat_logs d)) in
       Some (tt, delete_chats (fun i => negb (bool_decide (i ∈ kept))) d)) ;!
     commit ;!
     mret (privacy_result [(u "remaining", Z.min count n)])).

(** *** Lifecycle *)

Definition close : M unit := fun s => (Ok tt, mkStore (committed s) None true (faults s)).

End Operations.
