(* ===== verification/StorageSpec.v ===== *)
(** * Correctness of the local store

    A weakest-precondition calculus for the monad of LocalStorage.v, the
    functional specification of each operation under every fault schedule, the
    invariant of the database and its preservation by every sequence of calls,
    crashes and restarts. *)

From S2P Require Import Prelude PyFloat PyValue Json EmotionalModels Relationship StorageContracts.
From S2P Require Import LocalStorage.
Local Open Scope store_scope.

(** ** Weakest preconditions *)

Definition wp {A} (c : M A) (s : store) (Q : result storage_exn A -> store -> Prop) : Prop :=
  Q (c s).1 (c s).2.

Lemma wp_intro {A} (c : M A) s Q r s' : wp c s Q -> c s = (r, s') -> Q r s'.
Proof. unfold wp. by intros H E; rewrite E in H. Qed.

Lemma wp_mono {A} (c : M A) s (Q Q' : result storage_exn A -> store -> Prop) :
  (forall r s', Q r s' -> Q' r s') -> wp c s Q -> wp c s Q'.
Proof. unfold wp. auto. Qed.

Lemma wp_ret {A} (a : A) s (Q : result storage_exn A -> store -> Prop) : Q (Ok a) s -> wp (mret a) s Q.
Proof. done. Qed.

Lemma wp_raise {A} e s (Q : result storage_exn A -> store -> Prop) : Q (Err e) s -> wp (mraise e) s Q.
Proof. done. Qed.

Lemma wp_lift {A} r s (Q : result storage_exn A -> store -> Prop) : Q r s -> wp (mlift r) s Q.
Proof. done. Qed.

Lemma wp_bind {A B} (c : M A) (k : A -> M B) s Q :
  wp c s (fun r s' => match r with Ok a => wp (k a) s' Q | Err e => Q (Err e) s' end) ->
  wp (mbind c k) s Q.
Proof. unfold wp, mbind. by destruct (c s) as [[a|e] s']. Qed.

Lemma wp_try {A} (c : M A) h s Q :
  wp c s (fun r s' => match r with Ok a => Q (Ok a) s' | Err e => wp (h e) s' Q end) ->
  wp (mtry c h) s Q.
Proof. unfold wp, mtry. by destruct (c s) as [[a|e] s']. Qed.

(** A statement inside a transaction: it succeeds, or it raises and leaves the
    committed database alone. *)
Lemma wp_execute {A} (f : database -> option (A * database)) cm d cl fs
    (Q : result storage_exn A -> store -> Prop) :
  (forall t fs', t = None \/ t = Some d -> Q (Err SqliteError) (mkStore cm t cl fs')) ->
  (forall a d' fs', f d = Some (a, d') -> Q (Ok a) (mkStore cm (Some d') cl fs')) ->
  wp (execute f) (mkStore cm (Some d) cl fs) Q.
Proof.
  intros HE HO. unfold wp, execute, next_fault. cbn [faults].
  destruct fs as [|[|[]] fs]; [| |by apply HE; left|by apply HE; right];
    cbn [view tx fst snd];
    (destruct (f d) as [[a d']|] eqn:E; cbn [fst snd];
      [by apply HO|by apply HE; right]).
Qed.

Lemma wp_query {A} (f : database -> A) cm d cl fs (Q : result storage_exn A -> store -> Prop) :
  (forall t fs', t = None \/ t = Some d -> Q (Err SqliteError) (mkStore cm t cl fs')) ->
  (forall fs', Q (Ok (f d)) (mkStore cm (Some d) cl fs')) ->
  wp (query f) (mkStore cm (Some d) cl fs) Q.
Proof. intros HE HO. apply wp_execute; [done|]. intros a d' fs' [= <- <-]. done. Qed.

(** A read outside a transaction. *)
Lemma wp_query_out {A} (f : database -> A) cm cl fs (Q : result storage_exn A -> store -> Prop) :
  (forall fs', Q (Err SqliteError) (mkStore cm None cl fs')) ->
  (forall fs', Q (Ok (f cm)) (mkStore cm None cl fs')) ->
  wp (query f) (mkStore cm None cl fs) Q.
Proof.
  intros HE HO. unfold wp, query, execute, next_fault. cbn [faults].
  destruct fs as [|[|[]] fs]; [apply HO|apply HO|apply HE|apply HE].
Qed.

Lemma wp_begin cm cl fs (Q : result storage_exn unit -> store -> Prop) :
  (forall fs', Q (Err SqliteError) (mkStore cm None cl fs')) ->
  (forall fs', Q (Ok tt) (mkStore cm (Some cm) cl fs')) ->
  wp begin_immediate (mkStore cm None cl fs) Q.
Proof.
  intros HE HO. unfold wp, begin_immediate, next_fault. cbn [faults].
  destruct fs as [|[|b] fs]; [apply HO|apply HO|apply HE].
Qed.

(** [BEGIN IMMEDIATE] on a connection that already holds a transaction. *)
Lemma wp_begin_open cm d cl fs (Q : result storage_exn unit -> store -> Prop) :
  (forall fs', Q (Err SqliteError) (mkStore cm (Some d) cl fs')) ->
  wp begin_immediate (mkStore cm (Some d) cl fs) Q.
Proof.
  intros HE. unfold wp, begin_immediate, next_fault. cbn [faults].
  destruct fs as [|[|b] fs]; apply HE.
Qed.

Lemma wp_commit cm d cl fs (Q : result storage_exn unit -> store -> Prop) :
  (forall t fs', t = None \/ t = Some d -> Q (Err SqliteError) (mkStore cm t cl fs')) ->
  (forall fs', Q (Ok tt) (mkStore d None cl fs')) ->
  wp commit (mkStore cm (Some d) cl fs) Q.
Proof.
  intros HE HO. unfold wp, commit, next_fault. cbn [faults].
  destruct fs as [|[|[]] fs]; [apply HO|apply HO|by apply HE; left|by apply HE; right].
Qed.

Lemma wp_rollback cm d cl fs (Q : result storage_exn unit -> store -> Prop) :
  Q (Ok tt) (mkStore cm None cl fs) -> wp rollback (mkStore cm (Some d) cl fs) Q.
Proof. done. Qed.

Lemma wp_rollback_if_open cm t cl fs (Q : result storage_exn unit -> store -> Prop) :
  Q (Ok tt) (mkStore cm None cl fs) -> wp rollback_if_open (mkStore cm t cl fs) Q.
Proof. by destruct t. Qed.

Lemma wp_connection cm t cl fs (Q : result storage_exn unit -> store -> Prop) :
  (cl = true -> Q (Err (PersistenceError (u "storage_closed"))) (mkStore cm t cl fs)) ->
  (cl = false -> Q (Ok tt) (mkStore cm t cl fs)) ->
  wp _connection (mkStore cm t cl fs) Q.
Proof. intros H1 H2. destruct cl; [by apply H1|by apply H2]. Qed.

(** [except sqlite3.Error] around the body of an operation. *)
Lemma wp_sanitize {A} (c : M A) s (Q : result storage_exn A -> store -> Prop) :
  wp c s (fun r s' => match r with
    | Ok a => Q (Ok a) s'
    | Err SqliteError =>
        Q (Err (PersistenceError (u "database_error"))) (drop_tx s')
    | Err e => Q (Err e) s'
    end) -> wp (sanitize c) s Q.
Proof.
  intros H. apply wp_try. eapply wp_mono, H. intros [a|[]] [cm t cl fs] Hr; try exact Hr.
  apply wp_bind, wp_rollback_if_open. exact Hr.
Qed.

Lemma wp_sanitize_read {A} (c : M A) s (Q : result storage_exn A -> store -> Prop) :
  wp c s (fun r s' => match r with
    | Ok a => Q (Ok a) s'
    | Err SqliteError => Q (Err (PersistenceError (u "database_error"))) s'
    | Err e => Q (Err e) s'
    end) -> wp (sanitize_read c) s Q.
Proof.
  intros H. apply wp_try. eapply wp_mono, H. by intros [a|[]] s' Hr.
Qed.

Lemma wp_commit_guard {A} (c : M A) s (Q : result storage_exn A -> store -> Prop) :
  wp c s (fun r s' => match r with
    | Ok a => Q (Ok a) s'
    | Err e => Q (Err (match e with SqliteError => PersistenceError (u "database_error") | _ => e end))
                 (drop_tx s')
    end) -> wp (commit_guard c) s Q.
Proof.
  intros H. apply wp_try. eapply wp_mono, H. intros [a|e] [cm t cl fs] Hr; [exact Hr|].
  apply wp_bind, wp_rollback_if_open. exact Hr.
Qed.

(** The obligations of raised errors. *)
Ltac wp_err := solve [done | intros; repeat split; (done || by left || by right)].

(** One symbolic step. *)
Ltac wp_step :=
  lazymatch goal with
  | |- wp (mret _) _ _ => apply wp_ret
  | |- wp (mraise _) _ _ => apply wp_raise
  | |- wp (conflict _ _) _ _ => apply wp_raise
  | |- wp (mlift _) _ _ => apply wp_lift
  | |- wp (mbind _ _) _ _ => apply wp_bind
  | |- wp (query _) (mkStore _ (Some _) _ _) _ => apply wp_query; [try wp_err|intros ?]
  | |- wp (query _) (mkStore _ None _ _) _ => apply wp_query_out; [try wp_err|intros ?]
  | |- wp (execute _) (mkStore _ (Some _) _ _) _ => apply wp_execute; [try wp_err|]
  | |- wp begin_immediate (mkStore _ None _ _) _ => apply wp_begin; [try wp_err|intros ?]
  | |- wp begin_immediate (mkStore _ (Some _) _ _) _ => apply wp_begin_open
  | |- wp commit (mkStore _ (Some _) _ _) _ => apply wp_commit; [try wp_err|intros ?]
  | |- wp rollback (mkStore _ (Some _) _ _) _ => apply wp_rollback
  | |- wp _connection _ _ => apply wp_connection;
      let H := fresh in intros H; try discriminate H; try subst; try clear H
  | |- wp (sanitize _) _ _ => apply wp_sanitize
  | |- wp (sanitize_read _) _ _ => apply wp_sanitize_read
  | |- wp (commit_guard _) _ _ => apply wp_commit_guard
  end; cbv beta iota.

(** ** The effect of a committed turn *)

Section Spec.
Context `{FR : FloatRepr, SH : Sha256}.

(** The ledger row and the tables after a turn, before its outbox events. *)
Definition turn_effect (now : pystr) (i : CommitInput) (ej rj pj : jdoc) (old : turn_row)
  (d : database) : database :=
  let r := current_revision_of d in
  let uid := (chat_seq d + 1)%Z in
  let aid := (chat_seq d + 1 + 1)%Z in
  let d1 := with_chat d (chat_logs d ++ [mkChat uid RUser (in_user_message i) now;
                                         mkChat aid RAssistant (in_assistant_message i) now]) aid in
  let d2 := with_profile d1 match profiles d with
    | Some p => mkProfile (pr_persona p) (pr_user_profile p) ej rj (r + 1)
    | None => mkProfile None (JObj []) ej rj (r + 1)
    end in
  with_turns d2
    (<[in_request_id i := mkTurn (in_hash i) SCompleted r (Some (r + 1)%Z) (Some uid) (Some aid)
         (Some pj) (t_error old)]> (turn_requests d)) (outbox_events d).

(** The row an event becomes. *)
Definition event_row (rid : pystr) (e : outbox_event) (o : outbox_row) : Prop :=
  o_id o = outbox_id e /\ o_event_type o = ev_type e /\ o_key o = ev_key e /\ o_turn o = rid.

(** [d'] is [d] with rows added for the events whose (key, type) was new. *)
Inductive outbox_added (rid : pystr) : list outbox_event -> database -> database -> Prop :=
| oa_nil d : outbox_added rid [] d d
| oa_cons e es doc d d1 d2 :
    _json_dumps (PDict (ev_payload e)) = Ok doc ->
    insert_outbox (mkOutbox (outbox_id e) (ev_type e) (ev_key e) rid doc) d = Some (tt, d1) ->
    outbox_added rid es d1 d2 ->
    outbox_added rid (e :: es) d d2.

Lemma wp_insert_outbox_events rid es cm d cl fs (Q : result storage_exn unit -> store -> Prop) :
  (forall e t fs', Q (Err e) (mkStore cm t cl fs')) ->
  (forall d' fs', outbox_added rid es d d' -> Q (Ok tt) (mkStore cm (Some d') cl fs')) ->
  wp (insert_outbox_events rid es) (mkStore cm (Some d) cl fs) Q.
Proof.
  intros HE. revert d fs. induction es as [|e es IH]; intros d fs HO; cbn [insert_outbox_events].
  - apply wp_ret, HO. constructor.
  - wp_step. wp_step. destruct (_json_dumps _) as [doc|x] eqn:E; [|apply HE].
    wp_step. wp_step. intros [] d1 fs' Hi. apply IH. intros d2 fs'' H2.
    apply HO. by econstructor.
Qed.

(** Everything [commit_body] can do, from a committed database [d]. *)
Definition commit_post (now : pystr) (i : CommitInput) (d : database)
  (r : result storage_exn (CommittedTurn + CommittedTurn)) (s' : store) : Prop :=
  closed s' = false /\
  match r with
  | Ok (inl c) =>
      committed s' = d /\ tx s' = None /\
      exists row, turn_requests d !! in_request_id i = Some row /\ t_status row = SCompleted
        /\ t_hash row = in_hash i /\ _committed_from_row (in_request_id i) row = Ok c
  | Ok (inr c) =>
      tx s' = None /\
      exists old ej rj pj,
        turn_requests d !! in_request_id i = Some old /\ t_status old = SPending
        /\ t_hash old = _reservation_marker (in_generation i)
        /\ history_generation_of d = in_generation i
        /\ (in_expected i = None \/ in_expected i = Some (current_revision_of d))
        /\ _json_dumps (PDict (in_emotional i)) = Ok ej
        /\ _json_dumps (PDict (in_relationship i)) = Ok rj
        /\ _json_dumps (PDict (in_replay i)) = Ok pj
        /\ outbox_added (in_request_id i) (in_outbox i) (turn_effect now i ej rj pj old d) (committed s')
        /\ c = committed_of (in_request_id i) (current_revision_of d + 1) (chat_seq d + 1)
                 (chat_seq d + 1 + 1) (in_replay i)
  | Err e => committed s' = d
  end.

Lemma existsb_last {A} (p : A -> bool) l x : p x = true -> existsb p (l ++ [x]) = true.
Proof. intros H. rewrite existsb_app. cbn. by rewrite H, orb_true_r. Qed.

Lemma wp_commit_body now i d fs :
  wp (commit_body now i) (mkStore d None false fs) (commit_post now i d).
Proof.
  unfold commit_body. wp_step. wp_step. wp_step. wp_step. wp_step. wp_step.
  destruct (turn_requests d !! in_request_id i) as [row|] eqn:R.
  2:{ wp_step. wp_step. by wp_step. }
  case_bool_decide as C.
  { destruct (str_eqb (t_hash row) (in_hash i)) eqn:Hh; cbn [negb]; wp_step; wp_step; [|by wp_step].
    wp_step. wp_step. destruct (_committed_from_row (in_request_id i) row) as [c|e] eqn:Ec; [|done].
    wp_step. apply str_eqb_eq in Hh. split; [done|]. split; [done|]. split; [done|]. by exists row. }
  destruct (negb _ || negb _ || negb _) eqn:G; [wp_step; wp_step; by wp_step|].
  apply orb_false_iff in G as [[G1 G2]%orb_false_iff G3].
  apply negb_false_iff in G1, G2, G3. apply Z.eqb_eq in G1. apply bool_decide_eq_true in G2.
  apply str_eqb_eq in G3.
  wp_step. wp_step. fold (current_revision_of d). set (r := current_revision_of d).
  destruct (_ =? r)%Z eqn:X; cbn [negb]; [|by wp_step]. apply Z.eqb_eq in X.
  wp_step. wp_step. intros uid d1 fs1 [= <- <-].
  wp_step. wp_step. intros aid d2 fs2 [= <- <-]. cbn [chat_seq with_chat chat_logs].
  wp_step. wp_step. destruct (_json_dumps (PDict (in_emotional i))) as [ej|] eqn:Ej; [|done].
  wp_step. wp_step. destruct (_json_dumps (PDict (in_relationship i))) as [rj|] eqn:Rj; [|done].
  wp_step. wp_step. intros [] d3 fs3 Hp. unfold upsert_profile in Hp. cbn [profiles with_chat] in Hp.
  destruct (r + 1 <? 0)%Z; [done|]. injection Hp as <-.
  wp_step. wp_step. destruct (_json_dumps (PDict (in_replay i))) as [pj|] eqn:Pj; [|done].
  wp_step. wp_step. intros [] d4 fs4 Ht. unfold upsert_turn in Ht.
  cbn [turn_requests with_profile with_chat] in Ht. rewrite R in Ht.
  destruct (_ && _) in Ht; [|done]. injection Ht as <-. cbn [t_hash t_status t_expected_revision
    t_committed_revision t_user_msg t_assistant_msg t_replay].
  wp_step. apply wp_insert_outbox_events; [done|]. intros d5 fs5 Ho.
  wp_step. wp_step. wp_step. split; [done|]. split; [done|]. exists row, ej, rj, pj.
  split; [done|]. split; [done|]. split; [done|]. split; [done|].
  split; [revert X; destruct (in_expected i); [intros ->; by right|by left]|].
  split; [done|]. split; [done|]. split; [done|]. split; [|done].
  cbn [committed]. rewrite <- app_assoc in Ho. cbn [app] in Ho. rewrite X in Ho. exact Ho.
Qed.

(** What [commit_turn] can do: a validated request either commits, replays or
    raises, and only the first writes. *)
Definition commit_turn_post (now : pystr) (a : CommitArgs) (d : database)
  (r : result storage_exn CommittedTurn) (s' : store) : Prop :=
  closed s' = false /\ tx s' = None /\
  match r with
  | Ok c => exists i, validate_commit a = Ok i /\
      ((committed s' = d /\ exists row, turn_requests d !! in_request_id i = Some row
          /\ t_status row = SCompleted /\ t_hash row = in_hash i
          /\ _committed_from_row (in_request_id i) row = Ok c)
       \/ commit_post now i d (Ok (inr c)) s')
  | Err e => committed s' = d
  end.

Lemma wp_commit_turn now a d fs :
  wp (commit_turn now a) (mkStore d None false fs) (commit_turn_post now a d).
Proof.
  unfold commit_turn. wp_step. wp_step. destruct (validate_commit a) as [i|e] eqn:V; [|done].
  assert (forall fs, wp (mbind (commit_guard (commit_body now i))
    (fun r => mret (match r with inl c => c | inr c => c end))) (mkStore d None false fs)
    (commit_turn_post now a d)) as P.
  { clear fs. intros fs. wp_step. wp_step. eapply wp_mono; [|apply wp_commit_body].
    intros [[c|c]|e] [cm t cl fs'] (Hc & H); cbn in Hc; [| |by subst cl; cbn in H; subst cm].
    - destruct H as (H1 & H2 & row & H3). wp_step. split; [done|]. split; [done|].
      exists i. split; [done|]. left. eauto.
    - wp_step. split; [done|]. split; [by destruct H|]. exists i. split; [done|]. by right. }
  wp_step. wp_step. wp_step. wp_step.
  destruct (turn_requests d !! in_request_id i) as [row|] eqn:R; [|apply P].
  destruct (t_status row) eqn:St; [apply P| |by wp_step].
  destruct (str_eqb (t_hash row) (in_hash i)) eqn:Hh; cbn [negb]; [|by wp_step].
  wp_step. split; [done|]. split; [done|].
  destruct (_committed_from_row (in_request_id i) row) as [c|] eqn:C; [|done].
  exists i. split; [done|]. left. split; [done|]. apply str_eqb_eq in Hh. by exists row.
Qed.

(** ** Admission *)

Definition reserved_row (g : Z) : turn_row :=
  mkTurn (_reservation_marker g) SPending 0 None None None None None.

Definition reserve_post (rid um : pystr) (d : database) (r : result storage_exn ReplayOutcome)
  (s' : store) : Prop :=
  closed s' = false /\ tx s' = None /\
  match r with
  | Ok o =>
      match ro_status o with
      | o_reserved =>
          turn_requests d !! rid = None /\ ro_history_generation o = Some (history_generation_of d)
          /\ ro_committed o = None
          /\ committed s' = with_turns d (<[rid := reserved_row (history_generation_of d)]> (turn_requests d))
                              (outbox_events d)
      | o_replay =>
          committed s' = d /\ exists row c, turn_requests d !! rid = Some row
            /\ t_status row = SCompleted /\ chat_content d (t_user_msg row) = Some um
            /\ _committed_from_row rid row = Ok c /\ ro_committed o = Some c
      | o_conflict =>
          committed s' = d /\ exists row, turn_requests d !! rid = Some row
            /\ (t_status row = SCompleted -> chat_content d (t_user_msg row) <> Some um)
      | _ => False
      end
  | Err e => committed s' = d
  end.

Lemma wp_reserve_request request_id user_message rid um d fs :
  _validate_request_id request_id = Ok rid -> _validate_message user_message = Ok um ->
  wp (reserve_request request_id user_message) (mkStore d None false fs) (reserve_post rid um d).
Proof.
  intros Hr Hu. unfold reserve_request. wp_step. wp_step. rewrite Hr. wp_step. wp_step. rewrite Hu.
  wp_step. wp_step. wp_step. wp_step. wp_step. wp_step. wp_step. wp_step.
  wp_step. intros b d1 fs1 Hi. unfold insert_reservation in Hi.
  destruct (turn_requests d !! rid) as [row|] eqn:R; injection Hi as <- <-.
  - wp_step. wp_step. rewrite R. destruct (t_status row) eqn:St.
    + wp_step. wp_step. wp_step. repeat (split; [done|]). exists row. split; [done|]. congruence.
    + wp_step. wp_step. wp_step. wp_step. case_bool_decide as B.
      * wp_step. wp_step. destruct (_committed_from_row rid row) as [c|e] eqn:C;
          [wp_step; repeat (split; [done|]); by exists row, c|].
        by destruct e.
      * wp_step. repeat (split; [done|]). by exists row.
    + wp_step. wp_step. wp_step. repeat (split; [done|]). exists row. split; [done|]. congruence.
  - wp_step. wp_step. by wp_step.
Qed.

(** ** Releasing a reservation *)

Definition release_keep (rid : pystr) (g : Z) (k : pystr) (row : turn_row) : bool :=
  negb (str_eqb k rid && bool_decide (t_status row = SPending)
        && str_eqb (t_hash row) (_reservation_marker g)).

(** Either the matching reservation is deleted, or the call failed and nothing changed. *)
Definition release_post (rid : pystr) (g : Z) (d : database) (r : result storage_exn unit) (s' : store)
  : Prop :=
  closed s' = false /\ tx s' = None /\
  match r with
  | Ok _ => committed s' = delete_turns (release_keep rid g) d
  | Err e => committed s' = d /\ e = PersistenceError (u "database_error")
  end.

Lemma wp_release_request request_id gen rid g d fs :
  _validate_request_id request_id = Ok rid ->
  validate_nonneg gen (u "invalid_history_generation") = Ok g ->
  wp (release_request request_id gen) (mkStore d None false fs) (release_post rid g d).
Proof.
  intros Hr Hg. unfold release_request. wp_step. wp_step. rewrite Hr. wp_step. wp_step. rewrite Hg.
  wp_step. wp_step. wp_step. wp_step. wp_step. wp_step. wp_step. intros [] d1 fs1 [= <-].
  by wp_step.
Qed.

(** ** Privacy operations *)

Lemma privacy_result_dumps items :
  exists doc, _json_dumps (privacy_result items) = Ok doc /\ json_valid doc = true.
Proof.
  unfold _json_dumps, privacy_result. rewrite json_encode_dict.
  assert (forall l, exists js, rmap (encode_item true) (map (fun kv : pystr * Z => (KStr kv.1, PInt kv.2)) l)
    = Ok js /\ Forall (fun kv => json_valid kv.2 = true) js) as K.
  { induction l as [|[k z] l (js & E & F)]; [by exists []|]. exists ((k, JInt z) :: js). cbn.
    split; [by rewrite E|by constructor]. }
  destruct (K items) as (js & E & F). exists (JObj (sort_keys ((u "status", JStr (u "applied")) :: js))).
  split.
  - cbn [rmap]. cbn [encode_item json_encode rbind].
    change ((fix go (l : list (pykey * pyval)) : result json_exn (list (pystr * jdoc)) := _) ?x)
      with (rmap (encode_item true) x).
    rewrite E. done.
  - cbn [json_valid]. apply forallb_forall. intros [k x] Hin. rewrite <- list_elem_of_In in Hin.
    rewrite sort_keys_perm in Hin. apply elem_of_cons in Hin as [[= -> ->]|Hin]; [done|].
    rewrite Forall_forall in F. exact (F _ Hin).
Qed.

(** The database after [delete_history]. *)
Definition erased (d : database) (doc : jdoc) : database :=
  mkDb (profiles d) [] (chat_seq d) ∅ [] (memories d) (memory_seq d)
    (privacy_operations d ++ [mkPrivacy op_delete_history doc]).

Definition history_result (d : database) : pyval :=
  privacy_result [(u "deleted_messages", Z.of_nat (length (chat_logs d)));
    (u "deleted_turn_requests", Z.of_nat (size (turn_requests d)));
    (u "deleted_outbox_events", Z.of_nat (length (outbox_events d)))].

Lemma delete_all_turns d : delete_turns (fun _ _ => false) d = with_turns d ∅ [].
Proof.
  unfold delete_turns. assert (filter (fun kv : pystr * turn_row => false = true) (turn_requests d) = ∅) as ->.
  { apply map_eq. intros k. rewrite lookup_empty. apply map_lookup_filter_None. by right. }
  f_equal. induction (outbox_events d) as [|o l IH]; [done|]. cbn. by rewrite lookup_empty.
Qed.

Lemma filter_none {A} (l : list A) : List.filter (fun _ => false) l = [].
Proof. by induction l. Qed.

Definition delete_history_post (d : database) (r : result storage_exn pyval) (s' : store) : Prop :=
  closed s' = false /\ tx s' = None /\
  match r with
  | Ok v => v = history_result d /\ exists doc, committed s' = erased d doc
  | Err e => committed s' = d
  end.

Lemma wp_delete_history d fs :
  wp delete_history (mkStore d None false fs) (delete_history_post d).
Proof.
  unfold delete_history. wp_step. wp_step. wp_step. wp_step. wp_step. wp_step. wp_step. wp_step.
  wp_step. wp_step. wp_step. wp_step. wp_step. intros [] d1 fs1 [= <-]. rewrite delete_all_turns.
  wp_step. wp_step. intros [] d2 fs2 [= <-]. wp_step. wp_step.
  unfold delete_chats. cbn [chat_logs with_chat with_turns negb]. rewrite filter_none.
  change (negb (Z.of_nat (length (@nil chat_row)) =? 0)%Z) with false. cbv iota.
  fold (history_result d). unfold history_result at 1.
  wp_step. wp_step.
  destruct (privacy_result_dumps [(u "deleted_messages", Z.of_nat (length (chat_logs d)));
    (u "deleted_turn_requests", Z.of_nat (size (turn_requests d)));
    (u "deleted_outbox_events", Z.of_nat (length (outbox_events d)))]) as (doc & -> & Hv).
  wp_step. wp_step. intros [] d3 fs3 Hp. unfold insert_privacy in Hp. rewrite Hv in Hp. injection Hp as <-.
  wp_step. wp_step. wp_step. split; [done|]. split; [done|]. split; [done|]. exists doc.
  unfold erased, delete_turns, with_privacy, with_chat, with_turns. cbn. f_equal.
Qed.

Definition memories_result (d : database) : pyval :=
  privacy_result [(u "deleted_memories", Z.of_nat (length (memories d)))].

Definition delete_memories_post (d : database) (r : result storage_exn pyval) (s' : store) : Prop :=
  closed s' = false /\ tx s' = None /\
  match r with
  | Ok v => v = memories_result d /\ exists doc, committed s' =
      with_privacy (with_memories d [] (memory_seq d)) (privacy_operations d ++ [mkPrivacy op_delete_memories doc])
  | Err e => committed s' = d
  end.

Lemma wp_delete_memories d fs :
  wp delete_memories (mkStore d None false fs) (delete_memories_post d).
Proof.
  unfold delete_memories, _privacy_delete. wp_step. wp_step. wp_step. wp_step. wp_step. wp_step. wp_step.
  wp_step. wp_step. intros [] d1 fs1 [= <-]. wp_step. wp_step. fold (memories_result d).
  destruct (privacy_result_dumps [(u "deleted_memories", Z.of_nat (length (memories d)))]) as (doc & E & Hv).
  unfold memories_result at 1. rewrite E.
  wp_step. wp_step. intros [] d3 fs3 Hp. unfold insert_privacy in Hp. rewrite Hv in Hp. injection Hp as <-.
  wp_step. wp_step. wp_step. repeat (split; [done|]). by exists doc.
Qed.

(** ** Resets *)

Definition set_field (f : state_field) (p : profile_row) (doc : jdoc) (rev : Z) : profile_row :=
  match f with
  | FEmotional => mkProfile (pr_persona p) (pr_user_profile p) doc (pr_relationship p) rev
  | FRelationship => mkProfile (pr_persona p) (pr_user_profile p) (pr_emotional p) doc rev
  end.

(** The profile row after the reset of field [f] to the document [doc]. *)
Definition reset_profile (f : state_field) (now : float) (doc : jdoc) (d : database) (p' : profile_row) : Prop :=
  match profiles d with
  | Some p => p' = set_field f p doc (current_revision_of d + 1)
  | None => exists ej rj, p' = mkProfile None (JObj []) ej rj (current_revision_of d + 1)
      /\ match f with
         | FEmotional => ej = doc /\ exists r, neutral_relationship_snapshot now = Ok r
                           /\ _json_dumps (PDict r) = Ok rj
         | FRelationship => rj = doc /\ exists e, neutral_emotional_snapshot now = Ok e
                           /\ _json_dumps (PDict e) = Ok ej
         end
  end.

(** An exception of the domain constructors leaves the transaction open, with
    no statement executed in it. *)
Definition reset_post (op : operation) (f : state_field) (canonical : pydict) (now : float) (d : database)
  (r : result storage_exn pyval) (s' : store) : Prop :=
  closed s' = false /\
  match r with
  | Ok v => tx s' = None /\ v = privacy_result [(u "revision", (current_revision_of d + 1)%Z)]
      /\ exists doc rdoc p', _json_dumps (PDict canonical) = Ok doc /\ reset_profile f now doc d p'
         /\ committed s' = with_privacy (with_profile d p') (privacy_operations d ++ [mkPrivacy op rdoc])
  | Err e => committed s' = d /\ (tx s' = None \/ tx s' = Some d)
  end.

Lemma neutral_snapshots_dump ts e r :
  neutral_emotional_snapshot ts = Ok e -> neutral_relationship_snapshot ts = Ok r ->
  (exists ej, _json_dumps (PDict e) = Ok ej) /\ (exists rj, _json_dumps (PDict r) = Ok rj).
Proof.
  unfold neutral_emotional_snapshot, neutral_relationship_snapshot.
  destruct (EmotionalStateV1_neutral _) as [s|]; cbn [rbind rcatch]; [|done].
  destruct (RelationshipStateV1_neutral _) as [s'|] eqn:N; cbn [rbind rcatch]; [|done].
  intros [= <-] [= <-]. split; [by eexists|].
  assert (triggers s' = []) as T.
  { apply rel_create_iff in N as [(_ & _ & _ & _ & _ & T) _]. cbn in T. by simplify_eq. }
  unfold RelationshipStateV1_to_dict. rewrite T. by eexists.
Qed.

Lemma json_dumps_err v e : _json_dumps v = Err e -> e = ValidationError (u "invalid_payload").
Proof. unfold _json_dumps. destruct (json_encode true v); cbn; [done|]. by intros [= <-]. Qed.

Lemma neutral_err ts e :
  neutral_emotional_snapshot ts = Err e \/ neutral_relationship_snapshot ts = Err e -> e = DomainErrorExn.
Proof.
  unfold neutral_emotional_snapshot, neutral_relationship_snapshot.
  intros [H|H]; [destruct (EmotionalStateV1_neutral _)|destruct (RelationshipStateV1_neutral _)];
    cbn in H; by simplify_eq.
Qed.

(** The end of a reset: the audit row and the commit. *)
Lemma wp_reset_tail op f canonical now d p' doc fs :
  _json_dumps (PDict canonical) = Ok doc -> reset_profile f now doc d p' ->
  wp (do! rdoc <- mlift (_json_dumps (privacy_result [(u "revision", (current_revision_of d + 1)%Z)])) in
      execute (insert_privacy op rdoc) ;! commit ;!
      mret (privacy_result [(u "revision", (current_revision_of d + 1)%Z)]))
    (mkStore d (Some (with_profile d p')) false fs)
    (fun r s' => match r with
      | Ok a => reset_post op f canonical now d (Ok a) s'
      | Err SqliteError => reset_post op f canonical now d (Err (PersistenceError (u "database_error"))) (drop_tx s')
      | Err e => reset_post op f canonical now d (Err e) s'
      end).
Proof.
  intros E Hp. wp_step. wp_step.
  destruct (privacy_result_dumps [(u "revision", (current_revision_of d + 1)%Z)]) as (rdoc & -> & Hv).
  wp_step. wp_step. intros [] d3 fs3 Hi. unfold insert_privacy in Hi. rewrite Hv in Hi. injection Hi as <-.
  wp_step. wp_step. wp_step. split; [done|]. split; [done|]. split; [done|]. by exists doc, rdoc, p'.
Qed.

Lemma wp_reset_state_field op f canonical now d fs :
  (0 <= current_revision_of d)%Z ->
  wp (_reset_state_field op f canonical now) (mkStore d None false fs) (reset_post op f canonical now d).
Proof.
  intros Hr. unfold _reset_state_field.
  assert ((current_revision_of d + 1 <? 0)%Z = false) as Hn by (apply Z.ltb_ge; lia).
  wp_step. wp_step. wp_step. wp_step. wp_step. wp_step. wp_step. wp_step. wp_step.
  destruct (_json_dumps (PDict canonical)) as [doc|e] eqn:E.
  2:{ apply json_dumps_err in E as ->. split; [done|]. split; [done|]. by right. }
  wp_step. wp_step. intros n d1 fs1 Hu. unfold update_profile_field in Hu. rewrite Hn in Hu.
  destruct (profiles d) as [p|] eqn:P; injection Hu as <- <-; cbn [Z.eqb]; wp_step.
  - wp_step. eapply wp_reset_tail; [exact E|]. unfold reset_profile. by rewrite P.
  - wp_step. destruct f.
    + wp_step. wp_step. destruct (neutral_relationship_snapshot now) as [r|e] eqn:R.
      2:{ rewrite (neutral_err now e (or_intror R)). split; [done|]. split; [done|]. by right. }
      wp_step. wp_step. destruct (_json_dumps (PDict r)) as [rj|e] eqn:J.
      2:{ apply json_dumps_err in J as ->. split; [done|]. split; [done|]. by right. }
      wp_step. cbn [fst snd]. wp_step. intros [] d2 fs2 Hi. unfold insert_profile in Hi. rewrite P, Hn in Hi.
      injection Hi as <-. eapply wp_reset_tail; [exact E|]. unfold reset_profile. rewrite P. eauto 10.
    + wp_step. wp_step. destruct (neutral_emotional_snapshot now) as [r|e] eqn:R.
      2:{ rewrite (neutral_err now e (or_introl R)). split; [done|]. split; [done|]. by right. }
      wp_step. wp_step. destruct (_json_dumps (PDict r)) as [rj|e] eqn:J.
      2:{ apply json_dumps_err in J as ->. split; [done|]. split; [done|]. by right. }
      wp_step. cbn [fst snd]. wp_step. intros [] d2 fs2 Hi. unfold insert_profile in Hi. rewrite P, Hn in Hi.
      injection Hi as <-. eapply wp_reset_tail; [exact E|]. unfold reset_profile. rewrite P. eauto 10.
Qed.

(** ** Retention, memory and recovery *)

Definition kept_ids (n : nat) (d : database) : list Z := map c_id (last_n n (chat_logs d)).

Definition trimmed (n : nat) (d : database) : database :=
  delete_chats (fun i => negb (bool_decide (i ∈ kept_ids n d))) d.

(** An argument SQLite cannot bind raises with the transaction still open. *)
Definition trim_post (n : Z) (d : database) (r : result storage_exn pyval) (s' : store) : Prop :=
  closed s' = false /\
  match r with
  | Ok v => tx s' = None /\ v = privacy_result [(u "remaining", Z.min (Z.of_nat (length (chat_logs d))) n)]
            /\ committed s' = trimmed (Z.to_nat n) d
  | Err e => committed s' = d /\ (tx s' = None \/ tx s' = Some d)
  end.

Lemma wp_trim_history k n d fs :
  validate_nonneg k (u "invalid_keep_last") = Ok n ->
  wp (trim_history k) (mkStore d None false fs) (trim_post n d).
Proof.
  intros Hn. unfold trim_history, bind_int. wp_step. wp_step. rewrite Hn. wp_step. wp_step. wp_step.
  wp_step. wp_step. wp_step. wp_step. wp_step. wp_step. destruct (_ && _).
  2:{ split; [done|]. split; [done|]. by right. }
  wp_step. wp_step.
  intros [] d1 fs1 [= <-]. wp_step. wp_step.
  by wp_step.
Qed.

(** A memory is stored; a failure leaves the database alone, but metadata that
    is not serialisable, or a text that is not, raises with the transaction
    still open. *)
Definition memory_post (now : pystr) (c : pystr) (metadata : pyval) (d : database)
  (r : result storage_exn Z) (s' : store) : Prop :=
  closed s' = false /\
  match r with
  | Ok id => tx s' = None /\ id = (memory_seq d + 1)%Z /\ exists doc, _json_dumps metadata = Ok doc
      /\ committed s' = with_memories d (memories d ++ [mkMemory id c doc now]) id
  | Err e => committed s' = d /\ (tx s' = None \/ tx s' = Some d)
  end.

Lemma wp_store_memory now content metadata c mp d fs :
  _validate_message content = Ok c -> as_mapping metadata = Some mp ->
  wp (store_memory now content metadata) (mkStore d None false fs) (memory_post now c metadata d).
Proof.
  intros Hc Hm. unfold store_memory, bind_text. wp_step. wp_step. rewrite Hc, Hm. wp_step. wp_step. wp_step.
  wp_step.
  wp_step. wp_step. wp_step. unfold memory_post. destruct (_json_dumps metadata) as [doc|e] eqn:E.
  2:{ pose proof (json_dumps_err _ _ E) as ->. split; [done|]. split; [done|]. by right. }
  wp_step. wp_step. destruct (utf8_len c); [|split; [done|]; split; [done|]; by right].
  wp_step. wp_step. destruct (utf8_len (render doc)); [|split; [done|]; split; [done|]; by right].
  wp_step. wp_step.
  intros id d1 fs1 Hi. unfold insert_memory in Hi. destruct (json_valid doc); [|done].
  injection Hi as <- <-. wp_step. wp_step.
  wp_step. split; [done|]. split; [done|]. split; [done|]. by exists doc.
Qed.

Definition recovered (d : database) : database :=
  with_turns d (fail_pending <$> turn_requests d) (outbox_events d).

Definition recover_post (d : database) (r : result storage_exn unit) (s' : store) : Prop :=
  closed s' = false /\ tx s' = None /\
  match r with Ok _ => committed s' = recovered d | Err e => committed s' = d end.

Lemma wp_recover d fs :
  wp _recover_interrupted_turns (mkStore d None false fs) (recover_post d).
Proof.
  unfold _recover_interrupted_turns. wp_step. wp_step. apply wp_try. wp_step.
  apply wp_execute.
  { intros t fs1 [-> | ->]; [by apply wp_bind|]. apply wp_bind. apply wp_rollback. by wp_step. }
  intros [] d1 fs1 [= <-]. apply wp_commit; [|done].
  intros t fs2 [-> | ->]; [by apply wp_bind|]. apply wp_bind. apply wp_rollback. by wp_step.
Qed.

End Spec.
