(* ===== verification/StorageInvariant.v ===== *)
(** * The invariant of the local store

    [db_wf] states what the schema and the operations together guarantee:
    referential integrity of the replay ledger and the outbox, identifiers,
    monotone revisions, valid stored snapshots, and the fencing invariant that
    every live reservation carries the current history generation.  Every call
    preserves it under every fault schedule, crash and restart. *)

From S2P Require Import Prelude PyFloat PyValue Json EmotionalModels Relationship StorageContracts.
From S2P Require Import LocalStorage StorageSpec.
From Stdlib Require Import Sorted.

Definition row_wf (d : database) (row : turn_row) : Prop :=
  chat_exists d (t_user_msg row) = true /\ chat_exists d (t_assistant_msg row) = true
  /\ match t_status row with
     | SPending => t_hash row = _reservation_marker (history_generation_of d)
                   /\ t_user_msg row = None /\ t_assistant_msg row = None
     | SCompleted => exists r uid aid doc di, t_committed_revision row = Some r
                   /\ (0 <= r <= current_revision_of d)%Z
                   /\ t_user_msg row = Some uid /\ t_assistant_msg row = Some aid
                   /\ t_replay row = Some doc /\ json_decode doc = PDict di
     | SFailed => True
     end.

Definition completed_at (d : database) (rid : pystr) (r : Z) : Prop :=
  exists row, turn_requests d !! rid = Some row /\ t_status row = SCompleted
    /\ t_committed_revision row = Some r.

(** A stored snapshot pair reads back as valid domain models. *)
Definition profile_wf (p : profile_row) : Prop :=
  (exists s, EmotionalStateV1_from_dict (json_decode (pr_emotional p)) = Ok s)
  /\ (exists s, RelationshipStateV1_from_dict (json_decode (pr_relationship p)) = Ok s).

Definition event_key (o : outbox_row) : pystr * pystr := (o_key o, o_event_type o).

(** Imported turns carry the revision 0, any other a revision of its own. *)
Record db_wf (d : database) : Prop := {
  wf_ids : StronglySorted Z.lt (map c_id (chat_logs d));
  wf_seq : Forall (fun r => c_id r <= chat_seq d)%Z (chat_logs d);
  wf_rows : map_Forall (fun _ row => row_wf d row) (turn_requests d);
  wf_once : forall rid1 rid2 r, (0 < r)%Z -> completed_at d rid1 r -> completed_at d rid2 r -> rid1 = rid2;
  wf_outbox : Forall (fun o => is_Some (turn_requests d !! o_turn o)) (outbox_events d);
  wf_outbox_ids : NoDup (map o_id (outbox_events d));
  wf_outbox_keys : NoDup (map event_key (outbox_events d));
  wf_revision : (0 <= current_revision_of d)%Z;
  wf_profile : forall p, profiles d = Some p -> profile_wf p }.

Lemma empty_db_wf : db_wf empty_db.
Proof.
  constructor; cbn.
  - constructor.
  - constructor.
  - apply map_Forall_empty.
  - by intros ? ? ? _ (row & H & _).
  - constructor.
  - constructor.
  - constructor.
  - done.
  - done.
Qed.

(** ** Chats *)

Lemma chat_exists_In d i :
  chat_exists d (Some i) = true <-> exists r, r ∈ chat_logs d /\ c_id r = i.
Proof.
  cbn. rewrite existsb_exists. setoid_rewrite Z.eqb_eq. setoid_rewrite list_elem_of_In. done.
Qed.

Lemma chat_exists_mono d d' o :
  chat_logs d ⊆ chat_logs d' -> chat_exists d o = true -> chat_exists d' o = true.
Proof.
  intros Hs. destruct o as [i|]; [|done]. rewrite !chat_exists_In. intros (r & Hr & <-).
  exists r. split; [by apply Hs|done].
Qed.

Lemma StronglySorted_app_lt (l l' : list Z) :
  StronglySorted Z.lt l -> StronglySorted Z.lt l' ->
  (forall x y, x ∈ l -> y ∈ l' -> x < y)%Z -> StronglySorted Z.lt (l ++ l').
Proof.
  intros H. induction H as [|x l Hs IH Hx]; intros H' Hlt; [done|]. cbn. constructor.
  - apply IH; [done|]. intros. apply Hlt; [by right|done].
  - apply Forall_app. split; [done|]. apply Forall_forall. intros y Hy. apply Hlt; [left|done].
Qed.

Lemma StronglySorted_filter {A} (R : A -> A -> Prop) p l :
  StronglySorted R l -> StronglySorted R (List.filter p l).
Proof.
  induction 1 as [|x l Hs IH Hx]; cbn; [constructor|]. destruct (p x); [|done].
  constructor; [done|]. apply Forall_forall. intros y Hy. rewrite Forall_forall in Hx. apply Hx.
  apply list_elem_of_In in Hy. apply filter_In in Hy as [Hy _]. by apply list_elem_of_In.
Qed.

Lemma map_filter_comm {A B} (g : A -> B) (p : B -> bool) l :
  map g (List.filter (fun x => p (g x)) l) = List.filter p (map g l).
Proof. induction l as [|x l IH]; cbn; [done|]. destruct (p (g x)); cbn; by rewrite IH. Qed.

(** ** Preservation by the statements' effects *)

(** Changing the ledger rows and outbox only. *)
Lemma row_wf_ext d d' row :
  chat_logs d' = chat_logs d -> history_generation_of d' = history_generation_of d ->
  (current_revision_of d <= current_revision_of d')%Z -> row_wf d row -> row_wf d' row.
Proof.
  intros Hc Hg Hr (H1 & H2 & H3). unfold row_wf.
  assert (forall o, chat_exists d' o = chat_exists d o) as K
    by (intros [i|]; [|done]; cbn; by rewrite Hc).
  rewrite !K, Hg. split; [done|]. split; [done|]. destruct (t_status row); try done.
  destruct H3 as (r & uid & aid & doc & di & E1 & E2 & E3). exists r, uid, aid, doc, di.
  split; [done|]. split; [lia|done].
Qed.

Lemma reserve_wf d rid :
  db_wf d -> turn_requests d !! rid = None ->
  db_wf (with_turns d (<[rid := reserved_row (history_generation_of d)]> (turn_requests d)) (outbox_events d)).
Proof.
  intros W N. destruct W as [wf_ids wf_seq wf_rows wf_once wf_outbox wf_outbox_ids wf_outbox_keys wf_revision wf_profile].
  constructor; cbn; try done.
  - apply map_Forall_insert_2.
    + by split; [|split].
    + eapply map_Forall_impl; [done|]. intros k row H. by apply (row_wf_ext d).
  - intros r1 r2 r Pos (w1 & L1 & S1 & R1) (w2 & L2 & S2 & R2). cbn in L1, L2.
    apply lookup_insert_Some in L1 as [[_ <-]|[_ L1]]; [done|].
    apply lookup_insert_Some in L2 as [[_ <-]|[_ L2]]; [done|].
    apply (wf_once r1 r2 r); [done|..]; eexists; eauto.
  - eapply Forall_impl; [done|]. intros o [x Hx]. cbn. rewrite lookup_insert_ne; [by eexists|]. congruence.
Qed.

(** Deleting ledger rows, with the cascade. *)
Lemma delete_turns_wf d keep : db_wf d -> db_wf (delete_turns keep d).
Proof.
  intros W. destruct W as [wf_ids wf_seq wf_rows wf_once wf_outbox wf_outbox_ids wf_outbox_keys wf_revision wf_profile].
  unfold delete_turns.
  set (m := filter (fun kv : pystr * turn_row => keep kv.1 kv.2 = true) (turn_requests d)).
  assert (m ⊆ turn_requests d) as Hm by apply map_filter_subseteq.
  constructor; cbn; try done.
  - eapply map_Forall_lookup_2. intros k row K. apply (lookup_weaken _ _ _ _ K) in Hm.
    apply (row_wf_ext d); [done..|]. by apply wf_rows in Hm.
  - intros r1 r2 r Pos (w1 & L1 & S1 & R1) (w2 & L2 & S2 & R2). cbn in L1, L2.
    apply (wf_once r1 r2 r); [done|..]; [exists w1|exists w2]; eauto using lookup_weaken.
  - apply Forall_forall. intros o Ho. apply list_elem_of_In, filter_In in Ho as [_ Ho].
    by destruct (m !! o_turn o).
  - clear -wf_outbox_ids. induction (outbox_events d) as [|o l IH]; cbn in *; [constructor|].
    apply NoDup_cons in wf_outbox_ids as [H1 H2]. destruct (m !! o_turn o); cbn; auto.
    constructor; auto. intros Hin. apply H1. apply list_elem_of_fmap in Hin as (y & -> & Hy).
    apply list_elem_of_In, filter_In in Hy as [Hy _]. apply list_elem_of_In in Hy.
    apply list_elem_of_fmap. eauto.
  - clear -wf_outbox_keys. induction (outbox_events d) as [|o l IH]; cbn in *; [constructor|].
    apply NoDup_cons in wf_outbox_keys as [H1 H2]. destruct (m !! o_turn o); cbn; auto.
    constructor; auto. intros Hin. apply H1. apply list_elem_of_fmap in Hin as (y & -> & Hy).
    apply list_elem_of_In, filter_In in Hy as [Hy _]. apply list_elem_of_In in Hy.
    apply list_elem_of_fmap. eauto.
Qed.

(** Deleting messages: the rows that referred to them go with them. *)
Lemma delete_chats_wf d gone : db_wf d -> db_wf (delete_chats gone d).
Proof.
  intros W. unfold delete_chats. set (keep := fun (_ : pystr) row => negb (refers_to gone row)).
  pose proof (delete_turns_wf d keep W) as W'. set (d1 := delete_turns keep d) in *.
  assert (chat_logs d1 = chat_logs d) as Hc by done.
  destruct W' as [wf_ids wf_seq wf_rows wf_once wf_outbox wf_outbox_ids wf_outbox_keys wf_revision wf_profile].
  constructor; cbn; try done.
  - rewrite (map_filter_comm c_id (fun i => negb (gone i))). apply StronglySorted_filter. by rewrite <- Hc.
  - apply Forall_forall. intros r Hr. apply list_elem_of_In, filter_In in Hr as [Hr _].
    rewrite Forall_forall in wf_seq. apply wf_seq. by apply list_elem_of_In.
  - apply map_Forall_lookup_2. intros k row K.
    pose proof (map_Forall_lookup_1 _ _ _ _ wf_rows K) as (H1 & H2 & H3).
    assert (refers_to gone row = false) as Hn.
    { cbn in K. apply map_lookup_filter_Some in K as [_ K]. cbn in K. by apply negb_true_iff in K. }
    unfold refers_to in Hn. apply orb_false_iff in Hn as [N1 N2].
    assert (forall o, match o with Some i => gone i | None => false end = false ->
      chat_exists d1 o = true ->
      chat_exists (with_chat d1 (List.filter (fun r => negb (gone (c_id r))) (chat_logs d)) (chat_seq d)) o = true) as E.
    { intros [i|] Hg Ho; [|done]. apply chat_exists_In in Ho as (r & Hr & <-). apply chat_exists_In.
      exists r. split; [|done]. cbn. apply list_elem_of_In, filter_In. rewrite Hg.
      split; [by apply list_elem_of_In|done]. }
    split; [by apply E|]. split; [by apply E|]. done.
Qed.

(** ** Preservation by a committed turn *)

Section Turn.
Context `{FR : FloatRepr, SH : Sha256}.

(** The documents a turn stores read back as what was validated. *)
Definition docs_ok (ej rj pj : jdoc) : Prop :=
  (exists s, EmotionalStateV1_from_dict (json_decode ej) = Ok s)
  /\ (exists s, RelationshipStateV1_from_dict (json_decode rj) = Ok s)
  /\ exists di, json_decode pj = PDict di.

Lemma row_wf_grow d d' row :
  chat_logs d ⊆ chat_logs d' -> history_generation_of d' = history_generation_of d ->
  (current_revision_of d <= current_revision_of d')%Z -> row_wf d row -> row_wf d' row.
Proof.
  intros Hc Hg Hr (H1 & H2 & H3). split; [by eapply chat_exists_mono|].
  split; [by eapply chat_exists_mono|]. rewrite Hg. destruct (t_status row); try done.
  destruct H3 as (r & uid & aid & doc & di & E1 & E2 & E3). exists r, uid, aid, doc, di.
  split; [done|]. split; [lia|done].
Qed.

Lemma turn_effect_revision now i ej rj pj old d :
  current_revision_of (turn_effect now i ej rj pj old d) = (current_revision_of d + 1)%Z.
Proof.
  unfold current_revision_of at 1. cbn [turn_effect profiles with_turns with_profile].
  by destruct (profiles d).
Qed.

Lemma turn_effect_wf now i ej rj pj old d :
  db_wf d -> turn_requests d !! in_request_id i = Some old -> t_status old = SPending ->
  docs_ok ej rj pj -> db_wf (turn_effect now i ej rj pj old d).
Proof.
  intros W Hold Hst (De & Dr & (di & Dp)).
  pose proof (turn_effect_revision now i ej rj pj old d) as Hrev.
  set (d' := turn_effect now i ej rj pj old d) in *.
  assert (chat_logs d ⊆ chat_logs d') as Hc by (cbn; set_solver).
  destruct W as [wf_ids wf_seq wf_rows wf_once wf_outbox wf_outbox_ids wf_outbox_keys wf_revision wf_profile].
  assert (forall k row r, turn_requests d !! k = Some row -> t_status row = SCompleted ->
    t_committed_revision row = Some r -> (r <= current_revision_of d)%Z) as Hle.
  { intros k row r K S R. apply wf_rows in K as (_ & _ & K). rewrite S in K.
    destruct K as (r' & ? & ? & ? & ? & K1 & K2 & _). simplify_eq. lia. }
  constructor.
  - cbn. rewrite map_app. cbn. apply StronglySorted_app_lt; [done| |].
    + repeat constructor. lia.
    + intros x y Hx Hy. apply list_elem_of_fmap in Hx as (r & -> & Hr).
      rewrite Forall_forall in wf_seq. specialize (wf_seq r Hr). set_unfold in Hy. lia.
  - cbn. apply Forall_app. split; [eapply Forall_impl; [exact wf_seq|]; cbn; lia|].
    repeat constructor; cbn; lia.
  - cbn [turn_requests d' turn_effect with_turns]. apply map_Forall_insert_2.
    + split; [|split].
      * apply chat_exists_In. exists (mkChat (chat_seq d + 1) RUser (in_user_message i) now).
        split; [cbn; set_solver|done].
      * apply chat_exists_In. exists (mkChat (chat_seq d + 1 + 1) RAssistant (in_assistant_message i) now).
        split; [cbn; set_solver|done].
      * cbn [t_status]. eexists _, _, _, _, di. rewrite Hrev. split; [done|]. split; [lia|done].
    + eapply map_Forall_impl; [exact wf_rows|]. intros k row. apply row_wf_grow; [done|done|lia].
  - intros r1 r2 r Pos (w1 & L1 & S1 & R1) (w2 & L2 & S2 & R2). cbn in L1, L2.
    apply lookup_insert_Some in L1 as [[<- <-]|[N1 L1]], L2 as [[<- <-]|[N2 L2]]; [done|..].
    + cbn in R1. injection R1 as <-. pose proof (Hle _ _ _ L2 S2 R2). lia.
    + cbn in R2. injection R2 as <-. pose proof (Hle _ _ _ L1 S1 R1). lia.
    + apply (wf_once r1 r2 r); [done|..]; [by exists w1|by exists w2].
  - cbn. eapply Forall_impl; [exact wf_outbox|]. intros o [x Hx]. cbn.
    destruct (decide (in_request_id i = o_turn o)) as [-> |N]; [rewrite lookup_insert_eq; by eexists|].
    rewrite lookup_insert_ne by done. by eexists.
  - done.
  - done.
  - rewrite Hrev. lia.
  - cbn. intros p [= <-]. by destruct (profiles d).
Qed.

(** Outbox insertion changes only the outbox. *)
Lemma insert_outbox_inv row d d' :
  insert_outbox row d = Some (tt, d') ->
  d' = d \/ (d' = with_turns d (turn_requests d) (outbox_events d ++ [row])
             /\ is_Some (turn_requests d !! o_turn row)
             /\ o_id row ∉ map o_id (outbox_events d) /\ event_key row ∉ map event_key (outbox_events d)).
Proof.
  unfold insert_outbox. destruct (negb _); [done|].
  destruct (existsb _ _) eqn:K; [intros [= <-]; by left|].
  destruct (existsb (fun r => str_eqb (o_id r) (o_id row)) _) eqn:I; [done|].
  destruct (turn_requests d !! o_turn row) eqn:T; [|done]. intros [= <-]. right.
  split; [done|]. split; [by eexists|]. split.
  - intros (r & E & Hr)%list_elem_of_fmap. apply not_true_iff_false in I. apply I.
    eapply existsb_elem; [exact Hr|]. by apply str_eqb_eq.
  - intros (r & E & Hr)%list_elem_of_fmap. apply not_true_iff_false in K. apply K.
    eapply existsb_elem; [exact Hr|]. unfold event_key in E. injection E as -> ->.
    by rewrite !(proj2 (str_eqb_eq _ _)).
Qed.

Lemma outbox_added_inv rid es d d' :
  outbox_added rid es d d' ->
  exists new, d' = with_turns d (turn_requests d) (outbox_events d ++ new)
    /\ Forall (fun o => o_turn o = rid) new.
Proof.
  induction 1 as [d|e es doc d d1 d2 Hd Hi _ (new & -> & F)].
  - exists []. split; [|done]. rewrite app_nil_r. by destruct d.
  - apply insert_outbox_inv in Hi as [-> |(-> & _)]; [by exists new|].
    eexists (_ :: new). cbn. rewrite <- app_assoc. split; [done|]. by constructor.
Qed.

Lemma NoDup_snoc {A} (l : list A) x : NoDup l -> x ∉ l -> NoDup (l ++ [x]).
Proof.
  intros H N. apply NoDup_app. split; [done|]. split; [|apply NoDup_singleton].
  intros y Hy ->%list_elem_of_singleton. done.
Qed.

Lemma outbox_added_wf rid es d d' : outbox_added rid es d d' -> db_wf d -> db_wf d'.
Proof.
  induction 1 as [d|e es doc d d1 d2 Hd Hi _ IH]; [done|]. intros W. apply IH. clear IH.
  apply insert_outbox_inv in Hi as [-> |(-> & T & N1 & N2)]; [done|].
  destruct W as [wf_ids wf_seq wf_rows wf_once wf_outbox wf_outbox_ids wf_outbox_keys wf_revision wf_profile].
  constructor; cbn; try done.
  - apply Forall_app. split; [done|]. by constructor.
  - rewrite map_app. by apply NoDup_snoc.
  - rewrite map_app. by apply NoDup_snoc.
Qed.

(** ** Preservation by the other effects *)

Lemma profile_wf_change d p' (l : list privacy_row) :
  db_wf d -> profile_wf p' -> (current_revision_of d <= pr_revision p')%Z ->
  history_generation_of (with_privacy d l) = history_generation_of d ->
  db_wf (with_privacy (with_profile d p') l).
Proof.
  intros [wf_ids wf_seq wf_rows wf_once wf_outbox wf_outbox_ids wf_outbox_keys wf_revision wf_profile] Hp Hr Hg.
  constructor; cbn; try done.
  - eapply map_Forall_impl; [exact wf_rows|]. intros k row. by apply row_wf_ext.
  - unfold current_revision_of in *. cbn. lia.
  - by intros p [= <-].
Qed.

Lemma generation_app d op doc :
  op <> op_delete_history ->
  history_generation_of (with_privacy d (privacy_operations d ++ [mkPrivacy op doc])) = history_generation_of d.
Proof.
  intros N. unfold history_generation_of. cbn. rewrite List.filter_app. cbn.
  rewrite bool_decide_eq_false_2 by done. by rewrite app_nil_r.
Qed.

Lemma generation_erased d doc : history_generation_of (erased d doc) = (history_generation_of d + 1)%Z.
Proof.
  unfold history_generation_of. cbn [erased privacy_operations].
  rewrite List.filter_app, length_app. cbn [List.filter p_operation].
  rewrite bool_decide_eq_true_2 by done. cbn [length]. lia.
Qed.

Lemma memories_wf d l z ops :
  db_wf d -> history_generation_of (with_privacy d ops) = history_generation_of d ->
  db_wf (with_privacy (with_memories d l z) ops).
Proof.
  intros [wf_ids wf_seq wf_rows wf_once wf_outbox wf_outbox_ids wf_outbox_keys wf_revision wf_profile] Hg.
  constructor; cbn; try done. eapply map_Forall_impl; [exact wf_rows|]. intros k row. by apply row_wf_ext.
Qed.

Lemma erased_wf d doc : db_wf d -> db_wf (erased d doc).
Proof.
  intros [wf_ids wf_seq wf_rows wf_once wf_outbox wf_outbox_ids wf_outbox_keys wf_revision wf_profile].
  constructor; cbn; try done; try constructor.
  by intros ? ? ? _ (row & H & _).
Qed.

Lemma recovered_wf d : db_wf d -> db_wf (recovered d).
Proof.
  intros [wf_ids wf_seq wf_rows wf_once wf_outbox wf_outbox_ids wf_outbox_keys wf_revision wf_profile].
  constructor; cbn; try done.
  - apply map_Forall_fmap. eapply map_Forall_impl; [exact wf_rows|]. intros k row (H1 & H2 & H3).
    cbn. unfold fail_pending. case_bool_decide; [|by apply (row_wf_ext d)]. by split; [|split].
  - assert (forall rid r, completed_at (recovered d) rid r -> completed_at d rid r) as K.
    { intros rid r (row & L & S & R). cbn in L. rewrite lookup_fmap in L.
      destruct (turn_requests d !! rid) as [w|] eqn:E; [|done]. cbn in L. injection L as <-.
      exists w. split; [done|]. unfold fail_pending in *. by case_bool_decide. }
    intros r1 r2 r Pos H1%K H2%K. by apply (wf_once r1 r2 r).
  - eapply Forall_impl; [exact wf_outbox|]. intros o H. cbn. rewrite lookup_fmap. by apply fmap_is_Some.
Qed.

End Turn.
