(* ===== verification/StorageTheorems.v ===== *)
(** * Theorems of the local store

    The calls a process makes on the store, in any order and interleaving, with
    faults, crashes and restarts; the invariant over all reachable stores; and
    the guarantees of the turn ledger: atomicity, idempotency, fencing by the
    history generation, compare-and-swap on the revision, recovery and closure. *)

From S2P Require Import Prelude PyFloat PyValue Json EmotionalModels Relationship StorageContracts.
From S2P Require Import LocalStorage StorageSpec StorageInvariant.
From Stdlib Require Import Sorted.
Local Open Scope store_scope.

Section Theorems.
Context `{FR : FloatRepr, SH : Sha256}.

(** ** Validated inputs *)

Lemma validate_commit_inv a i :
  validate_commit a = Ok i ->
  _validate_request_id (ca_request_id a) = Ok (in_request_id i)
  /\ ca_emotional_state a = PDict (in_emotional i)
  /\ (exists s, EmotionalStateV1_from_dict (PDict (in_emotional i)) = Ok s)
  /\ ca_relationship_state a = PDict (in_relationship i)
  /\ (exists s, RelationshipStateV1_from_dict (PDict (in_relationship i)) = Ok s)
  /\ ca_replay_payload a = PDict (in_replay i)
  /\ dget (in_replay i) (u "response") = Some (PStr (in_response i))
  /\ Forall event_wf (in_outbox i).
Proof.
  unfold validate_commit. intros H. inv_ok.
  cbn [in_request_id in_emotional in_relationship in_replay in_response in_outbox].
  apply replay_payload_ok in E4 as (P1 & _ & _ & (rs & P2) & _).
  apply emotional_snapshot_ok in E5 as (P3 & _ & _ & P4).
  apply relationship_snapshot_ok in E6 as (P5 & _ & _ & P6).
  apply outbox_events_ok in E7 as (P7 & _).
  split; [done|]. split; [done|]. split; [by rewrite <- P3|]. split; [done|].
  split; [by rewrite <- P5|]. split; [done|]. split; [|done].
  unfold dget_or in G0. rewrite P2 in G0. cbn in G0. apply negb_false_iff, str_eqb_eq in G0. by subst.
Qed.

Lemma json_dumps_encode v doc : _json_dumps v = Ok doc <-> json_encode true v = Ok doc.
Proof. unfold _json_dumps. destruct (json_encode true v); cbn; naive_solver. Qed.

Lemma dict_decode d doc : json_encode true (PDict d) = Ok doc -> exists di, json_decode doc = PDict di.
Proof. rewrite json_encode_dict. intros H. inv_ok. cbn. by eexists. Qed.

(** The dicts a caller passes have no repeated key. *)
Definition args_ok (a : CommitArgs) : Prop :=
  (forall d, ca_emotional_state a = PDict d -> dict_ok d)
  /\ (forall d, ca_relationship_state a = PDict d -> dict_ok d).

Lemma commit_docs_ok a i ej rj pj :
  validate_commit a = Ok i -> args_ok a ->
  _json_dumps (PDict (in_emotional i)) = Ok ej -> _json_dumps (PDict (in_relationship i)) = Ok rj ->
  _json_dumps (PDict (in_replay i)) = Ok pj -> docs_ok ej rj pj.
Proof.
  intros V [A1 A2] E R P.
  apply validate_commit_inv in V as (_ & V1 & (s & V2) & V3 & (s' & V4) & _).
  apply json_dumps_encode in E, R, P. split; [|split; [|by apply dict_decode in P]].
  - exists s. apply (emotional_roundtrip true (in_emotional i)); auto.
  - exists s'. apply (relationship_roundtrip true (in_relationship i)); auto.
Qed.

Lemma neutral_emotional_reads ts c doc :
  neutral_emotional_snapshot ts = Ok c -> _json_dumps (PDict c) = Ok doc ->
  exists s, EmotionalStateV1_from_dict (json_decode doc) = Ok s.
Proof.
  unfold neutral_emotional_snapshot. destruct (EmotionalStateV1_neutral _) as [s|] eqn:N; cbn; [|done].
  intros [= <-] D%json_dumps_encode. exists s.
  apply create_iff in N as [_ W].
  apply (emotional_roundtrip true (EmotionalStateV1_to_dict s)); [|by apply from_dict_to_dict|done].
  unfold dict_ok. apply (bool_decide_unpack _). done.
Qed.

Lemma neutral_relationship_reads ts c doc :
  neutral_relationship_snapshot ts = Ok c -> _json_dumps (PDict c) = Ok doc ->
  exists s, RelationshipStateV1_from_dict (json_decode doc) = Ok s.
Proof.
  unfold neutral_relationship_snapshot. destruct (RelationshipStateV1_neutral _) as [s|] eqn:N; cbn; [|done].
  intros [= <-] D%json_dumps_encode. exists s.
  apply rel_create_iff in N as [_ W].
  apply (relationship_roundtrip true (RelationshipStateV1_to_dict s)); [|by apply rel_from_dict_to_dict|done].
  unfold dict_ok. apply (bool_decide_unpack _). done.
Qed.

(** ** Calls *)

Inductive call : Type :=
| CReserve (request_id user_message : pyval)
| CCommit (now : pystr) (a : CommitArgs)
| CRelease (request_id generation : pyval)
| CReplay (request_id : pyval)
| CCheck (request_id user_message : pyval)
| CStoreMemory (now : pystr) (content metadata : pyval)
| CDeleteHistory
| CDeleteMemories
| CResetEmotional (now now' : float) (neutral : option pyval)
| CResetRelationship (now now' : float) (neutral : option pyval)
| CTrim (keep_last : pyval)
| CLoadState (now : float)
| CLoadHistory (limit : pyval)
| CLoadMemories (limit : pyval)
| CClose
| CRestart.   (** the process stopped, at any point between calls, and opened the file again *)

Definition run_call (c : call) (s : store) : store :=
  match c with
  | CReserve r m => (reserve_request r m s).2
  | CCommit now a => (commit_turn now a s).2
  | CRelease r g => (release_request r g s).2
  | CReplay r => (replay r s).2
  | CCheck r m => (check_request r m s).2
  | CStoreMemory now c m => (store_memory now c m s).2
  | CDeleteHistory => (delete_history s).2
  | CDeleteMemories => (delete_memories s).2
  | CResetEmotional t t' n => (reset_emotional_state t t' n s).2
  | CResetRelationship t t' n => (reset_relationship_state t t' n s).2
  | CTrim k => (trim_history k s).2
  | CLoadState t => (load_user_state t s).2
  | CLoadHistory l => (load_recent_history l s).2
  | CLoadMemories l => (load_recent_memories l s).2
  | CClose => (close s).2
  | CRestart => (_recover_interrupted_turns (reopened s)).2
  end.

Definition call_ok (c : call) : Prop :=
  match c with CCommit _ a => args_ok a | _ => True end.

(** What one call can do to the committed database. *)
Inductive db_step (c : call) (d : database) : database -> Prop :=
| ds_same : db_step c d d
| ds_reserve r m rid : c = CReserve r m -> _validate_request_id r = Ok rid ->
    turn_requests d !! rid = None ->
    db_step c d (with_turns d (<[rid := reserved_row (history_generation_of d)]> (turn_requests d))
                   (outbox_events d))
| ds_commit now a i ct s' : c = CCommit now a -> validate_commit a = Ok i ->
    commit_post now i d (Ok (inr ct)) s' -> db_step c d (committed s')
| ds_release r g rid gen : c = CRelease r g -> _validate_request_id r = Ok rid ->
    db_step c d (delete_turns (release_keep rid gen) d)
| ds_memory now co m l z : c = CStoreMemory now co m -> db_step c d (with_memories d l z)
| ds_erase doc : c = CDeleteHistory -> db_step c d (erased d doc)
| ds_forget doc : c = CDeleteMemories ->
    db_step c d (with_privacy (with_memories d [] (memory_seq d))
                   (privacy_operations d ++ [mkPrivacy op_delete_memories doc]))
| ds_reset op f canonical now now' doc rdoc p' :
    op <> op_delete_history -> (0 <= current_revision_of d)%Z ->
    match f with FEmotional => neutral_emotional_snapshot now = Ok canonical
               | FRelationship => neutral_relationship_snapshot now = Ok canonical end ->
    _json_dumps (PDict canonical) = Ok doc -> reset_profile f now' doc d p' ->
    db_step c d (with_privacy (with_profile d p') (privacy_operations d ++ [mkPrivacy op rdoc]))
| ds_trim k n : c = CTrim k -> db_step c d (trimmed n d)
| ds_recover : c = CRestart -> db_step c d (recovered d).

Lemma reset_profile_wf f now now' canonical doc d p' :
  db_wf d ->
  match f with FEmotional => neutral_emotional_snapshot now = Ok canonical
             | FRelationship => neutral_relationship_snapshot now = Ok canonical end ->
  _json_dumps (PDict canonical) = Ok doc -> reset_profile f now' doc d p' ->
  profile_wf p' /\ pr_revision p' = (current_revision_of d + 1)%Z.
Proof.
  intros W N D R. unfold reset_profile in R. pose proof (wf_profile d W) as Wp.
  destruct (profiles d) as [p|]; [specialize (Wp p eq_refl)|].
  - subst p'. destruct Wp as [P1 P2]. destruct f; (split; [|done]); split; cbn;
      eauto using neutral_emotional_reads, neutral_relationship_reads.
  - destruct R as (ej & rj & -> & R). split; [|done].
    destruct f; destruct R as [-> (x & N' & D')]; split; cbn;
      eauto using neutral_emotional_reads, neutral_relationship_reads.
Qed.

Lemma db_step_wf c d d' : call_ok c -> db_step c d d' -> db_wf d -> db_wf d'.
Proof.
  intros Hc H W.
  destruct H as [|r m rid -> _ N|now a i ct s' -> V P|r g rid gen _ _|now co m l z _|doc _|doc _
    |op f canonical now now' doc rdoc p' Nop Hr N D R|k n _|_]; [done|..].
  - by apply reserve_wf.
  - destruct P as (_ & _ & old & ej & rj & pj & L & S & _ & _ & _ & J1 & J2 & J3 & O & _).
    apply (outbox_added_wf _ _ _ _ O), turn_effect_wf; eauto using commit_docs_ok.
  - by apply delete_turns_wf.
  - apply (memories_wf d l z (privacy_operations d)) in W; [by destruct d|by destruct d].
  - by apply erased_wf.
  - by apply memories_wf, generation_app.
  - destruct (reset_profile_wf _ _ _ _ _ _ _ W N D R) as [P E].
    apply profile_wf_change; [done|done|lia|by apply generation_app].
  - by apply delete_chats_wf.
  - by apply recovered_wf.
Qed.

(** ** Calls that cannot write: on a closed store, with a transaction left open
    on the connection, and the reads *)

Definition quiet {A} (d : database) (r : result storage_exn A) (s' : store) : Prop :=
  committed s' = d /\ (tx s' = None \/ tx s' = Some d).

Ltac quiet_tac :=
  repeat first
    [ solve [split; auto]
    | solve [intros; split; auto]
    | solve [intros ? ? [-> | ->]; split; auto]
    | wp_step
    | progress intros
    | progress case_match
    | progress cbn [drop_tx committed tx closed faults] ].

Lemma quiet_reads d t cl fs (r m : pyval) (ts : float) (l : pyval) :
  t = None \/ t = Some d ->
  wp (replay r) (mkStore d t cl fs) (quiet d) /\ wp (check_request r m) (mkStore d t cl fs) (quiet d)
  /\ wp (load_user_state ts) (mkStore d t cl fs) (quiet d)
  /\ wp (load_recent_history l) (mkStore d t cl fs) (quiet d)
  /\ wp (load_recent_memories l) (mkStore d t cl fs) (quiet d).
Proof.
  intros [-> | ->]; destruct cl; (split; [|split; [|split; [|split]]]);
    unfold replay, check_request, load_user_state, load_recent_history, load_recent_memories;
    quiet_tac.
Qed.

(** A connection that still holds a transaction, or a closed store, refuses every write. *)
Lemma quiet_writes d cl fs (c : call) :
  c <> CRestart ->
  quiet (A := unit) d (Ok tt) (run_call c (mkStore d (Some d) cl fs))
  /\ quiet (A := unit) d (Ok tt) (run_call c (mkStore d None true fs)).
Proof.
  intros Hc.
  assert (forall {A} (m : M A) s, wp m s (quiet d) -> quiet (A := unit) d (Ok tt) (m s).2) as K by done.
  destruct c; cbn [run_call]; try done; (split; [apply K; destruct cl|apply K]); clear K;
    unfold replay, check_request, load_user_state, load_recent_history, load_recent_memories,
      reserve_request, commit_turn, release_request, store_memory, delete_history,
      delete_memories, _privacy_delete, reset_emotional_state, reset_relationship_state, _reset_state_field,
      trim_history, bind_text, bind_int, commit_body;
    quiet_tac.
Qed.

(** ** Every call is a step of the committed database *)

(** No statement of a transaction is pending: what is open equals what is committed. *)
Definition idle (s : store) : Prop := tx s = None \/ tx s = Some (committed s).

Lemma quiet_step c d s' :
  committed s' = d /\ (tx s' = None \/ tx s' = Some d) -> db_step c d (committed s') /\ idle s'.
Proof. intros [E T]. unfold idle. rewrite E. split; [constructor|done]. Qed.

Lemma same_step c d s' : committed s' = d -> tx s' = None -> db_step c d (committed s') /\ idle s'.
Proof. intros E T. rewrite E. split; [constructor|by left]. Qed.

Ltac open_wp H := match type of H with
  | wp ?m ?s _ => unfold wp in H; destruct (m s) as [?r ?s'] eqn:?; cbn [fst snd] in H |- *
  end.

Lemma reset_open_step c op f canonical now now' d fs :
  op <> op_delete_history -> (0 <= current_revision_of d)%Z ->
  match f with FEmotional => neutral_emotional_snapshot now = Ok canonical
             | FRelationship => neutral_relationship_snapshot now = Ok canonical end ->
  wp (_reset_state_field op f canonical now') (mkStore d None false fs) (reset_post op f canonical now' d) ->
  let s' := (_reset_state_field op f canonical now' (mkStore d None false fs)).2 in
  db_step c d (committed s') /\ idle s'.
Proof.
  intros Nop Hr N H. open_wp H. destruct H as [_ H]. destruct r as [v|e].
  - destruct H as (T & _ & doc & rdoc & p' & D & R & ->). split; [by eapply ds_reset|by left].
  - by apply quiet_step.
Qed.

Lemma run_open_step c d fs :
  db_wf d -> c <> CRestart ->
  let s' := run_call c (mkStore d None false fs) in db_step c d (committed s') /\ idle s'.
Proof.
  intros W Hc.
  destruct c as [r m|now a|r g|r|r m|now co m| | |t t' n|t t' n|k|t|l|l| |]; cbn [run_call]; try done.
  - destruct (_validate_request_id r) as [rid|e] eqn:Vr.
    2:{ unfold reserve_request, mbind, mlift. rewrite Vr. by apply quiet_step; split; auto. }
    destruct (_validate_message m) as [um|e] eqn:Vm.
    2:{ unfold reserve_request, mbind, mlift. rewrite Vr, Vm. by apply quiet_step; split; auto. }
    pose proof (wp_reserve_request r m rid um d fs Vr Vm) as H. open_wp H.
    destruct H as (_ & T & H). destruct r0 as [o|e]; [|by apply same_step].
    destruct (ro_status o); try done; try (by destruct H as [H _]; apply same_step).
    destruct H as (N & _ & _ & ->). split; [by eapply ds_reserve|by left].
  - pose proof (wp_commit_turn now a d fs) as H. open_wp H. destruct H as (_ & T & H).
    destruct r as [ct|e]; [|by apply same_step]. destruct H as (i & V & [[E _]|P]); [by apply same_step|].
    split; [by eapply ds_commit|by left].
  - destruct (_validate_request_id r) as [rid|e] eqn:Vr.
    2:{ unfold release_request, mbind, mlift. rewrite Vr. by apply quiet_step; split; auto. }
    destruct (validate_nonneg g (u "invalid_history_generation")) as [gen|e] eqn:Vg.
    2:{ unfold release_request, mbind, mlift. rewrite Vr, Vg. by apply quiet_step; split; auto. }
    pose proof (wp_release_request r g rid gen d fs Vr Vg) as H. open_wp H.
    destruct H as (_ & T & H). destruct r0 as [[]|e]; [|by destruct H; apply same_step].
    rewrite H. split; [by eapply ds_release|by left].
  - destruct (quiet_reads d None false fs r r 0%float r) as (H & _); [by left|]. exact (quiet_step _ _ _ H).
  - destruct (quiet_reads d None false fs r m 0%float r) as (_ & H & _); [by left|]. exact (quiet_step _ _ _ H).
  - destruct (_validate_message co) as [cm|e] eqn:Vm.
    2:{ unfold store_memory, mbind, mlift. rewrite Vm. by apply quiet_step; split; auto. }
    destruct (as_mapping m) as [mp|] eqn:Mp.
    2:{ unfold store_memory, mbind, mlift. rewrite Vm, Mp. by apply quiet_step; split; auto. }
    pose proof (wp_store_memory now co m cm mp d fs Vm Mp) as H. open_wp H. destruct H as (_ & H).
    destruct r as [id|e].
    + destruct H as (T & _ & doc & _ & ->). split; [by eapply ds_memory|by left].
    + by apply quiet_step.
  - pose proof (wp_delete_history d fs) as H. open_wp H. destruct H as (_ & T & H).
    destruct r as [v|e]; [|by apply same_step]. destruct H as (_ & doc & ->).
    split; [by eapply ds_erase|by left].
  - pose proof (wp_delete_memories d fs) as H. open_wp H. destruct H as (_ & T & H).
    destruct r as [v|e]; [|by apply same_step]. destruct H as (_ & doc & ->).
    split; [by eapply ds_forget|by left].
  - unfold reset_emotional_state, mbind, mlift.
    destruct (neutral_emotional_snapshot t) as [canonical|e] eqn:N; [|by apply quiet_step; split; auto].
    destruct n as [v|]; [destruct (validate_neutral_emotional_snapshot v) as [dv|e];
      [|by apply quiet_step; split; auto]|]; cbn [mret];
    (apply (reset_open_step _ op_reset_emotional FEmotional canonical t t' d fs);
      [done|apply W|exact N|apply wp_reset_state_field, W]).
  - unfold reset_relationship_state, mbind, mlift.
    destruct (neutral_relationship_snapshot t) as [canonical|e] eqn:N; [|by apply quiet_step; split; auto].
    destruct n as [v|]; [destruct (validate_neutral_relationship_snapshot v) as [dv|e];
      [|by apply quiet_step; split; auto]|]; cbn [mret];
    (apply (reset_open_step _ op_reset_relationship FRelationship canonical t t' d fs);
      [done|apply W|exact N|apply wp_reset_state_field, W]).
  - destruct (validate_nonneg k (u "invalid_keep_last")) as [n|e] eqn:V.
    2:{ unfold trim_history, mbind, mlift. rewrite V. by apply quiet_step; split; auto. }
    pose proof (wp_trim_history k n d fs V) as H. open_wp H. destruct H as (_ & H).
    destruct r as [v|e]; [|by apply quiet_step]. destruct H as (T & _ & ->). split; [by eapply ds_trim|by left].
  - destruct (quiet_reads d None false fs PNone PNone t PNone) as (_ & _ & H & _); [by left|]. exact (quiet_step _ _ _ H).
  - destruct (quiet_reads d None false fs PNone PNone 0%float l) as (_ & _ & _ & H & _); [by left|]. exact (quiet_step _ _ _ H).
  - destruct (quiet_reads d None false fs PNone PNone 0%float l) as (_ & _ & _ & _ & H); [by left|]. exact (quiet_step _ _ _ H).
  - by apply same_step.
Qed.


Definition store_wf (s : store) : Prop := db_wf (committed s) /\ idle s.

Lemma run_call_step c s :
  store_wf s -> db_step c (committed s) (committed (run_call c s)) /\ idle (run_call c s).
Proof.
  intros [W I]. destruct s as [d t cl fs]. cbn [committed] in *.
  destruct (match c with CRestart => true | _ => false end) eqn:R.
  - destruct c; try done. cbn [run_call]. unfold reopened. cbn [committed faults].
    pose proof (wp_recover d fs) as H. open_wp H. destruct H as (_ & T & H).
    destruct r; [rewrite H; split; [by constructor|by left]|by apply same_step].
  - assert (c <> CRestart) as Hc by by destruct c.
    destruct I as [E|E]; cbn in E; subst t.
    + destruct cl; [|by apply run_open_step].
      destruct (quiet_writes d true fs c Hc) as [_ Q]. exact (quiet_step _ _ _ Q).
    + destruct (quiet_writes d cl fs c Hc) as [Q _]. exact (quiet_step _ _ _ Q).
Qed.

Lemma run_call_wf c s : call_ok c -> store_wf s -> store_wf (run_call c s).
Proof.
  intros Hc W. pose proof (run_call_step c s W) as [S I]. split; [|done].
  by eapply db_step_wf, W.
Qed.

Definition run_calls (l : list call) (s : store) : store := fold_left (fun s c => run_call c s) l s.

Lemma run_calls_wf l s : Forall call_ok l -> store_wf s -> store_wf (run_calls l s).
Proof.
  intros F. revert s. induction F as [|c l Hc _ IH]; intros s W; [done|]. cbn. apply IH.
  by apply run_call_wf.
Qed.

(** An invariant of the steps is an invariant of the runs. *)
Lemma run_calls_ind (P : database -> database -> Prop) l s :
  (forall d, P d d) -> (forall d1 d2 d3, P d1 d2 -> P d2 d3 -> P d1 d3) ->
  (forall c d d', c ∈ l -> call_ok c -> db_wf d -> db_step c d d' -> P d d') ->
  Forall call_ok l -> store_wf s -> P (committed s) (committed (run_calls l s)).
Proof.
  intros Hr Ht Hs F. revert s. induction F as [|c l Hc F IH]; intros s W; [apply Hr|]. cbn.
  pose proof (run_call_step c s W) as [S _]. eapply Ht.
  - eapply Hs; [left|done|apply W|exact S].
  - apply IH; [|by apply run_call_wf]. intros c' d d' Hin. apply Hs. by right.
Qed.

(** ** Monotone counters *)

Lemma outbox_added_fields rid es d d' :
  outbox_added rid es d d' ->
  turn_requests d' = turn_requests d /\ chat_logs d' = chat_logs d /\ profiles d' = profiles d
  /\ privacy_operations d' = privacy_operations d /\ memories d' = memories d.
Proof. intros (new & -> & _)%outbox_added_inv. done. Qed.

Lemma history_generation_ext d d' :
  privacy_operations d' = privacy_operations d -> history_generation_of d' = history_generation_of d.
Proof. unfold history_generation_of. by intros ->. Qed.

Lemma current_revision_ext d d' :
  profiles d' = profiles d -> current_revision_of d' = current_revision_of d.
Proof. unfold current_revision_of. by intros ->. Qed.

Lemma commit_post_counters now i d c s' :
  commit_post now i d (Ok (inr c)) s' ->
  history_generation_of (committed s') = history_generation_of d
  /\ current_revision_of (committed s') = (current_revision_of d + 1)%Z.
Proof.
  intros (_ & _ & old & ej & rj & pj & _ & _ & _ & _ & _ & _ & _ & _ & O & _).
  apply outbox_added_fields in O as (_ & _ & O3 & O4 & _). split.
  - by apply history_generation_ext.
  - rewrite (current_revision_ext _ _ O3). apply turn_effect_revision.
Qed.

Lemma db_step_counters c d d' :
  db_wf d -> db_step c d d' ->
  (history_generation_of d <= history_generation_of d')%Z
  /\ (current_revision_of d <= current_revision_of d')%Z.
Proof.
  intros W H.
  destruct H as [|r m rid _ _ N|now a i ct s' _ V P|r g rid gen _ _|now co m l z _|doc _|doc _
    |op f canonical now now' doc rdoc p' Nop Hr N D R|k n _|_]; try (split; reflexivity).
  - apply commit_post_counters in P as [-> ->]. lia.
  - rewrite generation_erased. unfold current_revision_of. cbn. lia.
  - rewrite <- (generation_app d op_delete_memories doc) at 1 by done. split; reflexivity.
  - destruct (reset_profile_wf _ _ _ _ _ _ _ W N D R) as [_ E]. split.
    + rewrite <- (generation_app d op rdoc) at 1 by done. reflexivity.
    + unfold current_revision_of in *. cbn. lia.
Qed.

Lemma run_calls_counters l s :
  Forall call_ok l -> store_wf s ->
  (history_generation_of (committed s) <= history_generation_of (committed (run_calls l s)))%Z
  /\ (current_revision_of (committed s) <= current_revision_of (committed (run_calls l s)))%Z.
Proof.
  apply (run_calls_ind (fun d d' => (history_generation_of d <= history_generation_of d')%Z
    /\ (current_revision_of d <= current_revision_of d')%Z)); [intros; lia|intros; lia|].
  intros c d d' _ _ W S. by eapply db_step_counters.
Qed.

(** A commit on any well-formed store: it writes one turn and returns, or it
    leaves the committed database as it was. *)
Lemma commit_cases now a s r s' :
  store_wf s -> commit_turn now a s = (r, s') ->
  committed s' = committed s
  \/ exists i c, validate_commit a = Ok i /\ r = Ok c /\ commit_post now i (committed s) (Ok (inr c)) s'.
Proof.
  intros [W I] E. destruct s as [d t cl fs]. cbn [committed] in *.
  assert (run_call (CCommit now a) (mkStore d t cl fs) = s') as R by (cbn [run_call]; by rewrite E).
  destruct I as [T|T]; cbn in T; subst t.
  - destruct cl.
    + left. destruct (quiet_writes d true fs (CCommit now a)) as [_ [Q _]]; [done|]. by rewrite <- R.
    + pose proof (wp_intro _ _ _ _ _ (wp_commit_turn now a d fs) E) as (_ & _ & P).
      destruct r as [c|e]; [|by left]. destruct P as (i & V & [[P _]|P]); [by left|].
      right. by exists i, c.
  - left. destruct (quiet_writes d cl fs (CCommit now a)) as [[Q _] _]; [done|]. by rewrite <- R.
Qed.

(** ** Reservations *)

(** A call that may end the reservation of [rid]. *)
Definition ends_reservation (rid : pystr) (c : call) : bool :=
  match c with
  | CCommit _ a => match _validate_request_id (ca_request_id a) with Ok r => str_eqb r rid | Err _ => false end
  | CRelease r _ => match _validate_request_id r with Ok r => str_eqb r rid | Err _ => false end
  | CDeleteHistory | CRestart => true
  | _ => false
  end.

Definition pending_at (d : database) (rid : pystr) : Prop :=
  exists row, turn_requests d !! rid = Some row /\ t_status row = SPending.

Lemma str_eqb_neq a b : str_eqb a b = false <-> a <> b.
Proof. unfold str_eqb. apply bool_decide_eq_false. Qed.

Lemma pending_step c d d' rid :
  db_wf d -> db_step c d d' -> ends_reservation rid c = false -> pending_at d rid -> pending_at d' rid.
Proof.
  intros W H Hc (row & L & S).
  destruct H as [|r m rid' _ _ N|now a i ct s' -> V P|r g rid' gen -> Vr|now co m l z _|doc ->|doc _
    |op f canonical now now' doc rdoc p' Nop Hr N D R|k n _| -> ]; try done; try (by exists row).
  - exists row. cbn. rewrite lookup_insert_ne; [done|]. congruence.
  - destruct P as (_ & _ & old & ej & rj & pj & _ & _ & _ & _ & _ & _ & _ & _ & O & _).
    apply outbox_added_fields in O as (O1 & _). exists row. rewrite O1. cbn.
    pose proof (validate_commit_inv a i V) as [Vr _]. cbn in Hc. rewrite Vr in Hc.
    apply str_eqb_neq in Hc. by rewrite lookup_insert_ne.
  - exists row. cbn. split; [|done]. apply map_lookup_filter_Some. split; [done|]. cbn in Hc |- *.
    rewrite Vr in Hc. unfold release_keep. apply str_eqb_neq in Hc.
    by rewrite (proj2 (str_eqb_neq rid rid')) by congruence.
  - exists row. cbn. split; [|done]. apply map_lookup_filter_Some. split; [done|]. cbn.
    pose proof (map_Forall_lookup_1 _ _ _ _ (wf_rows d W) L) as (_ & _ & Hp). rewrite S in Hp.
    destruct Hp as (_ & U & A). unfold refers_to. by rewrite U, A.
Qed.

Lemma pending_run l s rid :
  Forall call_ok l -> store_wf s -> forallb (fun c => negb (ends_reservation rid c)) l = true ->
  pending_at (committed s) rid -> pending_at (committed (run_calls l s)) rid.
Proof.
  intros F W Hl. apply (run_calls_ind (fun d d' => pending_at d rid -> pending_at d' rid)); try done.
  - intros d1 d2 d3 H1 H2 H. auto.
  - intros c d d' Hin _ Wd S. apply (pending_step c); [done|done|].
    rewrite forallb_forall in Hl. apply negb_true_iff, Hl. by apply list_elem_of_In.
Qed.

(** ** Lookup of messages *)

Lemma find_chat_unique l r :
  StronglySorted Z.lt (map c_id l) -> r ∈ l -> List.find (fun x => (c_id x =? c_id r)%Z) l = Some r.
Proof.
  induction l as [|x l IH]; [set_solver|]. cbn. intros Hs Hin. apply StronglySorted_inv in Hs as [Hs Hx].
  destruct (Z.eqb_spec (c_id x) (c_id r)) as [E|E].
  - apply elem_of_cons in Hin as [-> |Hin]; [done|]. rewrite Forall_forall in Hx.
    assert (c_id r ∈ map c_id l) as K by (apply list_elem_of_fmap; eauto). specialize (Hx _ K). lia.
  - apply elem_of_cons in Hin as [-> |Hin]; [done|]. auto.
Qed.

Lemma commit_post_content now i d c s' :
  db_wf (committed s') -> commit_post now i d (Ok (inr c)) s' ->
  exists row, turn_requests (committed s') !! in_request_id i = Some row
    /\ t_status row = SCompleted /\ t_hash row = in_hash i
    /\ chat_content (committed s') (t_user_msg row) = Some (in_user_message i)
    /\ t_committed_revision row = Some (ct_revision c) /\ t_user_msg row = Some (ct_user_message_id c)
    /\ t_assistant_msg row = Some (ct_assistant_message_id c)
    /\ (exists pj, t_replay row = Some pj /\ _json_dumps (PDict (in_replay i)) = Ok pj).
Proof.
  intros W (_ & _ & old & ej & rj & pj & _ & _ & _ & _ & _ & _ & _ & J & O & ->).
  apply outbox_added_fields in O as (O1 & O2 & _). eexists. rewrite O1. cbn.
  rewrite lookup_insert_eq. split; [done|]. cbn. split; [done|]. split; [done|]. split; [|eauto 10].
  rewrite O2. cbn.
  rewrite (find_chat_unique _ (mkChat (chat_seq d + 1) RUser (in_user_message i) now)); [done| |set_solver].
  pose proof (wf_ids _ W) as Hs. by rewrite O2 in Hs.
Qed.

(** A successful [delete_history] erased everything it should. *)
Lemma delete_history_cases s v s1 :
  store_wf s -> delete_history s = (Ok v, s1) ->
  exists doc, committed s1 = erased (committed s) doc /\ v = history_result (committed s).
Proof.
  intros [W I] E. destruct s as [d t cl fs]. cbn [committed] in *.
  destruct I as [T|T]; cbn in T; subst t.
  - destruct cl; [discriminate E|].
    pose proof (wp_intro _ _ _ _ _ (wp_delete_history d fs) E) as (_ & _ & -> & doc & ->). by exists doc.
  - exfalso. assert (wp delete_history (mkStore d (Some d) cl fs) (fun r _ => is_ok r = false)) as K.
    { unfold delete_history. apply wp_bind. apply wp_connection; [done|]. intros _.
      apply wp_bind. by apply wp_begin_open. }
    pose proof (wp_intro _ _ _ _ _ K E). done.
Qed.

(** A failed one changed nothing. *)
Lemma delete_history_err s e s' :
  store_wf s -> delete_history s = (Err e, s') -> committed s' = committed s.
Proof.
  intros [W I] E. destruct s as [d t cl fs]. cbn in *.
  destruct I as [T|T]; cbn in T; subst t; [destruct cl|].
  - by injection E as _ <-.
  - by pose proof (wp_intro _ _ _ _ _ (wp_delete_history d fs) E) as (_ & _ & K).
  - pose proof (quiet_writes d cl fs CDeleteHistory) as Q.
    destruct Q as [[Q _] _]; [done|]. cbn [run_call] in Q. by rewrite E in Q.
Qed.

(** A reservation on any well-formed store: it inserts the pending row, or it
    leaves the committed database as it was and reports a conflict or a replay. *)
Lemma reserve_cases s r m rid x s' :
  store_wf s -> _validate_request_id r = Ok rid -> reserve_request r m s = (x, s') ->
  (committed s' = committed s /\ forall o, x = Ok o -> ro_status o = o_conflict
     \/ (ro_status o = o_replay /\ exists row, turn_requests (committed s) !! rid = Some row
          /\ t_status row = SCompleted))
  \/ exists o, x = Ok o /\ ro_status o = o_reserved /\ turn_requests (committed s) !! rid = None
       /\ committed s' = with_turns (committed s)
            (<[rid := reserved_row (history_generation_of (committed s))]> (turn_requests (committed s)))
            (outbox_events (committed s)).
Proof.
  intros [W I] Vr E. destruct s as [d t cl fs]. cbn [committed] in *.
  destruct (_validate_message m) as [um|e] eqn:Vm.
  2:{ unfold reserve_request, mbind, mlift in E. rewrite Vr, Vm in E. injection E as <- <-. by left. }
  destruct I as [T|T]; cbn in T; subst t.
  - destruct cl.
    { unfold reserve_request, mbind, mlift in E. rewrite Vr, Vm in E. injection E as <- <-. by left. }
    pose proof (wp_intro _ _ _ _ _ (wp_reserve_request r m rid um d fs Vr Vm) E) as (_ & _ & P).
    destruct x as [o|e]; [|by left]. destruct (ro_status o) eqn:So; try done.
    + left. split; [by destruct P|]. intros o' [= <-]. by left.
    + left. split; [by destruct P|]. intros o' [= <-]. right.
      destruct P as (_ & row & c & P1 & P2 & _). eauto.
    + right. destruct P as (P1 & _ & _ & P2). by exists o.
  - left. assert (wp (reserve_request r m) (mkStore d (Some d) cl fs)
      (fun x s' => committed s' = d /\ is_ok x = false)) as K.
    { unfold reserve_request. apply wp_bind, wp_lift. rewrite Vr. apply wp_bind, wp_lift. rewrite Vm.
      apply wp_bind. apply wp_connection; [done|]. intros _. apply wp_sanitize. apply wp_bind.
      by apply wp_begin_open. }
    pose proof (wp_intro _ _ _ _ _ K E) as [K1 K2]. split; [done|]. by intros o ->.
Qed.

(** On a closed store without a transaction a call does not even move the schedule. *)
Lemma closed_call_same c d fs :
  c <> CRestart -> run_call c (mkStore d None true fs) = mkStore d None true fs.
Proof.
  intros Hc.
  assert (forall {A} (m : M A), wp m (mkStore d None true fs) (fun _ s' => s' = mkStore d None true fs) ->
    (m (mkStore d None true fs)).2 = mkStore d None true fs) as K by done.
  destruct c; cbn [run_call]; try done; apply K; clear K;
    unfold replay, check_request, load_user_state, load_recent_history, load_recent_memories,
      reserve_request, commit_turn, release_request, store_memory, delete_history,
      delete_memories, _privacy_delete, reset_emotional_state, reset_relationship_state, _reset_state_field,
      trim_history, bind_text, bind_int;
    repeat first [done | wp_step | progress case_match].
Qed.

End Theorems.
