(* ===== verification/StorageProperties.v ===== *)
(** * Properties of the local store

    The guarantees the desktop runtime relies on, stated over every well-formed
    store, every fault schedule and every sequence of calls. *)

From S2P Require Import Prelude PyFloat PyValue Json EmotionalModels EmotionalTransition Relationship.
From S2P Require Import StorageContracts LocalStorage StorageSpec StorageInvariant StorageTheorems.

Section Lemmas.
Context `{FR : FloatRepr, SH : Sha256}.

Lemma replay_message_id p d :
  validate_replay_payload p = Ok d ->
  exists m, dget d (u "message_id") = Some m /\ ((exists s, m = PStr s) \/ exists z, m = PInt z).
Proof.
  unfold validate_replay_payload. intros H.
  destruct (as_mapping p) as [d'|]; [|done]. destruct (_has_forbidden _ p); [done|].
  destruct (has_unknown _ d'); [done|].
  destruct (dget d' (u "response")) as [[| | | |rs| | | | |]|]; try done.
  destruct (dget d' (u "message_id")) as [m|] eqn:E; [|done].
  destruct (negb _) eqn:G in H; [done|]. destruct (negb _) in H; [done|]. inv_ok.
  exists m. split; [done|]. destruct m; try done; eauto.
Qed.

(** The stored replay payload answers as the original one. *)
Lemma committed_roundtrip rid rev uid aid d pj :
  dict_ok d -> (exists s, dget d (u "response") = Some (PStr s)) ->
  (exists m, dget d (u "message_id") = Some m /\ ((exists s, m = PStr s) \/ exists z, m = PInt z)) ->
  _json_dumps (PDict d) = Ok pj ->
  exists di, json_decode pj = PDict di
    /\ ct_response (committed_of rid rev uid aid di) = ct_response (committed_of rid rev uid aid d)
    /\ ct_message_id (committed_of rid rev uid aid di) = ct_message_id (committed_of rid rev uid aid d).
Proof.
  intros Hd [s R] (m & Hm & Hs) J%json_dumps_encode. rewrite json_encode_dict in J. inv_ok.
  cbn [json_decode]. fold (dict_of (sort_keys v)). exists (dict_of (sort_keys v)). split; [done|].
  cbn [committed_of ct_response ct_message_id]. unfold dget_or.
  pose proof (json_roundtrip_dget true d v (u "response") Hd E) as K1.
  pose proof (json_roundtrip_dget true d v (u "message_id") Hd E) as K2.
  rewrite R in K1 |- *. rewrite Hm in K2 |- *.
  destruct K1 as (j1 & E1 & ->), K2 as (j2 & E2 & ->).
  rewrite (json_scalar _ _ _ E1) by eauto. rewrite (json_scalar _ _ _ E2) by eauto. done.
Qed.

Lemma validate_commit_replay a i :
  validate_commit a = Ok i ->
  (exists s, dget (in_replay i) (u "response") = Some (PStr s))
  /\ exists m, dget (in_replay i) (u "message_id") = Some m
       /\ ((exists s, m = PStr s) \/ exists z, m = PInt z).
Proof.
  intros V. split.
  - apply validate_commit_inv in V as (_ & _ & _ & _ & _ & _ & R & _). eauto.
  - unfold validate_commit in V. inv_ok. cbn [in_replay]. by eapply replay_message_id.
Qed.

(** A completed row answers the retry of its own payload and refuses another. *)
Lemma commit_on_completed now a i d fs row r s' :
  validate_commit a = Ok i -> turn_requests d !! in_request_id i = Some row ->
  t_status row = SCompleted -> commit_turn now a (mkStore d None false fs) = (r, s') ->
  committed s' = d
  /\ (forall c, r = Ok c -> t_hash row = in_hash i /\ _committed_from_row (in_request_id i) row = Ok c)
  /\ (fs = [] -> r = if str_eqb (t_hash row) (in_hash i) then _committed_from_row (in_request_id i) row
                     else Err (ConflictError (u "request_payload_conflict") (or0 (in_expected i)) None)).
Proof.
  intros V L S E.
  assert (committed s' = d) as C.
  { pose proof (wp_intro _ _ _ _ _ (wp_commit_turn now a d fs) E) as (_ & _ & P).
    destruct r as [c|e]; [|done]. destruct P as (i' & V' & [[P _]|P]); [done|].
    rewrite V in V'. simplify_eq.
    destruct P as (_ & _ & old & ? & ? & ? & L' & S' & _). congruence. }
  split; [done|]. split.
  - intros c ->. pose proof (wp_intro _ _ _ _ _ (wp_commit_turn now a d fs) E) as (_ & _ & P).
    destruct P as (i' & V' & [[_ (row' & L' & _ & H1 & H2)]|P]); rewrite V in V'; simplify_eq; [done|].
    destruct P as (_ & _ & old & ? & ? & ? & L' & S' & _). congruence.
  - intros ->. unfold commit_turn, mbind, mlift, _connection, query, execute, next_fault in E.
    rewrite V in E. cbn [closed faults view tx committed put_view] in E. rewrite L, S in E.
    destruct (str_eqb _ _) eqn:H; cbn [negb] in E; [|by injection E as <- <-].
    unfold mlift in E. by injection E as <- <-.
Qed.

End Lemmas.

(** ** A concrete conversation, for the witnesses *)

Definition plain_sha : Sha256 := fun s => s.

Definition sample_args (rid : string) (generation : Z) (expected : pyval) : CommitArgs :=
  mkCommitArgs (PStr (u rid)) (PInt generation) (PStr (u "hi")) (PStr (u "hello"))
    (PDict (EmotionalStateV1_to_dict sample_state)) (PDict (RelationshipStateV1_to_dict sample_rel))
    (PStr (u "hello"))
    (PDict [(KStr (u "response"), PStr (u "hello")); (KStr (u "message_id"), PStr (u "m-1"))])
    (PList [PTuple [PStr (u "turn_done"); PDict [(KStr (u "ref"), PStr (u "m-1"))]; PStr (u "k1")]])
    expected.

Definition fresh_store (fs : list fault) : store := mkStore empty_db None false fs.

Lemma sample_args_ok rid g e : args_ok (sample_args rid g e).
Proof.
  split; cbn; intros d [= <-]; unfold dict_ok; apply (bool_decide_unpack _); vm_compute; exact I.
Qed.

Lemma fresh_store_wf fs : store_wf (fresh_store fs).
Proof. split; [exact empty_db_wf|by left]. Qed.

Definition reserved_store : store :=
  (reserve_request (PStr (u "req-1")) (PStr (u "hi")) (fresh_store [])).2.

Lemma reserved_store_wf : store_wf reserved_store.
Proof.
  exact (@run_call_wf flat_repr plain_sha (CReserve (PStr (u "req-1")) (PStr (u "hi"))) _ I (fresh_store_wf [])).
Qed.

(** The committed store of the sample turn, and its result. *)
Definition sample_commit : result storage_exn CommittedTurn * store :=
  @commit_turn flat_repr plain_sha (u "t0") (sample_args "req-1" 0 (PInt 0)) reserved_store.

Lemma sample_commit_wf : store_wf sample_commit.2.
Proof.
  exact (@run_call_wf flat_repr plain_sha (CCommit (u "t0") (sample_args "req-1" 0 (PInt 0))) _
    (sample_args_ok _ _ _) reserved_store_wf).
Qed.

(** ** Properties *)

(** C14. The database invariant holds in every reachable store: after any
    sequence of calls, with any schedule of SQLite faults, crashes and restarts,
    the ledger refers only to existing messages, outbox events to existing
    requests, identifiers are unique, no two turns committed the same revision,
    every live reservation carries the current history generation, the stored
    snapshots read back as valid domain models, and no half-written transaction
    is left on the connection. *)
Theorem reachable_store_wf : forall (FR : FloatRepr) (SH : Sha256) l fs,
  Forall call_ok l ->
  db_wf (committed (run_calls l (fresh_store fs))) /\ idle (run_calls l (fresh_store fs)).
Proof. intros FR SH l fs F. exact (run_calls_wf l _ F (fresh_store_wf fs)). Qed.

Lemma reachable_store_wf_witness :
  db_wf (committed (@run_calls flat_repr plain_sha
    [CReserve (PStr (u "req-1")) (PStr (u "hi")); CCommit (u "t0") (sample_args "req-1" 0 (PInt 0));
     CRestart; CTrim (PInt 1); CDeleteHistory] (fresh_store [NoFault; Fault true; NoFault]))).
Proof.
  refine (proj1 (@reachable_store_wf flat_repr plain_sha _ _ _)).
  repeat apply Forall_cons_2; try exact I; try exact (sample_args_ok _ _ _). apply Forall_nil_2.
Defined.



(** C6. Commits are idempotent.  Once a turn is committed, retrying the same
    arguments writes nothing and, when SQLite answers, returns the same
    revision, message ids, response and public message id; a different payload
    under the same request id is refused with [request_payload_conflict] and
    writes nothing either. *)
Theorem commit_turn_idempotent : forall (FR : FloatRepr) (SH : Sha256) now now' a s c s' fs r s'',
  store_wf s -> args_ok a -> (forall d, ca_replay_payload a = PDict d -> dict_ok d) ->
  commit_turn now a s = (Ok c, s') -> committed s' <> committed s ->
  (commit_turn now' a (mkStore (committed s') None false fs) = (r, s'') ->
     committed s'' = committed s'
     /\ (forall c', r = Ok c' -> ct_revision c' = ct_revision c
          /\ ct_user_message_id c' = ct_user_message_id c
          /\ ct_assistant_message_id c' = ct_assistant_message_id c
          /\ ct_response c' = ct_response c /\ ct_message_id c' = ct_message_id c)
     /\ (fs = [] -> is_ok r = true))
  /\ (forall a2 i i2, validate_commit a = Ok i -> validate_commit a2 = Ok i2 ->
        in_request_id i2 = in_request_id i -> in_hash i2 <> in_hash i ->
        forall fs2 r2 s2, commit_turn now' a2 (mkStore (committed s') None false fs2) = (r2, s2) ->
        committed s2 = committed s' /\ is_ok r2 = false
        /\ (fs2 = [] -> r2 = Err (ConflictError (u "request_payload_conflict") (or0 (in_expected i2)) None))).
Proof.
  intros FR SH now now' a s c s' fs r s'' W A Dr E Ne.
  assert (db_wf (committed s')) as W'.
  { pose proof (run_call_wf (CCommit now a) s A W) as [K _]. cbn [run_call] in K. by rewrite E in K. }
  destruct (commit_cases now a s _ s' W E) as [C|(i & c' & V & [= <-] & P)]; [done|].
  pose proof (commit_post_content now i _ c s' W' P) as (row & L & S & Hh & _ & R1 & R2 & R3 & pj & R4 & J).
  destruct P as (_ & _ & old & ej & rj & pj' & _ & _ & _ & _ & _ & _ & _ & _ & _ & Hc).
  pose proof (validate_commit_inv a i V) as (_ & _ & _ & _ & _ & Vr & _).
  destruct (validate_commit_replay a i V) as [V1 V2].
  destruct (committed_roundtrip (in_request_id i) (ct_revision c) (ct_user_message_id c)
    (ct_assistant_message_id c) (in_replay i) pj (Dr _ Vr) V1 V2 J) as (di & Hd & K1 & K2).
  assert (_committed_from_row (in_request_id i) row = Ok (committed_of (in_request_id i) (ct_revision c)
    (ct_user_message_id c) (ct_assistant_message_id c) di)) as Hrow.
  { unfold _committed_from_row. by rewrite R4, Hd, R1, R2, R3. }
  split.
  - intros E2. destruct (commit_on_completed now' a i _ fs row r s'' V L S E2) as (C1 & C2 & C3).
    split; [done|]. split.
    + intros c' H. destruct (C2 c' H) as [_ H2]. rewrite Hrow in H2. injection H2 as <-.
      rewrite K1, K2. by rewrite Hc.
    + intros Hf. rewrite (C3 Hf), Hh, (proj2 (str_eqb_eq _ _) eq_refl), Hrow. done.
  - intros a2 i1 i2 V' V2' Er Nh fs2 r2 s2 E2. rewrite V in V'. injection V' as <-.
    rewrite <- Er in L. destruct (commit_on_completed now' a2 i2 _ fs2 row r2 s2 V2' L S E2) as (C1 & C2 & C3).
    split; [done|]. split.
    + destruct r2 as [c2|e]; [|done]. destruct (C2 c2 eq_refl) as [C _]. congruence.
    + intros Hf. rewrite (C3 Hf), Hh. by rewrite (proj2 (str_eqb_neq _ _)) by congruence.
Qed.

Lemma commit_turn_idempotent_witness :
  exists c c', sample_commit.1 = Ok c
    /\ (@commit_turn flat_repr plain_sha (u "t9") (sample_args "req-1" 0 (PInt 0))
          (mkStore (committed sample_commit.2) None false [])).1 = Ok c'
    /\ ct_revision c' = ct_revision c /\ ct_message_id c' = ct_message_id c.
Proof.
  destruct sample_commit as [r0 s'] eqn:E.
  assert (r0 = sample_commit.1) as Hr by by rewrite E.
  assert (is_ok sample_commit.1 = true) as Ho by (vm_compute; reflexivity). rewrite <- Hr in Ho.
  destruct r0 as [c|]; [|discriminate Ho]. cbn [fst snd].
  destruct (@commit_turn flat_repr plain_sha (u "t9") (sample_args "req-1" 0 (PInt 0))
    (mkStore (committed s') None false [])) as [r s''] eqn:E2.
  destruct (@commit_turn_idempotent flat_repr plain_sha (u "t0") (u "t9") (sample_args "req-1" 0 (PInt 0))
    reserved_store c s' [] r s'' reserved_store_wf (sample_args_ok _ _ _)) as [H _].
  - cbn. intros d [= <-]. unfold dict_ok. apply (bool_decide_unpack _). vm_compute. exact I.
  - exact E.
  - intros C. assert (length (chat_logs (committed sample_commit.2)) = 2) as K by (vm_compute; reflexivity).
    rewrite E in K. cbn [snd] in K. rewrite C in K. vm_compute in K. discriminate K.
  - destruct (H E2) as (_ & H2 & H3). specialize (H3 eq_refl). destruct r as [c'|]; [|discriminate H3].
    exists c, c'. split; [reflexivity|]. split; [reflexivity|]. destruct (H2 c' eq_refl) as (R1 & _ & _ & _ & R2). exact (conj R1 R2).
Defined.

(** C11. Deleting the history fences late writers.  A turn admitted before a
    successful [delete_history] carries an older generation; whatever calls come
    in between, its commit writes nothing, so erased conversations cannot
    reappear. *)
Theorem delete_history_fences : forall (FR : FloatRepr) (SH : Sha256) s v s1 l now a i,
  store_wf s -> delete_history s = (Ok v, s1) -> Forall call_ok l ->
  validate_commit a = Ok i -> (in_generation i <= history_generation_of (committed s))%Z ->
  let s2 := run_calls l s1 in
  committed (commit_turn now a s2).2 = committed s2.
Proof.
  intros FR SH s v s1 l now a i W E F V G s2.
  assert (store_wf s1 /\ history_generation_of (committed s1) = (history_generation_of (committed s) + 1)%Z)
    as [W1 G1].
  { pose proof (run_call_wf CDeleteHistory s I W) as W1. cbn [run_call] in W1. rewrite E in W1. split; [done|].
    destruct (delete_history_cases s v s1 W E) as (doc & -> & _). apply generation_erased. }
  pose proof (run_calls_counters l s1 F W1) as [G2 _]. fold s2 in G2.
  pose proof (run_calls_wf l s1 F W1) as W2. fold s2 in W2.
  destruct (commit_turn now a s2) as [r s3] eqn:E3. cbn [snd].
  destruct (commit_cases now a s2 r s3 W2 E3) as [C|(i' & c & V' & _ & P)]; [done|].
  rewrite V in V'. injection V' as <-. destruct P as (_ & _ & ? & ? & ? & ? & _ & _ & _ & P & _). lia.
Qed.

Lemma delete_history_fences_witness :
  let s1 := (delete_history reserved_store).2 in
  let s2 := @run_calls flat_repr plain_sha [CReserve (PStr (u "req-1")) (PStr (u "hi"))] s1 in
  committed (@commit_turn flat_repr plain_sha (u "t0") (sample_args "req-1" 0 (PInt 0)) s2).2 = committed s2.
Proof.
  intros s1. destruct (delete_history reserved_store) as [r s1'] eqn:E.
  assert (is_ok (delete_history reserved_store).1 = true) as Ho by (vm_compute; reflexivity).
  rewrite E in Ho. destruct r as [v|]; [|discriminate Ho].
  destruct (@validate_commit flat_repr plain_sha (sample_args "req-1" 0 (PInt 0))) as [i|] eqn:V;
    [|vm_compute in V; discriminate V].
  refine (@delete_history_fences flat_repr plain_sha reserved_store v s1' _ (u "t0") _ i
    reserved_store_wf E _ V _).
  - apply Forall_cons_2; [exact I|apply Forall_nil_2].
  - assert (in_generation i = 0%Z) as -> by (vm_compute in V; injection V as <-; reflexivity).
    vm_compute. discriminate.
Defined.

(** The revision is a compare-and-swap token.  Every commit that writes was
    prepared on the current revision (or on none) and advances it by one; a
    commit prepared on a revision that has since been passed, by a turn or a
    reset, writes nothing whatever happens in between, and with its reservation
    intact it raises [revision_mismatch] naming both revisions. *)
Theorem commit_turn_cas : forall (FR : FloatRepr) (SH : Sha256) now a i z,
  validate_commit a = Ok i -> in_expected i = Some z ->
  (forall s, store_wf s -> committed (commit_turn now a s).2 <> committed s ->
     current_revision_of (committed s) = z
     /\ current_revision_of (committed (commit_turn now a s).2) = (z + 1)%Z)
  /\ (forall s l, store_wf s -> Forall call_ok l -> (z < current_revision_of (committed s))%Z ->
        committed (commit_turn now a (run_calls l s)).2 = committed (run_calls l s))
  /\ (forall d row, turn_requests d !! in_request_id i = Some row -> t_status row = SPending ->
        t_hash row = _reservation_marker (in_generation i) ->
        history_generation_of d = in_generation i -> z <> current_revision_of d ->
        (commit_turn now a (mkStore d None false [])).1 =
        Err (ConflictError (u "revision_mismatch") z (Some (current_revision_of d)))).
Proof.
  intros FR SH now a i z V X.
  assert (forall s, store_wf s -> committed (commit_turn now a s).2 = committed s
     \/ (current_revision_of (committed s) = z
         /\ current_revision_of (committed (commit_turn now a s).2) = (z + 1)%Z)) as K.
  { intros s W. destruct (commit_turn now a s) as [r s'] eqn:E. cbn [snd] in *.
    destruct (commit_cases now a s r s' W E) as [C|(i' & c & V' & _ & P)]; [by left|]. right.
    rewrite V in V'. injection V' as <-. pose proof (commit_post_counters _ _ _ _ _ P) as [_ R].
    destruct P as (_ & _ & ? & ? & ? & ? & _ & _ & _ & _ & P & _). rewrite R.
    destruct P as [P|P]; rewrite X in P; [done|]. injection P as ->. done. }
  split; [intros s W N; by destruct (K s W)|]. split.
  - intros s l W F L. destruct (run_calls_counters l s F W) as [_ R].
    destruct (K _ (run_calls_wf l s F W)) as [E|[E _]]; [done|lia].
  - intros d row L S Hm Hg Nz. unfold commit_turn, mbind, mlift. rewrite V.
    cbn [_connection closed]. unfold query, execute, next_fault. cbn [faults view tx committed put_view].
    rewrite L, S. unfold commit_guard, mtry, commit_body, mbind, begin_immediate, next_fault, query, execute.
    cbn [faults view tx committed closed put_view next_fault]. rewrite L, S.
    rewrite bool_decide_eq_false_2 by done. rewrite bool_decide_eq_true_2 by done.
    rewrite Hg, Z.eqb_refl, Hm, (proj2 (str_eqb_eq _ _) eq_refl). cbn [negb orb].
    unfold next_fault. cbn [faults view tx committed closed put_view]. fold (current_revision_of d).
    rewrite X. rewrite (proj2 (Z.eqb_neq _ _) Nz). reflexivity.
Qed.

Lemma commit_turn_cas_witness :
  committed (@commit_turn flat_repr plain_sha (u "t1") (sample_args "req-2" 0 (PInt 0))
    (@run_calls flat_repr plain_sha [CReserve (PStr (u "req-2")) (PStr (u "hi"))] sample_commit.2)).2
  = committed (@run_calls flat_repr plain_sha [CReserve (PStr (u "req-2")) (PStr (u "hi"))] sample_commit.2).
Proof.
  destruct (@validate_commit flat_repr plain_sha (sample_args "req-2" 0 (PInt 0))) as [i|] eqn:V;
    [|vm_compute in V; discriminate V].
  assert (in_expected i = Some 0%Z) as X by (vm_compute in V; injection V as <-; reflexivity).
  refine (proj1 (proj2 (@commit_turn_cas flat_repr plain_sha (u "t1") _ i 0%Z V X)) sample_commit.2 _
    sample_commit_wf _ _).
  - apply Forall_cons_2; [exact I|apply Forall_nil_2].
  - vm_compute. reflexivity.
Defined.

(** C13. A reservation is exclusive.  After [reserve_request] admitted a request
    id, and as long as nobody commits or releases it, deletes the history or
    restarts the process, every further attempt to reserve the same id, after
    any calls and faults, is answered with a conflict or an error and never
    admits a second writer. *)
Theorem reservation_exclusive : forall (FR : FloatRepr) (SH : Sha256) s r m rid o s1 l m' x s3,
  store_wf s -> _validate_request_id r = Ok rid ->
  reserve_request r m s = (Ok o, s1) -> ro_status o = o_reserved ->
  Forall call_ok l -> forallb (fun c => negb (ends_reservation rid c)) l = true ->
  reserve_request r m' (run_calls l s1) = (x, s3) ->
  pending_at (committed (run_calls l s1)) rid
  /\ committed s3 = committed (run_calls l s1)
  /\ (forall o', x = Ok o' -> ro_status o' = o_conflict).
Proof.
  intros FR SH s r m rid o s1 l m' x s3 W Vr E So F Hl E3.
  assert (store_wf s1) as W1.
  { pose proof (run_call_wf (CReserve r m) s I W) as W1. cbn [run_call] in W1. by rewrite E in W1. }
  assert (pending_at (committed s1) rid) as P1.
  { destruct (reserve_cases s r m rid _ s1 W Vr E) as [[_ K]|(o' & [= <-] & _ & _ & Cm)].
    - destruct (K o eq_refl) as [K'|[K' _]]; congruence.
    - rewrite Cm. eexists. cbn. by rewrite lookup_insert_eq. }
  pose proof (pending_run l s1 rid F W1 Hl P1) as P2.
  pose proof (run_calls_wf l s1 F W1) as W2. split; [done|].
  destruct (reserve_cases _ r m' rid x s3 W2 Vr E3) as [[Cm K]|(o' & _ & _ & N & _)].
  - split; [done|]. intros o' Ho. specialize (K o' Ho). destruct K as [K|(K & row & L & S)]; [done|].
    destruct P2 as (row' & L' & S'). congruence.
  - destruct P2 as (row' & L' & _). congruence.
Qed.

Lemma reservation_exclusive_witness :
  let s2 := @run_calls flat_repr plain_sha [CTrim (PInt 0); CDeleteMemories] reserved_store in
  committed (reserve_request (PStr (u "req-1")) (PStr (u "again")) s2).2 = committed s2.
Proof.
  intros s2. destruct (reserve_request (PStr (u "req-1")) (PStr (u "again")) s2) as [x s3] eqn:E3.
  destruct (reserve_request (PStr (u "req-1")) (PStr (u "hi")) (fresh_store [])) as [r s1] eqn:E.
  assert (reserved_store = s1) as Hs by (unfold reserved_store; by rewrite E).
  assert (exists o, (reserve_request (PStr (u "req-1")) (PStr (u "hi")) (fresh_store [])).1 = Ok o
    /\ ro_status o = o_reserved) as (o & Ho & So) by (eexists; vm_compute; split; reflexivity).
  rewrite E in Ho. cbn [fst] in Ho. subst r. unfold s2 in *. rewrite Hs in *.
  refine (proj1 (proj2 (@reservation_exclusive flat_repr plain_sha (fresh_store []) (PStr (u "req-1"))
    (PStr (u "hi")) (u "req-1") o s1 _ (PStr (u "again")) x s3 (fresh_store_wf []) _ E So _ _ E3))).
  - vm_compute. reflexivity.
  - repeat apply Forall_cons_2; try exact I. apply Forall_nil_2.
  - vm_compute. reflexivity.
Defined.

(** Recovery at open is fail-closed.  After a restart whose recovery
    succeeds, no request is pending; every request that was pending is failed
    with [interrupted], messages, snapshots and completed turns are untouched,
    and an interrupted request can be neither committed nor admitted again. *)
Theorem recovery_fails_closed : forall (FR : FloatRepr) (SH : Sha256) s s1,
  store_wf s -> _recover_interrupted_turns (reopened s) = (Ok tt, s1) ->
  let d := committed s in let d1 := committed s1 in
  chat_logs d1 = chat_logs d /\ profiles d1 = profiles d
  /\ (forall rid, ~ pending_at d1 rid)
  /\ (forall rid row, turn_requests d !! rid = Some row -> t_status row <> SPending ->
        turn_requests d1 !! rid = Some row)
  /\ (forall rid, pending_at d rid -> exists row, turn_requests d1 !! rid = Some row
        /\ t_status row = SFailed /\ t_error row = Some (u "interrupted")
        /\ (forall now a i, validate_commit a = Ok i -> in_request_id i = rid ->
              committed (commit_turn now a s1).2 = d1)
        /\ (forall r m x s2, _validate_request_id r = Ok rid -> reserve_request r m s1 = (x, s2) ->
              committed s2 = d1 /\ forall o, x = Ok o -> ro_status o = o_conflict)).
Proof.
  intros FR SH s s1 W E d d1.
  assert (store_wf s1) as W1.
  { pose proof (run_call_wf CRestart s I W) as W1. cbn [run_call] in W1. by rewrite E in W1. }
  assert (d1 = recovered d) as D.
  { unfold reopened in E.
    pose proof (wp_intro _ _ _ _ _ (wp_recover (committed s) (faults s)) E) as (_ & _ & K). exact K. }
  split; [by rewrite D|]. split; [by rewrite D|]. split; [|split].
  - intros rid (row & L & S). rewrite D in L. cbn in L. rewrite lookup_fmap in L.
    destruct (turn_requests d !! rid) as [w|]; [|done]. cbn in L. injection L as <-.
    unfold fail_pending in S. by case_bool_decide.
  - intros rid row L S. rewrite D. cbn. rewrite lookup_fmap, L. cbn. unfold fail_pending.
    by rewrite bool_decide_eq_false_2.
  - intros rid (row & L & S).
    assert (turn_requests d1 !! rid = Some (fail_pending row)) as L1
      by (rewrite D; cbn; by rewrite lookup_fmap, L).
    exists (fail_pending row). split; [done|].
    assert (t_status (fail_pending row) = SFailed) as S1
      by (unfold fail_pending; by rewrite bool_decide_eq_true_2).
    split; [done|]. split; [unfold fail_pending; by rewrite bool_decide_eq_true_2|]. split.
    + intros now a i V Er. destruct (commit_turn now a s1) as [r s2] eqn:E2. cbn [snd].
      destruct (commit_cases now a s1 r s2 W1 E2) as [C|(i' & c & V' & _ & P)]; [done|].
      rewrite V in V'. injection V' as <-. destruct P as (_ & _ & old & ? & ? & ? & P1 & P2 & _).
      rewrite Er in P1. change (committed s1) with d1 in P1. congruence.
    + intros r m x s2 Vr E2. destruct (reserve_cases s1 r m rid x s2 W1 Vr E2) as [[C K]|(o & _ & _ & N & _)].
      * split; [done|]. intros o Ho. destruct (K o Ho) as [?|(_ & w & Lw & Sw)]; [done|].
        change (committed s1) with d1 in Lw. congruence.
      * change (committed s1) with d1 in N. congruence.
Qed.

Lemma recovery_fails_closed_witness :
  ~ pending_at (committed (_recover_interrupted_turns (reopened reserved_store)).2) (u "req-1").
Proof.
  destruct (_recover_interrupted_turns (reopened reserved_store)) as [r s1] eqn:E.
  assert (r = Ok tt) as -> by (vm_compute in E; congruence).
  exact (proj1 (proj2 (proj2 (@recovery_fails_closed flat_repr plain_sha reserved_store s1
    reserved_store_wf E))) (u "req-1")).
Defined.

(** A closed store is inert: no call but a restart changes anything in it,
    on either side of a failure, and calls with valid inputs raise
    [storage_closed]. *)
Theorem closed_store_inert : forall (FR : FloatRepr) (SH : Sha256) s l,
  closed s = true -> tx s = None -> (forall c, c ∈ l -> c <> CRestart) ->
  run_calls l s = s
  /\ (delete_history s).1 = Err (PersistenceError (u "storage_closed"))
  /\ (forall ts, (load_user_state ts s).1 = Err (PersistenceError (u "storage_closed")))
  /\ (forall r m rid um, _validate_request_id r = Ok rid -> _validate_message m = Ok um ->
        (reserve_request r m s).1 = Err (PersistenceError (u "storage_closed")))
  /\ (forall now a i, validate_commit a = Ok i ->
        (commit_turn now a s).1 = Err (PersistenceError (u "storage_closed"))).
Proof.
  intros FR SH [d t cl fs] l C T Hl. cbn in C, T. subst cl t. split; [|split; [done|split; [done|split]]].
  - induction l as [|c l IH]; [done|]. cbn [run_calls fold_left].
    rewrite closed_call_same by (apply Hl; left). apply IH. intros c' Hc'. apply Hl. by right.
  - intros r m rid um Vr Vm. unfold reserve_request, mbind, mlift. by rewrite Vr, Vm.
  - intros now a i V. unfold commit_turn, mbind, mlift. by rewrite V.
Qed.

Lemma closed_store_inert_witness :
  @run_calls flat_repr plain_sha [CDeleteHistory; CReserve (PStr (u "r")) (PStr (u "m")); CClose]
    (close sample_commit.2).2 = (close sample_commit.2).2.
Proof.
  refine (proj1 (@closed_store_inert flat_repr plain_sha (close sample_commit.2).2 _ eq_refl eq_refl _)).
  intros c Hc. repeat (apply elem_of_cons in Hc as [-> |Hc]; [discriminate|]). by apply elem_of_nil in Hc.
Defined.

(** A successful [delete_history] leaves nothing of the conversation:
    messages, ledger (with its replay payloads) and outbox are empty, profile and
    memories are kept, and the result reports exactly how many rows of each kind
    were removed; a failed one removes nothing. *)
Theorem delete_history_complete : forall s r s',
  store_wf s -> delete_history s = (r, s') ->
  (forall v, r = Ok v ->
     chat_logs (committed s') = [] /\ turn_requests (committed s') = ∅ /\ outbox_events (committed s') = []
     /\ profiles (committed s') = profiles (committed s) /\ memories (committed s') = memories (committed s)
     /\ history_generation_of (committed s') = (history_generation_of (committed s) + 1)%Z
     /\ v = privacy_result
          [(u "deleted_messages", Z.of_nat (length (chat_logs (committed s))));
           (u "deleted_turn_requests", Z.of_nat (size (turn_requests (committed s))));
           (u "deleted_outbox_events", Z.of_nat (length (outbox_events (committed s))))])
  /\ (is_ok r = false -> committed s' = committed s).
Proof.
  intros s r s' W E. split.
  - intros v ->. destruct (delete_history_cases s v s' W E) as (doc & -> & ->).
    repeat (split; [done|]). split; [apply generation_erased|done].
  - destruct r as [|e]; [done|]. intros _. by apply (@delete_history_err flat_repr plain_sha s e s').
Qed.

Lemma delete_history_complete_witness :
  chat_logs (committed (delete_history sample_commit.2).2) = [].
Proof.
  destruct (delete_history sample_commit.2) as [r s'] eqn:E.
  assert (is_ok (delete_history sample_commit.2).1 = true) as Ho by (vm_compute; reflexivity).
  rewrite E in Ho. destruct r as [v|]; [|discriminate Ho].
  exact (proj1 (proj1 (delete_history_complete sample_commit.2 (Ok v) s' sample_commit_wf E) v eq_refl)).
Defined.

Lemma sorted_NoDup (l : list Z) : Sorted.StronglySorted Z.lt l -> NoDup l.
Proof.
  induction 1 as [|x l _ IH Hx]; constructor; [|done]. intros Hin. rewrite Forall_forall in Hx.
  specialize (Hx _ Hin). lia.
Qed.

Lemma filter_kept (l1 l2 : list chat_row) :
  NoDup (map c_id (l1 ++ l2)) ->
  List.filter (fun r => negb (negb (bool_decide (c_id r ∈ map c_id l2)))) (l1 ++ l2) = l2.
Proof.
  intros N. rewrite List.filter_app. rewrite map_app in N. apply NoDup_app in N as (_ & N & _).
  assert (List.filter (fun r => negb (negb (bool_decide (c_id r ∈ map c_id l2)))) l1 = []) as ->.
  { induction l1 as [|x l1 IH]; [done|]. cbn. rewrite bool_decide_eq_false_2; cbn.
    - apply IH. intros y Hy. apply N. by right.
    - apply N. left. }
  cbn. assert (forall l, l ⊆ l2 -> List.filter (fun r => negb (negb (bool_decide (c_id r ∈ map c_id l2)))) l = l) as K.
  { induction l as [|x l IH]; intros Hs; [done|]. cbn. rewrite bool_decide_eq_true_2; cbn.
    - f_equal. apply IH. set_solver.
    - apply list_elem_of_fmap. exists x. split; [done|set_solver]. }
  by apply K.
Qed.

Lemma trimmed_chats n d : db_wf d -> chat_logs (trimmed n d) = last_n n (chat_logs d).
Proof.
  intros W. unfold trimmed, delete_chats. cbn [chat_logs with_chat]. unfold kept_ids, last_n.
  pose proof (filter_kept (take (length (chat_logs d) - n) (chat_logs d))
    (drop (length (chat_logs d) - n) (chat_logs d))) as H.
  rewrite take_drop in H. apply H, sorted_NoDup, W.
Qed.

Lemma trim_cases k n s v s' :
  store_wf s -> validate_nonneg k (u "invalid_keep_last") = Ok n -> trim_history k s = (Ok v, s') ->
  committed s' = trimmed (Z.to_nat n) (committed s) /\ (0 <= n)%Z
  /\ v = privacy_result [(u "remaining", Z.min (Z.of_nat (length (chat_logs (committed s)))) n)].
Proof.
  intros [W I] V E. destruct s as [d t cl fs]. cbn [committed] in *.
  assert (0 <= n)%Z as Hn by (destruct k; cbn in V; try done; destruct (Z.ltb_spec z 0); by simplify_eq).
  destruct I as [T|T]; cbn in T; subst t.
  - destruct cl; [unfold trim_history, mbind, mlift in E; by rewrite V in E|].
    pose proof (wp_intro _ _ _ _ _ (wp_trim_history k n d fs V) E) as (_ & _ & -> & ->). done.
  - exfalso. assert (wp (trim_history k) (mkStore d (Some d) cl fs) (fun r _ => is_ok r = false)) as K.
    { unfold trim_history. apply wp_bind, wp_lift. rewrite V. apply wp_bind. apply wp_connection; [done|].
      intros _. apply wp_bind. by apply wp_begin_open. }
    pose proof (wp_intro _ _ _ _ _ K E). done.
Qed.

(** A request id the table does not hold is admitted, at the current generation. *)
Lemma reserve_fresh r m rid um d :
  _validate_request_id r = Ok rid -> _validate_message m = Ok um -> turn_requests d !! rid = None ->
  reserve_request r m (mkStore d None false []) =
    (Ok (mkOutcome o_reserved None (Some (history_generation_of d))),
     mkStore (with_turns d (<[rid := reserved_row (history_generation_of d)]> (turn_requests d))
       (outbox_events d)) None false []).
Proof.
  intros Vr Vm N. unfold reserve_request, mbind, mlift, sanitize, mtry. rewrite Vr, Vm.
  cbn [_connection closed]. unfold begin_immediate, query, execute, next_fault, insert_reservation, commit.
  cbn [faults tx committed closed view put_view]. by rewrite N.
Qed.

(** Trimming keeps exactly the newest [keep_last] messages, in order, and
    reports how many remain; through the foreign keys it also forgets every
    request whose user or assistant message is gone, so such a request id is no
    longer replayed but admitted afresh. *)
Theorem trim_history_spec : forall k n s v s',
  store_wf s -> validate_nonneg k (u "invalid_keep_last") = Ok n -> trim_history k s = (Ok v, s') ->
  let d := committed s in let d' := committed s' in
  chat_logs d' = last_n (Z.to_nat n) (chat_logs d)
  /\ v = privacy_result [(u "remaining", Z.of_nat (length (chat_logs d')))]
  /\ profiles d' = profiles d /\ memories d' = memories d
  /\ (forall rid row, turn_requests d' !! rid = Some row <->
        turn_requests d !! rid = Some row
        /\ (forall id, t_user_msg row = Some id \/ t_assistant_msg row = Some id ->
              id ∈ map c_id (chat_logs d')))
  /\ (forall r m rid um, _validate_request_id r = Ok rid -> _validate_message m = Ok um ->
        turn_requests d' !! rid = None ->
        exists o, (reserve_request r m (mkStore d' None false [])).1 = Ok o /\ ro_status o = o_reserved).
Proof.
  intros k n s v s' W V E d d'. pose proof (trim_cases k n s v s' W V E) as (C & Hn & ->).
  fold d in C. change (committed s') with d' in C.
  assert (chat_logs d' = last_n (Z.to_nat n) (chat_logs d)) as Hc by (rewrite C; apply trimmed_chats, W).
  split; [done|]. split; [|split; [by rewrite C|split; [by rewrite C|split]]].
  - rewrite Hc. unfold last_n. rewrite length_drop. do 3 f_equal. unfold d. lia.
  - intros rid row. rewrite C. unfold trimmed at 1, delete_chats, delete_turns. cbn [turn_requests with_chat with_turns].
    rewrite map_lookup_filter_Some. cbn [fst snd].
    rewrite trimmed_chats by apply W. fold (kept_ids (Z.to_nat n) d). unfold refers_to.
    rewrite negb_true_iff, orb_false_iff. split.
    + intros (L & H1 & H2). split; [done|]. intros id [U|U].
      * rewrite U in H1. by apply negb_false_iff, bool_decide_eq_true in H1.
      * rewrite U in H2. by apply negb_false_iff, bool_decide_eq_true in H2.
    + intros [L H]. split; [done|]. split.
      * destruct (t_user_msg row) as [id|]; [|done]. rewrite bool_decide_eq_true_2; auto.
      * destruct (t_assistant_msg row) as [id|]; [|done]. rewrite bool_decide_eq_true_2; auto.
  - intros r m rid um Vr Vm N. rewrite (reserve_fresh r m rid um d' Vr Vm N). by eexists.
Qed.

Lemma trim_history_spec_witness :
  map c_content (chat_logs (committed (trim_history (PInt 1) sample_commit.2).2)) = [u "hello"].
Proof.
  destruct (trim_history (PInt 1) sample_commit.2) as [r s'] eqn:E.
  assert (is_ok (trim_history (PInt 1) sample_commit.2).1 = true) as Ho by (vm_compute; reflexivity).
  rewrite E in Ho. destruct r as [v|]; [|discriminate Ho].
  pose proof (trim_history_spec (PInt 1) 1 sample_commit.2 v s' sample_commit_wf eq_refl E) as [H _].
  cbn [snd]. rewrite H. vm_compute. reflexivity.
Defined.

(** *** Outbox identifiers *)

Lemma app_colon_inj (k1 k2 t1 t2 : pystr) :
  58%N ∉ t1 -> 58%N ∉ t2 -> k1 ++ 58%N :: t1 = k2 ++ 58%N :: t2 -> k1 = k2 /\ t1 = t2.
Proof.
  revert k2. induction k1 as [|x k1 IH]; intros [|y k2] N1 N2 E; cbn in E.
  - by injection E as ->.
  - injection E as <- ->. exfalso. apply N1. set_solver.
  - injection E as -> <-. exfalso. apply N2. set_solver.
  - injection E as -> E. by destruct (IH k2 N1 N2 E) as [-> ->].
Qed.

Lemma event_type_colon s : is_event_type s = true -> 58%N ∉ s.
Proof.
  unfold is_event_type. intros [_ H]%andb_true_iff Hin. rewrite forallb_forall in H.
  apply list_elem_of_In in Hin. specialize (H _ Hin). by vm_compute in H.
Qed.

(** The identifier of an outbox row, [key:type], names one event only:
    event types contain no colon, so the primary key collides exactly when key
    and type agree, and redelivery is decided by the unique (key, type) pair
    alone. *)
Theorem outbox_id_injective : forall (FR : FloatRepr) e1 e2,
  event_wf e1 -> event_wf e2 ->
  (outbox_id e1 = outbox_id e2 <-> ev_key e1 = ev_key e2 /\ ev_type e1 = ev_type e2).
Proof.
  intros FR e1 e2 (T1 & _) (T2 & _). unfold outbox_id. split; [|by intros [-> ->]]. intros E.
  by apply app_colon_inj; [apply event_type_colon|apply event_type_colon|].
Qed.

Lemma outbox_id_injective_witness :
  outbox_id (mkEvent (u "turn_committed") [(KStr (u "ref"), PStr (u "x"))] (u "k:1"))
  <> outbox_id (mkEvent (u "memory_stored") [(KStr (u "ref"), PStr (u "x"))] (u "k:1")).
Proof.
  destruct (outbox_id_injective flat_repr (mkEvent (u "turn_committed") [(KStr (u "ref"), PStr (u "x"))] (u "k:1"))
    (mkEvent (u "memory_stored") [(KStr (u "ref"), PStr (u "x"))] (u "k:1"))) as [H _].
  - apply (@outbox_event_ok flat_repr
      (PTuple [PStr (u "turn_committed"); PDict [(KStr (u "ref"), PStr (u "x"))]; PStr (u "k:1")])).
    vm_compute. reflexivity.
  - apply (@outbox_event_ok flat_repr
      (PTuple [PStr (u "memory_stored"); PDict [(KStr (u "ref"), PStr (u "x"))]; PStr (u "k:1")])).
    vm_compute. reflexivity.
  - intros E. destruct (H E) as [_ N]. discriminate N.
Defined.

(** ** Where the store departs from its documentation *)

(** The memory cannot be bound: its metadata is not JSON serialisable, or one
    of the two texts holds a lone surrogate. *)
Definition unbindable `{FR : FloatRepr} (c : pystr) (metadata : pyval) (e : storage_exn) : Prop :=
  _json_dumps metadata = Err e
  \/ e = UnicodeEncodeError /\ exists doc, _json_dumps metadata = Ok doc
       /\ (utf8_len c = None \/ utf8_len (render doc) = None).

Lemma store_memory_unbindable `{FR : FloatRepr} now content c metadata mp e d :
  _validate_message content = Ok c -> as_mapping metadata = Some mp -> unbindable c metadata e ->
  store_memory now content metadata (mkStore d None false []) = (Err e, mkStore d (Some d) false []).
Proof.
  intros Vc Vm H. unfold store_memory, mbind, mlift, sanitize, mtry, mraise, bind_text. rewrite Vc, Vm.
  cbn [_connection closed]. unfold begin_immediate, next_fault. cbn [faults tx committed closed].
  destruct H as [J|(-> & doc & J & H)].
  - rewrite J. by pose proof (json_dumps_err _ _ J) as ->.
  - rewrite J. unfold mlift. destruct (utf8_len c); [|done]. destruct H as [|H]; [done|]. by rewrite H.
Qed.

(** A memory that cannot be bound (metadata that is not JSON serialisable, a
    lone surrogate in a text) makes [store_memory] raise with its transaction
    still open on the connection, and so does a [trim_history] bound beyond 64
    bits: from there the next writes fail with a raw [sqlite3.Error], before
    any of their statements. *)
Theorem store_memory_leaks_transaction : forall (FR : FloatRepr) now content c metadata mp e d k,
  _validate_message content = Ok c -> as_mapping metadata = Some mp -> unbindable c metadata e ->
  (2 ^ 63 <= k)%Z ->
  let s0 := mkStore d None false [] in
  let s1 := (store_memory now content metadata s0).2 in
  let s2 := (trim_history (PInt k) s0).2 in
  (store_memory now content metadata s0).1 = Err e /\ tx s1 = Some d
  /\ (trim_history (PInt k) s0).1 = Err OverflowError /\ tx s2 = Some d
  /\ (forall s, s = s1 \/ s = s2 ->
       (delete_history s).1 = Err SqliteError /\ (delete_memories s).1 = Err SqliteError
       /\ forall now' content' c' metadata' mp', _validate_message content' = Ok c' ->
            as_mapping metadata' = Some mp' -> (store_memory now' content' metadata' s).1 = Err SqliteError).
Proof.
  intros FR now content c metadata mp e d k Vc Vm H Hk s0 s1 s2.
  pose proof (store_memory_unbindable now content c metadata mp e d Vc Vm H) as E.
  assert (trim_history (PInt k) s0 = (Err OverflowError, mkStore d (Some d) false [])) as T.
  { unfold s0, trim_history, mbind, mlift. cbn [validate_nonneg].
    rewrite (proj2 (Z.ltb_ge k 0)) by lia. unfold _connection, sanitize, mtry, bind_int, mlift.
    cbn [closed begin_immediate next_fault faults tx committed query execute view put_view].
    rewrite (proj2 (Z.ltb_ge k (2 ^ 63)) Hk), andb_false_r. reflexivity. }
  unfold s2, s1, s0 in *. rewrite E, T. cbn [fst snd tx]. repeat (split; [done|]).
  intros s [-> | ->]; (split; [done|]; split; [done|]); intros ? ? ? ? ? V' M';
    unfold store_memory, mbind, mlift; rewrite V', M'; done.
Qed.

Lemma store_memory_leaks_transaction_witness :
  (delete_history (@store_memory flat_repr (u "t") (PStr (u "note")) (PDict [(KStr (u "x"), PObj 1)])
    (mkStore empty_db None false [])).2).1 = Err SqliteError.
Proof.
  pose proof (@store_memory_leaks_transaction flat_repr (u "t") (PStr (u "note")) (u "note")
    (PDict [(KStr (u "x"), PObj 1)]) _ (ValidationError (u "invalid_payload")) empty_db (2 ^ 63)
    eq_refl eq_refl (or_introl eq_refl) (Z.le_refl _)) as (_ & _ & _ & _ & H).
  exact (proj1 (H _ (or_introl eq_refl))).
Defined.

(** A release only knows the history generation, not the reservation: after
    a request was released and admitted again in the same generation, the
    release of the first attempt deletes the second attempt's live reservation,
    and that attempt's commit is then refused. *)
Theorem late_release_drops_new_reservation :
  forall (FR : FloatRepr) (SH : Sha256) d r m rid um g,
  _validate_request_id r = Ok rid -> _validate_message m = Ok um ->
  turn_requests d !! rid = None -> history_generation_of d = g ->
  let s1 := (reserve_request r m (mkStore d None false [])).2 in
  let s2 := (release_request r (PInt g) s1).2 in
  let s3 := (reserve_request r m s2).2 in
  let s4 := (release_request r (PInt g) s3).2 in
  pending_at (committed s3) rid /\ turn_requests (committed s4) !! rid = None.
Proof.
  intros FR SH d r m rid um g Vr Vm N G s1 s2 s3 s4.
  assert (0 <= g)%Z as Hg by (rewrite <- G; unfold history_generation_of; lia).
  assert (validate_nonneg (PInt g) (u "invalid_history_generation") = Ok g) as Vg
    by (cbn; destruct (Z.ltb_spec g 0); [lia|done]).
  assert (forall d0, turn_requests d0 !! rid = None -> _) as Hres
    by exact (fun d0 => reserve_fresh r m rid um d0 Vr Vm).
  assert (forall d0, release_request r (PInt g) (mkStore d0 None false []) =
    (Ok tt, mkStore (delete_turns (release_keep rid g) d0) None false [])) as Hrel.
  { intros d0. unfold release_request, mbind, mlift, sanitize, mtry. rewrite Vr, Vg. reflexivity. }
  assert (forall d0, history_generation_of d0 = g ->
    turn_requests (delete_turns (release_keep rid g) (with_turns d0
      (<[rid := reserved_row (history_generation_of d0)]> (turn_requests d0)) (outbox_events d0))) !! rid = None) as Hd.
  { intros d0 G0. cbn [delete_turns turn_requests with_turns]. apply map_lookup_filter_None. right.
    intros row. rewrite lookup_insert_eq. intros [= <-]. cbn [fst snd]. unfold release_keep. cbn [reserved_row t_status t_hash].
    rewrite G0, !(proj2 (str_eqb_eq _ _) eq_refl), bool_decide_eq_true_2 by done. done. }
  unfold s4, s3, s2, s1. rewrite (Hres d N). cbn [snd]. rewrite Hrel. cbn [snd].
  rewrite Hres by (by apply Hd). cbn [snd]. rewrite Hrel. cbn [snd committed]. split.
  - eexists. cbn [turn_requests with_turns]. by rewrite lookup_insert_eq.
  - apply Hd. exact G.
Qed.

Lemma late_release_drops_new_reservation_witness :
  _validate_request_id (PStr (u "req-1")) = Ok (u "req-1")
  /\ turn_requests (committed (release_request (PStr (u "req-1")) (PInt 0) (reserve_request (PStr (u "req-1"))
       (PStr (u "hi")) (release_request (PStr (u "req-1")) (PInt 0) (reserve_request (PStr (u "req-1"))
       (PStr (u "hi")) (mkStore empty_db None false [])).2).2).2).2) !! u "req-1" = None.
Proof.
  split; [reflexivity|].
  exact (proj2 (@late_release_drops_new_reservation flat_repr plain_sha empty_db (PStr (u "req-1"))
    (PStr (u "hi")) (u "req-1") (u "hi") 0%Z eq_refl eq_refl eq_refl eq_refl)).
Defined.
