(* ===== verification/LegacyImport.v ===== *)
(** * Import of a legacy installation (backend/local_storage/legacy_import.py)

    The validation of an export fixture and its import in one transaction, over
    the store of LocalStorage.v.  A turn of the fixture is the record of the fields
    the import reads.  The order of the keys of a stored payload is not observable,
    so the stored document is the sorted one. *)

From S2P Require Import Prelude PyFloat PyValue Json Utf8 Admission JsonCost EmotionalModels Relationship StorageContracts.
From S2P Require Import LocalStorage StorageSpec StorageInvariant StorageTheorems StorageProperties.
From Stdlib Require Import Sorted.
Local Open Scope store_scope.

Definition LEGACY_SCHEMA_VERSION : Z := 1.
Definition MAX_LEGACY_MESSAGES : Z := 100000.
Definition MAX_LEGACY_CONTENT_CHARS : Z := 20000.

(** [FORBIDDEN_PAYLOAD_KEYS] without the message fields. *)
Definition _FIXTURE_FORBIDDEN_KEYS : list pystr :=
  List.filter (fun k => negb (str_in k [u "user_message"; u "assistant_message"; u "content"; u "message"]))
    FORBIDDEN_PAYLOAD_KEYS.

Record ImportReport : Type := mkReport {
  imported_turns : Z;
  skipped_duplicates : Z;
  total_turns_after : Z }.

Record legacy_turn : Type := mkLegacy {
  lt_request_id : pystr;
  lt_user_message : pystr;
  lt_assistant_message : pystr;
  lt_created_at : option pystr;        (** [None] when missing *)
  lt_replay : option pydict }.         (** [None] when it is no mapping *)

Section Validation.
Context `{UL : UnicodeLower}.

(** [_assert_no_forbidden_keys]: [true] when it raises. *)
Fixpoint forbidden_somewhere (value : pyval) : bool :=
  match value with
  | PDict d | PProxy d =>
      existsb (fun kv => match kv with (k, _) =>
        match k with KStr s => str_in (str_lower s) (map str_lower _FIXTURE_FORBIDDEN_KEYS) | KOther _ => false end end) d
      || existsb (fun kv => match kv with (_, item) => forbidden_somewhere item end) d
  | PList l | PTuple l => existsb forbidden_somewhere l
  | _ => false
  end.

Definition _assert_no_forbidden_keys (value : pyval) : result storage_exn unit :=
  if forbidden_somewhere value then Err (ValidationError (u "forbidden_key_in_legacy_fixture")) else Ok tt.

Definition legacy_message (v : option pyval) : result storage_exn pystr :=
  match v with
  | Some (PStr (c :: s)) =>
      if (MAX_LEGACY_CONTENT_CHARS <? Z.of_nat (length (c :: s)))%Z then Err (ValidationError (u "legacy_message_too_long"))
      else Ok (c :: s)
  | _ => Err (ValidationError (u "invalid_legacy_message"))
  end.

(** The body of the loop over the turns. *)
Definition validate_legacy_turn (turn : pyval) : result storage_exn legacy_turn :=
  match as_mapping turn with
  | None => Err (ValidationError (u "invalid_legacy_turn"))
  | Some t =>
      match dget t (u "request_id") with
      | Some (PStr (c :: rid)) =>
          let* um := legacy_message (dget t (u "user_message")) in
          let* am := legacy_message (dget t (u "assistant_message")) in
          let* created := match dget t (u "created_at") with
                          | None | Some PNone => Ok None
                          | Some (PStr s) => Ok (Some s)
                          | Some _ => Err (ValidationError (u "invalid_legacy_created_at"))
                          end in
          _assert_no_forbidden_keys turn ;;;
          Ok (mkLegacy (c :: rid) um am created (dget t (u "replay_payload") ≫= as_mapping))
      | _ => Err (ValidationError (u "invalid_legacy_request_id"))
      end
  end.

Definition validate_legacy_fixture (fixture : pyval) : result storage_exn (list legacy_turn) :=
  match as_mapping fixture with
  | None => Err (ValidationError (u "invalid_legacy_fixture"))
  | Some f =>
      if negb (py_eq (dget_or f (u "schema_version") PNone) (PInt LEGACY_SCHEMA_VERSION))
      then Err (ValidationError (u "invalid_legacy_fixture_version")) else
      if negb (py_eq (dget_or f (u "source") PNone) (PStr (u "supabase")))
      then Err (ValidationError (u "invalid_legacy_source")) else
      match dget f (u "turns") with
      | Some (PList turns) =>
          if (MAX_LEGACY_MESSAGES <? Z.of_nat (length turns))%Z
          then Err (ValidationError (u "legacy_fixture_too_large")) else
          _assert_no_forbidden_keys fixture ;;;
          rmap validate_legacy_turn turns
      | _ => Err (ValidationError (u "invalid_legacy_turns"))
      end
  end.

End Validation.

Section Importing.
Context `{FR : FloatRepr, SH : Sha256}.

(** [json.dumps(..., sort_keys=True, ensure_ascii=False)] with the default separators. *)
Definition legacy_canonical (t : legacy_turn) : pystr :=
  let field k v := render_str k ++ u ": " ++ render_str v in
  u "{" ++ field (u "assistant_message") (lt_assistant_message t) ++ u ", " ++ field (u "request_id") (lt_request_id t)
  ++ u ", " ++ field (u "user_message") (lt_user_message t) ++ u "}".

Definition _legacy_hash (t : legacy_turn) : result storage_exn pystr :=
  match utf8_len (legacy_canonical t) with
  | Some _ => Ok (sha256 (legacy_canonical t))
  | None => Err UnicodeEncodeError
  end.

(** [payload.setdefault(k, v)]. *)
Definition setdefault (d : pydict) (k : pystr) (v : pyval) : pydict := if dhas d k then d else d ++ [(KStr k, v)].

Definition _import_replay_payload (t : legacy_turn) (assistant_id : Z) : pydict :=
  setdefault (setdefault (default [] (lt_replay t)) (u "response") (PStr (lt_assistant_message t)))
    (u "message_id") (PInt assistant_id).

(** [t.get("created_at") or _now_iso()]. *)
Definition created_of (now : pystr) (t : legacy_turn) : pystr :=
  match lt_created_at t with Some (c :: s) => c :: s | _ => now end.

(** [json.dumps(replay_payload, ensure_ascii=False)]. *)
Definition dumps_replay (d : pydict) : result storage_exn jdoc :=
  rcatch (json_encode true (PDict d)) (fun _ => Err PyTypeError).

(** The plain insert of a completed ledger row. *)
Definition insert_turn (rid : pystr) (row : turn_row) (d : database) : option (unit * database) :=
  match turn_requests d !! rid with
  | Some _ => None
  | None => upsert_turn rid row d
  end.

(** One turn: [true] when it was imported, [false] when it was there already. *)
Definition import_turn (now : pystr) (t : legacy_turn) : M bool :=
  bind_text (lt_request_id t) ;!
  do! existing <- query (fun d => turn_requests d !! lt_request_id t) in
  match existing with
  | Some row =>
      do! h <- mlift (_legacy_hash t) in
      if negb (str_eqb (t_hash row) h) then mraise (ValidationError (u "legacy_request_id_conflict"))
      else mret false
  | None =>
      let created_at := created_of now t in
      bind_text (lt_user_message t) ;! bind_text created_at ;!
      do! user_id <- execute (insert_chat RUser (lt_user_message t) created_at) in
      bind_text (lt_assistant_message t) ;!
      do! assistant_id <- execute (insert_chat RAssistant (lt_assistant_message t) created_at) in
      do! h <- mlift (_legacy_hash t) in
      do! doc <- mlift (dumps_replay (_import_replay_payload t assistant_id)) in
      bind_text (render doc) ;!
      execute (insert_turn (lt_request_id t)
        (mkTurn h SCompleted 0 (Some 0%Z) (Some user_id) (Some assistant_id) (Some doc) None)) ;!
      mret true
  end.

Fixpoint import_turns (now : nat -> pystr) (turns : list legacy_turn) (imported skipped : Z) : M (Z * Z) :=
  match turns with
  | [] => mret (imported, skipped)
  | t :: turns' =>
      do! new <- import_turn (now (length turns')) t in
      if new then import_turns now turns' (imported + 1) skipped
      else import_turns now turns' imported (skipped + 1)
  end.

(** The two [except] clauses: [sqlite3.Error] and [ValidationError] roll back. *)
Definition import_guard {A} (c : M A) : M A :=
  mtry c (fun e => match e with
    | SqliteError => rollback_if_open ;! mraise (PersistenceError (u "database_error"))
    | ValidationError code => rollback_if_open ;! mraise (ValidationError code)
    | _ => mraise e
    end).

(** The transaction over validated turns. *)
Definition import_validated (now : nat -> pystr) (turns : list legacy_turn) : M ImportReport :=
  _connection ;!
  import_guard
    (begin_immediate ;!
     do! counts <- import_turns now turns 0 0 in
     do! total <- query (fun d => Z.of_nat (size (turn_requests d))) in
     commit ;!
     mret (mkReport counts.1 counts.2 total)).

(** [now] gives the clock readings of the loop. *)
Definition import_legacy_fixture `{UL : UnicodeLower} (now : nat -> pystr) (fixture : pyval) : M ImportReport :=
  do! turns <- mlift (validate_legacy_fixture fixture) in
  import_validated now turns.

(** ** What an import does *)

(** The database after one new turn. *)
Definition imported (created : pystr) (t : legacy_turn) (h : pystr) (doc : jdoc) (d : database) : database :=
  let uid := (chat_seq d + 1)%Z in let aid := (chat_seq d + 1 + 1)%Z in
  with_turns
    (with_chat d (chat_logs d ++ [mkChat uid RUser (lt_user_message t) created; mkChat aid RAssistant (lt_assistant_message t) created]) aid)
    (<[lt_request_id t := mkTurn h SCompleted 0 (Some 0%Z) (Some uid) (Some aid) (Some doc) None]> (turn_requests d))
    (outbox_events d).

Inductive import_step (t : legacy_turn) (d : database) : database -> bool -> Prop :=
| is_duplicate row h : turn_requests d !! lt_request_id t = Some row -> _legacy_hash t = Ok h -> t_hash row = h ->
    import_step t d d false
| is_new created h doc : turn_requests d !! lt_request_id t = None -> _legacy_hash t = Ok h ->
    dumps_replay (_import_replay_payload t (chat_seq d + 1 + 1)) = Ok doc ->
    import_step t d (imported created t h doc d) true.

Inductive import_steps : list legacy_turn -> database -> database -> Z -> Prop :=
| iss_nil d : import_steps [] d d 0
| iss_cons t ts d d1 d2 b k : import_step t d d1 b -> import_steps ts d1 d2 k ->
    import_steps (t :: ts) d d2 (if b then k + 1 else k)%Z.

Lemma insert_turn_imported created t h doc d :
  turn_requests d !! lt_request_id t = None ->
  insert_turn (lt_request_id t)
    (mkTurn h SCompleted 0 (Some 0%Z) (Some (chat_seq d + 1)%Z) (Some (chat_seq d + 1 + 1)%Z) (Some doc) None)
    (with_chat (with_chat d (chat_logs d ++ [mkChat (chat_seq d + 1) RUser (lt_user_message t) created]) (chat_seq d + 1))
       ((chat_logs d ++ [mkChat (chat_seq d + 1) RUser (lt_user_message t) created])
        ++ [mkChat (chat_seq d + 1 + 1) RAssistant (lt_assistant_message t) created]) (chat_seq d + 1 + 1))
  = Some (tt, imported created t h doc d).
Proof.
  intros N. unfold insert_turn, upsert_turn. cbn [turn_requests with_chat t_user_msg t_assistant_msg]. rewrite N.
  unfold chat_exists. cbn [chat_logs with_chat]. rewrite !existsb_app. cbn [existsb c_id].
  rewrite !Z.eqb_refl, !orb_true_r. cbn [andb orb]. unfold imported, with_turns, with_chat. cbn. by rewrite <- app_assoc.
Qed.

(** What the body of the import can raise. *)
Definition raised (e : storage_exn) : Prop :=
  match e with SqliteError | ValidationError _ | UnicodeEncodeError | PyTypeError => True | _ => False end.

Lemma legacy_hash_err t e : _legacy_hash t = Err e -> e = UnicodeEncodeError.
Proof. unfold _legacy_hash. destruct (utf8_len _); by intros [= <-]. Qed.

Lemma dumps_replay_err d e : dumps_replay d = Err e -> e = PyTypeError.
Proof. unfold dumps_replay, rcatch. destruct (json_encode _ _); by intros [= <-]. Qed.

Lemma wp_import_turn now t cm d cl fs (Q : result storage_exn bool -> store -> Prop) :
  (forall e s', raised e -> committed s' = cm -> closed s' = cl -> Q (Err e) s') ->
  (forall b d' fs', import_step t d d' b -> Q (Ok b) (mkStore cm (Some d') cl fs')) ->
  wp (import_turn now t) (mkStore cm (Some d) cl fs) Q.
Proof.
  intros HE HO. assert (forall t' fs', Q (Err SqliteError) (mkStore cm t' cl fs')) as HE' by (intros; by apply HE).
  unfold import_turn, bind_text. apply wp_bind, wp_lift. destruct (utf8_len (lt_request_id t)); [|by apply HE].
  apply wp_bind, wp_query; [done|]. intros fs1. destruct (turn_requests d !! lt_request_id t) as [row|] eqn:L.
  - apply wp_bind, wp_lift. destruct (_legacy_hash t) as [h|e] eqn:H; [|apply legacy_hash_err in H as ->; by apply HE].
    destruct (str_eqb (t_hash row) h) eqn:Eh; cbn [negb]; [|by apply wp_raise, HE]. apply str_eqb_eq in Eh.
    apply wp_ret, HO. by econstructor.
  - apply wp_bind, wp_lift. destruct (utf8_len (lt_user_message t)); [|by apply HE].
    apply wp_bind, wp_lift. destruct (utf8_len (created_of now t)); [|by apply HE].
    apply wp_bind, wp_execute; [done|]. intros uid d1 fs2 [= <- <-].
    apply wp_bind, wp_lift. destruct (utf8_len (lt_assistant_message t)); [|by apply HE].
    apply wp_bind, wp_execute; [done|]. intros aid d2 fs3 [= <- <-].
    apply wp_bind, wp_lift. destruct (_legacy_hash t) as [h|e] eqn:H; [|apply legacy_hash_err in H as ->; by apply HE].
    apply wp_bind, wp_lift. cbn [chat_seq with_chat].
    destruct (dumps_replay _) as [doc|e] eqn:D; [|apply dumps_replay_err in D as ->; by apply HE].
    apply wp_bind, wp_lift. destruct (utf8_len (render doc)); [|by apply HE].
    apply wp_bind, wp_execute; [done|]. intros [] d3 fs4 E. cbn [chat_logs with_chat] in E.
    rewrite (insert_turn_imported (created_of now t) t h doc d L) in E. injection E as <-.
    apply wp_ret, HO. by constructor.
Qed.

Lemma wp_import_turns now ts cm d cl fs i k (Q : result storage_exn (Z * Z) -> store -> Prop) :
  (forall e s', raised e -> committed s' = cm -> closed s' = cl -> Q (Err e) s') ->
  (forall n d' fs', import_steps ts d d' n ->
     Q (Ok (i + n, k + (Z.of_nat (length ts) - n))%Z) (mkStore cm (Some d') cl fs')) ->
  wp (import_turns now ts i k) (mkStore cm (Some d) cl fs) Q.
Proof.
  revert d fs i k. induction ts as [|t ts IH]; intros d fs i k HE HO; cbn [import_turns].
  - apply wp_ret. specialize (HO 0%Z d fs (iss_nil d)). cbn in HO. by rewrite !Z.add_0_r in HO.
  - apply wp_bind, wp_import_turn; [done|]. intros b d1 fs1 S.
    destruct b; (apply IH; [done|]); intros n d2 fs2 Ss; pose proof (iss_cons _ _ _ _ _ _ _ S Ss) as Hc; cbv iota in Hc;
      specialize (HO _ _ fs2 Hc); cbn [length] in HO; rewrite Nat2Z.inj_succ in HO.
    + by replace (i + 1 + n)%Z with (i + (n + 1))%Z by lia;
        replace (k + (Z.of_nat (length ts) - n))%Z with (k + (Z.succ (Z.of_nat (length ts)) - (n + 1)))%Z by lia.
    + by replace (k + 1 + (Z.of_nat (length ts) - n))%Z with (k + (Z.succ (Z.of_nat (length ts)) - n))%Z by lia.
Qed.

Definition import_post (ts : list legacy_turn) (s : store) (r : result storage_exn ImportReport) (s' : store) : Prop :=
  match r with
  | Ok rep => tx s' = None /\ import_steps ts (committed s) (committed s') (imported_turns rep)
              /\ skipped_duplicates rep = (Z.of_nat (length ts) - imported_turns rep)%Z
              /\ total_turns_after rep = Z.of_nat (size (turn_requests (committed s')))
  | Err e => committed s' = committed s
             /\ (tx s' = None \/ tx s' = tx s \/ e = UnicodeEncodeError \/ e = PyTypeError)
  end.

Lemma wp_import_guard {A} (c : M A) s (Q : result storage_exn A -> store -> Prop) :
  wp c s (fun r s' => match r with
    | Ok a => Q (Ok a) s'
    | Err SqliteError => Q (Err (PersistenceError (u "database_error"))) (drop_tx s')
    | Err (ValidationError code) => Q (Err (ValidationError code)) (drop_tx s')
    | Err e => Q (Err e) s'
    end) -> wp (import_guard c) s Q.
Proof.
  intros H. apply wp_try. eapply wp_mono, H. intros [a|[]] [cm t cl fs] Hr; try exact Hr;
    apply wp_bind, wp_rollback_if_open; exact Hr.
Qed.

Lemma wp_import_validated now ts s :
  idle s -> wp (import_validated now ts) s (import_post ts s).
Proof.
  destruct s as [d t cl fs]. unfold idle. cbn [tx committed]. intros Ht.
  unfold import_validated. apply wp_bind, wp_connection.
  { intros _. split; [done|]. right. by left. }
  intros ->. apply wp_import_guard. set (s := mkStore d t false fs).
  assert (forall e s', raised e -> committed s' = d -> closed s' = false -> match e with
    | SqliteError => import_post ts s (Err (PersistenceError (u "database_error"))) (drop_tx s')
    | ValidationError code => import_post ts s (Err (ValidationError code)) (drop_tx s')
    | e => import_post ts s (Err e) s' end) as HE.
  { intros [] s' Re C _; try done; (split; [done|]); first [by left | right; right; by left | right; right; by right]. }
  destruct Ht as [-> | ->]; [|apply wp_bind, wp_begin_open; intros; by apply (HE SqliteError)].
  apply wp_bind, wp_begin; [intros; by apply (HE SqliteError)|]. intros fs1.
  apply wp_bind, wp_import_turns; [done|]. intros n d' fs2 S.
  apply wp_bind, wp_query; [intros; by apply (HE SqliteError)|]. intros fs3.
  apply wp_bind, wp_commit; [intros; by apply (HE SqliteError)|]. intros fs4.
  apply wp_ret. cbn [imported_turns skipped_duplicates total_turns_after fst snd]. by split_and!.
Qed.

(** *** The ledger after an import *)

(** The turn is in the ledger, under its request id and with its hash. *)
Definition present (d : database) (t : legacy_turn) : Prop :=
  exists row h, turn_requests d !! lt_request_id t = Some row /\ _legacy_hash t = Ok h /\ t_hash row = h.

Lemma import_step_keeps t d d' b :
  import_step t d d' b ->
  turn_requests d ⊆ turn_requests d' /\ present d' t
  /\ Z.of_nat (length (chat_logs d')) = (Z.of_nat (length (chat_logs d)) + 2 * (if b then 1 else 0))%Z
  /\ chat_logs d `prefix_of` chat_logs d' /\ profiles d' = profiles d /\ memories d' = memories d
  /\ privacy_operations d' = privacy_operations d /\ outbox_events d' = outbox_events d.
Proof.
  intros [row h L H E|created h doc N H D]; split_and!; try done.
  - by exists row, h.
  - lia.
  - cbn. by apply insert_subseteq.
  - exists (mkTurn h SCompleted 0 (Some 0%Z) (Some (chat_seq d + 1)%Z) (Some (chat_seq d + 1 + 1)%Z) (Some doc) None), h.
    cbn. split; [apply lookup_insert_eq|done].
  - cbn [imported chat_logs with_turns with_chat]. rewrite length_app. cbn [length]. lia.
  - cbn. by eexists.
Qed.

Lemma present_mono d d' t : turn_requests d ⊆ turn_requests d' -> present d t -> present d' t.
Proof. intros S (row & h & L & H). exists row, h. split; [by eapply lookup_weaken|done]. Qed.

Lemma import_steps_keeps ts d d' k :
  import_steps ts d d' k ->
  turn_requests d ⊆ turn_requests d' /\ Forall (present d') ts
  /\ Z.of_nat (length (chat_logs d')) = (Z.of_nat (length (chat_logs d)) + 2 * k)%Z
  /\ chat_logs d `prefix_of` chat_logs d' /\ profiles d' = profiles d /\ memories d' = memories d
  /\ privacy_operations d' = privacy_operations d /\ outbox_events d' = outbox_events d.
Proof.
  induction 1 as [d|t ts d d1 d2 b k S _ (IH1 & IH2 & IH3 & IH4 & IH5 & IH6 & IH7 & IH8)]; [split_and!; (done || lia)|].
  apply import_step_keeps in S as (S1 & S2 & S3 & S4 & S5 & S6 & S7 & S8). split_and!; try congruence.
  - by etrans.
  - constructor; [by eapply present_mono|done].
  - destruct b; lia.
  - by etrans.
Qed.

(** Text that is written as JSON and encoded can be encoded by itself. *)
Lemma esc_len_clean s n : esc_len s = Some n -> is_Some (utf8_len s).
Proof.
  revert n. induction s as [|c s IH]; intros n H; [by eexists|]. change (c :: s) with ([c] ++ s) in *.
  rewrite esc_len_app in H. rewrite utf8_len_app. destruct (esc_len [c]) as [a|] eqn:Ec; [|done].
  destruct (esc_len s) as [b|]; [|done]. destruct (IH b eq_refl) as [m ->].
  assert (is_Some (utf8_len [c])) as [k ->]; [|by eexists].
  unfold utf8_len. cbn [existsb]. destruct (is_surrogate c) eqn:Sc; [exfalso|by eexists].
  unfold esc_len in Ec. cbn in Ec. rewrite app_nil_r in Ec.
  assert (escape_char c = [c]) as Hc.
  { unfold is_surrogate in Sc. apply andb_prop in Sc as [Sc _]. apply N.leb_le in Sc. unfold escape_char.
    repeat match goal with |- context [(c =? ?k)%N] => rewrite (proj2 (N.eqb_neq c k)) by lia end.
    by rewrite (proj2 (N.ltb_ge c 32)) by lia. }
  rewrite Hc in Ec. unfold utf8_len in Ec. cbn [existsb] in Ec. by rewrite Sc in Ec.
Qed.

Lemma hash_clean t h : _legacy_hash t = Ok h -> is_Some (utf8_len (lt_request_id t)).
Proof.
  unfold _legacy_hash, legacy_canonical. destruct (utf8_len _) as [n|] eqn:L; [|done]. intros _.
  rewrite !utf8_len_app in L.
  destruct (utf8_len (render_str (lt_request_id t))) as [k|] eqn:R;
    [|exfalso; repeat match type of L with context [utf8_len ?x] => destruct (utf8_len x) end; done].
  rewrite render_str_len in R. destruct (esc_len (lt_request_id t)) as [j|] eqn:J; [|done]. by eapply esc_len_clean.
Qed.

(** Turns that are all present are skipped one by one. *)
Lemma import_turns_present now ts d i k :
  Forall (present d) ts ->
  import_turns now ts i k (mkStore d (Some d) false []) = (Ok (i, k + Z.of_nat (length ts))%Z, mkStore d (Some d) false []).
Proof.
  intros F. revert k. induction F as [|t ts (row & h & L & H & Eh) _ IH]; intros k; cbn [import_turns].
  { cbn. by rewrite Z.add_0_r. }
  destruct (hash_clean _ _ H) as [n Hn].
  assert (import_turn (now (length ts)) t (mkStore d (Some d) false []) = (Ok false, mkStore d (Some d) false [])) as E.
  { unfold import_turn, mbind, bind_text, mlift. rewrite Hn. unfold query, execute, next_fault.
    cbn [faults view tx committed put_view closed]. rewrite L, H, Eh, (proj2 (str_eqb_eq h h) eq_refl). done. }
  unfold mbind. rewrite E, IH. cbn [length]. do 3 f_equal. lia.
Qed.

Lemma import_present now ts d :
  Forall (present d) ts ->
  import_validated now ts (mkStore d None false [])
  = (Ok (mkReport 0 (Z.of_nat (length ts)) (Z.of_nat (size (turn_requests d)))), mkStore d None false []).
Proof.
  intros F. unfold import_validated, mbind, import_guard, mtry, _connection, begin_immediate, next_fault.
  cbn [closed faults tx committed]. rewrite import_turns_present by done. reflexivity.
Qed.

(** *** Well-formedness *)

Lemma import_step_wf t d d2 b : import_step t d d2 b -> db_wf d -> db_wf d2.
Proof.
  intros [row h L H E|created h doc N H D]; [done|]. intros W.
  destruct W as [wf_ids wf_seq wf_rows wf_once wf_outbox wf_outbox_ids wf_outbox_keys wf_revision wf_profile].
  set (d' := imported created t h doc d).
  assert (chat_logs d ⊆ chat_logs d') as Hc by (cbn; set_solver).
  constructor; try done.
  - cbn. rewrite map_app. cbn. apply StronglySorted_app_lt; [done| |].
    + repeat constructor. lia.
    + intros x y Hx Hy. apply list_elem_of_fmap in Hx as (r & -> & Hr).
      rewrite Forall_forall in wf_seq. specialize (wf_seq r Hr). set_unfold in Hy. lia.
  - cbn. apply Forall_app. split; [eapply Forall_impl; [exact wf_seq|]; cbn; lia|]. repeat constructor; cbn; lia.
  - cbn [turn_requests d' imported with_turns]. apply map_Forall_insert_2.
    + split; [|split]; [apply chat_exists_In; exists (mkChat (chat_seq d + 1) RUser (lt_user_message t) created)
        |apply chat_exists_In; exists (mkChat (chat_seq d + 1 + 1) RAssistant (lt_assistant_message t) created)|];
        [split; [cbn; set_solver|done]..|].
      unfold dumps_replay, rcatch in D. destruct (json_encode true _) as [j|] eqn:J; [|done]. injection D as ->.
      destruct (dict_decode _ _ J) as [di Hdi]. cbn [t_status]. eexists _, _, _, _, di. split; [done|].
      split; [split; [done|exact wf_revision]|done].
    + eapply map_Forall_impl; [exact wf_rows|]. intros k row. by apply row_wf_grow.
  - intros r1 r2 r Pos (w1 & L1 & S1 & R1) (w2 & L2 & S2 & R2). cbn in L1, L2.
    apply lookup_insert_Some in L1 as [[<- <-]|[N1 L1]]; [cbn in R1; simplify_eq; lia|].
    apply lookup_insert_Some in L2 as [[<- <-]|[N2 L2]]; [cbn in R2; simplify_eq; lia|].
    apply (wf_once r1 r2 r); [done|by exists w1|by exists w2].
  - cbn. eapply Forall_impl; [exact wf_outbox|]. intros o [x Hx]. cbn.
    destruct (decide (lt_request_id t = o_turn o)) as [-> |Ne]; [rewrite lookup_insert_eq; by eexists|].
    rewrite lookup_insert_ne by done. by eexists.
Qed.

Lemma import_steps_wf ts d d' k : import_steps ts d d' k -> db_wf d -> db_wf d'.
Proof. induction 1; eauto using import_step_wf. Qed.

Lemma import_cases `{UL : UnicodeLower} now fixture s r s' :
  idle s -> import_legacy_fixture now fixture s = (r, s') ->
  (exists e, validate_legacy_fixture fixture = Err e /\ r = Err e /\ s' = s)
  \/ exists ts, validate_legacy_fixture fixture = Ok ts /\ import_post ts s r s'.
Proof.
  intros I E. unfold import_legacy_fixture, mbind, mlift in E.
  destruct (validate_legacy_fixture fixture) as [ts|e] eqn:V; [right|left].
  - exists ts. split; [done|]. exact (wp_intro _ _ _ _ _ (wp_import_validated now ts s I) E).
  - injection E as <- <-. by exists e.
Qed.

End Importing.

(** ** Properties *)

(** The import is all or nothing.  On a well-formed store, a successful import
    keeps every ledger row, message, memory, profile and privacy record, appends two
    messages for each turn that was new, leaves every turn of the fixture in the
    ledger under its own id with its hash, reports the counts, and the store is
    well-formed again.  A failed import leaves the committed database as it was, and
    closes its transaction unless the failure is a [UnicodeEncodeError] or a
    [TypeError]. *)
Theorem import_legacy_atomic :
  forall (FR : FloatRepr) (SH : Sha256) (UL : UnicodeLower) now fixture s r s',
  store_wf s -> import_legacy_fixture now fixture s = (r, s') ->
  match r with
  | Ok rep =>
      exists turns, validate_legacy_fixture fixture = Ok turns /\ store_wf s'
      /\ (imported_turns rep + skipped_duplicates rep = Z.of_nat (length turns))%Z
      /\ total_turns_after rep = Z.of_nat (size (turn_requests (committed s')))
      /\ turn_requests (committed s) ⊆ turn_requests (committed s') /\ Forall (present (committed s')) turns
      /\ chat_logs (committed s) `prefix_of` chat_logs (committed s')
      /\ Z.of_nat (length (chat_logs (committed s'))) = (Z.of_nat (length (chat_logs (committed s))) + 2 * imported_turns rep)%Z
      /\ profiles (committed s') = profiles (committed s) /\ memories (committed s') = memories (committed s)
      /\ privacy_operations (committed s') = privacy_operations (committed s)
  | Err e => committed s' = committed s
             /\ (tx s' = None \/ tx s' = tx s \/ e = UnicodeEncodeError \/ e = PyTypeError)
  end.
Proof.
  intros FR SH UL now fixture s r s' [W I] E.
  destruct (import_cases now fixture s r s' I E) as [(e & _ & -> & ->)|(ts & V & P)]; [split; [done|right; by left]|].
  destruct r as [rep|e]; [|done]. destruct P as (T & S & K & N). exists ts.
  pose proof (import_steps_wf _ _ _ _ S W) as W'.
  apply import_steps_keeps in S as (S1 & S2 & S3 & S4 & S5 & S6 & S7 & S8).
  split_and!; try done; [by split; [|left]|lia].
Qed.

(** The import is idempotent: once a fixture has been imported, importing it
    again, at any later time and however the clock reads, returns that nothing was
    imported and everything skipped, and leaves the store exactly as it is. *)
Theorem import_legacy_idempotent :
  forall (FR : FloatRepr) (SH : Sha256) (UL : UnicodeLower) now now' fixture s rep s1,
  store_wf s -> import_legacy_fixture now fixture s = (Ok rep, s1) ->
  let s2 := mkStore (committed s1) None false [] in
  import_legacy_fixture now' fixture s2
  = (Ok (mkReport 0 (imported_turns rep + skipped_duplicates rep) (total_turns_after rep)), s2).
Proof.
  intros FR SH UL now now' fixture s rep s1 [W I] E s2.
  destruct (import_cases now fixture s _ s1 I E) as [(e & _ & H & _)|(ts & V & T & S & K & N)]; [done|].
  apply import_steps_keeps in S as (_ & S2 & _). unfold s2, import_legacy_fixture, mbind, mlift. rewrite V.
  rewrite import_present by done. do 3 f_equal; lia.
Qed.

(** ** On concrete fixtures *)

Definition legacy_dict (request_id user_message assistant_message created_at : pystr) : pyval :=
  PDict [(KStr (u "request_id"), PStr request_id); (KStr (u "user_message"), PStr user_message);
         (KStr (u "assistant_message"), PStr assistant_message); (KStr (u "created_at"), PStr created_at)].

Definition fixture_of (turns : list pyval) : pyval :=
  PDict [(KStr (u "schema_version"), PInt 1); (KStr (u "source"), PStr (u "supabase")); (KStr (u "turns"), PList turns)].

Definition import_sample (turns : list pyval) (s : store) : result storage_exn ImportReport * store :=
  @import_legacy_fixture flat_repr plain_sha pointwise_lower (fun _ => u "2026-07-30T00:00:00.000000Z") (fixture_of turns) s.

Definition sample_fixture : list pyval :=
  [legacy_dict (u "old-1") (u "hello") (u "hi") (u "2025-01-01T00:00:00Z"); legacy_dict (u "old-2") (u "how are you") (u "fine") []].

Lemma import_legacy_atomic_witness :
  exists rep s', import_sample sample_fixture (fresh_store []) = (Ok rep, s') /\ store_wf s' /\ imported_turns rep = 2%Z.
Proof.
  destruct (import_sample sample_fixture (fresh_store [])) as [[rep|e] s'] eqn:E; [|vm_compute in E; discriminate E].
  exists rep, s'. split; [reflexivity|].
  destruct (import_legacy_atomic flat_repr plain_sha pointwise_lower _ _ _ _ _ (fresh_store_wf []) E) as (ts & _ & W & _).
  split; [exact W|]. vm_compute in E. injection E as <- _. reflexivity.
Defined.

Lemma import_legacy_idempotent_witness :
  let s1 := (import_sample sample_fixture (fresh_store [])).2 in
  import_sample sample_fixture (mkStore (committed s1) None false [])
  = (Ok (mkReport 0 2 2), mkStore (committed s1) None false []).
Proof.
  destruct (import_sample sample_fixture (fresh_store [])) as [[rep|e] s1] eqn:E; [|vm_compute in E; discriminate E].
  cbn [snd]. unfold import_sample.
  rewrite (import_legacy_idempotent flat_repr plain_sha pointwise_lower _ _ _ _ _ _ (fresh_store_wf []) E).
  vm_compute in E. injection E as <- _. reflexivity.
Defined.

(** An import that meets a lone surrogate after a good turn lets the
    [UnicodeEncodeError] escape with its transaction still open: the history then
    shows the messages of the import that failed, which no commit ever wrote, and
    the next turn is refused at its reservation; the documentation promises that a
    failure leaves the store untouched. *)
Theorem import_leaks_transaction :
  let bad := [legacy_dict (u "old-1") (u "hello") (u "hi") []; legacy_dict (u "old-2") [55296%N] (u "fine") []] in
  let s1 := (import_sample bad (fresh_store [])).2 in
  (import_sample bad (fresh_store [])).1 = Err UnicodeEncodeError
  /\ committed s1 = empty_db
  /\ (exists rows, (load_recent_history (PInt 10) s1).1 = Ok rows /\ map c_content rows = [u "hello"; u "hi"])
  /\ (reserve_request (PStr (u "req-1")) (PStr (u "hi")) s1).1 = Err (PersistenceError (u "database_error")).
Proof.
  split; [vm_compute; reflexivity|]. split; [vm_compute; reflexivity|]. split; [|vm_compute; reflexivity].
  eexists. split; vm_compute; reflexivity.
Qed.
