(* ===== verification/TurnExecution.v ===== *)
(** * Bounded turn execution (backend/turn_execution.py)

    The validated configuration of a turn and its reading from the environment,
    the time budget, the retry backoff, and the two helpers that run blocking
    work in a thread.  The numeric fields accept [int] and [float] alike, so
    they are [pynum] and are compared as Python compares them: by exact value.
    The clock and the random source are arguments.  A blocking write is a state
    machine: the worker thread, and the coroutine that waits for it and is
    resumed by its completion or by a cancellation. *)

From S2P Require Import Prelude PyFloat FloatRound PyValue Admission.

Local Open Scope Z_scope.

(** ** Failure codes and exceptions *)

Inductive TurnErrorCode : Type :=
| turn_timeout | upstream_rate_limited | provider_unavailable | provider_invalid_request
| provider_invalid_response | persistence_unavailable | internal_error.

#[export] Instance TurnErrorCode_eq_dec : EqDecision TurnErrorCode.
Proof. solve_decision. Defined.

(** What the constructors and the arithmetic raise. *)
Inductive config_exn : Type := CfgValueError | CfgOverflowError.

(** ** Mixed arithmetic of [int] and [float] *)

(** The exact value, in units of 2^-SC. *)
Definition num_val (n : pynum) : Z := match n with NInt z => z * 2 ^ SC | NFloat f => fval f end.

(** [a < b]: exact, also between an [int] and a [float]. *)
Definition num_ltb (a b : pynum) : bool :=
  match a, b with
  | NFloat x, NFloat y => (x <? y)%float
  | NInt x, NInt y => x <? y
  | NInt _, NFloat y =>
      if is_nan y then false else if is_infinity y then (0 <? y)%float else num_val a <? num_val b
  | NFloat x, NInt _ =>
      if is_nan x then false else if is_infinity x then (x <? 0)%float else num_val a <? num_val b
  end.

(** [a <= b]. *)
Definition num_leb (a b : pynum) : bool :=
  match a, b with
  | NFloat x, NFloat y => (x <=? y)%float
  | NInt x, NInt y => x <=? y
  | NInt _, NFloat y =>
      if is_nan y then false else if is_infinity y then (0 <? y)%float else num_val a <=? num_val b
  | NFloat x, NInt _ =>
      if is_nan x then false else if is_infinity x then (x <? 0)%float else num_val a <=? num_val b
  end.

(** [min(a, b)]. *)
Definition num_min (a b : pynum) : pynum := if num_ltb b a then b else a.

Definition num_float (n : pynum) : result config_exn float :=
  match num_to_float n with Some f => Ok f | None => Err CfgOverflowError end.

(** [a * b]. *)
Definition num_mul (a b : pynum) : result config_exn pynum :=
  match a, b with
  | NInt x, NInt y => Ok (NInt (x * y))
  | _, _ => let* x := num_float a in let* y := num_float b in Ok (NFloat (x * y)%float)
  end.

(** [a + b]. *)
Definition num_add (a b : pynum) : result config_exn pynum :=
  match a, b with
  | NInt x, NInt y => Ok (NInt (x + y))
  | _, _ => let* x := num_float a in let* y := num_float b in Ok (NFloat (x + y)%float)
  end.

(** ** Configuration *)

Record TurnExecutionConfig : Type := mkTurnExecutionConfig {
  total_deadline : pynum;
  connect_timeout : pynum;
  provider_attempt_timeout : pynum;
  supabase_timeout : pynum;
  commit_reserve : pynum;
  max_attempts : Z;
  base_backoff : pynum;
  max_backoff : pynum;
  max_jitter : pynum;
  frontend_timeout_ms : Z }.

Record GroqCallParams : Type := mkGroqCallParams {
  g_max_attempts : Z;
  g_connect_timeout : pynum;
  g_provider_attempt_timeout : pynum;
  g_base_backoff : pynum;
  g_max_backoff : pynum;
  g_max_jitter : pynum }.

Definition _assert_finite_positive (value : pyval) : result config_exn pynum :=
  let check n :=
    let* f := num_float n in
    raise_if (negb (isfinite f)) CfgValueError ;;;
    raise_if (f <=? 0)%float CfgValueError ;;; Ok n in
  match value with
  | PBool _ => Err CfgValueError
  | PInt z => check (NInt z)
  | PFloat f => check (NFloat f)
  | _ => Err CfgValueError
  end.

Definition _assert_finite_nonnegative (value : pyval) : result config_exn pynum :=
  let check n :=
    let* f := num_float n in
    raise_if (negb (isfinite f)) CfgValueError ;;;
    raise_if (f <? 0)%float CfgValueError ;;; Ok n in
  match value with
  | PBool _ => Err CfgValueError
  | PInt z => check (NInt z)
  | PFloat f => check (NFloat f)
  | _ => Err CfgValueError
  end.

(** An [int] that is not a [bool]. *)
Definition plain_int (value : pyval) : result config_exn Z :=
  match value with PInt z => Ok z | _ => Err CfgValueError end.

(** The constructor, with [__post_init__]. *)
Definition TurnExecutionConfig_init (a_total a_connect a_attempt a_supabase a_reserve a_attempts
    a_base a_cap a_jitter a_frontend : pyval) : result config_exn TurnExecutionConfig :=
  let* total := _assert_finite_positive a_total in
  let* connect := _assert_finite_positive a_connect in
  let* attempt := _assert_finite_positive a_attempt in
  let* supabase := _assert_finite_positive a_supabase in
  let* reserve := _assert_finite_positive a_reserve in
  let* base := _assert_finite_positive a_base in
  let* cap := _assert_finite_positive a_cap in
  let* jitter := _assert_finite_nonnegative a_jitter in
  let* attempts := plain_int a_attempts in
  raise_if (attempts <? 1) CfgValueError ;;;
  raise_if (5 <? attempts) CfgValueError ;;;
  let* frontend := plain_int a_frontend in
  raise_if (frontend <? 1000) CfgValueError ;;;
  raise_if (300000 <? frontend) CfgValueError ;;;
  raise_if (num_ltb attempt connect) CfgValueError ;;;
  raise_if (num_leb total attempt) CfgValueError ;;;
  let* twice := num_mul (NInt 2) supabase in
  raise_if (num_ltb reserve twice) CfgValueError ;;;
  raise_if (num_leb total reserve) CfgValueError ;;;
  raise_if (num_ltb cap base) CfgValueError ;;;
  raise_if (negb (num_leb (NFloat 0) jitter && num_leb jitter (NFloat 1))) CfgValueError ;;;
  raise_if (num_ltb (NFloat 300) total) CfgValueError ;;;
  raise_if (num_ltb (NFloat 30) connect) CfgValueError ;;;
  raise_if (num_ltb (NFloat 120) attempt) CfgValueError ;;;
  raise_if (num_ltb (NFloat 30) supabase) CfgValueError ;;;
  raise_if (num_ltb (NFloat 120) reserve) CfgValueError ;;;
  Ok (mkTurnExecutionConfig total connect attempt supabase reserve attempts base cap jitter frontend).

Definition to_groq_params (c : TurnExecutionConfig) : GroqCallParams :=
  mkGroqCallParams (max_attempts c) (connect_timeout c) (provider_attempt_timeout c)
    (base_backoff c) (max_backoff c) (max_jitter c).

(** [TurnExecutionConfig()]. *)
Definition defaults : result config_exn TurnExecutionConfig :=
  TurnExecutionConfig_init (PFloat 45) (PFloat 3) (PFloat 15) (PFloat 5) (PFloat 10) (PInt 2)
    (PFloat 0.25) (PFloat 0.75) (PFloat 0.1) (PInt 50000).

(** ** The environment *)

Section Env.
Context `{UL : UnicodeLower, PT : PyText}.

(** The guards the three parsers share: the text to convert, or the default. *)
Definition env_text (env : pystr -> option pystr) (key : pystr) : result config_exn (option pystr) :=
  match env key with
  | None => Ok None
  | Some val =>
      let val := strip val in
      raise_if (bool_decide (val = [])) CfgValueError ;;;
      raise_if (str_in (str_lower val) [u "true"; u "false"; u "yes"; u "no"]) CfgValueError ;;;
      Ok (Some val)
  end.

Definition _parse_float (env : pystr -> option pystr) (key : pystr) (default : float) : result config_exn float :=
  let* text := env_text env key in
  match text with
  | None => Ok default
  | Some val =>
      match float_of_str val with
      | None => Err CfgValueError
      | Some f => raise_if (negb (isfinite f)) CfgValueError ;;; Ok f
      end
  end.

Definition _parse_nonnegative_float (env : pystr -> option pystr) (key : pystr) (default : float)
    : result config_exn float :=
  let* text := env_text env key in
  match text with
  | None => Ok default
  | Some val =>
      match float_of_str val with
      | None => Err CfgValueError
      | Some f =>
          raise_if (negb (isfinite f)) CfgValueError ;;;
          raise_if (f <? 0)%float CfgValueError ;;;
          raise_if (1 <? f)%float CfgValueError ;;; Ok f
      end
  end.

Definition _parse_int (env : pystr -> option pystr) (key : pystr) (default : Z) : result config_exn Z :=
  let* text := env_text env key in
  match text with
  | None => Ok default
  | Some val =>
      match int_of_str val with
      | None => Err CfgValueError
      | Some i => raise_if (i <=? 0) CfgValueError ;;; Ok i
      end
  end.

Definition config_from_env (env : pystr -> option pystr) : result config_exn TurnExecutionConfig :=
  let* total := _parse_float env (u "TURN_TOTAL_DEADLINE") 45 in
  let* connect := _parse_float env (u "TURN_CONNECT_TIMEOUT") 3 in
  let* attempt := _parse_float env (u "TURN_PROVIDER_ATTEMPT_TIMEOUT") 15 in
  let* supabase := _parse_float env (u "TURN_SUPABASE_TIMEOUT") 5 in
  let* reserve := _parse_float env (u "TURN_COMMIT_RESERVE") 10 in
  let* base := _parse_float env (u "TURN_BASE_BACKOFF") 0.25 in
  let* cap := _parse_float env (u "TURN_MAX_BACKOFF") 0.75 in
  let* jitter := _parse_nonnegative_float env (u "TURN_MAX_JITTER") 0.1 in
  let* attempts := _parse_int env (u "TURN_MAX_ATTEMPTS") 2 in
  let* frontend := _parse_int env (u "TURN_FRONTEND_TIMEOUT_MS") 50000 in
  TurnExecutionConfig_init (PFloat total) (PFloat connect) (PFloat attempt) (PFloat supabase) (PFloat reserve)
    (PInt attempts) (PFloat base) (PFloat cap) (PFloat jitter) (PInt frontend).

End Env.

(** ** The time budget *)

(** The clock is read once by each of the properties below: [now] is its reading. *)
Record TurnBudget : Type := mkTurnBudget {
  b_deadline : float;
  b_reserve : pynum }.

Definition remaining (b : TurnBudget) (now : float) : float := fmax 0 (b_deadline b - now).

Definition remaining_before_reserve (b : TurnBudget) (now : float) : float :=
  fmax 0 (remaining b now - fl (b_reserve b)).

Definition has_reserve (b : TurnBudget) (now : float) : bool :=
  num_leb (b_reserve b) (NFloat (remaining b now)).

(** [None] is a normal return. *)
Definition assert_enough_for (b : TurnBudget) (now : float) (needed : pynum) : option TurnErrorCode :=
  if num_ltb (NFloat (remaining b now)) needed then Some turn_timeout else None.

Definition remaining_for_attempt (b : TurnBudget) (now : float) (attempt_timeout : pynum) : pynum :=
  num_min attempt_timeout (NFloat (remaining_before_reserve b now)).

Definition create_budget (c : TurnExecutionConfig) (now : float) : TurnBudget :=
  mkTurnBudget (now + fl (total_deadline c)) (commit_reserve c).

Definition compute_effective_attempt_timeout (p : GroqCallParams) (b : TurnBudget) (now : float) : pynum :=
  num_min (g_provider_attempt_timeout p) (NFloat (remaining_before_reserve b now)).

(** ** Backoff *)

(** [random] is the value the random source gives. *)
Definition compute_backoff (attempt : Z) (base cap jitter_fraction : pynum) (random : float) : result config_exn pynum :=
  if attempt <? 0 then Ok (NFloat 0) else
  let* delay := num_mul base (NInt (2 ^ attempt)) in
  let delay := num_min delay cap in
  let* scaled := num_mul delay jitter_fraction in
  let* jitter := num_mul scaled (NFloat random) in
  let* total := num_add delay jitter in
  Ok (num_min total cap).

Definition compute_backoff_from_params (attempt : Z) (p : GroqCallParams) (random : float) : result config_exn pynum :=
  compute_backoff attempt (g_base_backoff p) (g_max_backoff p) (g_max_jitter p) random.

(** ** Blocking work in a thread *)

(** What the awaited work can raise, by class; [X] is the type of the other exceptions. *)
Inductive work_exn (X : Type) : Type :=
| CancelledError
| AsyncTimeoutError
| TurnExecutionError (code : TurnErrorCode)
| OtherException (exc : X).
Arguments CancelledError {X}.
Arguments AsyncTimeoutError {X}.
Arguments TurnExecutionError {X} code.
Arguments OtherException {X} exc.

Definition DeadlineExceeded {X} : work_exn X := TurnExecutionError turn_timeout.

Inductive outcome (X T : Type) : Type :=
| Returned (v : T)
| Raised (e : work_exn X).
Arguments Returned {X T} v.
Arguments Raised {X T} e.

(** [allow e]: [isinstance(e, allowlist_exceptions)].  [wait t] is what
    [asyncio.wait_for(asyncio.to_thread(func), timeout=t)] gives. *)
Definition run_blocking_read {X T} (allow : work_exn X -> bool) (b : TurnBudget) (now : float)
    (supabase_timeout : pynum) (wait : pynum -> outcome X T) : result (work_exn X) T :=
  let timeout := num_min (NFloat (remaining_before_reserve b now)) supabase_timeout in
  if num_leb timeout (NFloat 0) then Err DeadlineExceeded else
  match wait timeout with
  | Returned v => Ok v
  | Raised AsyncTimeoutError => Err DeadlineExceeded
  | Raised CancelledError => Err CancelledError
  | Raised (TurnExecutionError c) => Err (TurnExecutionError c)
  | Raised exc => if allow exc then Err exc else Err (TurnExecutionError persistence_unavailable)
  end.

(** *** Writes: the worker and the coroutine that never abandons it *)

Section Write.
Context {X T : Type} (allow : work_exn X -> bool).

(** [w_worker] is the state of [worker_task]; [w_ended] is set when the
    coroutine has returned or raised.  A Python [None] result is [None]. *)
Record write_state : Type := mkWrite {
  w_worker : option (outcome X T);
  original_cancel : bool;
  worker_exc : option (work_exn X);
  worker_result : option T;
  w_ended : option (result (work_exn X) (option T)) }.

Definition write_start (b : TurnBudget) (now : float) : result (work_exn X) write_state :=
  if (remaining b now <=? 0)%float then Err DeadlineExceeded
  else Ok (mkWrite None false None None None).

(** Phases 2 to 4. *)
Definition write_finish (st : write_state) : result (work_exn X) (option T) :=
  let '(exc, res) :=
    match worker_exc st, w_worker st with
    | None, Some (Returned v) => (None, Some v)
    | None, Some (Raised e) => (Some e, worker_result st)
    | exc, _ => (exc, worker_result st)
    end in
  if original_cancel st then Err CancelledError else
  match exc with
  | Some e =>
      if allow e then Err e else
      match e with
      | TurnExecutionError c => Err (TurnExecutionError c)
      | _ => Err (TurnExecutionError persistence_unavailable)
      end
  | None => Ok res
  end.

Definition write_end (st : write_state) : write_state :=
  mkWrite (w_worker st) (original_cancel st) (worker_exc st) (worker_result st) (Some (write_finish st)).

(** The test of the loop of phase 1: await the shield again, or leave. *)
Definition write_loop (st : write_state) : write_state :=
  match w_worker st with Some _ => write_end st | None => st end.

(** The coroutine resumes from [await asyncio.shield(worker_task)] ... *)
Definition resume_cancelled (st : write_state) : write_state :=
  write_loop (mkWrite (w_worker st) true (worker_exc st) (worker_result st) (w_ended st)).

Definition resume_done (out : outcome X T) (st : write_state) : write_state :=
  match out with
  | Returned v => write_loop (mkWrite (w_worker st) (original_cancel st) (worker_exc st) (Some v) (w_ended st))
  | Raised CancelledError => resume_cancelled st
  | Raised e => write_end (mkWrite (w_worker st) (original_cancel st) (Some e) (worker_result st) (w_ended st))
  end.

(** ... because it was cancelled or because the worker has finished. *)
Inductive write_event : Type :=
| EWorker (out : outcome X T)
| ECancel
| EResume.

Inductive write_step : write_state -> write_event -> write_state -> Prop :=
| step_worker st out : w_worker st = None ->
    write_step st (EWorker out) (mkWrite (Some out) (original_cancel st) (worker_exc st) (worker_result st) (w_ended st))
| step_cancel st : w_ended st = None -> write_step st ECancel (resume_cancelled st)
| step_resume st out : w_ended st = None -> w_worker st = Some out -> write_step st EResume (resume_done out st).

(** The executions of one [run_blocking_write], with their events. *)
Inductive writes (b : TurnBudget) (now : float) : list write_event -> write_state -> Prop :=
| writes_start st : write_start b now = Ok st -> writes b now [] st
| writes_step tr st e st' : writes b now tr st -> write_step st e st' -> writes b now (tr ++ [e]) st'.

Definition cancelled (tr : list write_event) : bool :=
  existsb (fun e => match e with ECancel => true | _ => false end) tr.

(** What an undisturbed write gives. *)
Definition write_result (out : outcome X T) : result (work_exn X) (option T) :=
  match out with
  | Returned v => Ok (Some v)
  | Raised CancelledError => Err CancelledError
  | Raised e =>
      if allow e then Err e else
      match e with
      | TurnExecutionError c => Err (TurnExecutionError c)
      | _ => Err (TurnExecutionError persistence_unavailable)
      end
  end.

Definition worker_events (tr : list write_event) : list (outcome X T) :=
  omap (fun e => match e with EWorker out => Some out | _ => None end) tr.

(** Invariant: the coroutine is suspended with nothing recorded but the
    cancellations so far, unless it has resumed since the worker finished. *)
Definition write_inv (tr : list write_event) (st : write_state) : Prop :=
  worker_events tr = (match w_worker st with Some out => [out] | None => [] end)
  /\ match w_ended st with
     | None => original_cancel st = cancelled tr /\ worker_exc st = None /\ worker_result st = None
         /\ (forall out, w_worker st = Some out -> exists tr', tr = tr' ++ [EWorker out] /\ worker_events tr' = [])
     | Some r => exists out, w_worker st = Some out /\ r = (if cancelled tr then Err CancelledError else write_result out)
     end.

Lemma cancelled_snoc tr e : cancelled (tr ++ [e]) = cancelled tr || match e with ECancel => true | _ => false end.
Proof. unfold cancelled. rewrite existsb_app. cbn. by rewrite orb_false_r. Qed.

Lemma worker_events_snoc tr e :
  worker_events (tr ++ [e]) = worker_events tr ++ match e with EWorker out => [out] | _ => [] end.
Proof. unfold worker_events. rewrite omap_app. by destruct e. Qed.

Lemma write_inv_holds b now tr st : writes b now tr st -> write_inv tr st.
Proof.
  induction 1 as [st H|tr st e st' W [IHw IHe] S].
  { unfold write_start in H. destruct (_ <=? _)%float; [done|]. injection H as <-. by repeat split. }
  unfold write_inv. rewrite cancelled_snoc, worker_events_snoc, IHw.
  destruct S as [st out Hw|st Hn|st out Hn Hw]; rewrite ?orb_false_r, ?orb_true_r.
  - rewrite Hw in *. split; [done|]. cbn. destruct (w_ended st) as [r|]; [by destruct IHe as (? & ? & _)|].
    destruct IHe as (-> & -> & -> & _). split_and!; try done. intros ? [= <-]. by exists tr.
  - rewrite Hn in IHe. destruct IHe as (Hc & He & Hr & _). unfold resume_cancelled, write_loop. cbn.
    destruct (w_worker st) as [out|] eqn:Hw; cbn; [|by rewrite Hn].
    split; [done|]. exists out. split; [done|]. unfold write_finish. cbn. rewrite He. by destruct out.
  - rewrite Hn, Hw in *. destruct IHe as (Hc & He & Hr & _).
    assert (w_worker (resume_done out st) = Some out
      /\ w_ended (resume_done out st) = Some (if cancelled tr then Err CancelledError else write_result out)) as [-> ->].
    { destruct out as [v|[]]; cbn; unfold resume_cancelled, write_loop, write_end, write_finish; cbn;
        rewrite ?Hw, ?Hc, ?He; cbn; rewrite ?Hw, ?Hc, ?He; by destruct (cancelled tr). }
    split; [done|]. by exists out.
Qed.

End Write.

(** A whole [run_blocking_write]: whether a cancellation arrived while the
    coroutine waited, and what the worker gave. *)
Definition run_blocking_write {X T} (allow : work_exn X -> bool) (b : TurnBudget) (now : float)
    (interrupted : bool) (work : outcome X T) : result (work_exn X) (option T) :=
  if (remaining b now <=? 0)%float then Err DeadlineExceeded
  else if interrupted then Err CancelledError else write_result allow work.

(** It is what every execution of the state machine that ends reports. *)
Lemma run_blocking_write_refines {X T} (allow : work_exn X -> bool) b now (tr : list (@write_event X T)) st r :
  writes allow b now tr st -> w_ended st = Some r ->
  exists out, worker_events tr = [out] /\ r = run_blocking_write allow b now (cancelled tr) out.
Proof.
  intros W E. pose proof (write_inv_holds allow b now tr st W) as [Hw He]. rewrite E in He.
  destruct He as (out & Ho & ->). exists out. rewrite Hw, Ho. split; [done|]. unfold run_blocking_write.
  assert ((remaining b now <=? 0)%float = false) as ->; [|done].
  clear -W. induction W as [st H|]; [|done]. unfold write_start in H. by destruct (_ <=? _)%float.
Qed.
