(* ===== verification/TurnExecutionTheorems.v ===== *)
(** * Properties of bounded turn execution

    What the constructor of the configuration accepts, as exact inequalities on
    the values; what the environment can produce; the bounds of the budget and
    of the backoff in binary64; and the two blocking helpers. *)

From S2P Require Import Prelude PyFloat FloatRound PyValue Admission TurnExecution.

Local Open Scope Z_scope.

(** ** Mixed comparisons are comparisons of values *)

(** [float(n)] is a finite number. *)
Definition usable (n : pynum) : Prop := exists f, num_to_float n = Some f /\ isfinite f = true.

Lemma usable_float f : usable (NFloat f) -> isfinite f = true.
Proof. by intros (f' & [= ->] & H). Qed.

Lemma finite_not_nan_inf f : isfinite f = true -> is_nan f = false /\ is_infinity f = false.
Proof. unfold isfinite. by destruct (is_nan f), (is_infinity f). Qed.

Lemma ltb_fval x y : isfinite x = true -> isfinite y = true -> (x <? y)%float = (fval x <? fval y).
Proof.
  intros Fx Fy. pose proof (leb_fval y x Fy Fx) as L.
  destruct (x <? y)%float eqn:E.
  - apply ltb_leb_false in E. rewrite E in L. symmetry. apply Z.ltb_lt. apply eq_sym, Z.leb_gt in L. lia.
  - apply ltb_false_leb in E; [|by apply isfinite_not_nan..]. rewrite E in L. symmetry. apply Z.ltb_ge.
    apply eq_sym, Z.leb_le in L. lia.
Qed.

Lemma scaled_ltb x y : (x <? y) = (x * 2 ^ SC <? y * 2 ^ SC).
Proof. assert (0 < 2 ^ SC) by done. destruct (Z.ltb_spec x y), (Z.ltb_spec (x * 2 ^ SC) (y * 2 ^ SC)); done || nia. Qed.

Lemma scaled_leb x y : (x <=? y) = (x * 2 ^ SC <=? y * 2 ^ SC).
Proof. assert (0 < 2 ^ SC) by done. destruct (Z.leb_spec x y), (Z.leb_spec (x * 2 ^ SC) (y * 2 ^ SC)); done || nia. Qed.

Lemma num_ltb_val a b : usable a -> usable b -> num_ltb a b = (num_val a <? num_val b).
Proof.
  intros Ha Hb. destruct a as [x|x], b as [y|y]; unfold num_ltb; cbn [num_val].
  - apply scaled_ltb.
  - apply usable_float, finite_not_nan_inf in Hb as [-> ->]. done.
  - apply usable_float, finite_not_nan_inf in Ha as [-> ->]. done.
  - apply ltb_fval; by apply usable_float.
Qed.

Lemma num_leb_val a b : usable a -> usable b -> num_leb a b = (num_val a <=? num_val b).
Proof.
  intros Ha Hb. destruct a as [x|x], b as [y|y]; unfold num_leb; cbn [num_val].
  - apply scaled_leb.
  - apply usable_float, finite_not_nan_inf in Hb as [-> ->]. done.
  - apply usable_float, finite_not_nan_inf in Ha as [-> ->]. done.
  - apply leb_fval; by apply usable_float.
Qed.

(** The conversion keeps the sign of the value. *)
Lemma num_to_float_sgn n f : num_to_float n = Some f -> Z.sgn (fval f) = Z.sgn (num_val n).
Proof.
  destruct n as [z|x]; cbn; [|by intros [= ->]]. intros H%int_to_float_sgn. rewrite H, Z.sgn_mul.
  change (Z.sgn (2 ^ SC)) with 1. lia.
Qed.

Lemma usable_const f : isfinite f = true -> usable (NFloat f).
Proof. intros H. by exists f. Qed.

Lemma num_to_float_finite n f : num_to_float n = Some f -> usable n -> isfinite f = true.
Proof. intros H (f' & H' & F). congruence. Qed.

#[local] Hint Resolve usable_const : katherine.

(** ** The validators of a number *)

Definition num_arg (n : pynum) : pyval := match n with NInt z => PInt z | NFloat f => PFloat f end.

Lemma finite_positive_spec v n :
  _assert_finite_positive v = Ok n <-> v = num_arg n /\ usable n /\ 0 < num_val n.
Proof.
  assert (forall n', (let* f := num_float n' in raise_if (negb (isfinite f)) CfgValueError ;;;
     raise_if (f <=? 0)%float CfgValueError ;;; Ok n') = Ok n <-> n' = n /\ usable n' /\ 0 < num_val n') as K.
  { intros n'. unfold num_float, usable. pose proof (num_to_float_sgn n') as S. destruct (num_to_float n') as [f|]; cbn; [|split; [done|]; intros (_ & (? & ? & _) & _); done].
    specialize (S f eq_refl). unfold raise_if. destruct (isfinite f) eqn:F; cbn; [|split; [done|]; intros (_ & (? & ? & ?) & _); congruence].
    rewrite leb_fval by done. change (fval 0%float) with 0.
    destruct (Z.leb_spec (fval f) 0) as [L|L]; cbn.
    - split; [done|]. intros (_ & _ & P). rewrite (Z.sgn_pos (num_val n')) in S by done. apply Z.sgn_pos_iff in S. lia.
    - split; [intros [= ->]|by intros (-> & _)]. split; [done|]. split; [by exists f|].
      apply Z.sgn_pos_iff. rewrite <- S. by apply Z.sgn_pos_iff. }
  destruct v; unfold _assert_finite_positive; try (split; [done|]; intros (H & _); destruct n; done).
  all: rewrite K; split; [intros (<- & ? & ?); done|intros (H & ? & ?); destruct n; cbn in H; simplify_eq; done].
Qed.

Lemma finite_nonnegative_spec v n :
  _assert_finite_nonnegative v = Ok n <-> v = num_arg n /\ usable n /\ 0 <= num_val n.
Proof.
  assert (forall n', (let* f := num_float n' in raise_if (negb (isfinite f)) CfgValueError ;;;
     raise_if (f <? 0)%float CfgValueError ;;; Ok n') = Ok n <-> n' = n /\ usable n' /\ 0 <= num_val n') as K.
  { intros n'. unfold num_float, usable. pose proof (num_to_float_sgn n') as S. destruct (num_to_float n') as [f|]; cbn; [|split; [done|]; intros (_ & (? & ? & _) & _); done].
    specialize (S f eq_refl). unfold raise_if. destruct (isfinite f) eqn:F; cbn; [|split; [done|]; intros (_ & (? & ? & ?) & _); congruence].
    rewrite ltb_fval by done. change (fval 0%float) with 0.
    destruct (Z.ltb_spec (fval f) 0) as [L|L]; cbn.
    - split; [done|]. intros (_ & _ & P). apply Z.sgn_nonneg in P. rewrite <- S in P. apply Z.sgn_nonneg in P. lia.
    - split; [intros [= ->]|by intros (-> & _)]. split; [done|]. split; [by exists f|].
      apply Z.sgn_nonneg. rewrite <- S. by apply Z.sgn_nonneg. }
  destruct v; unfold _assert_finite_nonnegative; try (split; [done|]; intros (H & _); destruct n; done).
  all: rewrite K; split; [intros (<- & ? & ?); done|intros (H & ? & ?); destruct n; cbn in H; simplify_eq; done].
Qed.

(** ** The configuration *)

Definition seconds (n : Z) : Z := n * 2 ^ SC.

(** The documented invariants, on exact values. *)
Record config_ok (c : TurnExecutionConfig) : Prop := {
  ok_usable : Forall (fun n => usable n /\ 0 < num_val n)
    [total_deadline c; connect_timeout c; provider_attempt_timeout c; supabase_timeout c; commit_reserve c;
     base_backoff c; max_backoff c];
  ok_jitter : usable (max_jitter c) /\ 0 <= num_val (max_jitter c) <= seconds 1;
  ok_attempts : 1 <= max_attempts c <= 5;
  ok_frontend : 1000 <= frontend_timeout_ms c <= 300000;
  ok_connect : num_val (connect_timeout c) <= num_val (provider_attempt_timeout c);
  ok_attempt : num_val (provider_attempt_timeout c) < num_val (total_deadline c);
  ok_writes : 2 * num_val (supabase_timeout c) <= num_val (commit_reserve c);
  ok_reserve : num_val (commit_reserve c) < num_val (total_deadline c);
  ok_backoff : num_val (base_backoff c) <= num_val (max_backoff c);
  ok_limits : num_val (total_deadline c) <= seconds 300 /\ num_val (connect_timeout c) <= seconds 30
    /\ num_val (provider_attempt_timeout c) <= seconds 120 /\ num_val (supabase_timeout c) <= seconds 30
    /\ num_val (commit_reserve c) <= seconds 120 }.

Lemma num_double n :
  usable n -> 0 < num_val n -> num_val n <= seconds 30 ->
  exists m, num_mul (NInt 2) n = Ok m /\ num_val m = 2 * num_val n /\ (forall r, usable r -> num_ltb r m = (num_val r <? 2 * num_val n)).
Proof.
  intros U P L. destruct n as [z|f].
  - exists (NInt (2 * z)). split_and!; [done|cbn [num_val]; lia|]. intros r Hr. destruct r as [x|x]; unfold num_ltb; cbn [num_val] in *.
    + rewrite scaled_ltb. f_equal. lia.
    + apply usable_float, finite_not_nan_inf in Hr as [-> ->]. f_equal. lia.
  - apply usable_float in U. destruct (fdouble f U) as [F V]; [done|]. exists (NFloat (2 * f)%float).
    split_and!; [done|done|]. intros r Hr. rewrite num_ltb_val by eauto with katherine. cbn [num_val]. by rewrite V.
Qed.

Definition config_args (c : TurnExecutionConfig) : list pyval :=
  [num_arg (total_deadline c); num_arg (connect_timeout c); num_arg (provider_attempt_timeout c);
   num_arg (supabase_timeout c); num_arg (commit_reserve c); PInt (max_attempts c); num_arg (base_backoff c);
   num_arg (max_backoff c); num_arg (max_jitter c); PInt (frontend_timeout_ms c)].

(** Turns the tests of the code on usable numbers into inequalities. *)
Ltac num_tests :=
  repeat match goal with
  | H : negb _ = false |- _ => apply negb_false_iff in H
  | H : _ && _ = true |- _ => apply andb_true_iff in H as [? ?]
  | H : num_ltb ?a ?b = _ |- _ => rewrite (num_ltb_val a b) in H by eauto with katherine
  | H : num_leb ?a ?b = _ |- _ => rewrite (num_leb_val a b) in H by eauto with katherine
  | H : (_ <? _) = false |- _ => apply Z.ltb_ge in H
  | H : (_ <=? _) = false |- _ => apply Z.leb_gt in H
  | H : (_ <=? _) = true |- _ => apply Z.leb_le in H
  end.

Lemma plain_int_ok v z : plain_int v = Ok z <-> v = PInt z.
Proof. destruct v; cbn; split; try done; by intros [= ->]. Qed.

Lemma config_init_sound a1 a2 a3 a4 a5 a6 a7 a8 a9 a10 c :
  TurnExecutionConfig_init a1 a2 a3 a4 a5 a6 a7 a8 a9 a10 = Ok c ->
  config_ok c /\ [a1; a2; a3; a4; a5; a6; a7; a8; a9; a10] = config_args c.
Proof.
  unfold TurnExecutionConfig_init. intros H. inv_ok.
  repeat match goal with
  | E : _assert_finite_positive _ = Ok _ |- _ => apply finite_positive_spec in E as (-> & ? & ?)
  | E : _assert_finite_nonnegative _ = Ok _ |- _ => apply finite_nonnegative_spec in E as (-> & ? & ?)
  | E : plain_int _ = Ok _ |- _ => apply plain_int_ok in E as ->
  end.
  num_tests.
  match goal with E : num_mul (NInt 2) ?n = Ok _ |- _ =>
    destruct (num_double n) as (m & Em & Vm & Lm); [done|done|done|]; rewrite Em in E; injection E as <- end.
  match goal with E : num_ltb ?r m = false |- _ => rewrite Lm in E by done; apply Z.ltb_ge in E end.
  split; [|done]. split; cbn; try done; repeat (split || constructor); done || lia.
Qed.

(** Runs a test that the known inequalities decide. *)
Ltac pass_test :=
  match goal with
  | |- rbind (raise_if ?b _) _ = _ =>
      replace b with false; cbn [raise_if rbind];
      [|symmetry; rewrite ?num_ltb_val, ?num_leb_val by eauto with katherine;
        first [apply Z.ltb_ge; assumption || lia | apply Z.leb_gt; assumption || lia
              | apply negb_false_iff, andb_true_iff; split; apply Z.leb_le; assumption]]
  end.

Lemma config_init_complete c :
  config_ok c ->
  TurnExecutionConfig_init (num_arg (total_deadline c)) (num_arg (connect_timeout c)) (num_arg (provider_attempt_timeout c))
    (num_arg (supabase_timeout c)) (num_arg (commit_reserve c)) (PInt (max_attempts c)) (num_arg (base_backoff c))
    (num_arg (max_backoff c)) (num_arg (max_jitter c)) (PInt (frontend_timeout_ms c)) = Ok c.
Proof.
  intros [U [J1 [J2 J3]] A F C1 C2 W R B (L1 & L2 & L3 & L4 & L5)]. destruct c as [t cn at_ s r m b cap j fr]. cbn in *.
  repeat (apply Forall_cons_1 in U as [[? ?] U]). unfold TurnExecutionConfig_init.
  repeat match goal with
  | |- rbind (_assert_finite_positive (num_arg ?n)) _ = _ => rewrite (proj2 (finite_positive_spec (num_arg n) n)) by done
  | |- rbind (_assert_finite_nonnegative (num_arg ?n)) _ = _ => rewrite (proj2 (finite_nonnegative_spec (num_arg n) n)) by done
  | |- rbind (Ok _) _ = _ => cbn [rbind]
  end.
  cbn [plain_int rbind]. do 2 pass_test. cbn [plain_int rbind]. do 4 pass_test.
  destruct (num_double s) as (tw & -> & _ & Ltw); [done..|]. cbn [rbind].
  rewrite (Ltw r) by done. pass_test. pass_test. pass_test.
  repeat pass_test. done.
Qed.

(** ** The backoff *)

(** A number that compares at or above zero: not a NaN, possibly infinite. *)
Definition nneg (n : pynum) : Prop := match n with NInt z => 0 <= z | NFloat f => (0 <=? f)%float = true end.

Lemma nneg_val n : usable n -> nneg n <-> 0 <= num_val n.
Proof.
  destruct n as [z|f]; cbn; intros U.
  - assert (0 < 2 ^ SC) by done. split; nia.
  - apply usable_float in U. rewrite leb_fval by done. by rewrite Z.leb_le.
Qed.

Lemma nneg_float n f : usable n -> nneg n -> num_to_float n = Some f -> isfinite f = true /\ (0 <=? f)%float = true.
Proof.
  intros U N H. pose proof (num_to_float_finite n f H U) as F. split; [done|]. rewrite leb_fval by done. apply Z.leb_le.
  change (fval 0%float) with 0. apply Z.sgn_nonneg. rewrite (num_to_float_sgn n f H). apply Z.sgn_nonneg. by apply nneg_val.
Qed.

Lemma nneg_cases f : (0 <=? f)%float = true -> isfinite f = true \/ (is_nan f = false /\ is_infinity f = true /\ Prim2SF f = S754_infinity false).
Proof.
  intros H. pose proof (leb_not_nan _ _ H) as [_ N]. rewrite isfinite_sf. rewrite nan_is_nan. rewrite leb_spec in H.
  change (Prim2SF 0) with (S754_zero false) in H. unfold nan in *. unfold is_infinity. rewrite FloatAxioms.eqb_spec, abs_spec.
  change (Prim2SF infinity) with (S754_infinity false). destruct (Prim2SF f) as [s|[]| |[] m e]; try done; auto.
Qed.

(** The minimum with the cap is a number at most the cap. *)
Lemma num_min_cap a cap :
  nneg a -> usable cap -> 0 <= num_val cap < seconds (2 ^ 53) ->
  usable (num_min a cap) /\ nneg (num_min a cap) /\ num_val (num_min a cap) <= num_val cap.
Proof.
  intros Na Uc [Pc Lc]. assert (nneg cap) as Nc by by apply nneg_val.
  assert (usable a \/ num_ltb cap a = true \/ (exists z, a = NInt z /\ num_ltb cap a = (num_val cap <? num_val a))) as D.
  { destruct a as [z|f].
    - right; right. exists z. split; [done|]. destruct cap as [x|x]; unfold num_ltb; cbn [num_val]; [apply scaled_ltb|].
      by apply usable_float, finite_not_nan_inf in Uc as [-> ->].
    - destruct (nneg_cases f Na) as [F|(N & I & S)]; [left; by apply usable_const|right; left].
      destruct cap as [x|x]; unfold num_ltb.
      + rewrite N, I, ltb_spec, S. done.
      + apply usable_float in Uc. rewrite isfinite_sf in Uc. rewrite ltb_spec, S. by destruct (Prim2SF x) as [[]|[]| |[]]. }
  unfold num_min. destruct D as [U|[-> |(z & -> & E)]]; [|by split_and!|].
  - rewrite num_ltb_val by done. destruct (Z.ltb_spec (num_val cap) (num_val a)); split_and!; done || lia.
  - rewrite E. destruct (Z.ltb_spec (num_val cap) (num_val (NInt z))) as [|L]; [split_and!; done || lia|].
    split_and!; [|done|done]. cbn [num_val] in L. unfold seconds in Lc. cbn in Na.
    destruct (int_to_float_exact z) as (f & I & F & _); [assert (0 < 2 ^ SC) by done; nia|]. by exists f.
Qed.

Lemma unit_float j y :
  usable j -> 0 <= num_val j <= seconds 1 -> num_to_float j = Some y -> in_range 0 1 y = true.
Proof.
  intros U [P L] H. destruct j as [z|f]; cbn [num_val num_to_float] in *.
  - unfold seconds in L. assert (0 < 2 ^ SC) by done. assert (z = 0 \/ z = 1) as [-> | ->] by nia; cbn in H; by injection H as <-.
  - injection H as <-. apply usable_float in U. unfold in_range. rewrite !leb_fval by done.
    apply andb_true_iff. split; by apply Z.leb_le.
Qed.

(** Scaling by a factor in [0, 1] gives a finite non-negative number. *)
Lemma num_mul_unit d j :
  usable d -> nneg d -> usable j -> 0 <= num_val j <= seconds 1 ->
  exists p, num_mul d j = Ok p /\ usable p /\ nneg p.
Proof.
  intros Ud Nd Uj Vj. pose proof (unit_float j) as Y.
  destruct Ud as (x & Hx & Fx) eqn:Ed; clear Ed. destruct Uj as (y & Hy & Fy) eqn:Ej; clear Ej.
  destruct (nneg_float d x) as [_ Px]; [by exists x|done|done|].
  specialize (Y y ltac:(by exists y) Vj Hy).
  assert (exists p, (let* x := num_float d in let* y := num_float j in Ok (NFloat (x * y)%float)) = Ok p /\ usable p /\ nneg p) as K.
  { unfold num_float. rewrite Hx, Hy. cbn [rbind]. exists (NFloat (x * y)). split; [done|].
    destruct (fmul_contract x y Fx Y) as (F & _ & S & _). split; [by apply usable_const|].
    cbn [nneg]. rewrite leb_fval by done. apply Z.leb_le. apply S. rewrite leb_fval in Px by done. by apply Z.leb_le in Px. }
  destruct d as [z|f], j as [w|g]; try exact K.
  exists (NInt (z * w)). cbn in Hx, Hy. cbn [num_val] in Vj. unfold seconds in Vj. assert (0 < 2 ^ SC) by done.
  assert (w = 0 \/ w = 1) as [-> | ->] by nia; (split; [done|]); rewrite ?Z.mul_0_r, ?Z.mul_1_r.
  - split; [by exists 0%float|done].
  - split; [by exists x|done].
Qed.

Lemma backoff_in_cap attempt base cap j random :
  usable base -> 0 <= num_val base -> usable cap -> 0 <= num_val cap < seconds (2 ^ 53) ->
  usable j -> 0 <= num_val j <= seconds 1 -> attempt < 1024 -> in_range 0 1 random = true ->
  exists d, compute_backoff attempt base cap j random = Ok d /\ 0 <= num_val d <= num_val cap.
Proof.
  intros Ub Pb Uc Pc Uj Vj Ha Hr. unfold compute_backoff.
  destruct (Z.ltb_spec attempt 0); [exists (NFloat 0); split; [done|]; change (num_val (NFloat 0)) with 0; lia|].
  assert (exists d0, num_mul base (NInt (2 ^ attempt)) = Ok d0 /\ nneg d0) as (d0 & -> & N0).
  { apply nneg_val in Pb; [|done]. destruct base as [z|f].
    - exists (NInt (z * 2 ^ attempt)). split; [done|]. cbn in *. apply Z.mul_nonneg_nonneg; [done|apply Z.pow_nonneg; lia].
    - destruct (pow2_to_float attempt) as (g & G); [lia|]. exists (NFloat (f * g)).
      unfold num_mul, num_float. cbn [num_to_float rbind]. rewrite G. split; [done|].
      destruct (int_to_float_sf _ _ G) as [_ Fg]. cbn [nneg] in *. apply usable_float in Ub.
      apply fmul_nonneg; [done..|]. apply (nneg_float (NInt (2 ^ attempt)) g); [by exists g| |done].
      cbn. apply Z.pow_nonneg. lia. }
  cbn [rbind]. destruct (num_min_cap d0 cap N0 Uc Pc) as (Ud & Nd & _). set (d := num_min d0 cap) in *.
  destruct (num_mul_unit d j Ud Nd Uj Vj) as (p & -> & Up & Np). cbn [rbind].
  destruct (num_mul_unit p (NFloat random) Up Np) as (q & Eq & Uq & Nq).
  { apply usable_const. by apply (in_range_isfinite 0 1). }
  { cbn [num_val]. unfold seconds. rewrite Z.mul_1_l, <- fval_1. by apply in_unit_fval. }
  rewrite Eq. cbn [rbind].
  assert (exists t, num_add d q = Ok t /\ nneg t) as (t & -> & Nt).
  { destruct Ud as (x & Hx & Fx) eqn:Ed; clear Ed. destruct Uq as (y & Hy & Fy) eqn:Eq'; clear Eq'.
    destruct (nneg_float d x) as [_ Px]; [by exists x|done|done|].
    destruct (nneg_float q y) as [_ Py]; [by exists y|done|done|].
    assert (exists t, (let* x := num_float d in let* y := num_float q in Ok (NFloat (x + y)%float)) = Ok t /\ nneg t) as K.
    { unfold num_float. rewrite Hx, Hy. eexists. split; [done|]. by apply fadd_nonneg. }
    destruct d as [z|f], q as [w|g]; try exact K. exists (NInt (z + w)). split; [done|]. cbn in *. lia. }
  cbn [rbind]. eexists. split; [done|]. destruct (num_min_cap t cap Nt Uc Pc) as (U & N & L).
  split; [by apply nneg_val|done].
Qed.

(** ** The budget *)

(** The float an accepted reserve is subtracted as has its exact value. *)
Lemma fl_exact n : usable n -> 0 <= num_val n < seconds (2 ^ 53) -> isfinite (fl n) = true /\ fval (fl n) = num_val n.
Proof.
  intros U V. unfold fl. destruct n as [z|f]; cbn [num_to_float num_val] in *; [|by apply usable_float in U].
  unfold seconds in V. destruct (int_to_float_exact z) as (f & -> & F & E); [assert (0 < 2 ^ SC) by done; nia|done].
Qed.

Lemma remaining_nneg b now : (0 <=? remaining b now)%float = true.
Proof. by apply fmax_ge_l. Qed.

(** Once less than the reserve remains, nothing remains before it. *)
Lemma reserve_touched b now :
  usable (b_reserve b) -> 0 <= num_val (b_reserve b) < seconds (2 ^ 53) ->
  has_reserve b now = false -> remaining_before_reserve b now = 0%float.
Proof.
  intros U V H. unfold has_reserve in H. destruct (fl_exact _ U V) as [F E].
  assert (isfinite (remaining b now) = true) as Fr.
  { destruct (nneg_cases _ (remaining_nneg b now)) as [|(N & I & S)]; [done|exfalso].
    destruct (b_reserve b) as [z|r]; unfold num_leb in H.
    - rewrite N, I, ltb_spec, S in H. done.
    - apply usable_float in U. rewrite isfinite_sf in U. rewrite leb_spec, S in H. by destruct (Prim2SF r) as [[]|[]| |[]]. }
  rewrite num_leb_val in H by eauto with katherine. apply Z.leb_gt in H. cbn [num_val] in H.
  pose proof (remaining_nneg b now) as P. rewrite leb_fval in P by done. apply Z.leb_le in P. change (fval 0%float) with 0 in P.
  destruct (fsub_bound (remaining b now) (fl (b_reserve b)) (fl (b_reserve b))) as (Fs & _ & _ & L); [done..|lia|].
  unfold remaining_before_reserve, fmax. rewrite ltb_fval by done. change (fval 0%float) with 0.
  specialize (L ltac:(lia)). by destruct (Z.ltb_spec 0 (fval (remaining b now - fl (b_reserve b)))); [lia|].
Qed.

Lemma num_min_nonpos a : num_leb (num_min a (NFloat 0)) (NFloat 0) = true \/ num_leb a (NFloat 0) = false /\ num_ltb (NFloat 0) a = false.
Proof.
  unfold num_min. destruct (num_ltb (NFloat 0) a) eqn:E; [by left|]. destruct (num_leb a (NFloat 0)) eqn:L; auto.
Qed.

(** ** Claims *)

(** The constructor of the configuration accepts exactly the values that
    meet the documented invariants, compared exactly whatever mix of [int] and
    [float] they come as, and stores them unchanged. *)
Theorem TurnExecutionConfig_exact a1 a2 a3 a4 a5 a6 a7 a8 a9 a10 c :
  TurnExecutionConfig_init a1 a2 a3 a4 a5 a6 a7 a8 a9 a10 = Ok c
  <-> config_ok c /\ [a1; a2; a3; a4; a5; a6; a7; a8; a9; a10] = config_args c.
Proof.
  split; [apply config_init_sound|]. intros [H A]. unfold config_args in A.
  injection A as -> -> -> -> -> -> -> -> -> ->. by apply config_init_complete.
Qed.

(** Every provider backoff of an accepted configuration whose cap is a
    number of seconds below 2^53 is computed without error, whatever the jitter
    drawn, and lies between zero and the cap, also when the exponential
    overflows. *)
Theorem backoff_bounded c attempt random :
  config_ok c -> num_val (max_backoff c) < seconds (2 ^ 53) -> attempt < 1024 -> in_range 0 1 random = true ->
  exists d, compute_backoff_from_params attempt (to_groq_params c) random = Ok d
    /\ 0 <= num_val d <= num_val (max_backoff c).
Proof.
  intros [U [J1 J2] _ _ _ _ _ _ _ _] L A R. repeat (apply Forall_cons_1 in U as [[? ?] U]).
  apply (backoff_in_cap attempt (base_backoff c) (max_backoff c) (max_jitter c) random); try assumption; lia || (split; lia).
Qed.

Lemma backoff_bounded_witness :
  exists c d, defaults = Ok c /\ compute_backoff_from_params 4 (to_groq_params c) 0.5 = Ok d
    /\ 0 <= num_val d <= num_val (max_backoff c).
Proof.
  destruct defaults as [c|] eqn:E; [|by vm_compute in E].
  destruct (backoff_bounded c 4 0.5) as (d & H & B).
  - apply (config_init_sound _ _ _ _ _ _ _ _ _ _ c E).
  - vm_compute in E. injection E as <-. by vm_compute.
  - lia.
  - by vm_compute.
  - by exists c, d.
Defined.

(** Once less than the commit reserve is left of the turn, no provider attempt
    is given a positive timeout and every read is refused with the timeout error
    before it starts, whatever the clock reads. *)
Theorem reserve_kept (c : TurnExecutionConfig) (start now : float) :
  config_ok c -> has_reserve (create_budget c start) now = false ->
  num_leb (compute_effective_attempt_timeout (to_groq_params c) (create_budget c start) now) (NFloat 0) = true
  /\ forall X T allow (wait : pynum -> outcome X T),
       run_blocking_read allow (create_budget c start) now (supabase_timeout c) wait = Err DeadlineExceeded.
Proof.
  intros [U _ _ _ _ _ _ _ _ (_ & _ & _ & _ & L)] H. repeat (apply Forall_cons_1 in U as [[? ?] U]).
  assert (remaining_before_reserve (create_budget c start) now = 0%float) as Z0.
  { apply reserve_touched; [done| |done]. cbn. split; [lia|]. eapply Z.le_lt_trans; [exact L|by vm_compute]. }
  unfold compute_effective_attempt_timeout, run_blocking_read. rewrite Z0. split.
  - cbn [to_groq_params g_provider_attempt_timeout]. destruct (num_min_nonpos (provider_attempt_timeout c)) as [|[_ N]]; [done|].
    rewrite num_ltb_val in N by eauto with katherine. apply Z.ltb_ge in N. change (num_val (NFloat 0)) with 0 in N. lia.
  - intros X T allow wait. unfold num_min. rewrite num_ltb_val by eauto with katherine.
    destruct (Z.ltb_spec (num_val (supabase_timeout c)) (num_val (NFloat 0))) as [L'|_];
      [change (num_val (NFloat 0)) with 0 in L'; lia|done].
Qed.

Lemma reserve_kept_witness :
  exists c, defaults = Ok c /\ has_reserve (create_budget c 100) 136 = false
    /\ run_blocking_read (fun _ => true) (create_budget c 100) 136 (supabase_timeout c) (fun _ => Returned (X := Z) tt)
       = Err DeadlineExceeded.
Proof.
  destruct defaults as [c|] eqn:E; [|by vm_compute in E]. exists c. split; [done|].
  assert (has_reserve (create_budget c 100) 136 = false) as H by (vm_compute in E; injection E as <-; by vm_compute).
  split; [done|].
  apply (reserve_kept c 100 136); [|done]. apply (config_init_sound _ _ _ _ _ _ _ _ _ _ c E).
Defined.

(** C33. A blocking write is never abandoned, and always reported.  In every
    execution, whatever cancellations arrive and when: while the worker runs the
    coroutine does not end; after the worker has finished, its next resumption
    ends it; it then reports the cancellation if there was one, and else exactly
    what the worker gave, with unexpected errors turned into
    [persistence_unavailable]. *)
Theorem write_drains X T (allow : work_exn X -> bool) b now (tr : list (@write_event X T)) st :
  writes allow b now tr st ->
  (forall r, w_ended st = Some r -> exists out, worker_events tr = [out]
     /\ r = if cancelled tr then Err CancelledError else write_result allow out)
  /\ (w_ended st = None -> worker_events tr = [] \/ exists out tr', tr = tr' ++ [EWorker out] /\ worker_events tr' = [])
  /\ (w_ended st = None -> forall out, w_worker st = Some out ->
        (exists st', write_step allow st EResume st')
        /\ forall e st', write_step allow st e st' -> w_ended st' <> None).
Proof.
  intros W. pose proof (write_inv_holds allow b now tr st W) as [Hw He]. split_and!.
  - intros r Hr. rewrite Hr in He. destruct He as (out & E & ->). exists out. by rewrite Hw, E.
  - intros Hn. rewrite Hn in He. destruct He as (_ & _ & _ & Hl). destruct (w_worker st) as [out|]; [right|by left].
    destruct (Hl out eq_refl) as (tr' & -> & E). by exists out, tr'.
  - intros Hn out Ho. split; [eexists; by apply step_resume|].
    intros e st' S. pose proof (write_inv_holds allow b now (tr ++ [e]) st' (writes_step _ _ _ _ _ _ _ W S)) as [Hw' He'].
    intros Hn'. rewrite Hn' in He'. destruct He' as (_ & _ & _ & Hl).
    assert (exists out', w_worker st' = Some out') as (out' & Ho').
    { destruct (w_worker st') eqn:E'; [by eexists|]. rewrite worker_events_snoc, Hw, Ho in Hw'. by destruct e. }
    destruct (Hl out' Ho') as (tr' & Et & Ew). apply app_inj_tail in Et as [<- ->]. rewrite Hw, Ho in Ew. done.
Qed.

(** Two cancellations arrive while the worker runs; it then fails. *)
Lemma write_drains_witness :
  exists tr st, writes (X := Z) (T := Z) (fun _ => false) (mkTurnBudget 45 (NFloat 10)) 40 tr st
    /\ tr = [ECancel; ECancel; EWorker (Raised (OtherException 7)); EResume]
    /\ w_ended st = Some (Err CancelledError)
    /\ exists out, worker_events tr = [out].
Proof.
  set (b := mkTurnBudget 45 (NFloat 10)).
  set (s0 := mkWrite (X := Z) (T := Z) None false None None None).
  assert (writes (fun _ => false) b 40 [] s0) as W0 by (apply writes_start; by vm_compute).
  pose proof (writes_step _ _ _ _ _ _ _ W0 (step_cancel _ s0 eq_refl)) as W1. cbn in W1.
  match type of W1 with writes _ _ _ _ ?s => pose proof (writes_step _ _ _ _ _ _ _ W1 (step_cancel _ s eq_refl)) as W2 end. cbn in W2.
  match type of W2 with writes _ _ _ _ ?s =>
    pose proof (writes_step _ _ _ _ _ _ _ W2 (step_worker _ s (Raised (OtherException 7)) eq_refl)) as W3 end. cbn in W3.
  match type of W3 with writes _ _ _ _ ?s =>
    pose proof (writes_step _ _ _ _ _ _ _ W3 (step_resume _ s _ eq_refl eq_refl)) as W4 end. cbn in W4.
  eexists _, _. split; [exact W4|]. split; [done|]. split; [done|].
  destruct (write_drains Z Z _ b 40 _ _ W4) as (H & _). destruct (H _ eq_refl) as (out & E & _). by exists out.
Defined.

(** ** The environment *)

Definition only_value_error {A} (r : result config_exn A) : Prop := forall e, r = Err e -> e = CfgValueError.

Lemma ove_bind {A B} (c : result config_exn A) (k : A -> result config_exn B) :
  only_value_error c -> (forall a, c = Ok a -> only_value_error (k a)) -> only_value_error (rbind c k).
Proof. intros Hc Hk. destruct c as [a|e']; [by apply Hk|]. intros e [= ->]. by apply Hc. Qed.

Lemma ove_ok {A} (a : A) : only_value_error (Ok a).
Proof. done. Qed.

Lemma ove_raise_if b : only_value_error (raise_if b CfgValueError).
Proof. intros e. destruct b; by intros [= <-]. Qed.

Lemma ove_positive f : only_value_error (_assert_finite_positive (PFloat f)).
Proof. intros e. cbn. unfold raise_if. destruct (isfinite f), (f <=? 0)%float; by intros [= <-]. Qed.

Lemma ove_nonnegative f : only_value_error (_assert_finite_nonnegative (PFloat f)).
Proof. intros e. cbn. unfold raise_if. destruct (isfinite f), (f <? 0)%float; by intros [= <-]. Qed.

Lemma ove_double f : only_value_error (num_mul (NInt 2) (NFloat f)).
Proof. done. Qed.

Lemma ove_plain_int z : only_value_error (plain_int (PInt z)).
Proof. done. Qed.

#[local] Hint Resolve ove_ok ove_raise_if ove_positive ove_nonnegative ove_double ove_plain_int : ove.
#[local] Hint Extern 5 (only_value_error (rbind _ _)) => (apply ove_bind; [|intros ? ?]) : ove.

Lemma positive_float_ok f n : _assert_finite_positive (PFloat f) = Ok n -> n = NFloat f.
Proof. intros [H _]%finite_positive_spec. by destruct n; simplify_eq/=. Qed.

Lemma init_floats_value_error f1 f2 f3 f4 f5 i6 f7 f8 f9 i10 :
  only_value_error (TurnExecutionConfig_init (PFloat f1) (PFloat f2) (PFloat f3) (PFloat f4) (PFloat f5) (PInt i6)
    (PFloat f7) (PFloat f8) (PFloat f9) (PInt i10)).
Proof.
  unfold TurnExecutionConfig_init.
  repeat (apply ove_bind; [solve [eauto with ove]|intros ? ?]);
    match goal with
    | H : _assert_finite_positive (PFloat f4) = Ok _ |- _ => apply positive_float_ok in H as ->
    end.
  apply ove_bind; [apply ove_double|intros ? ?].
  repeat (apply ove_bind; [solve [eauto with ove]|intros ? ?]). apply ove_ok.
Qed.

Section EnvProofs.
Context `{UL : UnicodeLower, PT : PyText}.

(** The text of a variable that is set: neither blank nor a boolean word. *)
Definition well_set (val : pystr) : Prop :=
  strip val <> [] /\ str_in (str_lower (strip val)) [u "true"; u "false"; u "yes"; u "no"] = false.

(** A field comes from its variable, or is the default when it is not set. *)
Definition reads (env : pystr -> option pystr) {A} (parse : pystr -> option A) (key : pystr) (default value : A) : Prop :=
  match env key with
  | None => value = default
  | Some val => well_set val /\ parse (strip val) = Some value
  end.

Lemma env_text_spec env key :
  match env_text env key with
  | Ok None => env key = None
  | Ok (Some text) => exists val, env key = Some val /\ text = strip val /\ well_set val
  | Err e => e = CfgValueError
  end.
Proof.
  unfold env_text, well_set, raise_if. destruct (env key) as [val|] eqn:E; [|done].
  case_bool_decide as B; [done|]. cbn [rbind]. destruct (str_in _ _) eqn:S; [done|]. by exists val.
Qed.

Lemma parse_float_spec env key d :
  match _parse_float env key d with
  | Ok f => reads env float_of_str key d f
  | Err e => e = CfgValueError
  end.
Proof.
  unfold _parse_float, reads. pose proof (env_text_spec env key) as T. destruct (env_text env key) as [[text|]|e]; cbn [rbind].
  - destruct T as (val & -> & -> & W). destruct (float_of_str (strip val)) as [f|]; [|done].
    unfold raise_if. by destruct (isfinite f).
  - by rewrite T.
  - done.
Qed.

Lemma parse_nonnegative_float_spec env key d :
  match _parse_nonnegative_float env key d with
  | Ok f => reads env float_of_str key d f
  | Err e => e = CfgValueError
  end.
Proof.
  unfold _parse_nonnegative_float, reads. pose proof (env_text_spec env key) as T.
  destruct (env_text env key) as [[text|]|e]; cbn [rbind].
  - destruct T as (val & -> & -> & W). destruct (float_of_str (strip val)) as [f|]; [|done].
    unfold raise_if. by destruct (isfinite f), (f <? 0)%float, (1 <? f)%float.
  - by rewrite T.
  - done.
Qed.

Lemma parse_int_spec env key d :
  match _parse_int env key d with
  | Ok i => reads env int_of_str key d i
  | Err e => e = CfgValueError
  end.
Proof.
  unfold _parse_int, reads. pose proof (env_text_spec env key) as T. destruct (env_text env key) as [[text|]|e]; cbn [rbind].
  - destruct T as (val & -> & -> & W). destruct (int_of_str (strip val)) as [i|]; [|done].
    unfold raise_if. by destruct (i <=? 0).
  - by rewrite T.
  - done.
Qed.

(** One variable of the environment: refused, or read. *)
Ltac read_step spec :=
  match goal with
  | |- match rbind ?c _ with _ => _ end =>
      let S := fresh "S" in pose proof spec as S; destruct c as [?|?]; cbn [rbind]; [|exact S]
  end.

(** The ten fields, each from its variable. *)
Definition env_fields (env : pystr -> option pystr) (c : TurnExecutionConfig) : Prop :=
  exists f1 f2 f3 f4 f5 f6 f7 f8,
    c = mkTurnExecutionConfig (NFloat f1) (NFloat f2) (NFloat f3) (NFloat f4) (NFloat f5) (max_attempts c)
          (NFloat f6) (NFloat f7) (NFloat f8) (frontend_timeout_ms c)
    /\ reads env float_of_str (u "TURN_TOTAL_DEADLINE") 45%float f1
    /\ reads env float_of_str (u "TURN_CONNECT_TIMEOUT") 3%float f2
    /\ reads env float_of_str (u "TURN_PROVIDER_ATTEMPT_TIMEOUT") 15%float f3
    /\ reads env float_of_str (u "TURN_SUPABASE_TIMEOUT") 5%float f4
    /\ reads env float_of_str (u "TURN_COMMIT_RESERVE") 10%float f5
    /\ reads env float_of_str (u "TURN_BASE_BACKOFF") 0.25%float f6
    /\ reads env float_of_str (u "TURN_MAX_BACKOFF") 0.75%float f7
    /\ reads env float_of_str (u "TURN_MAX_JITTER") 0.1%float f8
    /\ reads env int_of_str (u "TURN_MAX_ATTEMPTS") 2 (max_attempts c)
    /\ reads env int_of_str (u "TURN_FRONTEND_TIMEOUT_MS") 50000 (frontend_timeout_ms c).

(** Reading the configuration from the environment fails closed: for every
    environment it either raises [ValueError], no other exception, or gives a
    configuration that meets every documented invariant and whose ten fields are
    each the value of their variable, which is then neither blank nor a boolean
    word, or the default when the variable is not set. *)
Theorem from_env_fails_closed (env : pystr -> option pystr) :
  match config_from_env env with
  | Err e => e = CfgValueError
  | Ok c => config_ok c /\ env_fields env c
  end.
Proof.
  unfold config_from_env.
  read_step (parse_float_spec env (u "TURN_TOTAL_DEADLINE") 45%float).
  read_step (parse_float_spec env (u "TURN_CONNECT_TIMEOUT") 3%float).
  read_step (parse_float_spec env (u "TURN_PROVIDER_ATTEMPT_TIMEOUT") 15%float).
  read_step (parse_float_spec env (u "TURN_SUPABASE_TIMEOUT") 5%float).
  read_step (parse_float_spec env (u "TURN_COMMIT_RESERVE") 10%float).
  read_step (parse_float_spec env (u "TURN_BASE_BACKOFF") 0.25%float).
  read_step (parse_float_spec env (u "TURN_MAX_BACKOFF") 0.75%float).
  read_step (parse_nonnegative_float_spec env (u "TURN_MAX_JITTER") 0.1%float).
  read_step (parse_int_spec env (u "TURN_MAX_ATTEMPTS") 2).
  read_step (parse_int_spec env (u "TURN_FRONTEND_TIMEOUT_MS") 50000).
  match goal with |- match ?r with _ => _ end => destruct r as [c|e] eqn:I end; [|by eapply init_floats_value_error].
  apply config_init_sound in I as [O A]. split; [done|]. unfold config_args in A. injection A as A1 A2 A3 A4 A5 A6 A7 A8 A9 A10.
  destruct c as [t cn at_ s r m b cap j fr]; cbn in *.
  destruct t, cn, at_, s, r, b, cap, j; cbn in *; simplify_eq. do 8 eexists. by split_and!.
Qed.

End EnvProofs.
