(* ===== verification/GroqManager.v ===== *)
(** * The provider key pool (backend/groq_manager.py)

    Keys in rotation, with deactivation and cooldowns; the synchronous and the
    asynchronous completion with their bounded retries; the classification of
    provider failures.  The provider's SDK is outside: an attempt is answered by
    a response or by one of the exceptions the code tells apart, as an argument.
    The SDK documents [RateLimitError] and [AuthenticationError] as subclasses of
    [APIStatusError], and [APITimeoutError] as one of [APIConnectionError]: the
    constructors below are the classes without their listed subclasses, and every
    handler is matched in the order of the [except] clauses.  Other calls on the
    same pool may run between any two steps of a call ([a_others]). *)

From S2P Require Import Prelude PyFloat FloatRound PyValue Json Admission ProviderEnvelope TurnExecution.

Local Open Scope Z_scope.

(** ** Failures *)

Inductive ProviderFailure : Type :=
| PF_rate_limited | PF_auth_failed | PF_connection_failed | PF_server_error | PF_invalid_response
| PF_invalid_request | PF_timeout | PF_cancelled.

#[export] Instance ProviderFailure_eq_dec : EqDecision ProviderFailure.
Proof. solve_decision. Defined.

(** What an attempt can raise. *)
Inductive sdk_exn : Type :=
| RateLimitError
| AuthenticationError
| APITimeoutError
| APIConnectionError
| APIStatusError (status_code : Z)
| SdkAsyncTimeout                       (** [asyncio.TimeoutError] of [wait_for] *)
| SdkCancelled                          (** [asyncio.CancelledError] *)
| SdkTurn (code : TurnErrorCode)        (** [TurnExecutionError] *)
| SdkOther.                             (** any other [Exception] *)

Definition classify_provider_error (exc : sdk_exn) : ProviderFailure :=
  match exc with
  | RateLimitError => PF_rate_limited
  | AuthenticationError => PF_auth_failed
  | APITimeoutError => PF_timeout
  | APIConnectionError => PF_connection_failed
  | APIStatusError c => if c =? 401 then PF_auth_failed else if 500 <=? c then PF_server_error else PF_invalid_request
  | SdkCancelled => PF_cancelled
  | SdkAsyncTimeout => PF_timeout
  | SdkTurn turn_timeout => PF_timeout
  | SdkTurn _ => PF_invalid_response
  | SdkOther => PF_invalid_response
  end.

Definition provider_failure_to_turn_code (f : ProviderFailure) : TurnErrorCode :=
  match f with
  | PF_rate_limited => upstream_rate_limited
  | PF_auth_failed | PF_invalid_request => provider_invalid_request
  | PF_connection_failed | PF_server_error => provider_unavailable
  | PF_timeout => turn_timeout
  | PF_invalid_response => provider_invalid_response
  | PF_cancelled => internal_error
  end.

(** What a completion raises. *)
Inductive groq_exn : Type :=
| GroqConfigurationError
| GroqPoolExhaustedError (code : ProviderFailure)
| GroqRequestError
| GroqTurn (code : TurnErrorCode)
| GroqCancelled
| GroqUnexpected.                       (** an exception no handler expects *)

(** ** The pool *)

Record pool : Type := mkPool {
  deactivated : gset pystr;
  cooldowns : gmap pystr float;
  index : nat }.

Definition _cooldown_duration : float := 10.

(** The keys that are kept: present and not blank. *)
Definition usable_keys (raw : list (option pystr)) : list pystr :=
  omap (fun k => match k with Some k => if bool_decide (strip k = []) then None else Some k | None => None end) raw.

Definition GroqClientManager_init (raw : list (option pystr)) : result groq_exn (list pystr * pool) :=
  match usable_keys raw with
  | [] => Err GroqConfigurationError
  | keys => Ok (keys, mkPool ∅ ∅ 0%nat)
  end.

(** ** What a call meets and does *)

(** What other calls may do to the pool. *)
Inductive pool_op : Type :=
| OAcquire (tried : gset pystr) (now : float)
| OMark (k : pystr) (now : float)
| ODeactivate (k : pystr).

(** What the calls do to the outside. *)
Inductive groq_event : Type :=
| ECreate (k : pystr)                   (** a client is asked for *)
| ECall (k : pystr) (timeout : option pynum)  (** a completion is requested, within the timeout *)
| EClose (k : pystr)
| ESleep (d : pynum).

Inductive attempt_outcome (A : Type) : Type :=
| AReturn (v : A)
| ARaise (e : sdk_exn).
Arguments AReturn {A} v.
Arguments ARaise {A} e.

(** What one attempt takes from outside. *)
Record attempt_env (A : Type) : Type := mkAttempt {
  a_budget_now : float;                 (** clock of the budget, before the attempt *)
  a_now : float;                        (** clock of the pool, at acquisition *)
  a_client : bool;                      (** the client factory answers *)
  a_call : pystr -> attempt_outcome A;  (** the provider, within the timeout *)
  a_mark_now : float;                   (** clock of the pool, after a rate limit *)
  a_backoff_now : float;                (** clock of the budget, before the backoff *)
  a_random : float;
  a_others : list pool_op * list pool_op }. (** other calls, before acquisition and during the attempt *)
Arguments mkAttempt {A}.
Arguments a_budget_now {A}. Arguments a_now {A}. Arguments a_client {A}. Arguments a_call {A}.
Arguments a_mark_now {A}. Arguments a_backoff_now {A}. Arguments a_random {A}. Arguments a_others {A}.

(** ** Rotation and completions *)

Section Pool.
Context (keys : list pystr).

(** The cooldowns that are over at [now] are dropped. *)
Definition clean_cooldowns (now : float) (p : pool) : pool :=
  mkPool (deactivated p) (filter (fun kc => (kc.2 <=? now)%float = false) (cooldowns p)) (index p).

Definition in_cooldown (p : pool) (k : pystr) : bool := bool_decide (is_Some (cooldowns p !! k)).
Definition is_deactivated (p : pool) (k : pystr) : bool := bool_decide (k ∈ deactivated p).

Definition eligible (p : pool) (tried : gset pystr) (k : pystr) : bool :=
  negb (is_deactivated p k) && negb (in_cooldown p k) && negb (bool_decide (k ∈ tried)).

(** The scan of [count] positions from [start]: the position found and its key. *)
Fixpoint scan (p : pool) (tried : gset pystr) (start count : nat) : option (nat * pystr) :=
  match count with
  | O => None
  | S count' =>
      let idx := (start mod length keys)%nat in
      match keys !! idx with
      | Some k => if eligible p tried k then Some (idx, k) else scan p tried (S start) count'
      | None => None
      end
  end.

Definition _acquire_next_key (tried : gset pystr) (now : float) (p0 : pool) : result ProviderFailure pystr * pool :=
  let p := clean_cooldowns now p0 in
  let all_deactivated := forallb (is_deactivated p) keys in
  let all_in_cooldown :=
    negb all_deactivated && forallb (in_cooldown p) (List.filter (fun k => negb (is_deactivated p k)) keys) in
  let all_tried :=
    negb all_deactivated && negb all_in_cooldown
    && forallb (fun k => bool_decide (k ∈ tried)) (List.filter (fun k => negb (is_deactivated p k) && negb (in_cooldown p k)) keys) in
  match scan p tried (index p) (length keys) with
  | Some (idx, k) => (Ok k, mkPool (deactivated p) (cooldowns p) ((idx + 1) mod length keys))
  | None =>
      if all_deactivated then (Err PF_auth_failed, p)
      else if all_in_cooldown then (Err PF_rate_limited, p)
      else if all_tried then (Err PF_connection_failed, p)
      else (Err PF_connection_failed, p)
  end.

Definition _mark_key_rate_limited (k : pystr) (now : float) (p : pool) : pool :=
  mkPool (deactivated p) (<[k := (now + _cooldown_duration)%float]> (cooldowns p)) (index p).

Definition _deactivate_key (k : pystr) (p : pool) : pool :=
  mkPool ({[k]} ∪ deactivated p) (cooldowns p) (index p).

Definition pool_step (p : pool) (o : pool_op) : pool :=
  match o with
  | OAcquire tried now => (_acquire_next_key tried now p).2
  | OMark k now => _mark_key_rate_limited k now p
  | ODeactivate k => _deactivate_key k p
  end.

Definition groq_state : Type := pool * list groq_event.

Definition emit (e : groq_event) (s : groq_state) : groq_state := (s.1, s.2 ++ [e]).
Definition run_others (l : list pool_op) (s : groq_state) : groq_state := (fold_left pool_step l s.1, s.2).

Section Completion.
Context `{FR : FloatRepr} {A : Type} (params : GroqCallParams) (env : nat -> attempt_env A).

(** [min(max_attempts, len(active))], at least one. *)
Definition attempts_for (p : pool) : Z :=
  let active := List.filter (fun k => negb (is_deactivated p k)) keys in
  let m := Z.min (g_max_attempts params) (Z.of_nat (length active)) in
  if m <? 1 then 1 else m.

(** *** Synchronous *)

(** The handlers: the next pool, or the exception that ends the call. *)
Definition sync_handler (exc : sdk_exn) (k : pystr) (now : float) (p : pool) : result groq_exn pool :=
  match exc with
  | RateLimitError => Ok (_mark_key_rate_limited k now p)
  | AuthenticationError => Ok (_deactivate_key k p)
  | APIConnectionError | APITimeoutError => Ok p
  | APIStatusError c =>
      if c =? 401 then Ok (_deactivate_key k p)
      else if 500 <=? c then Ok p
      else Err GroqRequestError
  | SdkCancelled => Err GroqCancelled
  | SdkAsyncTimeout | SdkTurn _ | SdkOther => Ok p
  end.

Fixpoint sync_loop (left attempt : nat) (tried : gset pystr) (s : groq_state) : result groq_exn A * groq_state :=
  match left with
  | O => (Err (GroqPoolExhaustedError PF_connection_failed), s)
  | S left' =>
      let a := env attempt in
      let s := run_others (a_others a).1 s in
      match _acquire_next_key tried (a_now a) s.1 with
      | (Err code, p) => (Err (GroqPoolExhaustedError code), (p, s.2))
      | (Ok k, p) =>
          let s := emit (ECreate k) (p, s.2) in
          if negb (a_client a) then (Err GroqRequestError, s) else
          let s := run_others (a_others a).2 (emit (ECall k None) s) in
          match a_call a k with
          | AReturn v => (Ok v, s)
          | ARaise exc =>
              match sync_handler exc k (a_mark_now a) s.1 with
              | Err e => (Err e, s)
              | Ok p =>
                  let s := (p, s.2) in
                  match left' with
                  | O => sync_loop left' (S attempt) ({[k]} ∪ tried) s
                  | _ =>
                      match compute_backoff_from_params (Z.of_nat attempt) params (a_random a) with
                      | Err _ => (Err GroqUnexpected, s)
                      | Ok d => sync_loop left' (S attempt) ({[k]} ∪ tried) (emit (ESleep d) s)
                      end
                  end
              end
          end
      end
  end.

(** The envelope is validated before anything else. *)
Definition guarded {B} (messages : pyval) (run : result groq_exn B * groq_state) (s : groq_state)
    : result groq_exn B * groq_state :=
  match validate_provider_input messages PROVIDER_INPUT_MAX_ESTIMATED_UNITS with
  | Ok _ => run
  | Err (ProviderEnvelopeError _ _ _) => (Err GroqRequestError, s)
  | Err _ => (Err GroqUnexpected, s)
  end.

Definition chat_completion (messages : pyval) (s : groq_state) : result groq_exn A * groq_state :=
  guarded messages (sync_loop (Z.to_nat (attempts_for s.1)) 0 ∅ s) s.

(** *** Asynchronous *)

(** The handlers: the failure to remember with the next pool, or the exception that ends the call. *)
Definition async_handler (exc : sdk_exn) (k : pystr) (now : float) (p : pool) : result groq_exn (ProviderFailure * pool) :=
  match exc with
  | SdkCancelled => Err GroqCancelled
  | SdkAsyncTimeout => Ok (PF_timeout, p)
  | APITimeoutError => Ok (PF_timeout, p)
  | RateLimitError => Ok (PF_rate_limited, _mark_key_rate_limited k now p)
  | AuthenticationError => Ok (PF_auth_failed, _deactivate_key k p)
  | APIConnectionError => Ok (PF_connection_failed, p)
  | APIStatusError c =>
      if c =? 401 then Ok (PF_auth_failed, _deactivate_key k p)
      else if 500 <=? c then Ok (PF_server_error, p)
      else Ok (PF_invalid_request, p)
  | SdkTurn c => Err (GroqTurn c)
  | SdkOther => Ok (PF_connection_failed, p)
  end.

(** The error when every attempt has been made. *)
Definition exhausted (last_failure : option ProviderFailure) : groq_exn :=
  GroqPoolExhaustedError (match last_failure with Some f => f | None => PF_connection_failed end).

Fixpoint async_loop (budget : TurnBudget) (left attempt : nat) (tried : gset pystr) (last_failure : option ProviderFailure)
    (s : groq_state) : result groq_exn A * groq_state :=
  match left with
  | O => (Err (exhausted last_failure), s)
  | S left' =>
      let a := env attempt in
      let effective_timeout := compute_effective_attempt_timeout params budget (a_budget_now a) in
      if num_leb effective_timeout (NFloat 0) then (Err (GroqTurn turn_timeout), s) else
      let s := run_others (a_others a).1 s in
      match _acquire_next_key tried (a_now a) s.1 with
      | (Err code, p) => (Err (GroqPoolExhaustedError code), (p, s.2))
      | (Ok k, p) =>
          let s := emit (ECreate k) (p, s.2) in
          if negb (a_client a) then (Err GroqRequestError, s) else
          let s := run_others (a_others a).2 (emit (ECall k (Some effective_timeout)) s) in
          match a_call a k with
          | AReturn v => (Ok v, emit (EClose k) s)
          | ARaise exc =>
              match async_handler exc k (a_mark_now a) s.1 with
              | Err e => (Err e, emit (EClose k) s)
              | Ok (f, p) =>
                  let s := emit (EClose k) (p, s.2) in
                  match left' with
                  | O => async_loop budget left' (S attempt) ({[k]} ∪ tried) (Some f) s
                  | _ =>
                      let remaining_eff := compute_effective_attempt_timeout params budget (a_backoff_now a) in
                      match compute_backoff_from_params (Z.of_nat attempt) params (a_random a) with
                      | Err _ => (Err GroqUnexpected, s)
                      | Ok d =>
                          let s := if num_ltb d remaining_eff then emit (ESleep d) s else s in
                          async_loop budget left' (S attempt) ({[k]} ∪ tried) (Some f) s
                      end
                  end
              end
          end
      end
  end.

Definition chat_completion_async (messages : pyval) (budget : TurnBudget) (s : groq_state) : result groq_exn A * groq_state :=
  guarded messages (async_loop budget (Z.to_nat (attempts_for s.1)) 0 ∅ None s) s.

End Completion.
End Pool.
