(* ===== verification/GroqTheorems.v ===== *)
(** * Properties of the provider key pool

    Acquisition is round robin over the eligible keys and explains its refusals;
    a deactivated key is out for good and a cooling one until its time; a
    completion, synchronous or not, tries each key at most once, within its
    number of attempts, and closes the clients it opens. *)

From S2P Require Import Prelude PyFloat FloatRound PyValue Json Admission ProviderEnvelope TurnExecution TurnExecutionTheorems GroqManager.

(** ** Acquisition *)

Section Acquire.
Context (keys : list pystr).

(** The key [i] places after the position [start] in the rotation. *)
Definition rotation (start i : nat) : option pystr := keys !! ((start + i) mod length keys).

Definition blocked (p : pool) (tried : gset pystr) (start n : nat) : Prop :=
  forall i k, i < n -> rotation start i = Some k -> eligible p tried k = false.

Lemma scan_spec p tried start count :
  keys <> [] ->
  match scan keys p tried start count with
  | Some (idx, k) => exists i, i < count /\ idx = (start + i) mod length keys /\ rotation start i = Some k
      /\ eligible p tried k = true /\ blocked p tried start i
  | None => blocked p tried start count
  end.
Proof.
  intros Hk. assert (length keys <> 0) as Hn by by destruct keys.
  revert start. induction count as [|count IH]; intros start; cbn [scan]; [intros i k Hi; lia|].
  assert (exists k, keys !! (start mod length keys) = Some k) as (k & E).
  { apply lookup_lt_is_Some_2, Nat.mod_upper_bound. done. }
  rewrite E. destruct (eligible p tried k) eqn:El.
  - exists 0. unfold rotation. rewrite Nat.add_0_r. split_and!; [lia|done|done|done|]. intros i k' Hi. lia.
  - assert (forall n, blocked p tried (S start) n -> blocked p tried start (S n)) as Step.
    { intros n B [|i] k' Hi Hr.
      - unfold rotation in Hr. rewrite Nat.add_0_r, E in Hr. congruence.
      - apply (B i k'); [lia|]. unfold rotation in *. by replace (S start + i) with (start + S i) by lia. }
    specialize (IH (S start)). destruct (scan keys p tried (S start) count) as [[idx k']|]; [|by apply Step].
    destruct IH as (i & Hi & -> & Hr & Hel & B). exists (S i). unfold rotation in *.
    replace (start + S i) with (S start + i) by lia. split_and!; [lia|done|done|done|by apply Step].
Qed.

(** A full turn of the rotation meets every key. *)
Lemma rotation_covers start k : k ∈ keys -> exists i, i < length keys /\ rotation start i = Some k.
Proof.
  intros (j & Hj)%list_elem_of_lookup. pose proof (lookup_lt_Some _ _ _ Hj) as Lj.
  set (n := length keys) in *. assert (n <> 0) as Hn by lia. set (r := start mod n).
  assert (r < n) as Hr by (by apply Nat.mod_upper_bound).
  exists ((j + (n - r)) mod n). split; [by apply Nat.mod_upper_bound|]. unfold rotation. fold n.
  rewrite Nat.Div0.add_mod_idemp_r, <- Nat.Div0.add_mod_idemp_l. fold r.
  replace (r + (j + (n - r))) with (j + 1 * n) by lia. rewrite Nat.Div0.mod_add, Nat.mod_small by lia. done.
Qed.

Lemma blocked_all p tried start : blocked p tried start (length keys) -> Forall (fun k => eligible p tried k = false) keys.
Proof.
  intros B. apply Forall_forall. intros k Hk. destruct (rotation_covers start k Hk) as (i & Hi & Hr). by apply (B i k).
Qed.

(** The reason of a refusal, from the state of the keys. *)
Definition refusal (p : pool) : ProviderFailure :=
  if forallb (is_deactivated p) keys then PF_auth_failed
  else if forallb (fun k => is_deactivated p k || in_cooldown p k) keys then PF_rate_limited
  else PF_connection_failed.

Lemma forallb_filter_neg {B} (f g : B -> bool) l :
  forallb g (List.filter (fun x => negb (f x)) l) = forallb (fun x => f x || g x) l.
Proof. induction l as [|x l IH]; cbn; [done|]. destruct (f x); cbn; by rewrite IH. Qed.

Lemma forallb_impl {B} (f g : B -> bool) l : (forall x, f x = true -> g x = true) -> forallb f l = true -> forallb g l = true.
Proof. rewrite !forallb_forall. naive_solver. Qed.

Lemma acquire_cases tried now p0 :
  keys <> [] ->
  let p := clean_cooldowns now p0 in
  match _acquire_next_key keys tried now p0 with
  | (Ok k, p') => exists i, i < length keys /\ rotation (index p0) i = Some k /\ eligible p tried k = true
      /\ blocked p tried (index p0) i /\ p' = mkPool (deactivated p) (cooldowns p) ((index p0 + i + 1) mod length keys)
  | (Err code, p') => p' = p /\ Forall (fun k => eligible p tried k = false) keys /\ code = refusal p
  end.
Proof.
  intros Hk p. unfold _acquire_next_key. fold p. pose proof (scan_spec p tried (index p) (length keys) Hk) as S.
  destruct (scan keys p tried (index p) (length keys)) as [[idx k]|].
  - destruct S as (i & Hi & -> & Hr & He & B). exists i. split_and!; try done. by rewrite Nat.Div0.add_mod_idemp_l.
  - apply blocked_all in S. rewrite forallb_filter_neg. unfold refusal.
    destruct (forallb (is_deactivated p) keys); [done|]. cbn [negb andb].
    destruct (forallb (fun k => is_deactivated p k || in_cooldown p k) keys); [done|]. by destruct (forallb _ _).
Qed.

(** A refusal that is neither of deactivation nor of cooldown: every key that is
    left has been tried, so the fallback of the code is never reached. *)
Lemma refusal_tried tried now p0 :
  let p := clean_cooldowns now p0 in
  Forall (fun k => eligible p tried k = false) keys ->
  forall k, k ∈ keys -> is_deactivated p k = false -> in_cooldown p k = false -> k ∈ tried.
Proof.
  intros p F k Hk Hd Hc. rewrite Forall_forall in F. specialize (F k Hk). unfold eligible in F. rewrite Hd, Hc in F.
  cbn in F. by case_bool_decide.
Qed.

Lemma clean_lookup now p k c :
  cooldowns (clean_cooldowns now p) !! k = Some c <-> cooldowns p !! k = Some c /\ (c <=? now)%float = false.
Proof. cbn. rewrite map_lookup_filter_Some. done. Qed.

(** What an acquired key is. *)
Lemma acquire_key tried now p0 k p' :
  _acquire_next_key keys tried now p0 = (Ok k, p') ->
  k ∈ keys /\ k ∉ tried /\ k ∉ deactivated p0 /\ (forall c, cooldowns p0 !! k = Some c -> (c <=? now)%float = true).
Proof.
  intros H. assert (keys <> []) as Hk by (intros ->; cbn in H; discriminate H).
  pose proof (acquire_cases tried now p0 Hk) as A. rewrite H in A. destruct A as (i & _ & Hr & He & _ & _).
  unfold eligible in He. apply andb_true_iff in He as [[Hd Hc]%andb_true_iff Ht].
  split_and!.
  - by eapply list_elem_of_lookup_2.
  - apply negb_true_iff, bool_decide_eq_false in Ht. done.
  - unfold is_deactivated in Hd. apply negb_true_iff, bool_decide_eq_false in Hd. done.
  - intros c Ec. destruct (c <=? now)%float eqn:L; [done|exfalso]. unfold in_cooldown in Hc.
    apply negb_true_iff, bool_decide_eq_false in Hc. apply Hc. exists c. by apply clean_lookup.
Qed.

(** ** Quarantine *)

(** [k] is deactivated, or cools until [c]. *)
Definition quarantined (c : option float) (k : pystr) (p : pool) : Prop :=
  match c with None => k ∈ deactivated p | Some c => cooldowns p !! k = Some c end.

(** The operations that leave the quarantine in force: no clock reading reaches
    its end and the key is not rate limited again. *)
Definition before_end (c : option float) (k : pystr) (o : pool_op) : Prop :=
  match c, o with
  | None, _ => True
  | Some c, OAcquire _ now => (c <=? now)%float = false
  | Some _, OMark k' _ => k' <> k
  | Some _, ODeactivate _ => True
  end.

Lemma acquire_pool tried now p0 :
  deactivated (_acquire_next_key keys tried now p0).2 = deactivated p0
  /\ cooldowns (_acquire_next_key keys tried now p0).2 = cooldowns (clean_cooldowns now p0).
Proof.
  unfold _acquire_next_key. cbn zeta. destruct (scan _ _ _ _ _) as [[idx k]|]; [done|]. by repeat case_goal.
Qed.

Lemma quarantine_step c k p o : quarantined c k p -> before_end c k o -> quarantined c k (pool_step keys p o).
Proof.
  intros Q B. destruct o as [tried now|k' now|k']; cbn [pool_step].
  - pose proof (acquire_pool tried now p) as [D C]. destruct c as [c|]; cbn in *.
    + rewrite C. by apply clean_lookup.
    + by rewrite D.
  - destruct c as [c|]; cbn in *; [|done]. by rewrite lookup_insert_ne.
  - destruct c as [c|]; cbn in *; set_solver.
Qed.

Lemma quarantine_ops c k p ops : quarantined c k p -> Forall (before_end c k) ops -> quarantined c k (fold_left (pool_step keys) ops p).
Proof.
  intros Q F. revert p Q. induction F as [|o ops B F IH]; intros p Q; cbn; [done|]. apply IH. by apply quarantine_step.
Qed.

End Acquire.

(** ** Completions *)

Definition calls (l : list groq_event) : list pystr :=
  omap (fun e => match e with ECall k _ => Some k | _ => None end) l.

(** Every client that is made is used, with a proper timeout, and closed before
    anything else happens, or could not be made, which ends the call. *)
Inductive closes (proper : option pynum -> Prop) : list groq_event -> Prop :=
| closes_nil : closes proper []
| closes_sleep d l : closes proper l -> closes proper (ESleep d :: l)
| closes_attempt k t l : proper t -> closes proper l -> closes proper (ECreate k :: ECall k t :: EClose k :: l)
| closes_refused k : closes proper [ECreate k].

Section Loops.
Context `{FR : FloatRepr} {A : Type} (keys : list pystr) (params : GroqCallParams) (env : nat -> attempt_env A).

(** What the rest of a call adds to the log. *)
Definition bounded_calls (left : nat) (tried : gset pystr) (new : list groq_event) : Prop :=
  NoDup (calls new) /\ (forall k, k ∈ calls new -> k ∈ keys /\ k ∉ tried) /\ length (calls new) <= left.

Lemma bounded_nil left tried : bounded_calls left tried [].
Proof. split_and!; [constructor|set_solver|cbn; lia]. Qed.

Lemma bounded_cons left tried k new :
  k ∈ keys -> k ∉ tried -> bounded_calls left ({[k]} ∪ tried) new ->
  NoDup (k :: calls new) /\ (forall k', k' ∈ k :: calls new -> k' ∈ keys /\ k' ∉ tried) /\ length (k :: calls new) <= S left.
Proof.
  intros Hk Ht (N & S & L). split_and!.
  - constructor; [|done]. intros H. apply S in H as [_ H]. set_solver.
  - intros k' [-> |H]%elem_of_cons; [done|]. apply S in H. set_solver.
  - cbn. lia.
Qed.

(** A timeout the budget gives: positive, capped by the configuration and by
    what remains before the reserve. *)
Definition within (budget : TurnBudget) (t : option pynum) : Prop :=
  exists now, t = Some (compute_effective_attempt_timeout params budget now)
    /\ num_leb (compute_effective_attempt_timeout params budget now) (NFloat 0) = false.

Lemma async_loop_log budget left attempt tried last p log r p' log' :
  async_loop keys params env budget left attempt tried last (p, log) = (r, (p', log')) ->
  exists new, log' = log ++ new /\ bounded_calls left tried new /\ closes (within budget) new.
Proof.
  revert attempt tried last p log. induction left as [|left IH]; intros attempt tried last p log H; cbn [async_loop] in H.
  { simplify_eq. exists []. rewrite app_nil_r. split_and!; [done|apply bounded_nil|constructor]. }
  cbn zeta in H. set (t := Some (compute_effective_attempt_timeout params budget (a_budget_now (env attempt)))) in *.
  assert (num_leb (compute_effective_attempt_timeout params budget (a_budget_now (env attempt))) (NFloat 0) = false -> within budget t) as Pt
    by (intros E; by exists (a_budget_now (env attempt))).
  destruct (num_leb _ _); [simplify_eq; exists []; rewrite app_nil_r; split_and!; [done|apply bounded_nil|constructor]|].
  specialize (Pt eq_refl). unfold run_others in H at 1. cbn [fst snd] in H.
  destruct (_acquire_next_key keys tried (a_now (env attempt)) _) as [[k|code] p1] eqn:Ea.
  2: { simplify_eq. exists []. rewrite app_nil_r. split_and!; [done|apply bounded_nil|constructor]. }
  destruct (acquire_key keys _ _ _ _ _ Ea) as (Hk & Ht & _ & _). clear Ea.
  unfold emit, run_others in H. cbn [fst snd] in H. destruct (a_client (env attempt)); cbn [negb] in H.
  2: { simplify_eq. exists [ECreate k]. split_and!; [done| |constructor]. split_and!; [constructor|set_solver|cbn; lia]. }
  assert (forall new, bounded_calls left ({[k]} ∪ tried) new -> closes (within budget) new ->
    bounded_calls (S left) tried (ECreate k :: ECall k t :: EClose k :: new) /\ closes (within budget) (ECreate k :: ECall k t :: EClose k :: new)) as Add.
  { intros new B C. split; [by apply bounded_cons|constructor; auto]. }
  assert (exists new, (log ++ [ECreate k]) ++ [ECall k t] ++ [EClose k] = log ++ new
     /\ bounded_calls (S left) tried new /\ closes (within budget) new) as Once.
  { exists [ECreate k; ECall k t; EClose k]. split; [by rewrite <- app_assoc|]. apply Add; [apply bounded_nil|constructor]. }
  destruct (a_call (env attempt) k) as [v|exc]; [simplify_eq; by rewrite <- app_assoc|].
  destruct (async_handler exc k _ _) as [[f p2]|e]; [|simplify_eq; by rewrite <- app_assoc].
  destruct left as [|left]; [apply IH in H as (new & -> & B & C)|].
  { exists (ECreate k :: ECall k t :: EClose k :: new). split; [by rewrite <- !app_assoc|]. by apply Add. }
  destruct (compute_backoff_from_params _ _ _) as [d|]; [|simplify_eq; by rewrite <- app_assoc].
  destruct (num_ltb d _); apply IH in H as (new & -> & B & C).
  - exists (ECreate k :: ECall k t :: EClose k :: ESleep d :: new). split; [by rewrite <- !app_assoc|]. apply Add; [exact B|by constructor].
  - exists (ECreate k :: ECall k t :: EClose k :: new). split; [by rewrite <- !app_assoc|]. by apply Add.
Qed.

Lemma sync_loop_log left attempt tried p log r p' log' :
  sync_loop keys params env left attempt tried (p, log) = (r, (p', log')) ->
  exists new, log' = log ++ new /\ bounded_calls left tried new.
Proof.
  revert attempt tried p log. induction left as [|left IH]; intros attempt tried p log H; cbn [sync_loop] in H.
  { simplify_eq. exists []. rewrite app_nil_r. split; [done|apply bounded_nil]. }
  cbn zeta in H. unfold run_others in H at 1. cbn [fst snd] in H.
  destruct (_acquire_next_key keys tried (a_now (env attempt)) _) as [[k|code] p1] eqn:Ea.
  2: { simplify_eq. exists []. rewrite app_nil_r. split; [done|apply bounded_nil]. }
  destruct (acquire_key keys _ _ _ _ _ Ea) as (Hk & Ht & _ & _). clear Ea.
  unfold emit, run_others in H. cbn [fst snd] in H. destruct (a_client (env attempt)); cbn [negb] in H.
  2: { simplify_eq. exists [ECreate k]. split_and!; [done|]. split_and!; [constructor|set_solver|cbn; lia]. }
  assert (exists new, (log ++ [ECreate k]) ++ [ECall k None] = log ++ new /\ bounded_calls (S left) tried new) as Once.
  { exists [ECreate k; ECall k None]. split; [by rewrite <- app_assoc|]. apply (bounded_cons left tried k []); [done..|apply bounded_nil]. }
  destruct (a_call (env attempt) k) as [v|exc]; [by simplify_eq|].
  destruct (sync_handler exc k _ _) as [p2|e]; [|by simplify_eq].
  destruct left as [|left]; [apply IH in H as (new & -> & B)|].
  { exists (ECreate k :: ECall k None :: new). split; [by rewrite <- !app_assoc|]. by apply bounded_cons. }
  destruct (compute_backoff_from_params _ _ _) as [d|]; [|by simplify_eq].
  apply IH in H as (new & -> & B). exists (ECreate k :: ECall k None :: ESleep d :: new).
  split; [by rewrite <- !app_assoc|]. by apply (bounded_cons (S left) tried k (ESleep d :: new)).
Qed.

End Loops.

(** ** Claims *)

(** Acquisition is round robin and explains itself.  On a configured pool,
    after the cooldowns that are over have been dropped: the key returned is the
    first one from the current position of the rotation that is neither
    deactivated, nor cooling, nor already tried, and the next acquisition starts
    after it; a refusal means that no key is eligible, with [auth_failed] when
    all are deactivated, [rate_limited] when all the others cool, and
    [connection_failed] only when every key left has been tried. *)
Theorem acquire_round_robin keys tried now p0 :
  keys <> [] ->
  let p := clean_cooldowns now p0 in
  match _acquire_next_key keys tried now p0 with
  | (Ok k, p') => exists i, i < length keys /\ rotation keys (index p0) i = Some k /\ eligible p tried k = true
      /\ blocked keys p tried (index p0) i /\ p' = mkPool (deactivated p) (cooldowns p) ((index p0 + i + 1) mod length keys)
  | (Err code, p') => p' = p /\ Forall (fun k => eligible p tried k = false) keys /\ code = refusal keys p
      /\ (code = PF_connection_failed -> forall k, k ∈ keys -> is_deactivated p k = false -> in_cooldown p k = false -> k ∈ tried)
  end.
Proof.
  intros Hk p. pose proof (acquire_cases keys tried now p0 Hk) as A. fold p in A.
  destruct (_acquire_next_key keys tried now p0) as [[k|code] p']; [exact A|].
  destruct A as (-> & F & ->). split_and!; [done|done|done|]. intros _. by apply refusal_tried.
Qed.

Lemma acquire_round_robin_witness :
  (_acquire_next_key [u "a"; u "b"; u "c"] {[u "c"]} 100 (mkPool ∅ {[u "b" := 110%float]} 1)).1 = Ok (u "a")
  /\ exists i, i < 3 /\ rotation [u "a"; u "b"; u "c"] 1 i = Some (u "a").
Proof.
  pose proof (acquire_round_robin [u "a"; u "b"; u "c"] {[u "c"]} 100 (mkPool ∅ {[u "b" := 110%float]} 1) ltac:(done)) as H.
  cbn zeta in H. split; [by vm_compute|].
  assert ((_acquire_next_key [u "a"; u "b"; u "c"] {[u "c"]} 100 (mkPool ∅ {[u "b" := 110%float]} 1)).1 = Ok (u "a")) as E by by vm_compute.
  destruct (_acquire_next_key _ _ _ _) as [[k|code] p']; [|discriminate E]. cbn in E. injection E as ->.
  destruct H as (i & Hi & Hr & _). by exists i.
Defined.

(** Quarantine.  Once a key is deactivated no later acquisition returns it,
    whatever other calls do to the pool; once it is rate limited, none does while
    no clock reading has reached the end of its cooldown. *)
Theorem quarantine_respected keys c k p ops tried now :
  quarantined c k p -> Forall (before_end c k) (ops ++ [OAcquire tried now]) ->
  (_acquire_next_key keys tried now (fold_left (pool_step keys) ops p)).1 <> Ok k.
Proof.
  intros Q [F B]%Forall_app. apply Forall_cons_1 in B as [B _]. pose proof (quarantine_ops keys c k p ops Q F) as Q'.
  destruct (_acquire_next_key keys tried now _) as [r p'] eqn:E. cbn. intros ->.
  apply acquire_key in E as (_ & _ & Hd & Hc). destruct c as [c|]; cbn in Q', B; [|done].
  apply Hc in Q'. congruence.
Qed.

Lemma quarantine_respected_witness :
  let p := _mark_key_rate_limited (u "a") 100 (mkPool ∅ ∅ 0) in
  (_acquire_next_key [u "a"; u "b"] ∅ 109 (fold_left (pool_step [u "a"; u "b"]) [OAcquire ∅ 105; ODeactivate (u "b")] p)).1 <> Ok (u "a").
Proof.
  refine (quarantine_respected [u "a"; u "b"] (Some 110%float) (u "a") (_mark_key_rate_limited (u "a") 100 (mkPool ∅ ∅ 0))
            [OAcquire ∅ 105; ODeactivate (u "b")] ∅ 109 _ _).
  - by vm_compute.
  - repeat constructor; by vm_compute.
Defined.

Lemma attempts_for_bound keys params p :
  (Z.to_nat (attempts_for keys params p) <= Nat.max 1 (Z.to_nat (g_max_attempts params)))%nat
  /\ (Z.to_nat (attempts_for keys params p) <= Nat.max 1 (length (List.filter (fun k => negb (is_deactivated p k)) keys)))%nat.
Proof. unfold attempts_for. cbn zeta. destruct (Z.ltb_spec (Z.min (g_max_attempts params) (Z.of_nat (length (List.filter (fun k => negb (is_deactivated p k)) keys)))) 1); lia. Qed.


(** An attempt answered by [a_call], on a quiet pool. *)
Definition plain_attempt {A} (call : pystr -> attempt_outcome A) : nat -> attempt_env A :=
  fun _ => mkAttempt 0 100 true call 100 0 0.5 ([], []).

Definition hello : pyval := PList [PDict [(KStr (u "role"), PStr (u "user")); (KStr (u "content"), PStr (u "oi"))]].

Definition default_params : GroqCallParams := mkGroqCallParams 2 (NFloat 3) (NFloat 15) (NFloat 0.25) (NFloat 0.75) (NFloat 0.1).

(** A request the provider refuses as malformed (status 400) is terminal for the
    synchronous completion, but the asynchronous one sends it again with the
    other key. *)
Theorem async_retries_invalid_request (FR : FloatRepr) :
  let env := plain_attempt (A := unit) (fun _ => ARaise (APIStatusError 400)) in
  let start := (mkPool ∅ ∅ 0, []) in
  (chat_completion [u "a"; u "b"] default_params env hello start).1 = Err GroqRequestError
  /\ calls (chat_completion [u "a"; u "b"] default_params env hello start).2.2 = [u "a"]
  /\ calls (chat_completion_async [u "a"; u "b"] default_params env hello (mkTurnBudget 45 (NFloat 10)) start).2.2 = [u "a"; u "b"].
Proof. split_and!; by vm_compute. Qed.

(** With one of two keys cooling down, a call whose only attempt times out is
    reported as a failed connection: the second acquisition finds every key tried
    and hides the timeout. *)
Theorem timeout_reported_as_connection (FR : FloatRepr) :
  let env := plain_attempt (A := unit) (fun _ => ARaise SdkAsyncTimeout) in
  let start := (mkPool ∅ {[u "b" := 110%float]} 0, []) in
  let r := chat_completion_async [u "a"; u "b"] default_params env hello (mkTurnBudget 45 (NFloat 10)) start in
  r.1 = Err (GroqPoolExhaustedError PF_connection_failed) /\ calls r.2.2 = [u "a"].
Proof. split; by vm_compute. Qed.
