(* ===== verification/CompanionRuntime.v ===== *)
(** * The desktop companion runtime (backend/companion_runtime.py)

    One local turn over the store: admission, state and context load, appraisal,
    the two domain transitions, generation, public projection and the atomic
    commit, with the release of the reservation on every failure and the
    sanitised error boundary.  The prompt is assembled by the modelled
    trusted_policy.py and trusted_context.py.  The language model is the injected
    port of language_model.py, an argument here, as are the clocks and the message
    id.  At every point between two store operations of the turn, other threads
    may run any calls on the same store ([t_others]). *)

From S2P Require Import Prelude PyFloat PyValue Json PyDatetime Admission TrustedContext TrustedPolicy TurnExecution.
From S2P Require Import EmotionalModels EmotionalTransition EmotionalMigration Relationship EmotionPresentation StorageContracts LocalStorage StorageTheorems.

(** ** Exceptions *)

(** language_model.py *)
Inductive ModelFailure : Type :=
| rate_limited | auth_failed | connection_failed | server_error | invalid_request | invalid_response
| model_timeout.

Inductive LocalErrorCode : Type :=
| TIMEOUT | RATE_LIMITED | SERVICE_UNAVAILABLE | VALIDATION | REQUEST_REPLAY | REQUEST_CONFLICT
| CONFIGURATION | STORAGE | UNKNOWN.

#[export] Instance LocalErrorCode_eq_dec : EqDecision LocalErrorCode.
Proof. solve_decision. Defined.

(** What can be raised inside a turn, by class. *)
Inductive turn_exn : Type :=
| TStorage (e : storage_exn)
| TStorageCorrupt
| TLocal (code : LocalErrorCode)          (** [LocalStorageError] *)
| TConfiguration                          (** [LanguageModelConfigurationError] *)
| TExecution (code : TurnErrorCode)       (** [TurnExecutionError] *)
| TModel (failure : ModelFailure)         (** the other [LanguageModelError]s *)
| TTimeout
| TConnection
| TContext                                (** [TrustedContextError] *)
| TDomain (e : domain_error)
| TRelationship (e : relationship_error)
| TPresentation (e : presentation_exn)
| TOther                                  (** any other [Exception] *)
| TCancelled                              (** [asyncio.CancelledError] *)
| TInterrupt.                             (** [KeyboardInterrupt], [SystemExit] *)

Definition runtime_error_code (exc : turn_exn) : LocalErrorCode :=
  match exc with
  | TLocal code => code
  | TConfiguration => CONFIGURATION
  | TExecution code =>
      match code with
      | turn_timeout => TIMEOUT
      | upstream_rate_limited => RATE_LIMITED
      | _ => SERVICE_UNAVAILABLE
      end
  | TModel failure =>
      match failure with
      | rate_limited => RATE_LIMITED
      | model_timeout => TIMEOUT
      | connection_failed | server_error => SERVICE_UNAVAILABLE
      | auth_failed => CONFIGURATION
      | _ => SERVICE_UNAVAILABLE
      end
  | TStorage (ConflictError _ _ _) => REQUEST_CONFLICT
  | TStorageCorrupt => STORAGE
  | TStorage (PersistenceError _) => STORAGE
  | TStorage (ValidationError _) => VALIDATION
  | TTimeout => TIMEOUT
  | TConnection => SERVICE_UNAVAILABLE
  | TContext => SERVICE_UNAVAILABLE
  | _ => UNKNOWN
  end.

(** The public texts are constants: one per code, one per provider error class. *)
Inductive public_message : Type :=
| MessageFor (code : LocalErrorCode)
| ModelMessage (failure : ModelFailure)
| NotConfiguredMessage.

(** [sanitized_error]: the code and the text of the [LocalStorageError]. *)
Definition sanitized_error (exc : turn_exn) : LocalErrorCode * public_message :=
  match exc with
  | TLocal code => (code, MessageFor code)
  | TConfiguration => (runtime_error_code exc, NotConfiguredMessage)
  | TModel f => (runtime_error_code exc, ModelMessage f)
  | _ => (runtime_error_code exc, MessageFor (runtime_error_code exc))
  end.

(** ** Results *)

Record TurnResult : Type := mkTurnResult {
  r_success : bool;
  r_response : option pyval;
  r_emotion_state : option pyval;
  r_message_id : option (option pystr);
  r_revision : option Z;
  r_duration_ms : option Z;
  r_replayed : bool;
  r_error : option (LocalErrorCode * public_message) }.

Definition turn_failed (exc : turn_exn) : TurnResult :=
  mkTurnResult false None None None None None false (Some (sanitized_error exc)).

(** [dict(v)] of a mapping or an empty sequence; other values are refused. *)
Definition py_dict (v : pyval) : result turn_exn pyval :=
  match v with
  | PDict d | PProxy d => Ok (PDict d)
  | PList [] | PTuple [] | PStr [] => Ok (PDict [])
  | _ => Err TOther
  end.

(** ** Local memories *)

Section Memories.
Context `{PT : PyText}.

(** [float(v)]. *)
Definition py_float (v : pyval) : result context_exn float :=
  match v with
  | PFloat f => Ok f
  | PBool b => Ok (if b then 1%float else 0%float)
  | PInt z => match int_to_float z with Some f => Ok f | None => Err CtxOverflowError end
  | PStr s => match float_of_str s with Some f => Ok f | None => Err CtxValueError end
  | _ => Err CtxTypeError
  end.

(** [_LocalContextMemory(content, metadata)], with its [to_context_item]. *)
Definition LocalContextMemory_init (content : pystr) (metadata : pydict) : result context_exn memory_object :=
  let source_id := str_of (dget_or metadata (u "source_id") (PStr [])) in
  let provenance := str_of (dget_or metadata (u "provenance") (PStr (u "legacy_profile"))) in
  let epistemic_status := str_of (dget_or metadata (u "epistemic_status") (PStr (u "unknown"))) in
  let* confidence := py_float (dget_or metadata (u "confidence") (PFloat 0.3)) in
  Ok (mkMemoryObject (PInt 1) (PBool true) (PStr source_id) (PStr provenance) (PStr epistemic_status) (PFloat confidence)
        (fun source_ref => ContextItem_init (PStr (u "memory")) (PStr content) (PStr (u "legacy_memory")) (PFloat confidence)
           (PStr (u "unknown")) (PStr source_ref) (PStr []))).

(** The loop of [_load_local_memories]: only [TypeError] and [ValueError] drop a row. *)
Fixpoint project_memories (rows : list (pystr * pyval)) : result turn_exn (list memory_object) :=
  match rows with
  | [] => Ok []
  | (content, PDict metadata) :: rows' =>
      match LocalContextMemory_init content metadata with
      | Ok mem => let* mems := project_memories rows' in Ok (mem :: mems)
      | Err CtxTypeError | Err CtxValueError => project_memories rows'
      | Err _ => Err TOther
      end
  | _ :: _ => Err TOther
  end.

End Memories.

Definition role_text (r : role) : pystr := match r with RUser => u "user" | RAssistant => u "assistant" end.

(** A history row, as the store returns it. *)
Definition row_dict (r : chat_row) : pydict :=
  [(KStr (u "id"), PInt (c_id r)); (KStr (u "role"), PStr (role_text (c_role r)));
   (KStr (u "content"), PStr (c_content r)); (KStr (u "created_at"), PStr (c_created r))].

(** What an exception of the trusted context is to the turn. *)
Definition context_turn (e : context_exn) : turn_exn :=
  match e with TrustedContextError _ => TContext | _ => TOther end.

(** ** The state of the runtime and its surroundings *)

(** Calls made on the language model. *)
Inductive provider_call : Type :=
| Appraised (text : pystr)
| Generated (messages : list message).

Record runtime : Type := mkRuntime {
  rt_store : store;
  rt_model : bool;                  (** [_model is not None] *)
  rt_log : list provider_call }.

(** Everything a turn takes from outside. *)
Record surroundings : Type := mkSurroundings {
  t_factory : option (result turn_exn unit);                 (** [language_model_factory] *)
  t_appraise : pystr -> result turn_exn AppraisalV1;
  t_generate : list message -> result turn_exn pystr;
  t_clock : pyval;                  (** [self._now()] *)
  t_now_unix : float;               (** the clock [load_user_state] reads *)
  t_now_iso : pystr;                (** the clock [commit_turn] reads *)
  t_message_id : pystr;             (** [uuid4()] *)
  t_elapsed_ms : Z;
  t_others : nat -> list call }.    (** what other threads do, by point of the turn *)

Definition R (A : Type) : Type := runtime -> result turn_exn A * runtime.

Definition ret {A} (a : A) : R A := fun s => (Ok a, s).
Definition raise {A} (e : turn_exn) : R A := fun s => (Err e, s).
Definition lift {A E} (f : E -> turn_exn) (r : result E A) : R A := fun s =>
  (match r with Ok a => Ok a | Err e => Err (f e) end, s).
Definition bind {A B} (c : R A) (k : A -> R B) : R B := fun s =>
  match c s with
  | (Ok a, s') => k a s'
  | (Err e, s') => (Err e, s')
  end.

(** [try: c except BaseException: h e]. *)
Definition try_all {A} (c : R A) (h : turn_exn -> R A) : R A := fun s =>
  match c s with
  | (Ok a, s') => (Ok a, s')
  | (Err e, s') => h e s'
  end.

Declare Scope runtime_scope.
Delimit Scope runtime_scope with runtime.
Notation "'run!' x '<-' c 'in' k" := (bind c (fun x => k))
  (at level 200, x name, c at level 100, k at level 200, right associativity) : runtime_scope.
Notation "c ';>' k" := (bind c (fun _ => k)) (at level 199, right associativity) : runtime_scope.
Local Open Scope runtime_scope.

Definition with_store (rt : runtime) (s : store) : runtime := mkRuntime s (rt_model rt) (rt_log rt).

(** An operation of the store, raising what it raises. *)
Definition storage {A} (c : M A) : R A := fun rt =>
  match c (rt_store rt) with
  | (Ok a, s) => (Ok a, with_store rt s)
  | (Err e, s) => (Err (TStorage e), with_store rt s)
  end.

Definition logged (p : provider_call) : R unit := fun rt =>
  (Ok tt, mkRuntime (rt_store rt) (rt_model rt) (rt_log rt ++ [p])).

(** The exceptions [except Exception] lets through. *)
Definition is_base_only (e : turn_exn) : bool :=
  match e with TCancelled | TInterrupt => true | _ => false end.

Section Runtime.
Context `{FR : FloatRepr, SH : Sha256, LM : Libm, IF : IsoFormat, PT : PyText}.
Context (history_limit : Z) (env : surroundings).

(** The other threads run at point [n] of the turn. *)
Definition others (n : nat) : R unit := fun rt =>
  (Ok tt, with_store rt (run_calls (t_others env n) (rt_store rt))).

Definition _provider_port : R unit := fun rt =>
  if rt_model rt then (Ok tt, rt)
  else match t_factory env with
       | Some (Ok _) => (Ok tt, mkRuntime (rt_store rt) true (rt_log rt))
       | Some (Err e) => (Err e, rt)
       | None => (Err TConfiguration, rt)
       end.

Definition _load_state : R LoadedUserState := storage (load_user_state (t_now_unix env)).

(** [_load_context]: history, memories, profile and persona, validated. *)
Definition _load_context (state : LoadedUserState) : R LoadedContextData :=
  run! history_rows <- storage (load_recent_history (PInt history_limit)) in
  others 2 ;>
  run! rows <- storage (load_recent_memories (PInt 5)) in
  run! memories <- lift id (project_memories rows) in
  run! profile <- lift id (py_dict (ls_user_profile state)) in
  lift context_turn (LoadedContextData_init (map (fun r => PDict (row_dict r)) history_rows) memories profile
    (PStr (default [] (ls_persona state)))).

(** The keyword arguments of the commit. *)
Definition replay_payload (response : pystr) (public : EmotionStateResponse) : pydict :=
  [(KStr (u "response"), PStr response);
   (KStr (u "emotion_state"), PDict (model_dump public));
   (KStr (u "message_id"), PStr (t_message_id env));
   (KStr (u "duration_ms"), PInt (Z.max 0 (t_elapsed_ms env)))].

Definition commit_args (request_id : pystr) (generation : Z) (text response : pystr)
  (e : EmotionalStateV1) (r : RelationshipStateV1) (public : EmotionStateResponse) (revision : Z) : CommitArgs :=
  mkCommitArgs (PStr request_id) (PInt generation) (PStr text) (PStr response)
    (PDict (EmotionalStateV1_to_dict e)) (PDict (RelationshipStateV1_to_dict r)) (PStr response)
    (PDict (replay_payload response public)) PNone (PInt revision).

Definition _execute_reserved_turn (request_id : pystr) (generation : Z) (text : pystr) : R TurnResult :=
  run! state <- _load_state in
  run! emotional <- lift TDomain (migrate_legacy_snapshot (ls_emotional state)) in
  run! relationship <- lift TRelationship (migrate_legacy_relationship_snapshot (ls_relationship state)) in
  others 1 ;>
  run! loaded <- _load_context state in
  _provider_port ;>
  logged (Appraised text) ;>
  others 3 ;>
  run! appraisal <- lift id (t_appraise env text) in
  run! tr <- lift TDomain (transition emotional appraisal (t_clock env) default_config) in
  let new_emotional := tr_state tr in
  run! new_relationship <- lift TRelationship
    (transition_relationship relationship appraisal (t_clock env) default_rel_config) in
  let trusted_policy := build_trusted_policy new_emotional new_relationship [] in
  run! bundle <- lift context_turn (build_context_bundle trusted_policy loaded) in
  run! envelope <- lift context_turn
    (build_envelope bundle (PStr text) (PInt PROVIDER_INPUT_MAX_ESTIMATED_UNITS)) in
  logged (Generated (cr_messages envelope)) ;>
  others 4 ;>
  run! response <- lift id (t_generate env (cr_messages envelope)) in
  run! public <- lift TPresentation
    (project_public_emotion (Instance_of new_emotional) (Instance_of appraisal)) in
  run! committed <- storage (commit_turn (t_now_iso env)
    (commit_args request_id generation text response new_emotional new_relationship public
       (ls_revision state))) in
  run! emotion_state <- lift id (py_dict (ct_emotion_state committed)) in
  ret (mkTurnResult true (Some (ct_response committed)) (Some emotion_state) (Some (ct_message_id committed))
         (Some (ct_revision committed)) (Some (Z.max 0 (t_elapsed_ms env))) false None).

(** The early validation repeats the store's, with one code for a bad message. *)
Definition early_validation (request_id text : pyval) : result storage_exn (pystr * pystr) :=
  let* rid := _validate_request_id request_id in
  let* msg := rcatch (_validate_message text) (fun _ => Err (ValidationError (u "empty_message"))) in
  Ok (rid, msg).

Definition _commit_turn_inner (request_id text : pyval) : R TurnResult :=
  run! valid <- lift TStorage (early_validation request_id text) in
  run! pre <- storage (reserve_request request_id text) in
  match ro_status pre, ro_committed pre with
  | o_replay, Some committed =>
      run! emotion_state <- lift id (py_dict (ct_emotion_state committed)) in
      ret (mkTurnResult true (Some (ct_response committed)) (Some emotion_state)
             (Some (ct_message_id committed)) (Some (ct_revision committed)) None true None)
  | o_conflict, _ => raise (TStorage (ConflictError (u "request_payload_conflict") 0 None))
  | o_reserved, _ =>
      match ro_history_generation pre with
      | None => raise (TStorage (ValidationError (u "invalid_history_generation")))
      | Some generation =>
          try_all (others 0 ;> _execute_reserved_turn valid.1 generation valid.2)
            (fun e =>
               others 5 ;>
               try_all (storage (release_request request_id (PInt generation)))
                 (fun _ => ret tt) ;>
               raise e)
      end
  | _, _ => raise (TStorage (ValidationError (u "invalid_request_id")))
  end.

(** The boundary: only [KeyboardInterrupt] and [SystemExit] leave it. *)
Definition commit_turn_async (request_id text : pyval) : R TurnResult :=
  try_all (_commit_turn_inner request_id text)
    (fun exc => match exc with TInterrupt => raise TInterrupt | _ => ret (turn_failed exc) end).

(** ** Reads and privacy operations *)

Record RuntimeState : Type := mkRuntimeState {
  rs_ok : bool;
  rs_configured : bool;
  rs_revision : option Z;
  rs_error : option LocalErrorCode }.

(** [probe] is the injected probe's answer, [None] without one; an exception
    of the probe counts as [false]. *)
Definition runtime_state (probe : option (result turn_exn bool)) : R RuntimeState := fun rt =>
  let configured :=
    match probe with
    | Some (Ok b) => b
    | Some (Err _) => false
    | None => rt_model rt
    end in
  match _load_state rt with
  | (Ok st, rt') => (Ok (mkRuntimeState true configured (Some (ls_revision st)) None), rt')
  | (Err e, rt') => if is_base_only e then (Err e, rt')
                    else (Ok (mkRuntimeState false configured None (Some STORAGE)), rt')
  end.

Definition get_state : R (Z * pydict * pydict) :=
  run! state <- _load_state in
  run! emotional <- lift TDomain (migrate_legacy_snapshot (ls_emotional state)) in
  run! relationship <- lift TRelationship (migrate_legacy_relationship_snapshot (ls_relationship state)) in
  ret (ls_revision state, EmotionalStateV1_to_dict emotional, RelationshipStateV1_to_dict relationship).

(** [_privacy_op]: the payload of a privacy operation. *)
Inductive privacy_payload : Type :=
| PrivacyApplied (result : pyval)
| PrivacyFailed (code : LocalErrorCode) (text : public_message).

Definition _privacy_op (operation : M pyval) : R privacy_payload :=
  fun rt =>
    match storage operation rt with
    | (Ok v, rt') =>
        match v with
        | PDict d =>
            if py_eq (dget_or d (u "status") PNone) (PStr (u "applied"))
            then (Ok (PrivacyApplied v), rt')
            else (Ok (PrivacyFailed STORAGE (MessageFor STORAGE)), rt')
        | _ => (Ok (PrivacyFailed STORAGE (MessageFor STORAGE)), rt')
        end
    | (Err e, rt') =>
        if is_base_only e then (Err e, rt')
        else (Ok (PrivacyFailed (sanitized_error e).1 (sanitized_error e).2), rt')
    end.

End Runtime.
