(* ===== verification/RuntimeTheorems.v ===== *)
(** * Lemmas on the companion runtime

    The runtime is a client of the store: whatever a turn and the threads around
    it do, the store is reached by a sequence of its calls ([client]).  The rest
    of the file follows one turn step by step. *)

From S2P Require Import Prelude PyFloat PyValue Json PyDatetime Admission TrustedContext TrustedPolicy.
From S2P Require Import EmotionalModels EmotionalTransition EmotionalMigration Relationship EmotionPresentation StorageContracts LocalStorage StorageSpec.
From S2P Require Import StorageInvariant StorageTheorems CompanionRuntime.
Local Open Scope runtime_scope.

(** ** Steps of a run *)

Lemma bind_cases {A B} (c : R A) (k : A -> R B) rt r rt' :
  bind c k rt = (r, rt') ->
  (exists e, c rt = (Err e, rt') /\ r = Err e)
  \/ exists a rt1, c rt = (Ok a, rt1) /\ k a rt1 = (r, rt').
Proof. unfold bind. destruct (c rt) as [[a|e] rt1] eqn:E; intros H; [right|left]; naive_solver. Qed.

Lemma try_cases {A} (c : R A) h rt r rt' :
  try_all c h rt = (r, rt') ->
  (exists a, c rt = (Ok a, rt') /\ r = Ok a)
  \/ exists e rt1, c rt = (Err e, rt1) /\ h e rt1 = (r, rt').
Proof. unfold try_all. destruct (c rt) as [[a|e] rt1] eqn:E; intros H; [left|right]; naive_solver. Qed.

Lemma lift_cases {A E} (f : E -> turn_exn) (x : result E A) rt r rt' :
  lift f x rt = (r, rt') -> rt' = rt /\ r = match x with Ok a => Ok a | Err e => Err (f e) end.
Proof. unfold lift. intros [= <- <-]. done. Qed.

Lemma storage_cases {A} (c : M A) rt r rt' :
  storage c rt = (r, rt') ->
  exists x s, c (rt_store rt) = (x, s) /\ rt' = with_store rt s
    /\ r = match x with Ok a => Ok a | Err e => Err (TStorage e) end.
Proof. unfold storage. destruct (c (rt_store rt)) as [[a|e] s]; intros [= <- <-]; eauto. Qed.

(** Splits a successful run into its successful steps. *)
Ltac inv_run :=
  repeat match goal with
  | H : bind _ _ _ = (Ok _, _) |- _ =>
      let a := fresh "a" in let rt := fresh "rt" in let E := fresh "E" in
      apply bind_cases in H as [(? & _ & H)|(a & rt & E & H)]; [discriminate H|]
  | H : lift _ _ _ = (Ok _, _) |- _ =>
      let E := fresh "L" in
      apply lift_cases in H as [-> H]; case_match; [injection H as ->|discriminate H]
  | H : storage _ _ = (Ok _, _) |- _ =>
      let x := fresh "x" in let s := fresh "s" in let E := fresh "S" in
      apply storage_cases in H as ([x|x] & s & E & -> & H); [injection H as ->|discriminate H]
  | H : ret _ _ = (Ok _, _) |- _ => injection H as <- <-
  | H : raise _ _ = (Ok _, _) |- _ => discriminate H
  end.

Section Lemmas.
Context `{FR : FloatRepr, SH : Sha256, LM : Libm, IF : IsoFormat, PT : PyText}.

(** ** The store as seen from the runtime *)

Definition reaches (s s' : store) : Prop := exists l, Forall call_ok l /\ s' = run_calls l s.

Lemma reaches_refl s : reaches s s.
Proof. by exists []. Qed.

Lemma reaches_trans s1 s2 s3 : reaches s1 s2 -> reaches s2 s3 -> reaches s1 s3.
Proof.
  intros (l1 & F1 & ->) (l2 & F2 & ->). exists (l1 ++ l2). split; [by apply Forall_app|].
  unfold run_calls. by rewrite fold_left_app.
Qed.

Lemma reaches_call c s s' : call_ok c -> s' = run_call c s -> reaches s s'.
Proof. intros Hc ->. exists [c]. by repeat constructor. Qed.

Lemma reaches_wf s s' : reaches s s' -> store_wf s -> store_wf s'.
Proof. intros (l & F & ->). by apply run_calls_wf. Qed.

(** An action of the runtime acts on the store by calls only. *)
Definition client {A} (c : R A) : Prop :=
  forall rt r rt', c rt = (r, rt') -> reaches (rt_store rt) (rt_store rt').

Lemma client_bind {A B} (c : R A) (k : A -> R B) : client c -> (forall a, client (k a)) -> client (bind c k).
Proof.
  intros Hc Hk rt r rt' [(e & E & _)|(a & rt1 & E1 & E2)]%bind_cases; [by eapply Hc|].
  eapply reaches_trans; [by eapply Hc|by eapply Hk].
Qed.

Lemma client_try {A} (c : R A) h : client c -> (forall e, client (h e)) -> client (try_all c h).
Proof.
  intros Hc Hh rt r rt' [(a & E & _)|(e & rt1 & E1 & E2)]%try_cases; [by eapply Hc|].
  eapply reaches_trans; [by eapply Hc|by eapply Hh].
Qed.

Lemma client_ret {A} (a : A) : client (ret a).
Proof. intros rt r rt' [= _ <-]. apply reaches_refl. Qed.

Lemma client_raise {A} e : client (raise (A := A) e).
Proof. intros rt r rt' [= _ <-]. apply reaches_refl. Qed.

Lemma client_lift {A E} (f : E -> turn_exn) (x : result E A) : client (lift f x).
Proof. intros rt r rt' [-> _]%lift_cases. apply reaches_refl. Qed.

Lemma client_logged p : client (logged p).
Proof. intros rt r rt' [= _ <-]. apply reaches_refl. Qed.

(** A store operation that is one of the calls. *)
Lemma client_storage {A} (c : M A) (k : call) :
  call_ok k -> (forall s, run_call k s = (c s).2) -> client (storage c).
Proof.
  intros Hk Hr rt r rt' (x & s & E & -> & _)%storage_cases. cbn. apply (reaches_call k); [done|].
  by rewrite Hr, E.
Qed.

Context (limit : Z) (env : surroundings).
Context (Hothers : forall n, Forall call_ok (t_others env n)).

Lemma client_others n : client (others env n).
Proof. intros rt r rt' [= _ <-]. by exists (t_others env n). Qed.

Lemma client_provider : client (_provider_port env).
Proof.
  intros rt r rt'. unfold _provider_port. destruct (rt_model rt); [|destruct (t_factory env) as [[]|]];
    intros [= _ <-]; apply reaches_refl.
Qed.

Lemma commit_args_ok rid g text resp e r p rev : args_ok (commit_args env rid g text resp e r p rev).
Proof.
  split; cbn; intros d [= <-]; unfold dict_ok; apply (bool_decide_unpack _); done.
Qed.

Create HintDb client.
Local Hint Resolve client_ret client_raise client_lift client_logged client_others client_provider : client.

Ltac client_tac :=
  repeat lazymatch goal with
  | |- client (bind _ _) => apply client_bind; [|intros ?]
  | |- client (try_all _ _) => apply client_try; [|intros ?]
  | |- client (match _ with _ => _ end) => case_match
  | |- _ => solve [eauto with client]
  end.

Lemma client_execute rid g text : client (_execute_reserved_turn limit env rid g text).
Proof.
  unfold _execute_reserved_turn, _load_state, _load_context. client_tac.
  - by apply (client_storage _ (CLoadState (t_now_unix env))).
  - by apply (client_storage _ (CLoadHistory (PInt limit))).
  - by apply (client_storage _ (CLoadMemories (PInt 5))).
  - eapply (client_storage _ (CCommit (t_now_iso env) _)); [apply commit_args_ok|reflexivity].
Qed.

Lemma client_turn rid text : client (commit_turn_async limit env rid text).
Proof.
  unfold commit_turn_async, _commit_turn_inner. client_tac.
  - by apply (client_storage _ (CReserve rid text)).
  - apply client_execute.
  - by apply (client_storage _ (CRelease rid (PInt z))).
Qed.

(** ** The stored states *)

(** What [load_user_state] reads from a database. *)
Definition loaded_of (ts : float) (d : database) : result storage_exn LoadedUserState :=
  match profiles d with
  | None =>
      let* e := neutral_emotional_snapshot ts in
      let* r := neutral_relationship_snapshot ts in
      Ok (mkLoaded 0 None (PDict []) (PDict e) (PDict r))
  | Some p =>
      if (pr_revision p <? 0)%Z then Err (PersistenceError (u "invalid_state"))
      else Ok (mkLoaded (pr_revision p) (pr_persona p) (as_dict (json_decode (pr_user_profile p)))
             (as_dict (json_decode (pr_emotional p))) (as_dict (json_decode (pr_relationship p))))
  end.

(** The pair of states a turn starts from. *)
Definition stored_states (ts : float) (d : database) (e : EmotionalStateV1) (r : RelationshipStateV1) : Prop :=
  exists st, loaded_of ts d = Ok st /\ migrate_legacy_snapshot (ls_emotional st) = Ok e
    /\ migrate_legacy_relationship_snapshot (ls_relationship st) = Ok r.

Lemma wp_load_state ts d t cl fs :
  t = None \/ t = Some d ->
  wp (load_user_state ts) (mkStore d t cl fs) (fun r s' =>
    committed s' = d /\ (t = None -> tx s' = None) /\ closed s' = cl
    /\ (cl = false -> fs = [] -> r = loaded_of ts d /\ faults s' = [])
    /\ forall st, r = Ok st -> loaded_of ts d = Ok st).
Proof.
  intros [-> | ->]; destruct cl, fs as [|[|[]] fs]; unfold load_user_state, wp, mbind, sanitize_read, mtry,
    _connection, query, execute, next_fault, mlift; cbn [closed faults view tx committed put_view drop_tx fst snd];
    unfold loaded_of, mraise; cbn [fst snd committed tx closed faults]; try done;
    destruct (profiles d) as [p|]; cbn [fst snd]; unfold mret, mraise; cbn [fst snd];
    repeat (case_match; cbn [fst snd committed tx closed faults rbind] in * ); naive_solver.
Qed.

Lemma load_state_inv ts s st s' :
  store_wf s -> load_user_state ts s = (Ok st, s') ->
  loaded_of ts (committed s) = Ok st /\ committed s' = committed s.
Proof.
  intros [W I] E. destruct s as [d t cl fs]. unfold idle in I. cbn [committed tx] in *.
  pose proof (wp_intro _ _ _ _ _ (wp_load_state ts d t cl fs I) E) as (H1 & _ & _ & _ & H2). auto.
Qed.

Lemma loaded_revision ts d st : loaded_of ts d = Ok st -> ls_revision st = current_revision_of d.
Proof.
  unfold loaded_of, current_revision_of. destruct (profiles d); intros H; inv_ok; done.
Qed.

Lemma loaded_ext ts d d' : profiles d' = profiles d -> loaded_of ts d' = loaded_of ts d.
Proof. unfold loaded_of. by intros ->. Qed.

Lemma migrate_from_dict v s : EmotionalStateV1_from_dict v = Ok s -> migrate_legacy_snapshot v = Ok s.
Proof.
  intros H. destruct v as [| | | | | | |d| |]; try done.
  assert (dhas d (u "schema_version") = true) as [x Hx]%dhas_dget.
  { cbn [EmotionalStateV1_from_dict] in H. inv_ok. by apply negb_false_iff. }
  by rewrite (migrate_v1 d x).
Qed.

Lemma rel_migrate_from_dict v s :
  RelationshipStateV1_from_dict v = Ok s -> migrate_legacy_relationship_snapshot v = Ok s.
Proof.
  intros H. destruct v as [| | | | | | |d| |]; try done.
  assert (dhas d (u "schema_version") = true) as [x Hx]%dhas_dget.
  { cbn [RelationshipStateV1_from_dict] in H. inv_ok. by apply negb_false_iff. }
  by rewrite (rel_migrate_v1 d x).
Qed.

Lemma transition_state_wf e a t c x : transition e a t c = Ok x -> state_wf (tr_state x) = true.
Proof. unfold transition. intros H. inv_ok. by apply create_iff in E1 as [_ W]. Qed.

Lemma transition_rel_wf r a t c r' : transition_relationship r a t c = Ok r' -> rel_wf r'.
Proof. unfold transition_relationship. intros H. inv_ok. by apply rel_create_iff in H as [_ W]. Qed.

Lemma to_dict_ok e : dict_ok (EmotionalStateV1_to_dict e).
Proof. unfold dict_ok. apply (bool_decide_unpack _). done. Qed.

Lemma rel_to_dict_ok r : dict_ok (RelationshipStateV1_to_dict r).
Proof. unfold dict_ok. apply (bool_decide_unpack _). done. Qed.

(** The rendering of two valid states, once stored, is what the next turn starts from. *)
Lemma stored_back ts d p e r :
  state_wf e = true -> rel_wf r -> profiles d = Some p -> (0 <= pr_revision p)%Z ->
  json_encode true (PDict (EmotionalStateV1_to_dict e)) = Ok (pr_emotional p) ->
  json_encode true (PDict (RelationshipStateV1_to_dict r)) = Ok (pr_relationship p) ->
  stored_states ts d e r.
Proof.
  intros We Wr Hp Hn E1 E2. unfold stored_states, loaded_of. rewrite Hp, (proj2 (Z.ltb_ge _ _) Hn).
  pose proof (emotional_roundtrip true _ _ e (to_dict_ok e) (from_dict_to_dict e We) E1) as R1.
  pose proof (relationship_roundtrip true _ _ r (rel_to_dict_ok r) (rel_from_dict_to_dict r Wr) E2) as R2.
  eexists. split; [reflexivity|]. cbn [ls_emotional ls_relationship].
  destruct (dict_decode _ _ E1) as [d1 H1], (dict_decode _ _ E2) as [d2 H2]. rewrite H1, H2 in *. cbn [as_dict].
  split; [by apply migrate_from_dict|by apply rel_migrate_from_dict].
Qed.

(** ** Revisions witness every change of the profile *)

Definition profile_kept (d d' : database) : Prop :=
  (current_revision_of d <= current_revision_of d')%Z
  /\ (profiles d' = profiles d \/ (current_revision_of d < current_revision_of d')%Z).

Lemma profile_kept_trans d1 d2 d3 : profile_kept d1 d2 -> profile_kept d2 d3 -> profile_kept d1 d3.
Proof.
  intros [L1 [E1|H1]] [L2 [E2|H2]]; (split; [lia|]).
  - left. congruence.
  - right. lia.
  - right. lia.
  - right. lia.
Qed.

Lemma profile_kept_step c d d' : db_wf d -> db_step c d d' -> profile_kept d d'.
Proof.
  intros W H. pose proof (db_step_counters c d d' W H) as [_ L]. split; [done|].
  destruct H as [|r m rid _ _ N|now a i ct s' _ V P|r g rid gen _ _|now co m l z _|doc _|doc _
    |op f canonical now now' doc rdoc p' Nop Hr N D R|k n _|_]; try (by left).
  - right. apply commit_post_counters in P as [_ ->]. lia.
  - right. destruct (reset_profile_wf _ _ _ _ _ _ _ W N D R) as [_ E].
    unfold current_revision_of in *. cbn. lia.
Qed.

Lemma reaches_profile s s' : store_wf s -> reaches s s' -> profile_kept (committed s) (committed s').
Proof.
  intros W (l & F & ->). apply (run_calls_ind profile_kept); [|apply profile_kept_trans| |done|done].
  - intros d. split; [lia|by left].
  - intros c d d' _ _. apply profile_kept_step.
Qed.

Lemma reaches_generation s s' : store_wf s -> reaches s s' ->
  (history_generation_of (committed s) <= history_generation_of (committed s'))%Z.
Proof. intros W (l & F & ->). by apply run_calls_counters. Qed.

(** ** A turn step by step *)

Lemma logged_cases p rt r rt' :
  logged p rt = (r, rt') ->
  r = Ok tt /\ rt_store rt' = rt_store rt /\ rt_log rt' = rt_log rt ++ [p].
Proof. by intros [= <- <-]. Qed.

Lemma provider_log rt r rt' :
  _provider_port env rt = (r, rt') -> rt_store rt' = rt_store rt /\ rt_log rt' = rt_log rt.
Proof.
  unfold _provider_port. destruct (rt_model rt); [|destruct (t_factory env) as [[]|]]; by intros [= _ <-].
Qed.

Lemma client_context st : client (_load_context limit env st).
Proof.
  unfold _load_context. client_tac.
  - by apply (client_storage _ (CLoadHistory (PInt limit))).
  - by apply (client_storage _ (CLoadMemories (PInt 5))).
Qed.

Lemma context_log st rt r rt' : _load_context limit env st rt = (r, rt') -> rt_log rt' = rt_log rt.
Proof.
  unfold _load_context. intros H.
  repeat match goal with
  | H : bind _ _ _ = _ |- _ => apply bind_cases in H as [(? & H & _)|(? & ? & ? & H)]
  | H : storage _ _ = _ |- _ => apply storage_cases in H as (? & ? & _ & -> & _)
  | H : lift _ _ _ = _ |- _ => apply lift_cases in H as [-> _]
  | H : others _ _ _ = _ |- _ => injection H as _ <-
  | H : ret _ _ = _ |- _ => injection H as _ <-
  end; done.
Qed.

(** The messages given to the model: the envelope of the policy of the new states
    and of some loaded context. *)
Definition provider_input (text : pystr) (e : EmotionalStateV1) (r : RelationshipStateV1) (messages : list message) : Prop :=
  exists loaded bundle envelope, build_context_bundle (build_trusted_policy e r []) loaded = Ok bundle
    /\ build_envelope bundle (PStr text) (PInt PROVIDER_INPUT_MAX_ESTIMATED_UNITS) = Ok envelope
    /\ messages = cr_messages envelope.

Lemma execute_success rid g text rt res rt' :
  _execute_reserved_turn limit env rid g text rt = (Ok res, rt') ->
  exists st sL e0 r0 app tr rel msgs resp pub s1 c,
    load_user_state (t_now_unix env) (rt_store rt) = (Ok st, sL)
    /\ migrate_legacy_snapshot (ls_emotional st) = Ok e0
    /\ migrate_legacy_relationship_snapshot (ls_relationship st) = Ok r0
    /\ reaches sL s1
    /\ t_appraise env text = Ok app
    /\ transition e0 app (t_clock env) default_config = Ok tr
    /\ transition_relationship r0 app (t_clock env) default_rel_config = Ok rel
    /\ (provider_input text (tr_state tr) rel msgs /\ t_generate env msgs = Ok resp)
    /\ project_public_emotion (Instance_of (tr_state tr)) (Instance_of app) = Ok pub
    /\ commit_turn (t_now_iso env) (commit_args env rid g text resp (tr_state tr) rel pub (ls_revision st)) s1
       = (Ok c, rt_store rt')
    /\ r_success res = true /\ r_replayed res = false /\ r_error res = None
    /\ r_response res = Some (ct_response c) /\ r_revision res = Some (ct_revision c)
    /\ rt_log rt' = rt_log rt ++ [Appraised text; Generated msgs].
Proof.
  unfold _execute_reserved_turn, _load_state. intros H. inv_run.
  pose proof (client_others 1 _ _ _ E2) as C1. injection E2 as _ E2.
  pose proof (client_context _ _ _ _ E3) as C2. pose proof (context_log _ _ _ _ E3) as L2.
  pose proof (provider_log _ _ _ E4) as [C3 L3].
  pose proof (logged_cases _ _ _ _ E5) as (_ & C4 & L4).
  pose proof (client_others 3 _ _ _ E6) as C5. injection E6 as _ E6.
  pose proof (logged_cases _ _ _ _ E12) as (_ & C6 & L6).
  pose proof (client_others 4 _ _ _ E13) as C7. injection E13 as _ E13.
  exists x0, s0, a1, a7, a8, a9, a10, (cr_messages a14), a15, a17, (rt_store rt14), x.
  repeat (split; [done|]). split.
  { rewrite C4, C3 in C5. rewrite C6 in C7. cbn [with_store rt_store] in C1. eauto using reaches_trans. }
  repeat (split; [done|]). split; [split; [by exists a3, a11, a14|done]|].
  repeat (split; [done|]). cbn [with_store rt_log]. rewrite <- E13. cbn [with_store rt_log].
  rewrite L6, <- E6. cbn [with_store rt_log]. rewrite L4, L3, L2, <- E2. cbn [with_store rt_log].
  by rewrite <- app_assoc.
Qed.

(** The calls on the model a turn adds to the log, in order. *)
Definition turn_calls (text : pystr) (new : list provider_call) : Prop :=
  new = [] \/ new = [Appraised text]
  \/ exists m e r, new = [Appraised text; Generated m] /\ state_wf e = true /\ rel_wf r /\ provider_input text e r m.

(** Follows every branch of a run. *)
Ltac walk :=
  repeat match goal with
  | H : bind _ _ _ = _ |- _ => apply bind_cases in H as [(? & H & _)|(? & ? & ? & H)]
  | H : storage _ _ = _ |- _ => apply storage_cases in H as (? & ? & _ & -> & _)
  | H : lift _ _ _ = _ |- _ => apply lift_cases in H as [-> H]
  | H : others _ _ _ = _ |- _ => injection H as _ <-
  | H : ret _ _ = _ |- _ => injection H as _ <-
  | H : raise _ _ = _ |- _ => injection H as _ <-
  | H : _load_context _ _ _ _ = _ |- _ => apply context_log in H
  | H : _provider_port _ _ = _ |- _ => apply provider_log in H as [_ H]
  | H : logged _ _ = _ |- _ => apply logged_cases in H as (_ & _ & H)
  end.

Lemma execute_log rid g text rt r rt' :
  _execute_reserved_turn limit env rid g text rt = (r, rt') ->
  exists new, rt_log rt' = rt_log rt ++ new /\ turn_calls text new.
Proof.
  unfold _execute_reserved_turn, _load_state. intros H. unfold turn_calls. walk;
    cbn [with_store rt_log] in *;
    repeat match goal with H : rt_log _ = _ |- _ => rewrite H; clear H; cbn [with_store rt_log] end;
    first [ by exists []; rewrite app_nil_r; auto
          | by eexists; split; [reflexivity|]; auto
          | rewrite <- app_assoc; eexists; split; [reflexivity|]; right; right;
            repeat match goal with
            | H : Ok _ = match ?x with _ => _ end |- _ => destruct x eqn:?; [injection H as ->|discriminate H]
            end; do 3 eexists; split; [reflexivity|];
            split; [by eapply transition_state_wf|]; split; [by eapply transition_rel_wf|]; by do 3 eexists ].
Qed.

(** ** Admission *)

(** How the inner turn ends, by what the reservation answered. *)
Lemma inner_cases rid text rt r rt' :
  _commit_turn_inner limit env rid text rt = (r, rt') ->
  (exists e, early_validation rid text = Err e /\ r = Err (TStorage e) /\ rt' = rt)
  \/ exists id msg x s0, _validate_request_id rid = Ok id /\ _validate_message text = Ok msg
     /\ reserve_request rid text (rt_store rt) = (x, s0)
     /\ ((rt' = with_store rt s0 /\ (forall o, x = Ok o -> ro_status o <> o_reserved \/ ro_history_generation o = None)
           /\ forall res, r = Ok res -> exists o c es, x = Ok o /\ ro_status o = o_replay /\ ro_committed o = Some c
                /\ res = mkTurnResult true (Some (ct_response c)) (Some es) (Some (ct_message_id c))
                           (Some (ct_revision c)) None true None)
         \/ exists o g, x = Ok o /\ ro_status o = o_reserved /\ ro_history_generation o = Some g
             /\ ((exists res, r = Ok res /\
                    (others env 0 ;> _execute_reserved_turn limit env id g msg) (with_store rt s0) = (Ok res, rt'))
                 \/ exists e rt1, r = Err e /\
                    (others env 0 ;> _execute_reserved_turn limit env id g msg) (with_store rt s0) = (Err e, rt1)
                    /\ rt_log rt' = rt_log rt1
                    /\ rt_store rt' = (release_request rid (PInt g) (run_calls (t_others env 5) (rt_store rt1))).2)).
Proof.
  unfold _commit_turn_inner. intros H.
  apply bind_cases in H as [(e & H & ->)|(v & rt1 & E & H)].
  { left. apply lift_cases in H as [-> H]. destruct (early_validation rid text) as [|e'] eqn:V; [done|].
    injection H as ->. by exists e'. }
  right. apply lift_cases in E as [-> E]. destruct (early_validation rid text) as [v'|] eqn:V; [|done].
  injection E as ->. unfold early_validation in V.
  destruct (_validate_request_id rid) as [id|] eqn:Vr; [|done].
  destruct (_validate_message text) as [msg|] eqn:Vm; [|done]. cbn [rbind rcatch] in V. injection V as <-.
  cbn [fst snd] in H. apply bind_cases in H as [(e & H & ->)|(o & rt1 & E & H)].
  { apply storage_cases in H as (x & s0 & S & -> & Hx). exists id, msg, x, s0. repeat (split; [done|]).
    left. destruct x; [done|]. done. }
  apply storage_cases in E as (x & s0 & S & -> & Hx). destruct x as [o'|]; [|done]. injection Hx as ->.
  exists id, msg, (Ok o'), s0. repeat (split; [done|]).
  destruct (ro_status o') eqn:So;
    try (left; injection H as <- <-; split; [done|]; split; [|done]; intros ? [= <-]; left; congruence).
  - left. destruct (ro_committed o') as [c|] eqn:Hc; [|injection H as <- <-; split; [done|]; split; [|done];
      intros ? [= <-]; left; congruence].
    apply bind_cases in H as [(e & H & ->)|(v & rt1 & E & H)].
    + apply lift_cases in H as [-> _]. split; [done|]. split; [|done]. intros ? [= <-]. left. congruence.
    + apply lift_cases in E as [-> _]. injection H as <- <-. split; [done|].
      split; [intros ? [= <-]; left; congruence|]. intros ? [= <-]. by exists o', c, v.
  - destruct (ro_history_generation o') as [g|] eqn:Hg.
    2:{ left. injection H as <- <-. split; [done|]. split; [|done]. intros ? [= <-]. by right. }
    right. exists o', g. repeat (split; [done|]).
    apply try_cases in H as [(res & H & ->)|(e & rt1 & E & H)]; [left; by exists res|].
    right. exists e, rt1. apply bind_cases in H as [(? & H & _)|(? & rt2 & E2 & H)]; [by injection H|].
    injection E2 as _ <-. apply bind_cases in H as [(? & H & _)|(? & rt3 & E3 & H)].
    { apply try_cases in H as [(? & _ & H)|(? & ? & _ & H)]; [done|by injection H]. }
    injection H as <- <-. split; [done|]. split; [done|].
    apply try_cases in E3 as [(? & E3 & _)|(? & ? & E3 & H)].
    + apply storage_cases in E3 as (y1 & s1 & E3 & -> & _). cbn [with_store rt_log rt_store] in *. by rewrite E3.
    + injection H as <- <-. apply storage_cases in E3 as (y1 & s1 & E3 & -> & _).
      cbn [with_store rt_log rt_store] in *. by rewrite E3.
Qed.

End Lemmas.

(** ** Runs without interference *)

Section Quiet.
Context `{FR : FloatRepr, SH : Sha256, LM : Libm, IF : IsoFormat, PT : PyText}.

(** An empty fault schedule stays empty. *)
Definition nofault {A} (c : M A) : Prop := forall s, faults s = [] -> faults (c s).2 = [].

Lemma nofault_bind {A B} (c : M A) (k : A -> M B) : nofault c -> (forall a, nofault (k a)) -> nofault (mbind c k).
Proof.
  intros Hc Hk s Hs. unfold mbind. specialize (Hc s Hs). destruct (c s) as [[a|e] s1]; [by apply Hk|done].
Qed.

Lemma nofault_try {A} (c : M A) h : nofault c -> (forall e, nofault (h e)) -> nofault (mtry c h).
Proof.
  intros Hc Hh s Hs. unfold mtry. specialize (Hc s Hs). destruct (c s) as [[a|e] s1]; [done|by apply Hh].
Qed.

Lemma nofault_ret {A} (a : A) : nofault (mret a).
Proof. intros s Hs. exact Hs. Qed.
Lemma nofault_raise {A} e : nofault (mraise (A := A) e).
Proof. intros s Hs. exact Hs. Qed.
Lemma nofault_lift {A} (r : result storage_exn A) : nofault (mlift r).
Proof. intros s Hs. exact Hs. Qed.

Lemma nofault_execute {A} (f : database -> option (A * database)) : nofault (execute f).
Proof.
  intros s Hs. unfold execute, next_fault. rewrite Hs. destruct (f (view s)) as [[a d]|]; [|done].
  unfold put_view. by destruct (tx s).
Qed.

Lemma nofault_begin : nofault begin_immediate.
Proof. intros s Hs. unfold begin_immediate, next_fault. rewrite Hs. by destruct (tx s). Qed.
Lemma nofault_commit : nofault commit.
Proof. intros s Hs. unfold commit, next_fault. rewrite Hs. by destruct (tx s). Qed.
Lemma nofault_rollback : nofault rollback.
Proof. intros s Hs. unfold rollback. by destruct (tx s). Qed.
Lemma nofault_connection : nofault _connection.
Proof. intros s Hs. unfold _connection. by destruct (closed s). Qed.

Create HintDb nofault.
Local Hint Resolve nofault_ret nofault_raise nofault_lift nofault_execute nofault_begin nofault_commit
  nofault_rollback nofault_connection : nofault.

Lemma nofault_outbox rid es : nofault (insert_outbox_events rid es).
Proof. induction es; cbn [insert_outbox_events]; auto using nofault_bind with nofault. Qed.
Local Hint Resolve nofault_outbox : nofault.

Ltac nofault_tac :=
  unfold sanitize, sanitize_read, commit_guard, rollback_if_open, conflict, query;
  repeat lazymatch goal with
  | |- nofault (mbind _ _) => apply nofault_bind; [|intros ?]
  | |- nofault (mtry _ _) => apply nofault_try; [|intros ?]
  | |- nofault (match _ with _ => _ end) => case_match
  | |- nofault in_transaction => intros ? Hs; exact Hs
  | |- _ => solve [eauto with nofault]
  end.

Lemma nofault_commit_turn now a : nofault (commit_turn now a).
Proof. unfold commit_turn, commit_body. nofault_tac. Qed.

Lemma nofault_reserve r m : nofault (reserve_request r m).
Proof. unfold reserve_request. nofault_tac. Qed.

Lemma nofault_history l : nofault (load_recent_history l).
Proof. unfold load_recent_history. nofault_tac. Qed.

Lemma nofault_memories l : nofault (load_recent_memories l).
Proof. unfold load_recent_memories. nofault_tac. Qed.

Lemma nofault_state ts : nofault (load_user_state ts).
Proof. unfold load_user_state. nofault_tac. Qed.

(** The store is open, idle and holds [d]; without faults so far it has none left. *)
Definition still (d : database) (fs : list fault) (s : store) : Prop :=
  committed s = d /\ tx s = None /\ closed s = false /\ (fs = [] -> faults s = []).

Lemma still_eq d fs s : still d fs s -> s = mkStore d None false (faults s).
Proof. destruct s. by intros (<- & <- & <- & _). Qed.

Lemma still_intro {A} (c : M A) d fs s (Q : result storage_exn A -> store -> Prop) :
  still d fs s -> nofault c -> wp c (mkStore d None false (faults s)) Q ->
  (forall r s', Q r s' -> committed s' = d /\ tx s' = None /\ closed s' = false) ->
  forall r s', c s = (r, s') -> still d fs s'.
Proof.
  intros S N W H r s' Ec. assert (s' = (c s).2) as -> by by rewrite Ec. clear Ec. pose proof (still_eq _ _ _ S) as E. rewrite <- E in W. destruct (H _ _ W) as (H1 & H2 & H3).
  repeat (split; [done|]). intros F. apply N. by apply S.
Qed.

Ltac still_tac :=
  repeat first
    [ done
    | wp_step
    | progress intros
    | progress case_match
    | progress cbn [drop_tx committed tx closed faults] ].

Definition idle_post {A} (d : database) (_ : result storage_exn A) (s' : store) : Prop :=
  committed s' = d /\ tx s' = None /\ closed s' = false.

Lemma still_state ts d fs s r s' : still d fs s -> load_user_state ts s = (r, s') -> still d fs s'.
Proof.
  intros S. apply (still_intro _ d fs s (idle_post d)); [done|apply nofault_state| |done].
  unfold load_user_state. still_tac.
Qed.

Lemma still_history l d fs s r s' : still d fs s -> load_recent_history l s = (r, s') -> still d fs s'.
Proof.
  intros S. apply (still_intro _ d fs s (idle_post d)); [done|apply nofault_history| |done].
  unfold load_recent_history. still_tac.
Qed.

Lemma still_memories l d fs s r s' : still d fs s -> load_recent_memories l s = (r, s') -> still d fs s'.
Proof.
  intros S. apply (still_intro _ d fs s (idle_post d)); [done|apply nofault_memories| |done].
  unfold load_recent_memories. still_tac.
Qed.

Lemma still_commit_err now a d fs s e s' :
  still d fs s -> commit_turn now a s = (Err e, s') -> still d fs s'.
Proof.
  intros S E. pose proof (still_eq _ _ _ S) as Es. pose proof E as E'. rewrite Es in E'.
  pose proof (wp_intro _ _ _ _ _ (wp_commit_turn now a d (faults s)) E') as (H1 & H2 & H3).
  repeat (split; [done|]). intros F. pose proof (nofault_commit_turn now a s) as N. rewrite E in N.
  apply N. by apply S.
Qed.

Lemma request_id_str v s : _validate_request_id v = Ok s -> v = PStr s.
Proof.
  intros H. destruct v as [| | | |[|c l]| | | | |]; try done. unfold _validate_request_id in H.
  repeat (case_match; try done). by injection H as <-.
Qed.

Lemma message_str v s : _validate_message v = Ok s -> v = PStr s.
Proof.
  intros H. destruct v as [| | | |[|c l]| | | | |]; try done. unfold _validate_message in H.
  repeat (case_match; try done). by injection H as <-.
Qed.

Context (limit : Z) (env : surroundings).

(** A commit of the turn's own arguments on a pending reservation returns the public emotion it was given. *)
Lemma commit_public rid g text resp e r pub rev now d fs row c s' :
  turn_requests d !! rid = Some row -> t_status row = SPending ->
  commit_turn now (commit_args env rid g text resp e r pub rev) (mkStore d None false fs) = (Ok c, s') ->
  exists i, validate_commit (commit_args env rid g text resp e r pub rev) = Ok i
    /\ commit_post now i d (Ok (inr c)) s' /\ ct_emotion_state c = PDict (model_dump pub)
    /\ in_request_id i = rid.
Proof.
  intros L S E. pose proof (wp_intro _ _ _ _ _ (wp_commit_turn _ _ d fs) E) as (_ & _ & i & V & P).
  pose proof (validate_commit_inv _ _ V) as (V1 & _ & _ & _ & _ & V2 & _). cbn [commit_args ca_request_id] in V1.
  assert (in_request_id i = rid) as Hr by (apply request_id_str in V1; by injection V1).
  exists i. split; [done|]. destruct P as [(_ & row' & L' & S' & _)|P]; [rewrite Hr in L'; congruence|].
  split; [done|]. split; [|done].
  destruct P as (_ & _ & ? & ? & ? & ? & _ & _ & _ & _ & _ & _ & _ & _ & _ & ->).
  cbn [commit_args ca_replay_payload] in V2. injection V2 as <-. reflexivity.
Qed.

Context (Hquiet : forall n, t_others env n = []).

Lemma others_quiet n rt r rt' : others env n rt = (r, rt') -> rt_store rt' = rt_store rt.
Proof. unfold others. rewrite Hquiet. by intros [= _ <-]. Qed.

Lemma context_still st d fs rt r rt' :
  still d fs (rt_store rt) -> _load_context limit env st rt = (r, rt') -> still d fs (rt_store rt').
Proof.
  unfold _load_context. intros St H.
  apply bind_cases in H as [(? & H & _)|(? & ? & E1 & H)].
  { apply storage_cases in H as (? & ? & H & -> & _). cbn. by eapply still_history. }
  apply storage_cases in E1 as (? & s1 & E1 & -> & _).
  assert (still d fs s1) as St1 by (by eapply still_history).
  apply bind_cases in H as [(? & H & _)|(? & ? & E2 & H)]; [done|]. apply others_quiet in E2.
  cbn [with_store rt_store] in E2. rewrite <- E2 in St1.
  apply bind_cases in H as [(? & H & _)|(? & ? & E3 & H)].
  { apply storage_cases in H as (? & ? & H & -> & _). cbn. by eapply still_memories. }
  apply storage_cases in E3 as (? & s3 & E3 & -> & _).
  assert (still d fs s3) as St3 by (by eapply still_memories).
  do 2 (apply bind_cases in H as [(? & H & _)|(? & ? & E4 & H)]; [by apply lift_cases in H as [-> _]|];
    apply lift_cases in E4 as [-> _]). by apply lift_cases in H as [-> _].
Qed.

Lemma execute_err rid g text rt e rt' d fs row :
  still d fs (rt_store rt) -> turn_requests d !! rid = Some row -> t_status row = SPending ->
  _execute_reserved_turn limit env rid g text rt = (Err e, rt') -> still d fs (rt_store rt').
Proof.
  intros St L P H. unfold _execute_reserved_turn, _load_state in H.
  repeat match goal with
  | H : bind (others _ _) _ _ = _ |- _ =>
      let E := fresh "E" in apply bind_cases in H as [(? & H & _)|(? & ? & E & H)];
      [done|apply others_quiet in E; cbn [with_store rt_store] in E; rewrite <- E in St; clear E]
  | H : bind (logged _) _ _ = _ |- _ =>
      let E := fresh "E" in apply bind_cases in H as [(? & H & _)|(? & ? & E & H)];
      [done|apply logged_cases in E as (_ & E & _); rewrite <- E in St; clear E]
  | H : bind (_provider_port _) _ _ = _ |- _ =>
      let E := fresh "E" in apply bind_cases in H as [(? & E & _)|(? & ? & E & H)];
      apply provider_log in E as [E _]; rewrite <- E in St; clear E; [done|]
  | H : bind (_load_context _ _ _) _ _ = _ |- _ =>
      let E := fresh "E" in apply bind_cases in H as [(? & E & _)|(? & ? & E & H)];
      apply (context_still _ d fs _ _ _ St) in E; clear St; rename E into St; [done|]
  | H : bind (lift _ _) _ _ = _ |- _ =>
      let E := fresh "E" in apply bind_cases in H as [(? & E & _)|(? & ? & E & H)];
      apply lift_cases in E as [-> E]; [done|]
  | H : bind (storage (load_user_state _)) _ _ = _ |- _ =>
      let E := fresh "E" in let s := fresh "s" in
      apply bind_cases in H as [(? & E & _)|(? & ? & E & H)];
      apply storage_cases in E as (? & s & E & -> & _);
      apply (still_state _ d fs _ _ _ St) in E; clear St; rename E into St; [done|]
  end.
  apply bind_cases in H as [(? & Hc & _)|(? & ? & Hc & H)].
  - apply storage_cases in Hc as ([c|e'] & sc & Hc & -> & X); [done|]. by eapply still_commit_err.
  - exfalso. apply storage_cases in Hc as ([c|e'] & sc & Hc & -> & X); [|done]. injection X as ->.
    rewrite (still_eq _ _ _ St) in Hc.
    apply (commit_public _ _ _ _ _ _ _ _ _ _ _ row) in Hc as (i & _ & _ & Hc & _); [|done|done].
    apply bind_cases in H as [(? & E' & _)|(? & ? & E' & H)]; [|done]. apply lift_cases in E' as [_ E'].
    by rewrite Hc in E'.
Qed.

End Quiet.
