(* ===== verification/RuntimeProperties.v ===== *)
(** * Properties of the companion runtime

    What a turn guarantees to the user of the desktop application, with other
    threads working on the same store, with SQLite faults, with a language model
    that fails in any way, and when everything goes well. *)

From S2P Require Import Prelude PyFloat PyValue Json Utf8 PyDatetime Admission JsonCost TrustedContext EnvelopeTheorems.
From S2P Require Import EnvelopeProperties EmotionalModels EmotionalTransition EmotionalMigration Relationship TrustedPolicy EmotionPresentation StorageContracts LocalStorage StorageSpec.
From S2P Require Import StorageInvariant StorageTheorems StorageProperties CompanionRuntime RuntimeTheorems.

Section Lemmas.
Context `{FR : FloatRepr, SH : Sha256, LM : Libm, IF : IsoFormat, PT : PyText}.
Context (limit : Z) (env : surroundings).

Lemma async_cases rid text rt r rt' :
  commit_turn_async limit env rid text rt = (r, rt') ->
  exists x, _commit_turn_inner limit env rid text rt = (x, rt')
    /\ r = match x with Ok res => Ok res | Err TInterrupt => Err TInterrupt | Err e => Ok (turn_failed e) end.
Proof.
  intros [(res & H & ->)|(e & rt1 & H & H')]%try_cases; [by exists (Ok res)|].
  exists (Err e). destruct e; injection H' as <- <-; done.
Qed.

(** A successful turn that is no replay went through its own execution. *)
Lemma success_execution rid text rt res rt' :
  commit_turn_async limit env rid text rt = (Ok res, rt') -> r_success res = true -> r_replayed res = false ->
  exists id msg o g s0, _validate_request_id rid = Ok id /\ _validate_message text = Ok msg
    /\ reserve_request rid text (rt_store rt) = (Ok o, s0) /\ ro_status o = o_reserved
    /\ ro_history_generation o = Some g
    /\ _execute_reserved_turn limit env id g msg (with_store rt (run_calls (t_others env 0) s0)) = (Ok res, rt').
Proof.
  intros H S P. apply async_cases in H as (x & H & Hx).
  destruct x as [res'|e]; [injection Hx as <-|destruct e; by simplify_eq].
  apply inner_cases in H as [(e & _ & H & _)|(id & msg & x & s0 & V1 & V2 & E & [(_ & _ & H)|(o & g & -> & H1 & H2 & H)])];
    [done|destruct (H res eq_refl) as (? & ? & ? & _ & _ & _ & ->); done|].
  destruct H as [(res' & [= <-] & H)|(e & rt1 & H & _)]; [|done].
  exists id, msg, o, g, s0. repeat (split; [done|]). exact H.
Qed.

Lemma reserve_generation rid text id s o s0 g :
  store_wf s -> _validate_request_id rid = Ok id -> reserve_request rid text s = (Ok o, s0) ->
  ro_status o = o_reserved -> ro_history_generation o = Some g ->
  turn_requests (committed s) !! id = None /\ g = history_generation_of (committed s)
  /\ profiles (committed s0) = profiles (committed s).
Proof.
  intros W V E S G. destruct s as [d t cl fs]. pose proof W as [Wd I]. unfold idle in I. cbn [committed tx] in *.
  destruct (reserve_cases _ rid text id _ s0 W V E) as [[_ H]|(o' & [= <-] & _ & N & ->)].
  { destruct (H o eq_refl) as [H'|[H' _]]; congruence. }
  split; [done|]. split; [|done].
  destruct (_validate_message text) as [um|e] eqn:Vm; [|unfold reserve_request, mbind, mlift in E; by rewrite V, Vm in E].
  destruct I as [-> | ->].
  - destruct cl; [unfold reserve_request, mbind, mlift in E; by rewrite V, Vm in E|].
    pose proof (wp_intro _ _ _ _ _ (wp_reserve_request rid text id um d fs V Vm) E) as (_ & _ & P).
    rewrite S in P. destruct P as (_ & P & _). congruence.
  - exfalso. assert (wp (reserve_request rid text) (mkStore d (Some d) cl fs) (fun r _ => is_ok r = false)) as K.
    { unfold reserve_request. apply wp_bind, wp_lift. rewrite V. apply wp_bind, wp_lift. rewrite Vm.
      apply wp_bind. apply wp_connection; [done|]. intros _. apply wp_sanitize, wp_bind. by apply wp_begin_open. }
    by pose proof (wp_intro _ _ _ _ _ K E).
Qed.

(** Deleting the reservation just made restores the database. *)
Lemma release_undoes d rid :
  db_wf d -> turn_requests d !! rid = None ->
  delete_turns (release_keep rid (history_generation_of d))
    (with_turns d (<[rid := reserved_row (history_generation_of d)]> (turn_requests d)) (outbox_events d)) = d.
Proof.
  intros W N. unfold delete_turns. cbn [turn_requests with_turns outbox_events].
  assert (filter (fun kv : pystr * turn_row => release_keep rid (history_generation_of d) kv.1 kv.2 = true)
    (<[rid := reserved_row (history_generation_of d)]> (turn_requests d)) = turn_requests d) as ->.
  { apply map_eq. intros k. destruct (decide (k = rid)) as [-> |Hk].
    - rewrite N. apply map_lookup_filter_None. right. intros row. rewrite lookup_insert_eq. intros [= <-].
      unfold release_keep. cbn. by rewrite !(proj2 (str_eqb_eq _ _) eq_refl).
    - destruct (turn_requests d !! k) as [row|] eqn:L.
      + apply map_lookup_filter_Some. rewrite lookup_insert_ne by done. split; [done|]. cbn.
        unfold release_keep. by rewrite (proj2 (str_eqb_neq _ _) Hk).
      + apply map_lookup_filter_None. left. by rewrite lookup_insert_ne. }
  assert (List.filter (fun o => match turn_requests d !! o_turn o with Some _ => true | None => false end)
    (outbox_events d) = outbox_events d) as ->; [|by destruct d].
  pose proof (wf_outbox d W) as F. induction F as [|o l [x Hx] F IH]; [done|]. cbn. by rewrite Hx, IH.
Qed.

Lemma nonneg_same z code v : validate_nonneg (PInt z) code = Ok v -> v = z.
Proof. cbn. by destruct (z <? 0)%Z; intros [= <-]. Qed.

Lemma commit_args_fields id g msg resp e r pub rev i :
  validate_commit (commit_args env id g msg resp e r pub rev) = Ok i ->
  in_generation i = g /\ in_expected i = Some rev /\ in_user_message i = msg
  /\ in_assistant_message i = resp /\ in_response i = resp
  /\ in_emotional i = EmotionalStateV1_to_dict e /\ in_relationship i = RelationshipStateV1_to_dict r
  /\ in_outbox i = [].
Proof.
  intros V. pose proof (validate_commit_inv _ _ V) as (_ & I1 & _ & I2 & _).
  injection I1 as I1. injection I2 as I2. unfold validate_commit in V.
  cbn [commit_args ca_request_id ca_history_generation ca_user_message ca_assistant_message ca_public_response
    ca_outbox_events ca_expected_revision ca_replay_payload ca_emotional_state ca_relationship_state] in V.
  inv_ok. cbn [in_generation in_expected in_user_message in_assistant_message in_response in_emotional
    in_relationship in_outbox] in *.
  repeat match goal with
  | H : validate_nonneg (PInt _) _ = Ok _ |- _ => apply nonneg_same in H as ->
  | H : _validate_message (PStr _) = Ok _ |- _ => apply message_str in H; injection H as <-
  | H : validate_outbox_events PNone = Ok _ |- _ => injection H as <-
  end.
  destruct resp as [|c t]; [done|]. by inv_ok.
Qed.

(** What the commit of a turn does when it writes. *)
Lemma turn_commit_effect now id g msg resp e r pub rev s c s' :
  store_wf s -> state_wf e = true -> rel_wf r ->
  commit_turn now (commit_args env id g msg resp e r pub rev) s = (Ok c, s') ->
  committed s' = committed s
  \/ (history_generation_of (committed s) = g /\ current_revision_of (committed s) = rev
      /\ chat_logs (committed s') = chat_logs (committed s) ++
           [mkChat (ct_user_message_id c) RUser msg now; mkChat (ct_assistant_message_id c) RAssistant resp now]
      /\ ct_response c = PStr resp /\ ct_revision c = (rev + 1)%Z
      /\ current_revision_of (committed s') = (rev + 1)%Z
      /\ forall ts, stored_states ts (committed s') e r).
Proof.
  intros W We Wr E. destruct (commit_cases _ _ _ _ _ W E) as [C|(i & c' & V & [= <-] & P)]; [by left|]. right.
  pose proof (commit_post_counters _ _ _ _ _ P) as [_ Rev].
  destruct (commit_args_fields _ _ _ _ _ _ _ _ _ V) as (F1 & F2 & F3 & F4 & F5 & F6 & F7 & F8).
  pose proof (validate_commit_inv _ _ V) as (_ & _ & _ & _ & _ & _ & Hresp & _).
  pose proof (wf_revision _ (proj1 W)) as Hn.
  destruct P as (_ & _ & old & ej & rj & pj & _ & _ & _ & G & X & J1 & J2 & _ & O & Ec).
  rewrite F2 in X. destruct X as [X|X]; [done|]. injection X as ->. rewrite F6 in J1. rewrite F7 in J2.
  apply json_dumps_encode in J1, J2. rewrite F8 in O.
  assert (committed s' = turn_effect now i ej rj pj old (committed s)) as Hd by (by inversion O).
  rewrite Hd in Rev |- *. split; [congruence|]. split; [done|].
  split; [by rewrite Ec, <- F3, <- F4|].
  split; [rewrite Ec; cbn [committed_of ct_response]; unfold dget_or; by rewrite Hresp, F5|].
  split; [by rewrite Ec|]. split; [done|]. intros ts.
  unfold turn_effect. destruct (profiles (committed s)) as [p|] eqn:Hp;
    (eapply stored_back; [done|done|reflexivity| |exact J1|exact J2]); cbn [pr_revision]; lia.
Qed.

(** A release on an idle store: the reservation goes, or nothing changes. *)
Lemma release_idle rid id g d fs s :
  _validate_request_id rid = Ok id -> (0 <= g)%Z -> still d fs s ->
  let d' := committed (release_request rid (PInt g) s).2 in
  (d' = delete_turns (release_keep id g) d \/ d' = d)
  /\ (fs = [] -> d' = delete_turns (release_keep id g) d).
Proof.
  intros V Hg S d'. assert (validate_nonneg (PInt g) (u "invalid_history_generation") = Ok g) as Vg
    by (cbn; by rewrite (proj2 (Z.ltb_ge _ _) Hg)).
  destruct s as [d0 t cl fs0], S as (Sc & St & Scl & Sf). cbn in Sc, St, Scl, Sf. subst d0 t cl. unfold d'. split.
  - destruct (release_request rid (PInt g) (mkStore d None false fs0)) as [r s'] eqn:E.
    pose proof (wp_intro _ _ _ _ _ (wp_release_request rid (PInt g) id g d fs0 V Vg) E) as (_ & _ & P).
    cbn [snd]. destruct r; [by left|right; by destruct P].
  - intros Hf. rewrite (Sf Hf).
    unfold release_request, mbind, mlift, sanitize, mtry. rewrite V, Vg. reflexivity.
Qed.

Lemma reserve_still rid text id d fs o s0 g :
  _validate_request_id rid = Ok id -> reserve_request rid text (mkStore d None false fs) = (Ok o, s0) ->
  ro_status o = o_reserved -> ro_history_generation o = Some g ->
  still (with_turns d (<[id := reserved_row (history_generation_of d)]> (turn_requests d)) (outbox_events d)) fs s0
  /\ turn_requests d !! id = None /\ g = history_generation_of d.
Proof.
  intros V E S G. destruct (_validate_message text) as [um|e] eqn:Vm;
    [|unfold reserve_request, mbind, mlift in E; by rewrite V, Vm in E].
  pose proof (wp_intro _ _ _ _ _ (wp_reserve_request rid text id um d fs V Vm) E) as (P1 & P2 & P).
  rewrite S in P. destruct P as (P3 & P4 & _ & P5). split; [|split; [done|congruence]].
  repeat (split; [done|]). intros ->. pose proof (nofault_reserve rid text (mkStore d None false []) eq_refl) as N.
  by rewrite E in N.
Qed.

(** When the reservation is not granted nothing is written. *)
Lemma reserve_refused rid text id d fs x s0 :
  _validate_request_id rid = Ok id -> reserve_request rid text (mkStore d None false fs) = (x, s0) ->
  (forall o, x = Ok o -> ro_status o <> o_reserved \/ ro_history_generation o = None) -> committed s0 = d.
Proof.
  intros V E H. destruct (_validate_message text) as [um|e] eqn:Vm.
  2:{ unfold reserve_request, mbind, mlift in E. rewrite V, Vm in E. by injection E as _ <-. }
  pose proof (wp_intro _ _ _ _ _ (wp_reserve_request rid text id um d fs V Vm) E) as (_ & _ & P).
  destruct x as [o|]; [|done]. destruct (H o eq_refl) as [H'|H']; destruct (ro_status o) eqn:So;
    try done; try (by destruct P). destruct P as (_ & P & _). congruence.
Qed.

Lemma generation_nonneg d : (0 <= history_generation_of d)%Z.
Proof. unfold history_generation_of. lia. Qed.

(** *** Runs that go well *)

Lemma commit_dumps a i :
  validate_commit a = Ok i ->
  (exists j, _json_dumps (PDict (in_emotional i)) = Ok j) /\ (exists j, _json_dumps (PDict (in_relationship i)) = Ok j)
  /\ exists j, _json_dumps (PDict (in_replay i)) = Ok j.
Proof.
  assert (forall v n, bounded_json v n -> exists j, _json_dumps v = Ok j) as K.
  { intros v n (doc & m & E & _). exists doc. apply json_dumps_encode. by apply json_encode_nan. }
  unfold validate_commit. intros H. inv_ok. cbn [in_emotional in_relationship in_replay].
  apply replay_payload_ok in E4 as (P1 & _ & _ & _ & B1). apply emotional_snapshot_ok in E5 as (P2 & _ & B2 & _).
  apply relationship_snapshot_ok in E6 as (P3 & _ & B3 & _). rewrite P1 in B1. rewrite P2 in B2. rewrite P3 in B3.
  split; [by eapply K|split; by eapply K].
Qed.

(** With its reservation in place and no fault, a validated commit on the current revision goes through. *)
Lemma commit_goes_through now a i d row :
  validate_commit a = Ok i -> in_outbox i = [] ->
  turn_requests d !! in_request_id i = Some row -> t_status row = SPending ->
  t_hash row = _reservation_marker (in_generation i) -> history_generation_of d = in_generation i ->
  in_expected i = Some (current_revision_of d) -> (0 <= current_revision_of d)%Z ->
  exists c s', commit_turn now a (mkStore d None false []) = (Ok c, s').
Proof.
  intros V O L S Hm Hg X Hn. destruct (commit_dumps a i V) as ((ej & J1) & (rj & J2) & pj & J3).
  unfold commit_turn, mbind, mlift. rewrite V.
  cbn [_connection closed]. unfold query, execute, next_fault. cbn [faults view tx committed put_view].
  rewrite L, S. unfold commit_guard, mtry, commit_body, mbind, begin_immediate, next_fault, query, execute.
  cbn [faults view tx committed closed put_view next_fault]. rewrite L, S.
  rewrite bool_decide_eq_false_2 by done. rewrite bool_decide_eq_true_2 by done.
  rewrite Hg, Z.eqb_refl, Hm, (proj2 (str_eqb_eq _ _) eq_refl). cbn [negb orb].
  unfold next_fault. cbn [faults view tx committed closed put_view]. fold (current_revision_of d).
  rewrite X, Z.eqb_refl. cbn [negb]. unfold next_fault, mlift, insert_chat.
  cbn [faults view tx committed closed put_view]. unfold next_fault. cbn [faults view tx committed closed put_view].
  rewrite J1, J2. unfold upsert_profile, next_fault. cbn [faults view tx committed closed put_view].
  rewrite (proj2 (Z.ltb_ge _ _)) by lia. cbn [faults view tx committed closed put_view]. rewrite J3.
  unfold upsert_turn, next_fault. cbn [faults view tx committed closed put_view].
  cbn [t_user_msg t_assistant_msg chat_exists chat_logs with_profile with_chat turn_requests chat_seq].
  rewrite !existsb_app. cbn [existsb c_id]. rewrite !Z.eqb_refl, !orb_true_r. cbn [andb orb]. rewrite O.
  cbn [insert_outbox_events faults view tx committed closed put_view]. unfold mret, commit, next_fault.
  cbn [faults view tx committed closed put_view]. by do 2 eexists.
Qed.

Lemma bind_ok {A B} (c : R A) (k : A -> R B) rt a rt1 : c rt = (Ok a, rt1) -> bind c k rt = k a rt1.
Proof. unfold bind. by intros ->. Qed.

Lemma storage_ok {A} (c : M A) rt a s : c (rt_store rt) = (Ok a, s) -> storage c rt = (Ok a, with_store rt s).
Proof. unfold storage. by intros ->. Qed.

Lemma lift_ok {A E} (f : E -> turn_exn) (r : result E A) a rt : r = Ok a -> lift f r rt = (Ok a, rt).
Proof. by intros ->. Qed.

(** Reads depend on the tables they read, and change nothing on a store without faults. *)
Lemma history_ext l d d' rows :
  chat_logs d' = chat_logs d -> (load_recent_history l (mkStore d None false [])).1 = Ok rows ->
  load_recent_history l (mkStore d' None false []) = (Ok rows, mkStore d' None false []).
Proof.
  intros Hc. unfold load_recent_history, mbind, mlift, sanitize_read, mtry, _connection, query, execute, next_fault.
  destruct (validate_limit l) as [n|]; [|done]. cbn [closed faults view tx committed put_view]. rewrite Hc.
  destruct (existsb _ _); [done|]. by intros [= ->].
Qed.

Lemma memories_ext l d d' rows :
  memories d' = memories d -> (load_recent_memories l (mkStore d None false [])).1 = Ok rows ->
  load_recent_memories l (mkStore d' None false []) = (Ok rows, mkStore d' None false []).
Proof.
  intros Hc. unfold load_recent_memories, mbind, mlift, sanitize_read, mtry, _connection, query, execute, next_fault.
  destruct (validate_limit l) as [n|]; [|done]. cbn [closed faults view tx committed put_view]. rewrite Hc.
  destruct (existsb _ _); [done|]. by intros [= ->].
Qed.

Lemma load_state_ok ts d st :
  loaded_of ts d = Ok st -> load_user_state ts (mkStore d None false []) = (Ok st, mkStore d None false []).
Proof.
  intros H. pose proof (wp_load_state ts d None false [] (or_introl eq_refl)) as W.
  unfold wp in W. destruct (load_user_state ts _) as [r s'] eqn:E. cbn [fst snd] in W.
  destruct W as (W1 & W2 & W3 & W4 & _). destruct (W4 eq_refl eq_refl) as [-> W5]. specialize (W2 eq_refl).
  destruct s' as [c1 t1 cl1 f1]. cbn in *. subst. by rewrite H.
Qed.

(** The context the turn loads from what it read. *)
Definition loads (st : LoadedUserState) (rows : list chat_row) (mrows : list (pystr * pyval))
  : result turn_exn LoadedContextData :=
  let* mems := project_memories mrows in
  let* profile := py_dict (ls_user_profile st) in
  match LoadedContextData_init (map (fun r => PDict (row_dict r)) rows) mems profile (PStr (default [] (ls_persona st))) with
  | Ok loaded => Ok loaded
  | Err e => Err (context_turn e)
  end.

Lemma message_not_empty v s : _validate_message v = Ok s -> s <> [].
Proof. intros H E. pose proof (message_str _ _ H) as Hs. by rewrite Hs, E in H. Qed.

Lemma project_lawful mrows mems : project_memories mrows = Ok mems -> Forall lawful_memory mems.
Proof.
  revert mems. induction mrows as [|[content md] mrows IH]; intros mems H; cbn [project_memories] in H; [by inv_ok|].
  destruct md as [| | | | | | |md| |]; try done. destruct (LocalContextMemory_init content md) as [mem|e] eqn:L.
  - inv_ok. constructor; [|by apply IH]. unfold LocalContextMemory_init in L.
    destruct (py_float _); [|done]. cbn [rbind] in L. apply Ok_inj in L as <-.
    intros ref item K. cbn [mem_to_context_item] in K. apply ContextItem_init_ok in K as (K & _ & S & _ & A). split_and!; [by injection S|by injection K|done].
  - destruct e; try done; by apply IH.
Qed.

Lemma validate_memory_same m m' : validate_memory m = Ok m' -> m' = m.
Proof.
  unfold validate_memory, refuse. intros H. destruct (mem_metadata_version m) as [| |[|[]|]| | | | | | |]; try done.
  destruct (mem_approved m) as [|[]| | | | | | | |]; try done. destruct (mem_source_id m) as [| | | |[|]| | | | |]; try done.
  by inv_ok.
Qed.

Lemma loads_lawful st rows mrows loaded : loads st rows mrows = Ok loaded -> Forall lawful_memory (lc_memories loaded).
Proof.
  unfold loads. intros H. inv_ok. apply project_lawful in E. rename v into mems, v0 into profile.
  destruct (LoadedContextData_init _ mems profile _) as [x|] eqn:L; [|done]. injection H as <-.
  unfold LoadedContextData_init in L. inv_ok. destruct profile; try done. inv_ok. cbn [lc_memories].
  apply rmap_ok_Forall2 in E2. clear -E2 E. induction E2 as [|m m' l l' Hm _ IH]; [constructor|].
  apply Forall_cons in E as [Em E]. constructor; [|by apply IH]. by rewrite (validate_memory_same _ _ Hm).
Qed.

(** A message of moderate size always gets its envelope. *)
Lemma envelope_answers st rows mrows loaded e r bundle msg k :
  loads st rows mrows = Ok loaded -> state_wf e = true -> rel_wf r ->
  build_context_bundle (build_trusted_policy e r []) loaded = Ok bundle -> texts_encode bundle ->
  msg <> [] -> esc_len msg = Some k -> (Z.of_nat k <= 13143)%Z ->
  exists envelope, build_envelope bundle (PStr msg) (PInt PROVIDER_INPUT_MAX_ESTIMATED_UNITS) = Ok envelope.
Proof.
  intros L We Wr B T Hne Hk Small. apply loads_lawful in L.
  destruct (build_context_bundle_ok _ _ _ B L) as (Hp & Hpol & _).
  destruct (policy_mandatory e r msg k We Wr Hk) as (n & Hn & Es & Eu & Bound). rewrite <- Hp in Hpol, Es, Hn.
  destruct (envelope_selects bundle msg PROVIDER_INPUT_MAX_ESTIMATED_UNITS (built_bundle_ok _ _ _ B L T) Hpol Hne Es Eu)
    as (env' & ? & ? & ? & ? & E & _); [|by exists env'].
  intros n' E. rewrite estimate_encodes in E; [|done|by repeat constructor]. injection E as <-.
  match goal with |- (Z.of_nat ?m <= _)%Z => replace m with n by (symmetry; exact Hn) end. unfold PROVIDER_INPUT_MAX_ESTIMATED_UNITS. lia.
Qed.

(** The execution of an admitted turn in which every step answers. *)
Lemma execute_goes_through id msg rt st e0 r0 rows mrows loaded app tr rel bundle envelope resp pub d row :
  (forall n, t_others env n = []) -> rt_store rt = mkStore d None false [] -> rt_model rt = true ->
  turn_requests d !! id = Some row -> t_status row = SPending ->
  t_hash row = _reservation_marker (history_generation_of d) -> (0 <= current_revision_of d)%Z ->
  loaded_of (t_now_unix env) d = Ok st ->
  migrate_legacy_snapshot (ls_emotional st) = Ok e0 ->
  migrate_legacy_relationship_snapshot (ls_relationship st) = Ok r0 ->
  (load_recent_history (PInt limit) (mkStore d None false [])).1 = Ok rows ->
  (load_recent_memories (PInt 5) (mkStore d None false [])).1 = Ok mrows ->
  loads st rows mrows = Ok loaded -> t_appraise env msg = Ok app ->
  transition e0 app (t_clock env) default_config = Ok tr ->
  transition_relationship r0 app (t_clock env) default_rel_config = Ok rel ->
  build_context_bundle (build_trusted_policy (tr_state tr) rel []) loaded = Ok bundle ->
  build_envelope bundle (PStr msg) (PInt PROVIDER_INPUT_MAX_ESTIMATED_UNITS) = Ok envelope ->
  t_generate env (cr_messages envelope) = Ok resp ->
  project_public_emotion (Instance_of (tr_state tr)) (Instance_of app) = Ok pub ->
  is_ok (validate_commit (commit_args env id (history_generation_of d) msg resp (tr_state tr) rel pub
    (current_revision_of d))) = true ->
  exists res rt', _execute_reserved_turn limit env id (history_generation_of d) msg rt = (Ok res, rt')
    /\ r_success res = true /\ r_replayed res = false /\ r_revision res = Some (current_revision_of d + 1)%Z.
Proof.
  intros Hq Hs Hm L Sp Hh Hn Hl M1 M2 Hr1 Hr2 Hmem Ha Ht Hr Hb He Hg Hp Hv.
  destruct (validate_commit _) as [i|] eqn:V; [|done].
  destruct (commit_args_fields _ _ _ _ _ _ _ _ _ V) as (F1 & F2 & _ & _ & _ & _ & _ & F8).
  assert (in_request_id i = id) as Hid.
  { pose proof (validate_commit_inv _ _ V) as [V1 _]. apply request_id_str in V1. by injection V1. }
  assert (exists c s', commit_turn (t_now_iso env) (commit_args env id (history_generation_of d) msg resp (tr_state tr)
    rel pub (current_revision_of d)) (mkStore d None false []) = (Ok c, s')) as (c & s' & Hc).
  { eapply commit_goes_through; rewrite ?Hid, ?F1; try done. }
  pose proof Hc as Hc'. apply (commit_public _ _ _ _ _ _ _ _ _ _ _ _ row) in Hc' as (i' & V' & P & Pe & _); [|done|done].
  destruct rt as [s0 mdl lg]. cbn in Hs, Hm. subst s0 mdl. unfold _execute_reserved_turn, _load_state.
  erewrite bind_ok by (apply storage_ok, load_state_ok, Hl). cbn [with_store rt_model rt_log rt_store].
  erewrite bind_ok by (apply lift_ok, M1). erewrite bind_ok by (apply lift_ok, M2).
  unfold others. rewrite !Hq. erewrite bind_ok by reflexivity. cbn [run_calls fold_left with_store rt_store rt_model rt_log].
  assert (_load_context limit env st (mkRuntime (mkStore d None false []) true lg) =
    (Ok loaded, mkRuntime (mkStore d None false []) true lg)) as Hctx.
  { unfold _load_context, others. rewrite Hq.
    erewrite bind_ok by (apply storage_ok, (history_ext _ d); [done|exact Hr1]).
    erewrite bind_ok by reflexivity. erewrite bind_ok by (apply storage_ok, (memories_ext _ d); [done|exact Hr2]).
    unfold loads in Hmem. destruct (project_memories mrows) as [mems|] eqn:Pm; [|done].
    destruct (py_dict (ls_user_profile st)) as [prof|] eqn:Pp; [|done]. cbn [rbind] in Hmem.
    do 2 erewrite bind_ok by (by apply lift_ok).
    unfold lift. destruct (LoadedContextData_init _ _ _ _); [|done]. by injection Hmem as ->. }
  erewrite bind_ok by exact Hctx. erewrite bind_ok by reflexivity. erewrite bind_ok by reflexivity.
  erewrite bind_ok by reflexivity. erewrite bind_ok by (apply lift_ok, Ha).
  erewrite bind_ok by (apply lift_ok, Ht). erewrite bind_ok by (apply lift_ok, Hr).
  cbv zeta. erewrite bind_ok by (apply lift_ok, Hb). erewrite bind_ok by (apply lift_ok, He). erewrite bind_ok by reflexivity. erewrite bind_ok by reflexivity.
  erewrite bind_ok by (apply lift_ok, Hg). erewrite bind_ok by (apply lift_ok, Hp).
  erewrite bind_ok by (apply storage_ok; rewrite (loaded_revision _ _ _ Hl); exact Hc).
  rewrite Pe. erewrite bind_ok by reflexivity. do 2 eexists. split; [reflexivity|].
  split; [done|]. split; [done|]. destruct P as (_ & _ & ? & ? & ? & ? & _ & _ & _ & _ & _ & _ & _ & _ & _ & ->). done.
Qed.

End Lemmas.

(** ** Properties *)


(** *** A concrete turn, for the witnesses *)

#[local] Instance plain_text : PyText.
Proof. by refine {| str_of := fun v => match v with PStr s => s | _ => [] end; float_of_str := fun _ => None; int_of_str := fun _ => None |}. Defined.

Definition sample_env (clock : float) (others : nat -> list call) : surroundings :=
  mkSurroundings (Some (Ok tt)) (fun _ => Ok sample_appraisal) (fun _ => Ok (u "hello"))
    (PFloat clock) 1000%float (u "t0") (u "m-1") 12
    others.

(** While the model answers, another thread stores a memory and asks for the same request. *)
Definition busy (n : nat) : list call :=
  if (n =? 4)%nat then [CStoreMemory (u "t") (PStr (u "note")) (PDict []);
                        CReserve (PStr (u "req-1")) (PStr (u "hi"))] else [].

Definition fresh_runtime : runtime := mkRuntime (fresh_store []) false [].

Definition sample_turn (clock : float) (others : nat -> list call) : result turn_exn TurnResult * runtime :=
  @commit_turn_async flat_repr plain_sha coarse_pow iso_basic plain_text 10 (sample_env clock others)
    (PStr (u "req-1")) (PStr (u "hi")) fresh_runtime.

Lemma busy_ok n : Forall call_ok (busy n).
Proof. unfold busy. destruct (n =? 4)%nat; repeat constructor. Qed.


(** A turn returns its failure or a success; only an interrupt leaves it. *)
Lemma async_outcome : forall (FR : FloatRepr) (SH : Sha256) (LM : Libm) (IF : IsoFormat) (PT : PyText) limit env rid text rt r rt',
  store_wf (rt_store rt) -> (forall n, Forall call_ok (t_others env n)) ->
  commit_turn_async limit env rid text rt = (r, rt') ->
  match r with
  | Ok res => (exists e, res = turn_failed e /\ r_success res = false)
              \/ (r_success res = true /\ r_error res = None /\ r_response res <> None
                  /\ exists z, r_revision res = Some z)
  | Err e => e = TInterrupt
  end.
Proof.
  intros FR SH LM IF PT limit env rid text rt r rt' W Ho H.
  apply async_cases in H as (x & H & ->). destruct x as [res|e]; [|destruct e; eauto].
  right. apply inner_cases in H as [(e & _ & H & _)|(id & msg & x & s0 & V1 & V2 & E & [(_ & _ & H)|(o & g & _ & _ & _ & H)])];
    [done| |].
  - destruct (H res eq_refl) as (o & c & es & _ & _ & _ & ->). cbn. eauto.
  - destruct H as [(res' & [= <-] & H)|(e & rt1 & H & _)]; [|done].
    apply bind_cases in H as [(? & H & _)|(? & ? & E0 & H)]; [done|].
    apply execute_success in H as (? & ? & ? & ? & ? & ? & ? & ? & ? & ? & ? & c & Q); [|done].
    do 10 apply proj2 in Q. destruct Q as (S1 & _ & S2 & S3 & S4 & _). rewrite S3, S4. eauto.
Qed.

(** C27. The boundary of the runtime.  Whatever the language model, the other
    threads and SQLite do, a turn returns, or lets [KeyboardInterrupt] and
    [SystemExit] through and nothing else; a failure carries a public code and a
    constant text and no content; and the store is left well-formed, reached by
    calls of its own interface. *)
Theorem turn_boundary : forall (FR : FloatRepr) (SH : Sha256) (LM : Libm) (IF : IsoFormat) (PT : PyText) limit env rid text rt r rt',
  store_wf (rt_store rt) -> (forall n, Forall call_ok (t_others env n)) ->
  commit_turn_async limit env rid text rt = (r, rt') ->
  store_wf (rt_store rt') /\ reaches (rt_store rt) (rt_store rt')
  /\ match r with
     | Ok res => (exists e, res = turn_failed e /\ r_success res = false)
                 \/ (r_success res = true /\ r_error res = None /\ r_response res <> None
                     /\ exists z, r_revision res = Some z)
     | Err e => e = TInterrupt
     end.
Proof.
  intros FR SH LM IF PT limit env rid text rt r rt' W Ho H.
  assert (reaches (rt_store rt) (rt_store rt')) as Rc by (by eapply client_turn).
  split; [by eapply reaches_wf|]. split; [done|]. by eapply async_outcome.
Qed.

Lemma turn_boundary_witness : store_wf (rt_store (sample_turn 500 busy).2).
Proof.
  destruct (sample_turn 500 busy) as [r rt'] eqn:E.
  exact (proj1 (@turn_boundary flat_repr plain_sha coarse_pow iso_basic plain_text 10%Z (sample_env 500 busy) (PStr (u "req-1"))
    (PStr (u "hi")) fresh_runtime r rt' (fresh_store_wf []) busy_ok E)).
Defined.

(** C15. The language model is asked at most once per admitted request.  A turn
    adds to the calls made on the model nothing, the appraisal of its message,
    or that appraisal and one generation, in this order; it asks at all only if
    the ledger had no row for the request id, so a replay, a conflict or a
    request in flight never reaches the model; and a successful turn that is no
    replay made exactly the two calls. *)
Theorem turn_provider_once : forall (FR : FloatRepr) (SH : Sha256) (LM : Libm) (IF : IsoFormat) (PT : PyText) limit env rid text rt r rt',
  store_wf (rt_store rt) -> (forall n, Forall call_ok (t_others env n)) ->
  commit_turn_async limit env rid text rt = (r, rt') ->
  exists new, rt_log rt' = rt_log rt ++ new
  /\ (new <> [] -> exists id msg, _validate_request_id rid = Ok id /\ _validate_message text = Ok msg
        /\ turn_calls msg new /\ turn_requests (committed (rt_store rt)) !! id = None)
  /\ (forall res, r = Ok res -> r_success res = true -> r_replayed res = false ->
        exists msg m, text = PStr msg /\ new = [Appraised msg; Generated m]).
Proof.
  intros FR SH LM IF PT limit env rid text rt r rt' W Ho H. pose proof H as H0.
  apply async_cases in H as (x & H & Hx).
  apply inner_cases in H as [(e & _ & -> & ->)|(id & msg & y & s0 & V1 & V2 & E & [(-> & Hn & Hr)|(o & g & -> & So & Sg & H)])].
  - exists []. rewrite app_nil_r. split; [done|]. split; [done|]. intros res ->. by injection Hx as ->.
  - exists []. rewrite app_nil_r. split; [done|]. split; [done|]. intros res -> S P.
    destruct (success_execution limit env _ _ _ _ _ H0 S P) as (? & ? & o & g & ? & _ & _ & E' & So & Sg & _).
    rewrite E in E'. injection E' as -> _. destruct (Hn o eq_refl); congruence.
  - destruct (reserve_generation _ _ _ _ _ _ _ W V1 E So Sg) as (N & _ & _).
    assert (exists rt1 y, _execute_reserved_turn limit env id g msg (with_store rt (run_calls (t_others env 0) s0)) = (y, rt1)
      /\ rt_log rt' = rt_log rt1 /\ forall res, x = Ok res -> y = Ok res) as (rt1 & y & Ey & Hl & Hy).
    { destruct H as [(res & -> & H)|(e & rt1 & -> & H & Hl & _)]; [exists rt', (Ok res)|exists rt1, (Err e)]; done. }
    destruct (execute_log limit env _ _ _ _ _ _ Ey) as (new & L & T). exists new.
    rewrite Hl, L. split; [done|]. split; [intros _; by exists id, msg|].
    intros res -> S P. destruct x as [res'|[]]; try discriminate Hx; injection Hx as ->; try discriminate S.
    rewrite (Hy res' eq_refl) in Ey. apply execute_success in Ey as (? & ? & ? & ? & ? & ? & ? & msgs & ? & ? & ? & c & Q);
      [|done]. do 15 apply proj2 in Q.
    exists msg, msgs. split; [by apply message_str|]. rewrite Q in L. by apply app_inv_head in L.
Qed.

Lemma turn_provider_once_witness :
  exists new, rt_log (sample_turn 2000 busy).2 = new /\ length new <= 2.
Proof.
  destruct (sample_turn 2000 busy) as [r rt'] eqn:E.
  destruct (@turn_provider_once flat_repr plain_sha coarse_pow iso_basic plain_text 10%Z (sample_env 2000 busy) (PStr (u "req-1"))
    (PStr (u "hi")) fresh_runtime r rt' (fresh_store_wf []) busy_ok E) as (new & L & H & _).
  exists new. split; [exact L|]. destruct new as [|c l] eqn:En; [cbn; lia|]. rewrite <- En in H |- *.
  destruct (H ltac:(rewrite En; discriminate)) as (id & msg & _ & _ & T & _).
  destruct T as [T|[T|(m & e & rel & T & _)]]; rewrite T; cbn; lia.
Defined.





(** A clock that went back blocks the conversation.  While the reading is
    earlier than the timestamp of the stored relationship, no turn succeeds other
    than as a replay, although the emotional transition tolerates the reading:
    every attempt is refused by the relationship transition, after the model was
    already asked for the appraisal. *)
Theorem clock_regression_blocks_turns :
  forall (FR : FloatRepr) (SH : Sha256) (LM : Libm) (IF : IsoFormat) (PT : PyText) limit env rid text rt res rt' d fs e0 r0 t,
  (forall n, t_others env n = []) -> db_wf d -> rt_store rt = mkStore d None false fs ->
  stored_states (t_now_unix env) d e0 r0 -> as_float (t_clock env) = Some t -> (t <? rel_timestamp r0)%float = true ->
  commit_turn_async limit env rid text rt = (Ok res, rt') -> r_replayed res = false -> r_success res = false.
Proof.
  intros FR SH LM IF PT limit env rid text rt res rt' d fs e0 r0 t Hq W Hs (st & Hl & _ & M2) Hc Lt H P.
  destruct (r_success res) eqn:S; [exfalso|done].
  destruct (success_execution limit env _ _ _ _ _ H S P) as (id & msg & o & g & s0 & V1 & _ & E & So & Sg & X).
  rewrite Hs in E. destruct (reserve_still _ _ _ _ _ _ _ _ V1 E So Sg) as (St & N & _).
  assert (store_wf s0) as W0.
  { assert (store_wf (mkStore d None false fs)) as Wd by (split; [done|by left]).
    pose proof (run_call_wf (CReserve rid text) _ I Wd) as K. cbn [run_call] in K. by rewrite E in K. }
  apply execute_success in X as (st' & sL & e1 & r1 & app & tr & rel & msgs & resp & pub & s1 & c &
    Hl' & _ & M2' & _ & _ & _ & Hr & _); [|intros n; rewrite Hq; constructor].
  cbn [with_store rt_store] in Hl'. rewrite Hq in Hl'. cbn [run_calls fold_left] in Hl'.
  destruct (load_state_inv _ _ _ _ W0 Hl') as [Hl2 _]. destruct St as (C & _).
  rewrite C, (loaded_ext _ d) in Hl2 by done. rewrite Hl in Hl2. injection Hl2 as <-. rewrite M2 in M2'. injection M2' as <-.
  unfold transition_relationship in Hr. rewrite rel_time_as, current_time_ok, Hc in Hr.
  destruct (0 <? t)%float; [|done]. cbn [as_rel rcatch rbind] in Hr. by rewrite Lt in Hr.
Qed.

Lemma clock_regression_blocks_turns_witness :
  exists res rt', sample_turn 500 (fun _ => []) = (Ok res, rt') /\ r_success res = false.
Proof.
  destruct (sample_turn 500 (fun _ => [])) as [r rt'] eqn:E.
  assert (match (sample_turn 500 (fun _ => [])).1 with Ok res => r_replayed res | Err _ => true end = false) as P
    by (vm_compute; reflexivity).
  rewrite E in P. destruct r as [res|]; [|discriminate P]. cbn [fst] in P.
  exists res, rt'. split; [reflexivity|].
  destruct (loaded_of 1000 empty_db) as [st|] eqn:Hl; [|vm_compute in Hl; discriminate Hl].
  destruct (migrate_legacy_snapshot (ls_emotional st)) as [e0|] eqn:M1;
    [|vm_compute in Hl; injection Hl as <-; vm_compute in M1; discriminate M1].
  destruct (migrate_legacy_relationship_snapshot (ls_relationship st)) as [r0|] eqn:M2;
    [|vm_compute in Hl; injection Hl as <-; vm_compute in M2; discriminate M2].
  refine (@clock_regression_blocks_turns flat_repr plain_sha coarse_pow iso_basic plain_text 10%Z (sample_env 500 (fun _ => []))
    (PStr (u "req-1")) (PStr (u "hi")) fresh_runtime res rt' empty_db [] e0 r0 500%float (fun _ => eq_refl) empty_db_wf
    eq_refl (ex_intro _ st (conj Hl (conj M1 M2))) eq_refl _ E P).
  vm_compute in Hl. injection Hl as <-. vm_compute in M2. injection M2 as <-. reflexivity.
Defined.

(** Deleting the history through the runtime is reported truthfully and never
    raises: the payload says applied exactly when every message, request and
    outbox event is gone and the generation has advanced, with the counts of what
    was there; otherwise it carries a public code and the database is as it was. *)
Theorem privacy_delete_reported : forall rt r rt',
  store_wf (rt_store rt) -> _privacy_op delete_history rt = (r, rt') ->
  let d := committed (rt_store rt) in let d' := committed (rt_store rt') in
  (r = Ok (PrivacyApplied (history_result d)) /\ chat_logs d' = [] /\ turn_requests d' = ∅ /\ outbox_events d' = []
     /\ history_generation_of d' = (history_generation_of d + 1)%Z)
  \/ (exists code text, r = Ok (PrivacyFailed code text)) /\ d' = d.
Proof.
  intros rt r rt' W H d d'. unfold _privacy_op in H. destruct (storage delete_history rt) as [x rt1] eqn:E.
  apply storage_cases in E as (y & s & E & -> & ->). destruct y as [v|e].
  - destruct (delete_history_cases _ _ _ W E) as (doc & C & ->).
    left. unfold history_result, privacy_result in H. cbn [map fst snd] in H. injection H as <- <-.
    unfold d'. cbn [with_store rt_store]. rewrite C. split; [reflexivity|]. repeat (split; [done|]).
    apply generation_erased.
  - right. assert (committed s = d) as C by by apply (@delete_history_err flat_repr plain_sha _ e).
    cbn [is_base_only] in H. injection H as <- <-. split; [by do 2 eexists|done].
Qed.

Lemma privacy_delete_reported_witness :
  chat_logs (committed (rt_store (_privacy_op delete_history (mkRuntime sample_commit.2 true [])).2)) = [].
Proof.
  destruct (_privacy_op delete_history (mkRuntime sample_commit.2 true [])) as [r rt'] eqn:E.
  destruct (privacy_delete_reported (mkRuntime sample_commit.2 true []) r rt' sample_commit_wf E)
    as [(_ & H & _)|[(code & text & H) _]]; [exact H|].
  exfalso. assert (match (_privacy_op delete_history (mkRuntime sample_commit.2 true [])).1 with
    | Ok (PrivacyApplied _) => true | _ => false end = true) as K by (vm_compute; reflexivity).
  rewrite E, H in K. discriminate K.
Defined.

(** *** Reading the state *)

Section Reads.
Context `{FR : FloatRepr, SH : Sha256, LM : Libm, IF : IsoFormat, PT : PyText}.

(** With a valid clock the neutral states load. *)
Lemma neutral_loads ts :
  isfinite ts = true -> (0 <? ts)%float = true ->
  exists e r, neutral_emotional_snapshot ts = Ok (EmotionalStateV1_to_dict e) /\ state_wf e = true
    /\ neutral_relationship_snapshot ts = Ok (RelationshipStateV1_to_dict r) /\ rel_wf r.
Proof.
  intros F P. set (e := mkState 0 0 0 0 0 0.5 0.8 0 HEALTHY ts 1). set (r := mkRel ts 1 0.5 0.3 0 []).
  assert (state_wf e = true) as We.
  { apply state_wf_parts. repeat (split; [vm_compute; reflexivity|]). done. }
  assert (rel_wf r) as Wr.
  { repeat (split; [vm_compute; reflexivity|]). split; [cbn; by rewrite F, P|].
    split; [cbn; lia|]. split; constructor. }
  exists e, r. unfold neutral_emotional_snapshot, neutral_relationship_snapshot.
  assert (EmotionalStateV1_neutral (PFloat ts) = Ok e) as ->.
  { apply create_iff. split; [|done]. repeat (split; [vm_compute; reflexivity|]).
    split; [by apply as_float_PFloat|done]. }
  assert (RelationshipStateV1_neutral (PFloat ts) = Ok r) as ->.
  { apply rel_create_iff. split; [|done]. repeat (split; [vm_compute; reflexivity|]).
    split; [by apply as_float_PFloat|done]. }
  done.
Qed.

Lemma state_loads ts d :
  db_wf d -> isfinite ts = true -> (0 <? ts)%float = true ->
  exists st e r, loaded_of ts d = Ok st /\ migrate_legacy_snapshot (ls_emotional st) = Ok e
    /\ migrate_legacy_relationship_snapshot (ls_relationship st) = Ok r.
Proof.
  intros W F P. unfold loaded_of. pose proof (wf_revision d W) as Hn. unfold current_revision_of in Hn.
  destruct (profiles d) as [p|] eqn:Hp.
  - destruct (wf_profile d W p Hp) as [[e E] [r E']]. rewrite (proj2 (Z.ltb_ge _ _) Hn).
    eexists _, e, r. split; [reflexivity|]. cbn [ls_emotional ls_relationship].
    assert (as_dict (json_decode (pr_emotional p)) = json_decode (pr_emotional p)) as ->
      by (destruct (json_decode (pr_emotional p)); done).
    assert (as_dict (json_decode (pr_relationship p)) = json_decode (pr_relationship p)) as ->
      by (destruct (json_decode (pr_relationship p)); done).
    split; [by apply migrate_from_dict|by apply rel_migrate_from_dict].
  - destruct (neutral_loads ts F P) as (e & r & -> & We & -> & Wr). eexists _, e, r. split; [reflexivity|].
    cbn [ls_emotional ls_relationship]. split.
    + by apply migrate_from_dict, from_dict_to_dict.
    + by apply rel_migrate_from_dict, rel_from_dict_to_dict.
Qed.

End Reads.

(** The state of a well-formed store can always be read.  With a valid clock,
    on an open store without faults, the stored pair (or the neutral pair on an
    empty store) loads and migrates to valid states; [get_state] returns their
    renderings with the current revision, [runtime_state] reports readiness with
    it, and neither changes anything. *)
Theorem state_always_readable : forall (env : surroundings) rt d probe,
  db_wf d -> rt_store rt = mkStore d None false [] ->
  isfinite (t_now_unix env) = true -> (0 <? t_now_unix env)%float = true ->
  exists e r, stored_states (t_now_unix env) d e r /\ state_wf e = true /\ rel_wf r
  /\ get_state env rt = (Ok (current_revision_of d, EmotionalStateV1_to_dict e, RelationshipStateV1_to_dict r), rt)
  /\ exists configured,
       runtime_state env probe rt = (Ok (mkRuntimeState true configured (Some (current_revision_of d)) None), rt).
Proof.
  intros env rt d probe W Hs F P. destruct (state_loads (t_now_unix env) d W F P) as (st & e & r & L & M1 & M2).
  exists e, r. split; [by exists st|]. split; [by eapply migrate_wf|]. split; [by eapply rel_migrate_wf|].
  destruct rt as [s m lg]. cbn in Hs. subst s.
  assert (_load_state env (mkRuntime (mkStore d None false []) m lg) = (Ok st, mkRuntime (mkStore d None false []) m lg))
    as E by (apply storage_ok, load_state_ok, L).
  rewrite <- (loaded_revision _ _ _ L). split.
  - unfold get_state. erewrite bind_ok by exact E. erewrite bind_ok by (apply lift_ok, M1).
    by erewrite bind_ok by (apply lift_ok, M2).
  - eexists. unfold runtime_state. rewrite E. reflexivity.
Qed.

Lemma state_always_readable_witness :
  exists e r, get_state (sample_env 2000 (fun _ => [])) fresh_runtime =
    (Ok (0%Z, EmotionalStateV1_to_dict e, RelationshipStateV1_to_dict r), fresh_runtime) /\ state_wf e = true.
Proof.
  destruct (state_always_readable (sample_env 2000 (fun _ => [])) fresh_runtime empty_db None empty_db_wf
    eq_refl eq_refl eq_refl) as (e & r & _ & We & _ & G & _).
  exists e, r. split; [exact G|exact We].
Defined.
