(* ===== verification/RuntimeContext.v ===== *)
(** * The context of a turn

    What the desktop runtime lets reach the language model, and which stored rows
    stop it: the composition of the store, the context boundary of
    trusted_context.py and the turn of companion_runtime.py. *)

From Stdlib Require Import Floats.
From S2P Require Import Prelude PyFloat PyValue Json Utf8 PyDatetime Admission JsonCost TrustedContext EnvelopeTheorems ProviderEnvelope.
From S2P Require Import EnvelopeProperties EmotionalModels EmotionalTransition EmotionalMigration Relationship TrustedPolicy.
From S2P Require Import EmotionPresentation StorageContracts LocalStorage StorageSpec StorageInvariant StorageTheorems.
From S2P Require Import StorageProperties LegacyImport CompanionRuntime RuntimeTheorems RuntimeProperties.

Section Context.
Context `{FR : FloatRepr, SH : Sha256, LM : Libm, IF : IsoFormat, PT : PyText}.

(** ** What a successful turn had loaded *)

Lemma execute_context limit env rid g text rt res rt' :
  _execute_reserved_turn limit env rid g text rt = (Ok res, rt') ->
  exists st sL rt1 loaded rt2, load_user_state (t_now_unix env) (rt_store rt) = (Ok st, sL)
    /\ rt_store rt1 = run_calls (t_others env 1) sL /\ _load_context limit env st rt1 = (Ok loaded, rt2).
Proof.
  unfold _execute_reserved_turn, _load_state. intros H. inv_run. injection E2 as _ E2.
  exists x0, s0, rt3, a3, rt4. split_and!; [done| |done]. by rewrite <- E2.
Qed.

(** A read that answers gives what it gives without faults. *)
Lemma history_value l d fs rows s' :
  load_recent_history l (mkStore d None false fs) = (Ok rows, s') ->
  (load_recent_history l (mkStore d None false [])).1 = Ok rows.
Proof.
  unfold load_recent_history, mbind, mlift, sanitize_read, mtry, _connection, query, execute, next_fault.
  destruct (validate_limit l) as [n|]; [|done].
  destruct fs as [|[|[]] fs]; cbn [closed faults view tx committed put_view]; try done; destruct (existsb _ _); try done;
    by intros [= <- _].
Qed.

Lemma memories_value l d fs rows s' :
  load_recent_memories l (mkStore d None false fs) = (Ok rows, s') ->
  (load_recent_memories l (mkStore d None false [])).1 = Ok rows.
Proof.
  unfold load_recent_memories, mbind, mlift, sanitize_read, mtry, _connection, query, execute, next_fault.
  destruct (validate_limit l) as [n|]; [|done].
  destruct fs as [|[|[]] fs]; cbn [closed faults view tx committed put_view]; try done; destruct (existsb _ _); try done;
    by intros [= <- _].
Qed.

(** Without other threads, the context comes from the tables of the store. *)
Lemma context_inv limit env st d fs rt loaded rt' :
  (forall n, t_others env n = []) -> still d fs (rt_store rt) -> _load_context limit env st rt = (Ok loaded, rt') ->
  exists rows mrows, (load_recent_history (PInt limit) (mkStore d None false [])).1 = Ok rows
    /\ (load_recent_memories (PInt 5) (mkStore d None false [])).1 = Ok mrows /\ loads st rows mrows = Ok loaded.
Proof.
  intros Hq St H. unfold _load_context in H. inv_run.
  assert (still d fs s0) as St1 by (by eapply still_history).
  apply (others_quiet env Hq) in E0. cbn [with_store rt_store] in E0. rewrite E0, (still_eq _ _ _ St1) in S.
  rewrite (still_eq _ _ _ St) in S0. exists x0, x. split_and!; [by eapply history_value|by eapply memories_value|].
  unfold loads. rewrite H1. cbn [rbind]. rewrite H. cbn [rbind]. by rewrite H0.
Qed.

(** So a turn succeeds only if the rows it reads load. *)
Lemma success_loads limit env rid text rt res rt' d fs :
  (forall n, t_others env n = []) -> db_wf d -> rt_store rt = mkStore d None false fs ->
  commit_turn_async limit env rid text rt = (Ok res, rt') -> r_success res = true -> r_replayed res = false ->
  exists st rows mrows loaded, (load_recent_history (PInt limit) (mkStore d None false [])).1 = Ok rows
    /\ (load_recent_memories (PInt 5) (mkStore d None false [])).1 = Ok mrows /\ loads st rows mrows = Ok loaded.
Proof.
  intros Hq W Hs H S P.
  destruct (success_execution limit env _ _ _ _ _ H S P) as (id & msg & o & g & s0 & V1 & _ & E & So & Sg & X).
  rewrite Hs in E. destruct (reserve_still _ _ _ _ _ _ _ _ V1 E So Sg) as (St & N & _).
  apply execute_context in X as (st & sL & rt1 & loaded & rt2 & Hl & R1 & Hc).
  cbn [with_store rt_store] in Hl. rewrite Hq in Hl, R1. cbn [run_calls fold_left] in Hl, R1.
  apply (still_state _ _ _ _ _ _ St) in Hl as St1. rewrite <- R1 in St1.
  destruct (context_inv _ _ _ _ _ _ _ _ Hq St1 Hc) as (rows & mrows & H1 & H2 & H3).
  set (d1 := with_turns d _ _) in *. exists st, rows, mrows, loaded. split_and!; [| |done].
  - apply (history_ext _ d1 d) in H1; [by rewrite H1|done].
  - apply (memories_ext _ d1 d) in H2; [by rewrite H2|done].
Qed.

(** ** Rows that do not load *)

(** A history row the context refuses: blank text, or a timestamp that is none. *)
Definition unusable_row (r : chat_row) : Prop :=
  strip (c_content r) = [] \/ fromisoformat (c_created r) = None.

(** A memory whose metadata gives no provenance, or no identifier that is a UUID. *)
Definition unusable_memory (m : pystr * pyval) : Prop :=
  exists metadata, m.2 = PDict metadata /\ dget metadata (u "confidence") = None
    /\ (dget metadata (u "provenance") = None \/ dget metadata (u "source_id") = None).

Lemma rmap_err_in {E A B} (f : A -> result E B) l x :
  x ∈ l -> is_ok (f x) = false -> is_ok (rmap f l) = false.
Proof.
  induction 1 as [x l|x y l _ IH]; intros H; rewrite rmap_cons; [by destruct (f x)|].
  destruct (f y); [|done]. cbn [rbind]. specialize (IH H). by destruct (rmap f l).
Qed.

Lemma unusable_row_refused r : unusable_row r -> is_ok (validate_history_row (PDict (row_dict r))) = false.
Proof.
  intros H. unfold validate_history_row. change (has_missing HISTORY_ROW_KEYS (row_dict r)) with false. cbv iota.
  change (dget (row_dict r) (u "role")) with (Some (PStr (role_text (c_role r)))).
  change (dget (row_dict r) (u "content")) with (Some (PStr (c_content r))).
  change (dget (row_dict r) (u "id")) with (Some (PInt (c_id r))).
  change (dget (row_dict r) (u "created_at")) with (Some (PStr (c_created r))). cbv iota beta.
  destruct (negb _); [done|]. destruct H as [H|H]; [by rewrite bool_decide_true|].
  destruct (bool_decide _); [done|]. destruct (c_id r <=? 0)%Z; [done|]. destruct (bool_decide (strip (c_created r) = [])) eqn:B; [done|].
  unfold _parse_timestamp. rewrite B, H. done.
Qed.

Lemma project_keeps mrows mems content metadata mem :
  (content, PDict metadata) ∈ mrows -> LocalContextMemory_init content metadata = Ok mem ->
  project_memories mrows = Ok mems -> exists m, m ∈ mems /\ LocalContextMemory_init content metadata = Ok m.
Proof.
  intros Hin Hm. revert mems. induction mrows as [|[c md] mrows IH]; intros mems H; [by apply elem_of_nil in Hin|].
  cbn [project_memories] in H. destruct md as [| | | | | | |md| |]; try done. apply elem_of_cons in Hin as [Heq|Hin].
  - injection Heq as -> ->. rewrite Hm in H. inv_ok. exists mem. split; [constructor|done].
  - destruct (LocalContextMemory_init c md) as [m|e]; [|destruct e; try done; by apply IH].
    inv_ok. destruct (IH Hin _ eq_refl) as (m' & Hin' & Hm'). exists m'. split; [by constructor|done].
Qed.

Lemma default_provenance_refused : str_in (u "legacy_profile") Provenance_allowlist = false.
Proof. reflexivity. Qed.

Lemma unusable_memory_refused content metadata m :
  dget metadata (u "provenance") = None \/ dget metadata (u "source_id") = None ->
  LocalContextMemory_init content metadata = Ok m -> is_ok (validate_memory m) = false.
Proof.
  unfold LocalContextMemory_init. intros H L. destruct (py_float _) as [f|]; [|done]. cbn [rbind] in L. apply Ok_inj in L as <-.
  unfold validate_memory, dget_or. cbn [mem_metadata_version mem_approved mem_source_id mem_provenance].
  destruct H as [-> | ->]; rewrite str_of_str; [|done].
  destruct (str_of _) as [|c s]; [done|]. unfold _validate_canonical_uuid. destruct (canonical_uuid (c :: s)); [|done]. done.
Qed.

Lemma unusable_blocks st rows mrows :
  Exists unusable_row rows \/ Exists unusable_memory mrows -> is_ok (loads st rows mrows) = false.
Proof.
  intros H. destruct (loads st rows mrows) as [loaded|] eqn:L; [exfalso|done]. unfold loads in L. inv_ok.
  rename v into mems, v0 into profile. destruct (LoadedContextData_init _ mems profile _) as [x|] eqn:I; [|done].
  unfold LoadedContextData_init in I. inv_ok. destruct H as [(r & Hin & Hr)%Exists_exists|(m & Hin & Hm)%Exists_exists].
  - assert (is_ok (rmap validate_history_row (map (fun r => PDict (row_dict r)) rows)) = false) as F; [|by rewrite E1 in F].
    apply (rmap_err_in _ _ (PDict (row_dict r))); [by apply (list_elem_of_fmap_2 (fun r => PDict (row_dict r)))|].
    by apply unusable_row_refused.
  - destruct m as [content md], Hm as (metadata & Hmd & Hc & Hp). cbn [snd] in Hmd. subst md.
    destruct (LocalContextMemory_init content metadata) as [mem|] eqn:Hm.
    2: { unfold LocalContextMemory_init, dget_or in Hm. by rewrite Hc in Hm. }
    destruct (project_keeps _ _ _ _ _ Hin Hm E) as (m' & Hin' & Hm').
    assert (is_ok (rmap validate_memory mems) = false) as F; [|by rewrite E2 in F].
    apply (rmap_err_in _ _ m'); [done|]. by eapply unusable_memory_refused.
Qed.

(** ** What reaches the model *)

(** The two estimates of the cost of a list of messages agree: what
    trusted_context.py fits into the budget, provider_envelope.py accepts. *)
Lemma estimated_input_accepted messages n limit :
  messages <> [] -> Forall (fun m => m.1 ∈ VALID_ROLES) messages ->
  _estimate_messages_units messages = Ok n -> (n <= limit)%Z ->
  validate_provider_input (PList (map message_val messages)) limit = Ok tt.
Proof.
  intros Hne F E L. unfold validate_provider_input.
  assert (exists x l, map message_val messages = x :: l) as (x & l & Em) by (destruct messages; [done|by eexists _, _]).
  rewrite Em. rewrite <- Em. clear x l Em.
  assert (exists ys, rmap validate_message (map message_val messages) = Ok ys) as (ys & ->).
  { clear E L Hne. induction F as [|m ms Hm F IH]; [by eexists|]. destruct IH as (ys & E). cbn [map]. rewrite rmap_cons.
    assert (validate_message (message_val m) = Ok tt) as ->; [|cbn [rbind]; rewrite E; by eexists].
    apply str_in_elem in Hm. unfold message_val. destruct m as [r c]. cbn [fst snd] in *. unfold validate_message.
    set (d := [(KStr (u "role"), PStr r); (KStr (u "content"), PStr c)]).
    replace (has_unknown VALID_MESSAGE_KEYS d) with false by reflexivity.
    replace (dget d (u "role")) with (Some (PStr r)) by reflexivity.
    replace (dget d (u "content")) with (Some (PStr c)) by reflexivity.
    cbn [default]. unfold in_str_set. cbn [hashable]. unfold id. cbn [hashable]. by rewrite Hm. }
  cbn [rbind]. unfold _estimate_messages_units, _serialize_canonical_json in E. unfold estimate_provider_input_units.
  destruct (json_encode true (PList (map message_val messages))) as [doc|e]; [|done]. cbn [rbind] in E. unfold text_units.
  destruct (utf8_len (render doc)) as [k|]; [|done]. apply Ok_inj in E as <-. cbn [rbind].
  destruct (Z.ltb_spec limit (Z.max 1 (Z.of_nat k))); [lia|done].
Qed.

(** The shape of the provider messages of a turn. *)
Definition bounded_input (text : pystr) (messages : list message) : Prop :=
  exists e r context history,
    state_wf e = true /\ rel_wf r
    /\ messages = (u "system", build_trusted_policy e r [] ++ BOUNDARY_RULE) :: context ++ history ++ [(u "user", text)]
    /\ Forall (fun m => m.1 ∈ VALID_HISTORY_ROLES) (context ++ history) /\ (length context <= 1)%nat
    /\ (exists n, _estimate_messages_units messages = Ok n /\ (n <= PROVIDER_INPUT_MAX_ESTIMATED_UNITS)%Z)
    /\ validate_provider_input (PList (map message_val messages)) PROVIDER_INPUT_MAX_ESTIMATED_UNITS = Ok tt.

Lemma provider_input_bounded text e r messages :
  state_wf e = true -> rel_wf r -> provider_input text e r messages -> bounded_input text messages.
Proof.
  intros We Wr (loaded & b & envelope & B & En & ->).
  destruct (envelope_shape _ _ _ _ _ _ B En) as (t & m & hist & items & [= <-] & [= <-] & M & _ & _ & F & U & L).
  exists e, r, (tail (context_part (u "system", build_trusted_policy e r [] ++ BOUNDARY_RULE) items)), (map as_message (chronological hist)).
  split_and!; [done|done| | | |by exists (cr_unit_count envelope)|].
  - rewrite M. by destruct items.
  - rewrite M in F. unfold with_history in F. destruct items; cbn [context_part app tail] in F |- *.
    + by apply Forall_app in F as [F _].
    + apply Forall_cons in F as [F1 F]. apply Forall_app in F as [F _]. by constructor.
  - destruct items; cbn; lia.
  - apply (estimated_input_accepted _ (cr_unit_count envelope)); [|  |done|done].
    + rewrite M. unfold with_history. by destruct items.
    + assert (forall x, x ∈ VALID_HISTORY_ROLES -> x ∈ VALID_ROLES) as Sub by (intros x Hx; right; exact Hx).
      assert (u "system" ∈ VALID_ROLES) as Sys by (by left).
      rewrite M in F |- *. unfold with_history in *. destruct items; cbn [context_part app tail] in F |- *;
        (apply Forall_cons_2; [exact Sys|]; apply (Forall_impl _ _ _ F); intros [r0 c0]; apply Sub).
Qed.

End Context.

(** ** Properties *)

(** C31. What reaches the model is bounded.  Whatever is in the store, whatever the
    other threads do and however the turn ends, each call for a generation that a
    turn makes carries: first the policy of some valid emotional and relationship
    state with the boundary rule, the only message with the system role; then at most
    one message of context and the history, with the roles user and assistant; last
    the text of this turn.  The whole costs at most 16000 units and passes the
    validation that provider_envelope.py makes before a provider call. *)
Theorem provider_input_boundary :
  forall (FR : FloatRepr) (SH : Sha256) (LM : Libm) (IF : IsoFormat) (PT : PyText) limit env rid text rt r rt',
  store_wf (rt_store rt) -> commit_turn_async limit env rid text rt = (r, rt') ->
  exists new, rt_log rt' = rt_log rt ++ new
    /\ forall messages, Generated messages ∈ new -> exists msg, text = PStr msg /\ bounded_input msg messages.
Proof.
  intros FR SH LM IF PT limit env rid text rt r rt' W H. apply async_cases in H as (x & H & _).
  apply inner_cases in H as [(e & _ & _ & ->)|(id & msg & y & s0 & _ & V & E & [(-> & _)|(o & g & _ & _ & _ & H)])];
    [exists []; rewrite app_nil_r; split; [done|]; intros m Hm; by apply elem_of_nil in Hm..|].
  assert (exists rt1 y, _execute_reserved_turn limit env id g msg (with_store rt (run_calls (t_others env 0) s0)) = (y, rt1)
    /\ rt_log rt' = rt_log rt1) as (rt1 & z & Ey & Hl).
  { destruct H as [(res & _ & H)|(e & rt1 & _ & H & Hl & _)]; [exists rt', (Ok res)|exists rt1, (Err e)]; done. }
  destruct (execute_log limit env _ _ _ _ _ _ Ey) as (new & L & T). exists new. rewrite Hl, L. split; [done|].
  intros messages Hin. exists msg. split; [by apply message_str|].
  destruct T as [-> |[-> |(m & e & rel & -> & We & Wr & P)]]; [by apply elem_of_nil in Hin|set_solver|].
  assert (messages = m) as -> by set_solver. by eapply provider_input_bounded.
Qed.

Lemma provider_input_boundary_witness :
  exists new, rt_log (sample_turn 2000 busy).2 = new
    /\ forall messages, Generated messages ∈ new -> @bounded_input flat_repr (u "hi") messages.
Proof.
  destruct (sample_turn 2000 busy) as [r rt'] eqn:E.
  destruct (provider_input_boundary flat_repr plain_sha coarse_pow iso_basic plain_text 10%Z (sample_env 2000 busy)
    (PStr (u "req-1")) (PStr (u "hi")) fresh_runtime r rt' (fresh_store_wf []) E) as (new & L & H).
  exists new. split; [exact L|]. intros messages Hin. destruct (H messages Hin) as (msg & [= <-] & B). exact B.
Defined.

(** One stored row can stop every conversation.  If one of the recent history
    rows has blank text or a timestamp that is no ISO date, or one of the five newest
    memories was stored without a provenance or an identifier, then no turn succeeds,
    other than as a replay, whatever the model answers. *)
Theorem unusable_row_blocks_turns :
  forall (FR : FloatRepr) (SH : Sha256) (LM : Libm) (IF : IsoFormat) (PT : PyText) limit env rid text rt res rt' d fs rows mrows,
  (forall n, t_others env n = []) -> db_wf d -> rt_store rt = mkStore d None false fs ->
  (load_recent_history (PInt limit) (mkStore d None false [])).1 = Ok rows ->
  (load_recent_memories (PInt 5) (mkStore d None false [])).1 = Ok mrows ->
  Exists unusable_row rows \/ Exists unusable_memory mrows ->
  commit_turn_async limit env rid text rt = (Ok res, rt') -> r_replayed res = false -> r_success res = false.
Proof.
  intros FR SH LM IF PT limit env rid text rt res rt' d fs rows mrows Hq W Hs H1 H2 Hu H P.
  destruct (r_success res) eqn:S; [exfalso|done].
  destruct (success_loads _ _ _ _ _ _ _ _ _ Hq W Hs H S P) as (st & rows' & mrows' & loaded & H1' & H2' & L).
  rewrite H1 in H1'. injection H1' as <-. rewrite H2 in H2'. injection H2' as <-.
  pose proof (unusable_blocks st rows mrows Hu) as F. by rewrite L in F.
Qed.

(** A note stored with empty metadata, which the store accepts. *)
Definition noted_store : store := @run_call flat_repr plain_sha (CStoreMemory (u "t") (PStr (u "note")) (PDict [])) (fresh_store []).
Definition noted_turn : result turn_exn TurnResult * runtime :=
  @commit_turn_async flat_repr plain_sha coarse_pow iso_basic plain_text 10 (sample_env 2000 (fun _ => []))
    (PStr (u "req-1")) (PStr (u "hi")) (mkRuntime noted_store true []).

Lemma unusable_row_blocks_turns_witness :
  exists res rt', noted_turn = (Ok res, rt') /\ r_success res = false.
Proof.
  destruct noted_turn as [r rt'] eqn:E.
  assert (match noted_turn.1 with Ok res => r_replayed res | Err _ => true end = false) as P by (vm_compute; reflexivity).
  rewrite E in P. destruct r as [res|]; [|discriminate P]. cbn [fst] in P.
  exists res, rt'. split; [reflexivity|].
  refine (unusable_row_blocks_turns flat_repr plain_sha coarse_pow iso_basic plain_text 10%Z (sample_env 2000 (fun _ => []))
    (PStr (u "req-1")) (PStr (u "hi")) (mkRuntime noted_store true []) res rt' (committed noted_store) [] [] [(u "note", PDict [])]
    (fun _ => eq_refl) (proj1 (@run_call_wf flat_repr plain_sha (CStoreMemory (u "t") (PStr (u "note")) (PDict [])) _ I (fresh_store_wf []))) _ _ _ _ E P).
  - vm_compute. reflexivity.
  - vm_compute. reflexivity.
  - vm_compute. reflexivity.
  - right. constructor. exists []. split; [reflexivity|]. split; [reflexivity|]. left. reflexivity.
Defined.

(** The import accepts rows that later stop the conversation: a message of blanks, a
    timestamp that is none, and a text longer than the history reader allows. *)
Example import_accepts_unusable_rows :
  let imports user created := is_ok (import_sample [legacy_dict (u "old-1") user (u "hi") created] (fresh_store [])).1 in
  imports (u "   ") (u "2025-01-01T00:00:00Z") = true /\ imports (u "hello") (u "yesterday") = true
  /\ imports (replicate 10001 97%N) (u "2025-01-01T00:00:00Z") = true
  /\ (load_recent_history (PInt 10)
        (import_sample [legacy_dict (u "old-1") (replicate 10001 97%N) (u "hi") (u "2025-01-01T00:00:00Z")] (fresh_store [])).2).1
     = Err (PersistenceError (u "invalid_state")).
Proof. vm_compute. repeat split. Qed.
