(* ===== verification/GroqLanguageModel.v ===== *)
(** * The Groq adapter (backend/groq_language_model.py, backend/language_model.py)

    The implementation of the language model port over the key pool of
    [GroqManager]: the three contracted calls, the extraction of the text, and
    the translation of every failure into the canonical taxonomy.  The result
    is what the turn of [CompanionRuntime] receives from its model, so the
    exceptions are those of [turn_exn].  The provider is an argument: for each
    request, what each attempt meets.  [json.loads] is an argument too. *)

From S2P Require Import Prelude PyFloat FloatRound PyValue Json Admission TrustedContext ProviderEnvelope TurnExecution TurnExecutionTheorems.
From S2P Require Import StorageContracts EmotionalModels AppraisalParser GroqManager GroqTheorems CompanionRuntime.

Local Open Scope Z_scope.

(** ** Failures (language_model.py) *)

(** [_FAILURE_TO_ERROR] holds an exception class for every canonical failure. *)
Definition canonical_error_for (failure : ModelFailure) : turn_exn := TModel failure.

Definition language_failure_to_turn_code (failure : ModelFailure) : TurnErrorCode :=
  match failure with
  | rate_limited => upstream_rate_limited
  | auth_failed | invalid_request => provider_invalid_request
  | connection_failed | server_error => provider_unavailable
  | model_timeout => turn_timeout
  | invalid_response => provider_invalid_response
  end.

(** The lookup of a [ProviderFailure] in the canonical table: the members of the
    two enumerations are equal when their texts are; [cancelled] has no entry. *)
Definition model_failure_of (f : ProviderFailure) : option ModelFailure :=
  match f with
  | PF_rate_limited => Some rate_limited
  | PF_auth_failed => Some auth_failed
  | PF_connection_failed => Some connection_failed
  | PF_server_error => Some server_error
  | PF_invalid_response => Some invalid_response
  | PF_invalid_request => Some invalid_request
  | PF_timeout => Some model_timeout
  | PF_cancelled => None
  end.

Definition _translate_provider_error (exc : groq_exn) : turn_exn :=
  match exc with
  | GroqConfigurationError => TConfiguration
  | GroqPoolExhaustedError code =>
      match model_failure_of code with Some f => canonical_error_for f | None => TOther end
  | GroqRequestError => TModel server_error
  | GroqTurn _ | GroqCancelled | GroqUnexpected => TModel server_error
  end.

(** ** The calls *)

(** provider_models.py *)
Record ProviderConfig : Type := mkProviderConfig {
  main_model_id : pystr;
  fast_model_id : pystr;
  main_max_output_tokens : Z;
  appraisal_max_output_tokens : Z;
  archival_max_output_tokens : Z }.

Definition provider_config_defaults : ProviderConfig :=
  mkProviderConfig (u "openai/gpt-oss-120b") (u "openai/gpt-oss-20b") 200 256 512.

(** What the manager is asked for. *)
Record completion_request : Type := mkRequest {
  q_messages : list pyval;
  q_model : pystr;
  q_temperature : float;
  q_max_tokens : Z;
  q_json : bool }.                      (** [response_format={"type": "json_object"}] *)

(** [response.choices[0].message.content]; [None] when it is not there. *)
Definition sdk_response : Type := option pyval.
Definition _extract_content (r : sdk_response) : pyval := match r with Some v => v | None => PNone end.

(** [json.loads] of a text: a value, [JSONDecodeError], or another exception. *)
Inductive loaded : Type := Loaded (v : pyval) | JSONDecodeError | LoadsOther.
Class JsonLoads : Type := json_loads : pystr -> loaded.

(** The fixed instruction; its double quotes are written as single ones here. *)
Definition _APPRAISAL_POLICY : pystr :=
  map (fun c => if (c =? 39)%N then 34%N else c)
    (u "Analyze the emotional impact of this message on the listener (Katherine)." ++ [10%N]
     ++ u "Return JSON ONLY:" ++ [10%N]
     ++ u "{'valence': -1.0 to 1.0, 'arousal_shift': -1.0 to 1.0, "
     ++ u "'dominance_shift': -1.0 to 1.0, "
     ++ u "'triggered_emotions': {'joy': 0-1, 'sadness': 0-1, 'anger': 0-1, "
     ++ u "'fear': 0-1, 'disgust': 0-1, 'surprise': 0-1, 'tenderness': 0-1, "
     ++ u "'guilt': 0-1, 'pride': 0-1, 'jealousy': 0-1, 'gratitude': 0-1}}").

Section Adapter.
Context `{FR : FloatRepr, JL : JsonLoads}.
Context (keys : list pystr) (params : GroqCallParams) (config : ProviderConfig).
Context (provider : completion_request -> nat -> attempt_env sdk_response).

(** The validation before any provider call, which is outside the [try]. *)
Definition prevalidate {B} (messages : list pyval) (run : result turn_exn B * groq_state) (s : groq_state)
    : result turn_exn B * groq_state :=
  match validate_provider_input (PList messages) PROVIDER_INPUT_MAX_ESTIMATED_UNITS with
  | Ok _ => run
  | Err _ => (Err TOther, s)
  end.

(** The call of the manager with its two handlers. *)
Definition complete (q : completion_request) (budget : TurnBudget) (s : groq_state) : result turn_exn sdk_response * groq_state :=
  match chat_completion_async keys params (provider q) (PList (q_messages q)) budget s with
  | (Ok v, s') => (Ok v, s')
  | (Err GroqCancelled, s') => (Err TCancelled, s')
  | (Err exc, s') => (Err (_translate_provider_error exc), s')
  end.

(** The text of a response: a [str] that is not blank. *)
Definition response_text (r : sdk_response) : result turn_exn pystr :=
  match _extract_content r with
  | PStr s => if bool_decide (strip s = []) then Err (TModel invalid_response) else Ok s
  | _ => Err (TModel invalid_response)
  end.

(** One contracted call: validate, ask, read. *)
Definition ask {B} (q : completion_request) (read : pystr -> result turn_exn B) (budget : TurnBudget) (s : groq_state)
    : result turn_exn B * groq_state :=
  prevalidate (q_messages q)
    (let '(r, s') := complete q budget s in (rbind r (fun v => rbind (response_text v) read), s')) s.

Definition read_appraisal (raw : pystr) : result turn_exn AppraisalV1 :=
  match json_loads raw with
  | JSONDecodeError => Err (TModel invalid_response)
  | LoadsOther => Err TOther
  | Loaded payload =>
      let r := parse_llm_appraisal payload in
      if is_fallback r then Err (TModel invalid_response) else Ok (appraisal r)
  end.

Definition appraise (text : pystr) (budget : TurnBudget) (s : groq_state) : result turn_exn AppraisalV1 * groq_state :=
  ask (mkRequest [message_val (u "system", _APPRAISAL_POLICY); message_val (u "user", text)]
         (fast_model_id config) 0 (appraisal_max_output_tokens config) true) read_appraisal budget s.

Definition generate (messages : list pyval) (budget : TurnBudget) (s : groq_state) : result turn_exn pystr * groq_state :=
  ask (mkRequest messages (main_model_id config) 0.8 (main_max_output_tokens config) false) Ok budget s.

Definition extract_archival (messages : list pyval) (budget : TurnBudget) (s : groq_state) : result turn_exn pystr * groq_state :=
  ask (mkRequest messages (fast_model_id config) 0 (archival_max_output_tokens config) true) Ok budget s.

(** language_model.py, [ModelSelection]. *)
Record ModelSelection : Type := mkModelSelection {
  ms_provider : pystr;
  ms_main_model_id : pystr;
  ms_fast_model_id : pystr }.

Definition describe : ModelSelection := mkModelSelection (u "groq") (main_model_id config) (fast_model_id config).

End Adapter.

Definition build_groq_language_model (raw_keys : list (option pystr)) : result turn_exn (list pystr * pool) :=
  rcatch (GroqClientManager_init raw_keys) (fun e => match e with GroqConfigurationError => Err TConfiguration | _ => Err TOther end).

(** ** Properties *)

Section AdapterProofs.
Context `{FR : FloatRepr, JL : JsonLoads}.

Lemma parse_states raw :
  is_fallback (parse_llm_appraisal raw) = false -> states_appraisal raw (appraisal (parse_llm_appraisal raw)).
Proof.
  unfold parse_llm_appraisal. destruct (_do_parse raw) as [r|[]] eqn:D; try done.
  by pose proof (do_parse_sound _ _ D) as (a & -> & S).
Qed.

(** What an asynchronous completion can raise. *)
Definition completion_error (e : groq_exn) : Prop :=
  match e with
  | GroqConfigurationError => False
  | GroqPoolExhaustedError f => f <> PF_cancelled
  | _ => True
  end.

Lemma async_handler_failure exc k now p f p' : async_handler exc k now p = Ok (f, p') -> f <> PF_cancelled.
Proof. destruct exc; cbn; intros H; repeat case_match; congruence. Qed.

Lemma async_loop_error {A} keys params (env : nat -> attempt_env A) budget left attempt tried last s e s' :
  last <> Some PF_cancelled -> async_loop keys params env budget left attempt tried last s = (Err e, s') -> completion_error e.
Proof.
  revert attempt tried last s. induction left as [|left IH]; intros attempt tried last s Hl H; cbn [async_loop] in H.
  { injection H as <- _. destruct last; cbn; congruence. }
  cbn zeta in H. destruct (num_leb _ _); [by injection H as <- _|].
  set (s1 := run_others keys _ s) in H.
  assert (keys = [] \/ keys <> []) as [K|K] by (destruct keys; [by left|by right]).
  { subst keys. cbn in H. by injection H as <- _. }
  pose proof (acquire_cases keys tried (a_now (env attempt)) s1.1 K) as Q. cbn zeta in Q.
  destruct (_acquire_next_key keys tried (a_now (env attempt)) s1.1) as [[k|code] p1].
  2: { destruct Q as (_ & _ & ->). injection H as <- _. cbn. unfold refusal. by repeat case_match. }
  destruct (a_client (env attempt)); [|by injection H as <- _]. cbn [negb] in H.
  destruct (a_call (env attempt) k) as [v|exc]; [done|].
  destruct (async_handler exc k _ _) as [[f p2]|e'] eqn:Eh.
  2: { injection H as <- _. destruct exc; cbn in Eh; repeat case_match; by simplify_eq. }
  apply async_handler_failure in Eh. destruct left as [|left]; [by eapply IH, H; congruence|].
  destruct (compute_backoff_from_params _ _ _) as [d|]; [|by injection H as <- _]. eapply IH, H. congruence.
Qed.

Lemma completion_errors {A} keys params (env : nat -> attempt_env A) messages budget s e s' :
  chat_completion_async keys params env messages budget s = (Err e, s') -> completion_error e.
Proof.
  unfold chat_completion_async, guarded. destruct (validate_provider_input messages _) as [?|[]]; try (by intros [= <- _]).
  by apply async_loop_error.
Qed.

Definition canonical (e : turn_exn) : Prop := e = TCancelled \/ exists f, e = TModel f.

Lemma complete_cases keys params provider q budget s r s' :
  complete keys params provider q budget s = (r, s') -> match r with Ok _ => True | Err e => canonical e end.
Proof.
  unfold complete. destruct (chat_completion_async _ _ _ _ _ _) as [[v|exc] s1] eqn:E; [by intros [= <- _]|].
  apply completion_errors in E. intros H. destruct exc as [|f| | | |]; injection H as <- _.
  - destruct E.
  - destruct f; try (by destruct E); right; by eexists.
  - right. by eexists.
  - right. by eexists.
  - by left.
  - right. by eexists.
Qed.

Lemma ask_cases {B} keys params provider q (read : pystr -> result turn_exn B) budget s r s' :
  ask keys params provider q read budget s = (r, s') ->
  (is_ok (validate_provider_input (PList (q_messages q)) PROVIDER_INPUT_MAX_ESTIMATED_UNITS) = false /\ r = Err TOther /\ s' = s)
  \/ (exists e, r = Err e /\ canonical e)
  \/ exists t, strip t <> [] /\ r = read t.
Proof.
  unfold ask, prevalidate. destruct (validate_provider_input _ _) as [?|?]; [|intros [= <- <-]; by left].
  destruct (complete keys params provider q budget s) as [c s1] eqn:E. apply complete_cases in E. intros [= <- <-]. right.
  destruct c as [v|e]; cbn [rbind]; [|left; by exists e].
  unfold response_text. destruct (_extract_content v); cbn [rbind]; try (left; eexists; split; [done|right; by eexists]).
  case_bool_decide; cbn [rbind]; [left; eexists; split; [done|right; by eexists]|right; by exists s0].
Qed.

End AdapterProofs.

(** The adapter's boundary.  Whatever the provider answers and whatever other
    calls do to the pool: a generated text is never blank, an appraisal is one the
    model's payload states; and a failure is the native cancellation or a canonical
    failure code.  The exceptions are the local refusal of the envelope, which then
    precedes every provider call and leaves the pool as it was, and an appraisal whose
    payload makes [json.loads] fail otherwise than by [JSONDecodeError]. *)
Theorem adapter_boundary (FR : FloatRepr) (JL : JsonLoads) keys params config provider budget s :
  (forall messages r s', generate keys params config provider messages budget s = (r, s') ->
     match r with
     | Ok t => strip t <> []
     | Err e => canonical e
         \/ (is_ok (validate_provider_input (PList messages) PROVIDER_INPUT_MAX_ESTIMATED_UNITS) = false /\ e = TOther /\ s' = s)
     end)
  /\ (forall text r s', appraise keys params config provider text budget s = (r, s') ->
     match r with
     | Ok a => exists raw payload, json_loads raw = Loaded payload /\ states_appraisal payload a
     | Err e => canonical e
         \/ (is_ok (validate_provider_input (PList [message_val (u "system", _APPRAISAL_POLICY); message_val (u "user", text)])
               PROVIDER_INPUT_MAX_ESTIMATED_UNITS) = false /\ e = TOther /\ s' = s)
         \/ (e = TOther /\ exists raw, json_loads raw = LoadsOther)
     end).
Proof.
  split.
  - intros messages r s' H. apply ask_cases in H as [(V & -> & ->)|[(e & -> & C)|(t & N & ->)]]; auto.
  - intros text r s' H. apply ask_cases in H as [(V & -> & ->)|[(e & -> & C)|(t & N & ->)]]; [auto|by left|].
    unfold read_appraisal. destruct (json_loads t) as [payload| |] eqn:L.
    + destruct (is_fallback (parse_llm_appraisal payload)) eqn:F; [left; right; by eexists|].
      exists t, payload. split; [done|by apply parse_states].
    + left. right. by eexists.
    + right. right. split; [done|]. by exists t.
Qed.

(** The deadline is not reported as one.  When no budget is left for an attempt, the
    manager raises the turn's timeout error, but the adapter translates it like an
    unknown failure: the turn reports the service as unavailable, where the error
    itself would have been reported as a timeout. *)
Theorem deadline_reported_as_unavailable (FR : FloatRepr) keys params config provider messages budget s :
  validate_provider_input (PList messages) PROVIDER_INPUT_MAX_ESTIMATED_UNITS = Ok tt ->
  (forall q n, num_leb (compute_effective_attempt_timeout params budget (a_budget_now (provider q n))) (NFloat 0) = true) ->
  exists e, (generate keys params config provider messages budget s).1 = Err e
    /\ (sanitized_error e).1 = SERVICE_UNAVAILABLE
    /\ (sanitized_error (TExecution turn_timeout)).1 = TIMEOUT.
Proof.
  intros V B. exists (TModel server_error). split; [|done].
  unfold generate, ask, prevalidate, complete, chat_completion_async, guarded. cbn [q_messages]. rewrite V.
  assert (exists n, Z.to_nat (attempts_for keys params s.1) = S n) as (n & ->).
  { exists (Z.to_nat (attempts_for keys params s.1 - 1)). unfold attempts_for. cbn zeta.
    destruct (Z.ltb_spec (Z.min (g_max_attempts params) (Z.of_nat (length (List.filter (fun k => negb (is_deactivated s.1 k)) keys)))) 1); lia. }
  cbn [async_loop]. by rewrite B.
Qed.

Lemma deadline_reported_as_unavailable_witness :
  let messages := [message_val (u "user", u "oi")] in
  let provider := fun (_ : completion_request) => plain_attempt (A := sdk_response) (fun _ => AReturn (Some (PStr (u "ola")))) in
  exists e, (@generate flat_repr [u "a"] default_params provider_config_defaults provider messages
      (mkTurnBudget 9 (NFloat 10)) (mkPool ∅ ∅ 0, [])).1 = Err e
    /\ (sanitized_error e).1 = SERVICE_UNAVAILABLE /\ (sanitized_error (TExecution turn_timeout)).1 = TIMEOUT.
Proof.
  refine (@deadline_reported_as_unavailable flat_repr [u "a"] default_params provider_config_defaults _
            [message_val (u "user", u "oi")] (mkTurnBudget 9 (NFloat 10)) (mkPool ∅ ∅ 0, []) _ _).
  - by vm_compute.
  - intros q n. by vm_compute.
Defined.
