(* ===== verification/AtomicTurnCommit.v ===== *)
(** * The atomic commit of a web turn (backend/atomic_turn_commit.py, backend/transactional_schema.py)

    The validation that runs before the commit RPC, the two payloads built from
    the input, the strict parser of the RPC's answer, and the commit itself.
    The database is the parameter [rpc]: a function on its own state that answers
    a call or raises.  A [Mapping] is a [dict] or a [MappingProxyType]; the
    messages of the validation errors, which repeat the code in words, are left
    out, those of the other errors are kept. *)

From S2P Require Import Prelude PyFloat FloatRound PyValue Json TurnExecution StorageContracts EmotionalModels Relationship.

Local Open Scope Z_scope.

(** ** Exceptions *)

Inductive commit_exn : Type :=
| CommitConflictError (code message : pystr) (expected_revision : Z) (actual_revision : option Z) (request_id : option pystr)
| CommitValidationError (code : pystr)
| CommitPersistenceError (code message : pystr)
| CommitTurnError (code : TurnErrorCode)   (** [TurnExecutionError] of the repositories *)
| CommitOther                              (** any other [Exception] *)
| CommitBase.                              (** a [BaseException] that is no [Exception] *)

#[export] Instance commit_exn_eq_dec : EqDecision commit_exn.
Proof. solve_decision. Defined.

Definition database_error : commit_exn := CommitPersistenceError (u "database_error") (u "persistence error").

(** ** [json.dumps(value, ensure_ascii=False, allow_nan=False)] *)

(** Integers of more than 4300 digits are not converted to text. *)
Definition INT_MAX_STR_DIGITS_BOUND : Z := Eval vm_compute in 10 ^ 4300.
Definition int_printable (z : Z) : bool := Z.abs z <? INT_MAX_STR_DIGITS_BOUND.

(** The document; [sorted] is [sort_keys]. *)
Fixpoint json_dump (sorted : bool) (v : pyval) {struct v} : result json_exn jdoc :=
  match v with
  | PNone => Ok JNull
  | PBool b => Ok (JBool b)
  | PInt z => if int_printable z then Ok (JInt z) else Err NotSerializable
  | PFloat f => if isfinite f then Ok (JFloat f) else Err NotSerializable
  | PStr s => Ok (JStr s)
  | PList l => let* l' := rmap (json_dump sorted) l in Ok (JArr l')
  | PTuple l => let* l' := rmap (json_dump sorted) l in Ok (JArr l')
  | PDict d =>
      let* items := rmap (fun kv =>
        match kv with
        | (KStr k, x) => let* j := json_dump sorted x in Ok (k, j)
        | (KOther _, _) => Err NotSerializable
        end) d in
      Ok (JObj (if sorted then sort_keys items else items))
  | PProxy _ => Err NotSerializable
  | PObj _ => Err NotSerializable
  end.

(** The text with the default separators. *)
Fixpoint render_spaced `{FloatRepr} (d : jdoc) : pystr :=
  match d with
  | JArr l => u "[" ++ join (u ", ") (map render_spaced l) ++ u "]"
  | JObj l =>
      u "{" ++ join (u ", ") (map (fun kv => match kv with
        (k, x) => render_str k ++ u ": " ++ render_spaced x end) l) ++ u "}"
  | _ => render d
  end.

(** ** Deep immutability (transactional_schema.py) *)

Fixpoint _deep_freeze (v : pyval) : pyval :=
  match v with
  | PDict d | PProxy d => PProxy (map (fun kv => match kv with (k, x) => (k, _deep_freeze x) end) d)
  | PList l | PTuple l => PTuple (map _deep_freeze l)
  | _ => v
  end.

Fixpoint _deep_unfreeze (v : pyval) : pyval :=
  match v with
  | PProxy d => PDict (map (fun kv => match kv with (k, x) => (k, _deep_unfreeze x) end) d)
  | PTuple l => PList (map _deep_unfreeze l)
  | _ => v
  end.

(** ** Regular expressions *)

Definition is_hex_lower (c : N) : bool := is_digit c || ((97 <=? c) && (c <=? 102))%N.

(** The characters of [_UUID_RE] by position. *)
Definition uuid_shape : list bool :=
  repeat true 8 ++ [false] ++ repeat true 4 ++ [false] ++ repeat true 4 ++ [false] ++ repeat true 4
  ++ [false] ++ repeat true 12.

Fixpoint matches_shape (shape : list bool) (s : pystr) : bool :=
  match shape, s with
  | [], [] => true
  | hex :: shape', c :: s' => (if hex : bool then is_hex_lower c else (c =? 45)%N) && matches_shape shape' s'
  | _, _ => false
  end.

Definition is_uuid (s : pystr) : bool := matches_shape uuid_shape s.

(** [_UUID_RE.match(s)]: [$] also matches before a final line feed. *)
Definition uuid_match (s : pystr) : bool :=
  is_uuid s || (match rev s with c :: r => (c =? 10)%N && is_uuid (rev r) | [] => false end).

(** [_LEASE_OWNER_RE]. *)
Definition is_lease_owner (s : pystr) : bool :=
  (1 <=? length s)%nat && (length s <=? 64)%nat && forallb is_ident_char s.

Definition CONFLICT_CODES : list pystr :=
  [u "revision_mismatch"; u "request_payload_conflict"; u "request_in_progress"; u "lease_conflict"].

Definition _is_valid_uuid (value : pyval) : bool :=
  match value with PStr s => uuid_match s | _ => false end.

Definition _is_positive_int (value : pyval) : bool :=
  match value with PInt z => 0 <? z | _ => false end.

Definition _validate_uuid (value : pyval) (field_name : pystr) : result commit_exn pystr :=
  match value with
  | PStr s => if uuid_match s then Ok s else Err (CommitValidationError (u "invalid_" ++ field_name))
  | _ => Err (CommitValidationError (u "invalid_" ++ field_name))
  end.

(** ** Snapshots *)

Inductive snapshot_field : Type := emotional_state_field | relationship_state_field.

Definition field_text (f : snapshot_field) : pystr :=
  match f with emotional_state_field => u "emotional_state" | relationship_state_field => u "relationship_state" end.

Definition EMOTIONAL_SNAPSHOT_FIELDS : list pystr :=
  [u "schema_version"; u "pleasure"; u "arousal"; u "dominance"; u "libido"; u "aggression"; u "connection";
   u "energy"; u "tension"; u "coping_mode"; u "timestamp"].

Definition RELATIONSHIP_SNAPSHOT_FIELDS : list pystr :=
  [u "schema_version"; u "trust"; u "affection"; u "tension"; u "triggers"; u "timestamp"].

Definition _MAX_REPLAY_PAYLOAD_BYTES : nat := 8192.
Definition _MAX_OUTBOX_PAYLOAD_BYTES : nat := 8192.

(** An [int] or a [float], but no [bool]. *)
Definition as_number (v : pyval) : option pynum :=
  match v with PInt z => Some (NInt z) | PFloat f => Some (NFloat f) | _ => None end.

(** [math.isfinite(float(n))], with the [OverflowError] of a huge [int] caught. *)
Definition num_finite (n : pynum) : bool :=
  match num_to_float n with Some f => isfinite f | None => false end.

(** [bounded(name, low, high)] holds of the value at [name]. *)
Definition bounded (low high : float) (value : pyval) : bool :=
  match as_number value with
  | Some n => num_finite n && negb (num_ltb n (NFloat low)) && negb (num_ltb (NFloat high) n)
  | None => false
  end.

Definition trigger_accepted (t : pyval) : bool :=
  match t with
  | PStr s => str_eqb s (strip s) && negb (bool_decide (s = [])) && (length s <=? 128)%nat
  | _ => false
  end.

(** The texts of accepted triggers, stripped. *)
Definition normalized_triggers (l : list pyval) : list pystr :=
  omap (fun t => match t with PStr s => Some (strip s) | _ => None end) l.

Definition timestamp_positive (v : pyval) : bool :=
  match as_number v with
  | Some n => num_finite n && negb (num_leb n (NInt 0))
  | None => false
  end.

Section Validators.
Context `{FR : FloatRepr}.

(** [json.dumps] in its [try], then the bound on the encoded bytes outside it. *)
Definition serialized_within (payload : pyval) (code : pystr) (max_bytes : nat) : result commit_exn unit :=
  match json_dump false payload with
  | Err _ => Err (CommitValidationError code)
  | Ok doc =>
      match utf8_len (render_spaced doc) with
      | None => Err CommitOther
      | Some n => raise_if (max_bytes <? n)%nat (CommitValidationError code)
      end
  end.

Definition _validate_snapshot_payload (payload : pyval) (field : snapshot_field) : result commit_exn unit :=
  let bad := CommitValidationError (u "invalid_" ++ field_text field) in
  match payload with
  | PNone => Ok tt
  | _ =>
      match as_mapping payload with
      | None => Err bad
      | Some d =>
          match dget d (u "schema_version") with
          | Some (PInt version) =>
              raise_if (negb (version =? 1)) bad ;;;
              raise_if (_has_forbidden SNAPSHOT_FORBIDDEN_KEYS payload) bad ;;;
              let expected :=
                match field with
                | emotional_state_field => EMOTIONAL_SNAPSHOT_FIELDS
                | relationship_state_field => RELATIONSHIP_SNAPSHOT_FIELDS
                end in
              raise_if (has_unknown expected d || has_missing expected d) bad ;;;
              match field with
              | emotional_state_field =>
                  raise_if (negb (forallb (fun name => bounded (-1) 1 (dindex d name))
                    [u "pleasure"; u "arousal"; u "dominance"])) bad ;;;
                  raise_if (negb (forallb (fun name => bounded 0 1 (dindex d name))
                    [u "libido"; u "aggression"; u "connection"; u "energy"; u "tension"])) bad ;;;
                  raise_if (match dindex d (u "coping_mode") with
                    | PStr s => negb (str_in s [u "HEALTHY"; u "DEFENSIVE"; u "DISSOCIATED"; u "MANIC"])
                    | _ => true end) bad
              | relationship_state_field =>
                  raise_if (negb (forallb (fun name => bounded 0 1 (dindex d name))
                    [u "trust"; u "affection"; u "tension"])) bad ;;;
                  match as_sequence (dindex d (u "triggers")) with
                  | None => Err bad
                  | Some triggers =>
                      raise_if (32 <? length triggers)%nat bad ;;;
                      raise_if (negb (forallb trigger_accepted triggers)) bad ;;;
                      let normalized := normalized_triggers triggers in
                      raise_if (negb (length normalized =? length (remove_dups normalized))%nat) bad
                  end
              end ;;;
              raise_if (negb (timestamp_positive (dindex d (u "timestamp")))) bad ;;;
              serialized_within payload (u "invalid_" ++ field_text field) _MAX_REPLAY_PAYLOAD_BYTES
          | _ => Err bad
          end
      end
  end.

(** ** Keys, owners and codes *)

Definition _validate_idempotency_key (key : pyval) : result commit_exn pystr :=
  match key with
  | PStr s => if is_identifier s then Ok s else Err (CommitValidationError (u "invalid_idempotency_key"))
  | _ => Err (CommitValidationError (u "invalid_idempotency_key"))
  end.

Definition _validate_lease_owner (owner : pyval) : result commit_exn unit :=
  match owner with
  | PNone => Ok tt
  | PStr s => raise_if (negb (is_lease_owner s)) (CommitValidationError (u "invalid_lease_owner"))
  | _ => Err (CommitValidationError (u "invalid_lease_owner"))
  end.

Definition _validate_error_code (code : pyval) : result commit_exn unit :=
  match code with
  | PNone => Ok tt
  | PStr s => raise_if (negb (is_event_type s)) (CommitValidationError (u "invalid_error_code"))
  | _ => Err (CommitValidationError (u "invalid_error_code"))
  end.

(** ** Outbox and replay payloads *)

(** The value contract of one item of an outbox payload. *)
Definition outbox_item_ok (kv : pykey * pyval) : bool :=
  if bool_decide (kv.1 = KStr (u "version")) then
    match kv.2 with PInt z => (0 <? z) && negb (1000 <? z) | _ => false end
  else match kv.2 with PStr s => is_identifier s | _ => false end.

Definition _validate_outbox_event_payload (payload : pyval) (d : pydict) : result commit_exn unit :=
  let bad := CommitValidationError (u "invalid_outbox_events") in
  raise_if (has_unknown OUTBOX_PAYLOAD_ALLOWED_KEYS d) bad ;;;
  raise_if (_has_forbidden FORBIDDEN_PAYLOAD_KEYS payload) bad ;;;
  serialized_within payload (u "invalid_outbox_events") _MAX_OUTBOX_PAYLOAD_BYTES ;;;
  raise_if (negb (forallb outbox_item_ok d)) bad.

(** [expected_request_id] is [None] or the enclosing id; the result is the
    payload's items and its response. *)
Definition _validate_replay_payload (payload : pyval) (expected_request_id : option pystr) : result commit_exn (pydict * pystr) :=
  let bad := CommitValidationError (u "invalid_replay_payload") in
  match as_mapping payload with
  | None => Err bad
  | Some d =>
      raise_if (_has_forbidden FORBIDDEN_PAYLOAD_KEYS payload) bad ;;;
      raise_if (has_unknown REPLAY_PAYLOAD_ALLOWED_KEYS d) bad ;;;
      match dget d (u "response") with
      | Some (PStr response) =>
          raise_if (negb (_is_valid_uuid (dindex d (u "message_id")))) bad ;;;
          raise_if (match dget d (u "request_id") with
            | None => false
            | Some request_id =>
                negb (_is_valid_uuid request_id)
                || match expected_request_id, request_id with
                   | Some expected, PStr s => negb (str_eqb s expected)
                   | _, _ => false
                   end
            end) bad ;;;
          serialized_within payload (u "invalid_replay_payload") _MAX_REPLAY_PAYLOAD_BYTES ;;;
          Ok (d, response)
      | _ => Err bad
      end
  end.

(** ** The input of a commit *)

Record commit_input : Type := mkCommitInput {
  ci_user_id : pyval;
  ci_request_id : pyval;
  ci_expected_revision : pyval;
  ci_user_message : pyval;
  ci_assistant_message : pyval;
  ci_emotional_state : pyval;
  ci_relationship_state : pyval;
  ci_public_response : pyval;
  ci_outbox_events : pyval;
  ci_replay_payload : pyval }.

Definition validate_outbox_entry (event : pyval) : result commit_exn unit :=
  let bad := CommitValidationError (u "invalid_outbox_events") in
  match as_sequence event with
  | Some [event_type; payload; idempotency_key] =>
      raise_if (match event_type with PStr s => negb (is_event_type s) | _ => true end) bad ;;;
      match as_mapping payload with
      | None => Err bad
      | Some d =>
          _validate_outbox_event_payload payload d ;;;
          _validate_idempotency_key idempotency_key ;;; Ok tt
      end
  | _ => Err bad
  end.

Definition is_str_value (v : pyval) : bool := match v with PStr _ => true | _ => false end.

Definition validate_atomic_commit_input (a : commit_input) : result commit_exn unit :=
  raise_if (match ci_user_id a with PStr s => bool_decide (s = []) | _ => true end)
    (CommitValidationError (u "invalid_user_id")) ;;;
  let* request_id := _validate_uuid (ci_request_id a) (u "request_id") in
  raise_if (match ci_expected_revision a with PInt z => z <? 0 | _ => true end)
    (CommitValidationError (u "invalid_expected_revision")) ;;;
  raise_if (negb (is_str_value (ci_user_message a))) (CommitValidationError (u "invalid_user_message")) ;;;
  raise_if (negb (is_str_value (ci_assistant_message a))) (CommitValidationError (u "invalid_assistant_message")) ;;;
  _validate_snapshot_payload (ci_emotional_state a) emotional_state_field ;;;
  _validate_snapshot_payload (ci_relationship_state a) relationship_state_field ;;;
  raise_if (negb (is_str_value (ci_public_response a))) (CommitValidationError (u "invalid_public_response")) ;;;
  match ci_outbox_events a with
  | PList events => rmap validate_outbox_entry events ;;; Ok tt
  | _ => Err (CommitValidationError (u "invalid_outbox_events"))
  end ;;;
  let* replay := _validate_replay_payload (ci_replay_payload a) (Some request_id) in
  raise_if (match ci_public_response a with PStr s => negb (str_eqb replay.2 s) | _ => true end)
    (CommitValidationError (u "invalid_public_response")).

End Validators.

(** ** The payloads *)

(** [for event_type, payload, idempotency_key in outbox_events]. *)
Definition unpack_event (event : pyval) : result commit_exn (pyval * pyval * pyval) :=
  match as_sequence event with
  | Some [event_type; payload; idempotency_key] => Ok (event_type, payload, idempotency_key)
  | _ => Err CommitOther
  end.

Definition unpack_events (events : pyval) : result commit_exn (list (pyval * pyval * pyval)) :=
  match as_sequence events with
  | Some l => rmap unpack_event l
  | None => Err CommitOther
  end.

(** [dict(v)] of a mapping. *)
Definition dict_of_mapping (v : pyval) : result commit_exn pyval :=
  match as_mapping v with Some d => Ok (PDict d) | None => Err CommitOther end.

Definition optional_dict (v : pyval) : result commit_exn pyval :=
  match v with PNone => Ok PNone | _ => dict_of_mapping v end.

Definition event_dict (event_type payload idempotency_key : pyval) : pyval :=
  PDict [(KStr (u "event_type"), event_type); (KStr (u "payload"), payload);
         (KStr (u "idempotency_key"), idempotency_key)].

Definition build_commit_turn_rpc_payload (a : commit_input) (payload_hash_sha256 : pystr) (lease_owner : pyval)
    : result commit_exn pydict :=
  let* events := unpack_events (ci_outbox_events a) in
  let* outbox_array := rmap (fun e => match e with (event_type, payload, idempotency_key) =>
    let* p := dict_of_mapping payload in Ok (event_dict event_type p idempotency_key) end) events in
  let* emotional := optional_dict (ci_emotional_state a) in
  let* relationship := optional_dict (ci_relationship_state a) in
  let* replay := dict_of_mapping (ci_replay_payload a) in
  Ok [(KStr (u "p_authenticated_user_id"), ci_user_id a);
      (KStr (u "p_request_id"), ci_request_id a);
      (KStr (u "p_expected_revision"), ci_expected_revision a);
      (KStr (u "p_user_message"), ci_user_message a);
      (KStr (u "p_assistant_message"), ci_assistant_message a);
      (KStr (u "p_payload_hash_sha256"), PStr payload_hash_sha256);
      (KStr (u "p_emotional_state"), emotional);
      (KStr (u "p_relationship_state"), relationship);
      (KStr (u "p_public_response"), ci_public_response a);
      (KStr (u "p_replay_payload"), replay);
      (KStr (u "p_outbox_events"), PList outbox_array);
      (KStr (u "p_lease_owner"), lease_owner)].

Definition build_canonical_commit_payload (a : commit_input) : result commit_exn pyval :=
  let* events := unpack_events (ci_outbox_events a) in
  Ok (PDict
    [(KStr (u "authenticated_user_id"), ci_user_id a);
     (KStr (u "request_id"), ci_request_id a);
     (KStr (u "expected_revision"), ci_expected_revision a);
     (KStr (u "user_message"), ci_user_message a);
     (KStr (u "assistant_message"), ci_assistant_message a);
     (KStr (u "emotional_state"), ci_emotional_state a);
     (KStr (u "relationship_state"), ci_relationship_state a);
     (KStr (u "public_response"), ci_public_response a);
     (KStr (u "replay_payload"), ci_replay_payload a);
     (KStr (u "outbox_events"), PList (map (fun e => match e with (event_type, payload, idempotency_key) =>
        event_dict event_type payload idempotency_key end) events))]).

(** transactional_schema.py *)
Definition canonical_payload_hash `{FloatRepr, Sha256} (payload : pyval) : result commit_exn pystr :=
  match as_mapping payload with
  | None => Err CommitOther
  | Some d =>
      match json_dump true (PDict d) with
      | Err _ => Err CommitOther
      | Ok canonical =>
          match utf8_len (render canonical) with
          | None => Err CommitOther
          | Some _ => Ok (sha256 (render canonical))
          end
      end
  end.

(** ** The answer *)

Record CommittedOutboxRef : Type := mkOutboxRef {
  or_id : pystr;
  or_event_type : pystr;
  or_idempotency_key : pystr;
  or_turn_request_id : pystr;
  or_contract_version : Z }.

#[export] Instance CommittedOutboxRef_eq_dec : EqDecision CommittedOutboxRef.
Proof. solve_decision. Defined.

(** [ct_replay_payload] is frozen by [__post_init__]. *)
Record CommittedTurn : Type := mkCommittedTurn {
  ct_user_id : pystr;
  ct_request_id : pystr;
  ct_committed_revision : Z;
  ct_user_message_id : pystr;
  ct_assistant_message_id : pystr;
  ct_replay_payload : pyval;
  ct_outbox_events : list CommittedOutboxRef;
  ct_created_at : pystr;
  ct_completed_at : pystr }.

Definition CommittedTurn_init (user_id request_id : pystr) (committed_revision : Z)
    (user_message_id assistant_message_id : pystr) (replay_payload : pyval)
    (outbox_events : list CommittedOutboxRef) (created_at completed_at : pystr) : CommittedTurn :=
  mkCommittedTurn user_id request_id committed_revision user_message_id assistant_message_id
    (_deep_freeze replay_payload) outbox_events created_at completed_at.

Definition ref_dict (r : CommittedOutboxRef) : pydict :=
  [(KStr (u "id"), PStr (or_id r)); (KStr (u "event_type"), PStr (or_event_type r));
   (KStr (u "idempotency_key"), PStr (or_idempotency_key r));
   (KStr (u "turn_request_id"), PStr (or_turn_request_id r));
   (KStr (u "contract_version"), PInt (or_contract_version r))].

Definition to_db_row (t : CommittedTurn) : pydict :=
  [(KStr (u "user_id"), PStr (ct_user_id t)); (KStr (u "request_id"), PStr (ct_request_id t));
   (KStr (u "committed_revision"), PInt (ct_committed_revision t));
   (KStr (u "user_message_id"), PStr (ct_user_message_id t));
   (KStr (u "assistant_message_id"), PStr (ct_assistant_message_id t));
   (KStr (u "replay_payload"), _deep_unfreeze (ct_replay_payload t));
   (KStr (u "outbox_events"), PList (map (fun r => PDict (ref_dict r)) (ct_outbox_events t)));
   (KStr (u "created_at"), PStr (ct_created_at t)); (KStr (u "completed_at"), PStr (ct_completed_at t))].

Definition _SUCCESS_FIELDS : list pystr :=
  [u "user_id"; u "request_id"; u "committed_revision"; u "user_message_id"; u "assistant_message_id";
   u "replay_payload"; u "outbox_events"; u "created_at"; u "completed_at"].

Definition _OUTBOX_REF_FIELDS : list pystr :=
  [u "id"; u "event_type"; u "idempotency_key"; u "turn_request_id"; u "contract_version"].

(** The exception an error envelope is turned into. *)
Definition _parse_error_envelope (error_info : pyval) : commit_exn :=
  match as_mapping error_info with
  | None => CommitValidationError (u "invalid_error_format")
  | Some d =>
      match dget d (u "code") with
      | Some (PStr code) =>
          if bool_decide (code = []) then CommitValidationError (u "invalid_error_format") else
          let message := match dget d (u "message") with Some (PStr m) => m | _ => u "internal error" end in
          let int_of v := match v with Some (PInt z) => Some z | _ => None end in
          let expected := int_of (dget d (u "expected_revision")) in
          let actual := int_of (dget d (u "actual_revision")) in
          let request := match dget d (u "request_id") with Some (PStr s) => Some s | _ => None end in
          if str_in code CONFLICT_CODES
          then CommitConflictError code message (default 0 expected) actual request
          else if str_eqb code (u "validation_failed") then CommitValidationError code
          else database_error
      | _ => CommitValidationError (u "invalid_error_format")
      end
  end.

(** A [str] that is not empty. *)
Definition nonempty_str (v : pyval) (code : pystr) : result commit_exn pystr :=
  match v with
  | PStr s => if bool_decide (s = []) then Err (CommitValidationError code) else Ok s
  | _ => Err (CommitValidationError code)
  end.

Definition parse_outbox_ref (evt : pyval) : result commit_exn CommittedOutboxRef :=
  let bad := CommitValidationError (u "invalid_outbox_event") in
  match as_mapping evt with
  | None => Err bad
  | Some d =>
      raise_if (has_missing _OUTBOX_REF_FIELDS d) bad ;;;
      raise_if (has_unknown _OUTBOX_REF_FIELDS d) bad ;;;
      match dindex d (u "id"), dindex d (u "event_type") with
      | PStr ref_id, PStr event_type =>
          raise_if (negb (uuid_match ref_id)) bad ;;;
          raise_if (negb (is_event_type event_type)) bad ;;;
          let* key := _validate_idempotency_key (dindex d (u "idempotency_key")) in
          match dindex d (u "turn_request_id") with
          | PStr turn_request_id =>
              raise_if (negb (uuid_match turn_request_id)) bad ;;;
              match dindex d (u "contract_version") with
              | PInt contract_version =>
                  raise_if (negb (0 <? contract_version)) bad ;;;
                  Ok (mkOutboxRef ref_id event_type key turn_request_id contract_version)
              | _ => Err bad
              end
          | _ => Err bad
          end
      | _, _ => Err bad
      end
  end.

Section Commit.
Context `{FR : FloatRepr, SH : Sha256}.

Definition parse_commit_turn_result (res : pyval) : result commit_exn CommittedTurn :=
  match as_mapping res with
  | None => Err (CommitValidationError (u "invalid_rpc_result"))
  | Some d =>
      match dget d (u "error") with
      | Some error_info => Err (_parse_error_envelope error_info)
      | None =>
          raise_if (has_missing _SUCCESS_FIELDS d) (CommitValidationError (u "invalid_rpc_result")) ;;;
          raise_if (has_unknown _SUCCESS_FIELDS d) (CommitValidationError (u "invalid_rpc_result")) ;;;
          let* user_id := nonempty_str (dindex d (u "user_id")) (u "invalid_user_id") in
          let* request_id := _validate_uuid (dindex d (u "request_id")) (u "request_id") in
          match dindex d (u "committed_revision") with
          | PInt committed_revision =>
              raise_if (committed_revision <? 0) (CommitValidationError (u "invalid_committed_revision")) ;;;
              match dindex d (u "user_message_id") with
              | PStr user_message_id =>
                  raise_if (negb (str_eqb user_message_id request_id))
                    (CommitValidationError (u "invalid_user_message_id")) ;;;
                  match dindex d (u "assistant_message_id") with
                  | PStr assistant_message_id =>
                      raise_if (negb (uuid_match assistant_message_id))
                        (CommitValidationError (u "invalid_assistant_message_id")) ;;;
                      let* replay := _validate_replay_payload (dindex d (u "replay_payload")) (Some request_id) in
                      raise_if (match dget replay.1 (u "message_id") with
                        | Some (PStr s) => negb (str_eqb s assistant_message_id)
                        | _ => true end) (CommitValidationError (u "invalid_assistant_message_id")) ;;;
                      match dindex d (u "outbox_events") with
                      | PList raw =>
                          let* refs := rmap parse_outbox_ref raw in
                          let* created_at := nonempty_str (dindex d (u "created_at")) (u "invalid_created_at") in
                          let* completed_at := nonempty_str (dindex d (u "completed_at")) (u "invalid_completed_at") in
                          Ok (CommittedTurn_init user_id request_id committed_revision user_message_id
                                assistant_message_id (PDict replay.1) refs created_at completed_at)
                      | _ => Err (CommitValidationError (u "invalid_outbox_events"))
                      end
                  | _ => Err (CommitValidationError (u "invalid_assistant_message_id"))
                  end
              | _ => Err (CommitValidationError (u "invalid_user_message_id"))
              end
          | _ => Err (CommitValidationError (u "invalid_committed_revision"))
          end
      end
  end.

(** ** The commit *)

(** The database: what a call of the RPC answers or raises, and its state. *)
Inductive rpc_exn : Type :=
| RpcException
| RpcBaseException.

Context {DB : Type} (rpc : pystr -> pydict -> DB -> result rpc_exn pyval * DB).

Definition commit_turn (a : commit_input) (lease_owner : pyval) (db : DB) : result commit_exn CommittedTurn * DB :=
  match
   (validate_atomic_commit_input a ;;;
    _validate_lease_owner lease_owner ;;;
    let* canonical_payload := build_canonical_commit_payload a in
    let* payload_hash_sha256 := canonical_payload_hash canonical_payload in
    build_commit_turn_rpc_payload a payload_hash_sha256 lease_owner)
  with
  | Err e => (Err e, db)
  | Ok rpc_payload =>
      match rpc (u "commit_turn") rpc_payload db with
      | (Err RpcException, db') => (Err database_error, db')
      | (Err RpcBaseException, db') => (Err CommitBase, db')
      | (Ok res, db') => (parse_commit_turn_result res, db')
      end
  end.

End Commit.
