(* ===== verification/TurnDatabase.v ===== *)
(** * The turn database (supabase/migrations: the SQL functions behind the web turn)

    The tables the commit touches and the functions [commit_turn],
    [commit_turn_build_result] and [replay_committed_turn] with their helpers.  A
    call is one transaction, serialised per user by the advisory lock, so it is a
    function on the database; an exception inside it rolls everything back and
    leaves as one constant error ([None]).  A JSON document is the Python value
    it is sent from or read into.  What PostgreSQL itself does with a document is
    the class [Jsonb]: the text it prints, and the value a stored document is
    read back as. *)

From S2P Require Import Prelude PyFloat FloatRound PyValue Json TurnExecution StorageContracts EmotionalModels AtomicTurnCommit.

Local Open Scope Z_scope.

(** ** PostgreSQL *)

Class Jsonb : Type := {
  jsonb_text : pyval -> pystr;          (** [payload::text] *)
  jsonb_stored : pyval -> pyval;        (** stored in a [jsonb] column and read back *)
  timestamptz_text : Z -> pystr }.      (** microseconds *)

(** [text] and [jsonb] hold no NUL and no lone surrogate. *)
Definition pg_text_ok (s : pystr) : bool := forallb (fun c => negb (c =? 0)%N && negb (is_surrogate c)) s.

Fixpoint pg_json_ok (v : pyval) : bool :=
  match v with
  | PStr s => pg_text_ok s
  | PList l | PTuple l => forallb pg_json_ok l
  | PDict d => forallb (fun kv => match kv with
      | (KStr k, x) => pg_text_ok k && pg_json_ok x
      | (KOther _, _) => false
      end) d
  | PProxy _ | PObj _ => false
  | PFloat f => isfinite f
  | _ => true
  end.

Definition is_bigint (z : Z) : bool := (- 2 ^ 63 <=? z) && (z <? 2 ^ 63).

(** [v ->> key] and [v #>> '{}'] of a document that is there; [None] is NULL. *)
Definition json_text `{Jsonb} (v : pyval) : option pystr :=
  match v with PNone => None | PStr s => Some s | _ => Some (jsonb_text v) end.

Definition text_at `{Jsonb} (d : pydict) (k : pystr) : option pystr := dget d k ≫= json_text.

(** [trim(s)] removes spaces only. *)
Definition sql_trim (s : pystr) : pystr :=
  rev (drop_while (fun c => (c =? 32)%N) (rev (drop_while (fun c => (c =? 32)%N) s))).

Definition octet_length (s : pystr) : nat := sum_list_with utf8_width s.

(** ** Payload helpers (20240101000004_transactional_turn_schema.sql) *)

Definition is_object (v : pyval) : option pydict := match v with PDict d => Some d | _ => None end.
Definition is_array (v : pyval) : option (list pyval) := match v with PList l | PTuple l => Some l | _ => None end.
Definition is_null (v : pyval) : bool := match v with PNone => true | _ => false end.
Definition is_number (v : pyval) : bool := match v with PInt _ | PFloat _ => true | _ => false end.

Fixpoint jsonb_has_forbidden_key (forbidden : list pystr) (payload : pyval) {struct payload} : bool :=
  match payload with
  | PDict d => existsb (fun kv => match kv with
      (k, x) => key_in forbidden k || jsonb_has_forbidden_key forbidden x end) d
  | PList l | PTuple l => existsb (jsonb_has_forbidden_key forbidden) l
  | _ => false
  end.

Definition jsonb_keys_subset_of (allowed : list pystr) (payload : pyval) : bool :=
  match is_object payload with Some d => negb (has_unknown allowed d) | None => false end.

(** [text ~ '^[0-9]{1,4}$'] and the range of the integer. *)
Definition version_text_ok (s : pystr) : bool :=
  (1 <=? length s)%nat && (length s <=? 4)%nat && forallb is_digit s
  && (1 <=? digits_value 0 s)%N && (digits_value 0 s <=? 1000)%N.

Definition jsonb_outbox_payload_value_contract `{Jsonb} (payload : pyval) : bool :=
  match is_object payload with
  | None => false
  | Some d => forallb (fun kv =>
      if bool_decide (kv.1 = KStr (u "version"))
      then is_number kv.2 && version_text_ok (jsonb_text kv.2)
      else match kv.2 with PStr s => is_identifier s | _ => false end) d
  end.

(** ** The snapshot contract (20240101000005_atomic_turn_commit.sql) *)

Inductive snapshot_kind : Type := kind_emotional | kind_relationship.

(** [(v::text)::double precision] of a number; [None] is an out-of-range error. *)
Definition double_of (v : pyval) : option float := as_number v ≫= num_to_float.

(** Whether a number lies in [lo, hi]; the exception is the outer [None]. *)
Definition number_within (lo hi : float) (v : pyval) : option bool :=
  if negb (is_number v) then Some false
  else f ← double_of v; Some (negb ((f <? lo) || (hi <? f))%float).

Definition number_positive (v : pyval) : option bool :=
  if negb (is_number v) then Some false
  else f ← double_of v; Some (negb (f <=? 0)%float).

(** A loop that returns [FALSE] at the first key that fails. *)
Fixpoint all_keys (check : pyval -> option bool) (d : pydict) (keys : list pystr) : option bool :=
  match keys with
  | [] => Some true
  | k :: keys' => b ← check (dindex d k); if b : bool then all_keys check d keys' else Some false
  end.

Definition trigger_sql_ok (v : pyval) : bool :=
  match v with
  | PStr s => negb (bool_decide (sql_trim s = [])) && (length s <=? 128)%nat && str_eqb s (sql_trim s)
  | _ => false
  end.

Definition trigger_groups (l : list pyval) : list pystr :=
  map (fun v => match v with PStr s => sql_trim s | _ => [] end) l.

(** The number of keys of an object, which has none twice. *)
Definition exact_keys (fields : list pystr) (d : pydict) : bool :=
  negb (has_unknown fields d) && (length d =? length fields)%nat.

Definition jsonb_snapshot_contract `{Jsonb} (payload : pyval) (kind : snapshot_kind) : option bool :=
  match payload with
  | PNone => Some true
  | PDict d =>
      let version := dindex d (u "schema_version") in
      if negb (is_number version) then Some false else
      let text := jsonb_text version in
      if negb ((1 <=? length text)%nat && forallb is_digit text) then Some false else
      if negb (is_bigint (Z.of_N (digits_value 0 text))) then None else
      if negb (digits_value 0 text =? 1)%N then Some false else
      if jsonb_has_forbidden_key SNAPSHOT_FORBIDDEN_KEYS payload then Some false else
      if (8192 <? octet_length (jsonb_text payload))%nat then Some false else
      match kind with
      | kind_emotional =>
          if negb (exact_keys EMOTIONAL_SNAPSHOT_FIELDS d) then Some false else
          pad ← all_keys (number_within (-1) 1) d [u "pleasure"; u "arousal"; u "dominance"];
          if negb pad then Some false else
          drives ← all_keys (number_within 0 1) d
            [u "libido"; u "aggression"; u "connection"; u "energy"; u "tension"];
          if negb drives then Some false else
          match dindex d (u "coping_mode") with
          | PStr s =>
              if str_in s [u "HEALTHY"; u "DEFENSIVE"; u "DISSOCIATED"; u "MANIC"]
              then number_positive (dindex d (u "timestamp")) else Some false
          | _ => Some false
          end
      | kind_relationship =>
          if negb (exact_keys RELATIONSHIP_SNAPSHOT_FIELDS d) then Some false else
          levels ← all_keys (number_within 0 1) d [u "trust"; u "affection"; u "tension"];
          if negb levels then Some false else
          match is_array (dindex d (u "triggers")) with
          | Some l =>
              if (32 <? length l)%nat then Some false
              else if negb (forallb trigger_sql_ok l) then Some false
              else if negb (bool_decide (NoDup (trigger_groups l))) then Some false
              else number_positive (dindex d (u "timestamp"))
          | None => Some false
          end
      end
  | _ => Some false
  end.

(** ** Tables *)

Record profile_row : Type := mkProfileRow {
  pr_persona_config : option pystr;
  pr_user_profile : pyval;              (** [PNone] is NULL *)
  pr_emotional_state : pyval;
  pr_relationship_state : pyval;
  pr_revision : Z }.

Inductive request_status : Type := st_pending | st_completed | st_expired.

#[export] Instance request_status_eq_dec : EqDecision request_status.
Proof. solve_decision. Defined.

Record turn_request_row : Type := mkTurnRequestRow {
  tr_id : pystr;
  tr_payload_hash : pystr;
  tr_status : request_status;
  tr_lease_owner : option pystr;
  tr_lease_expires_at : option Z;
  tr_expected_revision : Z;
  tr_committed_revision : option Z;
  tr_user_log : option Z;
  tr_assistant_log : option Z;
  tr_replay_payload : pyval;            (** [PNone] is NULL *)
  tr_outbox_refs : list pyval;
  tr_created_at : Z;
  tr_completed_at : option Z }.

Record log_row : Type := mkLogRow {
  lr_id : Z;
  lr_user : pystr;
  lr_assistant : bool;
  lr_content : pystr;
  lr_created_at : Z }.

Record outbox_row : Type := mkOutboxRow {
  ob_id : pystr;
  ob_event_type : pystr;
  ob_user : pystr;
  ob_turn_request : pystr;
  ob_payload : pyval;
  ob_key : pystr }.

(** [d_next_log] is the identity sequence of chat_logs, whose gaps are not kept. *)
Record turn_db : Type := mkTurnDb {
  d_profiles : gmap pystr profile_row;
  d_requests : gmap (pystr * pystr) turn_request_row;   (** by user and request id *)
  d_logs : list log_row;
  d_outbox : list outbox_row;
  d_next_log : Z }.

(** ** The arguments of commit_turn *)

Record sql_params : Type := mkSqlParams {
  p_authenticated_user_id : pystr;
  p_request_id : pystr;
  p_expected_revision : Z;
  p_user_message : pystr;
  p_assistant_message : pystr;
  p_payload_hash_sha256 : pystr;
  p_emotional_state : pyval;
  p_relationship_state : pyval;
  p_public_response : pystr;
  p_replay_payload : pyval;
  p_outbox_events : pyval;
  p_lease_owner : option pystr }.

(** A JSON body as typed arguments.  The client sends strings for [text] and
    [uuid] and integers for [bigint]; a body that does not fit is refused. *)
Definition text_arg (v : pyval) : option pystr :=
  match v with PStr s => if pg_text_ok s then Some s else None | _ => None end.

(** The canonical form is the only one the client lets through, but for a final
    line feed, which the type refuses. *)
Definition uuid_arg (v : pyval) : option pystr :=
  match v with PStr s => if is_uuid s then Some s else None | _ => None end.

Definition bigint_arg (v : pyval) : option Z :=
  match v with PInt z => if is_bigint z then Some z else None | _ => None end.

Definition jsonb_arg (v : pyval) : option pyval := if pg_json_ok v then Some v else None.

Definition decode_params (d : pydict) : option sql_params :=
  user ← text_arg (dindex d (u "p_authenticated_user_id"));
  request ← uuid_arg (dindex d (u "p_request_id"));
  revision ← bigint_arg (dindex d (u "p_expected_revision"));
  message ← text_arg (dindex d (u "p_user_message"));
  answer ← text_arg (dindex d (u "p_assistant_message"));
  hash ← text_arg (dindex d (u "p_payload_hash_sha256"));
  emotional ← jsonb_arg (dindex d (u "p_emotional_state"));
  relationship ← jsonb_arg (dindex d (u "p_relationship_state"));
  response ← text_arg (dindex d (u "p_public_response"));
  replay ← jsonb_arg (dindex d (u "p_replay_payload"));
  outbox ← jsonb_arg (dindex d (u "p_outbox_events"));
  owner ← match dindex d (u "p_lease_owner") with PNone => Some None | v => Some <$> text_arg v end;
  Some (mkSqlParams user request revision message answer hash emotional relationship response replay outbox owner).

(** ** Envelopes *)

Definition error_envelope (code message : pystr) (more : pydict) : pyval :=
  PDict [(KStr (u "error"), PDict ([(KStr (u "code"), PStr code); (KStr (u "message"), PStr message)] ++ more))].

Definition validation_failed (message : pystr) : pyval := error_envelope (u "validation_failed") message [].

Definition conflict_envelope (code message : pystr) (p : sql_params) : pyval :=
  error_envelope code message
    [(KStr (u "expected_revision"), PInt (p_expected_revision p)); (KStr (u "request_id"), PStr (p_request_id p))].

Section Functions.
Context `{JB : Jsonb}.

(** ** Step 0: input validation *)

Definition is_hash (s : pystr) : bool := (length s =? 64)%nat && forallb is_hex_lower s.

Definition event_refused (v : pyval) : option pystr :=
  match is_object v with
  | None => Some (u "outbox event must be a JSON object")
  | Some d =>
      match text_at d (u "event_type") with
      | Some ty =>
          if negb (is_event_type ty) then Some (u "outbox event_type is invalid") else
          match dget d (u "payload") with
          | Some (PDict payload) =>
              if negb (jsonb_keys_subset_of OUTBOX_PAYLOAD_ALLOWED_KEYS (PDict payload))
              then Some (u "outbox event payload has invalid keys")
              else if jsonb_has_forbidden_key FORBIDDEN_PAYLOAD_KEYS (PDict payload)
              then Some (u "outbox event payload contains forbidden keys")
              else if negb (jsonb_outbox_payload_value_contract (PDict payload))
              then Some (u "outbox event payload violates the value contract")
              else match text_at d (u "idempotency_key") with
                   | Some key => if is_identifier key then None else Some (u "outbox idempotency_key is invalid")
                   | None => Some (u "outbox idempotency_key is invalid")
                   end
          | _ => Some (u "outbox event payload must be a JSON object")
          end
      | None => Some (u "outbox event_type is invalid")
      end
  end.

Definition replay_refused (p : sql_params) : option pystr :=
  match is_object (p_replay_payload p) with
  | None => Some (u "replay_payload must be a JSON object")
  | Some d =>
      if negb (jsonb_keys_subset_of REPLAY_PAYLOAD_ALLOWED_KEYS (p_replay_payload p))
      then Some (u "replay_payload has invalid keys")
      else if jsonb_has_forbidden_key FORBIDDEN_PAYLOAD_KEYS (p_replay_payload p)
      then Some (u "replay_payload contains forbidden keys")
      else match dget d (u "response") with
           | Some (PStr response) =>
               if match dget d (u "request_id") with
                  | None => false
                  | Some (PStr r) => negb (is_uuid r) || negb (str_eqb r (p_request_id p))
                  | Some _ => true
                  end
               then Some (u "replay_payload.request_id must equal request_id")
               else if negb (str_eqb (p_public_response p) response)
               then Some (u "public_response must equal replay_payload.response")
               else if negb (match text_at d (u "message_id") with Some m => is_uuid m | None => false end)
               then Some (u "replay_payload.message_id must be a valid UUID")
               else if (8192 <? octet_length (jsonb_text (p_replay_payload p)))%nat
               then Some (u "replay_payload exceeds 8192 bytes")
               else None
           | _ => Some (u "replay_payload must contain response")
           end
  end.

(** [None] is an exception, [Some (Some message)] a refusal. *)
Definition step0 (p : sql_params) : option (option pystr) :=
  if bool_decide (p_authenticated_user_id p = []) then Some (Some (u "authenticated_user_id is required"))
  else if p_expected_revision p <? 0 then Some (Some (u "expected_revision must be non-negative"))
  else if negb (is_hash (p_payload_hash_sha256 p))
  then Some (Some (u "payload_hash_sha256 must be a 64-character hex string"))
  else match replay_refused p with
  | Some m => Some (Some m)
  | None =>
      emotional ← jsonb_snapshot_contract (p_emotional_state p) kind_emotional;
      if negb emotional then Some (Some (u "emotional_state violates the snapshot contract")) else
      relationship ← jsonb_snapshot_contract (p_relationship_state p) kind_relationship;
      if negb relationship then Some (Some (u "relationship_state violates the snapshot contract")) else
      match is_array (p_outbox_events p) with
      | None => Some (Some (u "outbox_events must be a JSON array"))
      | Some events =>
          if negb (match p_lease_owner p with None => true | Some o => is_lease_owner o end)
          then Some (Some (u "lease_owner is invalid"))
          else Some (head (omap event_refused events))
      end
  end.

(** ** The public result *)

Definition commit_turn_build_result (user request : pystr) (db : turn_db) : option pyval :=
  row ← d_requests db !! (user, request);
  Some (PDict
    [(KStr (u "user_id"), PStr user);
     (KStr (u "request_id"), PStr request);
     (KStr (u "committed_revision"), match tr_committed_revision row with Some z => PInt z | None => PNone end);
     (KStr (u "user_message_id"), PStr request);
     (KStr (u "assistant_message_id"),
        match is_object (tr_replay_payload row) ≫= fun d => text_at d (u "message_id") with
        | Some m => PStr m | None => PNone end);
     (KStr (u "replay_payload"), match tr_replay_payload row with PNone => PDict [] | v => v end);
     (KStr (u "outbox_events"), PList (tr_outbox_refs row));
     (KStr (u "created_at"), PStr (timestamptz_text (tr_created_at row)));
     (KStr (u "completed_at"),
        PStr (timestamptz_text (default (tr_created_at row) (tr_completed_at row))))]).

(** ** commit_turn *)

(** The clock of the transaction and what [gen_random_uuid()] gives. *)
Record sql_env : Type := mkSqlEnv {
  se_now : Z;
  se_request_uuid : pystr;
  se_event_uuid : nat -> pystr }.

Context (env : sql_env).

(** chat_logs_content_check. *)
Definition log_content_ok (s : pystr) : bool := (0 <? length s)%nat && (length s <=? 10000)%nat.

Definition insert_log (user content : pystr) (assistant : bool) (db : turn_db) : option (Z * turn_db) :=
  if negb (log_content_ok content) then None else
  Some (d_next_log db, mkTurnDb (d_profiles db) (d_requests db)
    (d_logs db ++ [mkLogRow (d_next_log db) user assistant content (se_now env)]) (d_outbox db) (d_next_log db + 1)).

Definition with_request (user request : pystr) (row : turn_request_row) (db : turn_db) : turn_db :=
  mkTurnDb (d_profiles db) (<[(user, request) := row]> (d_requests db)) (d_logs db) (d_outbox db) (d_next_log db).

(** One outbox row; the id and the key of the user are unique. *)
Definition insert_event (user turn_request : pystr) (id : pystr) (v : pyval) (db : turn_db) : option turn_db :=
  d ← is_object v;
  ty ← text_at d (u "event_type");
  key ← text_at d (u "idempotency_key");
  if existsb (fun r => str_eqb (ob_id r) id || (str_eqb (ob_user r) user && str_eqb (ob_key r) key)) (d_outbox db)
  then None
  else Some (mkTurnDb (d_profiles db) (d_requests db) (d_logs db)
    (d_outbox db ++ [mkOutboxRow id ty user turn_request (jsonb_stored (dindex d (u "payload"))) key]) (d_next_log db)).

Fixpoint insert_events (user turn_request : pystr) (n : nat) (events : list pyval) (db : turn_db) : option turn_db :=
  match events with
  | [] => Some db
  | v :: events' => db' ← insert_event user turn_request (se_event_uuid env n) v db;
                    insert_events user turn_request (S n) events' db'
  end.

Definition outbox_ref (r : outbox_row) : pyval :=
  PDict [(KStr (u "id"), PStr (ob_id r)); (KStr (u "event_type"), PStr (ob_event_type r));
         (KStr (u "idempotency_key"), PStr (ob_key r)); (KStr (u "turn_request_id"), PStr (ob_turn_request r));
         (KStr (u "contract_version"), PInt 1)].

(** [ORDER BY e.id]. *)
Definition request_refs (user turn_request : pystr) (db : turn_db) : list pyval :=
  map outbox_ref (stable_sort (fun a b => str_ltb (ob_id a) (ob_id b))
    (List.filter (fun r => str_eqb (ob_user r) user && str_eqb (ob_turn_request r) turn_request) (d_outbox db))).

(** The condition of the reclaiming UPDATE. *)
Definition reclaimable (owner : option pystr) (row : turn_request_row) : bool :=
  match tr_status row with
  | st_completed => false
  | st_expired => true
  | st_pending =>
      match tr_lease_expires_at row with
      | None => false
      | Some expires =>
          (expires <=? se_now env)
          || match tr_lease_owner row, owner with Some a, Some b => str_eqb a b | _, _ => false end
      end
  end.

(** What step 3 decides about an existing request. *)
Inductive request_check : Type :=
| RespondWith (v : pyval)
| ReplayStored
| Reclaim (row : turn_request_row)
| NewRequest.

Definition check_request (p : sql_params) (db : turn_db) : request_check :=
  match d_requests db !! (p_authenticated_user_id p, p_request_id p) with
  | None => NewRequest
  | Some row =>
      if negb (str_eqb (tr_payload_hash row) (p_payload_hash_sha256 p))
      then RespondWith (conflict_envelope (u "request_payload_conflict")
             (u "Request ID already exists with a different payload hash") p)
      else if bool_decide (tr_status row = st_completed) then ReplayStored
      else if bool_decide (tr_status row = st_pending)
              && match tr_lease_expires_at row with Some e => se_now env <? e | None => false end
              && match p_lease_owner p with
                 | None => true
                 | Some o => match tr_lease_owner row with Some a => negb (str_eqb a o) | None => false end
                 end
      then RespondWith (conflict_envelope (u "request_in_progress")
             (u "Request is already in progress by another worker") p)
      else match p_lease_owner p with
           | None => RespondWith (conflict_envelope (u "lease_conflict")
                       (u "lease_owner is required to claim or reclaim a request") p)
           | Some _ => Reclaim row
           end
  end.

(** Steps 5 to 10, from a database in which the checks have passed.  The inner
    [None] is the failed reclaim, which also rolls back. *)
Definition write_turn (p : sql_params) (existing : option turn_request_row) (db : turn_db) : option (option (pyval * turn_db)) :=
  let user := p_authenticated_user_id p in
  let revision := match d_profiles db !! user with Some row => pr_revision row | None => 0 end + 1 in
  if negb (is_bigint revision) then None else
  let stored old new := match new with PNone => old | v => jsonb_stored v end in
  let row :=
    match d_profiles db !! user with
    | Some r => mkProfileRow (pr_persona_config r) (pr_user_profile r)
        (stored (pr_emotional_state r) (p_emotional_state p))
        (stored (pr_relationship_state r) (p_relationship_state p)) revision
    | None => mkProfileRow None PNone (stored PNone (p_emotional_state p)) (stored PNone (p_relationship_state p)) revision
    end in
  let db1 := mkTurnDb (<[user := row]> (d_profiles db)) (d_requests db) (d_logs db) (d_outbox db) (d_next_log db) in
  '(user_log, db2) ← insert_log user (p_user_message p) false db1;
  '(assistant_log, db3) ← insert_log user (p_assistant_message p) true db2;
  let completed id expected created :=
    mkTurnRequestRow id (p_payload_hash_sha256 p) st_completed None None expected (Some revision)
      (Some user_log) (Some assistant_log) (jsonb_stored (p_replay_payload p)) [] created (Some (se_now env)) in
  let request :=
    match existing with
    | Some r => if reclaimable (p_lease_owner p) r then Some (completed (tr_id r) (tr_expected_revision r) (tr_created_at r)) else None
    | None => Some (completed (se_request_uuid env) (p_expected_revision p) (se_now env))
    end in
  match request with
  | None => Some None
  | Some r =>
      if match existing with Some _ => false | None => bool_decide (tr_id r ∈ (tr_id ∘ snd <$> map_to_list (d_requests db3))) end
      then None else
      db4 ← insert_events user (tr_id r) 0 (default [] (is_array (p_outbox_events p))) (with_request user (p_request_id p) r db3);
      let db5 := with_request user (p_request_id p)
        (mkTurnRequestRow (tr_id r) (tr_payload_hash r) (tr_status r) (tr_lease_owner r) (tr_lease_expires_at r)
           (tr_expected_revision r) (tr_committed_revision r) (tr_user_log r) (tr_assistant_log r) (tr_replay_payload r)
           (request_refs user (tr_id r) db4) (tr_created_at r) (tr_completed_at r)) db4 in
      res ← commit_turn_build_result user (p_request_id p) db5;
      Some (Some (res, db5))
  end.

Definition sql_commit_turn (p : sql_params) (db : turn_db) : option pyval * turn_db :=
  let user := p_authenticated_user_id p in
  match step0 p with
  | None => (None, db)
  | Some (Some message) => (Some (validation_failed message), db)
  | Some None =>
      let profile := d_profiles db !! user in
      let current := match profile with Some row => pr_revision row | None => 0 end in
      let proceed existing :=
        if negb (current =? p_expected_revision p) then
          (Some (error_envelope (u "revision_mismatch") (u "Profile revision does not match the expected value")
             [(KStr (u "expected_revision"), PInt (p_expected_revision p)); (KStr (u "actual_revision"), PInt current)]), db)
        else if match profile with None => is_null (p_emotional_state p) || is_null (p_relationship_state p) | Some _ => false end
        then (Some (validation_failed (u "new profiles require complete v1 snapshots")), db)
        else match write_turn p existing db with
             | None => (None, db)
             | Some None => (Some (conflict_envelope (u "lease_conflict") (u "Request state changed; reclaim failed") p), db)
             | Some (Some (res, db')) => (Some res, db')
             end in
      match check_request p db with
      | RespondWith v => (Some v, db)
      | ReplayStored => (commit_turn_build_result user (p_request_id p) db, db)
      | Reclaim row => proceed (Some row)
      | NewRequest => proceed None
      end
  end.

(** ** replay_committed_turn *)

Definition status_envelope (s : pystr) : pyval := PDict [(KStr (u "status"), PStr s)].

Definition sql_replay_committed_turn (user request : pystr) (db : turn_db) : option pyval :=
  if bool_decide (user = []) then Some (validation_failed (u "authenticated_user_id is required")) else
  match d_requests db !! (user, request) with
  | None => Some (status_envelope (u "request_replay_unavailable"))
  | Some row =>
      match tr_status row with
      | st_completed =>
          let intact :=
            match is_object (tr_replay_payload row) with
            | None => false
            | Some d =>
                match dget d (u "response") with Some (PStr _) => true | _ => false end
                && match text_at d (u "message_id") with Some m => is_uuid m | None => false end
            end
            && match tr_committed_revision row with Some _ => true | None => false end
            && match tr_completed_at row with Some _ => true | None => false end in
          if intact then commit_turn_build_result user request db else None
      | st_pending =>
          match tr_lease_expires_at row with
          | Some e => if se_now env <? e then Some (status_envelope (u "request_in_progress"))
                      else Some (status_envelope (u "request_replay_unavailable"))
          | None => Some (status_envelope (u "request_replay_unavailable"))
          end
      | st_expired => Some (status_envelope (u "request_replay_unavailable"))
      end
  end.

(** ** The calls of the client *)

Definition rpc_call (name : pystr) (params : pydict) (db : turn_db) : option pyval * turn_db :=
  if str_eqb name (u "commit_turn") then
    match decode_params params with
    | Some p => sql_commit_turn p db
    | None => (None, db)
    end
  else if str_eqb name (u "replay_committed_turn") then
    match text_arg (dindex params (u "p_authenticated_user_id")), uuid_arg (dindex params (u "p_request_id")) with
    | Some user, Some request => (sql_replay_committed_turn user request db, db)
    | _, _ => (None, db)
    end
  else (None, db).

(** [SELECT revision, persona_config, user_profile, emotional_state,
    relationship_state FROM profiles WHERE user_id = ...]: one row, or none. *)
Definition select_profiles (user : pystr) (db : turn_db) : pyval :=
  match d_profiles db !! user with
  | None => PList []
  | Some r => PList [PDict
      [(KStr (u "revision"), PInt (pr_revision r));
       (KStr (u "persona_config"), match pr_persona_config r with Some s => PStr s | None => PNone end);
       (KStr (u "user_profile"), pr_user_profile r);
       (KStr (u "emotional_state"), pr_emotional_state r);
       (KStr (u "relationship_state"), pr_relationship_state r)]]
  end.

End Functions.
