(* ===== verification/TurnRepositories.v ===== *)
(** * Repositories of the web turn (backend/turn_repositories.py)

    The three adapters over the Supabase client.  The client is an argument: a
    select on [profiles] that answers its data or raises, and an RPC that also
    moves the database.  [None] stands for an exception, after which the
    transaction may or may not have been committed. *)

From S2P Require Import Prelude PyFloat PyValue Json TurnExecution StorageContracts EmotionalModels Relationship AtomicTurnCommit.

Local Open Scope Z_scope.

Record supabase (DB : Type) : Type := mkSupabase {
  sb_select : pystr -> DB -> option pyval;
  sb_rpc : pystr -> pydict -> DB -> option pyval * DB }.
Arguments mkSupabase {DB} _ _.
Arguments sb_select {DB} _ _ _.
Arguments sb_rpc {DB} _ _ _ _.

Definition _unwrap_rpc_data (data : pyval) : result commit_exn pyval :=
  let check v :=
    match as_mapping v with Some _ => Ok v | None => Err (CommitValidationError (u "invalid_rpc_result")) end in
  match data with
  | PList [v] => check v
  | PList _ => Err (CommitValidationError (u "invalid_rpc_result"))
  | v => check v
  end.

(** ** Loading *)

Record LoadedUserState : Type := mkLoadedUserState {
  lu_user_id : pystr;
  lu_revision : Z;
  lu_persona_config : option pystr;
  lu_user_profile : pydict;
  lu_emotional_state : pydict;
  lu_relationship_state : pydict }.

(** A column that is NULL or must be a mapping. *)
Definition optional_mapping (v : pyval) : result commit_exn pydict :=
  match v with
  | PNone => Ok []
  | _ => match as_mapping v with Some d => Ok d | None => Err (CommitTurnError internal_error) end
  end.

(** The row of a missing profile. *)
Definition default_state (user_id : pystr) (timestamp : pyval) : result commit_exn LoadedUserState :=
  match EmotionalStateV1_neutral timestamp, RelationshipStateV1_neutral timestamp with
  | Ok e, Ok r => Ok (mkLoadedUserState user_id 0 None [] (EmotionalStateV1_to_dict e) (RelationshipStateV1_to_dict r))
  | _, _ => Err CommitOther
  end.

Definition read_profile (user_id : pystr) (row : pyval) : result commit_exn LoadedUserState :=
  match as_mapping row with
  | None => Err (CommitTurnError internal_error)
  | Some d =>
      match match dget d (u "revision") with Some v => v | None => PInt 0 end with
      | PInt revision =>
          raise_if (revision <? 0) (CommitTurnError internal_error) ;;;
          let* emotional := optional_mapping (dindex d (u "emotional_state")) in
          let* relationship := optional_mapping (dindex d (u "relationship_state")) in
          let profile := default [] (as_mapping (dindex d (u "user_profile"))) in
          let persona := match dindex d (u "persona_config") with PStr s => Some s | _ => None end in
          Ok (mkLoadedUserState user_id revision persona profile emotional relationship)
      | _ => Err (CommitTurnError internal_error)
      end
  end.

Section Repositories.
Context {DB : Type} `{FR : FloatRepr, SH : Sha256}.
Context (client : option (supabase DB)).

(** [UserStateRepository.load]; [clock] is what [time.time()] gives. *)
Definition load (user_id : pystr) (default_timestamp clock : pyval) (db : DB) : result commit_exn LoadedUserState :=
  match client with
  | None => Err database_error
  | Some c =>
      match sb_select c user_id db with
      | None => Err database_error
      | Some (PList []) =>
          default_state user_id (match default_timestamp with PNone => clock | t => t end)
      | Some (PList [row]) => read_profile user_id row
      | Some (PList _) => Err (CommitTurnError internal_error)
      | Some _ => Err database_error
      end
  end.

(** [_rpc_client]: the unwrapping is inside the [try] of [commit_turn]. *)
Definition rpc_client (c : supabase DB) (name : pystr) (params : pydict) (db : DB) : result rpc_exn pyval * DB :=
  match sb_rpc c name params db with
  | (None, db') => (Err RpcException, db')
  | (Some data, db') =>
      (match _unwrap_rpc_data data with Ok v => Ok v | Err _ => Err RpcException end, db')
  end.

(** [TurnCommitRepository.commit]. *)
Definition commit (a : commit_input) (lease_owner : pyval) (db : DB) : result commit_exn CommittedTurn * DB :=
  match client with
  | None => (Err database_error, db)
  | Some c =>
      match _validate_lease_owner lease_owner with
      | Err e => (Err e, db)
      | Ok _ =>
          let '(r, db') := commit_turn (rpc_client c) a lease_owner db in
          (match r with
           | Ok t => Ok t
           | Err (CommitConflictError _ _ _ _ _ | CommitValidationError _ | CommitPersistenceError _ _) => r
           | Err CommitBase => r
           | Err _ => Err database_error
           end, db')
      end
  end.

(** ** Replay *)

Inductive ReplayOutcome : Type :=
| ReplayCompleted (committed : CommittedTurn)
| ReplayInProgress
| ReplayUnavailable.

Definition parse_replay_committed_turn_result (res : pyval) : result commit_exn ReplayOutcome :=
  match as_mapping res with
  | None => Err (CommitValidationError (u "invalid_rpc_result"))
  | Some d =>
      match dget d (u "error") with
      | Some error_info => Err (_parse_error_envelope error_info)
      | None =>
          match dindex d (u "status") with
          | PNone => let* t := parse_commit_turn_result res in Ok (ReplayCompleted t)
          | status =>
              match in_str_set status [u "request_in_progress"; u "request_replay_unavailable"] with
              | None => Err CommitOther
              | Some false => Err (CommitValidationError (u "invalid_rpc_result"))
              | Some true =>
                  if match status with PStr s => str_eqb s (u "request_in_progress") | _ => false end
                  then Ok ReplayInProgress else Ok ReplayUnavailable
              end
          end
      end
  end.

(** [TurnReplayRepository.replay]. *)
Definition replay (authenticated_user_id request_id : pystr) (db : DB) : result commit_exn ReplayOutcome * DB :=
  match client with
  | None => (Err database_error, db)
  | Some c =>
      match sb_rpc c (u "replay_committed_turn")
              [(KStr (u "p_authenticated_user_id"), PStr authenticated_user_id);
               (KStr (u "p_request_id"), PStr request_id)] db with
      | (None, db') => (Err database_error, db')
      | (Some data, db') =>
          (let* v := _unwrap_rpc_data data in parse_replay_committed_turn_result v, db')
      end
  end.

End Repositories.
