(* ===== verification/ProcessTurn.v ===== *)
(** * The web turn (backend/process_turn.py)

    The idempotent, transactional turn: replay before the provider, the attempt
    that loads state and context, asks the model, moves the two domain states and
    commits with compare-and-swap, and the bounded retry on a revision conflict.
    The repositories run over any Supabase client; the context loader, the
    language model, the clocks and the identifiers are injected, so they are
    arguments ([surroundings]).  At every point where the coroutine waits, other
    clients may change the database. *)

From S2P Require Import Prelude PyFloat FloatRound PyValue Json PyDatetime Admission TrustedContext TrustedPolicy TurnExecution.
From S2P Require Import StorageContracts EmotionalModels EmotionalTransition EmotionalMigration Relationship EmotionPresentation.
From S2P Require Import CompanionRuntime.
From S2P Require Import AtomicTurnCommit TurnRepositories.

Local Open Scope Z_scope.

Definition LEASE_OWNER_PREFIX : pystr := u "process-turn-v1".
Definition MAX_COMMIT_ATTEMPTS : nat := 2.
Definition ARCHIVAL_EVENT_TYPE : pystr := u "archival_extraction_requested".

(** [uuid_hex] is [uuid4().hex]. *)
Definition new_lease_owner (uuid_hex : pystr) : pystr := LEASE_OWNER_PREFIX ++ u ":" ++ uuid_hex.

(** ** Exceptions *)

(** What leaves a turn, by class. *)
Inductive process_exn : Type :=
| PRepository (e : commit_exn)                   (** the repositories' own errors *)
| PTurn (code : TurnErrorCode)                   (** [TurnExecutionError] *)
| PCancelled                                     (** [asyncio.CancelledError] *)
| PProvider (e : turn_exn)      (** raised by the language model *)
| PDomain (e : domain_error)
| PRelationship (e : relationship_error)
| PPresentation (e : presentation_exn)
| PContext (e : context_exn)                     (** not a [TrustedContextError] *)
| PTypeError
| PValueError.

(** ** Input *)

Inductive TurnMode : Type := normal | replay_attempt.

Record ProcessTurnInput : Type := mkProcessTurnInput {
  in_user_id : pystr;
  in_request_id : pystr;
  in_user_message : pystr;
  in_budget : TurnBudget;
  in_correlation : pystr;
  in_mode : TurnMode }.

(** The constructor checks the correlation reference only. *)
Definition ProcessTurnInput_init (user_id request_id user_message : pystr) (budget : TurnBudget)
    (correlation : pyval) (mode : TurnMode) : result process_exn ProcessTurnInput :=
  match correlation with
  | PStr c =>
      if (length c =? 64)%nat && forallb is_hex_lower c
      then Ok (mkProcessTurnInput user_id request_id user_message budget c mode)
      else Err PValueError
  | _ => Err PValueError
  end.

(** ** The persisted result *)

(** [PublicPAD] and [PublicDominantEmotion] of a mapping with exactly their fields. *)
Definition pad_of_mapping (v : pyval) : result presentation_exn PublicPAD :=
  match as_mapping v with
  | Some d =>
      let fields := [u "pleasure"; u "arousal"; u "dominance"] in
      if has_unknown fields d || has_missing fields d then Err PydanticError
      else PublicPAD_init (dindex d (u "pleasure")) (dindex d (u "arousal")) (dindex d (u "dominance"))
  | None => Err PydanticError
  end.

Definition dominant_of_mapping (v : pyval) : result presentation_exn PublicDominantEmotion :=
  match as_mapping v with
  | Some d =>
      let fields := [u "name"; u "intensity"] in
      if has_unknown fields d || has_missing fields d then Err PydanticError
      else PublicDominantEmotion_init (dindex d (u "name")) (dindex d (u "intensity"))
  | None => Err PydanticError
  end.

(** [EmotionStateResponse.model_validate(d)].  Every failure is reported alike,
    so the order of the fields does not show. *)
Definition model_validate (d : pydict) : result presentation_exn EmotionStateResponse :=
  let fields := [u "schema_version"; u "mood_label"; u "pad"; u "dominant_emotions"; u "timestamp"] in
  if has_unknown fields d || has_missing fields d then Err PydanticError else
  let* pad := pad_of_mapping (dindex d (u "pad")) in
  match as_sequence (dindex d (u "dominant_emotions")) with
  | Some l =>
      let* dominant := rmap dominant_of_mapping l in
      EmotionStateResponse_init (dindex d (u "schema_version")) (dindex d (u "mood_label")) pad dominant
        (dindex d (u "timestamp"))
  | None => Err PydanticError
  end.

Record ProcessTurnResult : Type := mkProcessTurnResult {
  pr_committed : CommittedTurn;
  pr_response : pystr;
  pr_emotion_state : EmotionStateResponse }.

Definition invalid_replay : process_exn := PRepository (CommitValidationError (u "invalid_replay_payload")).

Definition parse_public_result (committed : CommittedTurn) : result process_exn ProcessTurnResult :=
  match as_mapping (ct_replay_payload committed) with
  | Some payload =>
      match dget payload (u "response") with
      | Some (PStr response) =>
          match dget payload (u "emotion_state") ≫= as_mapping with
          | Some raw_emotion =>
              rcatch (let* emotion := model_validate raw_emotion in Ok (mkProcessTurnResult committed response emotion))
                (fun _ => Err invalid_replay)
          | None => Err invalid_replay
          end
      | _ => Err invalid_replay
      end
  | None => Err invalid_replay
  end.

Definition build_archival_outbox_event (request_id : pystr) : pyval :=
  PTuple [PStr ARCHIVAL_EVENT_TYPE;
          PDict [(KStr (u "message_id"), PStr request_id); (KStr (u "kind"), PStr (u "archival"));
                 (KStr (u "version"), PInt 1)];
          PStr (u "archival:" ++ request_id ++ u ":v1")].

(** ** The surroundings of a turn *)

(** How the wait for a read ends. *)
Inductive read_fate : Type := ReadCompletes | ReadTimesOut | ReadCancelled.

(** The points at which the coroutine waits. *)
Inductive point : Type := at_start | at_load | at_context | at_appraise | at_generate | at_commit | at_retry.

(** Everything is indexed by the attempt, from 1. *)
Record surroundings (DB : Type) : Type := mkSurroundings {
  w_clock : nat -> pyval;                      (** [self._clock()] *)
  w_time : pyval;                              (** [time.time()] *)
  w_monotonic : nat -> point -> float;         (** the clock of the budget *)
  w_elapsed_ms : nat -> Z;
  w_read : nat -> point -> read_fate;
  w_interrupted : nat -> bool;                 (** a cancellation arrives during the commit *)
  w_context : nat -> pystr -> pystr -> option pystr -> pydict -> outcome context_exn LoadedContextData;
  w_appraise : nat -> pystr -> result turn_exn AppraisalV1;
  w_generate : nat -> list message -> result turn_exn pystr;
  w_message_id : nat -> pystr;                 (** [uuid4()] *)
  w_others : nat -> point -> DB -> DB }.
Arguments mkSurroundings {DB} _ _ _ _ _ _ _ _ _ _ _.
Arguments w_clock {DB} _ _.
Arguments w_time {DB} _.
Arguments w_monotonic {DB} _ _ _.
Arguments w_elapsed_ms {DB} _ _.
Arguments w_read {DB} _ _ _.
Arguments w_interrupted {DB} _ _.
Arguments w_context {DB} _ _ _ _ _ _.
Arguments w_appraise {DB} _ _ _.
Arguments w_generate {DB} _ _ _.
Arguments w_message_id {DB} _ _.
Arguments w_others {DB} _ _ _ _.

(** The calls of a turn on the language model and on the commit repository. *)
Inductive turn_event : Type :=
| Appraised
| Generated (messages : list message)
| CommitSent (expected_revision : Z).

Record ProcessTurnConfig : Type := mkProcessTurnConfig {
  pc_transition : TransitionConfig;
  pc_relationship : RelationshipTransitionConfig;
  pc_supabase_timeout : pynum;
  pc_archival_extraction_enabled : bool;
  pc_lease_owner : pystr }.

(** ** The monad of the turn *)

Definition turn_state (DB : Type) : Type := DB * list turn_event.
Definition W (DB A : Type) : Type := turn_state DB -> result process_exn A * turn_state DB.

Definition ret {DB A} (a : A) : W DB A := fun s => (Ok a, s).
Definition raise {DB A} (e : process_exn) : W DB A := fun s => (Err e, s).
Definition bind {DB A B} (c : W DB A) (k : A -> W DB B) : W DB B := fun s =>
  match c s with (Ok a, s') => k a s' | (Err e, s') => (Err e, s') end.
Definition lift {DB A E} (f : E -> process_exn) (r : result E A) : W DB A := fun s =>
  (match r with Ok a => Ok a | Err e => Err (f e) end, s).
Definition logged {DB} (e : turn_event) : W DB unit := fun s => (Ok tt, (s.1, s.2 ++ [e])).

Declare Scope turn_scope.
Delimit Scope turn_scope with turn.
Notation "'run!' x '<-' c 'in' k" := (bind c (fun x => k))
  (at level 200, x name, c at level 100, k at level 200, right associativity) : turn_scope.
Notation "c ';>' k" := (bind c (fun _ => k)) (at level 199, right associativity) : turn_scope.
Local Open Scope turn_scope.

(** ** Blocking work *)

(** [_REPOSITORY_ERRORS]. *)
Definition repository_error (e : work_exn commit_exn) : bool :=
  match e with
  | OtherException (CommitConflictError _ _ _ _ _ | CommitValidationError _ | CommitPersistenceError _ _) => true
  | _ => false
  end.

Definition context_error (e : work_exn context_exn) : bool :=
  match e with OtherException (TrustedContextError _) => true | _ => false end.

(** What a worker thread that runs a repository method gives. *)
Definition worker_outcome {T} (r : result commit_exn T) : outcome commit_exn T :=
  match r with
  | Ok v => Returned v
  | Err (CommitTurnError c) => Raised (TurnExecutionError c)
  | Err e => Raised (OtherException e)
  end.

Definition fate_outcome {X T} (fate : read_fate) (done : outcome X T) : outcome X T :=
  match fate with
  | ReadCompletes => done
  | ReadTimesOut => Raised AsyncTimeoutError
  | ReadCancelled => Raised CancelledError
  end.

(** What leaves [run_blocking_read] and [run_blocking_write]. *)
Definition of_work {X} (f : X -> process_exn) (e : work_exn X) : process_exn :=
  match e with
  | CancelledError => PCancelled
  | AsyncTimeoutError => PTurn turn_timeout
  | TurnExecutionError c => PTurn c
  | OtherException x => f x
  end.

(** The exceptions of the prompt assembly, which catches [TrustedContextError]. *)
Definition context_exception (e : context_exn) : process_exn :=
  match e with TrustedContextError _ => PTurn provider_invalid_request | e => PContext e end.

(** [_RevisionConflict]. *)
Record RevisionConflict : Type := mkRevisionConflict {
  rc_expected_revision : Z;
  rc_actual_revision : option Z }.

Section Turn.
Context {DB : Type} `{FR : FloatRepr, SH : Sha256, LM : Libm, IF : IsoFormat, PT : PyText}.
Context (client : option (supabase DB)) (config : ProcessTurnConfig) (env : surroundings DB).

(** Other clients run while the coroutine waits. *)
Definition others (attempt : nat) (p : point) : W DB unit := fun s => (Ok tt, (w_others env attempt p s.1, s.2)).

(** The budget, read at a point. *)
Definition time_left (inp : ProcessTurnInput) (attempt : nat) (p : point) : bool :=
  negb (remaining_before_reserve (in_budget inp) (w_monotonic env attempt p) <=? 0)%float.

Definition read_repository {T} (inp : ProcessTurnInput) (attempt : nat) (p : point)
    (work : DB -> result commit_exn T) : W DB T := fun s =>
  lift (of_work PRepository)
    (run_blocking_read repository_error (in_budget inp) (w_monotonic env attempt p) (pc_supabase_timeout config)
       (fun _ => fate_outcome (w_read env attempt p) (worker_outcome (work s.1)))) s.

(** ** The replay path *)

(** Whether a read is started at all. *)
Definition read_starts (b : TurnBudget) (now : float) (timeout : pynum) : bool :=
  negb (num_leb (num_min (NFloat (remaining_before_reserve b now)) timeout) (NFloat 0)).

(** The replay RPC moves the database of the client like any other call. *)
Definition _replay (inp : ProcessTurnInput) : W DB CommittedTurn := fun s =>
  let now := w_monotonic env 1 at_load in
  let '(answer, db) := replay client (in_user_id inp) (in_request_id inp) s.1 in
  let s' := (if read_starts (in_budget inp) now (pc_supabase_timeout config) then db else s.1, s.2) in
  match run_blocking_read repository_error (in_budget inp) now (pc_supabase_timeout config)
          (fun _ => fate_outcome (w_read env 1 at_load) (worker_outcome answer)) with
  | Err e => (Err (of_work PRepository e), s')
  | Ok (ReplayCompleted committed) => (Ok committed, s')
  | Ok ReplayInProgress =>
      (Err (PRepository (CommitConflictError (u "request_in_progress") (u "Request is already in progress.") 0 None None)), s')
  | Ok ReplayUnavailable =>
      (Err (PRepository (CommitConflictError (u "request_replay_unavailable") (u "Request replay is unavailable.") 0 None None)), s')
  end.

(** ** One attempt *)

Definition replay_payload (attempt : nat) (response : pystr) (public : EmotionStateResponse) : pydict :=
  [(KStr (u "response"), PStr response);
   (KStr (u "emotion_state"), PDict (model_dump public));
   (KStr (u "message_id"), PStr (w_message_id env attempt));
   (KStr (u "duration_ms"), PInt (Z.max 0 (w_elapsed_ms env attempt)))].

Definition turn_input (inp : ProcessTurnInput) (attempt : nat) (revision : Z) (response : pystr)
    (e : EmotionalStateV1) (r : RelationshipStateV1) (public : EmotionStateResponse) : commit_input :=
  mkCommitInput (PStr (in_user_id inp)) (PStr (in_request_id inp)) (PInt revision) (PStr (in_user_message inp))
    (PStr response) (PDict (EmotionalStateV1_to_dict e)) (PDict (RelationshipStateV1_to_dict r)) (PStr response)
    (PList (if pc_archival_extraction_enabled config then [build_archival_outbox_event (in_request_id inp)] else []))
    (PDict (replay_payload attempt response public)).

(** Step 10: the commit in its worker, and the conflict on the revision. *)
Definition commit_step (inp : ProcessTurnInput) (attempt : nat) (revision : Z) (a : commit_input)
    : W DB (CommittedTurn + RevisionConflict) := fun s =>
  if (remaining (in_budget inp) (w_monotonic env attempt at_commit) <=? 0)%float then (Err (PTurn turn_timeout), s) else
  let '(r, db) := commit client a (PStr (pc_lease_owner config)) s.1 in
  let log := s.2 ++ [CommitSent revision] in
  match run_blocking_write repository_error (in_budget inp) (w_monotonic env attempt at_commit)
          (w_interrupted env attempt) (worker_outcome r) with
  | Ok (Some t) => (Ok (inl t), (db, log))
  | Ok None => (Err PTypeError, (db, log))
  | Err (OtherException (CommitConflictError code m expected actual request)) =>
      if str_eqb code (u "revision_mismatch") then (Ok (inr (mkRevisionConflict expected actual)), (db, log))
      else (Err (PRepository (CommitConflictError code m expected actual request)), (db, log))
  | Err e => (Err (of_work PRepository e), (db, log))
  end.

Definition load_relationship (state : LoadedUserState) (current_time : pyval) : result process_exn RelationshipStateV1 :=
  match lu_relationship_state state with
  | [] => rcatch (RelationshipStateV1_neutral current_time) (fun e => Err (PRelationship e))
  | d => rcatch (migrate_legacy_relationship_snapshot (PDict d)) (fun _ => Err (PTurn internal_error))
  end.

(** Steps 1 to 9: the revision the turn was computed from, and what it commits. *)
Definition prepare (inp : ProcessTurnInput) (attempt : nat) : W DB (Z * commit_input) :=
  if negb (time_left inp attempt at_start) then raise (PTurn turn_timeout) else
  let current_time := w_clock env attempt in
  others attempt at_load ;>
  run! state <- read_repository inp attempt at_load (load client (in_user_id inp) current_time (w_time env)) in
  run! emotional <- lift (fun _ => PTurn internal_error) (migrate_legacy_snapshot (PDict (lu_emotional_state state))) in
  run! relationship <- lift id (load_relationship state current_time) in
  others attempt at_context ;>
  run! loaded <- lift (of_work context_exception)
    (run_blocking_read context_error (in_budget inp) (w_monotonic env attempt at_context) (pc_supabase_timeout config)
       (fun _ => fate_outcome (w_read env attempt at_context)
          (w_context env attempt (in_user_id inp) (in_user_message inp) (lu_persona_config state) (lu_user_profile state)))) in
  logged Appraised ;>
  others attempt at_appraise ;>
  run! appraisal <- lift PProvider (w_appraise env attempt (in_user_message inp)) in
  run! moved <- lift PDomain (transition emotional appraisal current_time (pc_transition config)) in
  let new_state := tr_state moved in
  run! new_relationship <- lift PRelationship
    (transition_relationship relationship appraisal current_time (pc_relationship config)) in
  let trusted_policy := build_trusted_policy new_state new_relationship [] in
  run! bundle <- lift context_exception (build_context_bundle trusted_policy loaded) in
  run! envelope <- lift context_exception
    (build_envelope bundle (PStr (in_user_message inp)) (PInt PROVIDER_INPUT_MAX_ESTIMATED_UNITS)) in
  logged (Generated (cr_messages envelope)) ;>
  others attempt at_generate ;>
  run! response <- lift PProvider (w_generate env attempt (cr_messages envelope)) in
  run! public <- lift PPresentation (project_public_emotion (Instance_of new_state) (Instance_of appraisal)) in
  ret (lu_revision state, turn_input inp attempt (lu_revision state) response new_state new_relationship public).

Definition _run_once (inp : ProcessTurnInput) (attempt : nat) : W DB (CommittedTurn + RevisionConflict) :=
  run! prepared <- prepare inp attempt in
  others attempt at_commit ;>
  commit_step inp attempt prepared.1 prepared.2.

(** ** The bounded retry *)

(** [left] is the number of attempts after this one; the loop starts at attempt 1. *)
Fixpoint execute_attempts (inp : ProcessTurnInput) (left attempt : nat) : W DB CommittedTurn :=
  run! res <- _run_once inp attempt in
  match res with
  | inl committed => ret committed
  | inr conflict =>
      match left with
      | O => raise (PRepository (CommitConflictError (u "revision_mismatch") (u "Profile revision changed concurrently.")
               (rc_expected_revision conflict) (rc_actual_revision conflict) None))
      | S left' =>
          if negb (time_left inp attempt at_retry) then raise (PTurn turn_timeout)
          else execute_attempts inp left' (S attempt)
      end
  end.

Definition _execute_normal (inp : ProcessTurnInput) : W DB CommittedTurn :=
  execute_attempts inp (MAX_COMMIT_ATTEMPTS - 1) 1.

Definition execute (inp : ProcessTurnInput) : W DB ProcessTurnResult :=
  run! committed <- match in_mode inp with replay_attempt => _replay inp | normal => _execute_normal inp end in
  lift id (parse_public_result committed).

End Turn.
