(* ===== verification/JsonText.v ===== *)
(** * The text of JSON documents: which values have one, and which encode to UTF-8

    [json.dumps] of a value fails for the value's shape only, never for the order
    of its keys; and the text it gives encodes to UTF-8 exactly when no string
    inside the value holds a lone surrogate, whatever the separators. *)

From S2P Require Import Prelude PyFloat PyValue Json AtomicTurnCommit.

(** What [float.__repr__] documents: a short run of printable ASCII. *)
Class FloatText `{FR : FloatRepr} : Prop :=
  float_ascii : forall f, isfinite f = true -> Forall (fun c => (32 <= c < 127)%N) (float_repr f) /\ length (float_repr f) <= 24.

(** ** Induction on documents *)

Section JdocInd.
Context (P : jdoc -> Prop)
  (HNull : P JNull) (HBool : forall b, P (JBool b)) (HInt : forall z, P (JInt z)) (HFloat : forall f, P (JFloat f))
  (HStr : forall s, P (JStr s)) (HArr : forall l, Forall P l -> P (JArr l))
  (HObj : forall l, Forall (fun kv => P kv.2) l -> P (JObj l)).

Fixpoint jdoc_nested_ind (d : jdoc) : P d :=
  match d with
  | JNull => HNull
  | JBool b => HBool b
  | JInt z => HInt z
  | JFloat f => HFloat f
  | JStr s => HStr s
  | JArr l => HArr l ((fix go l : Forall P l := match l with
      | [] => Forall_nil_2 P
      | x :: l' => Forall_cons_2 P x l' (jdoc_nested_ind x) (go l') end) l)
  | JObj l => HObj l ((fix go l : Forall (fun kv => P kv.2) l := match l with
      | [] => Forall_nil_2 (fun kv : pystr * jdoc => P kv.2)
      | (k, x) :: l' => Forall_cons_2 (fun kv => P kv.2) (k, x) l' (jdoc_nested_ind x) (go l') end) l)
  end.
End JdocInd.

(** ** Lone surrogates *)

Definition surrogates (s : pystr) : bool := existsb is_surrogate s.

Fixpoint doc_surrogates (d : jdoc) : bool :=
  match d with
  | JStr s => surrogates s
  | JArr l => existsb doc_surrogates l
  | JObj l => existsb (fun kv => match kv with (k, x) => surrogates k || doc_surrogates x end) l
  | _ => false
  end.

Fixpoint val_surrogates (v : pyval) : bool :=
  match v with
  | PStr s => surrogates s
  | PList l | PTuple l => existsb val_surrogates l
  | PDict d | PProxy d => existsb (fun kv => match kv with
      (k, x) => match k with KStr s => surrogates s | KOther _ => false end || val_surrogates x end) d
  | _ => false
  end.

Lemma surrogates_app s t : surrogates (s ++ t) = surrogates s || surrogates t.
Proof. apply existsb_app. Qed.

Lemma surrogates_low s : Forall (fun c => (c < 55296)%N) s -> surrogates s = false.
Proof.
  induction 1 as [|c s H _ IH]; [done|]. cbn. unfold surrogates in IH. rewrite IH. unfold is_surrogate.
  destruct (N.leb_spec 55296 c); [lia|done].
Qed.

Lemma escape_char_surrogates c : surrogates (escape_char c) = is_surrogate c.
Proof.
  destruct (N.ltb_spec c 128) as [L|L].
  - assert (is_surrogate c = false) as ->.
    { unfold is_surrogate. by destruct (N.leb_spec 55296 c); [lia|]. }
    apply surrogates_low. unfold escape_char.
    assert (forall n, (n < 16)%N -> (hex_digit n < 128)%N) as D by (intros n Hn; unfold hex_digit; destruct (n <? 10)%N; lia).
    repeat (case_match; [repeat constructor; lia|]). case_match eqn:E32; repeat constructor; try lia.
    + apply N.ltb_lt in E32. pose proof (D (c / 16)%N). assert (c / 16 < 16)%N by (apply N.Div0.div_lt_upper_bound; lia). lia.
    + pose proof (D (c mod 16)%N (N.mod_lt c 16 ltac:(done))). lia.
  - unfold escape_char.
    repeat match goal with |- context [(c =? ?k)%N] => destruct (N.eqb_spec c k); [lia|] end.
    destruct (N.ltb_spec c 32); [lia|]. cbn. by rewrite orb_false_r.
Qed.

Lemma render_str_surrogates s : surrogates (render_str s) = surrogates s.
Proof.
  unfold render_str. change (34%N :: (s ≫= escape_char) ++ [34%N]) with ([34%N] ++ (s ≫= escape_char) ++ [34%N]).
  rewrite !surrogates_app. change (surrogates [34%N]) with false. rewrite orb_false_r. cbn [orb].
  induction s as [|c s IH]; [done|]. cbn [mbind list_bind]. rewrite surrogates_app, escape_char_surrogates.
  cbn [surrogates existsb]. by rewrite IH.
Qed.

Lemma join_surrogates sep l : surrogates sep = false -> surrogates (join sep l) = existsb surrogates l.
Proof.
  intros Hs. destruct l as [|x l]; [done|]. cbn [join existsb]. rewrite surrogates_app. f_equal.
  induction l as [|y l IH]; [done|]. cbn [mbind list_bind existsb]. by rewrite !surrogates_app, Hs, IH.
Qed.

Lemma digits_low fuel n acc : Forall (fun c => (c < 128)%N) acc -> Forall (fun c => (c < 128)%N) (digits_of fuel n acc).
Proof.
  revert n acc. induction fuel as [|k IH]; intros n acc H; cbn [digits_of]; [done|].
  assert (Forall (fun c => (c < 128)%N) ((n mod 10 + 48)%N :: acc)) as H'.
  { constructor; [|done]. pose proof (N.mod_lt n 10 ltac:(done)). lia. }
  case_match; [done|]. by apply IH.
Qed.

Lemma render_int_low z : Forall (fun c => (c < 128)%N) (render_int z).
Proof.
  destruct z; cbn [render_int]; [by repeat constructor| |]; [by apply digits_low|].
  apply Forall_app. split; [by repeat constructor|by apply digits_low].
Qed.

Lemma low_weaken s : Forall (fun c => (c < 128)%N) s -> Forall (fun c => (c < 55296)%N) s.
Proof. intros H. eapply Forall_impl; [exact H|]. cbn. lia. Qed.

Section Text.
Context `{FT : FloatText}.

Lemma render_scalar_surrogates d :
  json_valid d = true -> match d with JArr _ | JObj _ => True | _ => surrogates (render d) = doc_surrogates d end.
Proof.
  destruct d as [|[]|z|f|s| |]; intros V; try done.
  - apply surrogates_low, low_weaken, render_int_low.
  - cbn [json_valid] in V. cbn [render]. unfold render_float.
    assert (PrimFloat.is_nan f = false) as -> by (unfold isfinite in V; by destruct (PrimFloat.is_nan f)). rewrite V.
    apply surrogates_low. destruct (float_ascii f V) as [H _]. eapply Forall_impl; [exact H|]. cbn. lia.
  - apply render_str_surrogates.
Qed.

Lemma items_surrogates (sep colon : pystr) (f : jdoc -> pystr) (l : list (pystr * jdoc)) :
  surrogates sep = false -> surrogates colon = false ->
  Forall (fun kv => surrogates (f kv.2) = doc_surrogates kv.2) l ->
  surrogates (join sep (map (fun kv => match kv with (k, x) => render_str k ++ colon ++ f x end) l)) = doc_surrogates (JObj l).
Proof.
  intros Hs Hc F. rewrite join_surrogates by done. cbn [doc_surrogates].
  induction F as [|[k x] l H _ IH]; [done|]. cbn [map existsb snd] in *. rewrite !surrogates_app, Hc, render_str_surrogates, H.
  cbn [orb]. by rewrite IH.
Qed.

Lemma list_surrogates (sep : pystr) (f : jdoc -> pystr) (l : list jdoc) :
  surrogates sep = false -> Forall (fun x => surrogates (f x) = doc_surrogates x) l ->
  surrogates (join sep (map f l)) = doc_surrogates (JArr l).
Proof.
  intros Hs F. rewrite join_surrogates by done. cbn [doc_surrogates].
  induction F as [|x l H _ IH]; [done|]. cbn [map existsb]. by rewrite H, IH.
Qed.

Lemma bracket_surrogates a s b : surrogates a = false -> surrogates b = false -> surrogates (a ++ s ++ b) = surrogates s.
Proof. intros Ha Hb. rewrite !surrogates_app, Ha, Hb. by rewrite orb_false_r. Qed.

(** The two renderings put in characters of their own, none of them a surrogate. *)
Lemma valid_arr l : json_valid (JArr l) = true -> Forall (fun x => json_valid x = true) l.
Proof. cbn. rewrite forallb_forall, Forall_forall. intros H x Hx. apply H. by rewrite <- list_elem_of_In. Qed.

Lemma valid_obj l : json_valid (JObj l) = true -> Forall (fun kv => json_valid kv.2 = true) l.
Proof.
  cbn. rewrite forallb_forall, Forall_forall. intros H [k x] Hx. rewrite list_elem_of_In in Hx. exact (H _ Hx).
Qed.

Lemma Forall_mp {A} (P Q : A -> Prop) l : Forall P l -> Forall (fun x => P x -> Q x) l -> Forall Q l.
Proof. induction 1; intros F; [constructor|]. apply Forall_cons_1 in F as [? ?]. constructor; auto. Qed.

Lemma render_surrogates d : json_valid d = true -> surrogates (render d) = doc_surrogates d.
Proof.
  induction d as [| | | | |l F|l F] using jdoc_nested_ind; intros V; try exact (render_scalar_surrogates _ V).
  - cbn [render]. rewrite bracket_surrogates by done. apply list_surrogates; [done|].
    exact (Forall_mp _ _ _ (valid_arr _ V) F).
  - cbn [render]. rewrite bracket_surrogates by done. apply items_surrogates; [done|done|].
    exact (Forall_mp _ _ _ (valid_obj _ V) F).
Qed.

Lemma render_spaced_surrogates d : json_valid d = true -> surrogates (render_spaced d) = doc_surrogates d.
Proof.
  induction d as [| | | | |l F|l F] using jdoc_nested_ind; intros V; try exact (render_scalar_surrogates _ V).
  - cbn [render_spaced]. rewrite bracket_surrogates by done. apply list_surrogates; [done|].
    exact (Forall_mp _ _ _ (valid_arr _ V) F).
  - cbn [render_spaced]. rewrite bracket_surrogates by done. apply items_surrogates; [done|done|].
    exact (Forall_mp _ _ _ (valid_obj _ V) F).
Qed.

Lemma utf8_len_surrogates s : utf8_len s = None <-> surrogates s = true.
Proof. unfold utf8_len, surrogates. by destruct (existsb _ s). Qed.

End Text.

(** ** Dumping *)

(** The items of a dict, dumped. *)
Definition dump_item (sorted : bool) (kv : pykey * pyval) : result json_exn (pystr * jdoc) :=
  match kv with
  | (KStr k, x) => let* j := json_dump sorted x in Ok (k, j)
  | (KOther _, _) => Err NotSerializable
  end.

Lemma json_dump_dict sorted d :
  json_dump sorted (PDict d) =
  (let* items := rmap (dump_item sorted) d in Ok (JObj (if sorted then sort_keys items else items))).
Proof. reflexivity. Qed.

(** A property of every element that is dumped holds of the dumped list. *)
Lemma rmap_Forall_out {E A B} (f : A -> result E B) (Q : B -> Prop) l ys :
  Forall (fun x => forall y, f x = Ok y -> Q y) l -> rmap f l = Ok ys -> Forall Q ys.
Proof.
  intros F. revert ys. induction F as [|x l H _ IH]; intros ys E'; cbn in E'; inv_ok; constructor; eauto.
Qed.

Lemma json_dump_valid sorted v : forall doc, json_dump sorted v = Ok doc -> json_valid doc = true.
Proof.
  assert (forall l, Forall (fun d => json_valid d = true) l -> json_valid (JArr l) = true) as L.
  { intros l H. cbn. induction H as [|x l Hx _ IH]; cbn; [done|]. by rewrite Hx. }
  induction v as [| | | | | |l F|l F|d F|d F] using pyval_nested_ind; intros doc H; cbn in H; inv_ok; try done.
  - apply L. by eapply rmap_Forall_out.
  - apply L. by eapply rmap_Forall_out.
  - assert (Forall (fun kv => json_valid kv.2 = true) (if sorted then sort_keys v else v)) as G.
    { assert (Forall (fun kv => json_valid kv.2 = true) v) as G.
      { eapply rmap_Forall_out; [|exact E]. eapply Forall_impl; [exact F|]. intros [[k|] x] Hx y; cbn in *; [|done].
        intros Hy. inv_ok. by apply Hx. }
      destruct sorted; [by rewrite sort_keys_perm|done]. }
    clear -G. cbn. induction G as [|[k x] l Hx _ IH]; cbn; [done|]. cbn in Hx. by rewrite Hx.
Qed.

Lemma existsb_perm {A} (p : A -> bool) l l' : l ≡ₚ l' -> existsb p l = existsb p l'.
Proof. induction 1 as [|x l l' _ IH|x y l|l1 l2 l3 _ IH1 _ IH2]; cbn; [done|by rewrite IH| |congruence]. by destruct (p x), (p y). Qed.

Lemma json_dump_surrogates sorted v : forall doc, json_dump sorted v = Ok doc -> doc_surrogates doc = val_surrogates v.
Proof.
  assert (forall l ys, Forall (fun x => forall y, json_dump sorted x = Ok y -> doc_surrogates y = val_surrogates x) l ->
    rmap (json_dump sorted) l = Ok ys -> existsb doc_surrogates ys = existsb val_surrogates l) as L.
  { intros l ys F. revert ys. induction F as [|x l H _ IH]; intros ys E'; cbn in E'; inv_ok; [done|].
    cbn. by rewrite (H _ eq_refl), (IH _ eq_refl). }
  induction v as [| | | | | |l F|l F|d F|d F] using pyval_nested_ind; intros doc H; cbn in H; inv_ok; try done.
  - by apply L.
  - by apply L.
  - cbn [doc_surrogates val_surrogates].
    assert (existsb (fun kv : pystr * jdoc => match kv with (k, x) => surrogates k || doc_surrogates x end) v
      = existsb (fun kv => match kv with (k, x) => match k with KStr s => surrogates s | KOther _ => false end || val_surrogates x end) d) as <-.
    { clear -E F. revert v E. induction F as [|[[k|] x] d Hx _ IH]; intros v E; cbn in E; inv_ok; try done.
      cbn in Hx. cbn [existsb]. erewrite Hx by eassumption. by rewrite (IH _ eq_refl). }
    apply existsb_perm. destruct sorted; [apply sort_keys_perm|done].
Qed.

(** Whether a value can be dumped does not depend on the order of the keys. *)
Lemma json_dump_sorted v : forall doc, json_dump false v = Ok doc -> exists doc', json_dump true v = Ok doc'.
Proof.
  assert (forall {A B} (f g : A -> result json_exn B) l ys,
    Forall (fun x => forall y, f x = Ok y -> exists y', g x = Ok y') l -> rmap f l = Ok ys -> exists ys', rmap g l = Ok ys') as L.
  { intros A B f g l ys F. revert ys. induction F as [|x l H _ IH]; intros ys E'; [by exists []|]. rewrite rmap_cons in E'. inv_ok.
    destruct (H _ eq_refl) as [y' Hy], (IH _ eq_refl) as [ys' Hys]. exists (y' :: ys'). by rewrite rmap_cons, Hy; cbn [rbind]; rewrite Hys. }
  induction v as [| | |f| | |l F|l F|d F|d F] using pyval_nested_ind; intros doc H; try (by exists doc).
  - cbn in H. inv_ok. destruct (L _ _ _ (json_dump true) _ _ F E) as [ys Hy]. cbn. rewrite Hy. by eexists.
  - cbn in H. inv_ok. destruct (L _ _ _ (json_dump true) _ _ F E) as [ys Hy]. cbn. rewrite Hy. by eexists.
  - rewrite json_dump_dict in *. inv_ok. destruct (L _ _ (dump_item false) (dump_item true) d v) as [ys Hy]; [|exact E|].
    + eapply Forall_impl; [exact F|]. intros [[k|] x] Hx y; cbn in *; [|done]. intros Hy. inv_ok.
      destruct (Hx _ eq_refl) as [j ->]. by eexists.
    + rewrite Hy. by eexists.
Qed.
