(* ===== verification/CommitTheorems.v ===== *)
(** * The commit contract: lemmas and guarantees

    What the validators of [AtomicTurnCommit] accept, the round trip of a
    committed turn through its row, and what a commit can do to the database. *)

From S2P Require Import Prelude PyFloat FloatRound PyValue Json TurnExecution TurnExecutionTheorems StorageContracts EmotionalModels EmotionalTransition Relationship AtomicTurnCommit JsonText.

Local Open Scope Z_scope.

(** ** Freezing and thawing *)

Definition thaw (v : pyval) : pyval := _deep_unfreeze (_deep_freeze v).
Definition thaw_dict (d : pydict) : pydict := map (fun kv => (kv.1, thaw kv.2)) d.

Lemma map_ext_Forall {A B} (f g : A -> B) l : Forall (fun x => f x = g x) l -> map f l = map g l.
Proof. induction 1 as [|x l H _ IH]; cbn; [done|]. by rewrite H, IH. Qed.

Lemma existsb_ext_Forall {A} (f g : A -> bool) l : Forall (fun x => f x = g x) l -> existsb f l = existsb g l.
Proof. induction 1 as [|x l H _ IH]; cbn; [done|]. by rewrite H, IH. Qed.

Lemma existsb_map' {A B} (f : A -> B) (p : B -> bool) l : existsb p (map f l) = existsb (fun x => p (f x)) l.
Proof. induction l as [|x l IH]; cbn; [done|]. by rewrite IH. Qed.

Lemma thaw_PDict d : thaw (PDict d) = PDict (thaw_dict d).
Proof.
  unfold thaw. cbn [_deep_freeze _deep_unfreeze]. f_equal. unfold thaw_dict. rewrite map_map.
  apply map_ext. by intros [k x].
Qed.

Lemma thaw_PProxy d : thaw (PProxy d) = PDict (thaw_dict d).
Proof. apply thaw_PDict. Qed.

Lemma thaw_PList l : thaw (PList l) = PList (map thaw l).
Proof. unfold thaw. cbn [_deep_freeze _deep_unfreeze]. by rewrite map_map. Qed.

Lemma thaw_PTuple l : thaw (PTuple l) = PList (map thaw l).
Proof. apply thaw_PList. Qed.

Lemma freeze_thaw v : _deep_freeze (thaw v) = _deep_freeze v.
Proof.
  induction v as [| | | | | |l F|l F|d F|d F] using pyval_nested_ind; try done.
  - rewrite thaw_PList. cbn [_deep_freeze]. f_equal. rewrite map_map. by apply map_ext_Forall.
  - rewrite thaw_PTuple. cbn [_deep_freeze]. f_equal. rewrite map_map. by apply map_ext_Forall.
  - rewrite thaw_PDict. cbn [_deep_freeze]. f_equal. unfold thaw_dict. rewrite map_map. apply map_ext_Forall.
    eapply Forall_impl; [exact F|]. intros [k x] H. cbn in *. by rewrite H.
  - rewrite thaw_PProxy. cbn [_deep_freeze]. f_equal. unfold thaw_dict. rewrite map_map. apply map_ext_Forall.
    eapply Forall_impl; [exact F|]. intros [k x] H. cbn in *. by rewrite H.
Qed.

Lemma forbidden_thaw ks v : _has_forbidden ks (thaw v) = _has_forbidden ks v.
Proof.
  induction v as [| | | | | |l F|l F|d F|d F] using pyval_nested_ind; try done;
    rewrite ?thaw_PList, ?thaw_PTuple, ?thaw_PDict, ?thaw_PProxy; unfold thaw_dict; cbn [_has_forbidden];
    rewrite existsb_map'; apply existsb_ext_Forall; try exact F;
    (eapply Forall_impl; [exact F|]); intros [k x] H; cbn in *; by rewrite H.
Qed.

Lemma rmap_map_ext {E A B} (f g : A -> result E B) (h : A -> A) l ys :
  Forall (fun x => forall y, f x = Ok y -> g (h x) = Ok y) l -> rmap f l = Ok ys -> rmap g (map h l) = Ok ys.
Proof.
  intros F. revert ys. induction F as [|x l H _ IH]; intros ys E'; [done|]. rewrite rmap_cons in E'. inv_ok.
  cbn [map]. rewrite rmap_cons, (H _ eq_refl). cbn [rbind]. by rewrite (IH _ eq_refl).
Qed.

(** Thawing keeps the JSON text. *)
Lemma json_dump_thaw sorted v : forall doc, json_dump sorted v = Ok doc -> json_dump sorted (thaw v) = Ok doc.
Proof.
  induction v as [| | | | | |l F|l F|d F|d F] using pyval_nested_ind; intros doc H; try done.
  - rewrite thaw_PList. cbn [json_dump] in *. inv_ok. by rewrite (rmap_map_ext _ _ _ _ _ F E).
  - rewrite thaw_PTuple. cbn [json_dump] in *. inv_ok. by rewrite (rmap_map_ext _ _ _ _ _ F E).
  - rewrite thaw_PDict, json_dump_dict in *. inv_ok. unfold thaw_dict.
    rewrite (rmap_map_ext (dump_item sorted) (dump_item sorted) (fun kv => (kv.1, thaw kv.2)) d v); [done| |done].
    eapply Forall_impl; [exact F|]. intros [[k|] x] Hx y; cbn in *; [|done]. intros Hy. inv_ok. by rewrite (Hx _ eq_refl).
Qed.

Lemma dget_thaw d k : dget (thaw_dict d) k = thaw <$> dget d k.
Proof.
  induction d as [|[k' v] d IH]; [done|]. cbn [thaw_dict map fst snd]. rewrite !dget_cons. case_bool_decide; [done|].
  exact IH.
Qed.

Lemma dindex_thaw d k : dindex (thaw_dict d) k = thaw (dindex d k).
Proof. unfold dindex. rewrite dget_thaw. by destruct (dget d k). Qed.

Lemma thaw_keys d : (thaw_dict d).*1 = d.*1.
Proof. induction d as [|[k v] d IH]; cbn; [done|]. f_equal. exact IH. Qed.

Lemma has_unknown_keys {V W} allowed (d : list (pykey * V)) (d' : list (pykey * W)) :
  d.*1 = d'.*1 -> has_unknown allowed d = has_unknown allowed d'.
Proof.
  unfold has_unknown. revert d'. induction d as [|[k v] d IH]; intros [|[k' v'] d']; cbn; try done.
  intros [= -> H]. by rewrite (IH _ H).
Qed.

Lemma uuid_thaw v : _is_valid_uuid (thaw v) = _is_valid_uuid v.
Proof. by destruct v. Qed.

(** ** What the validators accept *)

Section Accepted.
Context `{FR : FloatRepr}.

(** A value whose JSON text, with spaces, is within a bound. *)
Definition text_within (v : pyval) (max : nat) : Prop :=
  exists doc n, json_dump false v = Ok doc /\ utf8_len (render_spaced doc) = Some n /\ (n <= max)%nat.

Lemma serialized_iff v code max : serialized_within v code max = Ok tt <-> text_within v max.
Proof.
  unfold serialized_within, text_within. destruct (json_dump false v) as [doc|] eqn:E.
  2: { split; [done|]. by intros (? & ? & ? & _). }
  destruct (utf8_len (render_spaced doc)) as [n|] eqn:L.
  2: { split; [done|]. intros (? & ? & [= <-] & ? & _). congruence. }
  unfold raise_if. destruct (Nat.ltb_spec max n) as [B|B]; split; intros H.
  - done.
  - destruct H as (? & ? & [= <-] & H & ?). rewrite L in H. injection H as <-. lia.
  - by exists doc, n.
  - done.
Qed.

Lemma text_within_thaw v max : text_within v max -> text_within (thaw v) max.
Proof. intros (doc & n & E & L & B). exists doc, n. by rewrite (json_dump_thaw _ _ _ E). Qed.

Lemma text_within_dict v d max : text_within v max -> as_mapping v = Some d -> v = PDict d.
Proof. intros (doc & n & E & _) M. destruct v; try done; cbn in M; by simplify_eq. Qed.

(** An accepted replay payload. *)
Record replay_ok (d : pydict) (response : pystr) (expected : option pystr) : Prop := {
  ro_forbidden : _has_forbidden FORBIDDEN_PAYLOAD_KEYS (PDict d) = false;
  ro_keys : has_unknown REPLAY_PAYLOAD_ALLOWED_KEYS d = false;
  ro_response : dget d (u "response") = Some (PStr response);
  ro_message_id : _is_valid_uuid (dindex d (u "message_id")) = true;
  ro_request_id : forall v, dget d (u "request_id") = Some v ->
    exists s, v = PStr s /\ uuid_match s = true /\ (forall e, expected = Some e -> s = e);
  ro_bytes : text_within (PDict d) _MAX_REPLAY_PAYLOAD_BYTES }.

Lemma validate_replay_iff p expected d response :
  _validate_replay_payload p expected = Ok (d, response) <-> p = PDict d /\ replay_ok d response expected.
Proof.
  unfold _validate_replay_payload. split.
  - intros H. destruct (as_mapping p) as [d'|] eqn:M; [|done]. inv_ok. destruct v, v0.
    destruct (dget d' (u "response")) as [[| | | |r| | | | |]|] eqn:R; try done.
    unfold raise_if in H. inv_ok. destruct v1. apply serialized_iff in E1.
    pose proof (text_within_dict _ _ _ E1 M) as ->. split; [done|]. apply negb_false_iff in G2. constructor; try done.
    intros v Hv. rewrite Hv in G1. apply orb_false_iff in G1 as [V Q]. apply negb_false_iff in V.
    destruct v as [| | | |s| | | | |]; try done. exists s. split; [done|]. split; [done|]. intros e ->.
    by apply negb_false_iff, str_eqb_eq in Q.
  - intros [-> [F K R M Q B]]. cbn [as_mapping]. rewrite F, K. cbn [raise_if rbind]. rewrite R, M. cbn [negb raise_if rbind].
    assert (match dget d (u "request_id") with
      | Some rid => negb (_is_valid_uuid rid) || match expected with
          | Some e => match rid with PStr s => negb (str_eqb s e) | _ => false end | None => false end
      | None => false end = false) as ->.
    { destruct (dget d (u "request_id")) as [v|]; [|done]. destruct (Q v eq_refl) as (s & -> & V & E). cbn. rewrite V. cbn.
      destruct expected as [e|]; [|done]. rewrite (E e eq_refl). apply negb_false_iff. by apply str_eqb_eq. }
    cbn [raise_if rbind]. rewrite (proj2 (serialized_iff (PDict d) _ _) B). done.
Qed.

Lemma replay_ok_thaw d response expected : replay_ok d response expected -> replay_ok (thaw_dict d) response expected.
Proof.
  intros [F K R M Q B]. constructor.
  - by rewrite <- thaw_PDict, forbidden_thaw.
  - rewrite <- K. apply has_unknown_keys, thaw_keys.
  - by rewrite dget_thaw, R.
  - by rewrite dindex_thaw, uuid_thaw.
  - intros v Hv. rewrite dget_thaw in Hv. destruct (dget d (u "request_id")) as [w|]; [|done].
    destruct (Q w eq_refl) as (s & -> & V & E). exists s. injection Hv as <-. done.
  - rewrite <- thaw_PDict. by apply text_within_thaw.
Qed.

End Accepted.

(** ** Committed turns *)

Record ref_ok (r : CommittedOutboxRef) : Prop := {
  rf_id : uuid_match (or_id r) = true;
  rf_type : is_event_type (or_event_type r) = true;
  rf_key : is_identifier (or_idempotency_key r) = true;
  rf_request : uuid_match (or_turn_request_id r) = true;
  rf_version : 0 < or_contract_version r }.

Record committed_ok `{FloatRepr} (t : CommittedTurn) : Prop := {
  co_user : ct_user_id t <> [];
  co_request : uuid_match (ct_request_id t) = true;
  co_revision : 0 <= ct_committed_revision t;
  co_user_message : ct_user_message_id t = ct_request_id t;
  co_assistant : uuid_match (ct_assistant_message_id t) = true;
  co_payload : exists d response, ct_replay_payload t = _deep_freeze (PDict d)
    /\ replay_ok d response (Some (ct_request_id t))
    /\ dget d (u "message_id") = Some (PStr (ct_assistant_message_id t));
  co_events : Forall ref_ok (ct_outbox_events t);
  co_created : ct_created_at t <> [];
  co_completed : ct_completed_at t <> [] }.

Lemma parse_ref_sound v r : parse_outbox_ref v = Ok r -> ref_ok r.
Proof.
  unfold parse_outbox_ref. destruct (as_mapping v) as [d|]; [|done]. intros H. inv_ok.
  destruct (dindex d (u "id")) as [| | | |i| | | | |]; try done.
  destruct (dindex d (u "event_type")) as [| | | |ty| | | | |]; try done. inv_ok.
  destruct (dindex d (u "turn_request_id")) as [| | | |rq| | | | |]; try done. inv_ok.
  destruct (dindex d (u "contract_version")) as [| |z| | | | | | |]; try done. inv_ok.
  repeat match goal with K : negb _ = false |- _ => apply negb_false_iff in K end.
  unfold _validate_idempotency_key in *. destruct (dindex d (u "idempotency_key")); try done. inv_ok.
  constructor; try done. by apply Z.ltb_lt.
Qed.

Lemma parse_ref_dict r : ref_ok r -> parse_outbox_ref (PDict (ref_dict r)) = Ok r.
Proof.
  intros [H1 H2 H3 H4 H5%Z.ltb_lt]. unfold parse_outbox_ref. cbn [as_mapping].
  replace (has_missing _OUTBOX_REF_FIELDS (ref_dict r)) with false by reflexivity.
  replace (has_unknown _OUTBOX_REF_FIELDS (ref_dict r)) with false by reflexivity. cbn [raise_if rbind].
  change (dindex (ref_dict r) (u "id")) with (PStr (or_id r)).
  change (dindex (ref_dict r) (u "event_type")) with (PStr (or_event_type r)).
  change (dindex (ref_dict r) (u "idempotency_key")) with (PStr (or_idempotency_key r)).
  change (dindex (ref_dict r) (u "turn_request_id")) with (PStr (or_turn_request_id r)).
  change (dindex (ref_dict r) (u "contract_version")) with (PInt (or_contract_version r)).
  cbv beta iota. rewrite H1, H2. cbn [negb raise_if rbind _validate_idempotency_key]. rewrite H3. cbn [rbind].
  rewrite H4. cbn [negb raise_if rbind]. rewrite H5. cbn [negb raise_if rbind]. by destruct r.
Qed.

Lemma nonempty_str_iff v code s : nonempty_str v code = Ok s <-> v = PStr s /\ s <> [].
Proof.
  destruct v; cbn; try (split; [done|]; by intros [? _]). case_bool_decide as B; split; intros K; simplify_eq; try done;
    destruct K as [[= <-] N]; [by destruct N|done].
Qed.

Lemma validate_uuid_iff v name s : _validate_uuid v name = Ok s <-> v = PStr s /\ uuid_match s = true.
Proof.
  destruct v; cbn; try (split; [done|]; by intros [? _]). destruct (uuid_match s0) eqn:E; split; intros K; simplify_eq; try done.
  - by destruct K as [[= <-] ?].
  - destruct K as [[= <-] ?]. congruence.
Qed.

(** Projections of a record just built. *)
Ltac ct_fields :=
  cbn [CommittedTurn_init ct_user_id ct_request_id ct_committed_revision ct_user_message_id ct_assistant_message_id
       ct_replay_payload ct_outbox_events ct_created_at ct_completed_at].

Section Parse.
Context `{FR : FloatRepr}.

(** A successful answer, by its fields. *)
Lemma parse_result_inv v t : parse_commit_turn_result v = Ok t ->
  committed_ok t /\ exists d, as_mapping v = Some d /\ dget d (u "error") = None
    /\ has_unknown _SUCCESS_FIELDS d = false /\ has_missing _SUCCESS_FIELDS d = false
    /\ dindex d (u "user_id") = PStr (ct_user_id t) /\ dindex d (u "request_id") = PStr (ct_request_id t)
    /\ dindex d (u "committed_revision") = PInt (ct_committed_revision t)
    /\ ct_replay_payload t = _deep_freeze (dindex d (u "replay_payload"))
    /\ exists replay response, dindex d (u "replay_payload") = PDict replay
       /\ replay_ok replay response (Some (ct_request_id t))
       /\ dget replay (u "message_id") = Some (PStr (ct_assistant_message_id t)).
Proof.
  unfold parse_commit_turn_result. destruct (as_mapping v) as [d|]; [|done].
  destruct (dget d (u "error")) eqn:De; [done|]. intros H. inv_ok.
  destruct (dindex d (u "committed_revision")) as [| |z| | | | | | |] eqn:Dz; try done. inv_ok.
  destruct (dindex d (u "user_message_id")) as [| | | |um| | | | |]; try done. inv_ok.
  destruct (dindex d (u "assistant_message_id")) as [| | | |am| | | | |]; try done. inv_ok.
  destruct (dindex d (u "outbox_events")) as [| | | | |raw| | | |] eqn:Do; try done. inv_ok.
  apply nonempty_str_iff in E1 as [Du Nu], E3 as [Dc Nc], E4 as [Dd Nd]. apply validate_uuid_iff in E2 as [Dr Vr].
  destruct v7 as [replay response]. apply validate_replay_iff in E0 as [Dp Rp]. cbn [fst snd] in *.
  repeat match goal with K : negb _ = false |- _ => apply negb_false_iff in K end.
  apply str_eqb_eq in G2 as ->.
  assert (dget replay (u "message_id") = Some (PStr am)) as Dm.
  { destruct (dget replay (u "message_id")) as [[| | | |m| | | | |]|]; try done. by apply negb_false_iff, str_eqb_eq in G3 as ->. }
  split.
  - constructor; ct_fields; try done; [by apply Z.ltb_ge| |].
    + by exists replay, response.
    + apply rmap_ok_Forall2 in E. clear -E. induction E; constructor; eauto using parse_ref_sound.
  - exists d. rewrite Dp. ct_fields. do 8 (split; [done|]). by exists replay, response.
Qed.

Lemma rmap_map_ok {E A B} (f : B -> result E A) (g : A -> B) l :
  Forall (fun x => f (g x) = Ok x) l -> rmap f (map g l) = Ok l.
Proof. induction 1 as [|x l H _ IH]; [done|]. cbn [map]. rewrite rmap_cons, H. cbn [rbind]. by rewrite IH. Qed.

Lemma parse_to_db_row t : committed_ok t -> parse_commit_turn_result (PDict (to_db_row t)) = Ok t.
Proof.
  intros [Nu Vr Zr Um Va (d & response & Pf & Rp & Dm) Fe Nc Nd].
  assert (_deep_unfreeze (ct_replay_payload t) = PDict (thaw_dict d)) as Pt by (rewrite Pf; apply thaw_PDict).
  pose proof (replay_ok_thaw _ _ _ Rp) as Rt.
  unfold parse_commit_turn_result. cbn [as_mapping].
  replace (dget (to_db_row t) (u "error")) with (@None pyval) by reflexivity.
  replace (has_missing _SUCCESS_FIELDS (to_db_row t)) with false by reflexivity.
  replace (has_unknown _SUCCESS_FIELDS (to_db_row t)) with false by reflexivity. cbn [raise_if rbind].
  change (dindex (to_db_row t) (u "user_id")) with (PStr (ct_user_id t)).
  rewrite (proj2 (nonempty_str_iff _ _ (ct_user_id t)) (conj eq_refl Nu)). cbn [rbind].
  change (dindex (to_db_row t) (u "request_id")) with (PStr (ct_request_id t)).
  rewrite (proj2 (validate_uuid_iff _ (u "request_id") (ct_request_id t)) (conj eq_refl Vr)). cbn [rbind].
  change (dindex (to_db_row t) (u "committed_revision")) with (PInt (ct_committed_revision t)). cbv iota.
  rewrite (proj2 (Z.ltb_ge _ _) Zr). cbn [raise_if rbind].
  change (dindex (to_db_row t) (u "user_message_id")) with (PStr (ct_user_message_id t)). cbv iota.
  rewrite (proj2 (str_eqb_eq _ _) Um). cbn [negb raise_if rbind].
  change (dindex (to_db_row t) (u "assistant_message_id")) with (PStr (ct_assistant_message_id t)). cbv iota.
  rewrite Va. cbn [negb raise_if rbind].
  change (dindex (to_db_row t) (u "replay_payload")) with (_deep_unfreeze (ct_replay_payload t)). rewrite Pt.
  rewrite (proj2 (validate_replay_iff _ _ _ _) (conj eq_refl Rt)). cbn [rbind fst].
  rewrite dget_thaw, Dm. cbn [fmap option_fmap option_map thaw _deep_freeze _deep_unfreeze].
  rewrite (proj2 (str_eqb_eq _ _) eq_refl). cbn [negb raise_if rbind].
  change (dindex (to_db_row t) (u "outbox_events")) with (PList (map (fun r => PDict (ref_dict r)) (ct_outbox_events t))). cbv iota.
  rewrite (rmap_map_ok parse_outbox_ref (fun r => PDict (ref_dict r)))
    by (eapply Forall_impl; [exact Fe|apply parse_ref_dict]). cbn [rbind].
  change (dindex (to_db_row t) (u "created_at")) with (PStr (ct_created_at t)).
  rewrite (proj2 (nonempty_str_iff _ _ (ct_created_at t)) (conj eq_refl Nc)). cbn [rbind].
  change (dindex (to_db_row t) (u "completed_at")) with (PStr (ct_completed_at t)).
  rewrite (proj2 (nonempty_str_iff _ _ (ct_completed_at t)) (conj eq_refl Nd)). cbn [rbind].
  f_equal. unfold CommittedTurn_init. rewrite <- thaw_PDict, freeze_thaw, <- Pf. by destruct t.
Qed.

End Parse.

(** ** Accepted snapshots *)

Lemma int_in_unit z : -1 <= z <= 1 -> exists f, int_to_float z = Some f /\ isfinite f = true /\ in_range (-1) 1 f = true
  /\ (0 <= z -> in_range 0 1 f = true).
Proof.
  intros H. assert (z = -1 \/ z = 0 \/ z = 1) as [-> | [-> | ->]] by lia; (eexists; split; [vm_compute; reflexivity|]);
    vm_compute; repeat split; by intros [].
Qed.

Lemma num_finite_float n : num_finite n = true -> exists f, num_to_float n = Some f /\ isfinite f = true.
Proof. unfold num_finite. destruct (num_to_float n) as [f|]; [|done]. eauto. Qed.

(** A bounded field holds the float the domain reads. *)
Lemma bounded_as_float lo v :
  (lo = (-1)%float \/ lo = 0%float) -> bounded lo 1 v = true -> exists f, as_float v = Some f /\ in_range lo 1 f = true.
Proof.
  intros Hlo. unfold bounded. destruct (as_number v) as [n|] eqn:N; [|done]. rewrite !andb_true_iff, !negb_true_iff.
  intros [[(f & Tf & Ff)%num_finite_float L1] L2]. destruct v as [| |z|g| | | | | |]; try done; cbn in N; simplify_eq; cbn in Tf.
  - assert (-1 <= z <= 1 /\ (lo = 0%float -> 0 <= z)) as [Hz H0].
    { cbn [num_ltb] in L1, L2. change (is_nan 1) with false in L2. change (is_infinity 1) with false in L2. cbv iota in L2.
      apply Z.ltb_ge in L2. cbn [num_val] in L2. change (fval 1) with (1 * 2 ^ SC) in L2. apply Z.mul_le_mono_pos_r in L2; [|done].
      destruct Hlo as [-> | ->]; cbv [is_nan is_infinity] in L1;
        [change (is_nan (-1)) with false in L1; change (is_infinity (-1)) with false in L1
        |change (is_nan 0) with false in L1; change (is_infinity 0) with false in L1]; cbv iota in L1;
        apply Z.ltb_ge in L1; cbn [num_val] in L1.
      - change (fval (-1)) with (-1 * 2 ^ SC) in L1. apply Z.mul_le_mono_pos_r in L1; [|done]. split; [lia|]. intros K.
        by apply (f_equal (fun x => (x <? 0)%float)) in K.
      - change (fval 0) with (0 * 2 ^ SC) in L1. apply Z.mul_le_mono_pos_r in L1; [|done]. lia. }
    destruct (int_in_unit z Hz) as (f' & I & F & R & R0). exists f'. cbn. rewrite I, F. split; [done|].
    destruct Hlo as [-> | ->]; auto.
  - cbn in Tf. injection Tf as <-. exists g. split; [cbn; by rewrite Ff|].
    cbn [num_ltb] in L1, L2. apply negb_false_iff. rewrite <- range_test; [by rewrite L1, L2| |by destruct Hlo as [-> | ->]|done].
    by apply isfinite_not_nan.
Qed.

Lemma timestamp_as_float v :
  timestamp_positive v = true -> exists f, as_float v = Some f /\ isfinite f && (0 <? f)%float = true.
Proof.
  unfold timestamp_positive. destruct (as_number v) as [n|] eqn:N; [|done]. rewrite andb_true_iff, negb_true_iff.
  intros [(f & Tf & Ff)%num_finite_float L]. exists f.
  assert (as_float v = Some f) as Ef.
  { destruct v as [| |z|g| | | | | |]; try done; cbn in N; simplify_eq; cbn in Tf; [cbn; by rewrite Tf, Ff|].
    injection Tf as <-. cbn. by rewrite Ff. }
  split; [done|]. rewrite Ff. cbn [andb]. rewrite ltb_fval by done. apply Z.ltb_lt. change (fval 0) with 0.
  destruct n as [z|g]; cbn in Tf.
  - apply int_to_float_sgn in Tf. cbn in L. apply Z.leb_gt in L. lia.
  - injection Tf as <-. rewrite num_leb_val in L by (try apply usable_const; try done; by eexists).
    apply Z.leb_gt in L. exact L.
Qed.

Definition snapshot_fields (field : snapshot_field) : list pystr :=
  match field with emotional_state_field => EMOTIONAL_SNAPSHOT_FIELDS | relationship_state_field => RELATIONSHIP_SNAPSHOT_FIELDS end.

(** The values of the fields but the version and the timestamp. *)
Definition values_ok (field : snapshot_field) (d : pydict) : bool :=
  match field with
  | emotional_state_field =>
      forallb (fun name => bounded (-1) 1 (dindex d name)) [u "pleasure"; u "arousal"; u "dominance"]
      && forallb (fun name => bounded 0 1 (dindex d name))
           [u "libido"; u "aggression"; u "connection"; u "energy"; u "tension"]
      && match dindex d (u "coping_mode") with
         | PStr s => str_in s [u "HEALTHY"; u "DEFENSIVE"; u "DISSOCIATED"; u "MANIC"]
         | _ => false end
  | relationship_state_field =>
      forallb (fun name => bounded 0 1 (dindex d name)) [u "trust"; u "affection"; u "tension"]
      && match as_sequence (dindex d (u "triggers")) with
         | Some l => (length l <=? 32)%nat && forallb trigger_accepted l
                     && (length (normalized_triggers l) =? length (remove_dups (normalized_triggers l)))%nat
         | None => false
         end
  end.

Record snapshot_ok `{FloatRepr} (field : snapshot_field) (d : pydict) : Prop := {
  so_version : dget d (u "schema_version") = Some (PInt 1);
  so_forbidden : _has_forbidden SNAPSHOT_FORBIDDEN_KEYS (PDict d) = false;
  so_known : has_unknown (snapshot_fields field) d = false;
  so_complete : has_missing (snapshot_fields field) d = false;
  so_values : values_ok field d = true;
  so_timestamp : timestamp_positive (dindex d (u "timestamp")) = true;
  so_bytes : text_within (PDict d) _MAX_REPLAY_PAYLOAD_BYTES }.

Section Snapshots.
Context `{FR : FloatRepr}.

(** The checks of the field values, as one test. *)
Lemma values_check field d bad :
  (match field with
   | emotional_state_field =>
       raise_if (negb (forallb (fun name => bounded (-1) 1 (dindex d name)) [u "pleasure"; u "arousal"; u "dominance"])) bad ;;;
       raise_if (negb (forallb (fun name => bounded 0 1 (dindex d name))
         [u "libido"; u "aggression"; u "connection"; u "energy"; u "tension"])) bad ;;;
       raise_if (match dindex d (u "coping_mode") with
         | PStr s => negb (str_in s [u "HEALTHY"; u "DEFENSIVE"; u "DISSOCIATED"; u "MANIC"])
         | _ => true end) bad
   | relationship_state_field =>
       raise_if (negb (forallb (fun name => bounded 0 1 (dindex d name)) [u "trust"; u "affection"; u "tension"])) bad ;;;
       match as_sequence (dindex d (u "triggers")) with
       | None => Err bad
       | Some triggers =>
           raise_if (32 <? length triggers)%nat bad ;;;
           raise_if (negb (forallb trigger_accepted triggers)) bad ;;;
           raise_if (negb (length (normalized_triggers triggers) =? length (remove_dups (normalized_triggers triggers)))%nat) bad
       end
   end : result commit_exn unit) = if values_ok field d then Ok tt else Err bad.
Proof.
  destruct field; unfold values_ok.
  - destruct (forallb _ [u "pleasure"; _; _]); [|done]. destruct (forallb _ [u "libido"; _; _; _; _]); [|done].
    cbn [negb raise_if rbind andb]. destruct (dindex d (u "coping_mode")); try done. by destruct (str_in s _).
  - destruct (forallb _ [u "trust"; _; _]); [|done]. cbn [negb raise_if rbind andb].
    destruct (as_sequence _) as [l|]; [|done]. rewrite Nat.ltb_antisym. destruct (length l <=? 32)%nat; [|done].
    cbn [negb raise_if rbind andb]. destruct (forallb trigger_accepted l); [|done]. cbn [negb raise_if rbind andb].
    by destruct (_ =? _)%nat.
Qed.

Lemma validate_snapshot_iff p field :
  _validate_snapshot_payload p field = Ok tt <-> p = PNone \/ exists d, p = PDict d /\ snapshot_ok field d.
Proof.
  destruct (as_mapping p) as [d|] eqn:M.
  2: { destruct p; try done; (split; [intros; by (done || left)|]); intros [E|(d & E & _)]; done. }
  assert (p <> PNone) as Np by by intros ->.
  assert (_validate_snapshot_payload p field =
    match dget d (u "schema_version") with
    | Some (PInt version) =>
        let bad := CommitValidationError (u "invalid_" ++ field_text field) in
        raise_if (negb (version =? 1)) bad ;;;
        raise_if (_has_forbidden SNAPSHOT_FORBIDDEN_KEYS p) bad ;;;
        raise_if (has_unknown (snapshot_fields field) d || has_missing (snapshot_fields field) d) bad ;;;
        (if values_ok field d then Ok tt else Err bad) ;;;
        raise_if (negb (timestamp_positive (dindex d (u "timestamp")))) bad ;;;
        serialized_within p (u "invalid_" ++ field_text field) _MAX_REPLAY_PAYLOAD_BYTES
    | _ => Err (CommitValidationError (u "invalid_" ++ field_text field))
    end) as ->.
  { unfold _validate_snapshot_payload, snapshot_fields. rewrite <- values_check, M. by destruct p. }
  split.
  - intros H. right. destruct (dget d (u "schema_version")) as [[| |z| | | | | | |]|] eqn:V; try done. cbv zeta in H. inv_ok.
    repeat match goal with K : negb _ = false |- _ => apply negb_false_iff in K end.
    repeat match goal with K : unit |- _ => destruct K end.
    apply serialized_iff in H. pose proof (text_within_dict _ _ _ H M) as ->.
    match goal with K : (z =? 1) = true |- _ => apply Z.eqb_eq in K as -> end.
    match goal with K : _ || _ = false |- _ => apply orb_false_iff in K as [? ?] end. exists d. split; [done|]. by constructor.
  - intros [->|(d' & -> & [V F K C W T B])]; [done|]. cbn in M. injection M as <-. rewrite V, F, K, C, W, T.
    cbn [Z.eqb Pos.eqb negb orb raise_if rbind]. cbv zeta. by apply serialized_iff.
Qed.
End Snapshots.

(** ** Reading accepted snapshots *)

Lemma has_unknown_subset {V} A B (d : list (pykey * V)) :
  forallb (fun s => str_in s B) A = true -> has_unknown A d = false -> has_unknown B d = false.
Proof.
  rewrite forallb_forall, !has_unknown_false. intros S H k v Hin. destruct (H k v Hin) as (s & -> & Hs). exists s.
  split; [done|]. apply str_in_elem, S. by rewrite <- list_elem_of_In.
Qed.

Lemma has_missing_subset {V} A B (d : list (pykey * V)) :
  forallb (fun s => str_in s A) B = true -> has_missing A d = false -> has_missing B d = false.
Proof.
  unfold has_missing. rewrite !existsb_false_forallb, !forallb_forall. intros S H x Hx.
  apply H. rewrite <- list_elem_of_In. by apply str_in_elem, S.
Qed.

Lemma missing_has {V} A (d : list (pykey * V)) k : has_missing A d = false -> str_in k A = true -> dhas d k = true.
Proof.
  unfold has_missing. rewrite existsb_false_forallb, forallb_forall. intros H K%str_in_elem.
  rewrite list_elem_of_In in K. apply H in K. by rewrite negb_involutive in K.
Qed.

Lemma forallb_In {A} (p : A -> bool) l x : forallb p l = true -> x ∈ l -> p x = true.
Proof. rewrite forallb_forall. intros H Hx. apply H. by rewrite <- list_elem_of_In. Qed.

Section ReadBack.
Context `{FR : FloatRepr}.

Lemma emotional_reads d : snapshot_ok emotional_state_field d ->
  exists s, EmotionalStateV1_from_dict (PDict d) = Ok s /\ state_wf s = true.
Proof.
  intros [V F K C W T B]. unfold values_ok in W. apply andb_true_iff in W as [[W1 W2]%andb_true_iff W3].
  assert (forall k, k ∈ [u "pleasure"; u "arousal"; u "dominance"] ->
    exists f, as_float (dindex d k) = Some f /\ in_range (-1) 1 f = true) as P.
  { intros k Hk. apply bounded_as_float; [by left|]. exact (forallb_In _ _ _ W1 Hk). }
  assert (forall k, k ∈ [u "libido"; u "aggression"; u "connection"; u "energy"; u "tension"] ->
    exists f, as_float (dindex d k) = Some f /\ in_range 0 1 f = true) as D.
  { intros k Hk. apply bounded_as_float; [by right|]. exact (forallb_In _ _ _ W2 Hk). }
  destruct (P (u "pleasure")) as (p & P1 & R1); [by left|]. destruct (P (u "arousal")) as (a & P2 & R2); [by right; left|].
  destruct (P (u "dominance")) as (o & P3 & R3); [by right; right; left|].
  destruct (D (u "libido")) as (l & P4 & R4); [by left|]. destruct (D (u "aggression")) as (g & P5 & R5); [by right; left|].
  destruct (D (u "connection")) as (c & P6 & R6); [by right; right; left|].
  destruct (D (u "energy")) as (e & P7 & R7); [by right; right; right; left|].
  destruct (D (u "tension")) as (t & P8 & R8); [by right; right; right; right; left|].
  destruct (timestamp_as_float _ T) as (ts & P9 & R9).
  destruct (dindex d (u "coping_mode")) as [| | | |m| | | | |] eqn:Dm; try done.
  exists (mkState p a o l g c e t m ts 1).
  assert (state_wf (mkState p a o l g c e t m ts 1) = true) as Wf.
  { unfold state_wf. cbn [schema_version pleasure arousal dominance libido aggression connection energy tension coping_mode timestamp].
    rewrite R1, R2, R3, R4, R5, R6, R7, R8, R9. cbn [Z.eqb andb]. change VALID_COPING_MODES with [u "HEALTHY"; u "DEFENSIVE"; u "DISSOCIATED"; u "MANIC"].
    by rewrite W3. }
  split; [|done]. cbn [EmotionalStateV1_from_dict].
  rewrite (has_unknown_subset EMOTIONAL_SNAPSHOT_FIELDS _STATE_FIELDS d) by (done || vm_compute; reflexivity).
  assert (dhas d (u "schema_version") = true) as -> by (apply dhas_dget; eauto). cbn [negb].
  rewrite (has_missing_subset EMOTIONAL_SNAPSHOT_FIELDS _ d) by (done || vm_compute; reflexivity).
  apply create_iff. split; [|done]. unfold args_denote.
  cbn [a_pleasure a_arousal a_dominance a_libido a_aggression a_connection a_energy a_tension a_coping_mode a_timestamp
    a_schema_version schema_version pleasure arousal dominance libido aggression connection energy tension coping_mode timestamp].
  split_and!; try done. unfold dindex. by rewrite V.
Qed.

Lemma triggers_read l :
  (length l <=? 32)%nat && forallb trigger_accepted l
    && (length (normalized_triggers l) =? length (remove_dups (normalized_triggers l)))%nat = true ->
  exists ts, l = map PStr ts /\ triggers_wf ts.
Proof.
  rewrite !andb_true_iff. intros [[L A] N]. apply Nat.leb_le in L. apply Nat.eqb_eq, length_remove_dups in N.
  assert (exists ts, l = map PStr ts /\ Forall trigger_ok ts /\ normalized_triggers l = ts) as (ts & -> & Ft & En).
  { clear L N. induction l as [|v l IH]; [by exists []|]. cbn [forallb] in A. apply andb_true_iff in A as [Av A].
    destruct (IH A) as (ts & -> & Ft & En). destruct v as [| | | |s| | | | |]; try done. cbn [trigger_accepted] in Av.
    rewrite !andb_true_iff in Av. destruct Av as [[S%str_eqb_eq Ne] Ls]. apply negb_true_iff, bool_decide_eq_false in Ne.
    apply Nat.leb_le in Ls. exists (s :: ts). split; [done|]. split.
    - constructor; [|done]. by split; [|split].
    - unfold normalized_triggers in *. cbn [omap list_omap map]. rewrite <- S. f_equal. exact En. }
  exists ts. split; [done|]. rewrite length_map in L. rewrite En in N. by split_and!.
Qed.

Lemma relationship_reads d : snapshot_ok relationship_state_field d ->
  exists s, RelationshipStateV1_from_dict (PDict d) = Ok s /\ rel_wf s.
Proof.
  intros [V F K C W T B]. unfold values_ok in W. apply andb_true_iff in W as [W1 W2].
  assert (forall k, k ∈ [u "trust"; u "affection"; u "tension"] ->
    exists f, as_float (dindex d k) = Some f /\ in_range 0 1 f = true) as D.
  { intros k Hk. apply bounded_as_float; [by right|]. exact (forallb_In _ _ _ W1 Hk). }
  destruct (D (u "trust")) as (t & P1 & R1); [by left|]. destruct (D (u "affection")) as (a & P2 & R2); [by right; left|].
  destruct (D (u "tension")) as (n & P3 & R3); [by right; right; left|].
  destruct (timestamp_as_float _ T) as (ts & P9 & R9).
  destruct (as_sequence (dindex d (u "triggers"))) as [l|] eqn:S; [|done].
  destruct (triggers_read l W2) as (tg & -> & Wt).
  assert (_validate_triggers (dindex d (u "triggers")) = Ok tg) as Vt.
  { destruct (dindex d (u "triggers")); try done; cbn in S; simplify_eq; by apply validate_triggers_self. }
  exists (mkRel ts 1 t a n tg).
  assert (rel_wf (mkRel ts 1 t a n tg)) as Wf.
  { unfold rel_wf. cbn [rel_timestamp rel_schema_version trust affection rel_tension triggers]. by split_and!. }
  split; [|done]. cbn [RelationshipStateV1_from_dict].
  rewrite (has_unknown_subset RELATIONSHIP_SNAPSHOT_FIELDS _RELATIONSHIP_FIELDS d) by (done || vm_compute; reflexivity).
  assert (dhas d (u "schema_version") = true) as -> by (apply dhas_dget; eauto). cbn [negb].
  rewrite (has_missing_subset RELATIONSHIP_SNAPSHOT_FIELDS _ d) by (done || vm_compute; reflexivity).
  apply rel_create_iff. split; [|done]. unfold rel_denote.
  cbn [a_rel_timestamp a_rel_schema_version a_trust a_affection a_rel_tension a_triggers rel_timestamp rel_schema_version
    trust affection rel_tension triggers].
  split_and!; try done. unfold dindex. by rewrite V.
Qed.

End ReadBack.

(** ** Accepted inputs *)

Record event_ok `{FloatRepr} (v : pyval) (ty : pystr) (d : pydict) (key : pystr) : Prop := {
  eo_shape : as_sequence v = Some [PStr ty; PDict d; PStr key];
  eo_type : is_event_type ty = true;
  eo_key : is_identifier key = true;
  eo_keys : has_unknown OUTBOX_PAYLOAD_ALLOWED_KEYS d = false;
  eo_forbidden : _has_forbidden FORBIDDEN_PAYLOAD_KEYS (PDict d) = false;
  eo_values : forallb outbox_item_ok d = true;
  eo_bytes : text_within (PDict d) _MAX_OUTBOX_PAYLOAD_BYTES }.

Definition optional_snapshot `{FloatRepr} (field : snapshot_field) (v : pyval) : Prop :=
  v = PNone \/ exists d, v = PDict d /\ snapshot_ok field d.

(** The input of a commit that passes every check before the RPC. *)
Record input_ok `{FloatRepr} (a : commit_input) (user request : pystr) (revision : Z) (message answer response : pystr)
    (events : list pyval) (replay : pydict) : Prop := {
  io_user : ci_user_id a = PStr user /\ user <> [];
  io_request : ci_request_id a = PStr request /\ uuid_match request = true;
  io_revision : ci_expected_revision a = PInt revision /\ 0 <= revision;
  io_message : ci_user_message a = PStr message;
  io_answer : ci_assistant_message a = PStr answer;
  io_emotional : optional_snapshot emotional_state_field (ci_emotional_state a);
  io_relationship : optional_snapshot relationship_state_field (ci_relationship_state a);
  io_response : ci_public_response a = PStr response;
  io_events : ci_outbox_events a = PList events /\ Forall (fun v => exists ty d key, event_ok v ty d key) events;
  io_replay : ci_replay_payload a = PDict replay /\ replay_ok replay response (Some request) }.

Section Inputs.
Context `{FR : FloatRepr}.

Lemma event_iff v : validate_outbox_entry v = Ok tt <-> exists ty d key, event_ok v ty d key.
Proof.
  unfold validate_outbox_entry. split.
  - intros H. destruct (as_sequence v) as [[|ty [|p [|key [|? ?]]]]|] eqn:S; try done. inv_ok.
    destruct ty as [| | | |ty| | | | |]; try done. destruct (as_mapping p) as [d|] eqn:M; [|done].
    unfold _validate_outbox_event_payload in H. inv_ok.
    repeat match goal with K : negb _ = false |- _ => apply negb_false_iff in K end.
    repeat match goal with K : unit |- _ => destruct K end.
    match goal with K : serialized_within _ _ _ = Ok _ |- _ => apply serialized_iff in K; rename K into B end.
    pose proof (text_within_dict _ _ _ B M) as ->.
    unfold _validate_idempotency_key in *. destruct key as [| | | |key| | | | |]; try done. inv_ok.
    do 3 eexists. by constructor.
  - intros (ty & d & key & [S T K U F V B]). rewrite S, T. cbn [negb raise_if rbind as_mapping].
    unfold _validate_outbox_event_payload. rewrite U, F, V. cbn [negb raise_if rbind].
    rewrite (proj2 (serialized_iff _ _ _) B). cbn [rbind _validate_idempotency_key]. by rewrite K.
Qed.

Lemma events_iff l : (rmap validate_outbox_entry l ;;; Ok tt) = Ok tt <-> Forall (fun v => exists ty d key, event_ok v ty d key) l.
Proof.
  induction l as [|v l IH]; [split; [constructor|done]|]. rewrite Forall_cons, <- event_iff, <- IH, rmap_cons.
  destruct (validate_outbox_entry v) as [[]|e]; cbn [rbind]; [|by split; [|intros [? _]]].
  destruct (rmap validate_outbox_entry l); cbn [rbind]; [done|]. by split; [|intros [_ ?]].
Qed.

Lemma is_str_inv v : is_str_value v = true <-> exists s, v = PStr s.
Proof. destruct v; cbn; split; intros H; try done; try (by destruct H as [? [=]]). by eexists. Qed.

Lemma validate_input_iff a :
  validate_atomic_commit_input a = Ok tt <->
  exists user request revision message answer response events replay,
    input_ok a user request revision message answer response events replay.
Proof.
  unfold validate_atomic_commit_input. split.
  - intros H. inv_ok. repeat match goal with K : unit |- _ => destruct K end.
    destruct (ci_user_id a) as [| | | |user| | | | |] eqn:Eu; try done.
    destruct (ci_expected_revision a) as [| |z| | | | | | |] eqn:Er; try done.
    repeat match goal with K : negb (is_str_value _) = false |- _ => apply negb_false_iff, is_str_inv in K as [? ?] end.
    destruct (ci_outbox_events a) as [| | | | |events| | | |] eqn:Eo; try done.
    destruct (ci_public_response a) as [| | | |response| | | | |] eqn:Ep; try done.
    match goal with K : _validate_uuid _ _ = Ok ?r |- _ => apply validate_uuid_iff in K as [? ?]; rename r into request end.
    match goal with K : _validate_replay_payload _ _ = Ok ?x |- _ =>
      destruct x as [replay resp]; apply validate_replay_iff in K as [? ?] end.
    match goal with K : negb (str_eqb _ _) = false |- _ => apply negb_false_iff, str_eqb_eq in K; cbn [snd] in K; subst resp end.
    match goal with K : rbind (rmap _ _) _ = Ok _ |- _ => apply events_iff in K end.
    repeat match goal with K : _validate_snapshot_payload _ _ = Ok _ |- _ => apply validate_snapshot_iff in K end.
    match goal with K : bool_decide _ = false |- _ => apply bool_decide_eq_false in K end.
    match goal with K : (_ <? 0) = false |- _ => apply Z.ltb_ge in K end.
    do 8 eexists. constructor; eauto.
  - intros (user & request & revision & message & answer & response & events & replay & [U R V M A Se Sr P E Y]).
    destruct U as [-> Nu], R as [-> Vr], V as [-> Zr], E as [-> Fe], Y as [-> Yr]. rewrite M, A, P.
    rewrite bool_decide_eq_false_2 by done. cbn [raise_if rbind].
    rewrite (proj2 (validate_uuid_iff _ _ request) (conj eq_refl Vr)). cbn [rbind].
    rewrite (proj2 (Z.ltb_ge _ _) Zr). cbn [raise_if rbind is_str_value negb].
    rewrite (proj2 (validate_snapshot_iff _ _) Se), (proj2 (validate_snapshot_iff _ _) Sr). cbn [rbind].
    pose proof (proj2 (events_iff events) Fe) as ->. cbn [rbind].
    rewrite (proj2 (validate_replay_iff _ _ _ _) (conj eq_refl Yr)). cbn [rbind snd].
    by rewrite (proj2 (str_eqb_eq _ _) eq_refl).
Qed.
End Inputs.

(** ** The payloads can be built and hashed *)

Definition dumpable (v : pyval) : Prop := exists doc, json_dump false v = Ok doc.

Lemma dumpable_list l : Forall dumpable l -> dumpable (PList l).
Proof.
  intros F. assert (exists docs, rmap (json_dump false) l = Ok docs) as [docs E].
  { induction F as [|x l [doc H] _ [docs E]]; [by exists []|]. exists (doc :: docs). rewrite rmap_cons, H. cbn [rbind]. by rewrite E. }
  exists (JArr docs). cbn. by rewrite E.
Qed.

Definition item_dumpable (kv : pykey * pyval) : Prop := exists k, kv.1 = KStr k /\ dumpable kv.2.

Lemma dumpable_dict d : Forall item_dumpable d -> dumpable (PDict d).
Proof.
  intros F. assert (exists items, rmap (dump_item false) d = Ok items) as [items E].
  { induction F as [|[k' x] d (k & Ek & doc & H) _ [items E]]; [by exists []|]. cbn in Ek, H. subst k'. exists ((k, doc) :: items).
    rewrite rmap_cons. cbn [dump_item]. rewrite H. cbn [rbind]. by rewrite E. }
  exists (JObj items). rewrite json_dump_dict, E. done.
Qed.

(** A dict whose keys are literals and whose values have no lone surrogate. *)
Definition item_clean (kv : pykey * pyval) : Prop :=
  match kv.1 with KStr s => surrogates s = false | KOther _ => True end /\ val_surrogates kv.2 = false.

Lemma clean_dict d : Forall item_clean d -> val_surrogates (PDict d) = false.
Proof.
  intros F. cbn [val_surrogates]. induction F as [|[k x] d [Hk Hx] _ IH]; [done|]. cbn [existsb fst snd] in *. rewrite Hx, IH.
  destruct k; [by rewrite Hk|done].
Qed.

Lemma clean_list l : Forall (fun v => val_surrogates v = false) l -> val_surrogates (PList l) = false.
Proof. intros F. cbn. induction F as [|x l H _ IH]; [done|]. cbn. by rewrite H, IH. Qed.

Lemma text_dumpable `{FloatRepr} v max : text_within v max -> dumpable v.
Proof. intros (doc & n & E & _). by exists doc. Qed.

Lemma text_clean `{FT : FloatText} v max : text_within v max -> val_surrogates v = false.
Proof.
  intros (doc & n & E & L & _). rewrite <- (json_dump_surrogates false v doc E).
  rewrite <- render_spaced_surrogates by (by eapply json_dump_valid).
  destruct (surrogates (render_spaced doc)) eqn:S; [|done]. apply utf8_len_surrogates in S. congruence.
Qed.

Lemma forallb_low (p : N -> bool) s : (forall c, p c = true -> (c < 55296)%N) -> forallb p s = true -> surrogates s = false.
Proof.
  intros Hp H. apply surrogates_low. rewrite Forall_forall. intros c Hc. apply Hp. exact (forallb_In _ _ _ H Hc).
Qed.

Lemma ident_low c : is_ident_char c = true -> (c < 55296)%N.
Proof.
  unfold is_ident_char, is_lower, is_upper, is_digit. rewrite !orb_true_iff, !andb_true_iff, !N.leb_le, !N.eqb_eq. lia.
Qed.

Lemma identifier_clean s : is_identifier s = true -> surrogates s = false.
Proof. unfold is_identifier. intros [_ H]%andb_true_iff. exact (forallb_low _ _ ident_low H). Qed.

Lemma event_type_clean s : is_event_type s = true -> surrogates s = false.
Proof.
  unfold is_event_type. intros [_ H]%andb_true_iff. refine (forallb_low _ _ _ H).
  intros c. unfold is_lower, is_digit. rewrite !orb_true_iff, !andb_true_iff, !N.leb_le, !N.eqb_eq. lia.
Qed.

Lemma shape_low shape s : matches_shape shape s = true -> Forall (fun c => (c < 128)%N) s.
Proof.
  revert s. induction shape as [|b shape IH]; intros [|c s] H; cbn in H; try done.
  apply andb_true_iff in H as [Hc H]. constructor; [|by apply IH]. destruct b.
  - unfold is_hex_lower, is_digit in Hc. rewrite !orb_true_iff, !andb_true_iff, !N.leb_le in Hc. lia.
  - apply N.eqb_eq in Hc. lia.
Qed.

Lemma uuid_low s : uuid_match s = true -> Forall (fun c => (c < 128)%N) s.
Proof.
  unfold uuid_match. intros [H|H]%orb_true_iff; [by eapply shape_low|].
  destruct (rev s) as [|c r] eqn:R; [done|]. apply andb_true_iff in H as [Hc H]. apply shape_low in H. apply N.eqb_eq in Hc as ->.
  rewrite <- (rev_involutive s), R. cbn [rev]. apply Forall_app. split; [done|]. by repeat constructor.
Qed.

Lemma uuid_clean s : uuid_match s = true -> surrogates s = false.
Proof. intros H. by apply surrogates_low, low_weaken, uuid_low. Qed.

(** The literals of the source are ASCII. *)
Ltac clean_literal := vm_compute; reflexivity.

Section Payloads.
Context `{FT : FloatText, SH : Sha256}.

Lemma unpack_ok events : Forall (fun v => exists ty d key, event_ok v ty d key) events ->
  exists es, unpack_events (PList events) = Ok es
    /\ Forall (fun e => exists ty d key, e = (PStr ty, PDict d, PStr key) /\ is_event_type ty = true /\ is_identifier key = true
         /\ text_within (PDict d) _MAX_OUTBOX_PAYLOAD_BYTES) es.
Proof.
  unfold unpack_events. cbn [as_sequence]. induction 1 as [|v l (ty & d & key & [S T K U F V B]) _ (es & E & Fe)].
  { by exists []. }
  exists ((PStr ty, PDict d, PStr key) :: es). rewrite rmap_cons. unfold unpack_event at 1. rewrite S. cbn [rbind]. rewrite E.
  split; [done|]. constructor; [|done]. by exists ty, d, key.
Qed.

Lemma optional_dumpable field v : optional_snapshot field v -> dumpable v /\ val_surrogates v = false.
Proof.
  intros [->|(d & -> & [? ? ? ? ? ? B])]; [split; [by eexists|done]|]. eauto using text_dumpable, text_clean.
Qed.

Lemma str_dumpable s : dumpable (PStr s).
Proof. by eexists. Qed.

Lemma event_dict_ok ty d key : is_event_type ty = true -> is_identifier key = true ->
  text_within (PDict d) _MAX_OUTBOX_PAYLOAD_BYTES ->
  dumpable (event_dict (PStr ty) (PDict d) (PStr key)) /\ val_surrogates (event_dict (PStr ty) (PDict d) (PStr key)) = false.
Proof.
  intros T K B. split.
  - apply dumpable_dict. repeat constructor; (eexists; split; [reflexivity|]); eauto using str_dumpable, text_dumpable.
  - apply clean_dict. repeat (constructor; [split; [clean_literal|]; cbn [snd]; eauto using text_clean|]); [..|constructor].
    + by apply event_type_clean.
    + by apply identifier_clean.
Qed.

(** Nothing after validation fails but for the texts that are not encodable and
    for an integer too long to print. *)
Lemma canonical_hash_ok a user request revision message answer response events replay :
  input_ok a user request revision message answer response events replay ->
  int_printable revision = true -> surrogates user = false -> surrogates message = false -> surrogates answer = false ->
  exists payload hash, build_canonical_commit_payload a = Ok payload /\ canonical_payload_hash payload = Ok hash.
Proof.
  intros [U R V M A Se Sr P E Y] Pr Cu Cm Ca.
  destruct U as [U _], R as [R Vr], V as [V _], E as [Ee Fe], Y as [Y [F K Rs Mi Q B]].
  destruct (unpack_ok events Fe) as (es & Eu & Fs).
  unfold build_canonical_commit_payload. rewrite Ee, Eu. cbn [rbind]. rewrite U, R, V, M, A, P, Y.
  set (l := map _ es).
  assert (Forall dumpable l /\ Forall (fun v => val_surrogates v = false) l) as [Dl Cl].
  { subst l. clear -Fs FT. induction Fs as [|e es (ty & d & key & -> & T & K & B) _ [IH1 IH2]]; [done|]. cbn [map].
    destruct (event_dict_ok ty d key T K B). split; by constructor. }
  match goal with |- context [Ok (PDict ?x) = Ok _] => set (d := x) end. exists (PDict d).
  assert (Forall item_dumpable d /\ Forall item_clean d) as [Dd Cd].
  { pose proof (optional_dumpable _ _ Se) as [De Ce]. pose proof (optional_dumpable _ _ Sr) as [Dr Cr].
    assert (surrogates response = false) as Cp.
    { pose proof (text_clean _ _ B) as C. cbn [val_surrogates] in C. apply dget_elem in Rs.
      rewrite existsb_false_forallb in C. pose proof (forallb_In _ _ _ C Rs) as C'. cbn in C'.
      apply negb_true_iff, orb_false_iff in C' as [_ C']. exact C'. }
    assert (dumpable (PInt revision)) as Dz by (eexists; cbn [json_dump]; by rewrite Pr).
    subst d. split.
    - repeat (constructor; [eexists; split; [reflexivity|]; eauto using str_dumpable, text_dumpable, dumpable_list|]). constructor.
    - repeat (constructor; [split; [clean_literal|]; cbn [snd]; eauto using text_clean, clean_list|]); [|constructor].
      cbn. by apply uuid_clean. }
  destruct (dumpable_dict d Dd) as [doc Ed]. destruct (json_dump_sorted _ _ Ed) as [doc' Ed'].
  unfold canonical_payload_hash. cbn [as_mapping]. rewrite Ed'.
  destruct (utf8_len (render doc')) as [n|] eqn:L; [by eexists|].
  apply utf8_len_surrogates in L. rewrite render_surrogates in L by (by eapply json_dump_valid).
  rewrite (json_dump_surrogates _ _ _ Ed'), clean_dict in L by done. done.
Qed.

End Payloads.

(** ** Domain states are accepted *)

Lemma bounded_float lo hi f : isfinite lo = true -> isfinite hi = true -> in_range lo hi f = true -> bounded lo hi (PFloat f) = true.
Proof.
  intros Fl Fh R. pose proof (in_range_isfinite lo hi f Fl Fh R) as Ff. unfold bounded. cbn [as_number num_finite num_to_float num_ltb].
  rewrite Ff. cbn [andb]. apply negb_true_iff in R || idtac. pose proof (range_test lo hi f) as T.
  rewrite R in T. cbn [negb] in T. rewrite orb_false_iff in T.
  destruct T as [-> ->]; [by apply isfinite_not_nan..|done].
Qed.

Lemma timestamp_float f : isfinite f && (0 <? f)%float = true -> timestamp_positive (PFloat f) = true.
Proof.
  intros [F P]%andb_true_iff. unfold timestamp_positive. cbn [as_number num_finite num_to_float]. rewrite F. cbn [andb].
  rewrite num_leb_val by (try (by apply usable_const); by eexists). apply negb_true_iff, Z.leb_gt.
  rewrite ltb_fval in P by done. by apply Z.ltb_lt in P.
Qed.

Section Accept.
Context `{FT : FloatText}.

Lemma float_text f : isfinite f = true ->
  surrogates (render (JFloat f)) = false /\ (sum_list_with utf8_width (render (JFloat f)) <= 24)%nat.
Proof.
  intros F. split; [exact (render_surrogates (JFloat f) F)|]. cbn [render]. unfold render_float.
  assert (PrimFloat.is_nan f = false) as -> by (unfold isfinite in F; by destruct (PrimFloat.is_nan f)). rewrite F.
  destruct (float_ascii f F) as [A L]. etransitivity; [|exact L]. clear L.
  induction A as [|c s Hc _ IH]; [done|]. cbn [sum_list_with length]. unfold utf8_width at 1. destruct (N.ltb_spec c 128); lia.
Qed.

(** The bytes of an object with the default separators. *)
Lemma object_bytes (l : list (pystr * jdoc)) (n : nat) :
  Forall (fun kv => json_valid kv.2 = true /\ doc_surrogates (JObj [kv]) = false) l ->
  (sum_list_with (fun kv => sum_list_with utf8_width (render_str kv.1) + 4 + sum_list_with utf8_width (render_spaced kv.2)) l + 2 <= n)%nat ->
  exists m, utf8_len (render_spaced (JObj l)) = Some m /\ (m <= n)%nat.
Proof.
  intros F L. assert (json_valid (JObj l) = true /\ doc_surrogates (JObj l) = false) as [V S].
  { clear L. induction F as [|[k x] l [V S] _ [IH1 IH2]]; [done|]. cbn in V, S, IH1, IH2 |- *. rewrite V, IH1, IH2.
    by rewrite orb_false_r in *. }
  unfold utf8_len. fold (surrogates (render_spaced (JObj l))). rewrite render_spaced_surrogates, S by done.
  eexists. split; [done|]. etransitivity; [|exact L]. cbn [render_spaced]. rewrite !sum_list_with_app.
  change (sum_list_with utf8_width (u "{")) with 1%nat. change (sum_list_with utf8_width (u "}")) with 1%nat.
  enough (sum_list_with utf8_width (join (u ", ") (map (fun kv : pystr * jdoc => let (k, x) := kv in render_str k ++ u ": " ++ render_spaced x) l))
    <= sum_list_with (fun kv => sum_list_with utf8_width (render_str kv.1) + 4 + sum_list_with utf8_width (render_spaced kv.2)) l)%nat by lia.
  clear. destruct l as [|[k x] l]; [done|]. cbn [map join sum_list_with fst snd]. rewrite !sum_list_with_app.
  change (sum_list_with utf8_width (u ": ")) with 2%nat.
  enough (sum_list_with utf8_width (map (fun kv : pystr * jdoc => let (k, x) := kv in render_str k ++ u ": " ++ render_spaced x) l ≫= (fun y => u ", " ++ y))
    <= sum_list_with (fun kv => sum_list_with utf8_width (render_str kv.1) + 4 + sum_list_with utf8_width (render_spaced kv.2)) l)%nat by lia.
  induction l as [|[k' x'] l IH]; [done|]. cbn [map mbind list_bind sum_list_with fst snd]. rewrite !sum_list_with_app.
  change (sum_list_with utf8_width (u ": ")) with 2%nat. change (sum_list_with utf8_width (u ", ")) with 2%nat.
  cbn [mbind list_bind] in IH. lia.
Qed.

Lemma rmap_Forall2 {E A B} (f : A -> result E B) l ys : Forall2 (fun x y => f x = Ok y) l ys -> rmap f l = Ok ys.
Proof. induction 1 as [|x y l ys H _ IH]; [done|]. rewrite rmap_cons, H. cbn [rbind]. by rewrite IH. Qed.

(** The widths of the literal keys. *)
Ltac key_widths :=
  repeat match goal with |- context [sum_list_with utf8_width (render_str (u ?x))] =>
    let n := eval vm_compute in (sum_list_with utf8_width (render_str (u x))) in
    change (sum_list_with utf8_width (render_str (u x))) with n end.

Lemma dump_float k f : isfinite f = true -> dump_item false (KStr k, PFloat f) = Ok (k, JFloat f).
Proof. intros F. cbn [dump_item json_dump]. by rewrite F. Qed.

Lemma float_item k f : isfinite f = true -> surrogates k = false ->
  json_valid (JFloat f) = true /\ doc_surrogates (JObj [(k, JFloat f)]) = false.
Proof. intros F S. cbn. by rewrite F, S. Qed.

Lemma coping_short m : str_in m VALID_COPING_MODES = true ->
  surrogates m = false /\ (sum_list_with utf8_width (render_str m) <= 16)%nat.
Proof.
  intros H%str_in_elem. assert (Forall (fun m => surrogates m = false /\ (sum_list_with utf8_width (render_str m) <= 16)%nat) VALID_COPING_MODES) as F.
  { repeat constructor; by apply Nat.leb_le; vm_compute. }
  rewrite Forall_forall in F. by apply F.
Qed.

Lemma emotional_text s : state_wf s = true -> text_within (PDict (EmotionalStateV1_to_dict s)) _MAX_REPLAY_PAYLOAD_BYTES.
Proof.
  intros (V & R1%in_m1_1_finite & R2%in_m1_1_finite & R3%in_m1_1_finite & R4%in_0_1_finite & R5%in_0_1_finite
    & R6%in_0_1_finite & R7%in_0_1_finite & R8%in_0_1_finite & C & Ft & _)%state_wf_parts.
  destruct s as [p a d l g c e t m ts sv].
  cbn [schema_version pleasure arousal dominance libido aggression connection energy tension coping_mode timestamp] in *. subst sv.
  set (items := [(u "schema_version", JInt 1); (u "pleasure", JFloat p); (u "arousal", JFloat a); (u "dominance", JFloat d);
    (u "libido", JFloat l); (u "aggression", JFloat g); (u "connection", JFloat c); (u "energy", JFloat e);
    (u "tension", JFloat t); (u "coping_mode", JStr m); (u "timestamp", JFloat ts)]).
  destruct (coping_short m C) as [Cm Lm].
  destruct (object_bytes items 1000) as (n & En & Ln).
  - subst items. repeat (constructor; [cbn [snd]; first [by apply float_item | by split | split; [done|cbn; by rewrite Cm]]|]). constructor.
  - subst items. cbn [sum_list_with fst snd]. key_widths. cbn [render_spaced].
    destruct (float_text p R1) as [_ L1], (float_text a R2) as [_ L2], (float_text d R3) as [_ L3], (float_text l R4) as [_ L4],
      (float_text g R5) as [_ L5], (float_text c R6) as [_ L6], (float_text e R7) as [_ L7], (float_text t R8) as [_ L8],
      (float_text ts Ft) as [_ L9].
    change (sum_list_with utf8_width (render (JInt 1))) with 1%nat. change (render (JStr m)) with (render_str m).
    cbn [render] in *. lia.
  - exists (JObj items), n. split_and!; [|done|etransitivity; [exact Ln|by apply Nat.leb_le; vm_compute]].
    rewrite json_dump_dict. unfold EmotionalStateV1_to_dict.
    cbn [schema_version pleasure arousal dominance libido aggression connection energy tension coping_mode timestamp].
    rewrite (rmap_Forall2 _ _ items); [done|]. subst items.
    repeat (constructor; [first [by apply dump_float | reflexivity]|]). constructor.
Qed.

(** Every valid emotional state can be committed. *)
Lemma emotional_accepted s : state_wf s = true -> snapshot_ok emotional_state_field (EmotionalStateV1_to_dict s).
Proof.
  intros W. pose proof (emotional_text s W) as B. apply state_wf_parts in W as (V & R1 & R2 & R3 & R4 & R5 & R6 & R7 & R8 & C & Ft & Pt).
  constructor; try reflexivity; try done.
  - unfold EmotionalStateV1_to_dict. rewrite V. reflexivity.
  - unfold values_ok. change (dindex (EmotionalStateV1_to_dict s) (u "coping_mode")) with (PStr (coping_mode s)). cbv iota.
    change [u "HEALTHY"; u "DEFENSIVE"; u "DISSOCIATED"; u "MANIC"] with VALID_COPING_MODES. rewrite C, andb_true_r.
    cbn [forallb]. rewrite !andb_true_iff.
    repeat split; (apply bounded_float; [reflexivity|reflexivity|assumption]).
  - apply timestamp_float. by rewrite Ft, Pt.
Qed.

(** A valid relationship state can be committed when it fits. *)
Lemma relationship_accepted s : rel_wf s -> text_within (PDict (RelationshipStateV1_to_dict s)) _MAX_REPLAY_PAYLOAD_BYTES ->
  snapshot_ok relationship_state_field (RelationshipStateV1_to_dict s).
Proof.
  intros (V & R1 & R2 & R3 & T & (Lt & Nt & Ft)) B. constructor; try done.
  - unfold RelationshipStateV1_to_dict. rewrite V. reflexivity.
  - assert (existsb (_has_forbidden SNAPSHOT_FORBIDDEN_KEYS) (map PStr (triggers s)) = false) as N.
    { clear. induction (triggers s); cbn; done. }
    unfold RelationshipStateV1_to_dict. cbn [_has_forbidden existsb]. rewrite N. reflexivity.
  - unfold values_ok. change (dindex (RelationshipStateV1_to_dict s) (u "triggers")) with (PList (map PStr (triggers s))).
    cbn [as_sequence forallb]. rewrite !andb_true_iff. split.
    + repeat split; (apply bounded_float; [reflexivity|reflexivity|assumption]).
    + assert (normalized_triggers (map PStr (triggers s)) = triggers s) as ->.
      { clear -Ft. induction Ft as [|t l (S & _) _ IH]; [done|]. unfold normalized_triggers in *. cbn [map omap list_omap].
        rewrite S. f_equal. exact IH. }
      rewrite length_map. split; [split|]; [by apply Nat.leb_le| |].
      * clear -Ft. induction Ft as [|t l (S & N & L) _ IH]; [done|]. cbn [map forallb trigger_accepted].
        rewrite S, (proj2 (str_eqb_eq t t) eq_refl), bool_decide_eq_false_2, (proj2 (Nat.leb_le _ _) L) by done. exact IH.
      * apply Nat.eqb_eq. f_equal. symmetry. clear -Nt. induction Nt as [|t l N _ IH]; [done|]. cbn. case_decide; [done|]. by f_equal.
  - apply timestamp_float. exact T.
Qed.

End Accept.
