(* ===== verification/CommitProperties.v ===== *)
(** * Guarantees of the commit contract

    The round trip of a committed turn, the agreement of the snapshot contract
    with the domain, and what a commit sends and reports. *)

From S2P Require Import Prelude PyFloat FloatRound PyValue Json TurnExecution StorageContracts EmotionalModels EmotionalTransition Relationship AtomicTurnCommit JsonText CommitTheorems.

Local Open Scope Z_scope.

(** What the caller of a commit can see of a failure. *)
Definition sanitized (e : commit_exn) : Prop :=
  match e with
  | CommitConflictError code _ _ _ _ => code ∈ CONFLICT_CODES
  | CommitPersistenceError _ _ => e = database_error
  | CommitTurnError _ => False
  | _ => True
  end.

Lemma envelope_sanitized v : sanitized (_parse_error_envelope v).
Proof.
  unfold _parse_error_envelope. destruct (as_mapping v) as [d|]; [|done].
  destruct (dget d (u "code")) as [[| | | |code| | | | |]|]; try done. case_bool_decide; [done|].
  destruct (str_in code CONFLICT_CODES) eqn:C; [by apply str_in_elem in C|]. by destruct (str_eqb _ _).
Qed.

(** Splits a failed monadic computation at the step that failed. *)
Ltac err_step H :=
  match type of H with
  | rbind ?c _ = Err _ => let E := fresh "E" in destruct c eqn:E; cbn [rbind] in H; [|injection H as ->]
  end.

Lemma raise_if_err b (e e' : commit_exn) : raise_if b e = Err e' -> e' = e.
Proof. destruct b; by intros [= <-]. Qed.

Lemma rmap_err {E A B} (f : A -> result E B) l e : rmap f l = Err e -> exists x, f x = Err e.
Proof.
  induction l as [|x l IH]; [done|]. rewrite rmap_cons. destruct (f x) eqn:F; cbn [rbind]; [|intros [= <-]; by exists x].
  destruct (rmap f l); cbn [rbind]; [done|]. intros [= <-]. by apply IH.
Qed.

(** ** Refusals before the RPC *)

(** A validation error, or the failure to encode a text. *)
Definition refusal (e : commit_exn) : Prop := e = CommitOther \/ exists code, e = CommitValidationError code.

Lemma refusal_sanitized e : refusal e -> sanitized e.
Proof. by intros [->|[? ->]]. Qed.

Section Refusals.
Context `{FR : FloatRepr, SH : Sha256}.

Lemma raise_refusal b code e : raise_if b (CommitValidationError code) = Err e -> refusal e.
Proof. intros ->%raise_if_err. right. by eexists. Qed.

Lemma serialized_refusal v code max e : serialized_within v code max = Err e -> refusal e.
Proof.
  unfold serialized_within. destruct (json_dump false v); [|intros [= <-]; right; by eexists].
  destruct (utf8_len _); [apply raise_refusal|intros [= <-]; by left].
Qed.

Lemma snapshot_refusal p field e : _validate_snapshot_payload p field = Err e -> refusal e.
Proof.
  assert (refusal (CommitValidationError (u "invalid_" ++ field_text field))) as Bad by (right; by eexists).
  unfold _validate_snapshot_payload. intros H.
  destruct (as_mapping p) as [d|] eqn:M; [|destruct p; try done; by injection H as <-].
  assert (forall k : result commit_exn unit, match p with PNone => Ok tt | _ => k end = Err e -> k = Err e) as K by (by destruct p).
  apply K in H. clear K.
  destruct (dget d (u "schema_version")) as [[| |z| | | | | | |]|]; try (by injection H as <-).
  err_step H; [|by eapply raise_refusal]. err_step H; [|by eapply raise_refusal]. err_step H; [|by eapply raise_refusal].
  err_step H.
  - err_step H; [by eapply serialized_refusal|by eapply raise_refusal].
  - rewrite values_check in E2. destruct (values_ok field d); [done|]. by injection E2 as <-.
Qed.

Lemma replay_refusal p expected e : _validate_replay_payload p expected = Err e -> refusal e.
Proof.
  assert (refusal (CommitValidationError (u "invalid_replay_payload"))) as Bad by (right; by eexists).
  unfold _validate_replay_payload. destruct (as_mapping p); [|by intros [= <-]]. intros H.
  err_step H; [|by eapply raise_refusal]. err_step H; [|by eapply raise_refusal].
  destruct (dget _ _) as [[| | | |r| | | | |]|]; try (by injection H as <-).
  err_step H; [|by eapply raise_refusal]. err_step H; [|by eapply raise_refusal].
  err_step H; [done|by eapply serialized_refusal].
Qed.

Lemma entry_refusal v e : validate_outbox_entry v = Err e -> refusal e.
Proof.
  assert (refusal (CommitValidationError (u "invalid_outbox_events"))) as Bad by (right; by eexists).
  unfold validate_outbox_entry. intros H.
  destruct (as_sequence v) as [[|ty [|p [|key [|? ?]]]]|]; try (by injection H as <-).
  err_step H; [|by eapply raise_refusal]. destruct (as_mapping p) as [d|]; [|by injection H as <-].
  err_step H.
  - err_step H; [done|]. destruct key; cbn in E1; try (injection E1 as <-; right; by eexists).
    destruct (is_identifier s); [done|]. injection E1 as <-. right; by eexists.
  - unfold _validate_outbox_event_payload in E0. err_step E0; [|by eapply raise_refusal]. err_step E0; [|by eapply raise_refusal].
    err_step E0; [by eapply raise_refusal|by eapply serialized_refusal].
Qed.

Lemma input_refusal a e : validate_atomic_commit_input a = Err e -> refusal e.
Proof.
  unfold validate_atomic_commit_input. intros H. err_step H; [|by eapply raise_refusal].
  err_step H. 2: { destruct (ci_request_id a); cbn in E0; try (injection E0 as <-; right; by eexists).
    destruct (uuid_match s); [done|]. injection E0 as <-. right; by eexists. }
  do 3 (err_step H; [|by eapply raise_refusal]).
  err_step H; [|by eapply snapshot_refusal]. err_step H; [|by eapply snapshot_refusal].
  err_step H; [|by eapply raise_refusal].
  err_step H. 2: { destruct (ci_outbox_events a); try (injection E7 as <-; right; by eexists).
    destruct (rmap validate_outbox_entry l) eqn:Em; cbn [rbind] in E7; [done|]. injection E7 as <-.
    apply rmap_err in Em as [x Em]. by eapply entry_refusal. }
  err_step H; [by eapply raise_refusal|by eapply replay_refusal].
Qed.

Lemma owner_refusal v e : _validate_lease_owner v = Err e -> refusal e.
Proof. destruct v; cbn [_validate_lease_owner]; try (intros [= <-]; right; by eexists). by apply raise_refusal. Qed.

(** ** Refusals of an answer *)

Lemma nonempty_refusal v code e : nonempty_str v code = Err e -> refusal e.
Proof. destruct v; cbn; try (intros [= <-]; right; by eexists). case_bool_decide; [|done]. intros [= <-]. right; by eexists. Qed.

Lemma uuid_refusal v name e : _validate_uuid v name = Err e -> refusal e.
Proof. destruct v; cbn; try (intros [= <-]; right; by eexists). destruct (uuid_match s); [done|]. intros [= <-]. right; by eexists. Qed.

Lemma key_refusal v e : AtomicTurnCommit._validate_idempotency_key v = Err e -> refusal e.
Proof. destruct v; cbn; try (intros [= <-]; right; by eexists). destruct (is_identifier s); [done|]. intros [= <-]. right; by eexists. Qed.

Lemma ref_refusal v e : parse_outbox_ref v = Err e -> refusal e.
Proof.
  assert (refusal (CommitValidationError (u "invalid_outbox_event"))) as Bad by (right; by eexists).
  unfold parse_outbox_ref. destruct (as_mapping v) as [d|]; [|by intros [= <-]]. intros H.
  do 2 (err_step H; [|by eapply raise_refusal]).
  destruct (dindex d (u "id")); try (by injection H as <-). destruct (dindex d (u "event_type")); try (by injection H as <-).
  do 2 (err_step H; [|by eapply raise_refusal]). err_step H; [|by eapply key_refusal].
  destruct (dindex d (u "turn_request_id")); try (by injection H as <-). err_step H; [|by eapply raise_refusal].
  destruct (dindex d (u "contract_version")); try (by injection H as <-). err_step H; [done|by eapply raise_refusal].
Qed.

(** An answer without an error envelope is read or refused. *)
Lemma parse_refusal v d e :
  as_mapping v = Some d -> dget d (u "error") = None -> parse_commit_turn_result v = Err e -> refusal e.
Proof.
  unfold parse_commit_turn_result. intros -> -> H. do 2 (err_step H; [|by eapply raise_refusal]).
  err_step H; [|by eapply nonempty_refusal]. err_step H; [|by eapply uuid_refusal].
  destruct (dindex d (u "committed_revision")); try (injection H as <-; right; by eexists).
  err_step H; [|by eapply raise_refusal].
  destruct (dindex d (u "user_message_id")); try (injection H as <-; right; by eexists).
  err_step H; [|by eapply raise_refusal].
  destruct (dindex d (u "assistant_message_id")); try (injection H as <-; right; by eexists).
  err_step H; [|by eapply raise_refusal]. err_step H; [|by eapply replay_refusal]. err_step H; [|by eapply raise_refusal].
  destruct (dindex d (u "outbox_events")); try (injection H as <-; right; by eexists).
  err_step H; [|match goal with K : rmap _ _ = Err _ |- _ => apply rmap_err in K as [x K] end; by eapply ref_refusal].
  err_step H; [|by eapply nonempty_refusal]. err_step H; [done|by eapply nonempty_refusal].
Qed.

Lemma parse_sanitized v e : parse_commit_turn_result v = Err e -> sanitized e.
Proof.
  intros H. destruct (as_mapping v) as [d|] eqn:M.
  2: { unfold parse_commit_turn_result in H. rewrite M in H. by injection H as <-. }
  destruct (dget d (u "error")) as [x|] eqn:D; [|by eapply refusal_sanitized, parse_refusal].
  unfold parse_commit_turn_result in H. rewrite M, D in H. injection H as <-. apply envelope_sanitized.
Qed.

(** ** The payload of the RPC *)

Lemma rpc_payload_ok a user request revision message answer response events replay hash owner :
  input_ok a user request revision message answer response events replay ->
  exists payload, build_commit_turn_rpc_payload a hash owner = Ok payload
    /\ dindex payload (u "p_authenticated_user_id") = PStr user /\ dindex payload (u "p_request_id") = PStr request
    /\ dindex payload (u "p_expected_revision") = PInt revision
    /\ dindex payload (u "p_emotional_state") = ci_emotional_state a
    /\ dindex payload (u "p_relationship_state") = ci_relationship_state a
    /\ dindex payload (u "p_replay_payload") = PDict replay
    /\ dindex payload (u "p_payload_hash_sha256") = PStr hash
    /\ dindex payload (u "p_lease_owner") = owner
    /\ dindex payload (u "p_user_message") = PStr message /\ dindex payload (u "p_assistant_message") = PStr answer
    /\ dindex payload (u "p_public_response") = PStr response
    /\ exists es, dindex payload (u "p_outbox_events") = PList es
         /\ Forall2 (fun v e => exists ty d key, event_ok v ty d key /\ e = event_dict (PStr ty) (PDict d) (PStr key)) events es.
Proof.
  intros [U R V M A Se Sr P E Y]. destruct U as [U _], R as [R _], V as [V _], E as [Ee Fe], Y as [Y _].
  unfold build_commit_turn_rpc_payload. rewrite Ee. unfold unpack_events. cbn [as_sequence].
  assert (exists us es, rmap unpack_event events = Ok us
    /\ rmap (fun e => match e with (event_type, payload, idempotency_key) =>
         let* p := dict_of_mapping payload in Ok (event_dict event_type p idempotency_key) end) us = Ok es
    /\ Forall2 (fun v e => exists ty d key, event_ok v ty d key /\ e = event_dict (PStr ty) (PDict d) (PStr key)) events es)
    as (us & es & Eus & Ees & F2).
  { clear -Fe. induction Fe as [|v l (ty & d & key & Ok') _ (us & es & E1 & E2 & F2)]; [by exists [], []|].
    exists ((PStr ty, PDict d, PStr key) :: us), (event_dict (PStr ty) (PDict d) (PStr key) :: es). rewrite !rmap_cons.
    unfold unpack_event at 1. rewrite (eo_shape _ _ _ _ Ok'), E1, E2. split; [done|]. split; [done|].
    constructor; [by exists ty, d, key|done]. }
  rewrite Eus. cbn [rbind]. rewrite Ees. cbn [rbind].
  assert (forall field v, optional_snapshot field v -> optional_dict v = Ok v) as O by (by intros field v [->|(d & -> & _)]).
  rewrite (O _ _ Se), (O _ _ Sr), Y. cbn [rbind dict_of_mapping as_mapping]. eexists. split; [reflexivity|].
  rewrite U, R, V, M, A, P. split_and!; try reflexivity. by exists es.
Qed.

End Refusals.

(** ** Properties *)

(** A committed turn survives its row.  Whatever the commit RPC answers, a result
    the strict parser accepts is coherent (the user message id is the request
    id, the assistant's is the one in the public payload, the revision is not
    negative, the payload is public and bounded, every outbox reference is well
    formed), and writing it as a row and parsing the row gives the same turn. *)
Theorem committed_turn_roundtrip (FR : FloatRepr) v t :
  parse_commit_turn_result v = Ok t ->
  committed_ok t /\ parse_commit_turn_result (PDict (to_db_row t)) = Ok t.
Proof. intros [C _]%parse_result_inv. split; [done|]. by apply parse_to_db_row. Qed.

Definition sample_request : pystr := u "550e8400-e29b-41d4-a716-446655440000".
Definition sample_message : pystr := u "6fa459ea-ee8a-4ca4-894e-db77e160355e".

(** An answer with a tuple in its public payload. *)
Definition sample_answer : pyval :=
  PDict [(KStr (u "user_id"), PStr (u "ana")); (KStr (u "request_id"), PStr sample_request);
    (KStr (u "committed_revision"), PInt 3); (KStr (u "user_message_id"), PStr sample_request);
    (KStr (u "assistant_message_id"), PStr sample_message);
    (KStr (u "replay_payload"), PDict [(KStr (u "response"), PStr (u "oi")); (KStr (u "message_id"), PStr sample_message);
       (KStr (u "emotion_state"), PTuple [PInt 1; PFloat 0.5])]);
    (KStr (u "outbox_events"), PList [PDict [(KStr (u "id"), PStr sample_message); (KStr (u "event_type"), PStr (u "archival"));
       (KStr (u "idempotency_key"), PStr (u "archival:1")); (KStr (u "turn_request_id"), PStr sample_request);
       (KStr (u "contract_version"), PInt 1)]]);
    (KStr (u "created_at"), PStr (u "2026-01-01")); (KStr (u "completed_at"), PStr (u "2026-01-01"))].

Lemma committed_turn_roundtrip_witness : exists t,
  @parse_commit_turn_result flat_repr sample_answer = Ok t
  /\ @parse_commit_turn_result flat_repr (PDict (to_db_row t)) = Ok t.
Proof.
  destruct (@parse_commit_turn_result flat_repr sample_answer) as [t|] eqn:E; [|by vm_compute in E].
  exists t. split; [done|]. apply (committed_turn_roundtrip flat_repr sample_answer t E).
Defined.

(** The snapshot contract of the commit and the domain agree.  A snapshot the
    contract accepts is one the domain reads, as a valid state; every valid
    emotional state is accepted, and every valid relationship state whose text
    fits in the byte bound. *)
Theorem snapshot_contract_agrees (FR : FloatRepr) (FT : FloatText) :
  (forall d, _validate_snapshot_payload (PDict d) emotional_state_field = Ok tt ->
     exists s, EmotionalStateV1_from_dict (PDict d) = Ok s /\ state_wf s = true)
  /\ (forall d, _validate_snapshot_payload (PDict d) relationship_state_field = Ok tt ->
     exists s, RelationshipStateV1_from_dict (PDict d) = Ok s /\ rel_wf s)
  /\ (forall s, state_wf s = true ->
     _validate_snapshot_payload (PDict (EmotionalStateV1_to_dict s)) emotional_state_field = Ok tt)
  /\ (forall s, rel_wf s ->
     _validate_snapshot_payload (PDict (RelationshipStateV1_to_dict s)) relationship_state_field = Ok tt
     <-> text_within (PDict (RelationshipStateV1_to_dict s)) _MAX_REPLAY_PAYLOAD_BYTES).
Proof.
  split_and!.
  - intros d [?|(d' & [= <-] & S)]%validate_snapshot_iff; [done|by apply emotional_reads].
  - intros d [?|(d' & [= <-] & S)]%validate_snapshot_iff; [done|by apply relationship_reads].
  - intros s W. apply validate_snapshot_iff. right. eexists. split; [done|by apply emotional_accepted].
  - intros s W. rewrite validate_snapshot_iff. split.
    + intros [?|(d' & [= <-] & S)]; [done|]. by apply so_bytes in S.
    + intros B. right. eexists. split; [done|by apply relationship_accepted].
Qed.

(** Every number prints as [0.5]. *)
Lemma flat_text : @FloatText flat_repr.
Proof. intros f _. change (float_repr f) with [48; 46; 53]%N. split; [|cbn; lia]. repeat (constructor; [lia|]). constructor. Qed.

(** Of what the RPC answers, what the caller gets. *)
Definition answered `{FloatRepr} {DB} (answer : result rpc_exn pyval * DB) : result commit_exn CommittedTurn * DB :=
  (match answer.1 with
   | Ok res => parse_commit_turn_result res
   | Err RpcException => Err database_error
   | Err RpcBaseException => Err CommitBase
   end, answer.2).

(** What a commit does with input that passes. *)
Lemma commit_turn_called `{FT : FloatText, SH : Sha256} {DB : Type}
    (rpc : pystr -> pydict -> DB -> result rpc_exn pyval * DB) (a : commit_input) (owner : pyval) (db : DB)
    user request revision message answer response events replay :
  input_ok a user request revision message answer response events replay -> _validate_lease_owner owner = Ok tt ->
  (commit_turn rpc a owner db = (Err CommitOther, db)
   /\ (int_printable revision = false \/ surrogates user = true \/ surrogates message = true \/ surrogates answer = true))
  \/ exists payload canonical hash, commit_turn rpc a owner db = answered (rpc (u "commit_turn") payload db)
       /\ build_canonical_commit_payload a = Ok canonical /\ canonical_payload_hash canonical = Ok hash
       /\ build_commit_turn_rpc_payload a hash owner = Ok payload.
Proof.
  intros I O.
  assert (validate_atomic_commit_input a = Ok tt) as Hv by (apply validate_input_iff; eauto 10).
  unfold commit_turn. rewrite Hv, O. cbn [rbind].
  destruct (unpack_ok events (proj2 (io_events _ _ _ _ _ _ _ _ _ I))) as (es & Eu & _).
  assert (exists canonical, build_canonical_commit_payload a = Ok canonical /\ as_mapping canonical <> None) as (canonical & Hc & Mc).
  { unfold build_canonical_commit_payload. rewrite (proj1 (io_events _ _ _ _ _ _ _ _ _ I)), Eu. cbn [rbind]. by eexists. }
  rewrite Hc. cbn [rbind]. destruct (canonical_payload_hash canonical) as [hash|e] eqn:Eh; cbn [rbind].
  - right. destruct (rpc_payload_ok _ _ _ _ _ _ _ _ _ hash owner I) as (payload & Hp & _). rewrite Hp.
    exists payload, canonical, hash. split; [|done]. unfold answered.
    by destruct (rpc (u "commit_turn") payload db) as [[res|[]] db'].
  - left. split.
    + unfold canonical_payload_hash in Eh. destruct (as_mapping canonical); [|done].
      destruct (json_dump true _); [destruct (utf8_len _); [done|]|]; by injection Eh as <-.
    + destruct (int_printable revision) eqn:Ip; [|by left]. destruct (surrogates user) eqn:Su; [by right; left|].
      destruct (surrogates message) eqn:Sm; [by right; right; left|]. destruct (surrogates answer) eqn:Sa; [by right; right; right|].
      destruct (canonical_hash_ok a user request revision message answer response events replay I Ip Su Sm Sa)
        as (c' & h' & Hc' & Hh'). rewrite Hc in Hc'. injection Hc' as <-. congruence.
Qed.

(** The commit gate.  Input that does not pass the validation, or a bad lease
    owner, never reaches the database: the call fails with a refusal and the
    database is as it was.  Otherwise the RPC runs exactly once, on the
    caller's own values and the hash of the canonical payload, and its answer is
    what is reported; only a text that cannot be encoded, or an integer too
    long to print, still stops the call before.  No failure shows anything but a
    known conflict code, a validation code or the constant database error. *)
Theorem commit_turn_gate (FR : FloatRepr) (FT : FloatText) (SH : Sha256) (DB : Type)
    (rpc : pystr -> pydict -> DB -> result rpc_exn pyval * DB) (a : commit_input) (owner : pyval) (db : DB) :
  (forall e, (validate_atomic_commit_input a ;;; _validate_lease_owner owner) = Err e ->
     commit_turn rpc a owner db = (Err e, db) /\ refusal e)
  /\ (forall user request revision message answer response events replay,
       input_ok a user request revision message answer response events replay -> _validate_lease_owner owner = Ok tt ->
       (commit_turn rpc a owner db = (Err CommitOther, db)
        /\ (int_printable revision = false \/ surrogates user = true \/ surrogates message = true \/ surrogates answer = true))
       \/ exists payload canonical hash, commit_turn rpc a owner db = answered (rpc (u "commit_turn") payload db)
            /\ build_canonical_commit_payload a = Ok canonical /\ canonical_payload_hash canonical = Ok hash
            /\ build_commit_turn_rpc_payload a hash owner = Ok payload)
  /\ (forall e, (commit_turn rpc a owner db).1 = Err e -> sanitized e).
Proof.
  split_and!; [|intros; by eapply commit_turn_called|].
  - intros e H. unfold commit_turn. destruct (validate_atomic_commit_input a) as [[]|e'] eqn:Hv; cbn [rbind] in H |- *.
    + rewrite H. cbn [rbind]. split; [done|by eapply owner_refusal].
    + injection H as ->. split; [done|by eapply input_refusal].
  - intros e. destruct (validate_atomic_commit_input a) as [[]|e'] eqn:Hv.
    2: { unfold commit_turn. rewrite Hv. cbn. intros [= <-]. by eapply refusal_sanitized, input_refusal. }
    destruct (_validate_lease_owner owner) as [[]|e'] eqn:Ho.
    2: { unfold commit_turn. rewrite Hv, Ho. cbn. intros [= <-]. by eapply refusal_sanitized, owner_refusal. }
    apply validate_input_iff in Hv as (user & request & revision & message & answer & response & events & replay & I).
    destruct (commit_turn_called rpc a owner db _ _ _ _ _ _ _ _ I Ho) as [[-> _]|(payload & canonical & hash & -> & _)]; [by intros [= <-]|].
    unfold answered. cbn [fst]. destruct (rpc (u "commit_turn") payload db) as [[res|[]] db']; cbn [fst];
      [apply parse_sanitized|by intros [= <-]..].
Qed.

Definition sample_state : EmotionalStateV1 := mkState 0.1 0.2 0.3 0.4 0.5 0.6 0.7 0.8 HEALTHY 1000 1.

Definition sample_input : commit_input :=
  mkCommitInput (PStr (u "ana")) (PStr sample_request) (PInt 2) (PStr (u "bom dia")) (PStr (u "oi"))
    (PDict (EmotionalStateV1_to_dict sample_state)) (PDict (RelationshipStateV1_to_dict sample_rel)) (PStr (u "oi"))
    (PList [PTuple [PStr (u "archival"); PDict [(KStr (u "message_id"), PStr sample_request)]; PStr (u "archival:1")]])
    (PDict [(KStr (u "response"), PStr (u "oi")); (KStr (u "message_id"), PStr sample_message)]).

(** A digest of the right length. *)
Definition zero_sha : Sha256 := fun _ => repeat 48%N 64.

Lemma snapshot_contract_agrees_witness : exists s,
  @_validate_snapshot_payload flat_repr (PDict (EmotionalStateV1_to_dict sample_state)) emotional_state_field = Ok tt
  /\ EmotionalStateV1_from_dict (PDict (EmotionalStateV1_to_dict sample_state)) = Ok s.
Proof.
  destruct (snapshot_contract_agrees flat_repr flat_text) as (R & _ & A & _).
  assert (state_wf sample_state = true) as W by by vm_compute.
  destruct (R _ (A _ W)) as (s & E & _). exists s. split; [exact (A _ W)|exact E].
Defined.

(** The database counts the calls it gets. *)
Lemma commit_turn_gate_witness :
  exists payload t, @commit_turn flat_repr zero_sha nat (fun _ _ n => (Ok sample_answer, S n)) sample_input (PStr (u "w:1")) 0%nat
    = (Ok t, 1%nat) /\ @build_commit_turn_rpc_payload sample_input (repeat 48%N 64) (PStr (u "w:1")) = Ok payload.
Proof.
  destruct (commit_turn_gate flat_repr flat_text zero_sha nat (fun _ _ n => (Ok sample_answer, S n)) sample_input (PStr (u "w:1")) 0%nat)
    as (_ & C & _).
  assert (@validate_atomic_commit_input flat_repr sample_input = Ok tt) as V by (vm_compute; reflexivity).
  apply validate_input_iff in V as (user & request & revision & message & answer & response & events & replay & I).
  destruct (C _ _ _ _ _ _ _ _ I) as [[E _]|(payload & canonical & hash & E & _ & H & P)]; [by vm_compute|by vm_compute in E|].
  assert (hash = repeat 48%N 64) as ->.
  { unfold canonical_payload_hash in H. repeat case_match; by simplify_eq. }
  exists payload. eexists. split; [|exact P]. rewrite E. vm_compute. reflexivity.
Defined.
