(* ===== verification/TurnDatabaseTheorems.v ===== *)
(** * What the SQL functions guarantee

    The commit as a compare-and-swap on the profile, the stored request it leaves
    behind, and the agreement of its input validation with the one in Python. *)

From S2P Require Import Prelude PyFloat FloatRound PyValue Json TurnExecution TurnExecutionTheorems StorageContracts EmotionalModels Relationship AtomicTurnCommit JsonText CommitTheorems TurnDatabase.

Local Open Scope Z_scope.

(** ** The profile of a user *)

Definition revision_of (db : turn_db) (user : pystr) : Z :=
  match d_profiles db !! user with Some r => pr_revision r | None => 0 end.

(** The two snapshots; [None] without a profile. *)
Definition snapshots_of (db : turn_db) (user : pystr) : option (pyval * pyval) :=
  r ← d_profiles db !! user; Some (pr_emotional_state r, pr_relationship_state r).

(** How other transactions may move the database between two steps of a turn:
    the revision of a profile never goes back, and its snapshots change only
    together with its revision. *)
Definition evolves (db db' : turn_db) : Prop :=
  forall user, revision_of db user <= revision_of db' user
    /\ (revision_of db user = revision_of db' user -> snapshots_of db user = snapshots_of db' user).

#[export] Instance evolves_preorder : PreOrder evolves.
Proof.
  split; [by intros db user|]. intros a b c H1 H2 user. destruct (H1 user) as [L1 S1], (H2 user) as [L2 S2].
  split; [lia|]. intros E. rewrite S1 by lia. apply S2. lia.
Qed.

Section Commit.
Context `{JB : Jsonb} (env : sql_env).

(** What a commit that writes leaves behind. *)
Record written (p : sql_params) (db db' : turn_db) (row : turn_request_row) : Prop := {
  wr_expected : revision_of db (p_authenticated_user_id p) = p_expected_revision p;
  wr_revision : revision_of db' (p_authenticated_user_id p) = p_expected_revision p + 1;
  wr_emotional : forall d, p_emotional_state p = PDict d ->
    option_map fst (snapshots_of db' (p_authenticated_user_id p)) = Some (jsonb_stored (PDict d));
  wr_relationship : forall d, p_relationship_state p = PDict d ->
    option_map snd (snapshots_of db' (p_authenticated_user_id p)) = Some (jsonb_stored (PDict d));
  wr_others : forall user, user <> p_authenticated_user_id p -> d_profiles db' !! user = d_profiles db !! user;
  wr_row : d_requests db' !! (p_authenticated_user_id p, p_request_id p) = Some row;
  wr_requests : forall k, k <> (p_authenticated_user_id p, p_request_id p) -> d_requests db' !! k = d_requests db !! k;
  wr_fresh : match d_requests db !! (p_authenticated_user_id p, p_request_id p) with
    Some old => tr_status old <> st_completed | None => True end;
  wr_status : tr_status row = st_completed;
  wr_hash : tr_payload_hash row = p_payload_hash_sha256 p;
  wr_committed : tr_committed_revision row = Some (p_expected_revision p + 1);
  wr_replay : tr_replay_payload row = jsonb_stored (p_replay_payload p);
  wr_completed : tr_completed_at row = Some (se_now env);
  wr_logs : exists id1 id2, d_logs db' = d_logs db
    ++ [mkLogRow id1 (p_authenticated_user_id p) false (p_user_message p) (se_now env);
        mkLogRow id2 (p_authenticated_user_id p) true (p_assistant_message p) (se_now env)] }.

Lemma insert_events_frame user request n events db db' :
  insert_events env user request n events db = Some db' ->
  d_profiles db' = d_profiles db /\ d_requests db' = d_requests db /\ d_logs db' = d_logs db
  /\ exists rows, d_outbox db' = d_outbox db ++ rows /\ length rows = length events
     /\ Forall (fun r => ob_user r = user /\ ob_turn_request r = request) rows.
Proof.
  revert n db. induction events as [|v events IH]; intros n db H; cbn [insert_events] in H.
  { injection H as <-. split_and!; try done. exists []. by rewrite app_nil_r. }
  apply bind_Some in H as (db1 & E1 & E2). apply IH in E2 as (P & R & L & rows & O & Lr & F).
  unfold insert_event in E1. apply bind_Some in E1 as (d & _ & E1). apply bind_Some in E1 as (ty & _ & E1).
  apply bind_Some in E1 as (key & _ & E1). destruct (existsb _ _); [done|]. injection E1 as <-. cbn in P, R, L, O.
  split_and!; try done. rewrite <- app_assoc in O. eexists. split; [exact O|]. split; [cbn; lia|]. constructor; [done|done].
Qed.

(** Steps 5 to 10. *)
Lemma write_turn_written p existing db res db' :
  write_turn env p existing db = Some (Some (res, db')) ->
  revision_of db (p_authenticated_user_id p) = p_expected_revision p ->
  d_requests db !! (p_authenticated_user_id p, p_request_id p) = existing ->
  (forall r, existing = Some r -> tr_payload_hash r = p_payload_hash_sha256 p) ->
  exists row, written p db db' row
    /\ commit_turn_build_result (p_authenticated_user_id p) (p_request_id p) db' = Some res
    /\ is_bigint (p_expected_revision p + 1) = true.
Proof.
  intros H Hr He Hh. unfold write_turn in H. set (user := p_authenticated_user_id p) in *.
  fold (revision_of db user) in H. rewrite Hr in H. destruct (is_bigint _) eqn:Big; [|done]. cbn [negb] in H.
  set (prow := match d_profiles db !! user with Some _ => _ | None => _ end) in H.
  set (db1 := mkTurnDb _ _ _ _ _) in H. apply bind_Some in H as ([l1 db2] & E1 & H). apply bind_Some in H as ([l2 db3] & E2 & H).
  unfold insert_log in E1, E2. destruct (log_content_ok (p_user_message p)); [|done]. cbn [negb] in E1. injection E1 as <- <-.
  destruct (log_content_ok (p_assistant_message p)); [|done]. cbn [negb] in E2. injection E2 as <- <-.
  cbn [d_next_log d_profiles d_requests d_logs d_outbox] in H.
  set (req := match existing with Some _ => _ | None => _ end) in H.
  destruct req as [r|] eqn:Er; [|done]. subst req.
  assert (tr_status r = st_completed /\ tr_payload_hash r = p_payload_hash_sha256 p
    /\ tr_committed_revision r = Some (p_expected_revision p + 1) /\ tr_replay_payload r = jsonb_stored (p_replay_payload p)
    /\ tr_completed_at r = Some (se_now env)
    /\ match existing with Some old => tr_status old <> st_completed | None => True end) as (S & Hs & Cr & Rp & Cp & Fr).
  { destruct existing as [old|]; [|injection Er as <-; by repeat split].
    destruct (reclaimable env (p_lease_owner p) old) eqn:Rc; [|done]. injection Er as <-. repeat split; try done.
    intros Hc. unfold reclaimable in Rc. by rewrite Hc in Rc. }
  destruct (match existing with Some _ => false | None => _ end) in H; [done|].
  apply bind_Some in H as (db4 & E4 & H). apply bind_Some in H as (res' & E5 & [= -> <-]).
  apply insert_events_frame in E4 as (P4 & R4 & L4 & _). cbn in P4, R4, L4.
  eexists. split; [|split; [exact E5|done]].
  assert (pr_revision prow = p_expected_revision p + 1
    /\ (forall d, p_emotional_state p = PDict d -> pr_emotional_state prow = jsonb_stored (PDict d))
    /\ (forall d, p_relationship_state p = PDict d -> pr_relationship_state prow = jsonb_stored (PDict d))) as (Pr & Pe & Pl).
  { subst prow. destruct (d_profiles db !! user); cbn; (split; [done|]); split; by intros d ->. }
  constructor; unfold revision_of, snapshots_of; cbn [with_request d_profiles d_requests d_logs]; rewrite ?P4, ?R4, ?L4, ?lookup_insert_eq;
    try done.
  - intros d Hd. cbn. by rewrite (Pe d Hd).
  - intros d Hd. cbn. by rewrite (Pl d Hd).
  - intros u' Hu. by rewrite lookup_insert_ne.
  - intros k Hk. rewrite !lookup_insert_ne by done. done.
  - fold user. by rewrite He.
  - eexists _, _. by rewrite <- app_assoc.
Qed.

(** The answers that report an error. *)
Definition is_error (v : pyval) : Prop := exists e, v = PDict [(KStr (u "error"), e)].

(** Every call of the commit function. *)
Lemma sql_commit_cases p db res db' :
  sql_commit_turn env p db = (res, db') ->
  (db' = db /\ (res = None \/ exists v, res = Some v /\ is_error v))
  \/ (db' = db /\ exists row, d_requests db !! (p_authenticated_user_id p, p_request_id p) = Some row
        /\ tr_status row = st_completed /\ tr_payload_hash row = p_payload_hash_sha256 p
        /\ res = commit_turn_build_result (p_authenticated_user_id p) (p_request_id p) db)
  \/ (exists row v, written p db db' row /\ res = Some v
        /\ commit_turn_build_result (p_authenticated_user_id p) (p_request_id p) db' = Some v).
Proof.
  unfold sql_commit_turn. intros H. destruct (step0 p) as [[m|]|]; [left|..|left]; [|..|by injection H as <- <-; auto].
  { injection H as <- <-. split; [done|]. right. eexists. split; [done|]. by eexists. }
  fold (revision_of db (p_authenticated_user_id p)) in H.
  assert (forall existing, d_requests db !! (p_authenticated_user_id p, p_request_id p) = existing ->
    (forall r, existing = Some r -> tr_payload_hash r = p_payload_hash_sha256 p) ->
    (if negb (revision_of db (p_authenticated_user_id p) =? p_expected_revision p) then
      (Some (error_envelope (u "revision_mismatch") (u "Profile revision does not match the expected value")
         [(KStr (u "expected_revision"), PInt (p_expected_revision p));
          (KStr (u "actual_revision"), PInt (revision_of db (p_authenticated_user_id p)))]), db)
     else if match d_profiles db !! p_authenticated_user_id p with
       None => is_null (p_emotional_state p) || is_null (p_relationship_state p) | Some _ => false end
     then (Some (validation_failed (u "new profiles require complete v1 snapshots")), db)
     else match write_turn env p existing db with
       | None => (None, db)
       | Some None => (Some (conflict_envelope (u "lease_conflict") (u "Request state changed; reclaim failed") p), db)
       | Some (Some (res, db')) => (Some res, db')
       end) = (res, db') ->
    (db' = db /\ (res = None \/ exists v, res = Some v /\ is_error v))
    \/ (exists row v, written p db db' row /\ res = Some v
        /\ commit_turn_build_result (p_authenticated_user_id p) (p_request_id p) db' = Some v)) as Pr.
  { intros existing He Hh Hp. destruct (Z.eqb_spec (revision_of db (p_authenticated_user_id p)) (p_expected_revision p)) as [Er|_].
    2: { injection Hp as <- <-. left. split; [done|]. right. eexists. split; [done|]. by eexists. }
    cbn [negb] in Hp. destruct (match d_profiles db !! _ with Some _ => _ | None => _ end).
    { injection Hp as <- <-. left. split; [done|]. right. eexists. split; [done|]. by eexists. }
    destruct (write_turn env p existing db) as [[[v db1]|]|] eqn:W; injection Hp as <- <-.
    - right. destruct (write_turn_written _ _ _ _ _ W Er He Hh) as (row & Wr & B & _). by exists row, v.
    - left. split; [done|]. right. eexists. split; [done|]. by eexists.
    - left. auto. }
  unfold check_request in H. destruct (d_requests db !! _) as [row|] eqn:Hrow.
  2: { destruct (Pr None eq_refl ltac:(done) H) as [?|?]; auto. }
  destruct (str_eqb (tr_payload_hash row) _) eqn:Eh; cbn [negb] in H.
  2: { injection H as <- <-. left. split; [done|]. right. eexists. split; [done|]. by eexists. }
  apply str_eqb_eq in Eh. case_bool_decide as Sc.
  { injection H as <- <-. right. left. split; [done|]. by exists row. }
  destruct (_ && _) in H.
  { injection H as <- <-. left. split; [done|]. right. eexists. split; [done|]. by eexists. }
  destruct (p_lease_owner p) as [o|] eqn:Eo.
  2: { injection H as <- <-. left. split; [done|]. right. eexists. split; [done|]. by eexists. }
  destruct (Pr (Some row) eq_refl) as [?|?]; [by intros ? [= <-]|exact H|auto|auto].
Qed.

(** A commit is one of the moves other clients may make. *)
Lemma sql_commit_evolves p db res db' : sql_commit_turn env p db = (res, db') -> evolves db db'.
Proof.
  intros [[-> _]|[[-> _]|(row & v & [] & _)]]%sql_commit_cases; [reflexivity|reflexivity|]. intros user.
  destruct (decide (user = p_authenticated_user_id p)) as [->|N].
  - rewrite wr_expected0, wr_revision0. split; [lia|]. intros ?; lia.
  - unfold revision_of, snapshots_of. by rewrite wr_others0.
Qed.

End Commit.

(** ** The two validations agree *)

(** What PostgreSQL documents of the text of a JSON number that is an integer. *)
Class JsonbText `{JB : Jsonb} : Prop := jsonb_int_text : forall z, jsonb_text (PInt z) = render_int z.

Lemma forbidden_sql ks v : _has_forbidden ks v = false -> jsonb_has_forbidden_key ks v = false.
Proof.
  assert (forall {A} (p q : A -> bool) l, Forall (fun x => p x = false -> q x = false) l -> existsb p l = false -> existsb q l = false) as L.
  { intros A p q l F. induction F as [|x l H _ IH]; cbn; [done|]. intros [H1 H2]%orb_false_iff. by rewrite (H H1), IH. }
  induction v as [| | | | | |l F|l F|d F|d F] using pyval_nested_ind; try done; cbn [_has_forbidden jsonb_has_forbidden_key]; apply L.
  - exact F.
  - exact F.
  - eapply Forall_impl; [exact F|]. intros [k x] H [H1 H2]%orb_false_iff. cbn in H. by rewrite H1, (H H2).
Qed.

Lemma NoDup_str (l : list pystr) : bool_decide (NoDup l) = true -> NoDup l.
Proof. by intros H%bool_decide_eq_true. Qed.

(** A dict with exactly the given keys has as many. *)
Lemma exact_keys_ok fields (d : pydict) :
  dict_ok d -> NoDup fields -> has_unknown fields d = false -> has_missing fields d = false -> exact_keys fields d = true.
Proof.
  intros Nd Nf U M. unfold exact_keys. rewrite U. cbn [negb andb]. apply Nat.eqb_eq.
  assert (d.*1 ≡ₚ KStr <$> fields) as P.
  { apply NoDup_Permutation; [done| |].
    - apply NoDup_fmap_2; [by intros ? ? [=]|done].
    - intros k. rewrite !list_elem_of_fmap. split.
      + intros ([k' v] & -> & Hin). destruct (proj1 (has_unknown_false _ _) U _ _ Hin) as (s & -> & Hs). by exists s.
      + intros (s & -> & Hs). assert (dhas d s = true) as [v Hv%dget_elem]%dhas_dget.
        { eapply missing_has; [exact M|]. by apply str_in_elem. }
        by exists (KStr s, v). }
  apply Permutation_length in P. by rewrite !length_fmap in P.
Qed.

Lemma as_float_number v f : as_float v = Some f -> is_number v = true /\ double_of v = Some f.
Proof.
  destruct v; cbn; try done.
  - unfold double_of. cbn. destruct (int_to_float z) as [g|]; [|done]. destruct (isfinite g); [|done]. by intros [= ->].
  - destruct (isfinite f0); [|done]. intros [= ->]. done.
Qed.

Lemma within_true lo v f : (lo = (-1)%float \/ lo = 0%float) -> as_float v = Some f -> in_range lo 1 f = true ->
  number_within lo 1 v = Some true.
Proof.
  intros Hl E R. destruct (as_float_number v f E) as [N D]. unfold number_within. rewrite N, D. cbn.
  rewrite range_test, R; [done| |by destruct Hl as [-> | ->]|done]. by eapply isfinite_not_nan, as_float_finite.
Qed.

Lemma bounded_keys lo d ks : (lo = (-1)%float \/ lo = 0%float) ->
  forallb (fun name => bounded lo 1 (dindex d name)) ks = true -> all_keys (number_within lo 1) d ks = Some true.
Proof.
  intros Hl. induction ks as [|k ks IH]; [done|]. cbn [forallb all_keys]. intros [H1 H2]%andb_true_iff.
  destruct (bounded_as_float lo _ Hl H1) as (f & E & R). rewrite (within_true lo _ f Hl E R). cbn. by apply IH.
Qed.

Lemma positive_true v : timestamp_positive v = true -> number_positive v = Some true.
Proof.
  intros (f & E & P)%timestamp_as_float. destruct (as_float_number v f E) as [N D]. unfold number_positive. rewrite N, D. cbn.
  apply andb_true_iff in P as [_ P]. by rewrite (ltb_leb_false _ _ P).
Qed.

(** Python's [strip] removes spaces too. *)
Lemma trim_while_none {A} (p q : A -> bool) l : (forall x, p x = true -> q x = true) -> drop_while q l = l -> drop_while p l = l.
Proof.
  intros H. destruct l as [|x l]; [done|]. cbn. destruct (q x) eqn:Q.
  - intros K. assert (length (drop_while q l) <= length l)%nat as L.
    { clear. induction l as [|y l IH]; cbn; [done|]. destruct (q y); cbn; lia. }
    rewrite K in L. cbn in L. lia.
  - intros _. destruct (p x) eqn:P; [|done]. apply H in P. congruence.
Qed.

Lemma drop_while_id_of_length {A} (q : A -> bool) l : (length l <= length (drop_while q l))%nat -> drop_while q l = l.
Proof.
  destruct l as [|x l]; [done|]. cbn. destruct (q x); [|done]. intros H.
  assert (length (drop_while q l) <= length l)%nat as L.
  { clear. induction l as [|y l IH]; cbn; [done|]. destruct (q y); cbn; lia. }
  lia.
Qed.

Lemma drop_while_length {A} (q : A -> bool) l : (length (drop_while q l) <= length l)%nat.
Proof. induction l as [|y l IH]; cbn; [done|]. destruct (q y); cbn; lia. Qed.

Lemma trim_stripped s : strip s = s -> sql_trim s = s.
Proof.
  unfold strip, sql_trim, lstrip. intros H.
  assert (forall c, (c =? 32)%N = true -> is_space c = true) as Sp by (by intros c ->%N.eqb_eq).
  assert (drop_while is_space s = s) as H1.
  { apply drop_while_id_of_length. apply (f_equal length) in H. rewrite length_rev in H.
    pose proof (drop_while_length is_space (rev (drop_while is_space s))) as L. rewrite length_rev in L. lia. }
  rewrite H1 in H. rewrite (trim_while_none _ _ s Sp H1).
  rewrite (trim_while_none _ is_space (rev s) Sp); [apply rev_involutive|].
  apply (f_equal (@rev N)) in H. rewrite rev_involutive in H. done.
Qed.

Section Agree.
Context `{FT : FloatText, JT : JsonbText}.

(** A document as PostgreSQL prints it is within the bound of the columns. *)
Definition fits (v : pyval) : Prop := (octet_length (jsonb_text v) <= 8192)%nat.

Lemma fits_ltb v : fits v -> (8192 <? octet_length (jsonb_text v))%nat = false.
Proof. intros H. by apply Nat.ltb_ge. Qed.

Lemma version_one d : dget d (u "schema_version") = Some (PInt 1) ->
  dindex d (u "schema_version") = PInt 1 /\ jsonb_text (PInt 1) = u "1".
Proof. intros H. unfold dindex. rewrite H. split; [done|]. by rewrite jsonb_int_text. Qed.

(** The checks of a version that prints as one digit. *)
Ltac version_checks :=
  replace ((1 <=? length (u "1"))%nat && forallb is_digit (u "1")) with true by reflexivity;
  replace (is_bigint (Z.of_N (digits_value 0 (u "1")))) with true by reflexivity;
  replace (digits_value 0 (u "1") =? 1)%N with true by reflexivity; cbn [negb].

Lemma emotional_contract d : snapshot_ok emotional_state_field d -> dict_ok d -> fits (PDict d) ->
  jsonb_snapshot_contract (PDict d) kind_emotional = Some true.
Proof.
  intros [V F K C W T B] Nd L. destruct (version_one d V) as [Ev Et]. unfold jsonb_snapshot_contract. rewrite Ev. cbv zeta.
  cbn [is_number negb]. rewrite Et. version_checks. rewrite (forbidden_sql _ _ F), (fits_ltb _ L).
  rewrite (exact_keys_ok EMOTIONAL_SNAPSHOT_FIELDS d Nd) by (done || (apply NoDup_str; vm_compute; reflexivity)). cbn [negb].
  unfold values_ok in W. apply andb_true_iff in W as [[W1 W2]%andb_true_iff W3].
  rewrite (bounded_keys (-1) d _ (or_introl eq_refl) W1). cbn [mbind option_bind negb].
  rewrite (bounded_keys 0 d _ (or_intror eq_refl) W2). cbn [mbind option_bind negb].
  destruct (dindex d (u "coping_mode")); try done. rewrite W3. by apply positive_true.
Qed.

Lemma relationship_contract d : snapshot_ok relationship_state_field d -> dict_ok d -> fits (PDict d) ->
  jsonb_snapshot_contract (PDict d) kind_relationship = Some true.
Proof.
  intros [V F K C W T B] Nd L. destruct (version_one d V) as [Ev Et]. unfold jsonb_snapshot_contract. rewrite Ev. cbv zeta.
  cbn [is_number negb]. rewrite Et. version_checks. rewrite (forbidden_sql _ _ F), (fits_ltb _ L).
  rewrite (exact_keys_ok RELATIONSHIP_SNAPSHOT_FIELDS d Nd) by (done || (apply NoDup_str; vm_compute; reflexivity)). cbn [negb].
  unfold values_ok in W. apply andb_true_iff in W as [W1 W2].
  rewrite (bounded_keys 0 d _ (or_intror eq_refl) W1). cbn [mbind option_bind negb].
  destruct (as_sequence (dindex d (u "triggers"))) as [l|] eqn:S; [|done].
  assert (is_array (dindex d (u "triggers")) = Some l) as -> by (by destruct (dindex d (u "triggers"))).
  destruct (triggers_read l W2) as (ts & -> & Lt & Nt & Ft).
  rewrite length_map, (proj2 (Nat.ltb_ge _ _) Lt).
  assert (forallb trigger_sql_ok (map PStr ts) = true /\ trigger_groups (map PStr ts) = ts) as [-> ->].
  { clear -Ft. induction Ft as [|t l (St & Ne & Lt) _ [IH1 IH2]]; [done|]. cbn [map forallb trigger_sql_ok].
    apply trim_stripped in St. unfold trigger_groups in *. cbn [map]. rewrite IH1, IH2, St.
    rewrite bool_decide_eq_false_2, (proj2 (Nat.leb_le _ _) Lt), (proj2 (str_eqb_eq t t) eq_refl) by done. done. }
  cbn [negb]. rewrite bool_decide_eq_true_2 by done. cbn [negb]. by apply positive_true.
Qed.

End Agree.

Section Step0.
Context `{FT : FloatText, JT : JsonbText}.

Lemma version_texts z : 0 < z -> z <= 1000 -> version_text_ok (render_int z) = true.
Proof.
  assert (forallb (fun n => version_text_ok (render_int (Z.of_nat n))) (seq 1 1000) = true) as H by (vm_compute; reflexivity).
  intros L U. rewrite forallb_forall in H. specialize (H (Z.to_nat z)). rewrite Z2Nat.id in H by lia. apply H, in_seq. lia.
Qed.

Lemma event_accepted v ty d key : event_ok v ty d key -> event_refused (event_dict (PStr ty) (PDict d) (PStr key)) = None.
Proof.
  intros [_ T K U F V _]. unfold event_refused, event_dict. cbn [is_object].
  change (text_at _ (u "event_type")) with (Some ty). cbv iota. rewrite T. cbn [negb].
  change (dget _ (u "payload")) with (Some (PDict d)). cbv iota. unfold jsonb_keys_subset_of. cbn [is_object]. rewrite U. cbn [negb].
  rewrite (forbidden_sql _ _ F).
  assert (jsonb_outbox_payload_value_contract (PDict d) = true) as ->.
  { unfold jsonb_outbox_payload_value_contract. cbn [is_object]. rewrite forallb_forall in V |- *. intros [k x] Hin.
    specialize (V _ Hin). unfold outbox_item_ok in V. cbn [fst snd] in *. case_bool_decide; [|done].
    destruct x; try done. cbn [is_number andb]. apply andb_true_iff in V as [V1%Z.ltb_lt V2%negb_true_iff%Z.ltb_ge].
    rewrite jsonb_int_text. by apply version_texts. }
  cbn [negb]. change (text_at _ (u "idempotency_key")) with (Some key). cbv iota. by rewrite K.
Qed.

(** A call Python lets through, with identifiers in their canonical form and
    documents that fit as PostgreSQL prints them. *)
Record call_ok (p : sql_params) : Prop := {
  ca_user : p_authenticated_user_id p <> [];
  ca_request : is_uuid (p_request_id p) = true;
  ca_revision : 0 <= p_expected_revision p;
  ca_hash : is_hash (p_payload_hash_sha256 p) = true;
  ca_replay : exists d m, p_replay_payload p = PDict d /\ replay_ok d (p_public_response p) (Some (p_request_id p))
    /\ dget d (u "message_id") = Some (PStr m) /\ is_uuid m = true /\ fits (PDict d);
  ca_emotional : exists d, p_emotional_state p = PDict d /\ snapshot_ok emotional_state_field d /\ dict_ok d /\ fits (PDict d);
  ca_relationship : exists d, p_relationship_state p = PDict d /\ snapshot_ok relationship_state_field d /\ dict_ok d /\ fits (PDict d);
  ca_outbox : exists es, p_outbox_events p = PList es
    /\ Forall (fun e => exists v ty d key, event_ok v ty d key /\ e = event_dict (PStr ty) (PDict d) (PStr key)) es;
  ca_owner : forall o, p_lease_owner p = Some o -> is_lease_owner o = true }.

Lemma step0_accepts p : call_ok p -> step0 p = Some None.
Proof.
  intros [U R V H (rd & m & Pr & [F K Rs _ Q _] & Dm & Um & Lr) (ed & Pe & Se & Ne & Le) (ld & Pl & Sl & Nl & Ll) (es & Po & Fo) O].
  unfold step0. rewrite bool_decide_eq_false_2, (proj2 (Z.ltb_ge _ _) V), H by done. cbn [negb].
  assert (replay_refused p = None) as ->.
  { unfold replay_refused. rewrite Pr. cbn [is_object]. unfold jsonb_keys_subset_of. cbn [is_object]. rewrite K. cbn [negb].
    rewrite (forbidden_sql _ _ F), Rs.
    assert (match dget rd (u "request_id") with
      | None => false | Some (PStr r) => negb (is_uuid r) || negb (str_eqb r (p_request_id p)) | Some _ => true end = false) as ->.
    { destruct (dget rd (u "request_id")) as [v|]; [|done]. destruct (Q v eq_refl) as (s & -> & _ & E). rewrite (E _ eq_refl), R.
      by rewrite (proj2 (str_eqb_eq _ _) eq_refl). }
    rewrite (proj2 (str_eqb_eq _ _) eq_refl). cbn [negb]. unfold text_at. rewrite Dm. cbn [mbind option_bind json_text]. rewrite Um.
    cbn [negb]. by rewrite (fits_ltb _ Lr). }
  rewrite Pe, (emotional_contract ed Se Ne Le). cbn [mbind option_bind negb].
  rewrite Pl, (relationship_contract ld Sl Nl Ll). cbn [mbind option_bind negb].
  rewrite Po. cbn [is_array].
  assert (match p_lease_owner p with None => true | Some o => is_lease_owner o end = true) as ->
    by (destruct (p_lease_owner p) as [o|]; [by apply O|done]).
  cbn [negb]. f_equal. clear -Fo JT. induction Fo as [|e es (v & ty & d & key & Ev & ->) _ IH]; [done|].
  cbn [omap list_omap]. by rewrite (event_accepted v ty d key Ev).
Qed.

End Step0.
