(* ===== verification/TurnDatabaseProperties.v ===== *)
(** * What the turn database promises

    A committed request stays committed, with its answer; the revision of a
    profile counts its turns; and a call that Python has validated, for a new
    request at the current revision, is committed. *)

From S2P Require Import Prelude PyFloat FloatRound PyValue Json TurnExecution StorageContracts EmotionalModels Relationship.
From S2P Require Import AtomicTurnCommit JsonText CommitTheorems CommitProperties TurnDatabase TurnDatabaseTheorems.

Local Open Scope Z_scope.

Section Calls.
Context `{JB : Jsonb}.

(** Any sequence of commits, of any clients. *)
Definition run_calls (calls : list (sql_env * sql_params)) (db : turn_db) : turn_db :=
  foldl (fun db c => (sql_commit_turn c.1 c.2 db).2) db calls.

Lemma commit_calls_ind (R : turn_db -> turn_db -> Prop) `{!PreOrder R} :
  (forall env p db, R db (sql_commit_turn env p db).2) -> forall calls db, R db (run_calls calls db).
Proof.
  intros S calls. induction calls as [|c calls IH]; intros db; [reflexivity|]. cbn. by etransitivity; [apply S|apply IH].
Qed.

(** ** Completed requests *)

Definition keeps_completed (db db' : turn_db) : Prop :=
  forall key row, d_requests db !! key = Some row -> tr_status row = st_completed -> d_requests db' !! key = Some row.

#[local] Instance keeps_completed_preorder : PreOrder keeps_completed.
Proof. split; [by intros db key row|]. intros a b c H1 H2 key row Hr Hs. eapply H2; [by eapply H1|done]. Qed.

Lemma commit_keeps_completed env p db : keeps_completed db (sql_commit_turn env p db).2.
Proof.
  destruct (sql_commit_turn env p db) as [res db'] eqn:E. cbn.
  apply sql_commit_cases in E as [[-> _]|[[-> _]|(row & v & [] & _)]]; [reflexivity|reflexivity|].
  intros key r Hr Hs. destruct (decide (key = (p_authenticated_user_id p, p_request_id p))) as [->|N].
  - by rewrite Hr in wr_fresh.
  - by rewrite wr_requests.
Qed.

Lemma build_result_row user request row db db' :
  d_requests db !! (user, request) = Some row -> d_requests db' !! (user, request) = Some row ->
  commit_turn_build_result user request db = commit_turn_build_result user request db'.
Proof. intros H1 H2. unfold commit_turn_build_result. by rewrite H1, H2. Qed.

(** What a call that reports no error has left behind. *)
Lemma commit_answered env p db v db' :
  sql_commit_turn env p db = (Some v, db') -> ~ is_error v ->
  step0 p = Some None /\ exists row, d_requests db' !! (p_authenticated_user_id p, p_request_id p) = Some row
    /\ tr_status row = st_completed /\ tr_payload_hash row = p_payload_hash_sha256 p
    /\ commit_turn_build_result (p_authenticated_user_id p) (p_request_id p) db' = Some v.
Proof.
  intros H N. split.
  { unfold sql_commit_turn in H. destruct (step0 p) as [[m|]|]; [|done|done]. injection H as <- _. destruct N. by eexists. }
  apply sql_commit_cases in H as [[-> [[=]|(w & [= <-] & E)]]|[(-> & row & Hr & Hs & Hh & Hb)|(row & w & [] & [= <-] & Hb)]];
    [done|by exists row|by exists row].
Qed.


(** ** Revisions *)

Definition log_count (user : pystr) (db : turn_db) : Z :=
  Z.of_nat (length (List.filter (fun r => str_eqb (lr_user r) user) (d_logs db))).

Definition completed_count (user : pystr) (db : turn_db) : Z :=
  Z.of_nat (size (filter (fun kr => kr.1.1 = user /\ tr_status kr.2 = st_completed) (d_requests db))).

Lemma completed_count_insert user key row (db db' : turn_db) :
  d_requests db' = <[key := row]> (d_requests db) -> tr_status row = st_completed ->
  match d_requests db !! key with Some old => tr_status old <> st_completed | None => True end ->
  completed_count user db' = completed_count user db + (if decide (key.1 = user) then 1 else 0).
Proof.
  intros E S F. unfold completed_count. rewrite E. destruct (decide (key.1 = user)) as [Hu|Hu].
  - rewrite map_filter_insert_True by done.
    rewrite map_size_insert_None; [lia|]. apply map_lookup_filter_None. destruct (d_requests db !! key) as [old|] eqn:Eo; [right|by left].
    intros x [= <-] [_ ?]. done.
  - rewrite map_filter_insert_False by (cbn; tauto). f_equal. f_equal.
    rewrite map_filter_delete. rewrite delete_id; [lia|]. apply map_lookup_filter_None. right. intros x _ [? _]. done.
Qed.

(** Two messages and one completed request for every revision. *)
Definition counts_together (user : pystr) (db db' : turn_db) : Prop :=
  log_count user db' - log_count user db = 2 * (revision_of db' user - revision_of db user)
  /\ completed_count user db' - completed_count user db = revision_of db' user - revision_of db user.

#[local] Instance counts_together_preorder user : PreOrder (counts_together user).
Proof. split; [intros db; unfold counts_together; lia|]. intros a b c [] []. unfold counts_together. lia. Qed.

Lemma commit_counts user env p db : counts_together user db (sql_commit_turn env p db).2.
Proof.
  destruct (sql_commit_turn env p db) as [res db'] eqn:E. cbn.
  apply sql_commit_cases in E as [[-> _]|[[-> _]|(row & v & W & _)]]; [reflexivity|reflexivity|].
  destruct W as [W1 W2 _ _ W3 W4 W5 W6 W7 _ _ _ _ (id1 & id2 & W8)].
  assert (d_requests db' = <[(p_authenticated_user_id p, p_request_id p) := row]> (d_requests db)) as Rq.
  { apply map_eq. intros k. destruct (decide (k = (p_authenticated_user_id p, p_request_id p))) as [->|N].
    - by rewrite W4, lookup_insert_eq.
    - by rewrite W5, lookup_insert_ne. }
  unfold counts_together. rewrite (completed_count_insert user _ _ _ _ Rq W7 W6).
  unfold log_count. rewrite W8, List.filter_app, length_app. cbn [List.filter lr_user fst].
  destruct (decide (p_authenticated_user_id p = user)) as [<-|N].
  - rewrite (proj2 (str_eqb_eq _ _) eq_refl). cbn [length]. lia.
  - assert (str_eqb (p_authenticated_user_id p) user = false) as -> by (apply not_true_is_false; by intros ?%str_eqb_eq).
    unfold revision_of. rewrite W3 by done. cbn [length]. lia.
Qed.

(** The revision of a profile counts the turns.  Over any sequence of calls of
    [commit_turn], by any clients and with any arguments, the messages of a user
    grow by exactly two, and the completed requests by exactly one, for each step
    of the revision; revisions never go back and completed requests stay as
    they are. *)
Theorem revision_counts_turns user calls db :
  let db' := run_calls calls db in
  log_count user db' - log_count user db = 2 * (revision_of db' user - revision_of db user)
  /\ completed_count user db' - completed_count user db = revision_of db' user - revision_of db user
  /\ evolves db db'.
Proof.
  pose proof (commit_calls_ind (counts_together user) (commit_counts user) calls db) as [H1 H2]. split_and!; [done|done|].
  apply commit_calls_ind; [apply _|]. intros env p d. destruct (sql_commit_turn env p d) eqn:E. by eapply sql_commit_evolves.
Qed.

End Calls.

(** ** A new turn is committed *)

Section Liveness.
Context `{FT : FloatText, JT : JsonbText} (env : sql_env).

Definition event_of (e : pystr * pydict * pystr) : pyval := event_dict (PStr e.1.1) (PDict e.1.2) (PStr e.2).

(** Identifiers and keys that the outbox does not have yet, each given once. *)
Definition fresh_events (user : pystr) (n : nat) (evs : list (pystr * pydict * pystr)) (db : turn_db) : Prop :=
  NoDup (se_event_uuid env <$> seq n (length evs)) /\ NoDup (evs.*2)
  /\ Forall (fun r => ob_id r ∉ (se_event_uuid env <$> seq n (length evs)) /\ (ob_user r = user -> ob_key r ∉ evs.*2)) (d_outbox db).

Lemma insert_event_of user request id ty d key db :
  insert_event user request id (event_of (ty, d, key)) db =
  if existsb (fun r => str_eqb (ob_id r) id || (str_eqb (ob_user r) user && str_eqb (ob_key r) key)) (d_outbox db) then None
  else Some (mkTurnDb (d_profiles db) (d_requests db) (d_logs db)
    (d_outbox db ++ [mkOutboxRow id ty user request (jsonb_stored (PDict d)) key]) (d_next_log db)).
Proof. reflexivity. Qed.

Lemma insert_events_ok user request n evs db :
  fresh_events user n evs db -> is_Some (insert_events env user request n (map event_of evs) db).
Proof.
  revert n db. induction evs as [|[[ty d] key] evs IH]; intros n db (Ni & Nk & F); [by eexists|].
  cbn [map insert_events length seq fmap list_fmap] in *. rewrite insert_event_of.
  apply NoDup_cons in Ni as [Ni1 Ni2], Nk as [Nk1 Nk2].
  assert (existsb (fun r => str_eqb (ob_id r) (se_event_uuid env n) || (str_eqb (ob_user r) user && str_eqb (ob_key r) key)) (d_outbox db) = false) as ->.
  { apply not_true_is_false. intros (r & Hin & H)%existsb_exists. rewrite Forall_forall in F. apply list_elem_of_In, F in Hin as [F1 F2].
    apply orb_true_iff in H as [E%str_eqb_eq|[Eu%str_eqb_eq Ek%str_eqb_eq]%andb_true_iff].
    - apply F1. rewrite E. by left.
    - apply (F2 Eu). rewrite Ek. by left. }
  cbn [mbind option_bind]. apply IH. split_and!; [done|done|]. cbn [d_outbox]. apply Forall_app. split.
  - eapply Forall_impl; [exact F|]. intros r [F1 F2]. split; [by intros ?; apply F1; right|]. intros Hu Hk. apply (F2 Hu). by right.
  - apply Forall_singleton. by split.
Qed.


End Liveness.

(** ** Samples *)

(** PostgreSQL that prints a document as Python does and keeps its key order. *)
Definition plain_jsonb : Jsonb := {|
  jsonb_text v := match v with
    | PInt z => render_int z
    | v => match json_dump false v with Ok doc => @render_spaced flat_repr doc | Err _ => [] end end;
  jsonb_stored v := v;
  timestamptz_text := render_int |}.

Lemma plain_jsonb_text : @JsonbText plain_jsonb.
Proof. by intros z. Qed.

Definition sample_hash : pystr := repeat 48%N 64.

Definition sample_env : sql_env := mkSqlEnv 5000000 (u "11111111-1111-1111-1111-111111111111")
  (fun n => u "22222222-2222-2222-2222-22222222222" ++ render_int (Z.of_nat n)).

Definition sample_params : sql_params :=
  mkSqlParams (u "ana") sample_request 2 (u "bom dia") (u "oi") sample_hash
    (PDict (EmotionalStateV1_to_dict sample_state)) (PDict (RelationshipStateV1_to_dict sample_rel)) (u "oi")
    (PDict [(KStr (u "response"), PStr (u "oi")); (KStr (u "message_id"), PStr sample_message)])
    (PList [event_of (u "archival", [(KStr (u "message_id"), PStr sample_request)], u "archival:1")]) (Some (u "w:1")).

Definition sample_db : turn_db :=
  mkTurnDb {[ u "ana" := mkProfileRow None PNone PNone PNone 2 ]} ∅ [] [] 1.

Lemma sample_input_ok : exists events, @input_ok flat_repr sample_input (u "ana") sample_request 2 (u "bom dia") (u "oi") (u "oi") events
  [(KStr (u "response"), PStr (u "oi")); (KStr (u "message_id"), PStr sample_message)].
Proof.
  assert (@validate_atomic_commit_input flat_repr sample_input = Ok tt) as V by (vm_compute; reflexivity).
  apply validate_input_iff in V as (user & request & revision & message & answer & response & events & replay & I).
  pose proof I as [[U _] [R _] [Z _] M A _ _ P _ [Y _]]. exists events.
  assert (PStr (u "ana") = PStr user) as U' by exact U. assert (PStr sample_request = PStr request) as R' by exact R.
  assert (PInt 2 = PInt revision) as Z' by exact Z. assert (PStr (u "bom dia") = PStr message) as M' by exact M.
  assert (PStr (u "oi") = PStr answer) as A' by exact A. assert (PStr (u "oi") = PStr response) as P' by exact P.
  assert (PDict [(KStr (u "response"), PStr (u "oi")); (KStr (u "message_id"), PStr sample_message)] = PDict replay) as Y' by exact Y.
  replace (u "ana") with user by congruence. replace sample_request with request by congruence.
  replace 2 with revision by congruence. replace (u "bom dia") with message by congruence.
  match goal with |- input_ok _ _ _ _ _ _ _ _ ?d => replace d with replay by congruence end.
  replace (u "oi") with answer by congruence. replace response with answer in I by congruence.
  exact I.
Qed.

Ltac by_computation := apply Nat.leb_le; vm_compute; reflexivity.
Ltac distinct_keys := apply (bool_decide_unpack _); vm_compute; exact Logic.I.

Lemma sample_call_ok : @call_ok flat_repr plain_jsonb sample_params.
Proof.
  destruct sample_input_ok as (events & [U R V M A E L P Ev [_ Ro]]). constructor.
  - exact (proj2 U).
  - by vm_compute.
  - by vm_compute.
  - by vm_compute.
  - do 2 eexists. split; [reflexivity|]. split; [exact Ro|]. split; [reflexivity|]. split; [by vm_compute|]. by_computation.
  - destruct E as [[=]|(d & [= <-] & E)]. eexists. split; [reflexivity|]. split; [exact E|]. split; [distinct_keys|]. by_computation.
  - destruct L as [[=]|(d & [= <-] & L)]. eexists. split; [reflexivity|]. split; [exact L|]. split; [distinct_keys|]. by_computation.
  - destruct Ev as [[= <-] F]. eexists. split; [reflexivity|]. inversion F as [|? ? (ty & d & key & Eo) _]; subst.
    constructor; [|constructor]. do 4 eexists. split; [exact Eo|]. pose proof (eo_shape _ _ _ _ Eo) as S. cbn [as_sequence] in S.
    assert (Some [PStr (u "archival"); PDict [(KStr (u "message_id"), PStr sample_request)]; PStr (u "archival:1")]
      = Some [PStr ty; PDict d; PStr key]) as Q by exact S.
    assert (PStr ty = PStr (u "archival")) as -> by congruence. assert (PDict d = PDict [(KStr (u "message_id"), PStr sample_request)]) as -> by congruence.
    assert (PStr key = PStr (u "archival:1")) as -> by congruence. reflexivity.
  - intros o [= <-]. by vm_compute.
Qed.


