(* ===== verification/WebStore.v ===== *)
(** * The repositories over the turn database

    A Supabase client that reaches the SQL functions through a network that may
    lose a request or an answer, and what the repositories of the turn then
    promise: this is what the web turn relies on. *)

From S2P Require Import Prelude PyFloat FloatRound PyValue Json TurnExecution StorageContracts EmotionalModels Relationship.
From S2P Require Import AtomicTurnCommit JsonText CommitTheorems CommitProperties TurnDatabase TurnDatabaseTheorems TurnRepositories.

Local Open Scope Z_scope.

(** ** The network *)

Inductive transport : Type := Delivered | AnswerLost | NotSent.

(** By the number of RPCs so far: the clock and the identifiers of the call, its
    fate, and whether a select gets through. *)
Record network : Type := mkNetwork {
  n_env : nat -> sql_env;
  n_transport : nat -> transport;
  n_select : nat -> bool }.

Definition web_db : Type := turn_db * nat.

Definition supabase_of `{Jsonb} (net : network) : supabase web_db :=
  mkSupabase
    (fun user s => if n_select net s.2 then Some (select_profiles user s.1) else None)
    (fun name params s =>
       match n_transport net s.2 with
       | NotSent => (None, (s.1, S s.2))
       | AnswerLost => (None, ((rpc_call (n_env net s.2) name params s.1).2, S s.2))
       | Delivered => let '(ans, db) := rpc_call (n_env net s.2) name params s.1 in (ans, (db, S s.2))
       end).

(** ** Decoding *)

Lemma text_arg_inv s s' : text_arg (PStr s) = Some s' -> s' = s /\ pg_text_ok s = true.
Proof. unfold text_arg. destruct (pg_text_ok s); [by intros [= <-]|done]. Qed.

Lemma uuid_arg_inv s s' : uuid_arg (PStr s) = Some s' -> s' = s /\ is_uuid s = true.
Proof. unfold uuid_arg. destruct (is_uuid s); [by intros [= <-]|done]. Qed.

Lemma bigint_arg_inv z z' : bigint_arg (PInt z) = Some z' -> z' = z.
Proof. unfold bigint_arg. destruct (is_bigint z); [by intros [= <-]|done]. Qed.

Lemma jsonb_arg_inv v v' : jsonb_arg v = Some v' -> v' = v.
Proof. unfold jsonb_arg. destruct (pg_json_ok v); [by intros [= <-]|done]. Qed.

(** What the function is called with. *)
Definition sent `{FloatRepr} (a : commit_input) (owner : pyval) (p : sql_params) : Prop :=
  exists user request revision message answer response events replay hash payload,
    input_ok a user request revision message answer response events replay
    /\ build_commit_turn_rpc_payload a hash owner = Ok payload /\ decode_params payload = Some p
    /\ p_authenticated_user_id p = user /\ p_request_id p = request /\ p_expected_revision p = revision
    /\ p_emotional_state p = ci_emotional_state a /\ p_relationship_state p = ci_relationship_state a
    /\ p_replay_payload p = PDict replay /\ p_payload_hash_sha256 p = hash
    /\ p_user_message p = message /\ p_assistant_message p = answer /\ p_public_response p = response
    /\ pg_text_ok user = true /\ is_uuid request = true.

Lemma sent_intro `{FloatRepr} a owner user request revision message answer response events replay hash payload p :
  input_ok a user request revision message answer response events replay ->
  build_commit_turn_rpc_payload a hash owner = Ok payload -> decode_params payload = Some p -> sent a owner p.
Proof.
  intros I B D. destruct (rpc_payload_ok _ _ _ _ _ _ _ _ _ hash owner I)
    as (payload' & B' & P1 & P2 & P3 & P4 & P5 & P6 & P7 & P8 & P9 & P10 & P11 & _).
  rewrite B in B'. apply Ok_inj in B' as <-.
  exists user, request, revision, message, answer, response, events, replay, hash, payload. split; [done|]. split; [done|]. split; [done|].
  unfold decode_params in D. rewrite P1, P2, P3, P4, P5, P6, P7, P8, P9, P10, P11 in D.
  apply bind_Some in D as (x1 & [-> Tu]%text_arg_inv & D). apply bind_Some in D as (x2 & [-> Tr]%uuid_arg_inv & D).
  apply bind_Some in D as (x3 & ->%bigint_arg_inv & D). apply bind_Some in D as (x4 & [-> _]%text_arg_inv & D).
  apply bind_Some in D as (x5 & [-> _]%text_arg_inv & D). apply bind_Some in D as (x6 & [-> _]%text_arg_inv & D).
  apply bind_Some in D as (x7 & ->%jsonb_arg_inv & D). apply bind_Some in D as (x8 & ->%jsonb_arg_inv & D).
  apply bind_Some in D as (x9 & [-> _]%text_arg_inv & D). apply bind_Some in D as (x10 & ->%jsonb_arg_inv & D).
  apply bind_Some in D as (x11 & _ & D). apply bind_Some in D as (x12 & _ & D). by injection D as <-.
Qed.

Section Store.
Context `{FT : FloatText, SH : Sha256, JB : Jsonb}.
Context (net : network).

(** The stored answer has no error envelope. *)
Lemma build_result_shape user request db v :
  commit_turn_build_result user request db = Some v -> exists d, v = PDict d /\ dget d (u "error") = None.
Proof. unfold commit_turn_build_result. intros (row & _ & [= <-])%bind_Some. eexists. split; reflexivity. Qed.

(** The CHECK constraint of the table of requests on its completed rows. *)
Definition table_checks (db : turn_db) : Prop :=
  forall key row, d_requests db !! key = Some row -> tr_status row = st_completed -> is_Some (tr_completed_at row).

(** The replay function answers what the commit answered. *)
Lemma replay_stored env (user request : pystr) row db v t :
  table_checks db -> user <> [] -> d_requests db !! (user, request) = Some row -> tr_status row = st_completed ->
  commit_turn_build_result user request db = Some v -> parse_commit_turn_result v = Ok t ->
  is_uuid (ct_assistant_message_id t) = true ->
  sql_replay_committed_turn env user request db = Some v.
Proof.
  intros Tc Nu Hr Hs Hb Hp Hm. pose proof (Tc _ _ Hr Hs) as [at_ Ha].
  apply parse_result_inv in Hp as (_ & d & Hd & _ & _ & _ & _ & _ & Rv & _ & replay & response & Dp & Ro & Dm).
  pose proof Hb as Hb'. unfold commit_turn_build_result in Hb'. rewrite Hr in Hb'. cbn [mbind option_bind] in Hb'. injection Hb' as <-.
  cbn [as_mapping] in Hd. injection Hd as <-.
  match type of Rv with dindex ?l _ = _ =>
    change (dindex l (u "committed_revision")) with (match tr_committed_revision row with Some z => PInt z | None => PNone end) in Rv;
    change (dindex l (u "replay_payload")) with (match tr_replay_payload row with PNone => PDict [] | v => v end) in Dp end.
  destruct (tr_committed_revision row) as [z|] eqn:Er; [|done].
  assert (tr_replay_payload row = PDict replay) as Hp.
  { destruct (tr_replay_payload row); try done. injection Dp as <-. by apply ro_response in Ro. }
  rewrite <- Hb. unfold sql_replay_committed_turn. rewrite bool_decide_eq_false_2 by done. rewrite Hr, Hs, Hp, Er, Ha.
  cbn [is_object]. unfold text_at. rewrite (ro_response _ _ _ Ro), Dm. cbn [mbind option_bind json_text]. by rewrite Hm.
Qed.

(** ** The commit repository *)

(** What a commit can have done. *)
Definition commit_outcome (a : commit_input) (owner : pyval) (n : nat) (db : turn_db) (r : result commit_exn CommittedTurn)
    (db' : turn_db) : Prop :=
  (db' = db /\ match r with
     | Ok t => exists p row v, sent a owner p /\ d_requests db !! (p_authenticated_user_id p, p_request_id p) = Some row
         /\ tr_status row = st_completed /\ tr_payload_hash row = p_payload_hash_sha256 p
         /\ commit_turn_build_result (p_authenticated_user_id p) (p_request_id p) db = Some v /\ parse_commit_turn_result v = Ok t
     | Err _ => True
     end)
  \/ (exists p row v, sent a owner p /\ written (n_env net n) p db db' row
       /\ commit_turn_build_result (p_authenticated_user_id p) (p_request_id p) db' = Some v
       /\ (r = Err database_error \/ r = parse_commit_turn_result v \/ exists code, r = Err (CommitValidationError code))).

Lemma parse_error_not_ok e t : parse_commit_turn_result (PDict [(KStr (u "error"), e)]) = Ok t -> False.
Proof. unfold parse_commit_turn_result. cbn [as_mapping]. by change (dget _ (u "error")) with (Some e). Qed.

Lemma commit_spec a owner db n r db' n' :
  commit (Some (supabase_of net)) a owner (db, n) = (r, (db', n')) -> commit_outcome a owner n db r db'.
Proof.
  unfold commit. intros H. destruct (_validate_lease_owner owner) as [[]|e] eqn:Ho.
  2: { injection H as <- <- <-. left. done. }
  destruct (commit_turn (rpc_client (supabase_of net)) a owner (db, n)) as [c [db1 n1]] eqn:Ec.
  assert (commit_outcome a owner n db c db1) as Oc.
  { destruct (validate_atomic_commit_input a) as [[]|e] eqn:Hv.
    2: { unfold commit_turn in Ec. rewrite Hv in Ec. cbn in Ec. injection Ec as <- <- <-. by left. }
    apply validate_input_iff in Hv as (user & request & revision & message & answer & response & events & replay & I).
    destruct (commit_turn_called (rpc_client (supabase_of net)) a owner (db, n) _ _ _ _ _ _ _ _ I Ho)
      as [[E _]|(payload & canonical & hash & E & _ & _ & Bp)]; rewrite E in Ec; clear E.
    { injection Ec as <- <- <-. by left. }
    unfold answered, rpc_client in Ec. cbn [sb_rpc supabase_of fst snd] in Ec.
    assert (rpc_call (n_env net n) (u "commit_turn") payload db
      = match decode_params payload with Some p => sql_commit_turn (n_env net n) p db | None => (None, db) end) as Rc by reflexivity.
    destruct (decode_params payload) as [p|] eqn:Dp.
    2: { destruct (n_transport net n); rewrite ?Rc in Ec; cbn in Ec; injection Ec as <- <- <-; by left. }
    pose proof (sent_intro _ _ _ _ _ _ _ _ _ _ _ _ _ I Bp Dp) as Sp.
    destruct (sql_commit_turn (n_env net n) p db) as [ans db2] eqn:Es.
    pose proof (sql_commit_cases _ _ _ _ _ Es) as C.
    destruct (n_transport net n); rewrite ?Rc in Ec; cbn [fst snd] in Ec.
    - destruct C as [[-> [->|(v & -> & e & ->)]]|[(-> & row & Hr & Hs & Hh & ->)|(row & v & Wr & -> & Bv)]].
      + injection Ec as <- <- <-. by left.
      + cbn [_unwrap_rpc_data as_mapping fst snd] in Ec. injection Ec as <- <- <-. left. split; [done|].
        destruct (parse_commit_turn_result _) as [t|] eqn:Pt; [|done]. by apply parse_error_not_ok in Pt.
      + destruct (commit_turn_build_result _ _ db) as [v|] eqn:Bv.
        * destruct (build_result_shape _ _ _ _ Bv) as (d & -> & _). cbn [_unwrap_rpc_data as_mapping fst snd] in Ec.
          injection Ec as <- <- <-. left. split; [done|]. destruct (parse_commit_turn_result _) as [t|] eqn:Pt; [|done].
          by exists p, row, (PDict d).
        * injection Ec as <- <- <-. by left.
      + destruct (build_result_shape _ _ _ _ Bv) as (d & -> & _). cbn [_unwrap_rpc_data as_mapping fst snd] in Ec.
        injection Ec as <- <- <-. right. exists p, row, (PDict d). split_and!; auto.
    - injection Ec as <- <- <-. destruct C as [[-> _]|[(-> & _)|(row & v & Wr & -> & Bv)]]; [by left|by left|].
      right. exists p, row, v. split_and!; auto.
    - injection Ec as <- <- <-. by left. }
  assert (db1 = db') as -> by (by injection H as _ <- _).
  assert (match c with
    | Ok t => r = Ok t
    | Err (CommitConflictError _ _ _ _ _ | CommitValidationError _ | CommitPersistenceError _ _ | CommitBase) => r = c
    | Err _ => r = Err database_error end) as Hr by (by destruct c as [t|[]]; injection H as <- _).
  destruct Oc as [[-> Oc]|(p & row & v & Sp & Wr & Bv & Oc)].
  - left. split; [done|]. destruct c as [t|[]]; by subst r.
  - right. exists p, row, v. split_and!; try done. destruct Oc as [->|[->|[code ->]]]; [by left| |by right; right; eexists].
    destruct (build_result_shape _ _ _ _ Bv) as (d & -> & De).
    destruct (parse_commit_turn_result (PDict d)) as [t|e] eqn:Pt; [by right; left|].
    destruct (parse_refusal (PDict d) d e eq_refl De Pt) as [->|[code ->]]; [by left|]. right. right. by exists code.
Qed.

(** A conflict is reported only when nothing was written. *)
Lemma commit_conflict a owner db n db' n' code m e act rq :
  commit (Some (supabase_of net)) a owner (db, n) = (Err (CommitConflictError code m e act rq), (db', n')) -> db' = db.
Proof.
  intros [[-> _]|(p & row & v & _ & _ & Bv & [|[H|[? ?]]])]%commit_spec; try done.
  destruct (build_result_shape _ _ _ _ Bv) as (d & -> & De).
  symmetry in H. apply (parse_refusal (PDict d) d) in H as [|[? ?]]; done.
Qed.

(** ** The state repository *)

(** What the turn computes from: the revision of the profile and its snapshots,
    or the neutral state without one. *)
Lemma load_spec user ts clock db n st :
  load (Some (supabase_of net)) user ts clock (db, n) = Ok st ->
  lu_revision st = revision_of db user
  /\ match d_profiles db !! user with
     | None => exists e r, EmotionalStateV1_neutral (match ts with PNone => clock | t => t end) = Ok e
         /\ RelationshipStateV1_neutral (match ts with PNone => clock | t => t end) = Ok r
         /\ lu_emotional_state st = EmotionalStateV1_to_dict e /\ lu_relationship_state st = RelationshipStateV1_to_dict r
     | Some row => optional_mapping (pr_emotional_state row) = Ok (lu_emotional_state st)
         /\ optional_mapping (pr_relationship_state row) = Ok (lu_relationship_state st)
     end.
Proof.
  unfold load. cbn [sb_select supabase_of fst snd]. destruct (n_select net n); [|done]. unfold select_profiles, revision_of.
  destruct (d_profiles db !! user) as [row|].
  - unfold read_profile. cbn [as_mapping]. change (dget _ (u "revision")) with (Some (PInt (pr_revision row))). cbv iota.
    intros H. inv_ok. split; [done|].
    match goal with K : optional_mapping (dindex _ (u "emotional_state")) = _ |- _ =>
      change (dindex _ (u "emotional_state")) with (pr_emotional_state row) in K end.
    match goal with K : optional_mapping (dindex _ (u "relationship_state")) = _ |- _ =>
      change (dindex _ (u "relationship_state")) with (pr_relationship_state row) in K end. done.
  - unfold default_state. set (t := match ts with PNone => _ | _ => _ end).
    destruct (EmotionalStateV1_neutral t) as [e|] eqn:Ee; [|done]. destruct (RelationshipStateV1_neutral t) as [r|] eqn:Er; [|done].
    intros [= <-]. split; [done|]. by exists e, r.
Qed.

End Store.
