(* ===== verification/ProcessTurnTheorems.v ===== *)
(** * The web turn, step by step

    What an attempt has done to the database and to the language model when it
    ends, over any client; and what the commit does over the turn database. *)

From S2P Require Import Prelude PyFloat FloatRound PyValue Json PyDatetime Admission TrustedContext TrustedPolicy TurnExecution.
From S2P Require Import StorageContracts EmotionalModels EmotionalTransition EmotionalMigration Relationship EmotionPresentation CompanionRuntime.
From S2P Require Import AtomicTurnCommit JsonText CommitTheorems CommitProperties TurnDatabase TurnDatabaseTheorems TurnRepositories ProcessTurn.

Local Open Scope Z_scope.

Lemma bind_inv {DB A B} (c : W DB A) (k : A -> W DB B) s r s' :
  bind c k s = (r, s') ->
  (exists a s1, c s = (Ok a, s1) /\ k a s1 = (r, s')) \/ (exists e, c s = (Err e, s') /\ r = Err e).
Proof.
  unfold bind. destruct (c s) as [[a|e] s1]; [intros H; left; by exists a, s1|intros [= <- <-]; right; by exists e].
Qed.

Lemma lift_inv {DB A E} (f : E -> process_exn) (r : result E A) (s : turn_state DB) x s' :
  lift f r s = (x, s') -> s' = s /\ x = match r with Ok a => Ok a | Err e => Err (f e) end.
Proof. unfold lift. intros [= <- <-]. done. Qed.

Section Attempt.
Context {DB : Type} `{FR : FloatRepr, SH : Sha256, LM : Libm, IF : IsoFormat, PT : PyText}.
Context (client : option (supabase DB)) (config : ProcessTurnConfig) (env : surroundings DB).

(** How the others may move the database. *)
Context (moves : DB -> DB -> Prop) `{!PreOrder moves}.
Context (calm : forall k p db, moves db (w_others env k p db)).

(** The attempt [k], computed from the database [dbl]. *)
Definition prepared (inp : ProcessTurnInput) (k : nat) (dbl : DB) (revision : Z) (a : commit_input) : Prop :=
  exists state emotional relationship appraisal moved new_relationship messages response public,
    load client (in_user_id inp) (w_clock env k) (w_time env) dbl = Ok state /\ revision = lu_revision state
    /\ migrate_legacy_snapshot (PDict (lu_emotional_state state)) = Ok emotional
    /\ load_relationship state (w_clock env k) = Ok relationship
    /\ w_appraise env k (in_user_message inp) = Ok appraisal
    /\ transition emotional appraisal (w_clock env k) (pc_transition config) = Ok moved
    /\ transition_relationship relationship appraisal (w_clock env k) (pc_relationship config) = Ok new_relationship
    /\ w_generate env k messages = Ok response
    /\ project_public_emotion (Instance_of (tr_state moved)) (Instance_of appraisal) = Ok public
    /\ a = turn_input config env inp k revision response (tr_state moved) new_relationship public.

(** The calls a preparation has made when it ends. *)
Definition prepare_log (ok : bool) (l : list turn_event) : Prop :=
  exists m, if ok then l = [Appraised; Generated m] else l = [] \/ l = [Appraised] \/ l = [Appraised; Generated m].

Lemma others_inv k p (s : turn_state DB) r s' : others env k p s = (r, s') -> r = Ok tt /\ s' = (w_others env k p s.1, s.2).
Proof. unfold others. intros [= <- <-]. done. Qed.

Lemma read_inv {X T} (allow : work_exn X -> bool) b now timeout (wait : pynum -> outcome X T) v :
  run_blocking_read allow b now timeout wait = Ok v -> exists t, wait t = Returned v.
Proof.
  unfold run_blocking_read. destruct (num_leb _ _); [done|]. set (t := num_min _ _). destruct (wait t) as [w|e] eqn:E.
  - intros [= <-]. by exists t.
  - destruct e; try done. by destruct (allow _).
Qed.

(** The events so far, while the preparation runs. *)
Definition partial_log (log log' : list turn_event) : Prop :=
  exists l m, log' = log ++ l /\ (l = [] \/ l = [Appraised] \/ l = [Appraised; Generated m]).

Definition prepare_post (inp : ProcessTurnInput) (k : nat) (s : turn_state DB) (r : result process_exn (Z * commit_input))
    (s' : turn_state DB) : Prop :=
  moves s.1 s'.1 /\ (exists l, s'.2 = s.2 ++ l /\ prepare_log (is_ok r) l)
  /\ match r with
     | Ok (revision, a) => exists dbl, moves s.1 dbl /\ moves dbl s'.1 /\ prepared inp k dbl revision a
     | Err _ => True
     end.

Lemma prepare_failed inp k s e s' : moves s.1 s'.1 -> partial_log s.2 s'.2 -> prepare_post inp k s (Err e) s'.
Proof. intros M (l & m & Hl & L). split; [done|]. split; [|done]. exists l. split; [done|]. by exists m. Qed.

(** A preparation that succeeds was computed from one database it met. *)
Lemma prepare_spec inp k (s : turn_state DB) r s' :
  prepare client config env inp k s = (r, s') -> prepare_post inp k s r s'.
Proof.
  destruct s as [db log]. intros H. unfold prepare in H.
  assert (partial_log log log) as L0 by (exists [], []; rewrite app_nil_r; by split; [|left]).
  destruct (negb (time_left env inp k at_start)).
  { injection H as <- <-. by apply prepare_failed. }
  apply bind_inv in H as [(? & s1 & [_ ->]%others_inv & H)|(e & [[=] _]%others_inv & _)]. cbn [fst snd] in H.
  set (db1 := w_others env k at_load db) in H.
  assert (moves db db1) as M1 by apply calm.
  apply bind_inv in H as [(state & s2 & [-> Hload]%lift_inv & H)|(e & [-> _]%lift_inv & ->)]; [|by apply prepare_failed].
  destruct (run_blocking_read _ _ _ _ _) as [st|] eqn:Er in Hload; [|done]. injection Hload as <-.
  apply read_inv in Er as [t Er].
  assert (load client (in_user_id inp) (w_clock env k) (w_time env) db1 = Ok state) as Hl.
  { destruct (w_read env k at_load); cbn [fate_outcome fst] in Er; [|done|done].
    destruct (load _ _ _ _ _) as [st|[]]; cbn in Er; try done. congruence. }
  clear Er t.
  apply bind_inv in H as [(emotional & s3 & [-> Hm]%lift_inv & H)|(e & [-> _]%lift_inv & ->)]; [|by apply prepare_failed].
  apply bind_inv in H as [(relationship & s3 & [-> Hr]%lift_inv & H)|(e & [-> _]%lift_inv & ->)]; [|by apply prepare_failed].
  apply bind_inv in H as [(? & s3 & [_ ->]%others_inv & H)|(e & [[=] _]%others_inv & _)]. cbn [fst snd] in H.
  set (db2 := w_others env k at_context db1) in H. assert (moves db1 db2) as M2 by apply calm.
  assert (moves db db2) as M12 by by etransitivity.
  apply bind_inv in H as [(loaded & s3 & [-> _]%lift_inv & H)|(e & [-> _]%lift_inv & ->)]; [|by apply prepare_failed].
  apply bind_inv in H as [(? & s3 & [= _ <-] & H)|(e & [=] & _)]. cbn [fst snd] in H.
  apply bind_inv in H as [(? & s3 & [_ ->]%others_inv & H)|(e & [[=] _]%others_inv & _)]. cbn [fst snd] in H.
  set (db3 := w_others env k at_appraise db2) in H. assert (moves db2 db3) as M3 by apply calm.
  assert (moves db db3) as M13 by by etransitivity.
  assert (partial_log log (log ++ [Appraised])) as L1 by (exists [Appraised], []; split; [done|]; right; by left).
  apply bind_inv in H as [(appraisal & s3 & [-> Ha]%lift_inv & H)|(e & [-> _]%lift_inv & ->)]; [|by apply prepare_failed].
  apply bind_inv in H as [(moved & s3 & [-> Ht]%lift_inv & H)|(e & [-> _]%lift_inv & ->)]; [|by apply prepare_failed].
  apply bind_inv in H as [(nr & s3 & [-> Hn]%lift_inv & H)|(e & [-> _]%lift_inv & ->)]; [|by apply prepare_failed].
  apply bind_inv in H as [(bundle & s3 & [-> _]%lift_inv & H)|(e & [-> _]%lift_inv & ->)]; [|by apply prepare_failed].
  apply bind_inv in H as [(envelope & s3 & [-> _]%lift_inv & H)|(e & [-> _]%lift_inv & ->)]; [|by apply prepare_failed].
  apply bind_inv in H as [(? & s3 & [= _ <-] & H)|(e & [=] & _)]. cbn [fst snd] in H. rewrite <- app_assoc in H. cbn [app] in H.
  set (messages := cr_messages envelope) in H.
  apply bind_inv in H as [(? & s3 & [_ ->]%others_inv & H)|(e & [[=] _]%others_inv & _)]. cbn [fst snd] in H.
  set (db4 := w_others env k at_generate db3) in H. assert (moves db3 db4) as M4 by apply calm.
  assert (moves db db4) as M14 by by etransitivity.
  assert (partial_log log (log ++ [Appraised; Generated messages])) as L2.
  { exists [Appraised; Generated messages], messages. split; [done|]. right. by right. }
  apply bind_inv in H as [(response & s3 & [-> Hg]%lift_inv & H)|(e & [-> _]%lift_inv & ->)]; [|by apply prepare_failed].
  apply bind_inv in H as [(public & s3 & [-> Hp]%lift_inv & H)|(e & [-> _]%lift_inv & ->)]; [|by apply prepare_failed].
  injection H as <- <-. split; [done|]. split; [eexists; split; [done|]; by exists messages|].
  exists db1. split; [done|]. split; [by do 2 (etransitivity; [eassumption|])|].
  destruct (migrate_legacy_snapshot _) as [em|] eqn:Em; [|done]. injection Hm as <-.
  destruct (load_relationship _ _) as [rl|] eqn:El; [|done]. injection Hr as <-.
  destruct (w_appraise _ _ _) as [ap|] eqn:Ea; [|done]. injection Ha as <-.
  destruct (transition _ _ _ _) as [mv|] eqn:Et; [|done]. injection Ht as <-.
  destruct (transition_relationship _ _ _ _) as [tn|] eqn:En; [|done]. injection Hn as <-.
  destruct (w_generate _ _ _) as [rs|] eqn:Eg; [|done]. injection Hg as <-.
  destruct (project_public_emotion _ _) as [pb|] eqn:Ep; [|done]. injection Hp as <-.
  unfold prepared. by exists state, emotional, relationship, appraisal, moved, nr, messages, response, public.
Qed.

(** ** The commit *)

Definition owner : pyval := PStr (pc_lease_owner config).

(** An attempt whose commit was called, on [dbc], and gave [c]. *)
Definition attempt_committed (inp : ProcessTurnInput) (k : nat) (s : turn_state DB) (dbc : DB)
    (c : result commit_exn CommittedTurn) (s' : turn_state DB) : Prop :=
  exists dbl revision a m, moves s.1 dbl /\ moves dbl dbc /\ prepared inp k dbl revision a
    /\ commit client a owner dbc = (c, s'.1) /\ s'.2 = s.2 ++ [Appraised; Generated m; CommitSent revision].

(** What the coroutine makes of the commit. *)
Definition commit_read (c : result commit_exn CommittedTurn) (r : result process_exn (CommittedTurn + RevisionConflict)) : Prop :=
  match r with
  | Ok (inl t) => c = Ok t
  | Ok (inr conflict) => exists m request, c = Err (CommitConflictError (u "revision_mismatch") m
      (rc_expected_revision conflict) (rc_actual_revision conflict) request)
  | Err (PRepository e) => c = Err e
  | Err _ => True
  end.

Lemma commit_step_spec inp k revision a (s : turn_state DB) r s' :
  commit_step client config env inp k revision a s = (r, s') ->
  (s' = s /\ r = Err (PTurn turn_timeout))
  \/ (exists c, commit client a owner s.1 = (c, s'.1) /\ s'.2 = s.2 ++ [CommitSent revision] /\ commit_read c r).
Proof.
  unfold commit_step. fold owner. destruct (_ <=? _)%float eqn:Late; [intros [= <- <-]; by left|].
  destruct (commit client a owner s.1) as [c db] eqn:Ec. intros H. right. exists c.
  unfold run_blocking_write in H. rewrite Late in H.
  destruct (w_interrupted env k); [by injection H as <- <-|].
  destruct c as [t|[code m e act rq|code|code m|code| |]]; cbn [worker_outcome write_result repository_error] in H;
    try by injection H as <- <-.
  destruct (str_eqb code (u "revision_mismatch")) eqn:Ecode; [|by injection H as <- <-].
  apply str_eqb_eq in Ecode as ->. injection H as <- <-. split; [done|]. split; [done|]. by exists m, rq.
Qed.

(** ** One attempt *)

(** What an attempt that did not come to its commit has asked for. *)
Definition partial_attempt (l : list turn_event) : Prop :=
  exists m, l = [] \/ l = [Appraised] \/ l = [Appraised; Generated m].

Lemma run_once_spec inp k (s : turn_state DB) r s' :
  _run_once client config env inp k s = (r, s') ->
  (exists e l, r = Err e /\ moves s.1 s'.1 /\ s'.2 = s.2 ++ l /\ partial_attempt l)
  \/ (exists dbc c, attempt_committed inp k s dbc c s' /\ commit_read c r).
Proof.
  unfold _run_once. intros [([revision a] & s1 & P & H)|(e & P & ->)]%bind_inv; apply prepare_spec in P as (M & (l & El & L) & D).
  - destruct L as [m ->]. destruct D as (dbl & M1 & M2 & Pr).
    apply bind_inv in H as [(? & s2 & [_ ->]%others_inv & H)|(e & [[=] _]%others_inv & _)]. cbn [fst snd] in H.
    pose proof (calm k at_commit s1.1) as M3. destruct (commit_step_spec _ _ _ _ _ _ _ H) as [[-> ->]|(c & Ec & El' & R)].
    + left. eexists _, _. split; [done|]. split; [etransitivity; [exact M|exact M3]|]. split; [exact El|]. exists m. by right; right.
    + right. exists (w_others env k at_commit s1.1), c. split; [|done]. exists dbl, revision, a, m.
      split_and!; try done; [etransitivity; [exact M2|exact M3]|]. cbn [snd] in El'. by rewrite El', El, <- app_assoc.
  - left. exists e, l. split_and!; try done; destruct L as [m L]; by exists m.
Qed.

(** ** The retry *)

(** At most one more attempt, after a conflict on the revision, with time left. *)
Lemma execute_normal_cases inp (s : turn_state DB) r s' :
  _execute_normal client config env inp s = (r, s') ->
  exists r1 s1, _run_once client config env inp 1 s = (r1, s1)
    /\ match r1 with
       | Err e => r = Err e /\ s' = s1
       | Ok (inl t) => r = Ok t /\ s' = s1
       | Ok (inr conflict) =>
           (time_left env inp 1 at_retry = false /\ r = Err (PTurn turn_timeout) /\ s' = s1)
           \/ (time_left env inp 1 at_retry = true /\ exists r2, _run_once client config env inp 2 s1 = (r2, s')
                /\ r = match r2 with
                       | Err e => Err e
                       | Ok (inl t) => Ok t
                       | Ok (inr again) => Err (PRepository (CommitConflictError (u "revision_mismatch")
                           (u "Profile revision changed concurrently.") (rc_expected_revision again)
                           (rc_actual_revision again) None))
                       end)
       end.
Proof.
  unfold _execute_normal. change (MAX_COMMIT_ATTEMPTS - 1)%nat with 1%nat. cbn [execute_attempts].
  intros [(r1 & s1 & R1 & H)|(e & R1 & ->)]%bind_inv; [|by exists (Err e), s']. exists (Ok r1), s1. split; [done|].
  destruct r1 as [t|conflict]; [by injection H as <- <-|]. destruct (time_left env inp 1 at_retry); cbn [negb] in H.
  2: { left. by injection H as <- <-. }
  right. split; [done|].
  apply bind_inv in H as [(r2 & s2 & R2 & H)|(e & R2 & ->)]; [|by exists (Err e)]. exists (Ok r2).
  destruct r2; injection H as <- <-; by split.
Qed.

End Attempt.
