(* ===== verification/ProcessTurnProperties.v ===== *)
(** * What the web turn guarantees

    The bound on the calls of a turn, over any client; the absence of lost
    updates and the replay of a committed turn, over the turn database reached
    through a network that loses requests and answers, while other clients
    commit. *)

From S2P Require Import Prelude PyFloat FloatRound PyValue Json PyDatetime Admission TrustedContext TrustedPolicy TurnExecution.
From S2P Require Import StorageContracts EmotionalModels EmotionalTransition EmotionalMigration Relationship EmotionPresentation CompanionRuntime.
From S2P Require Import AtomicTurnCommit JsonText CommitTheorems CommitProperties TurnDatabase TurnDatabaseTheorems TurnDatabaseProperties.
From S2P Require Import TurnRepositories ProcessTurn WebStore ProcessTurnTheorems.

Local Open Scope Z_scope.

(** ** Calls *)

Definition full_attempt (l : list turn_event) : Prop :=
  exists m revision, l = [Appraised; Generated m; CommitSent revision].

(** Any relation on the databases: nothing is asked of the other clients. *)
Definition anyhow {DB : Type} (_ _ : DB) : Prop := True.

#[export] Instance anyhow_preorder {DB} : PreOrder (@anyhow DB).
Proof. by split. Qed.

Section Calls.
Context {DB : Type} `{FR : FloatRepr, SH : Sha256, LM : Libm, IF : IsoFormat, PT : PyText}.
Context (client : option (supabase DB)) (config : ProcessTurnConfig) (env : surroundings DB).

Lemma run_once_log inp k (s : turn_state DB) r s' :
  _run_once client config env inp k s = (r, s') ->
  exists l, s'.2 = s.2 ++ l /\ (full_attempt l \/ (partial_attempt l /\ exists e, r = Err e)).
Proof.
  intros [(e & l & -> & _ & El & P)|(dbc & c & (dbl & rev & a & m & _ & _ & _ & _ & El) & _)]%(run_once_spec _ _ _ anyhow);
    [..|done].
  - exists l. split; [done|]. right. eauto.
  - eexists. split; [exact El|]. left. by exists m, rev.
Qed.


End Calls.

(** ** Over the turn database *)

Section Web.
Context `{FT : FloatText, SH : Sha256, JB : Jsonb, LM : Libm, IF : IsoFormat, PT : PyText}.
Context (net : network) (config : ProcessTurnConfig) (env : surroundings web_db).

(** How the others may move the database. *)
Context (moves : turn_db -> turn_db -> Prop) `{!PreOrder moves}.
Context (evolving : forall db db', moves db db' -> evolves db db').
Context (calm : forall k p s, moves s.1 (w_others env k p s).1).

Definition web_client : option (supabase web_db) := Some (supabase_of net).

Definition web_moves (s s' : web_db) : Prop := moves s.1 s'.1.

#[local] Instance web_moves_preorder : PreOrder web_moves.
Proof. unfold web_moves. split; [intros s; reflexivity|]. intros a b c H1 H2. by etransitivity. Qed.

(** The two states an attempt computes from a database it has read. *)
Definition computed (inp : ProcessTurnInput) (k : nat) (db : turn_db) (e : EmotionalStateV1) (r : RelationshipStateV1) : Prop :=
  exists n state emotional relationship appraisal moved,
    load web_client (in_user_id inp) (w_clock env k) (w_time env) (db, n) = Ok state
    /\ lu_revision state = revision_of db (in_user_id inp)
    /\ migrate_legacy_snapshot (PDict (lu_emotional_state state)) = Ok emotional
    /\ load_relationship state (w_clock env k) = Ok relationship
    /\ w_appraise env k (in_user_message inp) = Ok appraisal
    /\ transition emotional appraisal (w_clock env k) (pc_transition config) = Ok moved
    /\ transition_relationship relationship appraisal (w_clock env k) (pc_relationship config) = Ok r
    /\ e = tr_state moved.

(** The turn has written: attempt [k] has read [dbl], and its commit, applied to
    [dbc], has left [db']. *)
Definition turn_wrote (inp : ProcessTurnInput) (k : nat) (dbl dbc db' : turn_db) : Prop :=
  let user := in_user_id inp in
  exists e r row, computed inp k dbl e r
    /\ revision_of dbc user = revision_of dbl user /\ snapshots_of dbc user = snapshots_of dbl user
    /\ revision_of db' user = revision_of dbc user + 1
    /\ snapshots_of db' user
       = Some (jsonb_stored (PDict (EmotionalStateV1_to_dict e)), jsonb_stored (PDict (RelationshipStateV1_to_dict r)))
    /\ (forall other, other <> user -> d_profiles db' !! other = d_profiles dbc !! other)
    /\ d_requests db' !! (user, in_request_id inp) = Some row /\ tr_status row = st_completed
    /\ (forall key, key <> (user, in_request_id inp) -> d_requests db' !! key = d_requests dbc !! key)
    /\ match d_requests dbc !! (user, in_request_id inp) with Some old => tr_status old <> st_completed | None => True end
    /\ exists id1 id2 now response, d_logs db' = d_logs dbc
         ++ [mkLogRow id1 user false (in_user_message inp) now; mkLogRow id2 user true response now].

(** The stored answer to the request, which a successful turn reports. *)
Definition stored_answer (inp : ProcessTurnInput) (db : turn_db) (t : CommittedTurn) : Prop :=
  exists row v, d_requests db !! (in_user_id inp, in_request_id inp) = Some row /\ tr_status row = st_completed
    /\ commit_turn_build_result (in_user_id inp) (in_request_id inp) db = Some v /\ parse_commit_turn_result v = Ok t
    /\ in_user_id inp <> [] /\ pg_text_ok (in_user_id inp) = true /\ is_uuid (in_request_id inp) = true.

Definition is_conflict (e : commit_exn) : bool := match e with CommitConflictError _ _ _ _ _ => true | _ => false end.

Lemma public_result_committed t res : parse_public_result t = Ok res -> pr_committed res = t.
Proof.
  unfold parse_public_result. intros H. repeat case_match; try done.
  destruct (model_validate _); [|done]. by injection H as <-.
Qed.

Lemma public_result_refused t e : parse_public_result t = Err e -> e = invalid_replay.
Proof.
  unfold parse_public_result. intros H. repeat case_match; try by injection H as <-.
  destruct (model_validate _); [done|]. by injection H as <-.
Qed.

(** One commit of the turn, from the attempt that prepared it. *)
Lemma attempt_commit_spec inp k (s : turn_state web_db) dbc c s' :
  attempt_committed web_client config env web_moves inp k s dbc c s' ->
  (s'.1.1 = dbc.1 \/ exists dbl, moves s.1.1 dbl /\ moves dbl dbc.1 /\ turn_wrote inp k dbl dbc.1 s'.1.1)
  /\ (forall t, c = Ok t -> stored_answer inp s'.1.1 t)
  /\ (forall e, c = Err e -> is_conflict e = true -> s'.1.1 = dbc.1).
Proof.
  intros (dbl & revision & a & m & M1 & M2 & P & C & _). unfold web_moves in M1, M2.
  destruct dbc as [dbc n], dbl as [dbl nl], s' as [[db' n'] log']. cbn [fst snd] in *.
  split; [|split].
  - apply commit_spec in C as [[-> _]|(p & row & v & Sp & Wr & _)]; [by left|]. right. exists dbl. split_and!; try done.
    destruct P as (state & em & rl & ap & mv & nr & messages & response & public & Hl & -> & Hm & Hr & Ha & Ht & Hn & _ & _ & ->).
    destruct Sp as (user & request & rev & message & answer & resp & events & rp & hash & payload & I & _ & _
      & E1 & E2 & E3 & E4 & E5 & _ & _ & E6 & E7 & _).
    destruct I as [[[= <-] _] [[= <-] _] [[= <-] _] [= <-] [= <-] _ _ _ _ _]. cbn in E4, E5.
    pose proof (load_spec _ _ _ _ _ _ _ Hl) as [Lr _]. destruct (evolving _ _ M2 (in_user_id inp)) as [_ Sn].
    destruct Wr as [W1 W2 W3 W4 W5 W6 W7 W8 W9 _ _ _ _ W10]. rewrite E1, E2 in *. rewrite E3 in *.
    exists (tr_state mv), nr, row. split; [by exists nl, state, em, rl, ap, mv|].
    split; [lia|]. split; [symmetry; apply Sn; lia|]. split; [lia|]. split.
    { specialize (W3 _ E4). specialize (W4 _ E5). destruct (snapshots_of db' _) as [[x y]|]; [|done]. cbn in W3, W4. congruence. }
    split_and!; try done. destruct W10 as (id1 & id2 & W10). rewrite E6, E7 in W10. by exists id1, id2, (se_now (n_env net n)), response.
  - intros t ->. apply commit_spec in C as [[-> (p & row & v & Sp & Hrow & Hst & _ & Hb & Hp)]|(p & row & v & Sp & Wr & Hb & R)].
    + destruct Sp as (user & request & rev & message & answer & resp & events & rp & hash & payload & I & _ & _ & E1 & E2 & _ & _ & _ & _ & _ & _ & _ & _ & Tu & Tr).
      destruct P as (? & ? & ? & ? & ? & ? & ? & ? & ? & _ & _ & _ & _ & _ & _ & _ & _ & _ & ->).
      destruct I as [[[= <-] Nu] [[= <-] _] _ _ _ _ _ _ _ _]. rewrite E1, E2 in *. by exists row, v.
    + destruct Sp as (user & request & rev & message & answer & resp & events & rp & hash & payload & I & _ & _ & E1 & E2 & _ & _ & _ & _ & _ & _ & _ & _ & Tu & Tr).
      destruct P as (? & ? & ? & ? & ? & ? & ? & ? & ? & _ & _ & _ & _ & _ & _ & _ & _ & _ & ->).
      destruct I as [[[= <-] Nu] [[= <-] _] _ _ _ _ _ _ _ _]. rewrite E1, E2 in *.
      destruct R as [[=]|[R|[? [=]]]]. exists row, v. destruct Wr. rewrite E1, E2 in *. by split_and!.
  - intros e -> He. destruct e; try done. by apply commit_conflict in C.
Qed.

(** ** No lost update *)

(** One attempt: it wrote or it did not, and a conflict means that it did not. *)
Lemma run_once_web inp k (s : turn_state web_db) r s' :
  _run_once web_client config env inp k s = (r, s') ->
  ((moves s.1.1 s'.1.1 \/ exists dbl dbc, moves s.1.1 dbl /\ moves dbl dbc /\ turn_wrote inp k dbl dbc s'.1.1)
   /\ match r with
      | Ok (inl t) => stored_answer inp s'.1.1 t
      | Ok (inr _) => moves s.1.1 s'.1.1
      | Err (PRepository e) => is_conflict e = true -> moves s.1.1 s'.1.1
      | Err _ => True
      end).
Proof.
  intros [(e & l & -> & M & _)|(dbc & c & A & R)]%(run_once_spec _ _ _ web_moves); [..|exact calm].
  - split; [by left|]. by destruct e.
  - pose proof A as (dbl & rev & a & m & M1 & M2 & _). unfold web_moves in M1, M2.
    assert (moves s.1.1 dbc.1) as M by by etransitivity.
    destruct (attempt_commit_spec _ _ _ _ _ _ A) as (W & So & Sc). split.
    + destruct W as [->|(d & N1 & N2 & W)]; [by left|]. right. by exists d, dbc.1.
    + destruct r as [[t|conflict]|[e| | | | | | | | |]]; try done; cbn in R.
      * by apply So.
      * destruct R as (m' & rq & R). by rewrite (Sc _ R eq_refl).
      * intros He. by rewrite (Sc _ R He).
Qed.

(** C2. No lost update on the web.  Whatever requests and answers the network loses
    and whatever other clients commit between any two steps, a turn writes at most
    once, and then the transitions of exactly the states the database held at its
    commit; a turn that reports success reports a stored, completed request, and
    one that reports a conflict has written nothing. *)
Theorem web_no_lost_update inp (s : turn_state web_db) r s' :
  in_mode inp = normal -> execute web_client config env inp s = (r, s') ->
  (moves s.1.1 s'.1.1
   \/ exists k dbl dbc, (k = 1 \/ k = 2)%nat /\ moves s.1.1 dbl /\ moves dbl dbc /\ turn_wrote inp k dbl dbc s'.1.1)
  /\ match r with
     | Ok res => stored_answer inp s'.1.1 (pr_committed res)
     | Err (PRepository e) => is_conflict e = true -> moves s.1.1 s'.1.1
     | Err _ => True
     end.
Proof.
  intros Hm. unfold execute. rewrite Hm. intros H.
  assert (exists r0, _execute_normal web_client config env inp s = (r0, s')
    /\ match r0 with
       | Ok t => r = parse_public_result t
       | Err e => r = Err e
       end) as (r0 & H0 & Hr).
  { apply bind_inv in H as [(t & s1 & H & [-> ->]%lift_inv)|(e & H & ->)]; [exists (Ok t)|by exists (Err e)].
    split; [done|]. by destruct (parse_public_result t). }
  clear H. cut ((moves s.1.1 s'.1.1
     \/ exists k dbl dbc, (k = 1 \/ k = 2)%nat /\ moves s.1.1 dbl /\ moves dbl dbc /\ turn_wrote inp k dbl dbc s'.1.1)
    /\ match r0 with
       | Ok t => stored_answer inp s'.1.1 t
       | Err (PRepository e) => is_conflict e = true -> moves s.1.1 s'.1.1
       | Err _ => True
       end).
  { intros [W A]. split; [done|]. destruct r0 as [t|e]; subst r; [|done]. destruct (parse_public_result t) as [res|e] eqn:Ep.
    - by rewrite (public_result_committed _ _ Ep).
    - by rewrite (public_result_refused _ _ Ep). }
  clear Hr. apply execute_normal_cases in H0 as (r1 & s1 & R1 & H). apply run_once_web in R1 as [W1 A1].
  assert (forall s2 : turn_state web_db, (moves s.1.1 s2.1.1 \/ exists dbl dbc, moves s.1.1 dbl /\ moves dbl dbc /\ turn_wrote inp 1 dbl dbc s2.1.1) ->
    moves s.1.1 s2.1.1 \/ exists k dbl dbc, (k = 1 \/ k = 2)%nat /\ moves s.1.1 dbl /\ moves dbl dbc /\ turn_wrote inp k dbl dbc s2.1.1) as L1.
  { intros s2 [?|(dbl & dbc & ?)]; [by left|]. right. exists 1%nat, dbl, dbc. auto. }
  destruct r1 as [[t|conflict]|e].
  - destruct H as [-> ->]. auto.
  - destruct H as [(_ & -> & ->)|(_ & r2 & R2 & ->)]; [by auto|]. apply run_once_web in R2 as [W2 A2].
    assert (moves s1.1.1 s'.1.1 -> moves s.1.1 s'.1.1) as T by (intros ?; by etransitivity). split.
    + destruct W2 as [?|(dbl & dbc & M1 & M2 & W)]; [by left; apply T|]. right. exists 2%nat, dbl, dbc.
      split_and!; try done; [by right|by etransitivity].
    + destruct r2 as [[t|again]|[e| | | | | | | | |]]; try done; [by intros _; apply T|]. intros He. by apply T, A2.
  - destruct H as [-> ->]. auto.
Qed.

(** A normal turn that succeeded left the stored answer it reports. *)
Lemma execute_stored inp (s : turn_state web_db) res s' :
  in_mode inp = normal -> execute web_client config env inp s = (Ok res, s') ->
  stored_answer inp s'.1.1 (pr_committed res) /\ parse_public_result (pr_committed res) = Ok res.
Proof.
  intros Hm H. unfold execute in H. rewrite Hm in H.
  apply bind_inv in H as [(t & s1 & H & [-> Hp]%lift_inv)|(e & _ & [=])].
  destruct (parse_public_result t) as [res'|] eqn:Ep; [|done]. injection Hp as <-.
  rewrite (public_result_committed _ _ Ep). split; [|done].
  apply execute_normal_cases in H as (r1 & s2 & R1 & H). apply run_once_web in R1 as [_ A1].
  destruct r1 as [[t1|conflict]|e]; [by destruct H as [[= <-] ->]|..|by destruct H as [[=] _]].
  destruct H as [(_ & [=] & _)|(_ & r2 & R2 & Hr)]. apply run_once_web in R2 as [_ A2].
  by destruct r2 as [[t2|again]|e]; [injection Hr as <-|..].
Qed.

End Web.

(** ** Replay *)

Section Replay.
Context `{FT : FloatText, SH : Sha256, JB : Jsonb, LM : Libm, IF : IsoFormat, PT : PyText}.

(** A replay attempt on a database that holds the stored answer. *)
Lemma replay_reports net config env inp db n log t :
  in_mode inp = replay_attempt -> stored_answer inp db t -> table_checks db -> is_uuid (ct_assistant_message_id t) = true ->
  n_transport net n = Delivered -> w_read env 1 at_load = ReadCompletes ->
  read_starts (in_budget inp) (w_monotonic env 1 at_load) (pc_supabase_timeout config) = true ->
  execute (web_client net) config env inp ((db, n), log) = (parse_public_result t, ((db, S n), log)).
Proof.
  intros Hm (row & v & Hr & Hs & Hb & Hp & Nu & Tu & Tr) Tc Hu Hd Hf Hst.
  pose proof (replay_stored (n_env net n) _ _ _ _ _ _ Tc Nu Hr Hs Hb Hp Hu) as Rs.
  assert (replay (web_client net) (in_user_id inp) (in_request_id inp) (db, n) = (Ok (ReplayCompleted t), (db, S n))) as Rp.
  { unfold replay, web_client. cbn [sb_rpc supabase_of fst snd]. rewrite Hd.
    assert (forall e, rpc_call e (u "replay_committed_turn") [(KStr (u "p_authenticated_user_id"), PStr (in_user_id inp));
       (KStr (u "p_request_id"), PStr (in_request_id inp))] db
      = match text_arg (PStr (in_user_id inp)), uuid_arg (PStr (in_request_id inp)) with
        | Some user, Some request => (sql_replay_committed_turn e user request db, db)
        | _, _ => (None, db) end) as -> by reflexivity.
    unfold text_arg, uuid_arg. rewrite Tu, Tr, Rs.
    destruct (build_result_shape _ _ _ _ Hb) as (d & -> & De). cbn [_unwrap_rpc_data as_mapping rbind].
    unfold parse_replay_committed_turn_result. cbn [as_mapping]. rewrite De.
    assert (dindex d (u "status") = PNone) as ->; [|by rewrite Hp].
    unfold commit_turn_build_result in Hb. rewrite Hr in Hb. cbn [mbind option_bind] in Hb. by injection Hb as <-. }
  unfold execute, bind. rewrite Hm. unfold _replay. cbn [fst snd]. rewrite Rp, Hst, Hf. cbn [worker_outcome fate_outcome].
  unfold read_starts in Hst. unfold run_blocking_read. apply negb_true_iff in Hst. rewrite Hst.
  unfold lift. by destruct (parse_public_result t).
Qed.

(** C7. Replaying a web turn.  After a turn has succeeded, and as long as the
    database keeps its request, a replay attempt that reaches the database gives
    the same result, asks the model nothing and leaves the database as it is. *)
Theorem web_replay_same_result net config (env : surroundings web_db) inp s res s' net2 config2 env2 inp2 db n log :
  (forall k p x, evolves x.1 (w_others env k p x).1) ->
  in_mode inp = normal -> execute (web_client net) config env inp s = (Ok res, s') ->
  in_mode inp2 = replay_attempt -> in_user_id inp2 = in_user_id inp -> in_request_id inp2 = in_request_id inp ->
  table_checks db -> is_uuid (ct_assistant_message_id (pr_committed res)) = true ->
  d_requests db !! (in_user_id inp, in_request_id inp) = d_requests s'.1.1 !! (in_user_id inp, in_request_id inp) ->
  n_transport net2 n = Delivered -> w_read env2 1 at_load = ReadCompletes ->
  read_starts (in_budget inp2) (w_monotonic env2 1 at_load) (pc_supabase_timeout config2) = true ->
  execute (web_client net2) config2 env2 inp2 ((db, n), log) = (Ok res, ((db, S n), log)).
Proof.
  intros Ho Hm H Hm2 Hu Hq Tc Hi Hk Hd Hf Hst.
  apply (execute_stored net config env evolves) in H as [(row & v & Hr & Hs & Hb & Hp & Nu & Tu & Tr) Ep]; [|done..].
  rewrite <- Ep. apply replay_reports; try done. exists row, v. rewrite Hu, Hq, Hk. split_and!; try done.
  unfold commit_turn_build_result in Hb |- *. by rewrite Hk.
Qed.

End Replay.

(** ** A concrete turn, for the witnesses *)

Section Samples.

#[local] Existing Instances flat_repr flat_text zero_sha plain_jsonb coarse_pow iso_basic.

#[local] Instance plain_text : PyText.
Proof. by refine {| str_of := fun v => match v with PStr s => s | _ => [] end; float_of_str := fun _ => None; int_of_str := fun _ => None |}. Defined.

(** Every request arrives and is answered. *)
Definition sample_net : network :=
  mkNetwork (fun _ => mkSqlEnv 6000000 (u "33333333-3333-3333-3333-333333333333")
      (fun n => u "44444444-4444-4444-4444-44444444444" ++ render_int (Z.of_nat n)))
    (fun _ => Delivered) (fun _ => true).

(** Before the first commit of the turn, another client commits for the same user. *)
Definition rival (k : nat) (p : point) (s : web_db) : web_db :=
  match k, p with
  | 1%nat, at_commit => ((@sql_commit_turn plain_jsonb sample_env sample_params s.1).2, s.2)
  | _, _ => s
  end.

Definition calm_others (k : nat) (p : point) (s : web_db) : web_db := s.

Definition sample_surroundings (others : nat -> point -> web_db -> web_db) : surroundings web_db :=
  mkSurroundings (fun _ => PFloat 2000) (PFloat 2000) (fun _ _ => 0%float) (fun _ => 12) (fun _ _ => ReadCompletes) (fun _ => false)
    (fun _ _ _ _ _ => Returned (mkLoadedContextData [] [] [] [])) (fun _ _ => Ok sample_appraisal) (fun _ _ => Ok (u "oi"))
    (fun _ => sample_message) others.

Definition sample_turn_config : ProcessTurnConfig :=
  mkProcessTurnConfig default_config default_rel_config (NFloat 5) true (new_lease_owner (u "abc")).

Definition sample_turn_input (mode : TurnMode) : ProcessTurnInput :=
  mkProcessTurnInput (u "ana") (u "7d444840-9dc0-41d1-b245-5ffdce74fad2") (u "oi, tudo bem?")
    (mkTurnBudget 45 (NFloat 10)) (repeat 48%N 64) mode.

(** A profile at revision 2, with both snapshots. *)
Definition profile_db : turn_db :=
  mkTurnDb {[ u "ana" := mkProfileRow None PNone (PDict (EmotionalStateV1_to_dict sample_state))
                           (PDict (RelationshipStateV1_to_dict sample_rel)) 2 ]} ∅ [] [] 1.

Definition sample_web_turn (others : nat -> point -> web_db -> web_db) (mode : TurnMode) (db : turn_db)
    : result process_exn ProcessTurnResult * turn_state web_db :=
  @execute web_db flat_repr zero_sha coarse_pow iso_basic (@web_client plain_jsonb sample_net) sample_turn_config
    (sample_surroundings others) (sample_turn_input mode) ((db, 0%nat), []).

Lemma rival_evolves k p s : evolves s.1 (rival k p s).1.
Proof.
  unfold rival. destruct k as [|[|k]]; try reflexivity. destruct p; try reflexivity. cbn [fst].
  destruct (@sql_commit_turn _ _ _ _) as [r db] eqn:E. by eapply sql_commit_evolves.
Qed.


(** Without other clients, the turn is the one that moved the profile. *)
Lemma web_no_lost_update_witness :
  exists k, turn_wrote sample_net sample_turn_config (sample_surroundings calm_others) (sample_turn_input normal) k
    profile_db profile_db (sample_web_turn calm_others normal profile_db).2.1.1.
Proof.
  destruct (sample_web_turn calm_others normal profile_db) as [r s'] eqn:E.
  destruct (web_no_lost_update sample_net sample_turn_config (sample_surroundings calm_others) eq
    ltac:(intros db db' <-; reflexivity) ltac:(reflexivity) (sample_turn_input normal) ((profile_db, 0%nat), []) r s' eq_refl E)
    as [[M|(k & dbl & dbc & _ & M1 & M2 & W)] _].
  - exfalso. assert (revision_of (sample_web_turn calm_others normal profile_db).2.1.1 (u "ana") = 3) as K by (vm_compute; reflexivity).
    rewrite E in K. cbn [fst snd] in M, K. rewrite <- M in K. vm_compute in K. discriminate K.
  - exists k. cbn [fst snd] in M1. subst dbl. subst dbc. exact W.
Defined.

(** The replay, on the database the turn left. *)
Lemma web_replay_same_result_witness :
  exists res s, sample_web_turn rival normal profile_db = (Ok res, s)
    /\ sample_web_turn calm_others replay_attempt s.1.1 = (Ok res, ((s.1.1, 1%nat), [])).
Proof.
  destruct (sample_web_turn rival normal profile_db) as [r s] eqn:E.
  assert (match (sample_web_turn rival normal profile_db).1 with
    | Ok res => is_uuid (ct_assistant_message_id (pr_committed res)) | Err _ => false end = true) as Ho by (vm_compute; reflexivity).
  assert (forallb (fun kr => match tr_completed_at kr.2 with Some _ => true | None => false end)
    (map_to_list (d_requests (sample_web_turn rival normal profile_db).2.1.1)) = true) as Hc by (vm_compute; reflexivity).
  rewrite E in Ho, Hc. destruct r as [res|]; [|discriminate Ho]. exists res, s. split; [reflexivity|]. cbn [fst snd] in Ho, Hc.
  apply (web_replay_same_result sample_net sample_turn_config (sample_surroundings rival) (sample_turn_input normal)
    ((profile_db, 0%nat), []) res s sample_net sample_turn_config (sample_surroundings calm_others) (sample_turn_input replay_attempt)
    s.1.1 0%nat [] rival_evolves eq_refl E eq_refl eq_refl eq_refl).
  - intros key row Hr _. apply elem_of_map_to_list, list_elem_of_In in Hr. rewrite forallb_forall in Hc. apply Hc in Hr. cbn in Hr.
    destruct (tr_completed_at row); [eexists; reflexivity|discriminate Hr].
  - exact Ho.
  - reflexivity.
  - reflexivity.
  - reflexivity.
  - vm_compute. reflexivity.
Defined.

End Samples.
