(* ===== verification/PublicResult.v ===== *)
(** * The public result of a turn, stored and read back

    The replay payload carries the answer and the projected emotion as JSON; the
    database keeps a document up to the order of its keys, and the record of a
    committed turn freezes it.  Reading it back gives the answer and the emotion
    the turn computed. *)

From S2P Require Import Prelude PyFloat FloatRound PyValue TurnExecution StorageContracts EmotionalModels EmotionalTransition EmotionPresentation.
From S2P Require Import AtomicTurnCommit JsonText CommitTheorems CommitProperties ProcessTurn.

Local Open Scope Z_scope.

Definition is_scalar (v : pyval) : bool :=
  match v with PNone | PBool _ | PInt _ | PFloat _ | PStr _ => true | _ => false end.

(** The same JSON document: objects have the same members, in any order. *)
Inductive same_doc : pyval -> pyval -> Prop :=
| same_scalar v : is_scalar v = true -> same_doc v v
| same_array v v' l l' : as_sequence v = Some l -> as_sequence v' = Some l' -> Forall2 same_doc l l' -> same_doc v v'
| same_object v v' d d' : as_mapping v = Some d -> as_mapping v' = Some d' ->
    (forall k x, dget d k = Some x -> exists x', dget d' k = Some x' /\ same_doc x x') ->
    (forall k, dget d k = None -> dget d' k = None) ->
    Forall (fun kv => exists k, kv.1 = KStr k) d' -> same_doc v v'.

(** ** Freezing *)

Definition freeze_dict (d : pydict) : pydict := map (fun kv => match kv with (k, x) => (k, _deep_freeze x) end) d.

Lemma dget_freeze d k : dget (freeze_dict d) k = _deep_freeze <$> dget d k.
Proof.
  unfold dget, freeze_dict. induction d as [|[k' x] d IH]; [done|]. cbn [map List.find fst]. by destruct (bool_decide (k' = KStr k)).
Qed.

(** The frozen value is the same document. *)
Lemma same_frozen w : forall v, same_doc v w -> same_doc v (_deep_freeze w).
Proof.
  assert (forall l, Forall (fun w => forall v, same_doc v w -> same_doc v (_deep_freeze w)) l ->
    forall vs, Forall2 same_doc vs l -> Forall2 same_doc vs (map _deep_freeze l)) as Seq.
  { intros l F vs. revert F. intros F F2. induction F2; [constructor|]. apply Forall_cons in F as [F0 F]. constructor; auto. }
  assert (forall d, Forall (fun kx => forall v, same_doc v kx.2 -> same_doc v (_deep_freeze kx.2)) d -> forall w0 v, as_mapping w0 = Some d ->
    same_doc v w0 -> same_doc v (PProxy (freeze_dict d))) as Map.
  { intros d F w0 v M S. inversion S as [? Sc|? ? l l' ? A|? ? d1 d' A1 A2 K1 K2 K3]; subst.
    - by destruct w0.
    - by destruct w0.
    - rewrite M in A2. injection A2 as <-. apply (same_object v _ d1 (freeze_dict d)); try done.
      + intros k x (x' & Hx & Sx)%K1. exists (_deep_freeze x'). rewrite dget_freeze, Hx. split; [done|].
        rewrite Forall_forall in F. apply dget_elem in Hx. by apply (F (KStr k, x')).
      + intros k Hk%K2. by rewrite dget_freeze, Hk.
      + apply Forall_map. eapply Forall_impl; [exact K3|]. by intros [k x]. }
  induction w as [| | | | | |l F|l F|d F|d F] using pyval_nested_ind; intros v S; try exact S.
  - inversion S as [? Sc|? ? l1 l' A1 A2 F2|? ? ? ? ? A]; subst; try done. injection A2 as <-. eapply same_array; [exact A1|reflexivity|auto].
  - inversion S as [? Sc|? ? l1 l' A1 A2 F2|? ? ? ? ? A]; subst; try done. injection A2 as <-. eapply same_array; [exact A1|reflexivity|auto].
  - by apply (Map d F (PDict d)).
  - by apply (Map d F (PProxy d)).
Qed.

(** ** Reading back *)

Lemma same_dict d w : same_doc (PDict d) w -> exists d', as_mapping w = Some d'
  /\ (forall k x, dget d k = Some x -> exists x', dget d' k = Some x' /\ same_doc x x')
  /\ (forall k, dget d k = None -> dget d' k = None) /\ Forall (fun kv => exists k, kv.1 = KStr k) d'.
Proof.
  intros S. inversion S as [|? ? l l' A|? ? d1 d' A1 A2 K1 K2 K3]; subst; [done|done|]. injection A1 as <-. by exists d'.
Qed.

Lemma same_list l w : same_doc (PList l) w -> exists l', as_sequence w = Some l' /\ Forall2 same_doc l l'.
Proof. intros S. inversion S as [|? ? l1 l' A1 A2 F|? ? d1 d' A1]; subst; [done| |done]. injection A1 as <-. by exists l'. Qed.

Lemma same_atom v w : is_scalar v = true -> same_doc v w -> w = v.
Proof. intros Sc S. inversion S as [|? ? l l' A|? ? d d' A]; subst; [done|by destruct v|by destruct v]. Qed.

(** The members of a document with known keys. *)
Lemma same_fields fields d d' :
  (forall k, dget d k = None -> dget d' k = None) -> Forall (fun kv => exists k, kv.1 = KStr k) d' ->
  has_missing fields d = false -> has_unknown fields d = false ->
  (forall k x, dget d k = Some x -> exists x', dget d' k = Some x' /\ same_doc x x') ->
  has_unknown fields d' = false /\ has_missing fields d' = false.
Proof.
  intros Kn Ks M U K. split.
  - apply not_true_is_false. intros (([k|k] & x) & Hin & Hk)%existsb_exists; cbn [fst] in Hk.
    2: { rewrite Forall_forall in Ks. apply list_elem_of_In, Ks in Hin as [s [=]]. }
    assert (is_Some (dget d' k)) as [y Hy].
    { unfold dget. destruct (List.find _ d') as [kv|] eqn:Ef; [by eexists|].
      eapply List.find_none in Ef; [|exact Hin]. cbn in Ef. by rewrite bool_decide_eq_true_2 in Ef. }
    destruct (dget d k) as [z|] eqn:Ez; [|by rewrite Kn in Hy].
    apply dget_elem in Ez. apply has_unknown_false with (k := KStr k) (v := z) in U as (s & [= <-] & Hs); [|done].
    apply negb_true_iff in Hk. cbn [key_in] in Hk. apply str_in_elem in Hs. congruence.
  - apply not_true_is_false. intros (f & Hin & Hf)%existsb_exists. apply negb_true_iff in Hf.
    assert (dhas d f = true) as [x Hx]%dhas_dget by (eapply missing_has; [exact M|by apply str_in_elem, list_elem_of_In]).
    destruct (K _ _ Hx) as (x' & Hx' & _). unfold dhas in Hf. by rewrite Hx' in Hf.
Qed.

(** A member that is a scalar. *)
Lemma same_index d d' k x :
  (forall k x, dget d k = Some x -> exists x', dget d' k = Some x' /\ same_doc x x') ->
  dget d k = Some x -> is_scalar x = true -> dindex d' k = x.
Proof. intros K Hx Sc. destruct (K _ _ Hx) as (x' & Hx' & S). unfold dindex. rewrite Hx'. by apply same_atom. Qed.

Definition dominant_dict (e : PublicDominantEmotion) : pydict :=
  [(KStr (u "name"), PStr (de_name e)); (KStr (u "intensity"), PFloat (de_intensity e))].

Definition pad_dict (p : PublicPAD) : pydict :=
  [(KStr (u "pleasure"), PFloat (pad_pleasure p)); (KStr (u "arousal"), PFloat (pad_arousal p));
   (KStr (u "dominance"), PFloat (pad_dominance p))].

(** The responses the models accept. *)
Record response_valid (r : EmotionStateResponse) : Prop := {
  rv_pad : PublicPAD_init (PFloat (pad_pleasure (er_pad r))) (PFloat (pad_arousal (er_pad r))) (PFloat (pad_dominance (er_pad r))) = Ok (er_pad r);
  rv_dominant : Forall (fun e => PublicDominantEmotion_init (PStr (de_name e)) (PFloat (de_intensity e)) = Ok e) (er_dominant r);
  rv_rest : EmotionStateResponse_init (PInt (er_schema_version r)) (PStr (er_mood_label r)) (er_pad r) (er_dominant r)
    (PFloat (er_timestamp r)) = Ok r }.

Lemma pad_same p w : PublicPAD_init (PFloat (pad_pleasure p)) (PFloat (pad_arousal p)) (PFloat (pad_dominance p)) = Ok p ->
  same_doc (PDict (pad_dict p)) w -> pad_of_mapping w = Ok p.
Proof.
  intros V (d & M & K & Kn & Ks)%same_dict. unfold pad_of_mapping. rewrite M.
  destruct (same_fields [u "pleasure"; u "arousal"; u "dominance"] (pad_dict p) d Kn Ks) as [-> ->]; [reflexivity|reflexivity|exact K|].
  rewrite (same_index _ _ (u "pleasure") (PFloat (pad_pleasure p)) K), (same_index _ _ (u "arousal") (PFloat (pad_arousal p)) K),
    (same_index _ _ (u "dominance") (PFloat (pad_dominance p)) K) by reflexivity. exact V.
Qed.

Lemma dominant_same e w : PublicDominantEmotion_init (PStr (de_name e)) (PFloat (de_intensity e)) = Ok e ->
  same_doc (PDict (dominant_dict e)) w -> dominant_of_mapping w = Ok e.
Proof.
  intros V (d & M & K & Kn & Ks)%same_dict. unfold dominant_of_mapping. rewrite M.
  destruct (same_fields [u "name"; u "intensity"] (dominant_dict e) d Kn Ks) as [-> ->]; [reflexivity|reflexivity|exact K|].
  rewrite (same_index _ _ (u "name") (PStr (de_name e)) K), (same_index _ _ (u "intensity") (PFloat (de_intensity e)) K) by reflexivity.
  exact V.
Qed.

Lemma dominants_same es ws :
  Forall (fun e => PublicDominantEmotion_init (PStr (de_name e)) (PFloat (de_intensity e)) = Ok e) es ->
  Forall2 same_doc (map (fun e => PDict (dominant_dict e)) es) ws -> rmap dominant_of_mapping ws = Ok es.
Proof.
  intros F. revert ws. induction F as [|e es V _ IH]; intros ws F2; cbn [map] in F2.
  - by apply Forall2_nil_inv_l in F2 as ->.
  - apply Forall2_cons_inv_l in F2 as (w & ws' & S & F2 & ->). rewrite rmap_cons, (dominant_same e w V S). cbn [rbind].
    by rewrite (IH _ F2).
Qed.

(** [model_validate] inverts [model_dump]. *)
Lemma model_same r w : response_valid r -> same_doc (PDict (model_dump r)) w ->
  exists d, as_mapping w = Some d /\ model_validate d = Ok r.
Proof.
  intros [Vp Vd Vr] (d & M & K & Kn & Ks)%same_dict. exists d. split; [done|]. unfold model_validate.
  destruct (same_fields [u "schema_version"; u "mood_label"; u "pad"; u "dominant_emotions"; u "timestamp"] (model_dump r) d Kn Ks)
    as [-> ->]; [reflexivity|reflexivity|exact K|].
  destruct (K (u "pad") (PDict (pad_dict (er_pad r))) eq_refl) as (wp & Hp & Sp).
  destruct (K (u "dominant_emotions") (PList (map (fun e => PDict (dominant_dict e)) (er_dominant r))) eq_refl) as (wd & Hd & Sd).
  apply same_list in Sd as (ws & As & F2).
  unfold dindex at 1 2. rewrite Hp, Hd. cbn [orb]. rewrite (pad_same _ _ Vp Sp). cbn [rbind]. rewrite As, (dominants_same _ _ Vd F2). cbn [rbind].
  rewrite (same_index _ _ (u "schema_version") (PInt (er_schema_version r)) K), (same_index _ _ (u "mood_label") (PStr (er_mood_label r)) K),
    (same_index _ _ (u "timestamp") (PFloat (er_timestamp r)) K) by reflexivity. exact Vr.
Qed.

(** Everything that is projected is valid. *)
Lemma finite_field lo hi f g : bounded_field lo hi (PFloat f) = Ok g -> g = f.
Proof. unfold bounded_field, _reject_non_finite, field_range. destruct (negb _); [done|]. cbn [rbind]. destruct (_ && _)%bool; [by intros [= <-]|done]. Qed.

Lemma both_ok {A B} (a : result presentation_exn A) (b : result presentation_exn B) x y : both a b = Ok (x, y) -> a = Ok x /\ b = Ok y.
Proof. destruct a as [?|[]], b as [?|[]]; cbn; try done. by intros [= -> ->]. Qed.

Lemma pad_init_fields p a d pad : PublicPAD_init (PFloat p) (PFloat a) (PFloat d) = Ok pad -> pad = mkPAD p a d.
Proof.
  unfold PublicPAD_init. intros H. inv_ok. destruct v as [[x y] z].
  match goal with K : both _ _ = Ok _ |- _ => apply both_ok in K as [[K1 K2]%both_ok K3] end.
  apply finite_field in K1 as ->, K2 as ->, K3 as ->. done.
Qed.

Lemma dominant_init_fields n i e : PublicDominantEmotion_init (PStr n) (PFloat i) = Ok e -> e = mkDominant n i.
Proof.
  unfold PublicDominantEmotion_init. intros H. inv_ok. destruct v as [x y].
  match goal with K : both _ _ = Ok _ |- _ => apply both_ok in K as [K1 K2] end. apply finite_field in K2 as ->.
  unfold _validate_emotion_name in K1. destruct (str_in n DISCRETE_EMOTIONS); [|done]. by injection K1 as <-.
Qed.

Lemma project_valid s a r : project_public_emotion (Instance_of s) (Instance_of a) = Ok r -> response_valid r.
Proof.
  unfold project_public_emotion. intros H.
  destruct (PublicPAD_init _ _ _) as [pad|] eqn:Ep; [|done]. cbn [rbind] in H.
  destruct (rmap _ _) as [dominant|] eqn:Ed; [|done]. cbn [rbind] in H.
  pose proof (pad_init_fields _ _ _ _ Ep) as ->.
  assert (er_schema_version r = PUBLIC_EMOTION_SCHEMA_VERSION /\ er_mood_label r = classify_pad_mood (pleasure s) (arousal s) (dominance s)
    /\ er_pad r = mkPAD (pleasure s) (arousal s) (dominance s) /\ er_dominant r = dominant /\ er_timestamp r = timestamp s)
    as (E1 & E2 & E3 & E4 & E5).
  { destruct (mood_nonempty (pleasure s) (arousal s) (dominance s)) as (c & t & Hm). rewrite Hm in *.
    unfold EmotionStateResponse_init in H. inv_ok. destruct v as [[[x y] z] t'].
    match goal with K : both _ _ = Ok _ |- _ => apply both_ok in K as [[[K1 K2]%both_ok K3]%both_ok K4] end.
    change (_validate_schema_version _) with (@Ok presentation_exn _ PUBLIC_EMOTION_SCHEMA_VERSION) in K1. cbn [validate_mood_label] in K2.
    unfold _limit_to_three in K3. destruct (_ <? _)%nat in K3; [done|]. case_bool_decide; [|done].
    unfold _reject_non_finite_timestamp, _reject_non_finite in K4. destruct (negb _) in K4; [done|]. cbn [rbind] in K4.
    destruct (_ <=? _)%float in K4; [done|]. cbn [fst snd er_schema_version er_mood_label er_pad er_dominant er_timestamp].
    injection K1 as <-. injection K2 as <-. injection K3 as <-. injection K4 as <-. done. }
  constructor.
  - rewrite E3. cbn [pad_pleasure pad_arousal pad_dominance]. exact Ep.
  - rewrite E4. apply rmap_ok_Forall2 in Ed. clear -Ed. induction Ed as [|[n i] e l l' He _ IH]; constructor; [|done].
    cbn [fst snd] in He. pose proof (dominant_init_fields _ _ _ He) as ->. exact He.
  - by rewrite E1, E2, E3, E4, E5.
Qed.

(** C36. The public result survives the database.  The payload a turn stores, read
    back as the same document (objects with their keys in any order, arrays as
    lists or tuples) and frozen, is parsed to exactly the response and the
    public emotional state the turn computed. *)
Theorem public_result_roundtrip {DB} (env : surroundings DB) k response s a public w committed :
  project_public_emotion (Instance_of s) (Instance_of a) = Ok public ->
  same_doc (PDict (replay_payload env k response public)) w ->
  ct_replay_payload committed = _deep_freeze w ->
  parse_public_result committed = Ok (mkProcessTurnResult committed response public).
Proof.
  intros V%project_valid S E. apply same_frozen in S. rewrite <- E in S. clear E.
  apply same_dict in S as (d & M & K & _ & _). unfold parse_public_result. rewrite M.
  destruct (K (u "response") (PStr response) eq_refl) as (x & -> & ->%same_atom); [|reflexivity].
  destruct (K (u "emotion_state") (PDict (model_dump public)) eq_refl) as (y & -> & Sy). cbn [mbind option_bind].
  destruct (model_same _ _ V Sy) as (raw & -> & R). by rewrite R.
Qed.

(** A document whose keys come back in another order. *)
Definition shuffled (response : pystr) (public : EmotionStateResponse) : pyval :=
  PDict [(KStr (u "duration_ms"), PInt 12); (KStr (u "message_id"), PStr sample_message);
    (KStr (u "emotion_state"), PDict [(KStr (u "pad"), PDict [(KStr (u "arousal"), PFloat (pad_arousal (er_pad public)));
        (KStr (u "pleasure"), PFloat (pad_pleasure (er_pad public))); (KStr (u "dominance"), PFloat (pad_dominance (er_pad public)))]);
      (KStr (u "timestamp"), PFloat (er_timestamp public)); (KStr (u "mood_label"), PStr (er_mood_label public));
      (KStr (u "schema_version"), PInt (er_schema_version public)); (KStr (u "dominant_emotions"), PList [])]);
    (KStr (u "response"), PStr response)].

Definition sample_surroundings : surroundings unit :=
  mkSurroundings (fun _ => PNone) PNone (fun _ _ => 0%float) (fun _ => 12) (fun _ _ => ReadCompletes) (fun _ => false)
    (fun _ _ _ _ _ => Raised AsyncTimeoutError) (fun _ _ => Ok sample_appraisal) (fun _ _ => Ok []) (fun _ => sample_message) (fun _ _ s => s).

Definition calm_appraisal : AppraisalV1 := mkAppraisal 0 0 0 [] 1.

Lemma KStr_inj a b : KStr a = KStr b -> a = b.
Proof. by intros [= ->]. Qed.

Lemma same_dicts (d d' : pydict) :
  Forall (fun kv => forall k, kv.1 = KStr k -> exists x', dget d' k = Some x' /\ same_doc kv.2 x') d ->
  forallb (fun kv => match kv.1 with KStr k => dhas d k | KOther _ => false end) d' = true ->
  same_doc (PDict d) (PDict d').
Proof.
  intros F H. rewrite Forall_forall in F. rewrite forallb_forall in H.
  apply (same_object (PDict d) (PDict d') d d' eq_refl eq_refl).
  - intros k x Hx. apply dget_elem in Hx. by apply (F _ Hx).
  - intros k N. destruct (dget d' k) as [x|] eqn:E; [|done].
    apply dget_elem, list_elem_of_In, H in E. cbn in E. unfold dhas in E. by rewrite N in E.
  - apply Forall_forall. intros [[k|k] x] Hin; [by exists k|]. apply list_elem_of_In, H in Hin. done.
Qed.

Ltac same_members :=
  lazymatch goal with
  | |- same_doc (PDict _) (PDict _) =>
      apply same_dicts; [|reflexivity];
      repeat (apply Forall_cons; split;
        [intros k Hk; apply KStr_inj in Hk as <-; eexists; split; [reflexivity|cbn [snd]; same_members]|]); by apply Forall_nil
  | |- same_doc (PList []) (PList []) => by eapply same_array
  | |- _ => by apply same_scalar
  end.

Lemma public_result_roundtrip_witness : exists public t,
  project_public_emotion (Instance_of sample_state) (Instance_of calm_appraisal) = Ok public
  /\ parse_public_result t = Ok (mkProcessTurnResult t (u "oi") public).
Proof.
  destruct (project_public_emotion (Instance_of sample_state) (Instance_of calm_appraisal)) as [public|] eqn:E;
    [|vm_compute in E; discriminate E].
  exists public, (CommittedTurn_init (u "ana") sample_request 3 sample_request sample_message (shuffled (u "oi") public) [] (u "t") (u "t")).
  split; [reflexivity|].
  refine (public_result_roundtrip sample_surroundings 1 (u "oi") sample_state calm_appraisal public (shuffled (u "oi") public)
    (CommittedTurn_init (u "ana") sample_request 3 sample_request sample_message (shuffled (u "oi") public) [] (u "t") (u "t"))
    E _ eq_refl).
  assert (er_dominant public = []) as D by (vm_compute in E; injection E as <-; reflexivity).
  unfold replay_payload, model_dump, shuffled. rewrite D. cbn [map]. same_members.
Defined.
