(* ===== verification/LockManager.v ===== *)
(** * Per-user locks (backend/lock_manager.py)

    [UserLockManager.lock] as a state machine over the tasks of the event loop.
    The dictionary maps a user to a lock object and a reference count; a task
    keeps the object it was given, and the entry may be deleted and made anew, so
    the objects live in a heap.  [asyncio.Lock] is the one of the standard
    library: a flag and a queue of futures.  The bodies under [_dict_lock] never
    wait, so that lock is free whenever a task runs and each of its blocks is one
    step with what surrounds it.  A task may be cancelled at any time. *)

From S2P Require Import Prelude PyValue.
From stdpp Require Import gmap.

Local Open Scope Z_scope.

(** ** asyncio.Lock *)

Inductive fut_state : Type := Pending | Woken | Cancelled.

Record Lock : Type := mkLock {
  l_locked : bool;
  l_waiters : list (nat * fut_state) }.

Definition is_cancelled (w : nat * fut_state) : bool := match w.2 with Cancelled => true | _ => false end.

(** [_wake_up_first]: a future that is done is left alone. *)
Definition _wake_up_first (l : Lock) : Lock :=
  match l_waiters l with
  | (t, Pending) :: ws => mkLock (l_locked l) ((t, Woken) :: ws)
  | _ => l
  end.

(** [acquire] up to its wait; the result says whether it has the lock. *)
Definition acquire (t : nat) (l : Lock) : Lock * bool :=
  if negb (l_locked l) && forallb is_cancelled (l_waiters l) then (mkLock true (l_waiters l), true)
  else (mkLock (l_locked l) (l_waiters l ++ [(t, Pending)]), false).

Definition remove_waiter (t : nat) (l : Lock) : Lock :=
  mkLock (l_locked l) (List.filter (fun w => negb (w.1 =? t)%nat) (l_waiters l)).

(** [acquire] after its wait, woken or cancelled. *)
Definition acquire_woken (t : nat) (l : Lock) : Lock := mkLock true (l_waiters (remove_waiter t l)).

Definition acquire_cancelled (t : nat) (l : Lock) : Lock :=
  if l_locked l then remove_waiter t l else _wake_up_first (remove_waiter t l).

Definition release (l : Lock) : Lock := _wake_up_first (mkLock false (l_waiters l)).

(** [fut.cancel()] on the future a task waits for. *)
Definition cancel_future (t : nat) (l : Lock) : Lock :=
  mkLock (l_locked l) (map (fun w => if (w.1 =? t)%nat then (w.1, match w.2 with Pending => Cancelled | s => s end) else w) (l_waiters l)).

(** ** The manager *)

Inductive phase : Type := Waiting | Holding.

Record task : Type := mkTask {
  t_user : pystr;
  t_lock : nat;                (** the object [user_lock] *)
  t_phase : phase;
  t_must_cancel : bool }.

Record manager : Type := mkManager {
  m_locks : gmap pystr (nat * Z);     (** [_locks] *)
  m_heap : gmap nat Lock;
  m_next : nat;
  m_tasks : gmap nat task }.

Definition UserLockManager_init : manager := mkManager ∅ ∅ 0 ∅.

(** Steps 1 and 2, up to the wait for the user's lock. *)
Definition enter (t : nat) (user : pystr) (m : manager) : manager :=
  let '(id, n, heap, next) :=
    match m_locks m !! user with
    | Some (id, n) => (id, n, m_heap m, m_next m)
    | None => (m_next m, 0, <[m_next m := mkLock false []]> (m_heap m), S (m_next m))
    end in
  let '(l, got) := acquire t (default (mkLock false []) (heap !! id)) in
  mkManager (<[user := (id, n + 1)]> (m_locks m)) (<[id := l]> heap) next
    (<[t := mkTask user id (if got then Holding else Waiting) false]> (m_tasks m)).

Definition on_lock (f : Lock -> Lock) (id : nat) (m : manager) : manager :=
  mkManager (m_locks m) (alter f id (m_heap m)) (m_next m) (m_tasks m).

Definition with_task (t : nat) (k : task) (m : manager) : manager :=
  mkManager (m_locks m) (m_heap m) (m_next m) (<[t := k]> (m_tasks m)).

(** Step 3: the [finally] block, after which the context manager is left. *)
Definition decrement (user : pystr) (locks : gmap pystr (nat * Z)) : gmap pystr (nat * Z) :=
  match locks !! user with
  | Some (id, n) => if n - 1 <=? 0 then delete user locks else <[user := (id, n - 1)]> locks
  | None => locks
  end.

Definition finally (t : nat) (user : pystr) (m : manager) : manager :=
  mkManager (decrement user (m_locks m)) (m_heap m) (m_next m) (delete t (m_tasks m)).

(** [task.cancel()] while the task waits for the user's lock. *)
Definition cancel (t : nat) (k : task) (m : manager) : manager :=
  with_task t (mkTask (t_user k) (t_lock k) Waiting true) (on_lock (cancel_future t) (t_lock k) m).

(** The task runs again. *)
Definition resume (t : nat) (k : task) (m : manager) : manager :=
  if t_must_cancel k then finally t (t_user k) (on_lock (acquire_cancelled t) (t_lock k) m)
  else with_task t (mkTask (t_user k) (t_lock k) Holding false) (on_lock (acquire_woken t) (t_lock k) m).

(** The body of [async with] ends, in whatever way. *)
Definition leave (t : nat) (k : task) (m : manager) : manager := finally t (t_user k) (on_lock release (t_lock k) m).

(** What the future of a waiting task is. *)
Definition future_of (t : nat) (id : nat) (m : manager) : option fut_state :=
  l ← m_heap m !! id; snd <$> List.find (fun w => (w.1 =? t)%nat) (l_waiters l).

Inductive step : manager -> manager -> Prop :=
| step_enter m t user : m_tasks m !! t = None -> step m (enter t user m)
| step_cancel m t k : m_tasks m !! t = Some k -> t_phase k = Waiting -> step m (cancel t k m)
| step_resume m t k f : m_tasks m !! t = Some k -> t_phase k = Waiting -> future_of t (t_lock k) m = Some f -> f <> Pending ->
    step m (resume t k m)
| step_leave m t k : m_tasks m !! t = Some k -> t_phase k = Holding -> step m (leave t k m).

Definition reachable : manager -> Prop := rtc step UserLockManager_init.

(** ** Invariant *)

Definition tasks_of (user : pystr) (m : manager) : gmap nat task := filter (fun kt => t_user kt.2 = user) (m_tasks m).

(** Only the head of the queue is woken, when the lock is free; it then is not pending. *)
Definition asleep (w : nat * fut_state) : Prop := w.2 <> Woken.

Record queue_ok (l : Lock) : Prop := {
  qu_tail : Forall asleep (tail (l_waiters l));
  qu_locked : l_locked l = true -> Forall asleep (l_waiters l);
  qu_free : l_locked l = false -> forall w, head (l_waiters l) = Some w -> w.2 <> Pending }.

(** A lock and the tasks that use it. *)
Record lock_ok (l : Lock) (ts : gmap nat task) : Prop := {
  lk_distinct : NoDup (l_waiters l).*1;
  lk_waiting : forall t, t ∈ (l_waiters l).*1 <-> exists k, ts !! t = Some k /\ t_phase k = Waiting;
  lk_holding : l_locked l = true <-> exists t k, ts !! t = Some k /\ t_phase k = Holding;
  lk_exclusive : forall t1 t2 k1 k2, ts !! t1 = Some k1 -> ts !! t2 = Some k2 -> t_phase k1 = Holding -> t_phase k2 = Holding -> t1 = t2;
  lk_cancelled : forall t s k, (t, s) ∈ l_waiters l -> ts !! t = Some k -> (s = Cancelled -> t_must_cancel k = true)
    /\ (s = Pending -> t_must_cancel k = false);
  lk_queue : queue_ok l }.

Definition user_ok (m : manager) (user : pystr) : Prop :=
  match m_locks m !! user with
  | None => tasks_of user m = ∅
  | Some (id, n) => exists l, m_heap m !! id = Some l /\ 0 < n /\ n = Z.of_nat (size (tasks_of user m))
      /\ (forall t k, tasks_of user m !! t = Some k -> t_lock k = id) /\ lock_ok l (tasks_of user m)
  end.

Record manager_ok (m : manager) : Prop := {
  mg_users : forall user, user_ok m user;
  mg_fresh : forall user id n, m_locks m !! user = Some (id, n) -> (id < m_next m)%nat;
  mg_own : forall u1 u2 id n1 n2, m_locks m !! u1 = Some (id, n1) -> m_locks m !! u2 = Some (id, n2) -> u1 = u2 }.

(** ** The lock *)

Lemma wake_names l : (l_waiters (_wake_up_first l)).*1 = (l_waiters l).*1.
Proof. destruct l as [lk [|[? []] ws]]; done. Qed.

Lemma wake_locked l : l_locked (_wake_up_first l) = l_locked l.
Proof. destruct l as [lk [|[? []] ws]]; done. Qed.

Lemma wake_elem l t s : (t, s) ∈ l_waiters (_wake_up_first l) -> (t, s) ∈ l_waiters l \/ s = Woken.
Proof.
  unfold _wake_up_first. destruct l as [lk [|[t' []] ws]]; cbn; try by left.
  intros [[= -> ->]|H]%elem_of_cons; [by right|]. left. by right.
Qed.

Lemma wake_queue l : Forall asleep (tail (l_waiters l)) -> l_locked l = false -> queue_ok (_wake_up_first l).
Proof.
  intros T F. unfold _wake_up_first. destruct l as [lk [|[t []] ws]]; cbn in *; subst lk; constructor; cbn; try done;
    by intros _ w [= <-].
Qed.

Lemma remove_names t l t' : t' ∈ (l_waiters (remove_waiter t l)).*1 <-> t' <> t /\ t' ∈ (l_waiters l).*1.
Proof.
  unfold remove_waiter. cbn. induction (l_waiters l) as [|[x s] ws IH]; cbn; [rewrite !elem_of_nil; tauto|].
  rewrite elem_of_cons. destruct (Nat.eqb_spec x t) as [->|N]; cbn; rewrite ?elem_of_cons, IH; naive_solver.
Qed.

Lemma remove_elem t l w : w ∈ l_waiters (remove_waiter t l) -> w ∈ l_waiters l.
Proof. cbn. rewrite !list_elem_of_In, List.filter_In. tauto. Qed.

Lemma remove_distinct t l : NoDup (l_waiters l).*1 -> NoDup (l_waiters (remove_waiter t l)).*1.
Proof.
  pose proof (fun x => remove_names t (mkLock (l_locked l) x)) as R. unfold remove_waiter in *. cbn in *.
  induction (l_waiters l) as [|[x s] ws IH]; cbn; [done|]. intros [N D]%NoDup_cons.
  destruct (x =? t)%nat; cbn; [by apply IH|]. apply NoDup_cons. split; [|by apply IH]. rewrite R. tauto.
Qed.

Lemma remove_asleep t l : Forall asleep (l_waiters l) -> Forall asleep (l_waiters (remove_waiter t l)).
Proof. rewrite !Forall_forall. intros F w H. by apply F, (remove_elem t). Qed.

Lemma remove_tail t l : Forall asleep (tail (l_waiters l)) -> Forall asleep (tail (l_waiters (remove_waiter t l))).
Proof.
  intros F. destruct l as [lk [|[x s] ws]]; [done|]. cbn in *.
  assert (Forall asleep (List.filter (fun w => negb (w.1 =? t)%nat) ws)) as G by (by apply (remove_asleep t (mkLock lk ws))).
  destruct (x =? t)%nat; cbn; [|done]. by destruct G.
Qed.

Lemma cancelled_names t l : (l_waiters (cancel_future t l)).*1 = (l_waiters l).*1.
Proof. cbn. induction (l_waiters l) as [|[x s] ws IH]; cbn; [done|]. rewrite IH. by destruct (x =? t)%nat. Qed.

Lemma cancelled_elem t l x s : (x, s) ∈ l_waiters (cancel_future t l) ->
  exists s', (x, s') ∈ l_waiters l /\ s = if (x =? t)%nat then match s' with Pending => Cancelled | s => s end else s'.
Proof.
  cbn. rewrite list_elem_of_In, in_map_iff. intros ([y s'] & E & H). cbn in E. exists s'.
  destruct (Nat.eqb_spec y t) as [->|N]; injection E as <- <-; rewrite list_elem_of_In; (split; [done|]).
  - rewrite Nat.eqb_refl. by destruct s'.
  - by apply Nat.eqb_neq in N as ->.
Qed.

Lemma cancelled_queue t l : queue_ok l -> queue_ok (cancel_future t l).
Proof.
  assert (forall ws, Forall asleep ws ->
    Forall asleep (map (fun w => if (w.1 =? t)%nat then (w.1, match w.2 with Pending => Cancelled | s => s end) else w) ws)) as A.
  { intros ws F. apply Forall_map. eapply Forall_impl; [exact F|]. intros [x []] H; cbn; by destruct (x =? t)%nat. }
  intros [T L F]. destruct l as [lk [|[x s] ws]]; [by constructor|]. constructor; cbn [l_waiters l_locked tail cancel_future map head] in *.
  - by apply A.
  - intros E. by apply (A ((x, s) :: ws)), L.
  - intros E w [= <-]. specialize (F E _ eq_refl). destruct (x =? t)%nat; [|done]. by destruct s.
Qed.

Lemma waiter_unique (ws : list (nat * fut_state)) t s s' : NoDup ws.*1 -> (t, s) ∈ ws -> (t, s') ∈ ws -> s = s'.
Proof.
  intros D [i Hi]%list_elem_of_lookup [j Hj]%list_elem_of_lookup.
  assert (i = j) as ->; [|congruence]. eapply (NoDup_lookup ws.*1); [done|by rewrite list_lookup_fmap, Hi|by rewrite list_lookup_fmap, Hj].
Qed.

Section Tasks.
Context (l : Lock) (ts : gmap nat task) (ok : lock_ok l ts).

(** No waiter holds the lock. *)
Lemma fresh_not_waiting t : ts !! t = None -> t ∉ (l_waiters l).*1.
Proof using ok. intros N (k & Hk & _)%(lk_waiting _ _ ok). congruence. Qed.

Lemma cancelled_asleep : forallb is_cancelled (l_waiters l) = true -> Forall asleep (l_waiters l).
Proof using Type. rewrite forallb_forall, Forall_forall. intros H [t s] Hin%list_elem_of_In%H. unfold is_cancelled, asleep in *. by destruct s. Qed.

Lemma free_no_holder : l_locked l = false -> forall t k, ts !! t = Some k -> t_phase k <> Holding.
Proof using ok. intros F t k Hk Hp. assert (l_locked l = true) by (apply (lk_holding _ _ ok); by exists t, k). congruence. Qed.

Lemma enter_ok t user id got l' : ts !! t = None -> acquire t l = (l', got) ->
  lock_ok l' (<[t := mkTask user id (if got then Holding else Waiting) false]> ts).
Proof using ok.
  intros N. pose proof (fresh_not_waiting t N) as Nw. unfold acquire.
  destruct ok as [D W H X C [T L F]]. destruct (negb (l_locked l) && _) eqn:E; intros [= <- <-].
  - apply andb_true_iff in E as [E1%negb_true_iff E2].
    assert (forall t' k', ts !! t' = Some k' -> t_phase k' <> Holding) as NH by (by apply free_no_holder).
    constructor; cbn; try done.
    + intros x. rewrite W. split; intros (k & Hk & Hp); exists k.
      * rewrite lookup_insert_ne; [done|]. intros ->. congruence.
      * rewrite lookup_insert_Some in Hk. destruct Hk as [[<- <-]|[_ Hk]]; [done|done].
    + split; [|done]. intros _. exists t. eexists. by rewrite lookup_insert_eq.
    + intros t1 t2 k1 k2 [[<- <-]|[_ H1]]%lookup_insert_Some [[<- <-]|[_ H2]]%lookup_insert_Some P1 P2; try done;
        exfalso; by eapply NH.
    + intros x s k Hx [[<- <-]|[_ Hk]]%lookup_insert_Some; [|by eapply C]. destruct Nw. apply list_elem_of_fmap. by exists (t, s).
    + constructor; cbn; [done| |done]. intros _. by apply cancelled_asleep.
  - constructor; cbn.
    + rewrite fmap_app. cbn. apply NoDup_app. split_and!; [done| |by apply NoDup_singleton]. intros x Hx ->%list_elem_of_singleton. done.
    + intros x. rewrite fmap_app, elem_of_app, W. cbn. rewrite list_elem_of_singleton. split.
      * intros [(k & Hk & Hp)| ->]; [exists k; rewrite lookup_insert_ne; [done|intros ->; congruence]|].
        eexists. by rewrite lookup_insert_eq.
      * intros (k & [[<- <-]|[_ Hk]]%lookup_insert_Some & Hp); [by right|]. left. by exists k.
    + rewrite H. split; intros (x & k & Hk & Hp); exists x, k.
      * rewrite lookup_insert_ne; [done|]. intros ->. congruence.
      * apply lookup_insert_Some in Hk as [[<- <-]|[_ Hk]]; done.
    + intros t1 t2 k1 k2 [[<- <-]|[_ H1]]%lookup_insert_Some [[<- <-]|[_ H2]]%lookup_insert_Some P1 P2; try done; by eapply X.
    + intros x s k Hx [[<- <-]|[Nx Hk]]%lookup_insert_Some.
      * apply elem_of_app in Hx as [Hx|Hx]; [destruct Nw; apply list_elem_of_fmap; by exists (t, s)|].
        apply list_elem_of_singleton in Hx as [= ->]. done.
      * apply elem_of_app in Hx as [Hx|Hx%list_elem_of_singleton]; [by eapply C|]. injection Hx as -> ->. done.
    + constructor; cbn.
      * destruct (l_waiters l); cbn in *; [constructor|]. apply Forall_app. split; [done|]. by apply Forall_singleton.
      * intros Hl. apply Forall_app. split; [by apply L|]. by apply Forall_singleton.
      * intros Hf w Hw. destruct (l_waiters l) as [|w0 ws]; cbn in *; [|by apply (F Hf)]. rewrite Hf in E. done.
Qed.

Lemma cancel_ok t k : ts !! t = Some k -> t_phase k = Waiting ->
  lock_ok (cancel_future t l) (<[t := mkTask (t_user k) (t_lock k) Waiting true]> ts).
Proof using ok.
  intros Hk Hp. destruct ok as [D W H X C Q]. constructor.
  - by rewrite cancelled_names.
  - intros x. rewrite cancelled_names, W. split.
    + intros (k' & Hk' & Hp'). destruct (decide (x = t)) as [->|N]; [eexists; by rewrite lookup_insert_eq|].
      exists k'. by rewrite lookup_insert_ne.
    + intros (k' & [[<- <-]|[_ Hk']]%lookup_insert_Some & Hp'); [by exists k|by exists k'].
  - cbn. rewrite H. split; intros (x & k' & Hk' & Hp'); exists x, k'.
    + rewrite lookup_insert_ne; [done|]. intros ->. congruence.
    + apply lookup_insert_Some in Hk' as [[<- <-]|[_ Hk']]; done.
  - intros t1 t2 k1 k2 [[<- <-]|[_ H1]]%lookup_insert_Some [[<- <-]|[_ H2]]%lookup_insert_Some P1 P2; try done; by eapply X.
  - intros x s k' (s' & Hx & ->)%cancelled_elem [[<- <-]|[N Hk']]%lookup_insert_Some.
    + rewrite Nat.eqb_refl. split; [done|]. by destruct s'.
    + assert ((x =? t)%nat = false) as -> by (apply Nat.eqb_neq; congruence). by eapply C.
  - by apply cancelled_queue.
Qed.

(** Deleting a task that does not wait for the lock, or that has left the queue. *)
Lemma gone_ok t l' : (forall x, x ∈ (l_waiters l').*1 <-> x <> t /\ x ∈ (l_waiters l).*1) -> NoDup (l_waiters l').*1 ->
  (forall x s, (x, s) ∈ l_waiters l' -> (x, s) ∈ l_waiters l \/ s = Woken) ->
  (l_locked l' = true <-> exists x k, x <> t /\ ts !! x = Some k /\ t_phase k = Holding) -> queue_ok l' ->
  lock_ok l' (delete t ts).
Proof using ok.
  intros Nm D' E' H' Q'. destruct ok as [D W H X C Q]. constructor; try done.
  - intros x. rewrite Nm, W. split.
    + intros (N & k & Hk & Hp). exists k. by rewrite lookup_delete_ne.
    + intros (k & [N Hk]%lookup_delete_Some & Hp). split; [done|]. by exists k.
  - rewrite H'. split.
    + intros (x & k & N & Hk & Hp). exists x, k. by rewrite lookup_delete_ne.
    + intros (x & k & [N Hk]%lookup_delete_Some & Hp). by exists x, k.
  - intros t1 t2 k1 k2 [_ H1]%lookup_delete_Some [_ H2]%lookup_delete_Some. by apply X.
  - intros x s k Hx [_ Hk]%lookup_delete_Some. apply E' in Hx as [Hx| ->]; [by eapply C|]. done.
Qed.

Lemma leave_ok t k : ts !! t = Some k -> t_phase k = Holding -> lock_ok (release l) (delete t ts).
Proof using ok.
  intros Hk Hp. assert (t ∉ (l_waiters l).*1) as Nw by (intros (k' & Hk' & Hp')%(lk_waiting _ _ ok); congruence).
  unfold release. apply gone_ok.
  - intros x. rewrite wake_names. cbn. split; [|tauto]. intros Hx. split; [|done]. by intros ->.
  - rewrite wake_names. apply (lk_distinct _ _ ok).
  - intros x s Hx. exact (wake_elem _ _ _ Hx).
  - rewrite wake_locked. cbn. split; [done|]. intros (x & k' & N & Hk' & Hp'). by destruct N; eapply (lk_exclusive _ _ ok).
  - apply wake_queue; [|done]. apply (lk_queue _ _ ok).
Qed.

Lemma cancelled_ok t k : ts !! t = Some k -> t_phase k = Waiting -> lock_ok (acquire_cancelled t l) (delete t ts).
Proof using ok.
  intros Hk Hp. unfold acquire_cancelled. pose proof (lk_queue _ _ ok) as [T L F].
  assert (l_locked l = true <-> exists x k, x <> t /\ ts !! x = Some k /\ t_phase k = Holding) as H.
  { rewrite (lk_holding _ _ ok). split; [|naive_solver]. intros (x & k' & Hk' & Hp'). exists x, k'. split; [|done]. intros ->. congruence. }
  destruct (l_locked l) eqn:E.
  - apply gone_ok; try done; [apply remove_names|apply remove_distinct, (lk_distinct _ _ ok)|left; by eapply remove_elem|by cbn; rewrite E|].
    constructor; cbn; [by apply remove_tail|intros _; apply remove_asleep; by apply L|congruence].
  - apply gone_ok.
    + intros x. rewrite wake_names. apply remove_names.
    + rewrite wake_names. apply remove_distinct, (lk_distinct _ _ ok).
    + intros x s [Hx|Hx]%wake_elem; [left; by eapply remove_elem|by right].
    + rewrite wake_locked. cbn. by rewrite E.
    + apply wake_queue; [by apply remove_tail|done].
Qed.

Lemma woken_ok t k : ts !! t = Some k -> t_phase k = Waiting -> (t, Woken) ∈ l_waiters l ->
  lock_ok (acquire_woken t l) (<[t := mkTask (t_user k) (t_lock k) Holding false]> ts).
Proof using ok.
  intros Hk Hp Hw. pose proof (lk_queue _ _ ok) as [T L F].
  assert (l_locked l = false) as Fr.
  { destruct (l_locked l); [|done]. specialize (L eq_refl). rewrite Forall_forall in L. by destruct (L _ Hw). }
  assert (Forall asleep (l_waiters (remove_waiter t l))) as As.
  { destruct l as [lk [|[x s] ws]]; [by constructor|]. cbn in *. apply elem_of_cons in Hw as [[= <- <-]|Hw].
    - rewrite Nat.eqb_refl. cbn. by apply (remove_asleep t (mkLock lk ws)).
    - rewrite Forall_forall in T. by destruct (T _ Hw). }
  pose proof (free_no_holder Fr) as NH. destruct ok as [D W H X C Q]. constructor.
  - by apply remove_distinct.
  - intros x. change (l_waiters (acquire_woken t l)) with (l_waiters (remove_waiter t l)). rewrite remove_names, W. split.
    + intros (N & k' & Hk' & Hp'). exists k'. by rewrite lookup_insert_ne.
    + intros (k' & [[<- <-]|[N Hk']]%lookup_insert_Some & Hp'); [done|]. split; [done|]. by exists k'.
  - cbn. split; [|done]. intros _. exists t. eexists. by rewrite lookup_insert_eq.
  - intros t1 t2 k1 k2 [[<- <-]|[_ H1]]%lookup_insert_Some [[<- <-]|[_ H2]]%lookup_insert_Some P1 P2; try done; exfalso; by eapply NH.
  - intros x s k' Hx%(remove_elem t l (x, s)) [[<- <-]|[N Hk']]%lookup_insert_Some; [|by eapply C].
    cbn. split; [|done]. intros ->.
    by pose proof (waiter_unique _ _ _ _ D Hx Hw).
  - constructor; cbn; [|done|done]. by apply remove_tail.
Qed.

End Tasks.

(** ** The manager *)

(** A step on behalf of one user leaves the others alone. *)
Lemma update_ok m m' user : manager_ok m ->
  (forall u, u <> user -> m_locks m' !! u = m_locks m !! u) ->
  (forall u, u <> user -> tasks_of u m' = tasks_of u m) ->
  (forall u id n, u <> user -> m_locks m !! u = Some (id, n) -> m_heap m' !! id = m_heap m !! id) ->
  (m_next m <= m_next m')%nat ->
  (forall id n, m_locks m' !! user = Some (id, n) -> (id < m_next m')%nat
     /\ forall u n', u <> user -> m_locks m !! u = Some (id, n') -> False) ->
  user_ok m' user -> manager_ok m'.
Proof.
  intros [U F O] Hl Ht Hh Hn Hi Hu. constructor.
  - intros u. destruct (decide (u = user)) as [->|N]; [done|]. specialize (U u). unfold user_ok in *. rewrite Hl, Ht by done.
    destruct (m_locks m !! u) as [[id n]|] eqn:E; [|done]. by rewrite (Hh u id n N E).
  - intros u id n. destruct (decide (u = user)) as [->|N]; [intros H; by apply (Hi _ _ H)|].
    rewrite Hl by done. intros H%F. lia.
  - intros u1 u2 id n1 n2. destruct (decide (u1 = user)) as [->|N1], (decide (u2 = user)) as [->|N2].
    + done.
    + rewrite (Hl u2) by done. intros H1 H2. destruct (proj2 (Hi _ _ H1) _ _ N2 H2).
    + rewrite (Hl u1) by done. intros H1 H2. destruct (proj2 (Hi _ _ H2) _ _ N1 H1).
    + rewrite !Hl by done. apply O.
Qed.

Lemma tasks_insert_own user t k (ts : gmap nat task) : t_user k = user ->
  filter (fun kt : nat * task => t_user kt.2 = user) (<[t := k]> ts) = <[t := k]> (filter (fun kt => t_user kt.2 = user) ts).
Proof. intros H. by rewrite map_filter_insert_True. Qed.

Lemma tasks_insert_other user t k (ts : gmap nat task) : t_user k <> user -> (forall k', ts !! t = Some k' -> t_user k' <> user) ->
  filter (fun kt : nat * task => t_user kt.2 = user) (<[t := k]> ts) = filter (fun kt => t_user kt.2 = user) ts.
Proof.
  intros N H. rewrite map_filter_insert_False by done. rewrite map_filter_delete. apply delete_id.
  apply map_lookup_filter_None. destruct (ts !! t) as [k'|] eqn:E; [right|by left]. intros x [= <-]. by apply H.
Qed.

Lemma tasks_delete user t (ts : gmap nat task) :
  filter (fun kt : nat * task => t_user kt.2 = user) (delete t ts) = delete t (filter (fun kt => t_user kt.2 = user) ts).
Proof. apply map_filter_delete. Qed.

Lemma tasks_delete_other user t k (ts : gmap nat task) : ts !! t = Some k -> t_user k <> user ->
  filter (fun kt : nat * task => t_user kt.2 = user) (delete t ts) = filter (fun kt => t_user kt.2 = user) ts.
Proof.
  intros Hk N. rewrite tasks_delete. apply delete_id. apply map_lookup_filter_None. right. intros x. rewrite Hk. by intros [= <-].
Qed.

(** The entry of the user of a task. *)
Lemma task_entry m t k : manager_ok m -> m_tasks m !! t = Some k ->
  tasks_of (t_user k) m !! t = Some k
  /\ exists n l, m_locks m !! t_user k = Some (t_lock k, n) /\ m_heap m !! t_lock k = Some l /\ 0 < n
     /\ n = Z.of_nat (size (tasks_of (t_user k) m)) /\ lock_ok l (tasks_of (t_user k) m)
     /\ (forall t' k', tasks_of (t_user k) m !! t' = Some k' -> t_lock k' = t_lock k).
Proof.
  intros [U _ _] Hk. assert (tasks_of (t_user k) m !! t = Some k) as Ht by (by apply map_lookup_filter_Some). split; [done|].
  specialize (U (t_user k)). unfold user_ok in U. destruct (m_locks m !! t_user k) as [[id n]|].
  - destruct U as (l & Hl & Hn & Hs & Hid & Ok). pose proof (Hid _ _ Ht) as <-. by exists n, l.
  - rewrite U in Ht. by rewrite lookup_empty in Ht.
Qed.

(** A step that changes the task and its lock, and keeps the entry. *)
Lemma keep_ok m t k k' f : manager_ok m -> m_tasks m !! t = Some k -> t_user k' = t_user k -> t_lock k' = t_lock k ->
  (forall l, m_heap m !! t_lock k = Some l -> lock_ok l (tasks_of (t_user k) m) ->
     lock_ok (f l) (<[t := k']> (tasks_of (t_user k) m))) ->
  manager_ok (with_task t k' (on_lock f (t_lock k) m)).
Proof.
  intros Ok Hk Hu Hl Hf. destruct (task_entry m t k Ok Hk) as (Ht & n & l & He & Hh & Hn & Hs & Lk & Hid).
  apply (update_ok m _ (t_user k)); cbn; try done.
  - intros u N. unfold tasks_of. cbn. apply tasks_insert_other; [congruence|]. intros ? ?. congruence.
  - intros u id n' N Hu'. rewrite lookup_alter_ne; [done|]. intros <-. destruct N. by eapply (mg_own m Ok).
  - intros id n' Hid'. split; [by eapply (mg_fresh m Ok)|]. intros u n2 N Hu'. destruct N. by eapply (mg_own m Ok).
  - unfold user_ok. cbn. rewrite He. exists (f l). rewrite lookup_alter_eq, Hh.
    assert (tasks_of (t_user k) (with_task t k' (on_lock f (t_lock k) m)) = <[t := k']> (tasks_of (t_user k) m)) as ->
      by (by apply tasks_insert_own).
    split; [done|]. split; [done|]. split.
    { rewrite Hs. f_equal. symmetry. by apply map_size_insert_Some. }
    split; [|by apply Hf]. intros x y [[<- <-]|[_ Hy]]%lookup_insert_Some; [done|by eapply Hid].
Qed.

(** A step by which the task leaves. *)
Lemma drop_ok m t k f : manager_ok m -> m_tasks m !! t = Some k ->
  (forall l, lock_ok l (tasks_of (t_user k) m) -> lock_ok (f l) (delete t (tasks_of (t_user k) m))) ->
  manager_ok (finally t (t_user k) (on_lock f (t_lock k) m)).
Proof.
  intros Ok Hk Hf. destruct (task_entry m t k Ok Hk) as (Ht & n & l & He & Hh & Hn & Hs & Lk & Hid).
  assert (tasks_of (t_user k) (finally t (t_user k) (on_lock f (t_lock k) m)) = delete t (tasks_of (t_user k) m)) as Td by apply tasks_delete.
  assert (size (delete t (tasks_of (t_user k) m)) = Nat.pred (size (tasks_of (t_user k) m))) as Sz by (by apply map_size_delete_Some).
  assert (forall u, u <> t_user k -> decrement (t_user k) (m_locks m) !! u = m_locks m !! u) as Du.
  { intros u N. unfold decrement. rewrite He. destruct (_ <=? _); [by rewrite lookup_delete_ne|by rewrite lookup_insert_ne]. }
  apply (update_ok m _ (t_user k)); cbn; try done.
  - intros u N. unfold tasks_of. cbn. by eapply tasks_delete_other.
  - intros u id n' N Hu'. rewrite lookup_alter_ne; [done|]. intros <-. destruct N. by eapply (mg_own m Ok).
  - intros id n'. unfold decrement. rewrite He. destruct (_ <=? _); [by rewrite lookup_delete_eq|]. rewrite lookup_insert_eq.
    intros [= <- <-]. split; [by eapply (mg_fresh m Ok)|]. intros u n2 N Hu'. destruct N. by eapply (mg_own m Ok).
  - unfold user_ok. rewrite Td. cbn. unfold decrement. rewrite He. destruct (Z.leb_spec (n - 1) 0) as [L|L].
    + rewrite lookup_delete_eq. apply map_size_empty_inv. lia.
    + rewrite lookup_insert_eq. exists (f l). rewrite lookup_alter_eq, Hh. split_and!; [done|lia|lia| |by apply Hf].
      intros x y [_ Hy]%lookup_delete_Some. by eapply Hid.
Qed.

Lemma future_elem t id m f : future_of t id m = Some f -> exists l, m_heap m !! id = Some l /\ (t, f) ∈ l_waiters l.
Proof.
  unfold future_of. intros (l & Hl & Hf)%bind_Some. exists l. split; [done|].
  apply fmap_Some in Hf as ([x s] & E & ->). apply List.find_some in E as [E Hx]. cbn in Hx.
  apply Nat.eqb_eq in Hx as ->. by apply list_elem_of_In.
Qed.

Lemma empty_lock_ok : lock_ok (mkLock false []) ∅.
Proof.
  constructor; cbn.
  - constructor.
  - intros t. rewrite elem_of_nil. split; [done|]. intros (k & H & _). by rewrite lookup_empty in H.
  - split; [done|]. intros (t & k & H & _). by rewrite lookup_empty in H.
  - intros t1 t2 k1 k2 H. by rewrite lookup_empty in H.
  - by intros t s k ?%elem_of_nil.
  - by constructor.
Qed.

(** The entry a new task finds or makes. *)
Lemma entry_ok m user : manager_ok m -> exists id n heap next l,
  match m_locks m !! user with
  | Some (id, n) => (id, n, m_heap m, m_next m)
  | None => (m_next m, 0, <[m_next m := mkLock false []]> (m_heap m), S (m_next m))
  end = (id, n, heap, next)
  /\ heap !! id = Some l /\ n = Z.of_nat (size (tasks_of user m)) /\ lock_ok l (tasks_of user m)
  /\ (forall t k, tasks_of user m !! t = Some k -> t_lock k = id) /\ (id < next)%nat /\ (m_next m <= next)%nat
  /\ (forall u id' n', u <> user -> m_locks m !! u = Some (id', n') -> id' <> id /\ heap !! id' = m_heap m !! id').
Proof.
  intros [U F O]. specialize (U user) as Uu. unfold user_ok in Uu. destruct (m_locks m !! user) as [[id n]|] eqn:E.
  - destruct Uu as (l & Hl & Hn & Hs & Hid & Lk). exists id, n, (m_heap m), (m_next m), l. split_and!; try done; [by eapply F|].
    intros u id' n' N H. split; [|done]. intros ->. destruct N. by eapply O.
  - exists (m_next m), 0, (<[m_next m := mkLock false []]> (m_heap m)), (S (m_next m)), (mkLock false []). rewrite Uu.
    split_and!; try done; [by rewrite lookup_insert_eq|by apply empty_lock_ok|lia|lia|].
    intros u id' n' N H%F. split; [lia|]. rewrite lookup_insert_ne; [done|lia].
Qed.

Lemma enter_manager_ok m t user : manager_ok m -> m_tasks m !! t = None -> manager_ok (enter t user m).
Proof.
  intros Ok Hn. destruct (entry_ok m user Ok) as (id & n & heap & next & l & E & Hl & Hs & Lk & Hid & Hlt & Hle & Ho).
  assert (tasks_of user m !! t = None) as Ht by (apply map_lookup_filter_None; by left).
  unfold enter. rewrite E, Hl. change (acquire t (default _ (Some l))) with (acquire t l). destruct (acquire t l) as [l' got] eqn:A.
  pose proof (enter_ok l _ Lk t user id got l' Ht A) as Lk'. set (k := mkTask user id _ false) in *.
  apply (update_ok m _ user); cbn [m_locks m_heap m_next m_tasks]; try done.
  - intros u N. by rewrite lookup_insert_ne.
  - intros u N. unfold tasks_of. cbn. apply tasks_insert_other; [done|]. intros ? ?. congruence.
  - intros u id' n' N H. destruct (Ho u id' n' N H) as [Ni <-]. by rewrite lookup_insert_ne.
  - intros id' n'. rewrite lookup_insert_eq. intros [= <- <-]. split; [done|]. intros u n2 N H. by destruct (Ho _ _ _ N H).
  - unfold user_ok. cbn [m_locks m_heap]. rewrite lookup_insert_eq. exists l'. rewrite lookup_insert_eq.
    match goal with |- context [tasks_of user ?x] => assert (tasks_of user x = <[t := k]> (tasks_of user m)) as ->
      by (by apply tasks_insert_own) end.
    rewrite map_size_insert_None by done. split_and!; [done|lia|lia| |done].
    intros x y [[<- <-]|[_ Hy]]%lookup_insert_Some; [done|by eapply Hid].
Qed.

Lemma step_ok m m' : step m m' -> manager_ok m -> manager_ok m'.
Proof.
  intros [m1 t user N|m1 t k Hk Hp|m1 t k f Hk Hp Hf Nf|m1 t k Hk Hp] Ok.
  - by apply enter_manager_ok.
  - apply keep_ok; try done. intros l _ Lk. apply cancel_ok; try done. by apply task_entry.
  - destruct (task_entry m1 t k Ok Hk) as (Ht & n & l & He & Hh & Hn & Hs & Lk & Hid). unfold resume.
    apply future_elem in Hf as (l' & Hl' & Hin). rewrite Hh in Hl'. injection Hl' as <-.
    destruct (t_must_cancel k) eqn:Mc.
    + apply drop_ok; try done. intros l' Lk'. by eapply cancelled_ok.
    + assert (f = Woken) as ->. { destruct f; [done|done|]. by rewrite (proj1 (lk_cancelled _ _ Lk _ _ _ Hin Ht) eq_refl) in Mc. }
      apply keep_ok; try done. intros l' Hl' Lk'. assert (l' = l) as -> by congruence. by apply woken_ok.
  - apply drop_ok; try done. intros l Lk. eapply leave_ok; try done. by apply task_entry.
Qed.

Lemma init_ok : manager_ok UserLockManager_init.
Proof.
  constructor.
  - intros user. unfold user_ok. cbn. rewrite lookup_empty. unfold tasks_of. cbn. apply map_filter_empty.
  - intros user id n H. cbn in H. by rewrite lookup_empty in H.
  - intros u1 u2 id n1 n2 H. cbn in H. by rewrite lookup_empty in H.
Qed.

Lemma reachable_ok m : reachable m -> manager_ok m.
Proof. intros R. assert (manager_ok UserLockManager_init) as O by apply init_ok. induction R; eauto using step_ok. Qed.

(** ** Properties *)

(** C26. Mutual exclusion and the reference counts.  In every state the tasks can
    reach, whatever they are cancelled by, at most one task of a user is inside
    the body; the count of a user is positive and the number of its tasks, and a
    user without tasks has no entry; so when all tasks are gone the dictionary is
    empty. *)
Theorem user_lock_exclusive m : reachable m ->
  (forall t1 t2 k1 k2, m_tasks m !! t1 = Some k1 -> m_tasks m !! t2 = Some k2 -> t_user k1 = t_user k2 ->
     t_phase k1 = Holding -> t_phase k2 = Holding -> t1 = t2)
  /\ (forall user, match m_locks m !! user with
       | Some (_, n) => 0 < n /\ n = Z.of_nat (size (tasks_of user m))
       | None => tasks_of user m = ∅
       end)
  /\ (m_tasks m = ∅ -> m_locks m = ∅).
Proof.
  intros Ok%reachable_ok.
  assert (forall user, match m_locks m !! user with
       | Some (_, n) => 0 < n /\ n = Z.of_nat (size (tasks_of user m))
       | None => tasks_of user m = ∅
       end) as Rc.
  { intros user. pose proof (mg_users m Ok user) as U. unfold user_ok in U. destruct (m_locks m !! user) as [[id n]|]; [|done].
    by destruct U as (l & _ & ? & ? & _). }
  split_and!; [|done|].
  - intros t1 t2 k1 k2 H1 H2 Hu P1 P2. destruct (task_entry m t1 k1 Ok H1) as (T1 & n & l & _ & _ & _ & _ & Lk & _).
    destruct (task_entry m t2 k2 Ok H2) as (T2 & _). rewrite <- Hu in T2. by eapply (lk_exclusive _ _ Lk).
  - intros E. apply map_empty. intros user. specialize (Rc user). destruct (m_locks m !! user) as [[id n]|]; [|done].
    destruct Rc as [Hn Hs]. unfold tasks_of in Hs. rewrite E, map_filter_empty, map_size_empty in Hs. lia.
Qed.

(** No lost wake-up.  In every state the tasks can reach, if a user has a task
    at all then one of them is inside the body or its future is done, so that it
    runs again without any other task's help: waiting tasks are never all asleep
    on a lock that nobody holds. *)
Theorem user_lock_progress m t k : reachable m -> m_tasks m !! t = Some k ->
  exists t' k', m_tasks m !! t' = Some k' /\ t_user k' = t_user k
    /\ (t_phase k' = Holding \/ exists f, t_phase k' = Waiting /\ future_of t' (t_lock k') m = Some f /\ f <> Pending).
Proof.
  intros Ok%reachable_ok Hk. destruct (task_entry m t k Ok Hk) as (Ht & n & l & _ & Hh & _ & _ & Lk & Hid).
  destruct (l_locked l) eqn:El.
  - apply (lk_holding _ _ Lk) in El as (t' & k' & [Hk' Hu]%map_lookup_filter_Some & Hp). exists t', k'. auto.
  - destruct (l_waiters l) as [|[t' f] ws] eqn:Ew.
    + exfalso. destruct (t_phase k) eqn:Hp; [|by apply (free_no_holder _ _ Lk El _ _ Ht)].
      assert (t ∈ (l_waiters l).*1) as Hin by (apply (lk_waiting _ _ Lk); by exists k). rewrite Ew in Hin. by apply elem_of_nil in Hin.
    + assert (t' ∈ (l_waiters l).*1) as Hin by (rewrite Ew; by left).
      apply (lk_waiting _ _ Lk) in Hin as (k' & Hk' & Hp). pose proof Hk' as [Hk2 Hu]%map_lookup_filter_Some.
      exists t', k'. split_and!; try done. right. exists f. split; [done|]. split.
      * unfold future_of. rewrite (Hid _ _ Hk'), Hh. cbn [mbind option_bind]. rewrite Ew. cbn [List.find fst]. by rewrite Nat.eqb_refl.
      * by apply (qu_free _ (lk_queue _ _ Lk) El (t', f)); rewrite Ew.
Qed.

(** ** Samples *)

Definition ana : pystr := u "ana".

(** One task in the critical section, one waiting for it. *)
Definition two_tasks : manager := enter 1 ana (enter 0 ana UserLockManager_init).

(** The first one has left; the second one has been woken. *)
Definition handed_over : manager := leave 0 (mkTask ana 0 Holding false) two_tasks.

Lemma two_tasks_reachable : reachable two_tasks.
Proof. eapply rtc_l; [by apply (step_enter _ 0 ana)|]. eapply rtc_l; [by apply (step_enter _ 1 ana)|]. apply rtc_refl. Qed.

Lemma handed_over_reachable : reachable handed_over.
Proof. eapply rtc_r; [apply two_tasks_reachable|]. by apply (step_leave two_tasks 0 (mkTask ana 0 Holding false)). Qed.

Lemma user_lock_exclusive_witness : m_locks two_tasks !! ana = Some (0%nat, 2) /\ size (tasks_of ana two_tasks) = 2%nat.
Proof.
  destruct (user_lock_exclusive two_tasks two_tasks_reachable) as (_ & R & _). specialize (R ana).
  assert (m_locks two_tasks !! ana = Some (0%nat, 2)) as E by (vm_compute; reflexivity). rewrite E in R. split; [exact E|lia].
Defined.

Lemma user_lock_progress_witness : exists t k, m_tasks handed_over !! t = Some k /\ t_phase k = Waiting
  /\ future_of t (t_lock k) handed_over = Some Woken.
Proof.
  destruct (user_lock_progress handed_over 1 (mkTask ana 0 Waiting false) handed_over_reachable ltac:(vm_compute; reflexivity))
    as (t & k & Hk & _ & H).
  assert (t = 1%nat /\ k = mkTask ana 0 Waiting false) as [-> ->].
  { assert (m_tasks handed_over = {[ 1%nat := mkTask ana 0 Waiting false ]}) as E by (vm_compute; reflexivity).
    rewrite E in Hk. apply lookup_singleton_Some in Hk as [<- <-]. split; reflexivity. }
  exists 1%nat, (mkTask ana 0 Waiting false). split; [exact Hk|]. split; [reflexivity|].
  destruct H as [H|(f & _ & Hf & Nf)]; [discriminate H|]. rewrite Hf. vm_compute in Hf. congruence.
Defined.
