(* ===== verification/AccountLedger.v ===== *)
(** * The account deletion ledger (supabase/migrations/20260810120000_account_deletion_ledger.sql)

    The table of deletion jobs with the rows of the users it purges, and the eight
    functions on it.  A call is one transaction; an exception inside it rolls
    everything back and leaves as one constant error ([None]).  The rows other
    transactions hold locked, which the claim skips, are an argument, as are the
    readings of the clock and the generated identifiers.  Timestamps are
    microseconds. *)

From S2P Require Import Prelude PyFloat PyValue StorageContracts EmotionalModels TurnExecution AtomicTurnCommit TurnDatabase.

Local Open Scope Z_scope.

(** ** Tables *)

Inductive job_status : Type := jb_pending | jb_processing | jb_completed | jb_failed.

#[export] Instance job_status_eq_dec : EqDecision job_status.
Proof. solve_decision. Defined.

Definition status_text (s : job_status) : pystr :=
  match s with
  | jb_pending => u "pending" | jb_processing => u "processing"
  | jb_completed => u "completed" | jb_failed => u "failed"
  end.

Record job_row : Type := mkJob {
  j_id : pystr;
  j_operation : pystr;
  j_user : option pystr;
  j_ref : pystr;
  j_fingerprint : pystr;
  j_status : job_status;
  j_attempts : Z;
  j_owner : option pystr;
  j_expires : option Z;
  j_next : option Z;
  j_purged : option Z;
  j_error : option pystr;
  j_requested : Z;
  j_updated : Z;
  j_completed : option Z }.

(** The tables a purge empties, in its order. *)
Inductive user_table : Type :=
| outbox_events_t | turn_requests_t | archival_extractions_t | memories_t | chat_logs_t
| admission_reservations_t | privacy_operations_t | profiles_t.

#[export] Instance user_table_eq_dec : EqDecision user_table.
Proof. solve_decision. Defined.

Definition table_text (t : user_table) : pystr :=
  match t with
  | outbox_events_t => u "outbox_events" | turn_requests_t => u "turn_requests"
  | archival_extractions_t => u "archival_extractions" | memories_t => u "memories" | chat_logs_t => u "chat_logs"
  | admission_reservations_t => u "admission_reservations" | privacy_operations_t => u "privacy_operations"
  | profiles_t => u "profiles"
  end.

Definition purge_tables : list user_table :=
  [outbox_events_t; turn_requests_t; archival_extractions_t; memories_t; chat_logs_t; admission_reservations_t;
   privacy_operations_t; profiles_t].

(** A row of a user is its table and its [user_id]. *)
Record account_db : Type := mkAccountDb {
  a_jobs : list job_row;
  a_rows : list (user_table * pystr) }.

Definition find_job (id : pystr) (jobs : list job_row) : option job_row := List.find (fun j => str_eqb (j_id j) id) jobs.

(** [UPDATE ... WHERE job_id = id]. *)
Definition update_job (id : pystr) (f : job_row -> job_row) (jobs : list job_row) : list job_row :=
  map (fun j => if str_eqb (j_id j) id then f j else j) jobs.

Definition with_jobs (jobs : list job_row) (db : account_db) : account_db := mkAccountDb jobs (a_rows db).

(** ** Answers *)

Definition account_error (code message : pystr) : pyval :=
  PDict [(KStr (u "error"), PDict [(KStr (u "code"), PStr code); (KStr (u "message"), PStr message)])].

Definition account_invalid (message : pystr) : pyval := account_error (u "validation_failed") message.

(** The clock and the identifiers of a call, and the rows that are locked. *)
Record ledger_env : Type := mkLedgerEnv {
  le_now : Z;                       (** [v_now] *)
  le_check : Z;                     (** the clock as the ownership is checked *)
  le_uuid : pystr;
  le_locked : pystr -> bool }.

Definition MAX_ATTEMPTS : Z := 100.
Definition second : Z := 1000000.
Definition is_worker_id (s : pystr) : bool := is_lease_owner s.

Section Ledger.
(** The text of a timestamp in a JSON document. *)
Context (timestamp_json : Z -> pystr) (env : ledger_env).

Definition opt_time (t : option Z) : pyval := match t with Some z => PStr (timestamp_json z) | None => PNone end.

(** ** account_deletion_request *)

Definition account_deletion_validation_error (user ref fingerprint : pystr) : option pyval :=
  if negb ((1 <=? length user)%nat && (length user <=? 128)%nat) || bool_decide (sql_trim user = [])
  then Some (account_invalid (u "authenticated_user_id is invalid"))
  else if negb (is_hash ref) then Some (account_invalid (u "user_ref_hmac_sha256 must be 64 lowercase hex characters"))
  else if negb (is_hash fingerprint)
  then Some (account_invalid (u "intent_fingerprint_sha256 must be 64 lowercase hex characters"))
  else None.

Definition new_job (user ref operation fingerprint : pystr) : job_row :=
  mkJob (le_uuid env) operation (Some user) ref fingerprint jb_pending 0 None None (Some (le_now env)) None None
    (le_now env) (le_now env) None.

Definition account_deletion_request (user ref operation fingerprint : pystr) (db : account_db) : option pyval * account_db :=
  match account_deletion_validation_error user ref fingerprint with
  | Some e => (Some e, db)
  | None =>
      match List.find (fun j => str_eqb (j_ref j) ref && str_eqb (j_operation j) operation) (a_jobs db) with
      | Some j =>
          if str_eqb (j_fingerprint j) fingerprint then
            (Some (PDict [(KStr (u "status"), PStr (u "replay")); (KStr (u "job_id"), PStr (j_id j));
                          (KStr (u "job_status"), PStr (status_text (j_status j)));
                          (KStr (u "db_purged_at"), opt_time (j_purged j)); (KStr (u "completed_at"), opt_time (j_completed j))]), db)
          else (Some (account_error (u "operation_conflict") (u "operation_id already used with a different intent")), db)
      | None =>
          match find_job (le_uuid env) (a_jobs db) with
          | Some _ => (None, db)
          | None =>
              (Some (PDict [(KStr (u "status"), PStr (u "created")); (KStr (u "job_id"), PStr (le_uuid env));
                            (KStr (u "job_status"), PStr (u "pending"))]),
               with_jobs (a_jobs db ++ [new_job user ref operation fingerprint]) db)
          end
      end
  end.

(** ** account_deletion_has_tombstone *)

(** The job requested last; [ORDER BY requested_at DESC LIMIT 1]. *)
Definition latest (jobs : list job_row) : option job_row :=
  head (stable_sort (fun a b => j_requested b <? j_requested a) jobs).

Definition account_deletion_has_tombstone (ref : pystr) (db : account_db) : option pyval :=
  if negb (is_hash ref) then Some (account_invalid (u "user_ref_hmac_sha256 must be 64 lowercase hex characters")) else
  match latest (List.filter (fun j => str_eqb (j_ref j) ref) (a_jobs db)) with
  | None => Some (PDict [(KStr (u "exists"), PBool false); (KStr (u "status"), PNone)])
  | Some j => Some (PDict [(KStr (u "exists"), PBool true); (KStr (u "status"), PStr (status_text (j_status j)))])
  end.

(** ** account_deletion_acquire_lease *)

Definition eligible (j : job_row) : bool :=
  match j_status j with
  | jb_pending | jb_failed =>
      match j_next j with Some t => t <=? le_now env | None => false end && (j_attempts j <? MAX_ATTEMPTS)
  | jb_processing => match j_expires j with Some t => t <? le_now env | None => false end
  | jb_completed => false
  end.

(** [ORDER BY next_attempt_at], NULL last. *)
Definition next_before (a b : job_row) : bool :=
  match j_next a, j_next b with
  | Some x, Some y => x <? y
  | Some _, None => true
  | None, _ => false
  end.

Definition claimable (jobs : list job_row) : option job_row :=
  head (stable_sort next_before (List.filter (fun j => eligible j && negb (le_locked env (j_id j))) jobs)).

Definition exhausted (j : job_row) : job_row :=
  mkJob (j_id j) (j_operation j) (j_user j) (j_ref j) (j_fingerprint j) jb_failed (j_attempts j) None None None (j_purged j)
    (Some (u "attempts_exhausted")) (j_requested j) (le_now env) (j_completed j).

Definition claimed (worker : pystr) (seconds : Z) (j : job_row) : job_row :=
  mkJob (j_id j) (j_operation j) (j_user j) (j_ref j) (j_fingerprint j) jb_processing (j_attempts j + 1) (Some worker)
    (Some (le_now env + seconds * second)) (j_next j) (j_purged j) None (j_requested j) (le_now env) (j_completed j).

Definition claim_answer (worker : pystr) (j : job_row) : pyval :=
  PDict [(KStr (u "found"), PBool true); (KStr (u "job_id"), PStr (j_id j));
         (KStr (u "user_id"), match j_user j with Some s => PStr s | None => PNone end);
         (KStr (u "user_ref_hmac_sha256"), PStr (j_ref j)); (KStr (u "operation_id"), PStr (j_operation j));
         (KStr (u "status"), PStr (status_text (j_status j))); (KStr (u "lease_owner"), PStr worker);
         (KStr (u "lease_expires_at"), opt_time (j_expires j)); (KStr (u "attempts"), PInt (j_attempts j));
         (KStr (u "db_purged_at"), opt_time (j_purged j)); (KStr (u "intent_fingerprint_sha256"), PStr (j_fingerprint j))].

(** The LOOP; each turn that continues takes one expired job at the ceiling out
    of the queue.  [None] is an exhausted fuel. *)
Fixpoint acquire_loop (fuel : nat) (worker : pystr) (seconds : Z) (jobs : list job_row) : option (pyval * list job_row) :=
  match fuel with
  | O => None
  | S fuel' =>
      match claimable jobs with
      | None => Some (PDict [(KStr (u "found"), PBool false)], jobs)
      | Some j =>
          if bool_decide (j_status j = jb_processing) && (MAX_ATTEMPTS <=? j_attempts j)
          then acquire_loop fuel' worker seconds (update_job (j_id j) exhausted jobs)
          else Some (claim_answer worker (claimed worker seconds j), update_job (j_id j) (claimed worker seconds) jobs)
      end
  end.

Definition account_deletion_acquire_lease (worker : pystr) (seconds max_batch : Z) (db : account_db) : option pyval * account_db :=
  if negb (is_worker_id worker) then (Some (account_invalid (u "worker_id is invalid")), db)
  else if negb ((1 <=? seconds) && (seconds <=? 3600))
  then (Some (account_invalid (u "lease_seconds must be between 1 and 3600")), db)
  else if negb ((1 <=? max_batch) && (max_batch <=? 1000))
  then (Some (account_invalid (u "max_batch must be between 1 and 1000")), db)
  else match acquire_loop (S (length (a_jobs db))) worker seconds (a_jobs db) with
       | Some (answer, jobs) => (Some answer, with_jobs jobs db)
       | None => (None, db)
       end.

(** ** Ownership *)

(** [None] is an exception. *)
Definition account_deletion_assert_owner (id worker : pystr) (db : account_db) : option job_row :=
  if negb (is_worker_id worker) then None else
  j ← find_job id (a_jobs db);
  if bool_decide (j_status j = jb_processing)
     && match j_owner j with Some o => str_eqb o worker | None => false end
     && match j_expires j with Some t => le_check env <? t | None => false end
  then Some j else None.

(** ** account_deletion_purge *)

Definition row_count (t : user_table) (user : pystr) (rows : list (user_table * pystr)) : Z :=
  Z.of_nat (length (List.filter (fun r => bool_decide (r.1 = t) && str_eqb r.2 user) rows)).

Definition counts (f : user_table -> Z) : pyval := PDict (map (fun t => (KStr (table_text t), PInt (f t))) purge_tables).

Definition purge_answer (status id : pystr) (at_ : Z) (f : user_table -> Z) : pyval :=
  PDict [(KStr (u "status"), PStr status); (KStr (u "job_id"), PStr id);
         (KStr (u "db_purged_at"), PStr (timestamp_json at_)); (KStr (u "counts"), counts f)].

Definition purged (j : job_row) : job_row :=
  mkJob (j_id j) (j_operation j) (j_user j) (j_ref j) (j_fingerprint j) (j_status j) (j_attempts j) (j_owner j) (j_expires j)
    (j_next j) (Some (le_now env)) (j_error j) (j_requested j) (le_now env) (j_completed j).

(** A job without a user matches no row: [user_id = NULL] holds of none. *)
Definition of_user (user : option pystr) (r : user_table * pystr) : bool :=
  match user with Some s => str_eqb r.2 s | None => false end.

Definition account_deletion_purge (id worker fingerprint : pystr) (db : account_db) : option pyval * account_db :=
  if negb (is_hash fingerprint) then (Some (account_invalid (u "purge parameters are invalid")), db) else
  match account_deletion_assert_owner id worker db with
  | None => (None, db)
  | Some j =>
      if negb (str_eqb (j_fingerprint j) fingerprint)
      then (Some (account_error (u "operation_conflict") (u "intent fingerprint does not match the job")), db)
      else match j_purged j with
           | Some at_ => (Some (purge_answer (u "already_purged") (j_id j) at_ (fun _ => 0)), db)
           | None =>
               (Some (purge_answer (u "purged") (j_id j) (le_now env)
                        (fun t => match j_user j with Some s => row_count t s (a_rows db) | None => 0 end)),
                mkAccountDb (update_job (j_id j) purged (a_jobs db)) (List.filter (fun r => negb (of_user (j_user j) r)) (a_rows db)))
           end
  end.

(** ** account_deletion_record_failure and account_deletion_record_retry *)

Definition backoff_until (j : job_row) : Z := le_now env + Z.min 3600 (30 * j_attempts j) * second.

Definition failed_with (code : pystr) (next : option Z) (j : job_row) : job_row :=
  mkJob (j_id j) (j_operation j) (j_user j) (j_ref j) (j_fingerprint j) jb_failed (j_attempts j) None None next (j_purged j)
    (Some code) (j_requested j) (le_now env) (j_completed j).

Definition deferred (next : Z) (j : job_row) : job_row :=
  mkJob (j_id j) (j_operation j) (j_user j) (j_ref j) (j_fingerprint j) jb_pending (j_attempts j) None None (Some next) (j_purged j)
    None (j_requested j) (le_now env) (j_completed j).

Definition account_deletion_record_failure (id worker code : pystr) (db : account_db) : option pyval * account_db :=
  if negb (is_event_type code) then (Some (account_invalid (u "error_code is invalid")), db) else
  match account_deletion_assert_owner id worker db with
  | None => (None, db)
  | Some j =>
      let next := if MAX_ATTEMPTS <=? j_attempts j then None else Some (backoff_until j) in
      (Some (PDict [(KStr (u "status"), PStr (u "failed")); (KStr (u "job_id"), PStr (j_id j));
                    (KStr (u "error_code"), PStr code); (KStr (u "next_attempt_at"), opt_time next)]),
       with_jobs (update_job (j_id j) (failed_with code next) (a_jobs db)) db)
  end.

Definition account_deletion_record_retry (id worker : pystr) (db : account_db) : option pyval * account_db :=
  match account_deletion_assert_owner id worker db with
  | None => (None, db)
  | Some j =>
      if MAX_ATTEMPTS <=? j_attempts j then
        (Some (PDict [(KStr (u "status"), PStr (u "failed")); (KStr (u "job_id"), PStr (j_id j));
                      (KStr (u "error_code"), PStr (u "attempts_exhausted")); (KStr (u "next_attempt_at"), PNone)]),
         with_jobs (update_job (j_id j) exhausted (a_jobs db)) db)
      else
        (Some (PDict [(KStr (u "status"), PStr (u "retry_scheduled")); (KStr (u "job_id"), PStr (j_id j));
                      (KStr (u "next_attempt_at"), PStr (timestamp_json (backoff_until j)))]),
         with_jobs (update_job (j_id j) (deferred (backoff_until j)) (a_jobs db)) db)
  end.

(** ** account_deletion_finalize *)

Definition finalized (j : job_row) : job_row :=
  mkJob (j_id j) (j_operation j) None (j_ref j) (j_fingerprint j) jb_completed (j_attempts j) None None (j_next j) (j_purged j)
    (j_error j) (j_requested j) (le_now env) (Some (le_now env)).

Definition account_deletion_finalize (id worker : pystr) (db : account_db) : option pyval * account_db :=
  match account_deletion_assert_owner id worker db with
  | None => (None, db)
  | Some j =>
      match j_purged j with
      | None => (Some (account_error (u "state_conflict") (u "cannot finalize before the database purge is committed")), db)
      | Some at_ =>
          (Some (PDict [(KStr (u "status"), PStr (u "completed")); (KStr (u "job_id"), PStr (j_id j));
                        (KStr (u "completed_at"), PStr (timestamp_json (le_now env)));
                        (KStr (u "db_purged_at"), PStr (timestamp_json at_))]),
           with_jobs (update_job (j_id j) finalized (a_jobs db)) db)
      end
  end.

(** ** account_deletion_purge_completed *)

Definition completed_before (cutoff : Z) (j : job_row) : bool :=
  bool_decide (j_status j = jb_completed) && match j_completed j with Some t => t <? cutoff | None => false end.

Definition completed_order (a b : job_row) : bool := default 0 (j_completed a) <? default 0 (j_completed b).

Definition account_deletion_purge_completed (cutoff batch : Z) (db : account_db) : option pyval * account_db :=
  if negb ((1 <=? batch) && (batch <=? 1000)) then (None, db) else
  let cutoff := Z.min cutoff (le_now env - 30 * 86400 * second) in
  let gone := take (Z.to_nat batch) (stable_sort completed_order (List.filter (completed_before cutoff) (a_jobs db))) in
  let left := List.filter (fun j => negb (str_in (j_id j) (map j_id gone))) (a_jobs db) in
  (Some (PInt (Z.of_nat (length (a_jobs db)) - Z.of_nat (length left))), with_jobs left db).

End Ledger.
