(* ===== verification/AccountDeletion.v ===== *)
(** * Account deletion (backend/account_deletion.py, backend/account_deletion_worker.py)

    The references and fingerprints of a deletion, the strict parsers of the
    answers of the ledger, the repository over its eight functions, the adapter of
    the Auth service and the worker.  The database and the Auth service are
    arguments with their own states; the worker keeps the log of its calls. *)

From S2P Require Import Prelude PyFloat PyValue Json Utf8 Admission StorageContracts EmotionalModels TurnExecution AtomicTurnCommit.

Local Open Scope Z_scope.

(** ** References *)

Definition ACCOUNT_DELETION_HMAC_DOMAIN : list N := u "account-deletion".

(** What these functions raise besides [commit_exn]. *)
Inductive ref_exn : Type :=
| RefConfiguration                (** [AdmissionConfigurationError] *)
| RefInvalid (e : commit_exn)
| RefUnicode.                     (** [UnicodeEncodeError] *)

Definition compute_account_deletion_user_ref `{Hmac} (secret : list N) (user_id : pyval) : result ref_exn pystr :=
  match _validate_secret_bytes secret with
  | Err _ => Err RefConfiguration
  | Ok validated =>
      match user_id with
      | PStr s =>
          if bool_decide (strip s = []) then Err (RefInvalid (CommitValidationError (u "invalid_user_id"))) else
          match utf8_encode s with
          | None => Err RefUnicode
          | Some bytes => Ok (hmac_hex validated (tagged ACCOUNT_DELETION_HMAC_DOMAIN bytes))
          end
      | _ => Err (RefInvalid (CommitValidationError (u "invalid_user_id")))
      end
  end.

(** ** Strict parsers *)

Definition malformed : commit_exn := CommitPersistenceError (u "database_error") (u "malformed retention response").

(** [$] also matches before a final line feed. *)
Definition dollar_match (p : pystr -> bool) (s : pystr) : bool :=
  p s || (match rev s with c :: r => (c =? 10)%N && p (rev r) | [] => false end).

Definition is_hex64 (s : pystr) : bool := (length s =? 64)%nat && forallb is_hex_lower s.

Definition _require_mapping (value : pyval) : result commit_exn pydict :=
  match as_mapping value with Some d => Ok d | None => Err malformed end.

Definition _require_fields (envelope : pydict) (required optional : list pystr) : result commit_exn unit :=
  raise_if (has_missing required envelope || has_unknown (required ++ optional) envelope) malformed.

Definition _require_text (envelope : pydict) (key : pystr) : result commit_exn pystr :=
  match dget envelope key with Some (PStr s) => Ok s | _ => Err malformed end.

Definition _require_uuid_text (envelope : pydict) (key : pystr) : result commit_exn pystr :=
  let* value := _require_text envelope key in
  raise_if (negb (uuid_match value)) malformed ;;; Ok value.

Definition _require_hex64 (envelope : pydict) (key : pystr) : result commit_exn pystr :=
  let* value := _require_text envelope key in
  raise_if (negb (dollar_match is_hex64 value)) malformed ;;; Ok value.

Definition _optional_text (envelope : pydict) (key : pystr) : result commit_exn (option pystr) :=
  match dindex envelope key with PNone => Ok None | PStr s => Ok (Some s) | _ => Err malformed end.

Definition _require_int (envelope : pydict) (key : pystr) : result commit_exn Z :=
  match dget envelope key with Some (PInt z) => Ok z | _ => Err malformed end.

(** [set(envelope) == keys]. *)
Definition exactly (keys : list pystr) (envelope : pydict) : bool := negb (has_missing keys envelope) && negb (has_unknown keys envelope).

Record AccountDeletionError : Type := mkAccountDeletionError {
  ae_code : pystr;
  ae_message : pystr }.

Definition account_error_envelope (envelope : pydict) : result commit_exn AccountDeletionError :=
  raise_if (negb (exactly [u "error"] envelope)) malformed ;;;
  let* error := _require_mapping (dindex envelope (u "error")) in
  raise_if (negb (exactly [u "code"; u "message"] error)) malformed ;;;
  let* code := _require_text error (u "code") in
  let* message := _require_text error (u "message") in
  Ok (mkAccountDeletionError code message).

Definition ACCOUNT_DELETION_STATUSES : list pystr := [u "pending"; u "processing"; u "completed"; u "failed"].
Definition ERROR_OPERATION_CONFLICT : pystr := u "operation_conflict".
Definition ERROR_ATTEMPTS_EXHAUSTED : pystr := u "attempts_exhausted".

(** What an error envelope is raised as; [conflict] is the code that is a conflict. *)
Definition raise_error {A} (conflict : option pystr) (envelope : pydict) : result commit_exn A :=
  let* error := account_error_envelope envelope in
  if match conflict with Some c => str_eqb (ae_code error) c | None => false end
  then Err (CommitConflictError ERROR_OPERATION_CONFLICT (ae_message error) 0 None None)
  else Err (CommitValidationError (u "validation_failed")).

Record RequestResult : Type := mkRequestResult {
  rq_status : pystr;
  rq_job_id : pystr;
  rq_job_status : pystr;
  rq_db_purged_at : option pystr;
  rq_completed_at : option pystr }.

Definition _parse_request_result (response : pyval) : result commit_exn RequestResult :=
  let* envelope := _require_mapping response in
  if dhas envelope (u "error") then raise_error (Some ERROR_OPERATION_CONFLICT) envelope else
  _require_fields envelope [u "status"; u "job_id"; u "job_status"] [u "db_purged_at"; u "completed_at"] ;;;
  let* status := _require_text envelope (u "status") in
  raise_if (negb (str_in status [u "created"; u "replay"])) malformed ;;;
  let* job_status := _require_text envelope (u "job_status") in
  raise_if (negb (str_in job_status ACCOUNT_DELETION_STATUSES)) malformed ;;;
  let* job_id := _require_uuid_text envelope (u "job_id") in
  let* purged := _optional_text envelope (u "db_purged_at") in
  let* completed := _optional_text envelope (u "completed_at") in
  Ok (mkRequestResult status job_id job_status purged completed).

Record TombstoneStatus : Type := mkTombstoneStatus {
  ts_exists : bool;
  ts_status : option pystr }.

Definition _parse_tombstone_result (response : pyval) : result commit_exn TombstoneStatus :=
  let* envelope := _require_mapping response in
  if dhas envelope (u "error") then raise_error None envelope else
  _require_fields envelope [u "exists"] [u "status"] ;;;
  match dget envelope (u "exists") with
  | Some (PBool exists_) =>
      match dindex envelope (u "status") with
      | PNone => Ok (mkTombstoneStatus exists_ None)
      | PStr s => if str_in s ACCOUNT_DELETION_STATUSES then Ok (mkTombstoneStatus exists_ (Some s)) else Err malformed
      | _ => Err malformed
      end
  | _ => Err malformed
  end.

Record AcquiredJob : Type := mkAcquiredJob {
  aj_job_id : pystr;
  aj_user_id : pystr;
  aj_user_ref : pystr;
  aj_operation_id : pystr;
  aj_status : pystr;
  aj_lease_owner : pystr;
  aj_lease_expires_at : pystr;
  aj_attempts : Z;
  aj_db_purged_at : option pystr;
  aj_intent_fingerprint : pystr }.

(** [Ok None] is the empty queue. *)
Definition _parse_acquired_job (response : pyval) (expected_user_id : option pystr) : result commit_exn (option AcquiredJob) :=
  let* envelope := _require_mapping response in
  if dhas envelope (u "error") then raise_error None envelope else
  match dget envelope (u "found") with
  | Some (PBool false) => raise_if (negb (exactly [u "found"] envelope)) malformed ;;; Ok None
  | found =>
      _require_fields envelope
        [u "found"; u "job_id"; u "user_id"; u "user_ref_hmac_sha256"; u "operation_id"; u "status"; u "lease_owner";
         u "lease_expires_at"; u "attempts"; u "intent_fingerprint_sha256"] [u "db_purged_at"] ;;;
      match found with
      | Some (PBool true) =>
          let* user_id := _require_text envelope (u "user_id") in
          raise_if (match expected_user_id with Some e => negb (str_eqb user_id e) | None => false end)
            (CommitPersistenceError (u "database_error") (u "identity mismatch")) ;;;
          let* status := _require_text envelope (u "status") in
          raise_if (negb (str_eqb status (u "processing"))) malformed ;;;
          let* job_id := _require_uuid_text envelope (u "job_id") in
          let* ref := _require_hex64 envelope (u "user_ref_hmac_sha256") in
          let* operation := _require_uuid_text envelope (u "operation_id") in
          let* owner := _require_text envelope (u "lease_owner") in
          let* expires := _require_text envelope (u "lease_expires_at") in
          let* attempts := _require_int envelope (u "attempts") in
          let* purged := _optional_text envelope (u "db_purged_at") in
          let* fingerprint := _require_hex64 envelope (u "intent_fingerprint_sha256") in
          Ok (Some (mkAcquiredJob job_id user_id ref operation status owner expires attempts purged fingerprint))
      | _ => Err malformed
      end
  end.

Record PurgeResult : Type := mkPurgeResult {
  pu_status : pystr;
  pu_job_id : pystr;
  pu_db_purged_at : pystr;
  pu_counts : list (pystr * Z) }.

Definition expected_counts : list pystr :=
  [u "outbox_events"; u "turn_requests"; u "archival_extractions"; u "memories"; u "chat_logs"; u "admission_reservations";
   u "privacy_operations"; u "profiles"].

Definition _parse_purge_result (response : pyval) : result commit_exn PurgeResult :=
  let* envelope := _require_mapping response in
  if dhas envelope (u "error") then raise_error (Some ERROR_OPERATION_CONFLICT) envelope else
  _require_fields envelope [u "status"; u "job_id"; u "db_purged_at"; u "counts"] [] ;;;
  let* status := _require_text envelope (u "status") in
  raise_if (negb (str_in status [u "purged"; u "already_purged"])) malformed ;;;
  let* counts := _require_mapping (dindex envelope (u "counts")) in
  raise_if (negb (exactly expected_counts counts)) malformed ;;;
  let* parsed := rmap (fun key => let* n := _require_int counts key in Ok (key, n)) expected_counts in
  let* job_id := _require_uuid_text envelope (u "job_id") in
  let* purged := _require_text envelope (u "db_purged_at") in
  Ok (mkPurgeResult status job_id purged parsed).

Record FailureResult : Type := mkFailureResult {
  fr_status : pystr;
  fr_job_id : pystr;
  fr_error_code : pystr;
  fr_next_attempt_at : option pystr }.

Definition _parse_failure_result (response : pyval) : result commit_exn FailureResult :=
  let* envelope := _require_mapping response in
  if dhas envelope (u "error") then raise_error None envelope else
  _require_fields envelope [u "status"; u "job_id"; u "error_code"] [u "next_attempt_at"] ;;;
  let* status := _require_text envelope (u "status") in
  raise_if (negb (str_eqb status (u "failed"))) malformed ;;;
  let* code := _require_text envelope (u "error_code") in
  raise_if (negb (dollar_match is_event_type code)) malformed ;;;
  let* job_id := _require_uuid_text envelope (u "job_id") in
  let* next := _optional_text envelope (u "next_attempt_at") in
  Ok (mkFailureResult (u "failed") job_id code next).

Record RetryResult : Type := mkRetryResult {
  rt_status : pystr;
  rt_job_id : pystr;
  rt_next_attempt_at : option pystr }.

Definition text_is (d : pydict) (key value : pystr) : bool :=
  match dget d key with Some (PStr s) => str_eqb s value | _ => false end.

Definition _parse_retry_result (response : pyval) : result commit_exn RetryResult :=
  let* envelope := _require_mapping response in
  if dhas envelope (u "error") then raise_error None envelope else
  if text_is envelope (u "status") (u "retry_scheduled") then
    _require_fields envelope [u "status"; u "job_id"; u "next_attempt_at"] [] ;;;
    let* job_id := _require_uuid_text envelope (u "job_id") in
    let* next := _require_text envelope (u "next_attempt_at") in
    Ok (mkRetryResult (u "retry_scheduled") job_id (Some next))
  else if text_is envelope (u "status") (u "failed") && text_is envelope (u "error_code") ERROR_ATTEMPTS_EXHAUSTED then
    _require_fields envelope [u "status"; u "job_id"; u "error_code"] [u "next_attempt_at"] ;;;
    let* job_id := _require_uuid_text envelope (u "job_id") in
    Ok (mkRetryResult (u "failed") job_id None)
  else Err malformed.

Record FinalizeResult : Type := mkFinalizeResult {
  fi_status : pystr;
  fi_job_id : pystr;
  fi_completed_at : pystr;
  fi_db_purged_at : pystr }.

Definition _parse_finalize_result (response : pyval) : result commit_exn FinalizeResult :=
  let* envelope := _require_mapping response in
  if dhas envelope (u "error") then raise_error (Some (u "state_conflict")) envelope else
  _require_fields envelope [u "status"; u "job_id"; u "completed_at"; u "db_purged_at"] [] ;;;
  let* status := _require_text envelope (u "status") in
  raise_if (negb (str_eqb status (u "completed"))) malformed ;;;
  let* job_id := _require_uuid_text envelope (u "job_id") in
  let* completed := _require_text envelope (u "completed_at") in
  let* purged := _require_text envelope (u "db_purged_at") in
  Ok (mkFinalizeResult (u "completed") job_id completed purged).

Definition _parse_int_result (response : pyval) : result commit_exn Z :=
  match response with
  | PInt z => raise_if (z <? 0) malformed ;;; Ok z
  | _ => Err malformed
  end.

(** ** The repository *)

Section Repository.
Context {DB : Type}.

(** [client.rpc(name, params).execute().data]; [None] is an exception. *)
Context (client : option (pystr -> pydict -> DB -> option pyval * DB)).

Definition _rpc_call (name : pystr) (params : pydict) (db : DB) : result commit_exn pyval * DB :=
  match client with
  | None => (Err database_error, db)
  | Some rpc =>
      match rpc name params db with
      | (Some data, db') => (Ok data, db')
      | (None, db') => (Err database_error, db')
      end
  end.

Definition parsed {A} (parse : pyval -> result commit_exn A) (answer : result commit_exn pyval * DB) : result commit_exn A * DB :=
  (let* data := answer.1 in parse data, answer.2).

Definition request (authenticated_user_id user_ref operation_id fingerprint : pystr) (db : DB) : result commit_exn RequestResult * DB :=
  parsed _parse_request_result (_rpc_call (u "account_deletion_request")
    [(KStr (u "p_authenticated_user_id"), PStr authenticated_user_id); (KStr (u "p_user_ref_hmac_sha256"), PStr user_ref);
     (KStr (u "p_operation_id"), PStr operation_id); (KStr (u "p_intent_fingerprint_sha256"), PStr fingerprint)] db).

Definition has_tombstone (user_ref : pystr) (db : DB) : result commit_exn TombstoneStatus * DB :=
  parsed _parse_tombstone_result (_rpc_call (u "account_deletion_has_tombstone") [(KStr (u "p_user_ref_hmac_sha256"), PStr user_ref)] db).

Definition acquire_lease (worker_id : pystr) (lease_seconds max_batch : Z) (expected_user_id : option pystr) (db : DB)
    : result commit_exn (option AcquiredJob) * DB :=
  parsed (fun data => _parse_acquired_job data expected_user_id) (_rpc_call (u "account_deletion_acquire_lease")
    [(KStr (u "p_worker_id"), PStr worker_id); (KStr (u "p_lease_seconds"), PInt lease_seconds);
     (KStr (u "p_max_batch"), PInt max_batch)] db).

Definition purge (job_id worker_id fingerprint : pystr) (db : DB) : result commit_exn PurgeResult * DB :=
  parsed _parse_purge_result (_rpc_call (u "account_deletion_purge")
    [(KStr (u "p_job_id"), PStr job_id); (KStr (u "p_worker_id"), PStr worker_id);
     (KStr (u "p_intent_fingerprint_sha256"), PStr fingerprint)] db).

Definition record_failure (job_id worker_id : pystr) (error_code : pyval) (db : DB) : result commit_exn FailureResult * DB :=
  parsed _parse_failure_result (_rpc_call (u "account_deletion_record_failure")
    [(KStr (u "p_job_id"), PStr job_id); (KStr (u "p_worker_id"), PStr worker_id); (KStr (u "p_error_code"), error_code)] db).

Definition record_retry (job_id worker_id : pystr) (db : DB) : result commit_exn RetryResult * DB :=
  parsed _parse_retry_result (_rpc_call (u "account_deletion_record_retry")
    [(KStr (u "p_job_id"), PStr job_id); (KStr (u "p_worker_id"), PStr worker_id)] db).

Definition finalize (job_id worker_id : pystr) (db : DB) : result commit_exn FinalizeResult * DB :=
  parsed _parse_finalize_result (_rpc_call (u "account_deletion_finalize")
    [(KStr (u "p_job_id"), PStr job_id); (KStr (u "p_worker_id"), PStr worker_id)] db).

Definition purge_completed (cutoff : pystr) (batch_size : Z) (db : DB) : result commit_exn Z * DB :=
  parsed _parse_int_result (_rpc_call (u "account_deletion_purge_completed")
    [(KStr (u "p_cutoff"), PStr cutoff); (KStr (u "p_batch_size"), PInt batch_size)] db).

End Repository.

(** ** The Auth adapter *)

Definition OUTCOME_DELETED : pystr := u "deleted".
Definition OUTCOME_ALREADY_ABSENT : pystr := u "already_absent".
Definition OUTCOME_AUTH_ERROR : pystr := u "auth_error".
Definition ERROR_AUTH_UNAVAILABLE : pystr := u "auth_unavailable".
Definition ERROR_AUTH_FORBIDDEN : pystr := u "auth_forbidden".
Definition ERROR_AUTH_FAILED : pystr := u "auth_failed".

Definition _RETRYABLE_AUTH_STATUSES : list Z := [502; 503; 504; 520; 521; 522; 523; 524; 530].
Definition _RETRYABLE_AUTH_CODES : list pystr := [u "over_request_rate_limit"; u "request_timeout"].

Record AuthDeleteResult : Type := mkAuthDeleteResult {
  ad_outcome : pystr;
  ad_error_code : option pystr }.

(** How [admin_api.delete_user] ends.  [AuthApiError] carries the [code] and
    [status] of the SDK, which need not be a text and a number. *)
Inductive delete_user_end : Type :=
| DeleteReturned
| AuthApiError (code status : pyval)
| AuthRetryable                      (** [AuthRetryableError] or [AuthUnknownError] *)
| DeleteValueError
| DeleteOther.

Definition status_in (status : pyval) (l : list Z) : bool :=
  match status with PInt z => bool_decide (z ∈ l) | _ => false end.

Definition code_in (code : pyval) (l : list pystr) : bool := match code with PStr s => str_in s l | _ => false end.

Definition auth_error (code : pystr) : AuthDeleteResult := mkAuthDeleteResult OUTCOME_AUTH_ERROR (Some code).

Definition hard_delete (e : delete_user_end) : AuthDeleteResult :=
  match e with
  | DeleteReturned => mkAuthDeleteResult OUTCOME_DELETED None
  | AuthApiError code status =>
      if code_in code [u "user_not_found"] then mkAuthDeleteResult OUTCOME_ALREADY_ABSENT None
      else if status_in status [401; 403] then auth_error ERROR_AUTH_FORBIDDEN
      else if code_in code _RETRYABLE_AUTH_CODES || status_in status _RETRYABLE_AUTH_STATUSES
      then auth_error ERROR_AUTH_UNAVAILABLE
      else auth_error ERROR_AUTH_FAILED
  | AuthRetryable => auth_error ERROR_AUTH_UNAVAILABLE
  | DeleteValueError => auth_error ERROR_AUTH_FAILED
  | DeleteOther => auth_error ERROR_AUTH_UNAVAILABLE
  end.

(** ** The worker *)

Record AccountDeletionWorkerConfig : Type := mkWorkerConfig {
  wc_worker_id : pystr;
  wc_lease_seconds : Z;
  wc_max_batch : Z }.

(** [None] is the [ValueError] of [__post_init__]. *)
Definition AccountDeletionWorkerConfig_init (worker_id : pyval) (lease_seconds max_batch : Z) : option AccountDeletionWorkerConfig :=
  match worker_id with
  | PStr s =>
      if dollar_match is_lease_owner s && negb ((lease_seconds <? 1) || (3600 <? lease_seconds))
         && negb ((max_batch <? 1) || (1000 <? max_batch))
      then Some (mkWorkerConfig s lease_seconds max_batch) else None
  | _ => None
  end.

Record WorkerRunResult : Type := mkWorkerRunResult {
  wr_no_work : bool;
  wr_completed : Z;
  wr_retry_scheduled : Z;
  wr_failed : Z;
  wr_lease_lost : Z }.

Definition count_completed (r : WorkerRunResult) : WorkerRunResult :=
  mkWorkerRunResult (wr_no_work r) (wr_completed r + 1) (wr_retry_scheduled r) (wr_failed r) (wr_lease_lost r).
Definition count_retry (r : WorkerRunResult) : WorkerRunResult :=
  mkWorkerRunResult (wr_no_work r) (wr_completed r) (wr_retry_scheduled r + 1) (wr_failed r) (wr_lease_lost r).
Definition count_failed (r : WorkerRunResult) : WorkerRunResult :=
  mkWorkerRunResult (wr_no_work r) (wr_completed r) (wr_retry_scheduled r) (wr_failed r + 1) (wr_lease_lost r).
Definition count_lost (r : WorkerRunResult) : WorkerRunResult :=
  mkWorkerRunResult (wr_no_work r) (wr_completed r) (wr_retry_scheduled r) (wr_failed r) (wr_lease_lost r + 1).

(** The calls of the worker, with what it concludes from their answers. *)
Inductive worker_event : Type :=
| Claimed (job : AcquiredJob)
| Purged (job_id : pystr) (ok : bool)
| AuthDeleted (user_id : pystr) (res : AuthDeleteResult)
| Retried (job_id : pystr)
| Failed (job_id : pystr) (code : pyval)
| Finalized (job_id : pystr) (ok : bool).

Section Worker.
Context {DB AUTH : Type}.
Context (client : option (pystr -> pydict -> DB -> option pyval * DB)) (config : AccountDeletionWorkerConfig).

(** The Auth service: how a deletion ends. *)
Context (delete_user : pystr -> AUTH -> AuthDeleteResult * AUTH).

(** Other transactions may run between two calls of the worker. *)
Context (others : nat -> DB -> DB).

Record worker_state : Type := mkWorkerState {
  ws_db : DB;
  ws_auth : AUTH;
  ws_log : list worker_event }.

Definition at_db (db : DB) (e : worker_event) (s : worker_state) : worker_state := mkWorkerState db (ws_auth s) (ws_log s ++ [e]).

(** [others] is indexed by the number of calls so far. *)
Definition meanwhile (s : worker_state) : DB := others (length (ws_log s)) (ws_db s).

(** The errors of the repository that the worker catches. *)
Definition ledger_error (e : commit_exn) : bool :=
  match e with CommitPersistenceError _ _ | CommitConflictError _ _ _ _ _ | CommitValidationError _ => true | _ => false end.

Definition worker_result : Type := result commit_exn WorkerRunResult.

Definition _record_retry (job : AcquiredJob) (r : WorkerRunResult) (s : worker_state) : worker_result * worker_state :=
  let '(answer, db) := record_retry client (aj_job_id job) (wc_worker_id config) (meanwhile s) in
  let s' := at_db db (Retried (aj_job_id job)) s in
  match answer with
  | Ok retry => (Ok (if str_eqb (rt_status retry) (u "failed") then count_failed r else count_retry r), s')
  | Err e => (if ledger_error e then Ok (count_lost r) else Err e, s')
  end.

Definition _record_failure (job : AcquiredJob) (r : WorkerRunResult) (code : pyval) (s : worker_state) : worker_result * worker_state :=
  let '(answer, db) := record_failure client (aj_job_id job) (wc_worker_id config) code (meanwhile s) in
  let s' := at_db db (Failed (aj_job_id job) code) s in
  match answer with
  | Ok _ => (Ok (count_failed r), s')
  | Err e => (if ledger_error e then Ok (count_lost r) else Err e, s')
  end.

(** Step 3. *)
Definition conclude (job : AcquiredJob) (r : WorkerRunResult) (s : worker_state) : worker_result * worker_state :=
  let '(answer, db) := finalize client (aj_job_id job) (wc_worker_id config) (meanwhile s) in
  let s' := at_db db (Finalized (aj_job_id job) (is_ok answer)) s in
  match answer with
  | Ok _ => (Ok (count_completed r), s')
  | Err (CommitPersistenceError _ _ | CommitConflictError _ _ _ _ _) => (Ok (count_lost r), s')
  | Err e => (Err e, s')
  end.

(** Steps 2 and 3. *)
Definition delete_auth (job : AcquiredJob) (r : WorkerRunResult) (s : worker_state) : worker_result * worker_state :=
  let '(res, auth) := delete_user (aj_user_id job) (ws_auth s) in
  let s' := mkWorkerState (ws_db s) auth (ws_log s ++ [AuthDeleted (aj_user_id job) res]) in
  if str_eqb (ad_outcome res) OUTCOME_AUTH_ERROR then
    match ad_error_code res with
    | Some code =>
        if str_eqb code ERROR_AUTH_UNAVAILABLE then _record_retry job r s' else _record_failure job r (PStr code) s'
    | None => _record_failure job r PNone s'
    end
  else if str_eqb (ad_outcome res) OUTCOME_ALREADY_ABSENT || str_eqb (ad_outcome res) OUTCOME_DELETED then conclude job r s'
  else _record_failure job r (PStr ERROR_AUTH_FAILED) s'.

Definition _process_job (job : AcquiredJob) (r : WorkerRunResult) (s : worker_state) : worker_result * worker_state :=
  match aj_db_purged_at job with
  | Some _ => delete_auth job r s
  | None =>
      let '(answer, db) := purge client (aj_job_id job) (wc_worker_id config) (aj_intent_fingerprint job) (meanwhile s) in
      let s' := at_db db (Purged (aj_job_id job) (is_ok answer)) s in
      match answer with
      | Ok _ => delete_auth job r s'
      | Err e => (if ledger_error e then Ok (count_failed r) else Err e, s')
      end
  end.

(** The rounds of [run_once]; [claimed_any] is returned beside the counters. *)
Fixpoint rounds (left : nat) (claimed_any : bool) (r : WorkerRunResult) (s : worker_state)
    : result commit_exn (WorkerRunResult * bool) * worker_state :=
  match left with
  | O => (Ok (r, claimed_any), s)
  | S left' =>
      let '(answer, db) := acquire_lease client (wc_worker_id config) (wc_lease_seconds config) (wc_max_batch config) None (meanwhile s) in
      match answer with
      | Err e => (Err e, mkWorkerState db (ws_auth s) (ws_log s))
      | Ok None => (Ok (r, claimed_any), mkWorkerState db (ws_auth s) (ws_log s))
      | Ok (Some job) =>
          match _process_job job r (at_db db (Claimed job) s) with
          | (Ok r', s') => rounds left' true r' s'
          | (Err e, s') => (Err e, s')
          end
      end
  end.

Definition run_once (s : worker_state) : worker_result * worker_state :=
  match rounds (Z.to_nat (wc_max_batch config)) false (mkWorkerRunResult false 0 0 0 0) s with
  | (Ok (r, claimed_any), s') =>
      (Ok (mkWorkerRunResult (negb claimed_any) (wr_completed r) (wr_retry_scheduled r) (wr_failed r) (wr_lease_lost r)), s')
  | (Err e, s') => (Err e, s')
  end.

End Worker.
Arguments mkWorkerState {DB AUTH} _ _ _.
Arguments ws_db {DB AUTH} _.
Arguments ws_auth {DB AUTH} _.
Arguments ws_log {DB AUTH} _.
