(* ===== verification/AccountTheorems.v ===== *)
(** * What the deletion ledger and its worker guarantee

    The invariant of the ledger under any calls, the order of the steps of the
    worker whatever the ledger and the Auth service answer, and the deletion of
    an account over the ledger itself. *)

From S2P Require Import Prelude PyFloat PyValue Json Admission StorageContracts EmotionalModels TurnExecution AtomicTurnCommit TurnDatabase.
From S2P Require Import AccountLedger AccountDeletion.

Local Open Scope Z_scope.

(** ** The invariant of the ledger *)

(** The CHECK constraints of the table that depend on the state. *)
Record job_ok (j : job_row) : Prop := {
  jo_attempts : 0 <= j_attempts j <= MAX_ATTEMPTS;
  jo_lease : j_status j = jb_processing <-> is_Some (j_owner j);
  jo_pair : is_Some (j_owner j) <-> is_Some (j_expires j);
  jo_user : j_status j = jb_completed <-> j_user j = None;
  jo_purged : j_status j = jb_completed -> is_Some (j_purged j);
  jo_completed : j_status j = jb_completed <-> is_Some (j_completed j);
  jo_pending : j_status j = jb_pending -> is_Some (j_next j);
  jo_failed : j_status j = jb_failed -> is_Some (j_error j) }.

Record ledger_ok (db : account_db) : Prop := {
  lo_jobs : Forall job_ok (a_jobs db);
  lo_ids : NoDup (map j_id (a_jobs db));
  lo_keys : NoDup (map (fun j => (j_ref j, j_operation j)) (a_jobs db)) }.

(** How a job may move: it keeps its identity, a committed purge is never
    forgotten, no attempt is taken back, and a completed job does not change. *)
Record job_step (j j' : job_row) : Prop := {
  js_same : (j_id j', j_operation j', j_ref j', j_fingerprint j', j_requested j')
    = (j_id j, j_operation j, j_ref j, j_fingerprint j, j_requested j);
  js_purged : forall t, j_purged j = Some t -> j_purged j' = Some t;
  js_attempts : j_attempts j <= j_attempts j';
  js_user : j_status j' <> jb_completed -> j_user j' = j_user j;
  js_final : j_status j = jb_completed -> j' = j }.

#[export] Instance job_step_refl : Reflexive job_step.
Proof. intros j. by constructor. Qed.

#[export] Instance job_step_trans : Transitive job_step.
Proof.
  intros a b c [S1 P1 A1 U1 F1] [S2 P2 A2 U2 F2]. constructor.
  - congruence.
  - auto.
  - lia.
  - intros N. rewrite U2 by done. apply U1. intros E. by rewrite (F2 E) in N.
  - intros E. rewrite F2; [by apply F1|]. by rewrite (F1 E).
Qed.

(** Every job is still there, moved by steps. *)
Definition ledger_keeps (db db' : account_db) : Prop :=
  forall j, j ∈ a_jobs db -> exists j', j' ∈ a_jobs db' /\ job_step j j'.

#[export] Instance ledger_keeps_preorder : PreOrder ledger_keeps.
Proof.
  split; [by intros db j Hj; exists j|]. intros a b c H1 H2 j (j1 & (j2 & Hj2 & S2)%H2 & S1)%H1. exists j2. split; [done|]. by etransitivity.
Qed.

(** Only a job that was completed more than thirty days ago is dropped. *)
Definition ledger_step (now : Z) (db db' : account_db) : Prop :=
  forall j, j ∈ a_jobs db -> (exists j', j' ∈ a_jobs db' /\ job_step j j')
    \/ (j_status j = jb_completed /\ exists t, j_completed j = Some t /\ t < now - 30 * 86400 * second).

Lemma keeps_step now db db' : ledger_keeps db db' -> ledger_step now db db'.
Proof. intros H j Hj. left. by apply H. Qed.

(** ** Updating one job *)

Lemma find_job_some id jobs j : find_job id jobs = Some j -> j ∈ jobs /\ j_id j = id.
Proof. unfold find_job. intros H. apply List.find_some in H as [Hin E%str_eqb_eq]. by rewrite list_elem_of_In. Qed.

Lemma update_elem id f jobs j : j ∈ jobs -> (if str_eqb (j_id j) id then f j else j) ∈ update_job id f jobs.
Proof. intros H. unfold update_job. rewrite list_elem_of_In in *. by apply in_map_iff; exists j. Qed.

Lemma update_map {A} (g : job_row -> A) id f jobs : (forall j, g (f j) = g j) -> map g (update_job id f jobs) = map g jobs.
Proof. intros H. unfold update_job. rewrite map_map. apply map_ext. intros j. destruct (str_eqb _ _); [apply H|done]. Qed.

(** The jobs with an id, where ids are unique. *)
Lemma unique_job jobs j j' : NoDup (map j_id jobs) -> j ∈ jobs -> j' ∈ jobs -> j_id j = j_id j' -> j = j'.
Proof.
  intros D [i Hi]%list_elem_of_lookup [k Hk]%list_elem_of_lookup E.
  assert (i = k) as ->; [|congruence]. eapply (NoDup_lookup (j_id <$> jobs)); [done| |]; rewrite list_lookup_fmap, ?Hi, ?Hk; cbn; [done|by rewrite E].
Qed.

(** An update of the row of one job is a step of the ledger. *)
Lemma update_job_ok db rows j f : ledger_ok db -> j ∈ a_jobs db -> job_step j (f j) -> job_ok (f j) ->
  (forall x, (j_id (f x), j_ref (f x), j_operation (f x)) = (j_id x, j_ref x, j_operation x)) ->
  ledger_ok (mkAccountDb (update_job (j_id j) f (a_jobs db)) rows)
  /\ ledger_keeps db (mkAccountDb (update_job (j_id j) f (a_jobs db)) rows).
Proof.
  intros [F D K] Hj S O E. split.
  - constructor; cbn.
    + unfold update_job. apply Forall_map. rewrite Forall_forall in F |- *. intros x Hx.
      destruct (str_eqb (j_id x) (j_id j)) eqn:Ex; [|by apply F]. apply str_eqb_eq in Ex. by rewrite (unique_job _ _ _ D Hx Hj Ex).
    + rewrite update_map; [done|]. intros x. by injection (E x).
    + rewrite update_map; [done|]. intros x. injection (E x) as ? ? ?. congruence.
  - intros x Hx. exists (if str_eqb (j_id x) (j_id j) then f x else x). split; [by apply update_elem|].
    destruct (str_eqb (j_id x) (j_id j)) eqn:Ex; [|reflexivity]. apply str_eqb_eq in Ex. by rewrite (unique_job _ _ _ D Hx Hj Ex).
Qed.

Section Calls.
Context (tj : Z -> pystr) (env : ledger_env).

Lemma owner_spec id worker db j : account_deletion_assert_owner env id worker db = Some j ->
  j ∈ a_jobs db /\ j_id j = id /\ j_status j = jb_processing /\ j_owner j = Some worker
  /\ exists t, j_expires j = Some t /\ le_check env < t.
Proof.
  unfold account_deletion_assert_owner. destruct (negb _); [done|]. intros (j' & [Hj Hi]%find_job_some & H)%bind_Some.
  destruct (bool_decide _ && _ && _) eqn:E; [|done]. injection H as <-.
  apply andb_true_iff in E as [[E1%bool_decide_eq_true E2]%andb_true_iff E3].
  destruct (j_owner j') as [o|]; [|done]. apply str_eqb_eq in E2 as ->. destruct (j_expires j') as [t|]; [|done].
  apply Z.ltb_lt in E3. by eauto 10.
Qed.

(** The updates a call makes, from a job its caller owns. *)
Lemma purged_step j : j_purged j = None -> j_status j = jb_processing -> job_ok j -> job_step j (purged env j) /\ job_ok (purged env j).
Proof.
  intros P S [A L Pr U Pg C Pe Fa]. split.
  - constructor; cbn; rewrite ?P, ?S; done.
  - constructor; cbn; try done; rewrite ?S in *; done.
Qed.

Lemma failed_step code next j : j_status j = jb_processing -> job_ok j -> job_step j (failed_with env code next j) /\ job_ok (failed_with env code next j).
Proof.
  intros S [A L Pr U Pg C Pe Fa]. split; constructor; cbn; try done; rewrite ?S in *; try done.
  - split; [done|]. intros H. by apply (proj2 U) in H.
  - split; [done|]. intros H. by apply (proj2 C) in H.
Qed.

Lemma deferred_step next j : j_status j = jb_processing -> job_ok j -> job_step j (deferred env next j) /\ job_ok (deferred env next j).
Proof.
  intros S [A L Pr U Pg C Pe Fa]. split; constructor; cbn; try done; rewrite ?S in *; try done.
  - split; [done|]. intros H. by apply (proj2 U) in H.
  - split; [done|]. intros H. by apply (proj2 C) in H.
Qed.

Lemma exhausted_step j : j_status j = jb_processing -> job_ok j -> job_step j (exhausted env j) /\ job_ok (exhausted env j).
Proof. apply (failed_step (u "attempts_exhausted") None). Qed.

Lemma finalized_step j : j_status j = jb_processing -> is_Some (j_purged j) -> job_ok j -> job_step j (finalized env j) /\ job_ok (finalized env j).
Proof.
  intros S P [A L Pr U Pg C Pe Fa]. split; constructor; cbn; try done; rewrite ?S in *; done.
Qed.

Lemma claimed_step worker seconds j : j_status j <> jb_completed -> j_attempts j < MAX_ATTEMPTS -> job_ok j ->
  job_step j (claimed env worker seconds j) /\ job_ok (claimed env worker seconds j).
Proof.
  intros S Lt [A L Pr U Pg C Pe Fa]. split; constructor; cbn; try done; try lia.
  - split; [done|]. intros H. by apply (proj2 U) in H.
  - split; [done|]. intros H. by apply (proj2 C) in H.
Qed.

(** ** The claim *)

Lemma claimable_spec jobs j : claimable env jobs = Some j -> j ∈ jobs /\ eligible env j = true /\ le_locked env (j_id j) = false.
Proof.
  unfold claimable. intros H. assert (j ∈ stable_sort next_before (List.filter (fun j => eligible env j && negb (le_locked env (j_id j))) jobs)) as Hin.
  { destruct (stable_sort _ _); [done|]. injection H as ->. by left. }
  rewrite stable_sort_perm, list_elem_of_In, List.filter_In in Hin. destruct Hin as [Hin [E L%negb_true_iff]%andb_true_iff].
  by rewrite list_elem_of_In.
Qed.

Lemma claimable_none jobs j : claimable env jobs = None -> j ∈ jobs -> eligible env j && negb (le_locked env (j_id j)) = false.
Proof.
  unfold claimable. intros H Hj. destruct (stable_sort _ _) eqn:E; [|done]. apply not_true_is_false. intros K.
  assert (j ∈ ([] : list job_row)) as []%elem_of_nil. rewrite <- E, stable_sort_perm, list_elem_of_In, List.filter_In. by rewrite <- list_elem_of_In.
Qed.

Lemma eligible_active j : eligible env j = true -> j_status j <> jb_completed.
Proof. unfold eligible. by destruct (j_status j). Qed.

(** The jobs that make the scan continue. *)
Definition at_ceiling (j : job_row) : bool :=
  eligible env j && bool_decide (j_status j = jb_processing) && (MAX_ATTEMPTS <=? j_attempts j).

Definition ceiling_count (jobs : list job_row) : nat := length (List.filter at_ceiling jobs).

Lemma ceiling_update jobs j : j ∈ jobs -> at_ceiling j = true ->
  (ceiling_count (update_job (j_id j) (exhausted env) jobs) < ceiling_count jobs)%nat.
Proof.
  unfold ceiling_count, update_job.
  assert (forall x, at_ceiling (exhausted env x) = false) as E by done.
  assert (forall l, (length (List.filter at_ceiling (map (fun x => if str_eqb (j_id x) (j_id j) then exhausted env x else x) l))
    <= length (List.filter at_ceiling l))%nat) as Le.
  { induction l as [|x l IH]; [done|]. cbn. destruct (str_eqb _ _); rewrite ?E; destruct (at_ceiling x); cbn; lia. }
  intros Hj A. induction jobs as [|x jobs IH]; [by apply elem_of_nil in Hj|]. cbn. apply elem_of_cons in Hj as [<-|Hj].
  - rewrite (proj2 (str_eqb_eq _ _) eq_refl), E, A. cbn. specialize (Le jobs). lia.
  - specialize (IH Hj). destruct (str_eqb _ _); rewrite ?E; destruct (at_ceiling x); cbn; lia.
Qed.

(** The scan ends. *)
Lemma acquire_total fuel worker seconds jobs : (ceiling_count jobs < fuel)%nat -> is_Some (acquire_loop tj env fuel worker seconds jobs).
Proof.
  revert jobs. induction fuel as [|fuel IH]; intros jobs Lt; [lia|]. cbn [acquire_loop].
  destruct (claimable env jobs) as [j|] eqn:C; [|by eexists]. apply claimable_spec in C as (Hj & El & _).
  destruct (bool_decide _ && _) eqn:K; [|by eexists]. apply IH.
  assert (at_ceiling j = true) as A by (unfold at_ceiling; rewrite El; exact K). pose proof (ceiling_update jobs j Hj A). lia.
Qed.

(** What a claim did: nobody was found, or one eligible job below the ceiling
    now belongs to the worker. *)
Definition claim_of (worker : pystr) (seconds : Z) (db db' : account_db) (answer : pyval) : Prop :=
  ledger_ok db' /\ ledger_keeps db db' /\ a_rows db' = a_rows db
  /\ ((answer = PDict [(KStr (u "found"), PBool false)]
        /\ forall j, j ∈ a_jobs db' -> eligible env j && negb (le_locked env (j_id j)) = false)
      \/ exists j, j ∈ a_jobs db /\ eligible env j = true /\ j_attempts j < MAX_ATTEMPTS
           /\ answer = claim_answer tj worker (claimed env worker seconds j)
           /\ claimed env worker seconds j ∈ a_jobs db').

Lemma acquire_loop_spec fuel worker seconds db answer jobs : ledger_ok db ->
  acquire_loop tj env fuel worker seconds (a_jobs db) = Some (answer, jobs) -> claim_of worker seconds db (with_jobs jobs db) answer.
Proof.
  revert db. induction fuel as [|fuel IH]; intros db Ok; [done|]. cbn [acquire_loop].
  destruct (claimable env (a_jobs db)) as [j|] eqn:C.
  2: { intros [= <- <-]. destruct db as [js rows]. split_and!; [done|reflexivity|done|]. left. split; [done|].
       intros j Hj. by apply (claimable_none js). }
  apply claimable_spec in C as (Hj & El & _). pose proof (lo_jobs db Ok) as F. rewrite Forall_forall in F. pose proof (F _ Hj) as Jo.
  destruct (bool_decide (j_status j = jb_processing) && (MAX_ATTEMPTS <=? j_attempts j)) eqn:K.
  - apply andb_true_iff in K as [S%bool_decide_eq_true Ge%Z.leb_le].
    destruct (exhausted_step j S Jo) as [Js Jo'].
    destruct (update_job_ok db (a_rows db) j (exhausted env) Ok Hj Js Jo' ltac:(done)) as [Ok1 Kp1].
    intros H. set (db1 := mkAccountDb (update_job (j_id j) (exhausted env) (a_jobs db)) (a_rows db)) in *.
    destruct (IH db1 Ok1 H) as (Ok2 & Kp2 & Rw & D).
    assert (with_jobs jobs db1 = with_jobs jobs db) as Wj by done. rewrite Wj in *.
    split_and!; [done|by etransitivity|done|]. destruct D as [D|(k & Hk & Ek & Lk & A & B)]; [by left|]. right. exists k.
    split; [|done]. unfold db1 in Hk. cbn in Hk. unfold update_job in Hk. rewrite list_elem_of_In, in_map_iff in Hk.
    destruct Hk as (x & Hx & Hin). destruct (str_eqb (j_id x) (j_id j)); [|subst x; by apply list_elem_of_In].
    subst k. exfalso. clear -Ek. unfold eligible in Ek. by cbn in Ek.
  - intros [= <- <-].
    assert (j_attempts j < MAX_ATTEMPTS) as Lt.
    { unfold eligible in El. destruct (j_status j) eqn:S; [|..|done|].
      - apply andb_true_iff in El as [_ El]. by apply Z.ltb_lt.
      - rewrite bool_decide_eq_true_2 in K by done. cbn [andb] in K. by apply Z.leb_gt.
      - apply andb_true_iff in El as [_ El]. by apply Z.ltb_lt. }
    destruct (claimed_step worker seconds j (eligible_active j El) Lt Jo) as [Js Jo'].
    destruct (update_job_ok db (a_rows db) j (claimed env worker seconds) Ok Hj Js Jo' ltac:(done)) as [Ok1 Kp1].
    split_and!; [done|done|done|]. right. exists j. split_and!; try done. cbn.
    pose proof (update_elem (j_id j) (claimed env worker seconds) _ j Hj) as U. by rewrite (proj2 (str_eqb_eq _ _) eq_refl) in U.
Qed.

Lemma acquire_spec worker seconds batch db answer db' : ledger_ok db ->
  account_deletion_acquire_lease tj env worker seconds batch db = (answer, db') ->
  (db' = db /\ exists m, answer = Some (account_invalid m)) \/ exists v, answer = Some v /\ claim_of worker seconds db db' v.
Proof.
  intros Ok. unfold account_deletion_acquire_lease.
  destruct (negb (is_worker_id worker)); [intros [= <- <-]; left; eauto|].
  destruct (negb _); [intros [= <- <-]; left; eauto|]. destruct (negb _); [intros [= <- <-]; left; eauto|].
  destruct (acquire_total (S (length (a_jobs db))) worker seconds (a_jobs db)) as [[v jobs] E].
  { unfold ceiling_count. pose proof (List.filter_length_le at_ceiling (a_jobs db)). lia. }
  rewrite E. intros [= <- <-]. right. exists v. split; [done|]. by eapply acquire_loop_spec.
Qed.

End Calls.

(** ** Any call *)

Inductive ledger_op : Type :=
| OpRequest (user ref operation fingerprint : pystr)
| OpAcquire (worker : pystr) (seconds batch : Z)
| OpPurge (id worker fingerprint : pystr)
| OpFailure (id worker code : pystr)
| OpRetry (id worker : pystr)
| OpFinalize (id worker : pystr)
| OpPurgeCompleted (cutoff batch : Z).

Definition run_op (tj : Z -> pystr) (env : ledger_env) (op : ledger_op) (db : account_db) : option pyval * account_db :=
  match op with
  | OpRequest user ref operation fingerprint => account_deletion_request tj env user ref operation fingerprint db
  | OpAcquire worker seconds batch => account_deletion_acquire_lease tj env worker seconds batch db
  | OpPurge id worker fingerprint => account_deletion_purge tj env id worker fingerprint db
  | OpFailure id worker code => account_deletion_record_failure tj env id worker code db
  | OpRetry id worker => account_deletion_record_retry tj env id worker db
  | OpFinalize id worker => account_deletion_finalize tj env id worker db
  | OpPurgeCompleted cutoff batch => account_deletion_purge_completed env cutoff batch db
  end.

Section Invariant.
Context (tj : Z -> pystr) (env : ledger_env).

(** The job of the caller, with the invariant. *)
Lemma owned id worker db j : ledger_ok db -> account_deletion_assert_owner env id worker db = Some j ->
  j ∈ a_jobs db /\ j_id j = id /\ j_status j = jb_processing /\ job_ok j.
Proof.
  intros Ok (Hj & Hi & S & _)%owner_spec. split_and!; try done. pose proof (lo_jobs db Ok) as F. rewrite Forall_forall in F. by apply F.
Qed.

Lemma request_ok user ref operation fingerprint db answer db' : ledger_ok db ->
  account_deletion_request tj env user ref operation fingerprint db = (answer, db') -> ledger_ok db' /\ ledger_keeps db db'.
Proof.
  intros Ok. unfold account_deletion_request. destruct (account_deletion_validation_error _ _ _); [by intros [= _ <-]|].
  destruct (List.find _ _) as [j|] eqn:Ek; [destruct (str_eqb _ _); by intros [= _ <-]|].
  destruct (find_job _ _) eqn:Ei; intros [= _ <-]; [done|]. split.
  - destruct Ok as [F D K]. constructor; cbn.
    + apply Forall_app. split; [done|]. apply Forall_singleton. constructor; cbn; try done; try lia; split; try done; by intros [? [=]].
    + rewrite map_app. apply NoDup_app. split_and!; [done| |apply NoDup_singleton]. cbn. intros x Hx ->%list_elem_of_singleton.
      apply list_elem_of_fmap in Hx as (j & Hid & Hj). apply list_elem_of_In in Hj.
      apply (List.find_none _ _ Ei) in Hj. by rewrite <- Hid, (proj2 (str_eqb_eq _ _) eq_refl) in Hj.
    + rewrite map_app. apply NoDup_app. split_and!; [done| |apply NoDup_singleton]. cbn. intros x Hx ->%list_elem_of_singleton.
      apply list_elem_of_fmap in Hx as (j & Hid & Hj). apply list_elem_of_In in Hj. injection Hid as -> ->.
      apply (List.find_none _ _ Ek) in Hj. by rewrite !(proj2 (str_eqb_eq _ _) eq_refl) in Hj.
  - intros j Hj. exists j. cbn. rewrite elem_of_app. split; [by left|reflexivity].
Qed.

Lemma purge_completed_ok cutoff batch db answer db' : ledger_ok db ->
  account_deletion_purge_completed env cutoff batch db = (answer, db') -> ledger_ok db' /\ ledger_step (le_now env) db db'.
Proof.
  intros Ok. unfold account_deletion_purge_completed. destruct (negb _); intros [= _ <-].
  { split; [done|]. by apply keeps_step. }
  set (limit := Z.min cutoff _). set (gone := take _ _). set (keep := fun j => negb (str_in (j_id j) (map j_id gone))).
  assert (forall {A} (g : job_row -> A) l, NoDup (map g l) -> NoDup (map g (List.filter keep l))) as Nf.
  { intros A g l. induction l as [|x l IH]; [done|]. cbn. intros [N D]%NoDup_cons. destruct (keep x); [|by apply IH]. cbn.
    apply NoDup_cons. split; [|by apply IH]. intros (y & E & Hy)%list_elem_of_fmap. apply N. apply list_elem_of_fmap. exists y.
    split; [done|]. apply list_elem_of_In in Hy. apply List.filter_In in Hy as [Hy _]. by apply list_elem_of_In. }
  pose proof Ok as [F D K]. split.
  - constructor; cbn; [|by apply Nf|by apply Nf]. rewrite Forall_forall in F |- *. intros j [Hj _]%list_elem_of_In%List.filter_In.
    by apply F, list_elem_of_In.
  - intros j Hj. destruct (keep j) eqn:Kj.
    + left. exists j. split; [|reflexivity]. cbn. apply list_elem_of_In, List.filter_In. by rewrite <- list_elem_of_In.
    + right. unfold keep in Kj. apply negb_false_iff, str_in_elem, list_elem_of_fmap in Kj as (g & Eg & Hg).
      unfold gone in Hg. apply (subseteq_take _ _) in Hg. rewrite stable_sort_perm, list_elem_of_In, List.filter_In in Hg.
      destruct Hg as [Hg [S%bool_decide_eq_true Cb]%andb_true_iff]. apply list_elem_of_In in Hg.
      rewrite (unique_job _ _ _ D Hj Hg Eg). split; [done|]. destruct (j_completed g) as [t|]; [|done]. apply Z.ltb_lt in Cb.
      exists t. split; [done|]. unfold limit in Cb. lia.
Qed.

(** Every call keeps the invariant and moves the jobs by steps. *)
Lemma run_op_ok op db answer db' : ledger_ok db -> run_op tj env op db = (answer, db') ->
  ledger_ok db' /\ ledger_step (le_now env) db db'.
Proof.
  intros Ok. assert (ledger_ok db /\ ledger_step (le_now env) db db) as Same by (split; [done|by apply keeps_step]).
  assert (forall db', ledger_ok db' /\ ledger_keeps db db' -> ledger_ok db' /\ ledger_step (le_now env) db db') as Keep.
  { intros d [? ?]. split; [done|]. by apply keeps_step. }
  destruct op as [user ref operation fingerprint|worker seconds batch|id worker fp|id worker code|id worker|id worker|cutoff batch]; cbn [run_op].
  - intros H. apply Keep. by eapply request_ok.
  - intros H. apply (acquire_spec tj env) in H as [[-> _]|(v & _ & Ok' & Kp & _)]; [done| |done]. by apply Keep.
  - unfold account_deletion_purge. destruct (negb _); [by intros [= _ <-]|].
    destruct (account_deletion_assert_owner _ _ _ _) as [j|] eqn:O; [|by intros [= _ <-]]. destruct (owned _ _ _ _ Ok O) as (Hj & _ & S & Jo).
    destruct (negb _); [by intros [= _ <-]|]. destruct (j_purged j) eqn:P; [by intros [= _ <-]|]. intros [= _ <-].
    destruct (purged_step env j P S Jo) as [Js Jo']. apply Keep. by apply (update_job_ok db _ j (purged env)).
  - unfold account_deletion_record_failure. destruct (negb _); [by intros [= _ <-]|].
    destruct (account_deletion_assert_owner _ _ _ _) as [j|] eqn:O; [|by intros [= _ <-]]. destruct (owned _ _ _ _ Ok O) as (Hj & _ & S & Jo).
    intros [= _ <-]. destruct (failed_step env code (if MAX_ATTEMPTS <=? j_attempts j then None else Some (backoff_until env j)) j S Jo) as [Js Jo'].
    apply Keep. by apply (update_job_ok db _ j).
  - unfold account_deletion_record_retry.
    destruct (account_deletion_assert_owner _ _ _ _) as [j|] eqn:O; [|by intros [= _ <-]]. destruct (owned _ _ _ _ Ok O) as (Hj & _ & S & Jo).
    destruct (MAX_ATTEMPTS <=? j_attempts j); intros [= _ <-]; apply Keep.
    + destruct (exhausted_step env j S Jo) as [Js Jo']. by apply (update_job_ok db _ j).
    + destruct (deferred_step env (backoff_until env j) j S Jo) as [Js Jo']. by apply (update_job_ok db _ j).
  - unfold account_deletion_finalize.
    destruct (account_deletion_assert_owner _ _ _ _) as [j|] eqn:O; [|by intros [= _ <-]]. destruct (owned _ _ _ _ Ok O) as (Hj & _ & S & Jo).
    destruct (j_purged j) eqn:P; intros [= _ <-]; [|done]. apply Keep.
    destruct (finalized_step env j S ltac:(by eexists) Jo) as [Js Jo']. by apply (update_job_ok db _ j).
  - by apply purge_completed_ok.
Qed.

End Invariant.
