(* ===== verification/AccountProperties.v ===== *)
(** * Account deletion: the properties

    The ledger under any sequence of calls, the order of the worker's steps
    whatever it is answered, and a deletion from the claim to its completion. *)

From S2P Require Import Prelude PyFloat PyValue Json Admission StorageContracts EmotionalModels TurnExecution AtomicTurnCommit TurnDatabase.
From S2P Require Import AccountLedger AccountDeletion AccountTheorems.

Local Open Scope Z_scope.

(** ** The ledger *)

(** The calls of any number of clients, one transaction after the other. *)
Definition run_ops (tj : Z -> pystr) (calls : list (ledger_env * ledger_op)) (db : account_db) : account_db :=
  foldl (fun db c => (run_op tj c.1 c.2 db).2) db calls.

Definition empty_ledger (rows : list (user_table * pystr)) : account_db := mkAccountDb [] rows.

Lemma empty_ledger_ok rows : ledger_ok (empty_ledger rows).
Proof. by constructor; constructor. Qed.

Lemma run_ops_ok tj calls db : ledger_ok db -> ledger_ok (run_ops tj calls db).
Proof.
  revert db. induction calls as [|[env op] calls IH]; intros db Ok; [done|]. cbn. apply IH.
  destruct (run_op tj env op db) as [a db'] eqn:E. by destruct (run_op_ok tj env op db a db' Ok E).
Qed.

(** Rows of users go only in the purge of a job by the owner of its lease, in
    the same transaction that marks the job as purged. *)
Lemma run_op_rows tj env op db answer db' : run_op tj env op db = (answer, db') ->
  a_rows db' = a_rows db
  \/ exists j worker, op = OpPurge (j_id j) worker (j_fingerprint j) /\ j ∈ a_jobs db /\ j_owner j = Some worker
       /\ j_purged j = None /\ a_rows db' = List.filter (fun r => negb (of_user (j_user j) r)) (a_rows db)
       /\ purged env j ∈ a_jobs db'.
Proof.
  intros H. destruct op as [user ref operation fp|worker seconds batch|id worker fp|id worker code|id worker|id worker|cutoff batch];
    cbn [run_op] in H.
  - left. unfold account_deletion_request in H. repeat case_match; by injection H as _ <-.
  - left. unfold account_deletion_acquire_lease in H. repeat case_match; by injection H as _ <-.
  - unfold account_deletion_purge in H. destruct (negb (is_hash fp)); [left; by injection H as _ <-|].
    destruct (account_deletion_assert_owner _ _ _ _) as [j|] eqn:O; [|left; by injection H as _ <-].
    destruct (str_eqb (j_fingerprint j) fp) eqn:Ef; [|left; by injection H as _ <-]. cbn [negb] in H.
    destruct (j_purged j) eqn:P; [left; by injection H as _ <-|]. injection H as _ <-. right. exists j, worker.
    apply owner_spec in O as (Hj & Hi & _ & Ho & _). apply str_eqb_eq in Ef as <-. split_and!; try done; [congruence|]. cbn.
    pose proof (update_elem (j_id j) (purged env) _ j Hj) as U. by rewrite (proj2 (str_eqb_eq _ _) eq_refl) in U.
  - left. unfold account_deletion_record_failure in H. repeat case_match; by injection H as _ <-.
  - left. unfold account_deletion_record_retry in H. repeat case_match; by injection H as _ <-.
  - left. unfold account_deletion_finalize in H. repeat case_match; by injection H as _ <-.
  - left. unfold account_deletion_purge_completed in H. destruct (negb _); by injection H as _ <-.
Qed.

(** C25. The deletion ledger under any calls.  After any sequence of calls from an
    empty ledger the constraints of the job table hold (a lease exactly while a
    job is processed, at most 100 attempts, a completed job purged and without
    its user, unique ids and operations), and any further call keeps them, moves
    jobs only forward (a purge is never forgotten, a completed job does not
    change) and drops only jobs completed more than thirty days ago.  Rows of
    users disappear only in the purge of a job by the owner of its lease, exactly
    the rows of that user, in the transaction that marks the job. *)
Theorem deletion_ledger_invariant tj calls rows env op answer db' :
  let db := run_ops tj calls (empty_ledger rows) in
  run_op tj env op db = (answer, db') ->
  ledger_ok db /\ ledger_ok db' /\ ledger_step (le_now env) db db'
  /\ (a_rows db' = a_rows db
      \/ exists j worker, op = OpPurge (j_id j) worker (j_fingerprint j) /\ j ∈ a_jobs db /\ j_owner j = Some worker
           /\ j_purged j = None /\ a_rows db' = List.filter (fun r => negb (of_user (j_user j) r)) (a_rows db)
           /\ purged env j ∈ a_jobs db').
Proof.
  intros db H. pose proof (run_ops_ok tj calls _ (empty_ledger_ok rows)) as Ok. fold db in Ok.
  destruct (run_op_ok tj env op db answer db' Ok H) as [Ok' St]. split_and!; try done. by eapply run_op_rows.
Qed.

(** ** The worker *)

Inductive job_outcome : Type := o_completed | o_retry | o_failed | o_lost.

(** The last call for a job, by what the Auth service said. *)
Inductive job_end (job : AcquiredJob) (res : AuthDeleteResult) : job_outcome -> worker_event -> Prop :=
| end_retry o : ad_outcome res = OUTCOME_AUTH_ERROR -> ad_error_code res = Some ERROR_AUTH_UNAVAILABLE -> o <> o_completed ->
    job_end job res o (Retried (aj_job_id job))
| end_failed o code : ad_outcome res <> OUTCOME_DELETED -> ad_outcome res <> OUTCOME_ALREADY_ABSENT -> o = o_failed \/ o = o_lost ->
    job_end job res o (Failed (aj_job_id job) code)
| end_final (ok : bool) : ad_outcome res = OUTCOME_DELETED \/ ad_outcome res = OUTCOME_ALREADY_ABSENT ->
    job_end job res (if ok then o_completed else o_lost) (Finalized (aj_job_id job) ok).

Definition purge_call (job : AcquiredJob) : list worker_event :=
  match aj_db_purged_at job with Some _ => [] | None => [Purged (aj_job_id job) true] end.

(** The calls for one job: the purge unless it is known to be committed, then
    the Auth service, then the conclusion. *)
Inductive job_calls (job : AcquiredJob) : job_outcome -> list worker_event -> Prop :=
| calls_unpurged : aj_db_purged_at job = None -> job_calls job o_failed [Claimed job; Purged (aj_job_id job) false]
| calls_auth o res e : job_end job res o e ->
    job_calls job o (Claimed job :: purge_call job ++ [AuthDeleted (aj_user_id job) res; e]).

Definition count_outcome (o : job_outcome) (r : WorkerRunResult) : WorkerRunResult :=
  match o with o_completed => count_completed r | o_retry => count_retry r | o_failed => count_failed r | o_lost => count_lost r end.

Section Worker.
Context {DB AUTH : Type}.
Context (client : option (pystr -> pydict -> DB -> option pyval * DB)) (config : AccountDeletionWorkerConfig).
Context (delete_user : pystr -> AUTH -> AuthDeleteResult * AUTH) (others : nat -> DB -> DB).

Lemma delete_auth_log job r s x s' :
  delete_auth client config delete_user others job r s = (x, s') ->
  exists o res e, ws_log s' = ws_log s ++ [AuthDeleted (aj_user_id job) res; e] /\ job_end job res o e
    /\ match x with Ok r' => r' = count_outcome o r | Err _ => True end.
Proof.
  unfold delete_auth. destruct (delete_user _ _) as [res auth]. set (s1 := mkWorkerState _ auth _). intros H.
  assert (forall code, ad_outcome res <> OUTCOME_DELETED -> ad_outcome res <> OUTCOME_ALREADY_ABSENT ->
    _record_failure client config others job r code s1 = (x, s') ->
    exists o res0 e, ws_log s' = ws_log s ++ [AuthDeleted (aj_user_id job) res0; e] /\ job_end job res0 o e
      /\ match x with Ok r' => r' = count_outcome o r | Err _ => True end) as Fail.
  { intros code N1 N2. unfold _record_failure. destruct (record_failure _ _ _ _ _) as [[f|e] db]; intros [= <- <-].
    - exists o_failed, res, (Failed (aj_job_id job) code). cbn. rewrite <- app_assoc. split_and!; try done. apply end_failed; auto.
    - exists o_lost, res, (Failed (aj_job_id job) code). cbn. rewrite <- app_assoc. split_and!; [done|apply end_failed; auto|].
      by destruct (ledger_error e). }
  destruct (str_eqb (ad_outcome res) OUTCOME_AUTH_ERROR) eqn:E1.
  - apply str_eqb_eq in E1. assert (ad_outcome res <> OUTCOME_DELETED /\ ad_outcome res <> OUTCOME_ALREADY_ABSENT) as [N1 N2]
      by (rewrite E1; split; vm_compute; discriminate).
    destruct (ad_error_code res) as [code|] eqn:Ec; [|by eapply Fail]. destruct (str_eqb code ERROR_AUTH_UNAVAILABLE) eqn:E2; [|by eapply Fail].
    apply str_eqb_eq in E2 as ->. unfold _record_retry in H. destruct (record_retry _ _ _ _) as [[f|e] db]; injection H as <- <-.
    + exists (if str_eqb (rt_status f) (u "failed") then o_failed else o_retry), res, (Retried (aj_job_id job)). cbn. rewrite <- app_assoc.
      split_and!; [done| |by destruct (str_eqb _ _)]. apply end_retry; try done. by destruct (str_eqb _ _).
    + exists o_lost, res, (Retried (aj_job_id job)). cbn. rewrite <- app_assoc. split_and!; [done|by apply end_retry|by destruct (ledger_error e)].
  - destruct (str_eqb (ad_outcome res) OUTCOME_ALREADY_ABSENT || str_eqb (ad_outcome res) OUTCOME_DELETED) eqn:E2.
    2: { apply orb_false_iff in E2 as [N2 N1]. eapply Fail; [| |exact H]; intros K; by rewrite K, (proj2 (str_eqb_eq _ _) eq_refl) in *. }
    assert (ad_outcome res = OUTCOME_DELETED \/ ad_outcome res = OUTCOME_ALREADY_ABSENT) as D.
    { apply orb_true_iff in E2 as [?%str_eqb_eq|?%str_eqb_eq]; auto. }
    unfold conclude in H. destruct (finalize _ _ _ _) as [[f|e] db]; cbn [is_ok] in H.
    + injection H as <- <-. exists o_completed, res, (Finalized (aj_job_id job) true). cbn. rewrite <- app_assoc.
      split_and!; [done|by apply (end_final _ _ true)|done].
    + exists o_lost, res, (Finalized (aj_job_id job) false).
      assert (job_end job res o_lost (Finalized (aj_job_id job) false)) as Je by (by apply (end_final _ _ false)).
      destruct e; injection H as <- <-; cbn; rewrite <- app_assoc; by split_and!.
Qed.

Lemma process_job_log job r s x s' :
  _process_job client config delete_user others job r s = (x, s') ->
  exists o l, ws_log s' = ws_log s ++ l /\ job_calls job o (Claimed job :: l)
    /\ match x with Ok r' => r' = count_outcome o r | Err _ => True end.
Proof.
  unfold _process_job. destruct (aj_db_purged_at job) as [t|] eqn:P.
  - intros (o & res & e & L & E & X)%delete_auth_log. exists o, [AuthDeleted (aj_user_id job) res; e]. split_and!; try done.
    pose proof (calls_auth job o res e E) as C. unfold purge_call in C. by rewrite P in C.
  - destruct (purge _ _ _ _ _) as [[f|e] db]; cbn [is_ok].
    + intros (o & res & e & L & E & X)%delete_auth_log. exists o, [Purged (aj_job_id job) true; AuthDeleted (aj_user_id job) res; e].
      cbn in L. rewrite <- app_assoc in L. split_and!; try done. pose proof (calls_auth job o res e E) as C. unfold purge_call in C. by rewrite P in C.
    + intros [= <- <-]. exists o_failed, [Purged (aj_job_id job) false]. split_and!; [done|by constructor|]. by destruct (ledger_error e).
Qed.

(** The calls of a round, job by job. *)
Definition outcome_count (o : job_outcome) (jobs : list (job_outcome * list worker_event)) : Z :=
  Z.of_nat (length (List.filter (fun j => match o, j.1 with
    | o_completed, o_completed | o_retry, o_retry | o_failed, o_failed | o_lost, o_lost => true | _, _ => false end) jobs)).

Lemma rounds_log left any r s x s' :
  rounds client config delete_user others left any r s = (x, s') ->
  exists jobs, ws_log s' = ws_log s ++ concat (map snd jobs) /\ (length jobs <= left)%nat
    /\ Forall (fun j => exists job, job_calls job j.1 j.2) jobs
    /\ match x with
       | Ok (r', any') => any' = any || negb (bool_decide (jobs = []))
           /\ wr_completed r' = wr_completed r + outcome_count o_completed jobs
           /\ wr_retry_scheduled r' = wr_retry_scheduled r + outcome_count o_retry jobs
           /\ wr_failed r' = wr_failed r + outcome_count o_failed jobs
           /\ wr_lease_lost r' = wr_lease_lost r + outcome_count o_lost jobs
       | Err _ => True
       end.
Proof.
  revert any r s. induction left as [|left IH]; intros any r s H; cbn [rounds] in H.
  { injection H as <- <-. exists []. unfold outcome_count. cbn. rewrite app_nil_r, orb_false_r. split_and!; [done|lia|by apply Forall_nil|done|lia|lia|lia|lia]. }
  destruct (acquire_lease _ _ _ _ _ _) as [[[job|]|e] db].
  - destruct (_process_job _ _ _ _ _ _ _) as [[r1|e] s1] eqn:P; apply process_job_log in P as (o & l & L & C & X); cbn in L;
      rewrite <- app_assoc in L.
    + subst r1. apply IH in H as (jobs & L' & Len & F & X'). exists ((o, Claimed job :: l) :: jobs). cbn [map concat length snd].
      split_and!; [by rewrite L', L, <- app_assoc|lia|constructor; [by exists job|done]|].
      destruct x as [[r' any']|]; [|done]. destruct X' as (-> & -> & -> & -> & ->).
      rewrite (bool_decide_eq_false_2 (_ :: _ = [])) by done. cbn [negb]. rewrite orb_true_r.
      split; [done|]. unfold outcome_count. destruct o; cbn; lia.
    + injection H as <- <-. exists [(o, Claimed job :: l)]. cbn. rewrite app_nil_r. split_and!; [done|lia|apply Forall_singleton; by exists job|done].
  - injection H as <- <-. exists []. unfold outcome_count. cbn. rewrite app_nil_r, orb_false_r. split_and!; [done|lia|by apply Forall_nil|done|lia|lia|lia|lia].
  - injection H as <- <-. exists []. cbn. rewrite app_nil_r. split_and!; [done|lia|by apply Forall_nil|done].
Qed.


End Worker.

(** ** The worker over the ledger *)

Definition int_arg (v : pyval) : option Z :=
  match v with PInt z => if (- 2 ^ 31 <=? z) && (z <? 2 ^ 31) then Some z else None | _ => None end.

(** A call by its name, with the arguments the worker sends. *)
Definition ledger_call (tj : Z -> pystr) (env : ledger_env) (name : pystr) (d : pydict) (db : account_db) : option pyval * account_db :=
  let op :=
    if str_eqb name (u "account_deletion_acquire_lease") then
      worker ← text_arg (dindex d (u "p_worker_id")); seconds ← int_arg (dindex d (u "p_lease_seconds"));
      batch ← int_arg (dindex d (u "p_max_batch")); Some (OpAcquire worker seconds batch)
    else if str_eqb name (u "account_deletion_purge") then
      id ← uuid_arg (dindex d (u "p_job_id")); worker ← text_arg (dindex d (u "p_worker_id"));
      fp ← text_arg (dindex d (u "p_intent_fingerprint_sha256")); Some (OpPurge id worker fp)
    else if str_eqb name (u "account_deletion_record_failure") then
      id ← uuid_arg (dindex d (u "p_job_id")); worker ← text_arg (dindex d (u "p_worker_id"));
      code ← text_arg (dindex d (u "p_error_code")); Some (OpFailure id worker code)
    else if str_eqb name (u "account_deletion_record_retry") then
      id ← uuid_arg (dindex d (u "p_job_id")); worker ← text_arg (dindex d (u "p_worker_id")); Some (OpRetry id worker)
    else if str_eqb name (u "account_deletion_finalize") then
      id ← uuid_arg (dindex d (u "p_job_id")); worker ← text_arg (dindex d (u "p_worker_id")); Some (OpFinalize id worker)
    else None in
  match op with Some op => run_op tj env op db | None => (None, db) end.

(** The database counts its calls, and each call has its own clock. *)
Definition ledger_client (tj : Z -> pystr) (envs : nat -> ledger_env) (name : pystr) (params : pydict) (s : account_db * nat)
    : option pyval * (account_db * nat) :=
  let '(answer, db) := ledger_call tj (envs s.2) name params s.1 in (answer, (db, S s.2)).

(** A job as its columns are typed. *)
Record job_typed (j : job_row) : Prop := {
  jt_id : is_uuid (j_id j) = true;
  jt_operation : is_uuid (j_operation j) = true;
  jt_ref : is_hash (j_ref j) = true;
  jt_fingerprint : is_hash (j_fingerprint j) = true }.

Lemma hash_hex64 s : is_hash s = true -> is_hex64 s = true /\ pg_text_ok s = true.
Proof.
  intros H. split; [exact H|]. unfold is_hash in H. apply andb_true_iff in H as [_ H]. unfold pg_text_ok.
  rewrite forallb_forall in H |- *. intros c Hc%H. unfold is_hex_lower, is_digit in Hc.
  assert (48 <= c <= 57 \/ 97 <= c <= 102)%N as B.
  { apply orb_true_iff in Hc as [[?%N.leb_le ?%N.leb_le]%andb_true_iff|[?%N.leb_le ?%N.leb_le]%andb_true_iff]; lia. }
  assert ((c =? 0)%N = false) as -> by (apply N.eqb_neq; lia). cbn [negb andb]. unfold is_surrogate.
  destruct (N.leb_spec 55296 c); [lia|done].
Qed.

Lemma worker_text w : is_worker_id w = true -> pg_text_ok w = true.
Proof.
  unfold is_worker_id, is_lease_owner. intros [_ H]%andb_true_iff. unfold pg_text_ok. rewrite forallb_forall in H |- *. intros c Hc%H.
  assert (c <= 122 /\ c <> 0)%N as [B Z].
  { unfold is_ident_char, is_lower, is_upper, is_digit in Hc.
    rewrite !orb_true_iff, !andb_true_iff, !N.leb_le, !N.eqb_eq in Hc. lia. }
  assert ((c =? 0)%N = false) as -> by (by apply N.eqb_neq). cbn [negb andb]. unfold is_surrogate.
  destruct (N.leb_spec 55296 c); [lia|done].
Qed.

(** The parser reads the answer of a claim. *)
Lemma claim_parsed tj worker j user t : job_typed j -> j_user j = Some user -> j_status j = jb_processing -> j_expires j = Some t ->
  _parse_acquired_job (claim_answer tj worker j) None
  = Ok (Some (mkAcquiredJob (j_id j) user (j_ref j) (j_operation j) (u "processing") worker (tj t) (j_attempts j)
      (tj <$> j_purged j) (j_fingerprint j))).
Proof.
  intros [Ti To Tr Tf] U S E. unfold _parse_acquired_job, claim_answer. cbn [_require_mapping as_mapping rbind]. rewrite U, S, E. cbn [status_text opt_time].
  set (d := _ :: _). replace (dhas d (u "error")) with false by reflexivity.
  replace (dget d (u "found")) with (Some (PBool true)) by reflexivity. cbn [rbind].
  replace (_require_fields d _ _) with (@Ok commit_exn unit tt) by reflexivity. cbn [rbind].
  replace (_require_text d (u "user_id")) with (@Ok commit_exn _ user) by reflexivity. cbn [rbind raise_if].
  replace (_require_text d (u "status")) with (@Ok commit_exn _ (u "processing")) by reflexivity. cbn [rbind].
  replace (negb (str_eqb (u "processing") (u "processing"))) with false by reflexivity. cbn [rbind raise_if].
  assert (forall key s, dget d key = Some (PStr s) -> is_uuid s = true -> _require_uuid_text d key = Ok s) as Ru.
  { intros key s Hg Hs. unfold _require_uuid_text, _require_text. rewrite Hg. cbn [rbind]. unfold uuid_match. by rewrite Hs. }
  assert (forall key s, dget d key = Some (PStr s) -> is_hash s = true -> _require_hex64 d key = Ok s) as Rh.
  { intros key s Hg Hs. unfold _require_hex64, _require_text. rewrite Hg. cbn [rbind]. unfold dollar_match.
    destruct (hash_hex64 s Hs) as [-> _]. done. }
  rewrite (Ru (u "job_id") (j_id j) eq_refl Ti). cbn [rbind]. rewrite (Rh (u "user_ref_hmac_sha256") (j_ref j) eq_refl Tr). cbn [rbind].
  rewrite (Ru (u "operation_id") (j_operation j) eq_refl To). cbn [rbind].
  replace (_require_text d (u "lease_owner")) with (@Ok commit_exn _ worker) by reflexivity. cbn [rbind].
  replace (_require_text d (u "lease_expires_at")) with (@Ok commit_exn _ (tj t)) by reflexivity. cbn [rbind].
  replace (_require_int d (u "attempts")) with (@Ok commit_exn _ (j_attempts j)) by reflexivity. cbn [rbind].
  assert (_optional_text d (u "db_purged_at") = Ok (tj <$> j_purged j)) as ->.
  { unfold _optional_text. replace (dindex d (u "db_purged_at")) with (opt_time tj (j_purged j)) by reflexivity.
    by destruct (j_purged j). }
  cbn [rbind]. by rewrite (Rh (u "intent_fingerprint_sha256") (j_fingerprint j) eq_refl Tf).
Qed.

Lemma purge_parsed tj status id t f : is_uuid id = true -> status = u "purged" \/ status = u "already_purged" ->
  is_ok (_parse_purge_result (purge_answer tj status id t f)) = true.
Proof.
  intros Hi Hs. unfold _parse_purge_result, purge_answer. cbn [_require_mapping as_mapping rbind]. set (d := _ :: _).
  replace (dhas d (u "error")) with false by reflexivity. replace (_require_fields d _ _) with (@Ok commit_exn unit tt) by reflexivity.
  cbn [rbind]. replace (_require_text d (u "status")) with (@Ok commit_exn _ status) by reflexivity. cbn [rbind].
  assert (str_in status [u "purged"; u "already_purged"] = true) as -> by (destruct Hs as [-> | ->]; reflexivity). cbn [negb raise_if rbind].
  replace (dindex d (u "counts")) with (counts f) by reflexivity. cbn [_require_mapping as_mapping counts rbind].
  replace (negb (exactly _ _)) with false by reflexivity. cbn [raise_if rbind].
  replace (rmap _ expected_counts) with (@Ok commit_exn _ (map (fun t => (table_text t, f t)) purge_tables)) by reflexivity. cbn [rbind].
  unfold _require_uuid_text. replace (_require_text d (u "job_id")) with (@Ok commit_exn _ id) by reflexivity. cbn [rbind].
  unfold uuid_match. rewrite Hi. reflexivity.
Qed.

Lemma finalize_parsed (tj : Z -> pystr) id t1 t2 : is_uuid id = true ->
  is_ok (_parse_finalize_result (PDict [(KStr (u "status"), PStr (u "completed")); (KStr (u "job_id"), PStr id);
    (KStr (u "completed_at"), PStr (tj t1)); (KStr (u "db_purged_at"), PStr (tj t2))])) = true.
Proof.
  intros Hi. unfold _parse_finalize_result. cbn [_require_mapping as_mapping rbind]. set (d := _ :: _).
  replace (dhas d (u "error")) with false by reflexivity. replace (_require_fields d _ _) with (@Ok commit_exn unit tt) by reflexivity.
  cbn [rbind]. replace (_require_text d (u "status")) with (@Ok commit_exn _ (u "completed")) by reflexivity. cbn [rbind].
  replace (negb (str_eqb (u "completed") (u "completed"))) with false by reflexivity. cbn [raise_if rbind].
  unfold _require_uuid_text. replace (_require_text d (u "job_id")) with (@Ok commit_exn _ id) by reflexivity. cbn [rbind].
  unfold uuid_match. rewrite Hi. reflexivity.
Qed.

Lemma find_updated jobs j f : NoDup (map j_id jobs) -> j ∈ jobs -> j_id (f j) = j_id j ->
  find_job (j_id j) (update_job (j_id j) f jobs) = Some (f j).
Proof.
  unfold find_job, update_job. intros D Hj Hf. induction jobs as [|x jobs IH]; [by apply elem_of_nil in Hj|].
  cbn [map] in D. apply NoDup_cons in D as [N D]. cbn [map List.find]. apply elem_of_cons in Hj as [<-|Hj].
  - rewrite (proj2 (str_eqb_eq _ _) eq_refl), Hf. by rewrite (proj2 (str_eqb_eq _ _) eq_refl).
  - assert (str_eqb (j_id x) (j_id j) = false) as E.
    { apply not_true_is_false. intros E%str_eqb_eq. apply N. rewrite E. apply list_elem_of_fmap. by exists j. }
    rewrite E. cbn. rewrite E. by apply IH.
Qed.

Section Completes.
Context (tj : Z -> pystr) (envs : nat -> ledger_env) (config : AccountDeletionWorkerConfig) {AUTH : Type}.
Context (delete_user : pystr -> AUTH -> AuthDeleteResult * AUTH).

Definition worker : pystr := wc_worker_id config.
Definition seconds : Z := wc_lease_seconds config.

(** The configuration of the worker is the one the ledger accepts. *)
Definition config_valid : Prop :=
  is_worker_id worker = true /\ 1 <= seconds <= 3600 /\ 1 <= wc_max_batch config <= 1000.

Context (valid : config_valid).

Lemma call_acquire db n j : ledger_ok db -> claimable (envs n) (a_jobs db) = Some j -> j_attempts j < MAX_ATTEMPTS ->
  ledger_client tj envs (u "account_deletion_acquire_lease")
    [(KStr (u "p_worker_id"), PStr worker); (KStr (u "p_lease_seconds"), PInt seconds);
     (KStr (u "p_max_batch"), PInt (wc_max_batch config))] (db, n)
  = (Some (claim_answer tj worker (claimed (envs n) worker seconds j)),
     (with_jobs (update_job (j_id j) (claimed (envs n) worker seconds) (a_jobs db)) db, S n)).
Proof using valid.
  destruct valid as (Vw & Vs & Vb). intros Ok C Lt. unfold ledger_client. cbn [fst snd].
  assert (ledger_call tj (envs n) (u "account_deletion_acquire_lease")
    [(KStr (u "p_worker_id"), PStr worker); (KStr (u "p_lease_seconds"), PInt seconds); (KStr (u "p_max_batch"), PInt (wc_max_batch config))] db
    = match (w ← text_arg (PStr worker); s ← int_arg (PInt seconds); b ← int_arg (PInt (wc_max_batch config)); Some (OpAcquire w s b)) with
      | Some op => run_op tj (envs n) op db | None => (None, db) end) as -> by reflexivity.
  unfold text_arg. rewrite (worker_text _ Vw). unfold int_arg.
  assert (forall z, 1 <= z <= 3600 -> (- 2 ^ 31 <=? z) && (z <? 2 ^ 31) = true) as Small by (intros; apply andb_true_iff; split; [apply Z.leb_le|apply Z.ltb_lt]; lia).
  rewrite !Small by lia. cbn [mbind option_bind run_op]. unfold account_deletion_acquire_lease. rewrite Vw.
  assert ((1 <=? seconds) && (seconds <=? 3600) = true) as -> by (apply andb_true_iff; split; apply Z.leb_le; lia).
  assert ((1 <=? wc_max_batch config) && (wc_max_batch config <=? 1000) = true) as -> by (apply andb_true_iff; split; apply Z.leb_le; lia).
  cbn [negb acquire_loop]. rewrite C. assert (MAX_ATTEMPTS <=? j_attempts j = false) as -> by (by apply Z.leb_gt). by rewrite andb_false_r.
Qed.

(** The worker owns the job it has claimed until the lease ends. *)
Lemma owns db env k f : find_job (j_id k) (a_jobs db) = Some (f k) -> j_status (f k) = jb_processing -> j_owner (f k) = Some worker ->
  (exists t, j_expires (f k) = Some t /\ le_check env < t) -> account_deletion_assert_owner env (j_id k) worker db = Some (f k).
Proof using valid.
  destruct valid as (Vw & _). intros F S O (t & E & Lt). unfold account_deletion_assert_owner. rewrite Vw. cbn [negb]. rewrite F. cbn [mbind option_bind].
  rewrite S, O, E, (proj2 (str_eqb_eq _ _) eq_refl), (proj2 (Z.ltb_lt _ _) Lt). by rewrite bool_decide_eq_true_2.
Qed.

Lemma call_purge db n k at_ : account_deletion_assert_owner (envs n) (j_id k) worker db = Some k -> job_typed k -> j_purged k = None ->
  at_ = le_now (envs n) ->
  exists res, purge (Some (ledger_client tj envs)) (j_id k) worker (j_fingerprint k) (db, n)
  = (Ok res, (mkAccountDb (update_job (j_id k) (purged (envs n)) (a_jobs db)) (List.filter (fun r => negb (of_user (j_user k) r)) (a_rows db)), S n)).
Proof using valid.
  destruct valid as (Vw & _). intros O [Ti To Tr Tf] P ->. unfold purge, _rpc_call, ledger_client. cbn [fst snd].
  assert (forall d, ledger_call tj (envs n) (u "account_deletion_purge") [(KStr (u "p_job_id"), PStr (j_id k)); (KStr (u "p_worker_id"), PStr worker);
     (KStr (u "p_intent_fingerprint_sha256"), PStr (j_fingerprint k))] d
    = match (id ← uuid_arg (PStr (j_id k)); w ← text_arg (PStr worker); fp ← text_arg (PStr (j_fingerprint k)); Some (OpPurge id w fp)) with
      | Some op => run_op tj (envs n) op d | None => (None, d) end) as -> by reflexivity.
  unfold uuid_arg, text_arg. rewrite Ti, (worker_text _ Vw), (proj2 (hash_hex64 _ Tf)). cbn [mbind option_bind run_op].
  unfold account_deletion_purge. rewrite Tf, O, (proj2 (str_eqb_eq _ _) eq_refl), P. cbn [negb]. unfold parsed. cbn [fst snd rbind].
  pose proof (purge_parsed tj (u "purged") (j_id k) (le_now (envs n))
    (fun t => match j_user k with Some s => row_count t s (a_rows db) | None => 0 end) Ti (or_introl eq_refl)) as Ok.
  destruct (_parse_purge_result _) as [res|]; [by exists res|done].
Qed.

Lemma call_finalize db n k t : account_deletion_assert_owner (envs n) (j_id k) worker db = Some k -> is_uuid (j_id k) = true ->
  j_purged k = Some t ->
  exists res, finalize (Some (ledger_client tj envs)) (j_id k) worker (db, n)
  = (Ok res, (with_jobs (update_job (j_id k) (finalized (envs n)) (a_jobs db)) db, S n)).
Proof using valid.
  destruct valid as (Vw & _). intros O Ti P. unfold finalize, _rpc_call, ledger_client. cbn [fst snd].
  assert (forall d, ledger_call tj (envs n) (u "account_deletion_finalize") [(KStr (u "p_job_id"), PStr (j_id k)); (KStr (u "p_worker_id"), PStr worker)] d
    = match (id ← uuid_arg (PStr (j_id k)); w ← text_arg (PStr worker); Some (OpFinalize id w)) with
      | Some op => run_op tj (envs n) op d | None => (None, d) end) as -> by reflexivity.
  unfold uuid_arg, text_arg. rewrite Ti, (worker_text _ Vw). cbn [mbind option_bind run_op].
  unfold account_deletion_finalize. rewrite O, P. unfold parsed. cbn [fst snd rbind].
  pose proof (finalize_parsed tj (j_id k) (le_now (envs n)) t Ti) as Ok.
  destruct (_parse_finalize_result _) as [res|]; [by exists res|done].
Qed.

(** The job row a completed deletion leaves. *)
Definition deleted_job (db : account_db) (id : pystr) : Prop :=
  exists j, find_job id (a_jobs db) = Some j /\ j_status j = jb_completed /\ j_user j = None /\ is_Some (j_purged j).

(** Steps 2 and 3 for a job this worker owns and whose data is purged. *)
Lemma conclude_ok db n log auth auth' res r k job t : NoDup (map j_id (a_jobs db)) -> k ∈ a_jobs db -> is_uuid (j_id k) = true ->
  aj_job_id job = j_id k -> j_purged k = Some t -> account_deletion_assert_owner (envs n) (j_id k) worker db = Some k ->
  delete_user (aj_user_id job) auth = (res, auth') -> ad_outcome res = OUTCOME_DELETED \/ ad_outcome res = OUTCOME_ALREADY_ABSENT ->
  exists s', delete_auth (Some (ledger_client tj envs)) config delete_user (fun _ d => d) job r (mkWorkerState (db, n) auth log)
    = (Ok (count_completed r), s') /\ ws_auth s' = auth' /\ a_rows (ws_db s').1 = a_rows db /\ deleted_job (ws_db s').1 (j_id k).
Proof using valid.
  intros D Hk Ti Ej P O A Res. destruct (call_finalize db n k t O Ti P) as [fin F].
  unfold delete_auth. cbn [ws_auth]. rewrite A. cbn [ws_db].
  assert (str_eqb (ad_outcome res) OUTCOME_AUTH_ERROR = false) as -> by (by destruct Res as [-> | ->]; vm_compute).
  assert (str_eqb (ad_outcome res) OUTCOME_ALREADY_ABSENT || str_eqb (ad_outcome res) OUTCOME_DELETED = true) as ->
    by (by destruct Res as [-> | ->]; vm_compute).
  unfold conclude, meanwhile. cbn [ws_db ws_log]. fold worker. rewrite Ej, F. cbn [is_ok].
  eexists. split; [reflexivity|]. cbn. split_and!; [done|done|].
  exists (finalized (envs n) k). split; [by apply (find_updated (a_jobs db) k (finalized (envs n)))|]. by split_and!.
Qed.

Lemma claimed_typed env w sec j : job_typed j -> job_typed (claimed env w sec j).
Proof. by intros []. Qed.


End Completes.

(** ** A deletion, concretely *)

Definition sample_id (c : N) : pystr := repeat c 8 ++ u "-1111-1111-1111-111111111111".
Definition sample_ref : pystr := repeat 97%N 64.
Definition sample_ledger_env (now : Z) (id : pystr) : ledger_env := mkLedgerEnv now now id (fun _ => false).
Definition sample_envs (n : nat) : ledger_env := sample_ledger_env (Z.of_nat n * second) (sample_id 50).
Definition sample_rows : list (user_table * pystr) := [(memories_t, u "ada"); (profiles_t, u "bob"); (profiles_t, u "ada")].

Definition sample_calls : list (ledger_env * ledger_op) :=
  [(sample_ledger_env 0 (sample_id 49), OpRequest (u "ada") sample_ref (sample_id 51) sample_ref);
   (sample_ledger_env second (sample_id 49), OpAcquire (u "worker-a") 60 1)].

Lemma deletion_ledger_invariant_witness : exists answer db',
  run_op render_int (sample_envs 2) (OpPurge (sample_id 49) (u "worker-a") sample_ref)
    (run_ops render_int sample_calls (empty_ledger sample_rows)) = (answer, db')
  /\ a_rows db' = [(profiles_t, u "bob")] /\ ledger_ok db'.
Proof.
  eexists _, _. split; [vm_compute; reflexivity|]. split; [reflexivity|].
  eapply (deletion_ledger_invariant render_int sample_calls sample_rows (sample_envs 2) (OpPurge (sample_id 49) (u "worker-a") sample_ref)).
  vm_compute. reflexivity.
Defined.

Definition sample_config : AccountDeletionWorkerConfig := mkWorkerConfig (u "worker-b") 60 1.
Definition sample_ledger : account_db := run_ops render_int (take 1 sample_calls) (empty_ledger sample_rows).
Definition sample_delete (user : pystr) (gone : list pystr) : AuthDeleteResult * list pystr :=
  (mkAuthDeleteResult OUTCOME_DELETED None, user :: gone).
Definition sample_worker : worker_result * worker_state :=
  run_once (Some (ledger_client render_int sample_envs)) sample_config sample_delete (fun _ d => d)
    (mkWorkerState (sample_ledger, 1%nat) [] []).


