(* ===== verification/TransactionalSchema.v ===== *)
(** * The transactional records (transactional_schema.py)

    [TurnRequestRecord] and [OutboxEventRecord], the typed views of the rows of the
    turn database, with their conversions.  The dataclasses check nothing, so a
    field is any value; their payloads are frozen on construction. *)

From S2P Require Import Prelude PyFloat PyValue Json StorageContracts AtomicTurnCommit CommitTheorems.

(** [row.get(key)]. *)
Definition get (row : pydict) (key : string) : pyval := default PNone (dget row (u key)).

(** ** Turn requests *)

Record TurnRequestRecord : Type := mkTurnRequestRecord {
  tq_user_id : pyval;
  tq_request_id : pyval;
  tq_payload_hash_sha256 : pyval;
  tq_status : pyval;
  tq_expected_revision : pyval;
  tq_lease_owner : pyval;
  tq_lease_expires_at : pyval;
  tq_committed_revision : pyval;
  tq_user_message_chat_log_id : pyval;
  tq_assistant_message_chat_log_id : pyval;
  tq_replay_payload : pyval;
  tq_error_code : pyval;
  tq_id : pyval;
  tq_created_at : pyval;
  tq_updated_at : pyval;
  tq_completed_at : pyval }.

(** [__post_init__]: an absent payload stays absent. *)
Definition frozen_payload (v : pyval) : pyval := match v with PNone => PNone | v => _deep_freeze v end.

Definition TurnRequestRecord_init (user_id request_id payload_hash_sha256 status expected_revision lease_owner lease_expires_at committed_revision user_message_chat_log_id assistant_message_chat_log_id replay_payload error_code id created_at updated_at completed_at : pyval) : TurnRequestRecord :=
  mkTurnRequestRecord user_id request_id payload_hash_sha256 status expected_revision lease_owner lease_expires_at committed_revision user_message_chat_log_id assistant_message_chat_log_id (frozen_payload replay_payload) error_code id created_at updated_at completed_at.

Definition thawed_payload (v : pyval) : pyval := match v with PNone => PNone | v => _deep_unfreeze v end.

Definition TurnRequestRecord_to_db_row (r : TurnRequestRecord) : pydict :=
  [(KStr (u "user_id"), tq_user_id r); (KStr (u "request_id"), tq_request_id r);
   (KStr (u "payload_hash_sha256"), tq_payload_hash_sha256 r); (KStr (u "status"), tq_status r);
   (KStr (u "expected_revision"), tq_expected_revision r); (KStr (u "lease_owner"), tq_lease_owner r);
   (KStr (u "lease_expires_at"), tq_lease_expires_at r); (KStr (u "committed_revision"), tq_committed_revision r);
   (KStr (u "user_message_chat_log_id"), tq_user_message_chat_log_id r);
   (KStr (u "assistant_message_chat_log_id"), tq_assistant_message_chat_log_id r);
   (KStr (u "replay_payload"), thawed_payload (tq_replay_payload r)); (KStr (u "error_code"), tq_error_code r);
   (KStr (u "id"), tq_id r); (KStr (u "created_at"), tq_created_at r); (KStr (u "updated_at"), tq_updated_at r);
   (KStr (u "completed_at"), tq_completed_at r)].

(** [None] is the [KeyError] of a missing required column. *)
Definition TurnRequestRecord_from_db_row (row : pydict) : option TurnRequestRecord :=
  user_id ← dget row (u "user_id");
  request_id ← dget row (u "request_id");
  payload_hash_sha256 ← dget row (u "payload_hash_sha256");
  status ← dget row (u "status");
  Some (TurnRequestRecord_init user_id request_id payload_hash_sha256 status (default (PInt 0) (dget row (u "expected_revision")))
    (get row "lease_owner") (get row "lease_expires_at") (get row "committed_revision")
    (get row "user_message_chat_log_id") (get row "assistant_message_chat_log_id")
    (get row "replay_payload") (get row "error_code") (get row "id") (get row "created_at")
    (get row "updated_at") (get row "completed_at")).

(** Dropping the server-owned columns that are [None]. *)
Definition drop_absent (columns : list pystr) (row : pydict) : pydict :=
  foldl (fun row c => match dget row c with Some PNone => dpop row c | _ => row end) row columns.

Definition TURN_SERVER_OWNED : list pystr := [u "id"; u "created_at"; u "updated_at"; u "completed_at"].

Definition TurnRequestRecord_to_insert_row (r : TurnRequestRecord) : pydict := drop_absent TURN_SERVER_OWNED (TurnRequestRecord_to_db_row r).

(** ** Outbox events *)

Record OutboxEventRecord : Type := mkOutboxEventRecord {
  oe_event_type : pyval;
  oe_user_id : pyval;
  oe_payload : pyval;
  oe_status : pyval;
  oe_idempotency_key : pyval;
  oe_contract_version : pyval;
  oe_attempts : pyval;
  oe_turn_request_id : pyval;
  oe_next_attempt_at : pyval;
  oe_lease_owner : pyval;
  oe_lease_expires_at : pyval;
  oe_error_code : pyval;
  oe_id : pyval;
  oe_created_at : pyval;
  oe_updated_at : pyval;
  oe_processed_at : pyval;
  oe_dead_lettered_at : pyval;
  oe_retention_until : pyval }.

Definition OutboxEventRecord_init (event_type user_id payload status idempotency_key contract_version attempts turn_request_id next_attempt_at lease_owner lease_expires_at error_code id created_at updated_at processed_at dead_lettered_at retention_until : pyval) : OutboxEventRecord :=
  mkOutboxEventRecord event_type user_id (_deep_freeze payload) status idempotency_key contract_version attempts turn_request_id next_attempt_at lease_owner lease_expires_at error_code id created_at updated_at processed_at dead_lettered_at retention_until.

Definition OutboxEventRecord_to_db_row (r : OutboxEventRecord) : pydict :=
  [(KStr (u "event_type"), oe_event_type r); (KStr (u "user_id"), oe_user_id r);
   (KStr (u "payload"), _deep_unfreeze (oe_payload r)); (KStr (u "status"), oe_status r);
   (KStr (u "idempotency_key"), oe_idempotency_key r); (KStr (u "contract_version"), oe_contract_version r);
   (KStr (u "attempts"), oe_attempts r); (KStr (u "turn_request_id"), oe_turn_request_id r);
   (KStr (u "next_attempt_at"), oe_next_attempt_at r); (KStr (u "lease_owner"), oe_lease_owner r);
   (KStr (u "lease_expires_at"), oe_lease_expires_at r); (KStr (u "error_code"), oe_error_code r);
   (KStr (u "id"), oe_id r); (KStr (u "created_at"), oe_created_at r); (KStr (u "updated_at"), oe_updated_at r);
   (KStr (u "processed_at"), oe_processed_at r); (KStr (u "dead_lettered_at"), oe_dead_lettered_at r);
   (KStr (u "retention_until"), oe_retention_until r)].

Definition OutboxEventRecord_from_db_row (row : pydict) : option OutboxEventRecord :=
  event_type ← dget row (u "event_type");
  user_id ← dget row (u "user_id");
  payload ← dget row (u "payload");
  status ← dget row (u "status");
  idempotency_key ← dget row (u "idempotency_key");
  Some (OutboxEventRecord_init event_type user_id payload status idempotency_key
    (default (PInt 1) (dget row (u "contract_version")))
    (default (PInt 0) (dget row (u "attempts"))) (get row "turn_request_id")
    (get row "next_attempt_at") (get row "lease_owner") (get row "lease_expires_at")
    (get row "error_code") (get row "id") (get row "created_at") (get row "updated_at")
    (get row "processed_at") (get row "dead_lettered_at") (get row "retention_until")).

Definition OUTBOX_SERVER_OWNED : list pystr :=
  [u "id"; u "created_at"; u "updated_at"; u "processed_at"; u "dead_lettered_at"; u "retention_until"].

Definition OutboxEventRecord_to_insert_row (r : OutboxEventRecord) : pydict := drop_absent OUTBOX_SERVER_OWNED (OutboxEventRecord_to_db_row r).

(** ** Properties *)

(** A row says the same with its absent columns dropped, where it is read with a default. *)
Lemma get_dropped columns row k :
  (str_in k columns = false -> dget (drop_absent columns row) k = dget row k)
  /\ default PNone (dget (drop_absent columns row) k) = default PNone (dget row k)
  /\ (str_in k columns = true -> dget (drop_absent columns row) k <> Some PNone).
Proof.
  unfold drop_absent. revert row. induction columns as [|c columns IH]; intros row; [done|]. cbn [foldl].
  set (row1 := match dget row c with Some PNone => _ | _ => _ end). destruct (IH row1) as (I1 & I2 & I3).
  assert (dget row1 k = if str_eqb c k && match dget row c with Some PNone => true | _ => false end then None else dget row k) as E1.
  { unfold row1. destruct (dget row c) as [[]|]; rewrite ?andb_false_r, ?andb_true_r; try done. apply dget_dpop. }
  change (str_in k (c :: columns)) with (str_eqb k c || str_in k columns).
  assert (str_eqb k c = str_eqb c k) as -> by (unfold str_eqb; apply bool_decide_ext; split; congruence). split_and!.
  - intros [N1 N2]%orb_false_iff. rewrite I1 by done. rewrite E1, N1. done.
  - rewrite I2, E1. destruct (str_eqb c k) eqn:E; [|done]. apply str_eqb_eq in E as ->. by destruct (dget row k) as [[]|].
  - intros [E|H]%orb_true_iff; [|by apply I3]. destruct (str_in k columns) eqn:H; [by apply I3|]. rewrite I1, E1, E by done.
    apply str_eqb_eq in E as ->. by destruct (dget row k) as [[]|].
Qed.

Lemma payload_kept v : frozen_payload (thawed_payload (frozen_payload v)) = frozen_payload v.
Proof. destruct v; try done; cbn [frozen_payload thawed_payload]; apply (freeze_thaw (PList _)) || apply (freeze_thaw (PTuple _)) || apply (freeze_thaw (PDict _)) || apply (freeze_thaw (PProxy _)). Qed.

(** What the constructors build. *)
Definition turn_constructed (r : TurnRequestRecord) : Prop := exists v, tq_replay_payload r = frozen_payload v.
Definition event_constructed (r : OutboxEventRecord) : Prop := exists v, oe_payload r = _deep_freeze v.

(** A record survives its row: reading the row a constructed record writes, for a
    comparison or for an insert (without the server-owned columns that are
    absent), gives the record back; and an insert never sends an absent
    server-owned column. *)
Theorem schema_record_roundtrip :
  (forall r, turn_constructed r ->
     TurnRequestRecord_from_db_row (TurnRequestRecord_to_db_row r) = Some r
     /\ TurnRequestRecord_from_db_row (TurnRequestRecord_to_insert_row r) = Some r
     /\ forall k, str_in k TURN_SERVER_OWNED = true -> dget (TurnRequestRecord_to_insert_row r) k <> Some PNone)
  /\ (forall r, event_constructed r ->
     OutboxEventRecord_from_db_row (OutboxEventRecord_to_db_row r) = Some r
     /\ OutboxEventRecord_from_db_row (OutboxEventRecord_to_insert_row r) = Some r
     /\ forall k, str_in k OUTBOX_SERVER_OWNED = true -> dget (OutboxEventRecord_to_insert_row r) k <> Some PNone).
Proof.
  split; intros r [v Hv].
  - assert (forall row, row = TurnRequestRecord_to_db_row r \/ row = TurnRequestRecord_to_insert_row r ->
      (forall k, str_in k TURN_SERVER_OWNED = false -> dget row k = dget (TurnRequestRecord_to_db_row r) k)
      /\ (forall k, default PNone (dget row k) = default PNone (dget (TurnRequestRecord_to_db_row r) k))) as Same.
    { intros row [-> | ->]; [done|]. split; intros k; intros; by apply get_dropped. }
    assert (forall row, row = TurnRequestRecord_to_db_row r \/ row = TurnRequestRecord_to_insert_row r ->
      TurnRequestRecord_from_db_row row = Some r) as Back.
    { intros row [S1 S2]%Same. unfold TurnRequestRecord_from_db_row, get. rewrite !S2, !S1 by reflexivity.
      transitivity (Some (TurnRequestRecord_init (tq_user_id r) (tq_request_id r) (tq_payload_hash_sha256 r) (tq_status r) (tq_expected_revision r) (tq_lease_owner r) (tq_lease_expires_at r) (tq_committed_revision r) (tq_user_message_chat_log_id r) (tq_assistant_message_chat_log_id r) (thawed_payload (tq_replay_payload r)) (tq_error_code r) (tq_id r) (tq_created_at r) (tq_updated_at r) (tq_completed_at r)));
        [reflexivity|]. unfold TurnRequestRecord_init. rewrite Hv, payload_kept, <- Hv. by destruct r. }
    split_and!; [by apply Back; left|by apply Back; right|]. intros k. apply get_dropped.
  - assert (forall row, row = OutboxEventRecord_to_db_row r \/ row = OutboxEventRecord_to_insert_row r ->
      (forall k, str_in k OUTBOX_SERVER_OWNED = false -> dget row k = dget (OutboxEventRecord_to_db_row r) k)
      /\ (forall k, default PNone (dget row k) = default PNone (dget (OutboxEventRecord_to_db_row r) k))) as Same.
    { intros row [-> | ->]; [done|]. split; intros k; intros; by apply get_dropped. }
    assert (forall row, row = OutboxEventRecord_to_db_row r \/ row = OutboxEventRecord_to_insert_row r ->
      OutboxEventRecord_from_db_row row = Some r) as Back.
    { intros row [S1 S2]%Same. unfold OutboxEventRecord_from_db_row, get. rewrite !S2, !S1 by reflexivity.
      transitivity (Some (OutboxEventRecord_init (oe_event_type r) (oe_user_id r) (_deep_unfreeze (oe_payload r)) (oe_status r) (oe_idempotency_key r) (oe_contract_version r) (oe_attempts r) (oe_turn_request_id r) (oe_next_attempt_at r) (oe_lease_owner r) (oe_lease_expires_at r) (oe_error_code r) (oe_id r) (oe_created_at r) (oe_updated_at r) (oe_processed_at r) (oe_dead_lettered_at r) (oe_retention_until r)));
        [reflexivity|]. unfold OutboxEventRecord_init. rewrite Hv. change (_deep_unfreeze (_deep_freeze v)) with (thaw v). rewrite freeze_thaw, <- Hv. by destruct r. }
    split_and!; [by apply Back; left|by apply Back; right|]. intros k. apply get_dropped.
Qed.
