(* ===== verification/Retention.v ===== *)
(** * Operational retention (retention_policy.py, retention.py and the purge functions in SQL)

    The cutoffs of the policy, the configuration of a round, the adapter over the
    purge RPCs with its tolerant and fail-closed reading of the answer, and the
    runner that purges each category in bounded batches.  The clocks, the
    interruptions and what other clients do between two batches are arguments.
    The second part models the purge functions of
    supabase/migrations/20260809030000_operational_data_retention.sql on the three
    tables; instants are microseconds since the epoch of [PyDatetime]. *)

From Stdlib Require Import Floats.
From S2P Require Import Prelude PyFloat FloatRound PyValue PyDatetime StorageContracts TurnExecution AtomicTurnCommit TurnRepositories ProcessTurn.

Local Open Scope Z_scope.

(** ** The policy *)

Definition RETENTION_POLICY_SCHEMA_VERSION : Z := 1.
Definition RETENTION_MAX_BATCH_SIZE : Z := 1000.

Inductive RetentionCategory : Type := ADMISSION_RESERVATIONS | PRIVACY_OPERATIONS | OUTBOX_EVENTS.

#[export] Instance RetentionCategory_eq_dec : EqDecision RetentionCategory.
Proof. solve_decision. Defined.

Definition category_value (c : RetentionCategory) : pystr :=
  match c with
  | ADMISSION_RESERVATIONS => u "admission_reservations"
  | PRIVACY_OPERATIONS => u "privacy_operations"
  | OUTBOX_EVENTS => u "outbox_events"
  end.

(** A [timedelta] is its number of microseconds. *)
Definition DEFAULT_ADMISSION_HORIZON : Z := DAY.
Definition DEFAULT_PRIVACY_OPERATIONS_HORIZON : Z := 30 * DAY.

Record RetentionPolicy : Type := mkRetentionPolicy {
  rp_schema_version : Z;
  rp_admission_horizon : Z;
  rp_privacy_horizon : Z }.

Definition default_retention_policy : RetentionPolicy :=
  mkRetentionPolicy RETENTION_POLICY_SCHEMA_VERSION DEFAULT_ADMISSION_HORIZON DEFAULT_PRIVACY_OPERATIONS_HORIZON.

(** ** [datetime.fromtimestamp(t, tz=timezone.utc)] *)

(** 1970-01-01. *)
Definition EPOCH : Z := 719163 * DAY.

(** The seconds and the microseconds of the reading; [None] is the exception of
    a reading that is not finite or outside the years 1 to 9999. *)
Definition fromtimestamp (t : float) : option datetime :=
  if negb (isfinite t) then None else
  let whole := trunc_float t in
  let fraction := (t - fl (NInt whole))%float in
  let us := round_half_even (fraction * 1000000)%float in
  let i := EPOCH + whole * 1000000 + us in
  if (MIN_INSTANT <=? i) && (i <=? MAX_INSTANT) then Some (of_instant i) else None.

(** [d - timedelta]; [None] is [OverflowError]. *)
Definition minus (d : datetime) (horizon : Z) : option datetime :=
  let i := instant d - horizon in
  if (MIN_INSTANT <=? i) && (i <=? MAX_INSTANT) then Some (of_instant i) else None.

Definition compute_cutoff (now_epoch : float) (horizon : Z) : option datetime :=
  d ← fromtimestamp now_epoch; minus d horizon.

(** [isoformat()] of a datetime in UTC. *)
Definition isoformat_utc (d : datetime) : pystr := isoformat d ++ u "+00:00".

Record cutoffs : Type := mkCutoffs {
  co_admission : pystr;
  co_privacy : pystr;
  co_outbox : pystr }.

Definition cutoff_of (c : RetentionCategory) (k : cutoffs) : pystr :=
  match c with ADMISSION_RESERVATIONS => co_admission k | PRIVACY_OPERATIONS => co_privacy k | OUTBOX_EVENTS => co_outbox k end.

Definition retention_cutoffs (now_epoch : float) (policy : RetentionPolicy) : option cutoffs :=
  a ← compute_cutoff now_epoch (rp_admission_horizon policy);
  p ← compute_cutoff now_epoch (rp_privacy_horizon policy);
  o ← fromtimestamp now_epoch;
  Some (mkCutoffs (isoformat_utc a) (isoformat_utc p) (isoformat_utc o)).

(** ** The configuration of a round *)

Record RetentionConfig : Type := mkRetentionConfig {
  rc_batch_size : Z;
  rc_max_rows_per_category : Z;
  rc_round_timeout_seconds : pynum }.

(** [None] is [ValueError]. *)
Definition RetentionConfig_init (batch_size max_rows round_timeout : pyval) : option RetentionConfig :=
  match batch_size, max_rows with
  | PInt b, PInt m =>
      if negb ((1 <=? b) && (b <=? RETENTION_MAX_BATCH_SIZE)) then None
      else if m <? b then None
      else match round_timeout with
           | PInt z => if 0 <? z then Some (mkRetentionConfig b m (NInt z)) else None
           | PFloat f => if (0 <? f)%float then Some (mkRetentionConfig b m (NFloat f)) else None
           | _ => None
           end
  | _, _ => None
  end.

Definition RetentionConfig_defaults : RetentionConfig := mkRetentionConfig 500 10000 (NFloat 300).

(** ** Results *)

Record CategoryResult : Type := mkCategoryResult {
  cr_category : pystr;
  cr_purged : Z;
  cr_batches : Z }.

Record RetentionRunResult : Type := mkRetentionRunResult {
  rr_schema_version : Z;
  rr_results : list (pystr * CategoryResult);
  rr_total_purged : Z }.

Definition sum_purged (l : list CategoryResult) : Z := foldr (fun r n => cr_purged r + n) 0 l.

(** The three categories are distinct, so the mapping keeps them all. *)
Definition RetentionRunResult_build (schema_version : Z) (results : list CategoryResult) : RetentionRunResult :=
  mkRetentionRunResult schema_version (map (fun r => (cr_category r, r)) results) (sum_purged results).

(** ** The repository *)

Definition rpc_name (c : RetentionCategory) : pystr := u "purge_" ++ category_value c.

(** The count an answer states. *)
Definition nonnegative (z : Z) : result commit_exn Z := if z <? 0 then Err database_error else Ok z.

Definition ints_of (d : pydict) : list Z := omap (fun kv => match kv.2 with PInt z => Some z | _ => None end) d.

Definition count_of (name : pystr) (data : pyval) : result commit_exn Z :=
  let* data := match data with
               | PList [v] => Ok v
               | PList _ => Err database_error
               | v => Ok v
               end in
  match data with
  | PInt z => nonnegative z
  | PDict d =>
      match dget d name with
      | None | Some PNone => match ints_of d with [z] => nonnegative z | _ => Err database_error end
      | Some (PInt z) => nonnegative z
      | Some _ => Err database_error
      end
  | _ => Err database_error
  end.

Section Runner.
Context {DB : Type} (client : option (pystr -> pydict -> DB -> option pyval * DB)).

Definition _call (name : pystr) (params : pydict) (db : DB) : result commit_exn Z * DB :=
  match client with
  | None => (Err database_error, db)
  | Some rpc =>
      match rpc name params db with
      | (Some data, db') => (count_of name data, db')
      | (None, db') => (Err database_error, db')
      end
  end.

(** [purge_admission_reservations], [purge_privacy_operations], [purge_outbox_events]. *)
Definition purge_rows (c : RetentionCategory) (cutoff : pystr) (batch_size : Z) (db : DB) : result commit_exn Z * DB :=
  _call (rpc_name c) [(KStr (u "p_cutoff"), PStr cutoff); (KStr (u "p_batch_size"), PInt batch_size)] db.

(** ** The runner *)

(** The clocks, by category and batch; whether a cancellation arrives while a
    batch runs; and the other clients, before it. *)
Record round_env : Type := mkRoundEnv {
  re_clock : float;
  re_start : RetentionCategory -> float;
  re_monotonic : RetentionCategory -> nat -> float;
  re_interrupted : RetentionCategory -> nat -> bool;
  re_others : RetentionCategory -> nat -> DB -> DB }.

(** How a round ends early. *)
Inductive round_exn : Type :=
| CutoffError                         (** the clock has no datetime *)
| DeadlineOverflow                    (** the timeout is no float *)
| WriteError (e : work_exn commit_exn)
| OutOfFuel.

Definition persistence_only (e : work_exn commit_exn) : bool :=
  match e with OtherException (CommitPersistenceError _ _) => true | _ => false end.

Context (config : RetentionConfig) (env : round_env).

(** The purges that were sent, in order. *)
Definition round_state : Type := DB * list RetentionCategory.

(** One [run_blocking_write] of the loop. *)
Definition purge_batch (b : TurnBudget) (c : RetentionCategory) (k : nat) (cutoff : pystr) (s : round_state)
    : result round_exn Z * round_state :=
  let now := re_monotonic env c k in
  if (remaining b now <=? 0)%float then (Err (WriteError DeadlineExceeded), s) else
  let '(r, db) := purge_rows c cutoff (rc_batch_size config) (re_others env c k s.1) in
  let s' := (db, s.2 ++ [c]) in
  match run_blocking_write persistence_only b now (re_interrupted env c k) (worker_outcome r) with
  | Ok (Some count) => (Ok count, s')
  | Ok None => (Err OutOfFuel, s')      (** a write that returns has a result *)
  | Err e => (Err (WriteError e), s')
  end.

(** The [while] loop; [k] batches are done. *)
Fixpoint purge_loop (fuel : nat) (b : TurnBudget) (c : RetentionCategory) (k : nat) (total : Z) (cutoff : pystr) (s : round_state)
    : result round_exn (Z * nat) * round_state :=
  if negb (total <? rc_max_rows_per_category config) then (Ok (total, k), s) else
  match fuel with
  | O => (Err OutOfFuel, s)
  | S fuel' =>
      match purge_batch b c k cutoff s with
      | (Err e, s') => (Err e, s')
      | (Ok count, s') =>
          if count <? rc_batch_size config then (Ok (total + count, S k), s')
          else purge_loop fuel' b c (S k) (total + count) cutoff s'
      end
  end.

(** Every batch that does not end the loop adds at least one row. *)
Definition loop_fuel : nat := Z.to_nat (rc_max_rows_per_category config).

Definition _purge_category (c : RetentionCategory) (cutoff : pystr) (s : round_state) : result round_exn CategoryResult * round_state :=
  match num_to_float (rc_round_timeout_seconds config) with
  | None => (Err DeadlineOverflow, s)
  | Some timeout =>
      let b := mkTurnBudget (re_start env c + timeout)%float (NFloat 0) in
      match purge_loop loop_fuel b c 0 0 cutoff s with
      | (Ok (total, batches), s') => (Ok (mkCategoryResult (category_value c) total (Z.of_nat batches)), s')
      | (Err e, s') => (Err e, s')
      end
  end.

Fixpoint purge_all (cats : list RetentionCategory) (k : cutoffs) (s : round_state)
    : result round_exn (list CategoryResult) * round_state :=
  match cats with
  | [] => (Ok [], s)
  | c :: cats' =>
      match _purge_category c (cutoff_of c k) s with
      | (Err e, s') => (Err e, s')
      | (Ok r, s') =>
          match purge_all cats' k s' with
          | (Err e, s'') => (Err e, s'')
          | (Ok l, s'') => (Ok (r :: l), s'')
          end
      end
  end.

Definition CATEGORIES : list RetentionCategory := [ADMISSION_RESERVATIONS; PRIVACY_OPERATIONS; OUTBOX_EVENTS].

Definition retention_run_once (policy : RetentionPolicy) (s : round_state) : result round_exn RetentionRunResult * round_state :=
  match retention_cutoffs (re_clock env) policy with
  | None => (Err CutoffError, s)
  | Some k =>
      match purge_all CATEGORIES k s with
      | (Err e, s') => (Err e, s')
      | (Ok results, s') => (Ok (RetentionRunResult_build (rp_schema_version policy) results), s')
      end
  end.

End Runner.

(** ** The tables *)

Record admission_row : Type := mkAdmissionRow {
  ar_user : pystr;
  ar_request : pystr;
  ar_reserved_at : Z }.

Record privacy_row : Type := mkPrivacyRow {
  pv_user : pystr;
  pv_operation : pystr;
  pv_applied_at : Z }.

Inductive event_status : Type := ev_pending | ev_processing | ev_completed | ev_failed | ev_dead_letter.

Record event_row : Type := mkEventRow {
  er_id : pystr;
  er_status : event_status;
  er_retention_until : option Z }.

Record retention_db : Type := mkRetentionDb {
  rd_admission : list admission_row;
  rd_privacy : list privacy_row;
  rd_events : list event_row }.

(** The instant a row is judged by, if its age counts at all. *)
Definition admission_age (r : admission_row) : option Z := Some (ar_reserved_at r).
Definition privacy_age (r : privacy_row) : option Z := Some (pv_applied_at r).
Definition event_age (r : event_row) : option Z :=
  match er_status r with ev_completed | ev_dead_letter => er_retention_until r | _ => None end.

Definition admission_key (r : admission_row) : pystr * pystr := (ar_user r, ar_request r).
Definition privacy_key (r : privacy_row) : pystr * pystr := (pv_user r, pv_operation r).

(** [DELETE ... WHERE key IN (SELECT key ... WHERE age < cutoff ORDER BY age LIMIT n)]. *)
Section Purge.
Context {R K : Type} `{EqDecision K} (key : R -> K) (age : R -> option Z).

Definition older (cutoff : Z) (r : R) : bool := match age r with Some t => t <? cutoff | None => false end.

Definition age_before (a b : R) : bool := match age a, age b with Some x, Some y => x <? y | _, _ => false end.

Definition selected (cutoff n : Z) (rows : list R) : list R :=
  take (Z.to_nat n) (stable_sort age_before (List.filter (older cutoff) rows)).

Definition delete_selected (cutoff n : Z) (rows : list R) : list R :=
  List.filter (fun r => negb (bool_decide (key r ∈ map key (selected cutoff n rows)))) rows.

(** [ROW_COUNT]. *)
Definition deleted (cutoff n : Z) (rows : list R) : Z :=
  Z.of_nat (length rows) - Z.of_nat (length (delete_selected cutoff n rows)).

End Purge.

Definition HOURS_24 : Z := DAY.
Definition DAYS_30 : Z := 30 * DAY.

(** [true] is the refusal. *)
Definition retention_purge_validation_error (cutoff batch : option Z) : bool :=
  match cutoff, batch with
  | Some _, Some n => (n <? 1) || (1000 <? n)
  | _, _ => true
  end.

(** The three functions; [None] is the exception, [now] is [clock_timestamp()] in UTC. *)
Definition retention_purge (c : RetentionCategory) (now : Z) (cutoff batch : option Z) (db : retention_db)
    : option Z * retention_db :=
  if retention_purge_validation_error cutoff batch then (None, db) else
  match cutoff, batch with
  | Some limit, Some n =>
      match c with
      | ADMISSION_RESERVATIONS =>
          let v := Z.min limit (now - HOURS_24) in
          (Some (deleted admission_key admission_age v n (rd_admission db)),
           mkRetentionDb (delete_selected admission_key admission_age v n (rd_admission db)) (rd_privacy db) (rd_events db))
      | PRIVACY_OPERATIONS =>
          let v := Z.min limit (now - DAYS_30) in
          (Some (deleted privacy_key privacy_age v n (rd_privacy db)),
           mkRetentionDb (rd_admission db) (delete_selected privacy_key privacy_age v n (rd_privacy db)) (rd_events db))
      | OUTBOX_EVENTS =>
          let v := Z.min limit now in
          (Some (deleted er_id event_age v n (rd_events db)),
           mkRetentionDb (rd_admission db) (rd_privacy db) (delete_selected er_id event_age v n (rd_events db)))
      end
  | _, _ => (None, db)
  end.

(** The RPC of a client: [timestamptz_in] reads the text of a timestamp. *)
Definition retention_rpc (timestamptz_in : pystr -> option Z) (clock : nat -> Z) (name : pystr) (params : pydict)
    (s : retention_db * nat) : option pyval * (retention_db * nat) :=
  let cutoff := match dget params (u "p_cutoff") with Some (PStr t) => timestamptz_in t | _ => None end in
  let batch := match dget params (u "p_batch_size") with
               | Some (PInt z) => if (- 2 ^ 31 <=? z) && (z <? 2 ^ 31) then Some z else None
               | _ => None end in
  match List.find (fun c => str_eqb (rpc_name c) name) CATEGORIES with
  | None => (None, (s.1, S s.2))
  | Some c =>
      let '(answer, db) := retention_purge c (clock s.2) cutoff batch s.1 in
      (PInt <$> answer, (db, S s.2))
  end.
