(* ===== verification/RetentionProperties.v ===== *)
(** * Operational retention: the properties

    The bound on a round over any repository and clock, and what a round deletes
    over the purge functions of the database. *)

From Stdlib Require Import Floats.
From S2P Require Import Prelude PyFloat PyValue PyDatetime StorageContracts TurnExecution AtomicTurnCommit TurnRepositories ProcessTurn Retention.

Local Open Scope Z_scope.

Definition config_ok (c : RetentionConfig) : Prop :=
  1 <= rc_batch_size c <= RETENTION_MAX_BATCH_SIZE /\ rc_batch_size c <= rc_max_rows_per_category c.

(** The constructor builds only such configurations. *)
Lemma RetentionConfig_init_ok b m t c : RetentionConfig_init b m t = Some c -> config_ok c.
Proof.
  unfold RetentionConfig_init, config_ok. intros H.
  repeat case_match; simplify_eq; cbn; match goal with H : negb _ = false |- _ => apply negb_false_iff, andb_true_iff in H as [?%Z.leb_le ?%Z.leb_le] end;
    match goal with H : (_ <? _) = false |- _ => apply Z.ltb_ge in H end; lia.
Qed.

(** The largest number of batches of a category. *)
Definition max_batches (c : RetentionConfig) : Z :=
  (rc_max_rows_per_category c + rc_batch_size c - 1) / rc_batch_size c.

(** ** Any repository *)

Section Bounds.
Context {DB : Type} (client : option (pystr -> pydict -> DB -> option pyval * DB)).
Context (config : RetentionConfig) (env : @round_env DB) (valid : config_ok config).

Lemma count_nonneg name v z : count_of name v = Ok z -> 0 <= z.
Proof.
  assert (forall w, nonnegative w = Ok z -> 0 <= z) as N.
  { intros w. unfold nonnegative. destruct (Z.ltb_spec w 0); [done|]. by intros [= <-]. }
  unfold count_of. destruct (match v with PList _ => _ | _ => _ end) as [w|]; [|done]. cbn [rbind].
  destruct w; try done; [apply N|]. destruct (dget _ name) as [[]|]; try done; try apply N;
    match goal with |- context [ints_of ?d] => destruct (ints_of d) as [|z1 []] end; try done; apply N.
Qed.

Lemma purge_batch_log b c k cutoff s r s' : purge_batch client config env b c k cutoff s = (r, s') ->
  match r with
  | Ok z => 0 <= z /\ s'.2 = s.2 ++ [c]
  | Err e => e <> OutOfFuel /\ (s'.2 = s.2 ++ [c] \/ s'.2 = s.2)
  end.
Proof.
  unfold purge_batch. destruct (_ <=? _)%float eqn:R; [intros [= <- <-]; by auto|].
  destruct (purge_rows _ _ _ _ _) as [p db] eqn:P. unfold run_blocking_write. rewrite R.
  destruct (re_interrupted env c k); [intros [= <- <-]; by auto|]. destruct p as [z|e]; cbn.
  - intros [= <- <-]. split; [|done]. unfold purge_rows, _call in P. destruct client as [rpc|]; [|done].
    destruct (rpc _ _ _) as [[v|] db']; [|done]. injection P as P _. by eapply count_nonneg.
  - destruct e; cbn; repeat case_match; intros [= <- <-]; by auto.
Qed.

Lemma batches_bound k : Z.of_nat k * rc_batch_size config < rc_max_rows_per_category config -> Z.of_nat (S k) <= max_batches config.
Proof.
  destruct valid as [[L U] M]. intros H. unfold max_batches. apply Z.div_le_lower_bound; [lia|]. nia.
Qed.

Lemma purge_loop_log fuel b c k total cutoff s r s' :
  Z.of_nat k * rc_batch_size config <= total -> rc_max_rows_per_category config - total <= Z.of_nat fuel ->
  Z.of_nat k <= max_batches config ->
  purge_loop client config env fuel b c k total cutoff s = (r, s') ->
  r <> Err OutOfFuel
  /\ exists n, s'.2 = s.2 ++ repeat c n /\ Z.of_nat (k + n) <= max_batches config
      /\ match r with Ok (total', k') => k' = (k + n)%nat /\ total <= total' | Err _ => True end.
Proof.
  destruct valid as [[L U] M]. revert k total s. induction fuel as [|fuel IH]; intros k total s Hk Hf Hb H; cbn [purge_loop] in H;
    destruct (Z.ltb_spec total (rc_max_rows_per_category config)) as [Lt|Ge]; cbn [negb] in H.
  - lia.
  - injection H as <- <-. split; [done|]. exists 0%nat. rewrite app_nil_r, Nat.add_0_r. by repeat split.
  - pose proof (batches_bound k ltac:(lia)) as Hb'.
    destruct (purge_batch _ _ _ _ _ _ _ _) as [[z|e] s1] eqn:P; apply purge_batch_log in P.
    + destruct P as [Hz P]. destruct (Z.ltb_spec z (rc_batch_size config)).
      * injection H as <- <-. split; [done|]. exists 1%nat. cbn [repeat]. split_and!; [done|lia|lia|lia].
      * apply IH in H as (Nf & n & E & B & R); [|lia..|]; [|lia]. split; [done|]. exists (S n). cbn [repeat].
        rewrite E, P, <- app_assoc. split_and!; [done|lia|]. destruct r as [[t' k']|]; [|done]. destruct R as [-> R]. split; lia.
    + injection H as <- <-. destruct P as [N P]. split; [by intros [= ->]|].
      destruct P as [P|P]; [exists 1%nat|exists 0%nat]; rewrite P; cbn [repeat]; rewrite ?app_nil_r; split_and!; try done; lia.
  - injection H as <- <-. split; [done|]. exists 0%nat. rewrite app_nil_r, Nat.add_0_r. by repeat split.
Qed.

Lemma purge_category_log c cutoff s r s' : _purge_category client config env c cutoff s = (r, s') ->
  r <> Err OutOfFuel
  /\ exists n, s'.2 = s.2 ++ repeat c n /\ Z.of_nat n <= max_batches config
      /\ match r with Ok x => cr_category x = category_value c /\ cr_batches x = Z.of_nat n | Err _ => True end.
Proof.
  unfold _purge_category. destruct (num_to_float _) as [t|].
  2: { intros [= <- <-]. split; [done|]. exists 0%nat. rewrite app_nil_r. split_and!; try done. apply Z.div_pos; destruct valid; lia. }
  destruct (purge_loop _ _ _ _ _ _ _ _ _ _) as [x s1] eqn:P. apply purge_loop_log in P as (N & n & E & B & R).
  - intros H. destruct x as [[total k]|e]; injection H as <- <-.
    + split; [done|]. exists n. destruct R as [-> _]. by split_and!.
    + split; [congruence|]. by exists n.
  - lia.
  - unfold loop_fuel. lia.
  - apply Z.div_pos; destruct valid; lia.
Qed.

(** C23. A retention round always ends.  Whatever the repository answers and
    whatever the clocks say, the loop of a category stops by itself (the fuel of
    the model is never used up), the categories are purged in their order with at
    most [max_rows_per_category / batch_size] batches each, rounded up, and a
    round that reports its result reports exactly the batches it sent. *)
Theorem retention_round_bounded policy s r s' :
  retention_run_once client config env policy s = (r, s') ->
  r <> Err OutOfFuel
  /\ exists a p o, s'.2 = s.2 ++ repeat ADMISSION_RESERVATIONS a ++ repeat PRIVACY_OPERATIONS p ++ repeat OUTBOX_EVENTS o
      /\ Z.of_nat a <= max_batches config /\ Z.of_nat p <= max_batches config /\ Z.of_nat o <= max_batches config
      /\ match r with
         | Ok res => map (fun x => (x.1, cr_batches x.2)) (rr_results res)
             = [(u "admission_reservations", Z.of_nat a); (u "privacy_operations", Z.of_nat p); (u "outbox_events", Z.of_nat o)]
         | Err _ => True
         end.
Proof using valid.
  assert (0 <= max_batches config) as Z0 by (apply Z.div_pos; destruct valid; lia).
  unfold retention_run_once, CATEGORIES. destruct (retention_cutoffs _ _) as [k|].
  2: { intros [= <- <-]. split; [done|]. exists 0%nat, 0%nat, 0%nat. cbn. rewrite app_nil_r. by split_and!. }
  cbn [purge_all].
  destruct (_purge_category _ _ _ ADMISSION_RESERVATIONS _ _) as [[x|e] s1] eqn:E1; apply purge_category_log in E1 as (N1 & a & L1 & B1 & R1).
  2: { intros [= <- <-]. split; [congruence|]. exists a, 0%nat, 0%nat. cbn. rewrite app_nil_r. by split_and!. }
  destruct (_purge_category _ _ _ PRIVACY_OPERATIONS _ _) as [[y|e] s2] eqn:E2; apply purge_category_log in E2 as (N2 & p & L2 & B2 & R2).
  2: { intros [= <- <-]. split; [congruence|]. exists a, p, 0%nat. cbn. rewrite app_nil_r, app_assoc, <- L1. by split_and!. }
  destruct (_purge_category _ _ _ OUTBOX_EVENTS _ _) as [[z|e] s3] eqn:E3; apply purge_category_log in E3 as (N3 & o & L3 & B3 & R3);
    intros [= <- <-]; (split; [congruence|]); exists a, p, o; rewrite !app_assoc, <- L1, <- L2; split_and!; try done.
  cbn. destruct R1 as [-> ->], R2 as [-> ->], R3 as [-> ->]. done.
Qed.

End Bounds.

(** ** One purge *)

Section Table.
Context {R K : Type} `{EqDecision R, EqDecision K} (key : R -> K) (age : R -> option Z).

Notation older := (older age).
Notation selected := (selected age).
Notation delete_selected := (delete_selected key age).
Notation deleted := (deleted key age).

(** What may have happened to a table: rows have gone, all of them older than [high]. *)
Definition purged_table (high : Z) (rows rows' : list R) : Prop :=
  sublist rows' rows /\ forall x, x ∈ rows -> x ∉ rows' -> older high x = true.

Lemma older_le a b x : a <= b -> older a x = true -> older b x = true.
Proof. unfold Retention.older. destruct (age x); [|done]. rewrite !Z.ltb_lt. lia. Qed.

Lemma purged_refl high rows : purged_table high rows rows.
Proof. split; [reflexivity|done]. Qed.

Lemma purged_trans a b rows1 rows2 rows3 : a <= b -> purged_table a rows1 rows2 -> purged_table b rows2 rows3 -> purged_table b rows1 rows3.
Proof.
  intros L [S1 O1] [S2 O2]. split; [by etransitivity|]. intros x Hx Nx. destruct (decide (x ∈ rows2)); [by apply O2|].
  apply (older_le a b); [done|by apply O1].
Qed.

Lemma purged_widen a b rows rows' : a <= b -> purged_table a rows rows' -> purged_table b rows rows'.
Proof. intros L S. eapply purged_trans; [exact L|exact S|apply purged_refl]. Qed.

Lemma selected_elem cutoff n rows x : x ∈ selected cutoff n rows -> x ∈ rows /\ older cutoff x = true.
Proof.
  intros H%(subseteq_take _ _). rewrite stable_sort_perm, list_elem_of_In, List.filter_In in H. by rewrite list_elem_of_In.
Qed.

Lemma filter_sublist (P : R -> bool) l : sublist (List.filter P l) l.
Proof. induction l as [|x l IH]; [constructor|]. cbn. destruct (P x); by constructor. Qed.

Lemma map_sublist (l l' : list R) : sublist l l' -> sublist (map key l) (map key l').
Proof. induction 1; by constructor. Qed.

Lemma deleted_elem cutoff n rows x : x ∈ delete_selected cutoff n rows <-> x ∈ rows /\ key x ∉ map key (selected cutoff n rows).
Proof.
  unfold Retention.delete_selected. rewrite list_elem_of_In, List.filter_In, <- list_elem_of_In, negb_true_iff, bool_decide_eq_false. done.
Qed.

Lemma unique_key (rows : list R) x y : NoDup (map key rows) -> x ∈ rows -> y ∈ rows -> key x = key y -> x = y.
Proof.
  intros D (i & Hi)%list_elem_of_lookup (j & Hj)%list_elem_of_lookup E.
  assert (i = j) as <-; [|congruence]. eapply NoDup_lookup; [exact D|..]; change (map key rows) with (key <$> rows);
    rewrite list_lookup_fmap; [by rewrite Hi|by rewrite Hj, E].
Qed.

Lemma purge_purged cutoff n rows : NoDup (map key rows) -> purged_table cutoff rows (delete_selected cutoff n rows).
Proof.
  intros D. split; [apply filter_sublist|]. intros x Hx Nx. destruct (decide (key x ∈ map key (selected cutoff n rows))) as [Hk|Hk].
  - apply list_elem_of_fmap in Hk as (y & E & Hy). pose proof (selected_elem _ _ _ _ Hy) as [Hy' O]. by rewrite (unique_key rows x y).
  - destruct Nx. by apply deleted_elem.
Qed.

(** The rows that go are as many as were selected. *)
Lemma filter_out_length (l : list R) (ks : list K) : NoDup ks -> NoDup (map key l) -> (forall k, k ∈ ks -> k ∈ map key l) ->
  (length (List.filter (fun r => negb (bool_decide (key r ∈ ks))) l) + length ks = length l)%nat.
Proof.
  revert ks. induction l as [|x l IH]; intros ks Dk D S.
  { destruct ks as [|k ks]; [done|]. specialize (S k ltac:(by left)). by apply elem_of_nil in S. }
  cbn [map] in D. apply NoDup_cons in D as [Nx D]. cbn [List.filter]. destruct (decide (key x ∈ ks)) as [Hk|Hk].
  - rewrite bool_decide_eq_true_2 by done. cbn [negb]. apply list_elem_of_split in Hk as (k1 & k2 & ->).
    apply NoDup_app in Dk as (D1 & Dx & [N2 D2]%NoDup_cons).
    assert (NoDup (k1 ++ k2)) as D12.
    { apply NoDup_app. split_and!; try done. intros k H1 H2. apply (Dx k H1). by right. }
    assert (key x ∉ k1) as N1 by (intros H1; apply (Dx _ H1); by left).
    assert (forall k, k ∈ k1 ++ k2 -> k ∈ map key l) as S12.
    { intros k Hk. assert (k ∈ k1 ++ key x :: k2) as Hk' by (rewrite elem_of_app, elem_of_cons in *; naive_solver).
      apply S in Hk'. cbn [map] in Hk'. apply elem_of_cons in Hk' as [->|?]; [|done]. by apply elem_of_app in Hk as [?|?]. }
    pose proof (IH (k1 ++ k2) D12 D S12) as L. rewrite length_app in L. rewrite length_app. cbn [length].
    rewrite (List.filter_ext_in _ (fun r => negb (bool_decide (key r ∈ k1 ++ k2)))); [lia|].
    intros y Hy. f_equal. apply bool_decide_ext. rewrite !elem_of_app, elem_of_cons. split; [|naive_solver].
    intros [?|[E|?]]; [by left| |by right]. destruct Nx. rewrite <- E. apply list_elem_of_fmap. exists y. by rewrite list_elem_of_In.
  - rewrite bool_decide_eq_false_2 by done. cbn [negb length]. pose proof (IH ks Dk D) as L. rewrite <- L; [done|].
    intros k H1. specialize (S k H1). cbn [map] in S. apply elem_of_cons in S as [->|?]; done.
Qed.

Lemma selected_NoDup cutoff n rows : NoDup (map key rows) -> NoDup (map key (selected cutoff n rows)).
Proof.
  intros D. unfold Retention.selected. change (map key ?l) with (key <$> l). rewrite fmap_take.
  eapply sublist_NoDup; [|apply sublist_take]. rewrite stable_sort_perm.
  eapply sublist_NoDup; [exact D|]. apply map_sublist, filter_sublist.
Qed.

Lemma deleted_count cutoff n rows : NoDup (map key rows) -> deleted cutoff n rows = Z.of_nat (length (selected cutoff n rows)).
Proof.
  intros D. unfold Retention.deleted, Retention.delete_selected.
  pose proof (filter_out_length rows (map key (selected cutoff n rows)) (selected_NoDup _ _ _ D) D) as L. rewrite length_map in L.
  rewrite <- L; [lia|]. intros k (x & -> & [Hx _]%selected_elem)%list_elem_of_fmap. apply list_elem_of_fmap. by exists x.
Qed.

(** A batch that is not full leaves nothing behind. *)
Lemma partial_batch cutoff n rows x : NoDup (map key rows) -> deleted cutoff n rows < n ->
  x ∈ delete_selected cutoff n rows -> older cutoff x = false.
Proof.
  intros D Lt [Hx Nx]%deleted_elem. apply not_true_is_false. intros O. apply Nx. apply list_elem_of_fmap. exists x. split; [done|].
  rewrite deleted_count in Lt by done. unfold Retention.selected in *. rewrite length_take in Lt.
  rewrite take_ge by lia. rewrite stable_sort_perm, list_elem_of_In, List.filter_In, <- list_elem_of_In. done.
Qed.

End Table.

(** ** A round over the database *)

#[export] Instance admission_row_eq_dec : EqDecision admission_row. Proof. solve_decision. Defined.
#[export] Instance privacy_row_eq_dec : EqDecision privacy_row. Proof. solve_decision. Defined.
#[export] Instance event_status_eq_dec : EqDecision event_status. Proof. solve_decision. Defined.
#[export] Instance event_row_eq_dec : EqDecision event_row. Proof. solve_decision. Defined.

(** The primary keys. *)
Record tables_ok (db : retention_db) : Prop := {
  to_admission : NoDup (map admission_key (rd_admission db));
  to_privacy : NoDup (map privacy_key (rd_privacy db));
  to_events : NoDup (map er_id (rd_events db)) }.

(** Only the table of the category moves. *)
Definition only_table (c : RetentionCategory) (db db' : retention_db) : Prop :=
  (c <> ADMISSION_RESERVATIONS -> rd_admission db' = rd_admission db)
  /\ (c <> PRIVACY_OPERATIONS -> rd_privacy db' = rd_privacy db)
  /\ (c <> OUTBOX_EVENTS -> rd_events db' = rd_events db).

Lemma only_table_trans c db1 db2 db3 : only_table c db1 db2 -> only_table c db2 db3 -> only_table c db1 db3.
Proof. intros (A1 & P1 & O1) (A2 & P2 & O2). split_and!; intros N; [rewrite A2, A1|rewrite P2, P1|rewrite O2, O1]; done. Qed.

Section Database.
Context (timestamptz_in : pystr -> option Z) (clock : nat -> Z) (config : RetentionConfig) (env : @round_env (retention_db * nat)).
Context (valid : config_ok config) (forward : forall n m, (n <= m)%nat -> clock n <= clock m).
Context (alone : forall c k s, re_others env c k s = s).

Notation rpc := (Some (retention_rpc timestamptz_in clock)).

Section Category.
Context {R K : Type} `{EqDecision R, EqDecision K} (key : R -> K) (age : R -> option Z).
Context (c : RetentionCategory) (h : Z) (get : retention_db -> list R).
Context (acts : forall now limit b db, 1 <= b <= RETENTION_MAX_BATCH_SIZE -> exists db',
  retention_purge c now (Some limit) (Some b) db = (Some (deleted key age (Z.min limit (now - h)) b (get db)), db')
  /\ get db' = delete_selected key age (Z.min limit (now - h)) b (get db) /\ only_table c db db').

Lemma purge_answer cutoff limit db n : timestamptz_in cutoff = Some limit -> NoDup (map key (get db)) -> exists db',
  purge_rows rpc c cutoff (rc_batch_size config) (db, n)
    = (Ok (deleted key age (Z.min limit (clock n - h)) (rc_batch_size config) (get db)), (db', S n))
  /\ get db' = delete_selected key age (Z.min limit (clock n - h)) (rc_batch_size config) (get db) /\ only_table c db db'.
Proof using acts valid.
  destruct valid as [B _]. intros T D. destruct (acts (clock n) limit (rc_batch_size config) db B) as (db' & E & G & O).
  exists db'. split; [|done]. unfold purge_rows, _call, retention_rpc.
  replace (List.find (fun c0 => str_eqb (rpc_name c0) (rpc_name c)) CATEGORIES) with (Some c) by (by destruct c).
  replace (dget _ (u "p_cutoff")) with (Some (PStr cutoff)) by reflexivity. rewrite T.
  replace (dget _ (u "p_batch_size")) with (Some (PInt (rc_batch_size config))) by reflexivity.
  assert ((- 2 ^ 31 <=? rc_batch_size config) && (rc_batch_size config <? 2 ^ 31) = true) as ->.
  { unfold RETENTION_MAX_BATCH_SIZE in B. apply andb_true_iff. split; [apply Z.leb_le|apply Z.ltb_lt]; lia. }
  cbn [fst snd]. rewrite E. cbn [fmap option_fmap option_map count_of rbind]. unfold nonnegative.
  rewrite (deleted_count key age _ _ _ D). by destruct (Z.ltb_spec (Z.of_nat (length (selected age (Z.min limit (clock n - h)) (rc_batch_size config) (get db)))) 0); [lia|].
Qed.

(** One category, whatever ends it. *)
Lemma purge_loop_exact fuel bud k total cutoff limit db n log r db' n' log' :
  timestamptz_in cutoff = Some limit -> NoDup (map key (get db)) ->
  purge_loop rpc config env fuel bud c k total cutoff ((db, n), log) = (r, ((db', n'), log')) ->
  (n <= n')%nat /\ only_table c db db' /\ NoDup (map key (get db'))
  /\ purged_table age (Z.min limit (clock n' - h)) (get db) (get db')
  /\ match r with
     | Ok (total', _) => total' - total = Z.of_nat (length (get db)) - Z.of_nat (length (get db'))
         /\ (total' < rc_max_rows_per_category config -> forall x, x ∈ get db' -> older age (Z.min limit (clock n - h)) x = false)
     | Err _ => True
     end.
Proof using All.
  intros T. revert k total db n log. induction fuel as [|fuel IH]; intros k total db n log D H; cbn [purge_loop] in H;
    destruct (Z.ltb_spec total (rc_max_rows_per_category config)) as [Lt|Ge]; cbn [negb] in H.
  1, 2, 4: injection H as <- <- <- <-; split_and!; try done; try apply purged_refl; intros; lia.
  unfold purge_batch in H. destruct (_ <=? _)%float eqn:Rm; [injection H as <- <- <- <-; split_and!; try done; apply purged_refl|].
  cbn [fst snd] in H. rewrite alone in H. destruct (purge_answer cutoff limit db n T D) as (db1 & P & G & O). rewrite P in H.
  set (v := Z.min limit (clock n - h)) in *. set (count := deleted key age v (rc_batch_size config) (get db)) in *.
  assert (NoDup (map key (get db1))) as D1 by (rewrite G; eapply sublist_NoDup; [exact D|]; apply map_sublist, filter_sublist).
  assert (purged_table age v (get db) (get db1)) as S1 by (rewrite G; by apply purge_purged).
  assert (forall m, (n <= m)%nat -> v <= Z.min limit (clock m - h)) as Up by (intros m Hm; pose proof (forward n m Hm); lia).
  assert (purged_table age (Z.min limit (clock (S n) - h)) (get db) (get db1)) as S1'.
  { apply (purged_trans age v _ _ (get db1)); [apply Up; lia|exact S1|apply purged_refl]. }
  unfold run_blocking_write in H. rewrite Rm in H.
  destruct (re_interrupted env c k); cbn in H; [injection H as <- <- <- <-; split_and!; try done; lia|].
  assert (count = Z.of_nat (length (get db)) - Z.of_nat (length (get db1))) as Hc by (unfold count, deleted; by rewrite G).
  destruct (Z.ltb_spec count (rc_batch_size config)) as [Pt|Full].
  - injection H as <- <- <- <-. split_and!; try done; try lia. intros _ x Hx. rewrite G in Hx. exact (partial_batch key age v _ (get db) x D Pt Hx).
  - apply IH in H as (Ln & O2 & D2 & S2 & X); [|done]. split_and!; try done; [lia|by eapply only_table_trans|..].
    + eapply (purged_trans age); [|exact S1'|exact S2]. pose proof (forward (S n) n' Ln). lia.
    + destruct r as [[total' k']|]; [|done]. destruct X as [X1 X2]. split; [lia|]. intros C x Hx.
      apply not_true_is_false. intros K1. specialize (X2 C x Hx). rewrite (older_le age v) in X2; [done|apply Up; lia|done].
Qed.

Lemma purge_category_exact cutoff limit db n log r db' n' log' :
  timestamptz_in cutoff = Some limit -> NoDup (map key (get db)) ->
  _purge_category rpc config env c cutoff ((db, n), log) = (r, ((db', n'), log')) ->
  (n <= n')%nat /\ only_table c db db' /\ NoDup (map key (get db'))
  /\ purged_table age (Z.min limit (clock n' - h)) (get db) (get db')
  /\ match r with
     | Ok x => cr_purged x = Z.of_nat (length (get db)) - Z.of_nat (length (get db'))
         /\ (cr_purged x < rc_max_rows_per_category config -> forall y, y ∈ get db' -> older age (Z.min limit (clock n - h)) y = false)
     | Err _ => True
     end.
Proof using All.
  intros T D. unfold _purge_category. destruct (num_to_float _) as [t|].
  2: { intros [= <- <- <- <-]. split_and!; try done; apply purged_refl. }
  destruct (purge_loop _ _ _ _ _ _ _ _ _ _) as [x [[db1 n1] l1]] eqn:P. apply (purge_loop_exact _ _ _ _ _ limit) in P; [|done..].
  destruct P as (L & O & D' & S & X). destruct x as [[total k]|e]; intros [= <- <- <- <-]; split_and!; try done.
  - cbn. destruct X. lia.
  - cbn. by destruct X.
Qed.

End Category.

(** The datetime a cutoff is made of. *)
Definition cutoff_date (policy : RetentionPolicy) (c : RetentionCategory) : option datetime :=
  match c with
  | ADMISSION_RESERVATIONS => compute_cutoff (re_clock env) (rp_admission_horizon policy)
  | PRIVACY_OPERATIONS => compute_cutoff (re_clock env) (rp_privacy_horizon policy)
  | OUTBOX_EVENTS => fromtimestamp (re_clock env)
  end.

Definition limit_of (policy : RetentionPolicy) (c : RetentionCategory) : Z := default 0 (instant <$> cutoff_date policy c).

(** The database reads the text of a cutoff as the instant it was written from. *)
Context (policy : RetentionPolicy).
Context (reads : forall c d, cutoff_date policy c = Some d -> timestamptz_in (isoformat_utc d) = Some (instant d)).

Lemma cutoffs_read k c : retention_cutoffs (re_clock env) policy = Some k -> timestamptz_in (cutoff_of c k) = Some (limit_of policy c).
Proof using reads.
  unfold retention_cutoffs, limit_of. intros (a & Ha & (p & Hp & (o & Ho & [= <-])%bind_Some)%bind_Some)%bind_Some.
  destruct c; cbn [cutoff_of co_admission co_privacy co_outbox];
    [rewrite (reads ADMISSION_RESERVATIONS a)|rewrite (reads PRIVACY_OPERATIONS p)|rewrite (reads OUTBOX_EVENTS o)]; cbn [cutoff_date];
    by rewrite ?Ha, ?Hp, ?Ho.
Qed.

(** What the result of a category says about its table. *)
Definition exact_count {R} (age : R -> option Z) (low : Z) (rows rows' : list R) (x : CategoryResult) : Prop :=
  cr_purged x = Z.of_nat (length rows) - Z.of_nat (length rows')
  /\ (cr_purged x < rc_max_rows_per_category config -> forall y, y ∈ rows' -> older age low y = false).

Lemma exact_lower {R} (age : R -> option Z) low low' rows rows' x : low' <= low -> exact_count age low rows rows' x -> exact_count age low' rows rows' x.
Proof.
  intros L [C O]. split; [done|]. intros Lt y Hy. apply not_true_is_false. intros K. pose proof (O Lt y Hy) as F.
  by rewrite (older_le age low') in F.
Qed.

Lemma batch_accepted limit b : 1 <= b <= RETENTION_MAX_BATCH_SIZE -> retention_purge_validation_error (Some limit) (Some b) = false.
Proof. unfold RETENTION_MAX_BATCH_SIZE. intros B. cbn. apply orb_false_iff. split; apply Z.ltb_ge; lia. Qed.

Lemma acts_admission now limit b db : 1 <= b <= RETENTION_MAX_BATCH_SIZE -> exists db',
  retention_purge ADMISSION_RESERVATIONS now (Some limit) (Some b) db
    = (Some (deleted admission_key admission_age (Z.min limit (now - HOURS_24)) b (rd_admission db)), db')
  /\ rd_admission db' = delete_selected admission_key admission_age (Z.min limit (now - HOURS_24)) b (rd_admission db)
  /\ only_table ADMISSION_RESERVATIONS db db'.
Proof. intros B. eexists. unfold retention_purge. rewrite (batch_accepted limit b B). by split_and!. Qed.

Lemma acts_privacy now limit b db : 1 <= b <= RETENTION_MAX_BATCH_SIZE -> exists db',
  retention_purge PRIVACY_OPERATIONS now (Some limit) (Some b) db
    = (Some (deleted privacy_key privacy_age (Z.min limit (now - DAYS_30)) b (rd_privacy db)), db')
  /\ rd_privacy db' = delete_selected privacy_key privacy_age (Z.min limit (now - DAYS_30)) b (rd_privacy db)
  /\ only_table PRIVACY_OPERATIONS db db'.
Proof. intros B. eexists. unfold retention_purge. rewrite (batch_accepted limit b B). by split_and!. Qed.

Lemma acts_events now limit b db : 1 <= b <= RETENTION_MAX_BATCH_SIZE -> exists db',
  retention_purge OUTBOX_EVENTS now (Some limit) (Some b) db
    = (Some (deleted er_id event_age (Z.min limit (now - 0)) b (rd_events db)), db')
  /\ rd_events db' = delete_selected er_id event_age (Z.min limit (now - 0)) b (rd_events db)
  /\ only_table OUTBOX_EVENTS db db'.
Proof. intros B. eexists. unfold retention_purge. rewrite (batch_accepted limit b B), Z.sub_0_r. by split_and!. Qed.

(** C22. A retention round deletes exactly what is due.  However the round ends, and
    whatever the caller's clock says, only admission reservations older than 24
    hours, privacy operations older than 30 days, and completed or dead-lettered
    events past their retention, by the clock of the database and by the cutoff of
    the policy, are gone.  When it reports a result the counts are exact, and a
    category that stayed below its cap has nothing due left from the start of
    the round. *)
Theorem retention_round_exact db n log r db' n' log' :
  tables_ok db -> retention_run_once rpc config env policy ((db, n), log) = (r, ((db', n'), log')) ->
  purged_table admission_age (Z.min (limit_of policy ADMISSION_RESERVATIONS) (clock n' - HOURS_24)) (rd_admission db) (rd_admission db')
  /\ purged_table privacy_age (Z.min (limit_of policy PRIVACY_OPERATIONS) (clock n' - DAYS_30)) (rd_privacy db) (rd_privacy db')
  /\ purged_table event_age (Z.min (limit_of policy OUTBOX_EVENTS) (clock n')) (rd_events db) (rd_events db')
  /\ match r with
     | Ok res => exists a p o, rr_results res = [(cr_category a, a); (cr_category p, p); (cr_category o, o)]
         /\ rr_total_purged res = cr_purged a + cr_purged p + cr_purged o
         /\ exact_count admission_age (Z.min (limit_of policy ADMISSION_RESERVATIONS) (clock n - HOURS_24)) (rd_admission db) (rd_admission db') a
         /\ exact_count privacy_age (Z.min (limit_of policy PRIVACY_OPERATIONS) (clock n - DAYS_30)) (rd_privacy db) (rd_privacy db') p
         /\ exact_count event_age (Z.min (limit_of policy OUTBOX_EVENTS) (clock n)) (rd_events db) (rd_events db') o
     | Err _ => True
     end.
Proof using All.
  intros [Da Dp Do]. unfold retention_run_once, CATEGORIES. destruct (retention_cutoffs _ _) as [k|] eqn:Hk.
  2: { intros [= <- <- <- <-]. split_and!; try done; apply purged_refl. }
  cbn [purge_all]. destruct (_purge_category _ _ _ ADMISSION_RESERVATIONS _ _) as [ra [[db1 n1] l1]] eqn:E1.
  apply (purge_category_exact admission_key admission_age _ HOURS_24 rd_admission acts_admission _ _ _ _ _ _ _ _ _ (cutoffs_read k _ Hk) Da)
    in E1 as (L1 & (_ & Fp1 & Fo1) & _ & S1 & X1).
  specialize (Fp1 ltac:(done)). specialize (Fo1 ltac:(done)).
  destruct ra as [a|ea]; [|intros [= <- <- <- <-]; rewrite Fp1, Fo1; split_and!; try done; apply purged_refl].
  destruct (_purge_category _ _ _ PRIVACY_OPERATIONS _ _) as [rp [[db2 n2] l2]] eqn:E2. rewrite <- Fp1 in Dp.
  apply (purge_category_exact privacy_key privacy_age _ DAYS_30 rd_privacy acts_privacy _ _ _ _ _ _ _ _ _ (cutoffs_read k _ Hk) Dp)
    in E2 as (L2 & (Fa2 & _ & Fo2) & _ & S2 & X2).
  specialize (Fa2 ltac:(done)). specialize (Fo2 ltac:(done)). rewrite Fp1 in S2, X2. rewrite Fo1 in Fo2.
  assert (purged_table admission_age (Z.min (limit_of policy ADMISSION_RESERVATIONS) (clock n2 - HOURS_24)) (rd_admission db) (rd_admission db2)) as S1'
    by (rewrite Fa2; eapply purged_widen; [|exact S1]; pose proof (forward n1 n2 L2); lia).
  destruct rp as [p|ep]; [|intros [= <- <- <- <-]; rewrite Fo2; split_and!; try done; apply purged_refl].
  destruct (_purge_category _ _ _ OUTBOX_EVENTS _ _) as [ro [[db3 n3] l3]] eqn:E3. rewrite <- Fo2 in Do.
  apply (purge_category_exact er_id event_age _ 0 rd_events acts_events _ _ _ _ _ _ _ _ _ (cutoffs_read k _ Hk) Do)
    in E3 as (L3 & (Fa3 & Fp3 & _) & _ & S3 & X3).
  specialize (Fa3 ltac:(done)). specialize (Fp3 ltac:(done)). rewrite Fo2 in S3, X3. rewrite Z.sub_0_r in *.
  pose proof (forward n2 n3 L3) as C23. pose proof (forward n1 n2 L2) as C12. pose proof (forward n n1 L1) as C01.
  assert (purged_table admission_age (Z.min (limit_of policy ADMISSION_RESERVATIONS) (clock n3 - HOURS_24)) (rd_admission db) (rd_admission db3)) as A
    by (rewrite Fa3; eapply purged_widen; [|exact S1']; lia).
  assert (purged_table privacy_age (Z.min (limit_of policy PRIVACY_OPERATIONS) (clock n3 - DAYS_30)) (rd_privacy db) (rd_privacy db3)) as P
    by (rewrite Fp3; eapply purged_widen; [|exact S2]; lia).
  destruct ro as [o|eo]; intros [= <- <- <- <-]; (split; [exact A|]); (split; [exact P|]); (split; [exact S3|]); [|done].
  exists a, p, o. split; [done|]. split; [cbn; lia|]. rewrite Fa3, Fa2, Fp3. split; [exact X1|].
  split; [eapply exact_lower; [|exact X2]|eapply exact_lower; [|exact X3]]; lia.
Qed.

End Database.

(** ** A round, concretely *)

Definition sample_timestamptz (s : pystr) : option Z :=
  match parse_basic s with Some (d, Some offset) => Some (instant d - offset) | _ => None end.

Definition sample_now : Z := EPOCH + 1700000000 * 1000000.
Definition sample_clock (n : nat) : Z := sample_now + Z.of_nat n * 1000.

Definition sample_round_env : @round_env (retention_db * nat) :=
  mkRoundEnv 1700000000.25%float (fun _ => 10%float) (fun _ k => 11%float) (fun _ _ => false) (fun _ _ s => s).

Definition sample_round_config : RetentionConfig := mkRetentionConfig 2 4 (NFloat 300).

Definition sample_tables : retention_db :=
  mkRetentionDb
    (map (fun i => mkAdmissionRow (u "ada") [Z.to_N i] (sample_now - i * DAY)) [3; 1; 2; 0])
    [mkPrivacyRow (u "ada") (u "x") (sample_now - 31 * DAY); mkPrivacyRow (u "ada") (u "y") sample_now]
    [mkEventRow (u "a") ev_completed (Some (sample_now - DAY)); mkEventRow (u "b") ev_failed (Some (sample_now - DAY));
     mkEventRow (u "c") ev_dead_letter None].

Definition sample_round : result round_exn RetentionRunResult * round_state :=
  retention_run_once (Some (retention_rpc sample_timestamptz sample_clock)) sample_round_config sample_round_env
    default_retention_policy ((sample_tables, 0%nat), []).

Lemma sample_config_ok : config_ok sample_round_config.
Proof. unfold config_ok, RETENTION_MAX_BATCH_SIZE. cbn. lia. Qed.

Lemma retention_round_bounded_witness : exists r s', sample_round = (r, s') /\ is_ok r = true /\ length s'.2 = 4%nat /\ r <> Err OutOfFuel.
Proof.
  eexists _, _. split; [vm_compute; reflexivity|]. split; [reflexivity|]. split; [reflexivity|].
  eapply (retention_round_bounded (Some (retention_rpc sample_timestamptz sample_clock)) sample_round_config sample_round_env
    sample_config_ok default_retention_policy ((sample_tables, 0%nat), [])). vm_compute. reflexivity.
Defined.

Lemma retention_round_exact_witness : exists res db' n' log', sample_round = (Ok res, ((db', n'), log'))
  /\ rr_total_purged res = 5 /\ length (rd_admission db') = 1%nat
  /\ purged_table admission_age (sample_clock n' - HOURS_24) (rd_admission sample_tables) (rd_admission db').
Proof.
  eassert (sample_round = (Ok _, ((_, _), _))) as E by (vm_compute; reflexivity).
  eexists _, _, _, _. split; [exact E|]. split; [reflexivity|]. split; [reflexivity|].
  assert (forall n m, (n <= m)%nat -> sample_clock n <= sample_clock m) as Fw by (intros n m L; unfold sample_clock; lia).
  assert (forall c d, cutoff_date sample_round_env default_retention_policy c = Some d ->
    sample_timestamptz (isoformat_utc d) = Some (instant d)) as Rd.
  { intros c d H. destruct c; vm_compute in H; injection H as <-; vm_compute; reflexivity. }
  assert (tables_ok sample_tables) as Ok by (split; apply (bool_decide_unpack _); vm_compute; exact I).
  pose proof (retention_round_exact sample_timestamptz sample_clock sample_round_config sample_round_env sample_config_ok Fw
    (fun _ _ _ => eq_refl) default_retention_policy Rd sample_tables 0%nat [] _ _ _ _ Ok E) as [P _].
  eapply purged_widen; [|exact P]. apply Z.le_min_r.
Defined.
