(* ===== verification/PrivacyOperations.v ===== *)
(** * Privacy operations (privacy_operations.py, privacy_service.py)

    The four operations a user may ask for: the validation of their input, the
    strict reading of the answer, the public projection, and the service that runs
    the blocking call under a budget of its own.  The answers of the RPC are JSON
    documents, so that the keys of their objects are texts. *)

From Stdlib Require Import Floats.
From S2P Require Import Prelude PyFloat PyValue Json StorageContracts EmotionalModels Relationship TurnExecution AtomicTurnCommit.
From S2P Require Import TurnRepositories ProcessTurn.

Local Open Scope Z_scope.

(** ** Operations *)

Inductive privacy_operation : Type :=
| OPERATION_DELETE_HISTORY | OPERATION_DELETE_MEMORIES | OPERATION_RESET_EMOTIONAL_STATE | OPERATION_RESET_RELATIONSHIP_STATE.

#[export] Instance privacy_operation_eq_dec : EqDecision privacy_operation.
Proof. solve_decision. Defined.

Definition operation_text (o : privacy_operation) : pystr :=
  match o with
  | OPERATION_DELETE_HISTORY => u "delete_history"
  | OPERATION_DELETE_MEMORIES => u "delete_memories"
  | OPERATION_RESET_EMOTIONAL_STATE => u "reset_emotional_state"
  | OPERATION_RESET_RELATIONSHIP_STATE => u "reset_relationship_state"
  end.

(** [_RESET_SNAPSHOT_FIELD]. *)
Definition reset_field (o : privacy_operation) : option snapshot_field :=
  match o with
  | OPERATION_RESET_EMOTIONAL_STATE => Some emotional_state_field
  | OPERATION_RESET_RELATIONSHIP_STATE => Some relationship_state_field
  | _ => None
  end.

(** The fields of an answer and its counts. *)
Definition PRIVACY_SUCCESS_FIELDS : list pystr :=
  [u "status"; u "operation"; u "operation_id"; u "user_id"; u "revision"; u "counts"].

Definition _COUNT_FIELDS : list pystr :=
  [u "chat_logs"; u "turn_requests"; u "outbox_events"; u "archival_extractions"; u "memories"; u "profiles"].

Record PrivacyOperationResult : Type := mkPrivacyResult {
  po_operation : pystr;
  po_operation_id : pystr;
  po_user_id : pystr;
  po_revision : Z;
  po_counts : list (pykey * Z) }.

Definition counts_dict (counts : list (pykey * Z)) : pydict := map (fun kv => (kv.1, PInt kv.2)) counts.

Definition PrivacyOperationResult_to_db_row (r : PrivacyOperationResult) : pydict :=
  [(KStr (u "status"), PStr (u "applied")); (KStr (u "operation"), PStr (po_operation r));
   (KStr (u "operation_id"), PStr (po_operation_id r)); (KStr (u "user_id"), PStr (po_user_id r));
   (KStr (u "revision"), PInt (po_revision r)); (KStr (u "counts"), PDict (counts_dict (po_counts r)))].

(** ** Validation *)

Definition _validate_operation_id (operation_id : pyval) : result commit_exn pystr :=
  match operation_id with
  | PStr s => if uuid_match s then Ok s else Err (CommitValidationError (u "invalid_operation_id"))
  | _ => Err (CommitValidationError (u "invalid_operation_id"))
  end.

(** Not empty, not whitespace only, at most 128 characters. *)
Definition user_id_ok (s : pystr) : bool := negb (forallb is_space s) && (length s <=? 128)%nat.

Definition _validate_user_id (user_id : pyval) : result commit_exn pystr :=
  match user_id with
  | PStr s => if user_id_ok s then Ok s else Err (CommitValidationError (u "invalid_user_id"))
  | _ => Err (CommitValidationError (u "invalid_user_id"))
  end.

Definition invalid_payload : commit_exn := CommitValidationError (u "invalid_operation_payload").

(** The neutral snapshot at a time; [None] is an exception of the domain. *)
Definition neutral_dict (field : snapshot_field) (ts : float) : option pydict :=
  match field with
  | emotional_state_field => match EmotionalStateV1_neutral (PFloat ts) with Ok s => Some (EmotionalStateV1_to_dict s) | Err _ => None end
  | relationship_state_field =>
      match RelationshipStateV1_neutral (PFloat ts) with Ok s => Some (RelationshipStateV1_to_dict s) | Err _ => None end
  end.

Definition _validate_reset_neutral (payload : pydict) (field : snapshot_field) : result commit_exn unit :=
  match (n ← as_number (default PNone (dget payload (u "timestamp"))); ts ← num_to_float n; neutral_dict field ts) with
  | None => Err invalid_payload
  | Some expected => raise_if (negb (dict_eq payload expected)) invalid_payload
  end.

Section Validation.
Context `{FR : FloatRepr}.

(** The operation, its user and its id, once accepted. *)
Definition validate_privacy_operation_input (operation : privacy_operation) (user_id operation_id payload : pyval)
    : result commit_exn (pystr * pystr * pydict) :=
  let* user := _validate_user_id user_id in
  let* id := _validate_operation_id operation_id in
  match as_mapping payload with
  | None => Err invalid_payload
  | Some d =>
      match reset_field operation with
      | None => Ok (user, id, d)
      | Some field => _validate_snapshot_payload payload field ;;; _validate_reset_neutral d field ;;; Ok (user, id, d)
      end
  end.

Definition build_privacy_operation_rpc_payload (user_id operation_id : pystr) (payload : pydict) : pydict :=
  [(KStr (u "p_authenticated_user_id"), PStr user_id); (KStr (u "p_operation_id"), PStr operation_id);
   (KStr (u "p_operation_payload"), PDict payload)].

(** ** The answer *)

(** [_parse_error_envelope] always raises. *)
Definition privacy_error_envelope (error_info : pyval) : commit_exn :=
  match as_mapping error_info with
  | None => CommitValidationError (u "invalid_error_format")
  | Some d =>
      match dget d (u "code") with
      | Some (PStr code) =>
          if bool_decide (code = []) then CommitValidationError (u "invalid_error_format") else
          let message := match dget d (u "message") with Some (PStr m) => m | _ => u "internal error" end in
          if str_eqb code (u "operation_conflict") then CommitConflictError code message 0 None None
          else if str_eqb code (u "validation_failed") then CommitValidationError code
          else database_error
      | _ => CommitValidationError (u "invalid_error_format")
      end
  end.

Definition invalid_result : commit_exn := CommitValidationError (u "invalid_rpc_result").

Definition parse_count (kv : pykey * pyval) : result commit_exn (pykey * Z) :=
  match kv.2 with
  | PInt z => if z <? 0 then Err invalid_result else Ok (kv.1, z)
  | _ => Err invalid_result
  end.

Definition parse_privacy_operation_result (result_ : pyval) (expected_operation expected_id expected_user : pystr)
    : result commit_exn PrivacyOperationResult :=
  match as_mapping result_ with
  | None => Err invalid_result
  | Some d =>
      match dget d (u "error") with
      | Some e => Err (privacy_error_envelope e)
      | None =>
          raise_if (has_missing PRIVACY_SUCCESS_FIELDS d) invalid_result ;;;
          raise_if (has_unknown PRIVACY_SUCCESS_FIELDS d) invalid_result ;;;
          raise_if (negb (py_eq (dindex d (u "operation")) (PStr expected_operation))) invalid_result ;;;
          raise_if (negb (py_eq (dindex d (u "operation_id")) (PStr expected_id))) invalid_result ;;;
          raise_if (negb (py_eq (dindex d (u "status")) (PStr (u "applied")))) invalid_result ;;;
          match dindex d (u "user_id") with
          | PStr user =>
              raise_if (bool_decide (user = [])) invalid_result ;;;
              raise_if (negb (str_eqb user expected_user)) invalid_result ;;;
              match dindex d (u "revision") with
              | PInt revision =>
                  raise_if (revision <? 0) invalid_result ;;;
                  match as_mapping (dindex d (u "counts")) with
                  | None => Err invalid_result
                  | Some counts_raw =>
                      raise_if (has_missing _COUNT_FIELDS counts_raw || has_unknown _COUNT_FIELDS counts_raw) invalid_result ;;;
                      let* counts := rmap parse_count counts_raw in
                      Ok (mkPrivacyResult expected_operation expected_id user revision counts)
                  end
              | _ => Err invalid_result
              end
          | _ => Err invalid_result
          end
      end
  end.

(** ** Running an operation *)

Definition run_privacy_operation {DB} (rpc : pystr -> pydict -> DB -> result rpc_exn pyval * DB) (operation : privacy_operation)
    (user_id operation_id payload : pyval) (db : DB) : result commit_exn PrivacyOperationResult * DB :=
  let effective := match payload with PNone => PDict [] | v => v end in
  match validate_privacy_operation_input operation user_id operation_id effective with
  | Err e => (Err e, db)
  | Ok (user, id, d) =>
      match rpc (operation_text operation) (build_privacy_operation_rpc_payload user id d) db with
      | (Ok answer, db') => (parse_privacy_operation_result answer (operation_text operation) id user, db')
      | (Err RpcException, db') => (Err database_error, db')
      | (Err RpcBaseException, db') => (Err CommitBase, db')
      end
  end.

(** ** The service *)

Record PrivacyOperationResponse : Type := mkPrivacyResponse {
  ps_operation : pystr;
  ps_status : pystr;
  ps_counts : list (pykey * Z) }.

Definition from_result (r : PrivacyOperationResult) : PrivacyOperationResponse :=
  mkPrivacyResponse (po_operation r) (u "applied") (po_counts r).

Section Service.
Context {DB : Type} (client : option (pystr -> pydict -> DB -> option pyval * DB)) (turn_config : TurnExecutionConfig).

(** [SupabasePrivacyRepository.call]. *)
Definition call (name : pystr) (params : pydict) (db : DB) : result commit_exn pyval * DB :=
  match client with
  | None => (Err database_error, db)
  | Some rpc =>
      match rpc name params db with
      | (Some (PDict d), db') | (Some (PList [PDict d]), db') => (Ok (PDict d), db')
      | (_, db') => (Err database_error, db')
      end
  end.

(** The clock of the reset, the monotonic clock as the budget is made and as the
    write starts, and whether the request is cancelled while it waits. *)
Record action_env : Type := mkActionEnv {
  ac_clock : float;
  ac_start : float;
  ac_now : float;
  ac_cancelled : bool }.

Context (env : action_env).

Definition action_rpc (name : pystr) (params : pydict) (db : DB) : result rpc_exn pyval * DB :=
  let b := create_budget turn_config (ac_start env) in
  if (remaining b (ac_now env) <=? 0)%float then (Err RpcException, db) else
  let '(r, db') := call name params db in
  match run_blocking_write (fun _ => false) b (ac_now env) (ac_cancelled env) (worker_outcome r) with
  | Ok (Some v) => (Ok v, db')
  | Err CancelledError => (Err RpcBaseException, db')
  | _ => (Err RpcException, db')
  end.

Definition _run (operation : privacy_operation) (user_id operation_id payload : pyval) (db : DB)
    : result commit_exn PrivacyOperationResponse * DB :=
  let '(r, db') := run_privacy_operation action_rpc operation user_id operation_id payload db in
  (let* res := r in Ok (from_result res), db').

(** [delete_history], [delete_memories], [reset_emotional_state] and
    [reset_relationship_state]; a clock the domain refuses is another exception. *)
Definition privacy_action (operation : privacy_operation) (user_id operation_id : pyval) (db : DB)
    : result commit_exn PrivacyOperationResponse * DB :=
  match reset_field operation with
  | None => _run operation user_id operation_id PNone db
  | Some field =>
      match neutral_dict field (ac_clock env) with
      | None => (Err CommitOther, db)
      | Some snapshot => _run operation user_id operation_id (PDict snapshot) db
      end
  end.

End Service.
End Validation.
