(* ===== verification/PrivacyLedger.v ===== *)
(** * The privacy ledger (supabase/migrations/20260808220000_privacy_data_operations.sql)

    The four operations in SQL, over the tables of the turn database, the user's
    memories and archival extractions, and the durable ledger of applied
    operations.  A call is one transaction under the advisory lock of the user that
    [commit_turn] takes too; an exception rolls everything back and leaves as one
    constant error ([None]).  SHA-256 is the parameter [Sha256]. *)

From Stdlib Require Import Floats.
From S2P Require Import Prelude PyFloat PyValue StorageContracts EmotionalModels TurnExecution AtomicTurnCommit TurnDatabase PrivacyOperations.

Local Open Scope Z_scope.

Record ledger_row : Type := mkLedgerRow {
  lg_operation : privacy_operation;
  lg_payload_hash : pystr;
  lg_result : pyval }.

(** [v_memories] and [v_archival] hold the [user_id] of each row. *)
Record privacy_db : Type := mkPrivacyDb {
  v_turns : turn_db;
  v_memories : list pystr;
  v_archival : list pystr;
  v_ledger : gmap (pystr * pystr) ledger_row }.

Section Functions.
Context `{JB : Jsonb, SH : Sha256}.

(** [encode(digest(payload::text, 'sha256'), 'hex')]. *)
Definition privacy_operation_payload_sha256 (payload : pyval) : pystr := sha256 (jsonb_text payload).

Definition privacy_op_validation_error (user : pystr) (payload : pyval) : option pyval :=
  if negb ((1 <=? length user)%nat && (length user <=? 128)%nat) || bool_decide (sql_trim user = [])
  then Some (validation_failed (u "authenticated_user_id is invalid"))
  else match is_object payload with
       | None => Some (validation_failed (u "operation_payload must be a JSON object"))
       | Some _ => None
       end.

(** [(payload->>key)::double precision = value] for each, left to right. *)
Fixpoint numbers_are (d : pydict) (values : list (pystr * float)) : option bool :=
  match values with
  | [] => Some true
  | (k, x) :: values' => f ← double_of (dindex d k); if (f =? x)%float then numbers_are d values' else Some false
  end.

Definition NEUTRAL_EMOTIONAL : list (pystr * float) :=
  [(u "pleasure", 0%float); (u "arousal", 0%float); (u "dominance", 0%float); (u "libido", 0%float); (u "aggression", 0%float);
   (u "connection", 0.5%float); (u "energy", 0.8%float); (u "tension", 0%float)].

Definition NEUTRAL_RELATIONSHIP : list (pystr * float) :=
  [(u "trust", 0.5%float); (u "affection", 0.3%float); (u "tension", 0%float)].

Definition privacy_is_neutral_snapshot (payload : pyval) (kind : snapshot_kind) : option bool :=
  contract ← jsonb_snapshot_contract payload kind;
  if negb contract then Some false else
  match is_object payload with
  | None => Some false
  | Some d =>
      match kind with
      | kind_emotional =>
          b ← numbers_are d NEUTRAL_EMOTIONAL;
          Some (b && match dindex d (u "coping_mode") with PStr s => str_eqb s (u "HEALTHY") | _ => false end)
      | kind_relationship =>
          b ← numbers_are d NEUTRAL_RELATIONSHIP;
          Some (b && match dindex d (u "triggers") with PList [] | PTuple [] => true | _ => false end)
      end
  end.

(** The refusal of the payload of a reset; the outer [None] is an exception. *)
Definition reset_refused (operation : privacy_operation) (payload : pyval) : option (option pyval) :=
  match operation with
  | OPERATION_RESET_EMOTIONAL_STATE =>
      b ← privacy_is_neutral_snapshot payload kind_emotional;
      Some (if b : bool then None else Some (validation_failed (u "emotional_state snapshot must be the canonical neutral v1 state")))
  | OPERATION_RESET_RELATIONSHIP_STATE =>
      b ← privacy_is_neutral_snapshot payload kind_relationship;
      Some (if b : bool then None else Some (validation_failed (u "relationship_state snapshot must be the canonical neutral v1 state")))
  | _ => Some None
  end.

(** ** The mutations *)

Definition of_users (user : pystr) (l : list pystr) : Z := Z.of_nat (length (List.filter (str_eqb user) l)).
Definition without (user : pystr) (l : list pystr) : list pystr := List.filter (fun x => negb (str_eqb user x)) l.

Record counts : Type := mkCounts {
  n_chat_logs : Z;
  n_turn_requests : Z;
  n_outbox_events : Z;
  n_archival : Z;
  n_memories : Z;
  n_profiles : Z }.

Definition user_requests (user : pystr) (m : gmap (pystr * pystr) turn_request_row) : gmap (pystr * pystr) turn_request_row :=
  filter (fun kv => kv.1.1 = user) m.

Definition clear_history (user : pystr) (t : turn_db) : turn_db :=
  mkTurnDb (d_profiles t) (filter (fun kv => kv.1.1 <> user) (d_requests t))
    (List.filter (fun r => negb (str_eqb user (lr_user r))) (d_logs t))
    (List.filter (fun r => negb (str_eqb user (ob_user r))) (d_outbox t)) (d_next_log t).

Definition with_turns (t : turn_db) (db : privacy_db) : privacy_db := mkPrivacyDb t (v_memories db) (v_archival db) (v_ledger db).

(** [UPDATE profiles SET ... WHERE user_id = user]; no row is no update. *)
Definition update_profile (user : pystr) (f : profile_row -> profile_row) (t : turn_db) : turn_db :=
  mkTurnDb (alter f user (d_profiles t)) (d_requests t) (d_logs t) (d_outbox t) (d_next_log t).

Definition set_emotional (v : pyval) (r : profile_row) : profile_row :=
  mkProfileRow (pr_persona_config r) (pr_user_profile r) v (pr_relationship_state r) (pr_revision r).
Definition set_relationship (v : pyval) (r : profile_row) : profile_row :=
  mkProfileRow (pr_persona_config r) (pr_user_profile r) (pr_emotional_state r) v (pr_revision r).
Definition set_revision (z : Z) (r : profile_row) : profile_row :=
  mkProfileRow (pr_persona_config r) (pr_user_profile r) (pr_emotional_state r) (pr_relationship_state r) z.

Definition mutate (user : pystr) (operation : privacy_operation) (payload : pyval) (db : privacy_db) : counts * privacy_db :=
  let t := v_turns db in
  let profiles := match d_profiles t !! user with Some _ => 1 | None => 0 end in
  match operation with
  | OPERATION_DELETE_HISTORY =>
      (mkCounts (Z.of_nat (length (List.filter (fun r => str_eqb user (lr_user r)) (d_logs t))))
         (Z.of_nat (size (user_requests user (d_requests t))))
         (Z.of_nat (length (List.filter (fun r => str_eqb user (ob_user r)) (d_outbox t))))
         (of_users user (v_archival db)) 0 0,
       mkPrivacyDb (clear_history user t) (v_memories db) (without user (v_archival db)) (v_ledger db))
  | OPERATION_DELETE_MEMORIES =>
      (mkCounts 0 0 0 (of_users user (v_archival db)) (of_users user (v_memories db)) 0,
       mkPrivacyDb t (without user (v_memories db)) (without user (v_archival db)) (v_ledger db))
  | OPERATION_RESET_EMOTIONAL_STATE =>
      (mkCounts 0 0 0 0 0 profiles, with_turns (update_profile user (set_emotional (jsonb_stored payload)) t) db)
  | OPERATION_RESET_RELATIONSHIP_STATE =>
      (mkCounts 0 0 0 0 0 profiles, with_turns (update_profile user (set_relationship (jsonb_stored payload)) t) db)
  end.

Definition counts_value (c : counts) : pyval :=
  PDict [(KStr (u "chat_logs"), PInt (n_chat_logs c)); (KStr (u "turn_requests"), PInt (n_turn_requests c));
         (KStr (u "outbox_events"), PInt (n_outbox_events c)); (KStr (u "archival_extractions"), PInt (n_archival c));
         (KStr (u "memories"), PInt (n_memories c)); (KStr (u "profiles"), PInt (n_profiles c))].

Definition applied_result (user : pystr) (operation : privacy_operation) (id : pystr) (revision : Z) (c : counts) : pyval :=
  PDict [(KStr (u "status"), PStr (u "applied")); (KStr (u "operation"), PStr (operation_text operation));
         (KStr (u "operation_id"), PStr id); (KStr (u "user_id"), PStr user); (KStr (u "revision"), PInt revision);
         (KStr (u "counts"), counts_value c)].

Definition operation_conflict : pyval :=
  error_envelope (u "operation_conflict") (u "operation_id already used with a different operation or payload") [].

(** ** privacy_apply_operation *)

Definition privacy_apply_operation (user : pystr) (operation : privacy_operation) (id : pystr) (payload : pyval) (db : privacy_db)
    : option pyval * privacy_db :=
  match privacy_op_validation_error user payload with
  | Some e => (Some e, db)
  | None =>
      match reset_refused operation payload with
      | None => (None, db)
      | Some (Some e) => (Some e, db)
      | Some None =>
          let hash := privacy_operation_payload_sha256 payload in
          match v_ledger db !! (user, id) with
          | Some row =>
              if bool_decide (lg_operation row = operation) && str_eqb (lg_payload_hash row) hash
              then (Some (lg_result row), db) else (Some operation_conflict, db)
          | None =>
              let '(c, db1) := mutate user operation payload db in
              let revision := match d_profiles (v_turns db) !! user with Some r => pr_revision r + 1 | None => 0 end in
              if negb (is_bigint revision) then (None, db) else
              let db2 := with_turns (update_profile user (set_revision revision) (v_turns db1)) db1 in
              let res := applied_result user operation id revision c in
              (Some res, mkPrivacyDb (v_turns db2) (v_memories db2) (v_archival db2)
                           (<[(user, id) := mkLedgerRow operation hash res]> (v_ledger db2)))
          end
      end
  end.

(** The RPCs [delete_history], [delete_memories], [reset_emotional_state] and
    [reset_relationship_state] of a client. *)
Definition privacy_rpc (name : pystr) (params : pydict) (db : privacy_db) : option pyval * privacy_db :=
  match List.find (fun o => str_eqb (operation_text o) name)
          [OPERATION_DELETE_HISTORY; OPERATION_DELETE_MEMORIES; OPERATION_RESET_EMOTIONAL_STATE; OPERATION_RESET_RELATIONSHIP_STATE] with
  | None => (None, db)
  | Some operation =>
      match (user ← text_arg (dindex params (u "p_authenticated_user_id"));
             id ← uuid_arg (dindex params (u "p_operation_id"));
             payload ← jsonb_arg (dindex params (u "p_operation_payload"));
             Some (user, id, payload)) with
      | None => (None, db)
      | Some (user, id, payload) => privacy_apply_operation user operation id payload db
      end
  end.

End Functions.
