(* ===== verification/PrivacyProperties.v ===== *)
(** * Privacy operations: the properties

    The operations over the ledger and the turn database together: applied once,
    to the right user, fencing the turns that were computed before; through the
    service, from the request to the public answer; and the retried reset, which
    is refused. *)

From Stdlib Require Import Floats.
From S2P Require Import Prelude PyFloat PyValue Json StorageContracts EmotionalModels Relationship TurnExecution AtomicTurnCommit.
From S2P Require Import JsonText CommitTheorems CommitProperties TurnDatabase TurnDatabaseTheorems TurnDatabaseProperties.
From S2P Require Import TurnRepositories ProcessTurn PrivacyOperations PrivacyLedger.

Local Open Scope Z_scope.

Section Ledger.
Context `{JB : Jsonb, SH : Sha256}.

(** ** Calls *)

Inductive web_call : Type :=
| CallCommit (env : sql_env) (p : sql_params)
| CallPrivacy (user : pystr) (operation : privacy_operation) (id : pystr) (payload : pyval).

Definition run_web_call (db : privacy_db) (c : web_call) : privacy_db :=
  match c with
  | CallCommit env p => with_turns (sql_commit_turn env p (v_turns db)).2 db
  | CallPrivacy user operation id payload => (privacy_apply_operation user operation id payload db).2
  end.

Definition run_web_calls (calls : list web_call) (db : privacy_db) : privacy_db := foldl run_web_call db calls.

(** ** What one operation does *)

(** The rows of a user. *)
Record user_view : Type := mkUserView {
  uv_profile : option profile_row;
  uv_requests : gmap (pystr * pystr) turn_request_row;
  uv_logs : list log_row;
  uv_outbox : list outbox_row;
  uv_memories : Z;
  uv_archival : Z }.

Definition view (user : pystr) (db : privacy_db) : user_view :=
  mkUserView (d_profiles (v_turns db) !! user) (user_requests user (d_requests (v_turns db)))
    (List.filter (fun r => str_eqb user (lr_user r)) (d_logs (v_turns db)))
    (List.filter (fun r => str_eqb user (ob_user r)) (d_outbox (v_turns db)))
    (of_users user (v_memories db)) (of_users user (v_archival db)).

Definition bumped (r : profile_row) : profile_row := set_revision (pr_revision r + 1) r.

(** What an operation promises to do to the rows of its user. *)
Definition promised (operation : privacy_operation) (payload : pyval) (v : user_view) : user_view :=
  match operation with
  | OPERATION_DELETE_HISTORY => mkUserView (bumped <$> uv_profile v) ∅ [] [] (uv_memories v) 0
  | OPERATION_DELETE_MEMORIES => mkUserView (bumped <$> uv_profile v) (uv_requests v) (uv_logs v) (uv_outbox v) 0 0
  | OPERATION_RESET_EMOTIONAL_STATE =>
      mkUserView (bumped ∘ set_emotional (jsonb_stored payload) <$> uv_profile v) (uv_requests v) (uv_logs v) (uv_outbox v)
        (uv_memories v) (uv_archival v)
  | OPERATION_RESET_RELATIONSHIP_STATE =>
      mkUserView (bumped ∘ set_relationship (jsonb_stored payload) <$> uv_profile v) (uv_requests v) (uv_logs v) (uv_outbox v)
        (uv_memories v) (uv_archival v)
  end.

(** The rows an operation has removed, and the profiles it has reset. *)
Definition promised_counts (operation : privacy_operation) (v : user_view) : counts :=
  match operation with
  | OPERATION_DELETE_HISTORY =>
      mkCounts (Z.of_nat (length (uv_logs v))) (Z.of_nat (size (uv_requests v))) (Z.of_nat (length (uv_outbox v))) (uv_archival v) 0 0
  | OPERATION_DELETE_MEMORIES => mkCounts 0 0 0 (uv_archival v) (uv_memories v) 0
  | _ => mkCounts 0 0 0 0 0 (match uv_profile v with Some _ => 1 | None => 0 end)
  end.

Definition promised_revision (v : user_view) : Z := match uv_profile v with Some r => pr_revision r + 1 | None => 0 end.

Record applied (user : pystr) (operation : privacy_operation) (id : pystr) (payload : pyval) (db db' : privacy_db) : Prop := {
  ap_own : view user db' = promised operation payload (view user db);
  ap_others : forall other, other <> user -> view other db' = view other db;
  ap_row : v_ledger db' = <[(user, id) := mkLedgerRow operation (privacy_operation_payload_sha256 payload)
    (applied_result user operation id (promised_revision (view user db)) (promised_counts operation (view user db)))]> (v_ledger db) }.

Lemma filter_without {A} (f : A -> pystr) user (l : list A) :
  List.filter (fun r => str_eqb user (f r)) (List.filter (fun r => negb (str_eqb user (f r))) l) = [].
Proof. induction l as [|x l IH]; [done|]. cbn. destruct (str_eqb user (f x)) eqn:E; cbn; [done|]. by rewrite E. Qed.

Lemma filter_other {A} (f : A -> pystr) user other (l : list A) : other <> user ->
  List.filter (fun r => str_eqb other (f r)) (List.filter (fun r => negb (str_eqb user (f r))) l) = List.filter (fun r => str_eqb other (f r)) l.
Proof.
  intros N. induction l as [|x l IH]; [done|]. cbn. destruct (str_eqb user (f x)) eqn:E; cbn; rewrite IH; [|done].
  apply str_eqb_eq in E as <-. assert (str_eqb other user = false) as -> by (apply not_true_is_false; by intros ?%str_eqb_eq). done.
Qed.

Lemma requests_without user m : user_requests user (filter (fun kv => kv.1.1 <> user) m) = ∅.
Proof.
  apply map_empty. intros k. unfold user_requests. apply map_lookup_filter_None. right. intros x H. cbn.
  by apply map_lookup_filter_Some in H as [_ ?].
Qed.

Lemma requests_other user other m : other <> user -> user_requests other (filter (fun kv => kv.1.1 <> user) m) = user_requests other m.
Proof.
  intros N. apply map_eq. intros k. unfold user_requests. apply option_eq. intros x. rewrite !map_lookup_filter_Some. cbn.
  split; [naive_solver|]. intros [H <-]. done.
Qed.

Lemma mutate_counts user operation payload db : (mutate user operation payload db).1 = promised_counts operation (view user db).
Proof. by destruct operation. Qed.

Lemma mutate_turns user operation payload db : v_ledger (mutate user operation payload db).2 = v_ledger db.
Proof. by destruct operation. Qed.

Lemma mutate_others user operation payload db other : other <> user -> view other (mutate user operation payload db).2 = view other db.
Proof.
  intros N. destruct operation; unfold view, of_users; cbn.
  - unfold without. rewrite requests_other, (filter_other lr_user), (filter_other ob_user), (filter_other id) by done. done.
  - unfold without. by rewrite !(filter_other id).
  - by rewrite lookup_alter_ne.
  - by rewrite lookup_alter_ne.
Qed.

(** The rows of the user after the mutation and the step of the revision. *)
Lemma view_own user operation payload db db1 m a l :
  (mutate user operation payload db).2 = db1 ->
  v_memories db1 = m -> v_archival db1 = a ->
  view user (mkPrivacyDb (update_profile user (set_revision (promised_revision (view user db))) (v_turns db1)) m a l)
  = promised operation payload (view user db).
Proof.
  intros <- <- <-. unfold view, of_users, promised_revision. destruct operation; cbn; unfold without.
  - rewrite lookup_alter_eq, requests_without, (filter_without lr_user), (filter_without ob_user), (filter_without id).
    f_equal. by destruct (d_profiles (v_turns db) !! user).
  - rewrite lookup_alter_eq, !(filter_without id). f_equal. by destruct (d_profiles (v_turns db) !! user).
  - rewrite !lookup_alter_eq. f_equal. by destruct (d_profiles (v_turns db) !! user).
  - rewrite !lookup_alter_eq. f_equal. by destruct (d_profiles (v_turns db) !! user).
Qed.

(** The transaction of a new operation. *)
Lemma apply_new user operation id payload db v db' :
  v_ledger db !! (user, id) = None -> privacy_apply_operation user operation id payload db = (Some v, db') ->
  (db' = db /\ is_error v)
  \/ (applied user operation id payload db db'
      /\ v = applied_result user operation id (promised_revision (view user db)) (promised_counts operation (view user db))).
Proof.
  intros L. unfold privacy_apply_operation.
  destruct (privacy_op_validation_error user payload) as [e|] eqn:Ev.
  { intros [= <- <-]. left. split; [done|]. unfold privacy_op_validation_error in Ev.
    destruct (_ || _) in Ev; [injection Ev as <-; by eexists|]. destruct (is_object payload); [done|]. injection Ev as <-. by eexists. }
  destruct (reset_refused operation payload) as [[e|]|] eqn:Er; [|..|done].
  { intros [= <- <-]. left. split; [done|]. unfold reset_refused in Er. destruct operation; try done;
      apply bind_Some in Er as ([] & _ & Er); try done; injection Er as <-; by eexists. }
  rewrite L. pose proof (mutate_counts user operation payload db) as Hc. destruct (mutate user operation payload db) as [c db1] eqn:M.
  cbn [fst] in Hc. subst c. fold (promised_revision (view user db)).
  change (match d_profiles (v_turns db) !! user with Some r => pr_revision r + 1 | None => 0 end) with (promised_revision (view user db)).
  destruct (is_bigint _); [|done]. cbn [negb]. intros [= <- <-]. right. split; [|done].
  pose proof (mutate_turns user operation payload db) as Mt. rewrite M in Mt. cbn [snd] in Mt.
  constructor.
  - apply view_own; [by rewrite M|done|done].
  - intros other N. rewrite <- (mutate_others user operation payload db other N), M. cbn [snd]. unfold view. cbn.
    by rewrite lookup_alter_ne.
  - cbn. by rewrite Mt.
Qed.

(** Every call, applied or not. *)
Lemma apply_cases user operation id payload db a db' :
  privacy_apply_operation user operation id payload db = (a, db') ->
  db' = db \/ (v_ledger db !! (user, id) = None /\ applied user operation id payload db db').
Proof.
  intros H. destruct (v_ledger db !! (user, id)) as [row|] eqn:L.
  - left. unfold privacy_apply_operation in H. rewrite L in H. repeat case_match; by injection H as _ <-.
  - destruct a as [v|]; [|left; unfold privacy_apply_operation in H; rewrite L in H; repeat case_match; by simplify_eq].
    apply apply_new in H as [[-> _]|[A _]]; [by left|by right|done].
Qed.

Lemma view_profile user db r : uv_profile (view user db) = Some r -> d_profiles (v_turns db) !! user = Some r.
Proof. done. Qed.

(** To a turn, an operation is one of the moves other clients make. *)
Lemma applied_evolves user operation id payload db db' : applied user operation id payload db db' -> evolves (v_turns db) (v_turns db').
Proof.
  intros [Own Oth _] other. destruct (decide (other = user)) as [->|N].
  - apply (f_equal uv_profile) in Own. cbn [view uv_profile] in Own. unfold revision_of, snapshots_of. rewrite Own.
    destruct operation; cbn; destruct (d_profiles (v_turns db) !! user); cbn; (split; [lia|]); try done; intros ?; lia.
  - specialize (Oth other N). apply (f_equal uv_profile) in Oth. cbn in Oth. unfold revision_of, snapshots_of. by rewrite Oth.
Qed.

Lemma call_evolves db c : evolves (v_turns db) (v_turns (run_web_call db c)).
Proof.
  destruct c as [env p|user operation id payload]; cbn.
  - destruct (sql_commit_turn env p (v_turns db)) as [a t] eqn:E. by eapply sql_commit_evolves.
  - destruct (privacy_apply_operation _ _ _ _ _) as [a db'] eqn:E. apply apply_cases in E as [->|[_ A]]; [reflexivity|by eapply applied_evolves].
Qed.

Lemma calls_evolve calls db : evolves (v_turns db) (v_turns (run_web_calls calls db)).
Proof.
  revert db. induction calls as [|c calls IH]; intros db; [reflexivity|]. cbn. etransitivity; [apply (call_evolves db c)|apply IH].
Qed.

Lemma calls_keep_rows calls db key row : v_ledger db !! key = Some row -> v_ledger (run_web_calls calls db) !! key = Some row.
Proof.
  revert db. induction calls as [|c calls IH]; intros db L; [done|]. cbn. apply IH. destruct c as [env p|user operation id payload]; [done|].
  cbn. destruct (privacy_apply_operation _ _ _ _ _) as [a db'] eqn:E. apply apply_cases in E as [->|[N [_ _ Rw]]]; [done|].
  cbn. rewrite Rw, lookup_insert_ne; [done|]. intros E. congruence.
Qed.

(** What is answered without an error is in the ledger. *)
Lemma answered_recorded user operation id payload db v db' :
  privacy_apply_operation user operation id payload db = (Some v, db') -> ~ is_error v ->
  privacy_op_validation_error user payload = None /\ reset_refused operation payload = Some None
  /\ v_ledger db' !! (user, id) = Some (mkLedgerRow operation (privacy_operation_payload_sha256 payload) v).
Proof.
  intros H N.
  assert (privacy_op_validation_error user payload = None /\ reset_refused operation payload = Some None) as [Ev Er].
  { destruct (v_ledger db !! (user, id)) as [row|] eqn:L; [|].
    all: unfold privacy_apply_operation in H; destruct (privacy_op_validation_error user payload) as [e|] eqn:Ev.
    1, 3: injection H as <- <-; unfold privacy_op_validation_error in Ev; destruct (_ || _) in Ev;
      [injection Ev as <-; destruct N; by eexists|]; destruct (is_object payload); [done|]; injection Ev as <-; destruct N; by eexists.
    all: destruct (reset_refused operation payload) as [[e|]|] eqn:Er; try done.
    all: injection H as <- <-; unfold reset_refused in Er; destruct operation; try done;
      apply bind_Some in Er as ([] & _ & Er); try done; injection Er as <-; destruct N; by eexists. }
  split_and!; try done. destruct (v_ledger db !! (user, id)) as [row|] eqn:L.
  - unfold privacy_apply_operation in H. rewrite Ev, Er, L in H. destruct (_ && _) eqn:E in H.
    + injection H as <- <-. apply andb_true_iff in E as [<-%bool_decide_eq_true <-%str_eqb_eq]. rewrite L. by destruct row.
    + injection H as <- <-. destruct N. by eexists.
  - apply apply_new in H as [[_ E]|[[_ _ Rw] ->]]; [done| |done]. rewrite Rw. by rewrite lookup_insert_eq.
Qed.


(** C19. A deletion or a reset fences the turns before it.  Once an operation was
    applied for a user with a profile, no turn that was computed from the state
    before it can be written any more, whatever calls come in between: sending
    it leaves the database as it is (it is refused, or answered from a result
    that was stored earlier). *)
Theorem privacy_fences_turns user operation id payload db v db' row calls env p :
  v_ledger db !! (user, id) = None -> privacy_apply_operation user operation id payload db = (Some v, db') -> ~ is_error v ->
  d_profiles (v_turns db) !! user = Some row ->
  p_authenticated_user_id p = user -> p_expected_revision p <= pr_revision row ->
  (sql_commit_turn env p (v_turns (run_web_calls calls db'))).2 = v_turns (run_web_calls calls db').
Proof.
  intros L H N P Hu Hr. apply apply_new in H as [[_ E]|[[Own _ _] _]]; [done| |done].
  apply (f_equal uv_profile) in Own. cbn [view uv_profile] in Own.
  assert (revision_of (v_turns db') user = pr_revision row + 1) as R.
  { unfold revision_of. rewrite Own. destruct operation; cbn; by rewrite P. }
  pose proof (proj1 (calls_evolve calls db' user)) as Le. rewrite R in Le.
  destruct (sql_commit_turn env p _) as [a t] eqn:E.
  apply sql_commit_cases in E as [[-> _]|[[-> _]|(r & w & [Ex _ _ _ _ _ _ _ _ _ _ _ _ _] & _)]]; [done|done|].
  rewrite Hu in Ex. lia.
Qed.

End Ledger.

(** ** Through the service *)

Definition neutral_state (t : float) : EmotionalStateV1 := mkState 0 0 0 0 0 0.5 0.8 0 HEALTHY t 1.
Definition neutral_relationship (t : float) : RelationshipStateV1 := mkRel t 1 0.5 0.3 0 [].

(** The payload of a request. *)
Definition request_payload (operation : privacy_operation) (t : float) : pydict :=
  match operation with
  | OPERATION_RESET_EMOTIONAL_STATE => EmotionalStateV1_to_dict (neutral_state t)
  | OPERATION_RESET_RELATIONSHIP_STATE => RelationshipStateV1_to_dict (neutral_relationship t)
  | _ => []
  end.

Lemma neutral_state_wf t : isfinite t && (0 <? t)%float = true -> state_wf (neutral_state t) = true.
Proof. intros [T1 T2]%andb_true_iff. unfold state_wf. cbn [timestamp neutral_state]. by rewrite T1, T2. Qed.

Lemma neutral_relationship_wf t : isfinite t && (0 <? t)%float = true -> rel_wf (neutral_relationship t).
Proof. intros T. unfold rel_wf, triggers_wf. split_and!; try done; cbn; (lia || constructor). Qed.

Lemma neutral_dicts t : isfinite t && (0 <? t)%float = true ->
  neutral_dict emotional_state_field t = Some (EmotionalStateV1_to_dict (neutral_state t))
  /\ neutral_dict relationship_state_field t = Some (RelationshipStateV1_to_dict (neutral_relationship t)).
Proof.
  intros T. split; cbn [neutral_dict].
  - assert (EmotionalStateV1_neutral (PFloat t) = Ok (neutral_state t)) as ->; [|done]. apply create_iff.
    split; [|by apply neutral_state_wf]. repeat split; try reflexivity. apply as_float_PFloat. by apply andb_true_iff in T as [? _].
  - assert (RelationshipStateV1_neutral (PFloat t) = Ok (neutral_relationship t)) as ->; [|done].
    exact (rel_create_self _ (neutral_relationship_wf t T)).
Qed.

Section Service.
Context `{FT : FloatText, JT : JsonbText, SH : Sha256}.

Lemma neutral_relationship_text t : isfinite t = true ->
  text_within (PDict (RelationshipStateV1_to_dict (neutral_relationship t))) _MAX_REPLAY_PAYLOAD_BYTES.
Proof.
  intros F. set (items := [(u "schema_version", JInt 1); (u "trust", JFloat 0.5); (u "affection", JFloat 0.3); (u "tension", JFloat 0);
    (u "triggers", JArr []); (u "timestamp", JFloat t)]).
  destruct (object_bytes items 1000) as (n & En & Ln).
  - subst items. repeat (constructor; [cbn [snd]; first [by apply float_item | by split]|]). constructor.
  - subst items. cbn [sum_list_with fst snd].
    repeat match goal with |- context [sum_list_with utf8_width (render_str (u ?x))] =>
      let n := eval vm_compute in (sum_list_with utf8_width (render_str (u x))) in
      change (sum_list_with utf8_width (render_str (u x))) with n end.
    cbn [render_spaced]. destruct (float_text 0.5 eq_refl) as [_ L1], (float_text 0.3 eq_refl) as [_ L2], (float_text 0 eq_refl) as [_ L3],
      (float_text t F) as [_ L4].
    change (sum_list_with utf8_width (render (JInt 1))) with 1%nat.
    change (sum_list_with utf8_width (u "[" ++ join (u ", ") (map render_spaced []) ++ u "]")) with 2%nat.
    cbn [render] in *. lia.
  - exists (JObj items), n. split_and!; [|done|etransitivity; [exact Ln|by apply Nat.leb_le; vm_compute]].
    rewrite json_dump_dict. rewrite (rmap_Forall2 _ _ items); [done|]. subst items.
    repeat (constructor; [first [by apply dump_float | reflexivity]|]). constructor.
Qed.

Lemma request_snapshot_ok operation field t : reset_field operation = Some field -> isfinite t && (0 <? t)%float = true ->
  snapshot_ok field (request_payload operation t).
Proof.
  intros R T. destruct operation; try done; injection R as <-; cbn [request_payload].
  - by apply emotional_accepted, neutral_state_wf.
  - apply relationship_accepted; [by apply neutral_relationship_wf|]. apply neutral_relationship_text. by apply andb_true_iff in T as [? _].
Qed.

Lemma float_eq_refl t : isfinite t = true -> (t =? t)%float = true.
Proof. unfold isfinite, is_nan. by destruct (t =? t)%float. Qed.

(** Python accepts the request the service builds. *)
Lemma request_validated operation user id t : user_id_ok user = true -> is_uuid id = true ->
  (reset_field operation <> None -> isfinite t && (0 <? t)%float = true) ->
  validate_privacy_operation_input operation (PStr user) (PStr id) (PDict (request_payload operation t))
  = Ok (user, id, request_payload operation t).
Proof.
  intros U I T. unfold validate_privacy_operation_input, _validate_user_id, _validate_operation_id, uuid_match.
  rewrite U, I. cbn [rbind as_mapping]. destruct (reset_field operation) as [field|] eqn:R; [|done]. specialize (T ltac:(done)).
  assert (_validate_snapshot_payload (PDict (request_payload operation t)) field = Ok tt) as ->.
  { apply validate_snapshot_iff. right. eexists. split; [done|by apply request_snapshot_ok]. }
  cbn [rbind]. assert (_validate_reset_neutral (request_payload operation t) field = Ok tt) as ->; [|done].
  unfold _validate_reset_neutral. pose proof (float_eq_refl t ltac:(by apply andb_true_iff in T as [? _])) as E.
  destruct (neutral_dicts t T) as [N1 N2].
  assert ((n ← as_number (default PNone (dget (request_payload operation t) (u "timestamp"))); ts ← num_to_float n; neutral_dict field ts)
    = Some (request_payload operation t)) as -> by (destruct operation; try done; injection R as <-; [exact N1|exact N2]).
  assert (dict_eq (request_payload operation t) (request_payload operation t) = true) as ->; [|done].
  destruct operation; try done.
  - transitivity (true && (true && (true && (true && (true && (true && (true && (true && (true && (true && ((t =? t)%float && true)))))))))));
      [reflexivity|by rewrite E].
  - transitivity (true && (true && (true && (true && (true && ((t =? t)%float && true)))))); [reflexivity|by rewrite E].
Qed.

(** The database accepts it too. *)
Lemma drop_while_nil {A} (p : A -> bool) l : drop_while p l = [] -> forallb p l = true.
Proof. induction l as [|x l IH]; [done|]. cbn. by destruct (p x). Qed.

Lemma trimmed_away s : sql_trim s = [] -> forallb is_space s = true.
Proof.
  unfold sql_trim. intros H. apply (f_equal (@rev N)) in H. rewrite rev_involutive in H. cbn in H. apply drop_while_nil in H.
  assert (drop_while (fun c => (c =? 32)%N) s = []) as E.
  { destruct (drop_while _ s) as [|x l] eqn:D; [done|]. pose proof (drop_while_head (fun c => c =? 32)%N s) as Hx. rewrite D in Hx. cbn in Hx.
    rewrite forallb_forall in H. rewrite (H x) in Hx; [done|]. rewrite <- in_rev. by left. }
  apply drop_while_nil in E. rewrite forallb_forall in E |- *. intros c Hc%E%N.eqb_eq. by subst.
Qed.

Lemma request_user user d : user_id_ok user = true -> privacy_op_validation_error user (PDict d) = None.
Proof.
  intros [N L]%andb_true_iff. unfold privacy_op_validation_error. rewrite L.
  assert ((1 <=? length user)%nat = true) as -> by (by destruct user).
  rewrite bool_decide_eq_false_2; [done|]. intros E%trimmed_away. by rewrite E in N.
Qed.

Lemma request_unrefused operation t : (reset_field operation <> None -> isfinite t && (0 <? t)%float = true) ->
  fits (PDict (request_payload operation t)) -> reset_refused operation (PDict (request_payload operation t)) = Some None.
Proof.
  intros T L. destruct operation; try done; cbn [reset_refused]; unfold privacy_is_neutral_snapshot.
  - rewrite emotional_contract; [reflexivity| |apply (bool_decide_unpack _); done|exact L].
    apply (request_snapshot_ok OPERATION_RESET_EMOTIONAL_STATE); [done|by apply T].
  - rewrite relationship_contract; [reflexivity| |apply (bool_decide_unpack _); done|exact L].
    apply (request_snapshot_ok OPERATION_RESET_RELATIONSHIP_STATE); [done|by apply T].
Qed.

Lemma request_json operation t : isfinite t = true -> pg_json_ok (PDict (request_payload operation t)) = true.
Proof. intros F. destruct operation; try reflexivity; (transitivity (isfinite t && true); [reflexivity|by rewrite F]). Qed.

(** ** The answer is read back *)

Definition counts_list (c : counts) : list (pykey * Z) :=
  [(KStr (u "chat_logs"), n_chat_logs c); (KStr (u "turn_requests"), n_turn_requests c); (KStr (u "outbox_events"), n_outbox_events c);
   (KStr (u "archival_extractions"), n_archival c); (KStr (u "memories"), n_memories c); (KStr (u "profiles"), n_profiles c)].

Record counts_ok (c : counts) : Prop := {
  co_logs : 0 <= n_chat_logs c; co_requests : 0 <= n_turn_requests c; co_events : 0 <= n_outbox_events c;
  co_archival_ : 0 <= n_archival c; co_memories : 0 <= n_memories c; co_profiles : 0 <= n_profiles c }.

Lemma promised_counts_ok operation user db : counts_ok (promised_counts operation (view user db)).
Proof. destruct operation; constructor; cbn; unfold of_users; try lia; by destruct (d_profiles (v_turns db) !! user). Qed.

Lemma parse_applied user operation id revision c : user <> [] -> 0 <= revision -> counts_ok c ->
  parse_privacy_operation_result (applied_result user operation id revision c) (operation_text operation) id user
  = Ok (mkPrivacyResult (operation_text operation) id user revision (counts_list c)).
Proof.
  intros U R [C1 C2 C3 C4 C5 C6]. unfold parse_privacy_operation_result, applied_result. cbn [as_mapping]. set (d := _ :: _).
  replace (dget d (u "error")) with (@None pyval) by reflexivity.
  replace (has_missing PRIVACY_SUCCESS_FIELDS d) with false by reflexivity.
  replace (has_unknown PRIVACY_SUCCESS_FIELDS d) with false by reflexivity. cbn [raise_if rbind].
  replace (dindex d (u "operation")) with (PStr (operation_text operation)) by reflexivity.
  replace (dindex d (u "operation_id")) with (PStr id) by reflexivity.
  replace (py_eq (dindex d (u "status")) (PStr (u "applied"))) with true by reflexivity.
  cbn [py_eq]. rewrite !(proj2 (str_eqb_eq _ _) eq_refl). cbn [negb raise_if rbind].
  replace (dindex d (u "user_id")) with (PStr user) by reflexivity. rewrite bool_decide_eq_false_2 by done.
  rewrite !(proj2 (str_eqb_eq _ _) eq_refl). cbn [negb raise_if rbind].
  replace (dindex d (u "revision")) with (PInt revision) by reflexivity.
  destruct (Z.ltb_spec revision 0); [lia|]. cbn [raise_if rbind].
  replace (dindex d (u "counts")) with (counts_value c) by reflexivity. unfold counts_value. cbn [as_mapping].
  replace (has_missing _COUNT_FIELDS _ || has_unknown _COUNT_FIELDS _) with false by reflexivity. cbn [raise_if rbind].
  assert (forall k z, 0 <= z -> parse_count (k, PInt z) = Ok (k, z)) as P.
  { intros k z Hz. unfold parse_count. cbn. by destruct (Z.ltb_spec z 0); [lia|]. }
  rewrite !rmap_cons, !P by done. reflexivity.
Qed.

(** ** The actions *)

Context (turn_config : TurnExecutionConfig).

(** A request that reaches the database and waits for its answer. *)
Record action_ok (operation : privacy_operation) (user id : pystr) (env : action_env) : Prop := {
  ao_user : user_id_ok user = true;
  ao_text : pg_text_ok user = true;
  ao_id : is_uuid id = true;
  ao_clock : isfinite (ac_clock env) && (0 <? ac_clock env)%float = true;
  ao_fits : fits (PDict (request_payload operation (ac_clock env)));
  ao_time : (remaining (create_budget turn_config (ac_start env)) (ac_now env) <=? 0)%float = false;
  ao_waits : ac_cancelled env = false }.

Lemma action_answer operation user id env db d db' : action_ok operation user id env ->
  privacy_apply_operation user operation id (PDict (request_payload operation (ac_clock env))) db = (Some (PDict d), db') ->
  privacy_action (Some privacy_rpc) turn_config env operation (PStr user) (PStr id) db
  = (let* res := parse_privacy_operation_result (PDict d) (operation_text operation) id user in Ok (from_result res), db').
Proof.
  intros [U Tx I C L Tm W] H. set (t := ac_clock env) in *.
  assert (privacy_action (Some privacy_rpc) turn_config env operation (PStr user) (PStr id) db
    = _run (Some privacy_rpc) turn_config env operation (PStr user) (PStr id) (PDict (request_payload operation t)) db) as ->.
  { unfold privacy_action. fold t. destruct (neutral_dicts t C) as [N1 N2]. destruct operation; cbn [reset_field]; [done|done|by rewrite N1|by rewrite N2]. }
  unfold _run, run_privacy_operation. rewrite (request_validated operation user id t U I (fun _ => C)).
  assert (privacy_rpc (operation_text operation) (build_privacy_operation_rpc_payload user id (request_payload operation t)) db = (Some (PDict d), db')) as R.
  { unfold privacy_rpc. replace (List.find _ _) with (Some operation) by (by destruct operation).
    replace (dindex _ (u "p_authenticated_user_id")) with (PStr user) by reflexivity.
    replace (dindex _ (u "p_operation_id")) with (PStr id) by reflexivity.
    replace (dindex _ (u "p_operation_payload")) with (PDict (request_payload operation t)) by reflexivity.
    unfold text_arg, uuid_arg, jsonb_arg. rewrite Tx, I, request_json by (by apply andb_true_iff in C as [? _]). exact H. }
  unfold action_rpc. rewrite Tm. unfold call. rewrite R. unfold run_blocking_write. rewrite Tm, W. done.
Qed.

Lemma action_applied operation user id env db :
  action_ok operation user id env -> v_ledger db !! (user, id) = None ->
  0 <= promised_revision (view user db) < 2 ^ 63 ->
  exists db', privacy_action (Some privacy_rpc) turn_config env operation (PStr user) (PStr id) db
      = (Ok (mkPrivacyResponse (operation_text operation) (u "applied") (counts_list (promised_counts operation (view user db)))), db')
    /\ applied user operation id (PDict (request_payload operation (ac_clock env))) db db'.
Proof.
  intros A L R. set (payload := PDict (request_payload operation (ac_clock env))).
  destruct (privacy_apply_operation user operation id payload db) as [a db'] eqn:H.
  assert (exists v, a = Some v /\ ~ is_error v) as (v & -> & Ne).
  { unfold privacy_apply_operation, payload in H. rewrite (request_user user _ (ao_user _ _ _ _ A)) in H.
    rewrite (request_unrefused operation (ac_clock env) (fun _ => ao_clock _ _ _ _ A) (ao_fits _ _ _ _ A)), L in H.
    destruct (mutate _ _ _ _) as [c db1]. change (match d_profiles (v_turns db) !! user with Some r => pr_revision r + 1 | None => 0 end)
      with (promised_revision (view user db)) in H.
    assert (is_bigint (promised_revision (view user db)) = true) as B by (unfold is_bigint; apply andb_true_iff; split; [apply Z.leb_le|apply Z.ltb_lt]; lia).
    rewrite B in H. cbn [negb] in H. injection H as <- _. eexists. split; [done|]. intros [e He]. by apply (f_equal (fun v => match v with PDict d => length d | _ => 0%nat end)) in He. }
  pose proof (apply_new _ _ _ _ _ _ _ L H) as [[_ E]|[Ap ->]]; [done|]. exists db'. split; [|exact Ap].
  unfold applied_result in H. rewrite (action_answer _ _ _ _ _ _ _ A H).
  change (PDict _) with (applied_result user operation id (promised_revision (view user db)) (promised_counts operation (view user db))).
  rewrite parse_applied; [done| |lia|apply promised_counts_ok].
  intros ->. by pose proof (ao_user _ _ _ _ A).
Qed.

(** C20. What a user asks for is done.  A request with a usable identity and operation
    id, within its budget and not cancelled, at a clock the domain accepts, whose
    id is new, is applied: the answer states the operation and exactly the rows it
    has removed or reset, the rows of the user become what the operation promises
    (no history and one step of the revision; no memories; or the neutral snapshot
    in place of the old one), the rows of every other user stay as they are, and
    the ledger records it. *)
Theorem privacy_action_applies operation user id env db :
  action_ok operation user id env -> v_ledger db !! (user, id) = None ->
  0 <= promised_revision (view user db) < 2 ^ 63 ->
  exists db', privacy_action (Some privacy_rpc) turn_config env operation (PStr user) (PStr id) db
      = (Ok (mkPrivacyResponse (operation_text operation) (u "applied") (counts_list (promised_counts operation (view user db)))), db')
    /\ applied user operation id (PDict (request_payload operation (ac_clock env))) db db'.
Proof. apply action_applied. Qed.

(** C24. A retried reset is refused.  When the answer of a reset is lost and the user
    sends the request again, with the same operation id, the service builds the
    snapshot anew from its clock: unless the two snapshots have the same hash, the
    retry is answered with [operation_conflict] instead of the stored result. *)
Theorem reset_retry_conflicts operation user id env env' db calls :
  action_ok operation user id env -> action_ok operation user id env' -> v_ledger db !! (user, id) = None ->
  0 <= promised_revision (view user db) < 2 ^ 63 ->
  privacy_operation_payload_sha256 (PDict (request_payload operation (ac_clock env')))
    <> privacy_operation_payload_sha256 (PDict (request_payload operation (ac_clock env))) ->
  exists resp db', privacy_action (Some privacy_rpc) turn_config env operation (PStr user) (PStr id) db = (Ok resp, db')
    /\ privacy_action (Some privacy_rpc) turn_config env' operation (PStr user) (PStr id) (run_web_calls calls db')
      = (Err (CommitConflictError (u "operation_conflict") (u "operation_id already used with a different operation or payload") 0 None None),
         run_web_calls calls db').
Proof.
  intros A A' L R Ne. destruct (action_applied operation user id env db A L R) as (db' & H & [_ _ Rw]). eexists _, db'. split; [exact H|].
  assert (v_ledger db' !! (user, id) = Some (mkLedgerRow operation (privacy_operation_payload_sha256 (PDict (request_payload operation (ac_clock env))))
    (applied_result user operation id (promised_revision (view user db)) (promised_counts operation (view user db))))) as Hr
    by (rewrite Rw; by rewrite lookup_insert_eq).
  apply (calls_keep_rows calls) in Hr.
  assert (privacy_apply_operation user operation id (PDict (request_payload operation (ac_clock env'))) (run_web_calls calls db')
    = (Some operation_conflict, run_web_calls calls db')) as C.
  { unfold privacy_apply_operation. rewrite (request_user user _ (ao_user _ _ _ _ A)).
    rewrite (request_unrefused operation (ac_clock env') (fun _ => ao_clock _ _ _ _ A') (ao_fits _ _ _ _ A')), Hr.
    cbn [lg_operation lg_payload_hash]. rewrite bool_decide_eq_true_2 by done. cbn [andb].
    destruct (str_eqb _ _) eqn:E; [|done]. apply str_eqb_eq in E. by rewrite E in Ne. }
  unfold operation_conflict, error_envelope in C. by rewrite (action_answer _ _ _ _ _ _ _ A' C).
Qed.

End Service.

(** ** Requests, concretely *)

(** PostgreSQL that prints a number by its mantissa and exponent. *)
Definition number_text (f : float) : pystr :=
  match Prim2SF f with S754_finite _ m e => render_int (Zpos m) ++ u "e" ++ render_int e | _ => u "0" end.

Definition exact_jsonb : Jsonb := {|
  jsonb_text v := match v with
    | PInt z => render_int z
    | PDict d => match dget d (u "timestamp") with Some (PFloat f) => number_text f | _ => u "{}" end
    | _ => [] end;
  jsonb_stored v := v;
  timestamptz_text := render_int |}.

Lemma exact_jsonb_text : @JsonbText exact_jsonb.
Proof. by intros z. Qed.

Section Samples.
#[local] Existing Instances flat_repr flat_text exact_jsonb exact_jsonb_text.

(** The digest is the text itself. *)
#[local] Instance plain_sha : Sha256 := fun s => s.

Definition sample_turn_limits : TurnExecutionConfig :=
  mkTurnExecutionConfig (NFloat 45) (NFloat 3) (NFloat 15) (NFloat 5) (NFloat 10) 2 (NFloat 0.25) (NFloat 0.75) (NFloat 0.1) 50000.

Definition sample_action (t : float) : action_env := mkActionEnv t 10 11 false.

Definition sample_privacy_db : privacy_db :=
  mkPrivacyDb (mkTurnDb (d_profiles sample_db) ∅ [mkLogRow 1 (u "ana") false (u "oi") 0; mkLogRow 2 (u "bia") false (u "oi") 0] [] 3)
    [u "ana"; u "bia"] [u "ana"] ∅.

Lemma sample_action_ok operation t : isfinite t && (0 <? t)%float = true -> (octet_length (jsonb_text (PDict (request_payload operation t))) <= 8192)%nat ->
  action_ok sample_turn_limits operation (u "ana") sample_request (sample_action t).
Proof. intros T L. constructor; try exact T; try exact L; vm_compute; reflexivity. Qed.

Lemma privacy_action_applies_witness : exists db',
  privacy_action (Some privacy_rpc) sample_turn_limits (sample_action 1000) OPERATION_DELETE_HISTORY (PStr (u "ana")) (PStr sample_request) sample_privacy_db
    = (Ok (mkPrivacyResponse (u "delete_history") (u "applied") (counts_list (mkCounts 1 0 0 1 0 0))), db')
  /\ d_logs (v_turns db') = [mkLogRow 2 (u "bia") false (u "oi") 0].
Proof.
  destruct (privacy_action_applies sample_turn_limits OPERATION_DELETE_HISTORY (u "ana") sample_request (sample_action 1000) sample_privacy_db)
    as (db' & E & _).
  - apply sample_action_ok; [reflexivity|]. apply Nat.leb_le. vm_compute. reflexivity.
  - reflexivity.
  - vm_compute. split; [discriminate|reflexivity].
  - exists db'. split; [rewrite E; vm_compute; reflexivity|].
    apply (f_equal (fun r => d_logs (v_turns r.2))) in E. vm_compute in E. symmetry. exact E.
Defined.

Lemma reset_retry_conflicts_witness : exists resp db',
  privacy_action (Some privacy_rpc) sample_turn_limits (sample_action 1000) OPERATION_RESET_EMOTIONAL_STATE (PStr (u "ana")) (PStr sample_request)
    sample_privacy_db = (Ok resp, db')
  /\ (privacy_action (Some privacy_rpc) sample_turn_limits (sample_action 1001) OPERATION_RESET_EMOTIONAL_STATE (PStr (u "ana")) (PStr sample_request) db').2
    = db'.
Proof.
  destruct (reset_retry_conflicts sample_turn_limits OPERATION_RESET_EMOTIONAL_STATE (u "ana") sample_request (sample_action 1000) (sample_action 1001)
    sample_privacy_db []) as (resp & db' & E & C).
  - apply sample_action_ok; [reflexivity|]. apply Nat.leb_le. vm_compute. reflexivity.
  - apply sample_action_ok; [reflexivity|]. apply Nat.leb_le. vm_compute. reflexivity.
  - reflexivity.
  - vm_compute. split; [discriminate|reflexivity].
  - vm_compute. discriminate.
  - exists resp, db'. split; [exact E|]. change (run_web_calls [] db') with db' in C. by rewrite C.
Defined.

(** The deletion of ana's history, in SQL. *)
Definition sample_deletion : option pyval * privacy_db :=
  privacy_apply_operation (u "ana") OPERATION_DELETE_HISTORY sample_request (PDict []) sample_privacy_db.


Lemma privacy_fences_turns_witness : exists v db', sample_deletion = (Some v, db')
  /\ (sql_commit_turn sample_env sample_params (v_turns db')).2 = v_turns db'.
Proof.
  eassert (sample_deletion = (Some _, _)) as E by (vm_compute; reflexivity).
  eexists _, _. split; [exact E|].
  eapply (privacy_fences_turns (u "ana") OPERATION_DELETE_HISTORY sample_request (PDict []) sample_privacy_db _ _ _ [] sample_env sample_params).
  - reflexivity.
  - exact E.
  - intros [e He]. apply (f_equal (fun v => match v with PDict d => length d | _ => 0%nat end)) in He. vm_compute in He. discriminate.
  - vm_compute. reflexivity.
  - reflexivity.
  - vm_compute. discriminate.
Defined.

End Samples.
