(* ===== verification/Observability.v ===== *)
(** * Structured log events (backend/observability.py)

    The closed registry of event names, the field contract, the rendering of a
    value and [emit_event].  A logger is the list of its lines. *)

From Stdlib Require Import Floats.
From S2P Require Import Prelude PyFloat FloatRound PyValue Json AtomicTurnCommit.

Local Open Scope Z_scope.

(** ** The registry *)

Definition EVENT_APP_STARTUP_FAILED : pystr := u "app_startup_failed".
Definition EVENT_APP_SHUTDOWN_FAILED : pystr := u "app_shutdown_failed".
Definition EVENT_SUPABASE_CLIENT_CREATION_FAILED : pystr := u "supabase_client_creation_failed".
Definition EVENT_READINESS_CHECK_FAILED : pystr := u "readiness_check_failed".
Definition EVENT_AUTH_FAILED : pystr := u "auth_failed".
Definition EVENT_AUTH_COMPLETED : pystr := u "auth_completed".
Definition EVENT_TURN_COMPLETED : pystr := u "turn_completed".
Definition EVENT_TURN_FAILED : pystr := u "turn_failed".
Definition EVENT_REQUEST_CONFLICT : pystr := u "request_conflict".
Definition EVENT_HTTP_RESULT : pystr := u "http_result".

(** Those above, and the names of the retention and account deletion jobs. *)
Definition EVENT_NAMES : list pystr :=
  [EVENT_APP_STARTUP_FAILED; EVENT_APP_SHUTDOWN_FAILED; EVENT_SUPABASE_CLIENT_CREATION_FAILED;
   EVENT_READINESS_CHECK_FAILED; EVENT_AUTH_FAILED; EVENT_AUTH_COMPLETED; EVENT_TURN_COMPLETED;
   EVENT_TURN_FAILED; EVENT_REQUEST_CONFLICT; EVENT_HTTP_RESULT;
   u "retention_completed"; u "retention_failed"; u "account_deletion_worker_started";
   u "account_deletion_no_work"; u "account_deletion_db_purged"; u "account_deletion_auth_deleted";
   u "account_deletion_auth_already_absent"; u "account_deletion_retry_scheduled";
   u "account_deletion_failed"; u "account_deletion_completed"; u "account_deletion_lease_lost"].

Definition ALLOWED_FIELDS : list pystr :=
  [u "correlation"; u "user_ref"; u "code"; u "stage"; u "outcome"; u "phase"; u "duration_ms";
   u "latency_ms"; u "attempt"; u "http_status"; u "component"; u "mode"; u "reason"; u "result";
   u "retry"; u "conflict"; u "deadline_ms"].

Definition FORBIDDEN_FIELDS : list pystr :=
  [u "user_id"; u "request_id"; u "message"; u "response"; u "prompt"; u "memory"; u "appraisal";
   u "snapshot"; u "token"; u "secret"; u "api_key"; u "apikey"; u "authorization"; u "password"; u "key"].

(** ** Values *)

Inductive event_exn : Type :=
| ObservabilityContractError
| IntegerTooLong.             (** [ValueError] of [str] of an int with over 4300 digits *)

(** [[\x00-\x1f\x7f]]. *)
Definition is_control (c : N) : bool := ((c <? 32) || (c =? 127))%N.

(** [re.sub(r"\s+", " ", s)]: [inside] a run of white space. *)
Fixpoint collapse (inside : bool) (s : pystr) : pystr :=
  match s with
  | [] => []
  | c :: s' =>
      if is_space c then (if inside then collapse true s' else 32%N :: collapse true s')
      else c :: collapse false s'
  end.

Definition scrub (s : pystr) : pystr := strip (List.filter (fun c => negb (is_control c)) (collapse false s)).

(** [f"{value:.0f}"] of a finite float; the sign of a negative zero is kept. *)
Definition format_whole (f : float) : pystr :=
  (if PrimFloat.get_sign f then u "-" else []) ++ render_int (Z.abs (round_half_even f)).

Definition sanitize_value (value : pyval) : result event_exn pystr :=
  match value with
  | PStr s => Ok (scrub s)
  | PBool b => Ok (if b then u "true" else u "false")
  | PInt z => if Z.abs z <? INT_MAX_STR_DIGITS_BOUND then Ok (render_int z) else Err IntegerTooLong
  | PFloat f => if isfinite f then Ok (format_whole f) else Err ObservabilityContractError
  | _ => Err ObservabilityContractError
  end.

(** ** Events *)

(** The keyword arguments, in the order of the call. *)
Definition fields : Type := list (pystr * pyval).

Fixpoint render_fields (fs : fields) : result event_exn (list pystr) :=
  match fs with
  | [] => Ok []
  | (name, value) :: fs' =>
      if str_in name FORBIDDEN_FIELDS then Err ObservabilityContractError
      else if negb (str_in name ALLOWED_FIELDS) then Err ObservabilityContractError
      else match value with
           | PNone => render_fields fs'
           | value =>
               let* text := sanitize_value value in
               let* rest := render_fields fs' in
               Ok ((name ++ u "=" ++ text) :: rest)
           end
  end.

(** The line given to [logger.log]. *)
Definition emit_event (event : pystr) (fs : fields) : result event_exn pystr :=
  if negb (str_in event EVENT_NAMES) then Err ObservabilityContractError else
  let* parts := render_fields fs in
  Ok (join (u " ") ((u "event=" ++ event) :: parts)).

(** ** The contract *)

(** A character that starts no new line and moves no cursor. *)
Definition plain_char (c : N) : Prop := is_control c = false /\ (is_space c = true -> c = 32%N).

Lemma plain_space : plain_char 32.
Proof. done. Qed.

Lemma collapse_plain b s : Forall (fun c => is_space c = true -> c = 32%N) (collapse b s).
Proof.
  revert b. induction s as [|c s IH]; intros b; [by apply Forall_nil|]. cbn [collapse].
  destruct (is_space c) eqn:E; [destruct b|]; [apply IH| |]; (apply Forall_cons; split; [|apply IH]).
  - done.
  - congruence.
Qed.

Lemma strip_incl s c : c ∈ strip s -> c ∈ s.
Proof.
  unfold strip, lstrip. destruct (drop_while_suffix is_space s) as [l1 H1].
  destruct (drop_while_suffix is_space (rev (drop_while is_space s))) as [l2 H2].
  intros H. rewrite H1. apply elem_of_app. right. apply list_elem_of_In, in_rev.
  rewrite H2. apply in_or_app. right. by apply in_rev, list_elem_of_In.
Qed.

Lemma scrub_plain s : Forall plain_char (scrub s).
Proof.
  apply Forall_forall. intros c H%strip_incl%list_elem_of_In%filter_In. destruct H as [H N].
  apply list_elem_of_In in H. split; [by apply negb_true_iff in N|].
  exact (proj1 (Forall_forall _ _) (collapse_plain false s) c H).
Qed.

Definition visible (c : N) : Prop := (33 <= c < 127)%N.

Lemma visible_plain c : visible c -> plain_char c.
Proof.
  intros [L U]. unfold plain_char, is_control, is_space. split.
  - apply orb_false_iff. split; [apply N.ltb_ge; lia|apply N.eqb_neq; lia].
  - intros H. exfalso. rewrite !orb_true_iff, !andb_true_iff, !N.eqb_eq, !N.leb_le in H. lia.
Qed.

Lemma digits_visible fuel n acc : Forall visible acc -> Forall visible (digits_of fuel n acc).
Proof.
  revert n acc. induction fuel as [|k IH]; intros n acc H; [done|]. cbn.
  assert (Forall visible ((n mod 10 + 48)%N :: acc)) as H'.
  { apply Forall_cons. split; [|done]. assert (n mod 10 < 10)%N as M by (by apply N.mod_upper_bound).
    unfold visible. generalize dependent (n mod 10)%N. intros. lia. }
  destruct (n <? 10)%N; [done|by apply IH].
Qed.

Lemma render_int_visible z : Forall visible (render_int z).
Proof.
  destruct z; cbn [render_int]; [by repeat constructor| |apply Forall_app; split; [by repeat constructor|]];
    by apply digits_visible.
Qed.

Lemma visible_text s : forallb (fun c => ((33 <=? c) && (c <? 127))%N) s = true -> Forall visible s.
Proof.
  intros H. apply Forall_forall. intros c Hc. apply list_elem_of_In in Hc. rewrite forallb_forall in H.
  specialize (H c Hc). apply andb_true_iff in H as [L%N.leb_le U%N.ltb_lt]. by split.
Qed.

Lemma sanitize_plain v t : sanitize_value v = Ok t -> Forall plain_char t.
Proof.
  assert (forall s, Forall visible s -> Forall plain_char s) as V
    by (intros s H; eapply Forall_impl; [exact H|exact visible_plain]).
  destruct v as [|b|z|f|s| | | | |]; cbn [sanitize_value]; try done.
  - intros [= <-]. destruct b; apply V, visible_text; reflexivity.
  - destruct (_ <? _); [|done]. intros [= <-]. apply V, render_int_visible.
  - destruct (isfinite f); [|done]. intros H%Ok_inj. subst t. apply V. unfold format_whole. apply Forall_app. split.
    + destruct (PrimFloat.get_sign f); [apply visible_text; reflexivity|by apply Forall_nil].
    + apply render_int_visible.
  - intros [= <-]. apply scrub_plain.
Qed.

(** The fields that appear in the line. *)
Definition present (fs : fields) : fields := List.filter (fun f => match f.2 with PNone => false | _ => true end) fs.

Lemma render_fields_spec fs parts : render_fields fs = Ok parts ->
  Forall (fun f => str_in f.1 ALLOWED_FIELDS = true /\ str_in f.1 FORBIDDEN_FIELDS = false) fs
  /\ Forall2 (fun f p => exists t, sanitize_value f.2 = Ok t /\ p = f.1 ++ u "=" ++ t) (present fs) parts.
Proof.
  revert parts. induction fs as [|[name v] fs IH]; cbn [render_fields]; intros parts H.
  - injection H as <-. split; [by apply Forall_nil|by apply Forall2_nil].
  - destruct (str_in name FORBIDDEN_FIELDS) eqn:F; [done|]. destruct (str_in name ALLOWED_FIELDS) eqn:A; [|done]. cbn [negb] in H.
    assert (exists rest, render_fields fs = Ok rest
      /\ (v = PNone /\ parts = rest \/ v <> PNone /\ exists t, sanitize_value v = Ok t /\ parts = (name ++ u "=" ++ t) :: rest)) as (rest & R & C).
    { destruct v; [by exists parts; split; [|left]|..];
        (destruct (sanitize_value _) as [t|] eqn:S in H; [|done]; cbn [rbind] in H;
         destruct (render_fields fs) as [rest|]; [|done]; injection H as <-; exists rest;
         split; [done|right; split; [done|by exists t]]). }
    destruct (IH rest R) as [IHa IHb]. split; [by apply Forall_cons|].
    destruct C as [[-> ->]|[N (t & S & ->)]]; [done|]. unfold present. cbn [List.filter snd].
    destruct v; try done; (apply Forall2_cons; split; [by exists t|done]).
Qed.

Lemma join_plain sep l : Forall plain_char sep -> Forall (Forall plain_char) l -> Forall plain_char (join sep l).
Proof.
  intros S H. destruct l as [|x l]; [by apply Forall_nil|]. apply Forall_cons in H as [Hx H].
  apply Forall_app. split; [done|]. apply Forall_forall. intros c (y & Hc & Hy)%list_elem_of_bind.
  apply elem_of_app in Hc as [Hc|Hc]; [by apply (proj1 (Forall_forall _ _) S)|].
  pose proof (proj1 (Forall_forall _ _) H y Hy) as P. by apply (proj1 (Forall_forall _ _) P).
Qed.

Lemma names_visible (names : list pystr) n :
  forallb (forallb (fun c => ((33 <=? c) && (c <? 127))%N)) names = true -> str_in n names = true -> Forall plain_char n.
Proof.
  intros H (x & Hx & E)%existsb_exists. apply bool_decide_eq_true in E as ->. rewrite forallb_forall in H.
  eapply Forall_impl; [apply visible_text; by apply H|]. exact visible_plain.
Qed.

Lemma emit_event_plain event fs line : emit_event event fs = Ok line -> Forall plain_char line.
Proof.
  unfold emit_event. destruct (str_in event EVENT_NAMES) eqn:E; [|done]. cbn [negb].
  destruct (render_fields fs) as [parts|] eqn:R; [|done]. cbn [rbind]. intros H%Ok_inj. subst line.
  apply render_fields_spec in R as [F P]. apply join_plain; [by apply Forall_singleton|]. apply Forall_cons. split.
  - apply Forall_app. split; [eapply Forall_impl; [apply visible_text; reflexivity|exact visible_plain]|].
    eapply names_visible; [|exact E]; reflexivity.
  - clear E. assert (Forall (fun f => str_in f.1 ALLOWED_FIELDS = true) (present fs)) as F'.
    { apply Forall_forall. intros f [Hf _]%list_elem_of_In%filter_In. apply list_elem_of_In in Hf.
      by apply (proj1 (Forall_forall _ _) F). }
    induction P as [|f p fs' ps (t & S & ->) P IH]; [by apply Forall_nil|]. apply Forall_cons in F' as [Hf F'].
    apply Forall_cons. split; [|by apply IH]. apply Forall_app. split; [eapply names_visible; [|exact Hf]; reflexivity|].
    apply Forall_app. split; [by apply Forall_singleton, visible_plain|by eapply sanitize_plain].
Qed.

(** A log line is one line and states only allowed fields.  An event that is
    emitted has a registered name and allowed, not forbidden, field names; the
    line is the name and the present fields in their order; and it contains no
    control character and no white space but blanks, so whatever the values are
    it cannot be read as two lines. *)
Theorem emit_event_line event fs line : emit_event event fs = Ok line ->
  event ∈ EVENT_NAMES
  /\ Forall (fun f => f.1 ∈ ALLOWED_FIELDS /\ f.1 ∉ FORBIDDEN_FIELDS) fs
  /\ (exists texts, Forall2 (fun f t => sanitize_value f.2 = Ok t) (present fs) texts
      /\ line = join (u " ") ((u "event=" ++ event) :: zip_with (fun f t => f.1 ++ u "=" ++ t) (present fs) texts))
  /\ Forall plain_char line.
Proof.
  assert (forall n l, str_in n l = true <-> n ∈ l) as SI.
  { intros n l. unfold str_in. rewrite existsb_exists. split.
    - intros (x & Hx & ->%bool_decide_eq_true). by apply list_elem_of_In.
    - intros H. exists n. split; [by apply list_elem_of_In|by apply bool_decide_eq_true]. }
  intros H. pose proof (emit_event_plain _ _ _ H) as Pl. revert H.
  unfold emit_event. destruct (str_in event EVENT_NAMES) eqn:E; [|done]. cbn [negb].
  destruct (render_fields fs) as [parts|] eqn:R; [|done]. cbn [rbind]. intros H%Ok_inj. subst line.
  apply render_fields_spec in R as [F P]. split_and!; [by apply SI| | |done].
  - eapply Forall_impl; [exact F|]. intros f [A B]. split; [by apply SI|]. intros C%SI. congruence.
  - assert (exists texts, Forall2 (fun f t => sanitize_value f.2 = Ok t) (present fs) texts
      /\ parts = zip_with (fun f t => f.1 ++ u "=" ++ t) (present fs) texts) as (texts & T & ->); [|by exists texts].
    clear -P. induction P as [|f p fs' ps (t & S & ->) P (texts & T & ->)]; [by exists []; split; [apply Forall2_nil|]|].
    exists (t :: texts). split; [by apply Forall2_cons|done].
Qed.

(** A value that is rendered. *)
Definition renderable (v : pyval) : bool :=
  match v with
  | PNone | PBool _ | PStr _ => true
  | PInt z => Z.abs z <? INT_MAX_STR_DIGITS_BOUND
  | PFloat f => isfinite f
  | _ => false
  end.

Definition emittable (fs : fields) : bool :=
  forallb (fun f => negb (str_in f.1 FORBIDDEN_FIELDS) && str_in f.1 ALLOWED_FIELDS && renderable f.2) fs.

Lemma render_fields_ok fs : emittable fs = true -> exists parts, render_fields fs = Ok parts.
Proof.
  induction fs as [|[name v] fs IH]; [by exists []|]. cbn [emittable forallb fst snd render_fields].
  rewrite !andb_true_iff, negb_true_iff. intros [[[-> ->] R] (parts & P)%IH]. cbn [negb]. rewrite P.
  destruct v; cbn [renderable] in R; try done; cbn [sanitize_value]; rewrite ?R; cbn [rbind]; by eexists.
Qed.

(** What may be emitted is emitted. *)
Lemma emit_event_ok event fs : str_in event EVENT_NAMES = true -> emittable fs = true ->
  exists line, emit_event event fs = Ok line.
Proof. unfold emit_event. intros -> (parts & ->)%render_fields_ok. by eexists. Qed.

Lemma emit_event_line_witness : exists line,
  emit_event EVENT_TURN_COMPLETED
    [(u "code", PStr (u "ok" ++ [10%N] ++ u "event=x")); (u "duration_ms", PFloat 2.5); (u "correlation", PNone)] = Ok line
  /\ line = u "event=turn_completed code=ok event=x duration_ms=2" /\ Forall plain_char line.
Proof.
  eexists. split; [vm_compute; reflexivity|]. split; [reflexivity|].
  eapply (emit_event_line EVENT_TURN_COMPLETED
    [(u "code", PStr (u "ok" ++ [10%N] ++ u "event=x")); (u "duration_ms", PFloat 2.5); (u "correlation", PNone)]).
  vm_compute. reflexivity.
Defined.
