(* ===== verification/AdmissionLedger.v ===== *)
(** * The admission ledger (supabase/migrations/20240101000003_admission_ledger.sql)

    The table [admission_reservations] and the function [reserve_admission] with
    its duplicate check, its five rolling quotas and its insertion.  Instants are
    microseconds; the clock of the database is an argument of each call.  Calls of
    the function are serialised by its advisory lock; a writer that does not take
    the lock may change the table before the insertion ([before_insert]) and after
    it ([before_reread]). *)

From S2P Require Import Prelude PyValue PyDatetime EmotionalModels Admission AtomicTurnCommit TurnDatabase.

Local Open Scope Z_scope.

Record reservation : Type := mkReservation {
  rv_user : pystr;
  rv_request : pystr;
  rv_message : pystr;      (** [message_hmac_sha256] *)
  rv_network : pystr;      (** [network_hmac_sha256] *)
  rv_units : Z;
  rv_at : Z }.

#[export] Instance reservation_eq_dec : EqDecision reservation.
Proof. solve_decision. Defined.

Definition SECOND : Z := 1000000.
Definition MINUTE : Z := 60 * SECOND.
Definition HOURS : Z := 3600 * SECOND.

Definition USER_REQUESTS_PER_MINUTE : Z := 20.
Definition NETWORK_REQUESTS_PER_MINUTE : Z := 60.
Definition APPLICATION_REQUESTS_PER_MINUTE : Z := 25.
Definition USER_REQUESTS_PER_DAY : Z := 200.
Definition USER_ESTIMATED_UNITS_PER_DAY : Z := 250000.

(** The arguments, after their conversion to the types of the parameters. *)
Record reserve_params : Type := mkReserveParams {
  q_user : pystr;
  q_request : pystr;
  q_message : pystr;
  q_network : pystr;
  q_units : Z }.

Definition lower_hex64 (s : pystr) : bool := Nat.eqb (length s) 64 && forallb is_hex_lower s.

Definition reserve_input_ok (p : reserve_params) : bool :=
  (1 <=? length (q_user p))%nat && (length (q_user p) <=? 128)%nat && negb (bool_decide (sql_trim (q_user p) = []))
  && lower_hex64 (q_message p) && lower_hex64 (q_network p)
  && (1 <=? q_units p) && (q_units p <=? 6000).

Definition same_request (p : reserve_params) (r : reservation) : bool :=
  str_eqb (rv_user r) (q_user p) && str_eqb (rv_request r) (q_request p).

(** [reserved_at > v_now - span]. *)
Definition recent (now span : Z) (r : reservation) : bool := now - span <? rv_at r.

Definition count_rows (f : reservation -> bool) (rows : list reservation) : Z := Z.of_nat (length (List.filter f rows)).
Definition sum_units (f : reservation -> bool) (rows : list reservation) : Z :=
  foldr (fun r n => rv_units r + n) 0 (List.filter f rows).

Definition of_user (user : pystr) (r : reservation) : bool := str_eqb (rv_user r) user.
Definition of_network (network : pystr) (r : reservation) : bool := str_eqb (rv_network r) network.

(** The answer to a known request. *)
Definition known_request (p : reserve_params) (r : reservation) : pystr * Z :=
  if str_eqb (rv_message r) (q_message p) then (u "request_replay_unavailable", 0) else (u "request_id_conflict", 0).

(** The quotas, in their order; [None] is within all of them. *)
Definition quota_refusal (now : Z) (p : reserve_params) (rows : list reservation) : option (pystr * Z) :=
  if USER_REQUESTS_PER_MINUTE <=? count_rows (fun r => of_user (q_user p) r && recent now MINUTE r) rows
  then Some (u "user_rate_limited", 60)
  else if NETWORK_REQUESTS_PER_MINUTE <=? count_rows (fun r => of_network (q_network p) r && recent now MINUTE r) rows
  then Some (u "network_rate_limited", 60)
  else if APPLICATION_REQUESTS_PER_MINUTE <=? count_rows (recent now MINUTE) rows
  then Some (u "application_rate_limited", 60)
  else if USER_REQUESTS_PER_DAY <=? count_rows (fun r => of_user (q_user p) r && recent now (24 * HOURS) r) rows
  then Some (u "user_daily_request_quota_exceeded", 86400)
  else if USER_ESTIMATED_UNITS_PER_DAY <? sum_units (fun r => of_user (q_user p) r && recent now (24 * HOURS) r) rows + q_units p
  then Some (u "user_daily_unit_quota_exceeded", 86400)
  else None.

Definition new_row (now : Z) (p : reserve_params) : reservation :=
  mkReservation (q_user p) (q_request p) (q_message p) (q_network p) (q_units p) now.

Section Reserve.
Context (before_insert before_reread : list reservation -> list reservation).

(** [None] is the exception [admission_reservation_race]. *)
Definition reserve_admission (now : Z) (p : reserve_params) (rows : list reservation)
    : option (pystr * Z) * list reservation :=
  if negb (reserve_input_ok p) then (Some (u "invalid_admission_input", 0), rows) else
  match List.find (same_request p) rows with
  | Some r => (Some (known_request p r), rows)
  | None =>
      match quota_refusal now p rows with
      | Some d => (Some d, rows)
      | None =>
          let rows1 := before_insert rows in
          match List.find (same_request p) rows1 with
          | None => (Some (u "admitted", 0), rows1 ++ [new_row now p])
          | Some _ =>
              let rows2 := before_reread rows1 in
              match List.find (same_request p) rows2 with
              | Some r => (Some (known_request p r), rows2)
              | None => (None, rows2)
              end
          end
      end
  end.
End Reserve.

(** The RPC of a client: the arguments as their types read them, and the one row
    of the answer. *)
Definition integer_arg (v : pyval) : option Z :=
  match v with PInt z => if (- 2 ^ 31 <=? z) && (z <? 2 ^ 31) then Some z else None | _ => None end.

Definition decode_reserve (d : pydict) : option reserve_params :=
  user ← text_arg (dindex d (u "p_user_id"));
  request ← uuid_arg (dindex d (u "p_request_id"));
  message ← text_arg (dindex d (u "p_message_hmac_sha256"));
  network ← text_arg (dindex d (u "p_network_hmac_sha256"));
  units ← integer_arg (dindex d (u "p_estimated_units"));
  Some (mkReserveParams user request message network units).

Definition decision_rows (d : pystr * Z) : pyval :=
  PList [PDict [(KStr (u "decision"), PStr d.1); (KStr (u "retry_after_seconds"), PInt d.2)]].

Definition reserve_rpc (before_insert before_reread : list reservation -> list reservation) (now : Z) (d : pydict)
    (rows : list reservation) : option pyval * list reservation :=
  match decode_reserve d with
  | None => (None, rows)
  | Some p =>
      let '(answer, rows') := reserve_admission before_insert before_reread now p rows in
      (decision_rows <$> answer, rows')
  end.

(** ** Quotas *)

(** The rows of a rolling window that ends at [t]. *)
Definition inside (t span : Z) (r : reservation) : bool := (t - span <? rv_at r) && (rv_at r <=? t).

Record within_quotas (rows : list reservation) : Prop := {
  wq_user : forall t user, count_rows (fun r => of_user user r && inside t MINUTE r) rows <= USER_REQUESTS_PER_MINUTE;
  wq_network : forall t network, count_rows (fun r => of_network network r && inside t MINUTE r) rows <= NETWORK_REQUESTS_PER_MINUTE;
  wq_application : forall t, count_rows (inside t MINUTE) rows <= APPLICATION_REQUESTS_PER_MINUTE;
  wq_day : forall t user, count_rows (fun r => of_user user r && inside t (24 * HOURS) r) rows <= USER_REQUESTS_PER_DAY;
  wq_units : forall t user, sum_units (fun r => of_user user r && inside t (24 * HOURS) r) rows <= USER_ESTIMATED_UNITS_PER_DAY }.

Definition key_of (r : reservation) : pystr * pystr := (rv_user r, rv_request r).

Record ledger_wf (rows : list reservation) : Prop := {
  lw_keys : NoDup (key_of <$> rows);
  lw_units : Forall (fun r => 1 <= rv_units r <= 6000) rows;
  lw_quotas : within_quotas rows }.

Lemma count_rows_app f l1 l2 : count_rows f (l1 ++ l2) = count_rows f l1 + count_rows f l2.
Proof. unfold count_rows. rewrite List.filter_app, length_app. lia. Qed.

Lemma sum_units_app f l1 l2 : sum_units f (l1 ++ l2) = sum_units f l1 + sum_units f l2.
Proof.
  unfold sum_units. rewrite List.filter_app, foldr_app.
  generalize (foldr (fun r n => rv_units r + n) 0 (List.filter f l2)). intros z.
  induction (List.filter f l1) as [|r l IH]; cbn [foldr]; lia.
Qed.

Lemma count_rows_mono f g rows : (forall r, f r = true -> g r = true) -> count_rows f rows <= count_rows g rows.
Proof.
  intros H. unfold count_rows. induction rows as [|r rows IH]; cbn [List.filter]; [done|].
  pose proof (H r). destruct (f r), (g r); cbn [length]; lia.
Qed.

Lemma sum_units_mono f g rows : Forall (fun r => 1 <= rv_units r <= 6000) rows ->
  (forall r, f r = true -> g r = true) -> sum_units f rows <= sum_units g rows.
Proof.
  intros U H. unfold sum_units. induction U as [|r rows Hr U IH]; cbn [List.filter]; [done|].
  pose proof (H r) as Hfg. destruct (f r), (g r); cbn [foldr]; lia.
Qed.

(** Rows that are deleted only make room. *)
Lemma count_rows_sublist f l1 l2 : l1 `sublist_of` l2 -> count_rows f l1 <= count_rows f l2.
Proof.
  unfold count_rows. induction 1 as [|x l1 l2 S IH|x l1 l2 S IH]; cbn [List.filter]; [done| |];
    destruct (f x); cbn [length]; lia.
Qed.

Lemma sum_units_sublist f l1 l2 : l1 `sublist_of` l2 -> Forall (fun r => 1 <= rv_units r <= 6000) l2 ->
  sum_units f l1 <= sum_units f l2.
Proof.
  unfold sum_units. induction 1 as [|x l1 l2 S IH|x l1 l2 S IH]; cbn [List.filter]; [done| |];
    intros [Hx U]%Forall_cons; specialize (IH U); destruct (f x); cbn [foldr]; lia.
Qed.

Lemma ledger_wf_sublist l1 l2 : l1 `sublist_of` l2 -> ledger_wf l2 -> ledger_wf l1.
Proof.
  intros S [K U [A B C D E]]. split.
  - eapply sublist_NoDup; [exact K|]. by apply fmap_sublist.
  - rewrite Forall_forall in U |- *. intros r Hr. apply U. by eapply elem_of_sublist.
  - split; intros; (etrans; [by apply count_rows_sublist|done]) || (etrans; [by apply sum_units_sublist|done]).
Qed.

(** One more row in a window: the rows already there were all recent when it came. *)
Lemma window_recent now t span r : inside t span r = true -> now <= t -> recent now span r = true.
Proof. unfold inside, recent. rewrite andb_true_iff, !Z.ltb_lt, Z.leb_le. lia. Qed.

Lemma count_window (own : reservation -> bool) span limit now row rows : rv_at row = now ->
  (own row = true -> count_rows (fun r => own r && recent now span r) rows < limit) ->
  (forall t, count_rows (fun r => own r && inside t span r) rows <= limit) ->
  forall t, count_rows (fun r => own r && inside t span r) (rows ++ [row]) <= limit.
Proof.
  intros At New Old t. rewrite count_rows_app. unfold count_rows at 2. cbn [List.filter].
  destruct (own row && inside t span row) eqn:E; cbn [length]; [|specialize (Old t); lia].
  apply andb_true_iff in E as [O I]. specialize (New O).
  enough (count_rows (fun r => own r && inside t span r) rows <= count_rows (fun r => own r && recent now span r) rows) by lia.
  apply count_rows_mono. intros r [-> Hr]%andb_true_iff. cbn [andb]. apply (window_recent now t); [done|].
  unfold inside in I. rewrite andb_true_iff, Z.leb_le in I. lia.
Qed.

Lemma sum_window (own : reservation -> bool) span limit now row rows : rv_at row = now ->
  Forall (fun r => 1 <= rv_units r <= 6000) rows ->
  (own row = true -> sum_units (fun r => own r && recent now span r) rows + rv_units row <= limit) ->
  (forall t, sum_units (fun r => own r && inside t span r) rows <= limit) ->
  forall t, sum_units (fun r => own r && inside t span r) (rows ++ [row]) <= limit.
Proof.
  intros At U New Old t. rewrite sum_units_app. unfold sum_units at 2. cbn [List.filter].
  destruct (own row && inside t span row) eqn:E; cbn [foldr]; [|specialize (Old t); lia].
  apply andb_true_iff in E as [O I]. specialize (New O).
  enough (sum_units (fun r => own r && inside t span r) rows <= sum_units (fun r => own r && recent now span r) rows) by lia.
  apply sum_units_mono; [done|]. intros r [-> Hr]%andb_true_iff. cbn [andb]. apply (window_recent now t); [done|].
  unfold inside in I. rewrite andb_true_iff, Z.leb_le in I. lia.
Qed.

Lemma quotas_ok now p rows : quota_refusal now p rows = None ->
  count_rows (fun r => of_user (q_user p) r && recent now MINUTE r) rows < USER_REQUESTS_PER_MINUTE
  /\ count_rows (fun r => of_network (q_network p) r && recent now MINUTE r) rows < NETWORK_REQUESTS_PER_MINUTE
  /\ count_rows (recent now MINUTE) rows < APPLICATION_REQUESTS_PER_MINUTE
  /\ count_rows (fun r => of_user (q_user p) r && recent now (24 * HOURS) r) rows < USER_REQUESTS_PER_DAY
  /\ sum_units (fun r => of_user (q_user p) r && recent now (24 * HOURS) r) rows + q_units p <= USER_ESTIMATED_UNITS_PER_DAY.
Proof.
  unfold quota_refusal. intros H.
  repeat (match type of H with (if ?b then _ else _) = _ => destruct b eqn:? end; [discriminate H|]).
  rewrite ?Z.leb_gt, ?Z.ltb_ge in *. split_and!; assumption.
Qed.

Lemma same_request_key p r : same_request p r = true <-> key_of r = (q_user p, q_request p).
Proof.
  unfold same_request, key_of. rewrite andb_true_iff. unfold str_eqb. rewrite !bool_decide_eq_true. split; [by intros [-> ->]|by intros [= -> ->]].
Qed.

Lemma find_request_none p rows : List.find (same_request p) rows = None -> (q_user p, q_request p) ∉ (key_of <$> rows).
Proof.
  intros F (r & E & Hr)%list_elem_of_fmap. apply list_elem_of_In in Hr.
  pose proof (find_none _ _ F r Hr) as N. apply not_true_iff_false in N. apply N. by apply same_request_key.
Qed.

Lemma reserve_input_units p : reserve_input_ok p = true -> 1 <= q_units p <= 6000.
Proof. unfold reserve_input_ok. rewrite !andb_true_iff, !Z.leb_le. lia. Qed.

Lemma reserve_admission_wf now p rows : ledger_wf rows -> ledger_wf (reserve_admission id id now p rows).2.
Proof.
  intros W. unfold reserve_admission, id. destruct (reserve_input_ok p) eqn:V; [|done]. cbn [negb].
  destruct (List.find (same_request p) rows) eqn:F; [done|].
  destruct (quota_refusal now p rows) eqn:Q; [done|]. cbn [snd].
  apply quotas_ok in Q as (Q1 & Q2 & Q3 & Q4 & Q5). destruct W as [K U [A B C D E]].
  assert (forall user, of_user user (new_row now p) = true -> user = q_user p) as OU
    by (intros user O; by apply bool_decide_eq_true in O).
  split.
  - rewrite fmap_app. apply NoDup_app. split_and!; [done| |by apply NoDup_singleton].
    intros k Hk Hn. apply list_elem_of_singleton in Hn as ->. by apply find_request_none in F.
  - apply Forall_app. split; [done|]. apply Forall_singleton. cbn. by apply reserve_input_units.
  - split.
    + intros t user. apply (count_window (of_user user) MINUTE _ now (new_row now p)); [done| |done]. by intros ->%OU.
    + intros t n. apply (count_window (of_network n) MINUTE _ now (new_row now p)); [done| |done].
      by intros <-%bool_decide_eq_true.
    + intros t. apply (count_window (fun _ => true) MINUTE _ now (new_row now p)); done.
    + intros t user. apply (count_window (of_user user) (24 * HOURS) _ now (new_row now p)); [done| |done]. by intros ->%OU.
    + intros t user. apply (sum_window (of_user user) (24 * HOURS) _ now (new_row now p)); [done|done| |done]. by intros ->%OU.
Qed.

Lemma empty_ledger_wf : ledger_wf [].
Proof. split; [by apply NoDup_nil|by apply Forall_nil|]. by split; intros; vm_compute. Qed.

(** The life of the table: reservations, at any clock readings, and deletions. *)
Inductive ledger_step : list reservation -> list reservation -> Prop :=
| step_reserve now p rows : ledger_step rows (reserve_admission id id now p rows).2
| step_delete rows rows' : rows' `sublist_of` rows -> ledger_step rows rows'.

(** C10. The quotas hold in every window.  Whatever reservations are asked for, at
    whatever clock readings, and whatever rows are purged, at every moment at most
    20 requests of one user, 60 of one network and 25 of all were admitted in any
    60 seconds, and at most 200 requests and 250000 units of one user in any 24
    hours; request identifiers of a user are unique. *)
Theorem admission_quotas rows : rtc ledger_step [] rows -> ledger_wf rows.
Proof.
  intros H. pose proof empty_ledger_wf as W. induction H as [|rows0 rows1 rows2 S _ IH]; [done|]. apply IH.
  destruct S; [by apply reserve_admission_wf|by eapply ledger_wf_sublist].
Qed.

(** ** One admission per request *)

Lemma find_unique p rows r : NoDup (key_of <$> rows) -> r ∈ rows -> key_of r = (q_user p, q_request p) ->
  List.find (same_request p) rows = Some r.
Proof.
  induction rows as [|r0 rows IH]; intros N Hr E; [by apply elem_of_nil in Hr|].
  cbn [List.find]. rewrite fmap_cons in N. apply NoDup_cons in N as [N0 N].
  apply elem_of_cons in Hr as [<-|Hr].
  - by rewrite (proj2 (same_request_key p r) E).
  - destruct (same_request p r0) eqn:S; [|by apply IH]. apply same_request_key in S. destruct N0.
    rewrite S, <- E. by apply list_elem_of_fmap_2.
Qed.

(** The answer to a known request, whatever else happens meanwhile. *)
Lemma reserve_known bi br now p rows r : NoDup (key_of <$> rows) -> r ∈ rows ->
  key_of r = (q_user p, q_request p) -> reserve_input_ok p = true ->
  reserve_admission bi br now p rows = (Some (known_request p r), rows).
Proof. intros N Hr E V. unfold reserve_admission. rewrite V. cbn [negb]. by rewrite (find_unique p rows r). Qed.

Lemma reserve_admitted bi br now p rows rows' : reserve_admission bi br now p rows = (Some (u "admitted", 0), rows') ->
  reserve_input_ok p = true /\ new_row now p ∈ rows' /\ (q_user p, q_request p) ∉ (key_of <$> rows).
Proof.
  unfold reserve_admission. destruct (reserve_input_ok p) eqn:V; [|done]. cbn [negb].
  assert (forall r l, (Some (known_request p r), l) <> (Some (u "admitted", 0), rows')) as KN.
  { intros r l. unfold known_request. by destruct (str_eqb _ _). }
  destruct (List.find (same_request p) rows) eqn:F; [intros []%KN|].
  destruct (quota_refusal now p rows) as [d|] eqn:Q.
  { intros E. apply (f_equal fst), (f_equal (fmap fst)) in E. cbn [fst fmap option_fmap option_map] in E. unfold quota_refusal in Q.
    repeat match type of Q with (if ?b then _ else _) = _ => destruct b end; try discriminate Q; injection Q as <-; discriminate E. }
  destruct (List.find _ (bi rows)) eqn:F1.
  - destruct (List.find _ (br _)); [intros []%KN|done].
  - intros [= <-]. split_and!; [done|apply elem_of_app; right; by apply list_elem_of_singleton|by apply find_request_none].
Qed.

(** Every answer is a known decision with its delay. *)
Lemma reserve_decision_known bi br now p rows :
  match (reserve_admission bi br now p rows).1 with
  | Some d => expected_retry_after d.1 = Some d.2
  | None => True
  end.
Proof.
  unfold reserve_admission. assert (forall r, expected_retry_after (known_request p r).1 = Some (known_request p r).2) as K.
  { intros r. unfold known_request. destruct (str_eqb _ _); reflexivity. }
  destruct (negb _); [reflexivity|]. destruct (List.find _ rows) as [r|]; [apply K|].
  destruct (quota_refusal now p rows) as [d|] eqn:Q.
  - cbn [fst]. unfold quota_refusal in Q.
    repeat match type of Q with (if ?b then _ else _) = _ => destruct b end; try discriminate Q; injection Q as <-; reflexivity.
  - destruct (List.find _ (bi rows)); [|reflexivity]. destruct (List.find _ (br _)); [apply K|done].
Qed.

(** Two reservations and a purge of the first. *)
Definition sample_reservation (n : N) : reserve_params :=
  mkReserveParams (u "ana") (u "7d444840-9dc0-41d1-b245-5ffdce74fad" ++ [n]) (repeat 48%N 64) (repeat 49%N 64) 10.

Definition sample_reserved : list reservation :=
  (reserve_admission id id 2000000 (sample_reservation 50) (reserve_admission id id 1000000 (sample_reservation 49) []).2).2.

Lemma admission_quotas_witness : length sample_reserved = 2%nat /\ ledger_wf (drop 1 sample_reserved).
Proof.
  split; [vm_compute; reflexivity|]. apply (admission_quotas (drop 1 sample_reserved)).
  eapply rtc_l; [apply (step_reserve 1000000 (sample_reservation 49))|].
  eapply rtc_l; [apply (step_reserve 2000000 (sample_reservation 50))|].
  eapply rtc_l; [apply (step_delete _ (drop 1 sample_reserved)), sublist_drop|apply rtc_refl].
Defined.
