(* ===== verification/HttpEndpoints.v ===== *)
(** * The HTTP endpoints (backend/main.py, backend/chat_engine.py)

    The chat endpoint (admission, the per-user lock, the turn, and the error
    boundary), authentication, the privacy actions, the history, and the mapping of
    every exception to a public answer.  FastAPI, the auth client, the clocks and
    the wait for the lock are arguments.  The handlers run in a monad over the state
    of the admission ledger, the state of the turn and the lines of the log; an
    exception is a value of [request_exn]. *)

From Stdlib Require Import Floats.
From S2P Require Import Prelude PyFloat PyValue Json PyDatetime Admission TrustedContext TurnExecution.
From S2P Require Import StorageContracts EmotionalModels EmotionalTransition EmotionPresentation CompanionRuntime GroqLanguageModel.
From S2P Require Import AtomicTurnCommit TurnRepositories ProcessTurn PrivacyOperations Observability.

Local Open Scope Z_scope.

(** ** Public errors *)

(** [HTTPException]; a [detail] is a text or a mapping. *)
Record http_error : Type := mkHttpError {
  he_status : Z;
  he_detail : pyval;
  he_headers : list (pystr * pystr) }.

Definition detail (code message : pystr) : pyval := PDict [(KStr (u "code"), PStr code); (KStr (u "message"), PStr message)].

Definition code_value (c : TurnErrorCode) : pystr :=
  match c with
  | turn_timeout => u "turn_timeout"
  | upstream_rate_limited => u "upstream_rate_limited"
  | provider_unavailable => u "provider_unavailable"
  | provider_invalid_request => u "provider_invalid_request"
  | provider_invalid_response => u "provider_invalid_response"
  | persistence_unavailable => u "persistence_unavailable"
  | internal_error => u "internal_error"
  end.

Definition _turn_code_to_http (c : TurnErrorCode) : Z :=
  match c with
  | turn_timeout => 504
  | upstream_rate_limited => 429
  | provider_unavailable | provider_invalid_request => 503
  | provider_invalid_response => 500
  | persistence_unavailable => 503
  | internal_error => 500
  end.

Definition _turn_code_to_message (c : TurnErrorCode) : pystr :=
  match c with
  | turn_timeout => u "Turn deadline exceeded."
  | upstream_rate_limited => u "Upstream rate limited."
  | provider_unavailable | provider_invalid_request => u "Service temporarily unavailable."
  | provider_invalid_response => u "Invalid response from provider."
  | persistence_unavailable => u "Persistence service unavailable."
  | internal_error => u "Internal server error."
  end.

Definition turn_code_error (c : TurnErrorCode) : http_error :=
  mkHttpError (_turn_code_to_http c) (detail (code_value c) (_turn_code_to_message c)) [].

(** What is raised on the way of a request, by class. *)
Inductive request_exn : Type :=
| RHttp (e : http_error)
| RAdmission (e : admission_exn)
| RTurn (e : process_exn)
| REvent (e : event_exn)
| RCancelled
| RKeyError.

(** Of a language model: the configuration error is one of its errors. *)
Definition model_error (e : turn_exn) : option ModelFailure :=
  match e with
  | TModel failure => Some failure
  | TConfiguration => Some invalid_request
  | _ => None
  end.

(** [_map_turn_error], on the classes it is called with; [None] is another class. *)
Definition mapped_turn_code (e : process_exn) : option TurnErrorCode :=
  match e with
  | PTurn c | PRepository (CommitTurnError c) | PProvider (TExecution c) => Some c
  | PProvider e => language_failure_to_turn_code <$> model_error e
  | PRepository (CommitPersistenceError _ _) => Some persistence_unavailable
  | _ => None
  end.

Definition _map_turn_error (e : process_exn) : http_error := turn_code_error (default internal_error (mapped_turn_code e)).

Definition _PROCESS_TURN_CONFLICT_HTTP : list (pystr * (Z * pyval)) :=
  [(u "revision_mismatch", (409, detail (u "revision_conflict") (u "Request conflicts with a concurrent update.")));
   (u "request_payload_conflict", (409, detail (u "request_id_conflict") (u "Request identifier conflicts with a different message.")));
   (u "request_in_progress", (409, detail (u "request_in_progress") (u "Request is already being processed.")));
   (u "lease_conflict", (409, detail (u "lease_conflict") (u "Request lease conflict.")));
   (u "request_replay_unavailable",
    (409, detail (u "request_replay_unavailable") (u "Request was already received but its response is unavailable.")))].

Definition table_get {V} (table : list (pystr * V)) (key : pystr) : option V :=
  snd <$> List.find (fun kv => str_eqb kv.1 key) table.

Definition _map_process_turn_conflict (code : pystr) : http_error :=
  let '(status, d) := default (409, detail (u "request_conflict") (u "Request conflict.")) (table_get _PROCESS_TURN_CONFLICT_HTTP code) in
  mkHttpError status d [].

Definition ADMITTED : pystr := u "admitted".
Definition REQUEST_REPLAY_UNAVAILABLE : pystr := u "request_replay_unavailable".

Definition _ADMISSION_HTTP : list (pystr * (Z * pystr)) :=
  [(REQUEST_REPLAY_UNAVAILABLE, (409, u "Request was already received but its response is unavailable."));
   (u "request_id_conflict", (409, u "Request identifier conflicts with a different message."));
   (u "user_rate_limited", (429, u "User request rate limit exceeded."));
   (u "network_rate_limited", (429, u "Network request rate limit exceeded."));
   (u "application_rate_limited", (429, u "Application request rate limit exceeded."));
   (u "user_daily_request_quota_exceeded", (429, u "Daily request quota exceeded."));
   (u "user_daily_unit_quota_exceeded", (429, u "Daily input quota exceeded."));
   (u "invalid_admission_input", (422, u "Invalid admission input."))].

(** [None] is [KeyError]. *)
Definition _map_admission_rejection (r : AdmissionResult) : option http_error :=
  '(status, message) ← table_get _ADMISSION_HTTP (decision r);
  Some (mkHttpError status (detail (decision r) message)
          (if status =? 429 then [(u "Retry-After", render_int (retry_after_seconds r))] else [])).

Definition _admission_unavailable_error : http_error :=
  mkHttpError 503 (detail (u "admission_unavailable") (u "Admission service unavailable.")) [].

Definition service_unavailable : http_error :=
  mkHttpError 503 (detail (u "service_unavailable") (u "Service unavailable.")) [].

(** ** The application state *)

Record app_state (D : Type) : Type := mkAppState {
  app_dependencies : option D;
  app_lifespan_started : bool }.
Arguments mkAppState {D} _ _.
Arguments app_dependencies {D} _.
Arguments app_lifespan_started {D} _.

Definition get_dependencies {D} (app : app_state D) : result request_exn D :=
  match app_dependencies app with
  | Some deps => if app_lifespan_started app then Ok deps else Err (RHttp service_unavailable)
  | None => Err (RHttp service_unavailable)
  end.

(** ** The monad of a request *)

Record web_state (A DB : Type) : Type := mkWebState {
  ws_admission : A;
  ws_turn : turn_state DB;
  ws_log : list pystr }.
Arguments mkWebState {A DB} _ _ _.
Arguments ws_admission {A DB} _.
Arguments ws_turn {A DB} _.
Arguments ws_log {A DB} _.

Definition Req (A DB T : Type) : Type := web_state A DB -> result request_exn T * web_state A DB.

Section Monad.
Context {A DB : Type}.
Definition rret {T} (v : T) : Req A DB T := fun s => (Ok v, s).
Definition rraise {T} (e : request_exn) : Req A DB T := fun s => (Err e, s).
Definition rseq {T U} (c : Req A DB T) (k : T -> Req A DB U) : Req A DB U := fun s =>
  match c s with (Ok v, s') => k v s' | (Err e, s') => (Err e, s') end.
Definition rlift {T E} (f : E -> request_exn) (r : result E T) : Req A DB T := fun s =>
  (match r with Ok v => Ok v | Err e => Err (f e) end, s).
(** [try: c  except ...: handler]. *)
Definition rtry {T} (c : Req A DB T) (handler : request_exn -> Req A DB T) : Req A DB T := fun s =>
  match c s with (Ok v, s') => (Ok v, s') | (Err e, s') => handler e s' end.
Definition log_line (line : pystr) : Req A DB unit := fun s => (Ok tt, mkWebState (ws_admission s) (ws_turn s) (ws_log s ++ [line])).
Definition emit (event : pystr) (fs : fields) : Req A DB unit := fun s =>
  match emit_event event fs with Ok line => log_line line s | Err e => (Err (REvent e), s) end.
End Monad.

Declare Scope request_scope.
Delimit Scope request_scope with request.
Notation "'do!' x '<-' c 'in' k" := (rseq c (fun x => k))
  (at level 200, x name, c at level 100, k at level 200, right associativity) : request_scope.
Notation "c ';;;' k" := (rseq c (fun _ => k)) (at level 199, right associativity) : request_scope.
Local Open Scope request_scope.

Definition opt_text (o : option pystr) : pyval := match o with Some s => PStr s | None => PNone end.

(** ** The conversation engine of the request path (chat_engine.py) *)

(** How the wait for the lock of the user ends. *)
Inductive lock_fate : Type := LockAcquired | LockTimesOut | LockCancelled.

Section Endpoint.
Context {A DB : Type} `{FR : FloatRepr, SH : Sha256, LM : Libm, IF : IsoFormat, PT : PyText, UL : UnicodeLower, IP : IpLib, HM : Hmac}.

(** What the endpoints are composed of. *)
Record Dependencies : Type := mkDependencies {
  dp_supabase : option (supabase DB);                                    (** of the repositories *)
  dp_persistence : option (pydict -> A -> option pyval * A);             (** [rpc("reserve_admission", ...)] *)
  dp_admission_config : AdmissionRuntimeConfig;
  dp_turn_config : TurnExecutionConfig;
  dp_process : ProcessTurnConfig }.

(** The request and what surrounds it. *)
Record chat_env : Type := mkChatEnv {
  ce_peer_host : pyval;
  ce_forwarded_for : pyval;
  ce_start : float;                  (** the clock as the budget is made *)
  ce_admission_now : float;          (** ... as the reservation starts *)
  ce_interrupted : bool;             (** a cancellation arrives during the reservation *)
  ce_lock : lock_fate;
  ce_duration_ms : float;
  ce_turn : surroundings DB }.

Context (deps : Dependencies) (env : chat_env).

(** [ChatConversationEngine.process_turn] and [_run_turn_locked]: the turn runs
    inside the lock of the user, which is left whatever happens. *)
Definition process_turn (user_id message request_id : pystr) (budget : TurnBudget) (mode : TurnMode) (correlation : pystr)
    : Req A DB ProcessTurnResult := fun s =>
  match ce_lock env with
  | LockTimesOut => (Err (RTurn (PTurn turn_timeout)), s)
  | LockCancelled => (Err RCancelled, s)
  | LockAcquired =>
      match ProcessTurnInput_init user_id request_id message budget (PStr correlation) mode with
      | Err e => (Err (RTurn e), s)
      | Ok inp =>
          let '(r, t) := execute (dp_supabase deps) (dp_process deps) (ce_turn env) inp (ws_turn s) in
          (match r with Ok v => Ok v | Err e => Err (RTurn e) end, mkWebState (ws_admission s) t (ws_log s))
      end
  end.

(** [reserve_admission_sync] in a worker, in [run_blocking_write]. *)
Definition admission_allowed (e : work_exn admission_exn) : bool :=
  match e with OtherException AdmissionUnavailable => true | _ => false end.

Definition of_admission (e : work_exn admission_exn) : request_exn :=
  match e with
  | CancelledError => RCancelled
  | AsyncTimeoutError => RTurn (PTurn turn_timeout)
  | TurnExecutionError c => RTurn (PTurn c)
  | OtherException e => RAdmission e
  end.

Definition reserve (budget : TurnBudget) (r : AdmissionRequest) : Req A DB AdmissionResult := fun s =>
  if (remaining budget (ce_admission_now env) <=? 0)%float then (Err (RTurn (PTurn turn_timeout)), s) else
  let '(answer, a) := match dp_persistence deps with
                      | None => (None, ws_admission s)
                      | Some rpc => rpc (rpc_params r) (ws_admission s)
                      end in
  let s' := mkWebState a (ws_turn s) (ws_log s) in
  let work := match reserve_admission_sync (match dp_persistence deps with None => None | Some _ => Some (fun _ => answer) end) r with
              | Ok v => Returned v
              | Err e => Raised (OtherException e)
              end in
  match run_blocking_write admission_allowed budget (ce_admission_now env) (ce_interrupted env) work with
  | Ok (Some v) => (Ok v, s')
  | Ok None => (Err (RTurn PTypeError), s')        (** a write that returns has a result *)
  | Err e => (Err (of_admission e), s')
  end.

(** ** POST /chat *)

Definition mode_value (m : TurnMode) : pystr := match m with normal => u "normal" | replay_attempt => u "replay_attempt" end.

Record ChatResponse : Type := mkChatResponse {
  cr_response : pystr;
  cr_emotion_state : EmotionStateResponse }.

(** The decision on the admission: the mode of the turn, or the rejection. *)
Definition turn_mode (correlation : pystr) (r : AdmissionResult) : Req A DB TurnMode :=
  if str_eqb (decision r) ADMITTED then
    log_line (u "event=admission_admitted correlation=" ++ correlation) ;;; rret normal
  else if str_eqb (decision r) REQUEST_REPLAY_UNAVAILABLE then
    log_line (u "event=admission_replay correlation=" ++ correlation) ;;; rret replay_attempt
  else
    log_line (u "event=admission_rejected code=" ++ decision r) ;;;
    match _map_admission_rejection r with
    | None => rraise RKeyError
    | Some e =>
        emit EVENT_HTTP_RESULT [(u "code", PInt (he_status e)); (u "correlation", PStr correlation)] ;;;
        rraise (RHttp e)
    end.

(** The correlation is known to the handlers once it was computed. *)
Definition chat_correlation (request_id : pyval) : result admission_exn (RequestIdentity * pystr * pystr) :=
  let* identity := RequestIdentity_init request_id in
  let network := resolve_network_identity (ce_peer_host env) (ce_forwarded_for env)
                   (trusted_proxy_networks (dp_admission_config deps)) in
  let* correlation := compute_turn_correlation (dp_admission_config deps) (PStr identity) in
  Ok (identity, network, correlation).

(** The body of the [try] after it. *)
Definition chat_turn (user_id : pyval) (message : pystr) (identity network correlation : pystr) : Req A DB ChatResponse :=
  let budget := create_budget (dp_turn_config deps) (ce_start env) in
  do! request <- rlift RAdmission
    (build_admission_request user_id identity (PStr message) (PStr network) (dp_admission_config deps)) in
  do! result <- reserve budget request in
  do! mode <- turn_mode correlation result in
  do! turn <- process_turn (ar_user_id request) message identity budget mode correlation in
  emit EVENT_TURN_COMPLETED
    [(u "code", PStr (u "ok")); (u "duration_ms", PFloat (ce_duration_ms env)); (u "mode", PStr (mode_value mode));
     (u "correlation", PStr correlation)] ;;;
  emit EVENT_HTTP_RESULT [(u "code", PInt 200); (u "correlation", PStr correlation)] ;;;
  rret (mkChatResponse (pr_response turn) (pr_emotion_state turn)).

(** [level=logging.ERROR] does not show in the line. *)
Definition fail_turn {T} (correlation : option pystr) (code : pystr) (e : http_error) : Req A DB T :=
  emit EVENT_TURN_FAILED [(u "code", PStr code); (u "correlation", opt_text correlation)] ;;;
  emit EVENT_HTTP_RESULT [(u "code", PInt (he_status e)); (u "correlation", opt_text correlation)] ;;;
  rraise (RHttp e).

(** The [except] clauses, in their order. *)
Definition chat_handler {T} (correlation : option pystr) (e : request_exn) : Req A DB T :=
  match e with
  | RCancelled | RTurn (PCancelled | PProvider (TCancelled | TInterrupt) | PRepository CommitBase) => rraise e
  | RHttp _ => rraise e
  | RAdmission AdmissionUnavailable =>
      emit EVENT_TURN_FAILED [(u "code", PStr (u "admission_unavailable"))] ;;;
      emit EVENT_HTTP_RESULT [(u "code", PInt 503); (u "correlation", opt_text correlation)] ;;;
      rraise (RHttp _admission_unavailable_error)
  | RTurn (PRepository (CommitConflictError code _ _ _ _)) =>
      emit EVENT_REQUEST_CONFLICT [(u "code", PStr code); (u "correlation", opt_text correlation)] ;;;
      emit EVENT_HTTP_RESULT [(u "code", PInt (he_status (_map_process_turn_conflict code))); (u "correlation", opt_text correlation)] ;;;
      rraise (RHttp (_map_process_turn_conflict code))
  | RTurn e =>
      match mapped_turn_code e with
      | Some c => fail_turn correlation (code_value c) (_map_turn_error e)
      | None => fail_turn correlation (code_value internal_error) (turn_code_error internal_error)
      end
  | _ => fail_turn correlation (code_value internal_error) (turn_code_error internal_error)
  end.

Definition chat_endpoint (user_id request_id : pyval) (message : pystr) : Req A DB ChatResponse :=
  match chat_correlation request_id with
  | Err e => chat_handler None (RAdmission e)
  | Ok (identity, network, correlation) =>
      rtry (chat_turn user_id message identity network correlation) (chat_handler (Some correlation))
  end.

(** The route: the dependencies first. *)
Definition chat_route (started : bool) (user_id request_id : pyval) (message : pystr) : Req A DB ChatResponse :=
  do! _ <- rlift id (get_dependencies (mkAppState (Some deps) started)) in
  chat_endpoint user_id request_id message.

End Endpoint.

(** ** Request contracts *)

(** What [ChatInput] makes of a body: the two values, or the types of its errors.
    pydantic's own errors are told apart from the program's only. *)
Definition PYDANTIC : pystr := u "pydantic".

Section Contracts.
Context `{UL : UnicodeLower}.

Definition _validate_request_id (value : pystr) : result pystr pystr :=
  match RequestIdentity_init (PStr value) with
  | Ok id => Ok id
  | Err (AdmissionError _) => Err (u "invalid_request_id")
  | Err _ => Err PYDANTIC
  end.

(** [UnicodeEncodeError] is a [ValueError], which pydantic reports itself. *)
Definition _validate_message (value : pystr) : result pystr pystr :=
  match validate_new_message (PStr value) with
  | Ok _ => Ok value
  | Err (AdmissionError e) => Err (ae_code e)
  | Err _ => Err PYDANTIC
  end.

Definition strict_field (validate : pystr -> result pystr pystr) (d : pydict) (name : pystr) : result pystr pystr :=
  match dget d name with
  | Some (PStr s) => validate s
  | _ => Err PYDANTIC
  end.

Definition ChatInput (body : pyval) : result (list pystr) (pystr * pystr) :=
  match body with
  | PDict d =>
      let unknown := if has_unknown [u "request_id"; u "message"] d then [PYDANTIC] else [] in
      match strict_field _validate_request_id d (u "request_id"), strict_field _validate_message d (u "message"), unknown with
      | Ok id, Ok message, [] => Ok (id, message)
      | id, message, unknown =>
          Err ((match id with Err e => [e] | _ => [] end) ++ (match message with Err e => [e] | _ => [] end) ++ unknown)
      end
  | _ => Err [PYDANTIC]
  end.

End Contracts.

Definition _VALIDATION_MESSAGES : list (pystr * pystr) :=
  [(u "invalid_request_id", u "Invalid request identifier."); (u "message_too_long", u "Message exceeds the character limit.");
   (u "message_budget_exceeded", u "Message exceeds the input budget."); (u "invalid_request", u "Invalid request body.")].

(** The answer to a [RequestValidationError] with these error types. *)
Definition _sanitise_request_validation_error (error_types : list pystr) : http_error :=
  let code := default (u "invalid_request")
    (List.find (fun c => str_in c error_types) [u "invalid_request_id"; u "message_too_long"; u "message_budget_exceeded"]) in
  mkHttpError 422 (PDict [(KStr (u "detail"), detail code (default [] (table_get _VALIDATION_MESSAGES code)))]) [].

(** ** Authentication *)

(** What [auth_client.auth.get_user(token)] gives: the identity of the user, no
    user, or an exception. *)
Inductive auth_answer : Type :=
| AuthUser (id : pyval)
| AuthNoUser
| AuthApiError (status : Z)
| AuthRetryableError
| AuthOther.

Definition not_authenticated : http_error :=
  mkHttpError 401 (PStr (u "Not authenticated")) [(u "WWW-Authenticate", u "Bearer")].
Definition authentication_failed : http_error :=
  mkHttpError 401 (PStr (u "Authentication failed")) [(u "WWW-Authenticate", u "Bearer")].
Definition authentication_unavailable : http_error :=
  mkHttpError 503 (PStr (u "Authentication service unavailable")) [].

Section Authentication.
Context {A DB : Type} `{UL : UnicodeLower, IP : IpLib, HM : Hmac}.

(** Best effort: [body] is the parsed body, [None] when it cannot be read. *)
Definition get_turn_correlation (config : option AdmissionRuntimeConfig) (body : option pyval) : option pystr :=
  match config, body with
  | Some c, Some (PDict d) =>
      match dget d (u "request_id") with
      | Some v => if truthy v then match compute_turn_correlation c v with Ok s => Some s | Err _ => None end else None
      | None => None
      end
  | _, _ => None
  end.

Record auth_deps : Type := mkAuthDeps {
  ad_client : option (pystr -> auth_answer);
  ad_config : AdmissionRuntimeConfig }.

Context (app : app_state auth_deps) (duration_ms : nat -> float) (correlation : option pystr).

Definition auth_failed_event (k : nat) (code : pystr) : Req A DB unit :=
  emit EVENT_AUTH_FAILED [(u "code", PStr code); (u "duration_ms", PFloat (duration_ms k)); (u "correlation", opt_text correlation)].

(** The body of the [try]. *)
Definition authenticate (deps : auth_deps) (token : pystr) : Req A DB (auth_answer + pyval) :=
  match ad_client deps with
  | None =>
      auth_failed_event 0 (u "service_unavailable") ;;; rraise (RHttp authentication_unavailable)
  | Some get_user =>
      match get_user token with
      | AuthUser id =>
          let user_ref := match compute_user_reference (ad_config deps) id with Ok s => Some s | Err _ => None end in
          emit EVENT_AUTH_COMPLETED [(u "outcome", PStr (u "ok")); (u "duration_ms", PFloat (duration_ms 0));
            (u "correlation", opt_text correlation); (u "user_ref", opt_text user_ref)] ;;;
          rret (inr id)
      | AuthNoUser => auth_failed_event 0 (u "invalid_token") ;;; rraise (RHttp authentication_failed)
      | answer => rret (inl answer)
      end
  end.

(** The [except] clauses; any other exception comes with [AuthOther]. *)
Definition auth_refused {T} (answer : auth_answer) : Req A DB T :=
  match answer with
  | AuthApiError status =>
      if (status =? 400) || (status =? 401) || (status =? 403)
      then auth_failed_event 1 (u "invalid_token") ;;; rraise (RHttp authentication_failed)
      else auth_failed_event 1 (u "upstream_error") ;;; rraise (RHttp authentication_unavailable)
  | AuthRetryableError => auth_failed_event 1 (u "transport_error") ;;; rraise (RHttp authentication_unavailable)
  | _ => auth_failed_event 1 (u "unexpected") ;;; rraise (RHttp authentication_unavailable)
  end.

Definition get_current_user (credentials : option pystr) : Req A DB pyval :=
  match credentials with
  | None => auth_failed_event 0 (u "missing_credentials") ;;; rraise (RHttp not_authenticated)
  | Some token =>
      do! deps <- rlift id (get_dependencies app) in
      rtry
        (do! answer <- authenticate deps token in
         match answer with inr id => rret id | inl e => auth_refused e end)
        (fun e => match e with RHttp _ => rraise e | _ => auth_refused AuthOther end)
  end.

End Authentication.

(** ** GET /history *)

Definition internal_server_error : http_error := mkHttpError 500 (PStr (u "Internal Server Error")) [].

(** [select user] is the answer of the client to the newest 50 rows of the user,
    newest first; [None] is an exception, [Some None] an empty answer. *)
Definition get_history {R} (select : option (pyval -> option (option (list R)))) (user_id : pyval) : result http_error (list R) :=
  match select with
  | None => Ok []
  | Some query =>
      match query user_id with
      | None => Err internal_server_error
      | Some None => Ok []
      | Some (Some rows) => Ok (rev rows)
      end
  end.

(** ** The privacy actions *)

Definition _PRIVACY_CONFLICT_DETAIL : pyval :=
  detail (u "operation_conflict") (u "Operation identifier was already used with a different operation.").
Definition _PRIVACY_PERSISTENCE_DETAIL : pyval :=
  detail (code_value persistence_unavailable) (u "Persistence service unavailable.").
Definition _PRIVACY_INTERNAL_DETAIL : pyval := detail (code_value internal_error) (u "Internal server error.").

Section Privacy.
Context {DB : Type} `{FR : FloatRepr, SH : Sha256, PT : PyText}.

(** What leaves the action: a public error, or an exception that is none
    ([BaseException]). *)
Inductive action_exn : Type :=
| ActionHttp (e : http_error)
| ActionBase.

Definition action_error (status : Z) (d : pyval) : action_exn := ActionHttp (mkHttpError status d []).

(** The [except] clauses, with the events before the answer. *)
Definition privacy_refused (e : commit_exn) : action_exn * list (pystr * fields) :=
  match e with
  | CommitBase => (ActionBase, [])
  | CommitConflictError code _ _ _ _ =>
      if str_eqb code (u "operation_conflict")
      then (action_error 409 _PRIVACY_CONFLICT_DETAIL,
            [(EVENT_REQUEST_CONFLICT, [(u "code", PStr (u "operation_conflict"))]); (EVENT_HTTP_RESULT, [(u "code", PInt 409)])])
      else (action_error 500 _PRIVACY_INTERNAL_DETAIL, [])
  | CommitPersistenceError _ _ => (action_error 503 _PRIVACY_PERSISTENCE_DETAIL, [(EVENT_HTTP_RESULT, [(u "code", PInt 503)])])
  | _ => (action_error 500 _PRIVACY_INTERNAL_DETAIL, [(EVENT_HTTP_RESULT, [(u "code", PInt 500)])])
  end.

(** [_run_privacy_action] for one of the four operations: the service is absent or
    the client of its repository; the events it emits come with the answer. *)
Definition _run_privacy_action (started : bool) (service : option (option (pystr -> pydict -> DB -> option pyval * DB)))
    (turn_config : TurnExecutionConfig) (env : action_env) (operation : privacy_operation) (user_id : pyval) (operation_id : pystr) (db : DB)
    : result action_exn PrivacyOperationResponse * list (pystr * fields) * DB :=
  if negb started then (Err (ActionHttp service_unavailable), [], db) else
  match service with
  | None => (Err (ActionHttp service_unavailable), [], db)
  | Some client =>
      let '(r, db') := privacy_action client turn_config env operation user_id (PStr operation_id) db in
      match r with
      | Ok v => (Ok v, [(EVENT_HTTP_RESULT, [(u "code", PInt 200)])], db')
      | Err e => let '(x, events) := privacy_refused e in (Err x, events, db')
      end
  end.

End Privacy.
