(* ===== verification/HttpProperties.v ===== *)
(** * The guarantees of the HTTP endpoints

    The error boundary of [POST /chat], the admission gate before the model, and
    the retry of a request that was answered. *)

From Stdlib Require Import Floats.
From S2P Require Import Prelude PyFloat PyValue Json PyDatetime Admission TrustedContext TurnExecution.
From S2P Require Import StorageContracts EmotionalModels EmotionalTransition EmotionPresentation CompanionRuntime GroqLanguageModel.
From S2P Require Import AtomicTurnCommit JsonText CommitTheorems TurnRepositories ProcessTurn PrivacyOperations Observability TurnDatabase.
From S2P Require Import CommitProperties TurnDatabaseTheorems TurnDatabaseProperties WebStore ProcessTurnTheorems ProcessTurnProperties AdmissionLedger HttpEndpoints.

Local Open Scope Z_scope.
Local Open Scope request_scope.

(** ** Public outcomes *)

Definition ALL_TURN_CODES : list TurnErrorCode :=
  [turn_timeout; upstream_rate_limited; provider_unavailable; provider_invalid_request; provider_invalid_response;
   persistence_unavailable; internal_error].

(** The decisions that reject a request, with their delays. *)
Definition REJECTIONS : list (pystr * Z) := drop 2 EXPECTED_RETRY_AFTER.

(** Every answer but 200 that [POST /chat] gives of its own: constants. *)
Definition PUBLIC_ERRORS : list http_error :=
  map turn_code_error ALL_TURN_CODES
  ++ map (fun row => _map_process_turn_conflict row.1) _PROCESS_TURN_CONFLICT_HTTP ++ [_map_process_turn_conflict []]
  ++ omap (fun d => _map_admission_rejection (mkAdmissionResult d.1 d.2)) REJECTIONS
  ++ [_admission_unavailable_error].

(** A cancellation or an interrupt goes through; everything else is public. *)
Definition public_outcome {T} (r : result request_exn T) : Prop :=
  match r with
  | Ok _ => True
  | Err (RHttp e) => e ∈ PUBLIC_ERRORS
  | Err (RCancelled | RTurn (PCancelled | PProvider (TCancelled | TInterrupt) | PRepository CommitBase)) => True
  | _ => False
  end.

Lemma turn_code_public c : turn_code_error c ∈ PUBLIC_ERRORS.
Proof. apply elem_of_app. left. apply list_elem_of_In, in_map. destruct c; cbn; tauto. Qed.

Lemma conflict_public code : _map_process_turn_conflict code ∈ PUBLIC_ERRORS.
Proof.
  apply elem_of_app. right. unfold _map_process_turn_conflict, table_get.
  destruct (List.find _ _PROCESS_TURN_CONFLICT_HTTP) as [row|] eqn:F.
  - apply find_some in F as [Hin _]. apply elem_of_app. left. apply list_elem_of_In.
    cbn in Hin. repeat destruct Hin as [<-|Hin]; try by destruct Hin.
    all: vm_compute; tauto.
  - apply elem_of_app. right. apply elem_of_app. left. apply list_elem_of_singleton. reflexivity.
Qed.

Lemma unavailable_public : _admission_unavailable_error ∈ PUBLIC_ERRORS.
Proof. do 3 (apply elem_of_app; right). apply elem_of_app. right. by apply list_elem_of_singleton. Qed.

Lemma rejection_public r e : expected_retry_after (decision r) = Some (retry_after_seconds r) ->
  str_eqb (decision r) ADMITTED = false -> str_eqb (decision r) REQUEST_REPLAY_UNAVAILABLE = false ->
  _map_admission_rejection r = Some e -> e ∈ PUBLIC_ERRORS.
Proof.
  destruct r as [d z]. cbn [decision retry_after_seconds]. intros X A R E.
  do 3 (apply elem_of_app; right). apply elem_of_app. left. apply list_elem_of_omap. exists (d, z). split; [|exact E].
  unfold expected_retry_after in X. destruct (List.find _ _) as [[d' z']|] eqn:F; [|discriminate X]. injection X as <-.
  apply find_some in F as [Hin Eq]. apply bool_decide_eq_true in Eq. cbn [fst] in Eq. subst d'.
  unfold EXPECTED_RETRY_AFTER in Hin. destruct Hin as [[= <- <-]|[[= <- <-]|Hin]]; [discriminate A|discriminate R|].
  by apply list_elem_of_In.
Qed.

(** ** Log lines *)

Definition plain_line (line : pystr) : Prop := Forall plain_char line.

Section Boundary.
Context {A DB : Type}.
Implicit Types (s : web_state A DB).

(** [s'] is [s] with more plain lines. *)
Definition logged_more s s' : Prop :=
  ws_admission s' = ws_admission s /\ ws_turn s' = ws_turn s
  /\ exists lines, ws_log s' = ws_log s ++ lines /\ Forall plain_line lines.

Lemma logged_refl s : logged_more s s.
Proof. split_and!; [done..|]. exists []. split; [by rewrite app_nil_r|by apply Forall_nil]. Qed.

Lemma logged_trans s1 s2 s3 : logged_more s1 s2 -> logged_more s2 s3 -> logged_more s1 s3.
Proof.
  intros (A1 & T1 & l1 & L1 & P1) (A2 & T2 & l2 & L2 & P2). split_and!; [congruence..|].
  exists (l1 ++ l2). split; [by rewrite L2, L1, app_assoc|by apply Forall_app].
Qed.

Lemma log_line_more line s : plain_line line -> logged_more s (log_line line s).2.
Proof. intros P. split_and!; [done..|]. exists [line]. split; [done|by apply Forall_singleton]. Qed.

Lemma emit_more event fs s r s' : emit event fs s = (r, s') ->
  logged_more s s' /\ match r with Ok _ => True | Err e => exists x, e = REvent x end.
Proof.
  unfold emit. destruct (emit_event event fs) as [line|e] eqn:E.
  - intros H. pose proof (emit_event_plain _ _ _ E) as P. injection H as <- <-. split; [by apply (log_line_more line)|done].
  - intros [= <- <-]. split; [apply logged_refl|by exists e].
Qed.

(** What may be emitted is emitted. *)
Lemma emit_ok event fs s : str_in event EVENT_NAMES = true -> emittable fs = true ->
  exists s', emit event fs s = (Ok tt, s') /\ logged_more s s'.
Proof.
  intros N F. destruct (emit_event_ok event fs N F) as [line E]. pose proof (emit_event_plain _ _ _ E) as P.
  eexists. unfold emit. rewrite E. split; [reflexivity|by apply (log_line_more line)].
Qed.

Lemma emittable_correlation fs (c : option pystr) : emittable fs = true ->
  emittable (fs ++ [(u "correlation", opt_text c)]) = true.
Proof. unfold emittable. rewrite forallb_app. intros ->. by destruct c. Qed.

Lemma status_emittable e : e ∈ PUBLIC_ERRORS -> emittable [(u "code", PInt (he_status e))] = true.
Proof.
  intros H. assert (forallb (fun e => emittable [(u "code", PInt (he_status e))]) PUBLIC_ERRORS = true) as P by (vm_compute; reflexivity).
  rewrite forallb_forall in P. apply P. by apply list_elem_of_In.
Qed.

Lemma code_emittable (code : pystr) : emittable [(u "code", PStr code)] = true.
Proof. reflexivity. Qed.

(** Two events and a public error. *)
Lemma refuse_public {T} event fs1 fs2 e s (r : result request_exn T) s' :
  str_in event EVENT_NAMES = true -> emittable fs1 = true -> emittable fs2 = true -> e ∈ PUBLIC_ERRORS ->
  (emit event fs1 ;;; emit EVENT_HTTP_RESULT fs2 ;;; rraise (RHttp e)) s = (r, s') ->
  public_outcome r /\ logged_more s s'.
Proof.
  intros N F1 F2 P H. unfold rseq in H.
  destruct (emit_ok event fs1 s N F1) as (s1 & E1 & L1). rewrite E1 in H.
  destruct (emit_ok EVENT_HTTP_RESULT fs2 s1 eq_refl F2) as (s2 & E2 & L2). rewrite E2 in H.
  injection H as <- <-. split; [exact P|by eapply logged_trans].
Qed.

Lemma fail_turn_public {T} c code e s (r : result request_exn T) s' : e ∈ PUBLIC_ERRORS ->
  fail_turn c code e s = (r, s') -> public_outcome r /\ logged_more s s'.
Proof.
  intros P. apply refuse_public; [reflexivity| | |exact P].
  - apply (emittable_correlation [_]), code_emittable.
  - apply (emittable_correlation [_]), status_emittable, P.
Qed.

(** Whatever is raised in the body, the handler answers with a public error. *)
Lemma chat_handler_public {T} c e s (r : result request_exn T) s' :
  (forall x, e = RHttp x -> x ∈ PUBLIC_ERRORS) ->
  chat_handler c e s = (r, s') -> public_outcome r /\ logged_more s s'.
Proof.
  intros Hh. pose proof (logged_refl s) as L.
  assert (forall code e' r' s'', e' ∈ PUBLIC_ERRORS -> @fail_turn A DB T c code e' s = (r', s'') -> public_outcome r' /\ logged_more s s'') as F
    by (intros; by eapply fail_turn_public).
  destruct e as [x|x|x|x| |]; [|destruct x|destruct x as [x| | |x| | | | | |]; [destruct x| | |destruct x|..]|..];
    cbn [chat_handler mapped_turn_code model_error fmap option_fmap option_map];
    lazymatch goal with
    | |- fail_turn _ _ _ _ = _ -> _ => apply F, turn_code_public
    | |- rraise (RHttp _) _ = _ -> _ => intros [= <- <-]; split; [by apply Hh|done]
    | |- rraise _ _ = _ -> _ => intros [= <- <-]; by split
    | |- _ => idtac
    end.
  - apply refuse_public; [reflexivity|reflexivity| |apply unavailable_public]. apply (emittable_correlation [_]). reflexivity.
  - apply refuse_public; [reflexivity| | |apply conflict_public].
    + apply (emittable_correlation [_]), code_emittable.
    + apply (emittable_correlation [_]), status_emittable, conflict_public.
Qed.
End Boundary.

Lemma printable_plain t : forallb (fun c => ((32 <=? c) && (c <? 127))%N) t = true -> plain_line t.
Proof.
  intros H. apply Forall_forall. intros c Hc. apply list_elem_of_In in Hc. rewrite forallb_forall in H.
  specialize (H c Hc). apply andb_true_iff in H as [L%N.leb_le U%N.ltb_lt].
  destruct (decide (c = 32%N)) as [->|N]; [done|]. apply visible_plain. unfold visible. lia.
Qed.

Lemma decision_plain d z : expected_retry_after d = Some z -> plain_line d.
Proof.
  intros H%expected_retry_in. destruct H as [H _]. apply printable_plain.
  assert (forallb (forallb (fun c => ((32 <=? c) && (c <? 127))%N)) (EXPECTED_RETRY_AFTER.*1) = true) as P by (vm_compute; reflexivity).
  rewrite forallb_forall in P. apply P, list_elem_of_In. by apply str_in_elem.
Qed.

(** ** The steps of the endpoint *)

Section Steps.
Context {A DB : Type} `{FR : FloatRepr, SH : Sha256, LM : Libm, IF : IsoFormat, PT : PyText, UL : UnicodeLower, IP : IpLib, HM : Hmac}.
Implicit Types (s : web_state A DB).

Lemma rseq_inv {T U} (c : Req A DB T) (k : T -> Req A DB U) s r s' : rseq c k s = (r, s') ->
  (exists e, c s = (Err e, s') /\ r = Err e) \/ exists v s1, c s = (Ok v, s1) /\ k v s1 = (r, s').
Proof. unfold rseq. destruct (c s) as [[v|e] s1] eqn:E; intros H; [right; eauto|left]. injection H as <- <-. eauto. Qed.

(** The state but for the log, and whether an exception is the endpoint's own. *)
Definition grows s s' : Prop := exists lines, ws_log s' = ws_log s ++ lines /\ Forall plain_line lines.
Definition no_http {T} (r : result request_exn T) : Prop := forall x, r <> Err (RHttp x).

Lemma grows_refl s : grows s s.
Proof. exists []. split; [by rewrite app_nil_r|by apply Forall_nil]. Qed.

Lemma grows_same s s' : ws_log s' = ws_log s -> grows s s'.
Proof. intros E. exists []. split; [by rewrite E, app_nil_r|by apply Forall_nil]. Qed.

Lemma grows_more s1 s2 s3 : grows s1 s2 -> logged_more s2 s3 -> grows s1 s3.
Proof.
  intros (l1 & L1 & P1) (_ & _ & l2 & L2 & P2). exists (l1 ++ l2). split; [by rewrite L2, L1, app_assoc|by apply Forall_app].
Qed.

Context (deps : @Dependencies A DB IP) (env : @chat_env DB).

Lemma reserve_spec b req s x s1 : reserve deps env b req s = (x, s1) ->
  ws_turn s1 = ws_turn s /\ ws_log s1 = ws_log s /\ no_http x
  /\ (ws_admission s1 = ws_admission s \/ exists rpc, dp_persistence deps = Some rpc /\ ws_admission s1 = (rpc (rpc_params req) (ws_admission s)).2)
  /\ forall res, x = Ok res -> expected_retry_after (decision res) = Some (retry_after_seconds res)
     /\ exists rpc payload, dp_persistence deps = Some rpc
        /\ rpc (rpc_params req) (ws_admission s) = (Some payload, ws_admission s1) /\ reply_states payload res.
Proof.
  unfold reserve. destruct (remaining _ _ <=? 0)%float eqn:B.
  { intros [= <- <-]. split_and!; try done. by left. }
  destruct (dp_persistence deps) as [rpc|].
  2: { cbn [reserve_admission_sync]. unfold run_blocking_write. rewrite B. destruct (ce_interrupted env); cbn [write_result admission_allowed of_admission];
       intros [= <- <-]; (split_and!; [done..|by left|done]). }
  destruct (rpc (rpc_params req) (ws_admission s)) as [answer a] eqn:E. cbn [reserve_admission_sync].
  unfold run_blocking_write. rewrite B.
  assert (forall y : web_state A DB, (ws_admission y = a -> ws_admission y = ws_admission s
    \/ exists rpc0, Some rpc = Some rpc0 /\ ws_admission y = (rpc0 (rpc_params req) (ws_admission s)).2)) as Adm
    by (intros y ->; right; exists rpc; by rewrite E).
  destruct (ce_interrupted env).
  { intros [= <- <-]. split_and!; try done. by apply Adm. }
  destruct answer as [payload|].
  - pose proof (parse_admission_sound payload) as Snd. destruct (parse_admission_result payload) as [res|e].
    + cbn [write_result]. intros [= <- <-]. split_and!; [done..|by apply Adm|]. intros res' [= <-].
      split; [by destruct Snd as (? & ? & ? & ? & ? & ?)|]. exists rpc, payload. by rewrite E.
    + subst e. cbn [write_result admission_allowed of_admission]. intros [= <- <-]. split_and!; try done. by apply Adm.
  - cbn [write_result admission_allowed of_admission]. intros [= <- <-]. split_and!; try done. by apply Adm.
Qed.

Lemma turn_mode_spec c res s x s1 : plain_line c -> expected_retry_after (decision res) = Some (retry_after_seconds res) ->
  turn_mode c res s = (x, s1) ->
  logged_more s s1 /\ (forall e, x = Err (RHttp e) -> e ∈ PUBLIC_ERRORS)
  /\ forall m, x = Ok m -> decision res = ADMITTED /\ m = normal \/ decision res = REQUEST_REPLAY_UNAVAILABLE /\ m = replay_attempt.
Proof.
  intros P X. unfold turn_mode.
  assert (forall t (m : TurnMode) y, Forall plain_char t -> (log_line t ;;; rret m) s = (y, s1) -> logged_more s s1 /\ y = Ok m) as L.
  { intros t m y Pt [= <- <-]. split; [by apply (log_line_more t)|done]. }
  destruct (str_eqb (decision res) ADMITTED) eqn:Ea; [|destruct (str_eqb (decision res) REQUEST_REPLAY_UNAVAILABLE) eqn:Er].
  - intros H. apply L in H as [Lm ->]; [|apply Forall_app; split; [by apply printable_plain|done]].
    split_and!; [done|done|]. intros m [= <-]. apply str_eqb_eq in Ea. tauto.
  - intros H. apply L in H as [Lm ->]; [|apply Forall_app; split; [by apply printable_plain|done]].
    split_and!; [done|done|]. intros m [= <-]. apply str_eqb_eq in Er. tauto.
  - intros H. apply rseq_inv in H as [(e & [=] & _)|(v & s2 & [= _ E2] & H)].
    assert (logged_more s s2) as L2.
    { subst s2. apply (log_line_more (u "event=admission_rejected code=" ++ decision res)).
      apply Forall_app. split; [by apply printable_plain|by eapply decision_plain]. }
    pose proof (fun e => rejection_public res e X Ea Er) as Pu.
    destruct (_map_admission_rejection res) as [e|]; [|injection H as <- <-; by split_and!].
    apply rseq_inv in H as [(e' & H & ->)|(v' & s3 & H & [= <- <-])].
    + apply emit_more in H as [L3 (y & ->)]. split_and!; [by eapply logged_trans|done|done].
    + apply emit_more in H as [L3 _]. split_and!; [by eapply logged_trans| |done]. intros e' [= <-]. by apply Pu.
Qed.

(** The turn keeps the ledger and the log; a replay asks the model nothing. *)
Lemma process_turn_spec user message id b m c s x s1 : process_turn deps env user message id b m c s = (x, s1) ->
  ws_admission s1 = ws_admission s /\ ws_log s1 = ws_log s /\ no_http x
  /\ (m = replay_attempt -> (ws_turn s1).2 = (ws_turn s).2).
Proof.
  unfold process_turn. destruct (ce_lock env); [|intros [= <- <-]; by split_and!..].
  unfold ProcessTurnInput_init. destruct (_ && _); [|intros [= <- <-]; by split_and!].
  destruct (execute _ _ _ _ _) as [r t] eqn:E. intros [= <- <-]. split_and!; [done|done|by destruct r|].
  intros ->. cbn [ws_turn]. unfold execute, bind in E. cbn [in_mode] in E.
  destruct (_replay _ _ _ _ _) as [y t1] eqn:R. assert (t1.2 = (ws_turn s).2) as T.
  { unfold _replay in R. destruct (replay _ _ _ _) in R. repeat case_match; by simplify_eq. }
  destruct y; [unfold lift in E|]; injection E as _ <-; exact T.
Qed.

(** How the body of the endpoint runs. *)
Record turn_run (user : pyval) (message identity network c : pystr) (req : AdmissionRequest) s s1 (x : result request_exn AdmissionResult) : Prop := {
  tn_request : build_admission_request user identity (PStr message) (PStr network) (dp_admission_config deps) = Ok req;
  tn_reserve : reserve deps env (create_budget (dp_turn_config deps) (ce_start env)) req s = (x, s1) }.

Lemma chat_turn_spec user message identity network c s r s' : plain_line c ->
  chat_turn deps env user message identity network c s = (r, s') ->
  grows s s' /\ (forall e, r = Err (RHttp e) -> e ∈ PUBLIC_ERRORS)
  /\ (s' = s
      \/ exists req x s1, turn_run user message identity network c req s s1 x /\ ws_admission s' = ws_admission s1
         /\ (forall e, x = Err e -> ws_turn s' = ws_turn s)
         /\ forall res, x = Ok res -> (ws_turn s').2 = (ws_turn s).2 \/ decision res = ADMITTED).
Proof.
  intros P H. unfold chat_turn in H.
  apply rseq_inv in H as [(e & H & ->)|(req & s0 & H & K)].
  { unfold rlift in H. destruct (build_admission_request _ _ _ _ _); [done|]. injection H as <- ->.
    split_and!; [apply grows_refl|done|by left]. }
  unfold rlift in H. destruct (build_admission_request _ _ _ _ _) as [req'|] eqn:B; [|done]. injection H as <- <-.
  apply rseq_inv in K as [(e & H & ->)|(res & s1 & H & K)]; pose proof (reserve_spec _ _ _ _ _ H) as (Tu & Lo & Nh & _ & Re).
  { split_and!; [by apply grows_same|intros x [= ->]; by destruct (Nh x)|]. right. exists req', (Err e), s'.
    split_and!; [by split|done|done|done]. }
  destruct (Re res eq_refl) as [Xp _].
  enough (grows s s' /\ (forall e, r = Err (RHttp e) -> e ∈ PUBLIC_ERRORS)
    /\ ws_admission s' = ws_admission s1 /\ ((ws_turn s').2 = (ws_turn s).2 \/ decision res = ADMITTED)) as (G & Hp & Ad & De).
  { split_and!; [done|done|]. right. exists req', (Ok res), s1. split_and!; [by split|done|done|by intros ? [= <-]]. }
  assert (grows s s1) as G1 by by apply grows_same.
  apply rseq_inv in K as [(e & M & ->)|(m & s2 & M & K)]; pose proof (turn_mode_spec _ _ _ _ _ P Xp M) as (L2 & Pe & Mo).
  { pose proof (grows_more _ _ _ G1 L2). destruct L2 as (A2 & T2 & _). split_and!; [done|intros x [= ->]; by apply Pe|done|]. left. by rewrite T2, Tu. }
  pose proof (grows_more _ _ _ G1 L2) as G2. destruct L2 as (A2 & T2 & _). specialize (Mo m eq_refl).
  assert (forall s3 : web_state A DB, (m = replay_attempt -> (ws_turn s3).2 = (ws_turn s2).2) -> (ws_turn s3).2 = (ws_turn s).2 \/ decision res = ADMITTED) as De.
  { intros s3 H3. destruct Mo as [[-> _]|[_ Em]]; [by right|left]. by rewrite (H3 Em), T2, Tu. }
  apply rseq_inv in K as [(e & Q & ->)|(turn & s3 & Q & K)]; pose proof (process_turn_spec _ _ _ _ _ _ _ _ _ Q) as (A3 & L3 & N3 & R3).
  { destruct G2 as (lines & E2 & F2). split_and!; [exists lines; by rewrite L3|intros x [= ->]; by destruct (N3 x)|congruence|by apply De]. }
  assert (grows s s3) as G3 by (destruct G2 as (lines & E2 & F2); exists lines; by rewrite L3).
  assert (forall s4, logged_more s3 s4 -> grows s s4 /\ ws_admission s4 = ws_admission s1 /\ ((ws_turn s4).2 = (ws_turn s).2 \/ decision res = ADMITTED)) as Fin.
  { intros s4 L4. pose proof (grows_more _ _ _ G3 L4). destruct L4 as (A4 & T4 & _). split_and!; [done|congruence|]. apply De. by rewrite T4. }
  apply rseq_inv in K as [(e & Q1 & ->)|(? & s4 & Q1 & K)]; apply emit_more in Q1 as [L4 X4].
  { destruct X4 as (y & ->). destruct (Fin _ L4) as (? & ? & ?). by split_and!. }
  apply rseq_inv in K as [(e & Q2 & ->)|(? & s5 & Q2 & [= <- <-])]; apply emit_more in Q2 as [L5 X5];
    destruct (Fin _ (logged_trans _ _ _ L4 L5)) as (? & ? & ?); [destruct X5 as (y & ->)|]; by split_and!.
Qed.

Lemma chat_correlation_plain request identity network c :
  chat_correlation deps env request = Ok (identity, network, c) ->
  RequestIdentity_init request = Ok identity /\ plain_line c.
Proof.
  unfold chat_correlation. destruct (RequestIdentity_init request) as [i|] eqn:R; [|done]. cbn [rbind].
  destruct (compute_turn_correlation _ _) as [c'|] eqn:E; [|done]. intros [= <- <- <-]. split; [done|].
  unfold compute_turn_correlation in E. destruct (unavailable_on_admission_error _); [|done]. cbn [rbind] in E.
  destruct (_validate_secret_bytes _) as [key|]; [|done]. cbn [rbind] in E. destruct (encode_payload _) as [data|]; [|done]. injection E as <-.
  destruct (hmac_shape key (tagged TURN_CORRELATION_DOMAIN data)) as [_ H]. unfold _is_hex in H. rewrite forallb_forall in H.
  apply Forall_forall. intros ch Hc%list_elem_of_In%H. apply bool_decide_eq_true in Hc.
  unfold HEX in Hc. apply list_elem_of_In in Hc. cbn in Hc. apply visible_plain. unfold visible.
  repeat destruct Hc as [<-|Hc]; try by split.
Qed.

(** What a request to the endpoint does to the state, whatever its answer. *)
Lemma chat_endpoint_steps user request message s r s' : chat_endpoint deps env user request message s = (r, s') ->
  public_outcome r /\ grows s s'
  /\ (ws_admission s' = ws_admission s /\ ws_turn s' = ws_turn s
      \/ exists identity network c req x s1, RequestIdentity_init request = Ok identity
         /\ turn_run user message identity network c req s s1 x /\ ws_admission s' = ws_admission s1
         /\ (forall e, x = Err e -> ws_turn s' = ws_turn s)
         /\ forall res, x = Ok res -> (ws_turn s').2 = (ws_turn s).2 \/ decision res = ADMITTED).
Proof.
  unfold chat_endpoint. destruct (chat_correlation deps env request) as [[[identity network] c]|e] eqn:Co.
  2: { intros H. apply chat_handler_public in H as [Po (Ad & Tu & L)]; [|done]. split_and!; [done|done|]. by left. }
  apply chat_correlation_plain in Co as [Ri Pc]. unfold rtry.
  destruct (chat_turn _ _ _ _ _ _ _ _) as [y s1] eqn:E. apply chat_turn_spec in E as (G & Pe & D); [|done].
  assert (forall s2, ws_admission s2 = ws_admission s1 -> ws_turn s2 = ws_turn s1 ->
    ws_admission s2 = ws_admission s /\ ws_turn s2 = ws_turn s
      \/ exists identity network c req x s1, RequestIdentity_init request = Ok identity
         /\ turn_run user message identity network c req s s1 x /\ ws_admission s2 = ws_admission s1
         /\ (forall e, x = Err e -> ws_turn s2 = ws_turn s)
         /\ forall res, x = Ok res -> (ws_turn s2).2 = (ws_turn s).2 \/ decision res = ADMITTED) as Fin.
  { intros s2 Ea Et. destruct D as [->|(req & x & s3 & Tn & Ad & He & De)]; [by left|]. right.
    exists identity, network, c, req, x, s3. rewrite Ea, Et. by split_and!. }
  destruct y as [v|e].
  - intros [= <- <-]. split_and!; [done|done|by apply Fin].
  - intros H. apply chat_handler_public in H as [Po L]; [|intros x [= ->]; by apply Pe].
    split_and!; [done|by eapply grows_more|]. destruct L as (Ea & Et & _). by apply Fin.
Qed.


End Steps.

(** ** The chat endpoint over the admission ledger *)

Section Ledger.
Context {DB : Type} `{FR : FloatRepr, SH : Sha256, LM : Libm, IF : IsoFormat, PT : PyText, UL : UnicodeLower, IP : IpLib, HM : Hmac}.

Lemma decode_reserve_params req p : decode_reserve (rpc_params req) = Some p ->
  q_user p = ar_user_id req /\ q_request p = ar_request_id req /\ q_message p = ar_message_hmac_sha256 req.
Proof.
  unfold decode_reserve. change (dindex (rpc_params req) (u "p_user_id")) with (PStr (ar_user_id req)).
  change (dindex (rpc_params req) (u "p_request_id")) with (PStr (ar_request_id req)).
  change (dindex (rpc_params req) (u "p_message_hmac_sha256")) with (PStr (ar_message_hmac_sha256 req)).
  intros H. apply bind_Some in H as (user & [-> _]%text_arg_inv & H). apply bind_Some in H as (id & [-> _]%uuid_arg_inv & H).
  apply bind_Some in H as (msg & [-> _]%text_arg_inv & H). apply bind_Some in H as (net & _ & H).
  apply bind_Some in H as (units & _ & [= <-]). done.
Qed.

Lemma build_identity user identity message network config req id :
  build_admission_request (PStr user) identity message network config = Ok req -> RequestIdentity_init (PStr identity) = Ok id ->
  ar_user_id req = user /\ ar_request_id req = id.
Proof.
  unfold build_admission_request. destruct (_ || _); [done|]. destruct message; try done. destruct network; try done.
  destruct (negb _); [done|]. intros H Ri.
  destruct (compute_hmac_sha256 _ _ _) as [mh|]; [|done]. cbn [rbind] in H.
  destruct (compute_hmac_sha256 _ NETWORK_HMAC_DOMAIN _) as [nh|]; [|done]. cbn [rbind] in H.
  destruct (estimate_text_units _) as [z|]; [|done]. cbn [rbind] in H. unfold AdmissionRequest_init in H.
  destruct (_ || _); [done|]. rewrite Ri in H. cbn [unavailable_on_admission_error rcatch rbind] in H.
  repeat (destruct (negb _); [done|]). by injection H as <-.
Qed.

(** The decision of an answer of the ledger. *)
Lemma decision_of_rows d res : reply_states (decision_rows d) res -> decision res = d.1.
Proof.
  intros (row & E & _ & D & _). injection E as <-. cbn [decision_rows] in D.
  assert (dget [(KStr (u "decision"), PStr d.1); (KStr (u "retry_after_seconds"), PInt d.2)] (u "decision") = Some (PStr d.1)) as E by reflexivity.
  rewrite E in D. congruence.
Qed.

Definition ledger_deps (deps : @Dependencies (list reservation) DB IP) : Prop :=
  exists bi br now, dp_persistence deps = Some (reserve_rpc bi br now).

(** A reservation the ledger admitted is in it. *)
Lemma reserve_ledger_admitted deps env b req (s s1 : web_state (list reservation) DB) res :
  ledger_deps deps -> reserve deps env b req s = (Ok res, s1) -> decision res = ADMITTED ->
  exists now p, decode_reserve (rpc_params req) = Some p /\ reserve_input_ok p = true
    /\ new_row now p ∈ ws_admission s1 /\ (q_user p, q_request p) ∉ (key_of <$> ws_admission s).
Proof.
  intros (bi & br & now & Dp) Tr Ha. apply reserve_spec in Tr as (_ & _ & _ & _ & Re).
  destruct (Re res eq_refl) as (_ & rpc & payload & Er & Ep & St). rewrite Dp in Er. injection Er as <-. unfold reserve_rpc in Ep.
  destruct (decode_reserve (rpc_params req)) as [p|] eqn:Dd; [|discriminate Ep].
  destruct (reserve_admission bi br now p (ws_admission s)) as [answer rows] eqn:Ra.
  injection Ep as Ean Ero. destruct answer as [d|]; [|discriminate Ean]. injection Ean as <-.
  apply decision_of_rows in St. assert (d = (u "admitted", 0)) as ->.
  { destruct d as [d z]. cbn [fst] in St. rewrite Ha in St. subst d. f_equal.
    clear -Ra. pose proof (reserve_decision_known bi br now p (ws_admission s)) as K. rewrite Ra in K. cbn [fst] in K. by injection K. }
  apply reserve_admitted in Ra as (V & Hin & Fr). exists now, p. rewrite <- Ero. by split_and!.
Qed.

(** A request that reached the model was admitted in this very call. *)
Lemma chat_asked deps env user request message s r s' id : ledger_deps deps -> RequestIdentity_init request = Ok id ->
  chat_endpoint deps env (PStr user) request message s = (r, s') ->
  (ws_turn s').2 = (ws_turn s).2 \/
  (user, id) ∉ (key_of <$> ws_admission s) /\ exists row, row ∈ ws_admission s' /\ key_of row = (user, id).
Proof.
  intros Ld Ri H. apply chat_endpoint_steps in H as (_ & _ & [[_ ->]|H]); [by left|].
  destruct H as (identity & network & c & req & x & s1 & Ri' & [Tb Tr] & Ad & He & De).
  rewrite Ri in Ri'. injection Ri' as <-. destruct x as [res|e]; [|left; by rewrite (He e eq_refl)].
  destruct (De res eq_refl) as [->|Ha]; [by left|right].
  destruct (reserve_ledger_admitted _ _ _ _ _ _ _ Ld Tr Ha) as (now & p & Dd & _ & Hin & Fr).
  apply decode_reserve_params in Dd as (Qu & Qr & _).
  destruct (build_identity _ _ _ _ _ _ id Tb (RequestIdentity_fixed request id Ri)) as [Bu Bi].
  rewrite Qu, Qr, Bu, Bi in Fr. split; [done|].
  exists (new_row now p). rewrite Ad. split; [done|]. unfold key_of, new_row. cbn. by rewrite Qu, Qr, Bu, Bi.
Qed.

(** A request whose id the ledger knows asks the model nothing. *)
Lemma chat_known deps env user request message s r s' id row : ledger_deps deps -> RequestIdentity_init request = Ok id ->
  NoDup (key_of <$> ws_admission s) -> row ∈ ws_admission s -> key_of row = (user, id) ->
  chat_endpoint deps env (PStr user) request message s = (r, s') ->
  (ws_turn s').2 = (ws_turn s).2 /\ ws_admission s' = ws_admission s.
Proof.
  intros Ld Ri Nd Hin Ek H. split.
  - destruct (chat_asked _ _ _ _ _ _ _ _ _ Ld Ri H) as [|[Fr _]]; [done|]. destruct Fr. rewrite <- Ek. by apply list_elem_of_fmap_2.
  - destruct Ld as (bi & br & now & Dp). apply chat_endpoint_steps in H as (_ & _ & [[Ea _]|H]); [done|].
    destruct H as (identity & network & c & req & x & s1 & Ri' & [Tb Tr] & Ad & _).
    rewrite Ri in Ri'. injection Ri' as <-. rewrite Ad. apply reserve_spec in Tr as (_ & _ & _ & [->|(rpc & Er & ->)] & _); [done|].
    rewrite Dp in Er. injection Er as <-. unfold reserve_rpc.
    destruct (decode_reserve (rpc_params req)) as [p|] eqn:Dd; [|done]. apply decode_reserve_params in Dd as (Qu & Qr & _).
    destruct (build_identity _ _ _ _ _ _ id Tb (RequestIdentity_fixed request id Ri)) as [Bu Bi].
    destruct (reserve_input_ok p) eqn:V; [|unfold reserve_admission; by rewrite V].
    rewrite (reserve_known bi br now p (ws_admission s) row); [done..| |done]. by rewrite Ek, Qu, Qr, Bu, Bi.
Qed.

(** C8. The model is asked for a request once.  When a request reached the model, the
    ledger admitted it in that very call and holds its reservation; as long as the
    reservation stays, every later request of the user with that identifier, with
    whatever message, over whatever network and whatever happens around it, asks
    the model nothing, commits nothing and leaves the ledger as it is. *)
Theorem chat_asks_once deps env user request message s r s' id :
  ledger_deps deps -> RequestIdentity_init request = Ok id ->
  chat_endpoint deps env (PStr user) request message s = (r, s') -> (ws_turn s').2 <> (ws_turn s).2 ->
  (user, id) ∉ (key_of <$> ws_admission s)
  /\ exists row, row ∈ ws_admission s' /\ key_of row = (user, id)
     /\ forall deps2 env2 request2 message2 s2 r2 s2', ledger_deps deps2 -> RequestIdentity_init request2 = Ok id ->
          ledger_wf (ws_admission s2) -> row ∈ ws_admission s2 ->
          chat_endpoint deps2 env2 (PStr user) request2 message2 s2 = (r2, s2') ->
          (ws_turn s2').2 = (ws_turn s2).2 /\ ws_admission s2' = ws_admission s2.
Proof.
  intros Ld Ri H N. destruct (chat_asked _ _ _ _ _ _ _ _ _ Ld Ri H) as [E|[Fr (row & Hin & Ek)]]; [by destruct N|].
  split; [done|]. exists row. split_and!; [done..|]. intros deps2 env2 request2 message2 s2 r2 s2' Ld2 Ri2 Wf Hin2 H2.
  by eapply chat_known; [..|exact H2]; [|done|apply Wf|..].
Qed.

(** ** A retry of an answered request *)

(** How a request is answered. *)
Lemma chat_ok_inv (deps : @Dependencies (list reservation) DB IP) env user request message s resp s' :
  chat_endpoint deps env user request message s = (Ok resp, s') ->
  let budget := create_budget (dp_turn_config deps) (ce_start env) in
  exists identity network c req res s1 m turn,
    chat_correlation deps env request = Ok (identity, network, c)
    /\ build_admission_request user identity (PStr message) (PStr network) (dp_admission_config deps) = Ok req
    /\ reserve deps env budget req s = (Ok res, s1)
    /\ (decision res = ADMITTED /\ m = normal \/ decision res = REQUEST_REPLAY_UNAVAILABLE /\ m = replay_attempt)
    /\ ProcessTurnInput_init (ar_user_id req) identity message budget (PStr c) m
         = Ok (mkProcessTurnInput (ar_user_id req) identity message budget c m)
    /\ execute (dp_supabase deps) (dp_process deps) (ce_turn env) (mkProcessTurnInput (ar_user_id req) identity message budget c m)
         (ws_turn s) = (Ok turn, ws_turn s')
    /\ ws_admission s' = ws_admission s1
    /\ resp = mkChatResponse (pr_response turn) (pr_emotion_state turn).
Proof.
  intros H budget. unfold chat_endpoint in H.
  destruct (chat_correlation deps env request) as [[[identity network] c]|e] eqn:Co.
  2: { exfalso. clear -H. destruct e; cbn [chat_handler] in H; unfold fail_turn, rseq in H; repeat case_match; simplify_eq. }
  pose proof (chat_correlation_plain deps env _ _ _ _ Co) as [_ Pc]. unfold rtry in H.
  destruct (chat_turn _ _ _ _ _ _ _ _) as [[v|e] s0] eqn:E.
  2: { exfalso. clear -H. unfold chat_handler, fail_turn, rseq in H. repeat case_match; simplify_eq. }
  injection H as -> ->. unfold chat_turn in E. fold budget in E.
  apply rseq_inv in E as [(e & _ & [=])|(req & sa & H & E)]. unfold rlift in H.
  destruct (build_admission_request _ _ _ _ _) as [req'|] eqn:B; [|done]. injection H as <- <-.
  apply rseq_inv in E as [(e & _ & [=])|(res & s1 & R & E)].
  pose proof (reserve_spec deps env _ _ _ _ _ R) as (Tu & _ & _ & _ & Re). destruct (Re res eq_refl) as [Xp _].
  apply rseq_inv in E as [(e & _ & [=])|(m & s2 & M & E)].
  apply (turn_mode_spec c res s1 (Ok m) s2 Pc Xp) in M as ((A2 & T2 & _) & _ & Mo). specialize (Mo m eq_refl).
  apply rseq_inv in E as [(e & _ & [=])|(turn & s3 & Q & E)].
  apply rseq_inv in E as [(e & _ & [=])|(? & s4 & ((A4 & T4 & _) & _)%emit_more & E)].
  apply rseq_inv in E as [(e & _ & [=])|(? & s5 & ((A5 & T5 & _) & _)%emit_more & [= <- <-])].
  unfold process_turn in Q. destruct (ce_lock env); [|done..].
  destruct (ProcessTurnInput_init _ _ _ _ _ _) as [inp|] eqn:I; [|done].
  assert (inp = mkProcessTurnInput (ar_user_id req') identity message budget c m) as ->.
  { unfold ProcessTurnInput_init in I. destruct (_ && _); [|done]. by injection I as <-. }
  destruct (execute _ _ _ _ _) as [[t|] t'] eqn:X in Q; [|done]. injection Q as -> <-. cbn [ws_admission ws_turn] in A4, T4.
  exists identity, network, c, req', res, s1, m, turn. rewrite T5, T4, A5, A4, A2. rewrite T2, Tu in X. by split_and!.
Qed.

End Ledger.

Section Retry.
Context `{FT : FloatText, SH : Sha256, JB : Jsonb, LM : Libm, IF : IsoFormat, PT : PyText, UL : UnicodeLower, IP : IpLib, HM : Hmac}.
Implicit Types (deps : @Dependencies (list reservation) web_db IP).

(** The parts answer: there is time, nothing is interrupted or lost. *)
Record answers deps (env : @chat_env web_db) (net : network) (n : nat) : Prop := {
  an_time : (remaining (create_budget (dp_turn_config deps) (ce_start env)) (ce_admission_now env) <=? 0)%float = false;
  an_calm : ce_interrupted env = false;
  an_lock : ce_lock env = LockAcquired;
  an_duration : isfinite (ce_duration_ms env) = true;
  an_delivered : n_transport net n = Delivered;
  an_read : w_read (ce_turn env) 1 at_load = ReadCompletes;
  an_starts : read_starts (create_budget (dp_turn_config deps) (ce_start env)) (w_monotonic (ce_turn env) 1 at_load)
                (pc_supabase_timeout (dp_process deps)) = true }.

Lemma reserve_replays deps env bi br now req p row (s : web_state (list reservation) web_db) :
  dp_persistence deps = Some (reserve_rpc bi br now) -> decode_reserve (rpc_params req) = Some p -> reserve_input_ok p = true ->
  NoDup (key_of <$> ws_admission s) -> row ∈ ws_admission s -> key_of row = (q_user p, q_request p) -> rv_message row = q_message p ->
  (remaining (create_budget (dp_turn_config deps) (ce_start env)) (ce_admission_now env) <=? 0)%float = false -> ce_interrupted env = false ->
  reserve deps env (create_budget (dp_turn_config deps) (ce_start env)) req s
    = (Ok (mkAdmissionResult REQUEST_REPLAY_UNAVAILABLE 0), s).
Proof.
  intros Dp Dd V Nd Hin Ek Em Ti Ca. unfold reserve. rewrite Ti, Dp.
  assert (reserve_rpc bi br now (rpc_params req) (ws_admission s)
    = (Some (decision_rows (REQUEST_REPLAY_UNAVAILABLE, 0)), ws_admission s)) as ->.
  { unfold reserve_rpc. rewrite Dd, (reserve_known bi br now p _ row) by done. unfold known_request. rewrite Em.
    by rewrite (proj2 (str_eqb_eq _ _) eq_refl). }
  cbn [reserve_admission_sync].
  replace (parse_admission_result (decision_rows (REQUEST_REPLAY_UNAVAILABLE, 0)))
    with (@Ok admission_exn AdmissionResult (mkAdmissionResult REQUEST_REPLAY_UNAVAILABLE 0)) by reflexivity.
  unfold run_blocking_write. rewrite Ti, Ca. cbn [write_result]. by destruct s.
Qed.

(** A request in replay mode whose turn gives [turn] is answered with it. *)
Lemma chat_replay_answer deps env user request message identity network c req turn t (s : web_state (list reservation) web_db) :
  let budget := create_budget (dp_turn_config deps) (ce_start env) in
  chat_correlation deps env request = Ok (identity, network, c) ->
  build_admission_request user identity (PStr message) (PStr network) (dp_admission_config deps) = Ok req ->
  reserve deps env budget req s = (Ok (mkAdmissionResult REQUEST_REPLAY_UNAVAILABLE 0), s) ->
  ce_lock env = LockAcquired -> isfinite (ce_duration_ms env) = true ->
  ProcessTurnInput_init (ar_user_id req) identity message budget (PStr c) replay_attempt
    = Ok (mkProcessTurnInput (ar_user_id req) identity message budget c replay_attempt) ->
  execute (dp_supabase deps) (dp_process deps) (ce_turn env)
    (mkProcessTurnInput (ar_user_id req) identity message budget c replay_attempt) (ws_turn s) = (Ok turn, t) ->
  exists log, chat_endpoint deps env user request message s
    = (Ok (mkChatResponse (pr_response turn) (pr_emotion_state turn)), mkWebState (ws_admission s) t log).
Proof.
  intros budget Co B R Lk Du I X. unfold chat_endpoint. rewrite Co. unfold rtry, chat_turn. fold budget.
  unfold rseq at 1, rlift. rewrite B. unfold rseq at 1. rewrite R.
  set (s1 := (log_line (u "event=admission_replay correlation=" ++ c) s).2).
  assert (turn_mode c (mkAdmissionResult REQUEST_REPLAY_UNAVAILABLE 0) s = (Ok replay_attempt, s1)) as M by reflexivity.
  unfold rseq at 1. rewrite M. unfold rseq at 1, process_turn. rewrite Lk, I.
  change (ws_turn s1) with (ws_turn s). rewrite X.
  set (s2 := mkWebState (ws_admission s1) t (ws_log s1)).
  destruct (emit_ok EVENT_TURN_COMPLETED [(u "code", PStr (u "ok")); (u "duration_ms", PFloat (ce_duration_ms env));
    (u "mode", PStr (mode_value replay_attempt)); (u "correlation", PStr c)] s2 eq_refl) as (s3 & E3 & (A3 & T3 & _)).
  { unfold emittable. cbn [forallb snd renderable]. rewrite Du. reflexivity. }
  destruct (emit_ok EVENT_HTTP_RESULT [(u "code", PInt 200); (u "correlation", PStr c)] s3 eq_refl eq_refl) as (s4 & E4 & (A4 & T4 & _)).
  exists (ws_log s4). unfold rseq at 1. rewrite E3. unfold rseq at 1. rewrite E4. unfold rret. f_equal.
  destruct s4 as [a4 t4 l4]. cbn in *. congruence.
Qed.

(** The message ids the turns store are the texts of [uuid4()]. *)
Definition stored_message_ids (db : turn_db) : Prop := forall key row d m, d_requests db !! key = Some row ->
  tr_replay_payload row = PDict d -> dget d (u "message_id") = Some (PStr m) -> is_uuid m = true.

Lemma stored_message_id (user request : pystr) db row v t :
  d_requests db !! (user, request) = Some row -> commit_turn_build_result user request db = Some v ->
  parse_commit_turn_result v = Ok t -> stored_message_ids db -> is_uuid (ct_assistant_message_id t) = true.
Proof.
  intros Hr Hb Hp Ids. apply parse_result_inv in Hp as (_ & d & Hd & _ & _ & _ & _ & _ & _ & _ & replay & response & Dp & Ro & Dm).
  unfold commit_turn_build_result in Hb. rewrite Hr in Hb. cbn [mbind option_bind] in Hb. injection Hb as <-.
  cbn [as_mapping] in Hd. injection Hd as <-.
  match type of Dp with dindex ?l _ = _ =>
    change (dindex l (u "replay_payload")) with (match tr_replay_payload row with PNone => PDict [] | v => v end) in Dp end.
  assert (tr_replay_payload row = PDict replay) as E.
  { destruct (tr_replay_payload row); try done. injection Dp as <-. by apply ro_response in Ro. }
  by eapply Ids.
Qed.

(** C9. A client may repeat a request that was answered.  After a request was admitted,
    computed and answered, and as long as its reservation and its stored turn stay,
    the same request of the same client, when the parts answer, gets the same
    answer; nothing is asked of the model, nothing is written, and only the call of
    the replay function is counted. *)
Theorem chat_retry_same_answer deps (env : @chat_env web_db) net user request message (s : web_state (list reservation) web_db) resp s' :
  dp_supabase deps = web_client net -> ledger_deps deps -> (forall k p x, evolves x.1 (w_others (ce_turn env) k p x).1) ->
  chat_endpoint deps env (PStr user) request message s = (Ok resp, s') -> (ws_turn s').2 <> (ws_turn s).2 ->
  exists id row, RequestIdentity_init request = Ok id /\ row ∈ ws_admission s' /\ key_of row = (user, id)
    /\ (forall deps2 (env2 : @chat_env web_db) net2 (s2 : web_state (list reservation) web_db), dp_supabase deps2 = web_client net2 -> ledger_deps deps2 ->
          dp_admission_config deps2 = dp_admission_config deps ->
          ce_peer_host env2 = ce_peer_host env -> ce_forwarded_for env2 = ce_forwarded_for env ->
          answers deps2 env2 net2 (ws_turn s2).1.2 -> ledger_wf (ws_admission s2) -> row ∈ ws_admission s2 ->
          table_checks (ws_turn s2).1.1 -> stored_message_ids (ws_turn s2).1.1 ->
          d_requests (ws_turn s2).1.1 !! (user, id) = d_requests (ws_turn s').1.1 !! (user, id) ->
          exists log, chat_endpoint deps2 env2 (PStr user) request message s2
            = (Ok resp, mkWebState (ws_admission s2) (((ws_turn s2).1.1, S (ws_turn s2).1.2), (ws_turn s2).2) log)).
Proof.
  intros Sb Ld Ev H N. apply chat_ok_inv in H as (id & network & c & req & res & s1 & m & turn & Co & B & R & Mo & I & X & Ad & ->).
  pose proof (chat_correlation_plain deps env _ _ _ _ Co) as [Ri _].
  destruct (build_identity _ _ _ _ _ _ id B (RequestIdentity_fixed request id Ri)) as [Bu Bi].
  assert (m = normal /\ decision res = ADMITTED) as [-> Ha].
  { destruct Mo as [[? ->]|[_ ->]]; [done|]. destruct N.
    assert (process_turn deps (mkChatEnv PNone PNone 0 0 false LockAcquired 0 (ce_turn env)) (ar_user_id req) message id
      (create_budget (dp_turn_config deps) (ce_start env)) replay_attempt c (mkWebState (ws_admission s) (ws_turn s) [])
      = (Ok turn, mkWebState (ws_admission s) (ws_turn s') [])) as Q.
    { unfold process_turn. cbn [ce_lock ce_turn ws_turn ws_admission ws_log].
      unfold ProcessTurnInput_init in I |- *. destruct (_ && _); [|done]. by rewrite X. }
    apply process_turn_spec in Q as (_ & _ & _ & Q). by apply Q. }
  destruct (reserve_ledger_admitted _ _ _ _ _ _ _ Ld R Ha) as (now & p & Dd & V & Hin & _).
  pose proof (decode_reserve_params _ _ Dd) as (Qu & Qr & _).
  assert (key_of (new_row now p) = (user, id)) as Ek by (unfold key_of, new_row; cbn; by rewrite Qu, Qr, Bu, Bi).
  exists id, (new_row now p). rewrite Ad. split_and!; [done..|].
  intros deps2 env2 net2 s2 Sb2 (bi2 & br2 & now2 & Dp2) Cf Eh Ef [Ti Ca Lk Du De Re St] Wf Hin2 Tc Ids Kept.
  rewrite Sb in X. apply (execute_stored net _ _ evolves) in X as [(row & v & Hr & Hs & Hb & Hp & Nu & Tu & Tr) Ep]; [|done..].
  cbn [in_user_id in_request_id] in *. rewrite Bu in *.
  destruct (ws_turn s2) as [[db n] log] eqn:Es. cbn [fst snd] in *.
  eapply (chat_replay_answer deps2 env2 (PStr user) request message id network c req turn _ s2).
  - rewrite <- Co. unfold chat_correlation. by rewrite Cf, Eh, Ef.
  - by rewrite Cf.
  - apply (reserve_replays deps2 env2 bi2 br2 now2 req p (new_row now p) s2); try done. apply Wf.
  - done.
  - done.
  - unfold ProcessTurnInput_init in I |- *. destruct (_ && _); [|done]. by rewrite Bu.
  - assert (forall d1 d2 : turn_db, d_requests d1 !! (user, id : pystr) = d_requests d2 !! (user, id : pystr) ->
      commit_turn_build_result user id d1 = commit_turn_build_result user id d2) as Same
      by (intros d1 d2 E; unfold commit_turn_build_result; by rewrite E).
    pose proof (eq_trans Kept Hr) as Hr2. pose proof (eq_trans (Same _ _ Kept) Hb) as Hb2.
    rewrite Sb2, <- Ep, Es. apply replay_reports; try done; [|by eapply stored_message_id].
    exists row, v. cbn [in_user_id in_request_id]. rewrite Bu. by split_and!.
Qed.

End Retry.

(** ** Authentication *)

Section AuthTheorems.
Context {A DB : Type} `{UL : UnicodeLower, IP : IpLib, HM : Hmac}.

Definition AUTH_ERRORS : list http_error :=
  [not_authenticated; authentication_failed; authentication_unavailable; service_unavailable].

Lemma auth_refused_spec duration c answer (s : web_state A DB) (r : result request_exn pyval) s' :
  isfinite (duration 1%nat) = true -> auth_refused duration c answer s = (r, s') ->
  (exists e, r = Err (RHttp e) /\ e ∈ AUTH_ERRORS) /\ logged_more s s'.
Proof.
  intros F. assert (forall code e, e ∈ AUTH_ERRORS -> (auth_failed_event duration c 1 code ;;; rraise (RHttp e)) s = (r, s') ->
    (exists e, r = Err (RHttp e) /\ e ∈ AUTH_ERRORS) /\ logged_more s s') as K.
  { intros code e He H. unfold rseq, auth_failed_event in H.
    destruct (emit_ok EVENT_AUTH_FAILED [(u "code", PStr code); (u "duration_ms", PFloat (duration 1%nat)); (u "correlation", opt_text c)] s eq_refl)
      as (s1 & E & L).
    { unfold emittable. cbn [forallb snd renderable]. rewrite F. by destruct c. }
    rewrite E in H. injection H as <- <-. split; [by exists e|done]. }
  unfold auth_refused. destruct answer; try (apply K; vm_compute; set_solver).
  destruct (_ || _ || _); apply K; vm_compute; set_solver.
Qed.

(** C30. Authentication fails closed.  A request is given a user only when the auth
    client returned that user for its very token; whatever else happens, an absent
    token, an absent or failing client, or a logging failure at any clock, it is
    answered with one of four constants, 401 or 503. *)
Theorem auth_fails_closed (app : app_state auth_deps) duration c credentials (s : web_state A DB) r s' :
  isfinite (duration 1%nat) = true -> (credentials = None -> isfinite (duration 0%nat) = true) ->
  get_current_user app duration c credentials s = (r, s') ->
  match r with
  | Ok id => exists token deps client, credentials = Some token /\ app_dependencies app = Some deps
      /\ app_lifespan_started app = true /\ ad_client deps = Some client /\ client token = AuthUser id
  | Err e => exists x, e = RHttp x /\ x ∈ AUTH_ERRORS
  end.
Proof.
  intros F1 F0 H. unfold get_current_user in H. destruct credentials as [token|].
  2: { specialize (F0 eq_refl). unfold rseq, auth_failed_event in H.
       destruct (emit_ok EVENT_AUTH_FAILED [(u "code", PStr (u "missing_credentials")); (u "duration_ms", PFloat (duration 0%nat));
         (u "correlation", opt_text c)] s eq_refl) as (s1 & E & _).
       { unfold emittable. cbn [forallb snd renderable]. rewrite F0. by destruct c. }
       rewrite E in H. injection H as <- <-. exists not_authenticated. split; [done|]. by apply elem_of_cons; left. }
  unfold rseq at 1, rlift, get_dependencies in H. destruct (app_dependencies app) as [deps|] eqn:Da; [destruct (app_lifespan_started app) eqn:Ls|].
  2,3: injection H as <- <-; exists service_unavailable; split; [done|vm_compute; set_solver].
  unfold rtry in H.
  assert (forall x, x = RHttp authentication_unavailable \/ x = RHttp authentication_failed -> exists y, x = RHttp y /\ y ∈ AUTH_ERRORS) as K.
  { intros x [->| ->]; eexists; (split; [reflexivity|vm_compute; set_solver]). }
  assert (forall answer s0, auth_refused duration c answer s0 = (r, s') -> exists x, r = Err (RHttp x) /\ x ∈ AUTH_ERRORS) as Rf.
  { intros answer s0 E. apply auth_refused_spec in E as [E _]; done. }
  destruct (rseq _ _ s) as [y s1] eqn:E in H. apply rseq_inv in E as [(e & E & ->)|(v & s2 & E & E2)].
  - unfold authenticate in E. assert (e = RHttp authentication_unavailable \/ e = RHttp authentication_failed \/ exists x, e = REvent x) as Ce.
    { destruct (ad_client deps) as [get_user|]; [destruct (get_user token)|]; try discriminate E;
        apply rseq_inv in E as [(e' & (_ & (x & ->))%emit_more & [= ->])|(? & ? & _ & E)]; try discriminate E; try (injection E as <- _); eauto. }
    destruct Ce as [->|[->|[x ->]]].
    + injection H as <- <-. eexists. split; [reflexivity|vm_compute; set_solver].
    + injection H as <- <-. eexists. split; [reflexivity|vm_compute; set_solver].
    + apply Rf in H as (x' & -> & Hx). by exists x'.
  - destruct v as [answer|id].
    + destruct y as [id|e]; [exfalso|].
      * apply auth_refused_spec in E2 as [(e & [=] & _) _]; done.
      * apply auth_refused_spec in E2 as [(e' & [= ->] & He) _]; [|done]. injection H as <- <-. by exists e'.
    + injection E2 as <- <-. injection H as <- <-. unfold authenticate in E.
      destruct (ad_client deps) as [get_user|] eqn:Cl; [destruct (get_user token) eqn:G|]; try discriminate E;
        apply rseq_inv in E as [(e' & _ & [=])|(? & ? & _ & E)]; try discriminate E.
      injection E as <- _. by exists token, deps, get_user.
Qed.
End AuthTheorems.

(** ** The privacy endpoints *)

Definition PRIVACY_ERRORS : list http_error :=
  [service_unavailable; mkHttpError 409 _PRIVACY_CONFLICT_DETAIL []; mkHttpError 503 _PRIVACY_PERSISTENCE_DETAIL [];
   mkHttpError 500 _PRIVACY_INTERNAL_DETAIL []].

(** The answer of a privacy endpoint is the result of the operation or one of four
    constants, and every event it logs is one that can be emitted. *)
Lemma privacy_endpoint_public {DB} `{FR : FloatRepr, SH : Sha256, PT : PyText} started (service : option (option (pystr -> pydict -> DB -> option pyval * DB)))
    config env operation user id db r events db' :
  _run_privacy_action started service config env operation user id db = (r, events, db') ->
  match r with
  | Ok v => exists client, service = Some client /\ privacy_action client config env operation user (PStr id) db = (Ok v, db')
  | Err (ActionHttp e) => e ∈ PRIVACY_ERRORS
  | Err ActionBase => True
  end /\ Forall (fun ev => str_in ev.1 EVENT_NAMES = true /\ emittable ev.2 = true) events.
Proof.
  unfold _run_privacy_action. assert (service_unavailable ∈ PRIVACY_ERRORS) as Su by (by apply elem_of_cons; left).
  destruct started; [|intros [= <- <- <-]; split; [done|by apply Forall_nil]].
  destruct service as [client|]; [|intros [= <- <- <-]; split; [done|by apply Forall_nil]]. cbn [negb].
  destruct (privacy_action _ _ _ _ _ _ _) as [[v|e] db1] eqn:E.
  - intros [= <- <- <-]. split; [by exists client|]. by apply Forall_singleton.
  - assert (mkHttpError 409 _PRIVACY_CONFLICT_DETAIL [] ∈ PRIVACY_ERRORS /\ mkHttpError 503 _PRIVACY_PERSISTENCE_DETAIL [] ∈ PRIVACY_ERRORS
      /\ mkHttpError 500 _PRIVACY_INTERNAL_DETAIL [] ∈ PRIVACY_ERRORS) as (P1 & P2 & P3) by (rewrite !list_elem_of_In; cbn; tauto).
    destruct e; cbn [privacy_refused]; [destruct (str_eqb _ _)|..]; intros [= <- <- <-]; (split; [done|]);
      repeat (apply Forall_cons; split; [by split|]); by apply Forall_nil.
Qed.

(** The branch of [_map_turn_error] for a missing configuration is never taken:
    the configuration error is a language model error, so it is reported with the
    code of an invalid request. *)
Lemma configuration_reported_as_invalid_request :
  _map_turn_error (PProvider TConfiguration) = turn_code_error provider_invalid_request
  /\ _map_turn_error (PProvider TConfiguration)
     <> mkHttpError 503 (detail (code_value provider_unavailable) (u "Provider request failed.")) [].
Proof. split; [reflexivity|]. intros E. vm_compute in E. discriminate E. Qed.

(** ** A request, concretely *)

Section Samples.
#[local] Existing Instances flat_repr flat_text zero_sha plain_jsonb coarse_pow iso_basic pointwise_lower ipv4 flat_hmac.

#[local] Instance sample_py_text : PyText.
Proof. by refine {| str_of := fun v => match v with PStr s => s | _ => [] end; float_of_str := fun _ => None; int_of_str := fun _ => None |}. Defined.

Definition sample_limits : TurnExecutionConfig :=
  mkTurnExecutionConfig (NFloat 45) (NFloat 3) (NFloat 15) (NFloat 5) (NFloat 10) 2 (NFloat 0.25) (NFloat 0.75) (NFloat 0.1) 50000.

Definition sample_deps : @Dependencies (list reservation) web_db ipv4 :=
  mkDependencies (web_client sample_net) (Some (reserve_rpc id id 5000000)) (mkAdmissionRuntimeConfig sample_secret [])
    sample_limits sample_turn_config.

Definition sample_chat_env : @chat_env web_db :=
  mkChatEnv (PStr (u "198.51.100.4")) PNone 0 1 false LockAcquired 12.5 (sample_surroundings calm_others).

Definition sample_request : pystr := u "7D444840-9dc0-41d1-b245-5ffdce74fad2".

Definition sample_chat (s : web_state (list reservation) web_db) : result request_exn ChatResponse * web_state (list reservation) web_db :=
  chat_endpoint sample_deps sample_chat_env (PStr (u "ana")) (PStr sample_request) (u "oi, tudo bem?") s.

Definition sample_web : web_state (list reservation) web_db := mkWebState [] ((profile_db, 0%nat), []) [].

Lemma sample_chat_answered : is_ok (sample_chat sample_web).1 = true.
Proof. vm_compute. reflexivity. Qed.
(** The state after it; the same request again. *)
Definition answered_web : web_state (list reservation) web_db := (sample_chat sample_web).2.

Lemma sample_chat_asked : (ws_turn answered_web).2 <> (ws_turn sample_web).2.
Proof.
  intros E. apply (f_equal length) in E.
  assert (length (ws_turn answered_web).2 = 3%nat) as L by (vm_compute; reflexivity). rewrite L in E. discriminate E.
Qed.

Lemma sample_identity : RequestIdentity_init (PStr sample_request) = Ok (u "7d444840-9dc0-41d1-b245-5ffdce74fad2").
Proof. vm_compute. reflexivity. Qed.

Lemma sample_ledger_deps : ledger_deps sample_deps.
Proof. by exists id, id, 5000000. Qed.

Lemma chat_ledger_wf deps env user request message (s : web_state (list reservation) web_db) now :
  dp_persistence deps = Some (reserve_rpc id id now) -> ledger_wf (ws_admission s) ->
  ledger_wf (ws_admission (chat_endpoint deps env user request message s).2).
Proof.
  intros Dp W. destruct (chat_endpoint _ _ _ _ _ s) as [r s'] eqn:H.
  apply chat_endpoint_steps in H as (_ & _ & [[E _]|(identity & network & c & req & x & s1 & _ & [_ Tr] & E & _)]); cbn [snd]; rewrite E; [done|].
  apply reserve_spec in Tr as (_ & _ & _ & [->|(rpc & Er & ->)] & _); [done|]. rewrite Dp in Er. injection Er as <-.
  unfold reserve_rpc. destruct (decode_reserve _) as [p|]; [|done].
  pose proof (reserve_admission_wf now p (ws_admission s) W) as W'. by destruct (reserve_admission _ _ _ _ _).
Qed.

Lemma answered_ledger_wf : ledger_wf (ws_admission answered_web).
Proof. apply (chat_ledger_wf sample_deps sample_chat_env _ _ _ sample_web 5000000 eq_refl). exact empty_ledger_wf. Qed.


Lemma chat_asks_once_witness :
  (ws_turn (sample_chat answered_web).2).2 = (ws_turn answered_web).2
  /\ ws_admission (sample_chat answered_web).2 = ws_admission answered_web.
Proof.
  destruct (sample_chat sample_web) as [r s'] eqn:E. assert (answered_web = s') as A by (unfold answered_web; by rewrite E).
  destruct (chat_asks_once sample_deps sample_chat_env (u "ana") (PStr sample_request) (u "oi, tudo bem?") sample_web r s'
    (u "7d444840-9dc0-41d1-b245-5ffdce74fad2") sample_ledger_deps sample_identity E
    ltac:(rewrite <- A; exact sample_chat_asked)) as [_ (row & Hin & _ & Later)].
  destruct (sample_chat answered_web) as [r2 s2] eqn:E2. rewrite A in *.
  apply (Later sample_deps sample_chat_env (PStr sample_request) (u "oi, tudo bem?") s' r2 s2 sample_ledger_deps sample_identity).
  - rewrite <- A. exact answered_ledger_wf.
  - exact Hin.
  - exact E2.
Defined.

Lemma answered_rows : forallb (fun kr => match tr_completed_at kr.2, tr_replay_payload kr.2 with
    | Some _, PDict d => match dget d (u "message_id") with Some (PStr m) => is_uuid m | _ => true end
    | _, _ => false end) (map_to_list (d_requests (ws_turn answered_web).1.1)) = true.
Proof. vm_compute. reflexivity. Qed.

Lemma chat_retry_same_answer_witness : exists resp log,
  (sample_chat sample_web).1 = Ok resp
  /\ sample_chat answered_web = (Ok resp, mkWebState (ws_admission answered_web)
       (((ws_turn answered_web).1.1, S (ws_turn answered_web).1.2), (ws_turn answered_web).2) log).
Proof.
  pose proof sample_chat_answered as Ho. destruct (sample_chat sample_web) as [r s'] eqn:E.
  destruct r as [resp|]; [|discriminate Ho]. assert (answered_web = s') as A by (unfold answered_web; by rewrite E).
  destruct (chat_retry_same_answer sample_deps sample_chat_env sample_net (u "ana") (PStr sample_request) (u "oi, tudo bem?") sample_web resp s'
    eq_refl sample_ledger_deps ltac:(intros; reflexivity) E ltac:(rewrite <- A; exact sample_chat_asked))
    as (id & row & Ri & Hin & Ek & Again).
  pose proof answered_rows as Rows. rewrite forallb_forall in Rows. rewrite A in Rows.
  destruct (Again sample_deps sample_chat_env sample_net s' eq_refl sample_ledger_deps eq_refl eq_refl eq_refl) as [log H].
  - split; reflexivity.
  - rewrite <- A. exact answered_ledger_wf.
  - exact Hin.
  - intros key rq Hr _. apply elem_of_map_to_list, list_elem_of_In, Rows in Hr. cbn in Hr.
    destruct (tr_completed_at rq); [eexists; reflexivity|discriminate Hr].
  - intros key rq d m Hr Hd Hm. apply elem_of_map_to_list, list_elem_of_In, Rows in Hr. cbn [snd] in Hr.
    rewrite Hd in Hr. destruct (tr_completed_at rq); [|discriminate Hr]. rewrite Hm in Hr. exact Hr.
  - reflexivity.
  - exists resp, log. split; [reflexivity|]. rewrite A. exact H.
Defined.

Definition sample_app : app_state auth_deps :=
  mkAppState (Some (mkAuthDeps (Some (fun token => if str_eqb token (u "t") then AuthUser (PStr (u "ana")) else AuthNoUser))
    (mkAdmissionRuntimeConfig sample_secret []))) true.

Lemma auth_fails_closed_witness : exists s', get_current_user sample_app (fun _ => 1%float) None (Some (u "t")) sample_web = (Ok (PStr (u "ana")), s')
  /\ exists token deps client, Some (u "t") = Some token /\ app_dependencies sample_app = Some deps
      /\ app_lifespan_started sample_app = true /\ ad_client deps = Some client /\ client token = AuthUser (PStr (u "ana")).
Proof.
  destruct (get_current_user sample_app (fun _ => 1%float) None (Some (u "t")) sample_web) as [r s'] eqn:E.
  assert ((get_current_user sample_app (fun _ => 1%float) None (Some (u "t")) sample_web).1 = Ok (PStr (u "ana"))) as R by (vm_compute; reflexivity).
  rewrite E in R. cbn [fst] in R. subst r. exists s'. split; [reflexivity|].
  exact (auth_fails_closed sample_app (fun _ => 1%float) None (Some (u "t")) sample_web (Ok (PStr (u "ana"))) s' eq_refl (fun _ => eq_refl) E).
Defined.

End Samples.
