(* ===== verification/DesktopApi.v ===== *)
(** * The desktop bridge (backend/desktop/api.py)

    The allowlisted methods the page may call, the validation of their arguments,
    and the facade that turns every outcome into data; below them the public
    payloads of the runtime (companion_runtime.py: [TurnResult.to_payload],
    [send_turn], [load_history], [runtime_state] and the privacy operations).  The
    window controller of desktop/app.py is an argument. *)

From S2P Require Import Prelude PyFloat PyValue Json TrustedContext TurnExecution StorageContracts EmotionalTransition EmotionPresentation.
From S2P Require Import PyDatetime LocalStorage StorageInvariant StorageTheorems StorageProperties CompanionRuntime RuntimeTheorems RuntimeProperties.

Local Open Scope Z_scope.

(** ** Public texts of the runtime *)

Definition code_text (c : LocalErrorCode) : pystr :=
  match c with
  | TIMEOUT => u "timeout"
  | RATE_LIMITED => u "rate_limited"
  | SERVICE_UNAVAILABLE => u "service_unavailable"
  | VALIDATION => u "validation"
  | REQUEST_REPLAY => u "request_replay"
  | REQUEST_CONFLICT => u "request_conflict"
  | CONFIGURATION => u "configuration"
  | STORAGE => u "storage"
  | UNKNOWN => u "unknown"
  end.

(** [_ERROR_MESSAGES]; the letters outside ASCII by their code points. *)
Definition _message_for (c : LocalErrorCode) : pystr :=
  match c with
  | TIMEOUT => u "A requisi" ++ [231; 227]%N ++ u "o excedeu o tempo limite."
  | RATE_LIMITED => u "Muitas requisi" ++ [231; 245]%N ++ u "es. Aguarde um momento e tente novamente."
  | SERVICE_UNAVAILABLE => u "Servi" ++ [231]%N ++ u "o temporariamente indispon" ++ [237]%N ++ u "vel. Tente novamente mais tarde."
  | VALIDATION => u "Dados inv" ++ [225]%N ++ u "lidos enviados."
  | REQUEST_REPLAY => u "Este envio j" ++ [225]%N ++ u " foi recebido, mas a resposta n" ++ [227]%N ++ u "o pode ser recuperada."
  | REQUEST_CONFLICT => u "Este envio n" ++ [227]%N ++ u "o p" ++ [244]%N ++ u "de ser reconciliado. Envie a mensagem novamente."
  | CONFIGURATION => u "O provedor remoto n" ++ [227]%N ++ u "o est" ++ [225]%N ++ u " configurado neste ambiente."
  | STORAGE => u "O armazenamento local n" ++ [227]%N ++ u "o est" ++ [225]%N ++ u " dispon" ++ [237]%N ++ u "vel."
  | UNKNOWN => u "Erro ao falar com a Katherine. Tente novamente."
  end.

(** The constant [MESSAGE] of the error classes of language_model.py. *)
Definition model_message (f : ModelFailure) : pystr :=
  match f with
  | rate_limited => u "Language model is rate limited."
  | auth_failed => u "Language model authentication failed."
  | connection_failed => u "Language model connection failed."
  | server_error => u "Language model server error."
  | invalid_request => u "Language model rejected the request."
  | invalid_response => u "Language model returned an invalid response."
  | model_timeout => u "Language model request timed out."
  end.

Definition message_text (m : public_message) : pystr :=
  match m with
  | MessageFor c => _message_for c
  | ModelMessage f => model_message f
  | NotConfiguredMessage => u "Language model is not configured."
  end.

(** ** Payloads of the runtime *)

Definition field (k : string) (v : pyval) : pykey * pyval := (KStr (u k), v).
Definition of_option {T} (f : T -> pyval) (o : option T) : pyval := match o with Some x => f x | None => PNone end.

Definition error_fields (e : LocalErrorCode * public_message) : pydict :=
  [field "error_code" (PStr (code_text e.1)); field "error_message" (PStr (message_text e.2))].

Definition to_payload (r : TurnResult) : pydict :=
  field "success" (PBool (r_success r)) ::
  (if r_success r then
     [field "response" (of_option id (r_response r)); field "emotion_state" (of_option id (r_emotion_state r));
      field "message_id" (of_option (of_option PStr) (r_message_id r)); field "revision" (of_option PInt (r_revision r));
      field "duration_ms" (of_option PInt (r_duration_ms r)); field "replayed" (PBool (r_replayed r))]
   else match r_error r with
        | Some e => error_fields e
        | None => [field "error_code" PNone; field "error_message" PNone]
        end).

Definition failure_payload (e : LocalErrorCode * public_message) : pydict := field "success" (PBool false) :: error_fields e.

Definition privacy_dict (p : privacy_payload) : pydict :=
  match p with
  | PrivacyApplied v => [field "success" (PBool true); field "result" v]
  | PrivacyFailed code text => failure_payload (code, text)
  end.

Definition state_dict (s : RuntimeState) : pydict :=
  if rs_ok s then
    [field "ok" (PBool true); field "storage" (PBool true); field "provider_configured" (PBool (rs_configured s));
     field "revision" (of_option PInt (rs_revision s))]
  else
    [field "ok" (PBool false); field "storage" (PBool false); field "provider_configured" (PBool (rs_configured s));
     field "error_code" (PStr (code_text STORAGE)); field "error_message" (PStr (_message_for STORAGE))].

(** ** Arguments *)

Definition DESKTOP_API_METHODS : list pystr :=
  [u "health"; u "runtime_state"; u "load_history"; u "send_message"; u "delete_history"; u "delete_memories";
   u "reset_emotional_state"; u "reset_relationship_state"; u "set_presence_mode"; u "set_always_on_top";
   u "window_state"; u "close_window"; u "minimize_window"].

Definition DESKTOP_API_VERSION : Z := 3.

Definition _valid_history_limit (limit : pyval) : bool :=
  match limit with PInt z => (1 <=? z) && (z <=? 500) | _ => false end.

Definition _REQUEST_ID_ALLOWED : pystr := u "abcdefghijklmnopqrstuvwxyzABCDEFGHIJKLMNOPQRSTUVWXYZ0123456789_.:-".

Definition _valid_request_id (request_id : pyval) : bool :=
  match request_id with
  | PStr s => negb (bool_decide (s = [])) && (length s <=? 128)%nat && forallb (fun c => bool_decide (c ∈ _REQUEST_ID_ALLOWED)) s
  | _ => false
  end.

(** C0 control characters but tab, line feed and carriage return. *)
Definition forbidden_control (c : N) : bool := ((c <? 32) && negb ((c =? 9) || (c =? 10) || (c =? 13)))%N.

Definition _valid_message (message : pyval) : bool :=
  match message with
  | PStr s => negb (bool_decide (strip s = [])) && (Z.of_nat (length s) <=? 10000) && negb (existsb forbidden_control s)
  | _ => false
  end.

(** ** The implementation *)

(** What a method raises: [DesktopApiError], another [Exception], or an interrupt. *)
Inductive api_exn : Type :=
| DesktopApiError (code message : pystr)
| ApiException
| ApiInterrupt.

Definition invalid_input (message : string) : api_exn := DesktopApiError (u "invalid_input") (u message).

Inductive window_call : Type :=
| SetPresenceMode (b : bool)
| SetAlwaysOnTop (b : bool)
| WindowState
| CloseWindow
| MinimizeWindow.

Section Api.
Context `{FR : FloatRepr, SH : Sha256, LM : Libm, IF : IsoFormat, PT : PyText} {WS : Type}.

(** What surrounds a call: the turn's surroundings, the readiness probe, the clock
    of a reset (read once or twice), and the history window of a turn. *)
Record bridge_env : Type := mkBridgeEnv {
  be_turn : surroundings;
  be_probe : option (result turn_exn bool);
  be_now : float;
  be_now' : float;
  be_history_limit : Z }.

(** The window controller: an answer, or an exception ([true] for an interrupt). *)
Definition controller : Type := window_call -> WS -> result bool pyval * WS.

Context (has_runtime : bool) (window : option controller) (env : bridge_env).

Definition bridge_state : Type := runtime * WS.
Definition B (T : Type) : Type := bridge_state -> result api_exn T * bridge_state.

Definition bret {T} (v : T) : B T := fun s => (Ok v, s).
Definition braise {T} (e : api_exn) : B T := fun s => (Err e, s).
Definition bbind {T U} (c : B T) (k : T -> B U) : B U := fun s =>
  match c s with (Ok v, s') => k v s' | (Err e, s') => (Err e, s') end.

(** A call of the runtime, after [_require_runtime]. *)
Definition call_runtime {T} (c : R T) : B T := fun s =>
  if negb has_runtime then (Err (DesktopApiError (u "internal_error") (u "The desktop runtime is not available.")), s) else
  let '(r, rt) := c s.1 in
  (match r with Ok v => Ok v | Err e => Err (if is_base_only e then ApiInterrupt else ApiException) end, (rt, s.2)).

Definition call_window (c : window_call) : B pydict := fun s =>
  match window with
  | None => (Err (DesktopApiError (u "window_unavailable") (u "The window controller is not available.")), s)
  | Some ctl =>
      let '(r, w) := ctl c s.2 in
      (match r with
       | Ok (PDict d) => Ok d
       | Ok _ => Err (DesktopApiError (u "internal_error") (u "Unexpected bridge response."))
       | Err interrupt => Err (if interrupt : bool then ApiInterrupt else ApiException)
       end, (s.1, w))
  end.

(** [CompanionRuntime.send_turn]: [asyncio.run] of the turn, and its payload. *)
Definition send_turn (request_id message : pyval) : R pydict :=
  try_all (CompanionRuntime.bind (commit_turn_async (be_history_limit env) (be_turn env) request_id message) (fun r => CompanionRuntime.ret (to_payload r)))
    (fun e => match e with
              | TLocal code => CompanionRuntime.ret (failure_payload (code, MessageFor code))
              | e => CompanionRuntime.raise e
              end).

(** [CompanionRuntime.load_history]. *)
Definition runtime_history (limit : Z) : R pyval :=
  CompanionRuntime.bind (storage (load_recent_history (PInt limit)))
    (fun rows => CompanionRuntime.ret (PList (map (fun r => PDict (row_dict r)) rows))).

Definition health (args : list pyval) : B pydict :=
  match args with
  | [] => bret [field "ok" (PBool true); field "api_version" (PInt DESKTOP_API_VERSION)]
  | _ => braise (invalid_input "health() takes no arguments.")
  end.

Definition api_runtime_state (args : list pyval) : B pydict :=
  match args with
  | [] => bbind (call_runtime (runtime_state (be_turn env) (be_probe env))) (fun s => bret (state_dict s))
  | _ => braise (invalid_input "runtime_state() takes no arguments.")
  end.

Definition load_history_with (limit : Z) : B pydict :=
  bbind (call_runtime (runtime_history limit)) (fun messages =>
    match messages with
    | PList _ => bret [field "ok" (PBool true); field "messages" messages]
    | _ => braise (DesktopApiError (u "str") (u "The desktop bridge failed to complete the request."))
    end).

Definition api_load_history (args : list pyval) : B pydict :=
  match args with
  | [] => load_history_with 50
  | [PInt z] => if _valid_history_limit (PInt z) then load_history_with z
                else braise (invalid_input "load_history() received an invalid limit.")
  | [_] => braise (invalid_input "load_history() received an invalid limit.")
  | _ => braise (invalid_input "load_history() takes at most one argument.")
  end.

Definition succeeded (d : pydict) : bool := match dget d (u "success") with Some (PBool true) => true | _ => false end.

Definition send_message (args : list pyval) : B pydict :=
  match args with
  | [request_id; message] =>
      if negb (_valid_request_id request_id) then braise (invalid_input "send_message() received an invalid request id.")
      else if negb (_valid_message message) then braise (invalid_input "send_message() received an invalid message.")
      else bbind (call_runtime (send_turn request_id message)) (fun payload => bret (dset payload (u "ok") (PBool (succeeded payload))))
  | _ => braise (invalid_input "send_message() takes exactly two arguments.")
  end.

Definition api_privacy_op (name : string) (operation : M pyval) (args : list pyval) : B pydict :=
  match args with
  | [] => bbind (call_runtime (_privacy_op operation)) (fun p =>
            bret (dset (privacy_dict p) (u "ok") (PBool (succeeded (privacy_dict p)))))
  | _ => braise (DesktopApiError (u "invalid_input") (u name ++ u "() takes no arguments."))
  end.

Definition api_switch (name : string) (call : bool -> window_call) (args : list pyval) : B pydict :=
  match args with
  | [PBool b] => call_window (call b)
  | _ => braise (DesktopApiError (u "invalid_input") (u name ++ u "() takes exactly one boolean argument."))
  end.

Definition api_window (name : string) (call : window_call) (args : list pyval) : B pydict :=
  match args with
  | [] => call_window call
  | _ => braise (DesktopApiError (u "invalid_input") (u name ++ u "() takes no arguments."))
  end.

(** ** The facade *)

Definition _handlers : list (pystr * (list pyval -> B pydict)) :=
  [(u "health", health); (u "runtime_state", api_runtime_state); (u "load_history", api_load_history);
   (u "send_message", send_message); (u "delete_history", api_privacy_op "delete_history" delete_history);
   (u "delete_memories", api_privacy_op "delete_memories" delete_memories);
   (u "reset_emotional_state", api_privacy_op "reset_emotional_state" (reset_emotional_state (be_now env) (be_now' env) None));
   (u "reset_relationship_state", api_privacy_op "reset_relationship_state" (reset_relationship_state (be_now env) (be_now' env) None));
   (u "set_presence_mode", api_switch "set_presence_mode" SetPresenceMode);
   (u "set_always_on_top", api_switch "set_always_on_top" SetAlwaysOnTop);
   (u "window_state", api_window "window_state" WindowState); (u "close_window", api_window "close_window" CloseWindow);
   (u "minimize_window", api_window "minimize_window" MinimizeWindow)].

Definition error_payload (code message : pystr) : pydict :=
  [field "ok" (PBool false); field "code" (PStr code); field "message" (PStr message)].

(** [None] is an interrupt, which the facade lets through. *)
Definition _invoke (method : pystr) (args : list pyval) (s : bridge_state) : option pydict * bridge_state :=
  match List.find (fun h => str_eqb h.1 method) _handlers with
  | None => (Some (error_payload (u "invalid_input") (u "Unknown method.")), s)
  | Some h =>
      match h.2 args s with
      | (Ok d, s') => (Some d, s')
      | (Err (DesktopApiError code message), s') => (Some (error_payload code message), s')
      | (Err ApiException, s') =>
          (Some (error_payload (u "internal_error") (u "The desktop bridge failed to complete the request.")), s')
      | (Err ApiInterrupt, s') => (None, s')
      end
  end.

End Api.

(** ** The arguments the bridge lets through *)

Lemma ident_char_allowed c : is_ident_char c = bool_decide (c ∈ _REQUEST_ID_ALLOWED).
Proof.
  destruct (decide (c < 128)%N) as [L|L].
  - assert (Forall (fun n => is_ident_char (N.of_nat n) = bool_decide (N.of_nat n ∈ _REQUEST_ID_ALLOWED)) (seq 0 128)) as F
      by (vm_compute; repeat constructor).
    rewrite Forall_forall in F. rewrite <- (N2Nat.id c). apply F, elem_of_seq. lia.
  - rewrite bool_decide_eq_false_2.
    + unfold is_ident_char, is_lower, is_upper, is_digit. repeat match goal with |- context [(?a <=? ?b)%N] => destruct (N.leb_spec a b); try lia end.
      all: repeat match goal with |- context [(?a =? ?b)%N] => destruct (N.eqb_spec a b); try lia end; reflexivity.
    + intros H. apply L. assert (Forall (fun c => (c < 128)%N) _REQUEST_ID_ALLOWED) as F by (vm_compute; repeat constructor).
      by apply (proj1 (Forall_forall _ _) F).
Qed.

(** The bridge accepts what the runtime accepts.  Its request identifiers and its
    history limits are exactly those of the local store, and every message it lets
    through passes the early validation of a turn. *)
Theorem bridge_validation_agrees :
  (forall v, _valid_request_id v = true <-> exists s, _validate_request_id v = Ok s)
  /\ (forall v, _valid_history_limit v = true <-> exists n, validate_limit v = Ok n)
  /\ (forall id m, _valid_request_id id = true -> _valid_message m = true ->
      exists rid text, id = PStr rid /\ m = PStr text /\ early_validation id m = Ok (rid, text)).
Proof.
  assert (forall v, _valid_request_id v = true <-> exists s, v = PStr s /\ _validate_request_id v = Ok s) as Id.
  { intros v. destruct v as [| | | |s| | | | |]; cbn [_valid_request_id _validate_request_id]; try (split; [done|by intros (? & [=] & _)]).
    rewrite !andb_true_iff, negb_true_iff, bool_decide_eq_false, Nat.leb_le.
    assert (forallb (fun c => bool_decide (c ∈ _REQUEST_ID_ALLOWED)) s = forallb is_ident_char s) as ->.
    { clear. induction s as [|c s IH]; [done|]. cbn [forallb]. by rewrite IH, ident_char_allowed. }
    unfold MAX_REQUEST_ID_LENGTH. split.
    - intros [[N L] F]. exists s. split; [done|]. destruct s; [done|]. rewrite F. cbn [negb].
      by rewrite (proj2 (Nat.ltb_ge _ _)) by done.
    - intros (t & [= <-] & H). destruct s as [|c s]; [done|]. destruct (_ <? _)%nat eqn:L; [done|].
      destruct (forallb is_ident_char _); [|done]. apply Nat.ltb_ge in L. by split_and!. }
  split_and!.
  - intros v. rewrite Id. split; [intros (s & _ & H); eauto|]. intros (s & H). exists s. split; [|done].
    destruct v as [| | | |t| | | | |]; try done. cbn in H. by destruct t; repeat case_match; simplify_eq.
  - intros v. destruct v; cbn; try (split; [done|by intros (? & [=])]). destruct (_ && _); [|by split; [|intros (? & [=])]].
    split; [eauto|done].
  - intros id m Hi Hm. apply Id in Hi as (rid & -> & Hi). destruct m as [| | | |text| | | | |]; try done.
    exists rid, text. split_and!; [done..|]. unfold early_validation. rewrite Hi. cbn [rbind].
    cbn [_valid_message] in Hm. rewrite !andb_true_iff, negb_true_iff, bool_decide_eq_false, Z.leb_le in Hm. destruct Hm as [[N L] _].
    assert (_validate_message (PStr text) = Ok text) as ->; [|done]. cbn [_validate_message]. destruct text; [done|].
    unfold too_long, MAX_MESSAGE_LENGTH. by rewrite (proj2 (Z.ltb_ge _ _)) by lia.
Qed.

(** ** The boundary *)

Section Boundary.
Context `{FR : FloatRepr, SH : Sha256, LM : Libm, IF : IsoFormat, PT : PyText} {WS : Type}.
Context (has_runtime : bool) (window : option (@controller WS)) (env : bridge_env).
Context (calm : forall n, Forall call_ok (t_others (be_turn env) n)).

(** What the facade answers of its own: constants. *)
Definition BRIDGE_ERRORS : list pydict :=
  error_payload (u "invalid_input") (u "Unknown method.")
  :: error_payload (u "internal_error") (u "The desktop bridge failed to complete the request.")
  :: error_payload (u "internal_error") (u "Unexpected bridge response.")
  :: error_payload (u "internal_error") (u "The desktop runtime is not available.")
  :: error_payload (u "window_unavailable") (u "The window controller is not available.")
  :: map (fun m => error_payload (u "invalid_input") (u m))
       ["load_history() received an invalid limit."; "load_history() takes at most one argument.";
        "send_message() received an invalid request id."; "send_message() received an invalid message.";
        "send_message() takes exactly two arguments."; "set_presence_mode() takes exactly one boolean argument.";
        "set_always_on_top() takes exactly one boolean argument."]
  ++ map (fun m => error_payload (u "invalid_input") (m ++ u "() takes no arguments.")) DESKTOP_API_METHODS.

(** A failure of the runtime: a public code and a constant text. *)
Definition public_failure (e : turn_exn) : pydict := failure_payload (sanitized_error e) ++ [field "ok" (PBool false)].

(** The payloads the page can be given. *)
Inductive bridge_answer (s : @bridge_state WS) : pydict -> Prop :=
| answer_error d : d ∈ BRIDGE_ERRORS -> bridge_answer s d
| answer_ok d : dget d (u "ok") = Some (PBool true) -> bridge_answer s d
| answer_failed e : bridge_answer s (public_failure e)
| answer_storage b : bridge_answer s (state_dict (mkRuntimeState false b None (Some STORAGE)))
| answer_window ctl c d : window = Some ctl -> (ctl c s.2).1 = Ok (PDict d) -> bridge_answer s d.

(** A method: it moves the store by calls of its interface, and answers or raises
    a public error. *)
Definition method_ok (h : @B WS pydict) : Prop := forall s r s', store_wf (rt_store s.1) -> h s = (r, s') ->
  reaches (rt_store s.1) (rt_store s'.1)
  /\ match r with
     | Ok d => bridge_answer s d
     | Err (DesktopApiError code message) => error_payload code message ∈ BRIDGE_ERRORS
     | Err _ => True
     end.

Lemma braise_ok code message : error_payload code message ∈ BRIDGE_ERRORS -> method_ok (braise (DesktopApiError code message)).
Proof. intros E s r s' _ [= <- <-]. split; [apply reaches_refl|done]. Qed.

(** A call of the runtime, and what is made of its result. *)
Lemma call_runtime_ok {T} (c : R T) (k : T -> pydict) :
  (forall rt r rt', store_wf (rt_store rt) -> c rt = (r, rt') -> reaches (rt_store rt) (rt_store rt')
     /\ forall v, r = Ok v -> forall s, bridge_answer s (k v)) ->
  method_ok (bbind (call_runtime has_runtime c) (fun v => bret (k v))).
Proof.
  intros Hc s r s' W H. unfold bbind, call_runtime in H. destruct has_runtime; cbn [negb] in H.
  2: { injection H as <- <-. split; [apply reaches_refl|]. rewrite list_elem_of_In. cbn. tauto. }
  destruct (c s.1) as [x rt] eqn:E. destruct (Hc _ _ _ W E) as [Re An].
  destruct x as [v|e]; injection H as <- <-; (split; [done|]); [by apply An|]. by destruct (is_base_only e).
Qed.

Lemma call_window_ok c : method_ok (call_window window c).
Proof.
  intros s r s' _ H. unfold call_window in H. destruct window as [ctl|] eqn:Ew.
  2: { injection H as <- <-. split; [apply reaches_refl|]. rewrite list_elem_of_In. cbn. tauto. }
  destruct (ctl c s.2) as [x w] eqn:E. injection H as <- <-. split; [apply reaches_refl|].
  destruct x as [v|[]]; try done. destruct v; try (rewrite list_elem_of_In; cbn; tauto).
  eapply answer_window; [exact Ew|by rewrite E].
Qed.

Lemma send_turn_ok id m rt r rt' : store_wf (rt_store rt) -> send_turn env id m rt = (r, rt') ->
  reaches (rt_store rt) (rt_store rt')
  /\ forall v, r = Ok v -> forall s, bridge_answer s (dset v (u "ok") (PBool (succeeded v))).
Proof.
  intros W H. unfold send_turn, try_all, CompanionRuntime.bind in H.
  destruct (commit_turn_async _ _ _ _ rt) as [x rt1] eqn:E. pose proof (client_turn _ _ calm _ _ _ _ _ E) as Re.
  pose proof (async_outcome _ _ _ _ _ _ _ _ _ _ _ _ W calm E) as Out. destruct x as [res|e].
  - injection H as <- <-. split; [done|]. intros v [= <-] s. destruct Out as [(e & -> & _)|(S & _)].
    + change (dset _ _ _) with (public_failure e). apply answer_failed.
    + apply answer_ok. unfold to_payload. rewrite S. reflexivity.
  - subst e. injection H as <- <-. split; [done|done].
Qed.

Lemma privacy_op_ok (op : M pyval) (c : call) rt r rt' : call_ok c -> (forall s, run_call c s = (op s).2) ->
  _privacy_op op rt = (r, rt') ->
  reaches (rt_store rt) (rt_store rt')
  /\ forall v, r = Ok v -> forall s, bridge_answer s (dset (privacy_dict v) (u "ok") (PBool (succeeded (privacy_dict v)))).
Proof.
  intros Hc Hr H. unfold _privacy_op in H. destruct (storage op rt) as [x rt1] eqn:E.
  pose proof (client_storage op c Hc Hr _ _ _ E) as Re.
  assert (forall e s, bridge_answer s (dset (privacy_dict (PrivacyFailed (sanitized_error e).1 (sanitized_error e).2)) (u "ok")
    (PBool (succeeded (privacy_dict (PrivacyFailed (sanitized_error e).1 (sanitized_error e).2)))))) as F.
  { intros e s. replace (dset _ _ _) with (public_failure e) by (by destruct e). apply answer_failed. }
  destruct x as [v|e].
  - assert (rt' = rt1 /\ (r = Ok (PrivacyApplied v) \/ r = Ok (PrivacyFailed STORAGE (MessageFor STORAGE)))) as [-> Cr].
    { destruct v; repeat case_match; simplify_eq; eauto. }
    split; [done|]. intros w Hw s. destruct Cr as [->| ->]; injection Hw as <-; [by apply answer_ok|apply (F (TLocal STORAGE))].
  - destruct (is_base_only e); injection H as <- <-; (split; [done|]); [done|]. intros w [= <-] s. apply F.
Qed.

Lemma runtime_state_ok rt r rt' : runtime_state (be_turn env) (be_probe env) rt = (r, rt') ->
  reaches (rt_store rt) (rt_store rt') /\ forall v, r = Ok v -> forall s, bridge_answer s (state_dict v).
Proof.
  unfold runtime_state. set (b := match be_probe env with Some (Ok b) => b | Some (Err _) => false | None => rt_model rt end).
  destruct (_load_state (be_turn env) rt) as [x rt1] eqn:E.
  assert (reaches (rt_store rt) (rt_store rt1)) as Re by (by apply (client_storage _ (CLoadState (t_now_unix (be_turn env)))) in E).
  destruct x as [st|e]; [|destruct (is_base_only e)]; intros [= <- <-]; (split; [done|]); [| |].
  - intros v [= <-] s. by apply answer_ok.
  - done.
  - intros v [= <-] s. apply answer_storage.
Qed.

Lemma load_history_ok z : method_ok (load_history_with has_runtime z).
Proof.
  intros s r s' W H. unfold load_history_with, bbind, call_runtime in H. destruct has_runtime; cbn [negb] in H.
  2: { injection H as <- <-. split; [apply reaches_refl|]. rewrite list_elem_of_In. cbn. tauto. }
  unfold runtime_history, CompanionRuntime.bind in H. destruct (storage _ s.1) as [x rt] eqn:E.
  apply (client_storage _ (CLoadHistory (PInt z))) in E; [|done|done].
  destruct x as [rows|e]; injection H as <- <-; (split; [done|]); [by apply answer_ok|]. by destruct (is_base_only e).
Qed.

Lemma api_privacy_ok name op c args : u name ∈ DESKTOP_API_METHODS -> call_ok c -> (forall s, run_call c s = (op s).2) ->
  method_ok (api_privacy_op has_runtime name op args).
Proof.
  intros Hn Hc Hr. destruct args; cbn [api_privacy_op].
  - apply call_runtime_ok. intros rt r rt' _ E. by eapply privacy_op_ok.
  - apply braise_ok. do 5 (apply elem_of_cons; right). apply elem_of_app. right. apply list_elem_of_In.
    by apply (in_map (fun m => error_payload (u "invalid_input") (m ++ u "() takes no arguments."))), list_elem_of_In.
Qed.

Lemma api_window_ok name c args : u name ∈ DESKTOP_API_METHODS -> method_ok (api_window window name c args).
Proof.
  intros Hn. destruct args; cbn [api_window]; [apply call_window_ok|]. apply braise_ok.
  do 5 (apply elem_of_cons; right). apply elem_of_app. right. apply list_elem_of_In.
  by apply (in_map (fun m => error_payload (u "invalid_input") (m ++ u "() takes no arguments."))), list_elem_of_In.
Qed.

Lemma invalid_input_ok m : error_payload (u "invalid_input") (u m) ∈ BRIDGE_ERRORS -> method_ok (braise (invalid_input m)).
Proof. apply braise_ok. Qed.

Lemma send_message_ok args : method_ok (send_message has_runtime env args).
Proof.
  assert (forall m, In m ["send_message() received an invalid request id."; "send_message() received an invalid message.";
    "send_message() takes exactly two arguments."]%string -> method_ok (braise (invalid_input m))) as Bad.
  { intros m Hm. apply invalid_input_ok. rewrite list_elem_of_In. cbn in Hm. repeat destruct Hm as [<-|Hm]; cbn; tauto. }
  unfold send_message. destruct args as [|id [|m []]]; try (apply Bad; cbn; tauto).
  destruct (_valid_request_id id); [|apply Bad; cbn; tauto]. destruct (_valid_message m); [|apply Bad; cbn; tauto].
  cbn [negb]. apply call_runtime_ok. intros rt r rt' W E. by eapply send_turn_ok.
Qed.

Lemma handlers_ok h args : In h (_handlers has_runtime window env) -> method_ok (h.2 args).
Proof.
  assert (forall n, In n DESKTOP_API_METHODS -> n ∈ DESKTOP_API_METHODS) as Mem by (intros n; apply list_elem_of_In).
  intros H. unfold _handlers in H.
  repeat (destruct H as [<-|H]; [cbn [snd]|]); [..|by destruct H].
  - destruct args; [|apply invalid_input_ok; rewrite list_elem_of_In; cbn; tauto].
    intros s r s' _ [= <- <-]. split; [apply reaches_refl|by apply answer_ok].
  - destruct args; [|apply invalid_input_ok; rewrite list_elem_of_In; cbn; tauto].
    apply call_runtime_ok. intros rt r rt' _. apply runtime_state_ok.
  - destruct args as [|v []]; [apply load_history_ok| |destruct v; apply invalid_input_ok; rewrite list_elem_of_In; cbn; tauto].
    destruct v; try (apply invalid_input_ok; rewrite list_elem_of_In; cbn; tauto). cbn [api_load_history].
    destruct (_valid_history_limit _); [apply load_history_ok|apply invalid_input_ok; rewrite list_elem_of_In; cbn; tauto].
  - apply send_message_ok.
  - apply (api_privacy_ok _ _ CDeleteHistory); [apply Mem; cbn; tauto|done..].
  - apply (api_privacy_ok _ _ CDeleteMemories); [apply Mem; cbn; tauto|done..].
  - apply (api_privacy_ok _ _ (CResetEmotional (be_now env) (be_now' env) None)); [apply Mem; cbn; tauto|done..].
  - apply (api_privacy_ok _ _ (CResetRelationship (be_now env) (be_now' env) None)); [apply Mem; cbn; tauto|done..].
  - destruct args as [|v []]; [|destruct v|destruct v]; try apply call_window_ok;
      (apply braise_ok; rewrite list_elem_of_In; cbn; tauto).
  - destruct args as [|v []]; [|destruct v|destruct v]; try apply call_window_ok;
      (apply braise_ok; rewrite list_elem_of_In; cbn; tauto).
  - apply api_window_ok, Mem; cbn; tauto.
  - apply api_window_ok, Mem; cbn; tauto.
  - apply api_window_ok, Mem; cbn; tauto.
Qed.


End Boundary.

