(* ===== verification/WebMemory.v ===== *)
(** * The memory of the web engine (backend/memory.py)

    [MemoryManager]: the user state, the recent history, the vector retrieval of
    memories and the context they make, the two writes of a turn, and the reads and
    writes of the archival extraction.  The Supabase client is an argument, a
    function per query over an abstract database; so is the embedding model.
    Every answer of theirs is allowed. *)

From S2P Require Import Prelude PyFloat PyValue Json PyDatetime Admission TrustedContext StorageContracts LocalStorage EmotionalModels Relationship.

Local Open Scope Z_scope.

(** ** Retrieved memories *)

Definition MAX_MESSAGE_LENGTH : Z := 10000.
Definition SUPPORTED_MEMORY_METADATA_SCHEMA_VERSION : Z := 1.

(** The exceptions of the constructor. *)
Inductive memory_exn : Type := MemValueError | MemTypeError | MemOverflowError.

Record RetrievedMemory : Type := mkRetrievedMemory {
  rm_content : pystr;
  rm_tags : list pystr;
  rm_source_id : pystr;
  rm_confidence : pynum;
  rm_provenance : pystr;
  rm_epistemic_status : pystr;
  rm_approved : bool;
  rm_metadata_version : Z;
  rm_retrieval_similarity : option pynum }.

(** [sorted({tag.strip() for tag in tags if isinstance(tag, str) and tag.strip()})]. *)
Definition normalized_tags (tags : list pyval) : list pystr :=
  stable_sort str_ltb (remove_dups (omap (fun t => match t with
    | PStr s => if bool_decide (strip s = []) then None else Some (strip s)
    | _ => None
    end) tags)).

(** A number between [lo] and 1: [math.isnan] converts it first. *)
Definition number_from (lo : Z) (flo : float) (v : pyval) : result memory_exn pynum :=
  match v with
  | PInt z =>
      match int_to_float z with
      | None => Err MemOverflowError
      | Some _ => if (lo <=? z) && (z <=? 1) then Ok (NInt z) else Err MemValueError
      end
  | PFloat f =>
      if negb (isfinite f) then Err MemValueError
      else if in_range flo 1 f then Ok (NFloat f) else Err MemValueError
  | _ => Err MemValueError
  end.

Definition require_valid (verdict : option bool) : result memory_exn unit :=
  match verdict with
  | None => Err MemTypeError
  | Some false => Err MemValueError
  | Some true => Ok tt
  end.

(** The constructor, with [__post_init__]. *)
Definition RetrievedMemory_init (content : pyval) (tags : list pyval)
    (source_id confidence provenance epistemic_status approved metadata_version retrieval_similarity : pyval)
    : result memory_exn RetrievedMemory :=
  match content with
  | PStr c =>
      if bool_decide (strip c = []) then Err MemValueError else
      match source_id with
      | PStr sid =>
          let* conf := number_from 0 0 confidence in
          require_valid (Provenance_is_valid provenance) ;;;
          require_valid (EpistemicStatus_is_valid epistemic_status) ;;;
          match provenance, epistemic_status, approved, metadata_version with
          | PStr p, PStr e, PBool ok, PInt version =>
              if version <? 0 then Err MemValueError else
              let* similarity := match retrieval_similarity with
                                 | PNone => Ok None
                                 | v => let* n := number_from (-1) (-1) v in Ok (Some n)
                                 end in
              Ok (mkRetrievedMemory c (normalized_tags tags) sid conf p e ok version similarity)
          | _, _, _, _ => Err MemValueError
          end
      | _ => Err MemValueError
      end
  | _ => Err MemValueError
  end.

Definition to_prompt_text (m : RetrievedMemory) : pystr :=
  if bool_decide (rm_tags m = []) then rm_content m
  else rm_content m ++ 10%N :: u "Tags: " ++ join (u ", ") (rm_tags m).

Definition to_context_item (m : RetrievedMemory) (source_ref : pystr) : result context_exn ContextItem :=
  ContextItem_init (PStr (u "memory")) (PStr (rm_content m)) (PStr (rm_provenance m)) (pynum_val (rm_confidence m))
    (PStr (rm_epistemic_status m)) (PStr source_ref) (PStr (rm_source_id m)).

(** The object as trusted_context.py sees it. *)
Definition as_memory_object (m : RetrievedMemory) : memory_object :=
  mkMemoryObject (PInt (rm_metadata_version m)) (PBool (rm_approved m)) (PStr (rm_source_id m)) (PStr (rm_provenance m))
    (PStr (rm_epistemic_status m)) (pynum_val (rm_confidence m)) (to_context_item m).

(** ** UUIDs *)

(** [s.replace(pat, "")]. *)
Fixpoint remove_all (pat : pystr) (skip : nat) (s : pystr) : pystr :=
  match s with
  | [] => []
  | c :: s' =>
      match skip with
      | S k => remove_all pat k s'
      | O => if bool_decide (take (length pat) s = pat) then remove_all pat (pred (length pat)) s' else c :: remove_all pat 0 s'
      end
  end.

Definition brace (c : N) : bool := ((c =? 123) || (c =? 125))%N.

(** [int(s, 16)], [None] for its [ValueError]; hexadecimal digits are accepted, and
    so are signs, blanks around the digits and underscores between them. *)
Class HexText : Type := {
  int_of_hex : pystr -> option Z;
  int_of_hex_digits : forall s, s <> [] -> _is_hex s = true -> exists z, int_of_hex s = Some z }.

(** [uuid.UUID(s)] does not raise. *)
Definition uuid_text `{HexText} (s : pystr) : bool :=
  let hex := remove_all (u "-") 0 (rev (drop_while brace (rev (drop_while brace (remove_all (u "uuid:") 0 (remove_all (u "urn:") 0 s)))))) in
  Nat.eqb (length hex) 32 && bool_decide (is_Some (int_of_hex hex)).

(** ** The client *)

(** What [execute()] gives: an exception with the text of its [code], [None], or a
    response with a truthy [error] and its JSON [data] ([None] when absent). *)
Inductive answer : Type :=
| Failed (code : option pystr)
| NoAnswer
| Answer (error : bool) (data : option pyval).

Record memory_client (DB : Type) : Type := mkMemoryClient {
  mc_profile : pystr -> DB -> answer * DB;                 (** [profiles], by user *)
  mc_insert_profile : pydict -> DB -> answer * DB;
  mc_update_profile : pystr -> pydict -> DB -> answer * DB;
  mc_history : pystr -> Z -> DB -> answer * DB;            (** [chat_logs], newest first, limited *)
  mc_insert_chat : list pydict -> DB -> answer * DB;
  mc_message : Z -> pystr -> DB -> answer * DB;            (** [chat_logs], by id and user *)
  mc_insert_extraction : pydict -> DB -> answer * DB;      (** [archival_extractions] *)
  mc_match_memories : pydict -> DB -> answer * DB }.       (** the RPC *)
Arguments mkMemoryClient {DB}.
Arguments mc_profile {DB}.
Arguments mc_insert_profile {DB}.
Arguments mc_update_profile {DB}.
Arguments mc_history {DB}.
Arguments mc_insert_chat {DB}.
Arguments mc_message {DB}.
Arguments mc_insert_extraction {DB}.
Arguments mc_match_memories {DB}.

(** ** The manager *)

(** The exceptions of its methods; [MContext] is what the constructor of
    [LoadedContextData] raises. *)
Inductive manager_exn : Type :=
| StatePersistenceError
| StateLoadError
| ContextLoadError
| TurnPersistenceError
| MKeyError
| MRuntimeError
| ArchivalDuplicateError
| MContext (e : context_exn).

Section Manager.
Context {DB : Type} `{FR : FloatRepr, IF : IsoFormat, HT : HexText}.

(** [encode(query).tolist()]: the vector, or an exception. *)
Record MemoryManager : Type := mkMemoryManager {
  mm_supabase : option (memory_client DB);
  mm_embedding_model : option (pystr -> option pyval);
  mm_embeddings_enabled : bool }.

Definition Q (T : Type) : Type := DB -> result manager_exn T * DB.

Context (self : MemoryManager).

(** *** User state *)

Record user_state : Type := mkUserState {
  us_persona_config : pyval;
  us_user_profile : pyval;
  us_relationship_state : pyval;
  us_emotional_state : pyval }.

Definition _get_default_state (timestamp : pyval) : result manager_exn user_state :=
  match EmotionalStateV1_neutral timestamp, RelationshipStateV1_neutral timestamp with
  | Ok e, Ok r => Ok (mkUserState (PStr (u "Katherine...")) (PDict []) (PDict (RelationshipStateV1_to_dict r))
                        (PDict (EmotionalStateV1_to_dict e)))
  | _, _ => Err StateLoadError
  end.

(** [data.get(key) or {}]. *)
Definition get_or_empty (d : pydict) (key : pystr) : pyval :=
  let v := dindex d key in if truthy v then v else PDict [].

(** [load_user_state(user_id, default_timestamp)]; [timestamp] is the given time,
    or else the clock of the manager. *)
Definition load_user_state (user_id : pystr) (timestamp : pyval) : Q user_state := fun s =>
  match mm_supabase self with
  | None => (Err StateLoadError, s)
  | Some client =>
      match mc_profile client user_id s with
      | (Answer false (Some data), s1) =>
          match data with
          | PList [] | PDict [] | PStr [] =>
              match _get_default_state timestamp with
              | Err e => (Err e, s1)
              | Ok state =>
                  match mc_insert_profile client
                      [(KStr (u "user_id"), PStr user_id); (KStr (u "persona_config"), us_persona_config state);
                       (KStr (u "user_profile"), us_user_profile state); (KStr (u "relationship_state"), us_relationship_state state);
                       (KStr (u "emotional_state"), us_emotional_state state)] s1 with
                  | (Answer false (Some (PList (_ :: _) | PDict (_ :: _) | PStr (_ :: _))), s2) => (Ok state, s2)
                  | (_, s2) => (Err StateLoadError, s2)
                  end
              end
          | PList (PDict d :: _) =>
              (Ok (mkUserState (dindex d (u "persona_config")) (get_or_empty d (u "user_profile"))
                     (get_or_empty d (u "relationship_state")) (get_or_empty d (u "emotional_state"))), s1)
          | _ => (Err StateLoadError, s1)
          end
      | (_, s1) => (Err StateLoadError, s1)
      end
  end.

(** [sync_state]; [now] is [datetime.now(UTC).isoformat()]. *)
Definition sync_state (user_id : pystr) (emotional : EmotionalStateV1) (relationship : RelationshipStateV1)
    (user_profile : pydict) (now : pystr) : Q unit := fun s =>
  match mm_supabase self with
  | None => (Err StatePersistenceError, s)
  | Some client =>
      let update := [(KStr (u "emotional_state"), PDict (EmotionalStateV1_to_dict emotional));
                     (KStr (u "relationship_state"), PDict (RelationshipStateV1_to_dict relationship));
                     (KStr (u "updated_at"), PStr now)]
                    ++ (if bool_decide (user_profile = []) then [] else [(KStr (u "user_profile"), PDict user_profile)]) in
      match mc_update_profile client user_id update s with
      | (Answer false (Some data), s1) => ((if truthy data then Ok tt else Err StatePersistenceError), s1)
      | (_, s1) => (Err StatePersistenceError, s1)
      end
  end.

(** *** Context *)

(** One row of the history, as far as the loader looks at it. *)
Definition normalize_row (item : pyval) : option pydict :=
  match item with
  | PDict d =>
      match dget d (u "role"), dget d (u "content"), dget d (u "id"), dget d (u "created_at") with
      | Some (PStr role), Some (PStr content), Some (PInt id), Some (PStr created_at) =>
          if negb (str_in role VALID_HISTORY_ROLES) || (MAX_MESSAGE_LENGTH <? Z.of_nat (length content)) || (id <=? 0)
          then None
          else Some [(KStr (u "role"), PStr role); (KStr (u "content"), PStr content); (KStr (u "id"), PInt id);
                     (KStr (u "created_at"), PStr created_at)]
      | _, _, _, _ => None
      end
  | _ => None
  end.

(** [load_recent_history]: oldest first; any fault is a [ContextLoadError]. *)
Definition load_recent_history (user_id : pystr) (limit : Z) : Q (list pydict) := fun s =>
  match mm_supabase self with
  | None => (Err ContextLoadError, s)
  | Some client =>
      match mc_history client user_id limit s with
      | (Answer false (Some (PList items)), s1) =>
          match mapM normalize_row items with
          | Some rows => (Ok (rev rows), s1)
          | None => (Err ContextLoadError, s1)
          end
      | (_, s1) => (Err ContextLoadError, s1)
      end
  end.

Definition _serialize_user_profile (raw_profile : pyval) : result manager_exn pystr :=
  match raw_profile with
  | PDict _ => match json_encode true raw_profile with Ok doc => Ok (render doc) | Err _ => Err ContextLoadError end
  | _ => Err ContextLoadError
  end.

(** The similarity of a document that is no number of [-1, 1] is dropped; the
    conversion of a huge integer raises. *)
Definition read_similarity (v : pyval) : result memory_exn pyval :=
  match number_from (-1) (-1) v with
  | Ok n => Ok (pynum_val n)
  | Err MemOverflowError => Err MemOverflowError
  | Err _ => Ok PNone
  end.

Definition tag_values (raw : pyval) : list pyval :=
  match raw with
  | PStr _ => [raw]
  | PList l | PTuple l => l
  | _ => []
  end.

(** The body of the loop over the documents: [None] stands for [continue], also
    out of the [except Exception]. *)
Definition read_document (doc : pyval) : option RetrievedMemory :=
  match doc with
  | PDict d =>
      match dget_or d (u "content") (PStr []), dget_or d (u "metadata") (PDict []) with
      | PStr content, PDict metadata =>
          if bool_decide (strip content = []) then None else
          match dget_or metadata (u "schema_version") (PInt 0), dget_or metadata (u "approved") (PBool false),
                dget_or metadata (u "provenance") (PStr []), dget_or metadata (u "epistemic_status") (PStr []),
                dget_or d (u "id") (PStr []) with
          | PInt version, PBool true, PStr provenance, PStr epistemic, PStr (c :: doc_id) =>
              if negb (version =? SUPPORTED_MEMORY_METADATA_SCHEMA_VERSION)
                 || negb (str_in provenance Provenance_allowlist) || negb (str_in epistemic EpistemicStatus_allowlist)
              then None else
              match number_from 0 0 (dindex metadata (u "confidence")) with
              | Err _ => None
              | Ok confidence =>
                  if negb (uuid_text (c :: doc_id)) then None else
                  match (let* similarity := read_similarity (dindex d (u "similarity")) in
                         RetrievedMemory_init (PStr content) (tag_values (dget_or metadata (u "tags") (PTuple [])))
                           (PStr (c :: doc_id)) (pynum_val confidence) (PStr provenance) (PStr epistemic) (PBool true)
                           (PInt version) similarity) with
                  | Ok m => Some m
                  | Err _ => None
                  end
              end
          | _, _, _, _, _ => None
          end
      | _, _ => None
      end
  | _ => None
  end.

Definition MATCH_THRESHOLD : float := 0.5.
Definition MATCH_COUNT : Z := 3.

(** [_retrieve_relevant_entries]: with the retrieval enabled every fault is an
    error; with it disabled it is an empty result. *)
Definition _retrieve_relevant_entries (user_id query : pystr) : Q (list RetrievedMemory) := fun s =>
  let failed := if mm_embeddings_enabled self then Err ContextLoadError else Ok [] in
  match mm_supabase self, mm_embedding_model self with
  | Some client, Some encode =>
      match encode query with
      | None => (failed, s)
      | Some embedding =>
          match mc_match_memories client
              [(KStr (u "query_embedding"), embedding); (KStr (u "match_threshold"), PFloat MATCH_THRESHOLD);
               (KStr (u "match_count"), PInt MATCH_COUNT); (KStr (u "filter_user_id"), PStr user_id)] s with
          | (Answer _ (Some (PList documents)), s1) => (Ok (omap read_document documents), s1)
          | (_, s1) => (failed, s1)
          end
      end
  | _, _ => (failed, s)
  end.

(** Only approved memories of the supported version survive. *)
Definition usable_memory (m : RetrievedMemory) : bool :=
  rm_approved m && (rm_metadata_version m =? SUPPORTED_MEMORY_METADATA_SCHEMA_VERSION).

Definition HISTORY_LIMIT : Z := 10.

Definition load_context_data (user_id current_message : pystr) (state : pydict) : Q LoadedContextData := fun s =>
  match load_recent_history user_id HISTORY_LIMIT s with
  | (Err e, s1) => (Err e, s1)
  | (Ok history, s1) =>
      match _retrieve_relevant_entries user_id current_message s1 with
      | (Err e, s2) => (Err e, s2)
      | (Ok memories, s2) =>
          let persona := dget_or state (u "persona_config") (PStr []) in
          (match LoadedContextData_init (map PDict history) (map as_memory_object (List.filter usable_memory memories))
                   (dget_or state (u "user_profile") (PDict [])) (if truthy persona then persona else PStr []) with
           | Ok loaded => Ok loaded
           | Err e => Err (MContext e)
           end, s2)
      end
  end.

(** *** The two writes of a turn *)

Record PersistedTurnRef : Type := mkPersistedTurnRef {
  pt_user_id : pystr;
  pt_source_chat_log_id : Z;
  pt_assistant_chat_log_id : Z }.

(** A returned row of the user: its identifier, its role and its content. *)
Definition check_record (user_id : pystr) (rec : pyval) : option (Z * pystr * pyval) :=
  match rec with
  | PDict d =>
      match dget d (u "id"), dget d (u "role"), dget d (u "user_id"), dget d (u "content") with
      | Some (PInt id), Some (PStr role), Some (PStr owner), Some content =>
          if (id <=? 0) || negb (str_eqb owner user_id) || negb (str_in role VALID_HISTORY_ROLES) then None
          else Some (id, role, content)
      | _, _, _, _ => None
      end
  | _ => None
  end.

Definition chat_row (user_id role content : pystr) : pydict :=
  [(KStr (u "user_id"), PStr user_id); (KStr (u "role"), PStr role); (KStr (u "content"), PStr content)].

(** The two rows that came back, in either order. *)
Definition confirm_turn (user_id user_msg bot_msg : pystr) (a b : Z * pystr * pyval) : result manager_exn PersistedTurnRef :=
  let '(user_rec, assistant_rec) := if str_eqb a.1.2 (u "user") then (a, b) else (b, a) in
  if str_eqb a.1.2 b.1.2 || (user_rec.1.1 =? assistant_rec.1.1)
     || negb (py_eq user_rec.2 (PStr user_msg)) || negb (py_eq assistant_rec.2 (PStr bot_msg))
  then Err TurnPersistenceError
  else Ok (mkPersistedTurnRef user_id user_rec.1.1 assistant_rec.1.1).

Definition save_turn (user_id user_msg bot_msg : pystr) : Q PersistedTurnRef := fun s =>
  match mm_supabase self with
  | None => (Err TurnPersistenceError, s)
  | Some client =>
      if (MAX_MESSAGE_LENGTH <? Z.of_nat (length user_msg)) || (MAX_MESSAGE_LENGTH <? Z.of_nat (length bot_msg))
      then (Err TurnPersistenceError, s) else
      match mc_insert_chat client [chat_row user_id (u "user") user_msg; chat_row user_id (u "assistant") bot_msg] s with
      | (Answer false (Some (PList [x; y])), s1) =>
          (match check_record user_id x, check_record user_id y with
           | Some a, Some b => confirm_turn user_id user_msg bot_msg a b
           | _, _ => Err TurnPersistenceError
           end, s1)
      | (_, s1) => (Err TurnPersistenceError, s1)
      end
  end.

(** *** Archival extraction *)

(** [v == z] for an identifier [z]. *)
Definition equals_int (v : pyval) (z : Z) : bool :=
  match v with
  | PBool b => (if b then 1 else 0) =? z
  | v => py_eq v (PInt z)
  end.

Definition load_persisted_user_message (user_id : pystr) (source_chat_log_id : Z) : Q pystr := fun s =>
  match mm_supabase self with
  | None => (Err MRuntimeError, s)
  | Some client =>
      match mc_message client source_chat_log_id user_id s with
      | (Failed _, s1) => (Err MRuntimeError, s1)
      | (Answer _ (Some (PList [PDict d])), s1) =>
          (match dget d (u "id"), dget d (u "user_id"), dget d (u "role"), dget d (u "content") with
           | Some id, Some owner, Some role, Some (PStr content) =>
               if equals_int id source_chat_log_id && py_eq owner (PStr user_id) && py_eq role (PStr (u "user"))
               then Ok content else Err MKeyError
           | _, _, _, _ => Err MKeyError
           end, s1)
      | (_, s1) => (Err MKeyError, s1)
      end
  end.

Record ArchivalFact : Type := mkArchivalFact {
  af_content : pystr;
  af_importance : float;
  af_tags : list pystr }.

Record ArchivalExtractionEnvelope : Type := mkArchivalEnvelope {
  ae_facts : list ArchivalFact;
  ae_schema_version : Z;
  ae_extractor_version : Z }.

Definition fact_payload (f : ArchivalFact) : pyval :=
  PDict [(KStr (u "content"), PStr (af_content f)); (KStr (u "importance"), PFloat (af_importance f));
         (KStr (u "tags"), PList (map PStr (af_tags f)))].

Definition extraction_payload (user_id : pystr) (source_chat_log_id : Z) (idempotency_key : pystr)
    (envelope : ArchivalExtractionEnvelope) : pydict :=
  [(KStr (u "user_id"), PStr user_id); (KStr (u "source_chat_log_id"), PInt source_chat_log_id);
   (KStr (u "extractor_version"), PInt (ae_extractor_version envelope)); (KStr (u "schema_version"), PInt (ae_schema_version envelope));
   (KStr (u "idempotency_key"), PStr idempotency_key); (KStr (u "facts"), PList (map fact_payload (ae_facts envelope)))].

(** [store_archival_extraction]: SQLSTATE 23505 is a duplicate. *)
Definition store_archival_extraction (user_id : pystr) (source_chat_log_id : Z) (idempotency_key : pystr)
    (envelope : ArchivalExtractionEnvelope) : Q unit := fun s =>
  match mm_supabase self with
  | None => (Err MRuntimeError, s)
  | Some client =>
      match mc_insert_extraction client (extraction_payload user_id source_chat_log_id idempotency_key envelope) s with
      | (Failed (Some code), s1) => ((if str_eqb code (u "23505") then Err ArchivalDuplicateError else Err MRuntimeError), s1)
      | (Answer false (Some _), s1) => (Ok tt, s1)
      | (_, s1) => (Err MRuntimeError, s1)
      end
  end.

End Manager.
