(* ===== verification/WebMemoryProperties.v ===== *)
(** * Properties of the web engine's memory

    The context loader hands the turn only approved memories of the supported
    version, in the form the prompt boundary accepts, and no stored memory can stop
    a turn; [save_turn] confirms only what the database says it stored. *)

From S2P Require Import Prelude PyFloat FloatRound PyValue Json PyDatetime Admission TrustedContext EnvelopeTheorems EnvelopeProperties.
From S2P Require Import StorageContracts LocalStorage EmotionalModels Relationship RuntimeProperties CommitTheorems WebMemory.

Local Open Scope Z_scope.

(** ** Identifiers *)

Lemma remove_all_none pat s : pat <> [] -> (exists c, c ∈ pat /\ c ∉ s) -> remove_all pat 0 s = s.
Proof.
  intros Hp (c & Hc & Hs). induction s as [|x s IH]; [done|]. cbn [remove_all].
  case_bool_decide as T.
  - destruct Hs. rewrite <- T in Hc. apply elem_of_take in Hc as (i & Hi & _). by apply list_elem_of_lookup_2 in Hi.
  - f_equal. apply IH. intros H. apply Hs. by right.
Qed.

Lemma remove_all_char c s : remove_all [c] 0 s = List.filter (fun x => negb (x =? c)%N) s.
Proof.
  induction s as [|x s IH]; [done|]. cbn [remove_all List.filter length take pred].
  rewrite IH. destruct (N.eqb_spec x c) as [->|N]; cbn [negb]; [by rewrite bool_decide_true|].
  rewrite bool_decide_false; [done|]. by intros [= ->].
Qed.

Lemma split_on_concat sep s : concat (split_on sep s) = List.filter (fun x => negb (x =? sep)%N) s.
Proof.
  induction s as [|x s IH]; [done|]. cbn [split_on List.filter].
  destruct (x =? sep)%N; cbn [negb]; [exact IH|]. rewrite <- IH.
  pose proof (split_on_nonempty sep s). by destruct (split_on sep s).
Qed.

Lemma canonical_chars s c : canonical_uuid s = true -> c ∈ s -> c = 45%N \/ hex_char c = true.
Proof.
  unfold canonical_uuid. rewrite andb_true_iff, forallb_forall. intros [_ F] Hc.
  destruct (decide (c = 45%N)) as [->|N]; [by left|right].
  destruct (split_on_elem 45 s c Hc N) as (p & Hp & Hcp). apply list_elem_of_In, F in Hp.
  unfold _is_hex in Hp. rewrite forallb_forall in Hp. by apply Hp, list_elem_of_In.
Qed.

Lemma drop_while_id {A} (p : A -> bool) l : (forall x, x ∈ l -> p x = false) -> drop_while p l = l.
Proof. destruct l as [|x l]; [done|]. intros H. cbn [drop_while]. by rewrite (H x) by by left. Qed.

Lemma strip_nonblank s c : c ∈ s -> is_space c = false -> strip s <> [].
Proof.
  intros Hc Hs E. assert (forall l, drop_while is_space l = [] -> c ∉ l) as D.
  { induction l as [|x l IH]; cbn [drop_while]; [by intros _ ?%elem_of_nil|].
    destruct (is_space x) eqn:X; [|done]. intros E' [->|H]%elem_of_cons; [congruence|by apply IH]. }
  unfold strip in E. apply (f_equal (@rev N)) in E. rewrite rev_involutive in E.
  pose proof (D _ E) as N. apply N. rewrite list_elem_of_In, <- in_rev, <- list_elem_of_In.
  unfold lstrip in *.
  destruct (decide (c ∈ drop_while is_space s)) as [|Nd]; [done|]. exfalso.
  clear -Hc Hs Nd. induction s as [|x s IH]; [by apply elem_of_nil in Hc|]. cbn [drop_while] in Nd.
  destruct (is_space x) eqn:X; [|done]. apply elem_of_cons in Hc as [->|Hc]; [congruence|by apply IH].
Qed.

Lemma hex_not_space c : c ∈ HEX -> is_space c = false.
Proof. revert c. apply Forall_forall. vm_compute. repeat constructor. Qed.

Section Theorems.
Context {DB : Type} `{FR : FloatRepr, IF : IsoFormat, HT : HexText}.

(** The canonical form of a UUID is a UUID. *)
Lemma canonical_uuid_text s : canonical_uuid s = true -> uuid_text s = true.
Proof.
  intros H. pose proof (canonical_chars s) as C. specialize (fun c => C c H).
  assert (forall c, hex_char c = false -> c <> 45%N -> c ∉ s) as Out.
  { intros c Hc N [->|E]%C; [done|congruence]. }
  unfold uuid_text. rewrite (remove_all_none (u "urn:")); [|done|exists 58%N; split; [vm_compute; set_solver|by apply Out]].
  rewrite (remove_all_none (u "uuid:")); [|done|exists 58%N; split; [vm_compute; set_solver|by apply Out]].
  assert (forall c, c ∈ s -> brace c = false) as Nb.
  { intros c Hc. destruct (C c Hc) as [->|X]; [done|]. unfold brace.
    destruct (N.eqb_spec c 123) as [->|_]; [by vm_compute in X|]. by destruct (N.eqb_spec c 125) as [->|_]; [vm_compute in X|]. }
  rewrite (drop_while_id brace s) by done.
  rewrite drop_while_id, rev_involutive by (intros c Hc; apply Nb; by rewrite list_elem_of_In, <- in_rev, <- list_elem_of_In in Hc).
  change (u "-") with [45%N]. rewrite remove_all_char, <- split_on_concat.
  unfold canonical_uuid in H. apply andb_true_iff in H as [L F]. apply bool_decide_eq_true in L.
  assert (length (concat (split_on 45 s)) = 32%nat) as Len by (by rewrite length_concat, L).
  rewrite Len. cbn [andb Nat.eqb]. apply bool_decide_eq_true.
  destruct (int_of_hex_digits (concat (split_on 45 s))) as [z ->]; [|  |by eexists].
  - intros E. by rewrite E in Len.
  - unfold _is_hex. rewrite forallb_forall. intros c (p & Hp & Hc)%in_concat.
    rewrite forallb_forall in F. specialize (F p Hp). unfold _is_hex in F. rewrite forallb_forall in F. by apply F.
Qed.

(** ** Memories *)

Lemma pynum_val_inj a b : pynum_val a = pynum_val b -> a = b.
Proof. by destruct a, b; intros [= ->]. Qed.

Lemma number_from_val lo flo v n : number_from lo flo v = Ok n -> pynum_val n = v.
Proof.
  destruct v; cbn [number_from]; try done.
  - destruct (int_to_float _); [|done]. destruct (_ && _); [|done]. by intros [= <-].
  - destruct (negb _); [done|]. destruct (in_range _ _ _); [|done]. by intros [= <-].
Qed.

Lemma number_from_confidence v n : number_from 0 0 v = Ok n -> check_confidence v = Ok n.
Proof.
  destruct v; cbn [number_from check_confidence]; try discriminate.
  - destruct (int_to_float _); [|discriminate]. destruct (_ && _); [intros [= <-]; reflexivity|discriminate].
  - destruct (negb _); [discriminate|]. destruct (in_range _ _ _); [intros [= <-]; reflexivity|discriminate].
Qed.

(** What a memory that reaches the prompt satisfies. *)
Record sound_memory (m : RetrievedMemory) : Prop := {
  sm_content : strip (rm_content m) <> [];
  sm_approved : rm_approved m = true;
  sm_version : rm_metadata_version m = SUPPORTED_MEMORY_METADATA_SCHEMA_VERSION;
  sm_provenance : str_in (rm_provenance m) Provenance_allowlist = true;
  sm_epistemic : str_in (rm_epistemic_status m) EpistemicStatus_allowlist = true;
  sm_confidence : check_confidence (pynum_val (rm_confidence m)) = Ok (rm_confidence m);
  sm_source : uuid_text (rm_source_id m) = true }.

Lemma RetrievedMemory_init_fields content tags sid conf p e ok version similarity m :
  RetrievedMemory_init content tags sid conf p e ok version similarity = Ok m ->
  content = PStr (rm_content m) /\ strip (rm_content m) <> [] /\ sid = PStr (rm_source_id m) /\ conf = pynum_val (rm_confidence m)
  /\ p = PStr (rm_provenance m) /\ e = PStr (rm_epistemic_status m) /\ ok = PBool (rm_approved m) /\ version = PInt (rm_metadata_version m).
Proof.
  unfold RetrievedMemory_init. intros H. destruct content as [| | | |c| | | | |]; try done.
  case_bool_decide as Hc; [done|]. destruct sid as [| | | |sid| | | | |]; try done. inv_ok.
  destruct p as [| | | |p| | | | |]; try done. destruct e as [| | | |e| | | | |]; try done.
  destruct ok as [|ok| | | | | | | |]; try done. destruct version as [| |version| | | | | | |]; try done.
  destruct (version <? 0); [done|]. inv_ok. apply number_from_val in E. by split_and!.
Qed.

Lemma dget_or_text d k s : dget_or d k (PStr []) = PStr s -> s <> [] -> dget d k = Some (PStr s).
Proof. unfold dget_or. destruct (dget d k); [by intros ->|]. by intros [= <-]. Qed.

(** A document that is used is an approved, well formed one. *)
Lemma read_document_sound doc m : read_document doc = Some m ->
  sound_memory m /\ exists d, doc = PDict d /\ dget d (u "id") = Some (PStr (rm_source_id m)) /\ dget d (u "content") = Some (PStr (rm_content m)).
Proof.
  unfold read_document. intros H. destruct doc as [| | | | | | |d| |]; try discriminate H.
  destruct (dget_or d (u "content") _) as [| | | |content| | | | |] eqn:Ec; try discriminate H.
  destruct (dget_or d (u "metadata") _) as [| | | | | | |metadata| |]; try discriminate H.
  case_bool_decide as Hc; [discriminate H|].
  destruct (dget_or metadata (u "schema_version") _) as [| |version| | | | | | |]; try discriminate H.
  destruct (dget_or metadata (u "approved") _) as [|[]| | | | | | | |]; try discriminate H.
  destruct (dget_or metadata (u "provenance") _) as [| | | |p| | | | |]; try discriminate H.
  destruct (dget_or metadata (u "epistemic_status") _) as [| | | |e| | | | |]; try discriminate H.
  destruct (dget_or d (u "id") _) as [| | | |[|c id]| | | | |] eqn:Ei; try discriminate H.
  destruct (_ || _) eqn:B in H; [discriminate H|]. apply orb_false_iff in B as [B Be%negb_false_iff].
  apply orb_false_iff in B as [Bv%negb_false_iff%Z.eqb_eq Bp%negb_false_iff].
  destruct (number_from 0 0 _) as [conf|] eqn:N in H; [|discriminate H].
  destruct (negb (uuid_text _)) eqn:U in H; [discriminate H|]. apply negb_false_iff in U.
  destruct (rbind _ _) as [m'|] eqn:R in H; [|discriminate H]. injection H as ->. apply rbind_ok in R as (similarity & _ & R).
  apply RetrievedMemory_init_fields in R as (E1 & Hs & E2 & E3 & E4 & E5 & E6 & E7).
  injection E1 as ->. injection E2 as E2. injection E4 as ->. injection E5 as ->. injection E6 as E6. injection E7 as ->.
  apply number_from_confidence in N as N'. apply number_from_val in N.
  apply dget_or_text in Ei; [|done]. apply dget_or_text in Ec; [|intros E; by rewrite E in Hc].
  split; [|exists d; split_and!; [done|by rewrite <- E2|done]].
  apply pynum_val_inj in E3 as ->. split; try done; [by rewrite N, N'|by rewrite <- E2].
Qed.

Lemma memory_lawful m : lawful_memory (as_memory_object m).
Proof.
  intros ref item H. cbn [as_memory_object mem_to_context_item] in H. unfold to_context_item in H.
  apply ContextItem_init_ok in H as (K & _ & S & _ & A). split_and!; [by injection S|by injection K|done].
Qed.

Lemma sound_memory_valid m : sound_memory m -> canonical_uuid (rm_source_id m) = true ->
  validate_memory (as_memory_object m) = Ok (as_memory_object m).
Proof.
  intros [] C. unfold validate_memory. cbn [as_memory_object mem_metadata_version mem_approved mem_source_id mem_provenance mem_epistemic_status mem_confidence].
  rewrite sm_version0, sm_approved0. unfold SUPPORTED_MEMORY_METADATA_SCHEMA_VERSION.
  destruct (rm_source_id m) as [|x sid]; [done|]. unfold TrustedContext._validate_canonical_uuid. rewrite C. cbn [rbind].
  unfold Provenance_is_valid, EpistemicStatus_is_valid, in_str_set. cbn [hashable]. rewrite sm_provenance0, sm_epistemic0, sm_confidence0. done.
Qed.

(** The item of a sound memory. *)
Lemma sound_memory_item m ref : sound_memory m -> canonical_uuid (rm_source_id m) = true -> ref <> [] ->
  exists item, to_context_item m ref = Ok item /\ ci_content item = rm_content m /\ ci_internal_id item = rm_source_id m.
Proof.
  intros [] C Hr. unfold to_context_item, ContextItem_init. change (str_in (u "memory") _) with true. cbn [negb].
  destruct (rm_content m) as [|x c] eqn:Ec; [by destruct sm_content0|]. rewrite bool_decide_false by done.
  unfold Provenance_is_valid, EpistemicStatus_is_valid, in_str_set. cbn [hashable]. rewrite sm_provenance0, sm_epistemic0. cbn [require rbind].
  rewrite sm_confidence0. cbn [rbind]. destruct ref as [|y ref]; [done|].
  destruct (rm_source_id m) as [|z sid] eqn:Es; [done|]. rewrite (bool_decide_false (z :: sid = [])) by done. rewrite andb_false_r.
  assert (strip (z :: sid) <> []) as Hs.
  { apply (strip_nonblank _ z); [by left|]. apply canonical_chars with (c := z) in C; [|by left].
    destruct C as [->|C]; [done|]. apply bool_decide_eq_true in C. by apply hex_not_space. }
  rewrite bool_decide_false by done. unfold TrustedContext._validate_canonical_uuid. rewrite C.
  destruct (is_approved_memory _ _); eexists; (split; [reflexivity|done]).
Qed.

(** ** The context loader *)

(** A row of [chat_logs] whose text and timestamp are readable. *)
Definition stored_row (item : pyval) (role content : pystr) : Prop :=
  exists d id t dt, item = PDict d /\ dget d (u "role") = Some (PStr role) /\ dget d (u "content") = Some (PStr content)
    /\ dget d (u "id") = Some (PInt id) /\ dget d (u "created_at") = Some (PStr t)
    /\ str_in role VALID_HISTORY_ROLES = true /\ strip content <> [] /\ Z.of_nat (length content) <= MAX_MESSAGE_LENGTH /\ 0 < id
    /\ _parse_timestamp (PStr t) = Ok dt.

(** A document of [memories]: anything, but its identifier is a [uuid]. *)
Definition keyed_by_uuid (doc : pyval) : Prop :=
  forall d v, doc = PDict d -> dget d (u "id") = Some v -> exists id, v = PStr id /\ canonical_uuid id = true.

Lemma stored_row_passes item role content : stored_row item role content ->
  exists row, normalize_row item = Some row /\ validate_history_row (PDict row) = Ok row
    /\ forall i, exists m, history_message i row = Ok m /\ cm_role m = role /\ cm_content m = content.
Proof.
  intros (d & id & t & dt & -> & Er & Ec & Ei & Et & Hr & Hc & Hl & Hid & Hp). unfold normalize_row. rewrite Er, Ec, Ei, Et, Hr.
  replace (MAX_MESSAGE_LENGTH <? _) with false by (symmetry; apply Z.ltb_ge; lia). replace (id <=? 0) with false by (symmetry; apply Z.leb_gt; lia).
  cbn [negb orb]. eexists. split; [reflexivity|].
  assert (strip t <> []) as Ht by (intros E; cbn [_parse_timestamp] in Hp; by rewrite bool_decide_true in Hp).
  set (row := [_; _; _; _]).
  assert (dget row (u "role") = Some (PStr role)) as Gr by reflexivity. assert (dget row (u "content") = Some (PStr content)) as Gc by reflexivity.
  assert (dget row (u "id") = Some (PInt id)) as Gi by reflexivity. assert (dget row (u "created_at") = Some (PStr t)) as Gt by reflexivity.
  split.
  - unfold validate_history_row. replace (has_missing HISTORY_ROW_KEYS row) with false by reflexivity. rewrite Gr, Hr, Gc, Gi, Gt.
    cbn [negb]. rewrite !bool_decide_false by done. replace (id <=? 0) with false by (symmetry; apply Z.leb_gt; lia).
    unfold refuse_value_errors. rewrite Hp. reflexivity.
  - intros i. unfold history_message. rewrite Gr, Gc, Gi, Gt. unfold refuse_value_errors, _normalize_timestamp. rewrite Hp. cbn [rbind rcatch].
    unfold ChatMessage_init, in_str_set. cbn [hashable]. rewrite Hr. cbn [require rbind]. rewrite bool_decide_false by done.
    unfold local_ref. cbn [u String.list_ascii_of_string map app]. eexists. split; [reflexivity|done].
Qed.

Lemma stored_rows_pass items texts : Forall2 (fun i t => stored_row i t.1 t.2) items texts ->
  exists rows, mapM normalize_row items = Some rows /\ Forall (fun row => validate_history_row (PDict row) = Ok row) rows
    /\ Forall2 (fun row t => forall i, exists m, history_message i row = Ok m /\ cm_role m = t.1 /\ cm_content m = t.2) rows texts.
Proof.
  induction 1 as [|item [role content] items texts H _ (rows & E & F1 & F2)]; [by exists []|].
  destruct (stored_row_passes _ _ _ H) as (row & En & Ev & Em). exists (row :: rows).
  split; [|by split; constructor]. cbn. by rewrite En; cbn; rewrite E.
Qed.

Lemma validated_rows (rows : list pydict) : Forall (fun row => validate_history_row (PDict row) = Ok row) rows ->
  Forall2 (fun x y => validate_history_row x = Ok y) (map PDict rows) rows.
Proof. induction 1; constructor; done. Qed.

Lemma renumerate_total {A B C} (f : nat -> A -> result context_exn B) (R : B -> C -> Prop) l cs k :
  Forall2 (fun x c => forall i, exists y, f i x = Ok y /\ R y c) l cs -> exists ys, renumerate f k l = Ok ys /\ Forall2 R ys cs.
Proof.
  intros H. revert k. induction H as [|x c l cs Hx _ IH]; intros k; [by exists []|].
  destruct (Hx k) as (y & E & Hy), (IH (S k)) as (ys & E' & F). exists (y :: ys). cbn. rewrite E. cbn [rbind]. by rewrite E'; split; [|constructor].
Qed.

Lemma legacy_item_total kind content provenance sid :
  str_in kind [u "profile"; u "memory"; u "persona"] = true -> str_in provenance Provenance_allowlist = true ->
  is_approved_memory kind (u "unknown") = false -> strip content <> [] -> sid <> [] -> exists item, legacy_item kind content provenance sid = Ok item.
Proof.
  intros Hk Hp Ha Hc Hs. unfold legacy_item, ContextItem_init. rewrite Hk. cbn [negb].
  destruct content as [|x content]; [done|]. rewrite bool_decide_false by done.
  unfold Provenance_is_valid, EpistemicStatus_is_valid, in_str_set. cbn [hashable]. rewrite Hp.
  replace (str_in (u "unknown") EpistemicStatus_allowlist) with true by reflexivity. cbn [require rbind].
  replace (check_confidence (PFloat 0.3)) with (@Ok context_exn _ (NFloat 0.3)) by reflexivity. cbn [rbind].
  destruct sid as [|y sid]; [done|]. rewrite Ha. cbn [andb]. rewrite bool_decide_true by done. by eexists.
Qed.

Lemma profile_items_total profile : exists items, profile_items_of profile = Ok items.
Proof.
  unfold profile_items_of. case_bool_decide; [by eexists|]. destruct (json_encode true (PDict profile)) as [doc|] eqn:E; [|by eexists].
  cbn [json_encode] in E. apply rbind_ok in E as (members & _ & [= <-]).
  destruct (legacy_item_total (u "profile") (render (JObj (sort_keys members))) (u "legacy_profile_snapshot") (u "profile-1"))
    as [item ->]; [reflexivity..| |done|by eexists].
  apply (strip_nonblank _ 123); [|done]. cbn [render]. by left.
Qed.

Lemma persona_items_total persona : exists items, persona_items_of persona = Ok items.
Proof.
  unfold persona_items_of. case_bool_decide; [by eexists|].
  destruct (legacy_item_total (u "persona") (strip persona) (u "legacy_persona") (u "persona-1")) as [item ->]; [reflexivity..| |done|by eexists].
  by rewrite strip_idem.
Qed.

Definition state_dict (persona : option pystr) (profile : pydict) : pydict :=
  [(KStr (u "persona_config"), match persona with Some p => PStr p | None => PNone end); (KStr (u "user_profile"), PDict profile)].

Definition match_params (user : pystr) (embedding : pyval) : pydict :=
  [(KStr (u "query_embedding"), embedding); (KStr (u "match_threshold"), PFloat MATCH_THRESHOLD);
   (KStr (u "match_count"), PInt MATCH_COUNT); (KStr (u "filter_user_id"), PStr user)].

Lemma documents_usable docs : Forall keyed_by_uuid docs ->
  Forall (fun m => sound_memory m /\ canonical_uuid (rm_source_id m) = true) (omap read_document docs).
Proof.
  intros K. apply Forall_forall. intros m (doc & Hd & E)%list_elem_of_omap. rewrite Forall_forall in K.
  destruct (read_document_sound _ _ E) as (S & d & -> & Hi & _). split; [done|].
  destruct (K _ Hd d _ eq_refl Hi) as (id & [= ->] & C). done.
Qed.

(** No stored memory stops a turn.  When the two queries of the context loader
    answer, with readable rows of history and documents that hold anything next to
    a [uuid] identifier, the loader returns and the bundle of the prompt is built:
    it has the history, oldest first, and in the order of the retrieval exactly the
    memories of the documents that are approved, of the supported version and well
    formed; every other document is left out. *)
Theorem context_loader_total (self : @MemoryManager DB) client encode user message embedding persona profile s items texts s1 error docs s2 policy :
  mm_supabase self = Some client -> mm_embedding_model self = Some encode -> encode message = Some embedding ->
  mc_history client user HISTORY_LIMIT s = (Answer false (Some (PList items)), s1) -> Forall2 (fun i t => stored_row i t.1 t.2) items texts ->
  mc_match_memories client (match_params user embedding) s1 = (Answer error (Some (PList docs)), s2) -> Forall keyed_by_uuid docs ->
  strip policy <> [] ->
  exists loaded b, load_context_data self user message (state_dict persona profile) s = (Ok loaded, s2)
    /\ build_context_bundle policy loaded = Ok b
    /\ Forall lawful_memory (lc_memories loaded)
    /\ map (fun m => (cm_role m, cm_content m)) (cb_history b) = rev texts
    /\ map ci_content (cb_memory_items b) = map rm_content (omap read_document docs)
    /\ map ci_internal_id (cb_memory_items b) = map rm_source_id (omap read_document docs)
    /\ Forall sound_memory (omap read_document docs).
Proof.
  intros Hs Hm He Hh Hrows Hd K Hp. apply documents_usable in K. set (ms := omap read_document docs) in *.
  destruct (stored_rows_pass _ _ Hrows) as (rows & En & Fv & Fm).
  assert (List.filter usable_memory ms = ms) as Eu.
  { clearbody ms. clear -K. induction K as [|m ms [S _] _ IH]; [done|]. cbn [List.filter]. unfold usable_memory.
    rewrite (sm_approved _ S), (sm_version _ S). cbn [andb]. rewrite Z.eqb_refl. f_equal. exact IH. }
  set (p := match persona with Some p => p | None => [] end).
  set (loaded := mkLoadedContextData (rev rows) (map as_memory_object ms) profile p).
  assert (load_context_data self user message (state_dict persona profile) s = (Ok loaded, s2)) as E.
  { unfold load_context_data, load_recent_history. rewrite Hs, Hh, En.
    unfold _retrieve_relevant_entries. rewrite Hs, Hm, He. fold (match_params user embedding). rewrite Hd. fold ms. rewrite Eu.
    change (dget_or (state_dict persona profile) (u "user_profile") (PDict [])) with (PDict profile).
    change (dget_or (state_dict persona profile) (u "persona_config") (PStr [])) with (match persona with Some p => PStr p | None => PNone end).
    assert ((if truthy (match persona with Some p => PStr p | None => PNone end) then match persona with Some p => PStr p | None => PNone end else PStr [])
            = PStr p) as -> by (by destruct persona as [[|]|]).
    unfold LoadedContextData_init. rewrite (rmap_Forall2 _ _ (rev rows)).
    - cbn [rbind]. rewrite (rmap_Forall2 _ _ (map as_memory_object ms)); [done|].
      clear -K. induction K as [|m ms [S C] _ IH]; constructor; [by apply sound_memory_valid|exact IH].
    - apply Forall_rev in Fv. by apply validated_rows. }
  destruct (renumerate_total history_message (fun m t => cm_role m = t.1 /\ cm_content m = t.2) (rev rows) (rev texts) 0) as (history & Eh & Rh).
  { apply Forall2_reverse in Fm. unfold reverse in Fm. by rewrite <- !rev_alt in Fm. }
  destruct (renumerate_total memory_item (fun i m => ci_content i = rm_content m /\ ci_internal_id i = rm_source_id m) (map as_memory_object ms) ms 0)
    as (mems & Em & Rm).
  { clear -K. induction K as [|m ms [S C] _ IH]; constructor; [|exact IH]. intros i.
    destruct (sound_memory_item m (local_ref (u "mem") i) S C) as (item & Ei & ? & ?); [done|]. exists item. split; [|done].
    unfold memory_item. cbn [as_memory_object mem_to_context_item]. by rewrite Ei. }
  destruct (profile_items_total profile) as [pro Epro], (persona_items_total p) as [per Eper].
  eexists loaded, _. split; [done|]. split.
  { unfold build_context_bundle. cbn [loaded lc_history_rows lc_memories lc_profile lc_persona]. rewrite Eh. cbn [rbind]. rewrite Em. cbn [rbind].
    rewrite Epro. cbn [rbind]. rewrite Eper. cbn [rbind]. unfold ContextBundle_init. cbn [cb_trusted_policy]. by rewrite bool_decide_false. }
  cbn [cb_history cb_memory_items loaded lc_memories]. split_and!.
  - apply Forall_forall. intros x (m & <- & _)%list_elem_of_In%in_map_iff. apply memory_lawful.
  - clear -Rh. induction Rh as [|m [role content] l l' [E1 E2] _ IH]; [done|]. cbn [map fst snd] in *. by rewrite E1, E2, IH.
  - clear -Rm. induction Rm as [|m t l l' [E _] _ IH]; [done|]. cbn [map]. by f_equal.
  - clear -Rm. induction Rm as [|m t l l' [_ E] _ IH]; [done|]. cbn [map]. by f_equal.
  - eapply Forall_impl; [exact K|]. by intros m [S _].
Qed.

End Theorems.

(** [save_turn] returns a reference only to two distinct rows of the user that the
    database said it stored with exactly the two texts. *)
Lemma save_turn_confirmed {DB} (self : @MemoryManager DB) user user_msg bot_msg s r s' :
  save_turn self user user_msg bot_msg s = (Ok r, s') ->
  exists client x y du da, mm_supabase self = Some client
    /\ mc_insert_chat client [chat_row user (u "user") user_msg; chat_row user (u "assistant") bot_msg] s = (Answer false (Some (PList [x; y])), s')
    /\ [PDict du; PDict da] ≡ₚ [x; y]
    /\ dget du (u "id") = Some (PInt (pt_source_chat_log_id r)) /\ dget da (u "id") = Some (PInt (pt_assistant_chat_log_id r))
    /\ dget du (u "user_id") = Some (PStr user) /\ dget da (u "user_id") = Some (PStr user)
    /\ dget du (u "content") = Some (PStr user_msg) /\ dget da (u "content") = Some (PStr bot_msg)
    /\ 0 < pt_source_chat_log_id r /\ 0 < pt_assistant_chat_log_id r /\ pt_source_chat_log_id r <> pt_assistant_chat_log_id r.
Proof.
  assert (forall rec a, check_record user rec = Some a -> exists d, rec = PDict d /\ dget d (u "id") = Some (PInt a.1.1)
    /\ dget d (u "role") = Some (PStr a.1.2) /\ dget d (u "user_id") = Some (PStr user) /\ dget d (u "content") = Some a.2 /\ 0 < a.1.1) as C.
  { intros rec a H. unfold check_record in H. destruct rec as [| | | | | | |d| |]; try discriminate H. exists d.
    destruct (dget d (u "id")) as [[| |id| | | | | | |]|]; try discriminate H. destruct (dget d (u "role")) as [[| | | |role| | | | |]|]; try discriminate H.
    destruct (dget d (u "user_id")) as [[| | | |owner| | | | |]|]; try discriminate H. destruct (dget d (u "content")) as [content|]; [|discriminate H].
    destruct (_ || _) eqn:B in H; [discriminate H|]. injection H as <-. apply orb_false_iff in B as [[Hid Ho]%orb_false_iff _].
    apply Z.leb_gt in Hid. apply negb_false_iff, str_eqb_eq in Ho as ->. by split_and!. }
  assert (forall v t, py_eq v (PStr t) = true -> v = PStr t) as Q by (intros v t; destruct v; cbn; try discriminate; by intros ->%str_eqb_eq).
  unfold save_turn. intros H. destruct (mm_supabase self) as [client|]; [|discriminate H]. destruct (_ || _); [discriminate H|].
  destruct (mc_insert_chat _ _ _) as [[code| |[] [[| | | | |[|x [|y []]]| | | |]|]] s1] eqn:E; try discriminate H.
  destruct (check_record user x) as [a|] eqn:Ca; [|discriminate H]. destruct (check_record user y) as [b|] eqn:Cb; [|discriminate H].
  injection H as H <-. apply C in Ca as (dx & -> & Ix & Rx & Ux & Tx & Px). apply C in Cb as (dy & -> & Iy & Ry & Uy & Ty & Py).
  unfold confirm_turn in H. destruct (str_eqb a.1.2 (u "user")); cbn beta iota in H; destruct (_ || _) eqn:B in H; try discriminate H;
    injection H as <-; cbn [pt_source_chat_log_id pt_assistant_chat_log_id];
    apply orb_false_iff in B as [B Tb%negb_false_iff%Q]; apply orb_false_iff in B as [B Ta%negb_false_iff%Q];
    apply orb_false_iff in B as [_ N%Z.eqb_neq]; rewrite Ta in *; rewrite Tb in *.
  - exists client, (PDict dx), (PDict dy), dx, dy. by split_and!.
  - exists client, (PDict dx), (PDict dy), dy, dx. split_and!; try done. apply Permutation_swap.
Qed.

(** ** A concrete load *)

Definition hex_value (s : pystr) : Z :=
  fold_left (fun acc c => acc * 16 + Z.of_N (if (c <? 58)%N then c - 48 else c - 87)%N) s 0.

Definition plain_hex : HexText.
Proof.
  refine {| int_of_hex := fun s => if bool_decide (s = []) || negb (_is_hex s) then None else Some (hex_value s) |}.
  intros s Hs ->. rewrite bool_decide_false by done. by eexists.
Defined.

Definition sample_document (approved : pyval) (content : string) : pyval :=
  PDict [(KStr (u "id"), PStr sample_uuid); (KStr (u "content"), PStr (u content)); (KStr (u "similarity"), PFloat 0.8);
         (KStr (u "metadata"), PDict [(KStr (u "schema_version"), PInt 1); (KStr (u "approved"), approved);
            (KStr (u "provenance"), PStr (u "user_confirmed")); (KStr (u "epistemic_status"), PStr (u "approved")); (KStr (u "confidence"), PFloat 0.9)])].

Definition sample_documents : list pyval :=
  [sample_document (PBool true) "likes tea"; sample_document (PStr (u "yes")) "ignored"; PInt 7].

Definition sample_client : memory_client unit :=
  let nothing := (NoAnswer, tt) in
  mkMemoryClient (fun _ _ => nothing) (fun _ _ => nothing) (fun _ _ _ => nothing)
    (fun _ _ _ => (Answer false (Some (PList [PDict late_row; PDict early_row])), tt))
    (fun _ _ => nothing) (fun _ _ _ => nothing) (fun _ _ => nothing)
    (fun _ _ => (Answer false (Some (PList sample_documents)), tt)).

Definition sample_manager : @MemoryManager unit := mkMemoryManager (Some sample_client) (Some (fun _ => Some (PList []))) true.

(** Of the three documents only the approved one reaches the prompt. *)
Lemma context_loader_total_witness : exists loaded b,
  @load_context_data unit iso_basic plain_hex sample_manager (u "ana") (u "hi") (state_dict None []) tt = (Ok loaded, tt)
  /\ @build_context_bundle flat_repr iso_basic (u "policy") loaded = Ok b
  /\ map ci_content (cb_memory_items b) = [u "likes tea"].
Proof.
  edestruct (@context_loader_total unit flat_repr iso_basic plain_hex sample_manager sample_client (fun _ => Some (PList [])) (u "ana") (u "hi") (PList [])
    None [] tt [PDict late_row; PDict early_row] [(u "assistant", u "fine"); (u "user", u "how are you")] tt false sample_documents tt (u "policy"))
    as (loaded & b & E & Eb & _ & _ & M & _).
  - reflexivity.
  - reflexivity.
  - reflexivity.
  - reflexivity.
  - constructor; [|constructor; [|constructor]]; eexists _, _, _, _; (split; [reflexivity|]); (split; [reflexivity|]); (split; [reflexivity|]);
      (split; [reflexivity|]); (split; [reflexivity|]); (split; [reflexivity|]); (split; [by vm_compute|]); (split; [vm_compute; discriminate|]);
      (split; [lia|]); vm_compute; reflexivity.
  - reflexivity.
  - unfold sample_documents. repeat (apply Forall_cons; split); [..|by apply Forall_nil]; intros d v Ed Ev; try discriminate Ed; injection Ed as <-;
      exists sample_uuid; (split; [vm_compute in Ev; injection Ev as <-; reflexivity|reflexivity]).
  - by vm_compute.
  - exists loaded, b. split; [exact E|]. split; [exact Eb|]. rewrite M. vm_compute. reflexivity.
Defined.
