(* ===== verification/Archival.v ===== *)
(** * Archival extraction (backend/archival_memory.py, and
    [ConversationEngine.run_archival_extraction] of backend/engine.py)

    The background task that reads back a persisted user message, fits it into a
    prompt, asks the model for facts, validates what comes back and stores it once.
    The memory manager is the one of [WebMemory]; the model, the clocks, [json.loads]
    and cancellations are arguments. *)

From S2P Require Import Prelude PyFloat FloatRound PyValue Json Utf8 Admission TrustedContext ProviderEnvelope TurnExecution.
From S2P Require Import StorageContracts LocalStorage GroqLanguageModel CompanionRuntime ProcessTurn WebMemory.

Local Open Scope Z_scope.

(** ** Validation of an extraction *)

Definition ARCHIVAL_SCHEMA_VERSION : Z := 1.
Definition EXTRACTOR_VERSION : Z := 1.

(** [ArchivalValidationError], and the [OverflowError] of [math.isfinite]. *)
Inductive archival_exn : Type := ArchivalValidationError | ArchivalOverflow.

Definition compute_idempotency_key `{SH : Sha256} (user_id : pystr) (source_chat_log_id extractor_version : Z) : pystr :=
  sha256 (user_id ++ u ":" ++ render_int source_chat_log_id ++ u ":" ++ render_int extractor_version).

(** [^[a-z0-9][a-z0-9_-]*$] with [re.match]: [$] also matches before a last newline. *)
Definition tag_start (c : N) : bool := (((97 <=? c) && (c <=? 122)) || ((48 <=? c) && (c <=? 57)))%N.
Definition tag_char (c : N) : bool := tag_start c || ((c =? 95) || (c =? 45))%N.
Definition tag_matches (s : pystr) : bool :=
  match s with
  | c :: s' => tag_start c && (forallb tag_char s' || match rev s' with 10%N :: r => forallb tag_char r | _ => false end)
  | [] => false
  end.

Section Parsing.
Context `{UL : UnicodeLower}.

Definition parse_tag (tag : pyval) : result archival_exn pystr :=
  match tag with
  | PStr s =>
      let norm := str_lower (strip s) in
      if bool_decide (norm = []) || (32 <? Z.of_nat (length norm)) || negb (tag_matches norm) then Err ArchivalValidationError
      else Ok norm
  | _ => Err ArchivalValidationError
  end.

(** The importance as a float. *)
Definition parse_importance (v : pyval) : result archival_exn float :=
  match v with
  | PInt z =>
      match int_to_float z with
      | None => Err ArchivalOverflow
      | Some f => if (0 <=? z) && (z <=? 1) then Ok f else Err ArchivalValidationError
      end
  | PFloat f => if isfinite f && in_range 0 1 f then Ok f else Err ArchivalValidationError
  | _ => Err ArchivalValidationError
  end.

Definition FACT_KEYS : list pystr := [u "content"; u "importance"; u "tags"].

Definition parse_fact (fact : pyval) : result archival_exn ArchivalFact :=
  match fact with
  | PDict d =>
      if has_unknown FACT_KEYS d then Err ArchivalValidationError else
      match dget d (u "content") with
      | Some (PStr content) =>
          let trimmed := strip content in
          if bool_decide (trimmed = []) || (500 <? Z.of_nat (length trimmed)) then Err ArchivalValidationError else
          let* importance := parse_importance (default PNone (dget d (u "importance"))) in
          match dget d (u "tags") with
          | Some (PList tags) =>
              if 8 <? Z.of_nat (length tags) then Err ArchivalValidationError else
              let* norm := rmap parse_tag tags in
              Ok (mkArchivalFact trimmed importance (dedup [] norm))
          | _ => Err ArchivalValidationError
          end
      | _ => Err ArchivalValidationError
      end
  | _ => Err ArchivalValidationError
  end.

Definition ENVELOPE_KEYS : list pystr := [u "facts"; u "schema_version"; u "extractor_version"].

Definition parse_archival_extraction (raw : pyval) : result archival_exn ArchivalExtractionEnvelope :=
  match raw with
  | PDict d =>
      if has_unknown ENVELOPE_KEYS d then Err ArchivalValidationError else
      match dget d (u "schema_version"), dget d (u "extractor_version"), dget d (u "facts") with
      | Some (PInt schema), Some (PInt extractor), Some (PList facts) =>
          if negb (schema =? ARCHIVAL_SCHEMA_VERSION) || negb (extractor =? EXTRACTOR_VERSION) || (5 <? Z.of_nat (length facts))
          then Err ArchivalValidationError else
          let* parsed := rmap parse_fact facts in
          Ok (mkArchivalEnvelope parsed schema extractor)
      | _, _, _ => Err ArchivalValidationError
      end
  | _ => Err ArchivalValidationError
  end.

End Parsing.

(** ** The prompt *)

(** Double quotes are written as single ones here. *)
Definition quoted (s : string) : pystr := map (fun c => if (c =? 39)%N then 34%N else c) (u s).

Definition PROMPT_HEAD : pystr :=
  [10%N] ++ u "Extract facts from this user message for archival memory." ++ [10%N]
  ++ u "Facts should be significant, long-term personal details." ++ [10%N]
  ++ quoted "Return JSON ONLY matching: {'facts':[...], 'schema_version':1, 'extractor_version':1}" ++ [10%N]
  ++ u "Maximum of 5 facts. If no relevant facts, return empty facts list." ++ [10%N]
  ++ quoted "User message: '".
Definition PROMPT_TAIL : pystr := quoted "'" ++ [10%N].

Definition _build_archival_prompt (user_message : pystr) : pystr := PROMPT_HEAD ++ user_message ++ PROMPT_TAIL.

Section Extraction.
Context `{FR : FloatRepr, SH : Sha256, UL : UnicodeLower, JL : JsonLoads}.

Definition archival_messages (text : pystr) : list pyval :=
  [PDict [(KStr (u "role"), PStr (u "user")); (KStr (u "content"), PStr (_build_archival_prompt text))]].

Definition prompt_ok (text : pystr) : result envelope_exn unit :=
  validate_provider_input (PList (archival_messages text)) PROVIDER_INPUT_MAX_ESTIMATED_UNITS.

(** The retries with ever smaller sizes; [None] when none fits. *)
Fixpoint fit_smaller (user_message : pystr) (max_content_bytes : Z) (factors : list float) : result envelope_exn (option (list pyval)) :=
  match factors with
  | [] => Ok None
  | factor :: rest =>
      let* smaller := scaled max_content_bytes factor in
      if smaller <? 10 then fit_smaller user_message max_content_bytes rest else
      let* truncated := _truncate_utf8_safe_head_tail user_message smaller 0.6 in
      match prompt_ok truncated.1 with
      | Ok _ => Ok (Some (archival_messages truncated.1))
      | Err (ProviderEnvelopeError _ _ _) => fit_smaller user_message max_content_bytes rest
      | Err e => Err e
      end
  end.

Definition SMALLER_FACTORS : list float := [0.8; 0.6; 0.4; 0.2; 0.1]%float.

(** The messages to send; only [ProviderEnvelopeError] is caught. *)
Definition fit_prompt (user_message : pystr) : result envelope_exn (option (list pyval)) :=
  match prompt_ok user_message with
  | Ok _ => Ok (Some (archival_messages user_message))
  | Err (ProviderEnvelopeError _ _ _) =>
      let* overhead := estimate_provider_input_units (PList (archival_messages [])) in
      let available := Z.max 100 (PROVIDER_INPUT_MAX_ESTIMATED_UNITS - overhead) in
      let* max_content_bytes := scaled available 0.9 in
      let* truncated := _truncate_utf8_safe_head_tail user_message max_content_bytes 0.6 in
      match prompt_ok truncated.1 with
      | Ok _ => Ok (Some (archival_messages truncated.1))
      | Err (ProviderEnvelopeError _ _ _) => fit_smaller user_message max_content_bytes SMALLER_FACTORS
      | Err e => Err e
      end
  | Err e => Err e
  end.

(** ** The task *)

(** The time limits of the task, within its own budget. *)
Definition archival_config : result config_exn TurnExecutionConfig :=
  TurnExecutionConfig_init (PFloat 15) (PFloat 2) (PFloat 10) (PFloat 3) (PFloat 8) (PInt 1)
    (PFloat 0.25) (PFloat 0.75) (PFloat 0.1) (PInt 50000).

Record archival_env : Type := mkArchivalEnv {
  av_start : float;                                    (** the clock as the budget is made *)
  av_read_now : float;
  av_read : read_fate;
  av_model : list pyval -> TurnBudget -> outcome unit pystr;  (** [extract_archival] *)
  av_write_now : float;
  av_interrupted : bool }.                             (** a cancellation arrives during the write *)

(** How the coroutine ends: it returns, it is cancelled, or an exception leaves it. *)
Inductive archival_end : Type :=
| ArchivalReturns
| ArchivalCancelled
| ArchivalRaises.

Definition duplicate_allowed (e : work_exn manager_exn) : bool :=
  match e with OtherException ArchivalDuplicateError => true | _ => false end.

Context {DB : Type} (self : @MemoryManager DB) (enabled : bool) (supabase_timeout : pynum) (env : archival_env).

Definition manager_outcome {T} (r : result manager_exn T) : outcome manager_exn T :=
  match r with Ok v => Returned v | Err e => Raised (OtherException e) end.

(** Step 3. *)
Definition store_extraction (budget : TurnBudget) (ref : PersistedTurnRef) (envelope : ArchivalExtractionEnvelope) (s : DB)
    : archival_end * list pystr * DB :=
  let key := compute_idempotency_key (pt_user_id ref) (pt_source_chat_log_id ref) EXTRACTOR_VERSION in
  if (remaining budget (av_write_now env) <=? 0)%float
  then (ArchivalReturns, [u "Event: archival_extraction_store_failed"], s) else
  let '(r, s') := store_archival_extraction self (pt_user_id ref) (pt_source_chat_log_id ref) key envelope s in
  match run_blocking_write duplicate_allowed budget (av_write_now env) (av_interrupted env) (manager_outcome r) with
  | Ok _ => (ArchivalReturns, [], s')
  | Err CancelledError => (ArchivalCancelled, [], s')
  | Err (OtherException ArchivalDuplicateError) => (ArchivalReturns, [u "Event: archival_extraction_duplicate"], s')
  | Err _ => (ArchivalReturns, [u "Event: archival_extraction_store_failed"], s')
  end.

(** Step 2 and the validation of its result. *)
Definition ask_extraction (budget : TurnBudget) (messages : list pyval) : archival_end * list pystr + ArchivalExtractionEnvelope :=
  match av_model env messages budget with
  | Raised CancelledError => inl (ArchivalCancelled, [])
  | Raised _ => inl (ArchivalReturns, [u "Event: archival_extraction_llm_failed"])
  | Returned text =>
      match json_loads text with
      | Loaded raw =>
          match parse_archival_extraction raw with
          | Ok envelope => inr envelope
          | Err _ => inl (ArchivalReturns, [u "Event: archival_extraction_invalid"])
          end
      | _ => inl (ArchivalReturns, [u "Event: archival_extraction_invalid"])
      end
  end.

Definition run_archival_extraction (ref : PersistedTurnRef) (s : DB) : archival_end * list pystr * DB :=
  if negb enabled then (ArchivalReturns, [], s) else
  match archival_config with
  | Err _ => (ArchivalRaises, [], s)
  | Ok config =>
      let budget := create_budget config (av_start env) in
      let '(r, s1) :=
        if num_leb (num_min (NFloat (remaining_before_reserve budget (av_read_now env))) supabase_timeout) (NFloat 0)
        then (Err MRuntimeError, s)                    (** the query is not sent *)
        else load_persisted_user_message self (pt_user_id ref) (pt_source_chat_log_id ref) s in
      match run_blocking_read (fun _ => false) budget (av_read_now env) supabase_timeout
              (fun _ => fate_outcome (av_read env) (manager_outcome r)) with
      | Err CancelledError => (ArchivalCancelled, [], s1)
      | Err _ => (ArchivalReturns, [u "Event: archival_extraction_load_failed"], s1)
      | Ok user_message =>
          match fit_prompt user_message with
          | Err _ => (ArchivalRaises, [], s1)
          | Ok None => (ArchivalReturns, [u "Event: archival_extraction_budget_exceeded"], s1)
          | Ok (Some messages) =>
              match ask_extraction budget messages with
              | inl (ending, log) => (ending, log, s1)
              | inr envelope => store_extraction budget ref envelope s1
              end
          end
      end
  end.

End Extraction.
