(* ===== verification/ArchivalProperties.v ===== *)
(** * Properties of the archival extraction

    The prompt always fits, whatever the message; and a turn is extracted at most
    once, with facts that passed the validation. *)

From S2P Require Import Prelude PyFloat FloatRound PyValue Json Utf8 Admission JsonCost TrustedContext EnvelopeTheorems ProviderEnvelope ContextFit.
From S2P Require Import StorageContracts LocalStorage TurnExecution StorageProperties GroqLanguageModel CompanionRuntime ProcessTurn WebMemory Archival.

Local Open Scope Z_scope.

(** ** The prompt *)

Lemma hex_digit_width n : (n < 16)%N -> utf8_width (hex_digit n) = 1%nat.
Proof. intros H. unfold hex_digit, utf8_width. destruct (N.ltb_spec n 10); by rewrite (proj2 (N.ltb_lt _ _)) by lia. Qed.

(** A character costs at most six bytes for each of its own. *)
Lemma esc_width_upper s n : esc_len s = Some n -> (n <= 6 * width s)%nat.
Proof.
  revert n. induction s as [|c s IH]; intros n; [by intros [= <-]|].
  change (c :: s) with ([c] ++ s). rewrite esc_len_app, width_app.
  destruct (esc_len [c]) as [k|] eqn:K, (esc_len s) as [m|]; try done. cbn [oplus]. intros [= <-]. specialize (IH m eq_refl).
  assert (k <= 6 * width [c])%nat; [|lia]. unfold esc_len in K. rewrite bind_cons in K. change ([] ≫= _) with (@nil N) in K.
  rewrite app_nil_r in K. unfold utf8_len in K. destruct (existsb _ _); [done|]. injection K as <-.
  unfold width, escape_char. repeat case_match; Nbool; subst; cbn [sum_list_with].
  all: rewrite ?hex_digit_width by (try apply N.Div0.div_lt_upper_bound; try apply N.mod_lt; lia).
  all: unfold utf8_width; Ncase; lia.
Qed.

Section Prompt.
Context `{FR : FloatRepr}.

(** The units of the prompt without a message. *)
Definition PROMPT_OVERHEAD : Z := 330.

Lemma prompt_units text k : esc_len text = Some k ->
  estimate_provider_input_units (PList (archival_messages text)) = Ok (PROMPT_OVERHEAD + Z.of_nat k).
Proof.
  intros K. unfold estimate_provider_input_units, archival_messages.
  change (json_encode true _) with (@Ok json_exn _ (JArr [message_doc (u "user") (_build_archival_prompt text)])).
  unfold text_units. fold (doc_len (JArr [message_doc (u "user") (_build_archival_prompt text)])).
  rewrite array_len. cbn [fmap list_fmap osum]. rewrite message_len. unfold _build_archival_prompt. rewrite !esc_len_app, K.
  change (esc_len PROMPT_HEAD) with (Some 296%nat). change (esc_len PROMPT_TAIL) with (Some 4%nat). change (esc_len (u "user")) with (Some 4%nat).
  cbn [oplus length]. unfold PROMPT_OVERHEAD. f_equal. lia.
Qed.

Lemma prompt_ok_units text k : esc_len text = Some k ->
  prompt_ok text = if PROVIDER_INPUT_MAX_ESTIMATED_UNITS <? PROMPT_OVERHEAD + Z.of_nat k
                   then Err (ProviderEnvelopeError (u "budget_exceeded") (PROMPT_OVERHEAD + Z.of_nat k) PROVIDER_INPUT_MAX_ESTIMATED_UNITS)
                   else Ok tt.
Proof.
  intros K. unfold prompt_ok, validate_provider_input. rewrite (prompt_units _ _ K).
  replace (rmap validate_message (archival_messages text)) with (@Ok envelope_exn _ [tt]) by reflexivity. reflexivity.
Qed.

Lemma encodable_cost text : encodable text -> exists k, esc_len text = Some k /\ (k <= 6 * width text)%nat.
Proof.
  intros E. destruct (clean_esc text) as [k K]; [by apply encodable_clean|]. exists k. split; [done|]. by apply esc_width_upper.
Qed.

(** A truncation of the message to a moderate bound, at any stage. *)
Definition cut_of (text t : pystr) : Prop :=
  t = text \/ exists max_bytes cut, _truncate_utf8_safe_head_tail text max_bytes 0.6 = Ok (t, cut).

Lemma fit_smaller_total text factors : encodable text ->
  Forall (fun f => exists k, scaled 14103 f = Ok k /\ 10 <= k <= 14103) factors -> (exists k, last factors = Some k /\ scaled 14103 k = Ok 1410) ->
  exists t, fit_smaller text 14103 factors = Ok (Some (archival_messages t)) /\ prompt_ok t = Ok tt /\ cut_of text t.
Proof.
  intros E F (l & L & S). induction F as [|f factors (k & Ek & Bk) _ IH]; [discriminate L|]. cbn [fit_smaller].
  rewrite Ek. cbn [rbind]. replace (k <? 10) with false by lia.
  destruct (truncate_head_tail_bounded text k 0.6 E ltac:(lia) ltac:(reflexivity)) as (out & cut & Et & Eo & W & _).
  destruct (encodable_cost out Eo) as (c & Hc & Bc). rewrite Et. cbn [rbind fst].
  rewrite (prompt_ok_units _ _ Hc). destruct (Z.ltb_spec PROVIDER_INPUT_MAX_ESTIMATED_UNITS (PROMPT_OVERHEAD + Z.of_nat c)) as [Big|Fits].
  - destruct factors as [|f' factors]; [|by apply IH]. exfalso. cbn [last] in L. injection L as <-. rewrite Ek in S. injection S as ->.
    unfold PROVIDER_INPUT_MAX_ESTIMATED_UNITS, PROMPT_OVERHEAD in Big. lia.
  - exists out. split; [done|]. split; [|right; by exists k, cut].
    rewrite (prompt_ok_units _ _ Hc). by replace (_ <? _) with false by lia.
Qed.

Lemma fit_prompt_total (text : pystr) (encodes : encodable text) :
  exists t, fit_prompt text = Ok (Some (archival_messages t)) /\ prompt_ok t = Ok tt /\ cut_of text t
    /\ (forall k, esc_len text = Some k -> PROMPT_OVERHEAD + Z.of_nat k <= PROVIDER_INPUT_MAX_ESTIMATED_UNITS -> t = text).
Proof.
  unfold fit_prompt. destruct (encodable_cost text encodes) as (c & Hc & _). rewrite (prompt_ok_units _ _ Hc).
  destruct (Z.ltb_spec PROVIDER_INPUT_MAX_ESTIMATED_UNITS (PROMPT_OVERHEAD + Z.of_nat c)) as [Big|Fits].
  2: { exists text. split; [done|]. split; [|split; [by left|done]]. rewrite (prompt_ok_units _ _ Hc). by replace (_ <? _) with false by lia. }
  rewrite (prompt_units [] 0 eq_refl). cbn [rbind]. change (Z.max 100 _) with 15670.
  replace (scaled 15670 0.9) with (@Ok envelope_exn _ 14103) by (vm_compute; reflexivity). cbn [rbind].
  destruct (truncate_head_tail_bounded text 14103 0.6 encodes ltac:(lia) ltac:(reflexivity)) as (out & cut & Et & Eo & W & _).
  rewrite Et. cbn [rbind fst]. destruct (encodable_cost out Eo) as (k & Hk & _). rewrite (prompt_ok_units _ _ Hk).
  assert (forall t : pystr, forall k, esc_len text = Some k -> PROMPT_OVERHEAD + Z.of_nat k <= PROVIDER_INPUT_MAX_ESTIMATED_UNITS -> t = text) as Whole
    by (intros t k' Hk'; rewrite Hc in Hk'; injection Hk' as <-; lia).
  destruct (Z.ltb_spec PROVIDER_INPUT_MAX_ESTIMATED_UNITS (PROMPT_OVERHEAD + Z.of_nat k)) as [Big'|Fits'].
  - destruct (fit_smaller_total text SMALLER_FACTORS encodes) as (t & E & P & C).
    + unfold SMALLER_FACTORS. repeat (apply Forall_cons; split); [..|by apply Forall_nil]; (eexists; split; [vm_compute; reflexivity|lia]).
    + eexists. split; [reflexivity|]. vm_compute. reflexivity.
    + exists t. split_and!; [exact E|done..|apply Whole].
  - exists out. split; [done|]. split_and!; [|right; by exists 14103, cut|apply Whole].
    rewrite (prompt_ok_units _ _ Hk). by replace (_ <? _) with false by lia.
Qed.

(** The prompt of the extraction always fits.  Whatever the persisted message, the
    task finds a prompt within the provider's budget: of the whole message when it
    fits, and otherwise of a head-and-tail truncation of it; the loop over smaller
    sizes never runs out of sizes. *)
Theorem archival_prompt_fits (text : pystr) (encodes : encodable text) :
  exists t, fit_prompt text = Ok (Some (archival_messages t)) /\ prompt_ok t = Ok tt /\ cut_of text t
    /\ (forall k, esc_len text = Some k -> PROMPT_OVERHEAD + Z.of_nat k <= PROVIDER_INPUT_MAX_ESTIMATED_UNITS -> t = text).
Proof. exact (fit_prompt_total text encodes). Qed.

End Prompt.

(** ** What passes the validation *)

Record valid_fact (f : ArchivalFact) : Prop := {
  vf_content : strip (af_content f) = af_content f /\ af_content f <> [] /\ Z.of_nat (length (af_content f)) <= 500;
  vf_importance : in_range 0 1 (af_importance f) = true;
  vf_tags : (length (af_tags f) <= 8)%nat /\ NoDup (af_tags f);
  vf_tag : Forall (fun t => tag_matches t = true /\ (length t <= 32)%nat) (af_tags f) }.

Record valid_envelope (e : ArchivalExtractionEnvelope) : Prop := {
  ve_facts : (length (ae_facts e) <= 5)%nat /\ Forall valid_fact (ae_facts e);
  ve_versions : ae_schema_version e = ARCHIVAL_SCHEMA_VERSION /\ ae_extractor_version e = EXTRACTOR_VERSION }.

Lemma dedup_NoDup seen l : NoDup (dedup seen l).
Proof.
  revert seen. induction l as [|x l IH]; intros seen; cbn [dedup]; [constructor|]. destruct (str_in x seen); [done|].
  constructor; [|done]. rewrite dedup_elem. intros [_ N]. apply N. by left.
Qed.

Lemma dedup_length seen l : (length (dedup seen l) <= length l)%nat.
Proof. revert seen. induction l as [|x l IH]; intros seen; cbn [dedup length]; [done|]. destruct (str_in x seen); cbn [length]; [|specialize (IH (x :: seen)); lia]. specialize (IH seen). lia. Qed.

Section Validation.
Context `{UL : UnicodeLower}.

Lemma parse_importance_range v f : parse_importance v = Ok f -> in_range 0 1 f = true.
Proof.
  destruct v; cbn [parse_importance]; try discriminate.
  - destruct (int_to_float z) eqn:E; [|discriminate]. destruct (_ && _) eqn:B; [|discriminate]. intros [= <-].
    apply andb_true_iff in B as [L%Z.leb_le H%Z.leb_le]. assert (z = 0 \/ z = 1) as [-> | ->] by lia; vm_compute in E; injection E as <-; reflexivity.
  - destruct (isfinite f0); [|discriminate]. cbn [andb]. destruct (in_range 0 1 f0) eqn:R; [|discriminate]. by intros [= <-].
Qed.

Lemma parse_fact_valid v f : parse_fact v = Ok f -> valid_fact f.
Proof.
  unfold parse_fact. intros H. destruct v as [| | | | | | |d| |]; try discriminate H. destruct (has_unknown _ _); [discriminate H|].
  destruct (dget d (u "content")) as [[| | | |content| | | | |]|]; try discriminate H.
  destruct (_ || _) eqn:B in H; [discriminate H|]. apply orb_false_iff in B as [Bc%bool_decide_eq_false Bl%Z.ltb_ge].
  apply rbind_ok in H as (importance & I & H). destruct (dget d (u "tags")) as [[| | | | |tags| | | |]|]; try discriminate H.
  destruct (Z.ltb_spec 8 (Z.of_nat (length tags))) as [|Bt]; [discriminate H|]. apply rbind_ok in H as (norm & T & H). injection H as <-.
  split; cbn [af_content af_importance af_tags].
  - split; [apply strip_idem|done].
  - by eapply parse_importance_range.
  - split; [|apply dedup_NoDup]. pose proof (dedup_length [] norm). apply rmap_ok_length in T. lia.
  - apply Forall_forall. intros t [Ht _]%dedup_elem. apply rmap_ok_Forall2 in T. clear -T Ht.
    induction T as [|v t0 l l' E _ IH]; [by apply elem_of_nil in Ht|]. apply elem_of_cons in Ht as [->|Ht]; [|by apply IH].
    unfold parse_tag in E. destruct v; try discriminate E. destruct (_ || _) eqn:B in E; [discriminate E|]. injection E as <-.
    apply orb_false_iff in B as [[_ L%Z.ltb_ge]%orb_false_iff M%negb_false_iff]. split; [done|lia].
Qed.

Lemma parse_archival_valid raw e : parse_archival_extraction raw = Ok e -> valid_envelope e.
Proof.
  unfold parse_archival_extraction. intros H. destruct raw as [| | | | | | |d| |]; try discriminate H. destruct (has_unknown _ _); [discriminate H|].
  destruct (dget d (u "schema_version")) as [[| |schema| | | | | | |]|]; try discriminate H.
  destruct (dget d (u "extractor_version")) as [[| |extractor| | | | | | |]|]; try discriminate H.
  destruct (dget d (u "facts")) as [[| | | | |facts| | | |]|]; try discriminate H.
  destruct (_ || _) eqn:B in H; [discriminate H|]. apply orb_false_iff in B as [[Bs%negb_false_iff%Z.eqb_eq Be%negb_false_iff%Z.eqb_eq]%orb_false_iff Bl%Z.ltb_ge].
  apply rbind_ok in H as (parsed & P & H). injection H as <-. split; [|done]. cbn [ae_facts]. split.
  - apply rmap_ok_length in P. lia.
  - apply rmap_ok_Forall2 in P. clear -P. induction P; constructor; [by eapply parse_fact_valid|done].
Qed.

End Validation.

(** ** Once per turn *)

(** The primary key of [archival_extractions], and its unique column. *)
Definition primary_key (p : pydict) : option pyval * option pyval * option pyval :=
  (dget p (u "user_id"), dget p (u "source_chat_log_id"), dget p (u "extractor_version")).

Definition conflicting (p row : pydict) : Prop :=
  primary_key p = primary_key row \/ dget p (u "idempotency_key") = dget row (u "idempotency_key").

(** What the table promises the client: reading changes nothing, and an insert adds
    the row or nothing, whatever it reports; it adds no row that conflicts. *)
Class ExtractionTable (client : memory_client (list pydict)) : Prop := {
  et_message : forall id user rows, (mc_message client id user rows).2 = rows;
  et_insert : forall p rows, (mc_insert_extraction client p rows).2 = rows
    \/ ((mc_insert_extraction client p rows).2 = rows ++ [p] /\ Forall (fun row => ~ conflicting p row) rows) }.

Definition extracted (ref : PersistedTurnRef) (rows : list pydict) : Prop :=
  exists row, row ∈ rows /\ primary_key row = (Some (PStr (pt_user_id ref)), Some (PInt (pt_source_chat_log_id ref)), Some (PInt EXTRACTOR_VERSION)).

Section Once.
Context `{FR : FloatRepr, SH : Sha256, UL : UnicodeLower, JL : JsonLoads}.

(** The row of a turn. *)
Definition extraction_of (ref : PersistedTurnRef) (e : ArchivalExtractionEnvelope) : pydict :=
  extraction_payload (pt_user_id ref) (pt_source_chat_log_id ref)
    (compute_idempotency_key (pt_user_id ref) (pt_source_chat_log_id ref) EXTRACTOR_VERSION) e.

Lemma extraction_primary_key ref e : ae_extractor_version e = EXTRACTOR_VERSION ->
  primary_key (extraction_of ref e) = (Some (PStr (pt_user_id ref)), Some (PInt (pt_source_chat_log_id ref)), Some (PInt EXTRACTOR_VERSION)).
Proof. intros <-. reflexivity. Qed.

Context (self : @MemoryManager (list pydict)) (client : memory_client (list pydict)).
Context (connected : mm_supabase self = Some client) `{table : !ExtractionTable client}.

Lemma load_message_reads user id rows : (load_persisted_user_message self user id rows).2 = rows.
Proof.
  unfold load_persisted_user_message. rewrite connected. pose proof (et_message id user rows) as M.
  destruct (mc_message client id user rows) as [[code| |err [[| | | | |[|[| | | | | | |d| |] []]| | | |]|]] s1]; exact M.
Qed.

(** The two outcomes of the write. *)
Definition stored_at_most ref (rows rows' : list pydict) : Prop :=
  rows' = rows \/ (~ extracted ref rows /\ exists e, valid_envelope e /\ rows' = rows ++ [extraction_of ref e]).

Lemma store_extraction_once env budget ref e rows ending log rows' : valid_envelope e ->
  store_extraction self env budget ref e rows = (ending, log, rows') -> stored_at_most ref rows rows'.
Proof.
  intros V H. unfold store_extraction, store_archival_extraction in H. rewrite connected in H.
  destruct (_ <=? _)%float; [injection H as _ _ <-; by left|].
  fold (extraction_of ref e) in H. pose proof (et_insert (extraction_of ref e) rows) as I.
  destruct (mc_insert_extraction client (extraction_of ref e) rows) as [a s1]. cbn [snd] in I.
  assert (rows' = s1) as ->.
  { clear -H. destruct a as [[code|]| |[] [d|]]; cbn beta iota zeta in H; destruct (run_blocking_write _ _ _ _ _) as [|[| | |[]]];
      by injection H as _ _ <-. }
  destruct I as [->|[-> F]]; [by left|]. right. split; [|by exists e]. intros (row & Hr & E).
  rewrite Forall_forall in F. apply (F row Hr). left. rewrite E. apply extraction_primary_key. apply V.
Qed.

Lemma run_archival_once enabled timeout env ref rows ending log rows' :
  run_archival_extraction self enabled timeout env ref rows = (ending, log, rows') -> stored_at_most ref rows rows'.
Proof.
  unfold run_archival_extraction. intros H. destruct (negb enabled); [injection H as _ _ <-; by left|].
  destruct archival_config as [config|]; [|injection H as _ _ <-; by left].
  pose proof (load_message_reads (pt_user_id ref) (pt_source_chat_log_id ref) rows) as L.
  set (pair := if num_leb _ _ then _ else _) in H. assert (pair.2 = rows) as P by (unfold pair; by destruct (num_leb _ _)).
  destruct pair as [r s1]. cbn [snd] in P. subst s1.
  destruct (run_blocking_read _ _ _ _ _) as [text|[]]; try (injection H as _ _ <-; by left).
  destruct (fit_prompt text) as [[messages|]|]; try (injection H as _ _ <-; by left).
  destruct (ask_extraction _ _ _) as [[ending' log']|e] eqn:A; [injection H as _ _ <-; by left|].
  eapply store_extraction_once; [|exact H]. unfold ask_extraction in A.
  destruct (av_model env messages _) as [text'|[]]; try discriminate A. destruct (json_loads text') as [raw| |]; try discriminate A.
  destruct (parse_archival_extraction raw) eqn:Pa; [|discriminate A]. injection A as <-. by eapply parse_archival_valid.
Qed.

(** Every step of the task answers. *)
Record goes_through (timeout : pynum) (env : archival_env) (ref : PersistedTurnRef) (rows : list pydict) (e : ArchivalExtractionEnvelope) : Prop := {
  gt_message : exists text, load_persisted_user_message self (pt_user_id ref) (pt_source_chat_log_id ref) rows = (Ok text, rows) /\ encodable text;
  gt_read : av_read env = ReadCompletes;
  gt_time : forall config, archival_config = Ok config ->
    num_leb (num_min (NFloat (remaining_before_reserve (create_budget config (av_start env)) (av_read_now env))) timeout) (NFloat 0) = false
    /\ (remaining (create_budget config (av_start env)) (av_write_now env) <=? 0)%float = false;
  gt_reply : exists reply raw, (forall messages budget, av_model env messages budget = Returned reply) /\ json_loads reply = Loaded raw
    /\ parse_archival_extraction raw = Ok e;
  gt_write : av_interrupted env = false;
  gt_insert : exists data, mc_insert_extraction client (extraction_of ref e) rows = (Answer false (Some data), rows ++ [extraction_of ref e]) }.

Lemma archival_stores timeout env ref rows e : goes_through timeout env ref rows e ->
  run_archival_extraction self true timeout env ref rows = (ArchivalReturns, [], rows ++ [extraction_of ref e]).
Proof.
  intros [(text & L & En) R T (reply & raw & M & J & P) W (data & I)].
  unfold run_archival_extraction. cbn [negb]. destruct archival_config as [config|] eqn:C; [|vm_compute in C; discriminate C].
  destruct (T config eq_refl) as [T1 T2]. rewrite T1, L. unfold run_blocking_read. rewrite T1, R. cbn [fate_outcome manager_outcome].
  destruct (fit_prompt_total text En) as (t & -> & _). unfold ask_extraction. rewrite M, J, P.
  unfold store_extraction. rewrite T2. unfold store_archival_extraction. rewrite connected. fold (extraction_of ref e). rewrite I.
  cbn [manager_outcome]. unfold run_blocking_write. rewrite T2, W. reflexivity.
Qed.

(** A turn is extracted once.  Whatever the model, the clocks and the connection do,
    a run of the task leaves the table as it was or adds the one row of its turn,
    whose facts passed the validation, and adds it only when the turn had none; and
    when every step answers the row is added. *)
Theorem archival_once :
  (forall enabled timeout env ref rows ending log rows',
     run_archival_extraction self enabled timeout env ref rows = (ending, log, rows') -> stored_at_most ref rows rows')
  /\ (forall timeout env ref rows e, goes_through timeout env ref rows e ->
     run_archival_extraction self true timeout env ref rows = (ArchivalReturns, [], rows ++ [extraction_of ref e])).
Proof. split; [apply run_archival_once|apply archival_stores]. Qed.

End Once.

(** *** A concrete task *)

Definition sample_turn : PersistedTurnRef := mkPersistedTurnRef (u "ana") 7 8.

(** The table, with its columns typed and its constraints checked. *)
Definition typed_keys (p : pydict) : option (pystr * Z * Z * pystr) :=
  match primary_key p, dget p (u "idempotency_key") with
  | (Some (PStr user), Some (PInt source), Some (PInt version)), Some (PStr key) => Some (user, source, version, key)
  | _, _ => None
  end.

Definition apart (p row : pydict) : bool :=
  match typed_keys p, typed_keys row with
  | Some (pk, key), Some (pk', key') => negb (bool_decide (pk = pk')) && negb (bool_decide (key = key'))
  | _, _ => false
  end.

Definition insert_extraction (p : pydict) (rows : list pydict) : answer * list pydict :=
  if forallb (apart p) rows then (Answer false (Some (PList [PDict p])), rows ++ [p]) else (Failed (Some (u "23505")), rows).

Definition table_client : memory_client (list pydict) :=
  mkMemoryClient (fun _ s => (NoAnswer, s)) (fun _ s => (NoAnswer, s)) (fun _ _ s => (NoAnswer, s)) (fun _ _ s => (NoAnswer, s)) (fun _ s => (NoAnswer, s))
    (fun id user s => (Answer false (Some (PList [PDict [(KStr (u "id"), PInt id); (KStr (u "user_id"), PStr user); (KStr (u "role"), PStr (u "user"));
                                                          (KStr (u "content"), PStr (u "I have a cat"))]])), s))
    insert_extraction (fun _ s => (NoAnswer, s)).

#[local] Instance table_client_lawful : ExtractionTable table_client.
Proof.
  split; [done|]. intros p rows. cbn [table_client mc_insert_extraction]. unfold insert_extraction.
  destruct (forallb (apart p) rows) eqn:E; [right|by left]. split; [done|]. rewrite forallb_forall in E. apply Forall_forall. intros row Hr%list_elem_of_In%E C.
  unfold apart, typed_keys in Hr. destruct C as [C|C]; rewrite C in Hr.
  - destruct (primary_key row) as [[[[]|] [[]|]] [[]|]]; try discriminate Hr. destruct (dget p _) as [[]|]; try discriminate Hr.
    destruct (dget row _) as [[]|]; try discriminate Hr. by rewrite bool_decide_true in Hr.
  - destruct (dget row (u "idempotency_key")) as [[]|]; try (by destruct (primary_key p) as [[[[]|] [[]|]] [[]|]]).
    destruct (primary_key p) as [[[[]|] [[]|]] [[]|]]; try discriminate Hr. destruct (primary_key row) as [[[[]|] [[]|]] [[]|]]; try discriminate Hr.
    by rewrite (bool_decide_true (_ = _) eq_refl), andb_false_r in Hr.
Qed.

Definition sample_extraction : pyval :=
  PDict [(KStr (u "facts"), PList [PDict [(KStr (u "content"), PStr (u "has a cat")); (KStr (u "importance"), PFloat 0.5); (KStr (u "tags"), PList [PStr (u "Pets"); PStr (u "pets")])]]);
         (KStr (u "schema_version"), PInt 1); (KStr (u "extractor_version"), PInt 1)].

Definition sample_archival_env : archival_env :=
  mkArchivalEnv 100 101 ReadCompletes (fun _ _ => Returned (u "reply")) 103 false.

Definition sample_facts : ArchivalExtractionEnvelope := mkArchivalEnvelope [mkArchivalFact (u "has a cat") 0.5 [u "pets"]] 1 1.

Lemma archival_once_witness :
  let run := @run_archival_extraction flat_repr plain_sha pointwise_lower (fun _ => Loaded sample_extraction) (list pydict)
    (mkMemoryManager (Some table_client) None false) true (NFloat 5) sample_archival_env sample_turn in
  let rows := [@extraction_of plain_sha sample_turn sample_facts] in
  run [] = (ArchivalReturns, [], rows) /\ run rows = (ArchivalReturns, [u "Event: archival_extraction_duplicate"], rows).
Proof.
  intros run rows.
  destruct (@archival_once flat_repr plain_sha pointwise_lower (fun _ => Loaded sample_extraction)
    (mkMemoryManager (Some table_client) None false) table_client eq_refl table_client_lawful) as [_ S].
  split; [|vm_compute; reflexivity].
  apply (S (NFloat 5) sample_archival_env sample_turn [] sample_facts). split.
  - exists (u "I have a cat"). split; [vm_compute; reflexivity|repeat constructor].
  - reflexivity.
  - intros config E. vm_compute in E. injection E as <-. split; vm_compute; reflexivity.
  - exists (u "reply"), sample_extraction. split; [done|]. split; [reflexivity|]. vm_compute. reflexivity.
  - reflexivity.
  - eexists. vm_compute. reflexivity.
Defined.

Lemma archival_prompt_fits_witness : exists t,
  @fit_prompt flat_repr (repeat 7%N 3000) = Ok (Some (archival_messages t)) /\ @prompt_ok flat_repr t = Ok tt.
Proof.
  destruct (@archival_prompt_fits flat_repr (repeat 7%N 3000)) as (t & E & P & _).
  - apply Forall_forall. intros c Hc. apply list_elem_of_In, repeat_spec in Hc as ->. split; [lia|reflexivity].
  - exists t. split; [exact E|exact P].
Defined.
