(* ===== verification/Settings.v ===== *)
(** * Settings of the web application (backend/settings.py, backend/cors_policy.py)

    The strict reading of the environment, the validators of the frozen model with
    the part of [urllib.parse] they use, and the sanitised errors.  Pydantic is
    modelled as far as the class relies on it: the fields are validated in their
    order, each error is collected, and the model validator runs when there is none.
    The environment is a mapping of texts, as [os.environ] is. *)

From S2P Require Import Prelude PyFloat PyValue Json Utf8 Admission TrustedContext TurnExecution.

Local Open Scope Z_scope.

(** ** Texts *)

(** [s.partition(c)]: [None] when [c] does not occur. *)
Fixpoint partition (c : N) (s : pystr) : option (pystr * pystr) :=
  match s with
  | [] => None
  | x :: s' =>
      if (x =? c)%N then Some ([], s')
      else match partition c s' with Some (a, b) => Some (x :: a, b) | None => None end
  end.

(** [s.rstrip(c)] for one character. *)
Definition rstrip_char (c : N) (s : pystr) : pystr := rev (drop_while (N.eqb c) (rev s)).

Definition has_char (c : N) (s : pystr) : bool := existsb (N.eqb c) s.

(** The part of a text before the first of some characters, and the rest. *)
Fixpoint split_before (stop : N -> bool) (s : pystr) : pystr * pystr :=
  match s with
  | [] => ([], [])
  | x :: s' => if stop x then ([], s) else let '(a, b) := split_before stop s' in (x :: a, b)
  end.

(** ** [urllib.parse.urlparse] (Python 3.12) *)

Record ParseResult : Type := mkParseResult {
  url_scheme : pystr;
  url_netloc : pystr;
  url_path : pystr;
  url_query : pystr;
  url_fragment : pystr }.

(** The checks of [_check_bracketed_netloc] and [_checknetloc] (the Unicode
    normalisation of the host) pass; they look at nothing else of a URL. *)
Class UrlNetloc : Type := {
  netloc_valid : pystr -> bool;
  netloc_ascii : forall s, ascii s -> has_char 91 s = false -> has_char 93 s = false -> netloc_valid s = true }.

Definition is_alpha (c : N) : bool := (((65 <=? c) && (c <=? 90)) || ((97 <=? c) && (c <=? 122)))%N.
Definition scheme_char (c : N) : bool := is_alpha c || ((48 <=? c) && (c <=? 57) || (c =? 43) || (c =? 45) || (c =? 46))%N.

(** Leading controls and blanks go, and tabs and line ends anywhere. *)
Definition clean_url (s : pystr) : pystr :=
  List.filter (fun c => negb ((c =? 9) || (c =? 10) || (c =? 13))%N) (drop_while (fun c => (c <=? 32)%N) s).

(** The scheme, when there is one, and what follows it. *)
Definition split_scheme (url : pystr) : pystr * pystr :=
  match partition 58 url with
  | Some (c :: a, rest) => if is_alpha c && forallb scheme_char (c :: a) then (map ascii_lower (c :: a), rest) else ([], url)
  | _ => ([], url)
  end.

Definition netloc_end (c : N) : bool := ((c =? 47) || (c =? 63) || (c =? 35))%N.

(** [_splitparams]: the parameters after the last slash are not part of the path. *)
Definition drop_params (path : pystr) : pystr :=
  let '(last, before) := split_before (N.eqb 47) (rev path) in
  rev before ++ (split_before (N.eqb 59) (rev last)).1.

Definition USES_PARAMS : list pystr := [u ""; u "http"; u "https"].

Section Url.
Context `{UN : UrlNetloc, UL : UnicodeLower}.

(** [urlparse(s)] of a text with an HTTP scheme or none; [None] is its [ValueError]. *)
Definition urlparse (s : pystr) : option ParseResult :=
  let '(scheme, url) := split_scheme (clean_url s) in
  let '(netloc, url) := match url with
                        | 47%N :: 47%N :: rest => split_before netloc_end rest
                        | _ => ([], url)
                        end in
  if (xorb (has_char 91 netloc) (has_char 93 netloc)) || negb (netloc_valid netloc) then None else
  let '(url, fragment) := default (url, []) (partition 35 url) in
  let '(url, query) := default (url, []) (partition 63 url) in
  Some (mkParseResult scheme netloc (if str_in scheme USES_PARAMS then drop_params url else url) query fragment).

(** [username] or [password] is present exactly when the netloc has an [@]. *)
Definition has_userinfo (r : ParseResult) : bool := has_char 64 (url_netloc r).

(** The text after the last [@]. *)
Definition hostinfo (netloc : pystr) : pystr := rev (split_before (N.eqb 64) (rev netloc)).1.

(** [(r.hostname or "")]; the zone of an IPv6 address is not lowered. *)
Definition hostname (r : ParseResult) : pystr :=
  let info := hostinfo (url_netloc r) in
  let host := match partition 91 info with
              | Some (_, bracketed) => (split_before (N.eqb 93) bracketed).1
              | None => (split_before (N.eqb 58) info).1
              end in
  match partition 37 host with
  | Some (name, zone) => str_lower name ++ u "%" ++ zone
  | None => str_lower host
  end.

End Url.

(** ** cors_policy.py *)

Definition DEFAULT_ALLOWED_ORIGINS : list pystr := [u "http://localhost:3000"].

(** [None] is the [ValueError]. *)
Definition parse_cors_allowed_origins (raw : option pystr) : option (list pystr) :=
  match raw with
  | None => Some DEFAULT_ALLOWED_ORIGINS
  | Some raw =>
      let entries := map strip (split_on 44 raw) in
      if forallb (fun e => bool_decide (e = [])) entries then None
      else if existsb (str_eqb (u "*")) entries then None
      else Some (dedup [] (List.filter (fun e => negb (bool_decide (e = []))) entries))
  end.

(** ** Environments, issues *)

Inductive AppEnvironment : Type := env_local | env_test | env_staging | env_production.
#[export] Instance AppEnvironment_eq_dec : EqDecision AppEnvironment.
Proof. solve_decision. Defined.

Definition environment_of (s : pystr) : option AppEnvironment :=
  if str_eqb s (u "local") then Some env_local
  else if str_eqb s (u "test") then Some env_test
  else if str_eqb s (u "staging") then Some env_staging
  else if str_eqb s (u "production") then Some env_production
  else None.

(** [_REQUIRE_SUPABASE] and [_REQUIRE_CORS_ALLOWLIST]. *)
Definition deployed (e : AppEnvironment) : bool := match e with env_staging | env_production => true | _ => false end.

Definition _LOCALHOST_HOSTS : list pystr := [u "localhost"; u "127.0.0.1"; u "::1"; u "0.0.0.0"].
Definition ADMISSION_SECRET_MIN_BYTES : Z := 32.
Definition READINESS_TIMEOUT_MIN_MS : Z := 100.
Definition READINESS_TIMEOUT_MAX_MS : Z := 30000.

Record SettingsIssue : Type := mkSettingsIssue {
  si_field : pystr;
  si_code : pystr }.

(** [SettingsConfigurationError], and what is not a [ValueError]. *)
Inductive settings_exn : Type :=
| SettingsConfigurationError (issues : list SettingsIssue)
| SettingsOther.

Definition issue (field code : string) : SettingsIssue := mkSettingsIssue (u field) (u code).

(** [_render(issues)]. *)
Definition render_issues (issues : list SettingsIssue) : pystr :=
  match issues with
  | [] => u "Invalid application configuration."
  | _ => u "Invalid application configuration: " ++ join (u ", ") (map (fun i => si_field i ++ u ":" ++ si_code i) issues)
  end.

(** ** The environment *)

Section Env.
Context `{UL : UnicodeLower, PT : PyText}.
Context (source : pystr -> option pystr).

Definition invalid {T} (field code : string) : result settings_exn T := Err (SettingsConfigurationError [issue field code]).

(** The keys are upper-case; [field] is [key.lower()]. *)
Definition _env_bool (key field : string) (absent : bool) : result settings_exn bool :=
  match source (u key) with
  | None => Ok absent
  | Some raw =>
      let token := strip raw in
      if bool_decide (token = []) then invalid field "invalid_boolean"
      else if str_eqb (str_lower token) (u "true") then Ok true
      else if str_eqb (str_lower token) (u "false") then Ok false
      else invalid field "invalid_boolean"
  end.

Definition _env_int (key field : string) (absent minimum maximum : Z) : result settings_exn Z :=
  match source (u key) with
  | None => Ok absent
  | Some raw =>
      let token := strip raw in
      if bool_decide (token = []) || str_in (str_lower token) [u "true"; u "false"; u "yes"; u "no"]
      then invalid field "invalid_integer" else
      match int_of_str token with
      | None => invalid field "invalid_integer"
      | Some value => if (value <? minimum) || (maximum <? value) then invalid field "out_of_range" else Ok value
      end
  end.

Definition _env_text (key field empty : string) : result settings_exn (option pystr) :=
  match source (u key) with
  | None => Ok None
  | Some raw => if bool_decide (strip raw = []) then invalid field empty else Ok (Some (strip raw))
  end.
Definition _env_secret (key field : string) : result settings_exn (option pystr) := _env_text key field "empty_secret".
Definition _env_url (key field : string) : result settings_exn (option pystr) := _env_text key field "empty_url".

(** [[entry.strip() for entry in raw.split(",") if entry.strip()]]. *)
Definition entries_of (raw : pystr) : list pystr := List.filter (fun e => negb (bool_decide (e = []))) (map strip (split_on 44 raw)).

Definition _env_cidrs (key : string) : list pystr :=
  match source (u key) with None => [] | Some raw => entries_of raw end.

Definition _env_origins (key field : string) (environment : AppEnvironment) : result settings_exn (list pystr) :=
  match source (u key) with
  | None => if deployed environment then invalid field "required" else Ok DEFAULT_ALLOWED_ORIGINS
  | Some raw =>
      if bool_decide (strip raw = []) then invalid field "invalid_origins" else
      match parse_cors_allowed_origins (Some raw) with
      | Some origins => Ok origins
      | None => invalid field "invalid_origins"
      end
  end.

End Env.

(** ** The model *)

Record Settings : Type := mkSettings {
  app_env : AppEnvironment;
  supabase_url : option pystr;
  supabase_service_role_key : option pystr;
  groq_api_key : pystr;
  groq_api_key_2 : option pystr;
  admission_hmac_secret : pystr;
  trusted_proxy_cidrs : list pystr;
  cors_allowed_origins : list pystr;
  cors_allow_credentials : bool;
  archival_extraction_enabled : bool;
  embeddings_retrieval_enabled : bool;
  turn_config : TurnExecutionConfig;
  readiness_database_timeout_ms : Z;
  readiness_provider_timeout_ms : Z;
  readiness_auth_timeout_ms : Z }.

(** The values the constructor is given, with the defaults filled in; a [SecretStr]
    is its text.  [d_app_env] and [d_turn_config] are of their types. *)
Record settings_data : Type := mkSettingsData {
  d_app_env : AppEnvironment;
  d_supabase_url : pyval;
  d_supabase_service_role_key : pyval;
  d_groq_api_key : pyval;
  d_groq_api_key_2 : pyval;
  d_admission_hmac_secret : pyval;
  d_trusted_proxy_cidrs : pyval;
  d_cors_allowed_origins : pyval;
  d_cors_allow_credentials : pyval;
  d_archival_extraction_enabled : pyval;
  d_embeddings_retrieval_enabled : pyval;
  d_turn_config : TurnExecutionConfig;
  d_readiness_database_timeout_ms : pyval;
  d_readiness_provider_timeout_ms : pyval;
  d_readiness_auth_timeout_ms : pyval }.

Section Model.
Context `{UN : UrlNetloc, UL : UnicodeLower, IP : IpLib, PT : PyText}.

(** The error type pydantic gives to a missing secret. *)
Context (string_type : pystr).

Definition field_result (T : Type) : Type := result SettingsIssue T.
Definition refused {T} (field code : string) : field_result T := Err (issue field code).

Definition _validate_secret (value : pyval) : field_result (option pystr) :=
  match value with
  | PNone => Ok None
  | PStr s => if bool_decide (strip s = []) then refused "secret" "secret_empty" else Ok (Some s)
  | _ => refused "secret" "secret_type"
  end.

Definition required_secret (field : string) (value : pyval) : field_result pystr :=
  let* secret := _validate_secret value in
  match secret with Some s => Ok s | None => Err (mkSettingsIssue (u field) string_type) end.

Definition _validate_admission_secret_length (value : pystr) : field_result pystr :=
  match utf8_encode value with
  | None => refused "admission_hmac_secret" "value_error"
  | Some bytes =>
      if Z.of_nat (length bytes) <? ADMISSION_SECRET_MIN_BYTES then refused "admission_hmac_secret" "secret_too_short" else Ok value
  end.

(** What the URL and the origins have in common: the code of the refusal. *)
Definition url_problem (r : ParseResult) : option bool :=
  if negb (str_in (url_scheme r) [u "http"; u "https"]) || bool_decide (url_netloc r = []) then Some false
  else if has_userinfo r then Some true
  else if negb (str_in (url_path r) [[]; u "/"]) || negb (bool_decide (url_query r = [])) || negb (bool_decide (url_fragment r = [])) then Some false
  else None.

Definition _validate_url (value : pyval) : field_result (option pystr) :=
  match value with
  | PNone => Ok None
  | PStr s =>
      let token := strip s in
      if bool_decide (token = []) then refused "supabase_url" "url_empty" else
      match urlparse token with
      | None => refused "supabase_url" "value_error"
      | Some parsed =>
          match url_problem parsed with
          | Some true => refused "supabase_url" "url_credentials"
          | Some false => refused "supabase_url" "url_invalid"
          | None => Ok (Some (rstrip_char 47 token))
          end
      end
  | _ => refused "supabase_url" "url_type"
  end.

(** The loop over the origins; [seen] holds their lower-case forms. *)
Fixpoint normalize_origins (seen : list pystr) (entries : list pyval) : field_result (list pystr) :=
  match entries with
  | [] => Ok []
  | PStr entry :: rest =>
      let token := rstrip_char 47 (strip entry) in
      if bool_decide (token = []) then normalize_origins seen rest else
      if str_eqb token (u "*") then refused "cors_allowed_origins" "origins_wildcard" else
      match urlparse token with
      | None => refused "cors_allowed_origins" "value_error"
      | Some parsed =>
          match url_problem parsed with
          | Some true => refused "cors_allowed_origins" "origins_credentials"
          | Some false => refused "cors_allowed_origins" "origins_invalid"
          | None =>
              let key := str_lower token in
              if str_in key seen then normalize_origins seen rest
              else let* l := normalize_origins (key :: seen) rest in Ok (token :: l)
          end
      end
  | _ :: _ => refused "cors_allowed_origins" "origins_type"
  end.

Definition _validate_origins (value : pyval) : field_result (list pystr) :=
  match value with
  | PNone => Ok []
  | PTuple l | PList l => normalize_origins [] l
  | _ => refused "cors_allowed_origins" "origins_type"
  end.

Definition validate_cidr_entry (entry : pyval) : field_result pystr :=
  match entry with
  | PStr s =>
      if bool_decide (strip s = []) then refused "trusted_proxy_cidrs" "cidr_invalid" else
      match parse_network (strip s) with
      | None => refused "trusted_proxy_cidrs" "cidr_invalid"
      | Some _ => Ok (strip s)
      end
  | _ => refused "trusted_proxy_cidrs" "cidr_invalid"
  end.

Definition _validate_cidrs (value : pyval) : field_result (list pystr) :=
  match value with
  | PNone => Ok []
  | PStr s => rmap validate_cidr_entry (map PStr (entries_of s))
  | PTuple l | PList l => rmap validate_cidr_entry l
  | _ => refused "trusted_proxy_cidrs" "cidr_type"
  end.

Definition _validate_strict_bool (value : pyval) : field_result bool :=
  match value with PBool b => Ok b | _ => refused "boolean" "boolean_type" end.

Definition validate_timeout (field : string) (value : pyval) : field_result Z :=
  match value with
  | PInt z =>
      if (READINESS_TIMEOUT_MIN_MS <=? z) && (z <=? READINESS_TIMEOUT_MAX_MS) then Ok z
      else refused field "timeout_out_of_range"
  | _ => refused field "timeout_type"
  end.

(** The three validators that look at the environment. *)
Definition require_deployed {T} (environment : AppEnvironment) (field : string) (absent : T -> bool) (value : T) : field_result T :=
  if deployed environment && absent value then refused field "required" else Ok value.

Definition no_text (o : option pystr) : bool := match o with None | Some [] => true | _ => false end.
Definition is_none (o : option pystr) : bool := match o with None => true | Some _ => false end.
Definition no_entries (l : list pystr) : bool := match l with [] => true | _ => false end.

Definition local_host (host : pystr) : bool := str_in host _LOCALHOST_HOSTS || ends_with (u ".localhost") host.

(** The lower-cased host name of a stored URL; [None] is a [ValueError]. *)
Definition url_host (url : pystr) : option pystr := option_map (fun r => str_lower (hostname r)) (urlparse url).

Definition origin_problem (origin : pystr) : option SettingsIssue :=
  match url_host origin with
  | None => Some (issue "settings" "value_error")
  | Some host =>
      if local_host host || ends_with (u ".local") host then Some (issue "cors_allowed_origins" "origins_localhost_production") else None
  end.

Fixpoint first_problem (origins : list pystr) : option SettingsIssue :=
  match origins with
  | [] => None
  | o :: rest => match origin_problem o with Some i => Some i | None => first_problem rest end
  end.

Definition url_problem_production (url : option pystr) : option SettingsIssue :=
  match url with
  | None => None
  | Some url =>
      match url_host url with
      | None => Some (issue "settings" "value_error")
      | Some host => if local_host host then Some (issue "supabase_url" "url_localhost_production") else None
      end
  end.

Definition _has_provider_key (s : Settings) : bool :=
  negb (bool_decide (groq_api_key s = [])) || negb (no_text (groq_api_key_2 s)).

(** The model validator: the first problem it meets. *)
Definition _validate_environment_combinations (s : Settings) : result SettingsIssue Settings :=
  let found := if bool_decide (app_env s = env_production)
               then match url_problem_production (supabase_url s) with Some i => Some i | None => first_problem (cors_allowed_origins s) end
               else None in
  match found with
  | Some i => Err i
  | None =>
      if archival_extraction_enabled s && negb (_has_provider_key s)
      then refused "archival_extraction_enabled" "feature_missing_dependency" else Ok s
  end.

Definition issues_of {T} (r : field_result T) : list SettingsIssue := match r with Ok _ => [] | Err i => [i] end.

(** The constructor.  Every field is validated; the errors come in the order of the
    fields, and the model is looked at when there is none. *)
Definition Settings_init (d : settings_data) : result (list SettingsIssue) Settings :=
  let env := d_app_env d in
  let url := let* v := _validate_url (d_supabase_url d) in require_deployed env "supabase_url" no_text v in
  let key := let* v := _validate_secret (d_supabase_service_role_key d) in require_deployed env "supabase_service_role_key" is_none v in
  let groq := required_secret "groq_api_key" (d_groq_api_key d) in
  let groq2 := _validate_secret (d_groq_api_key_2 d) in
  let secret := let* v := required_secret "admission_hmac_secret" (d_admission_hmac_secret d) in _validate_admission_secret_length v in
  let cidrs := _validate_cidrs (d_trusted_proxy_cidrs d) in
  let origins := let* v := _validate_origins (d_cors_allowed_origins d) in require_deployed env "cors_allowed_origins" no_entries v in
  let credentials := _validate_strict_bool (d_cors_allow_credentials d) in
  let archival := _validate_strict_bool (d_archival_extraction_enabled d) in
  let embeddings := _validate_strict_bool (d_embeddings_retrieval_enabled d) in
  let database := validate_timeout "readiness_database_timeout_ms" (d_readiness_database_timeout_ms d) in
  let provider := validate_timeout "readiness_provider_timeout_ms" (d_readiness_provider_timeout_ms d) in
  let auth := validate_timeout "readiness_auth_timeout_ms" (d_readiness_auth_timeout_ms d) in
  let errors := issues_of url ++ issues_of key ++ issues_of groq ++ issues_of groq2 ++ issues_of secret ++ issues_of cidrs ++ issues_of origins
    ++ issues_of credentials ++ issues_of archival ++ issues_of embeddings ++ issues_of database ++ issues_of provider ++ issues_of auth in
  match errors, url, key, groq, groq2, secret, cidrs, origins, credentials, archival, embeddings, database, provider, auth with
  | [], Ok url', Ok key', Ok groq', Ok groq2', Ok secret', Ok cidrs', Ok origins', Ok credentials', Ok archival', Ok embeddings',
      Ok database', Ok provider', Ok auth' =>
      match _validate_environment_combinations
          (mkSettings env url' key' groq' groq2' secret' cidrs' origins' credentials' archival' embeddings' (d_turn_config d)
             database' provider' auth') with
      | Ok s => Ok s
      | Err i => Err [i]
      end
  | _, _, _, _, _, _, _, _, _, _, _, _, _, _ => Err errors
  end.

(** [model_validate] of the current values: [ensure_valid]. *)
Definition data_of (s : Settings) : settings_data :=
  let text o := match o with Some t => PStr t | None => PNone end in
  mkSettingsData (app_env s) (text (supabase_url s)) (text (supabase_service_role_key s)) (PStr (groq_api_key s)) (text (groq_api_key_2 s))
    (PStr (admission_hmac_secret s)) (PTuple (map PStr (trusted_proxy_cidrs s))) (PTuple (map PStr (cors_allowed_origins s)))
    (PBool (cors_allow_credentials s)) (PBool (archival_extraction_enabled s)) (PBool (embeddings_retrieval_enabled s)) (turn_config s)
    (PInt (readiness_database_timeout_ms s)) (PInt (readiness_provider_timeout_ms s)) (PInt (readiness_auth_timeout_ms s)).

Definition ensure_valid (s : Settings) : bool := match Settings_init (data_of s) with Ok _ => true | Err _ => false end.

(** ** From the environment *)

Definition optional_value (o : option pystr) : pyval := match o with Some t => PStr t | None => PNone end.

(** [except ValueError]. *)
Definition turn_configuration (source : pystr -> option pystr) : result settings_exn TurnExecutionConfig :=
  match config_from_env source with
  | Ok c => Ok c
  | Err CfgValueError => Err (SettingsConfigurationError [issue "turn_config" "invalid_turn_configuration"])
  | Err _ => Err SettingsOther
  end.

Definition Settings_from_env (source : pystr -> option pystr) : result settings_exn Settings :=
  match source (u "APP_ENV") with
  | None => invalid "app_env" "required"
  | Some raw =>
      if bool_decide (strip raw = []) then invalid "app_env" "required" else
      match environment_of (str_lower (strip raw)) with
      | None => invalid "app_env" "invalid_environment"
      | Some environment =>
          let* turn := turn_configuration source in
          let* url := _env_url source "SUPABASE_URL" "supabase_url" in
          let* key := _env_secret source "SUPABASE_SERVICE_ROLE_KEY" "supabase_service_role_key" in
          let* groq := _env_secret source "GROQ_API_KEY" "groq_api_key" in
          let* groq2 := _env_secret source "GROQ_API_KEY_2" "groq_api_key_2" in
          let* secret := _env_secret source "ADMISSION_HMAC_SECRET" "admission_hmac_secret" in
          let cidrs := _env_cidrs source "TRUSTED_PROXY_CIDRS" in
          let* origins := _env_origins source "CORS_ALLOWED_ORIGINS" "cors_allowed_origins" environment in
          let* archival := _env_bool source "ARCHIVAL_EXTRACTION_ENABLED" "archival_extraction_enabled" false in
          let* embeddings := _env_bool source "EMBEDDINGS_RETRIEVAL_ENABLED" "embeddings_retrieval_enabled" false in
          let timeout key field absent := _env_int source key field absent READINESS_TIMEOUT_MIN_MS READINESS_TIMEOUT_MAX_MS in
          let* database := timeout "READINESS_DATABASE_TIMEOUT_MS" "readiness_database_timeout_ms" 3000 in
          let* provider := timeout "READINESS_PROVIDER_TIMEOUT_MS" "readiness_provider_timeout_ms" 1000 in
          let* auth := timeout "READINESS_AUTH_TIMEOUT_MS" "readiness_auth_timeout_ms" 1000 in
          match Settings_init (mkSettingsData environment (optional_value url) (optional_value key) (optional_value groq) (optional_value groq2)
                  (optional_value secret) (PTuple (map PStr cidrs)) (PTuple (map PStr origins)) (PBool true) (PBool archival) (PBool embeddings)
                  turn (PInt database) (PInt provider) (PInt auth)) with
          | Ok s => Ok s
          | Err issues => Err (SettingsConfigurationError issues)
          end
      end
  end.

(** ** What the composition reads *)

Definition to_admission_values (s : Settings) : pyval * pyval :=
  (PStr (admission_hmac_secret s),
   if no_entries (trusted_proxy_cidrs s) then PNone else PStr (join (u ",") (trusted_proxy_cidrs s))).

Definition provider_keys (s : Settings) : list pystr :=
  groq_api_key s :: match groq_api_key_2 s with Some k => [k] | None => [] end.

End Model.
