(* ===== verification/SettingsProperties.v ===== *)
(** * Properties of the settings

    A configuration that is accepted is safe to serve with, and one that is refused
    is reported in a closed vocabulary that no value of the environment enters. *)

From S2P Require Import Prelude PyFloat PyValue Json Utf8 Admission TrustedContext EnvelopeTheorems TurnExecution Observability Settings.

Local Open Scope Z_scope.

Definition named (field : string) (codes : list string) : list (pystr * pystr) := map (fun c => (u field, u c)) codes.

(** Every field and code an issue can name. *)
Definition CONSTANT_ISSUES : list (pystr * pystr) :=
  named "app_env" ["required"; "invalid_environment"]
  ++ named "turn_config" ["invalid_turn_configuration"]
  ++ named "supabase_url" ["empty_url"; "url_type"; "url_empty"; "url_invalid"; "url_credentials"; "value_error"; "required"; "url_localhost_production"]
  ++ named "supabase_service_role_key" ["empty_secret"; "required"]
  ++ named "groq_api_key" ["empty_secret"] ++ named "groq_api_key_2" ["empty_secret"]
  ++ named "admission_hmac_secret" ["empty_secret"; "secret_too_short"; "value_error"]
  ++ named "secret" ["secret_type"; "secret_empty"]
  ++ named "trusted_proxy_cidrs" ["cidr_type"; "cidr_invalid"]
  ++ named "cors_allowed_origins" ["required"; "invalid_origins"; "origins_type"; "origins_wildcard"; "origins_invalid"; "origins_credentials"; "value_error";
       "origins_localhost_production"]
  ++ named "boolean" ["boolean_type"]
  ++ named "archival_extraction_enabled" ["invalid_boolean"; "feature_missing_dependency"]
  ++ named "embeddings_retrieval_enabled" ["invalid_boolean"]
  ++ named "readiness_database_timeout_ms" ["invalid_integer"; "out_of_range"; "timeout_type"; "timeout_out_of_range"]
  ++ named "readiness_provider_timeout_ms" ["invalid_integer"; "out_of_range"; "timeout_type"; "timeout_out_of_range"]
  ++ named "readiness_auth_timeout_ms" ["invalid_integer"; "out_of_range"; "timeout_type"; "timeout_out_of_range"]
  ++ named "settings" ["value_error"].

(** With the two of a missing secret. *)
Definition VOCABULARY (string_type : pystr) : list (pystr * pystr) :=
  CONSTANT_ISSUES ++ [(u "groq_api_key", string_type); (u "admission_hmac_secret", string_type)].

Section Vocabulary.
Context `{UN : UrlNetloc, UL : UnicodeLower, IP : IpLib, PT : PyText}.
Context (string_type : pystr).

Definition known_issue (i : SettingsIssue) : Prop := (si_field i, si_code i) ∈ VOCABULARY string_type.

(** The refusals of a computation are in the vocabulary. *)
Definition known {T} (r : field_result T) : Prop := forall i, r = Err i -> known_issue i.

Lemma known_ok {T} (v : T) : known (Ok v).
Proof. done. Qed.

Lemma known_bind {T U} (r : field_result T) (k : T -> field_result U) : known r -> (forall v, r = Ok v -> known (k v)) -> known (rbind r k).
Proof. intros K1 K2 i. destruct r as [v|e]; cbn [rbind]; [by apply K2|intros [= <-]; by apply K1]. Qed.

Lemma known_rmap {T U} (f : T -> field_result U) l : (forall x, known (f x)) -> known (rmap f l).
Proof.
  intros K. induction l as [|x l IH]; [apply known_ok|]. rewrite rmap_cons. apply known_bind; [apply K|]. intros v _.
  apply known_bind; [done|]. intros vs _. apply known_ok.
Qed.

Lemma known_constant field code : bool_decide ((u field, u code) ∈ CONSTANT_ISSUES) = true -> known_issue (issue field code).
Proof. intros H%bool_decide_eq_true. apply elem_of_app. by left. Qed.

Lemma known_refused {T} field code : bool_decide ((u field, u code) ∈ CONSTANT_ISSUES) = true -> known (@refused T field code).
Proof. intros H i [= <-]. by apply known_constant. Qed.

Ltac known_step := first
  [ apply known_ok | apply known_refused; vm_compute; reflexivity
  | apply known_bind; [|intros ? _] | apply known_rmap; intros ?
  | match goal with |- known (if ?b then _ else _) => destruct b end
  | match goal with |- known (match ?x with _ => _ end) => destruct x end ].
Ltac known_solve := repeat known_step.

Lemma known_secret v : known (_validate_secret v).
Proof. unfold _validate_secret. known_solve. Qed.

Lemma known_required field v : field = "groq_api_key"%string \/ field = "admission_hmac_secret"%string -> known (required_secret string_type field v).
Proof.
  intros Hf. unfold required_secret. apply known_bind; [apply known_secret|]. intros [s|] _; [apply known_ok|]. intros i [= <-].
  unfold known_issue, VOCABULARY. apply elem_of_app. right. destruct Hf as [->| ->]; cbn [si_field si_code]; [by left|by right; left].
Qed.

Lemma known_length v : known (_validate_admission_secret_length v).
Proof. unfold _validate_admission_secret_length. known_solve. Qed.

Lemma known_url v : known (_validate_url v).
Proof. unfold _validate_url. known_solve. Qed.

Lemma known_origins v : known (_validate_origins v).
Proof.
  assert (forall l seen, known (normalize_origins seen l)) as K.
  { induction l as [|v' l IH]; intros seen; cbn [normalize_origins]; [apply known_ok|].
    destruct v'; try (apply known_refused; vm_compute; reflexivity). repeat first [apply IH|known_step]. }
  unfold _validate_origins. destruct v; first [apply known_ok|apply K|apply known_refused; vm_compute; reflexivity].
Qed.

Lemma known_cidrs v : known (_validate_cidrs v).
Proof. unfold _validate_cidrs, validate_cidr_entry. known_solve. Qed.

Lemma known_bool v : known (_validate_strict_bool v).
Proof. unfold _validate_strict_bool. known_solve. Qed.

Lemma known_timeout field v :
  bool_decide ((u field, u "timeout_out_of_range") ∈ CONSTANT_ISSUES) = true -> bool_decide ((u field, u "timeout_type") ∈ CONSTANT_ISSUES) = true ->
  known (validate_timeout field v).
Proof. intros H1 H2. unfold validate_timeout. destruct v; try (by apply known_refused). destruct (_ && _); [apply known_ok|by apply known_refused]. Qed.

Lemma known_deployed {T} env field (absent : T -> bool) v :
  bool_decide ((u field, u "required") ∈ CONSTANT_ISSUES) = true -> known (require_deployed env field absent v).
Proof. intros H. unfold require_deployed. destruct (_ && _); [by apply known_refused|apply known_ok]. Qed.

Lemma known_problem origins i : first_problem origins = Some i -> known_issue i.
Proof.
  induction origins as [|o origins IH]; [done|]. cbn [first_problem]. destruct (origin_problem o) as [j|] eqn:E; [|done]. intros [= <-].
  unfold origin_problem in E. destruct (url_host o); [destruct (_ || _); [|done]|]; injection E as <-; apply known_constant; vm_compute; reflexivity.
Qed.

Lemma known_combinations s : known (_validate_environment_combinations s).
Proof.
  unfold _validate_environment_combinations. intros i.
  set (found := if bool_decide _ then _ else _). assert (forall j, found = Some j -> known_issue j) as K.
  { unfold found. intros j. destruct (bool_decide _); [|done]. destruct (url_problem_production (supabase_url s)) as [k|] eqn:E.
    - intros [= <-]. unfold url_problem_production in E. destruct (supabase_url s); [|done].
      destruct (url_host _); [destruct (local_host _); [|done]|]; injection E as <-; apply known_constant; vm_compute; reflexivity.
    - apply known_problem. }
  destruct found as [j|]; [intros [= <-]; by apply K|]. destruct (_ && _); [|done]. intros [= <-]. apply known_constant. vm_compute. reflexivity.
Qed.

Lemma issues_known {T} (r : field_result T) : known r -> Forall known_issue (issues_of r).
Proof. intros K. destruct r as [|i]; cbn [issues_of]; [by apply Forall_nil|]. apply Forall_singleton. by apply K. Qed.

Lemma issues_nil {T} (r : field_result T) : issues_of r = [] -> exists v, r = Ok v.
Proof. destruct r as [v|]; [by exists v|done]. Qed.

(** What the constructor reports. *)
Lemma Settings_init_errors d issues : Settings_init string_type d = Err issues -> issues <> [] /\ Forall known_issue issues.
Proof.
  unfold Settings_init.
  assert (known (let* v := _validate_url (d_supabase_url d) in require_deployed (d_app_env d) "supabase_url" no_text v)) as K1
    by (apply known_bind; [apply known_url|intros v _; by apply known_deployed]).
  assert (known (let* v := _validate_secret (d_supabase_service_role_key d) in require_deployed (d_app_env d) "supabase_service_role_key" is_none v)) as K2
    by (apply known_bind; [apply known_secret|intros v _; by apply known_deployed]).
  pose proof (known_required "groq_api_key" (d_groq_api_key d) ltac:(by left)) as K3. pose proof (known_secret (d_groq_api_key_2 d)) as K4.
  assert (known (let* v := required_secret string_type "admission_hmac_secret" (d_admission_hmac_secret d) in _validate_admission_secret_length v)) as K5
    by (apply known_bind; [apply known_required; by right|intros v _; apply known_length]).
  pose proof (known_cidrs (d_trusted_proxy_cidrs d)) as K6.
  assert (known (let* v := _validate_origins (d_cors_allowed_origins d) in require_deployed (d_app_env d) "cors_allowed_origins" no_entries v)) as K7
    by (apply known_bind; [apply known_origins|intros v _; by apply known_deployed]).
  pose proof (known_bool (d_cors_allow_credentials d)) as K8. pose proof (known_bool (d_archival_extraction_enabled d)) as K9.
  pose proof (known_bool (d_embeddings_retrieval_enabled d)) as K10.
  pose proof (known_timeout "readiness_database_timeout_ms" (d_readiness_database_timeout_ms d) ltac:(vm_compute; reflexivity) ltac:(vm_compute; reflexivity)) as K11.
  pose proof (known_timeout "readiness_provider_timeout_ms" (d_readiness_provider_timeout_ms d) ltac:(vm_compute; reflexivity) ltac:(vm_compute; reflexivity)) as K12.
  pose proof (known_timeout "readiness_auth_timeout_ms" (d_readiness_auth_timeout_ms d) ltac:(vm_compute; reflexivity) ltac:(vm_compute; reflexivity)) as K13.
  cbv zeta. intros H.
  match type of H with match ?errors with _ => _ end = _ => assert (Forall known_issue errors) as F by
    (repeat (apply Forall_app; split; [by apply issues_known|]); by apply issues_known); destruct errors as [|i l] eqn:E end.
  2: { injection H as <-. by split. }
  repeat match type of E with _ ++ _ = [] => apply app_eq_nil in E; let A := fresh "A" in destruct E as [A E]; apply issues_nil in A as [? A]; rewrite A in H end.
  apply issues_nil in E as [? E]. rewrite E in H. cbv beta iota in H.
  destruct (_validate_environment_combinations _) as [|i] eqn:C in H; [discriminate H|]. injection H as <-.
  split; [done|]. apply Forall_singleton. by eapply known_combinations.
Qed.

End Vocabulary.

Section Accepted.
Context `{UN : UrlNetloc, UL : UnicodeLower, IP : IpLib, PT : PyText}.
Context (string_type : pystr).

(** What the constructor accepts: every field is what its validators return. *)
Lemma Settings_init_ok d s : Settings_init string_type d = Ok s ->
  app_env s = d_app_env d
  /\ (let* v := _validate_url (d_supabase_url d) in require_deployed (d_app_env d) "supabase_url" no_text v) = Ok (supabase_url s)
  /\ (let* v := _validate_secret (d_supabase_service_role_key d) in require_deployed (d_app_env d) "supabase_service_role_key" is_none v)
     = Ok (supabase_service_role_key s)
  /\ required_secret string_type "groq_api_key" (d_groq_api_key d) = Ok (groq_api_key s)
  /\ (let* v := required_secret string_type "admission_hmac_secret" (d_admission_hmac_secret d) in _validate_admission_secret_length v)
     = Ok (admission_hmac_secret s)
  /\ _validate_cidrs (d_trusted_proxy_cidrs d) = Ok (trusted_proxy_cidrs s)
  /\ (let* v := _validate_origins (d_cors_allowed_origins d) in require_deployed (d_app_env d) "cors_allowed_origins" no_entries v)
     = Ok (cors_allowed_origins s)
  /\ validate_timeout "readiness_database_timeout_ms" (d_readiness_database_timeout_ms d) = Ok (readiness_database_timeout_ms s)
  /\ validate_timeout "readiness_provider_timeout_ms" (d_readiness_provider_timeout_ms d) = Ok (readiness_provider_timeout_ms s)
  /\ validate_timeout "readiness_auth_timeout_ms" (d_readiness_auth_timeout_ms d) = Ok (readiness_auth_timeout_ms s)
  /\ _validate_environment_combinations s = Ok s.
Proof.
  unfold Settings_init. cbv zeta. intros H.
  match type of H with match ?errors with _ => _ end = _ => destruct errors as [|i l]; [|discriminate H] end.
  repeat match type of H with match ?r with _ => _ end = _ =>
    lazymatch r with _validate_environment_combinations _ => fail | _ => let E := fresh "E" in destruct r eqn:E; [|discriminate H] end end.
  destruct (_validate_environment_combinations _) as [s'|i] eqn:C in H; [|discriminate H]. injection H as <-.
  assert (forall x y, _validate_environment_combinations x = Ok y -> y = x) as Same.
  { intros x y. unfold _validate_environment_combinations. destruct (if bool_decide _ then _ else _); [discriminate|].
    destruct (_ && _); [discriminate|]. by intros [= ->]. }
  pose proof (Same _ _ C) as ->. cbn [app_env supabase_url supabase_service_role_key groq_api_key admission_hmac_secret trusted_proxy_cidrs
    cors_allowed_origins readiness_database_timeout_ms readiness_provider_timeout_ms readiness_auth_timeout_ms] in *.
  split_and!; first [reflexivity|assumption].
Qed.

(** A URL with a plain host: no credentials, path, query or fragment. *)
Definition plain_url (url : pystr) : Prop := exists p, urlparse url = Some p
  /\ (url_scheme p = u "http" \/ url_scheme p = u "https") /\ url_netloc p <> [] /\ has_char 64 (url_netloc p) = false
  /\ (url_path p = [] \/ url_path p = u "/") /\ url_query p = [] /\ url_fragment p = [].

Lemma url_problem_none p : url_problem p = None ->
  (url_scheme p = u "http" \/ url_scheme p = u "https") /\ url_netloc p <> [] /\ has_char 64 (url_netloc p) = false
  /\ (url_path p = [] \/ url_path p = u "/") /\ url_query p = [] /\ url_fragment p = [].
Proof.
  unfold url_problem, has_userinfo. destruct (_ || _) eqn:A; [discriminate|]. destruct (has_char 64 (url_netloc p)); [discriminate|].
  destruct (_ || _ || _) eqn:B; [discriminate|]. intros _.
  apply orb_false_iff in A as [A1%negb_false_iff A2%bool_decide_eq_false]. apply orb_false_iff in B as [[B1%negb_false_iff B2%negb_false_iff]%orb_false_iff B3%negb_false_iff].
  apply bool_decide_eq_true in B2, B3. apply str_in_elem in A1, B1.
  split_and!; try done; [|].
  - apply elem_of_cons in A1 as [->|A1]; [by left|]. apply list_elem_of_singleton in A1. by right.
  - apply elem_of_cons in B1 as [->|B1]; [by left|]. apply list_elem_of_singleton in B1. by right.
Qed.

Lemma validate_url_ok v url : _validate_url v = Ok (Some url) -> exists token, url = rstrip_char 47 token /\ plain_url token.
Proof.
  unfold _validate_url. destruct v as [| | | |s| | | | |]; try discriminate. destruct (bool_decide _); [discriminate|].
  destruct (urlparse (strip s)) as [p|] eqn:E; [|discriminate]. destruct (url_problem p) as [[]|] eqn:P; try discriminate.
  intros [= <-]. exists (strip s). split; [done|]. exists p. split; [done|]. by apply url_problem_none.
Qed.

Lemma normalize_origins_ok l : forall seen origins, normalize_origins seen l = Ok origins -> Forall (fun o => plain_url o /\ o <> u "*") origins.
Proof.
  induction l as [|v l IH]; intros seen origins; cbn [normalize_origins]; [intros [= <-]; by apply Forall_nil|].
  destruct v as [| | | |s| | | | |]; try discriminate. destruct (bool_decide _); [apply IH|].
  destruct (str_eqb _ (u "*")) eqn:W; [discriminate|]. destruct (urlparse _) as [p|] eqn:E; [|discriminate].
  destruct (url_problem p) as [[]|] eqn:P; try discriminate. destruct (str_in _ seen); [apply IH|]. intros H. apply rbind_ok in H as (rest & R & [= <-]).
  apply Forall_cons. split; [|by eapply IH]. split; [exists p; split; [done|by apply url_problem_none]|].
  intros Eq. apply str_eqb_eq in Eq. congruence.
Qed.

Lemma validate_origins_ok v origins : _validate_origins v = Ok origins -> Forall (fun o => plain_url o /\ o <> u "*") origins.
Proof.
  unfold _validate_origins. destruct v; try discriminate; [intros [= <-]; by apply Forall_nil|apply normalize_origins_ok|apply normalize_origins_ok].
Qed.

Lemma deployed_ok {T} env field (absent : T -> bool) v w : require_deployed env field absent v = Ok w ->
  w = v /\ (deployed env = true -> absent v = false).
Proof. unfold require_deployed. destruct (deployed env); cbn [andb]; [destruct (absent v); [discriminate|]|]; by intros [= ->]. Qed.

Lemma timeout_ok field v ms : validate_timeout field v = Ok ms -> READINESS_TIMEOUT_MIN_MS <= ms <= READINESS_TIMEOUT_MAX_MS.
Proof.
  unfold validate_timeout. destruct v; try discriminate. destruct (_ && _) eqn:B; [|discriminate]. intros [= <-].
  apply andb_true_iff in B as [?%Z.leb_le ?%Z.leb_le]. done.
Qed.

Lemma combinations_production s : _validate_environment_combinations s = Ok s -> app_env s = env_production ->
  (forall url, supabase_url s = Some url -> exists h, url_host url = Some h /\ local_host h = false)
  /\ Forall (fun o => exists h, url_host o = Some h /\ local_host h = false /\ ends_with (u ".local") h = false) (cors_allowed_origins s).
Proof.
  unfold _validate_environment_combinations. intros H E. rewrite E in H. rewrite bool_decide_true in H by done.
  destruct (url_problem_production (supabase_url s)) as [i|] eqn:U; [discriminate H|].
  destruct (first_problem (cors_allowed_origins s)) as [i|] eqn:F; [discriminate H|]. split.
  - intros url Eu. rewrite Eu in U. unfold url_problem_production in U. destruct (url_host url) as [h|]; [|discriminate U].
    exists h. split; [done|]. by destruct (local_host h).
  - clear -F. induction (cors_allowed_origins s) as [|o l IH]; [by apply Forall_nil|]. cbn [first_problem] in F.
    destruct (origin_problem o) as [i|] eqn:O; [discriminate F|]. apply Forall_cons. split; [|by apply IH].
    unfold origin_problem in O. destruct (url_host o) as [h|]; [|discriminate O]. exists h. split; [done|].
    destruct (_ || _) eqn:B in O; [discriminate O|]. by apply orb_false_iff in B.
Qed.

(** A text of Python: its characters are code points. *)
Definition code_points (s : pystr) : Prop := Forall (fun c => (c < 1114112)%N) s.

Lemma secret_accepted secret : code_points secret -> strip secret <> [] -> _validate_admission_secret_length secret = Ok secret ->
  exists bytes, utf8_encode secret = Some bytes /\ ADMISSION_SECRET_MIN_BYTES <= Z.of_nat (length bytes) /\ _validate_secret_bytes bytes = Ok bytes.
Proof.
  intros Cp Hs. unfold _validate_admission_secret_length. destruct (utf8_encode secret) as [bytes|] eqn:E; [|discriminate].
  destruct (Z.ltb_spec (Z.of_nat (length bytes)) ADMISSION_SECRET_MIN_BYTES) as [|L]; [discriminate|]. intros _. exists bytes. split_and!; [done|done|].
  unfold ADMISSION_SECRET_MIN_BYTES in L. unfold _validate_secret_bytes. rewrite (proj2 (Nat.ltb_ge _ _)) by lia.
  unfold utf8_encode in E. destruct (existsb is_surrogate secret) eqn:S; [discriminate E|]. injection E as <-.
  rewrite utf8_decode_encode; [by rewrite bool_decide_false|]. apply Forall_forall. intros c Hc. unfold code_points in Cp. rewrite Forall_forall in Cp.
  split; [by apply Cp|]. destruct (is_surrogate c) eqn:Sc; [|done]. assert (existsb is_surrogate secret = true); [|congruence].
  apply existsb_exists. exists c. split; [by apply list_elem_of_In|done].
Qed.

Lemma entries_accepted raw cidrs : rmap validate_cidr_entry (map PStr (entries_of raw)) = Ok cidrs ->
  Forall (fun c => 44%N ∉ c /\ c <> [] /\ strip c = c /\ is_Some (parse_network c)) cidrs.
Proof.
  assert (Forall (fun e => 44%N ∉ e) (entries_of raw)) as F.
  { apply Forall_forall. intros e He. apply list_elem_of_In, filter_In in He as [He _]. apply in_map_iff in He as (p & <- & Hp).
    destruct (split_on_join 44 raw) as [_ F]. rewrite Forall_forall in F. intros C%strip_incl. by apply (F p); [apply list_elem_of_In|]. }
  revert F. generalize (entries_of raw). intros l F. revert cidrs. induction F as [|e l He _ IH]; intros cidrs H; [injection H as <-; by apply Forall_nil|].
  cbn [map] in H. rewrite rmap_cons in H. apply rbind_ok in H as (c & Ec & H). apply rbind_ok in H as (cs & Ecs & H). injection H as <-.
  apply Forall_cons. split; [|by apply IH]. cbn [validate_cidr_entry] in Ec. destruct (bool_decide (strip e = [])) eqn:B; [discriminate Ec|].
  destruct (parse_network (strip e)) as [n|] eqn:N; [|discriminate Ec]. injection Ec as <-. apply bool_decide_eq_false in B.
  split_and!; [by intros C%strip_incl|done|apply strip_idem|by exists n].
Qed.

(** The values of accepted settings make an admission configuration. *)
Lemma admission_values_accepted s raw : code_points (admission_hmac_secret s) -> strip (admission_hmac_secret s) <> [] ->
  _validate_admission_secret_length (admission_hmac_secret s) = Ok (admission_hmac_secret s) ->
  rmap validate_cidr_entry (map PStr (entries_of raw)) = Ok (trusted_proxy_cidrs s) ->
  exists config bytes, from_values (to_admission_values s).1 (to_admission_values s).2 = Ok config
    /\ utf8_encode (admission_hmac_secret s) = Some bytes /\ secret_bytes config = bytes /\ ADMISSION_SECRET_MIN_BYTES <= Z.of_nat (length bytes)
    /\ length (trusted_proxy_networks config) = length (trusted_proxy_cidrs s).
Proof.
  intros Cp Hs Hl Hc. destruct (secret_accepted _ Cp Hs Hl) as (bytes & E & L & V). apply entries_accepted in Hc.
  unfold to_admission_values, from_values. cbn [fst snd]. rewrite (bool_decide_false (strip _ = [])) by done.
  rewrite (bool_decide_false (admission_hmac_secret s = [])) by (intros Ee; by rewrite Ee in Hs). cbn [orb]. rewrite E, V. cbn [rbind].
  destruct (trusted_proxy_cidrs s) as [|c cs]; cbn [no_entries].
  - unfold AdmissionRuntimeConfig_init. rewrite V. cbn [rbind]. by eexists _, bytes.
  - change (join (u ",") (c :: cs)) with (joined 44 (c :: cs)). assert (joined 44 (c :: cs) <> []) as Ne.
    { unfold joined. cbn [join]. apply Forall_cons in Hc as [(_ & N & _) _]. by destruct c. }
    assert (exists ns, rmap parse_cidr (split_on 44 (joined 44 (c :: cs))) = Ok ns /\ length ns = length (c :: cs)) as (ns & En & Ln).
    { rewrite split_joined by (eapply Forall_impl; [exact Hc|]; by intros x (? & _)).
      clear -Hc. induction Hc as [|x l (_ & N & Sx & n & P) _ (ns & E & Ln)]; [by exists []|]. exists (n :: ns). rewrite rmap_cons, E.
      unfold parse_cidr at 1. rewrite Sx, bool_decide_false, P by done. cbn [rbind length]. by rewrite Ln. }
    destruct (joined 44 (c :: cs)) as [|x rest]; [done|]. rewrite En. cbn [rbind]. unfold AdmissionRuntimeConfig_init. rewrite V. cbn [rbind].
    by eexists _, bytes.
Qed.

(** The turn limits of an environment are refused by a [ValueError] only. *)
Definition value_only {T} (r : result config_exn T) : Prop := forall e, r = Err e -> e = CfgValueError.

Lemma value_only_bind {T U} (r : result config_exn T) (k : T -> result config_exn U) :
  value_only r -> (forall v, r = Ok v -> value_only (k v)) -> value_only (rbind r k).
Proof. intros K1 K2 e. destruct r as [v|x]; cbn [rbind]; [by apply K2|intros [= <-]; by apply K1]. Qed.

Lemma value_only_raise b : value_only (raise_if b CfgValueError).
Proof. intros e. destruct b; [by intros [= <-]|done]. Qed.

Lemma positive_float f : _assert_finite_positive (PFloat f) = Ok (NFloat f) \/ _assert_finite_positive (PFloat f) = Err CfgValueError.
Proof. unfold _assert_finite_positive, num_float, raise_if. cbn [num_to_float rbind]. destruct (negb _), (_ <=? _)%float; cbn [rbind]; tauto. Qed.

Lemma nonnegative_float f : _assert_finite_nonnegative (PFloat f) = Ok (NFloat f) \/ _assert_finite_nonnegative (PFloat f) = Err CfgValueError.
Proof. unfold _assert_finite_nonnegative, num_float, raise_if. cbn [num_to_float rbind]. destruct (negb _), (_ <? _)%float; cbn [rbind]; tauto. Qed.

Lemma value_only_config total connect attempt supabase reserve attempts base cap jitter frontend :
  value_only (TurnExecutionConfig_init (PFloat total) (PFloat connect) (PFloat attempt) (PFloat supabase) (PFloat reserve) (PInt attempts)
    (PFloat base) (PFloat cap) (PFloat jitter) (PInt frontend)).
Proof.
  unfold TurnExecutionConfig_init.
  destruct (positive_float total) as [->| ->]; [|by intros e [= <-]]. destruct (positive_float connect) as [->| ->]; [|by intros e [= <-]].
  destruct (positive_float attempt) as [->| ->]; [|by intros e [= <-]]. destruct (positive_float supabase) as [->| ->]; [|by intros e [= <-]].
  destruct (positive_float reserve) as [->| ->]; [|by intros e [= <-]]. destruct (positive_float base) as [->| ->]; [|by intros e [= <-]].
  destruct (positive_float cap) as [->| ->]; [|by intros e [= <-]]. destruct (nonnegative_float jitter) as [->| ->]; [|by intros e [= <-]].
  cbn [rbind plain_int]. repeat (apply value_only_bind; [first [apply value_only_raise|done]|intros ? _]). done.
Qed.

Lemma value_only_env source : value_only (config_from_env source).
Proof.
  assert (forall key, value_only (env_text source key)) as Et.
  { intros key. unfold env_text. destruct (source key); [|done]. repeat (apply value_only_bind; [apply value_only_raise|intros ? _]). done. }
  assert (forall key d, value_only (_parse_float source key d)) as Pf.
  { intros key d. unfold _parse_float. apply value_only_bind; [apply Et|]. intros [v|] _; [|done]. destruct (float_of_str v); [|by intros e [= <-]].
    apply value_only_bind; [apply value_only_raise|done]. }
  assert (forall key d, value_only (_parse_nonnegative_float source key d)) as Pn.
  { intros key d. unfold _parse_nonnegative_float. apply value_only_bind; [apply Et|]. intros [v|] _; [|done]. destruct (float_of_str v); [|by intros e [= <-]].
    repeat (apply value_only_bind; [apply value_only_raise|intros ? _]). done. }
  assert (forall key d, value_only (_parse_int source key d)) as Pi.
  { intros key d. unfold _parse_int. apply value_only_bind; [apply Et|]. intros [v|] _; [|done]. destruct (int_of_str v); [|by intros e [= <-]].
    apply value_only_bind; [apply value_only_raise|done]. }
  unfold config_from_env. repeat (apply value_only_bind; [first [apply Pf|apply Pn|apply Pi]|intros ? _]). apply value_only_config.
Qed.

(** Refusals of the environment are in the vocabulary too. *)
Definition sanitized {T} (r : result settings_exn T) : Prop :=
  forall e, r = Err e -> exists issues, e = SettingsConfigurationError issues /\ issues <> [] /\ Forall (known_issue string_type) issues.

Lemma sanitized_bind {T U} (r : result settings_exn T) (k : T -> result settings_exn U) :
  sanitized r -> (forall v, r = Ok v -> sanitized (k v)) -> sanitized (rbind r k).
Proof. intros K1 K2 e. destruct r as [v|x]; cbn [rbind]; [by apply K2|intros [= <-]; by apply K1]. Qed.

Lemma sanitized_invalid {T} field code : bool_decide ((u field, u code) ∈ CONSTANT_ISSUES) = true -> sanitized (@invalid T field code).
Proof. intros H e [= <-]. eexists. split; [done|]. split; [done|]. apply Forall_singleton. by apply known_constant. Qed.

Ltac refuse_constant := apply sanitized_invalid; vm_compute; reflexivity.

Lemma sanitized_env source : sanitized (Settings_from_env string_type source).
Proof.
  unfold Settings_from_env. destruct (source (u "APP_ENV")) as [raw|]; [|refuse_constant]. destruct (bool_decide _); [refuse_constant|].
  destruct (environment_of _) as [env|]; [|refuse_constant]. apply sanitized_bind.
  { unfold turn_configuration. pose proof (value_only_env source) as V. destruct (config_from_env source) as [c|e]; [done|].
    rewrite (V e eq_refl). intros x [= <-]. eexists. split; [done|]. split; [done|]. apply Forall_singleton. apply known_constant. vm_compute. reflexivity. }
  intros turn _.
  assert (forall key field empty, bool_decide ((u field, u empty) ∈ CONSTANT_ISSUES) = true -> sanitized (_env_text source key field empty)) as Te.
  { intros key field empty H. unfold _env_text. destruct (source _); [|done]. destruct (bool_decide (strip _ = [])); [by apply sanitized_invalid|done]. }
  assert (forall key field d, bool_decide ((u field, u "invalid_boolean") ∈ CONSTANT_ISSUES) = true -> sanitized (_env_bool source key field d)) as Be.
  { intros key field d H. unfold _env_bool. destruct (source _); [|done]. destruct (bool_decide (strip _ = [])); [by apply sanitized_invalid|].
    destruct (str_eqb _ _); [done|]. destruct (str_eqb _ _); [done|by apply sanitized_invalid]. }
  assert (forall key field d lo hi, bool_decide ((u field, u "invalid_integer") ∈ CONSTANT_ISSUES) = true ->
    bool_decide ((u field, u "out_of_range") ∈ CONSTANT_ISSUES) = true -> sanitized (_env_int source key field d lo hi)) as Ie.
  { intros key field d lo hi H1 H2. unfold _env_int. destruct (source _); [|done]. destruct (_ || _); [by apply sanitized_invalid|].
    destruct (int_of_str _); [|by apply sanitized_invalid]. destruct (_ || _); [by apply sanitized_invalid|done]. }
  assert (forall key, sanitized (_env_origins source key "cors_allowed_origins" env)) as Oe.
  { intros key. unfold _env_origins. destruct (source _); [|destruct (deployed env); [refuse_constant|done]]. destruct (bool_decide _); [refuse_constant|].
    destruct (parse_cors_allowed_origins _); [done|refuse_constant]. }
  unfold _env_url, _env_secret.
  repeat (apply sanitized_bind; [first [apply Te|apply Oe|apply Be|apply Ie]; vm_compute; reflexivity|intros ? _]).
  destruct (Settings_init _ _) as [s|issues] eqn:E; [done|]. intros x [= <-]. exists issues. split; [done|]. by eapply Settings_init_errors.
Qed.

(** What accepted settings guarantee to the application that starts with them. *)
Record safe_settings (source : pystr -> option pystr) (s : Settings) : Prop := {
  safe_declared : exists raw, source (u "APP_ENV") = Some raw /\ environment_of (str_lower (strip raw)) = Some (app_env s);
  safe_provider : strip (groq_api_key s) <> [];
  safe_deployed : deployed (app_env s) = true ->
    (exists url, supabase_url s = Some url /\ url <> []) /\ is_Some (supabase_service_role_key s)
    /\ cors_allowed_origins s <> [] /\ is_Some (source (u "CORS_ALLOWED_ORIGINS"));
  safe_url : forall url, supabase_url s = Some url -> exists token, url = rstrip_char 47 token /\ plain_url token;
  safe_origins : Forall (fun o => plain_url o /\ o <> u "*") (cors_allowed_origins s);
  safe_production : app_env s = env_production ->
    (forall url, supabase_url s = Some url -> exists h, url_host url = Some h /\ local_host h = false)
    /\ Forall (fun o => exists h, url_host o = Some h /\ local_host h = false /\ ends_with (u ".local") h = false) (cors_allowed_origins s);
  safe_timeouts : Forall (fun ms => READINESS_TIMEOUT_MIN_MS <= ms <= READINESS_TIMEOUT_MAX_MS)
    [readiness_database_timeout_ms s; readiness_provider_timeout_ms s; readiness_auth_timeout_ms s];
  safe_admission : exists config bytes, from_values (to_admission_values s).1 (to_admission_values s).2 = Ok config
    /\ utf8_encode (admission_hmac_secret s) = Some bytes /\ secret_bytes config = bytes /\ ADMISSION_SECRET_MIN_BYTES <= Z.of_nat (length bytes)
    /\ length (trusted_proxy_networks config) = length (trusted_proxy_cidrs s) }.

Lemma required_secret_ok field v s : required_secret string_type field v = Ok s -> v = PStr s /\ strip s <> [].
Proof.
  unfold required_secret, _validate_secret. intros H. apply rbind_ok in H as (o & E & H). destruct v as [| | | |t| | | | |]; try discriminate E.
  - injection E as <-. discriminate H.
  - destruct (bool_decide _) eqn:B; [discriminate E|]. injection E as <-. injection H as <-. split; [done|]. by apply bool_decide_eq_false in B.
Qed.

Lemma accepted_safe source s : (forall k t, source k = Some t -> code_points t) -> Settings_from_env string_type source = Ok s -> safe_settings source s.
Proof.
  intros Cp. unfold Settings_from_env. destruct (source (u "APP_ENV")) as [raw|] eqn:Ea; [|discriminate]. destruct (bool_decide _); [discriminate|].
  destruct (environment_of _) as [env|] eqn:Ee; [|discriminate]. intros H.
  apply rbind_ok in H as (turn & _ & H). apply rbind_ok in H as (url & _ & H). apply rbind_ok in H as (key & _ & H). apply rbind_ok in H as (groq & _ & H).
  apply rbind_ok in H as (groq2 & _ & H). apply rbind_ok in H as (secret & Es & H). apply rbind_ok in H as (origins & Eo & H).
  apply rbind_ok in H as (archival & _ & H). apply rbind_ok in H as (embeddings & _ & H). apply rbind_ok in H as (database & _ & H).
  apply rbind_ok in H as (provider & _ & H). apply rbind_ok in H as (auth & _ & H).
  destruct (Settings_init _ _) as [s'|] eqn:I; [|discriminate H]. injection H as <-.
  apply Settings_init_ok in I as (Henv & Hurl & Hkey & Hgroq & Hsecret & Hcidrs & Horigins & Hd & Hp & Ha & Hc).
  cbn [d_app_env d_supabase_url d_supabase_service_role_key d_groq_api_key d_admission_hmac_secret d_trusted_proxy_cidrs d_cors_allowed_origins
    d_readiness_database_timeout_ms d_readiness_provider_timeout_ms d_readiness_auth_timeout_ms] in *.
  apply rbind_ok in Hurl as (url' & Vu & Du). apply deployed_ok in Du as [Eu Du]. apply rbind_ok in Hkey as (key' & Vk & Dk). apply deployed_ok in Dk as [Ek Dk].
  apply rbind_ok in Horigins as (origins' & Vo & Do). apply deployed_ok in Do as [Eo' Do]. apply rbind_ok in Hsecret as (secret' & Vs & Ls).
  apply required_secret_ok in Hgroq as [_ Hgroq]. apply required_secret_ok in Vs as [Es' Hs].
  assert (admission_hmac_secret s' = secret') as Esec.
  { unfold _validate_admission_secret_length in Ls. destruct (utf8_encode secret'); [|discriminate Ls]. destruct (_ <? _); [discriminate Ls|]. by injection Ls. }
  split.
  - exists raw. by rewrite Henv.
  - done.
  - rewrite Henv. intros D. rewrite Eu, Ek, Eo'. split_and!.
    + specialize (Du D). destruct url' as [[|x url']|]; try discriminate Du. by eexists.
    + specialize (Dk D). destruct key' as [k|]; [by eexists|discriminate Dk].
    + specialize (Do D). by destruct origins'.
    + unfold _env_origins in Eo. destruct (source (u "CORS_ALLOWED_ORIGINS")); [by eexists|]. rewrite D in Eo. discriminate Eo.
  - intros u' E. rewrite E in Eu. subst url'. exact (validate_url_ok _ _ Vu).
  - rewrite Eo'. exact (validate_origins_ok _ _ Vo).
  - intros P. by apply combinations_production.
  - repeat (apply Forall_cons; split); [by eapply timeout_ok..|by apply Forall_nil].
  - unfold _env_cidrs in Hcidrs. assert (code_points secret') as Cs.
    { unfold _env_secret, _env_text in Es. destruct (source (u "ADMISSION_HMAC_SECRET")) as [t|] eqn:Et; [|injection Es as <-; discriminate Es'].
      destruct (bool_decide _); [discriminate Es|]. injection Es as <-. injection Es' as <-. apply Cp in Et. unfold code_points in *.
      apply Forall_forall. intros c Hc'%strip_incl. rewrite Forall_forall in Et. by apply Et. }
    rewrite Esec in Ls. destruct (source (u "TRUSTED_PROXY_CIDRS")) as [t|].
    + apply (admission_values_accepted s' t); by rewrite ?Esec.
    + apply (admission_values_accepted s' []); by rewrite ?Esec.
Qed.

(** Configuration fails closed.  Settings that are accepted name their environment,
    have a provider key, a secret of at least 32 bytes and readiness limits in their
    range, and their values make the admission configuration; deployed, they have
    the database's URL and key and an explicit list of origins; in production no
    host is a local one; every URL is a plain one.  What is refused is reported by
    fields and codes of a closed list, never by a value. *)
Theorem settings_fail_closed source : (forall k t, source k = Some t -> code_points t) ->
  match Settings_from_env string_type source with
  | Ok s => safe_settings source s
  | Err (SettingsConfigurationError issues) => issues <> [] /\ Forall (fun i => (si_field i, si_code i) ∈ VOCABULARY string_type) issues
  | Err SettingsOther => False
  end.
Proof.
  intros Cp. destruct (Settings_from_env string_type source) as [s|e] eqn:E; [by apply accepted_safe|].
  apply (sanitized_env source) in E as (issues & -> & Ne & F). by split.
Qed.

End Accepted.

(** *** A production environment *)

#[local] Instance no_brackets : UrlNetloc.
Proof. refine {| netloc_valid := fun s => negb (has_char 91 s) |}. intros s _ ->. reflexivity. Defined.
#[local] Instance no_text : PyText.
Proof. by refine {| str_of := fun v => match v with PStr s => s | _ => [] end; float_of_str := fun _ => None; int_of_str := fun _ => None |}. Defined.

Definition production_source (origins : string) : pystr -> option pystr := fun k =>
  if str_eqb k (u "APP_ENV") then Some (u " Production ")
  else if str_eqb k (u "SUPABASE_URL") then Some (u "https://db.example.org/")
  else if str_eqb k (u "SUPABASE_SERVICE_ROLE_KEY") then Some (u "key")
  else if str_eqb k (u "GROQ_API_KEY") then Some (u "provider")
  else if str_eqb k (u "ADMISSION_HMAC_SECRET") then Some (u "0123456789abcdef0123456789abcdef")
  else if str_eqb k (u "TRUSTED_PROXY_CIDRS") then Some (u "10.0.0.0/8, 127.0.0.1")
  else if str_eqb k (u "CORS_ALLOWED_ORIGINS") then Some (u origins)
  else None.

Lemma production_code_points origins : code_points (u origins) -> forall k t, production_source origins k = Some t -> code_points t.
Proof.
  intros H k t. unfold production_source. repeat (case_match; [intros [= <-]; first [exact H|by repeat constructor]|]). done.
Qed.

Definition load (origins : string) : result settings_exn Settings :=
  @Settings_from_env no_brackets pointwise_lower ipv4 no_text (u "string_type") (production_source origins).

(** One accepted, with its origins and its URL normalised; one refused for the host. *)
Lemma settings_fail_closed_witness :
  (exists s, load "https://Chat.example.org/, https://chat.example.org" = Ok s /\ cors_allowed_origins s = [u "https://Chat.example.org"]
     /\ supabase_url s = Some (u "https://db.example.org")
     /\ @safe_settings no_brackets pointwise_lower ipv4 (production_source "https://Chat.example.org/, https://chat.example.org") s)
  /\ load "https://chat.example.org, http://app.localhost:3000" = Err (SettingsConfigurationError [issue "cors_allowed_origins" "origins_localhost_production"]).
Proof.
  split; [|vm_compute; reflexivity]. pose (origins := "https://Chat.example.org/, https://chat.example.org"%string).
  pose proof (@settings_fail_closed no_brackets pointwise_lower ipv4 no_text (u "string_type") (production_source origins)
    (production_code_points origins ltac:(by repeat constructor))) as S.
  fold (load origins) in S. destruct (load origins) as [s|e] eqn:E; [|vm_compute in E; discriminate E].
  exists s. split; [exact E|]. split; [|split; [|exact S]]; vm_compute in E; injection E as <-; reflexivity.
Defined.

(** Stripping is not repeated after the slashes go, so an accepted origin may end in
    a blank; validating the running settings again then refuses them. *)
Lemma accepted_settings_fail_revalidation :
  match load "http:// /" with
  | Ok s => cors_allowed_origins s = [u "http:// "] /\ @ensure_valid no_brackets pointwise_lower ipv4 (u "string_type") s = false
  | Err _ => False
  end.
Proof. vm_compute. split; reflexivity. Qed.

(** Line ends inside a URL are ignored by the parser and kept in the setting. *)
Lemma accepted_origin_with_newline :
  @normalize_origins no_brackets pointwise_lower [] [PStr (u "https://chat" ++ [10%N] ++ u ".example.org")]
  = Ok [u "https://chat" ++ [10%N] ++ u ".example.org"].
Proof. vm_compute. reflexivity. Qed.
