(* ===== verification/Readiness.v ===== *)
(** * Startup containment and readiness (backend/runtime_containment.py, backend/health.py,
    and [ready_endpoint] of backend/main.py)

    The checks that keep the process at one worker, the readiness checks of the
    dependencies with the registry that runs them, the endpoint that reports them,
    and the protocol by which a check keeps at most one probe in flight. *)

From S2P Require Import Prelude PyFloat PyValue Json Admission Observability Settings.

Local Open Scope Z_scope.

(** ** One worker (runtime_containment.py) *)

(** [raw.split()]: the maximal runs of characters that are not blank. *)
Fixpoint words_from (current : pystr) (s : pystr) : list pystr :=
  match s with
  | [] => if bool_decide (current = []) then [] else [rev current]
  | c :: s' =>
      if is_space c then (if bool_decide (current = []) then [] else [rev current]) ++ words_from [] s'
      else words_from (c :: current) s'
  end.
Definition words (s : pystr) : list pystr := words_from [] s.

Section Containment.
Context `{UL : UnicodeLower, PT : PyText}.

(** [None] is the [RuntimeContainmentError]. *)
Definition parse_archival_extraction_flag (value : option pystr) : option bool :=
  match value with
  | None => Some false
  | Some v =>
      let lower := str_lower (strip v) in
      if str_eqb lower (u "true") then Some true else if str_eqb lower (u "false") then Some false else None
  end.

Definition _SUPPORTED_WORKER_VARS : list pystr := [u "WEB_CONCURRENCY"; u "UVICORN_WORKERS"].

Definition is_one (s : pystr) : bool := bool_decide (int_of_str s = Some 1).

(** [true] when the value is accepted. *)
Definition _check_env_var (raw : pystr) : bool := negb (bool_decide (strip raw = [])) && is_one (strip raw).

Definition WORKERS_EQ : pystr := u "--workers=".

(** The loop over the arguments. *)
Fixpoint check_args (args : list pystr) : bool :=
  match args with
  | [] => true
  | a :: rest =>
      if starts_with WORKERS_EQ a then
        let suffix := drop (length WORKERS_EQ) a in
        negb (bool_decide (suffix = [])) && is_one suffix && check_args rest
      else if str_eqb a (u "--workers") then
        match rest with [] => false | v :: rest' => is_one v && check_args rest' end
      else if starts_with (u "-w") a then
        let suffix := drop 2 a in
        if bool_decide (suffix = []) then match rest with [] => false | v :: rest' => is_one v && check_args rest' end
        else is_one suffix && check_args rest
      else check_args rest
  end.
Definition _check_gunicorn_args (raw : pystr) : bool := check_args (words raw).
Definition _collect_argv_flags (argv : list pystr) : bool := _check_gunicorn_args (join (u " ") argv).

Definition validate_worker_configuration (env : pystr -> option pystr) (argv : list pystr) : bool :=
  forallb (fun name => match env name with Some raw => _check_env_var raw | None => true end) _SUPPORTED_WORKER_VARS
  && match env (u "GUNICORN_CMD_ARGS") with
     | Some raw => negb (bool_decide (strip raw = [])) && _check_gunicorn_args raw
     | None => true
     end
  && _collect_argv_flags argv.

End Containment.

(** ** Checks (health.py) *)

Inductive CheckStatus : Type := status_ok | status_unavailable.

Record CheckResult : Type := mkCheckResult {
  ck_name : pystr;
  ck_status : CheckStatus }.

(** How [asyncio.wait_for(check.run(), timeout)] ends: it returns, an exception or
    the timeout makes the check fail, or the request itself is cancelled. *)
Inductive check_end : Type := CheckPasses | CheckFails | CheckCancelled.

(** A probe of a service, awaited with its own timeout. *)
Inductive probe_end : Type := ProbeReturns | ProbeRaises | ProbeTimesOut | ProbeCancelled.

Definition after_probe (p : probe_end) : check_end :=
  match p with
  | ProbeReturns => CheckPasses
  | ProbeRaises | ProbeTimesOut => CheckFails
  | ProbeCancelled => CheckCancelled
  end.

(** The state of a check that probes: whether it is closed, and whether an earlier
    probe has not ended.  [None] when there is no probe. *)
Record probe_check : Type := mkProbeCheck {
  pc_probe : option probe_end;
  pc_closed : bool;
  pc_inflight : bool }.

(** [DatabaseCheck.run]. *)
Definition database_check (c : probe_check) : check_end :=
  match pc_probe c with
  | None => CheckFails
  | Some p => if pc_closed c || pc_inflight c then CheckFails else after_probe p
  end.

(** What looking up and calling an attribute of a client gives. *)
Inductive surface : Type :=
| AccessRaises
| NotCallable
| CallRaises
| CallGives (none : bool).

Definition callable (s : surface) : bool := match s with CallRaises | CallGives _ => true | _ => false end.

(** [AuthClientCheck.run]: [get_user] is looked up, never called. *)
Definition auth_check (get_user : option surface) (c : probe_check) : check_end :=
  match get_user with
  | None => CheckFails
  | Some s => if callable s then database_check c else CheckFails
  end.

(** [PersistenceClientCheck.run]. *)
Definition persistence_check (client : option (surface * surface)) : check_end :=
  match client with
  | Some (CallGives false, CallGives false) => CheckPasses
  | _ => CheckFails
  end.

(** [ProviderCheck.run]; [None] for an exception of [provider_status]. *)
Definition provider_check (status : option (option bool)) : check_end :=
  match status with Some (Some true) => CheckPasses | _ => CheckFails end.

(** [EmbeddingsCheck.run], on whether the manager has its model. *)
Definition embeddings_check (model : option bool) : check_end := match model with Some true => CheckPasses | _ => CheckFails end.

(** [LifespanCheck.run]. *)
Definition lifespan_check (started : option bool) : check_end := match started with Some true => CheckPasses | _ => CheckFails end.

Section Registry.
Context `{UN : UrlNetloc, UL : UnicodeLower, IP : IpLib}.
Context (string_type : pystr).

(** [ConfigurationCheck.run]. *)
Definition configuration_check (settings : option Settings) : check_end :=
  match settings with
  | Some s => if ensure_valid string_type s then CheckPasses else CheckFails
  | None => CheckFails
  end.

(** What the checks observe at a poll. *)
Record observed : Type := mkObserved {
  ob_get_user : option surface;
  ob_auth : probe_check;
  ob_database : probe_check;
  ob_persistence : option (surface * surface);
  ob_provider : option (option bool);
  ob_embedding_model : option bool }.

(** [build_health_registry], in the order of its additions. *)
Definition build_health_registry (settings : Settings) (o : observed) : list (pystr * check_end) :=
  [(u "configuration", configuration_check (Some settings)); (u "auth", auth_check (ob_get_user o) (ob_auth o));
   (u "database", database_check (ob_database o)); (u "persistence", persistence_check (ob_persistence o));
   (u "provider", provider_check (ob_provider o))]
  ++ (if embeddings_retrieval_enabled settings then [(u "embeddings", embeddings_check (ob_embedding_model o))] else []).

(** [HealthRegistry.run_all]: the results and the logged events; [None] when the
    request was cancelled. *)
Fixpoint run_all (checks : list (pystr * check_end)) : option (list CheckResult) * list (pystr * fields) :=
  match checks with
  | [] => (Some [], [])
  | (name, CheckCancelled) :: _ => (None, [])
  | (name, CheckPasses) :: rest =>
      let '(results, events) := run_all rest in (option_map (cons (mkCheckResult name status_ok)) results, events)
  | (name, CheckFails) :: rest =>
      let '(results, events) := run_all rest in
      (option_map (cons (mkCheckResult name status_unavailable)) results, (EVENT_READINESS_CHECK_FAILED, [(u "component", PStr name)]) :: events)
  end.

Definition status_value (s : CheckStatus) : pystr := match s with status_ok => u "ok" | status_unavailable => u "unavailable" end.
Definition is_status_ok (s : CheckStatus) : bool := match s with status_ok => true | status_unavailable => false end.

(** [build_ready_response]: the names of the registry are distinct and none is
    [lifespan], so the components are these pairs. *)
Definition build_ready_response (results : list CheckResult) (lifespan_started : bool) : Z * pydict :=
  let lifespan := if lifespan_started then status_ok else status_unavailable in
  let components := map (fun r => (KStr (ck_name r), PStr (status_value (ck_status r)))) results ++ [(KStr (u "lifespan"), PStr (status_value lifespan))] in
  let ready := forallb (fun r => is_status_ok (ck_status r)) results && lifespan_started in
  ((if ready then 200 else 503),
   [(KStr (u "status"), PStr (if ready then u "ready" else u "not_ready")); (KStr (u "components"), PDict components)]).

(** [GET /ready]; [None] when the request was cancelled. *)
Definition ready_endpoint (dependencies : option (Settings * observed)) (lifespan_started : bool)
    : option (Z * pydict) * list (pystr * fields) :=
  match dependencies with
  | None => (Some (503, [(KStr (u "status"), PStr (u "not_ready")); (KStr (u "components"), PDict [])]), [])
  | Some (settings, o) =>
      let '(results, events) := run_all (build_health_registry settings o) in
      (option_map (fun r => build_ready_response r lifespan_started) results, events)
  end.

End Registry.

Definition live_endpoint : Z * pydict := (200, [(KStr (u "status"), PStr (u "live"))]).
Definition health_endpoint : pydict := [(KStr (u "status"), PStr (u "alive"))].

(** ** One probe in flight *)

(** The tasks of a check: [tk_inflight] is [_inflight]; [tk_running] the tasks that
    are not done; [tk_started] how many were ever started, which names them. *)
Record tasks : Type := mkTasks {
  tk_closed : bool;
  tk_inflight : option nat;
  tk_running : list nat;
  tk_started : nat }.

Definition inflight_running (s : tasks) : bool :=
  match tk_inflight s with Some t => bool_decide (t ∈ tk_running s) | None => false end.

(** What can happen, one event at a time. *)
Inductive task_step : tasks -> tasks -> Prop :=
| poll_starts s :                       (** [run] gets past its guards *)
    tk_closed s = false -> inflight_running s = false ->
    task_step s (mkTasks false (Some (tk_started s)) (tk_started s :: tk_running s) (S (tk_started s)))
| task_ends s t :                       (** a probe returns, raises or honours its cancellation *)
    task_step s (mkTasks (tk_closed s) (tk_inflight s) (remove Nat.eq_dec t (tk_running s)) (tk_started s))
| run_ends s t :                        (** the [finally] of the [run] of task [t], which has ended *)
    t ∉ tk_running s -> tk_inflight s = Some t -> task_step s (mkTasks (tk_closed s) None (tk_running s) (tk_started s))
| sync_close s : task_step s (mkTasks true (tk_inflight s) (tk_running s) (tk_started s))
| async_close s :                       (** [aclose] takes the task, to cancel and await it *)
    task_step s (mkTasks true None (tk_running s) (tk_started s)).

(** [aclose] returns once the task it took has ended. *)
Definition aclose_returns (taken : option nat) (s : tasks) : Prop := forall t, taken = Some t -> t ∉ tk_running s.

Definition fresh_tasks : tasks := mkTasks false None [] 0.
