(* ===== verification/ReadinessProperties.v ===== *)
(** * Properties of startup containment and readiness *)

From S2P Require Import Prelude PyFloat PyValue Json Admission Observability Settings SettingsProperties Readiness.

Local Open Scope Z_scope.

(** ** Worker flags *)

Section Workers.
Context `{UL : UnicodeLower, PT : PyText}.

(** [int] refuses a text that starts with two hyphens or with [-w]. *)
Definition flags_are_no_numbers : Prop :=
  forall s, starts_with (u "--") s = true \/ starts_with (u "-w") s = true -> int_of_str s = None.

(** What the argument [a] asks for, with the arguments after it. *)
Definition asks_one (a : pystr) (rest : list pystr) : Prop :=
  (forall v, a = WORKERS_EQ ++ v -> is_one v = true)
  /\ (a = u "--workers" \/ a = u "-w" -> exists v rest', rest = v :: rest' /\ is_one v = true)
  /\ (forall v, a = u "-w" ++ v -> v <> [] -> is_one v = true).

Lemma starts_with_app p s : starts_with p (p ++ s) = true.
Proof. unfold starts_with. apply bool_decide_eq_true. by rewrite take_app_length. Qed.

Lemma starts_with_split p s : starts_with p s = true -> s = p ++ drop (length p) s.
Proof. unfold starts_with. intros H%bool_decide_eq_true. rewrite <- H at 1. symmetry. apply take_drop. Qed.

(** Every worker flag of accepted arguments asks for one worker, wherever it is. *)
Lemma accepted_flags args : flags_are_no_numbers -> check_args args = true -> forall pre a post, args = pre ++ a :: post -> asks_one a post.
Proof.
  intros Num.
  assert (forall a, is_one a = true -> starts_with (u "--") a = false /\ starts_with (u "-w") a = false) as One.
  { intros a H%bool_decide_eq_true. destruct (starts_with (u "--") a) eqn:A; [rewrite (Num a ltac:(by left)) in H; discriminate H|].
    destruct (starts_with (u "-w") a) eqn:B; [rewrite (Num a ltac:(by right)) in H; discriminate H|done]. }
  assert (forall a post, starts_with (u "--") a = false -> starts_with (u "-w") a = false -> asks_one a post) as Plain.
  { intros a post A B. split_and!.
    - intros v ->. change (WORKERS_EQ ++ v) with (u "--" ++ (u "workers=" ++ v)) in A. by rewrite starts_with_app in A.
    - intros [->| ->]; [by vm_compute in A|by vm_compute in B].
    - intros v -> _. by rewrite starts_with_app in B. }
  assert (forall n args, (length args <= n)%nat -> check_args args = true -> forall pre a post, args = pre ++ a :: post -> asks_one a post) as Main.
  2: { intros. by eapply (Main (length args)). }
  clear args. induction n as [|n IH]; intros args Len H pre a post E; [destruct args; [by destruct pre|cbn in Len; lia]|].
  destruct args as [|x rest]; [by destruct pre|]. cbn [check_args length] in H, Len.
  assert (forall v rest', rest = v :: rest' -> is_one v = true -> check_args rest' = true -> forall p q, rest = p ++ a :: q -> post = q -> asks_one a post) as Skip.
  { intros v rest' -> Hv Hr p q Ep ->. destruct p as [|y p]; injection Ep as -> Ep; [|eapply (IH rest'); [cbn in Len; lia|done|exact Ep]].
    apply One in Hv as [A B]. by apply Plain. }
  destruct (starts_with WORKERS_EQ x) eqn:W; [|destruct (str_eqb x (u "--workers")) eqn:Ww; [|destruct (starts_with (u "-w") x) eqn:Wm]].
  - apply andb_true_iff in H as [H Hr]. apply andb_true_iff in H as [_ Ho]. apply starts_with_split in W.
    destruct pre as [|y pre]; injection E as -> E; [|by eapply (IH rest); [lia|..]]. subst post. split_and!.
    + intros v Ev. rewrite Ev in Ho. by rewrite drop_app_length in Ho.
    + intros [Ev|Ev]; rewrite W in Ev; discriminate Ev.
    + intros v Ev. rewrite W in Ev. discriminate Ev.
  - apply str_eqb_eq in Ww as ->. destruct rest as [|v rest']; [discriminate H|]. apply andb_true_iff in H as [Hv Hr].
    destruct pre as [|y pre]; injection E as <- E; [|by eapply (Skip v rest')]. subst post. split_and!.
    + intros v' Ev. discriminate Ev.
    + intros _. by exists v, rest'.
    + intros v' Ev. discriminate Ev.
  - apply starts_with_split in Wm. destruct (bool_decide _) eqn:B.
    + apply bool_decide_eq_true in B. destruct rest as [|v rest']; [discriminate H|]. apply andb_true_iff in H as [Hv Hr].
      destruct pre as [|y pre]; injection E as -> E; [|by eapply (Skip v rest')]. subst post. split_and!.
      * intros v' Ev. rewrite Wm in Ev. discriminate Ev.
      * intros _. by exists v, rest'.
      * intros v' Ev Nv. rewrite Wm in Ev. apply app_inv_head in Ev. change (length (u "-w")) with 2%nat in Ev. congruence.
    + apply bool_decide_eq_false in B. apply andb_true_iff in H as [Hv Hr].
      destruct pre as [|y pre]; injection E as -> E; [|by eapply (IH rest); [lia|..]]. subst post. split_and!.
      * intros v' Ev. rewrite Wm in Ev. discriminate Ev.
      * intros [Ev|Ev]; [rewrite Wm in Ev; discriminate Ev|]. rewrite Ev in B. by vm_compute in B.
      * intros v' Ev _. rewrite Ev in Hv. exact Hv.
  - destruct pre as [|y pre]; injection E as -> E; [|by eapply (IH rest); [lia|..]]. subst post.
    destruct (starts_with (u "--") a) eqn:D; [|by apply Plain]. split_and!.
    + intros v ->. by rewrite starts_with_app in W.
    + intros [->| ->]; [by vm_compute in Ww|by vm_compute in Wm].
    + intros v ->. by rewrite starts_with_app in Wm.
Qed.

End Workers.

(** ** Readiness *)

Section Ready.
Context `{UN : UrlNetloc, UL : UnicodeLower, IP : IpLib}.
Context (string_type : pystr).

(** A probe that is open, not in flight and answers. *)
Definition answers_probe (c : probe_check) : Prop := pc_probe c = Some ProbeReturns /\ pc_closed c = false /\ pc_inflight c = false.

(** Everything nominal traffic needs is there. *)
Record serving (settings : Settings) (o : observed) : Prop := {
  sv_settings : ensure_valid string_type settings = true;
  sv_get_user : exists s, ob_get_user o = Some s /\ callable s = true;
  sv_auth : answers_probe (ob_auth o);
  sv_database : answers_probe (ob_database o);
  sv_persistence : ob_persistence o = Some (CallGives false, CallGives false);
  sv_provider : ob_provider o = Some (Some true);
  sv_embeddings : embeddings_retrieval_enabled settings = true -> ob_embedding_model o = Some true }.

Lemma database_check_passes c : database_check c = CheckPasses <-> answers_probe c.
Proof.
  unfold database_check, answers_probe. destruct (pc_probe c) as [p|]; [|split; [discriminate|by intros []]].
  destruct (pc_closed c), (pc_inflight c); cbn [orb]; try (split; [discriminate|by intros (_ & ? & ?)]).
  destruct p; cbn [after_probe]; split; try discriminate; try done; by intros ([=] & _).
Qed.

Definition passes (c : pystr * check_end) : bool := match c.2 with CheckPasses => true | _ => false end.

Lemma serving_checks settings o : serving settings o <-> forallb passes (build_health_registry string_type settings o) = true.
Proof.
  unfold build_health_registry. rewrite forallb_app. cbn [forallb passes snd app]. rewrite !andb_true_iff.
  assert (forall e, (match e with CheckPasses => true | _ => false end = true) <-> e = CheckPasses) as P by (by intros []).
  unfold passes; cbn [snd]. rewrite !P. unfold auth_check, configuration_check, persistence_check, provider_check. split.
  - intros []. rewrite sv_settings0. destruct sv_get_user0 as (s & -> & ->). rewrite sv_persistence0, sv_provider0.
    split_and!; try done; [by apply database_check_passes..|].
    destruct (embeddings_retrieval_enabled settings); [|done]. cbn [forallb snd]. by rewrite sv_embeddings0.
  - intros ((E1 & E2 & E3 & E4 & E5 & _) & E6).
    split.
    + by destruct (ensure_valid string_type settings).
    + destruct (ob_get_user o) as [s|]; [|discriminate E2]. exists s. split; [done|]. by destruct (callable s).
    + destruct (ob_get_user o) as [s|]; [|discriminate E2]. destruct (callable s); [|discriminate E2]. by apply database_check_passes.
    + by apply database_check_passes.
    + by destruct (ob_persistence o) as [[[| | |[]] [| | |[]]]|].
    + by destruct (ob_provider o) as [[[]|]|].
    + intros Em. rewrite Em in E6. cbn [forallb snd] in E6. by destruct (ob_embedding_model o) as [[]|].
Qed.

Lemma run_all_passes checks results events : run_all checks = (Some results, events) ->
  forallb (fun r => is_status_ok (ck_status r)) results = forallb passes checks
  /\ map ck_name results = map fst checks /\ Forall (fun ev => str_in ev.1 EVENT_NAMES = true) events.
Proof.
  revert results events. induction checks as [|[name []] checks IH]; intros results events; cbn [run_all].
  - intros [= <- <-]. split_and!; [done|done|by apply Forall_nil].
  - destruct (run_all checks) as [[rs|] evs]; [|discriminate]. intros [= <- <-]. destruct (IH rs evs eq_refl) as (A & B & C).
    cbn [forallb map ck_status ck_name is_status_ok]. unfold passes at 1. cbn [snd fst andb]. by rewrite A, B.
  - destruct (run_all checks) as [[rs|] evs]; [|discriminate]. intros [= <- <-]. destruct (IH rs evs eq_refl) as (A & B & C).
    cbn [forallb map ck_status ck_name is_status_ok]. unfold passes at 1. cbn [snd fst andb]. split; [done|]. rewrite B. split; [done|].
    apply Forall_cons. split; [reflexivity|done].
  - discriminate.
Qed.

(** A check that all pass is never cancelled. *)
Lemma run_all_total checks : forallb passes checks = true -> exists results, run_all checks = (Some results, []).
Proof.
  induction checks as [|[name []] checks IH]; cbn [forallb]; try discriminate; [by exists []|]. intros H. destruct (IH H) as [rs E].
  cbn [run_all]. rewrite E. by eexists.
Qed.

Lemma serving_exists settings o started :
  (started = true /\ exists settings' o', Some (settings, o) = Some (settings', o') /\ serving settings' o')
  <-> forallb passes (build_health_registry string_type settings o) = true /\ started = true.
Proof.
  rewrite <- serving_checks. split; [|intros [S ->]; by eauto]. by intros (-> & s & o' & [= <- <-] & S).
Qed.

(** Ready means ready: [/ready] answers 200 exactly when the composition exists, the
    lifespan has started and everything nominal traffic needs is there, the loaded
    embedding model included when retrieval is on; otherwise it answers 503, with
    the name and one of two states of each component and nothing else. *)
Theorem ready_iff_serving dependencies started :
  ((exists body events, ready_endpoint string_type dependencies started = (Some (200, body), events))
   <-> started = true /\ exists settings o, dependencies = Some (settings, o) /\ serving settings o)
  /\ (forall status body events, ready_endpoint string_type dependencies started = (Some (status, body), events) ->
        (status = 200 \/ status = 503)
        /\ exists components, dget body (u "components") = Some (PDict components)
           /\ Forall (fun c => exists name, c.1 = KStr name /\ (c.2 = PStr (u "ok") \/ c.2 = PStr (u "unavailable"))) components
           /\ Forall (fun ev => str_in ev.1 EVENT_NAMES = true) events).
Proof.
  unfold ready_endpoint. destruct dependencies as [[settings o]|].
  2: { split; [split; [intros (? & ? & [=])|intros (_ & ? & ? & [=] & _)]|]. intros status body events [= <- <- <-].
       split; [by right|]. exists []. split; [reflexivity|]. split; by apply Forall_nil. }
  destruct (run_all (build_health_registry string_type settings o)) as [[results|] events] eqn:R; cbn [option_map].
  - destruct (run_all_passes _ _ _ R) as (P & _ & Ev). split.
    + rewrite (serving_exists settings o started). unfold build_ready_response. rewrite P. split.
      * intros (body & evs & E). destruct (forallb passes _), started; try discriminate E. done.
      * intros [-> ->]. by eexists _, _.
    + intros status body evs [= <- <- <-]. unfold build_ready_response. cbn [fst snd]. split; [destruct (_ && _); tauto|].
      eexists. split; [reflexivity|]. split; [|done]. apply Forall_app. split.
      * apply Forall_forall. intros c Hc. apply list_elem_of_In, in_map_iff in Hc as (r & <- & _). exists (ck_name r). split; [done|].
        cbn [snd]. destruct (ck_status r); [by left|by right].
      * apply Forall_singleton. exists (u "lifespan"). split; [done|]. cbn [snd]. destruct started; [by left|by right].
  - split; [|intros status body evs [=]]. split; [intros (? & ? & [=])|]. intros (_ & s & o' & [= <- <-] & S).
    apply serving_checks, run_all_total in S as [rs E]. congruence.
Qed.

End Ready.
